(* ===== verification/_CoqProject ===== *)
-Q . S2P
Prelude.v
KList.v
FrameQueue.v
DmxCore.v
CoreContract.v
DummyDriver.v
RdmFrame.v
UartClient.v
ClientSafety.v
ClientReceive.v
ClientContract.v
ClientReception.v
Bus.v
MappedBus.v
Pc16c550.v
Pl011.v
CuseDev.v
CuseContract.v
CuseProperties.v
CuseInfo.v
CuseDrivers.v
Uio.v
CusePwm.v
CuseLlgip.v
CuseLlgipReception.v
CuseLlgipContract.v
CuseUart.v
CuseLoop.v
Tasklets.v
RtUart.v
RtPc16c550.v
RtReception.v
RtTransmission.v
RtLines.v
RtPl011.v
RtPl011Reception.v
Pc16cx50.v
StreamUart.v
SuartDriver.v
SuartTransmit.v
SuartReceive.v
DmxSuart.v
DmxSuartContract.v
DmxSuartReception.v
DmxSuartFrames.v
CuseSuart.v
CuseSuartContract.v
RdmValues.v
RdmEncoder.v
RdmPacket.v
RdmDevice.v
RdmBus.v
RdmApi.v
RdmNetwork.v
RdmDiscovery.v
RdmSearch.v
RdmParameters.v
RdmInterface.v
CommandShell.v
RdmShell.v
RtuartDev.v
RtuartFactory.v
WaitQueue.v
UioArgs.v
Pointer.v
DmxConsole.v
DmxConsoleContract.v
