(* ===== verification/Prelude.v ===== *)
(** * dmx4linux2: a verification development

    dmx4linux2 ([src/README.md]) is a driver framework for DMX512 and RDM on
    Linux.  Lighting frames travel between applications, which read and write
    [/dev/dmx-card*], and the wire, which is a UART at 250 kbaud with the
    break as the start of a frame.  This library models the C code of the
    framework as functions on explicit states and proves what its parts
    promise to each other.  All paths below are relative to [src/src/].

    ** The parts and how they interact

    - _The kernel side_.  [drivers/dmx512/core/dmx512.c] keeps a pool of
      frames, the list of the devices and their ports, and implements the
      file operations.  A received frame is appended to the queue of its
      device and wakes a reader; a written frame is taken from the pool, filled
      and handed to the [send_frame] of the port.  The queues are
      [dmx512framequeue.c] over the rings of [list.h].
      [boards/dmx512_dummy.c] is a driver without hardware that wires two
      devices crosswise.
    - _The prototype in user space_.  [uio-testbench/dmx512/rtuart_dmx512_client.c]
      is the state machine that turns frames into octets, breaks and
      timeouts.  It is called back by a UART driver ([uart/pc16c550.c] or
      [uart/pl011.c]) from its interrupt handler and calls the operations of
      that driver; the driver reaches the registers of the chip over a bus
      ([uio-testbench/bus]).  [kernel.c] runs the deferred work (tasklets).
      [uio-testbench/rtuart] is the second generation of these drivers: its
      operations take buffers, and a client is told when one is full or sent.
    - _The simulation_.  [simulation/suart] is a UART behind two queues of
      events, octets and settings alike; a thread of
      [simulation/dmx512_suart.c] carries them out on a 16550
      ([simulation/uart/pc16cx50.c]), and the second half of that file makes
      events of frames and frames of events.
    - _The character devices in user space_.  [cuse-drivers/dmx512_cuse_dev.c]
      does for libfuse what the core does for the kernel, with one queue for
      every open file.  Behind it are drivers: a loop device, and cards
      whose ports are the stream UART of the simulation, the FIFOs of an llg-ip
      controller, the registers of a PWM controller (both devices of UIO), and
      serial ports.  [cuse-drivers/cuse/rtuart_dev.c] makes a character device
      of a UART of the second generation, which [rtuart_factory.c] creates.
    - _The RDM library_.  [librdm] has packets, a responder, a controller and
      a bus in software that connects them, or a controller with the file of a
      card; a shell runs commands on the controller.
    - _The console_.  [examples/chardev/dmxconsole] edits the channels of a
      card, fades between cues, and takes keys, mice and joysticks.

    ** The files

    - [Prelude]: outcomes (a value or a fault), the state monads, total
      correctness [wp] with its rules and the tactic [wp_step], integers at
      their width, arrays with their bounds.
    - [KList]: [list.h].  A store of nodes with [prev] and [next]; [is_list]
      relates a ring to a sequence.
    - [FrameQueue]: [dmx512frame.h] and [dmx512framequeue.c]; the queues
      refine lists ([fifo_refinement]) and locks are neither taken twice nor
      kept.
    - [DmxCore], [CoreContract]: [dmx512.c] and [dmx512_priv.h].  The first
      has the state ([dmx512_device], [dmx512_port], the global lists) and one
      definition per function, the second the contract: the registry of
      devices and ports against sequences, the pool, reading, writing,
      receiving, and unregistering.
    - [DummyDriver]: [dmx512_dummy.c]; the loop-back through core and driver.
    - [RdmFrame]: the RDM helpers of [rtuart_dmx512_client.c].
    - [UartClient], [ClientSafety], [ClientReceive], [ClientContract],
      [ClientReception]: the rest of [rtuart_dmx512_client.c].  The class
      [Uart] is the interface to [uart/rtuart_ops.h].  [ClientSafety] has the
      invariant (every frame has one owner, buffers stay in bounds),
      [ClientReceive] the callback that takes octets, [ClientContract] whole
      runs of events and transmission, [ClientReception] reception.
    - [Bus]: [rtuart_bus.c], [rtuart_bus_ops.h], [dummy_bus.c]; the class
      [Bus] is the interface to the drivers of the chips, and the dummy bus
      refines a register file.  [MappedBus]: [mmap32_bus.c], [uio32_bus.c].
    - [Pc16c550]: [uart/pc16c550.c], an instance of [Uart] over a [Bus], and
      its interrupt handler.  [Pl011]: [uart/pl011.c].
    - [Tasklets]: [kernel.c], [kernel.h].
    - [CuseDev], [CuseContract], [CuseProperties]: [dmx512_cuse_dev.c] and its
      header: contexts, requests, file descriptor watchers, the pool; the
      contract is a queue of frames and at most one waiting read for every
      open file.  [CuseLoop]: [dmx512_cuse_loop_device.c].
    - [CuseInfo]: strings, tuples and the information requests, which four
      drivers have in common.  [CuseDrivers]: what a driver can rely on, a
      frame that is written reaches it and one that it hands up is offered to
      the files.
    - [Uio]: [uio/uio.c] over the class [Device], and the registers of
      [uio_dmxcontroller.h].  [CusePwm]: [dmx512_cuse_pwm.c].  [CuseUart]:
      [dmx512_cuse_uart.c] over the class [Tty].
    - [CuseLlgip]: [dmx512_cuse_llgip.c]; [CuseLlgipReception] its receiver
      against whole segments of a line, [CuseLlgipContract] the way between
      files and FIFOs over the class [Controller].
    - [RtUart]: [rtuart/rtuart.c], [rtuart.h], [rtuart_priv.h]: UARTs by
      handle, buffers, callbacks and the dispatch to the table of a driver.
      [RtPc16c550]: [rtuart_pc16c550.c], [RtReception], [RtTransmission] and
      [RtLines] its theorems on reception (a receiver with a trigger level),
      transmission (a FIFO of sixteen octets) and the control lines.  [RtPl011]: [rtuart_pl011.c], [RtPl011Reception] its reception.
    - [Pc16cx50]: [simulation/uart/pc16cx50.c]; the classes [Chip] and
      [Receiver] say what a 16550 does with its registers.  Its transmitter
      holds up to 17 octets and sends them later, at any register access, with
      the settings of that moment; the line status tells whether it holds any.
    - [StreamUart]: [streamuart.c], [streamuart_event.c], over the class
      [Kfifo] of the fifos of the kernel.
    - [SuartDriver]: the first half of [dmx512_suart.c], its thread;
      [SuartTransmit] and [SuartReceive] its two directions.
    - [DmxSuart]: the second half, ports of DMX512; [DmxSuartContract] sends,
      [DmxSuartReception] receives, [DmxSuartFrames] composes both ends.
    - [CuseSuart]: [dmx512_cuse_suart.c] over the class [SuartPorts];
      [CuseSuartContract] composes it with the files and the ports.
    - [RdmValues], [RdmEncoder], [RdmPacket]: [librdm/rdmvalues.hpp], packets
      in buffers and their two classes.  [RdmDevice]: [rdmdevice.cpp], a
      responder.  [RdmBus]: [dmxbus.cpp].  [RdmApi]: [rdmapi.cpp], the
      controller.  [RdmNetwork] wires controller, bus and devices;
      [RdmDiscovery] and [RdmSearch] are about discovery, [RdmParameters]
      about requests to one device.  [RdmInterface]: packets over the file of
      a card, with the class [DmxFile].
    - [CommandShell]: [commandinterpreter.hpp].  [RdmShell]:
      [rdmcommands.cpp] on the controller.
    - [RtuartDev]: [cuse/rtuart_dev.c] and [rtuart_ioctl.h] over [RtUart] and
      [RtPc16c550].  [RtuartFactory]: [rtuart/rtuart_factory.c].
    - [WaitQueue]: [kernel_emulation/waitqueue].  [UioArgs]:
      [uio/parse_dmx_uio_args.c] and [iterate_uio] of [uio/uio.c].
    - [Pointer]: [examples/chardev/dmxconsole/pointer].  [DmxConsole]:
      [dmxconsole.cpp] and [dmx_adapter.hpp]; [DmxConsoleContract] its
      theorems.

    ** How the code is modelled

    A function that can fail is a [prog S A], [S -> outcome (A * S)]: it
    returns a value and the new state, or ends in a [fault] that says what the
    C code does wrong there (null or dangling pointer, array bounds, a lock
    taken twice, a shift that is too wide, an uninitialised variable).  A
    function that always returns is an [st S A].  Pointers to objects are
    positions in stores, a null pointer is [None]; objects that are linked
    or shared (frames, ports, contexts) are aliased as in the code.  Integers
    are [Z] with the wrap-around at the places where the C types have it.
    [u32] is [unsigned long] in [kernel.h], so it has 64 bits on an LP64
    machine; [u64] and the parameter [sz] of [MappedBus] say so.  Where the
    bus of the PL011 masks to 32 bits, the model does it at the same place.

    What is not in the repository is a parameter: the success of allocations
    and registrations, [copy_to_user], the thread that runs while a reader
    sleeps, the answers of libfuse, the driver behind a port, the chip behind a
    bus.  A theorem that needs something of them states it as a hypothesis
    and its witness instantiates it.

    ** What the theorems show

    - Refinement: frame queues are lists; the registry of devices is a
      sequence with its ports; the files of a character device are queues
      with at most one waiting read; the ring of the PL011 is a queue; the
      registers of the dummy bus are a register file; two mapped buses are
      the same bus; the events of the stream UART are a program that takes
      effect in its order; the receiver of the llg-ip card, which learns the
      size of frames, makes of a line what [segments_run] makes of its
      segments; the linked events of a UART's device are a queue that reads
      are answered from.
    - Whole paths: a frame that is written to one device of the dummy driver
      or of the loop device is read at the other, unchanged; a frame handed to
      the UART client is on the line octet by octet after a break; the octets
      of a frame on the line are delivered as that frame; frames that a port
      of the stream UART sends are given to the client of another port, once
      and in order, and go from file to file through the CUSE driver; a frame
      that is written to a PWM card is in its registers, one that is written
      to an llg-ip card in its FIFO, and its FIFOs are read to the files; a
      buffer that was started at a driver of the second
      generation is sent, or filled, octet by octet; discovery finds the
      devices on a bus whose UIDs are not neighbours, with at most 97 requests
      for each; an address that is set in the shell is the one that it gets; the
      rounds of a fade of the console go from the old cue to the new one.
    - Safety and invariants: a run of the UART client loses no frame, and
      fails exactly when the line gives octets for which the frame has no
      space left, which the client does not check; every read of a file is answered exactly once;
      the receiver of the stream UART stays within its frame whatever comes;
      the transmitter of the second generation never loses an octet; the keys
      of the console stay within its arrays, except those that send all
      channels, which read behind them.
    - Termination: the interrupt handler of the 16550 returns, if a
      client that asks for octets again has taken one; tasklets
      that are scheduled all run, in their order; the loop that fills a
      transmitter ends.  The interrupts of the stream UART do not, once the
      modem lines change ([modem_change_hangs]).
    - Round trips: line formats, discovery replies, port indexes, names,
      octets in events, control lines, RDM packets, command lines, reports of
      mice, numbers of devices, files of cues.  Bounds: an RDM packet fits its
      buffer.
    - Errors: what is refused and how; the theorems of kind [error] state the
      runs in which the code does not do what it means to, such as the buffer
      of a write that is gone before it is sent.

    ** Loops and fuel

    Loops over lists and counters are structural.  The loops whose end
    depends on the outside have fuel: [handle_irq_settles] proves that the
    interrupt handler needs two rounds at most for each thing that the chip
    has or gets while it runs;
    [list_for_each] needs as much as there are nodes in the store
    (each theorem about a ring has a bound in its hypotheses or uses the
    length of the sequence); [tasklets_run_in_order] has the fuel of the
    number of the tasklets, and [stale_link_makes_a_cycle] shows that no fuel
    is enough once a stale link closed a cycle.  In the stream UART the loops
    over events have the number of events that wait, the loop over interrupts
    one round for each octet, condition or report of an empty transmitter, and
    the polls of the line status as many as the chip is busy after an octet
    ([patience] of [Chip]).  The search of discovery has the number of its
    requests: one, and 97 = 2 * 48 + 1 for each device, since a UID has 48
    bits; a controller waits 1000 rounds for a reply, a file of commands runs
    others to a depth, and a line is split in as many steps as it has
    characters.  A fade has the readings of the clock, an interrupt thread the
    answers of [poll], a wait the rounds in which it is woken up, and the
    borrow of a difference of times two steps.  The drivers for CUSE read a FIFO with one more
    than the words in it, and wait for a transmitter as often as the
    controller is busy ([tx_busy]), or three times for a serial port.

    ** Not modelled

    - The session loop of libfuse ([fuse_multisession_loop], the set-up in
      [create_session] and [lowlevel_main] of [dmx512_cuse_dev.c]): it polls
      descriptors and hands requests to the handlers that are modelled.
    - The [main] functions of the drivers for CUSE behind their command
      lines.
    - The rest of [simulation]: the hardware model in C++ and Verilog, the
      ways to a real chip ([wbuart_16x50*.c]).  kfifo is third-party code.
      What other threads do while one sleeps is a parameter.
    - The programs of [librdm] ([rdmtool], [rdmshell] and others), which connect
      the modelled parts with readline and threads, and the small examples.
    - Of the console: the calls of curses, the loop around [select], signals,
      the remote control (lirc); of its mice: the settings of the serial line
      and the scale of the position.
    - Kernel modules of boards that are stubs, device trees and tests. *)
From stdpp Require Import base gmap list.
From Stdlib Require Import ZArith Lia.

#[global] Open Scope Z_scope.

(** ** Outcomes: what running a piece of C can end in *)

(** The ways a call can fail to return.  They are kept apart so that a
    theorem says which one happens. *)
Inductive fault : Type :=
  | NullPointer      (** a null pointer is dereferenced *)
  | Dangling         (** an object that was freed, or never allocated, is used *)
  | OutOfBounds      (** an array is accessed outside of its bounds *)
  | Deadlock         (** a spin lock that is held is taken again *)
  | NotLocked        (** a spin lock that is not held is released *)
  | ShiftRange       (** a shift by the width of the operand or more *)
  | DivideByZero
  | Uninitialised    (** a variable is read that was never written *)
  | Exited (code : Z) (** the code calls [exit] *)
  | OutOfFuel.       (** the loop did not end within the fuel it was given *)

#[export] Instance fault_eq_dec : EqDecision fault.
Proof. solve_decision. Defined.

Inductive outcome (A : Type) : Type :=
  | Done (a : A)
  | Fault (f : fault).
Arguments Done {A} a.
Arguments Fault {A} f.

#[export] Instance outcome_ret : MRet outcome := @Done.
#[export] Instance outcome_bind : MBind outcome :=
  fun A B k m => match m with Done a => k a | Fault f => Fault f end.

(** ** Programs over an explicit state *)

Definition prog (S A : Type) : Type := S -> outcome (A * S).

#[export] Instance prog_ret S : MRet (prog S) := fun A a s => Done (a, s).
#[export] Instance prog_bind S : MBind (prog S) :=
  fun A B k m s => match m s with Done (a, s') => k a s' | Fault f => Fault f end.

Definition get_state {S} : prog S S := fun s => Done (s, s).
Definition modify {S} (f : S -> S) : prog S unit := fun s => Done (tt, f s).
Definition gets {S A} (f : S -> A) : prog S A := fun s => Done (f s, s).
Definition raise {S A} (f : fault) : prog S A := fun _ => Fault f.
(** Dereference of a pointer that may be null. *)
Definition deref {S A} (o : option A) : prog S A :=
  match o with Some a => mret a | None => raise NullPointer end.
(** An object of the store that may have been freed. *)
Definition live {S A} (o : option A) : prog S A :=
  match o with Some a => mret a | None => raise Dangling end.
Definition lift_outcome {S A} (o : outcome A) : prog S A :=
  fun s => match o with Done a => Done (a, s) | Fault f => Fault f end.
Definition when {S} (b : bool) (m : prog S unit) : prog S unit :=
  if b then m else mret tt.

(** ** Operations that always return *)

(** The drivers of the chips return whatever happens: they are functions on
    the state, and programs when they are called by code that can fail. *)
Definition st (S A : Type) : Type := S -> A * S.
#[export] Instance st_ret S : MRet (st S) := fun A a s => (a, s).
#[export] Instance st_bind S : MBind (st S) :=
  fun A B k m s => let '(a, s') := m s in k a s'.
Definition st_gets {S A} (f : S -> A) : st S A := fun s => (f s, s).
Definition st_modify {S} (f : S -> S) : st S unit := fun s => (tt, f s).
(** An operation on a part of the state. *)
Definition on_part {W S A} (get : W -> S) (put : S -> W -> W) (m : st S A) : prog W A :=
  fun w => let '(a, s') := m (get w) in Done (a, put s' w).

(** ** Total correctness: the program returns and the postcondition holds *)

Definition wp {S A} (m : prog S A) (Q : A -> S -> Prop) (s : S) : Prop :=
  match m s with Done (a, s') => Q a s' | Fault _ => False end.

Section wp_rules.
Context {S : Type}.
Implicit Types s : S.

Lemma wp_run {A} (m : prog S A) Q s :
    wp m Q s <-> exists a s', m s = Done (a, s') /\ Q a s'.
Proof.
    unfold wp. destruct (m s) as [[a s']|f]; split; try done.
    - intros HQ. by exists a, s'.
    - intros (a' & s'' & [= -> ->] & HQ). done.
    - intros (? & ? & ? & ?). done.
Qed.

Lemma wp_ret {A} (a : A) Q s : Q a s -> wp (mret a) Q s.
Proof. done. Qed.

Lemma wp_bind {A B} (m : prog S A) (k : A -> prog S B) Q s :
    wp m (fun a s' => wp (k a) Q s') s -> wp (m ≫= k) Q s.
Proof.
    unfold wp, mbind, prog_bind. by destruct (m s) as [[a s']|f].
Qed.

Lemma bind_run {A B} (m : prog S A) (k : A -> prog S B) s x s' : m s = Done (x, s') -> (m ≫= k) s = k x s'.
Proof. unfold mbind, prog_bind. by intros ->. Qed.

Lemma wp_mono {A} (m : prog S A) (P Q : A -> S -> Prop) s :
    wp m P s -> (forall a s', P a s' -> Q a s') -> wp m Q s.
Proof. unfold wp. destruct (m s) as [[a s']|f]; auto. Qed.

Lemma wp_get Q s : Q s s -> wp get_state Q s.
Proof. done. Qed.
Lemma wp_gets {A} (f : S -> A) Q s : Q (f s) s -> wp (gets f) Q s.
Proof. done. Qed.
Lemma wp_modify (f : S -> S) Q s : Q tt (f s) -> wp (modify f) Q s.
Proof. done. Qed.
Lemma wp_deref {A} (o : option A) a Q s : o = Some a -> Q a s -> wp (deref o) Q s.
Proof. by intros ->. Qed.
Lemma wp_live {A} (o : option A) a Q s : o = Some a -> Q a s -> wp (live o) Q s.
Proof. by intros ->. Qed.
Lemma wp_when (b : bool) m Q s :
    (b = true -> wp m Q s) -> (b = false -> Q tt s) -> wp (when b m) Q s.
Proof. destruct b; cbn; eauto. Qed.
Lemma wp_if {A} (b : bool) (m1 m2 : prog S A) Q s :
    (b = true -> wp m1 Q s) -> (b = false -> wp m2 Q s) ->
    wp (if b then m1 else m2) Q s.
Proof. destruct b; eauto. Qed.
Lemma wp_on_part {W A} (get : W -> S) (put : S -> W -> W) (m : st S A) Q w :
    Q (m (get w)).1 (put (m (get w)).2 w) -> wp (on_part get put m) Q w.
Proof. unfold wp, on_part. by destruct (m (get w)). Qed.
Lemma wp_done {A} (m : prog S A) a s' Q s : m s = Done (a, s') -> Q a s' -> wp m Q s.
Proof. unfold wp. by intros ->. Qed.
End wp_rules.

(** One step of symbolic execution of a goal [wp m Q s]. *)
Ltac wp_step :=
  lazymatch goal with
  | |- wp (mret _) _ _ => apply wp_ret
  | |- wp (mbind _ _) _ _ => apply wp_bind
  | |- wp get_state _ _ => apply wp_get
  | |- wp (gets _) _ _ => apply wp_gets
  | |- wp (modify _) _ _ => apply wp_modify
  | |- wp (deref _) _ _ => eapply wp_deref; [by eauto|]
  | |- wp (live _) _ _ => eapply wp_live; [by eauto|]
  | |- wp (when _ _) _ _ => apply wp_when; intros
  | |- wp (if _ then _ else _) _ _ => apply wp_if; intros
  end; cbn beta iota.
Ltac wp_steps := repeat wp_step.

(** ** Machine integers and arrays *)

Definition u8 (z : Z) : Z := z mod 2 ^ 8.
Definition u16 (z : Z) : Z := z mod 2 ^ 16.
Definition u64 (z : Z) : Z := z mod 2 ^ 64.
(** The conversion to [int]. *)
Definition i32 (z : Z) : Z := (z + 2 ^ 31) mod 2 ^ 32 - 2 ^ 31.
(** A C condition on the bits of a mask. *)
Definition has (x m : Z) : bool := negb (Z.land x m =? 0).
Definition b2z (b : bool) : Z := if b then 1 else 0.

Definition load {A} (l : list A) (i : Z) : outcome A :=
  if 0 <=? i then match l !! Z.to_nat i with Some v => Done v | None => Fault OutOfBounds end
  else Fault OutOfBounds.
Definition store {A} (i : Z) (v : A) (l : list A) : outcome (list A) :=
  if (0 <=? i) && (i <? Z.of_nat (length l)) then Done (<[Z.to_nat i := v]> l) else Fault OutOfBounds.

(** [memcpy], [memset] and a [read] into a buffer: consecutive stores. *)
Fixpoint store_all {A} (i : Z) (vs : list A) (l : list A) : outcome (list A) :=
  match vs with
  | [] => Done l
  | v :: vs => l ← store i v l; store_all (i + 1) vs l
  end.
Fixpoint load_all {A} (i : Z) (n : nat) (l : list A) : outcome (list A) :=
  match n with
  | O => Done []
  | S n => v ← load l i; vs ← load_all (i + 1) n l; Done (v :: vs)
  end.

Section arrays.
Context {A : Type}.
Implicit Types l : list A.

Lemma load_nat l (i : nat) v : l !! i = Some v -> load l (Z.of_nat i) = Done v.
Proof.
  intros Hi. unfold load. rewrite (proj2 (Z.leb_le _ _)) by lia. by rewrite Nat2Z.id, Hi.
Qed.
Lemma load_beyond l (i : nat) : (length l <= i)%nat -> load l (Z.of_nat i) = Fault OutOfBounds.
Proof.
  intros Hi. unfold load. rewrite (proj2 (Z.leb_le _ _)) by lia. by rewrite Nat2Z.id, (proj2 (lookup_ge_None _ _)) by lia.
Qed.
Lemma store_nat l (i : nat) v : (i < length l)%nat -> store (Z.of_nat i) v l = Done (<[i := v]> l).
Proof.
  intros Hi. unfold store. rewrite (proj2 (Z.leb_le _ _)), (proj2 (Z.ltb_lt _ _)) by lia.
  by rewrite Nat2Z.id.
Qed.
Lemma store_all_nat l (i : nat) vs :
  (i + length vs <= length l)%nat ->
  store_all (Z.of_nat i) vs l = Done (take i l ++ vs ++ drop (i + length vs) l).
Proof.
  revert i l. induction vs as [|v vs IH]; intros i l Hi; cbn in *.
  - by rewrite Nat.add_0_r, take_drop.
  - rewrite store_nat by lia. cbn. replace (Z.of_nat i + 1) with (Z.of_nat (S i)) by lia.
    rewrite IH by (rewrite length_insert; lia). f_equal.
    rewrite take_S_r with (x := v) by (apply list_lookup_insert_eq; lia).
    rewrite take_insert_ge by lia. rewrite drop_insert_lt by lia.
    rewrite <- app_assoc. cbn. by rewrite Nat.add_succ_r.
Qed.
Lemma load_all_nat l (i n : nat) :
  (i + n <= length l)%nat -> load_all (Z.of_nat i) n l = Done (take n (drop i l)).
Proof.
  revert i. induction n as [|n IH]; intros i Hi; cbn; [by rewrite take_0|].
  destruct (lookup_lt_is_Some_2 l i) as [v Hv]; [lia|].
  rewrite (load_nat l i v) by done. cbn. replace (Z.of_nat i + 1) with (Z.of_nat (S i)) by lia.
  rewrite IH by lia. cbn. by rewrite (drop_S l v i).
Qed.
End arrays.

(** ** Octets: the values that [u8] keeps *)

Lemma i32_small z : - 2 ^ 31 <= z < 2 ^ 31 -> i32 z = z.
Proof. intros Hz. unfold i32. rewrite Z.mod_small; lia. Qed.
Lemma u8_u8 x : u8 (u8 x) = u8 x.
Proof. unfold u8. by rewrite Z.mod_mod. Qed.
Lemma u8_land x : u8 x = Z.land x (Z.ones 8).
Proof. unfold u8. by rewrite Z.land_ones. Qed.
Lemma octet_lor x y : u8 x = x -> u8 y = y -> u8 (Z.lor x y) = Z.lor x y.
Proof. rewrite !u8_land, Z.land_lor_distr_l. by intros -> ->. Qed.
Lemma octet_ldiff x y : u8 x = x -> u8 (Z.ldiff x y) = Z.ldiff x y.
Proof.
  rewrite !u8_land. intros Hx. rewrite <- Hx at 2. apply Z.bits_inj'. intros n Hn. rewrite !Z.land_spec, !Z.ldiff_spec, Z.land_spec. by destruct (Z.testbit x n), (Z.testbit y n), (Z.testbit (Z.ones 8) n).
Qed.
Lemma octet_land x y : u8 x = x -> u8 (Z.land x y) = Z.land x y.
Proof. rewrite !u8_land, <- Z.land_assoc, (Z.land_comm y), Z.land_assoc. by intros ->. Qed.
Lemma octet_bounds x : u8 x = x <-> 0 <= x < 256.
Proof.
  unfold u8. split; [intros <-; apply Z.mod_pos_bound; lia|intros; apply Z.mod_small; lia].
Qed.
(** A decidable property of octets is checked on all of them. *)
Lemma octet_cases (P : Z -> bool) : forallb P (Z.of_nat <$> seq 0 256) = true -> forall x, u8 x = x -> P x = true.
Proof.
  intros H x Hx%octet_bounds. rewrite forallb_forall in H. apply H. apply list_elem_of_In, list_elem_of_fmap.
  exists (Z.to_nat x). split; [lia|]. apply elem_of_seq. lia.
Qed.

(** ** Operations that always return: what holds afterwards *)

Definition after {S A} (m : st S A) (Q : A -> S -> Prop) (s : S) : Prop := Q (m s).1 (m s).2.
Lemma after_ret {S A} (a : A) (Q : A -> S -> Prop) s : Q a s -> after (mret a) Q s.
Proof. done. Qed.
Lemma after_bind {S A B} (m : st S A) (k : A -> st S B) Q s : after m (fun a => after (k a) Q) s -> after (m ≫= k) Q s.
Proof. unfold after, mbind, st_bind. by destruct (m s). Qed.
Lemma after_mono {S A} (m : st S A) (P Q : A -> S -> Prop) s : after m P s -> (forall a s', P a s' -> Q a s') -> after m Q s.
Proof. unfold after. auto. Qed.
Lemma after_gets {S A} (f : S -> A) (Q : A -> S -> Prop) s : Q (f s) s -> after (st_gets f) Q s.
Proof. done. Qed.
Lemma after_modify {S} (f : S -> S) (Q : unit -> S -> Prop) s : Q tt (f s) -> after (st_modify f) Q s.
Proof. done. Qed.
Lemma wp_part {W S A} (get : W -> S) (put : S -> W -> W) (m : st S A) Q w :
  after m (fun a s' => Q a (put s' w)) (get w) -> wp (on_part get put m) Q w.
Proof. apply wp_on_part. Qed.
