(* ===== verification/KList.v ===== *)
(** * The intrusive doubly linked list of the kernel ([list.h])

    [src/kernel_emulation/include/linux/list.h].  The list nodes are
    embedded in the objects they link, so a list is a ring of addresses in a
    store of nodes.  The definitions follow the assignments of the C code one
    by one, with the aliasing (in an empty list [prev] and [next] are the
    same node); the predicate [is_list] says which sequence of nodes a ring
    represents and the lemmas show what each operation does to it. *)
From stdpp Require Import base gmap list.
From S2P Require Import Prelude.

(** [struct list_head]; [None] is the null pointer of zeroed memory. *)
Record node (A : Type) := Node { next : option A; prev : option A }.
Arguments Node {A}.
Arguments next {A}.
Arguments prev {A}.

Section klist.
Context {A : Type} `{Countable A}.

(** The store of list nodes.  An address that is not in the store was never
    initialised or belongs to an object that was freed. *)
Abbreviation links := (gmap A (node A)).
Implicit Types (h : links) (p q x head : A) (l : list A).

Definition peek_next (p : A) (h : links) : outcome (option A) :=
  match h !! p with Some n => Done (next n) | None => Fault Dangling end.
Definition peek_prev (p : A) (h : links) : outcome (option A) :=
  match h !! p with Some n => Done (prev n) | None => Fault Dangling end.
(** [p->next] and [p->prev] where the result is dereferenced next. *)
Definition non_null (o : option A) : outcome A :=
  match o with Some a => Done a | None => Fault NullPointer end.
Definition get_next (p : A) (h : links) : outcome A :=
  o ← peek_next p h; non_null o.
Definition get_prev (p : A) (h : links) : outcome A :=
  o ← peek_prev p h; non_null o.
(** [p->next = v] *)
Definition set_next (p v : A) (h : links) : outcome links :=
  match h !! p with
  | Some n => Done (<[p := Node (Some v) (prev n)]> h)
  | None => Fault Dangling
  end.
(** [p->prev = v] *)
Definition set_prev (p v : A) (h : links) : outcome links :=
  match h !! p with
  | Some n => Done (<[p := Node (next n) (Some v)]> h)
  | None => Fault Dangling
  end.

(** [INIT_LIST_HEAD(ptr)]: the object at [ptr] is allocated by the caller,
    so this is also what puts its node in the store. *)
Definition INIT_LIST_HEAD (ptr : A) (h : links) : links :=
  <[ptr := Node (Some ptr) (Some ptr)]> h.
(** A node in memory [kzalloc] has just cleared. *)
Definition zeroed_node (ptr : A) (h : links) : links :=
  <[ptr := Node None None]> h.

Definition __list_add (add prv nxt : A) (h : links) : outcome links :=
  h ← set_prev nxt add h;
  h ← set_next add nxt h;
  h ← set_prev add prv h;
  set_next prv add h.

Definition list_add (add head : A) (h : links) : outcome links :=
  nxt ← get_next head h;
  __list_add add head nxt h.

Definition list_add_tail (add head : A) (h : links) : outcome links :=
  prv ← get_prev head h;
  __list_add add prv head h.

Definition __list_del (prv nxt : A) (h : links) : outcome links :=
  h ← set_prev nxt prv h;
  set_next prv nxt h.

Definition list_del (entry : A) (h : links) : outcome links :=
  prv ← get_prev entry h;
  nxt ← get_next entry h;
  __list_del prv nxt h.

Definition list_del_init (entry : A) (h : links) : outcome links :=
  h ← list_del entry h;
  Done (INIT_LIST_HEAD entry h).

Definition list_empty (head : A) (h : links) : outcome bool :=
  nxt ← peek_next head h;
  Done (bool_decide (nxt = Some head)).

Definition list_entry_is_last (entry head : A) (h : links) : outcome bool :=
  prv ← peek_prev head h;
  Done (bool_decide (prv = Some entry)).

Definition list_splice (lst head : A) (h : links) : outcome links :=
  first ← get_next lst h;
  if bool_decide (first = lst) then Done h else
  last ← get_prev lst h;
  at_ ← get_next head h;
  h ← set_prev first head h;
  h ← set_next head first h;
  h ← set_next last at_ h;
  set_prev at_ last h.

(** [list_for_each(pos, head)]: the addresses the loop visits. *)
Fixpoint list_for_each_from (fuel : nat) (pos head : A) (h : links) : outcome (list A) :=
  if bool_decide (pos = head) then Done [] else
  match fuel with
  | O => Fault OutOfFuel
  | S fuel' =>
      nxt ← get_next pos h;
      rest ← list_for_each_from fuel' nxt head h;
      Done (pos :: rest)
  end.

(** A ring has at most as many nodes as the store. *)
Definition list_for_each (head : A) (h : links) : outcome (list A) :=
  pos ← get_next head h;
  list_for_each_from (size h) pos head h.

(** ** The sequence a ring represents *)

(** The two fields of a node, as functions of the store. *)
Definition nx (h : links) (p : A) : option (option A) := next <$> h !! p.
Definition pv (h : links) (p : A) : option (option A) := prev <$> h !! p.

(** [p] and [q] are neighbours: [p->next = q] and [q->prev = p]. *)
Definition linked (h : links) (p q : A) : Prop :=
  nx h p = Some (Some q) /\ pv h q = Some (Some p).

Fixpoint chain (h : links) (p : A) (l : list A) (q : A) : Prop :=
  match l with
  | [] => linked h p q
  | x :: l' => linked h p x /\ chain h x l' q
  end.

Definition is_list (h : links) (head : A) (l : list A) : Prop :=
  NoDup (head :: l) /\ chain h head l head.

(** ** Reading and writing single links *)

Lemma get_next_nx h p q : nx h p = Some (Some q) -> get_next p h = Done q.
Proof.
  unfold nx, get_next, peek_next. intros Hn.
  destruct (h !! p) as [n|]; cbn in *; [|done]. by simplify_eq/=; rewrite Hn.
Qed.
Lemma get_prev_pv h p q : pv h q = Some (Some p) -> get_prev q h = Done p.
Proof.
  unfold pv, get_prev, peek_prev. intros Hn.
  destruct (h !! q) as [n|]; cbn in *; [|done]. by simplify_eq/=; rewrite Hn.
Qed.
Lemma peek_next_nx h p o : nx h p = Some o -> peek_next p h = Done o.
Proof. unfold nx, peek_next. intros ?. destruct (h !! p); by simplify_eq/=. Qed.
Lemma peek_prev_pv h p o : pv h p = Some o -> peek_prev p h = Done o.
Proof. unfold pv, peek_prev. intros ?. destruct (h !! p); by simplify_eq/=. Qed.
Lemma nx_dom h p v : nx h p = Some v -> p ∈ dom h.
Proof. unfold nx. intros E. apply elem_of_dom. destruct (h !! p); by eauto. Qed.
Lemma pv_dom h p v : pv h p = Some v -> p ∈ dom h.
Proof. unfold pv. intros E. apply elem_of_dom. destruct (h !! p); by eauto. Qed.

Lemma node_ext h h' p : nx h p = nx h' p -> pv h p = pv h' p -> h !! p = h' !! p.
Proof.
  unfold nx, pv. destruct (h !! p) as [[]|], (h' !! p) as [[]|]; naive_solver.
Qed.

(** What an update of the links of some nodes leaves as it was. *)
Definition links_upd h h' (N P : A -> option A) : Prop :=
  (forall q, nx h' q = match N q with Some v => Some (Some v) | None => nx h q end) /\
  (forall q, pv h' q = match P q with Some v => Some (Some v) | None => pv h q end) /\
  dom h' = dom h.

Lemma set_next_upd h p v :
  p ∈ dom h ->
  exists h', set_next p v h = Done h' /\
    links_upd h h' (fun q => if decide (q = p) then Some v else None) (fun _ => None).
Proof.
  intros [n Hn]%elem_of_dom. unfold set_next. rewrite Hn. eexists; split; [done|].
  unfold links_upd, nx, pv. split_and!.
  - intros q. case_decide; subst; [by rewrite lookup_insert_eq|by rewrite lookup_insert_ne].
  - intros q. destruct (decide (q = p)) as [->|];
      [by rewrite lookup_insert_eq, Hn|by rewrite lookup_insert_ne].
  - rewrite dom_insert_L. apply elem_of_dom_2 in Hn. set_solver.
Qed.
Lemma set_prev_upd h p v :
  p ∈ dom h ->
  exists h', set_prev p v h = Done h' /\
    links_upd h h' (fun _ => None) (fun q => if decide (q = p) then Some v else None).
Proof.
  intros [n Hn]%elem_of_dom. unfold set_prev. rewrite Hn. eexists; split; [done|].
  unfold links_upd, nx, pv. split_and!.
  - intros q. destruct (decide (q = p)) as [->|];
      [by rewrite lookup_insert_eq, Hn|by rewrite lookup_insert_ne].
  - intros q. case_decide; subst; [by rewrite lookup_insert_eq|by rewrite lookup_insert_ne].
  - rewrite dom_insert_L. apply elem_of_dom_2 in Hn. set_solver.
Qed.

Lemma __list_add_upd h add prv nxt :
  add ∈ dom h -> prv ∈ dom h -> nxt ∈ dom h -> add <> nxt -> add <> prv ->
  exists h', __list_add add prv nxt h = Done h' /\
    links_upd h h'
      (fun q => if decide (q = prv) then Some add else if decide (q = add) then Some nxt else None)
      (fun q => if decide (q = nxt) then Some add else if decide (q = add) then Some prv else None).
Proof.
  intros Ha Hp Hn Hne Hne'. unfold __list_add.
  destruct (set_prev_upd h nxt add Hn) as (h1 & -> & N1 & P1 & D1); cbn.
  destruct (set_next_upd h1 add nxt) as (h2 & -> & N2 & P2 & D2); [by rewrite D1|]; cbn.
  destruct (set_prev_upd h2 add prv) as (h3 & -> & N3 & P3 & D3); [by rewrite D2, D1|]; cbn.
  destruct (set_next_upd h3 prv add) as (h4 & -> & N4 & P4 & D4); [by rewrite D3, D2, D1|].
  exists h4. split; [done|]. split_and!; [| |by rewrite D4, D3, D2, D1].
  - intros q. rewrite N4, N3, N2, N1. repeat case_decide; done.
  - intros q. rewrite P4, P3, P2, P1. repeat case_decide; subst; done.
Qed.

Lemma __list_del_upd h prv nxt :
  prv ∈ dom h -> nxt ∈ dom h ->
  exists h', __list_del prv nxt h = Done h' /\
    links_upd h h' (fun q => if decide (q = prv) then Some nxt else None)
                   (fun q => if decide (q = nxt) then Some prv else None).
Proof.
  intros Hp Hn. unfold __list_del.
  destruct (set_prev_upd h nxt prv Hn) as (h1 & -> & N1 & P1 & D1); cbn.
  destruct (set_next_upd h1 prv nxt) as (h2 & -> & N2 & P2 & D2); [by rewrite D1|].
  exists h2. split; [done|]. split_and!; [| |by rewrite D2, D1].
  - intros q. rewrite N2, N1. repeat case_decide; done.
  - intros q. rewrite P2, P1. repeat case_decide; done.
Qed.

(** ** Chains *)

Lemma chain_app h p l1 x l2 q :
  chain h p (l1 ++ x :: l2) q <-> chain h p l1 x /\ chain h x l2 q.
Proof. revert p. induction l1 as [|y l1 IH]; intros p; cbn; [done|]. rewrite IH. tauto. Qed.

Lemma chain_snoc h p l x q : chain h p (l ++ [x]) q <-> chain h p l x /\ linked h x q.
Proof. apply chain_app. Qed.

Lemma chain_last h p l q : chain h p l q -> pv h q = Some (Some (default p (last l))).
Proof.
  destruct l as [|x l _] using rev_ind; [by intros [_ ?]|].
  rewrite chain_snoc, last_snoc. by intros [_ [_ ?]].
Qed.
Lemma chain_first h p l q : chain h p l q -> nx h p = Some (Some (default q (head l))).
Proof. destruct l; cbn; [by intros [? _]|by intros [[? _] _]]. Qed.

Lemma chain_dom h p l q : chain h p l q -> forall x, x ∈ p :: l ++ [q] -> x ∈ dom h.
Proof.
  revert p. induction l as [|y l IH]; intros p Hc x Hx.
  - destruct Hc as [Hn%nx_dom Hp%pv_dom]. set_solver.
  - destruct Hc as [[Hn%nx_dom _] Hc]. specialize (IH y Hc x). set_solver.
Qed.

(** A chain only depends on the [next] of its nodes but the end and on the
    [prev] of its nodes but the start. *)
Lemma chain_frame h h' p l q :
  chain h p l q ->
  (forall x, x ∈ p :: l -> nx h' x = nx h x) ->
  (forall x, x ∈ l ++ [q] -> pv h' x = pv h x) ->
  chain h' p l q.
Proof.
  revert p. induction l as [|y l IH]; intros p Hc Hn Hp.
  - destruct Hc as [? ?]. split; [rewrite Hn|rewrite Hp]; done || set_solver.
  - destruct Hc as [[? ?] ?]. split; [split|].
    + rewrite Hn by set_solver. done.
    + rewrite Hp by set_solver. done.
    + apply IH; [done| |]; intros; [apply Hn|apply Hp]; set_solver.
Qed.

(** The end of a chain moved to another node. *)
Lemma chain_relink_end h h' p l q y :
  chain h p l q -> NoDup (p :: l) ->
  (forall x, x ∈ p :: l -> x <> default p (last l) -> nx h' x = nx h x) ->
  (forall x, x ∈ l -> pv h' x = pv h x) ->
  linked h' (default p (last l)) y ->
  chain h' p l y.
Proof.
  destruct l as [|z l _] using rev_ind; cbn; [done|].
  rewrite last_snoc. cbn. rewrite !chain_snoc. intros [Hc Hl] Hnd Hn Hp Hl'.
  split; [|done]. apply NoDup_cons in Hnd as [Hp' [_ [Hz _]]%NoDup_app].
  eapply chain_frame; [done| |intros; apply Hp; set_solver].
  intros x Hx. apply Hn; [set_solver|]. intros ->. set_solver.
Qed.

Lemma chain_relink_start h h' p y l q :
  chain h p l q ->
  (forall x, x ∈ l -> nx h' x = nx h x) ->
  (forall x, x ∈ l ++ [q] -> x <> default q (head l) -> pv h' x = pv h x) ->
  NoDup (l ++ [q]) ->
  linked h' y (default q (head l)) ->
  chain h' y l q.
Proof.
  destruct l as [|z l]; cbn; [done|]. intros [_ Hc] Hn Hp [Hz _]%NoDup_cons Hl.
  split; [done|]. eapply chain_frame; [done|done|].
  intros x Hx. apply Hp; [set_solver|]. intros ->. set_solver.
Qed.

(** ** The operations on rings *)

Lemma is_list_NoDup h hd l : is_list h hd l -> NoDup (hd :: l).
Proof. by intros [? _]. Qed.
Lemma is_list_dom h hd l x : is_list h hd l -> x ∈ hd :: l -> x ∈ dom h.
Proof. intros [_ Hc] Hx. eapply chain_dom; [done|]. set_solver. Qed.

(** A ring is where it was in every store that agrees on its nodes. *)
Lemma is_list_frame h h' hd l :
  is_list h hd l -> (forall x, x ∈ hd :: l -> h' !! x = h !! x) -> is_list h' hd l.
Proof.
  intros [Hnd Hc] Hx. split; [done|].
  eapply chain_frame; [done| |]; intros x Hin; unfold nx, pv; rewrite Hx; set_solver.
Qed.

Lemma INIT_LIST_HEAD_spec h hd : is_list (INIT_LIST_HEAD hd h) hd [].
Proof.
  split; [apply NoDup_singleton|]. unfold chain, linked, nx, pv, INIT_LIST_HEAD.
  by rewrite lookup_insert_eq.
Qed.

Lemma links_upd_other h h' N P q :
  links_upd h h' N P -> N q = None -> P q = None -> h' !! q = h !! q.
Proof.
  intros (Hn & Hp & _) Nq Pq. apply node_ext; [by rewrite Hn, Nq|by rewrite Hp, Pq].
Qed.

Lemma default_last_in (p : A) l : default p (last l) ∈ p :: l.
Proof. destruct l using rev_ind; cbn; rewrite ?last_snoc; cbn; set_solver. Qed.
Lemma default_head_in (p : A) l : default p (head l) ∈ p :: l.
Proof. destruct l; cbn; set_solver. Qed.

(** Case analysis on the node asked for, after an update of the links. *)
Ltac nodes :=
  repeat match goal with
  | H : links_upd _ _ _ _ |- _ => clear H
  | H : chain _ _ _ _ |- _ => clear H
  | H : forall q, nx _ q = _ |- _ => clear H
  | H : forall q, pv _ q = _ |- _ => clear H
  | H : forall q, _ -> q ∈ dom _ |- _ => clear H
  | H : dom _ = dom _ |- _ => clear H
  | H : pv _ _ = _ |- _ => clear H
  | H : nx _ _ = _ |- _ => clear H
  end;
  repeat case_decide; subst; try done; set_solver.

Lemma list_add_tail_spec h add hd l :
  is_list h hd l -> add ∈ dom h -> add ∉ hd :: l ->
  exists h', list_add_tail add hd h = Done h' /\ is_list h' hd (l ++ [add]) /\
    (forall q, q ∉ add :: hd :: l -> h' !! q = h !! q) /\ dom h' = dom h.
Proof.
  intros [Hnd Hc] Had Hfresh. unfold list_add_tail.
  pose proof (chain_last _ _ _ _ Hc) as Hlast.
  pose proof (default_last_in hd l) as Hin.
  assert (forall x, x ∈ hd :: l -> x ∈ dom h) as Hdom by (intros; by eapply is_list_dom).
  rewrite (get_prev_pv _ _ _ Hlast). cbn.
  edestruct (__list_add_upd h add (default hd (last l)) hd) as (h' & -> & Hupd);
    [done|apply Hdom; set_solver..|set_solver|set_solver|].
  pose proof Hupd as (Hn & Hp & Hd). exists h'. split; [done|]. split_and!; [|by intros q Hq; eapply links_upd_other; [done|..]; cbn; nodes|done].
  split.
  - rewrite app_comm_cons. apply NoDup_app. split_and!; [done| |apply NoDup_singleton].
    set_solver.
  - rewrite chain_snoc. split.
    + eapply chain_relink_end; [done|done| | |].
      * intros x Hx Hne. rewrite Hn. nodes.
      * intros x Hx. rewrite Hp. apply NoDup_cons in Hnd as [Hnd _].
        nodes.
      * split; [rewrite Hn|rewrite Hp]; nodes.
    + split; [rewrite Hn|rewrite Hp]; nodes.
Qed.

Lemma list_add_spec h add hd l :
  is_list h hd l -> add ∈ dom h -> add ∉ hd :: l ->
  exists h', list_add add hd h = Done h' /\ is_list h' hd (add :: l) /\
    (forall q, q ∉ add :: hd :: l -> h' !! q = h !! q) /\ dom h' = dom h.
Proof.
  intros [Hnd Hc] Had Hfresh. unfold list_add.
  pose proof (chain_first _ _ _ _ Hc) as Hfirst.
  pose proof (default_head_in hd l) as Hin.
  assert (forall x, x ∈ hd :: l -> x ∈ dom h) as Hdom by (intros; by eapply is_list_dom).
  rewrite (get_next_nx _ _ _ Hfirst). cbn.
  edestruct (__list_add_upd h add hd (default hd (head l))) as (h' & -> & Hupd);
    [done|apply Hdom; set_solver..|set_solver|set_solver|].
  pose proof Hupd as (Hn & Hp & Hd). exists h'. split; [done|]. split_and!; [|by intros q Hq; eapply links_upd_other; [done|..]; cbn; nodes|done].
  apply NoDup_cons in Hnd as [Hhd Hnd].
  split.
  - apply NoDup_cons; split; [set_solver|]. apply NoDup_cons; set_solver.
  - split.
    + split; [rewrite Hn|rewrite Hp]; nodes.
    + eapply chain_relink_start; [done| | | |].
      * intros x Hx. rewrite Hn. nodes.
      * intros x Hx Hne. rewrite Hp. nodes.
      * apply NoDup_app. split_and!; [done|set_solver|apply NoDup_singleton].
      * split; [rewrite Hn|rewrite Hp]; nodes.
Qed.

Lemma list_del_spec h x hd l1 l2 :
  is_list h hd (l1 ++ x :: l2) ->
  exists h', list_del x h = Done h' /\ is_list h' hd (l1 ++ l2) /\
    (forall q, q ∉ hd :: l1 ++ l2 -> h' !! q = h !! q) /\ dom h' = dom h.
Proof.
  intros [Hnd Hc]. pose proof Hc as [Hc1 Hc2]%chain_app. unfold list_del.
  assert (forall y, y ∈ hd :: l1 ++ l2 -> y ∈ dom h) as Hdom.
  { intros y Hy. eapply is_list_dom; [by split|]. set_solver. }
  pose proof (chain_last _ _ _ _ Hc1) as Hlast.
  pose proof (chain_first _ _ _ _ Hc2) as Hfirst.
  pose proof (default_last_in hd l1) as Hin1. pose proof (default_head_in hd l2) as Hin2.
  rewrite (get_prev_pv _ _ _ Hlast). cbn. rewrite (get_next_nx _ _ _ Hfirst). cbn.
  destruct (__list_del_upd h (default hd (last l1)) (default hd (head l2)))
    as (h' & -> & Hupd); [apply Hdom; set_solver..|].
  pose proof Hupd as (Hn & Hp & Hd). exists h'. split; [done|].
  split_and!; [|by intros q Hq; eapply links_upd_other; [done|..]; cbn; nodes|done].
  apply NoDup_cons in Hnd as [Hhd [Hnd1 [Hnd12 [Hx Hnd2]%NoDup_cons]]%NoDup_app].
  split.
  { apply NoDup_cons. split; [set_solver|]. apply NoDup_app. set_solver. }
  destruct l2 as [|y l2]; cbn in *.
  - rewrite app_nil_r. eapply chain_relink_end; [done|apply NoDup_cons; set_solver| | |].
    + intros z Hz Hne. rewrite Hn. nodes.
    + intros z Hz. rewrite Hp. nodes.
    + split; [rewrite Hn|rewrite Hp]; nodes.
  - rewrite chain_app. destruct Hc2 as [_ Hc2]. split.
    + eapply chain_relink_end; [done|apply NoDup_cons; set_solver| | |].
      * intros z Hz Hne. rewrite Hn. nodes.
      * intros z Hz. rewrite Hp. nodes.
      * split; [rewrite Hn|rewrite Hp]; nodes.
    + apply NoDup_cons in Hnd2 as [Hy Hnd2]. eapply chain_frame; [done| |].
      * intros z Hz. rewrite Hn. rewrite decide_False; [done|].
        intros ->. apply elem_of_cons in Hin1 as [Hin1|Hin1]; [|by eapply Hnd12; [done|set_solver]].
        rewrite Hin1 in Hz. set_solver.
      * intros z Hz. rewrite Hp. rewrite decide_False; [done|].
        intros ->. apply elem_of_app in Hz. set_solver.
Qed.

(** The head of a ring: what [list_empty] and reading [head->next] give. *)
Lemma list_empty_spec h hd l :
  is_list h hd l -> list_empty hd h = Done (bool_decide (l = [])).
Proof.
  intros [Hnd Hc]. unfold list_empty. pose proof (chain_first _ _ _ _ Hc) as Hfirst.
  rewrite (peek_next_nx _ _ _ Hfirst). cbn. f_equal.
  destruct l as [|x l]; cbn; [by rewrite !bool_decide_true|].
  rewrite !bool_decide_false; [done..|]. intros [= ->]. apply NoDup_cons in Hnd. set_solver.
Qed.

Lemma list_first_spec h hd x l : is_list h hd (x :: l) -> get_next hd h = Done x.
Proof. intros [_ Hc]. apply get_next_nx. apply (chain_first _ _ _ _ Hc). Qed.

Lemma list_entry_is_last_spec h hd l x :
  is_list h hd l -> list_entry_is_last x hd h = Done (bool_decide (default hd (last l) = x)).
Proof.
  intros [_ Hc]. unfold list_entry_is_last.
  rewrite (peek_prev_pv _ _ _ (chain_last _ _ _ _ Hc)). cbn. f_equal.
  apply bool_decide_ext. naive_solver.
Qed.

Lemma list_for_each_from_spec h hd l p fuel :
  chain h p l hd -> hd ∉ l -> (length l <= fuel)%nat ->
  (nxt ← get_next p h; list_for_each_from fuel nxt hd h) = Done l.
Proof.
  revert p fuel. induction l as [|x l IH]; intros p fuel Hc Hhd Hf;
    rewrite (get_next_nx _ _ _ (chain_first _ _ _ _ Hc)); cbn.
  - destruct fuel; cbn; by rewrite bool_decide_true.
  - destruct Hc as [_ Hc]. destruct fuel as [|fuel]; cbn in *; [lia|].
    rewrite bool_decide_false by set_solver.
    assert (hd ∉ l) as Hhd' by set_solver.
    specialize (IH x fuel Hc Hhd' ltac:(lia)). unfold mbind, outcome_bind in *.
    destruct (get_next x h) as [nxt|f]; [by rewrite IH|done].
Qed.

(** Every node of a ring has a successor in the ring. *)
Lemma chain_next h p l q x :
  chain h p l q -> x ∈ p :: l -> exists y, get_next x h = Done y /\ y ∈ l ++ [q].
Proof.
  revert p. induction l as [|z l IH]; intros p Hc Hx.
  - apply list_elem_of_singleton in Hx as ->. exists q. split; [|set_solver].
    apply get_next_nx, Hc.
  - destruct Hc as [[Hn _] Hc]. apply elem_of_cons in Hx as [->|Hx].
    + exists z. split; [by apply get_next_nx|set_solver].
    + destruct (IH z Hc Hx) as (y & ? & ?). exists y. split; [done|set_solver].
Qed.
Lemma is_list_next h hd l x :
  is_list h hd l -> x ∈ hd :: l -> exists y, get_next x h = Done y /\ y ∈ hd :: l.
Proof.
  intros [_ Hc] Hx. destruct (chain_next _ _ _ _ _ Hc Hx) as (y & ? & ?).
  exists y. split; [done|set_solver].
Qed.

Lemma is_list_length h hd l : is_list h hd l -> (length l < size h)%nat.
Proof.
  intros Hl. pose proof (is_list_NoDup _ _ _ Hl) as Hnd.
  assert (size (list_to_set (hd :: l) :> gset A) <= size (dom h))%nat as Hs.
  { apply subseteq_size. intros x Hx%elem_of_list_to_set. by eapply is_list_dom. }
  rewrite size_list_to_set, size_dom in Hs by done. cbn in Hs. lia.
Qed.

(** The loop visits the nodes of the ring in order and ends. *)
Lemma list_for_each_spec h hd l : is_list h hd l -> list_for_each hd h = Done l.
Proof.
  intros Hl. pose proof (is_list_length _ _ _ Hl). destruct Hl as [Hnd Hc].
  apply list_for_each_from_spec; [done|by apply NoDup_cons in Hnd as []|lia].
Qed.

Lemma list_del_init_spec h x hd l1 l2 :
  is_list h hd (l1 ++ x :: l2) ->
  exists h', list_del_init x h = Done h' /\ is_list h' hd (l1 ++ l2) /\ is_list h' x [].
Proof.
  intros Hl. destruct (list_del_spec _ _ _ _ _ Hl) as (h1 & E & Hl1 & _ & _).
  unfold list_del_init. rewrite E. cbn. eexists; split; [done|]. split.
  - eapply is_list_frame; [done|]. intros q Hq. unfold INIT_LIST_HEAD.
    apply lookup_insert_ne. intros <-. destruct Hl as [Hnd _].
    apply NoDup_cons in Hnd as [Hhd (_ & Hd & [Hx _]%NoDup_cons)%NoDup_app]. set_solver.
  - apply INIT_LIST_HEAD_spec.
Qed.
End klist.

Create HintDb klist discriminated.
#[export] Hint Resolve is_list_dom is_list_NoDup : klist.
