(* ===== verification/FrameQueue.v ===== *)
(** * Frames and frame queues

    [struct dmx512frame] ([src/include/linux/dmx512/dmx512frame.h]) and the
    queues of frames of [src/drivers/dmx512/core/dmx512framequeue.c].  A
    queue is a ring of [list.h]; its lock is modelled by the set of the locks
    that are held, so that taking a lock twice is a fault.  [fq_inv] relates
    the memory to the abstract queues, finite maps from queues to lists of
    frames, and the [_spec] lemmas show that every operation implements the
    corresponding one of lists. *)
From stdpp Require Import base countable gmap list.
From S2P Require Import Prelude KList.

(** ** Frames *)

Definition DMX512_FLAG_NOBREAK : Z := Z.shiftl 1 0.
Definition DMX512_FLAG_IS_RDM : Z := Z.shiftl 1 6.
Definition DMX512_FLAG_IS_RDM_DISC : Z := Z.shiftl 1 7.
Definition DMX512_FLAGS_IS_TRANSMIT_FRAME : Z := Z.shiftl 1 15.

(** [struct dmx512frame]: [data] is the start code and the 512 slots (the
    union of [startcode]/[payload] with [data]). *)
Record dmx512frame := Frame {
  f_port : Z;
  f_flags : Z;
  f_breaksize : Z;
  f_payload_size : Z;
  f_data : list Z;
  f_timestamp : Z * Z;
  f_back_timestamp : Z * Z }.

Definition DATA_SIZE : nat := 513.
Definition zero_frame : dmx512frame := Frame 0 0 0 0 (replicate DATA_SIZE 0) (0, 0) (0, 0).

Definition with_port (v : Z) (f : dmx512frame) : dmx512frame :=
  Frame v (f_flags f) (f_breaksize f) (f_payload_size f) (f_data f) (f_timestamp f) (f_back_timestamp f).
Definition with_flags (v : Z) (f : dmx512frame) : dmx512frame :=
  Frame (f_port f) v (f_breaksize f) (f_payload_size f) (f_data f) (f_timestamp f) (f_back_timestamp f).
Definition with_payload_size (v : Z) (f : dmx512frame) : dmx512frame :=
  Frame (f_port f) (f_flags f) (f_breaksize f) v (f_data f) (f_timestamp f) (f_back_timestamp f).
Definition with_data (v : list Z) (f : dmx512frame) : dmx512frame :=
  Frame (f_port f) (f_flags f) (f_breaksize f) (f_payload_size f) v (f_timestamp f) (f_back_timestamp f).

(** ** Addresses *)

(** The queues of the program: the pool of free frames, the receive queue of
    a device and the queue of a context of the cuse driver. *)
Inductive queue_id := FreeQueue | DevQueue (d : nat) | CtxQueue (c : nat).

(** The addresses of the list nodes.  [head] is the first member of a queue
    entry, so the address of an entry is the address of its node and the
    casts between the two are the constructor [EntryHead]. *)
Inductive addr :=
  | QueueHead (q : queue_id)     (* &q->head *)
  | EntryHead (e : nat)          (* &e->head *)
  | DeviceItem (d : nat)         (* &dev->devicelist_item *)
  | DevicePorts (d : nat)        (* &dev->ports *)
  | PortDeviceItem (p : nat)     (* &port->device_item *)
  | PortListItem (p : nat)       (* &port->portlist_item *)
  | AllDevices                   (* &dmx512_devices *)
  | AllPorts.                    (* &dmx512_ports *)

#[export] Instance queue_id_eq_dec : EqDecision queue_id.
Proof. solve_decision. Defined.
#[export] Instance addr_eq_dec : EqDecision addr.
Proof. solve_decision. Defined.
#[export] Instance queue_id_countable : Countable queue_id.
Proof.
  refine (inj_countable'
    (fun q => match q with FreeQueue => None | DevQueue d => Some (inl d) | CtxQueue c => Some (inr c) end)
    (fun x => match x with None => FreeQueue | Some (inl d) => DevQueue d | Some (inr c) => CtxQueue c end) _).
  by intros [].
Defined.
#[export] Instance addr_countable : Countable addr.
Proof.
  refine (inj_countable'
    (fun a => match a with
      | QueueHead q => inl q | EntryHead e => inr (0%nat, e) | DeviceItem d => inr (1%nat, d)
      | DevicePorts d => inr (2%nat, d) | PortDeviceItem p => inr (3%nat, p)
      | PortListItem p => inr (4%nat, p) | AllDevices => inr (5%nat, 0%nat)
      | AllPorts => inr (6%nat, 0%nat) end)
    (fun x => match x with
      | inl q => QueueHead q | inr (0%nat, e) => EntryHead e | inr (1%nat, d) => DeviceItem d
      | inr (2%nat, d) => DevicePorts d | inr (3%nat, p) => PortDeviceItem p
      | inr (4%nat, p) => PortListItem p | inr (5%nat, _) => AllDevices
      | inr (_, _) => AllPorts end) _).
  by intros [].
Defined.
#[export] Instance EntryHead_inj : Inj (=) (=) EntryHead.
Proof. by intros ?? [=]. Qed.

(** ** Memory *)

(** The list nodes, the frames that are allocated, the queue locks that are
    held and the number of objects allocated so far (the name of the next). *)
Record kmem := KMem {
  m_links : gmap addr (node addr);
  m_frames : gmap nat dmx512frame;
  m_locks : gset queue_id;
  m_next : nat }.

Definition kmem_init : kmem := KMem ∅ ∅ ∅ 0.

Definition with_links (h : gmap addr (node addr)) (m : kmem) : kmem :=
  KMem h (m_frames m) (m_locks m) (m_next m).
Definition with_frames (g : gmap nat dmx512frame) (m : kmem) : kmem :=
  KMem (m_links m) g (m_locks m) (m_next m).
Definition with_locks (l : gset queue_id) (m : kmem) : kmem :=
  KMem (m_links m) (m_frames m) l (m_next m).

(** A list operation run on the nodes of the memory. *)
Definition on_links (f : gmap addr (node addr) -> outcome (gmap addr (node addr))) : prog kmem unit :=
  fun m => match f (m_links m) with Done h => Done (tt, with_links h m) | Fault e => Fault e end.
Definition ask_links {A} (f : gmap addr (node addr) -> outcome A) : prog kmem A :=
  fun m => match f (m_links m) with Done a => Done (a, m) | Fault e => Fault e end.

Definition spin_lock_init (q : queue_id) : prog kmem unit :=
  modify (fun m => with_locks (m_locks m ∖ {[q]}) m).
Definition spin_lock (q : queue_id) : prog kmem unit := fun m =>
  if bool_decide (q ∈ m_locks m) then Fault Deadlock
  else Done (tt, with_locks ({[q]} ∪ m_locks m) m).
Definition spin_unlock (q : queue_id) : prog kmem unit := fun m =>
  if bool_decide (q ∈ m_locks m) then Done (tt, with_locks (m_locks m ∖ {[q]}) m)
  else Fault NotLocked.

(** The cast of a node to the entry it is the first member of. *)
Definition to_entry (a : addr) : outcome nat :=
  match a with EntryHead e => Done e | _ => Fault Dangling end.

(** ** [dmx512framequeue.c] *)

Section framequeue.
(** Which of the calls of [kzalloc] succeed. *)
Context (kzalloc_ok : nat -> bool).

Definition dmx512_framequeue_init (q : option queue_id) : prog kmem unit :=
  match q with
  | None => mret tt
  | Some q =>
      on_links (fun h => Done (INIT_LIST_HEAD (QueueHead q) h)) ;;
      spin_lock_init q
  end.

Definition dmx512_framequeue_entry_alloc : prog kmem (option nat) := fun m =>
  let e := m_next m in
  if kzalloc_ok e then
    Done (Some e, KMem (INIT_LIST_HEAD (EntryHead e) (m_links m))
                       (<[e := zero_frame]> (m_frames m)) (m_locks m) (S e))
  else Done (None, KMem (m_links m) (m_frames m) (m_locks m) (S e)).

(** [kfree] of an entry: it and its list node are gone. *)
Definition dmx512_framequeue_entry_free (e : option nat) : prog kmem unit :=
  match e with
  | None => mret tt
  | Some e => fun m =>
      match m_frames m !! e with
      | None => Fault Dangling
      | Some _ => Done (tt, KMem (delete (EntryHead e) (m_links m))
                                 (delete e (m_frames m)) (m_locks m) (m_next m))
      end
  end.

Definition _dmx512_framequeue_get (q : option queue_id) : prog kmem (option nat) :=
  match q with
  | None => mret None
  | Some q =>
      empty ← ask_links (list_empty (QueueHead q));
      if (empty : bool) then mret None else
      a ← ask_links (get_next (QueueHead q));
      e ← lift_outcome (to_entry a);
      on_links (list_del (EntryHead e)) ;;
      mret (Some e)
  end.

Definition dmx512_framequeue_get (q : option queue_id) : prog kmem (option nat) :=
  match q with
  | None => mret None
  | Some q =>
      spin_lock q ;;
      e ← _dmx512_framequeue_get (Some q);
      spin_unlock q ;;
      mret e
  end.

Definition _dmx512_framequeue_front (q : option queue_id) : prog kmem (option nat) :=
  match q with
  | None => mret None
  | Some q =>
      empty ← ask_links (list_empty (QueueHead q));
      if (empty : bool) then mret None else
      a ← ask_links (get_next (QueueHead q));
      e ← lift_outcome (to_entry a);
      mret (Some e)
  end.

Definition dmx512_framequeue_front (q : option queue_id) : prog kmem (option nat) :=
  match q with
  | None => mret None
  | Some q =>
      spin_lock q ;;
      e ← _dmx512_framequeue_front (Some q);
      spin_unlock q ;;
      mret e
  end.

Definition dmx512_framequeue_put (q : option queue_id) (e : option nat) : prog kmem Z :=
  match q, e with
  | Some q, Some e =>
      spin_lock q ;;
      on_links (list_add_tail (EntryHead e) (QueueHead q)) ;;
      spin_unlock q ;;
      mret 0
  | _, _ => mret (-1)
  end.

(** [isempty] does not test its argument. *)
Definition dmx512_framequeue_isempty (q : option queue_id) : prog kmem bool :=
  q ← deref q;
  spin_lock q ;;
  ret ← ask_links (list_empty (QueueHead q));
  spin_unlock q ;;
  mret ret.

Fixpoint framequeue_free_all (fuel : nat) (q : queue_id) : prog kmem unit :=
  match fuel with
  | O => raise OutOfFuel
  | S fuel =>
      e ← _dmx512_framequeue_get (Some q);
      match e with
      | None => mret tt
      | Some e => dmx512_framequeue_entry_free (Some e) ;; framequeue_free_all fuel q
      end
  end.

(** Every turn of the loop frees an entry, so there are at most as many as
    list nodes. *)
Definition dmx512_framequeue_cleanup (q : option queue_id) : prog kmem unit :=
  match q with
  | None => mret tt
  | Some q =>
      spin_lock q ;;
      n ← gets (fun m => size (m_links m));
      framequeue_free_all (S n) q ;;
      spin_unlock q
  end.
End framequeue.

(** ** The contract: frame queues as lists *)

(** The public operations, and the results they return. *)
Inductive fq_op :=
  | OpInit (q : queue_id)
  | OpPut (q : queue_id) (e : nat)
  | OpGet (q : queue_id)
  | OpFront (q : queue_id)
  | OpIsEmpty (q : queue_id)
  | OpAlloc
  | OpFree (e : nat)
  | OpCleanup (q : queue_id).

Inductive fq_result := RVoid | RInt (z : Z) | REntry (e : option nat) | RBool (b : bool).

(** The state a client has in mind: the queues, the entries that are
    allocated and the name of the next allocation. *)
Record fq_abs := FqAbs { a_queues : gmap queue_id (list nat); a_live : gset nat; a_next : nat }.

(** [e] is in no queue. *)
Definition loose (Q : gmap queue_id (list nat)) (e : nat) : Prop :=
  forall q l, Q !! q = Some l -> e ∉ l.
#[export] Instance loose_dec Q e : Decision (loose Q e).
Proof.
  refine (cast_if (decide (map_Forall (fun _ (l : list nat) => e ∉ l) Q))); unfold loose; naive_solver.
Defined.

Section contract.
Context (kzalloc_ok : nat -> bool).

(** The step of the contract; [None] where a caller breaks it: a queue that
    was not initialised, an entry that is freed or already in a queue. *)
Definition abs_step (op : fq_op) (s : fq_abs) : option (fq_result * fq_abs) :=
  let '(FqAbs Q L n) := s in
  match op with
  | OpInit q => Some (RVoid, FqAbs (<[q := []]> Q) L n)
  | OpPut q e =>
      l ← Q !! q;
      if decide (e ∈ L /\ loose Q e)
      then Some (RInt 0, FqAbs (<[q := l ++ [e]]> Q) L n) else None
  | OpGet q => l ← Q !! q; Some (REntry (head l), FqAbs (<[q := tail l]> Q) L n)
  | OpFront q => l ← Q !! q; Some (REntry (head l), s)
  | OpIsEmpty q => l ← Q !! q; Some (RBool (bool_decide (l = [])), s)
  | OpAlloc =>
      if kzalloc_ok n then Some (REntry (Some n), FqAbs Q ({[n]} ∪ L) (S n))
      else Some (REntry None, FqAbs Q L (S n))
  | OpFree e => if decide (e ∈ L /\ loose Q e) then Some (RVoid, FqAbs Q (L ∖ {[e]}) n) else None
  | OpCleanup q => l ← Q !! q; Some (RVoid, FqAbs (<[q := []]> Q) (L ∖ list_to_set l) n)
  end.

Definition run_op (op : fq_op) : prog kmem fq_result :=
  match op with
  | OpInit q => dmx512_framequeue_init (Some q) ;; mret RVoid
  | OpPut q e => r ← dmx512_framequeue_put (Some q) (Some e); mret (RInt r)
  | OpGet q => e ← dmx512_framequeue_get (Some q); mret (REntry e)
  | OpFront q => e ← dmx512_framequeue_front (Some q); mret (REntry e)
  | OpIsEmpty q => b ← dmx512_framequeue_isempty (Some q); mret (RBool b)
  | OpAlloc => e ← dmx512_framequeue_entry_alloc kzalloc_ok; mret (REntry e)
  | OpFree e => dmx512_framequeue_entry_free (Some e) ;; mret RVoid
  | OpCleanup q => dmx512_framequeue_cleanup (Some q) ;; mret RVoid
  end.

Fixpoint abs_run (ops : list fq_op) (s : fq_abs) : option (list fq_result * fq_abs) :=
  match ops with
  | [] => Some ([], s)
  | op :: ops => '(r, s1) ← abs_step op s; '(rs, s2) ← abs_run ops s1; Some (r :: rs, s2)
  end.
Fixpoint run_ops (ops : list fq_op) : prog kmem (list fq_result) :=
  match ops with
  | [] => mret []
  | op :: ops => r ← run_op op; rs ← run_ops ops; mret (r :: rs)
  end.
End contract.

(** ** The abstract queues *)

(** [Q] gives the entries of every initialised queue, oldest first: no entry
    is in two queues, every entry of a queue is allocated and no lock is
    held. *)
Record fq_inv (m : kmem) (Q : gmap queue_id (list nat)) : Prop := {
  fqi_list q l : Q !! q = Some l -> is_list (m_links m) (QueueHead q) (EntryHead <$> l);
  fqi_disj q1 q2 l1 l2 e :
    Q !! q1 = Some l1 -> Q !! q2 = Some l2 -> e ∈ l1 -> e ∈ l2 -> q1 = q2;
  fqi_node e : e ∈ dom (m_frames m) -> EntryHead e ∈ dom (m_links m);
  fqi_live q l e : Q !! q = Some l -> e ∈ l -> e ∈ dom (m_frames m);
  fqi_unlocked : m_locks m = ∅;
  fqi_fresh e : e ∈ dom (m_frames m) -> (e < m_next m)%nat }.

(** What an operation on queues leaves alone: the frames, the allocator and
    the list nodes that are neither queues nor entries. *)
Definition same_rest (m m' : kmem) : Prop :=
  m_frames m' = m_frames m /\ m_next m' = m_next m /\
  forall a, (forall q, a <> QueueHead q) -> (forall e, a <> EntryHead e) ->
    m_links m' !! a = m_links m !! a.

#[export] Instance same_rest_refl : Reflexive same_rest.
Proof. by intros m. Qed.
#[export] Instance same_rest_trans : Transitive same_rest.
Proof.
  intros m1 m2 m3 (F1 & N1 & L1) (F2 & N2 & L2). split_and!; [by rewrite F2|by rewrite N2|].
  intros a Ha Ha'. by rewrite L2, L1.
Qed.

Lemma fqi_NoDup m Q q l : fq_inv m Q -> Q !! q = Some l -> NoDup l.
Proof.
  intros Hi Hq. pose proof (fqi_list _ _ Hi _ _ Hq) as [[_ Hnd]%NoDup_cons _].
  by apply NoDup_fmap_1 in Hnd.
Qed.

(** A queue changes from [l] to [l']: the other queues are as they were. *)
Lemma fq_inv_update m Q q l l' h' :
  fq_inv m Q -> Q !! q = Some l ->
  is_list h' (QueueHead q) (EntryHead <$> l') ->
  (forall a, a <> QueueHead q -> (forall e, e ∈ l ++ l' -> a <> EntryHead e) -> h' !! a = m_links m !! a) ->
  dom h' = dom (m_links m) ->
  (forall e, e ∈ l' -> e ∈ l \/ (loose Q e /\ e ∈ dom (m_frames m))) ->
  fq_inv (with_links h' m) (<[q := l']> Q).
Proof.
  intros Hi Hq Hl Hout Hdom Hl'.
  assert (forall q2 l2 e, q2 <> q -> Q !! q2 = Some l2 -> e ∈ l2 -> e ∉ l ++ l') as Hother.
  { intros q2 l2 e Hne Hq2 He [Hin|Hin]%elem_of_app.
    - apply Hne. by eapply (fqi_disj _ _ Hi).
    - destruct (Hl' _ Hin) as [?|[Hloose _]]; [|by eapply Hloose].
      apply Hne. by eapply (fqi_disj _ _ Hi). }
  split; cbn.
  - intros q2 l2. destruct (decide (q2 = q)) as [->|Hne];
      [rewrite lookup_insert_eq; intros [= <-]; done|rewrite lookup_insert_ne by done].
    intros Hq2. eapply is_list_frame; [by eapply (fqi_list _ _ Hi)|].
    intros a [->|(e & -> & He)%list_elem_of_fmap]%elem_of_cons; apply Hout; [naive_solver|done|done|].
    intros e' He' [= <-]. by eapply Hother.
  - intros q1 q2 l1 l2 e. destruct (decide (q1 = q)) as [->|], (decide (q2 = q)) as [->|];
      rewrite ?lookup_insert_eq, ?lookup_insert_ne by done; [done| | |by apply (fqi_disj _ _ Hi)].
    + intros [= <-] Hq2 He1 He2. exfalso. eapply (Hother q2); [done..|]. set_solver.
    + intros Hq1 [= <-] He1 He2. exfalso. eapply (Hother q1); [done..|]. set_solver.
  - rewrite Hdom. apply (fqi_node _ _ Hi).
  - intros q2 l2 e. destruct (decide (q2 = q)) as [->|];
      rewrite ?lookup_insert_eq, ?lookup_insert_ne by done; [|by apply (fqi_live _ _ Hi)].
    intros [= <-] [He|[_ He]]%Hl'; [by eapply (fqi_live _ _ Hi)|done].
  - apply (fqi_unlocked _ _ Hi).
  - apply (fqi_fresh _ _ Hi).
Qed.

Lemma same_rest_links m h' q (l : list nat) :
  (forall a, a <> QueueHead q -> (forall e, e ∈ l -> a <> EntryHead e) -> h' !! a = m_links m !! a) ->
  same_rest m (with_links h' m).
Proof. intros Hout. split_and!; [done..|]. intros a Hq He. apply Hout; naive_solver. Qed.

(** ** The operations implement those of lists *)

Lemma wp_on_links f h' Q m :
  f (m_links m) = Done h' -> Q tt (with_links h' m) -> wp (on_links f) Q m.
Proof. unfold wp, on_links. by intros ->. Qed.
Lemma wp_ask_links {A} (f : _ -> outcome A) a Q m :
  f (m_links m) = Done a -> Q a m -> wp (ask_links f) Q m.
Proof. unfold wp, ask_links. by intros ->. Qed.

(** A section that runs with the lock of [q]. *)
Lemma wp_spin_lock q Q m : q ∉ m_locks m -> Q tt (with_locks ({[q]} ∪ m_locks m) m) -> wp (spin_lock q) Q m.
Proof. unfold wp, spin_lock. intros. by rewrite bool_decide_false. Qed.
Lemma wp_spin_unlock q Q m : q ∈ m_locks m -> Q tt (with_locks (m_locks m ∖ {[q]}) m) -> wp (spin_unlock q) Q m.
Proof. unfold wp, spin_unlock. intros. by rewrite bool_decide_true. Qed.

(** Running [k] between [spin_lock] and [spin_unlock]. *)
Lemma wp_locked {A} (q : queue_id) (k : prog kmem A) (Q : A -> kmem -> Prop) m :
  m_locks m = ∅ ->
  wp k (fun a m' => m_locks m' = {[q]} /\ Q a (with_locks ∅ m')) (with_locks {[q]} m) ->
  wp (spin_lock q ;; a ← k; spin_unlock q ;; mret a) Q m.
Proof.
  intros Hl Hk. apply wp_bind, wp_spin_lock; [set_solver|].
  replace ({[q]} ∪ m_locks m) with ({[q]} : gset queue_id) by set_solver.
  apply wp_bind. eapply wp_mono; [done|]. cbn. intros a m' [Hl' HQ].
  apply wp_bind, wp_spin_unlock; [set_solver|]. apply wp_ret.
  replace (m_locks m' ∖ {[q]}) with (∅ : gset queue_id) by set_solver. done.
Qed.

Lemma with_locks_id m : m_locks m = ∅ -> with_locks ∅ m = m.
Proof. by destruct m; cbn; intros ->. Qed.

Lemma put_spec m Q q l e :
  fq_inv m Q -> Q !! q = Some l -> e ∈ dom (m_frames m) -> loose Q e ->
  wp (dmx512_framequeue_put (Some q) (Some e))
     (fun r m' => r = 0 /\ fq_inv m' (<[q := l ++ [e]]> Q) /\ same_rest m m') m.
Proof.
  intros Hi Hq He Hloose.
  destruct (list_add_tail_spec (m_links m) (EntryHead e) (QueueHead q) (EntryHead <$> l))
    as (h' & Hadd & Hl & Hout & Hdom).
  { by eapply fqi_list. } { by apply (fqi_node _ _ Hi). }
  { intros [|He']%elem_of_cons; [done|]. apply list_elem_of_fmap_inj in He'; [|apply _].
    by eapply Hloose. }
  assert (forall a, a <> QueueHead q -> (forall e', e' ∈ l ++ l ++ [e] -> a <> EntryHead e') ->
    h' !! a = m_links m !! a) as Hout'.
  { intros a Ha Ha'. apply Hout. rewrite !not_elem_of_cons. split_and!; [|done|].
    - apply Ha'. set_solver.
    - intros (e' & -> & ?)%list_elem_of_fmap. eapply Ha'; [|done]. set_solver. }
  apply wp_bind, wp_spin_lock; [by rewrite (fqi_unlocked _ _ Hi)|].
  apply wp_bind. eapply wp_on_links; [done|].
  apply wp_bind, wp_spin_unlock; [set_solver|]. apply wp_ret.
  replace (with_locks _ _) with (with_links h' m); cycle 1.
  { pose proof (fqi_unlocked _ _ Hi). destruct m as [k g lk n]. cbn in *. subst.
    unfold with_locks, with_links. cbn. f_equal. set_solver. }
  split_and!; [done| |by eapply same_rest_links].
  eapply fq_inv_update; [done..| |exact Hout'|done|].
  - by rewrite fmap_app.
  - intros e' [?|Hs]%elem_of_app; [by left|]. apply list_elem_of_singleton in Hs as ->. by right.
Qed.

Lemma _get_spec m q (l : list nat) P :
  is_list (m_links m) (QueueHead q) (EntryHead <$> l) ->
  P (head l) m \/ l <> [] ->
  (forall e l' h', l = e :: l' -> is_list h' (QueueHead q) (EntryHead <$> l') ->
     (forall a, a <> QueueHead q -> (forall e', e' ∈ l -> a <> EntryHead e') -> h' !! a = m_links m !! a) ->
     dom h' = dom (m_links m) -> P (Some e) (with_links h' m)) ->
  wp (_dmx512_framequeue_get (Some q)) P m.
Proof.
  intros Hl Hnil Hcons. apply wp_bind.
  eapply wp_ask_links; [by eapply list_empty_spec|].
  destruct l as [|e l']; cbn beta.
  { rewrite bool_decide_true by done. apply wp_ret. by destruct Hnil. }
  rewrite bool_decide_false by done.
  apply wp_bind. eapply wp_ask_links; [by eapply list_first_spec|].
  apply wp_bind.
  destruct (list_del_spec _ (EntryHead e) (QueueHead q) [] (fmap (M:=list) EntryHead l') Hl)
    as (h' & Hdel & Hl' & Hout & Hdom).
  eapply wp_done; [reflexivity|]. apply wp_bind. eapply wp_on_links; [done|]. apply wp_ret.
  eapply Hcons; [done|done| |done]. intros a Ha Ha'. apply Hout. cbn.
  rewrite not_elem_of_cons. split; [done|].
  intros (e' & -> & ?)%list_elem_of_fmap. eapply Ha'; [|done]. set_solver.
Qed.

(** Removing the first entry [e] of [q]. *)
Lemma fq_inv_tail m Q q l e l' h' :
  fq_inv m Q -> Q !! q = Some l -> l = e :: l' ->
  is_list h' (QueueHead q) (EntryHead <$> l') ->
  (forall a, a <> QueueHead q -> (forall e', e' ∈ l -> a <> EntryHead e') -> h' !! a = m_links m !! a) ->
  dom h' = dom (m_links m) ->
  fq_inv (with_links h' m) (<[q := l']> Q).
Proof.
  intros Hi Hq -> Hl Hout Hdom. eapply fq_inv_update; [done..| |done|].
  - intros a Ha Ha'. apply Hout; [done|]. intros e' He'. apply Ha'. set_solver.
  - intros e' He'. left. set_solver.
Qed.

Lemma with_links_locks h lk m : with_locks lk (with_links h m) = with_links h (with_locks lk m).
Proof. done. Qed.
Lemma with_locks_locks lk lk' m : with_locks lk (with_locks lk' m) = with_locks lk m.
Proof. done. Qed.

Lemma get_spec m Q q l :
  fq_inv m Q -> Q !! q = Some l ->
  wp (dmx512_framequeue_get (Some q))
     (fun r m' => r = head l /\ fq_inv m' (<[q := tail l]> Q) /\ same_rest m m') m.
Proof.
  intros Hi Hq. apply wp_locked; [by apply fqi_unlocked in Hi|].
  eapply (_get_spec _ _ l); [by eapply (fqi_list _ _ Hi)| |].
  - destruct l as [|e l]; [left|by right]. split; [done|].
    rewrite with_locks_locks, with_locks_id by by apply fqi_unlocked in Hi.
    cbn. split_and!; [done| |done]. by rewrite insert_id.
  - intros e l' h' -> Hl' Hout Hdom. split; [done|].
    rewrite with_links_locks, with_locks_locks, with_locks_id by by apply fqi_unlocked in Hi.
    split_and!; [done|by eapply fq_inv_tail|by eapply same_rest_links].
Qed.

Lemma front_spec m Q q l :
  fq_inv m Q -> Q !! q = Some l ->
  wp (dmx512_framequeue_front (Some q)) (fun r m' => r = head l /\ m' = m) m.
Proof.
  intros Hi Hq. pose proof (fqi_unlocked _ _ Hi) as Hlk.
  apply wp_locked; [done|]. apply wp_bind.
  pose proof (fqi_list _ _ Hi _ _ Hq) as Hl.
  eapply wp_ask_links; [by eapply list_empty_spec|].
  destruct l as [|e l]; cbn beta.
  - rewrite bool_decide_true by done. apply wp_ret.
    by rewrite with_locks_locks, with_locks_id.
  - rewrite bool_decide_false by done. apply wp_bind.
    eapply wp_ask_links; [by eapply list_first_spec|].
    apply wp_bind. eapply wp_done; [reflexivity|]. apply wp_ret.
    by rewrite with_locks_locks, with_locks_id.
Qed.

Lemma isempty_spec m Q q l :
  fq_inv m Q -> Q !! q = Some l ->
  wp (dmx512_framequeue_isempty (Some q)) (fun r m' => r = bool_decide (l = []) /\ m' = m) m.
Proof.
  intros Hi Hq. pose proof (fqi_unlocked _ _ Hi) as Hlk.
  pose proof (fqi_list _ _ Hi _ _ Hq) as Hl.
  apply wp_bind, wp_ret. apply wp_locked; [done|].
  eapply wp_ask_links; [by eapply list_empty_spec|]. split; [done|].
  split; [apply bool_decide_ext; by rewrite fmap_nil_iff || (destruct l; done)|].
  by rewrite with_locks_locks, with_locks_id.
Qed.

Lemma init_spec m Q q :
  fq_inv m Q ->
  wp (dmx512_framequeue_init (Some q)) (fun _ m' => fq_inv m' (<[q := []]> Q) /\ same_rest m m') m.
Proof.
  intros Hi. apply wp_bind. eapply wp_on_links; [done|]. apply wp_modify.
  pose proof (fqi_unlocked _ _ Hi) as Hlk.
  replace (with_locks _ _) with (with_links (INIT_LIST_HEAD (QueueHead q) (m_links m)) m); cycle 1.
  { destruct m as [k g lk n]. unfold with_locks, with_links. cbn in *. subst. f_equal. set_solver. }
  assert (forall a, a <> QueueHead q -> INIT_LIST_HEAD (QueueHead q) (m_links m) !! a = m_links m !! a) as Hout.
  { intros a Ha. unfold INIT_LIST_HEAD. by rewrite lookup_insert_ne. }
  split; [|split_and!; [done..|]; intros; by apply Hout].
  split; cbn.
  - intros q2 l2. destruct (decide (q2 = q)) as [->|];
      rewrite ?lookup_insert_eq, ?lookup_insert_ne by done.
    + intros [= <-]. apply INIT_LIST_HEAD_spec.
    + intros Hq2. eapply is_list_frame; [by eapply (fqi_list _ _ Hi)|].
      intros a [->|(e & -> & He)%list_elem_of_fmap]%elem_of_cons; apply Hout; naive_solver.
  - intros q1 q2 l1 l2 e. destruct (decide (q1 = q)) as [->|], (decide (q2 = q)) as [->|];
      rewrite ?lookup_insert_eq, ?lookup_insert_ne by done; try set_solver.
    by apply (fqi_disj _ _ Hi).
  - intros e He. unfold INIT_LIST_HEAD. rewrite dom_insert_L. pose proof (fqi_node _ _ Hi e He). set_solver.
  - intros q2 l2 e. destruct (decide (q2 = q)) as [->|];
      rewrite ?lookup_insert_eq, ?lookup_insert_ne by done; [set_solver|apply (fqi_live _ _ Hi)].
  - done.
  - apply (fqi_fresh _ _ Hi).
Qed.

Lemma fresh_not_in_ring m Q q l :
  fq_inv m Q -> Q !! q = Some l -> EntryHead (m_next m) ∉ QueueHead q :: (EntryHead <$> l).
Proof.
  intros Hi Hq [|Hin]%elem_of_cons; [done|].
  apply list_elem_of_fmap_inj in Hin; [|apply _].
  pose proof (fqi_fresh _ _ Hi _ (fqi_live _ _ Hi _ _ _ Hq Hin)). lia.
Qed.

Lemma alloc_fail_spec kzalloc_ok m :
  kzalloc_ok (m_next m) = false ->
  dmx512_framequeue_entry_alloc kzalloc_ok m =
    Done (None, KMem (m_links m) (m_frames m) (m_locks m) (S (m_next m))).
Proof. unfold dmx512_framequeue_entry_alloc. by intros ->. Qed.

Lemma alloc_spec kzalloc_ok m Q :
  fq_inv m Q -> kzalloc_ok (m_next m) = true ->
  wp (dmx512_framequeue_entry_alloc kzalloc_ok)
     (fun r m' => r = Some (m_next m) /\ fq_inv m' Q /\ loose Q (m_next m) /\
        m_frames m' = <[m_next m := zero_frame]> (m_frames m) /\
        m_frames m !! m_next m = None) m.
Proof.
  intros Hi Hok. unfold wp, dmx512_framequeue_entry_alloc. rewrite Hok.
  assert (m_frames m !! m_next m = None) as Hnone.
  { apply not_elem_of_dom. intros Hin%(fqi_fresh _ _ Hi). lia. }
  split_and!; [done| |intros q l Hq Hin|done|done].
  - split; cbn.
    + intros q l Hq. eapply is_list_frame; [by eapply (fqi_list _ _ Hi)|].
      intros a Ha. unfold INIT_LIST_HEAD. apply lookup_insert_ne. intros <-.
      by eapply fresh_not_in_ring.
    + apply (fqi_disj _ _ Hi).
    + intros e. rewrite dom_insert_L, elem_of_union, elem_of_singleton.
      unfold INIT_LIST_HEAD. rewrite dom_insert_L. intros [->|He]; [set_solver|].
      pose proof (fqi_node _ _ Hi _ He). set_solver.
    + intros q l e Hq Hin. pose proof (fqi_live _ _ Hi _ _ _ Hq Hin). set_solver.
    + apply (fqi_unlocked _ _ Hi).
    + intros e. rewrite dom_insert_L, elem_of_union, elem_of_singleton.
      intros [->|He%(fqi_fresh _ _ Hi)]; lia.
  - eapply fresh_not_in_ring; [done..|]. apply elem_of_cons. right.
    by apply list_elem_of_fmap_2.
Qed.

(** Freeing an entry that is in no queue. *)
Lemma free_spec m Q e lk :
  fq_inv (with_locks ∅ m) Q -> m_locks m = lk -> e ∈ dom (m_frames m) -> loose Q e ->
  wp (dmx512_framequeue_entry_free (Some e))
     (fun _ m' => fq_inv (with_locks ∅ m') Q /\ m_locks m' = lk /\
        m_frames m' = delete e (m_frames m) /\ m_next m' = m_next m /\
        dom (m_links m') = dom (m_links m) ∖ {[EntryHead e]} /\
        (forall a, (forall e, a <> EntryHead e) -> m_links m' !! a = m_links m !! a)) m.
Proof.
  intros Hi Hlk [f Hf]%elem_of_dom Hloose. unfold wp, dmx512_framequeue_entry_free. rewrite Hf.
  split_and!; [|done|done|done|cbn; by rewrite dom_delete_L|].
  - split; cbn.
    + intros q l Hq. eapply is_list_frame; [by eapply (fqi_list _ _ Hi)|].
      intros a Ha. apply lookup_delete_ne. intros <-.
      apply elem_of_cons in Ha as [|Ha]; [done|].
      apply list_elem_of_fmap_inj in Ha; [|apply _]. by eapply Hloose.
    + apply (fqi_disj _ _ Hi).
    + intros e'. rewrite !dom_delete_L. intros [He' Hne]%elem_of_difference.
      pose proof (fqi_node _ _ Hi _ He'). set_solver.
    + intros q l e' Hq Hin. pose proof (fqi_live _ _ Hi _ _ _ Hq Hin).
      rewrite dom_delete_L. apply elem_of_difference. split; [done|].
      intros ->%elem_of_singleton. by eapply Hloose.
    + done.
    + intros e'. rewrite dom_delete_L. intros [He' _]%elem_of_difference.
      by apply (fqi_fresh _ _ Hi).
  - intros a Ha. cbn. apply lookup_delete_ne. intros <-. by apply (Ha e).
Qed.

Lemma free_all_spec fuel m Q q l :
  fq_inv (with_locks ∅ m) Q -> Q !! q = Some l -> (length l < fuel)%nat ->
  wp (framequeue_free_all fuel q)
     (fun _ m' => fq_inv (with_locks ∅ m') (<[q := []]> Q) /\ m_locks m' = m_locks m /\
        m_next m' = m_next m /\
        (forall e, m_frames m' !! e = if decide (e ∈ l) then None else m_frames m !! e) /\
        (forall a, (forall q, a <> QueueHead q) -> (forall e, a <> EntryHead e) ->
           m_links m' !! a = m_links m !! a)) m.
Proof.
  revert m Q l. induction fuel as [|fuel IH]; intros m Q l Hi Hq Hlen; [lia|].
  cbn [framequeue_free_all]. apply wp_bind.
  pose proof (fqi_list _ _ Hi _ _ Hq) as Hl. pose proof (fqi_NoDup _ _ _ _ Hi Hq) as Hnd.
  apply (_get_spec m q l); [done| |].
  - destruct l as [|e l]; [left|by right]. cbn. apply wp_ret.
    rewrite insert_id by done. split_and!; [done..| |done]. intros e. by rewrite decide_False by set_solver.
  - intros e l' h' -> Hl' Hout Hdom.
    assert (fq_inv (with_locks ∅ (with_links h' m)) (<[q := l']> Q)) as Hi'.
    { rewrite with_links_locks. by eapply fq_inv_tail. }
    cbn in Hlen. apply NoDup_cons in Hnd as [He Hnd].
    apply wp_bind. eapply wp_mono.
    { apply (free_spec _ _ _ (m_locks m) Hi'); [done|..].
      - apply (fqi_live _ _ Hi _ _ e Hq). set_solver.
      - intros q2 l2. destruct (decide (q2 = q)) as [->|];
          rewrite ?lookup_insert_eq, ?lookup_insert_ne by done; [by intros [= <-]|].
        intros Hq2 Hin. assert (q2 = q); [|done].
        eapply (fqi_disj _ _ Hi); [done|done|done|]. set_solver. }
    cbn. intros _ m2 (Hi2 & Hlk & Hf & Hn & _ & Hx2).
    eapply wp_mono; [eapply IH; [done|by rewrite lookup_insert_eq|lia]|].
    cbn. intros _ m3. rewrite insert_insert_eq. intros (Hi3 & Hlk3 & Hn3 & Hf3 & Hx3).
    split_and!; [done|by rewrite Hlk3|by rewrite Hn3| |].
    2: { intros a Ha Ha'. rewrite Hx3, Hx2 by done. by apply Hout. }
    intros e'. rewrite Hf3, Hf. destruct (decide (e' = e)) as [->|].
    + rewrite decide_False by done. rewrite lookup_delete_eq. by rewrite decide_True by set_solver.
    + rewrite lookup_delete_ne by done. repeat case_decide; set_solver.
Qed.

Lemma cleanup_spec m Q q l :
  fq_inv m Q -> Q !! q = Some l ->
  wp (dmx512_framequeue_cleanup (Some q))
     (fun _ m' => fq_inv m' (<[q := []]> Q) /\ m_next m' = m_next m /\
        (forall e, m_frames m' !! e = if decide (e ∈ l) then None else m_frames m !! e) /\
        (forall a, (forall q, a <> QueueHead q) -> (forall e, a <> EntryHead e) ->
           m_links m' !! a = m_links m !! a)) m.
Proof.
  intros Hi Hq. pose proof (fqi_unlocked _ _ Hi) as Hlk.
  pose proof (is_list_length _ _ _ (fqi_list _ _ Hi _ _ Hq)) as Hlen.
  rewrite length_fmap in Hlen.
  apply wp_bind, wp_spin_lock; [by rewrite Hlk|]. apply wp_bind, wp_gets. apply wp_bind.
  eapply wp_mono; [eapply (free_all_spec _ _ Q q l)|].
  - by rewrite with_locks_locks, with_locks_id.
  - done.
  - cbn. lia.
  - cbn. intros _ m' (Hi' & Hlk' & Hn & Hf & Hx). apply wp_spin_unlock; [set_solver|].
    replace (m_locks m' ∖ {[q]}) with (∅ : gset queue_id) by set_solver. done.
Qed.

(** ** Refinement *)

Definition fq_refines (m : kmem) (s : fq_abs) : Prop :=
  fq_inv m (a_queues s) /\ dom (m_frames m) = a_live s /\ m_next m = a_next s.

(** One step of the contract is one call. *)
Lemma run_op_refines ok op m s r s' :
  fq_refines m s -> abs_step ok op s = Some (r, s') ->
  wp (run_op ok op) (fun r' m' => r' = r /\ fq_refines m' s') m.
Proof.
  destruct s as [Q L n]. intros (Hi & Hd & Hn) Hs. cbn in *. subst L n.
  destruct op; cbn in Hs; repeat case_decide; simplify_option_eq;
    cbn [run_op]; apply wp_bind; destruct_and?.
  - eapply wp_mono; [by apply (init_spec m Q)|]. intros _ m' (? & Hf & Hn & _).
    apply wp_ret. split; [done|]. by split_and!; cbn; rewrite ?Hf.
  - eapply wp_mono; [by eapply put_spec|]. intros ? m' (-> & ? & Hf & Hn & _).
    apply wp_ret. split; [done|]. by split_and!; cbn; rewrite ?Hf.
  - eapply wp_mono; [by eapply get_spec|]. intros ? m' (-> & ? & Hf & Hn & _).
    apply wp_ret. split; [done|]. by split_and!; cbn; rewrite ?Hf.
  - eapply wp_mono; [by eapply front_spec|]. intros ? m' (-> & ->). by apply wp_ret.
  - eapply wp_mono; [by eapply isempty_spec|]. intros ? m' (-> & ->). by apply wp_ret.
  - destruct (ok (m_next m)) eqn:Hok; simplify_eq.
    + pose proof (alloc_spec ok m Q Hi Hok) as Hw.
      unfold wp, dmx512_framequeue_entry_alloc in *. rewrite Hok in *.
      destruct Hw as (_ & Hi' & _). split; [done|]. split_and!; [done|cbn; set_solver|done].
    + unfold wp. rewrite alloc_fail_spec by done. split; [done|]. split_and!; [|done|done].
      destruct Hi. split; cbn; try done. intros e He. specialize (fqi_fresh0 e He). lia.
  - eapply wp_mono; [eapply free_spec; [rewrite with_locks_id; [done|by apply fqi_unlocked in Hi]|done..]|].
    cbn. intros _ m' (Hi' & Hlk & Hf & Hn & _). apply wp_ret. split; [done|].
    rewrite (fqi_unlocked _ _ Hi) in Hlk. rewrite with_locks_id in Hi' by done.
    split_and!; cbn; [done|by rewrite Hf, dom_delete_L|done].
  - eapply wp_mono; [by eapply cleanup_spec|]. cbn. intros _ m' (Hi' & Hn & Hf & _). apply wp_ret.
    split; [done|]. split_and!; cbn; [done| |done].
    apply set_eq. intros e. rewrite elem_of_difference, !elem_of_dom, Hf, elem_of_list_to_set.
    case_decide; [split; [by intros [? [=]]|by intros [_ ?]]|split; [intros ?; by split|by intros [? _]]].
Qed.

(** C16: The frame queues implement the contract: a client that keeps to it
    can run any sequence of operations; every call returns (no null or
    dangling pointer, no lock taken twice), the results are those of lists
    used first-in first-out, and the memory again represents the queues of
    the contract. *)
Theorem fifo_refinement ok ops m s rs s' :
  fq_refines m s -> abs_run ok ops s = Some (rs, s') ->
  exists m', run_ops ok ops m = Done (rs, m') /\ fq_refines m' s'.
Proof.
  revert m s rs. induction ops as [|op ops IH]; intros m s rs Hr Hs; cbn in Hs.
  - simplify_eq. by exists m.
  - destruct (abs_step ok op s) as [[r s1]|] eqn:H1; cbn in Hs; [|done].
    destruct (abs_run ok ops s1) as [[rs2 s2]|] eqn:H2; cbn in Hs; [|done]. simplify_eq.
    pose proof (run_op_refines ok op m s r s1 Hr H1) as (r' & m1 & E1 & -> & Hr1)%wp_run.
    destruct (IH m1 s1 rs2 Hr1 H2) as (m2 & E2 & Hr2). exists m2. split; [|done].
    cbn [run_ops]. unfold mbind, prog_bind, mret, prog_ret. by rewrite E1, E2.
Qed.

Lemma fq_refines_init : fq_refines kmem_init (FqAbs ∅ ∅ 0).
Proof. split; [|done]. by split. Qed.

(** Three frames are allocated, queued in another order and taken out. *)
Lemma fifo_refinement_witness : exists m',
  run_ops (fun _ => true) [OpInit FreeQueue; OpAlloc; OpAlloc; OpPut FreeQueue 1; OpPut FreeQueue 0; OpGet FreeQueue]
    kmem_init = Done ([RVoid; REntry (Some 0%nat); REntry (Some 1%nat); RInt 0; RInt 0; REntry (Some 1%nat)], m') /\
  fq_refines m' (FqAbs {[FreeQueue := [0%nat]]} {[0%nat; 1%nat]} 2).
Proof.
  refine (fifo_refinement (fun _ => true) _ kmem_init (FqAbs ∅ ∅ 0) _ _ fq_refines_init _).
  vm_compute. reflexivity.
Defined.
