(* ===== verification/DmxCore.v ===== *)
(** * The dmx512 core

    [src/drivers/dmx512/core/dmx512.c] with
    [src/include/linux/dmx512/dmx512_priv.h]: devices, ports, the pool of
    free frames and the file operations of the character devices.  Objects
    live in a store and are linked by the rings of [KList]; the rings of the
    ports and the devices share their memory with the frame queues.

    What the file relies on from the kernel is a parameter of its section:
    which allocations succeed, what [misc_register] and [try_module_get]
    return, what other threads do while a reader sleeps, and the callbacks of
    the drivers. *)
From stdpp Require Import base countable gmap strings list.
From S2P Require Import Prelude KList FrameQueue.

(** ** Constants *)
Definition ENODEV : Z := 19.
Definition EINVAL : Z := 22.
Definition EAGAIN : Z := 11.
Definition ENOMEM : Z := 12.
Definition MAX_DMXPORT_NAME : nat := 128.
Definition DMX512_CAP_RDM : Z := Z.shiftl 1 0.
Definition POLLIN : Z := 1.
Definition POLLRDNORM : Z := 64.
(** [sizeof(struct dmx512frame)]: the structure is packed, the timestamps
    are two [struct timespec] of 16 octets. *)
Definition SIZEOF_FRAME : Z := 2 + 2 + 1 + 3 + 2 + 513 + 16 + 16.

(** ** State *)

(** [struct dmx512_device]; the list nodes and the queue are in the memory.
    [d_wakeups] counts the calls of [wake_up] on the wait queue and
    [d_misc] says whether the character device exists. *)
Record dmx512_device := Device {
  d_name : string;
  d_data : Z;
  d_wakeups : nat;
  d_misc : bool }.

(** [struct dmx512_port]; a callback is named by a number. *)
Record dmx512_port := Port {
  p_device : option nat;
  p_name : string;
  p_capabilities : Z;
  p_send_frame : option nat;
  p_transmitter_has_space : option nat;
  p_userptr : option nat }.

Record core := Core {
  c_mem : kmem;
  c_devices : gmap nat dmx512_device;
  c_ports : gmap nat dmx512_port;
  c_locked : bool;        (* dmx512_lock *)
  c_modref : Z }.         (* references to the owner module *)

Definition with_mem (m : kmem) (s : core) : core :=
  Core m (c_devices s) (c_ports s) (c_locked s) (c_modref s).
Definition with_devices (d : gmap nat dmx512_device) (s : core) : core :=
  Core (c_mem s) d (c_ports s) (c_locked s) (c_modref s).
Definition with_ports (p : gmap nat dmx512_port) (s : core) : core :=
  Core (c_mem s) (c_devices s) p (c_locked s) (c_modref s).
Definition with_locked (b : bool) (s : core) : core :=
  Core (c_mem s) (c_devices s) (c_ports s) b (c_modref s).
Definition with_modref (r : Z) (s : core) : core :=
  Core (c_mem s) (c_devices s) (c_ports s) (c_locked s) r.

Definition set_device (v : option nat) (p : dmx512_port) : dmx512_port :=
  Port v (p_name p) (p_capabilities p) (p_send_frame p) (p_transmitter_has_space p) (p_userptr p).
Definition set_send_frame (v : option nat) (p : dmx512_port) : dmx512_port :=
  Port (p_device p) (p_name p) (p_capabilities p) v (p_transmitter_has_space p) (p_userptr p).
Definition set_userptr (v : option nat) (p : dmx512_port) : dmx512_port :=
  Port (p_device p) (p_name p) (p_capabilities p) (p_send_frame p) (p_transmitter_has_space p) v.
Definition device_wake (d : dmx512_device) : dmx512_device :=
  Device (d_name d) (d_data d) (S (d_wakeups d)) (d_misc d).
Definition set_misc (b : bool) (d : dmx512_device) : dmx512_device :=
  Device (d_name d) (d_data d) (d_wakeups d) b.
Definition set_data (v : Z) (d : dmx512_device) : dmx512_device :=
  Device (d_name d) v (d_wakeups d) (d_misc d).

(** [LIST_HEAD(dmx512_devices)], [LIST_HEAD(dmx512_ports)] and the zeroed
    [free_framequeue]. *)
Definition boot : core :=
  Core (KMem (INIT_LIST_HEAD AllDevices (INIT_LIST_HEAD AllPorts
               (zeroed_node (QueueHead FreeQueue) ∅))) ∅ ∅ 0) ∅ ∅ false 0.

(** A program on the memory, run inside of the core. *)
Definition in_mem {A} (k : prog kmem A) : prog core A := fun s =>
  match k (c_mem s) with Done (a, m) => Done (a, with_mem m s) | Fault f => Fault f end.
Definition links_op (f : gmap addr (node addr) -> outcome (gmap addr (node addr))) : prog core unit :=
  in_mem (on_links f).

Definition get_port (p : nat) : prog core dmx512_port := s ← get_state; live (c_ports s !! p).
Definition get_device (d : nat) : prog core dmx512_device := s ← get_state; live (c_devices s !! d).
Definition put_port (p : nat) (v : dmx512_port) : prog core unit :=
  modify (fun s => with_ports (<[p := v]> (c_ports s)) s).
Definition put_device (d : nat) (v : dmx512_device) : prog core unit :=
  modify (fun s => with_devices (<[d := v]> (c_devices s)) s).
Definition wake_up (d : nat) : prog core unit := v ← get_device d; put_device d (device_wake v).

(** [DMX512_LOCKED(code)] *)
Definition DMX512_LOCKED {A} (code : prog core A) : prog core A :=
  locked ← gets c_locked;
  if (locked : bool) then raise Deadlock else
  modify (with_locked true) ;;
  ret ← code;
  modify (with_locked false) ;;
  mret ret.

(** [container_of] on a node of the list of ports of a device. *)
Definition to_port (a : addr) : outcome nat :=
  match a with PortDeviceItem p => Done p | _ => Fault Dangling end.

(** [list_for_each_entry_safe(pos, tmp, head, device_item) body]: the body
    may remove and free [pos]; a result leaves the loop. *)
Fixpoint for_each_port_safe {B} (fuel : nat) (pos tmp head : addr)
    (body : nat -> nat -> prog core (option B)) (i : nat) : prog core (option B) :=
  if bool_decide (pos = head) then mret None else
  match fuel with
  | O => raise OutOfFuel
  | S fuel =>
      p ← lift_outcome (to_port pos);
      r ← body i p;
      match r with
      | Some b => mret (Some b)
      | None =>
          nxt ← in_mem (ask_links (get_next tmp));
          for_each_port_safe fuel tmp nxt head body (S i)
      end
  end.
Definition list_for_each_port {B} (d : nat) (body : nat -> nat -> prog core (option B))
    : prog core (option B) :=
  n ← gets (fun s => size (m_links (c_mem s)));
  pos ← in_mem (ask_links (get_next (DevicePorts d)));
  tmp ← in_mem (ask_links (get_next pos));
  for_each_port_safe n pos tmp (DevicePorts d) body 0.

Section core.
Context (kzalloc_ok : nat -> bool).
(** The error [misc_register] returns for a device; 0 is success. *)
Context (misc_register : nat -> Z).
Context (try_module_get : Z -> bool).
(** What the other threads do while a reader sleeps in [wait_event]. *)
Context (sleep : nat -> core -> core).
(** The callbacks: the name of a function, the port and the frame. *)
Context (call_send_frame : nat -> nat -> nat -> prog core Z).
Context (call_has_space : nat -> nat -> prog core bool).

Definition _dmx512_add_port (dev port : nat) : prog core Z :=
  p ← get_port port;
  put_port port (set_device (Some dev) p) ;;
  links_op (list_add_tail (PortDeviceItem port) (DevicePorts dev)) ;;
  links_op (list_add_tail (PortListItem port) AllPorts) ;;
  mret 0.

Definition _dmx512_remove_port (port : nat) : prog core Z :=
  p ← get_port port;
  links_op (list_del (PortDeviceItem port)) ;;
  links_op (list_del (PortListItem port)) ;;
  put_port port (set_device None p) ;;
  mret 0.

(** [kfree] of a port and of a device, with the nodes embedded in them. *)
Definition kfree_port (p : nat) : prog core unit :=
  _ ← get_port p;
  modify (fun s => with_ports (delete p (c_ports s)) s) ;;
  links_op (fun h => Done (delete (PortDeviceItem p) (delete (PortListItem p) h))).
Definition kfree_device (d : nat) : prog core unit :=
  _ ← get_device d;
  modify (fun s => with_devices (delete d (c_devices s)) s) ;;
  links_op (fun h => Done (delete (DeviceItem d) (delete (DevicePorts d)
                            (delete (QueueHead (DevQueue d)) h)))).

Definition dmx512_device_open (dmx : option nat) : prog core Z :=
  match dmx with
  | None => mret (- ENODEV)
  | Some d =>
      _ ← get_device d;
      r ← gets c_modref;
      if try_module_get r then modify (with_modref (r + 1)) ;; mret 0
      else mret (- ENODEV)
  end.

Definition dmx512_device_release (dmx : option nat) : prog core Z :=
  match dmx with
  | None => mret (- ENODEV)
  | Some d => _ ← get_device d; modify (fun s => with_modref (c_modref s - 1) s) ;; mret 0
  end.

(** The result and, when a frame is copied to the user, that frame.
    [copy_to_user] returns the octets it could not copy. *)
Definition dmx512_device_read (d : nat) (nonblock : bool) (size : Z) (copy_to_user : Z)
    : prog core (Z * option dmx512frame) :=
  if size <? SIZEOF_FRAME then mret (- EINVAL, None) else
  empty ← in_mem (dmx512_framequeue_isempty (Some (DevQueue d)));
  if (empty && nonblock)%bool then mret (- EAGAIN, None) else
  when empty (modify (sleep d)) ;;
  e ← in_mem (dmx512_framequeue_get (Some (DevQueue d)));
  match e with
  | None => mret (0, None)
  | Some e =>
      m ← gets c_mem;
      f ← live (m_frames m !! e);
      _ ← in_mem (dmx512_framequeue_put (Some FreeQueue) (Some e));
      mret (if copy_to_user =? 0 then (SIZEOF_FRAME, Some f) else (0, None))
  end.

Definition _dmx512_port_index (port : option nat) : prog core Z :=
  match port with
  | None => mret (-1)
  | Some port =>
      p ← get_port port;
      d ← deref (p_device p);
      r ← list_for_each_port d (fun i q => mret (if decide (port = q) then Some (Z.of_nat i) else None));
      mret (default (-1) r)
  end.

Definition _dmx512_port_by_index (device : option nat) (index : Z) : prog core (option nat) :=
  match device with
  | None => mret None
  | Some d =>
      list_for_each_port d (fun i q => mret (if index =? Z.of_nat i then Some q else None))
  end.

Definition dmx512_port_by_index (device : option nat) (index : Z) : prog core (option nat) :=
  DMX512_LOCKED (_dmx512_port_by_index device index).
Definition dmx512_port_index (port : option nat) : prog core Z :=
  DMX512_LOCKED (_dmx512_port_index port).

Definition update_frame (e : nat) (f : dmx512frame -> dmx512frame) : prog kmem unit :=
  m ← get_state;
  v ← live (m_frames m !! e);
  modify (with_frames (<[e := f v]> (m_frames m))).

(** [copy_from_user] of the frame [user]; [copy_fails] when the address is
    bad. *)
Definition dmx512_device_write (dmx : option nat) (size : Z) (copy_fails : bool)
    (user : dmx512frame) : prog core Z :=
  match dmx with
  | None => mret (- ENODEV)
  | Some d =>
      e ← in_mem (dmx512_framequeue_get (Some FreeQueue));
      match e with
      | None => mret (- ENOMEM)
      | Some e =>
          let give_back err := _ ← in_mem (dmx512_framequeue_put (Some FreeQueue) (Some e)); mret err in
          if negb (SIZEOF_FRAME <=? size) then give_back (- EINVAL) else
          if copy_fails then give_back (- EINVAL) else
          in_mem (update_frame e (fun _ => user)) ;;
          port ← dmx512_port_by_index (Some d) (f_port user);
          match port with
          | None => give_back (- EINVAL)
          | Some p =>
              v ← get_port p;
              space ← match p_transmitter_has_space v with
                      | None => mret true
                      | Some fn => call_has_space fn p
                      end;
              if (space : bool) then
                fn ← deref (p_send_frame v);
                _ ← call_send_frame fn p e;
                mret SIZEOF_FRAME
              else give_back (- EAGAIN)
          end
      end
  end.

Definition dmx512_device_poll (dmx : option nat) : prog core Z :=
  match dmx with
  | None => mret 0
  | Some d =>
      empty ← in_mem (dmx512_framequeue_isempty (Some (DevQueue d)));
      mret (if (empty : bool) then 0 else Z.lor POLLIN POLLRDNORM)
  end.

Definition dmx512_device_ioctl (command arg : Z) : prog core Z := mret 0.

Definition _register_dmx512_device (dev : nat) (data : Z) : prog core Z :=
  v ← get_device dev;
  put_device dev (set_data data v) ;;
  links_op (fun h => Done (INIT_LIST_HEAD (DevicePorts dev) h)) ;;
  in_mem (dmx512_framequeue_init (Some (DevQueue dev))) ;;
  links_op (list_add (DeviceItem dev) AllDevices) ;;
  let err := misc_register dev in
  v ← get_device dev;
  put_device dev (set_misc (err =? 0) v) ;;
  mret err.

Definition _unregister_dmx512_device (dev : nat) : prog core Z :=
  wake_up dev ;;
  v ← get_device dev;
  put_device dev (set_misc false v) ;;
  _ ← list_for_each_port (B := unit) dev (fun _ port =>
        _ ← _dmx512_remove_port port; kfree_port port ;; mret None);
  links_op (list_del (DeviceItem dev)) ;;
  in_mem (dmx512_framequeue_cleanup (Some (DevQueue dev))) ;;
  mret 0.

Definition _devm_register_dmx512_device (dmx : nat) (data : Z) : prog core Z := mret (-1).

(** A pointer or an [ERR_PTR]. *)
Definition dmx512_create_device (name : option string) : prog core (Z + nat) := fun s =>
  let m := c_mem s in let d := m_next m in
  let m' := KMem (m_links m) (m_frames m) (m_locks m) (S d) in
  if kzalloc_ok d then
    let h := zeroed_node (DeviceItem d) (zeroed_node (DevicePorts d)
               (zeroed_node (QueueHead (DevQueue d)) (m_links m))) in
    Done (inr d, with_devices (<[d := Device (default "unknown"%string name) 0 0 false]> (c_devices s))
                   (with_mem (with_links h m') s))
  else Done (inl (- ENOMEM), with_mem m' s).

Definition dmx512_delete_device (device : option nat) : prog core unit :=
  match device with Some d => kfree_device d | None => mret tt end.

Definition register_dmx512_device (dev : nat) (data : Z) : prog core Z :=
  DMX512_LOCKED (_register_dmx512_device dev data).
Definition unregister_dmx512_device (dev : option nat) : prog core Z :=
  match dev with Some d => DMX512_LOCKED (_unregister_dmx512_device d) | None => mret 0 end.
Definition devm_register_dmx512_device (dmx : nat) (data : Z) : prog core Z :=
  _ ← DMX512_LOCKED (_devm_register_dmx512_device dmx data); mret 0.

Definition dmx512_device_name (dmx : option nat) : prog core (option string) :=
  match dmx with Some d => v ← get_device d; mret (Some (d_name v)) | None => mret None end.

(** [strcpy] into [name[MAX_DMXPORT_NAME]]: the name and its terminator. *)
Definition dmx512_create_port (dmx : option nat) (portname : string) (capabilities : Z)
    : prog core (Z + nat) := fun s =>
  let m := c_mem s in let p := m_next m in
  let m' := KMem (m_links m) (m_frames m) (m_locks m) (S p) in
  if kzalloc_ok p then
    if (String.length portname <? MAX_DMXPORT_NAME)%nat then
      let h := zeroed_node (PortDeviceItem p) (zeroed_node (PortListItem p) (m_links m)) in
      Done (inr p, with_ports (<[p := Port dmx portname capabilities None None None]> (c_ports s))
                     (with_mem (with_links h m') s))
    else Fault OutOfBounds
  else Done (inl (- ENOMEM), with_mem m' s).

Definition dmx512_add_port (dev port : nat) : prog core Z := DMX512_LOCKED (_dmx512_add_port dev port).
Definition dmx512_remove_port (port : nat) : prog core Z := DMX512_LOCKED (_dmx512_remove_port port).

Definition dmx512_delete_port (port : option nat) : prog core unit :=
  match port with
  | Some p => _ ← dmx512_remove_port p; kfree_port p
  | None => mret tt
  end.

Definition dmx512_port_set_sendframe (port : option nat) (fn : option nat) : prog core unit :=
  match port with Some p => v ← get_port p; put_port p (set_send_frame fn v) | None => mret tt end.
Definition dmx512_port_set_userptr (port : option nat) (userptr : option nat) : prog core unit :=
  match port with Some p => v ← get_port p; put_port p (set_userptr userptr v) | None => mret tt end.
Definition dmx512_port_userptr (port : option nat) : prog core (option nat) :=
  match port with Some p => v ← get_port p; mret (p_userptr v) | None => mret None end.
Definition dmx512_port_name (port : option nat) : prog core (option string) :=
  match port with Some p => v ← get_port p; mret (Some (p_name v)) | None => mret None end.

(** [frame->frame.port] is 16 bits wide. *)
Definition dmx512_received_frame (port : option nat) (frame : option nat) : prog core Z :=
  match port with
  | None => mret (-1)
  | Some p =>
      v ← get_port p;
      match p_device v with
      | None => mret (-1)
      | Some d =>
          i ← dmx512_port_index (Some p);
          e ← deref frame;
          in_mem (update_frame e (with_port (i mod 2 ^ 16))) ;;
          _ ← in_mem (dmx512_framequeue_put (Some (DevQueue d)) (Some e));
          wake_up d ;;
          mret 0
      end
  end.

Definition dmx512_put_frame (frame : option nat) : prog core unit :=
  _ ← in_mem (dmx512_framequeue_put (Some FreeQueue) frame); mret tt.
Definition dmx512_get_frame : prog core (option nat) :=
  in_mem (dmx512_framequeue_get (Some FreeQueue)).

Fixpoint fill_pool (n : nat) : prog core unit :=
  match n with
  | O => mret tt
  | S n =>
      e ← in_mem (dmx512_framequeue_entry_alloc kzalloc_ok);
      _ ← in_mem (dmx512_framequeue_put (Some FreeQueue) e);
      fill_pool n
  end.
Definition dmx512_core_init : prog core Z :=
  in_mem (dmx512_framequeue_init (Some FreeQueue)) ;; fill_pool 16 ;; mret 0.
Definition dmx512_core_exit : prog core unit :=
  in_mem (dmx512_framequeue_cleanup (Some FreeQueue)).
End core.

(** ** The state seen as lists *)

(** The queues, the registered devices, the ports of each of them and the
    global list of ports. *)
Record core_abs := CoreAbs {
  ca_queues : gmap queue_id (list nat);
  ca_devices : list nat;
  ca_ports : gmap nat (list nat);
  ca_all : list nat }.

Record core_inv (s : core) (a : core_abs) : Prop := {
  ci_fq : fq_inv (c_mem s) (ca_queues a);
  ci_devices : is_list (m_links (c_mem s)) AllDevices (DeviceItem <$> ca_devices a);
  ci_all : is_list (m_links (c_mem s)) AllPorts (PortListItem <$> ca_all a);
  ci_ports d ps : ca_ports a !! d = Some ps ->
    is_list (m_links (c_mem s)) (DevicePorts d) (PortDeviceItem <$> ps);
  ci_device d : is_Some (ca_ports a !! d) <-> d ∈ ca_devices a;
  ci_device_live d : d ∈ ca_devices a ->
    is_Some (c_devices s !! d) /\ is_Some (ca_queues a !! DevQueue d);
  ci_free : is_Some (ca_queues a !! FreeQueue);
  ci_queue d : is_Some (ca_queues a !! DevQueue d) -> d ∈ ca_devices a;
  ci_member d ps p : ca_ports a !! d = Some ps -> p ∈ ps ->
    p ∈ ca_all a /\ exists v, c_ports s !! p = Some v /\ p_device v = Some d;
  ci_owner p : p ∈ ca_all a -> exists d ps, ca_ports a !! d = Some ps /\ p ∈ ps;
  ci_port_fresh p v : c_ports s !! p = Some v -> (p < m_next (c_mem s))%nat /\
    PortDeviceItem p ∈ dom (m_links (c_mem s)) /\ PortListItem p ∈ dom (m_links (c_mem s));
  ci_device_fresh d v : c_devices s !! d = Some v -> (d < m_next (c_mem s))%nat /\
    DeviceItem d ∈ dom (m_links (c_mem s)) }.

(** Between two calls [dmx512_lock] is free. *)
Definition core_ok (s : core) (a : core_abs) : Prop := core_inv s a /\ c_locked s = false.

(** The first result of [g] on the ports of a list, counting from [i]. *)
Fixpoint find_port {B} (g : nat -> nat -> option B) (i : nat) (ps : list nat) : option B :=
  match ps with
  | [] => None
  | p :: ps => match g i p with Some b => Some b | None => find_port g (S i) ps end
  end.

Lemma in_mem_ask {A} (f : _ -> outcome A) a s :
  f (m_links (c_mem s)) = Done a -> in_mem (ask_links f) s = Done (a, s).
Proof. unfold in_mem, ask_links. intros ->. by destruct s. Qed.

Lemma for_each_port_safe_pure {B} (g : nat -> nat -> option B) s hd x pos tmp fuel i (ps : list nat) :
  chain (m_links (c_mem s)) x (PortDeviceItem <$> ps) hd ->
  (forall p, hd <> PortDeviceItem p) ->
  (exists first, get_next hd (m_links (c_mem s)) = Done first) ->
  get_next x (m_links (c_mem s)) = Done pos ->
  get_next pos (m_links (c_mem s)) = Done tmp ->
  (length ps <= fuel)%nat ->
  for_each_port_safe fuel pos tmp hd (fun i p => mret (g i p)) i s = Done (find_port g i ps, s).
Proof.
  intros Hc Hhead [first Hfirst]. revert x pos tmp fuel i Hc.
  induction ps as [|p ps IH]; intros x pos tmp fuel i Hc Hpos Htmp Hf.
  - rewrite (get_next_nx _ _ _ (chain_first _ _ _ _ Hc)) in Hpos. injection Hpos as <-.
    destruct fuel; cbn; by rewrite bool_decide_true.
  - destruct Hc as [[Hx _] Hc]. rewrite (get_next_nx _ _ _ Hx) in Hpos. injection Hpos as <-.
    destruct fuel as [|fuel]; cbn in Hf; [lia|]. cbn [for_each_port_safe].
    rewrite bool_decide_false by naive_solver.
    unfold mbind, prog_bind, lift_outcome, to_port, mret, prog_ret. cbn [find_port].
    destruct (g i p); [done|].
    destruct (chain_next _ _ _ _ (PortDeviceItem p) Hc) as (y & Hy & Hin); [set_solver|].
    rewrite Hy in Htmp. injection Htmp as ->.
    assert (exists nxt, get_next tmp (m_links (c_mem s)) = Done nxt) as [nxt Hnxt].
    { apply elem_of_app in Hin as [Hin|Hin]; [|apply list_elem_of_singleton in Hin; subst; by eauto].
      destruct (chain_next _ _ _ _ tmp Hc) as (z & ? & _); [set_solver|]. by eauto. }
    rewrite (in_mem_ask _ nxt) by done. by eapply IH; [..|lia].
Qed.

(** A loop over the ports that only looks. *)
Lemma list_for_each_port_pure {B} (g : nat -> nat -> option B) s d (ps : list nat) :
  is_list (m_links (c_mem s)) (DevicePorts d) (PortDeviceItem <$> ps) ->
  list_for_each_port d (fun i p => mret (g i p)) s = Done (find_port g 0 ps, s).
Proof.
  intros Hl. pose proof (is_list_length _ _ _ Hl) as Hlen. rewrite length_fmap in Hlen.
  destruct (is_list_next _ _ _ (DevicePorts d) Hl) as (pos & Hpos & Hin); [set_solver|].
  destruct (is_list_next _ _ _ pos Hl) as (tmp & Htmp & _); [done|].
  unfold list_for_each_port, gets. unfold mbind, prog_bind.
  rewrite (in_mem_ask _ pos), (in_mem_ask _ tmp) by done.
  destruct Hl as [_ Hc]. eapply for_each_port_safe_pure; [done|done|by eauto|done|done|lia].
Qed.

Lemma find_port_index port i ps :
  find_port (fun i q => if decide (port = q) then Some (Z.of_nat i) else None) i ps
  = (fun k => Z.of_nat (i + k)) <$> (fst <$> list_find (eq port) ps).
Proof.
  revert i. induction ps as [|p ps IH]; intros i; cbn; [done|].
  case_decide as Hp; cbn; [by rewrite Nat.add_0_r|]. rewrite IH.
  destruct (list_find (eq port) ps) as [[k q]|]; cbn; [|done]. by rewrite Nat.add_succ_r.
Qed.
Lemma find_port_nth index i ps :
  find_port (fun i q => if index =? Z.of_nat i then Some q else None) i ps
  = if (Z.of_nat i <=? index) then ps !! Z.to_nat (index - Z.of_nat i) else None.
Proof.
  revert i. induction ps as [|p ps IH]; intros i; cbn.
  - by destruct (_ <=? _).
  - rewrite IH. destruct (Z.eqb_spec index (Z.of_nat i)) as [->|Hne].
    + by rewrite Z.leb_refl, Z.sub_diag.
    + destruct (Z.leb_spec (Z.of_nat (S i)) index), (Z.leb_spec (Z.of_nat i) index); try lia; [|done].
      replace (Z.to_nat (index - Z.of_nat i)) with (S (Z.to_nat (index - Z.of_nat (S i)))) by lia.
      done.
Qed.

Lemma DMX512_LOCKED_run {A} (k : prog core A) s a :
  c_locked s = false -> k (with_locked true s) = Done (a, with_locked true s) ->
  DMX512_LOCKED k s = Done (a, s).
Proof.
  intros Hl Hk. unfold DMX512_LOCKED, mbind, prog_bind, gets, modify. rewrite Hl, Hk.
  unfold mret, prog_ret. do 2 f_equal. destruct s. cbn in *. by subst.
Qed.

Lemma dmx512_port_by_index_spec s a d ps index :
  core_ok s a -> ca_ports a !! d = Some ps ->
  dmx512_port_by_index (Some d) index s =
    Done (if 0 <=? index then ps !! Z.to_nat index else None, s).
Proof.
  intros [Hi Hl] Hd. apply DMX512_LOCKED_run; [done|].
  unfold _dmx512_port_by_index.
  rewrite (list_for_each_port_pure _ _ _ ps); [|by apply (ci_ports _ _ Hi)].
  rewrite find_port_nth. by rewrite Z.sub_0_r.
Qed.

(** The position of [p] in the ports of [d]. *)
Definition index_of (p : nat) (ps : list nat) : Z :=
  match list_find (eq p) ps with Some (k, _) => Z.of_nat k | None => -1 end.

Lemma dmx512_port_index_spec s a d ps p v :
  core_ok s a -> ca_ports a !! d = Some ps ->
  c_ports s !! p = Some v -> p_device v = Some d ->
  dmx512_port_index (Some p) s = Done (index_of p ps, s).
Proof.
  intros [Hi Hl] Hd Hp Hv. apply DMX512_LOCKED_run; [done|].
  unfold _dmx512_port_index, get_port, mbind, prog_bind, get_state.
  destruct s as [m ds po lk r]. cbn in *. rewrite Hp. cbn. rewrite Hv. cbn.
  rewrite (list_for_each_port_pure _ _ _ ps); [|by apply (ci_ports _ _ Hi)].
  rewrite find_port_index. unfold index_of, mret, prog_ret.
  by destruct (list_find _ _) as [[]|].
Qed.

(** ** Frame rules *)

(** The invariant looks at the memory and at the two stores. *)
Lemma core_inv_ext s s' a :
  core_inv s a -> c_mem s' = c_mem s -> c_devices s' = c_devices s -> c_ports s' = c_ports s ->
  core_inv s' a.
Proof.
  destruct s, s'. cbn. intros [] -> -> ->. by split.
Qed.

Lemma wp_in_mem {A} (k : prog kmem A) Q s :
  wp k (fun a m => Q a (with_mem m s)) (c_mem s) -> wp (in_mem k) Q s.
Proof. unfold wp, in_mem. by destruct (k (c_mem s)) as [[]|]. Qed.

Lemma wp_links_op f h' Q s :
  f (m_links (c_mem s)) = Done h' ->
  Q tt (with_mem (with_links h' (c_mem s)) s) -> wp (links_op f) Q s.
Proof. intros Hf HQ. apply wp_in_mem. by eapply wp_on_links. Qed.

Lemma wp_LOCKED {A} (k : prog core A) Q s :
  c_locked s = false ->
  wp k (fun a s' => Q a (with_locked false s')) (with_locked true s) ->
  wp (DMX512_LOCKED k) Q s.
Proof.
  intros Hl Hk. unfold DMX512_LOCKED. apply wp_bind, wp_gets. rewrite Hl. cbn beta iota.
  apply wp_bind, wp_modify, wp_bind. eapply wp_mono; [done|]. cbn. intros a s' HQ.
  by apply wp_bind, wp_modify, wp_ret.
Qed.

Lemma wp_get_port p v Q s : c_ports s !! p = Some v -> Q v s -> wp (get_port p) Q s.
Proof. intros Hp HQ. apply wp_bind, wp_get. by eapply wp_live. Qed.
Lemma wp_get_device d v Q s : c_devices s !! d = Some v -> Q v s -> wp (get_device d) Q s.
Proof. intros Hp HQ. apply wp_bind, wp_get. by eapply wp_live. Qed.

(** Two memories that agree on the rings of the queues. *)
Lemma fq_inv_frame m m' Q :
  fq_inv m Q ->
  (forall q, m_links m' !! QueueHead q = m_links m !! QueueHead q) ->
  (forall e, m_links m' !! EntryHead e = m_links m !! EntryHead e) ->
  dom (m_frames m') = dom (m_frames m) -> m_locks m' = m_locks m -> (m_next m <= m_next m')%nat ->
  fq_inv m' Q.
Proof.
  intros Hi Hq He Hf Hl Hn. split.
  - intros q l Hl'. eapply is_list_frame; [by eapply (fqi_list _ _ Hi)|].
    by intros x [->|(e & -> & _)%list_elem_of_fmap]%elem_of_cons.
  - apply (fqi_disj _ _ Hi).
  - intros e. rewrite Hf. intros Hin%(fqi_node _ _ Hi). apply elem_of_dom. rewrite He. by apply elem_of_dom.
  - rewrite Hf. apply (fqi_live _ _ Hi).
  - rewrite Hl. apply (fqi_unlocked _ _ Hi).
  - intros e. rewrite Hf. intros Hin%(fqi_fresh _ _ Hi). lia.
Qed.

(** A device's queue changes; everything else is where it was. *)
Definition set_queues (Q : gmap queue_id (list nat)) (a : core_abs) : core_abs :=
  CoreAbs Q (ca_devices a) (ca_ports a) (ca_all a).
Definition set_queue (q : queue_id) (l : list nat) (a : core_abs) : core_abs :=
  set_queues (<[q := l]> (ca_queues a)) a.

Lemma core_inv_queues s a m' Q' :
  core_inv s a -> fq_inv m' Q' ->
  (forall x, (forall q, x <> QueueHead q) -> (forall e, x <> EntryHead e) ->
     m_links m' !! x = m_links (c_mem s) !! x) ->
  (m_next (c_mem s) <= m_next m')%nat ->
  (forall q, is_Some (ca_queues a !! q) <-> is_Some (Q' !! q)) ->
  core_inv (with_mem m' s) (set_queues Q' a).
Proof.
  intros Hi Hf Hx Hn HQ.
  assert (forall x, (forall q, x <> QueueHead q) -> (forall e, x <> EntryHead e) ->
    x ∈ dom (m_links (c_mem s)) -> x ∈ dom (m_links m')) as Hdom.
  { intros x ??. rewrite !elem_of_dom. by rewrite Hx. }
  split; cbn.
  - done.
  - eapply is_list_frame; [apply (ci_devices _ _ Hi)|].
    by intros x [->|(e & -> & _)%list_elem_of_fmap]%elem_of_cons; apply Hx.
  - eapply is_list_frame; [apply (ci_all _ _ Hi)|].
    by intros x [->|(e & -> & _)%list_elem_of_fmap]%elem_of_cons; apply Hx.
  - intros d ps Hd. eapply is_list_frame; [by apply (ci_ports _ _ Hi)|].
    by intros x [->|(e & -> & _)%list_elem_of_fmap]%elem_of_cons; apply Hx.
  - apply (ci_device _ _ Hi).
  - intros d Hd. destruct (ci_device_live _ _ Hi d Hd). split; [done|]. by apply HQ.
  - apply HQ, (ci_free _ _ Hi).
  - intros d Hd%HQ. by apply (ci_queue _ _ Hi).
  - apply (ci_member _ _ Hi).
  - apply (ci_owner _ _ Hi).
  - intros p v Hp. destruct (ci_port_fresh _ _ Hi p v Hp) as (? & ? & ?).
    split_and!; [lia|by apply Hdom..].
  - intros d v Hd. destruct (ci_device_fresh _ _ Hi d v Hd) as (? & ?).
    split; [lia|by apply Hdom].
Qed.

Lemma core_inv_devices s a dv :
  core_inv s a -> dom dv = dom (c_devices s) -> core_inv (with_devices dv s) a.
Proof.
  intros Hi Hd. destruct Hi. split; cbn; try done.
  - intros d Hin. destruct (ci_device_live0 d Hin) as [Hs ?]. split; [|done].
    apply elem_of_dom. rewrite Hd. by apply elem_of_dom.
  - intros d v Hv. apply elem_of_dom_2 in Hv. rewrite Hd in Hv.
    apply elem_of_dom in Hv as [w Hw]. by eapply ci_device_fresh0.
Qed.

Lemma core_put_spec s a q l e (Q : Z -> core -> Prop) :
  core_inv s a -> ca_queues a !! q = Some l ->
  e ∈ dom (m_frames (c_mem s)) -> loose (ca_queues a) e ->
  (forall m', core_inv (with_mem m' s) (set_queue q (l ++ [e]) a) ->
     same_rest (c_mem s) m' -> Q 0 (with_mem m' s)) ->
  wp (in_mem (dmx512_framequeue_put (Some q) (Some e))) Q s.
Proof.
  intros Hi Hq He Hloose HQ. apply wp_in_mem.
  eapply wp_mono; [by eapply put_spec; [apply (ci_fq _ _ Hi)|..]|].
  intros ? m' (-> & Hf & Hr). apply HQ; [|done]. destruct Hr as (Hfr & Hn & Hx).
  apply core_inv_queues; [done..|lia|].
  intros q2. destruct (decide (q2 = q)) as [->|];
    rewrite ?lookup_insert_eq, ?lookup_insert_ne by done; [|done]. split; by eauto.
Qed.

Lemma core_get_spec s a q l (Q : option nat -> core -> Prop) :
  core_inv s a -> ca_queues a !! q = Some l ->
  (forall m', core_inv (with_mem m' s) (set_queue q (tail l) a) ->
     same_rest (c_mem s) m' -> Q (head l) (with_mem m' s)) ->
  wp (in_mem (dmx512_framequeue_get (Some q))) Q s.
Proof.
  intros Hi Hq HQ. apply wp_in_mem.
  eapply wp_mono; [by eapply get_spec; [apply (ci_fq _ _ Hi)|..]|].
  intros ? m' (-> & Hf & Hr). apply HQ; [|done]. destruct Hr as (Hfr & Hn & Hx).
  apply core_inv_queues; [done..|lia|].
  intros q2. destruct (decide (q2 = q)) as [->|];
    rewrite ?lookup_insert_eq, ?lookup_insert_ne by done; [|done]. split; by eauto.
Qed.

(** The first entry of a queue that is taken out is in no queue. *)
Lemma head_loose m Q q e l :
  fq_inv m Q -> Q !! q = Some (e :: l) -> loose (<[q := l]> Q) e /\ e ∈ dom (m_frames m).
Proof.
  intros Hi Hq. split; [|eapply (fqi_live _ _ Hi); [done|set_solver]].
  pose proof (fqi_NoDup _ _ _ _ Hi Hq) as [He _]%NoDup_cons.
  intros q2 l2. destruct (decide (q2 = q)) as [->|];
    rewrite ?lookup_insert_eq, ?lookup_insert_ne by done; [by intros [= <-]|].
  intros Hq2 Hin. assert (q2 = q); [|done].
  eapply (fqi_disj _ _ Hi); [done..|set_solver].
Qed.

Lemma isempty_core s a q l :
  core_inv s a -> ca_queues a !! q = Some l ->
  in_mem (dmx512_framequeue_isempty (Some q)) s = Done (bool_decide (l = []), s).
Proof.
  intros Hi Hq. pose proof (isempty_spec _ _ _ _ (ci_fq _ _ Hi) Hq) as Hw.
  apply wp_run in Hw as (b & m & Hb & -> & ->). unfold in_mem. rewrite Hb. by destruct s.
Qed.

(** Writing the contents of a frame. *)
Lemma core_update_frame s a e f v (Q : unit -> core -> Prop) :
  core_inv s a -> m_frames (c_mem s) !! e = Some v ->
  (forall s', core_inv s' a -> s' = with_mem (with_frames (<[e := f v]> (m_frames (c_mem s))) (c_mem s)) s ->
     Q tt s') ->
  wp (in_mem (update_frame e f)) Q s.
Proof.
  intros Hi He HQ. apply wp_in_mem. unfold update_frame. wp_steps. apply HQ; [|done].
  assert (dom (<[e := f v]> (m_frames (c_mem s))) = dom (m_frames (c_mem s))) as Hd.
  { rewrite dom_insert_L. apply elem_of_dom_2 in He. set_solver. }
  pose proof (fq_inv_frame (c_mem s) (with_frames (<[e := f v]> (m_frames (c_mem s))) (c_mem s))
    _ (ci_fq _ _ Hi) (fun _ => eq_refl) (fun _ => eq_refl) Hd eq_refl (le_n _)) as Hf.
  destruct a. by eapply (core_inv_queues _ _ _ _ Hi Hf).
Qed.

(** ** The rings of the ports *)

(** The ports of [d] become [ps'] and the list of all ports [all']. *)
Definition set_ports (d : nat) (ps' all' : list nat) (a : core_abs) : core_abs :=
  CoreAbs (ca_queues a) (ca_devices a) (<[d := ps']> (ca_ports a)) all'.

(** The nodes of the ports' rings. *)
Definition port_node (x : addr) : Prop :=
  match x with PortDeviceItem _ | DevicePorts _ | PortListItem _ | AllPorts => True | _ => False end.

Lemma core_inv_relink s a h' po' d ps ps' all' :
  core_inv s a -> ca_ports a !! d = Some ps ->
  is_list h' (DevicePorts d) (PortDeviceItem <$> ps') ->
  is_list h' AllPorts (PortListItem <$> all') ->
  (forall x, ~ port_node x -> h' !! x = m_links (c_mem s) !! x) ->
  (forall d2, d2 <> d -> h' !! DevicePorts d2 = m_links (c_mem s) !! DevicePorts d2) ->
  (forall p, p ∉ ps -> p ∉ ps' -> h' !! PortDeviceItem p = m_links (c_mem s) !! PortDeviceItem p) ->
  dom h' = dom (m_links (c_mem s)) -> dom po' = dom (c_ports s) ->
  (forall p, p ∈ all' <-> p ∈ ps' \/ (p ∈ ca_all a /\ p ∉ ps)) ->
  (forall p, p ∈ ps' -> p ∈ ps \/ p ∉ ca_all a) ->
  (forall p, p ∈ ps' -> exists v, po' !! p = Some v /\ p_device v = Some d) ->
  (forall p, p ∈ ca_all a -> p ∉ ps -> po' !! p = c_ports s !! p) ->
  core_inv (with_ports po' (with_mem (with_links h' (c_mem s)) s)) (set_ports d ps' all' a).
Proof.
  intros Hi Hd Hps Hall Hother Hheads Hitems Hdom Hpo Hmem Hnew Hps' Hkeep.
  assert (forall d2 ps2 p, d2 <> d -> ca_ports a !! d2 = Some ps2 -> p ∈ ps2 ->
    p ∈ ca_all a /\ p ∉ ps /\ p ∉ ps') as Hdisj.
  { intros d2 ps2 p Hne Hd2 Hp. destruct (ci_member _ _ Hi _ _ _ Hd2 Hp) as (Hin & v & Hv & Hvd).
    assert (p ∉ ps) as Hnp.
    { intros (_ & w & Hw & Hwd)%(ci_member _ _ Hi _ _ _ Hd). congruence. }
    split_and!; [done|done|]. intros [|]%Hnew; done. }
  split; cbn.
  - eapply fq_inv_frame; [apply (ci_fq _ _ Hi)|..]; try done; intros; apply Hother; by intros [].
  - eapply is_list_frame; [apply (ci_devices _ _ Hi)|].
    intros x [->|(e & -> & _)%list_elem_of_fmap]%elem_of_cons; apply Hother; by cbn; auto.
  - done.
  - intros d2 ps2. destruct (decide (d2 = d)) as [->|Hne];
      rewrite ?lookup_insert_eq, ?lookup_insert_ne by done; [by intros [= <-]|].
    intros Hd2. eapply is_list_frame; [by apply (ci_ports _ _ Hi)|].
    intros x [->|(p & -> & Hp)%list_elem_of_fmap]%elem_of_cons; [by apply Hheads|].
    destruct (Hdisj _ _ _ Hne Hd2 Hp) as (_ & ? & ?). by apply Hitems.
  - intros d2. rewrite <- (ci_device _ _ Hi). destruct (decide (d2 = d)) as [->|Hne];
      rewrite ?lookup_insert_eq, ?lookup_insert_ne by done; [|done]. rewrite Hd. by split; eauto.
  - apply (ci_device_live _ _ Hi).
  - apply (ci_free _ _ Hi).
  - apply (ci_queue _ _ Hi).
  - intros d2 ps2 p. destruct (decide (d2 = d)) as [->|Hne];
      rewrite ?lookup_insert_eq, ?lookup_insert_ne by done.
    + intros [= <-] Hp. split; [apply Hmem; by left|by apply Hps'].
    + intros Hd2 Hp. destruct (Hdisj _ _ _ Hne Hd2 Hp) as (? & ? & ?).
      destruct (ci_member _ _ Hi _ _ _ Hd2 Hp) as (_ & v & ? & ?).
      split; [apply Hmem; by right|]. exists v. by rewrite Hkeep.
  - intros p [Hp|[Hp Hnp]]%Hmem; [exists d, ps'; by rewrite lookup_insert_eq|].
    destruct (ci_owner _ _ Hi p Hp) as (d2 & ps2 & Hd2 & Hp2). exists d2, ps2.
    rewrite lookup_insert_ne; [done|]. intros <-. by simplify_eq.
  - intros p v Hv. rewrite Hdom. apply elem_of_dom_2 in Hv. rewrite Hpo in Hv.
    apply elem_of_dom in Hv as [w Hw]. by eapply (ci_port_fresh _ _ Hi).
  - intros d2 v Hv. rewrite Hdom. by eapply (ci_device_fresh _ _ Hi).
Qed.

Lemma elem_fmap_inj (f : nat -> addr) `{!Inj (=) (=) f} x (l : list nat) : f x ∈ f <$> l <-> x ∈ l.
Proof. split; [apply list_elem_of_fmap_inj; apply _|apply list_elem_of_fmap_2]. Qed.
#[export] Instance PortDeviceItem_inj : Inj (=) (=) PortDeviceItem.
Proof. by intros ?? [=]. Qed.
#[export] Instance PortListItem_inj : Inj (=) (=) PortListItem.
Proof. by intros ?? [=]. Qed.
#[export] Instance DeviceItem_inj : Inj (=) (=) DeviceItem.
Proof. by intros ?? [=]. Qed.

(** A ring whose nodes are the images of a list of names. *)
Lemma list_add_tail_items h hd (f : nat -> addr) `{!Inj (=) (=) f} p (l : list nat) :
  is_list h hd (f <$> l) -> f p ∈ dom h -> (forall q, f q <> hd) -> p ∉ l ->
  exists h', list_add_tail (f p) hd h = Done h' /\ is_list h' hd (f <$> l ++ [p]) /\
    (forall x, x <> hd -> (forall q, q ∈ p :: l -> x <> f q) -> h' !! x = h !! x) /\ dom h' = dom h.
Proof.
  intros Hl Hd Hhd Hp.
  destruct (list_add_tail_spec h (f p) hd (f <$> l)) as (h' & ? & Hl' & Hout & ?); [done..| |].
  { rewrite elem_of_cons, elem_fmap_inj by done. intros [?|?]; [by eapply Hhd|done]. }
  exists h'. split_and!; [done|by rewrite fmap_app| |done].
  intros x Hx Hxf. apply Hout. rewrite !elem_of_cons. intros [->|[->|(q & -> & ?)%list_elem_of_fmap]];
    [by apply (Hxf p); [set_solver|]|done|by apply (Hxf q); [set_solver|]].
Qed.
Lemma list_del_items h hd (f : nat -> addr) `{!Inj (=) (=) f} p (l : list nat) :
  is_list h hd (f <$> l) -> p ∈ l ->
  exists h' l1 l2, l = l1 ++ p :: l2 /\ list_del (f p) h = Done h' /\
    is_list h' hd (f <$> l1 ++ l2) /\
    (forall x, x <> hd -> (forall q, q ∈ l -> x <> f q) -> h' !! x = h !! x) /\ dom h' = dom h.
Proof.
  intros Hl (l1 & l2 & ->)%list_elem_of_split. rewrite fmap_app, fmap_cons in Hl.
  destruct (list_del_spec h (f p) hd (f <$> l1) (f <$> l2)) as (h' & ? & Hl' & Hout & ?); [done|].
  exists h', l1, l2. split_and!; [done|done|by rewrite fmap_app| |done].
  intros x Hx Hxf. apply Hout. rewrite elem_of_cons, <- fmap_app.
  intros [->|(q & -> & ?)%list_elem_of_fmap]; [done|]. apply (Hxf q); [set_solver|done].
Qed.

(** ** Adding and removing ports *)

Lemma _add_port_spec s a d ps p v :
  core_inv s a -> ca_ports a !! d = Some ps -> c_ports s !! p = Some v -> p ∉ ca_all a ->
  wp (_dmx512_add_port d p)
     (fun r s' => r = 0 /\ core_inv s' (set_ports d (ps ++ [p]) (ca_all a ++ [p]) a) /\
        c_locked s' = c_locked s /\ c_ports s' = <[p := set_device (Some d) v]> (c_ports s) /\
        m_frames (c_mem s') = m_frames (c_mem s) /\ m_next (c_mem s') = m_next (c_mem s) /\
        c_devices s' = c_devices s) s.
Proof.
  intros Hi Hd Hp Hall. assert (p ∉ ps) as Hps by (intros Hin; by apply (ci_member _ _ Hi _ _ _ Hd) in Hin as [? _]).
  destruct (ci_port_fresh _ _ Hi _ _ Hp) as (_ & Hn1 & Hn2).
  destruct (list_add_tail_items _ _ PortDeviceItem p _ (ci_ports _ _ Hi _ _ Hd))
    as (h1 & Hadd1 & Hl1 & Hout1 & Hd1); [done..|].
  destruct (list_add_tail_items h1 AllPorts PortListItem p (ca_all a))
    as (h2 & Hadd2 & Hl2 & Hout2 & Hd2); [|by rewrite Hd1|done|done|].
  { eapply is_list_frame; [apply (ci_all _ _ Hi)|].
    by intros x [->|(e & -> & _)%list_elem_of_fmap]%elem_of_cons; apply Hout1. }
  unfold _dmx512_add_port. apply wp_bind. eapply wp_get_port; [done|].
  apply wp_bind, wp_modify, wp_bind. eapply wp_links_op; [done|]. cbn.
  apply wp_bind. eapply wp_links_op; [done|]. apply wp_ret. split; [done|]. split; [|done].
  eapply core_inv_ext; [eapply (core_inv_relink s a h2 (<[p := set_device (Some d) v]> (c_ports s)) d ps)|done..].
  - done.
  - done.
  - eapply is_list_frame; [done|].
    by intros x [->|(e & -> & _)%list_elem_of_fmap]%elem_of_cons; apply Hout2.
  - done.
  - intros x Hx. rewrite Hout2, Hout1; [done|..]; intros; intros ->; by apply Hx.
  - intros d2 Hne. rewrite Hout2, Hout1; [done|congruence|done..].
  - intros q Hq Hq'. rewrite Hout2, Hout1; [done|done| |done|done].
    intros q2 Hq2 [= <-]. set_solver.
  - by rewrite Hd2, Hd1.
  - rewrite dom_insert_L. apply elem_of_dom_2 in Hp. set_solver.
  - intros q. rewrite !elem_of_app, list_elem_of_singleton.
    pose proof (ci_member _ _ Hi d ps q Hd). destruct (decide (q ∈ ps)); naive_solver.
  - intros q [?|Hq%list_elem_of_singleton]%elem_of_app; subst; by auto.
  - intros q. destruct (decide (q = p)) as [->|Hne].
    + intros _. rewrite lookup_insert_eq. eexists. split; [done|]. by destruct v.
    + rewrite lookup_insert_ne by done. rewrite elem_of_app, list_elem_of_singleton.
      intros [Hq|]; [|done]. by apply (ci_member _ _ Hi _ _ _ Hd).
  - intros q Hq _. apply lookup_insert_ne. by intros ->.
Qed.

Lemma _remove_port_spec s a d ps p :
  core_inv s a -> ca_ports a !! d = Some ps -> p ∈ ps ->
  wp (_dmx512_remove_port p)
     (fun r s' => r = 0 /\ c_locked s' = c_locked s /\
        m_frames (c_mem s') = m_frames (c_mem s) /\ m_next (c_mem s') = m_next (c_mem s) /\
        dom (m_links (c_mem s')) = dom (m_links (c_mem s)) /\
        c_devices s' = c_devices s /\
        (exists v, c_ports s !! p = Some v /\ c_ports s' = <[p := set_device None v]> (c_ports s)) /\
        exists l1 l2 k1 k2, ps = l1 ++ p :: l2 /\ ca_all a = k1 ++ p :: k2 /\
          core_inv s' (set_ports d (l1 ++ l2) (k1 ++ k2) a)) s.
Proof.
  intros Hi Hd Hps. destruct (ci_member _ _ Hi _ _ _ Hd Hps) as (Hall & v & Hp & Hv).
  destruct (list_del_items _ _ PortDeviceItem p _ (ci_ports _ _ Hi _ _ Hd))
    as (h1 & l1 & l2 & Hps' & Hdel1 & Hl1 & Hout1 & Hd1); [done..|].
  destruct (list_del_items h1 AllPorts PortListItem p (ca_all a))
    as (h2 & k1 & k2 & Hall' & Hdel2 & Hl2 & Hout2 & Hd2); [|done|].
  { eapply is_list_frame; [apply (ci_all _ _ Hi)|].
    by intros x [->|(e & -> & _)%list_elem_of_fmap]%elem_of_cons; apply Hout1. }
  unfold _dmx512_remove_port. apply wp_bind. eapply wp_get_port; [done|].
  apply wp_bind. eapply wp_links_op; [done|]. cbn.
  apply wp_bind. eapply wp_links_op; [done|]. apply wp_bind, wp_modify, wp_ret.
  split_and!; [done..|by cbn; rewrite Hd2|done|by eauto|]. exists l1, l2, k1, k2. split_and!; [done..|].
  pose proof (is_list_NoDup _ _ _ (ci_ports _ _ Hi _ _ Hd)) as [_ Hnd1%NoDup_fmap_1]%NoDup_cons.
  pose proof (is_list_NoDup _ _ _ (ci_all _ _ Hi)) as [_ Hnd2%NoDup_fmap_1]%NoDup_cons.
  assert (p ∉ l1 ++ l2 /\ p ∉ k1 ++ k2) as [Hnl Hnk].
  { rewrite Hps' in Hnd1. rewrite Hall' in Hnd2.
    apply NoDup_app in Hnd1 as (_ & H1 & [H2 _]%NoDup_cons).
    apply NoDup_app in Hnd2 as (_ & H3 & [H4 _]%NoDup_cons).
    rewrite !elem_of_app. split; intros [Hin|Hin]; [by eapply H1; [done|set_solver]|done|by eapply H3; [done|set_solver]|done]. }
  eapply core_inv_ext; [eapply (core_inv_relink s a h2 (<[p := set_device None v]> (c_ports s)) d ps (l1 ++ l2) (k1 ++ k2))|done..].
  - done.
  - done.
  - eapply is_list_frame; [done|].
    by intros x [->|(e & -> & _)%list_elem_of_fmap]%elem_of_cons; apply Hout2.
  - done.
  - intros x Hx. rewrite Hout2, Hout1; [done|..]; intros; intros ->; by apply Hx.
  - intros d2 Hne. rewrite Hout2, Hout1; [done|congruence|done..].
  - intros q Hq Hq'. rewrite Hout2, Hout1; [done|done| |done|done].
    intros q2 Hq2 [= <-]. done.
  - by rewrite Hd2, Hd1.
  - rewrite dom_insert_L. apply elem_of_dom_2 in Hp. set_solver.
  - intros q. pose proof (ci_member _ _ Hi d ps q Hd) as Hm.
    rewrite Hps', Hall', !elem_of_app, !elem_of_cons in *. clear -Hm Hnl Hnk.
    destruct (decide (q = p)) as [->|]; [naive_solver|].
    destruct (decide (q ∈ l1)), (decide (q ∈ l2)); naive_solver.
  - intros q Hq. left. rewrite Hps'. set_solver.
  - intros q Hq. destruct (decide (q = p)) as [->|Hne]; [done|].
    rewrite lookup_insert_ne by done. apply (ci_member _ _ Hi _ _ q Hd). rewrite Hps'. set_solver.
  - intros q Hq Hq'. apply lookup_insert_ne. by intros ->.
Qed.

(** ** Freeing *)

(** Deleting nodes that are in no ring. *)
Lemma core_inv_free_port s a p :
  core_inv s a -> p ∉ ca_all a ->
  core_inv (with_mem (with_links (delete (PortDeviceItem p) (delete (PortListItem p) (m_links (c_mem s)))) (c_mem s))
             (with_ports (delete p (c_ports s)) s)) a.
Proof.
  intros Hi Hp.
  assert (forall x, x <> PortDeviceItem p -> x <> PortListItem p ->
    delete (PortDeviceItem p) (delete (PortListItem p) (m_links (c_mem s))) !! x = m_links (c_mem s) !! x) as Hx.
  { intros x ??. by rewrite !lookup_delete_ne. }
  assert (forall x, x <> PortDeviceItem p -> x <> PortListItem p -> x ∈ dom (m_links (c_mem s)) ->
    x ∈ dom (delete (PortDeviceItem p) (delete (PortListItem p) (m_links (c_mem s))))) as Hd.
  { intros x ??. rewrite !elem_of_dom. by rewrite Hx. }
  split; cbn -[delete].
  - eapply fq_inv_frame; [apply (ci_fq _ _ Hi)|..]; try done; intros; by apply Hx.
  - eapply is_list_frame; [apply (ci_devices _ _ Hi)|].
    by intros x [->|(e & -> & _)%list_elem_of_fmap]%elem_of_cons; apply Hx.
  - eapply is_list_frame; [apply (ci_all _ _ Hi)|].
    intros x [->|(e & -> & He)%list_elem_of_fmap]%elem_of_cons; apply Hx; congruence.
  - intros d ps Hps. eapply is_list_frame; [by apply (ci_ports _ _ Hi)|].
    intros x [->|(q & -> & He)%list_elem_of_fmap]%elem_of_cons; apply Hx; try done.
    apply (ci_member _ _ Hi _ _ _ Hps) in He as [? _]. congruence.
  - apply (ci_device _ _ Hi).
  - apply (ci_device_live _ _ Hi).
  - apply (ci_free _ _ Hi).
  - apply (ci_queue _ _ Hi).
  - intros d ps q Hps Hq. destruct (ci_member _ _ Hi _ _ _ Hps Hq) as (Hin & v & ? & ?).
    split; [done|]. exists v. rewrite lookup_delete_ne; [done|]. by intros ->.
  - apply (ci_owner _ _ Hi).
  - intros q v [Hne Hq]%lookup_delete_Some. destruct (ci_port_fresh _ _ Hi _ _ Hq) as (? & ? & ?).
    split_and!; [done|apply Hd; congruence..].
  - intros d v Hv. destruct (ci_device_fresh _ _ Hi _ _ Hv) as (? & ?). split; [done|by apply Hd].
Qed.

Lemma kfree_port_spec s a p v (Q : unit -> core -> Prop) :
  core_inv s a -> c_ports s !! p = Some v -> p ∉ ca_all a ->
  (forall s', core_inv s' a -> c_ports s' = delete p (c_ports s) -> c_locked s' = c_locked s ->
     c_devices s' = c_devices s -> m_frames (c_mem s') = m_frames (c_mem s) ->
     m_next (c_mem s') = m_next (c_mem s) -> Q tt s') ->
  wp (kfree_port p) Q s.
Proof.
  intros Hi Hp Hall HQ. unfold kfree_port. apply wp_bind. eapply wp_get_port; [done|].
  apply wp_bind, wp_modify. eapply wp_links_op; [reflexivity|]. apply HQ; [|done..].
  exact (core_inv_free_port s a p Hi Hall).
Qed.

(** What [unregister] leaves of the list of all ports. *)
Definition without (ps all : list nat) : list nat := filter (fun p => p ∉ ps) all.
#[global] Arguments without : simpl never.

Lemma without_nil all : without [] all = all.
Proof.
  induction all as [|p all IH]; [done|]. unfold without in *.
  rewrite filter_cons_True by set_solver. by rewrite IH.
Qed.
Lemma without_one p k1 k2 : NoDup (k1 ++ p :: k2) -> without [p] (k1 ++ p :: k2) = k1 ++ k2.
Proof.
  intros (Hd1 & Hne & [Hp Hd2]%NoDup_cons)%NoDup_app.
  assert (forall k, p ∉ k -> without [p] k = k) as Hk.
  { induction k as [|q k IH]; [done|]. intros Hq. unfold without in *.
    rewrite filter_cons_True by set_solver. f_equal. apply IH. set_solver. }
  unfold without in *. rewrite filter_app, filter_cons_False by set_solver.
  rewrite !Hk; [done|done|]. intros Hin. eapply Hne; [done|set_solver].
Qed.
Lemma without_cons p ps all : without (p :: ps) all = without ps (without [p] all).
Proof.
  unfold without. rewrite list_filter_filter. apply list_filter_iff. intros q. set_solver.
Qed.

Lemma head_of_fmap {A B} (f : A -> B) (l : list A) : head (f <$> l) = f <$> head l.
Proof. by destruct l. Qed.
Lemma set_ports_id d ps a : ca_ports a !! d = Some ps -> set_ports d ps (ca_all a) a = a.
Proof. intros Hd. destruct a. unfold set_ports. cbn in *. by rewrite insert_id. Qed.

Lemma first_node h d (ps : list nat) :
  is_list h (DevicePorts d) (PortDeviceItem <$> ps) ->
  exists pos tmp, pos = default (DevicePorts d) (PortDeviceItem <$> head ps) /\
    get_next (DevicePorts d) h = Done pos /\ get_next pos h = Done tmp.
Proof.
  intros Hl. pose proof Hl as [_ Hc]. pose proof (chain_first _ _ _ _ Hc) as Hn%get_next_nx.
  rewrite <- head_of_fmap. destruct (is_list_next _ _ _ (default (DevicePorts d) (head (PortDeviceItem <$> ps))) Hl)
    as (tmp & Ht & _); [apply default_head_in|]. by eauto.
Qed.

(** The result of removing and freeing the ports [ps] of [d]. *)
Definition unregistered (d : nat) (ps : list nat) (a : core_abs) (s s' : core) : Prop :=
  core_inv s' (set_ports d [] (without ps (ca_all a)) a) /\
  c_locked s' = c_locked s /\ c_devices s' = c_devices s /\
  m_frames (c_mem s') = m_frames (c_mem s) /\ m_next (c_mem s') = m_next (c_mem s) /\
  forall p, c_ports s' !! p = if decide (p ∈ ps) then None else c_ports s !! p.

Lemma unregister_ports_spec d fuel i tmp ps s a :
  core_inv s a -> ca_ports a !! d = Some ps ->
  get_next (default (DevicePorts d) (PortDeviceItem <$> head ps)) (m_links (c_mem s)) = Done tmp ->
  (length ps <= fuel)%nat ->
  wp (for_each_port_safe (B := unit) fuel (default (DevicePorts d) (PortDeviceItem <$> head ps)) tmp (DevicePorts d)
        (fun _ port => _ ← _dmx512_remove_port port; kfree_port port ;; mret None) i)
     (fun r s' => unregistered d ps a s s') s.
Proof.
  revert s a ps i tmp. induction fuel as [|fuel IH]; intros s a ps i tmp Hi Hd Htmp Hf;
    (destruct ps as [|p ps]; cbn [head fmap option_fmap option_map default from_option id] in *; cbn [length] in Hf; [|try lia]).
  1, 2: cbn [for_each_port_safe]; rewrite bool_decide_true by done; apply wp_ret;
    unfold unregistered; rewrite without_nil, set_ports_id by done; split_and!; [done..|];
    intros p; by rewrite decide_False by set_solver.
  cbn [for_each_port_safe]. rewrite bool_decide_false by done.
  apply wp_bind. eapply wp_done; [reflexivity|].
  apply wp_bind, wp_bind. eapply wp_mono; [apply (_remove_port_spec s a d (p :: ps) p Hi Hd); set_solver|].
  intros _ s1 (_ & Hl1 & Hf1 & Hn1 & _ & Hdv1 & (v & Hp & Hpo1) & l1 & l2 & k1 & k2 & Hsplit & Hall & Hi1).
  pose proof (is_list_NoDup _ _ _ (ci_ports _ _ Hi _ _ Hd)) as [_ Hnd1%NoDup_fmap_1]%NoDup_cons.
  pose proof (is_list_NoDup _ _ _ (ci_all _ _ Hi)) as [_ Hnd2%NoDup_fmap_1]%NoDup_cons.
  assert (l1 = [] /\ l2 = ps) as [-> ->].
  { destruct l1 as [|x l1]; cbn in Hsplit; [by injection Hsplit|]. injection Hsplit as <- ->.
    apply NoDup_cons in Hnd1 as [Hnin _]. exfalso. apply Hnin. set_solver. }
  cbn [app] in Hi1. set (a1 := set_ports d ps (k1 ++ k2) a) in *.
  apply wp_bind. eapply kfree_port_spec; [done|by rewrite Hpo1, lookup_insert_eq| |].
  { cbn. rewrite Hall in Hnd2. apply NoDup_app in Hnd2 as (_ & Hx & [Hy _]%NoDup_cons).
    intros [Hin|Hin]%elem_of_app; [|done]. eapply Hx; [done|set_solver]. }
  intros s2 Hi2 Hpo2 Hl2 Hdv2 Hf2 Hn2. apply wp_ret.
  assert (ca_ports a1 !! d = Some ps) as Hd1 by (cbn; by rewrite lookup_insert_eq).
  (* the second position of the loop is the first of the ring that is left *)
  pose proof (ci_ports _ _ Hi _ _ Hd) as [_ [_ Hc]].
  pose proof (get_next_nx _ _ _ (chain_first _ _ _ _ Hc)) as Htmp'.
  rewrite head_of_fmap in Htmp'. rewrite Htmp' in Htmp. injection Htmp as <-.
  destruct (first_node _ _ _ (ci_ports _ _ Hi2 _ _ Hd1)) as (pos & nxt & -> & _ & Hnxt).
  apply wp_bind. eapply wp_done; [by apply in_mem_ask|].
  eapply wp_mono; [by eapply IH; [..|lia]|].
  intros _ s3 (Hi3 & Hl3 & Hdv3 & Hf3 & Hn3 & Hpo3). unfold unregistered.
  assert (set_ports d [] (without ps (ca_all a1)) a1 = set_ports d [] (without (p :: ps) (ca_all a)) a) as <-.
  { unfold a1, set_ports. cbn. rewrite insert_insert_eq, (without_cons p), Hall, without_one; [done|by rewrite <- Hall]. }
  split_and!; [done|congruence..|].
  intros q. rewrite Hpo3, Hpo2, Hpo1. destruct (decide (q = p)) as [->|Hne].
  - rewrite lookup_delete_eq. rewrite (decide_True (P := p ∈ p :: ps)) by set_solver. by case_decide.
  - rewrite lookup_delete_ne, lookup_insert_ne by done.
    destruct (decide (q ∈ ps)); [by rewrite decide_True by set_solver|by rewrite decide_False by set_solver].
Qed.
