(* ===== verification/CoreContract.v ===== *)
(** * The contract of the dmx512 core

    The theorems about [DmxCore]: filling the pool of frames, registering
    and unregistering devices, the ports and their indexes, and the way of a
    frame from the pool through a receive queue to a reader and back. *)
From stdpp Require Import base countable gmap strings list.
From S2P Require Import Prelude KList FrameQueue DmxCore.

(** ** Loading the module *)

(** The entries that [kzalloc] delivers among the next [n] allocations. *)
Definition allocated (kzalloc_ok : nat -> bool) (from n : nat) : list nat :=
  filter (fun e => kzalloc_ok e = true) (seq from n).

Definition abs_boot : core_abs := CoreAbs {[FreeQueue := []]} [] ∅ [].

Lemma boot_inv m :
  fq_inv m {[FreeQueue := []]} ->
  (forall x, (forall q, x <> QueueHead q) -> m_links m !! x = m_links (c_mem boot) !! x) ->
  core_inv (with_mem m boot) abs_boot.
Proof.
  intros Hf Hx.
  assert (forall d (P : Prop), is_Some ((∅ : gmap nat (list nat)) !! d) -> P) as Hemp.
  { intros d P. rewrite lookup_empty. by intros []. }
  split; cbn; try done.
  - eapply (is_list_frame (INIT_LIST_HEAD AllDevices ∅)); [apply INIT_LIST_HEAD_spec|].
    intros x [->|Hin]%elem_of_cons; [|set_solver]. by rewrite Hx.
  - eapply (is_list_frame (INIT_LIST_HEAD AllPorts ∅)); [apply INIT_LIST_HEAD_spec|].
    intros x [->|Hin]%elem_of_cons; [|set_solver]. by rewrite Hx.
  - intros d. split; [apply Hemp|set_solver].
  - intros d. set_solver.
  - intros d. rewrite lookup_singleton_ne by done. by intros [].
  - intros p. set_solver.
Qed.

Lemma allocated_S kzalloc_ok k n :
  allocated kzalloc_ok k (S n) = (if kzalloc_ok k then [k] else []) ++ allocated kzalloc_ok (S k) n.
Proof.
  unfold allocated. cbn [seq]. rewrite filter_cons. case_decide as Hk.
  - by rewrite Hk.
  - by destruct (kzalloc_ok k).
Qed.

(** One allocation, seen from the core. *)
Lemma core_alloc_spec kzalloc_ok s a :
  core_inv s a ->
  let k := m_next (c_mem s) in
  wp (in_mem (dmx512_framequeue_entry_alloc kzalloc_ok))
     (fun r s' => core_inv s' a /\ c_locked s' = c_locked s /\ m_next (c_mem s') = S k /\
        r = (if kzalloc_ok k then Some k else None) /\
        (kzalloc_ok k = true -> loose (ca_queues a) k /\ k ∈ dom (m_frames (c_mem s')))) s.
Proof.
  intros Hi k. apply wp_in_mem. unfold wp.
  assert (forall m', core_inv (with_mem m' s) (set_queues (ca_queues a) a) -> core_inv (with_mem m' s) a) as Hset.
  { by destruct a. }
  destruct (kzalloc_ok k) eqn:Hok.
  - pose proof (alloc_spec kzalloc_ok _ _ (ci_fq _ _ Hi) Hok) as Hw.
    unfold wp, dmx512_framequeue_entry_alloc in *. fold k in Hw |- *. rewrite Hok in *.
    destruct Hw as (_ & Hf & Hloose & Hfr & Hnone). split_and!; [|try done..].
    + apply Hset, core_inv_queues; [done|done| |cbn; lia|done].
      intros x Hx Hx'. unfold INIT_LIST_HEAD. cbn -[insert]. apply lookup_insert_ne.
      intros Heq. by apply (Hx' k).
    + intros _. split; [done|]. cbn. set_solver.
  - rewrite alloc_fail_spec by done. split_and!; [|done..].
    apply Hset, core_inv_queues; [done| |done|cbn; lia|done].
    eapply fq_inv_frame; [apply (ci_fq _ _ Hi)|..]; cbn; done || lia.
Qed.

Lemma fill_pool_spec kzalloc_ok n s a l :
  core_inv s a -> ca_queues a !! FreeQueue = Some l ->
  wp (fill_pool kzalloc_ok n)
     (fun _ s' => core_inv s' (set_queue FreeQueue (l ++ allocated kzalloc_ok (m_next (c_mem s)) n) a) /\
        c_locked s' = c_locked s) s.
Proof.
  revert s a l. induction n as [|n IH]; intros s a l Hi Hq; cbn [fill_pool].
  { apply wp_ret. unfold set_queue, set_queues, allocated. cbn. rewrite app_nil_r, insert_id by done.
    by destruct a. }
  apply wp_bind. eapply wp_mono; [by apply core_alloc_spec|].
  cbn beta. intros r s1 (Hi1 & Hl1 & Hn1 & -> & Hsome). rewrite allocated_S.
  destruct (kzalloc_ok (m_next (c_mem s))).
  - destruct Hsome as [Hloose Hdom]; [done|]. apply wp_bind.
    eapply core_put_spec; [done..|]. intros m2 Hi2 (_ & Hn2 & _).
    eapply wp_mono; [apply IH; [done|cbn; by rewrite lookup_insert_eq]|].
    cbn. intros _ s3 [Hi3 Hl3]. rewrite Hn2, Hn1, <- app_assoc in Hi3.
    unfold set_queue, set_queues in *. cbn in *. rewrite insert_insert_eq in Hi3.
    split; [done|congruence].
  - apply wp_bind. cbn.
    eapply wp_mono; [apply (IH (with_mem (c_mem s1) s1) a l); [by destruct s1|done]|].
    cbn. intros _ s3 [Hi3 Hl3]. rewrite Hn1 in Hi3. split; [done|congruence].
Qed.

Lemma core_init_lemma kzalloc_ok :
  wp (dmx512_core_init kzalloc_ok) (fun r s' => r = 0 /\
    core_ok s' (CoreAbs {[FreeQueue := allocated kzalloc_ok 0 16]} [] ∅ [])) boot.
Proof.
  apply wp_bind, wp_in_mem. apply wp_bind. eapply wp_on_links; [done|]. apply wp_modify.
  set (m1 := with_locks _ _). assert (core_inv (with_mem m1 boot) abs_boot) as Hi.
  { apply boot_inv.
    - split; cbn; try done.
      + intros q l [<- <-]%lookup_singleton_Some. apply INIT_LIST_HEAD_spec.
      + intros q1 q2 l1 l2 e [<- <-]%lookup_singleton_Some. set_solver.
      + intros q l e [<- <-]%lookup_singleton_Some. set_solver.
    - intros x Hx. cbn -[insert]. apply lookup_insert_ne. intros Heq. by apply (Hx FreeQueue). }
  apply wp_bind. eapply wp_mono; [by eapply fill_pool_spec|].
  cbn beta. intros _ s' [Hi' Hl']. apply wp_ret. split; [done|]. split; [done|by rewrite Hl'].
Qed.

(** Loading the module leaves the core in a state that satisfies its
    invariant, with no device and no port, the lock free, and exactly the
    frames that could be allocated, of the 16 that are asked for, in the pool
    in the order of their allocation. *)
Theorem dmx512_core_init_pool (kzalloc_ok : nat -> bool) :
  exists s', dmx512_core_init kzalloc_ok boot = Done (0, s') /\
    core_ok s' (CoreAbs {[FreeQueue := allocated kzalloc_ok 0 16]} [] ∅ []).
Proof. destruct (proj1 (wp_run _ _ _) (core_init_lemma kzalloc_ok)) as (r & s' & ? & -> & ?). by eauto. Qed.

(** ** The ports of a device *)

Lemma index_of_nth ps i p : NoDup ps -> ps !! i = Some p -> index_of p ps = Z.of_nat i.
Proof.
  intros Hnd Hi. unfold index_of.
  destruct (list_find (eq p) ps) as [[k q]|] eqn:Hf.
  - apply list_find_Some in Hf as (Hk & <- & _). f_equal. by eapply NoDup_lookup.
  - apply list_find_None in Hf. apply list_elem_of_lookup_2 in Hi.
    rewrite Forall_forall in Hf. by destruct (Hf p Hi).
Qed.

Lemma ports_NoDup s a d ps : core_inv s a -> ca_ports a !! d = Some ps -> NoDup ps.
Proof.
  intros Hi Hd. pose proof (is_list_NoDup _ _ _ (ci_ports _ _ Hi _ _ Hd)) as [_ Hnd]%NoDup_cons.
  by apply NoDup_fmap_1 in Hnd.
Qed.

Lemma port_index_lemma s a d ps i p :
  core_ok s a -> ca_ports a !! d = Some ps -> ps !! i = Some p ->
  dmx512_port_index (Some p) s = Done (Z.of_nat i, s).
Proof.
  intros [Hi Hl] Hd Hp.
  destruct (ci_member _ _ Hi d ps p Hd) as (_ & v & Hv & Hvd); [by eapply list_elem_of_lookup_2|].
  rewrite (dmx512_port_index_spec s a d ps p v) by (done || by split).
  by rewrite (index_of_nth _ i) by (done || by eapply ports_NoDup).
Qed.

(** The index of a port and the port of an index are inverse to each
    other: the ports of a device are numbered from 0 in the order in which
    they were added, every index below the number of ports finds its port,
    every other index finds none, and looking changes nothing. *)
Theorem port_index_roundtrip s a d ps :
  core_ok s a -> ca_ports a !! d = Some ps ->
  (forall i p, ps !! i = Some p ->
     dmx512_port_index (Some p) s = Done (Z.of_nat i, s) /\
     dmx512_port_by_index (Some d) (Z.of_nat i) s = Done (Some p, s)) /\
  (forall i, i < 0 \/ Z.of_nat (length ps) <= i ->
     dmx512_port_by_index (Some d) i s = Done (None, s)).
Proof.
  intros Hok Hd. split.
  - intros i p Hp. split; [by eapply port_index_lemma|].
    rewrite (dmx512_port_by_index_spec s a d ps) by done.
    rewrite (proj2 (Z.leb_le _ _)) by lia. by rewrite Nat2Z.id, Hp.
  - intros i Hi. rewrite (dmx512_port_by_index_spec s a d ps) by done.
    destruct (Z.leb_spec 0 i); [|done]. rewrite lookup_ge_None_2 by lia. done.
Qed.

Lemma core_wake s a d (Q : unit -> core -> Prop) :
  core_inv s a -> d ∈ ca_devices a ->
  (forall v, c_devices s !! d = Some v ->
     core_inv (with_devices (<[d := device_wake v]> (c_devices s)) s) a ->
     Q tt (with_devices (<[d := device_wake v]> (c_devices s)) s)) ->
  wp (wake_up d) Q s.
Proof.
  intros Hi Hd HQ. destruct (ci_device_live _ _ Hi d Hd) as [[v Hv] _].
  apply wp_bind. eapply wp_get_device; [done|]. apply wp_modify. apply HQ; [done|].
  apply core_inv_devices; [done|]. rewrite dom_insert_L. apply elem_of_dom_2 in Hv. set_solver.
Qed.

(** What a received frame does. *)
Definition received (s : core) (a : core_abs) (d i e : nat) (l : list nat) (f : dmx512frame) (s' : core) : Prop :=
  core_ok s' (set_queue (DevQueue d) (l ++ [e]) a) /\
  m_frames (c_mem s') = <[e := with_port (Z.of_nat i mod 2 ^ 16) f]> (m_frames (c_mem s)) /\
  c_ports s' = c_ports s /\ c_modref s' = c_modref s /\
  exists v, c_devices s !! d = Some v /\ c_devices s' = <[d := device_wake v]> (c_devices s).

Lemma received_frame_lemma s a d ps i p l e f :
  core_ok s a -> ca_ports a !! d = Some ps -> ps !! i = Some p ->
  ca_queues a !! DevQueue d = Some l ->
  m_frames (c_mem s) !! e = Some f -> loose (ca_queues a) e ->
  wp (dmx512_received_frame (Some p) (Some e)) (fun r s' => r = 0 /\ received s a d i e l f s') s.
Proof.
  intros [Hi Hl] Hd Hp Hq Hf Hloose. assert (p ∈ ps) as Hin by by eapply list_elem_of_lookup_2.
  destruct (ci_member _ _ Hi d ps p Hd Hin) as (_ & v & Hv & Hvd).
  unfold dmx512_received_frame. apply wp_bind. eapply wp_get_port; [done|]. rewrite Hvd.
  apply wp_bind. eapply wp_done; [eapply (port_index_lemma s a); [by split|done|done]|].
  apply wp_bind, wp_ret. apply wp_bind. eapply core_update_frame; [done..|].
  intros s1 Hi1 ->. apply wp_bind.
  eapply core_put_spec; [done|done| |done|].
  { cbn. rewrite dom_insert_L. set_solver. }
  intros m2 Hi2 (Hfr2 & Hn2 & Hx2). apply wp_bind. eapply core_wake; [done| |].
  { cbn. apply (ci_device _ _ Hi). eauto. }
  intros w Hw Hi3. apply wp_ret. split; [done|]. split; [by split|]. by eauto 10.
Qed.

(** A driver that hands over a frame for a port of a device has it
    appended to the receive queue of that device, behind the frames that are
    there, stamped with the index of the port; the contents of all other
    frames are unchanged and the readers of the device are woken once.  For
    no port, or a port of no device, the call fails and changes nothing. *)
Theorem received_frame_appends s a d ps i p l e f :
  core_ok s a -> ca_ports a !! d = Some ps -> ps !! i = Some p ->
  ca_queues a !! DevQueue d = Some l ->
  m_frames (c_mem s) !! e = Some f -> loose (ca_queues a) e ->
  (exists s', dmx512_received_frame (Some p) (Some e) s = Done (0, s') /\
     received s a d i e l f s') /\
  dmx512_received_frame None (Some e) s = Done (-1, s) /\
  (forall p2 v2, c_ports s !! p2 = Some v2 -> p_device v2 = None ->
     dmx512_received_frame (Some p2) (Some e) s = Done (-1, s)).
Proof.
  intros Hok Hd Hp Hq Hf Hloose. split_and!.
  - pose proof (received_frame_lemma s a d ps i p l e f Hok Hd Hp Hq Hf Hloose) as Hw.
    apply wp_run in Hw as (r & s' & ? & -> & ?). by eauto.
  - done.
  - intros p2 v2 Hp2 Hv2.
    unfold dmx512_received_frame, get_port, mbind, prog_bind, get_state. rewrite Hp2. cbn. by rewrite Hv2.
Qed.

(** ** Reading *)

(** What a reader gets from a queue with the entries [l]: nothing when it is
    empty, and otherwise a copy of the oldest frame, which goes back to the
    pool. *)
Definition delivered (s : core) (a : core_abs) (d : nat) (l free : list nat) (copy : Z)
    (r : Z * option dmx512frame) (s' : core) : Prop :=
  m_frames (c_mem s') = m_frames (c_mem s) /\ c_ports s' = c_ports s /\
  match l with
  | [] => r = (0, None) /\ core_ok s' a
  | e :: l' => exists f, m_frames (c_mem s) !! e = Some f /\
      r = (if copy =? 0 then (SIZEOF_FRAME, Some f) else (0, None)) /\
      core_ok s' (set_queue FreeQueue (free ++ [e]) (set_queue (DevQueue d) l' a))
  end.

Lemma set_queue_id a q l : ca_queues a !! q = Some l -> set_queue q l a = a.
Proof. intros Hq. destruct a. unfold set_queue, set_queues. cbn in *. by rewrite insert_id. Qed.

Lemma read_tail_lemma s a d l free copy :
  core_ok s a -> ca_queues a !! DevQueue d = Some l -> ca_queues a !! FreeQueue = Some free ->
  wp (e ← in_mem (dmx512_framequeue_get (Some (DevQueue d)));
      match e with
      | None => mret (0, None)
      | Some e =>
          m ← gets c_mem;
          f ← live (m_frames m !! e);
          _ ← in_mem (dmx512_framequeue_put (Some FreeQueue) (Some e));
          mret (if copy =? 0 then (SIZEOF_FRAME, Some f) else (0, None))
      end) (delivered s a d l free copy) s.
Proof.
  intros [Hi Hl] Hq Hfree. apply wp_bind. eapply core_get_spec; [done..|].
  intros m' Hi' (Hf' & _). destruct l as [|e l]; cbn [head tail] in *.
  - rewrite set_queue_id in Hi' by done. by apply wp_ret.
  - destruct (head_loose _ _ _ _ _ (ci_fq _ _ Hi) Hq) as [Hloose [f Hf]%elem_of_dom].
    apply wp_bind, wp_gets, wp_bind. eapply (wp_live _ f); [cbn; by rewrite Hf'|].
    apply wp_bind. eapply (core_put_spec _ _ _ free); [done| | |done|].
    { cbn. by rewrite lookup_insert_ne. }
    { cbn. rewrite Hf'. by apply elem_of_dom. }
    intros m2 Hi2 (Hf2 & _). apply wp_ret. split; [cbn in *; congruence|]. split; [done|]. by exists f.
Qed.

Lemma device_read_lemma sleep s a a1 d nonblock size copy l free l1 free1 :
  core_ok s a -> ca_queues a !! DevQueue d = Some l -> ca_queues a !! FreeQueue = Some free ->
  SIZEOF_FRAME <= size -> (l = [] -> nonblock = false) ->
  let s1 := if decide (l = []) then sleep d s else s in
  core_ok s1 a1 -> ca_queues a1 !! DevQueue d = Some l1 -> ca_queues a1 !! FreeQueue = Some free1 ->
  wp (dmx512_device_read sleep d nonblock size copy) (delivered s1 a1 d l1 free1 copy) s.
Proof.
  intros [Hi Hl] Hq Hfree Hsize Hnb s1 Hok1 Hq1 Hfree1. unfold dmx512_device_read.
  rewrite (proj2 (Z.ltb_ge _ _)) by done.
  apply wp_bind. eapply wp_done; [by eapply isempty_core|]. cbn beta.
  unfold s1 in *. destruct (decide (l = [])) as [->|Hne].
  - rewrite bool_decide_true by done. rewrite Hnb by done. cbn [andb when].
    apply wp_bind, wp_modify. by apply read_tail_lemma.
  - rewrite bool_decide_false by done. cbn [andb when].
    apply wp_bind, wp_ret. by apply read_tail_lemma.
Qed.

(** Reading a device.  A buffer smaller than a frame is refused with
    -EINVAL and a non-blocking read of an empty queue with -EAGAIN, both
    without any effect.  Otherwise the reader sleeps while the queue is empty
    and then, whatever the other threads did meanwhile, is given the oldest
    frame of the queue, unchanged, which goes back to the pool also when it
    cannot be copied; woken without a frame it reads nothing. *)
Theorem device_read_oldest sleep s a a1 d nonblock size copy l free l1 free1 :
  core_ok s a -> ca_queues a !! DevQueue d = Some l -> ca_queues a !! FreeQueue = Some free ->
  let s1 := if decide (l = []) then sleep d s else s in
  core_ok s1 a1 -> ca_queues a1 !! DevQueue d = Some l1 -> ca_queues a1 !! FreeQueue = Some free1 ->
  (size < SIZEOF_FRAME -> dmx512_device_read sleep d nonblock size copy s = Done ((- EINVAL, None), s)) /\
  (SIZEOF_FRAME <= size -> l = [] -> nonblock = true ->
     dmx512_device_read sleep d nonblock size copy s = Done ((- EAGAIN, None), s)) /\
  (SIZEOF_FRAME <= size -> (l = [] -> nonblock = false) ->
     exists r s', dmx512_device_read sleep d nonblock size copy s = Done (r, s') /\
       delivered s1 a1 d l1 free1 copy r s').
Proof.
  intros Hok Hq Hfree s1 Hok1 Hq1 Hfree1. split_and!.
  - intros Hs%Z.ltb_lt. unfold dmx512_device_read. by rewrite Hs.
  - intros Hs -> ->. unfold dmx512_device_read. rewrite (proj2 (Z.ltb_ge _ _)) by done.
    unfold mbind, prog_bind. rewrite (isempty_core s a _ []) by (done || apply Hok). done.
  - intros Hs Hnb. by eapply wp_run, device_read_lemma.
Qed.

(** ** Writing *)

(** The port that a frame is addressed to. *)
Definition addressed (ps : list nat) (user : dmx512frame) : option nat :=
  if 0 <=? f_port user then ps !! Z.to_nat (f_port user) else None.

(** The error a write ends with, when it is refused; [room] says whether the
    transmitter of a port has space. *)
Definition write_error (ports : gmap nat dmx512_port) (room : nat -> nat -> bool) (ps : list nat)
    (size : Z) (copy_fails : bool) (user : dmx512frame) : option Z :=
  if (size <? SIZEOF_FRAME) || copy_fails then Some (- EINVAL) else
  match addressed ps user with
  | None => Some (- EINVAL)
  | Some p =>
      v ← ports !! p;
      h ← p_transmitter_has_space v;
      if (room h p : bool) then None else Some (- EAGAIN)
  end.

(** The state in which the driver is handed the entry [e] with the frame of
    the user: [e] is out of the pool and in no queue. *)
Definition handed_over (s : core) (a : core_abs) (e : nat) (l : list nat) (user : dmx512frame) (s1 : core) : Prop :=
  core_ok s1 (set_queue FreeQueue l a) /\ loose (<[FreeQueue := l]> (ca_queues a)) e /\
  m_frames (c_mem s1) = <[e := user]> (m_frames (c_mem s)) /\
  c_ports s1 = c_ports s /\ c_devices s1 = c_devices s /\ c_modref s1 = c_modref s.

Section write.
Context (call_send_frame : nat -> nat -> nat -> prog core Z).
Context (call_has_space : nat -> nat -> prog core bool).
Context (room : nat -> nat -> bool).
(** Asking for space has no effect. *)
Context (Hroom : forall h p s, call_has_space h p s = Done (room h p, s)).

Lemma give_back_lemma s s1 a l e fr (err : Z) :
  core_ok s1 (set_queue FreeQueue l a) -> loose (<[FreeQueue := l]> (ca_queues a)) e ->
  fr = m_frames (c_mem s1) -> e ∈ dom fr -> (forall e', e' <> e -> fr !! e' = m_frames (c_mem s) !! e') ->
  wp (_ ← in_mem (dmx512_framequeue_put (Some FreeQueue) (Some e)); mret err)
     (fun r s' => r = err /\ core_ok s' (set_queue FreeQueue (l ++ [e]) a) /\
        forall e', e' <> e -> m_frames (c_mem s') !! e' = m_frames (c_mem s) !! e') s1.
Proof.
  intros [Hi Hl] Hloose -> He Hfr. apply wp_bind. eapply (core_put_spec _ _ _ l); [done| |done|done|].
  { cbn. by rewrite lookup_insert_eq. }
  intros m' Hi' (Hf' & _). apply wp_ret. split; [done|]. split; [|by cbn; rewrite Hf'].
  split; [|done]. unfold set_queue, set_queues in *. cbn in *. by rewrite insert_insert_eq in Hi'.
Qed.

Lemma write_lemma s a d ps e l size copy_fails user (Q : Z -> core -> Prop) :
  core_ok s a -> ca_ports a !! d = Some ps -> ca_queues a !! FreeQueue = Some (e :: l) ->
  (forall err s', write_error (c_ports s) room ps size copy_fails user = Some err ->
     core_ok s' (set_queue FreeQueue (l ++ [e]) a) ->
     (forall e', e' <> e -> m_frames (c_mem s') !! e' = m_frames (c_mem s) !! e') -> Q err s') ->
  (forall p v s1, write_error (c_ports s) room ps size copy_fails user = None ->
     addressed ps user = Some p -> c_ports s !! p = Some v -> handed_over s a e l user s1 ->
     exists fn, p_send_frame v = Some fn /\
       wp (call_send_frame fn p e) (fun _ s' => Q SIZEOF_FRAME s') s1) ->
  wp (dmx512_device_write call_send_frame call_has_space (Some d) size copy_fails user) Q s.
Proof.
  intros [Hi Hl] Hd Hq Herr Hsend. unfold dmx512_device_write.
  destruct (head_loose _ _ _ _ _ (ci_fq _ _ Hi) Hq) as [Hloose Hdom].
  apply wp_bind. eapply core_get_spec; [done..|]. intros m1 Hi1 (Hf1 & _). cbn [head tail] in *.
  assert (core_ok (with_mem m1 s) (set_queue FreeQueue l a)) as Hok1 by by split.
  assert (forall err, write_error (c_ports s) room ps size copy_fails user = Some err -> forall s1,
    core_ok s1 (set_queue FreeQueue l a) -> e ∈ dom (m_frames (c_mem s1)) ->
    (forall e', e' <> e -> m_frames (c_mem s1) !! e' = m_frames (c_mem s) !! e') ->
    wp (_ ← in_mem (dmx512_framequeue_put (Some FreeQueue) (Some e)); mret err) Q s1) as Hback.
  { intros err Hw s1 ???. eapply wp_mono; [by apply (give_back_lemma s s1 a l e (m_frames (c_mem s1)))|].
    intros ? s' (-> & ? & ?). by apply Herr. }
  clear Herr. unfold write_error in Hback, Hsend. rewrite Z.ltb_antisym in Hback, Hsend.
  destruct (SIZEOF_FRAME <=? size); cbn [negb orb] in *.
  2: { eapply Hback; [done..|cbn; by rewrite Hf1|cbn; by rewrite Hf1]. }
  destruct copy_fails; [eapply Hback; [done..|cbn; by rewrite Hf1|cbn; by rewrite Hf1]|].
  apply wp_bind. assert (exists old, m_frames m1 !! e = Some old) as [old Hold].
  { apply elem_of_dom in Hdom as [old Hold]. exists old. by rewrite Hf1. }
  eapply core_update_frame; [exact Hi1|exact Hold|]. intros s2 Hi2 ->.
  set (s2 := with_mem _ _). assert (core_ok s2 (set_queue FreeQueue l a)) as Hok2 by by split.
  assert (m_frames (c_mem s2) = <[e := user]> (m_frames (c_mem s))) as Hf2 by (cbn; by rewrite Hf1).
  assert (e ∈ dom (m_frames (c_mem s2))) as Hdom2 by (rewrite Hf2, dom_insert_L; set_solver).
  assert (forall e', e' <> e -> m_frames (c_mem s2) !! e' = m_frames (c_mem s) !! e') as Hoth2.
  { intros e' ?. rewrite Hf2. by rewrite lookup_insert_ne. }
  apply wp_bind. eapply wp_done; [by eapply (dmx512_port_by_index_spec s2 (set_queue FreeQueue l a) d ps)|].
  cbn beta. fold (addressed ps user) in *. destruct (addressed ps user) as [p|] eqn:Hp.
  2: { by eapply Hback. }
  assert (p ∈ ps) as Hin.
  { unfold addressed in Hp. destruct (0 <=? f_port user); [by eapply list_elem_of_lookup_2|done]. }
  destruct (ci_member _ _ Hi _ _ _ Hd Hin) as (_ & v & Hv & _). rewrite Hv in *. cbn in Hback, Hsend.
  apply wp_bind. eapply wp_get_port; [done|].
  assert (forall s3, handed_over s a e l user s3 -> (p_transmitter_has_space v ≫=
      (λ h, if room h p then None else Some (- EAGAIN))) = None ->
    wp (fn ← deref (p_send_frame v); _ ← call_send_frame fn p e; mret SIZEOF_FRAME) Q s3) as Hgo.
  { intros s3 Hs3 Hn. destruct (Hsend p v s3 Hn eq_refl Hv Hs3) as (fn & -> & Hw).
    apply wp_bind, wp_ret, wp_bind. eapply wp_mono; [done|]. intros r s' HQ. by apply wp_ret. }
  assert (handed_over s a e l user s2) as Hs2 by by split_and!.
  destruct (p_transmitter_has_space v) as [h|]; cbn in Hback, Hgo.
  - apply wp_bind. eapply wp_done; [apply Hroom|]. cbn beta.
    destruct (room h p); [by apply Hgo|by eapply Hback].
  - apply wp_bind, wp_ret. by apply Hgo.
Qed.

(** A write that is refused loses no frame: with -EINVAL for a buffer
    that is too small, an address that cannot be read or a port that does not
    exist, and with -EAGAIN when the transmitter has no space, the frame that
    was taken is back at the end of the pool, no other frame was touched and
    the driver was not called.  An empty pool is -ENOMEM. *)
Theorem device_write_refused s a d ps l size copy_fails user err :
  core_ok s a -> ca_ports a !! d = Some ps -> ca_queues a !! FreeQueue = Some l ->
  write_error (c_ports s) room ps size copy_fails user = Some err ->
  exists s', core_ok s' (set_queue FreeQueue (tail l ++ take 1 l) a) /\
    dmx512_device_write call_send_frame call_has_space (Some d) size copy_fails user s
      = Done (if decide (l = []) then - ENOMEM else err, s') /\
    forall e, head l <> Some e -> m_frames (c_mem s') !! e = m_frames (c_mem s) !! e.
Proof.
  intros Hok Hd Hq Herr. destruct l as [|e l]; cbn [tail take head app].
  - destruct Hok as [Hi Hl].
    assert (wp (in_mem (dmx512_framequeue_get (Some FreeQueue))) (fun r s' => r = None /\
      core_ok s' (set_queue FreeQueue [] a) /\ m_frames (c_mem s') = m_frames (c_mem s)) s) as Hw.
    { eapply core_get_spec; [done..|]. intros m' Hi' (Hf & _). done. }
    apply wp_run in Hw as (r & s' & Hr & -> & Hok' & Hf). exists s'. split; [done|].
    unfold dmx512_device_write, mbind, prog_bind. rewrite Hr. split; [done|]. by rewrite Hf.
  - assert (wp (dmx512_device_write call_send_frame call_has_space (Some d) size copy_fails user)
      (fun r s' => r = err /\ core_ok s' (set_queue FreeQueue (l ++ [e]) a) /\
        forall e', e' <> e -> m_frames (c_mem s') !! e' = m_frames (c_mem s) !! e') s) as Hw.
    { eapply (write_lemma s a d ps e l); [done..| |].
      - intros err' s'. rewrite Herr. by intros [= <-].
      - intros p v s1. by rewrite Herr. }
    apply wp_run in Hw as (r & s' & Hr & -> & Hok' & Hf). exists s'. split; [by rewrite take_0|].
    rewrite Hr. split; [done|]. intros e' He'. apply Hf. naive_solver.
Qed.
End write.

(** ** Registering devices *)

Definition set_registered (d : nat) (a : core_abs) : core_abs :=
  CoreAbs (<[DevQueue d := []]> (ca_queues a)) (d :: ca_devices a) (<[d := []]> (ca_ports a)) (ca_all a).

(** A memory in which the rings of the device [d] are initialised and [d] is
    at the front of the list of devices. *)
Lemma core_inv_register s a d dv m' :
  core_inv s a -> d ∉ ca_devices a -> is_Some (c_devices s !! d) -> dom dv = dom (c_devices s) ->
  fq_inv m' (<[DevQueue d := []]> (ca_queues a)) ->
  is_list (m_links m') AllDevices (DeviceItem <$> d :: ca_devices a) ->
  is_list (m_links m') (DevicePorts d) [] ->
  (forall x, x <> DevicePorts d -> x <> AllDevices -> (forall d, x <> DeviceItem d) ->
     (forall q, x <> QueueHead q) -> (forall e, x <> EntryHead e) -> m_links m' !! x = m_links (c_mem s) !! x) ->
  (forall d2, DeviceItem d2 ∈ dom (m_links (c_mem s)) -> DeviceItem d2 ∈ dom (m_links m')) ->
  m_next m' = m_next (c_mem s) ->
  core_inv (with_devices dv (with_mem m' s)) (set_registered d a).
Proof.
  intros Hi Hd Hsome Hdv Hf Hdevs Hports Hx Hdom Hn. split; cbn.
  - done.
  - done.
  - eapply is_list_frame; [apply (ci_all _ _ Hi)|].
    by intros x [->|(p & -> & _)%list_elem_of_fmap]%elem_of_cons; apply Hx.
  - intros d2 ps. destruct (decide (d2 = d)) as [->|Hne];
      rewrite ?lookup_insert_eq, ?lookup_insert_ne by done; [by intros [= <-]|].
    intros Hd2. eapply is_list_frame; [by apply (ci_ports _ _ Hi)|].
    intros x [->|(p & -> & _)%list_elem_of_fmap]%elem_of_cons; apply Hx; try done. by intros [= ->].
  - intros d2. rewrite elem_of_cons. destruct (decide (d2 = d)) as [->|Hne];
      rewrite ?lookup_insert_eq, ?lookup_insert_ne by done; [by split; eauto|].
    rewrite (ci_device _ _ Hi). naive_solver.
  - intros d2 Hd2. destruct (decide (d2 = d)) as [->|Hne].
    + rewrite lookup_insert_eq. split; [|done]. apply elem_of_dom. rewrite Hdv. by apply elem_of_dom.
    + apply elem_of_cons in Hd2 as [|Hd2]; [done|]. destruct (ci_device_live _ _ Hi _ Hd2) as [Hl ?].
      rewrite lookup_insert_ne by congruence. split; [|done].
      apply elem_of_dom. rewrite Hdv. by apply elem_of_dom.
  - rewrite lookup_insert_ne by done. apply (ci_free _ _ Hi).
  - intros d2. rewrite elem_of_cons. destruct (decide (d2 = d)) as [->|Hne]; [by auto|].
    rewrite lookup_insert_ne by congruence. intros ?%(ci_queue _ _ Hi). by right.
  - intros d2 ps p. destruct (decide (d2 = d)) as [->|Hne];
      rewrite ?lookup_insert_eq, ?lookup_insert_ne by done; [intros [= <-]; set_solver|].
    apply (ci_member _ _ Hi).
  - intros p Hp. destruct (ci_owner _ _ Hi _ Hp) as (d2 & ps & Hd2 & Hin). exists d2, ps.
    rewrite lookup_insert_ne; [done|]. intros <-. apply Hd, (ci_device _ _ Hi). eauto.
  - intros p v Hp. rewrite Hn, !elem_of_dom, !Hx, <- !elem_of_dom by done. by apply (ci_port_fresh _ _ Hi _ v).
  - intros d2 v Hv. rewrite Hn. apply elem_of_dom_2 in Hv. rewrite Hdv in Hv.
    apply elem_of_dom in Hv as [w Hw]. destruct (ci_device_fresh _ _ Hi _ _ Hw). by auto.
Qed.

Lemma core_inv_locked b s a : core_inv s a -> core_inv (with_locked b s) a.
Proof. intros Hi. by eapply core_inv_ext. Qed.

Lemma register_lemma misc_register s a d v data :
  core_ok s a -> c_devices s !! d = Some v -> d ∉ ca_devices a ->
  wp (register_dmx512_device misc_register d data)
     (fun r s' => r = misc_register d /\ core_ok s' (set_registered d a) /\
        c_ports s' = c_ports s /\ m_frames (c_mem s') = m_frames (c_mem s) /\
        m_next (c_mem s') = m_next (c_mem s) /\
        c_devices s' = <[d := set_misc (misc_register d =? 0) (set_data data v)]> (c_devices s)) s.
Proof.
  intros [Hi Hl] Hv Hd. apply wp_LOCKED; [done|].
  unfold _register_dmx512_device. apply wp_bind. eapply wp_get_device; [done|].
  apply wp_bind, wp_modify, wp_bind. eapply wp_links_op; [reflexivity|]. cbn [with_mem c_mem with_links m_links with_devices with_locked].
  set (m1 := with_links _ _).
  assert (fq_inv m1 (ca_queues a)) as Hf1.
  { eapply fq_inv_frame; [apply (ci_fq _ _ Hi)|..]; try done; intros; cbn -[insert]; unfold INIT_LIST_HEAD; by rewrite lookup_insert_ne. }
  apply wp_bind, wp_in_mem. eapply wp_mono; [by apply (init_spec m1 (ca_queues a))|].
  cbn beta. intros _ m2 (Hf2 & Hfr2 & Hn2 & Hx2). cbn [with_mem c_mem].
  assert (forall x, x <> DevicePorts d -> (forall q, x <> QueueHead q) -> (forall e, x <> EntryHead e) ->
    m_links m2 !! x = m_links (c_mem s) !! x) as Hx.
  { intros x ???. rewrite Hx2 by done. cbn -[insert]. by apply lookup_insert_ne. }
  destruct (list_add_spec (m_links m2) (DeviceItem d) AllDevices (DeviceItem <$> ca_devices a))
    as (h3 & Hadd & Hl3 & Hout3 & Hd3).
  { eapply is_list_frame; [apply (ci_devices _ _ Hi)|].
    by intros x [->|(p & -> & _)%list_elem_of_fmap]%elem_of_cons; apply Hx. }
  { apply elem_of_dom. rewrite Hx by done. apply elem_of_dom. by apply (ci_device_fresh _ _ Hi _ _ Hv). }
  { rewrite elem_of_cons, elem_fmap_inj by apply _. by intros [|]. }
  apply wp_bind. eapply wp_links_op; [done|]. cbn [with_mem c_mem].
  apply wp_bind. eapply wp_get_device; [cbn; by rewrite lookup_insert_eq|].
  apply wp_bind, wp_modify, wp_ret. split; [done|]. cbn. rewrite insert_insert_eq.
  split; [|by rewrite Hfr2, Hn2]. split; [|done].
  assert (forall q, h3 !! QueueHead q = m_links m2 !! QueueHead q) as Hq3.
  { intros q. apply Hout3. rewrite !elem_of_cons. by intros [|[|(p & [=] & _)%list_elem_of_fmap]]. }
  assert (forall e, h3 !! EntryHead e = m_links m2 !! EntryHead e) as He3.
  { intros q. apply Hout3. rewrite !elem_of_cons. by intros [|[|(p & [=] & _)%list_elem_of_fmap]]. }
  eapply core_inv_ext; [eapply (core_inv_register s a d
    (<[d := set_misc (misc_register d =? 0) (set_data data v)]> (c_devices s)) (with_links h3 m2))|done..].
  - done.
  - done.
  - by eauto.
  - rewrite dom_insert_L. apply elem_of_dom_2 in Hv. set_solver.
  - by eapply fq_inv_frame.
  - done.
  - eapply is_list_frame; [apply (INIT_LIST_HEAD_spec (m_links (c_mem s)))|].
    intros x [->|Hin]%elem_of_cons; [|set_solver]. cbn [m_links with_links].
    rewrite Hout3; [by rewrite Hx2|]. rewrite !elem_of_cons. by intros [|[|(p & [=] & _)%list_elem_of_fmap]].
  - intros x ?? Hdi ??. cbn. rewrite Hout3; [by apply Hx|].
    rewrite !elem_of_cons. intros [->|[|(p & -> & _)%list_elem_of_fmap]]; [by apply (Hdi d)|done|by apply (Hdi p)].
  - intros d2. cbn. rewrite Hd3, !elem_of_dom. by rewrite Hx.
  - done.
Qed.

(** ** Unregistering devices *)

Definition set_unregistered (d : nat) (ps : list nat) (a : core_abs) : core_abs :=
  CoreAbs (delete (DevQueue d) (ca_queues a)) (without [d] (ca_devices a))
          (delete d (ca_ports a)) (without ps (ca_all a)).

Lemma fq_inv_delete m Q q : fq_inv m Q -> fq_inv m (delete q Q).
Proof.
  intros Hi. split.
  - intros q1 l [_ Hq]%lookup_delete_Some. by apply (fqi_list _ _ Hi).
  - intros q1 q2 l1 l2 e [_ H1]%lookup_delete_Some [_ H2]%lookup_delete_Some. by eapply (fqi_disj _ _ Hi).
  - apply (fqi_node _ _ Hi).
  - intros q1 l e [_ Hq]%lookup_delete_Some. by eapply (fqi_live _ _ Hi).
  - apply (fqi_unlocked _ _ Hi).
  - apply (fqi_fresh _ _ Hi).
Qed.

(** A memory in which the device [d], which has no ports any more, is out of
    the list of devices. *)
Lemma core_inv_unregister s a d m' :
  core_inv s a -> ca_ports a !! d = Some [] ->
  fq_inv m' (delete (DevQueue d) (ca_queues a)) ->
  is_list (m_links m') AllDevices (DeviceItem <$> without [d] (ca_devices a)) ->
  (forall x, x <> AllDevices -> (forall d, x <> DeviceItem d) ->
     (forall q, x <> QueueHead q) -> (forall e, x <> EntryHead e) -> m_links m' !! x = m_links (c_mem s) !! x) ->
  (forall d2, DeviceItem d2 ∈ dom (m_links (c_mem s)) -> DeviceItem d2 ∈ dom (m_links m')) ->
  m_next m' = m_next (c_mem s) ->
  core_inv (with_mem m' s) (set_unregistered d [] a).
Proof.
  intros Hi Hd Hf Hdevs Hx Hdom Hn.
  assert (forall d2, d2 ∈ without [d] (ca_devices a) <-> d2 <> d /\ d2 ∈ ca_devices a) as Hin.
  { intros d2. unfold without. rewrite list_elem_of_filter, list_elem_of_singleton. done. }
  split; cbn; rewrite ?without_nil.
  - done.
  - done.
  - eapply is_list_frame; [apply (ci_all _ _ Hi)|].
    by intros x [->|(p & -> & _)%list_elem_of_fmap]%elem_of_cons; apply Hx.
  - intros d2 ps [Hne Hd2]%lookup_delete_Some.
    eapply is_list_frame; [by apply (ci_ports _ _ Hi)|].
    by intros x [->|(p & -> & _)%list_elem_of_fmap]%elem_of_cons; apply Hx.
  - intros d2. rewrite Hin, <- (ci_device _ _ Hi). destruct (decide (d2 = d)) as [->|Hne].
    + rewrite lookup_delete_eq. split; [by intros []|by intros []].
    + rewrite lookup_delete_ne by done. naive_solver.
  - intros d2 [Hne Hd2]%Hin. rewrite lookup_delete_ne by congruence. by apply (ci_device_live _ _ Hi).
  - rewrite lookup_delete_ne by done. apply (ci_free _ _ Hi).
  - intros d2 [l [Hne Hl]%lookup_delete_Some]. apply Hin. split; [congruence|]. apply (ci_queue _ _ Hi). eauto.
  - intros d2 ps p [_ Hd2]%lookup_delete_Some. by apply (ci_member _ _ Hi).
  - intros p Hp. destruct (ci_owner _ _ Hi _ Hp) as (d2 & ps & Hd2 & Hin2). exists d2, ps.
    rewrite lookup_delete_ne; [done|]. intros <-. simplify_eq. set_solver.
  - intros p v Hp. rewrite Hn, !elem_of_dom, !Hx, <- !elem_of_dom by done. by apply (ci_port_fresh _ _ Hi _ v).
  - intros d2 v Hv. rewrite Hn. destruct (ci_device_fresh _ _ Hi _ _ Hv). by auto.
Qed.

Lemma unregister_loop_lemma s a d ps :
  core_inv s a -> ca_ports a !! d = Some ps ->
  wp (list_for_each_port (B := unit) d (fun _ port => _ ← _dmx512_remove_port port; kfree_port port ;; mret None))
     (fun r s' => unregistered d ps a s s') s.
Proof.
  intros Hi Hd. pose proof (ci_ports _ _ Hi _ _ Hd) as Hl.
  destruct (first_node _ _ _ Hl) as (pos & tmp & Hpos & Hget & Htmp).
  pose proof (is_list_length _ _ _ Hl) as Hlen. rewrite length_fmap in Hlen.
  unfold list_for_each_port. apply wp_bind, wp_gets, wp_bind.
  eapply wp_done; [by apply in_mem_ask|]. apply wp_bind. eapply wp_done; [by apply in_mem_ask|].
  cbn beta. rewrite Hpos in *. apply unregister_ports_spec; [done..|lia].
Qed.

(** What unregistering [d] with the ports [ps] and the received frames [l]
    leaves. *)
Definition after_unregister (d : nat) (ps l : list nat) (a : core_abs) (s s' : core) : Prop :=
  core_ok s' (set_unregistered d ps a) /\
  (forall p, c_ports s' !! p = if decide (p ∈ ps) then None else c_ports s !! p) /\
  (forall e, m_frames (c_mem s') !! e = if decide (e ∈ l) then None else m_frames (c_mem s) !! e) /\
  dom (c_devices s') = dom (c_devices s) /\ m_next (c_mem s') = m_next (c_mem s).

Lemma unregister_lemma s a d ps l :
  core_ok s a -> ca_ports a !! d = Some ps -> ca_queues a !! DevQueue d = Some l ->
  wp (unregister_dmx512_device (Some d)) (fun r s' => r = 0 /\ after_unregister d ps l a s s') s.
Proof.
  intros [Hi Hl] Hd Hq. assert (d ∈ ca_devices a) as Hin by (apply (ci_device _ _ Hi); eauto).
  apply wp_LOCKED; [done|]. unfold _unregister_dmx512_device.
  apply wp_bind. eapply core_wake; [by apply core_inv_locked|done|]. intros v Hv Hi1.
  apply wp_bind. eapply wp_get_device; [cbn; by rewrite lookup_insert_eq|]. apply wp_bind, wp_modify.
  set (s2 := with_devices _ _).
  assert (dom (c_devices s2) = dom (c_devices s)) as Hdv2.
  { cbn. rewrite !dom_insert_L. apply elem_of_dom_2 in Hv. cbn in Hv. set_solver. }
  assert (core_inv s2 a) as Hi2.
  { eapply core_inv_ext; [apply (core_inv_devices _ _ _ Hi Hdv2)|done..]. }
  apply wp_bind. eapply wp_mono; [by apply unregister_loop_lemma|].
  cbn beta. intros _ s3 (Hi3 & Hl3 & Hdv3 & Hf3 & Hn3 & Hpo3).
  set (a3 := set_ports d [] (without ps (ca_all a)) a) in *.
  destruct (list_del_items _ _ DeviceItem d _ (ci_devices _ _ Hi3)) as (h4 & l1 & l2 & Hsplit & Hdel & Hl4 & Hout4 & Hd4); [done|].
  apply wp_bind. eapply wp_links_op; [done|].
  set (m4 := with_links h4 (c_mem s3)).
  assert (fq_inv m4 (ca_queues a)) as Hf4.
  { eapply fq_inv_frame; [apply (ci_fq _ _ Hi3)|..]; try done; intros; by apply Hout4. }
  apply wp_bind, wp_in_mem. eapply wp_mono; [by eapply (cleanup_spec m4)|].
  cbn beta. intros _ m5 (Hf5 & Hn5 & Hfr5 & Hx5). apply wp_ret. split; [done|].
  assert (forall x, x <> AllDevices -> (forall d, x <> DeviceItem d) ->
     (forall q, x <> QueueHead q) -> (forall e, x <> EntryHead e) -> m_links m5 !! x = m_links (c_mem s3) !! x) as Hx.
  { intros x ????. rewrite Hx5 by done. cbn. by apply Hout4. }
  assert (core_inv (with_mem m5 s3) (set_unregistered d [] a3)) as Hi5.
  { apply core_inv_unregister; try done.
    - cbn. by rewrite lookup_insert_eq.
    - cbn. rewrite <- (delete_insert_eq _ (DevQueue d) []). by apply fq_inv_delete.
    - pose proof (is_list_NoDup _ _ _ (ci_devices _ _ Hi3)) as [_ Hnd%NoDup_fmap_1]%NoDup_cons.
      rewrite Hsplit, without_one in * by done. eapply is_list_frame; [done|].
      by intros x [->|(p & -> & _)%list_elem_of_fmap]%elem_of_cons; rewrite Hx5.
    - intros d2. rewrite !elem_of_dom, Hx5 by done. cbn. rewrite <- !elem_of_dom. by rewrite Hd4. }
  unfold after_unregister. cbn [with_mem with_links with_locked c_mem c_ports c_devices c_locked m_frames].
  split_and!.
  - split; [|done]. unfold a3, set_unregistered, set_ports in *. cbn in *.
    rewrite delete_insert_eq, without_nil in Hi5. by eapply core_inv_ext.
  - done.
  - intros e. rewrite Hfr5. cbn. by rewrite Hf3.
  - by rewrite Hdv3.
  - by rewrite Hn5.
Qed.

(** Unregistering a device returns 0, takes the device and its ports off
    every list, frees its ports and no other, and frees the frames that wait
    in its receive queue: they are not given back to the pool, which is left
    as it was.  The other devices keep their ports, queues and frames. *)
Theorem unregister_device_frees s a d ps l :
  core_ok s a -> ca_ports a !! d = Some ps -> ca_queues a !! DevQueue d = Some l ->
  exists s', unregister_dmx512_device (Some d) s = Done (0, s') /\
    core_ok s' (set_unregistered d ps a) /\
    ca_queues (set_unregistered d ps a) !! FreeQueue = ca_queues a !! FreeQueue /\
    (forall p, c_ports s' !! p = if decide (p ∈ ps) then None else c_ports s !! p) /\
    (forall e, m_frames (c_mem s') !! e = if decide (e ∈ l) then None else m_frames (c_mem s) !! e).
Proof.
  intros Hok Hd Hl.
  pose proof (unregister_lemma s a d ps l Hok Hd Hl) as (r & s' & E & -> & Hok' & Hp & Hf & _)%wp_run.
  exists s'. split_and!; [done..|cbn; by rewrite lookup_delete_ne|done|done].
Qed.

(** ** Creating and deleting devices and ports *)

(** The nodes of the object [k]: those of a device with [dn] and those of a
    port with [pn]. *)
Definition node_of (dn pn : bool) (k : nat) (x : addr) : Prop :=
  (dn = true /\ (x = DeviceItem k \/ x = DevicePorts k \/ x = QueueHead (DevQueue k))) \/
  (pn = true /\ (x = PortDeviceItem k \/ x = PortListItem k)).

(** Changing the nodes of an object that is in no ring. *)
Lemma core_inv_nodes dn pn s a k h' dv po n s' :
  core_inv s a -> (dn = true -> k ∉ ca_devices a) -> (pn = true -> k ∉ ca_all a) ->
  c_mem s' = KMem h' (m_frames (c_mem s)) (m_locks (c_mem s)) n ->
  c_devices s' = dv -> c_ports s' = po ->
  (forall x, ~ node_of dn pn k x -> h' !! x = m_links (c_mem s) !! x) ->
  (m_next (c_mem s) <= n)%nat ->
  (forall d, d <> k \/ dn = false -> dv !! d = c_devices s !! d) ->
  (forall p, p <> k \/ pn = false -> po !! p = c_ports s !! p) ->
  (forall v, pn = true -> po !! k = Some v -> (k < n)%nat /\ PortDeviceItem k ∈ dom h' /\ PortListItem k ∈ dom h') ->
  (forall v, dn = true -> dv !! k = Some v -> (k < n)%nat /\ DeviceItem k ∈ dom h') ->
  core_inv s' a.
Proof.
  intros Hi Hkd Hka Hm <- <- Hx Hn Hdv Hpo Hpk Hdk.
  assert (forall x, ~ node_of dn pn k x -> x ∈ dom (m_links (c_mem s)) -> x ∈ dom h') as Hdom.
  { intros x Hnx. rewrite !elem_of_dom. by rewrite Hx. }
  assert (forall d, is_Some (ca_queues a !! DevQueue d) -> d <> k \/ dn = false) as Hdq.
  { intros d ?%(ci_queue _ _ Hi). destruct dn; [left|by right]. intros ->. by apply Hkd. }
  assert (forall p, p ∈ ca_all a -> p <> k \/ pn = false) as Hp.
  { intros p ?. destruct pn; [left|by right]. intros ->. by apply Hka. }
  assert (forall d, d ∈ ca_devices a -> d <> k \/ dn = false) as Hd.
  { intros d ?. destruct dn; [left|by right]. intros ->. by apply Hkd. }
  split; rewrite ?Hm; cbn.
  - split; cbn.
    + intros q l Hq. eapply is_list_frame; [by apply (fqi_list _ _ (ci_fq _ _ Hi))|].
      intros x [->|(e & -> & _)%list_elem_of_fmap]%elem_of_cons; apply Hx; unfold node_of; [|naive_solver].
      destruct q as [|d|]; naive_solver.
    + apply (fqi_disj _ _ (ci_fq _ _ Hi)).
    + intros e He. apply Hdom; [unfold node_of; naive_solver|]. by apply (fqi_node _ _ (ci_fq _ _ Hi)).
    + apply (fqi_live _ _ (ci_fq _ _ Hi)).
    + apply (fqi_unlocked _ _ (ci_fq _ _ Hi)).
    + intros e He. pose proof (fqi_fresh _ _ (ci_fq _ _ Hi) _ He). lia.
  - eapply is_list_frame; [apply (ci_devices _ _ Hi)|].
    intros x [->|(e & -> & He)%list_elem_of_fmap]%elem_of_cons; apply Hx; unfold node_of; [naive_solver|].
    destruct (Hd e He); naive_solver.
  - eapply is_list_frame; [apply (ci_all _ _ Hi)|].
    intros x [->|(e & -> & He)%list_elem_of_fmap]%elem_of_cons; apply Hx; unfold node_of; [naive_solver|].
    destruct (Hp e He); naive_solver.
  - intros d ps Hps. assert (d ∈ ca_devices a) as Hdin by (apply (ci_device _ _ Hi); eauto).
    eapply is_list_frame; [by apply (ci_ports _ _ Hi)|].
    intros x [->|(e & -> & He)%list_elem_of_fmap]%elem_of_cons; apply Hx; unfold node_of.
    + destruct (Hd d Hdin); naive_solver.
    + destruct (ci_member _ _ Hi _ _ _ Hps He) as [Hin _]. destruct (Hp e Hin); naive_solver.
  - apply (ci_device _ _ Hi).
  - intros d Hin. rewrite Hdv by auto. by apply (ci_device_live _ _ Hi).
  - apply (ci_free _ _ Hi).
  - apply (ci_queue _ _ Hi).
  - intros d ps p Hps Hin. destruct (ci_member _ _ Hi _ _ _ Hps Hin) as [Hall Hv].
    rewrite Hpo by auto. done.
  - apply (ci_owner _ _ Hi).
  - intros p v. destruct (decide (p = k)) as [->|Hne]; [destruct pn; [by apply Hpk|]|].
    all: rewrite Hpo by auto; intros (? & ? & ?)%(ci_port_fresh _ _ Hi);
      split_and!; [lia|apply Hdom; unfold node_of; naive_solver..].
  - intros d v. destruct (decide (d = k)) as [->|Hne]; [destruct dn; [by apply Hdk|]|].
    all: rewrite Hdv by auto; intros (? & ?)%(ci_device_fresh _ _ Hi);
      split_and!; [lia|apply Hdom; unfold node_of; naive_solver..].
Qed.

Lemma next_is_fresh s a :
  core_inv s a -> c_devices s !! m_next (c_mem s) = None /\ c_ports s !! m_next (c_mem s) = None /\
    m_next (c_mem s) ∉ ca_devices a /\ m_next (c_mem s) ∉ ca_all a.
Proof.
  intros Hi.
  assert (c_devices s !! m_next (c_mem s) = None) as Hd.
  { apply eq_None_not_Some. intros [v Hv]. apply (ci_device_fresh _ _ Hi) in Hv. lia. }
  assert (c_ports s !! m_next (c_mem s) = None) as Hp.
  { apply eq_None_not_Some. intros [v Hv]. apply (ci_port_fresh _ _ Hi) in Hv. lia. }
  split_and!; [done..| |].
  - intros Hin. destruct (ci_device_live _ _ Hi _ Hin) as [[v Hv] _]. congruence.
  - intros Hin. destruct (ci_owner _ _ Hi _ Hin) as (d & ps & Hps & Hin2).
    destruct (ci_member _ _ Hi _ _ _ Hps Hin2) as (_ & v & Hv & _). congruence.
Qed.

Lemma core_ok_skip s a n :
  core_ok s a -> (m_next (c_mem s) <= n)%nat ->
  core_ok (with_mem (KMem (m_links (c_mem s)) (m_frames (c_mem s)) (m_locks (c_mem s)) n) s) a.
Proof.
  intros [Hi Hl] Hn. split; [|done].
  by eapply (core_inv_nodes false false s a 0).
Qed.

Lemma create_device_lemma kzalloc_ok s a name :
  core_ok s a -> let k := m_next (c_mem s) in
  wp (dmx512_create_device kzalloc_ok name)
     (fun r s' => core_ok s' a /\ m_next (c_mem s') = S k /\ c_ports s' = c_ports s /\
        if kzalloc_ok k then r = inr k /\ c_devices s' = <[k := Device (default "unknown"%string name) 0 0 false]> (c_devices s)
        else r = inl (- ENOMEM) /\ c_devices s' = c_devices s) s.
Proof.
  intros Hok k. unfold wp, dmx512_create_device. fold k. destruct (kzalloc_ok k).
  2: { split_and!; [|done..]. apply core_ok_skip; [done|]. unfold k. lia. }
  destruct Hok as [Hi Hl]. destruct (next_is_fresh s a Hi) as (Hd & Hp & ? & ?). split_and!; [|done..].
  split; [|done]. eapply (core_inv_nodes true false s a k); try done.
  - intros x Hnx. cbn -[insert]. unfold zeroed_node, node_of in *. rewrite !lookup_insert_ne by naive_solver. done.
  - cbn. lia.
  - intros d [Hne|]; [|done]. cbn. by rewrite lookup_insert_ne.
  - intros v _ _. cbn. split; [lia|]. unfold zeroed_node. rewrite dom_insert_L. set_solver.
Qed.

Lemma create_port_lemma kzalloc_ok s a dmx name caps :
  core_ok s a -> (String.length name < MAX_DMXPORT_NAME)%nat -> let k := m_next (c_mem s) in
  wp (dmx512_create_port kzalloc_ok dmx name caps)
     (fun r s' => core_ok s' a /\ m_next (c_mem s') = S k /\ c_devices s' = c_devices s /\
        if kzalloc_ok k then r = inr k /\ c_ports s' = <[k := Port dmx name caps None None None]> (c_ports s)
        else r = inl (- ENOMEM) /\ c_ports s' = c_ports s) s.
Proof.
  intros Hok Hlen k. unfold wp, dmx512_create_port. fold k. destruct (kzalloc_ok k).
  2: { split_and!; [|done..]. apply core_ok_skip; [done|]. unfold k. lia. }
  rewrite (proj2 (Nat.ltb_lt _ _)) by done.
  destruct Hok as [Hi Hl]. destruct (next_is_fresh s a Hi) as (Hd & Hp & ? & ?). split_and!; [|done..].
  split; [|done]. eapply (core_inv_nodes false true s a k); try done.
  - intros x Hnx. cbn -[insert]. unfold zeroed_node, node_of in *. rewrite !lookup_insert_ne by naive_solver. done.
  - cbn. lia.
  - intros d [Hne|]; [|done]. cbn. by rewrite lookup_insert_ne.
  - intros v _ _. cbn. split; [lia|]. unfold zeroed_node. rewrite !dom_insert_L. set_solver.
Qed.

Lemma delete_device_lemma s a d v :
  core_ok s a -> c_devices s !! d = Some v -> d ∉ ca_devices a ->
  wp (dmx512_delete_device (Some d))
     (fun _ s' => core_ok s' a /\ m_next (c_mem s') = m_next (c_mem s) /\ c_ports s' = c_ports s /\
        c_devices s' = delete d (c_devices s)) s.
Proof.
  intros [Hi Hl] Hv Hd. cbn. unfold kfree_device. apply wp_bind. eapply wp_get_device; [done|].
  apply wp_bind, wp_modify. eapply wp_links_op; [reflexivity|]. split_and!; [|done..]. split; [|done].
  eapply (core_inv_nodes true false s a d); try done.
  - intros x Hnx. unfold node_of in *. cbn -[delete]. rewrite !lookup_delete_ne by naive_solver. done.
  - intros d2 [Hne|]; [|done]. cbn. by rewrite lookup_delete_ne.
  - intros w _. cbn. by rewrite lookup_delete_eq.
Qed.

(** ** The contract of the registry *)

Inductive reg_op :=
  | OpCreateDevice (name : option string)
  | OpRegister (d : nat) (data : Z)
  | OpCreatePort (dmx : option nat) (name : string) (caps : Z)
  | OpAddPort (d p : nat)
  | OpRemovePort (p : nat)
  | OpDeletePort (p : nat)
  | OpUnregister (d : nat)
  | OpDeleteDevice (d : nat).

Inductive reg_result := RegVoid | RegInt (z : Z) | RegPtr (r : Z + nat).

(** The registry a driver has in mind: which devices and ports exist, which
    devices are registered, the newest first, and the ports of each of them,
    the oldest first. *)
Record registry := Registry {
  r_devices : gset nat;
  r_ports : gset nat;
  r_registered : list nat;
  r_members : gmap nat (list nat);
  r_next : nat }.

Definition members (m : gmap nat (list nat)) : list nat := mjoin (map_to_list m).*2.

Section registry.
Context (kzalloc_ok : nat -> bool).
Context (misc_register : nat -> Z).

(** A step of the contract; [None] where the caller breaks it: an object that
    does not exist, a device registered twice or deleted while it is
    registered, a port added twice or removed without being added. *)
Definition reg_step (op : reg_op) (r : registry) : option (reg_result * registry) :=
  let '(Registry D P L M n) := r in
  match op with
  | OpCreateDevice _ =>
      Some (if kzalloc_ok n then (RegPtr (inr n), Registry ({[n]} ∪ D) P L M (S n))
            else (RegPtr (inl (- ENOMEM)), Registry D P L M (S n)))
  | OpRegister d _ =>
      if decide (d ∈ D /\ d ∉ L)
      then Some (RegInt (misc_register d), Registry D P (d :: L) (<[d := []]> M) n) else None
  | OpCreatePort _ name _ =>
      if decide (String.length name < MAX_DMXPORT_NAME)%nat then
        Some (if kzalloc_ok n then (RegPtr (inr n), Registry D ({[n]} ∪ P) L M (S n))
              else (RegPtr (inl (- ENOMEM)), Registry D P L M (S n)))
      else None
  | OpAddPort d p =>
      ps ← M !! d;
      if decide (p ∈ P /\ p ∉ members M)
      then Some (RegInt 0, Registry D P L (<[d := ps ++ [p]]> M) n) else None
  | OpRemovePort p =>
      if decide (p ∈ members M)
      then Some (RegInt 0, Registry D P L (without [p] <$> M) n) else None
  | OpDeletePort p =>
      if decide (p ∈ members M)
      then Some (RegVoid, Registry D (P ∖ {[p]}) L (without [p] <$> M) n) else None
  | OpUnregister d =>
      ps ← M !! d;
      Some (RegInt 0, Registry D (P ∖ list_to_set ps) (without [d] L) (delete d M) n)
  | OpDeleteDevice d =>
      if decide (d ∈ D /\ d ∉ L) then Some (RegVoid, Registry (D ∖ {[d]}) P L M n) else None
  end.

Definition reg_run (op : reg_op) : prog core reg_result :=
  match op with
  | OpCreateDevice name => r ← dmx512_create_device kzalloc_ok name; mret (RegPtr r)
  | OpRegister d data => r ← register_dmx512_device misc_register d data; mret (RegInt r)
  | OpCreatePort dmx name caps => r ← dmx512_create_port kzalloc_ok dmx name caps; mret (RegPtr r)
  | OpAddPort d p => r ← dmx512_add_port d p; mret (RegInt r)
  | OpRemovePort p => r ← dmx512_remove_port p; mret (RegInt r)
  | OpDeletePort p => dmx512_delete_port (Some p) ;; mret RegVoid
  | OpUnregister d => r ← unregister_dmx512_device (Some d); mret (RegInt r)
  | OpDeleteDevice d => dmx512_delete_device (Some d) ;; mret RegVoid
  end.

Fixpoint reg_steps (ops : list reg_op) (r : registry) : option (list reg_result * registry) :=
  match ops with
  | [] => Some ([], r)
  | op :: ops => '(x, r1) ← reg_step op r; '(xs, r2) ← reg_steps ops r1; Some (x :: xs, r2)
  end.
Fixpoint reg_runs (ops : list reg_op) : prog core (list reg_result) :=
  match ops with
  | [] => mret []
  | op :: ops => x ← reg_run op; xs ← reg_runs ops; mret (x :: xs)
  end.

(** The memory represents the registry. *)
Definition represents (s : core) (r : registry) : Prop :=
  exists a, core_ok s a /\ ca_devices a = r_registered r /\ ca_ports a = r_members r /\
    dom (c_devices s) = r_devices r /\ dom (c_ports s) = r_ports r /\
    m_next (c_mem s) = r_next r.
End registry.

Lemma elem_of_members M p : p ∈ members M <-> exists (d : nat) ps, M !! d = Some ps /\ p ∈ ps.
Proof.
  unfold members. rewrite list_elem_of_join. setoid_rewrite list_elem_of_fmap. split.
  - intros (ps & Hp & [d ps'] & -> & Hd%elem_of_map_to_list). by eauto.
  - intros (d & ps & Hd & Hp). exists ps. split; [done|]. exists (d, ps). split; [done|].
    by apply elem_of_map_to_list.
Qed.

Lemma members_all s a p : core_inv s a -> p ∈ members (ca_ports a) <-> p ∈ ca_all a.
Proof.
  intros Hi. rewrite elem_of_members. split; [|apply (ci_owner _ _ Hi)].
  intros (d & ps & Hd & Hp). by apply (ci_member _ _ Hi _ _ _ Hd).
Qed.

Lemma without_notin p l : p ∉ l -> without [p] l = l.
Proof.
  induction l as [|q l IH]; [done|]. intros Hq. unfold without in *.
  rewrite filter_cons_True by set_solver. f_equal. apply IH. set_solver.
Qed.

(** Taking [p] out of the ports of its device takes it out of all. *)
Lemma without_members s a d l1 l2 p :
  core_inv s a -> ca_ports a !! d = Some (l1 ++ p :: l2) ->
  <[d := l1 ++ l2]> (ca_ports a) = without [p] <$> ca_ports a.
Proof.
  intros Hi Hd. apply map_eq. intros d2. rewrite lookup_fmap. destruct (decide (d2 = d)) as [->|Hne].
  - rewrite lookup_insert_eq, Hd. cbn. rewrite without_one; [done|by eapply ports_NoDup].
  - rewrite lookup_insert_ne by done. destruct (ca_ports a !! d2) as [ps|] eqn:Hps; [|done].
    cbn. rewrite without_notin; [done|]. intros Hin.
    destruct (ci_member _ _ Hi _ _ _ Hps Hin) as (_ & v & Hv & Hv2).
    destruct (ci_member _ _ Hi _ _ p Hd) as (_ & w & Hw & Hw2); [set_solver|]. congruence.
Qed.

Lemma add_port_lemma s a d ps p v :
  core_ok s a -> ca_ports a !! d = Some ps -> c_ports s !! p = Some v -> p ∉ ca_all a ->
  wp (dmx512_add_port d p)
     (fun r s' => r = 0 /\ core_ok s' (set_ports d (ps ++ [p]) (ca_all a ++ [p]) a) /\
        c_ports s' = <[p := set_device (Some d) v]> (c_ports s) /\
        m_frames (c_mem s') = m_frames (c_mem s) /\ m_next (c_mem s') = m_next (c_mem s) /\
        c_devices s' = c_devices s) s.
Proof.
  intros [Hi Hl] Hd Hv Hall. apply wp_LOCKED; [done|].
  eapply wp_mono; [by eapply (_add_port_spec _ a); [apply core_inv_locked|..]|].
  intros r s' (-> & Hi' & _ & ? & ? & ? & ?). split_and!; try done.
  split; [by apply core_inv_locked|done].
Qed.

Lemma remove_port_lemma s a p :
  core_ok s a -> p ∈ ca_all a ->
  wp (dmx512_remove_port p)
     (fun r s' => r = 0 /\ m_next (c_mem s') = m_next (c_mem s) /\ c_devices s' = c_devices s /\
        (exists v, c_ports s !! p = Some v /\ c_ports s' = <[p := set_device None v]> (c_ports s)) /\
        exists a', core_ok s' a' /\ ca_devices a' = ca_devices a /\ ca_queues a' = ca_queues a /\
          ca_ports a' = without [p] <$> ca_ports a /\ ca_all a' = without [p] (ca_all a)) s.
Proof.
  intros [Hi Hl] Hp. apply wp_LOCKED; [done|].
  destruct (ci_owner _ _ Hi _ Hp) as (d & ps & Hd & Hin).
  eapply wp_mono; [by eapply (_remove_port_spec _ a); [apply core_inv_locked|..]|].
  intros r s' (-> & _ & _ & Hn & _ & Hdv & Hpo & l1 & l2 & k1 & k2 & -> & Hall & Hi').
  split_and!; [done..|]. eexists. split_and!; [split; [by apply core_inv_locked|done]|done|done| |].
  - cbn. by eapply without_members.
  - cbn. rewrite Hall, without_one; [done|].
    pose proof (is_list_NoDup _ _ _ (ci_all _ _ Hi)) as [_ Hnd%NoDup_fmap_1]%NoDup_cons. by rewrite <- Hall.
Qed.

Lemma notin_without p l : p ∉ without [p] l.
Proof. unfold without. rewrite list_elem_of_filter. set_solver. Qed.

Lemma delete_port_lemma s a p :
  core_ok s a -> p ∈ ca_all a ->
  wp (dmx512_delete_port (Some p))
     (fun r s' => m_next (c_mem s') = m_next (c_mem s) /\ c_devices s' = c_devices s /\
        c_ports s' = delete p (c_ports s) /\
        exists a', core_ok s' a' /\ ca_devices a' = ca_devices a /\ ca_queues a' = ca_queues a /\
          ca_ports a' = without [p] <$> ca_ports a /\ ca_all a' = without [p] (ca_all a)) s.
Proof.
  intros Hok Hp. cbn. apply wp_bind. eapply wp_mono; [by apply (remove_port_lemma s a p)|].
  intros ? s1 (-> & Hn1 & Hd1 & (v & Hv & Hp1) & a1 & [Hi1 Hl1] & ? & ? & ? & Hall1).
  eapply kfree_port_spec; [done|by rewrite Hp1, lookup_insert_eq|rewrite Hall1; apply notin_without|].
  intros s2 Hi2 Hp2 Hl2 Hd2 _ Hn2. rewrite Hp2, Hp1, delete_insert_eq, Hd2, Hn2. split_and!; [done..|].
  exists a1. split_and!; [|done..]. split; [done|congruence].
Qed.

(** One step of the contract is one call. *)
Lemma reg_refines kzalloc_ok misc_register op s r x r' :
  represents s r -> reg_step kzalloc_ok misc_register op r = Some (x, r') ->
  wp (reg_run kzalloc_ok misc_register op) (fun y s' => y = x /\ represents s' r') s.
Proof.
  destruct r as [D P L M n]. intros (a & Hok & HL & HM & HD & HP & Hn) Hs. cbn in *. subst L M D P n.
  pose proof Hok as [Hi Hl].
  destruct op; cbn [reg_run]; cbn in Hs; apply wp_bind.
  - eapply wp_mono; [by apply create_device_lemma|]. cbn beta. intros y s' (Hok' & Hn' & Hp' & Hy).
    apply wp_ret. destruct (kzalloc_ok _); destruct Hy as [-> Hd']; simplify_eq; (split; [done|]);
      exists a; split_and!; cbn; rewrite ?Hd', ?Hp', ?Hn', ?dom_insert_L; done.
  - case_decide as Hc; [|done]. destruct Hc as [[v Hv]%elem_of_dom Hd]. simplify_eq.
    eapply wp_mono; [by apply (register_lemma _ _ a)|]. cbn beta. intros y s' (-> & Hok' & Hp' & _ & Hn' & Hd').
    apply wp_ret. split; [done|]. exists (set_registered d a).
    split_and!; cbn; rewrite ?Hd', ?Hp', ?Hn', ?dom_insert_L; try done.
    apply elem_of_dom_2 in Hv. set_solver.
  - case_decide as Hc; [|done].
    eapply wp_mono; [by apply create_port_lemma|]. cbn beta. intros y s' (Hok' & Hn' & Hd' & Hy).
    apply wp_ret. destruct (kzalloc_ok _); destruct Hy as [-> Hp']; simplify_eq; (split; [done|]);
      exists a; split_and!; cbn; rewrite ?Hd', ?Hp', ?Hn', ?dom_insert_L; done.
  - destruct (ca_ports a !! d) as [ps|] eqn:Hd; cbn in Hs; [|done].
    case_decide as Hc; [|done]. destruct Hc as [[v Hv]%elem_of_dom Hp]. simplify_eq.
    rewrite members_all in Hp by done.
    eapply wp_mono; [by eapply add_port_lemma|]. cbn beta. intros y s' (-> & Hok' & Hp' & _ & Hn' & Hd').
    apply wp_ret. split; [done|]. eexists.
    split_and!; [done|..]; cbn; rewrite ?Hd', ?Hp', ?Hn', ?dom_insert_L; try done.
    apply elem_of_dom_2 in Hv. set_solver.
  - case_decide as Hc; [|done]. simplify_eq. rewrite members_all in Hc by done.
    eapply wp_mono; [by apply (remove_port_lemma _ a)|].
    cbn beta. intros y s' (-> & Hn' & Hd' & (v & Hv & Hp') & a' & Hok' & ? & ? & Hm' & ?).
    apply wp_ret. split; [done|]. exists a'. split_and!; cbn; rewrite ?Hd', ?Hp', ?Hn', ?dom_insert_L; try done.
    apply elem_of_dom_2 in Hv. set_solver.
  - case_decide as Hc; [|done]. simplify_eq. rewrite members_all in Hc by done.
    eapply wp_mono; [by apply (delete_port_lemma _ a)|].
    cbn beta. intros y s' (Hn' & Hd' & Hp' & a' & Hok' & ? & ? & Hm' & ?).
    apply wp_ret. split; [done|]. exists a'. by split_and!; cbn; rewrite ?Hd', ?Hp', ?Hn', ?dom_delete_L.
  - destruct (ca_ports a !! d) as [ps|] eqn:Hd; cbn in Hs; [|done]. simplify_eq.
    assert (d ∈ ca_devices a) as Hdin by (apply (ci_device _ _ Hi); eauto).
    destruct (ci_device_live _ _ Hi _ Hdin) as [_ [l Hl']].
    eapply wp_mono; [by eapply unregister_lemma|].
    cbn beta. intros y s' (-> & Hok' & Hp' & _ & Hd' & Hn').
    apply wp_ret. split; [done|]. eexists. split_and!; [done|..]; cbn; rewrite ?Hd', ?Hn'; try done.
    apply set_eq. intros p. rewrite elem_of_difference, !elem_of_dom, Hp', elem_of_list_to_set.
    case_decide; [split; [by intros []|naive_solver]|naive_solver].
  - case_decide as Hc; [|done]. destruct Hc as [[v Hv]%elem_of_dom Hd]. simplify_eq.
    eapply wp_mono; [by apply (delete_device_lemma _ a d v)|]. cbn beta. intros y s' (Hok' & Hn' & Hp' & Hd').
    apply wp_ret. split; [done|]. exists a. by split_and!; cbn; rewrite ?Hd', ?Hp', ?Hn', ?dom_delete_L.
Qed.

(** C2: Devices and ports form the registry that drivers rely on.  A driver
    that keeps to the contract (objects exist, devices are registered once,
    ports are added once and removed when they were added) can create,
    register, extend, remove, unregister and delete in any order: every call
    returns with the result of the contract, no freed or foreign list node is
    ever touched, unregistering a device removes and frees exactly its ports,
    and the lists of the core stay well formed. *)
Theorem registry_refinement kzalloc_ok misc_register ops s r xs r' :
  represents s r -> reg_steps kzalloc_ok misc_register ops r = Some (xs, r') ->
  exists s', reg_runs kzalloc_ok misc_register ops s = Done (xs, s') /\ represents s' r'.
Proof.
  revert s r xs. induction ops as [|op ops IH]; intros s r xs Hr Hs; cbn in Hs.
  - simplify_eq. by exists s.
  - destruct (reg_step kzalloc_ok misc_register op r) as [[x r1]|] eqn:H1; cbn in Hs; [|done].
    destruct (reg_steps kzalloc_ok misc_register ops r1) as [[xs2 r2]|] eqn:H2; cbn in Hs; [|done]. simplify_eq.
    pose proof (reg_refines kzalloc_ok misc_register op s r x r1 Hr H1) as (y & s1 & E1 & -> & Hr1)%wp_run.
    destruct (IH s1 r1 xs2 Hr1 H2) as (s2 & E2 & Hr2). exists s2. split; [|done].
    cbn [reg_runs]. unfold mbind, prog_bind, mret, prog_ret. by rewrite E1, E2.
Qed.

(** ** A small system *)

(** The state after a call, for the examples. *)
Definition after {A} (k : prog core A) (s : core) : core :=
  match k s with Done (_, s') => s' | Fault _ => s end.
Lemma after_wp {A} (k : prog core A) Q s : wp k Q s -> exists a, k s = Done (a, after k s) /\ Q a (after k s).
Proof. unfold wp, after. destruct (k s) as [[a s']|]; [by eauto|done]. Qed.

(** All allocations succeed; the device gets the number 16 and its ports the
    numbers 17 and 18. *)
Definition yes : nat -> bool := fun _ => true.
Definition demo0 : core := after (dmx512_core_init yes) boot.
Definition demo1 : core := after (dmx512_create_device yes (Some "demo"%string)) demo0.
Definition demo2 : core := after (register_dmx512_device (fun _ => 0) 16 0) demo1.
Definition demo3 : core := after (dmx512_create_port yes None "first"%string 0) demo2.
Definition demo4 : core := after (dmx512_add_port 16 17) demo3.
Definition demo5 : core := after (dmx512_create_port yes None "second"%string 0) demo4.
Definition demo : core := after (dmx512_add_port 16 18) demo5.
Definition demo_abs : core_abs :=
  set_ports 16 [17%nat; 18%nat] [17%nat; 18%nat]
    (set_registered 16 (CoreAbs {[FreeQueue := seq 0 16]} [] ∅ [])).

Lemma demo0_ok : core_ok demo0 (CoreAbs {[FreeQueue := seq 0 16]} [] ∅ []).
Proof. destruct (after_wp _ _ _ (core_init_lemma yes)) as (r & _ & _ & Hok). exact Hok. Qed.

Lemma demo_ok : core_ok demo demo_abs.
Proof.
  destruct (after_wp _ _ _ (create_device_lemma yes _ _ (Some "demo"%string) demo0_ok)) as (? & _ & H1 & _ & _ & Hd).
  destruct (after_wp _ _ _ (register_lemma (fun _ => 0) demo1 _ 16 (Device "demo" 0 0 false) 0 H1 eq_refl ltac:(set_solver)))
    as (? & _ & _ & H2 & _).
  destruct (after_wp _ _ _ (create_port_lemma yes demo2 _ None "first"%string 0 H2 ltac:(vm_compute; lia)))
    as (? & _ & H3 & _).
  destruct (after_wp _ _ _ (add_port_lemma demo3 _ 16 [] 17 (Port None "first"%string 0 None None None) H3 eq_refl eq_refl ltac:(set_solver)))
    as (? & _ & _ & H4 & _).
  destruct (after_wp _ _ _ (create_port_lemma yes demo4 _ None "second"%string 0 H4 ltac:(vm_compute; lia)))
    as (? & _ & H5 & _).
  destruct (after_wp _ _ _ (add_port_lemma demo5 _ 16 [17%nat] 18 (Port None "second"%string 0 None None None) H5 eq_refl eq_refl ltac:(set_solver)))
    as (? & _ & _ & H6 & _).
  exact H6.
Qed.

(** A driver took the first frame of the pool and handed it over for the
    second port. *)
Definition demo_got : core := after dmx512_get_frame demo.
Definition demo_received : core := after (dmx512_received_frame (Some 18%nat) (Some 0%nat)) demo_got.
Definition demo_got_abs : core_abs := set_queue FreeQueue (seq 1 15) demo_abs.

Lemma demo_got_ok : core_ok demo_got demo_got_abs.
Proof.
  destruct demo_ok as [Hi Hl].
  destruct (after_wp dmx512_get_frame (fun _ s' => core_ok s' demo_got_abs) demo) as (? & _ & H); [|exact H].
  eapply core_get_spec; [exact Hi|reflexivity|]. intros m' Hi' _. by split.
Qed.

Lemma loose_b Q e : bool_decide (loose Q e) = true -> loose Q e.
Proof. by intros ?%bool_decide_eq_true. Qed.

Lemma demo_received_ok : core_ok demo_received (set_queue (DevQueue 16) [0%nat] demo_got_abs).
Proof.
  destruct (after_wp _ _ _ (received_frame_lemma demo_got _ 16 [17%nat; 18%nat] 1 18 [] 0 zero_frame demo_got_ok
    eq_refl eq_refl eq_refl eq_refl (loose_b (ca_queues demo_got_abs) 0 ltac:(vm_compute; reflexivity)))) as (? & _ & _ & H & _). exact H.
Qed.

(** *** Witnesses *)

Lemma port_index_roundtrip_witness :
  dmx512_port_index (Some 18%nat) demo = Done (1, demo) /\
  dmx512_port_by_index (Some 16%nat) 1 demo = Done (Some 18%nat, demo) /\
  dmx512_port_by_index (Some 16%nat) 2 demo = Done (None, demo).
Proof.
  destruct (port_index_roundtrip demo demo_abs 16 [17%nat; 18%nat] demo_ok eq_refl) as [H1 H2].
  destruct (H1 1%nat 18%nat eq_refl). split_and!; [done|done|]. apply H2. cbn. lia.
Defined.

Lemma received_frame_appends_witness : exists s',
  dmx512_received_frame (Some 18%nat) (Some 0%nat) demo_got = Done (0, s') /\
  received demo_got demo_got_abs 16 1 0 [] zero_frame s'.
Proof.
  destruct (received_frame_appends demo_got demo_got_abs 16 [17%nat; 18%nat] 1 18 [] 0 zero_frame demo_got_ok
    eq_refl eq_refl eq_refl eq_refl (loose_b (ca_queues demo_got_abs) 0 ltac:(vm_compute; reflexivity))) as [H _]. exact H.
Defined.

(** A reader sleeps until the frame of [demo_received] is there. *)
Lemma device_read_oldest_witness : exists r s',
  dmx512_device_read (fun _ _ => demo_received) 16 false SIZEOF_FRAME 0 demo = Done (r, s') /\
  delivered demo_received (set_queue (DevQueue 16) [0%nat] demo_got_abs) 16 [0%nat] (seq 1 15) 0 r s'.
Proof.
  destruct (device_read_oldest (fun _ _ => demo_received) demo demo_abs
    (set_queue (DevQueue 16) [0%nat] demo_got_abs) 16 false SIZEOF_FRAME 0 [] (seq 0 16) [0%nat] (seq 1 15)
    demo_ok eq_refl eq_refl demo_received_ok eq_refl eq_refl) as (_ & _ & H).
  apply H; [apply Z.le_refl|reflexivity].
Defined.

(** A frame for a third port. *)
Lemma device_write_refused_witness : exists s',
  core_ok s' (set_queue FreeQueue (seq 1 15 ++ [0%nat]) demo_abs) /\
  dmx512_device_write (fun _ _ _ => mret 0) (fun _ _ => mret true) (Some 16%nat) SIZEOF_FRAME false
    (with_port 2 zero_frame) demo = Done (- EINVAL, s').
Proof.
  destruct (device_write_refused (fun _ _ _ => mret 0) (fun _ _ => mret true) (fun _ _ => true)
    (fun _ _ _ => eq_refl) demo demo_abs 16 [17%nat; 18%nat] (seq 0 16) SIZEOF_FRAME false
    (with_port 2 zero_frame) (- EINVAL) demo_ok eq_refl eq_refl eq_refl) as (s' & Hok & Hr & _).
  exists s'. split; [exact Hok|exact Hr].
Defined.

Lemma demo0_represents : represents demo0 (Registry ∅ ∅ [] ∅ 16).
Proof. eexists. split; [exact demo0_ok|]. split_and!; reflexivity. Qed.

(** A device with two ports comes and goes. *)
Definition demo_ops : list reg_op :=
  [OpCreateDevice None; OpRegister 16 0; OpCreatePort None "a" 0; OpAddPort 16 17;
   OpCreatePort None "b" 0; OpAddPort 16 18; OpDeletePort 17; OpUnregister 16; OpDeleteDevice 16].
Lemma registry_refinement_witness : exists s',
  reg_runs yes (fun _ => 0) demo_ops demo0 =
    Done ([RegPtr (inr 16%nat); RegInt 0; RegPtr (inr 17%nat); RegInt 0; RegPtr (inr 18%nat); RegInt 0;
           RegVoid; RegInt 0; RegVoid], s') /\ represents s' (Registry ∅ ∅ [] ∅ 19).
Proof.
  apply (registry_refinement yes (fun _ => 0) demo_ops demo0 (Registry ∅ ∅ [] ∅ 16)).
  - apply demo0_represents.
  - vm_compute. reflexivity.
Defined.

(** A frame waits when the device goes. *)
Lemma unregister_device_frees_witness : exists s',
  unregister_dmx512_device (Some 16%nat) demo_received = Done (0, s') /\
  c_ports s' !! 17%nat = None /\ m_frames (c_mem s') !! 0%nat = None.
Proof.
  destruct (unregister_device_frees demo_received (set_queue (DevQueue 16) [0%nat] demo_got_abs) 16
    [17%nat; 18%nat] [0%nat] demo_received_ok eq_refl eq_refl) as (s' & E & _ & _ & Hp & Hf).
  exists s'. split; [exact E|]. split; [rewrite Hp; reflexivity|rewrite Hf; reflexivity].
Defined.
