(* ===== verification/DummyDriver.v ===== *)
(** * The dummy driver

    [src/drivers/dmx512/boards/dmx512_dummy.c]: two devices whose ports are
    connected crosswise.  The driver is a client of the core and its
    theorems are end-to-end statements about both: what is written to a port
    of one device is read from the same port of the other. *)
From stdpp Require Import base countable gmap strings pretty list.
From S2P Require Import Prelude KList FrameQueue DmxCore CoreContract.

(** [dmx512_dummy_send_frame] as a callback: [fn] is its name. *)
Definition DUMMY_SEND_FRAME : nat := 0.

Definition dmx512_dummy_send_frame (port frame : nat) : prog core Z :=
  dst_port ← dmx512_port_userptr (Some port);
  match dst_port with
  | Some q => _ ← dmx512_received_frame (Some q) (Some frame); mret 0
  | None => mret 0
  end.

(** The callbacks of a system with this driver only. *)
Definition call_send_frame (fn port frame : nat) : prog core Z :=
  if decide (fn = DUMMY_SEND_FRAME) then dmx512_dummy_send_frame port frame else raise Dangling.
Definition call_has_space (fn port : nat) : prog core bool := mret true.

(** [snprintf(portname, sizeof(portname), "%s-%d", name, i)] *)
Definition portname (name : string) (i : nat) : string :=
  String.substring 0 127 (String.append name (String.append "-" (pretty i))).

Section dummy.
Context (kzalloc_ok : nat -> bool).
Context (misc_register : nat -> Z).
Context (ports_count : nat).

(** The body of the loop over the ports.  The error pointer of
    [dmx512_create_port] is not a null pointer and is used as a port. *)
Definition create_dummy_port (dmx : nat) (name : string) (i : nat) : prog core unit :=
  port ← dmx512_create_port kzalloc_ok (Some dmx) (portname name i) DMX512_CAP_RDM;
  match port with
  | inl _ => raise Dangling
  | inr p =>
      dmx512_port_set_sendframe (Some p) (Some DUMMY_SEND_FRAME) ;;
      _ ← dmx512_add_port dmx p;
      mret tt
  end.
Fixpoint create_dummy_ports (dmx : nat) (name : string) (i n : nat) : prog core unit :=
  match n with
  | O => mret tt
  | S n => create_dummy_port dmx name i ;; create_dummy_ports dmx name (S i) n
  end.

Definition create_dummy_dmx_device (name : option string) : prog core (Z + nat) :=
  let name := default "unknown"%string name in
  dmx ← dmx512_create_device kzalloc_ok (Some name);
  match dmx with
  | inl err => mret (inl err)
  | inr d =>
      ret ← register_dmx512_device misc_register d 0;
      if ret <? 0 then kfree_device d ;; mret (inl ret)
      else create_dummy_ports d name 0 ports_count ;; mret (inr d)
  end.

Fixpoint connect (dmx0 dmx1 : nat) (i n : nat) : prog core unit :=
  match n with
  | O => mret tt
  | S n =>
      p1 ← dmx512_port_by_index (Some dmx1) (Z.of_nat i);
      p0 ← dmx512_port_by_index (Some dmx0) (Z.of_nat i);
      dmx512_port_set_userptr p0 p1 ;;
      p0 ← dmx512_port_by_index (Some dmx0) (Z.of_nat i);
      p1 ← dmx512_port_by_index (Some dmx1) (Z.of_nat i);
      dmx512_port_set_userptr p1 p0 ;;
      connect dmx0 dmx1 (S i) n
  end.

(** The result and the two devices of [g_dmx_devices]. *)
Definition dmx512_dummy_driver_init : prog core (Z * option (nat * nat)) :=
  dmx0 ← create_dummy_dmx_device (Some "card0"%string);
  match dmx0 with
  | inl err => mret (err, None)
  | inr d0 =>
      dmx1 ← create_dummy_dmx_device (Some "card1"%string);
      match dmx1 with
      | inl err =>
          _ ← unregister_dmx512_device (Some d0);
          dmx512_delete_device (Some d0) ;;
          mret (err, None)
      | inr d1 => connect d0 d1 0 ports_count ;; mret (0, Some (d0, d1))
      end
  end.

Definition dmx512_dummy_driver_exit (d0 d1 : nat) : prog core unit :=
  _ ← unregister_dmx512_device (Some d0);
  _ ← unregister_dmx512_device (Some d1);
  dmx512_delete_device (Some d0) ;;
  dmx512_delete_device (Some d1).
End dummy.

(** ** The state the driver builds *)

(** A port of the driver that is connected to the port [q]. *)
Definition connected_to (s : core) (p q : nat) : Prop :=
  exists v, c_ports s !! p = Some v /\ p_send_frame v = Some DUMMY_SEND_FRAME /\
    p_transmitter_has_space v = None /\ p_userptr v = Some q.

(** The ports [ps] of [d] are connected to the ports [qs], one by one. *)
Definition crosswise (s : core) (ps qs : list nat) : Prop :=
  length ps = length qs /\
  forall i p q, ps !! i = Some p -> qs !! i = Some q -> connected_to s p q.

(** ** Loopback *)

Lemma write_delivers s a d0 d1 ps0 ps1 e l lq size user i p0 p1 :
  core_ok s a -> ca_ports a !! d0 = Some ps0 -> ca_ports a !! d1 = Some ps1 ->
  crosswise s ps0 ps1 -> ca_queues a !! FreeQueue = Some (e :: l) ->
  ca_queues a !! DevQueue d1 = Some lq ->
  SIZEOF_FRAME <= size -> f_port user = Z.of_nat i -> ps0 !! i = Some p0 -> ps1 !! i = Some p1 ->
  wp (dmx512_device_write call_send_frame call_has_space (Some d0) size false user)
     (fun r s' => r = SIZEOF_FRAME /\
        core_ok s' (set_queue (DevQueue d1) (lq ++ [e]) (set_queue FreeQueue l a)) /\
        m_frames (c_mem s') = <[e := with_port (Z.of_nat i mod 2 ^ 16) user]> (m_frames (c_mem s)) /\
        c_ports s' = c_ports s) s.
Proof.
  intros Hok Hd0 Hd1 [_ Hcross] Hfree Hq Hsize Hport Hp0 Hp1.
  destruct (Hcross i p0 p1 Hp0 Hp1) as (v & Hv & Hsend & Hspace & Huser).
  assert (addressed ps0 user = Some p0) as Haddr.
  { unfold addressed. rewrite Hport, (proj2 (Z.leb_le _ _)), Nat2Z.id by lia. done. }
  assert (write_error (c_ports s) (fun _ _ => true) ps0 size false user = None) as Hnone.
  { unfold write_error. rewrite (proj2 (Z.ltb_ge _ _)) by done. cbn. rewrite Haddr. cbn.
    rewrite Hv. cbn. by rewrite Hspace. }
  eapply (write_lemma _ _ (fun _ _ => true)); [done|done|done|done| |].
  - intros err s'. by rewrite Hnone.
  - intros p w s1 _ Hp Hw (Hok1 & Hloose & Hf1 & Hpo1 & _ & _). rewrite Haddr in Hp. injection Hp as <-.
    rewrite Hv in Hw. injection Hw as <-. exists DUMMY_SEND_FRAME. split; [done|].
    unfold call_send_frame. rewrite decide_True by done. unfold dmx512_dummy_send_frame.
    apply wp_bind, wp_bind. eapply wp_get_port; [by rewrite Hpo1|]. apply wp_ret. rewrite Huser.
    apply wp_bind. eapply wp_mono.
    { eapply (received_frame_lemma s1 _ d1 ps1 i p1 lq e user Hok1); [done|done| | |done].
      - cbn. by rewrite lookup_insert_ne.
      - by rewrite Hf1, lookup_insert_eq. }
    intros r s' (-> & Hok' & Hf' & Hpo' & _). apply wp_ret. split_and!; [done|done| |congruence].
    rewrite Hf', Hf1. by rewrite insert_insert_eq.
Qed.

(** C1: A frame that is written for port [i] of one dummy device and then
    read from the other is the frame that was written, with all its data,
    stamped with the number of the port; the pool has the same frames as
    before, with the one that was used at its end, and the receive queue is
    empty again. *)
Theorem dummy_loopback sleep s a d0 d1 ps0 ps1 e l size size' nonblock user i :
  core_ok s a -> ca_ports a !! d0 = Some ps0 -> ca_ports a !! d1 = Some ps1 ->
  crosswise s ps0 ps1 -> ca_queues a !! FreeQueue = Some (e :: l) -> ca_queues a !! DevQueue d1 = Some [] ->
  SIZEOF_FRAME <= size -> SIZEOF_FRAME <= size' ->
  f_port user = Z.of_nat i -> (i < length ps0)%nat -> Z.of_nat i < 2 ^ 16 ->
  exists s1 s2,
    dmx512_device_write call_send_frame call_has_space (Some d0) size false user s = Done (SIZEOF_FRAME, s1) /\
    dmx512_device_read sleep d1 nonblock size' 0 s1 = Done ((SIZEOF_FRAME, Some user), s2) /\
    core_ok s2 (set_queue FreeQueue (l ++ [e]) a) /\ c_ports s2 = c_ports s.
Proof.
  intros Hok Hd0 Hd1 Hcross Hfree Hq Hsize Hsize' Hport Hi Hi16.
  destruct (lookup_lt_is_Some_2 ps0 i Hi) as [p0 Hp0].
  destruct (lookup_lt_is_Some_2 ps1 i) as [p1 Hp1]; [by rewrite <- (proj1 Hcross)|].
  pose proof (write_delivers s a d0 d1 ps0 ps1 e l [] size user i p0 p1 Hok Hd0 Hd1 Hcross Hfree Hq Hsize Hport Hp0 Hp1)
    as (r & s1 & E1 & -> & Hok1 & Hf1 & Hpo1)%wp_run.
  assert (with_port (Z.of_nat i mod 2 ^ 16) user = user) as Huser.
  { rewrite Z.mod_small by lia. rewrite <- Hport. by destruct user. }
  rewrite Huser in Hf1. cbn [app] in Hok1.
  set (a1 := set_queue (DevQueue d1) [e] (set_queue FreeQueue l a)) in *.
  assert (ca_queues a1 !! DevQueue d1 = Some [e]) as Hq1 by (cbn; by rewrite lookup_insert_eq).
  assert (ca_queues a1 !! FreeQueue = Some l) as Hfree1.
  { cbn. by rewrite lookup_insert_ne, lookup_insert_eq. }
  pose proof (device_read_lemma sleep s1 a1 a1 d1 nonblock size' 0 [e] l [e] l Hok1 Hq1 Hfree1 Hsize'
    ltac:(done) Hok1 Hq1 Hfree1) as (r & s2 & E2 & Hf2 & Hpo2 & f & Hf & -> & Hok2)%wp_run.
  destruct (decide ([e] = [])) as [|_]; [done|]. rewrite Hf1, lookup_insert_eq in Hf. injection Hf as <-.
  exists s1, s2. split_and!; [done|done| |congruence].
  replace (set_queue FreeQueue (l ++ [e]) a) with
    (set_queue FreeQueue (l ++ [e]) (set_queue (DevQueue d1) [] a1)); [done|].
  unfold set_queue, set_queues. cbn. f_equal. rewrite insert_insert_eq.
  rewrite (insert_insert_ne _ FreeQueue (DevQueue d1)), insert_insert_eq by done.
  by rewrite (insert_id _ (DevQueue d1)) by (by rewrite lookup_insert_ne).
Qed.

(** ** Loading the driver *)

Lemma core_ok_put_port s a p v w :
  core_ok s a -> c_ports s !! p = Some v -> p_device w = p_device v ->
  core_ok (with_ports (<[p := w]> (c_ports s)) s) a.
Proof.
  intros [Hi Hl] Hv Hw. split; [|done].
  split; cbn; try apply Hi.
  - intros d ps q Hd Hq. destruct (ci_member _ _ Hi d ps q Hd Hq) as (? & u & Hu & Hud). split; [done|].
    destruct (decide (q = p)) as [->|]; [exists w; rewrite lookup_insert_eq; split; [done|congruence]|].
    exists u. by rewrite lookup_insert_ne.
  - intros q u. destruct (decide (q = p)) as [->|]; [intros _; by eapply (ci_port_fresh _ _ Hi)|].
    rewrite lookup_insert_ne by done. by apply (ci_port_fresh _ _ Hi).
Qed.

Lemma wp_set_sendframe p fn v (Q : unit -> core -> Prop) s :
  c_ports s !! p = Some v -> Q tt (with_ports (<[p := set_send_frame fn v]> (c_ports s)) s) ->
  wp (dmx512_port_set_sendframe (Some p) fn) Q s.
Proof. intros Hv HQ. apply wp_bind. eapply wp_get_port; [done|]. by apply wp_modify. Qed.
Lemma wp_set_userptr p u v (Q : unit -> core -> Prop) s :
  c_ports s !! p = Some v -> Q tt (with_ports (<[p := set_userptr u v]> (c_ports s)) s) ->
  wp (dmx512_port_set_userptr (Some p) u) Q s.
Proof. intros Hv HQ. apply wp_bind. eapply wp_get_port; [done|]. by apply wp_modify. Qed.

Lemma portname_short name i : (String.length (portname name i) < MAX_DMXPORT_NAME)%nat.
Proof.
  unfold portname, MAX_DMXPORT_NAME. generalize (String.append name (String.append "-" (pretty i))).
  assert (forall n x, (String.length (String.substring 0 n x) <= n)%nat) as H.
  { induction n as [|n IH]; intros [|c x]; cbn; [lia..|]. specialize (IH x). lia. }
  intros x. specialize (H 127%nat x). lia.
Qed.

(** What creating the port number [i] of [d] adds. *)
Definition dummy_port (d : nat) (name : string) (i : nat) (u : option nat) : dmx512_port :=
  Port (Some d) (portname name i) DMX512_CAP_RDM (Some DUMMY_SEND_FRAME) None u.

Lemma create_dummy_port_lemma kzalloc_ok s a d ps name i :
  core_ok s a -> ca_ports a !! d = Some ps -> kzalloc_ok (m_next (c_mem s)) = true ->
  let k := m_next (c_mem s) in
  wp (create_dummy_port kzalloc_ok d name i)
     (fun _ s' => core_ok s' (set_ports d (ps ++ [k]) (ca_all a ++ [k]) a) /\ m_next (c_mem s') = S k /\
        c_ports s' = <[k := dummy_port d name i None]> (c_ports s) /\ c_ports s !! k = None /\
        c_devices s' = c_devices s) s.
Proof.
  intros Hok Hd Halloc k. destruct (next_is_fresh s a (proj1 Hok)) as (_ & Hk & _ & Hall).
  unfold create_dummy_port. apply wp_bind. eapply wp_mono; [apply create_port_lemma; [done|apply portname_short]|].
  fold k in Hk, Hall, Halloc |- *. rewrite Halloc. cbn beta. intros ? s1 (Hok1 & Hn1 & Hd1 & -> & Hp1).
  apply wp_bind. eapply wp_set_sendframe; [by rewrite Hp1, lookup_insert_eq|].
  apply wp_bind. eapply wp_mono.
  { eapply (add_port_lemma _ a d ps k); [eapply core_ok_put_port; [done|by rewrite Hp1, lookup_insert_eq|done]|done| |done].
    cbn. by rewrite lookup_insert_eq. }
  cbn. intros ? s2 (-> & Hok2 & Hp2 & _ & Hn2 & Hd2). apply wp_ret. rewrite Hp2, Hp1, !insert_insert_eq.
  split_and!; try done; congruence.
Qed.

Lemma create_dummy_ports_lemma kzalloc_ok n s a d ps name i :
  core_ok s a -> ca_ports a !! d = Some ps -> (forall e, kzalloc_ok e = true) ->
  let k := m_next (c_mem s) in
  wp (create_dummy_ports kzalloc_ok d name i n)
     (fun _ s' => core_ok s' (set_ports d (ps ++ seq k n) (ca_all a ++ seq k n) a) /\
        m_next (c_mem s') = (k + n)%nat /\
        (forall j, (j < n)%nat -> c_ports s' !! (k + j)%nat = Some (dummy_port d name (i + j) None)) /\
        (forall p, (p < k)%nat -> c_ports s' !! p = c_ports s !! p)) s.
Proof.
  revert s a ps i. induction n as [|n IH]; intros s a ps i Hok Hd Halloc k; cbn [create_dummy_ports seq].
  { apply wp_ret. rewrite !app_nil_r, set_ports_id by done. split_and!; [done|lia|lia|done]. }
  apply wp_bind. eapply wp_mono; [by apply create_dummy_port_lemma|].
  cbn beta. fold k. intros _ s1 (Hok1 & Hn1 & Hp1 & Hnone & Hd1).
  eapply wp_mono; [apply (IH s1 (set_ports d (ps ++ [k]) (ca_all a ++ [k]) a) (ps ++ [k])); [done|cbn; by rewrite lookup_insert_eq|done]|].
  cbn beta. rewrite Hn1. intros _ s2 (Hok2 & Hn2 & Hp2 & Hold2).
  replace (set_ports d (ps ++ k :: seq (S k) n) (ca_all a ++ k :: seq (S k) n) a) with
    (set_ports d ((ps ++ [k]) ++ seq (S k) n) (ca_all (set_ports d (ps ++ [k]) (ca_all a ++ [k]) a) ++ seq (S k) n)
      (set_ports d (ps ++ [k]) (ca_all a ++ [k]) a)).
  2: { unfold set_ports. cbn. by rewrite insert_insert_eq, <- !app_assoc. }
  split_and!.
  - exact Hok2.
  - lia.
  - intros [|j] Hj.
    + rewrite Nat.add_0_r, Hold2, Hp1, lookup_insert_eq by lia. by rewrite Nat.add_0_r.
    + specialize (Hp2 j ltac:(lia)). by rewrite <- !Nat.add_succ_comm.
  - intros p Hp. rewrite Hold2, Hp1 by lia. rewrite lookup_insert_ne by lia. done.
Qed.

Lemma create_dummy_device_lemma kzalloc_ok misc_register n s a name :
  core_ok s a -> (forall e, kzalloc_ok e = true) -> (forall d, misc_register d = 0) ->
  let k := m_next (c_mem s) in
  wp (create_dummy_dmx_device kzalloc_ok misc_register n (Some name))
     (fun r s' => r = inr k /\
        core_ok s' (set_ports k (seq (S k) n) (ca_all a ++ seq (S k) n) (set_registered k a)) /\
        m_next (c_mem s') = (S k + n)%nat /\
        (forall j, (j < n)%nat -> c_ports s' !! (S k + j)%nat = Some (dummy_port k name j None)) /\
        (forall p, (p < k)%nat -> c_ports s' !! p = c_ports s !! p)) s.
Proof.
  intros Hok Halloc Hmisc k. destruct (next_is_fresh s a (proj1 Hok)) as (_ & _ & Hk & _).
  unfold create_dummy_dmx_device. apply wp_bind. eapply wp_mono; [by apply create_device_lemma|].
  cbn beta zeta. fold k in Hk |- *. rewrite Halloc. intros ? s1 (Hok1 & Hn1 & Hp1 & -> & Hd1).
  apply wp_bind. eapply wp_mono; [eapply (register_lemma _ _ a); [done|by rewrite Hd1, lookup_insert_eq|done]|].
  cbn beta. intros ? s2 (-> & Hok2 & Hp2 & _ & Hn2 & _). rewrite Hmisc. cbn [Z.ltb Z.compare].
  apply wp_bind. eapply wp_mono.
  { apply (create_dummy_ports_lemma kzalloc_ok n s2 (set_registered k a) k [] name 0 Hok2); [|done].
    cbn. by rewrite lookup_insert_eq. }
  cbn beta zeta. rewrite Hn2, Hn1. cbn [app]. intros _ s3 (Hok3 & Hn3 & Hnew & Hold).
  apply wp_ret. split_and!; [done|exact Hok3|done|done|].
  intros p Hp. rewrite Hold by lia. by rewrite Hp2, Hp1.
Qed.

(** A port that is not connected yet. *)
Definition ready (s : core) (p : nat) : Prop :=
  exists v, c_ports s !! p = Some v /\ p_send_frame v = Some DUMMY_SEND_FRAME /\
    p_transmitter_has_space v = None.

Lemma wp_by_index s a d ps i p (Q : option nat -> core -> Prop) :
  core_ok s a -> ca_ports a !! d = Some ps -> ps !! i = Some p -> Q (Some p) s ->
  wp (dmx512_port_by_index (Some d) (Z.of_nat i)) Q s.
Proof.
  intros Hok Hd Hp HQ. eapply wp_done; [by eapply dmx512_port_by_index_spec|].
  rewrite (proj2 (Z.leb_le _ _)), Nat2Z.id by lia. by rewrite Hp.
Qed.

Lemma connect_lemma n i s a d0 d1 ps0 ps1 :
  core_ok s a -> ca_ports a !! d0 = Some ps0 -> ca_ports a !! d1 = Some ps1 ->
  length ps0 = (i + n)%nat -> length ps1 = (i + n)%nat -> NoDup (ps0 ++ ps1) ->
  (forall p, p ∈ ps0 ++ ps1 -> ready s p) ->
  (forall j p q, (j < i)%nat -> ps0 !! j = Some p -> ps1 !! j = Some q ->
     connected_to s p q /\ connected_to s q p) ->
  wp (connect d0 d1 i n)
     (fun _ s' => core_ok s' a /\ crosswise s' ps0 ps1 /\ crosswise s' ps1 ps0) s.
Proof.
  intros Hok Hd0 Hd1 Hl0 Hl1 Hnd. revert i s Hok Hl0 Hl1.
  induction n as [|n IH]; intros i s Hok Hl0 Hl1 Hready Hdone; cbn [connect].
  { apply wp_ret. split; [done|]. rewrite Nat.add_0_r in *.
    split; (split; [lia|]); intros j p q Hp Hq; pose proof (lookup_lt_Some _ _ _ Hp).
    - apply (Hdone j p q); [lia|done..].
    - apply (Hdone j q p); [lia|done..]. }
  destruct (lookup_lt_is_Some_2 ps0 i) as [p0 Hp0]; [lia|].
  destruct (lookup_lt_is_Some_2 ps1 i) as [p1 Hp1]; [lia|].
  apply NoDup_app in Hnd as Hnd'. destruct Hnd' as (Hnd0 & Hdisj & Hnd1).
  assert (p0 <> p1) as Hne.
  { intros ->. apply (Hdisj p1); by eapply list_elem_of_lookup_2. }
  destruct (Hready p0) as (v0 & Hv0 & Hs0 & Hh0); [apply elem_of_app; left; by eapply list_elem_of_lookup_2|].
  destruct (Hready p1) as (v1 & Hv1 & Hs1 & Hh1); [apply elem_of_app; right; by eapply list_elem_of_lookup_2|].
  apply wp_bind. eapply wp_by_index; [done..|]. apply wp_bind. eapply wp_by_index; [done..|].
  apply wp_bind. eapply wp_set_userptr; [done|].
  set (s1 := with_ports _ _). assert (core_ok s1 a) as Hok1 by by eapply core_ok_put_port.
  apply wp_bind. eapply wp_by_index; [done..|]. apply wp_bind. eapply wp_by_index; [done..|].
  apply wp_bind. eapply (wp_set_userptr _ _ v1); [cbn; by rewrite lookup_insert_ne|].
  set (s2 := with_ports _ _). assert (core_ok s2 a) as Hok2.
  { apply (core_ok_put_port s1 a p1 v1); [done| |done]. cbn. by rewrite lookup_insert_ne. }
  assert (forall p, p <> p0 -> p <> p1 -> c_ports s2 !! p = c_ports s !! p) as Hother.
  { intros p ??. cbn. by rewrite !lookup_insert_ne. }
  assert (c_ports s2 !! p0 = Some (set_userptr (Some p1) v0)) as H0.
  { cbn. by rewrite lookup_insert_ne, lookup_insert_eq. }
  assert (c_ports s2 !! p1 = Some (set_userptr (Some p0) v1)) as H1.
  { cbn. by rewrite lookup_insert_eq. }
  apply IH; [done|lia|lia| |].
  - intros p Hp. destruct (decide (p = p0)) as [->|]; [by eexists|].
    destruct (decide (p = p1)) as [->|]; [by eexists|]. unfold ready. rewrite Hother by done. by apply Hready.
  - intros j p q Hj Hp Hq. destruct (decide (j = i)) as [->|Hji].
    { simplify_eq. split; eexists; (split; [done|done]). }
    assert (p <> p0) by (intros ->; apply Hji; apply (NoDup_lookup ps0 j i p0); done).
    assert (q <> p1) by (intros ->; apply Hji; apply (NoDup_lookup ps1 j i p1); done).
    assert (p <> p1) by (intros ->; apply (Hdisj p1); by eapply list_elem_of_lookup_2).
    assert (q <> p0) by (intros ->; apply (Hdisj p0); by eapply list_elem_of_lookup_2).
    unfold connected_to. rewrite !Hother by done. by apply (Hdone j); [lia|..].
Qed.

(** The numbers of the devices of the driver, when [k] is the next free one,
    and the lists of the core with them. *)
Definition second (k n : nat) : nat := (S k + n)%nat.
Definition dummy_abs (k n : nat) (a : core_abs) : core_abs :=
  let a1 := set_ports k (seq (S k) n) (ca_all a ++ seq (S k) n) (set_registered k a) in
  let k1 := second k n in
  set_ports k1 (seq (S k1) n) (ca_all a1 ++ seq (S k1) n) (set_registered k1 a1).

Lemma dummy_abs_ports k n a :
  ca_ports (dummy_abs k n a) !! k = Some (seq (S k) n) /\
  ca_ports (dummy_abs k n a) !! second k n = Some (seq (S (second k n)) n).
Proof.
  split; cbn; [|by rewrite lookup_insert_eq].
  rewrite !lookup_insert_ne by (unfold second; lia). by rewrite lookup_insert_eq.
Qed.

Lemma dummy_init_lemma kzalloc_ok misc_register n s a :
  core_ok s a -> (forall e, kzalloc_ok e = true) -> (forall d, misc_register d = 0) ->
  let k := m_next (c_mem s) in
  wp (dmx512_dummy_driver_init kzalloc_ok misc_register n)
    (fun r s' => r = (0, Some (k, second k n)) /\ core_ok s' (dummy_abs k n a) /\
       crosswise s' (seq (S k) n) (seq (S (second k n)) n) /\
       crosswise s' (seq (S (second k n)) n) (seq (S k) n)) s.
Proof.
  intros Hok Halloc Hmisc k. unfold dmx512_dummy_driver_init. apply wp_bind.
  eapply wp_mono; [by apply create_dummy_device_lemma|].
  cbn beta zeta. intros ? s1 (-> & Hok1 & Hn1 & Hnew1 & _). fold k in Hok1, Hn1, Hnew1.
  apply wp_bind. eapply wp_mono; [by eapply (create_dummy_device_lemma _ _ _ s1)|].
  cbn beta zeta. rewrite Hn1. fold (second k n). intros ? s2 (-> & Hok2 & _ & Hnew2 & Hold2).
  fold k. apply wp_bind. destruct (dummy_abs_ports k n a). set (k1 := second k n) in *.
  eapply wp_mono.
  { apply (connect_lemma n 0 s2 (dummy_abs k n a) k k1 (seq (S k) n) (seq (S k1) n)); try done.
    - by rewrite length_seq.
    - by rewrite length_seq.
    - apply NoDup_app. split_and!; [apply NoDup_seq| |apply NoDup_seq].
      intros x. rewrite !elem_of_seq. unfold k1, second. lia.
    - intros p [Hp%elem_of_seq|Hp%elem_of_seq]%elem_of_app.
      + exists (dummy_port k "card0" (p - S k) None). split; [|done].
        rewrite Hold2 by (unfold k1, second; lia).
        replace p with (S k + (p - S k))%nat by lia. rewrite Hnew1 by lia. do 3 f_equal. lia.
      + exists (dummy_port k1 "card1" (p - S k1) None). split; [|done].
        replace p with (S k1 + (p - S k1))%nat by lia. rewrite Hnew2 by lia. do 3 f_equal. lia.
    - lia. }
  cbn beta. intros _ s3 (Hok3 & Hc1 & Hc2). by apply wp_ret.
Qed.

(** Loading the driver creates two registered devices with [ports_count]
    ports each, numbered alike and connected crosswise; the devices that were
    there, their queues and the pool are as they were. *)
Theorem dummy_driver_init_crosswise kzalloc_ok misc_register ports_count s a :
  core_ok s a -> (forall e, kzalloc_ok e = true) -> (forall d, misc_register d = 0) ->
  exists s' a' d0 d1 ps0 ps1,
    dmx512_dummy_driver_init kzalloc_ok misc_register ports_count s = Done ((0, Some (d0, d1)), s') /\
    core_ok s' a' /\ ca_devices a' = d1 :: d0 :: ca_devices a /\
    ca_queues a' = <[DevQueue d1 := []]> (<[DevQueue d0 := []]> (ca_queues a)) /\
    ca_ports a' !! d0 = Some ps0 /\ ca_ports a' !! d1 = Some ps1 /\
    length ps0 = ports_count /\ length ps1 = ports_count /\
    crosswise s' ps0 ps1 /\ crosswise s' ps1 ps0.
Proof.
  intros Hok Halloc Hmisc.
  pose proof (dummy_init_lemma kzalloc_ok misc_register ports_count s a Hok Halloc Hmisc)
    as (r & s' & E & -> & Hok' & Hc1 & Hc2)%wp_run.
  destruct (dummy_abs_ports (m_next (c_mem s)) ports_count a) as [H0 H1].
  do 6 eexists. split; [exact E|]. split; [exact Hok'|]. do 2 (split; [reflexivity|]).
  split; [exact H0|]. split; [exact H1|]. by rewrite !length_seq.
Qed.

(** The driver with two ports in a core that has just been loaded. *)
Definition dummy_demo : core := after (dmx512_dummy_driver_init yes (fun _ => 0) 2) demo0.

Lemma dummy_demo_ok :
  core_ok dummy_demo (dummy_abs 16 2 (CoreAbs {[FreeQueue := seq 0 16]} [] ∅ [])) /\
  crosswise dummy_demo [17%nat; 18%nat] [20%nat; 21%nat].
Proof.
  destruct (after_wp _ _ _ (dummy_init_lemma yes (fun _ => 0) 2 demo0 _ demo0_ok (fun _ => eq_refl) (fun _ => eq_refl)))
    as (r & _ & _ & Hok & Hc & _). split; [exact Hok|exact Hc].
Qed.

Lemma dummy_driver_init_crosswise_witness : exists s' a' d0 d1 ps0 ps1,
  dmx512_dummy_driver_init yes (fun _ => 0) 8 demo0 = Done ((0, Some (d0, d1)), s') /\
  core_ok s' a' /\ ca_devices a' = [d1; d0] /\ ca_ports a' !! d0 = Some ps0 /\ ca_ports a' !! d1 = Some ps1 /\
  length ps0 = 8%nat /\ crosswise s' ps0 ps1.
Proof.
  destruct (dummy_driver_init_crosswise yes (fun _ => 0) 8 demo0 _ demo0_ok (fun _ => eq_refl) (fun _ => eq_refl))
    as (s' & a' & d0 & d1 & ps0 & ps1 & ? & ? & ? & _ & ? & ? & ? & _ & ? & _).
  exists s', a', d0, d1, ps0, ps1. split_and!; assumption.
Defined.

Lemma dummy_loopback_witness : exists s1 s2,
  dmx512_device_write call_send_frame call_has_space (Some 16%nat) SIZEOF_FRAME false (with_port 1 zero_frame) dummy_demo
    = Done (SIZEOF_FRAME, s1) /\
  dmx512_device_read (fun _ s => s) 19 true SIZEOF_FRAME 0 s1 = Done ((SIZEOF_FRAME, Some (with_port 1 zero_frame)), s2).
Proof.
  destruct (dummy_loopback (fun _ s => s) dummy_demo _ 16 19 [17%nat; 18%nat] [20%nat; 21%nat] 0 (seq 1 15)
    SIZEOF_FRAME SIZEOF_FRAME true (with_port 1 zero_frame) 1 (proj1 dummy_demo_ok) eq_refl eq_refl
    (proj2 dummy_demo_ok) eq_refl eq_refl (Z.le_refl _) (Z.le_refl _) eq_refl ltac:(cbn; lia) ltac:(lia))
    as (s1 & s2 & ? & ? & _). exists s1, s2. split; assumption.
Defined.

(** When the character device of a dummy device cannot be registered,
    loading fails with the error of [misc_register], but the device is freed
    while it is still in the list of devices: the next registration of any
    device uses the freed memory. *)
Theorem failed_registration_dangles :
  exists s1, dmx512_dummy_driver_init yes (fun _ => -12) 8 demo0 = Done ((-12, None), s1) /\
  exists s2, dmx512_create_device yes (Some "card"%string) s1 = Done (inr 17%nat, s2) /\
    register_dmx512_device (fun _ => 0) 17 0 s2 = Fault Dangling.
Proof.
  exists (after (dmx512_dummy_driver_init yes (fun _ => -12) 8) demo0). split; [vm_compute; reflexivity|].
  exists (after (dmx512_create_device yes (Some "card"%string)) (after (dmx512_dummy_driver_init yes (fun _ => -12) 8) demo0)).
  split; vm_compute; reflexivity.
Qed.
