(* ===== verification/RdmFrame.v ===== *)
(** * RDM frames

    The helpers of [src/uio-testbench/dmx512/rtuart_dmx512_client.c] that
    build and check RDM frames (ANSI E1.20): the checksum, the tests for the
    kinds of frames, the replies the client makes up for a discovery without
    an answer, and the coding of discovery replies, in which every octet of
    the UID is sent twice.  A frame's octets are a list; an access outside of
    [data] is a fault. *)
From stdpp Require Import base countable gmap list.
From S2P Require Import Prelude KList FrameQueue.

(** ** Constants *)
Definition SC_RDM : Z := 0xCC.
Definition SC_SUB_MESSAGE : Z := 0x01.
Definition DISCOVERY_COMMAND : Z := 0x10.
Definition DISCOVERY_COMMAND_RESPONSE : Z := 0x11.
Definition RESPONSE_TYPE_NOREPLY : Z := 0xff.
Definition DISC_UNIQUE_BRANCH : Z := 0x0001.
Definition DMX_POS_STARTCODE : Z := 0.
Definition RDM_POS_SUBSTARTCODE : Z := 1.
Definition RDM_POS_LENGTH : Z := 2.
Definition RDM_POS_DEST_UID : Z := 3.
Definition RDM_POS_SRC_UID : Z := 9.
Definition RDM_POS_RESPONSE_TYPE : Z := 16.
Definition RDM_POS_COMMAND_CLASS : Z := 20.
Definition RDM_POS_PID : Z := 21.
Definition RDM_POS_PDL : Z := 23.
Definition RDM_DISCOVER_REPLY_MAX_FRAMESIZE : Z := 24.

(** ** Checksums *)

(** The loop of [dmx512frame_calculate_rdm_checksum] from index [i]. *)
Fixpoint checksum_loop (n : nat) (i : Z) (data : list Z) (sum : Z) : outcome Z :=
  match n with
  | O => Done sum
  | S n => v ← load data i; checksum_loop n (i + 1) data (u16 (sum + v))
  end.
(** [data + off] and [size], which is signed. *)
Definition dmx512frame_calculate_rdm_checksum (data : list Z) (off size : Z) : outcome Z :=
  checksum_loop (Z.to_nat size) off data 0.

(** Setting the octets of a frame. *)
Definition poke (i v : Z) (f : dmx512frame) : outcome dmx512frame :=
  d ← store i (u8 v) (f_data f); Done (with_data d f).
Definition peek (i : Z) (f : dmx512frame) : outcome Z := load (f_data f) i.
(** [memcpy] and [memset] inside of a frame. *)
Definition copy_in_frame (dst src : Z) (n : nat) (f : dmx512frame) : outcome dmx512frame :=
  vs ← load_all src n (f_data f); d ← store_all dst vs (f_data f); Done (with_data d f).
Definition fill_in_frame (dst v : Z) (n : nat) (f : dmx512frame) : outcome dmx512frame :=
  d ← store_all dst (replicate n v) (f_data f); Done (with_data d f).

(** The last two octets of the frame become its checksum. *)
Definition append_checksum (rdm_framesize : Z) (f : dmx512frame) : outcome dmx512frame :=
  rdmcs ← dmx512frame_calculate_rdm_checksum (f_data f) 0 rdm_framesize;
  f ← poke rdm_framesize (Z.shiftr rdmcs 8) f;
  poke (rdm_framesize + 1) rdmcs f.

Definition update_rdm_checksum (f : dmx512frame) : outcome dmx512frame :=
  let rdm_framesize := f_payload_size f - 1 in
  if 254 <? rdm_framesize then Done f else
  f ← poke RDM_POS_RESPONSE_TYPE RESPONSE_TYPE_NOREPLY f;
  cc ← peek RDM_POS_COMMAND_CLASS f;
  f ← poke RDM_POS_COMMAND_CLASS (Z.lor cc 1) f;
  append_checksum rdm_framesize f.

Definition update_rdm_sizes_from_pdl (f : dmx512frame) : outcome dmx512frame :=
  pdl ← peek RDM_POS_PDL f;
  let frameSizeWithoutChecksum := RDM_DISCOVER_REPLY_MAX_FRAMESIZE + pdl in
  f ← poke RDM_POS_LENGTH frameSizeWithoutChecksum f;
  Done (with_payload_size (u16 (frameSizeWithoutChecksum + 2 - 1)) f).

(** The replies that are made up for a discovery request: [v] fills the
    source UID. *)
Definition discovery_reply (v : Z) (f : dmx512frame) : outcome dmx512frame :=
  f ← copy_in_frame RDM_POS_DEST_UID RDM_POS_SRC_UID 6 f;
  f ← fill_in_frame RDM_POS_SRC_UID v 6 f;
  f ← poke RDM_POS_COMMAND_CLASS DISCOVERY_COMMAND_RESPONSE f;
  f ← poke RDM_POS_PDL 0 f;
  f ← update_rdm_sizes_from_pdl f;
  update_rdm_checksum f.
Definition rdm_discovery_reply_collision : dmx512frame -> outcome dmx512frame := discovery_reply 0xFF.
Definition rdm_discovery_reply_timeout : dmx512frame -> outcome dmx512frame := discovery_reply 0.

(** ** Kinds of frames *)

(** The C conjunctions stop at the first test that fails, so a later octet is
    not read then. *)
Definition octet_is (i v : Z) (data : list Z) (k : outcome bool) : outcome bool :=
  x ← load data i; if x =? v then k else Done false.

Definition dmx512frame_is_rdm (data : list Z) : outcome bool :=
  octet_is DMX_POS_STARTCODE SC_RDM data (octet_is RDM_POS_SUBSTARTCODE SC_SUB_MESSAGE data (Done true)).
Definition is_disc_unique_branch (command pdl : Z) (data : list Z) : outcome bool :=
  octet_is DMX_POS_STARTCODE SC_RDM data (
  octet_is RDM_POS_SUBSTARTCODE SC_SUB_MESSAGE data (
  octet_is RDM_POS_COMMAND_CLASS command data (
  octet_is RDM_POS_PID (u8 (Z.shiftr DISC_UNIQUE_BRANCH 8)) data (
  octet_is (RDM_POS_PID + 1) (u8 DISC_UNIQUE_BRANCH) data (
  octet_is RDM_POS_PDL pdl data (Done true)))))).
Definition dmx512frame_is_rdm_discover : list Z -> outcome bool :=
  is_disc_unique_branch DISCOVERY_COMMAND 12.
Definition dmx512frame_is_rdm_discover_reply : list Z -> outcome bool :=
  is_disc_unique_branch DISCOVERY_COMMAND_RESPONSE 0.

(** ** Discovery replies *)

(** [dmx512rtuart_find_preamble]: the position of the separator, -2 for an
    octet that is neither preamble nor separator, -1 when it is not there
    yet. *)
Fixpoint find_preamble_loop (n : nat) (i : Z) (off : Z) (data : list Z) : outcome Z :=
  match n with
  | O => Done (-1)
  | S n =>
      x ← load data (off + i);
      if x =? 0xAA then Done i
      else if negb (x =? 0xFE) then Done (-2)
      else find_preamble_loop n (i + 1) off data
  end.
Definition dmx512rtuart_find_preamble (data : list Z) (off size : Z) : outcome Z :=
  find_preamble_loop (Z.to_nat size) 0 off data.

(** The test of the eight pairs of octets at [off]. *)
Fixpoint check_pairs (n : nat) (off : Z) (data : list Z) : outcome bool :=
  match n with
  | O => Done true
  | S n =>
      x ← load data off;
      if negb (Z.land x 0xAA =? 0xAA) then Done false else
      y ← load data (off + 1);
      if negb (Z.land y 0x55 =? 0x55) then Done false else
      check_pairs n (off + 2) data
  end.

(** An octet that was sent as a pair. *)
Definition unpair (off : Z) (data : list Z) : outcome Z :=
  x ← load data off; y ← load data (off + 1); Done (Z.land x y).
(** The loop that writes the source UID into the frame it reads from. *)
Fixpoint decode_uid (n : nat) (i off : Z) (f : dmx512frame) : outcome dmx512frame :=
  match n with
  | O => Done f
  | S n => v ← unpair (off + 2 * i) (f_data f); f ← poke (RDM_POS_SRC_UID + i) v f; decode_uid n (i + 1) off f
  end.

(** The result and the frame, which is changed also when the reply is bad;
    -1 is a reply that is damaged. *)
Definition dmx512rtuart_complete_rdm_discovery_reply (f : dmx512frame) : outcome (Z * dmx512frame) :=
  let count := f_payload_size f + 1 in
  ppos ← dmx512rtuart_find_preamble (f_data f) 256 count;
  let off := if -1 <? ppos then 256 + ppos + 1 else 256 in
  ok ← (if -1 <? ppos then check_pairs 8 off (f_data f) else Done true);
  if negb ok then Done (-1, f) else
  calccrc ← dmx512frame_calculate_rdm_checksum (f_data f) off 12;
  hi ← unpair (off + 12) (f_data f);
  lo ← unpair (off + 14) (f_data f);
  let crc := u16 (Z.shiftl hi 8 + lo) in
  if negb (calccrc =? crc) then Done (-1, f) else
  f ← copy_in_frame RDM_POS_DEST_UID RDM_POS_SRC_UID 6 f;
  f ← decode_uid 6 0 off f;
  f ← poke RDM_POS_COMMAND_CLASS DISCOVERY_COMMAND_RESPONSE f;
  f ← poke RDM_POS_PDL 0 f;
  f ← update_rdm_sizes_from_pdl f;
  f ← append_checksum (f_payload_size f - 1) f;
  Done (0, f).

(** The octets of a discovery reply as the client transmits them: seven
    times 0xFE, the separator, the UID and its checksum in pairs, written at
    256 of the frame's own data. *)
Definition pair_octets (x : Z) : list Z := [u8 (Z.lor 0xAA x); u8 (Z.lor 0x55 x)].
Fixpoint encode_uid (n : nat) (i : Z) (f : dmx512frame) : outcome dmx512frame :=
  match n with
  | O => Done f
  | S n =>
      x ← peek (RDM_POS_SRC_UID + i) f;
      f ← poke (264 + 2 * i) (Z.lor 0xAA x) f;
      x ← peek (RDM_POS_SRC_UID + i) f;
      f ← poke (265 + 2 * i) (Z.lor 0x55 x) f;
      encode_uid n (i + 1) f
  end.
Definition encode_discovery_reply (f : dmx512frame) : outcome dmx512frame :=
  f ← fill_in_frame 256 0xFE 7 f;
  f ← poke 263 0xAA f;
  f ← encode_uid 6 0 f;
  checksum ← dmx512frame_calculate_rdm_checksum (f_data f) 264 12;
  f ← poke 276 (Z.lor 0xAA (u8 (Z.shiftr checksum 8))) f;
  f ← poke 277 (Z.lor 0x55 (u8 (Z.shiftr checksum 8))) f;
  f ← poke 278 (Z.lor 0xAA (u8 checksum)) f;
  poke 279 (Z.lor 0x55 (u8 checksum)) f.

(** ** Frames as functions from slots to octets *)

(** The octet in slot [j]; 0 outside of the frame. *)
Definition slot (f : dmx512frame) (j : Z) : Z := default 0 (f_data f !! Z.to_nat j).
Definition octet (v : Z) : Prop := 0 <= v < 256.
Definition frame_wf (f : dmx512frame) : Prop :=
  length (f_data f) = DATA_SIZE /\ Forall octet (f_data f).

Lemma u8_octet v : octet (u8 v).
Proof. unfold octet, u8. apply Z.mod_pos_bound. lia. Qed.
Lemma u8_small v : octet v -> u8 v = v.
Proof. intros Hv. apply Z.mod_small. unfold octet in Hv. lia. Qed.
Lemma u16_small v : 0 <= v < 65536 -> u16 v = v.
Proof. intros Hv. apply Z.mod_small. lia. Qed.
Lemma u16_range v : 0 <= u16 v < 65536.
Proof. unfold u16. pose proof (Z.mod_pos_bound v (2 ^ 16)). lia. Qed.

(** A property of all octets is checked by trying them. *)
Lemma octet_ind_check (P : Z -> bool) :
  forallb P (Z.of_nat <$> seq 0 256) = true -> forall v, octet v -> P v = true.
Proof.
  intros Hall v Hv. rewrite forallb_forall in Hall. apply Hall.
  apply list_elem_of_In, list_elem_of_fmap. exists (Z.to_nat v). unfold octet in Hv.
  split; [lia|]. apply elem_of_seq. lia.
Qed.

Lemma slot_octet f j : frame_wf f -> octet (slot f j).
Proof.
  intros [_ Hf]. unfold slot. destruct (f_data f !! Z.to_nat j) as [v|] eqn:Hv; [|cbn; unfold octet; lia].
  cbn. rewrite Forall_forall in Hf. apply Hf. by eapply list_elem_of_lookup_2.
Qed.
Lemma load_slot f j : frame_wf f -> 0 <= j < 513 -> load (f_data f) j = Done (slot f j).
Proof.
  intros [Hl _] Hj. unfold load, slot. rewrite (proj2 (Z.leb_le _ _)) by lia.
  destruct (lookup_lt_is_Some_2 (f_data f) (Z.to_nat j)) as [v Hv]; [unfold DATA_SIZE in Hl; lia|].
  by rewrite Hv.
Qed.
Lemma peek_slot f j : frame_wf f -> 0 <= j < 513 -> peek j f = Done (slot f j).
Proof. apply load_slot. Qed.

(** [g] is [f] with other octets in its slots. *)
Definition rewritten (f g : dmx512frame) (h : Z -> Z) : Prop :=
  frame_wf g /\ g = with_data (f_data g) f /\ forall j, 0 <= j < 513 -> slot g j = h j.

Lemma rewritten_trans f g k h1 h2 :
  rewritten f g h1 -> rewritten g k h2 -> rewritten f k h2.
Proof. intros (_ & Hg & _) (? & Hk & ?). split_and!; [done| |done]. rewrite Hk, Hg. by destruct f. Qed.

Lemma frame_data_rewritten f d (h : Z -> Z) :
  length d = DATA_SIZE -> (forall j v, d !! j = Some v -> octet v /\ v = h (Z.of_nat j)) ->
  rewritten f (with_data d f) h.
Proof.
  intros Hl Hd. split_and!; [split; [done|]|by destruct f|].
  - apply Forall_lookup. intros j v Hv. by apply (Hd j v).
  - intros j Hj. unfold slot. cbn. destruct (lookup_lt_is_Some_2 d (Z.to_nat j)) as [v Hv]; [unfold DATA_SIZE in Hl; lia|].
    rewrite Hv. cbn. destruct (Hd _ _ Hv) as [_ ->]. f_equal. lia.
Qed.

Lemma poke_spec f i v :
  frame_wf f -> 0 <= i < 513 ->
  exists g, poke i v f = Done g /\ rewritten f g (fun j => if j =? i then u8 v else slot f j).
Proof.
  intros Hf Hi. pose proof Hf as [Hl Ho]. unfold poke, store. rewrite Hl.
  rewrite (proj2 (Z.leb_le _ _)), (proj2 (Z.ltb_lt _ _)) by (unfold DATA_SIZE; lia). cbn.
  eexists. split; [done|]. apply frame_data_rewritten; [by rewrite length_insert|].
  intros j w. destruct (decide (j = Z.to_nat i)) as [->|Hne].
  - rewrite list_lookup_insert_eq by (unfold DATA_SIZE in Hl; lia). intros [= <-].
    rewrite (proj2 (Z.eqb_eq _ _)) by lia. split; [apply u8_octet|done].
  - rewrite list_lookup_insert_ne by done. intros Hw. rewrite (proj2 (Z.eqb_neq _ _)) by lia.
    unfold slot. rewrite Nat2Z.id, Hw. split; [|done].
    rewrite Forall_forall in Ho. apply Ho. by eapply list_elem_of_lookup_2.
Qed.

Lemma store_all_spec f i vs :
  frame_wf f -> 0 <= i -> i + Z.of_nat (length vs) <= 513 -> Forall octet vs ->
  exists d, store_all i vs (f_data f) = Done d /\
    rewritten f (with_data d f) (fun j =>
      if (i <=? j) && (j <? i + Z.of_nat (length vs)) then default 0 (vs !! Z.to_nat (j - i)) else slot f j).
Proof.
  intros [Hl Ho] Hi Hn Hvs. rewrite <- (Z2Nat.id i) by lia.
  rewrite store_all_nat by (unfold DATA_SIZE in Hl; lia). eexists. split; [done|].
  apply frame_data_rewritten.
  { rewrite !length_app, length_take, length_drop. unfold DATA_SIZE in *. lia. }
  assert (length (take (Z.to_nat i) (f_data f)) = Z.to_nat i) as Ht.
  { rewrite length_take. unfold DATA_SIZE in *. lia. }
  intros j v Hv. rewrite lookup_app in Hv. destruct (take (Z.to_nat i) (f_data f) !! j) as [w|] eqn:Hw.
  - injection Hv as <-. pose proof (lookup_lt_Some _ _ _ Hw) as Hlt. rewrite Ht in Hlt.
    rewrite lookup_take_lt in Hw by done. rewrite (proj2 (Z.leb_gt _ _)) by lia. cbn.
    unfold slot. rewrite Nat2Z.id, Hw. split; [|done].
    rewrite Forall_forall in Ho. apply Ho. by eapply list_elem_of_lookup_2.
  - apply lookup_ge_None in Hw. rewrite Ht in *. rewrite (proj2 (Z.leb_le _ _)) by lia. cbn [andb].
    rewrite lookup_app in Hv. destruct (vs !! (j - Z.to_nat i)%nat) as [w|] eqn:Hw2.
    + injection Hv as <-. pose proof (lookup_lt_Some _ _ _ Hw2).
      rewrite (proj2 (Z.ltb_lt _ _)) by lia. replace (Z.to_nat (Z.of_nat j - _)) with (j - Z.to_nat i)%nat by lia.
      rewrite Hw2. split; [|done]. rewrite Forall_forall in Hvs. apply Hvs. by eapply list_elem_of_lookup_2.
    + apply lookup_ge_None in Hw2. rewrite (proj2 (Z.ltb_ge _ _)) by lia.
      rewrite lookup_drop in Hv. replace (_ + _)%nat with j in Hv by lia.
      unfold slot. rewrite Nat2Z.id, Hv. split; [|done].
      rewrite Forall_forall in Ho. apply Ho. by eapply list_elem_of_lookup_2.
Qed.

Lemma load_all_spec f i n :
  frame_wf f -> 0 <= i -> i + Z.of_nat n <= 513 ->
  load_all i n (f_data f) = Done ((fun k => slot f (i + Z.of_nat k)) <$> seq 0 n).
Proof.
  intros Hf. revert i. induction n as [|n IH]; intros i Hi Hn; [done|].
  cbn [load_all seq]. rewrite load_slot by (done || lia). cbn. rewrite IH by lia. cbn.
  do 2 f_equal; [f_equal; lia|]. rewrite <- fmap_S_seq, <- list_fmap_compose.
  apply list_fmap_ext. intros k ? _. cbn. f_equal. lia.
Qed.

Lemma copy_in_frame_spec f dst src n :
  frame_wf f -> 0 <= src -> src + Z.of_nat n <= 513 -> 0 <= dst -> dst + Z.of_nat n <= 513 ->
  exists g, copy_in_frame dst src n f = Done g /\
    rewritten f g (fun j => if (dst <=? j) && (j <? dst + Z.of_nat n) then slot f (src + (j - dst)) else slot f j).
Proof.
  intros Hf Hs Hsn Hd Hdn. unfold copy_in_frame. rewrite load_all_spec by done. cbn.
  set (vs := _ <$> _). assert (length vs = n) as Hl by (unfold vs; by rewrite length_fmap, length_seq).
  destruct (store_all_spec f dst vs Hf) as (d & -> & Hw & Hg & Hslot); [done|by rewrite Hl| |].
  { apply Forall_fmap, Forall_forall. intros k _. by apply slot_octet. }
  cbn. eexists. split; [done|]. split_and!; [done|done|]. intros j Hj. rewrite Hslot, Hl by done.
  destruct (Z.leb_spec dst j), (Z.ltb_spec j (dst + Z.of_nat n)); cbn; try done.
  unfold vs. rewrite list_lookup_fmap, lookup_seq_lt by lia. cbn. f_equal. lia.
Qed.

Lemma fill_in_frame_spec f dst v n :
  frame_wf f -> octet v -> 0 <= dst -> dst + Z.of_nat n <= 513 ->
  exists g, fill_in_frame dst v n f = Done g /\
    rewritten f g (fun j => if (dst <=? j) && (j <? dst + Z.of_nat n) then v else slot f j).
Proof.
  intros Hf Hv Hd Hdn. unfold fill_in_frame.
  destruct (store_all_spec f dst (replicate n v) Hf) as (d & -> & Hw & Hg & Hslot);
    [done|by rewrite length_replicate|by apply Forall_replicate|].
  cbn. eexists. split; [done|]. split_and!; [done|done|]. intros j Hj. rewrite Hslot, length_replicate by done.
  destruct (Z.leb_spec dst j), (Z.ltb_spec j (dst + Z.of_nat n)); cbn; try done.
  rewrite lookup_replicate_2 by lia. done.
Qed.

(** The checksum of [n] slots from [off]. *)
Fixpoint slot_sum (n : nat) (off : Z) (h : Z -> Z) (sum : Z) : Z :=
  match n with O => sum | S n => slot_sum n (off + 1) h (u16 (sum + h off)) end.

Lemma checksum_spec f off size :
  frame_wf f -> 0 <= off -> off + size <= 513 ->
  dmx512frame_calculate_rdm_checksum (f_data f) off size = Done (slot_sum (Z.to_nat size) off (slot f) 0).
Proof.
  intros Hf Ho Hs. unfold dmx512frame_calculate_rdm_checksum.
  assert (off + Z.of_nat (Z.to_nat size) <= 513 \/ Z.to_nat size = 0%nat) as Hb by lia.
  clear Hs. revert off Ho Hb. generalize 0 at 2 3. induction (Z.to_nat size) as [|n IH]; intros sum off Ho Hb; [done|].
  cbn [checksum_loop slot_sum]. rewrite load_slot by (done || lia). cbn. apply IH; lia.
Qed.
Lemma slot_sum_ext n off h1 h2 sum :
  (forall j, off <= j < off + Z.of_nat n -> h1 j = h2 j) -> slot_sum n off h1 sum = slot_sum n off h2 sum.
Proof.
  revert off sum. induction n as [|n IH]; intros off sum Hh; [done|]. cbn.
  rewrite Hh by lia. apply IH. intros j Hj. apply Hh. lia.
Qed.
Lemma slot_sum_range n off h sum : 0 <= sum < 65536 -> 0 <= slot_sum n off h sum < 65536.
Proof. revert off sum. induction n as [|n IH]; intros off sum Hs; cbn; [done|]. apply IH, u16_range. Qed.

(** The last two octets of an RDM frame are its checksum. *)
Definition rdm_checksum_valid (f : dmx512frame) : Prop :=
  let n := f_payload_size f - 1 in
  exists cs, dmx512frame_calculate_rdm_checksum (f_data f) 0 n = Done cs /\
    peek n f = Done (Z.shiftr cs 8) /\ peek (n + 1) f = Done (u8 cs).

Lemma shiftr8_octet cs : 0 <= cs < 65536 -> octet (Z.shiftr cs 8).
Proof.
  intros Hc. rewrite Z.shiftr_div_pow2 by lia. unfold octet. change (2 ^ 8) with 256.
  split; [apply Z.div_pos; lia|apply Z.div_lt_upper_bound; lia].
Qed.

Lemma append_checksum_spec f n :
  frame_wf f -> 0 <= n <= 511 ->
  exists g cs, append_checksum n f = Done g /\ cs = slot_sum (Z.to_nat n) 0 (slot f) 0 /\ 0 <= cs < 65536 /\
    rewritten f g (fun j => if j =? n + 1 then u8 cs else if j =? n then Z.shiftr cs 8 else slot f j).
Proof.
  intros Hf Hn. unfold append_checksum. rewrite checksum_spec by (done || lia). cbn.
  set (cs := slot_sum _ _ _ _). assert (0 <= cs < 65536) as Hcs by (apply slot_sum_range; lia).
  destruct (poke_spec f n (Z.shiftr cs 8) Hf) as (g1 & -> & H1); [lia|]. cbn.
  destruct H1 as (Hw1 & Hg1 & Hs1).
  destruct (poke_spec g1 (n + 1) cs Hw1) as (g2 & -> & H2); [lia|]. exists g2, cs. do 2 (split; [done|]). split; [lia|].
  eapply rewritten_trans; [by split_and!|]. destruct H2 as (Hw2 & Hg2 & Hs2). split_and!; [done..|].
  intros j Hj. rewrite Hs2 by done. destruct (j =? n + 1); [done|]. rewrite Hs1 by done.
  by rewrite u8_small by by apply shiftr8_octet.
Qed.

Lemma append_checksum_valid f g n :
  frame_wf f -> 0 <= n <= 511 -> f_payload_size f = n + 1 -> append_checksum n f = Done g ->
  rdm_checksum_valid g.
Proof.
  intros Hf Hn Hp Hg. destruct (append_checksum_spec f n Hf Hn) as (g' & cs & E & Hcs & Hr & Hw & Hg' & Hs).
  rewrite Hg in E. injection E as <-. unfold rdm_checksum_valid.
  assert (f_payload_size g = n + 1) as -> by (rewrite Hg'; done).
  replace (n + 1 - 1) with n by lia. exists cs.
  rewrite checksum_spec, !peek_slot, !Hs by (done || lia). split_and!.
  - f_equal. rewrite Hcs. apply slot_sum_ext. intros j Hj. rewrite Hs by lia.
    by rewrite !(proj2 (Z.eqb_neq _ _)) by lia.
  - by rewrite (proj2 (Z.eqb_neq _ _)), Z.eqb_refl by lia.
  - by rewrite Z.eqb_refl.
Qed.

(** Running a step of a frame program whose effect on the slots is known: the
    well-formedness of the result, its other fields and its slots. *)
Tactic Notation "frame_step" constr(H) "as" ident(g) ident(Hw) ident(Hg) ident(Hs) :=
  destruct H as (g & -> & Hw & Hg & Hs); [try done; try lia..|]; cbn [mbind outcome_bind].

Lemma sizes_spec f :
  frame_wf f -> slot f RDM_POS_PDL <= 231 ->
  exists g, update_rdm_sizes_from_pdl f = Done (with_payload_size (25 + slot f RDM_POS_PDL) g) /\
    rewritten f g (fun j => if j =? RDM_POS_LENGTH then 24 + slot f RDM_POS_PDL else slot f j).
Proof.
  intros Hf Hpdl. unfold update_rdm_sizes_from_pdl. rewrite peek_slot by (done || (unfold RDM_POS_PDL; lia)).
  cbn [mbind outcome_bind]. pose proof (slot_octet f RDM_POS_PDL Hf) as Ho. unfold octet in Ho.
  frame_step (poke_spec f RDM_POS_LENGTH (RDM_DISCOVER_REPLY_MAX_FRAMESIZE + slot f RDM_POS_PDL) Hf) as g Hw Hg Hs.
  exists g. unfold RDM_DISCOVER_REPLY_MAX_FRAMESIZE in *. rewrite u16_small by lia. split; [do 2 f_equal; lia|].
  split_and!; [done|done|]. intros j Hj. rewrite Hs by done. rewrite u8_small; [done|]. unfold octet. lia.
Qed.

Lemma with_payload_size_slot v f j : slot (with_payload_size v f) j = slot f j.
Proof. done. Qed.

(** What is made of the slots of a request by a made-up reply. *)
Definition reply_slots (v : Z) (f : dmx512frame) (j : Z) : Z :=
  if (3 <=? j) && (j <? 9) then slot f (j + 6)
  else if (9 <=? j) && (j <? 15) then v
  else if j =? 20 then DISCOVERY_COMMAND_RESPONSE else if j =? 23 then 0
  else if j =? 2 then 24 else if j =? 16 then RESPONSE_TYPE_NOREPLY else slot f j.

Lemma discovery_reply_spec v f :
  frame_wf f -> octet v ->
  exists g, discovery_reply v f = Done g /\ frame_wf g /\ f_payload_size g = 25 /\ f_flags g = f_flags f /\
    f_port g = f_port f /\ rdm_checksum_valid g /\ forall j, 0 <= j < 24 -> slot g j = reply_slots v f j.
Proof.
  intros Hf Hv. unfold discovery_reply, RDM_POS_DEST_UID, RDM_POS_SRC_UID, RDM_POS_COMMAND_CLASS, DISCOVERY_COMMAND_RESPONSE.
  change RDM_POS_PDL with 23 at 1.
  frame_step (copy_in_frame_spec f 3 9 6 Hf) as g1 Hw1 Hg1 Hs1.
  frame_step (fill_in_frame_spec g1 9 v 6 Hw1 Hv) as g2 Hw2 Hg2 Hs2.
  frame_step (poke_spec g2 20 0x11 Hw2) as g3 Hw3 Hg3 Hs3.
  frame_step (poke_spec g3 23 0 Hw3) as g4 Hw4 Hg4 Hs4.
  assert (slot g4 RDM_POS_PDL = 0) as Hpdl by (rewrite Hs4 by (unfold RDM_POS_PDL; lia); done).
  destruct (sizes_spec g4 Hw4) as (g5 & -> & Hw5 & Hg5 & Hs5); [rewrite Hpdl; lia|].
  rewrite Hpdl in *. change (25 + 0) with 25. cbn [mbind outcome_bind]. set (g6 := with_payload_size 25 g5).
  assert (frame_wf g6) as Hw6 by done. unfold update_rdm_checksum.
  change (254 <? f_payload_size g6 - 1) with false. change (f_payload_size g6 - 1) with 24. cbv iota zeta.
  unfold RDM_POS_RESPONSE_TYPE, RDM_POS_COMMAND_CLASS.
  frame_step (poke_spec g6 16 RESPONSE_TYPE_NOREPLY Hw6) as g7 Hw7 Hg7 Hs7.
  rewrite (peek_slot g7 20) by (done || lia). cbn [mbind outcome_bind].
  assert (slot g7 20 = 0x11) as H20.
  { rewrite Hs7 by lia. cbn. unfold g6. rewrite with_payload_size_slot, Hs5, Hs4, Hs3 by lia. done. }
  rewrite H20.
  frame_step (poke_spec g7 20 (Z.lor 0x11 1) Hw7) as g8 Hw8 Hg8 Hs8.
  destruct (append_checksum_spec g8 24 Hw8) as (g9 & cs & E9 & Hcs & Hr & Hw9 & Hg9 & Hs9); [lia|].
  exists g9. split; [exact E9|]. 
  assert (f_payload_size g8 = 25 /\ f_flags g8 = f_flags f /\ f_port g8 = f_port f) as (P1 & P2 & P3).
  { rewrite Hg8, Hg7. unfold g6. rewrite Hg5, Hg4, Hg3, Hg2, Hg1. done. }
  split_and!; [done|by rewrite Hg9|by rewrite Hg9|by rewrite Hg9|by eapply (append_checksum_valid g8 g9 24)|].
  intros j Hj. rewrite Hs9 by lia. rewrite !(proj2 (Z.eqb_neq j _)) by lia.
  rewrite Hs8, Hs7 by lia. unfold g6. rewrite with_payload_size_slot, Hs5, Hs4, Hs3, Hs2, Hs1 by lia.
  unfold reply_slots, RDM_POS_LENGTH. change (9 + Z.of_nat 6) with 15. change (3 + Z.of_nat 6) with 9.
  destruct (Z.eqb_spec j 20) as [->|]; [done|]. destruct (Z.eqb_spec j 16) as [->|]; [done|].
  destruct (Z.eqb_spec j 2) as [->|]; [done|]. destruct (Z.eqb_spec j 23) as [->|]; [done|].
  destruct (Z.leb_spec 9 j), (Z.ltb_spec j 15), (Z.leb_spec 3 j), (Z.ltb_spec j 9); cbn; try lia; try done; f_equal; lia.
Qed.

(** ** Coding of discovery replies *)

Lemma pair_decodes x : octet x ->
  Z.land (u8 (Z.lor 0xAA x)) (u8 (Z.lor 0x55 x)) = x /\
  Z.land (u8 (Z.lor 0xAA x)) 0xAA = 0xAA /\ Z.land (u8 (Z.lor 0x55 x)) 0x55 = 0x55.
Proof.
  intros Hx.
  pose proof (octet_ind_check (fun x => (Z.land (u8 (Z.lor 0xAA x)) (u8 (Z.lor 0x55 x)) =? x) &&
    ((Z.land (u8 (Z.lor 0xAA x)) 0xAA =? 0xAA) && (Z.land (u8 (Z.lor 0x55 x)) 0x55 =? 0x55)))
    ltac:(vm_compute; reflexivity) x Hx) as H.
  apply andb_prop in H as [H1 H2]. apply andb_prop in H2 as [H2 H3].
  by split_and!; apply Z.eqb_eq.
Qed.

(** The octet at position [j] of pairs that start at [off] and code the slots
    of [h] from [src]. *)
Definition pair_at (off src : Z) (h : Z -> Z) (j : Z) : Z :=
  u8 (Z.lor (if (j - off) mod 2 =? 0 then 0xAA else 0x55) (h (src + (j - off) / 2))).

Lemma pair_at_even off src h k : pair_at off src h (off + 2 * k) = u8 (Z.lor 0xAA (h (src + k))).
Proof.
  unfold pair_at. replace (off + 2 * k - off) with (k * 2) by lia.
  by rewrite Z_mod_mult, Z.div_mul by lia.
Qed.
Lemma pair_at_odd off src h k : pair_at off src h (off + 2 * k + 1) = u8 (Z.lor 0x55 (h (src + k))).
Proof.
  unfold pair_at. replace (off + 2 * k + 1 - off) with (1 + k * 2) by lia.
  by rewrite Z_mod_plus_full, Z.div_add by lia.
Qed.

Lemma encode_uid_spec n i f :
  frame_wf f -> 0 <= i -> i + Z.of_nat n <= 6 ->
  exists g, encode_uid n i f = Done g /\
    rewritten f g (fun j => if (264 + 2 * i <=? j) && (j <? 264 + 2 * (i + Z.of_nat n))
                            then pair_at 264 9 (slot f) j else slot f j).
Proof.
  revert i f. induction n as [|n IH]; intros i f Hf Hi Hn; cbn [encode_uid].
  { exists f. split; [done|]. split_and!; [done|by destruct f|]. intros j Hj.
    destruct (Z.leb_spec (264 + 2 * i) j), (Z.ltb_spec j (264 + 2 * (i + Z.of_nat 0))); cbn; done || lia. }
  unfold RDM_POS_SRC_UID. rewrite peek_slot by (done || lia). cbn [mbind outcome_bind].
  frame_step (poke_spec f (264 + 2 * i) (Z.lor 0xAA (slot f (9 + i))) Hf) as g1 Hw1 Hg1 Hs1.
  rewrite peek_slot by (done || lia). cbn [mbind outcome_bind].
  assert (slot g1 (9 + i) = slot f (9 + i)) as Hx.
  { rewrite Hs1 by lia. by rewrite (proj2 (Z.eqb_neq _ _)) by lia. }
  rewrite Hx.
  frame_step (poke_spec g1 (265 + 2 * i) (Z.lor 0x55 (slot f (9 + i))) Hw1) as g2 Hw2 Hg2 Hs2.
  destruct (IH (i + 1) g2 Hw2) as (g3 & -> & H3); [lia..|]. exists g3. split; [done|].
  eapply rewritten_trans; [exact (conj Hw1 (conj Hg1 Hs1))|].
  eapply rewritten_trans; [exact (conj Hw2 (conj Hg2 Hs2))|].
  destruct H3 as (Hw3 & Hg3 & Hs3). split_and!; [done..|]. intros j Hj. rewrite Hs3 by done.
  assert (forall k, 0 <= k < 264 -> slot g2 k = slot f k) as Hlow.
  { intros k Hk. rewrite Hs2, Hs1 by lia. by rewrite !(proj2 (Z.eqb_neq _ _)) by lia. }
  destruct (Z.leb_spec (264 + 2 * (i + 1)) j); cbn.
  - rewrite (proj2 (Z.leb_le _ _)) by lia. cbn.
    replace (264 + 2 * (i + Z.of_nat (S n))) with (264 + 2 * (i + 1 + Z.of_nat n)) by lia.
    destruct (Z.ltb_spec j (264 + 2 * (i + 1 + Z.of_nat n))).
    + unfold pair_at. rewrite Hlow; [done|]. pose proof (Z.div_mod (j - 264) 2). 
      pose proof (Z.mod_pos_bound (j - 264) 2). lia.
    + rewrite Hs2, Hs1 by lia. by rewrite !(proj2 (Z.eqb_neq _ _)) by lia.
  - rewrite Hs2, Hs1 by lia. destruct (Z.eqb_spec j (265 + 2 * i)) as [->|].
    + rewrite (proj2 (Z.leb_le _ _)), (proj2 (Z.ltb_lt _ _)) by lia. cbn [andb].
      replace (265 + 2 * i) with (264 + 2 * i + 1) by lia. by rewrite pair_at_odd.
    + destruct (Z.eqb_spec j (264 + 2 * i)) as [->|].
      * rewrite (proj2 (Z.leb_le _ _)), (proj2 (Z.ltb_lt _ _)) by lia. cbn [andb]. by rewrite pair_at_even.
      * by rewrite (proj2 (Z.leb_gt _ _)) by lia.
Qed.

(** What is transmitted for the UID in the slots of [h]. *)
Definition wire_slots (h : Z -> Z) (cs j : Z) : Z :=
  if j <? 263 then 0xFE else if j =? 263 then 0xAA else if j <? 276 then pair_at 264 9 h j
  else if j =? 276 then u8 (Z.lor 0xAA (u8 (Z.shiftr cs 8))) else if j =? 277 then u8 (Z.lor 0x55 (u8 (Z.shiftr cs 8)))
  else if j =? 278 then u8 (Z.lor 0xAA (u8 cs)) else u8 (Z.lor 0x55 (u8 cs)).

Lemma encode_discovery_reply_spec f :
  frame_wf f ->
  exists g, encode_discovery_reply f = Done g /\
    rewritten f g (fun j => if (256 <=? j) && (j <? 280)
      then wire_slots (slot f) (slot_sum 12 264 (pair_at 264 9 (slot f)) 0) j else slot f j).
Proof.
  intros Hf. unfold encode_discovery_reply.
  frame_step (fill_in_frame_spec f 256 0xFE 7 Hf) as g1 Hw1 Hg1 Hs1.
  frame_step (poke_spec g1 263 0xAA Hw1) as g2 Hw2 Hg2 Hs2.
  frame_step (encode_uid_spec 6 0 g2 Hw2) as g3 Hw3 Hg3 Hs3.
  rewrite checksum_spec by (done || lia). cbn [mbind outcome_bind].
  set (cs := slot_sum _ _ (slot g3) 0).
  frame_step (poke_spec g3 276 (Z.lor 0xAA (u8 (Z.shiftr cs 8))) Hw3) as g4 Hw4 Hg4 Hs4.
  frame_step (poke_spec g4 277 (Z.lor 0x55 (u8 (Z.shiftr cs 8))) Hw4) as g5 Hw5 Hg5 Hs5.
  frame_step (poke_spec g5 278 (Z.lor 0xAA (u8 cs)) Hw5) as g6 Hw6 Hg6 Hs6.
  destruct (poke_spec g6 279 (Z.lor 0x55 (u8 cs)) Hw6) as (g7 & E & H7); [lia|]. exists g7. split; [done|].
  eapply rewritten_trans; [exact (conj Hw1 (conj Hg1 Hs1))|].
  eapply rewritten_trans; [exact (conj Hw2 (conj Hg2 Hs2))|].
  eapply rewritten_trans; [exact (conj Hw3 (conj Hg3 Hs3))|].
  eapply rewritten_trans; [exact (conj Hw4 (conj Hg4 Hs4))|].
  eapply rewritten_trans; [exact (conj Hw5 (conj Hg5 Hs5))|].
  eapply rewritten_trans; [exact (conj Hw6 (conj Hg6 Hs6))|].
  destruct H7 as (Hw7 & Hg7 & Hs7). split_and!; [done..|].
  assert (forall k, 0 <= k < 256 -> slot g2 k = slot f k) as Hlow.
  { intros k Hk. rewrite Hs2, Hs1 by lia. rewrite (proj2 (Z.eqb_neq _ _)), (proj2 (Z.leb_gt _ _)) by lia. done. }
  assert (forall k, 264 <= k < 276 -> pair_at 264 9 (slot g2) k = pair_at 264 9 (slot f) k) as Hpair.
  { intros k Hk. unfold pair_at. rewrite Hlow; [done|]. pose proof (Z.div_mod (k - 264) 2).
    pose proof (Z.mod_pos_bound (k - 264) 2). lia. }
  assert (cs = slot_sum 12 264 (pair_at 264 9 (slot f)) 0) as Hcs.
  { apply slot_sum_ext. intros k Hk. rewrite Hs3 by lia.
    rewrite (proj2 (Z.leb_le _ _)), (proj2 (Z.ltb_lt _ _)) by lia. cbn [andb]. apply Hpair. lia. }
  rewrite <- Hcs. clearbody cs. clear Hcs. intros j Hj. rewrite Hs7, Hs6, Hs5, Hs4, Hs3 by lia. unfold wire_slots.
  generalize (u8 (Z.lor 0xAA (u8 (Z.shiftr cs 8)))) (u8 (Z.lor 0x55 (u8 (Z.shiftr cs 8))))
    (u8 (Z.lor 0xAA (u8 cs))) (u8 (Z.lor 0x55 (u8 cs))). intros v1 v2 v3 v4.
  destruct (Z.eqb_spec j 279) as [->|]; [done|]. destruct (Z.eqb_spec j 278) as [->|]; [done|].
  destruct (Z.eqb_spec j 277) as [->|]; [done|]. destruct (Z.eqb_spec j 276) as [->|]; [done|].
  change (264 + 2 * 0) with 264. change (264 + 2 * (0 + Z.of_nat 6)) with 276.
  destruct (Z.leb_spec 264 j), (Z.ltb_spec j 276); cbn [andb].
  - rewrite (proj2 (Z.leb_le _ _)), (proj2 (Z.ltb_lt j 280)), (proj2 (Z.ltb_ge j 263)), (proj2 (Z.eqb_neq _ _)) by lia.
    cbn [andb]. apply Hpair. lia.
  - rewrite Hs2, Hs1 by lia. rewrite !(proj2 (Z.eqb_neq j _)) by lia. change (256 + Z.of_nat 7) with 263.
    rewrite (proj2 (Z.ltb_ge j 263)), (proj2 (Z.ltb_ge j 280)) by lia. by rewrite !andb_false_r.
  - rewrite Hs2, Hs1 by lia. change (256 + Z.of_nat 7) with 263.
    destruct (Z.eqb_spec j 263) as [->|]; [done|]. rewrite (proj2 (Z.ltb_lt j 280)) by lia.
    destruct (Z.leb_spec 256 j); cbn [andb]; [|done]. by rewrite (proj2 (Z.ltb_lt j 263)) by lia.
  - lia.
Qed.

Lemma check_pairs_spec n off f :
  frame_wf f -> 0 <= off -> off + 2 * Z.of_nat n <= 513 ->
  (forall k, 0 <= k < Z.of_nat n -> Z.land (slot f (off + 2 * k)) 0xAA = 0xAA /\ Z.land (slot f (off + 2 * k + 1)) 0x55 = 0x55) ->
  check_pairs n off (f_data f) = Done true.
Proof.
  intros Hf. revert off. induction n as [|n IH]; intros off Ho Hn Hk; [done|]. cbn [check_pairs].
  rewrite !load_slot by (done || lia). cbn [mbind outcome_bind].
  destruct (Hk 0) as [H1 H2]; [lia|]. replace (off + 2 * 0) with off in * by lia.
  rewrite H1, H2, !Z.eqb_refl. cbn [negb]. apply IH; [lia..|]. intros k Hkn.
  replace (off + 2 + 2 * k) with (off + 2 * (k + 1)) by lia. apply Hk. lia.
Qed.

Lemma find_preamble_spec f k n :
  frame_wf f -> (forall j, 256 <= j < 256 + Z.of_nat k -> slot f j = 0xFE) -> slot f (256 + Z.of_nat k) = 0xAA ->
  Z.of_nat k <= 256 -> Z.of_nat k < n ->
  dmx512rtuart_find_preamble (f_data f) 256 n = Done (Z.of_nat k).
Proof.
  intros Hf Hfe Haa Hk Hn. unfold dmx512rtuart_find_preamble.
  assert (exists m, Z.to_nat n = (k + S m)%nat) as [m ->] by (exists (Z.to_nat n - S k)%nat; lia). clear Hn n.
  assert (forall c i, 0 <= i -> (c + Z.to_nat i = k)%nat ->
    find_preamble_loop (c + S m) i 256 (f_data f) = Done (Z.of_nat k)) as H; [|by apply (H k 0)].
  induction c as [|c IH]; intros i Hi Hik; cbn [plus find_preamble_loop];
    rewrite load_slot by (done || lia); cbn [mbind outcome_bind].
  - replace (256 + i) with (256 + Z.of_nat k) by lia. rewrite Haa. cbn. f_equal. lia.
  - rewrite Hfe by lia. cbn. apply IH; lia.
Qed.

Lemma unpair_spec f off : frame_wf f -> 0 <= off -> off + 1 < 513 ->
  unpair off (f_data f) = Done (Z.land (slot f off) (slot f (off + 1))).
Proof. intros Hf ??. unfold unpair. by rewrite !load_slot by (done || lia). Qed.

Lemma decode_uid_spec n i off f h :
  frame_wf f -> 0 <= i -> i + Z.of_nat n <= 6 -> 15 <= off <= 501 -> (forall k, octet (h k)) ->
  (forall k, 0 <= k < 6 -> Z.land (slot f (off + 2 * k)) (slot f (off + 2 * k + 1)) = h k) ->
  exists g, decode_uid n i off f = Done g /\
    rewritten f g (fun j => if (9 + i <=? j) && (j <? 9 + i + Z.of_nat n) then h (j - 9) else slot f j).
Proof.
  intros Hf Hi Hn Ho Hoct. revert i f Hf Hi Hn. induction n as [|n IH]; intros i f Hf Hi Hn Hh; cbn [decode_uid].
  { exists f. split; [done|]. split_and!; [done|by destruct f|]. intros j Hj.
    destruct (Z.leb_spec (9 + i) j), (Z.ltb_spec j (9 + i + Z.of_nat 0)); cbn; done || lia. }
  rewrite unpair_spec, Hh by (done || lia). cbn [mbind outcome_bind]. unfold RDM_POS_SRC_UID.
  frame_step (poke_spec f (9 + i) (h i) Hf) as g1 Hw1 Hg1 Hs1.
  destruct (IH (i + 1) g1 Hw1) as (g2 & -> & Hw2 & Hg2 & Hs2); [lia|lia| |].
  { intros k Hk. rewrite !Hs1 by lia. rewrite !(proj2 (Z.eqb_neq _ _)) by lia. by apply Hh. }
  exists g2. split; [done|]. eapply rewritten_trans; [exact (conj Hw1 (conj Hg1 Hs1))|].
  split_and!; [done..|]. intros j Hj. rewrite Hs2 by done.
  replace (9 + (i + 1) + Z.of_nat n) with (9 + i + Z.of_nat (S n)) by lia.
  destruct (Z.leb_spec (9 + (i + 1)) j), (Z.ltb_spec j (9 + i + Z.of_nat (S n))); cbn [andb].
  - by rewrite (proj2 (Z.leb_le _ _)) by lia.
  - rewrite Hs1 by done. rewrite andb_false_r. by rewrite (proj2 (Z.eqb_neq _ _)) by lia.
  - rewrite Hs1 by done. destruct (Z.eqb_spec j (9 + i)) as [->|].
    + rewrite Z.leb_refl. cbn. rewrite u8_small by done. f_equal. lia.
    + by rewrite (proj2 (Z.leb_gt _ _)) by lia.
  - lia.
Qed.

Lemma crc_of_pairs cs : 0 <= cs < 65536 -> u16 (Z.shiftl (Z.shiftr cs 8) 8 + u8 cs) = cs.
Proof.
  intros Hc. rewrite Z.shiftr_div_pow2, Z.shiftl_mul_pow2 by lia. unfold u8. 
  rewrite u16_small; pose proof (Z.div_mod cs (2 ^ 8)); lia.
Qed.

(** The octets of the reply to [t] in the buffer of [r]. *)
Definition holds_wire (r : dmx512frame) (h : Z -> Z) : Prop :=
  forall j, 256 <= j < 280 -> slot r j = wire_slots h (slot_sum 12 264 (pair_at 264 9 h) 0) j.

Lemma complete_reply_spec r h :
  frame_wf r -> f_payload_size r = 23 -> (forall j, octet (h j)) -> holds_wire r h ->
  exists g, dmx512rtuart_complete_rdm_discovery_reply r = Done (0, g) /\
    frame_wf g /\ f_payload_size g = 25 /\ f_flags g = f_flags r /\ rdm_checksum_valid g /\
    forall j, 0 <= j < 24 -> slot g j =
      if (3 <=? j) && (j <? 9) then slot r (j + 6) else if (9 <=? j) && (j <? 15) then h j
      else if j =? 20 then DISCOVERY_COMMAND_RESPONSE else if j =? 23 then 0 else if j =? 2 then 24 else slot r j.
Proof.
  intros Hr Hp Hoct Hwire. unfold dmx512rtuart_complete_rdm_discovery_reply. rewrite Hp.
  unfold holds_wire in Hwire. set (cs := slot_sum 12 264 (pair_at 264 9 h) 0) in Hwire.
  assert (0 <= cs < 65536) as Hcs by (apply slot_sum_range; lia).
  assert (forall k, 0 <= k < 6 -> slot r (264 + 2 * k) = u8 (Z.lor 0xAA (h (9 + k))) /\
    slot r (264 + 2 * k + 1) = u8 (Z.lor 0x55 (h (9 + k)))) as Huid.
  { intros k Hk. rewrite !Hwire by lia. unfold wire_slots.
    rewrite !(proj2 (Z.ltb_ge _ 263)), !(proj2 (Z.eqb_neq _ 263)), !(proj2 (Z.ltb_lt _ 276)) by lia.
    by rewrite pair_at_even, pair_at_odd. }
  pose proof (shiftr8_octet cs Hcs) as Hhi. pose proof (u8_octet cs) as Hlo.
  assert (slot r 276 = u8 (Z.lor 0xAA (Z.shiftr cs 8)) /\ slot r 277 = u8 (Z.lor 0x55 (Z.shiftr cs 8)) /\
    slot r 278 = u8 (Z.lor 0xAA (u8 cs)) /\ slot r 279 = u8 (Z.lor 0x55 (u8 cs))) as (H276 & H277 & H278 & H279).
  { clearbody cs. pose proof (u8_small _ Hhi) as Hu. split_and!; rewrite Hwire by lia.
    - change (u8 (Z.lor 0xAA (u8 (Z.shiftr cs 8))) = u8 (Z.lor 0xAA (Z.shiftr cs 8))). by rewrite Hu.
    - change (u8 (Z.lor 0x55 (u8 (Z.shiftr cs 8))) = u8 (Z.lor 0x55 (Z.shiftr cs 8))). by rewrite Hu.
    - reflexivity.
    - reflexivity. }
  rewrite (find_preamble_spec r 7); [|done| | |lia|lia].
  2: { intros j Hj. rewrite Hwire by lia. unfold wire_slots. by rewrite (proj2 (Z.ltb_lt _ 263)) by lia. }
  2: { change (256 + Z.of_nat 7) with 263. rewrite Hwire by lia. reflexivity. }
  cbn [mbind outcome_bind]. change (-1 <? Z.of_nat 7) with true. cbv iota zeta. change (256 + Z.of_nat 7 + 1) with 264.
  rewrite check_pairs_spec; [|done|lia|lia|].
  2: { intros k Hk. destruct (decide (k < 6)) as [Hlt|Hge].
       - destruct (Huid k) as [-> ->]; [lia|]. apply (pair_decodes (h (9 + k))), Hoct.
       - destruct (decide (k = 6)) as [->|]; [|assert (k = 7) as -> by lia].
         + change (264 + 2 * 6) with 276. change (276 + 1) with 277. rewrite H276, H277. by apply pair_decodes.
         + change (264 + 2 * 7) with 278. change (278 + 1) with 279. rewrite H278, H279. by apply pair_decodes. }
  cbn [mbind outcome_bind negb].
  rewrite checksum_spec by (done || lia). cbn [mbind outcome_bind].
  assert (slot_sum (Z.to_nat 12) 264 (slot r) 0 = cs) as ->.
  { unfold cs. apply slot_sum_ext. intros j Hj. rewrite Hwire by lia. unfold wire_slots.
    by rewrite (proj2 (Z.ltb_ge _ 263)), (proj2 (Z.eqb_neq _ 263)), (proj2 (Z.ltb_lt _ 276)) by lia. }
  change (264 + 12) with 276. change (264 + 14) with 278.
  rewrite !unpair_spec by (done || lia). cbn [mbind outcome_bind].
  change (276 + 1) with 277. change (278 + 1) with 279. rewrite H276, H277, H278, H279.
  rewrite (proj1 (pair_decodes _ Hhi)), (proj1 (pair_decodes _ Hlo)), crc_of_pairs, Z.eqb_refl by done.
  cbn [negb].
  unfold RDM_POS_DEST_UID, RDM_POS_SRC_UID, RDM_POS_COMMAND_CLASS. change RDM_POS_PDL with 23 at 1.
  frame_step (copy_in_frame_spec r 3 9 6 Hr) as g1 Hw1 Hg1 Hs1.
  destruct (decode_uid_spec 6 0 264 g1 (fun k => h (9 + k)) Hw1) as (g2 & -> & Hw2 & Hg2 & Hs2); [lia..|done| |].
  { intros k Hk. rewrite !Hs1 by lia. change (3 + Z.of_nat 6) with 9.
    rewrite !(proj2 (Z.ltb_ge _ 9)), !andb_false_r by lia. destruct (Huid k Hk) as [-> ->].
    apply (pair_decodes (h (9 + k))), Hoct. }
  cbn [mbind outcome_bind].
  frame_step (poke_spec g2 20 DISCOVERY_COMMAND_RESPONSE Hw2) as g3 Hw3 Hg3 Hs3.
  frame_step (poke_spec g3 23 0 Hw3) as g4 Hw4 Hg4 Hs4.
  assert (slot g4 RDM_POS_PDL = 0) as Hpdl by (rewrite Hs4 by (unfold RDM_POS_PDL; lia); done).
  destruct (sizes_spec g4 Hw4) as (g5 & -> & Hw5 & Hg5 & Hs5); [rewrite Hpdl; lia|].
  rewrite Hpdl in *. change (25 + 0) with 25. cbn [mbind outcome_bind]. set (g6 := with_payload_size 25 g5).
  assert (frame_wf g6) as Hw6 by done. change (f_payload_size g6 - 1) with 24.
  destruct (append_checksum_spec g6 24 Hw6) as (g7 & cs' & E7 & _ & _ & Hw7 & Hg7 & Hs7); [lia|].
  rewrite E7. cbn [mbind outcome_bind]. exists g7. split; [done|].
  assert (f_flags g6 = f_flags r) as Hfl by (unfold g6; rewrite Hg5, Hg4, Hg3, Hg2, Hg1; done).
  split_and!; [done|by rewrite Hg7|by rewrite Hg7|by eapply (append_checksum_valid g6 g7 24)|].
  intros j Hj. rewrite Hs7 by lia. rewrite !(proj2 (Z.eqb_neq j _)) by lia.
  unfold g6. rewrite with_payload_size_slot, Hs5, Hs4, Hs3, Hs2, Hs1 by lia.
  unfold RDM_POS_LENGTH. change (9 + 0 + Z.of_nat 6) with 15. change (9 + 0) with 9. change (3 + Z.of_nat 6) with 9.
  destruct (Z.eqb_spec j 20) as [->|]; [done|]. destruct (Z.eqb_spec j 2) as [->|]; [done|].
  destruct (Z.eqb_spec j 23) as [->|]; [done|].
  destruct (Z.leb_spec 9 j), (Z.ltb_spec j 15), (Z.leb_spec 3 j), (Z.ltb_spec j 9); cbn; try lia; try done; f_equal; lia.
Qed.

(** C33: Discovery replies survive the line: when a responder with any UID
    encodes its reply [t], and the 24 octets it transmits arrive in the
    buffer of the controller's copy [r] of its request, decoding succeeds and
    gives a reply from that UID, to the source of the request, with the
    command class, the sizes and the checksum of an RDM response. *)
Theorem discovery_reply_roundtrip t r :
  frame_wf t -> frame_wf r -> f_payload_size r = 23 ->
  exists w, encode_discovery_reply t = Done w /\
    ((forall j, 256 <= j < 280 -> slot r j = slot w j) ->
     exists g, dmx512rtuart_complete_rdm_discovery_reply r = Done (0, g) /\
       (forall k, 0 <= k < 6 -> slot g (RDM_POS_SRC_UID + k) = slot t (RDM_POS_SRC_UID + k)) /\
       (forall k, 0 <= k < 6 -> slot g (RDM_POS_DEST_UID + k) = slot r (RDM_POS_SRC_UID + k)) /\
       slot g RDM_POS_COMMAND_CLASS = DISCOVERY_COMMAND_RESPONSE /\ slot g RDM_POS_PDL = 0 /\
       slot g RDM_POS_LENGTH = 24 /\ f_payload_size g = 25 /\ rdm_checksum_valid g).
Proof.
  intros Ht Hr Hp. destruct (encode_discovery_reply_spec t Ht) as (w & E & Hw & _ & Hs).
  exists w. split; [done|]. intros Hwire.
  destruct (complete_reply_spec r (slot t) Hr Hp) as (g & Eg & _ & Hsize & _ & Hcs & Hg).
  { intros j. by apply slot_octet. }
  { intros j Hj. rewrite Hwire, Hs by lia. by rewrite (proj2 (Z.leb_le _ _)), (proj2 (Z.ltb_lt _ _)) by lia. }
  unfold RDM_POS_SRC_UID, RDM_POS_DEST_UID, RDM_POS_COMMAND_CLASS, RDM_POS_PDL, RDM_POS_LENGTH.
  exists g. split; [done|]. split_and!; [| |by rewrite Hg by lia|by rewrite Hg by lia|by rewrite Hg by lia|done|done].
  - intros k Hk. rewrite Hg by lia.
    by rewrite (proj2 (Z.ltb_ge _ 9)), (proj2 (Z.leb_le 9 _)), (proj2 (Z.ltb_lt _ 15)), andb_false_r by lia.
  - intros k Hk. rewrite Hg by lia. rewrite (proj2 (Z.ltb_lt _ 9)), (proj2 (Z.leb_le 3 _)) by lia.
    cbn [andb]. f_equal. lia.
Qed.

Lemma zero_frame_wf : frame_wf zero_frame.
Proof. split; [done|]. by apply Forall_replicate. Qed.

(** The reply of the UID 0x123456789ABC. *)
Definition sample_frame : dmx512frame :=
  with_data ([0xCC; 1; 24; 0; 0; 0; 0; 0; 0; 0x12; 0x34; 0x56; 0x78; 0x9A; 0xBC] ++ replicate 498 0) zero_frame.
Definition sample_wire : dmx512frame :=
  match encode_discovery_reply sample_frame with Done w => with_payload_size 23 w | Fault _ => zero_frame end.

Lemma sample_frame_wf : frame_wf sample_frame.
Proof. split; [done|]. apply (bool_decide_unpack _). vm_compute. done. Qed.

Lemma discovery_reply_roundtrip_witness :
  exists g, dmx512rtuart_complete_rdm_discovery_reply sample_wire = Done (0, g) /\
    slot g 9 = 0x12 /\ slot g 14 = 0xBC /\ rdm_checksum_valid g.
Proof.
  destruct (encode_discovery_reply_spec sample_frame sample_frame_wf) as (w & E & Hw & _).
  assert (sample_wire = with_payload_size 23 w) as Hsw by (unfold sample_wire; by rewrite E).
  destruct (discovery_reply_roundtrip sample_frame (with_payload_size 23 w) sample_frame_wf Hw eq_refl)
    as (w' & E' & H). rewrite E in E'. injection E' as <-.
  destruct H as (g & Eg & Hsrc & _ & _ & _ & _ & _ & Hcs); [done|].
  exists g. rewrite Hsw. split; [exact Eg|].
  split; [exact (Hsrc 0 ltac:(lia))|]. split; [exact (Hsrc 5 ltac:(lia))|exact Hcs].
Defined.

(** [g] is a made-up reply to the request [f] from the UID of octets [v]. *)
Definition made_up (v : Z) (f g : dmx512frame) : Prop :=
  (forall k, 0 <= k < 6 -> slot g (RDM_POS_DEST_UID + k) = slot f (RDM_POS_SRC_UID + k)) /\
  (forall k, 0 <= k < 6 -> slot g (RDM_POS_SRC_UID + k) = v) /\
  slot g RDM_POS_COMMAND_CLASS = DISCOVERY_COMMAND_RESPONSE /\ slot g RDM_POS_PDL = 0 /\
  slot g RDM_POS_RESPONSE_TYPE = RESPONSE_TYPE_NOREPLY /\ slot g RDM_POS_LENGTH = 24 /\
  f_payload_size g = 25 /\ rdm_checksum_valid g.

Lemma discovery_reply_made_up v f : frame_wf f -> octet v -> exists g, discovery_reply v f = Done g /\ made_up v f g.
Proof.
  intros Hf Hv. destruct (discovery_reply_spec v f Hf Hv) as (g & E & _ & Hp & _ & _ & Hcs & Hs).
  unfold made_up, RDM_POS_SRC_UID, RDM_POS_DEST_UID, RDM_POS_COMMAND_CLASS, RDM_POS_PDL, RDM_POS_LENGTH, RDM_POS_RESPONSE_TYPE.
  exists g. split; [done|]. split_and!; try done; try (by rewrite Hs by lia).
  - intros k Hk. rewrite Hs by lia. unfold reply_slots.
    rewrite (proj2 (Z.ltb_lt _ 9)), (proj2 (Z.leb_le 3 _)) by lia. cbn [andb]. f_equal. lia.
  - intros k Hk. rewrite Hs by lia. unfold reply_slots.
    by rewrite (proj2 (Z.ltb_ge _ 9)), (proj2 (Z.leb_le 9 _)), (proj2 (Z.ltb_lt _ 15)), andb_false_r by lia.
Qed.

(** The replies that are made up when a discovery request is answered by
    several devices or by none are well-formed RDM: addressed to the sender of
    the request, from the UID FFFF:FFFFFFFF or 0000:00000000, with the
    command class of a discovery response, no parameter data, the response
    type that marks them, the right length and a correct checksum. *)
Theorem made_up_replies_valid f :
  frame_wf f ->
  (exists g, rdm_discovery_reply_collision f = Done g /\ made_up 0xFF f g) /\
  (exists g, rdm_discovery_reply_timeout f = Done g /\ made_up 0 f g).
Proof. intros Hf. split; apply discovery_reply_made_up; done || (unfold octet; lia). Qed.

Lemma made_up_replies_valid_witness : exists g,
  rdm_discovery_reply_collision sample_frame = Done g /\ made_up 0xFF sample_frame g.
Proof. exact (proj1 (made_up_replies_valid sample_frame sample_frame_wf)). Defined.

(** Without a separator in the reply the octets at the start of the
    buffer are decoded unchecked: 24 octets that are all zero pass for the
    reply of the UID 0000:00000000. *)
Theorem silence_is_a_reply :
  exists g, dmx512rtuart_complete_rdm_discovery_reply (with_payload_size 23 zero_frame) = Done (0, g) /\
    slot g RDM_POS_COMMAND_CLASS = DISCOVERY_COMMAND_RESPONSE.
Proof.
  eexists. split; [vm_compute; reflexivity|vm_compute; reflexivity].
Qed.
