(* ===== verification/UartClient.v ===== *)
(** * The DMX512/RDM client of a UART

    [src/uio-testbench/dmx512/rtuart_dmx512_client.c]: the state machine that
    sends and receives DMX512 and RDM frames over a UART.  It is driven by
    the callbacks of the UART ([rtuart_client.h]), by [send_frame] and by the
    RDM timer, and talks to two interfaces: the operations of the UART
    ([rtuart_ops.h]), which are the type class [Uart], and the pool and the
    receiver of frames ([dmx512_port.h]), which are the lists [w_pool] and
    [w_received] (the contract that [FrameQueue] and [CoreContract]
    establish for the core). *)
From stdpp Require Import base countable gmap list.
From S2P Require Import Prelude KList FrameQueue RdmFrame.

(** ** The interface of UARTs *)

Definition UART_NOTIFY_TXEMPTY : Z := 0x01.
Definition UART_NOTIFY_TXREADY : Z := 0x02.
Definition UART_NOTIFY_RXAVAILABLE : Z := 0x04.
Definition UART_NOTIFY_INPUTCHANGED : Z := 0x08.
Definition UART_NOTIFY_LINEEVENT : Z := 0x10.
Definition RTUART_EVENT_BREAK : Z := Z.shiftl 1 3.
Definition RTUART_OUTPUT_RTS : Z := Z.shiftl 1 1.

(** [struct rtuart_ops], as far as the client uses it.  [read_chars] gives
    the octets it stores, whose number is its result; [get_tx_fifo_free]
    gives the level, or nothing when it fails. *)
Class Uart (U : Type) := {
  uart_write_chars : list Z -> U -> Z * U;
  uart_read_chars : Z -> U -> list Z * U;
  uart_enable_notification : Z -> U -> U;
  uart_disable_notification : Z -> U -> U;
  uart_set_format : Z -> Z -> Z -> U -> U;
  uart_set_baudrate : Z -> U -> U;
  uart_set_fifo_enable : Z -> U -> U;
  uart_set_rxfifo_trigger_level : Z -> U -> U;
  uart_set_txfifo_trigger_level : Z -> U -> U;
  uart_set_modem_lines : Z -> Z -> U -> U;
  uart_flush_fifo : bool -> bool -> U -> U;
  uart_get_tx_fifo_free : U -> option Z * U }.

(** What the client relies on: no more octets than it asked for. *)
Class UartLaws (U : Type) `{Uart U} := {
  read_chars_count n u : Z.of_nat (length (uart_read_chars n u).1) <= Z.max 0 n;
  read_chars_octets n u : Forall octet (uart_read_chars n u).1 }.

(** ** State *)

Inductive uart_state :=
  | DOWN | IDLE
  | EXPECT_STARTCODE | RECEIVE_DMXDATA | EXPECT_RDM_FRAME | RECEIVE_RDMDATA
  | RDMDISC_RECV_PREAMBLE | RDMDISC_RECV_DATA
  | TRANSMIT_BREAK | TRANSMIT_DATA | WAIT_FOR_TX_COMPLETE.
#[export] Instance uart_state_eq_dec : EqDecision uart_state.
Proof. solve_decision. Defined.

(** The values of the enumeration. *)
Definition state_num (s : uart_state) : Z :=
  match s with
  | DOWN => 0 | IDLE => 1
  | EXPECT_STARTCODE => 0x100 | RECEIVE_DMXDATA => 0x101 | EXPECT_RDM_FRAME => 0x102
  | RECEIVE_RDMDATA => 0x103 | RDMDISC_RECV_PREAMBLE => 0x104 | RDMDISC_RECV_DATA => 0x105
  | TRANSMIT_BREAK => 0x200 | TRANSMIT_DATA => 0x201 | WAIT_FOR_TX_COMPLETE => 0x202
  end.
Definition PORT_STATE_FIRST_RXSTATE : Z := 0x100.
Definition PORT_STATE_LAST_RXSTATE : Z := 0x106.
Definition PORT_STATE_FIRST_TXSTATE : Z := 0x200.
Definition PORT_STATE_LAST_TXSTATE : Z := 0x203.
Definition in_tx_state (s : uart_state) : bool :=
  (PORT_STATE_FIRST_TXSTATE <=? state_num s) && (state_num s <? PORT_STATE_LAST_TXSTATE).
Definition in_rx_state (s : uart_state) : bool :=
  (PORT_STATE_FIRST_RXSTATE <=? state_num s) && (state_num s <=? PORT_STATE_LAST_RXSTATE).

(** A pointer to an octet: null, into the data of an entry, or neither. *)
Inductive ptr := Null | At (e : nat) (off : Z) | Wild.
Definition ptr_add (p : ptr) (n : Z) : ptr :=
  match p with At e off => At e (off + n) | _ => if n =? 0 then p else Wild end.

(** The bit fields of [slot_count_lock]: 6, 6 and 10 bits. *)
Record slot_lock := SlotLock {
  l_enabled : bool; l_locked : bool;
  l_required : Z; l_matching_frames : Z; l_matching_slots : Z }.

(** [struct dmx512_uart_port]. *)
Record uart_port := UartPort {
  up_state : uart_state;
  rx_frame : option nat; rx_data : ptr; rx_count : Z;
  rx_lock : slot_lock;
  rx_expected : Z;                                     (* u16 *)
  tx_frame : option nat; tx_ptr : ptr; tx_remain : Z;
  tm_active : bool; tm_us : Z; tm_call : bool }.       (* rdm_timer *)

Record world (U : Type) := World {
  w_port : uart_port;
  w_uart : U;
  w_frames : gmap nat dmx512frame;
  w_pool : list nat;
  w_received : list nat }.
Arguments World {U}. Arguments w_port {U}. Arguments w_uart {U}. Arguments w_frames {U}.
Arguments w_pool {U}. Arguments w_received {U}.

Definition set_state (s : uart_state) (p : uart_port) : uart_port :=
  UartPort s (rx_frame p) (rx_data p) (rx_count p) (rx_lock p) (rx_expected p)
    (tx_frame p) (tx_ptr p) (tx_remain p) (tm_active p) (tm_us p) (tm_call p).
Definition set_rx (f : option nat) (d : ptr) (c : Z) (p : uart_port) : uart_port :=
  UartPort (up_state p) f d c (rx_lock p) (rx_expected p)
    (tx_frame p) (tx_ptr p) (tx_remain p) (tm_active p) (tm_us p) (tm_call p).
Definition set_lock (l : slot_lock) (p : uart_port) : uart_port :=
  UartPort (up_state p) (rx_frame p) (rx_data p) (rx_count p) l (rx_expected p)
    (tx_frame p) (tx_ptr p) (tx_remain p) (tm_active p) (tm_us p) (tm_call p).
Definition set_expected (n : Z) (p : uart_port) : uart_port :=
  UartPort (up_state p) (rx_frame p) (rx_data p) (rx_count p) (rx_lock p) n
    (tx_frame p) (tx_ptr p) (tx_remain p) (tm_active p) (tm_us p) (tm_call p).
Definition set_tx (f : option nat) (d : ptr) (r : Z) (p : uart_port) : uart_port :=
  UartPort (up_state p) (rx_frame p) (rx_data p) (rx_count p) (rx_lock p) (rx_expected p)
    f d r (tm_active p) (tm_us p) (tm_call p).
Definition set_timer (a : bool) (us : Z) (c : bool) (p : uart_port) : uart_port :=
  UartPort (up_state p) (rx_frame p) (rx_data p) (rx_count p) (rx_lock p) (rx_expected p)
    (tx_frame p) (tx_ptr p) (tx_remain p) a us c.

Definition DISCOVERY_REQUEST_REPLY_TIMEOUT : Z := 5000.
Definition TIMEOUT_RDMDISCOVERY_LENGTH : Z := 5000.
Definition TIMEOUT_RDMFRAME_PEROCTET : Z := 60.
Definition TIMEOUT_RDMFRAME_STATIC : Z := 3000.
Definition TIMEOUT_RDM_EOP_TO_SOP : Z := 5000.
Definition TIMEOUT_RDM_SOP_TO_EOP : Z := 3000 + TIMEOUT_RDMFRAME_PEROCTET * 256.

Section client.
Context {U : Type} `{Uart U}.
(** Does [timer_create] succeed; and how often is the level of the transmit
    FIFO looked at before it is given up (the code never gives up). *)
Context (timer_create_ok : bool) (spin : nat).

Abbreviation client := (prog (world U)).

Definition get_port : client uart_port := gets w_port.
Definition with_port (f : uart_port -> uart_port) : client unit :=
  modify (fun w => World (f (w_port w)) (w_uart w) (w_frames w) (w_pool w) (w_received w)).
Definition with_uart (f : U -> U) : client unit :=
  modify (fun w => World (w_port w) (f (w_uart w)) (w_frames w) (w_pool w) (w_received w)).
Definition ask_uart {A} (f : U -> A * U) : client A := fun w =>
  let '(a, u) := f (w_uart w) in
  Done (a, World (w_port w) u (w_frames w) (w_pool w) (w_received w)).
Definition next_state (s : uart_state) : client unit := with_port (set_state s).

(** *** Frames *)
Definition the_frame (e : nat) : client dmx512frame := w ← get_state; live (w_frames w !! e).
Definition put_contents (e : nat) (f : dmx512frame) : client unit :=
  modify (fun w => World (w_port w) (w_uart w) (<[e := f]> (w_frames w)) (w_pool w) (w_received w)).
Definition edit_frame (e : nat) (g : dmx512frame -> outcome dmx512frame) : client unit :=
  f ← the_frame e; f' ← lift_outcome (g f); put_contents e f'.

Definition dmx512_get_frame : client (option nat) := fun w =>
  match w_pool w with
  | [] => Done (None, w)
  | e :: l => Done (Some e, World (w_port w) (w_uart w) (w_frames w) l (w_received w))
  end.
Definition dmx512_put_frame (e : option nat) : client unit :=
  match e with
  | None => mret tt
  | Some e => modify (fun w => World (w_port w) (w_uart w) (w_frames w) (w_pool w ++ [e]) (w_received w))
  end.
Definition dmx512_received_frame (e : option nat) : client unit :=
  e ← deref e;
  modify (fun w => World (w_port w) (w_uart w) (w_frames w) (w_pool w) (w_received w ++ [e])).

(** *** Octets behind pointers *)
Definition ptr_load (p : ptr) (k : Z) : client Z :=
  match p with
  | Null => raise NullPointer
  | Wild => raise Dangling
  | At e off => f ← the_frame e; lift_outcome (load (f_data f) (off + k))
  end.
Definition ptr_load_all (p : ptr) (n : nat) : client (list Z) :=
  match n, p with
  | O, _ => mret []
  | _, Null => raise NullPointer
  | _, Wild => raise Dangling
  | _, At e off => f ← the_frame e; lift_outcome (load_all off n (f_data f))
  end.
Definition ptr_store_all (p : ptr) (vs : list Z) : client unit :=
  match vs, p with
  | [], _ => mret tt
  | _, Null => raise NullPointer
  | _, Wild => raise Dangling
  | _, At e off => edit_frame e (fun f => d ← store_all off vs (f_data f); Done (with_data d f))
  end.

(** [rtuart_read_chars] into a buffer; the count is a [size_t]. *)
Definition rtuart_read_chars (p : ptr) (n : Z) : client Z :=
  vs ← ask_uart (uart_read_chars (u64 n));
  ptr_store_all p vs ;;
  mret (Z.of_nat (length vs)).
Definition rtuart_write_chars (p : ptr) (n : Z) : client Z :=
  vs ← ptr_load_all p (Z.to_nat n);
  ask_uart (uart_write_chars vs).

(** *** The RDM timer *)
Definition dmx512rtuart_stop_rdm_timer : client unit :=
  with_port (fun p => if tm_active p then set_timer false (tm_us p) (tm_call p) p else p).
Definition dmx512rtuart_start_rdm_timer (timeout_microseconds : Z) : client unit :=
  with_port (fun p => if tm_active p || timer_create_ok then set_timer true timeout_microseconds (tm_call p) p else p).

(** *** Checking frames out *)
Definition dmx512rtuart_checkout_tx_frame : client (option nat) :=
  p ← get_port;
  match tx_frame p with
  | Some e => with_port (set_tx None Null 0) ;; mret (Some e)
  | None => mret None
  end.

Definition dmx512_uart_update_automatic_framecount_locking : client unit :=
  p ← get_port;
  match rx_frame p with
  | None => mret tt
  | Some e =>
      f ← the_frame e;
      startcode ← lift_outcome (peek 0 f);
      if negb (startcode =? 0) then mret tt else
      let l := rx_lock p in
      let size := f_payload_size f in
      if l_locked l then
        if negb (size =? l_matching_slots l) then
          with_port (set_lock (SlotLock (l_enabled l) false (l_required l) 0 (size mod 2 ^ 10)))
        else mret tt
      else if size =? l_matching_slots l then
        let n := (l_matching_frames l + 1) mod 2 ^ 6 in
        with_port (set_lock (SlotLock (l_enabled l) (if l_required l =? n then true else l_locked l) (l_required l) n (l_matching_slots l)))
      else with_port (set_lock (SlotLock (l_enabled l) (l_locked l) (l_required l) 0 (size mod 2 ^ 10)))
  end.

Definition dmx512rtuart_checkout_rx_frame : client (option nat) :=
  p ← get_port;
  match rx_frame p with
  | None => mret None
  | Some e =>
      edit_frame e (fun f => Done (with_payload_size (u16 (rx_count p - 1)) f)) ;;
      f ← the_frame e;
      startcode ← lift_outcome (peek 0 f);
      when (startcode =? 0) dmx512_uart_update_automatic_framecount_locking ;;
      with_port (set_rx None Null 0) ;;
      mret (Some e)
  end.

(** A reply that is made of the frame that was transmitted. *)
Definition reply_with (g : dmx512frame -> outcome dmx512frame) : client unit :=
  e ← dmx512rtuart_checkout_tx_frame;
  match e with
  | Some e => edit_frame e g ;; dmx512_received_frame (Some e)
  | None => dmx512_received_frame None
  end.

(** *** The callbacks of the UART *)

(** [while (!rtuart_get_tx_fifo_free(uart, &txlevel) && (txlevel != 16));] *)
Fixpoint wait_tx_fifo (fuel : nat) : client unit :=
  match fuel with
  | O => raise OutOfFuel
  | S fuel =>
      r ← ask_uart uart_get_tx_fifo_free;
      match r with
      | Some txlevel => if txlevel =? 16 then mret tt else wait_tx_fifo fuel
      | None => mret tt
      end
  end.

Definition dmx512rtuart_transmitter_has_space (space_available : Z) : client unit :=
  p ← get_port;
  match tx_frame p with
  | None => mret tt
  | Some _ =>
      if match tx_ptr p with Null => true | _ => false end then
        e ← dmx512rtuart_checkout_tx_frame; dmx512_put_frame e
      else if decide (up_state p = WAIT_FOR_TX_COMPLETE) then mret tt
      else if 0 <? tx_remain p then
        let remain := if (space_available =? -1) || (tx_remain p <? u64 space_available)
                      then i32 (tx_remain p) else space_available in
        let c := if 12 <? remain then 12 else remain in
        wait_tx_fifo spin ;;
        _ ← rtuart_write_chars (tx_ptr p) c;
        with_port (set_tx (tx_frame p) (ptr_add (tx_ptr p) c) (u64 (tx_remain p - c))) ;;
        with_uart (uart_enable_notification UART_NOTIFY_TXREADY)
      else
        next_state WAIT_FOR_TX_COMPLETE ;;
        with_uart (uart_enable_notification UART_NOTIFY_TXEMPTY)
  end.

Definition dmx512rtuart_handle_rdm_timeout : client unit :=
  p ← get_port;
  match tx_frame p with
  | None => mret tt
  | Some _ =>
      match up_state p with
      | RDMDISC_RECV_PREAMBLE | RDMDISC_RECV_DATA =>
          dmx512rtuart_stop_rdm_timer ;;
          e ← dmx512rtuart_checkout_rx_frame;
          dmx512_put_frame e ;;
          if 0 <? rx_count p then reply_with rdm_discovery_reply_collision
          else reply_with rdm_discovery_reply_timeout
      | EXPECT_RDM_FRAME | RECEIVE_RDMDATA =>
          e ← dmx512rtuart_checkout_rx_frame;
          dmx512_put_frame e ;;
          reply_with update_rdm_checksum
      | _ => mret tt
      end
  end.
Definition __posix_timer_thread_handler : client unit :=
  with_port (fun p => set_timer (tm_active p) (tm_us p) true p) ;;
  dmx512rtuart_handle_rdm_timeout.
Definition dmx512_rtuart_periodical : client unit :=
  with_port (fun p => if tm_call p then set_timer (tm_active p) (tm_us p) false p else p).

Definition enable_rs485_transmitter (on : bool) : client unit :=
  with_uart (uart_set_modem_lines RTUART_OUTPUT_RTS (if on then RTUART_OUTPUT_RTS else 0)).

Definition dmx512rtuart_transmitter_empty : client unit :=
  p ← get_port;
  if decide (up_state p = TRANSMIT_BREAK) then
    with_uart (uart_disable_notification UART_NOTIFY_TXEMPTY) ;;
    with_uart (uart_set_baudrate 250000) ;;
    next_state TRANSMIT_DATA ;;
    with_uart (uart_enable_notification UART_NOTIFY_TXREADY)
  else if decide (up_state p <> WAIT_FOR_TX_COMPLETE) then mret tt
  else
    enable_rs485_transmitter false ;;
    with_uart (uart_enable_notification UART_NOTIFY_LINEEVENT) ;;
    with_uart (uart_flush_fifo false true) ;;
    with_uart (uart_enable_notification UART_NOTIFY_LINEEVENT) ;;
    let idle := (e ← dmx512rtuart_checkout_tx_frame; dmx512_put_frame e ;; next_state IDLE) in
    match tx_frame p with
    | None => idle
    | Some t =>
        f ← the_frame t;
        if has (f_flags f) DMX512_FLAG_IS_RDM then
          if has (f_flags f) DMX512_FLAG_IS_RDM_DISC then
            r ← dmx512_get_frame;
            with_port (set_rx r (rx_data p) (rx_count p)) ;;
            match r with
            | Some r =>
                put_contents r f ;;
                next_state RDMDISC_RECV_PREAMBLE ;;
                with_port (set_expected 0) ;;
                with_port (set_rx (Some r) (At r 256) 0) ;;
                dmx512rtuart_start_rdm_timer DISCOVERY_REQUEST_REPLY_TIMEOUT ;;
                with_uart (uart_enable_notification UART_NOTIFY_RXAVAILABLE)
            | None => idle
            end
          else
            with_port (set_expected 256) ;;
            next_state EXPECT_RDM_FRAME ;;
            dmx512rtuart_start_rdm_timer TIMEOUT_RDM_EOP_TO_SOP
        else idle
    end.

Definition is_between (pos first last : Z) : bool := (first <=? pos) && (pos <=? last).

Definition set_flag (m : Z) (f : dmx512frame) : outcome dmx512frame :=
  Done (with_flags (Z.lor (f_flags f) m) f).
Definition clear_flag (m : Z) (f : dmx512frame) : outcome dmx512frame :=
  Done (with_flags (Z.ldiff (f_flags f) m) f).
Definition rx_flag (e : nat) (m : Z) : client bool := f ← the_frame e; mret (has (f_flags f) m).

(** [data] points to the [size] octets that were read last, the first of
    which is number [start_pos] of the frame. *)
Definition dmx512_check_received_data (start_pos size : Z) (data : ptr) : client unit :=
  p ← get_port;
  e ← deref (rx_frame p);
  disc ← rx_flag e DMX512_FLAG_IS_RDM_DISC;
  if (disc : bool) then mret tt else
  rdm ← rx_flag e DMX512_FLAG_IS_RDM;
  (if negb rdm && ((start_pos =? 0) && (0 <? size)) then
     x ← ptr_load data 0;
     if x =? SC_RDM then edit_frame e (set_flag DMX512_FLAG_IS_RDM)
     else if x =? 0 then
       with_port (set_expected (if l_locked (rx_lock p) then l_matching_slots (rx_lock p) else 512))
     else mret tt
   else mret tt) ;;
  rdm ← rx_flag e DMX512_FLAG_IS_RDM;
  (if (rdm : bool) && is_between RDM_POS_SUBSTARTCODE start_pos (start_pos + size) then
     x ← ptr_load data (RDM_POS_SUBSTARTCODE - start_pos);
     if negb (x =? SC_SUB_MESSAGE) then edit_frame e (clear_flag DMX512_FLAG_IS_RDM) else mret tt
   else mret tt) ;;
  rdm ← rx_flag e DMX512_FLAG_IS_RDM;
  (if (rdm : bool) && is_between RDM_POS_LENGTH start_pos (start_pos + size) then
     x ← ptr_load data (RDM_POS_LENGTH - start_pos);
     let expected := u16 (x + 2 - 1) in
     with_port (set_expected expected) ;;
     dmx512rtuart_stop_rdm_timer ;;
     dmx512rtuart_start_rdm_timer (TIMEOUT_RDMFRAME_STATIC + (expected - RDM_POS_LENGTH) * TIMEOUT_RDMFRAME_PEROCTET)
   else mret tt) ;;
  rdm ← rx_flag e DMX512_FLAG_IS_RDM;
  if (rdm : bool) && is_between RDM_POS_PDL start_pos (start_pos + size) then
    f ← the_frame e;
    d ← lift_outcome (dmx512frame_is_rdm_discover (f_data f));
    if (d : bool) then edit_frame e (set_flag DMX512_FLAG_IS_RDM_DISC) else mret tt
  else mret tt.

(** The largest number of octets of the frame and how many of the [count]
    that are announced are read. *)
Definition max_size (p : uart_port) : Z := rx_expected p + 1.
Definition toread (p : uart_port) (count : Z) : Z :=
  if u64 (rx_count p + count) <? u64 (max_size p) then count else i32 (u64 (max_size p - rx_count p)).

(** A frame is complete: the case of DMX512 and RDM frames. *)
Definition deliver_received : client unit :=
  p ← get_port;
  (match tx_frame p with
   | Some t => f ← the_frame t; when (has (f_flags f) DMX512_FLAG_IS_RDM) dmx512rtuart_stop_rdm_timer
   | None => mret tt
   end) ;;
  t ← dmx512rtuart_checkout_tx_frame;
  dmx512_put_frame t ;;
  r ← dmx512rtuart_checkout_rx_frame;
  dmx512_received_frame r ;;
  next_state IDLE.

(** The states [EXPECT_STARTCODE], [RECEIVE_DMXDATA] and [RECEIVE_RDMDATA];
    [max] and [n] were computed before the callback looked at the data. *)
Definition receive_frame_data (count max n : Z) : client unit :=
  p ← get_port;
  match rx_data p with
  | Null => raise (Exited 1)
  | data =>
      ret ← rtuart_read_chars data n;
      when (0 <? ret) (
        dmx512_check_received_data (rx_count p) ret data ;;
        with_port (fun q => set_rx (rx_frame q) (ptr_add data ret) (u64 (rx_count q + ret)) q) ;;
        q ← get_port;
        if (max <=? rx_count q) && bool_decide (is_Some (rx_frame q)) then deliver_received
        else with_uart (uart_enable_notification UART_NOTIFY_RXAVAILABLE)) ;;
      when (n <? count) (with_uart (uart_flush_fifo false true))
  end.

(** The reply to a discovery request is complete. *)
Definition complete_discovery : client unit :=
  dmx512rtuart_stop_rdm_timer ;;
  rxframe ← dmx512rtuart_checkout_rx_frame;
  match rxframe with
  | None => reply_with rdm_discovery_reply_collision
  | Some r =>
      f ← the_frame r;
      '(err, f') ← lift_outcome (dmx512rtuart_complete_rdm_discovery_reply f);
      put_contents r f' ;;
      if err <? 0 then
        reply_with rdm_discovery_reply_collision ;; dmx512_put_frame (Some r)
      else
        t ← dmx512rtuart_checkout_tx_frame;
        dmx512_put_frame t ;;
        dmx512_received_frame (Some r)
  end ;;
  next_state IDLE.

(** The first octets of a reply: a collision, the separator, or neither yet. *)
Definition check_preamble (ret : Z) : client unit :=
  p ← get_port;
  match rx_data p with
  | At e off =>
      f ← the_frame e;
      pos ← lift_outcome (dmx512rtuart_find_preamble (f_data f) off ret);
      if pos =? -2 then
        dmx512rtuart_stop_rdm_timer ;;
        r ← dmx512rtuart_checkout_rx_frame;
        dmx512_put_frame r ;;
        reply_with rdm_discovery_reply_collision ;;
        next_state IDLE
      else if -1 <? pos then
        with_port (set_expected (u16 (rx_count p + pos + 16))) ;;
        next_state RDMDISC_RECV_DATA
      else mret tt
  | Null => raise NullPointer
  | Wild => raise Dangling
  end.

Definition receive_discovery_data (count : Z) : client unit :=
  p ← get_port;
  ret ← rtuart_read_chars (rx_data p) count;
  when (0 <? ret) (
    q ← get_port;
    when (bool_decide (up_state q = RDMDISC_RECV_PREAMBLE)) (check_preamble ret) ;;
    with_port (fun q => set_rx (rx_frame q) (ptr_add (rx_data q) ret) (u64 (rx_count q + ret)) q) ;;
    q ← get_port;
    if decide (up_state q = RDMDISC_RECV_DATA) then
      if (rx_expected q + 1 <=? rx_count q) && bool_decide (is_Some (rx_frame q)) then complete_discovery
      else with_uart (uart_enable_notification UART_NOTIFY_RXAVAILABLE)
    else with_uart (uart_enable_notification UART_NOTIFY_RXAVAILABLE)).

Definition dmx512rtuart_receiver_data_available (_count : Z) : client unit :=
  let count := if _count =? -1 then 1 else _count in
  p ← get_port;
  if in_tx_state (up_state p) then mret tt else
  match rx_frame p with
  | None => with_uart (uart_flush_fifo false true) ;; next_state IDLE
  | Some _ =>
      match up_state p with
      | EXPECT_STARTCODE | RECEIVE_DMXDATA =>
          next_state RECEIVE_DMXDATA ;; receive_frame_data count (max_size p) (toread p count)
      | RECEIVE_RDMDATA => receive_frame_data count (max_size p) (toread p count)
      | RDMDISC_RECV_PREAMBLE =>
          dmx512rtuart_stop_rdm_timer ;;
          dmx512rtuart_start_rdm_timer TIMEOUT_RDMDISCOVERY_LENGTH ;;
          receive_discovery_data count
      | RDMDISC_RECV_DATA => receive_discovery_data count
      | _ => with_uart (uart_flush_fifo false true)
      end
  end.

Definition dmx512rtuart_modem_input_changed (values change : Z) : client unit := mret tt.

(** The reception that a break or a transmission ends. *)
Definition flush_reception : client unit :=
  r ← dmx512rtuart_checkout_rx_frame;
  dmx512_received_frame r ;;
  with_port (fun p => set_rx None (rx_data p) (rx_count p) p) ;;
  p ← get_port;
  when (in_rx_state (up_state p)) (next_state IDLE).

(** A break starts a new frame. *)
Definition start_reception : client unit :=
  p ← get_port;
  when (bool_decide (up_state p = EXPECT_RDM_FRAME)) (
    dmx512rtuart_stop_rdm_timer ;;
    dmx512rtuart_start_rdm_timer TIMEOUT_RDM_SOP_TO_EOP) ;;
  r ← dmx512_get_frame;
  with_port (fun q => set_rx r (rx_data q) (rx_count q) q) ;;
  match r with
  | None => mret tt
  | Some r =>
      with_port (set_rx (Some r) (At r 0) 0) ;;
      edit_frame r (fun f => d ← store_all 0 (replicate DATA_SIZE 0xCE) (f_data f); Done (with_data d f)) ;;
      (if decide (up_state p = EXPECT_RDM_FRAME) then
         with_port (set_expected 256) ;; next_state RECEIVE_RDMDATA
       else
         next_state EXPECT_STARTCODE ;; with_port (set_expected 512)) ;;
      with_uart (uart_enable_notification UART_NOTIFY_RXAVAILABLE)
  end.

Definition handle_break : client unit :=
  p ← get_port;
  when ((state_num (up_state p) <=? state_num RECEIVE_DMXDATA) && bool_decide (is_Some (rx_frame p))
        && negb (bool_decide (up_state p = EXPECT_STARTCODE))) flush_reception ;;
  p ← get_port;
  match up_state p with
  | IDLE | EXPECT_RDM_FRAME => start_reception
  | EXPECT_STARTCODE =>
      match rx_frame p with
      | Some e => with_port (set_rx (Some e) (At e 0) 0)
      | None => mret tt
      end
  | _ => mret tt
  end.

Definition dmx512rtuart_line_status_event (eventmask : Z) : client unit :=
  p ← get_port;
  if in_tx_state (up_state p) then mret tt else
  when (has eventmask RTUART_EVENT_BREAK) handle_break ;;
  with_uart (uart_enable_notification UART_NOTIFY_LINEEVENT).

(** *** Sending *)

(** The flags of the frame and, for a discovery reply, its octets on the
    line. *)
Definition prepare_rdm (e : nat) : client unit :=
  f ← the_frame e;
  rdm ← lift_outcome (dmx512frame_is_rdm (f_data f));
  if (rdm : bool) then
    edit_frame e (set_flag DMX512_FLAG_IS_RDM) ;;
    disc ← lift_outcome (dmx512frame_is_rdm_discover (f_data f));
    if (disc : bool) then edit_frame e (set_flag DMX512_FLAG_IS_RDM_DISC) else
    reply ← lift_outcome (dmx512frame_is_rdm_discover_reply (f_data f));
    if (reply : bool) then
      edit_frame e encode_discovery_reply ;;
      with_port (set_tx (Some e) (At e 256) 24) ;;
      edit_frame e (set_flag DMX512_FLAG_NOBREAK)
    else mret tt
  else mret tt.

Definition dmx512_rtuart_client_send_frame (e : nat) : client unit :=
  p ← get_port;
  when (bool_decide (is_Some (rx_frame p))) flush_reception ;;
  p ← get_port;
  match tx_frame p with
  | Some _ => dmx512_put_frame (Some e)
  | None =>
      next_state TRANSMIT_BREAK ;;
      f ← the_frame e;
      with_port (set_tx (Some e) (At e 0) (1 + f_payload_size f)) ;;
      prepare_rdm e ;;
      with_uart (uart_disable_notification (Z.lor UART_NOTIFY_LINEEVENT UART_NOTIFY_RXAVAILABLE)) ;;
      enable_rs485_transmitter true ;;
      f ← the_frame e;
      if negb (has (f_flags f) DMX512_FLAG_NOBREAK) then
        with_uart (uart_disable_notification UART_NOTIFY_TXREADY) ;;
        with_uart (uart_set_baudrate (250000 / 3)) ;;
        _ ← ask_uart (uart_write_chars [0]);
        with_uart (uart_enable_notification UART_NOTIFY_TXEMPTY)
      else
        next_state TRANSMIT_DATA ;;
        with_uart (uart_enable_notification UART_NOTIFY_TXREADY)
  end.

Definition dmx512_rtuart_client_is_busy : client bool :=
  p ← get_port; mret (bool_decide (is_Some (tx_frame p))).

Definition dmx512_rtuart_start : client unit :=
  with_uart (uart_set_format 8 110 20) ;;
  with_uart (uart_set_baudrate 250000) ;;
  with_uart (uart_set_fifo_enable 1) ;;
  with_uart (uart_set_rxfifo_trigger_level 8) ;;
  with_uart (uart_set_txfifo_trigger_level 2) ;;
  with_uart (uart_enable_notification (Z.lor UART_NOTIFY_LINEEVENT UART_NOTIFY_INPUTCHANGED)).

(** The port of [dmx512_rtuart_client_create], which [memset] clears. *)
Definition new_port : uart_port :=
  UartPort DOWN None Null 0 (SlotLock false false 10 0 0) 0 None Null 0 false 0 false.
(** Whether there is a port, which [malloc] decides. *)
Definition dmx512_rtuart_client_create (malloc_ok : bool) : client bool :=
  if negb malloc_ok then mret false
  else
    with_port (fun _ => new_port) ;;
    dmx512_rtuart_start ;;
    enable_rs485_transmitter false ;;
    with_uart (uart_enable_notification UART_NOTIFY_LINEEVENT) ;;
    next_state IDLE ;;
    mret true.
End client.
