(* ===== verification/ClientSafety.v ===== *)
(** * Safety of the UART client

    Every frame has exactly one owner: the pool, the receiver's list, the
    reception or the transmission in progress.  [holds fl o w] says so of a
    state in the middle of a callback, [fl] being the frames the callback has
    in its hands; [client_inv] is the invariant between two events, which
    also bounds the buffers.  The lemmas give the effect of each building
    block, and the theorem is that every event preserves the invariant and is
    handled without a fault. *)
From stdpp Require Import base countable gmap list.
From S2P Require Import Prelude KList FrameQueue RdmFrame UartClient.

Definition opt (o : option nat) : list nat := match o with Some e => [e] | None => [] end.

Definition owned {U} (w : world U) : list nat :=
  w_pool w ++ w_received w ++ opt (rx_frame (w_port w)) ++ opt (tx_frame (w_port w)).

(** The slot count that is locked in fits into a frame. *)
Definition lock_ok (l : slot_lock) : Prop :=
  0 <= l_matching_slots l < 1024 /\ (l_locked l = true -> l_matching_slots l <= 512).

Record holds {U} (fl o : list nat) (w : world U) : Prop := {
  h_nodup : NoDup o;
  h_owned : fl ++ owned w ≡ₚ o;
  h_good e : e ∈ o -> exists f, w_frames w !! e = Some f /\ frame_wf f /\ 0 <= f_payload_size f < 2 ^ 16;
  h_lock : lock_ok (rx_lock (w_port w));
  h_expected : 0 <= rx_expected (w_port w) <= 512;
  h_tx e f : tx_frame (w_port w) = Some e -> w_frames w !! e = Some f -> 1 <= f_payload_size f }.

Definition disc_state (s : uart_state) : bool :=
  match s with RDMDISC_RECV_PREAMBLE | RDMDISC_RECV_DATA => true | _ => false end.
(** The states in which a frame is being received. *)
Definition receiving (s : uart_state) : bool :=
  match s with
  | EXPECT_STARTCODE | RECEIVE_DMXDATA | RECEIVE_RDMDATA | RDMDISC_RECV_PREAMBLE | RDMDISC_RECV_DATA => true
  | _ => false
  end.
(** Where the received data starts in the frame. *)
Definition rx_base (s : uart_state) : Z := if disc_state s then 256 else 0.

Definition rx_ok (p : uart_port) : Prop :=
  match rx_frame p with
  | None => True
  | Some e => receiving (up_state p) = true /\
      rx_data p = At e (rx_base (up_state p) + rx_count p) /\
      0 <= rx_count p /\ rx_base (up_state p) + rx_count p <= 513 /\
      (disc_state (up_state p) = true -> is_Some (tx_frame p))
  end.
Definition tx_ok (p : uart_port) : Prop :=
  match tx_frame p with
  | None => True
  | Some e => exists off, tx_ptr p = At e off /\ 0 <= off /\ 0 <= tx_remain p /\ off + tx_remain p <= 513
  end.

(** A preamble of [k] octets and the separator. *)
Definition preamble (f : dmx512frame) (k : nat) : Prop :=
  (forall j, 256 <= j < 256 + Z.of_nat k -> slot f j = 0xFE) /\ slot f (256 + Z.of_nat k) = 0xAA.
(** What is known of a discovery reply that is being received. *)
Definition disc_ok {U} (w : world U) : Prop :=
  forall e f, rx_frame (w_port w) = Some e -> w_frames w !! e = Some f ->
  match up_state (w_port w) with
  | RDMDISC_RECV_PREAMBLE => forall j, 256 <= j < 256 + rx_count (w_port w) -> slot f j = 0xFE
  | RDMDISC_RECV_DATA => exists k : nat, preamble f k /\ Z.of_nat k < rx_count (w_port w) /\
      rx_expected (w_port w) = Z.of_nat k + 16
  | _ => True
  end.

Definition client_inv {U} (o : list nat) (w : world U) : Prop :=
  holds [] o w /\ rx_ok (w_port w) /\ tx_ok (w_port w) /\ disc_ok w.

Section safety.
Context {U : Type} `{UartLaws U}.
Implicit Types w : world U.

(** *** Building blocks *)

(** [disc_ok] says nothing without a reception, and nothing of a frame. *)
Lemma disc_ok_none w : rx_frame (w_port w) = None -> disc_ok w.
Proof. intros Hno e f. by rewrite Hno. Qed.
Lemma disc_ok_frame w : disc_state (up_state (w_port w)) = false -> disc_ok w.
Proof. intros Hs e f _ _. by destruct (up_state (w_port w)). Qed.

Lemma holds_same fl o w w' :
  holds fl o w -> owned w' = owned w -> w_frames w' = w_frames w ->
  rx_lock (w_port w') = rx_lock (w_port w) -> rx_expected (w_port w') = rx_expected (w_port w) ->
  tx_frame (w_port w') = tx_frame (w_port w) ->
  holds fl o w'.
Proof. intros [] Ho Hf Hl He Ht. split; rewrite ?Ho, ?Hf, ?Hl, ?He, ?Ht; done. Qed.

Lemma holds_perm fl fl' o w w' :
  holds fl o w -> fl' ++ owned w' ≡ₚ fl ++ owned w -> w_frames w' = w_frames w ->
  rx_lock (w_port w') = rx_lock (w_port w) -> rx_expected (w_port w') = rx_expected (w_port w) ->
  (tx_frame (w_port w') = tx_frame (w_port w) \/ tx_frame (w_port w') = None) ->
  holds fl' o w'.
Proof.
  intros [] Ho Hf Hl He Ht. split; rewrite ?Hf, ?Hl, ?He; try done; [by rewrite Ho|].
  destruct Ht as [-> | ->]; done.
Qed.

Lemma wp_with_uart (f : U -> U) (Q : unit -> world U -> Prop) w :
  Q tt (World (w_port w) (f (w_uart w)) (w_frames w) (w_pool w) (w_received w)) -> wp (with_uart f) Q w.
Proof. done. Qed.
Lemma wp_with_port (f : uart_port -> uart_port) (Q : unit -> world U -> Prop) w :
  Q tt (World (f (w_port w)) (w_uart w) (w_frames w) (w_pool w) (w_received w)) -> wp (with_port f) Q w.
Proof. done. Qed.
Lemma wp_the_port (Q : uart_port -> world U -> Prop) w : Q (w_port w) w -> wp get_port Q w.
Proof. done. Qed.
Lemma wp_ask_uart {A} (f : U -> A * U) (Q : A -> world U -> Prop) w :
  (forall a u, f (w_uart w) = (a, u) -> Q a (World (w_port w) u (w_frames w) (w_pool w) (w_received w))) ->
  wp (ask_uart f) Q w.
Proof. unfold wp, ask_uart. intros HQ. destruct (f (w_uart w)) as [a u] eqn:E. by apply HQ. Qed.

Lemma wp_the_frame fl o e (Q : dmx512frame -> world U -> Prop) w :
  holds fl o w -> e ∈ o ->
  (forall f, w_frames w !! e = Some f -> frame_wf f -> 0 <= f_payload_size f < 2 ^ 16 -> Q f w) ->
  wp (the_frame e) Q w.
Proof.
  intros Hh He HQ. destruct (h_good _ _ _ Hh e He) as (f & Hf & Hw & Hp).
  unfold the_frame. wp_steps. by apply HQ.
Qed.

(** A world with other contents of an entry. *)
Definition set_contents (e : nat) (f : dmx512frame) w : world U :=
  World (w_port w) (w_uart w) (<[e := f]> (w_frames w)) (w_pool w) (w_received w).

Lemma holds_contents fl o e f w :
  holds fl o w -> frame_wf f -> 0 <= f_payload_size f < 2 ^ 16 ->
  (tx_frame (w_port w) = Some e -> 1 <= f_payload_size f) -> holds fl o (set_contents e f w).
Proof.
  intros Hh Hf Hp Ht. destruct Hh as [? ? Hg ? ? Htx]. split; cbn; try done.
  - intros e' He'. destruct (decide (e' = e)) as [->|]; [exists f; by rewrite lookup_insert_eq|].
    rewrite lookup_insert_ne by done. by apply Hg.
  - intros e' f' He'. destruct (decide (e' = e)) as [->|].
    + rewrite lookup_insert_eq. intros [= <-]. by apply Ht.
    + rewrite lookup_insert_ne by done. by apply Htx.
Qed.

(** The entries of the reception and of the transmission differ. *)
Lemma holds_rx_tx fl o w e : holds fl o w -> rx_frame (w_port w) = Some e -> tx_frame (w_port w) <> Some e.
Proof.
  intros Hh Hr Ht. pose proof (h_nodup _ _ _ Hh) as Hnd. rewrite <- (h_owned _ _ _ Hh) in Hnd.
  unfold owned in Hnd. rewrite Hr, Ht in Hnd. cbn in Hnd.
  apply NoDup_app in Hnd as (_ & _ & Hnd). apply NoDup_app in Hnd as (_ & _ & Hnd).
  apply NoDup_app in Hnd as (_ & _ & Hnd). apply NoDup_cons in Hnd as [Hnd _]. set_solver.
Qed.

Lemma wp_edit_frame fl o e g (Q : unit -> world U -> Prop) w :
  holds fl o w -> e ∈ o ->
  (forall f, w_frames w !! e = Some f -> frame_wf f -> 0 <= f_payload_size f < 2 ^ 16 ->
     exists f', g f = Done f' /\ frame_wf f' /\ 0 <= f_payload_size f' < 2 ^ 16 /\
       (f_payload_size f' = f_payload_size f \/ tx_frame (w_port w) <> Some e) /\
       (holds fl o (set_contents e f' w) -> Q tt (set_contents e f' w))) ->
  wp (edit_frame e g) Q w.
Proof.
  intros Hh He Hg. unfold edit_frame. apply wp_bind. eapply wp_the_frame; [done..|].
  intros f Hf Hw Hp. destruct (Hg f Hf Hw Hp) as (f' & E & Hw' & Hp' & Ht & HQ).
  apply wp_bind. eapply wp_done; [unfold lift_outcome; by rewrite E|].
  unfold put_contents. apply wp_modify. apply HQ. apply holds_contents; [done..|].
  intros Htx. destruct Ht as [-> | Ht]; [by eapply (h_tx _ _ _ Hh)|done].
Qed.

(** Frame programs that keep frames well formed. *)
Definition frame_prog (g : dmx512frame -> outcome dmx512frame) : Prop :=
  forall f, frame_wf f -> 1 <= f_payload_size f < 2 ^ 16 ->
    exists f', g f = Done f' /\ frame_wf f' /\ 0 <= f_payload_size f' < 2 ^ 16.

Lemma checkout_tx_spec fl o (Q : option nat -> world U -> Prop) w :
  holds fl o w ->
  (forall w', holds (opt (tx_frame (w_port w)) ++ fl) o w' ->
     w_port w' = match tx_frame (w_port w) with Some _ => set_tx None Null 0 (w_port w) | None => w_port w end ->
     w_frames w' = w_frames w -> w_received w' = w_received w -> w_pool w' = w_pool w -> w_uart w' = w_uart w ->
     Q (tx_frame (w_port w)) w') ->
  wp dmx512rtuart_checkout_tx_frame Q w.
Proof.
  intros Hh HQ. unfold dmx512rtuart_checkout_tx_frame. apply wp_bind, wp_the_port.
  destruct (tx_frame (w_port w)) as [e|] eqn:He.
  - apply wp_bind, wp_with_port, wp_ret. apply HQ; try done.
    eapply holds_perm; [done|..]; try done; [|by right]. unfold owned. cbn. rewrite He. cbn.
    rewrite !app_nil_r. solve_Permutation.
  - apply wp_ret. apply HQ; try done.
Qed.

Lemma put_frame_spec fl o r (Q : unit -> world U -> Prop) w :
  holds (opt r ++ fl) o w ->
  (forall w', holds fl o w' -> w_port w' = w_port w -> w_frames w' = w_frames w ->
     w_received w' = w_received w -> w_pool w' = w_pool w ++ opt r -> w_uart w' = w_uart w -> Q tt w') ->
  wp (dmx512_put_frame r) Q w.
Proof.
  intros Hh HQ. destruct r as [e|]; cbn.
  - apply wp_modify. apply HQ; try done. eapply holds_perm; [done|..]; try done; [|by left].
    unfold owned. cbn. solve_Permutation.
  - apply wp_ret. apply HQ; try done. by rewrite app_nil_r.
Qed.

Lemma received_frame_spec fl o e (Q : unit -> world U -> Prop) w :
  holds (e :: fl) o w ->
  (forall w', holds fl o w' -> w_port w' = w_port w -> w_frames w' = w_frames w ->
     w_received w' = w_received w ++ [e] -> w_pool w' = w_pool w -> w_uart w' = w_uart w -> Q tt w') ->
  wp (dmx512_received_frame (Some e)) Q w.
Proof.
  intros Hh HQ. unfold dmx512_received_frame. apply wp_bind, wp_ret, wp_modify.
  apply HQ; try done. eapply holds_perm; [done|..]; try done; [|by left]. unfold owned. cbn. solve_Permutation.
Qed.

Lemma get_frame_spec fl o (Q : option nat -> world U -> Prop) w :
  holds fl o w ->
  (forall w', holds (opt (head (w_pool w)) ++ fl) o w' -> w_port w' = w_port w -> w_frames w' = w_frames w ->
     w_received w' = w_received w -> w_pool w' = tail (w_pool w) -> w_uart w' = w_uart w -> Q (head (w_pool w)) w') ->
  wp dmx512_get_frame Q w.
Proof.
  intros Hh HQ. unfold wp, dmx512_get_frame. destruct (w_pool w) as [|e l] eqn:Hp; cbn in *.
  - by apply HQ.
  - apply HQ; try done. eapply holds_perm; [done|..]; try done; [|by left]. unfold owned. rewrite Hp. cbn. solve_Permutation.
Qed.

(** The lock on the slot count after a DMX512 frame of [size] slots. *)
Lemma update_lock_spec fl o e (Q : unit -> world U -> Prop) w :
  holds fl o w -> rx_frame (w_port w) = Some e -> e ∈ o ->
  (forall f, w_frames w !! e = Some f -> f_payload_size f <= 512 \/ f_payload_size f = 65535) ->
  (forall l, lock_ok l -> Q tt (World (set_lock l (w_port w)) (w_uart w) (w_frames w) (w_pool w) (w_received w))) ->
  wp dmx512_uart_update_automatic_framecount_locking Q w.
Proof.
  intros Hh He Hin Hsize HQ. unfold dmx512_uart_update_automatic_framecount_locking.
  apply wp_bind, wp_the_port. rewrite He. apply wp_bind. eapply wp_the_frame; [done..|].
  intros f Hf Hw Hp. apply wp_bind. eapply wp_done; [unfold lift_outcome; rewrite peek_slot by (done || lia); done|].
  specialize (Hsize f Hf). destruct (h_lock _ _ _ Hh) as [Hm Hl].
  assert (Q tt w) as HQ0.
  { specialize (HQ (rx_lock (w_port w)) (conj Hm Hl)). destruct w as [[] ? ? ? ?]. exact HQ. }
  assert (0 <= f_payload_size f mod 2 ^ 10 < 1024) as Hmod by (pose proof (Z.mod_pos_bound (f_payload_size f) (2 ^ 10)); lia).
  apply wp_if; intros _; [by apply wp_ret|]. destruct (l_locked (rx_lock (w_port w))) eqn:Hlk.
  - apply wp_if; intros _; [|by apply wp_ret]. apply wp_with_port, HQ. split; cbn; [lia|done].
  - apply wp_if; intros Heq.
    + apply Z.eqb_eq in Heq. apply wp_with_port, HQ. split; cbn; [lia|]. intros _. lia.
    + apply wp_with_port, HQ. split; cbn; [lia|done].
Qed.

Lemma checkout_rx_spec fl o (Q : option nat -> world U -> Prop) w :
  holds fl o w -> (is_Some (rx_frame (w_port w)) -> 0 <= rx_count (w_port w) <= 513) ->
  (forall w' l, holds (opt (rx_frame (w_port w)) ++ fl) o w' -> lock_ok l ->
     w_port w' = match rx_frame (w_port w) with Some _ => set_rx None Null 0 (set_lock l (w_port w)) | None => w_port w end ->
     w_frames w' = match rx_frame (w_port w) with
       | Some e => partial_alter (fmap (with_payload_size (u16 (rx_count (w_port w) - 1)))) e (w_frames w)
       | None => w_frames w end ->
     w_received w' = w_received w -> w_pool w' = w_pool w -> w_uart w' = w_uart w ->
     Q (rx_frame (w_port w)) w') ->
  wp dmx512rtuart_checkout_rx_frame Q w.
Proof.
  intros Hh Hc HQ. unfold dmx512rtuart_checkout_rx_frame. apply wp_bind, wp_the_port.
  destruct (rx_frame (w_port w)) as [e|] eqn:He; [|apply wp_ret; by apply (HQ w (rx_lock (w_port w))); [|apply (h_lock _ _ _ Hh)|..]].
  specialize (Hc ltac:(eauto)).
  assert (e ∈ o) as Hin.
  { rewrite <- (h_owned _ _ _ Hh). unfold owned. rewrite He. set_solver. }
  pose proof (u16_range (rx_count (w_port w) - 1)) as Hr16.
  apply wp_bind. eapply wp_edit_frame; [done..|]. intros f Hf Hw Hp. eexists. split; [done|].
  split; [done|]. split; [cbn; lia|]. split; [right; by eapply holds_rx_tx|]. set (f1 := with_payload_size _ f). set (w1 := set_contents e f1 w). intros Hh1.
  assert (w_frames w1 = partial_alter (fmap (with_payload_size (u16 (rx_count (w_port w) - 1)))) e (w_frames w)) as Hf1.
  { apply map_eq. intros e'. cbn. destruct (decide (e' = e)) as [->|].
    - rewrite lookup_insert_eq, lookup_partial_alter_eq, Hf. done.
    - by rewrite lookup_insert_ne, lookup_partial_alter_ne. }
  apply wp_bind. eapply wp_the_frame; [done..|]. intros f2 Hf2 Hw2 _.
  cbn in Hf2. rewrite lookup_insert_eq in Hf2. injection Hf2 as <-.
  apply wp_bind. eapply wp_done; [unfold lift_outcome; rewrite peek_slot by (done || lia); done|].
  assert (forall l, lock_ok l -> wp (with_port (set_rx None Null 0) ;; mret (Some e)) Q
    (World (set_lock l (w_port w1)) (w_uart w1) (w_frames w1) (w_pool w1) (w_received w1))) as Hend.
  { intros l Hl. apply wp_bind, wp_with_port, wp_ret. eapply (HQ _ l); try done.
    destruct Hh1 as [? Ho Hg ? ? ?]. split; try done. rewrite <- Ho. unfold owned. cbn. rewrite He. cbn. solve_Permutation. }
  apply wp_bind, wp_when; intros _.
  - eapply update_lock_spec; [done|done|done| |done]. cbn. rewrite lookup_insert_eq. intros f2 [= <-]. cbn.
    destruct (decide (rx_count (w_port w) = 0)) as [->|]; [by right|]. left.
    rewrite u16_small by lia. lia.
  - specialize (Hend (rx_lock (w_port w)) (h_lock _ _ _ Hh)). by destruct w as [[] ? ? ? ?].
Qed.

Lemma reply_with_spec fl o g (Q : unit -> world U -> Prop) w e :
  holds fl o w -> frame_prog g -> tx_frame (w_port w) = Some e ->
  (forall w' f f', holds fl o w' -> w_port w' = set_tx None Null 0 (w_port w) ->
     w_frames w !! e = Some f -> g f = Done f' -> w_frames w' = <[e := f']> (w_frames w) ->
     w_received w' = w_received w ++ [e] -> w_pool w' = w_pool w -> Q tt w') ->
  wp (reply_with g) Q w.
Proof.
  intros Hh Hg He HQ. unfold reply_with. apply wp_bind. eapply checkout_tx_spec; [done|].
  rewrite He. intros w1 Hh1 Hp1 Hf1 Hr1 Hl1 _. cbn in Hh1.
  assert (e ∈ o) as Hin by (rewrite <- (h_owned _ _ _ Hh1); set_solver).
  apply wp_bind. eapply wp_edit_frame; [done..|]. intros f Hf Hw Hp.
  assert (1 <= f_payload_size f) as Hp1' by (eapply (h_tx _ _ _ Hh); [done|by rewrite <- Hf1]).
  destruct (Hg f Hw ltac:(lia)) as (f' & E & Hw' & Hp'). exists f'. do 3 (split; [done|]).
  split; [right; by rewrite Hp1|]. intros Hh2.
  eapply received_frame_spec; [done|]. intros w3 Hh3 Hp3 Hf3 Hr3 Hl3 _.
  eapply (HQ _ f f'); try done.
  - by rewrite Hp3.
  - by rewrite <- Hf1.
  - rewrite Hf3. cbn. by rewrite Hf1.
  - by rewrite Hr3, <- Hr1.
  - by rewrite Hl3, <- Hl1.
Qed.

Lemma flush_reception_spec fl o e (Q : unit -> world U -> Prop) w :
  holds fl o w -> rx_frame (w_port w) = Some e -> 0 <= rx_count (w_port w) <= 513 ->
  (forall w' l, holds fl o w' -> lock_ok l ->
     w_port w' = (if in_rx_state (up_state (w_port w)) then set_state IDLE else id) (set_rx None Null 0 (set_lock l (w_port w))) ->
     w_frames w' = partial_alter (fmap (with_payload_size (u16 (rx_count (w_port w) - 1)))) e (w_frames w) ->
     w_received w' = w_received w ++ [e] -> w_pool w' = w_pool w -> w_uart w' = w_uart w -> Q tt w') ->
  wp flush_reception Q w.
Proof.
  intros Hh He Hc HQ. unfold flush_reception. apply wp_bind. eapply checkout_rx_spec; [done|done|].
  rewrite He. intros w1 l Hh1 Hl Hp1 Hf1 Hr1 Hl1 Hu1.
  apply wp_bind. eapply (received_frame_spec fl o e); [exact Hh1|]. intros w2 Hh2 Hp2 Hf2 Hr2 Hl2 Hu2.
  apply wp_bind, wp_with_port, wp_bind, wp_the_port. cbn [w_port]. rewrite Hp2, Hp1. cbn [up_state set_rx set_lock].
  set (w3 := World _ _ _ _ _). assert (holds fl o w3) as Hh3.
  { eapply holds_same; [exact Hh2|..]; try done; try (cbn; by rewrite Hp2, Hp1). unfold owned. cbn. by rewrite Hp2, Hp1. }
  apply wp_when; intros Hrx.
  - unfold next_state. apply wp_with_port. eapply (HQ _ l); try (cbn; congruence).
    + eapply holds_same; [exact Hh3|..]; done.
    + cbn. by rewrite Hrx.
  - eapply (HQ _ l); try (cbn; congruence). by rewrite Hrx.
Qed.

(** *** Frame programs *)

Lemma discovery_reply_prog v : octet v -> frame_prog (discovery_reply v).
Proof.
  intros Hv f Hf _. destruct (discovery_reply_spec v f Hf Hv) as (g & E & Hw & Hp & _).
  exists g. split_and!; try done; lia.
Qed.

Lemma update_rdm_checksum_prog : frame_prog update_rdm_checksum.
Proof.
  intros f Hf Hp. unfold update_rdm_checksum. destruct (Z.ltb_spec 254 (f_payload_size f - 1)).
  { exists f. split_and!; try done; lia. }
  unfold RDM_POS_RESPONSE_TYPE, RDM_POS_COMMAND_CLASS.
  frame_step (poke_spec f 16 RESPONSE_TYPE_NOREPLY Hf) as g1 Hw1 Hg1 Hs1.
  rewrite peek_slot by (done || lia). cbn [mbind outcome_bind].
  frame_step (poke_spec g1 20 (Z.lor (slot g1 20) 1) Hw1) as g2 Hw2 Hg2 Hs2.
  destruct (append_checksum_spec g2 (f_payload_size f - 1) Hw2) as (g3 & cs & E & _ & _ & Hw3 & Hg3 & _); [lia|].
  exists g3. split; [exact E|]. split; [done|]. rewrite Hg3, Hg2, Hg1. cbn. lia.
Qed.

(** *** The callbacks *)

(** The transmit FIFO drains while its level is looked at. *)
Fixpoint drains (n : nat) (u : U) : bool :=
  match n with
  | O => false
  | S n => let '(r, u') := uart_get_tx_fifo_free u in
      match r with Some l => (l =? 16) || drains n u' | None => true end
  end.

Lemma wait_tx_fifo_spec n (Q : unit -> world U -> Prop) w :
  drains n (w_uart w) = true ->
  (forall u, Q tt (World (w_port w) u (w_frames w) (w_pool w) (w_received w))) ->
  wp (wait_tx_fifo n) Q w.
Proof.
  revert w. induction n as [|n IH]; intros w Hd HQ; [done|]. cbn [wait_tx_fifo drains] in *.
  apply wp_bind, wp_ask_uart. intros r u E. rewrite E in Hd. destruct r as [l|]; [|apply wp_ret, HQ].
  apply wp_if; intros Hl; [apply wp_ret, HQ|]. rewrite Hl in Hd. apply IH; [done|]. exact HQ.
Qed.

Lemma wp_load_all fl o e off n (Q : list Z -> world U -> Prop) w :
  holds fl o w -> e ∈ o -> 0 <= off -> off + Z.of_nat n <= 513 ->
  (forall f, w_frames w !! e = Some f -> frame_wf f ->
     Q ((fun k => slot f (off + Z.of_nat k)) <$> seq 0 n) w) ->
  wp (ptr_load_all (At e off) n) Q w.
Proof.
  intros Hh He Hoff Hn HQ. destruct (h_good _ _ _ Hh e He) as (f & Hf & Hw & Hp).
  destruct n as [|n]; cbn [ptr_load_all]; [apply wp_ret; by apply (HQ f)|].
  apply wp_bind. eapply wp_the_frame; [done..|]. intros f' Hf' Hw' _.
  eapply wp_done; [unfold lift_outcome; rewrite load_all_spec by (done || lia); done|]. by apply HQ.
Qed.

Lemma u64_small z : 0 <= z < 2 ^ 64 -> u64 z = z.
Proof. apply Z.mod_small. Qed.

Lemma tx_owned fl o w e : holds fl o w -> tx_frame (w_port w) = Some e -> e ∈ o.
Proof. intros Hh He. rewrite <- (h_owned _ _ _ Hh). unfold owned. rewrite He. set_solver. Qed.
Lemma rx_owned fl o w e : holds fl o w -> rx_frame (w_port w) = Some e -> e ∈ o.
Proof. intros Hh He. rewrite <- (h_owned _ _ _ Hh). unfold owned. rewrite He. set_solver. Qed.

(** The octets the next callback writes. *)
Definition chunk (w : world U) (space : Z) : Z :=
  Z.min 12 (if (space =? -1) then tx_remain (w_port w) else Z.min space (tx_remain (w_port w))).

Lemma has_space_safe spin o n (w : world U) :
  (forall u, drains spin u = true) ->
  client_inv o w -> in_tx_state (up_state (w_port w)) = true -> (n = -1 \/ 0 <= n < 2 ^ 31) ->
  wp (dmx512rtuart_transmitter_has_space spin n) (fun _ w' => client_inv o w') w.
Proof.
  intros Hspin (Hh & Hrx & Htx & Hdc) Hst Hn. unfold dmx512rtuart_transmitter_has_space.
  apply wp_bind, wp_the_port. destruct (tx_frame (w_port w)) as [e|] eqn:He; [|by apply wp_ret].
  unfold tx_ok in Htx. rewrite He in Htx. destruct Htx as (off & Hp & Hoff & Hr & Hlen). rewrite Hp.
  assert (rx_frame (w_port w) = None) as Hno.
  { unfold rx_ok in Hrx. destruct (rx_frame (w_port w)); [|done]. destruct Hrx as [Hrx _].
    by destruct (up_state (w_port w)). }
  destruct (decide _); [by apply wp_ret; split_and!; unfold tx_ok; rewrite ?He; eauto|].
  apply wp_if; intros Hpos.
  - apply Z.ltb_lt in Hpos.
    set (remain := if (n =? -1) || _ then _ else _). set (c := if 12 <? remain then 12 else remain).
    assert (0 <= c <= tx_remain (w_port w)) as Hc.
    { unfold c, remain. rewrite i32_small by lia. destruct (Z.eqb_spec n (-1)); cbn [orb].
      - destruct (Z.ltb_spec 12 (tx_remain (w_port w))); lia.
      - destruct Hn as [|Hn]; [done|]. rewrite u64_small by lia. destruct (Z.ltb_spec (tx_remain (w_port w)) n).
        + destruct (Z.ltb_spec 12 (tx_remain (w_port w))); lia.
        + destruct (Z.ltb_spec 12 n); lia. }
    apply wp_bind, wait_tx_fifo_spec; [done|]. intros u.
    apply wp_bind, wp_bind. cbn [w_port]. rewrite ?Hp.
    assert (holds [] o (World (w_port w) u (w_frames w) (w_pool w) (w_received w))) as Hh' by by eapply holds_same.
    eapply wp_load_all; [exact Hh'|by eapply tx_owned|done|lia|]. intros f Hf Hw.
    apply wp_ask_uart. intros ? u2 _. apply wp_bind, wp_with_port, wp_with_uart. cbn [w_port w_uart w_frames w_pool w_received ptr_add].
    split_and!.
    + eapply holds_same; [exact Hh'|..]; try done. unfold owned. cbn. by rewrite He.
    + unfold rx_ok. cbn. by rewrite Hno.
    + unfold tx_ok. cbn. exists (off + c). rewrite u64_small by lia. split_and!; [done|lia..].
    + by apply disc_ok_none.
  - unfold next_state. apply wp_bind, wp_with_port, wp_with_uart. split_and!.
    + by eapply holds_same.
    + unfold rx_ok. cbn. by rewrite Hno.
    + unfold tx_ok. cbn. rewrite He. by eauto.
    + by apply disc_ok_none.
Qed.

Lemma timeout_safe o (w : world U) :
  client_inv o w -> wp dmx512rtuart_handle_rdm_timeout (fun _ w' => client_inv o w') w.
Proof.
  intros (Hh & Hrx & Htx & Hdc). unfold dmx512rtuart_handle_rdm_timeout.
  apply wp_bind, wp_the_port. destruct (tx_frame (w_port w)) as [e|] eqn:He; [|by apply wp_ret].
  assert (is_Some (rx_frame (w_port w)) -> 0 <= rx_count (w_port w) <= 513) as Hc.
  { unfold rx_ok in Hrx. intros [r Hr]. rewrite Hr in Hrx. unfold rx_base in Hrx. destruct (disc_state _); lia. }
  assert (forall g w0, frame_prog g -> holds [] o w0 -> w_port w0 = w_port w \/ w_port w0 = set_timer false (tm_us (w_port w)) (tm_call (w_port w)) (w_port w) ->
    wp (r ← dmx512rtuart_checkout_rx_frame; dmx512_put_frame r ;; reply_with g) (fun _ w' => client_inv o w') w0) as Hgo.
  { intros g w0 Hg Hh0 Hw0.
    assert (rx_frame (w_port w0) = rx_frame (w_port w) /\ tx_frame (w_port w0) = Some e /\ rx_count (w_port w0) = rx_count (w_port w)) as (E1 & E2 & E3).
    { by destruct Hw0 as [-> | ->]. }
    apply wp_bind. eapply checkout_rx_spec; [exact Hh0|by rewrite E1, E3|].
    intros w1 l Hh1 Hl Hp1 _ _ _ _. apply wp_bind. eapply put_frame_spec; [exact Hh1|].
    intros w2 Hh2 Hp2 _ _ _ _. eapply (reply_with_spec _ _ _ _ _ e); [done|done| |].
    { rewrite Hp2, Hp1. by destruct (rx_frame (w_port w0)). }
    intros w3 f f' Hh3 Hp3 _ _ _ _ _.
    assert (rx_frame (w_port w3) = None) as Hno.
    { rewrite Hp3, Hp2, Hp1. by destruct (rx_frame (w_port w0)) eqn:Hx. }
    split_and!; [done| | |by apply disc_ok_none].
    - unfold rx_ok. by rewrite Hno.
    - unfold tx_ok. by rewrite Hp3. }
  assert (holds [] o (World (set_timer false (tm_us (w_port w)) (tm_call (w_port w)) (w_port w)) (w_uart w)
    (w_frames w) (w_pool w) (w_received w))) as Hh' by by eapply holds_same.
  assert (forall g1 g2, frame_prog g1 -> frame_prog g2 ->
    wp (dmx512rtuart_stop_rdm_timer ;; r ← dmx512rtuart_checkout_rx_frame; dmx512_put_frame r ;;
        if 0 <? rx_count (w_port w) then reply_with g1 else reply_with g2) (fun _ w' => client_inv o w') w) as Hdisc.
  { intros g1 g2 H1 H2. unfold dmx512rtuart_stop_rdm_timer. apply wp_bind, wp_with_port. destruct (0 <? rx_count (w_port w));
      (apply Hgo; [done|by destruct (tm_active (w_port w)); [|destruct w]|cbn; by destruct (tm_active (w_port w)); [right|left]]). }
  destruct (up_state (w_port w)) eqn:Hs; try by apply wp_ret; split_and!.
  - apply Hgo; [apply update_rdm_checksum_prog|done|by left].
  - apply Hgo; [apply update_rdm_checksum_prog|done|by left].
  - apply Hdisc; apply discovery_reply_prog; unfold octet; lia.
  - apply Hdisc; apply discovery_reply_prog; unfold octet; lia.
Qed.

(** Giving the transmitted frame back and going idle. *)
Lemma tx_done_spec o (w : world U) :
  holds [] o w -> rx_frame (w_port w) = None ->
  wp (e ← dmx512rtuart_checkout_tx_frame; dmx512_put_frame e ;; next_state IDLE) (fun _ w' => client_inv o w') w.
Proof.
  intros Hh Hno. apply wp_bind. eapply checkout_tx_spec; [done|]. intros w1 Hh1 Hp1 _ _ _ _.
  apply wp_bind. eapply put_frame_spec; [exact Hh1|]. intros w2 Hh2 Hp2 _ _ _ _.
  unfold next_state. apply wp_with_port.
  assert (rx_frame (w_port w2) = None /\ tx_frame (w_port w2) = None) as [E1 E2].
  { rewrite Hp2, Hp1. by destruct (tx_frame (w_port w)) eqn:Ht. }
  split_and!; [by eapply holds_same|unfold rx_ok; cbn; by rewrite E1|unfold tx_ok; cbn; by rewrite E2|by apply disc_ok_none].
Qed.

Lemma transmitter_empty_safe timer o (w : world U) :
  client_inv o w -> wp (dmx512rtuart_transmitter_empty timer) (fun _ w' => client_inv o w') w.
Proof.
  intros (Hh & Hrx & Htx & Hdc). unfold dmx512rtuart_transmitter_empty. apply wp_bind, wp_the_port.
  assert (in_tx_state (up_state (w_port w)) = true -> rx_frame (w_port w) = None) as Hno.
  { intros Hst. unfold rx_ok in Hrx. destruct (rx_frame (w_port w)); [|done]. destruct Hrx as [Hrx _].
    by destruct (up_state (w_port w)). }
  destruct (decide (up_state (w_port w) = TRANSMIT_BREAK)) as [Hs|Hs].
  { apply wp_bind, wp_with_uart, wp_bind, wp_with_uart, wp_bind. unfold next_state. apply wp_with_port, wp_with_uart.
    rewrite Hs in Hno. specialize (Hno eq_refl).
    split_and!; [by eapply holds_same|unfold rx_ok; cbn; by rewrite Hno|exact Htx|by apply disc_ok_none]. }
  destruct (decide (up_state (w_port w) <> WAIT_FOR_TX_COMPLETE)) as [Hs2|Hs2]; [by apply wp_ret|].
  assert (up_state (w_port w) = WAIT_FOR_TX_COMPLETE) as Hst by by destruct (decide (up_state (w_port w) = WAIT_FOR_TX_COMPLETE)).
  rewrite Hst in Hno. specialize (Hno eq_refl). cbv zeta.
  apply wp_bind, wp_with_uart, wp_bind, wp_with_uart, wp_bind, wp_with_uart, wp_bind, wp_with_uart.
  cbn [w_port w_uart w_frames w_pool w_received].
  set (w1 := World _ _ _ _ _). assert (holds [] o w1) as Hh1 by by eapply holds_same.
  destruct (tx_frame (w_port w)) as [t|] eqn:Ht; [|by apply tx_done_spec].
  apply wp_bind. eapply wp_the_frame; [done|by eapply tx_owned|]. intros f Hf Hw Hp.
  apply wp_if; intros Hrdm; [|by apply tx_done_spec]. apply wp_if; intros Hdisc.
  - apply wp_bind. eapply get_frame_spec; [done|]. intros w2 Hh2 Hp2 Hf2 _ _ _.
    apply wp_bind, wp_with_port. destruct (head (w_pool w1)) as [r|] eqn:Hr.
    + set (w3 := World _ _ _ _ _).
      assert (holds [] o w3) as Hh3.
      { eapply holds_perm; [exact Hh2|..]; try done; try (cbn; by rewrite Hp2); [|left; cbn; by rewrite Hp2].
        unfold owned, w3. cbn. rewrite Hp2. cbn. rewrite Hno. cbn. solve_Permutation. }
      apply wp_bind. unfold put_contents. apply wp_modify. fold (set_contents r f w3).
      assert (tx_frame (w_port w3) = Some t) as Ht3 by (cbn; by rewrite Hp2).
      assert (holds [] o (set_contents r f w3)) as Hh4.
      { apply holds_contents; [done|done|done|]. intros Htr. eapply (h_tx _ _ _ Hh1); [exact Ht|exact Hf]. }
      apply wp_bind. unfold next_state. apply wp_with_port, wp_bind, wp_with_port, wp_bind, wp_with_port.
      apply wp_bind. unfold dmx512rtuart_start_rdm_timer. apply wp_with_port, wp_with_uart.
      cbn [w_port w_uart w_frames w_pool w_received]. split_and!.
      * destruct Hh4 as [? Ho Hg Hlk He Htx4]. cbn in Ho, Hg, Hlk, He, Htx4. split; cbn; try done.
        -- rewrite <- Ho. unfold owned. cbn. rewrite Hp2. by destruct (_ || _).
        -- rewrite Hp2 in *. by destruct (_ || _).
        -- rewrite Hp2 in *. destruct (_ || _); cbn; lia.
        -- rewrite Hp2 in *. intros e f' Hef. apply Htx4. by destruct (_ || _).
      * unfold rx_ok. cbn. rewrite Hp2. destruct (_ || _); cbn; rewrite Ht; (split_and!; [done|done|done|done|by eauto]).
      * unfold tx_ok in *. cbn. rewrite Hp2. destruct (_ || _); cbn; rewrite Ht in *; exact Htx.
      * intros e' f'. cbn. rewrite Hp2. destruct (_ || _); cbn; intros _ _ j Hj; lia.
    + apply tx_done_spec; [|done]. eapply holds_perm; [exact Hh2|..]; try done; try (cbn; by rewrite Hp2); [|left; cbn; by rewrite Hp2].
      unfold owned. cbn. rewrite Hp2. cbn. by rewrite Hno.
  - apply wp_bind, wp_with_port, wp_bind. unfold next_state, dmx512rtuart_start_rdm_timer. apply wp_with_port, wp_with_port.
    cbn [w_port w_uart w_frames w_pool w_received]. split_and!.
    + destruct Hh1 as [? Ho Hg Hlk He Htx4]. split; cbn; try done.
      * rewrite <- Ho. unfold owned. cbn. by destruct (_ || _).
      * by destruct (_ || _).
      * destruct (_ || _); cbn; lia.
      * intros e f'. destruct (_ || _); apply Htx4.
    + unfold rx_ok. cbn. destruct (_ || _); cbn; by rewrite Hno.
    + unfold tx_ok in *. cbn. destruct (_ || _); cbn; rewrite Ht in *; exact Htx.
    + apply disc_ok_none. cbn. by destruct (_ || _).
Qed.

(** Starting and stopping the timer changes nothing else. *)
Definition port_is (p : uart_port) (w : world U) : world U :=
  World p (w_uart w) (w_frames w) (w_pool w) (w_received w).
Lemma stop_timer_spec (Q : unit -> world U -> Prop) w :
  (forall a us c, Q tt (port_is (set_timer a us c (w_port w)) w)) -> wp dmx512rtuart_stop_rdm_timer Q w.
Proof.
  intros HQ. unfold dmx512rtuart_stop_rdm_timer. apply wp_with_port. destruct (tm_active (w_port w)); [apply HQ|].
  specialize (HQ (tm_active (w_port w)) (tm_us (w_port w)) (tm_call (w_port w))). by destruct w as [[] ? ? ? ?].
Qed.
Lemma start_timer_spec timer us0 (Q : unit -> world U -> Prop) w :
  (forall a us c, Q tt (port_is (set_timer a us c (w_port w)) w)) -> wp (dmx512rtuart_start_rdm_timer timer us0) Q w.
Proof.
  intros HQ. unfold dmx512rtuart_start_rdm_timer. apply wp_with_port. destruct (_ || _); [apply HQ|].
  specialize (HQ (tm_active (w_port w)) (tm_us (w_port w)) (tm_call (w_port w))). by destruct w as [[] ? ? ? ?].
Qed.

Lemma start_reception_safe timer o (w : world U) :
  client_inv o w -> rx_frame (w_port w) = None ->
  up_state (w_port w) = IDLE \/ up_state (w_port w) = EXPECT_RDM_FRAME ->
  wp (start_reception timer) (fun _ w' => client_inv o w') w.
Proof.
  intros (Hh & Hrx & Htx & Hdc) Hno Hst. unfold start_reception. apply wp_bind, wp_the_port. apply wp_bind.
  assert (forall a us c, wp (r ← dmx512_get_frame;
    with_port (fun q => set_rx r (rx_data q) (rx_count q) q) ;;
    match r with
    | None => mret tt
    | Some r =>
        with_port (set_rx (Some r) (At r 0) 0) ;;
        edit_frame r (fun f => d ← store_all 0 (replicate DATA_SIZE 0xCE) (f_data f); Done (with_data d f)) ;;
        (if decide (up_state (w_port w) = EXPECT_RDM_FRAME) then
           with_port (set_expected 256) ;; next_state RECEIVE_RDMDATA
         else next_state EXPECT_STARTCODE ;; with_port (set_expected 512)) ;;
        with_uart (uart_enable_notification UART_NOTIFY_RXAVAILABLE)
    end) (fun _ w' => client_inv o w') (port_is (set_timer a us c (w_port w)) w)) as Hgo.
  { intros a us c. set (w1 := port_is _ w). assert (holds [] o w1) as Hh1 by by eapply holds_same.
    apply wp_bind. eapply get_frame_spec; [done|]. intros w2 Hh2 Hp2 Hf2 _ _ _.
    apply wp_bind, wp_with_port. destruct (head (w_pool w1)) as [r|].
    - apply wp_bind, wp_with_port. set (w3 := World _ _ _ _ _).
      assert (holds [] o w3) as Hh3.
      { eapply holds_perm; [exact Hh2|..]; try done. 2: by left.
        unfold owned, w3. cbn. rewrite Hp2. cbn. rewrite Hno. cbn. solve_Permutation. }
      assert (rx_frame (w_port w3) = Some r) as Hr3 by done.
      apply wp_bind. eapply wp_edit_frame; [exact Hh3|by eapply rx_owned|].
      intros f Hf Hw Hp. destruct (store_all_spec f 0 (replicate DATA_SIZE 0xCE) Hw) as (d & E & Hwd & _);
        [done|done|by apply Forall_replicate; unfold octet|].
      rewrite E. eexists. split; [reflexivity|]. split; [exact Hwd|]. split; [exact Hp|]. split; [by left|].
      intros [Hnd Ho Hg Hlk He Htx4]. cbn in Hnd, Ho, Hg, Hlk, He, Htx4.
      destruct (decide _) as [Hs|Hs]; unfold next_state;
        apply wp_bind, wp_bind, wp_with_port, wp_with_port, wp_with_uart; cbn; rewrite ?Hp2 in *;
        (split_and!; [split; cbn; try done; lia| | |by apply disc_ok_frame]).
      + unfold rx_ok. cbn. split_and!; done || lia.
      + unfold tx_ok in *. cbn. exact Htx.
      + unfold rx_ok. cbn. split_and!; done || lia.
      + unfold tx_ok in *. cbn. exact Htx.
    - apply wp_ret. split_and!.
      + eapply holds_perm; [exact Hh2|..]; try done. 2: by left.
        unfold owned. cbn. rewrite Hp2. cbn. by rewrite Hno.
      + done.
      + unfold tx_ok in *. cbn. rewrite Hp2. exact Htx.
      + by apply disc_ok_none. }
  apply wp_when; intros _.
  - apply wp_bind, stop_timer_spec. intros a us c. apply start_timer_spec. intros a' us' c'. apply Hgo.
  - specialize (Hgo (tm_active (w_port w)) (tm_us (w_port w)) (tm_call (w_port w))). by destruct w as [[] ? ? ? ?].
Qed.

Lemma line_status_safe timer o mask (w : world U) :
  client_inv o w -> wp (dmx512rtuart_line_status_event timer mask) (fun _ w' => client_inv o w') w.
Proof.
  intros (Hh & Hrx & Htx & Hdc). unfold dmx512rtuart_line_status_event. apply wp_bind, wp_the_port.
  destruct (in_tx_state (up_state (w_port w))) eqn:Hin; [by apply wp_ret|].
  assert (forall w', client_inv o w' -> wp (with_uart (uart_enable_notification UART_NOTIFY_LINEEVENT)) (fun _ w' => client_inv o w') w') as Hend.
  { intros w' (Hh' & ? & ? & ?). apply wp_with_uart. split_and!; [by eapply holds_same|done|done|done]. }
  apply wp_bind, wp_when; intros _; [|apply Hend; by split_and!].
  eapply (wp_mono _ (fun _ w' => client_inv o w')); [|intros ? w' HI; by apply Hend].
  unfold handle_break. apply wp_bind, wp_the_port, wp_bind. apply wp_when; intros Hcond.
  - apply andb_prop in Hcond as [Hcond Hne]. apply andb_prop in Hcond as [Hle Hsome].
    apply bool_decide_eq_true in Hsome as [e He]. apply negb_true_iff, bool_decide_eq_false in Hne.
    unfold rx_ok in Hrx. rewrite He in Hrx. destruct Hrx as (Hrec & Hd & Hc0 & Hc & _).
    assert (up_state (w_port w) = RECEIVE_DMXDATA) as Hst by by destruct (up_state (w_port w)).
    rewrite Hst in Hc. cbn in Hc.
    eapply flush_reception_spec; [done|exact He|lia|]. rewrite Hst. cbn [in_rx_state].
    intros w1 l Hh1 Hl Hp1 _ _ _ _. cbn in Hp1.
    apply wp_bind, wp_the_port. rewrite Hp1. cbn [up_state set_state].
    apply start_reception_safe; [|by rewrite Hp1|rewrite Hp1; by left].
    split_and!; [done|unfold rx_ok; by rewrite Hp1| |apply disc_ok_none; by rewrite Hp1]. unfold tx_ok in *. by rewrite Hp1.
  - apply wp_bind, wp_the_port. destruct (up_state (w_port w)) eqn:Hst; try by apply wp_ret; split_and!.
    + apply start_reception_safe; [by split_and!| |rewrite Hst; by left].
      destruct (rx_frame (w_port w)) eqn:He; [|done]. unfold rx_ok in Hrx. rewrite He, Hst in Hrx. by destruct Hrx.
    + destruct (rx_frame (w_port w)) as [e|] eqn:He; [|by apply wp_ret; split_and!].
      apply wp_with_port. split_and!.
      * eapply holds_same; [exact Hh|..]; try done. unfold owned. cbn. by rewrite He.
      * unfold rx_ok. cbn. rewrite Hst. split_and!; done || lia.
      * exact Htx.
      * apply disc_ok_frame. cbn. by rewrite Hst.
    + apply start_reception_safe; [by split_and!| |rewrite Hst; by right].
      destruct (rx_frame (w_port w)) eqn:He; [|done]. unfold rx_ok in Hrx. rewrite He, Hst in Hrx. by destruct Hrx.
Qed.

(** *** Sending *)

Lemma is_rdm_total f : frame_wf f -> exists b, dmx512frame_is_rdm (f_data f) = Done b.
Proof.
  intros Hf. unfold dmx512frame_is_rdm, octet_is, DMX_POS_STARTCODE, RDM_POS_SUBSTARTCODE.
  rewrite !load_slot by (done || lia). cbn. repeat case_match; eauto.
Qed.
Lemma is_disc_total c pdl f : frame_wf f -> exists b, is_disc_unique_branch c pdl (f_data f) = Done b.
Proof.
  intros Hf. unfold is_disc_unique_branch, octet_is, DMX_POS_STARTCODE, RDM_POS_SUBSTARTCODE, RDM_POS_COMMAND_CLASS, RDM_POS_PID, RDM_POS_PDL.
  rewrite !load_slot by (done || lia). cbn. repeat case_match; eauto.
Qed.

(** Editing a frame without changing its size. *)
Lemma wp_edit_same fl o e g (Q : unit -> world U -> Prop) w :
  holds fl o w -> e ∈ o ->
  (forall f, frame_wf f -> exists f', g f = Done f' /\ frame_wf f' /\ f_payload_size f' = f_payload_size f) ->
  (forall f f', w_frames w !! e = Some f -> g f = Done f' -> frame_wf f' ->
     holds fl o (set_contents e f' w) -> Q tt (set_contents e f' w)) ->
  wp (edit_frame e g) Q w.
Proof.
  intros Hh He Hg HQ. eapply wp_edit_frame; [done..|]. intros f Hf Hw Hp.
  destruct (Hg f Hw) as (f' & E & Hw' & Hp'). exists f'. split; [done|]. split; [done|]. split; [by rewrite Hp'|].
  split; [by left|]. by apply HQ with f.
Qed.

Lemma flag_same m f : frame_wf f -> exists f', set_flag m f = Done f' /\ frame_wf f' /\ f_payload_size f' = f_payload_size f.
Proof. intros Hf. by eexists. Qed.
Lemma unflag_same m f : frame_wf f -> exists f', clear_flag m f = Done f' /\ frame_wf f' /\ f_payload_size f' = f_payload_size f.
Proof. intros Hf. by eexists. Qed.
Lemma encode_same f : frame_wf f ->
  exists f', encode_discovery_reply f = Done f' /\ frame_wf f' /\ f_payload_size f' = f_payload_size f.
Proof.
  intros Hf. destruct (encode_discovery_reply_spec f Hf) as (g & E & Hw & Hg & _).
  exists g. split_and!; [done|done|by rewrite Hg].
Qed.

Lemma prepare_rdm_spec o e (Q : unit -> world U -> Prop) w :
  holds [] o w -> tx_frame (w_port w) = Some e ->
  (forall w', holds [] o w' -> w_uart w' = w_uart w ->
     w_port w' = w_port w \/ w_port w' = set_tx (Some e) (At e 256) 24 (w_port w) -> Q tt w') ->
  wp (prepare_rdm e) Q w.
Proof.
  intros Hh He HQ. assert (e ∈ o) as Hin by by eapply tx_owned. unfold prepare_rdm.
  apply wp_bind. eapply wp_the_frame; [done..|]. intros f Hf Hw Hp.
  destruct (is_rdm_total f Hw) as [b Eb]. apply wp_bind. eapply wp_done; [unfold lift_outcome; by rewrite Eb|].
  destruct b; [|apply wp_ret, HQ; by auto].
  apply wp_bind. eapply wp_edit_same; [done|done|intros; by apply flag_same|]. intros ? f1 _ _ Hw1 Hh1.
  destruct (is_disc_total DISCOVERY_COMMAND 12 f Hw) as [b1 Eb1].
  apply wp_bind. eapply wp_done; [unfold lift_outcome, dmx512frame_is_rdm_discover; by rewrite Eb1|].
  destruct b1.
  { eapply wp_edit_same; [exact Hh1|done|intros; by apply flag_same|]. intros ? f2 _ _ Hw2 Hh2. apply HQ; by auto. }
  destruct (is_disc_total DISCOVERY_COMMAND_RESPONSE 0 f Hw) as [b2 Eb2].
  apply wp_bind. eapply wp_done; [unfold lift_outcome, dmx512frame_is_rdm_discover_reply; by rewrite Eb2|].
  destruct b2; [|apply wp_ret, HQ; by auto].
  apply wp_bind. eapply wp_edit_same; [exact Hh1|done|apply encode_same|]. intros ? f2 _ _ Hw2 Hh2.
  apply wp_bind, wp_with_port. set (w3 := World _ _ _ _ _).
  assert (holds [] o w3) as Hh3.
  { eapply holds_same; [exact Hh2|..]; try done. unfold owned. cbn. by rewrite He. }
  eapply wp_edit_same; [exact Hh3|done|intros; by apply flag_same|]. intros ? f4 _ _ Hw4 Hh4. apply HQ; by auto.
Qed.

Lemma send_frame_safe o e f (w : world U) :
  client_inv o w -> e ∉ o -> w_frames w !! e = Some f -> frame_wf f -> 1 <= f_payload_size f <= 512 ->
  wp (dmx512_rtuart_client_send_frame e) (fun _ w' => client_inv (e :: o) w') w.
Proof.
  intros (Hh & Hrx & Htx & Hdc) Hfresh Hf Hw Hsize. unfold dmx512_rtuart_client_send_frame.
  assert (holds [e] (e :: o) w) as Hh0.
  { destruct Hh as [Hnd Ho Hg Hlk Hex Ht]. split; try done.
    - by apply NoDup_cons.
    - cbn in *. by rewrite Ho.
    - intros e' [->|He']%elem_of_cons; [|by apply Hg]. exists f. split_and!; [done|done|lia|lia]. }
  assert (forall w1, holds [e] (e :: o) w1 -> rx_frame (w_port w1) = None -> tx_ok (w_port w1) -> w_frames w1 !! e = Some f ->
    wp (p ← get_port;
      match tx_frame p with
      | Some _ => dmx512_put_frame (Some e)
      | None =>
          next_state TRANSMIT_BREAK ;;
          f ← the_frame e;
          with_port (set_tx (Some e) (At e 0) (1 + f_payload_size f)) ;;
          prepare_rdm e ;;
          with_uart (uart_disable_notification (Z.lor UART_NOTIFY_LINEEVENT UART_NOTIFY_RXAVAILABLE)) ;;
          enable_rs485_transmitter true ;;
          f ← the_frame e;
          if negb (has (f_flags f) DMX512_FLAG_NOBREAK) then
            with_uart (uart_disable_notification UART_NOTIFY_TXREADY) ;;
            with_uart (uart_set_baudrate (250000 / 3)) ;;
            _ ← ask_uart (uart_write_chars [0]);
            with_uart (uart_enable_notification UART_NOTIFY_TXEMPTY)
          else next_state TRANSMIT_DATA ;; with_uart (uart_enable_notification UART_NOTIFY_TXREADY)
      end) (fun _ w' => client_inv (e :: o) w') w1) as Hgo.
  { intros w1 Hh1 Hno Htx1 Hf1. apply wp_bind, wp_the_port. destruct (tx_frame (w_port w1)) as [t|] eqn:Ht.
    - eapply (put_frame_spec [] _ (Some e)); [exact Hh1|]. intros w2 Hh2 Hp2 _ _ _ _.
      split_and!; [done|unfold rx_ok; by rewrite Hp2, Hno|by rewrite Hp2|apply disc_ok_none; by rewrite Hp2].
    - apply wp_bind. unfold next_state. apply wp_with_port, wp_bind. eapply (wp_the_frame [e] (e :: o)).
      { by eapply holds_same. } { set_solver. }
      cbn [w_frames]. intros f' Hf' _ _. rewrite Hf1 in Hf'. injection Hf' as <-.
      apply wp_bind, wp_with_port. set (w2 := World _ _ _ _ _). assert (holds [] (e :: o) w2) as Hh2.
      { destruct Hh1 as [Hnd Ho Hg Hlk Hex Htx2]. split; cbn; try done.
        - rewrite <- Ho. unfold owned. cbn. rewrite Ht. cbn. rewrite app_nil_r. solve_Permutation.
        - intros e' f' [= <-] Hf'. rewrite Hf1 in Hf'. injection Hf' as <-. lia. }
      apply wp_bind. eapply (prepare_rdm_spec (e :: o) e); [exact Hh2|done|].
      intros w3 Hh3 _ Hp3. apply wp_bind, wp_with_uart, wp_bind. unfold enable_rs485_transmitter. apply wp_with_uart.
      cbn [w_port w_uart w_frames w_pool w_received].
      assert (rx_frame (w_port w3) = None /\ tx_ok (w_port w3)) as [Hno3 Htx3].
      { destruct Hp3 as [-> | ->]; (split; [exact Hno|]); unfold tx_ok; cbn; eexists; (split; [reflexivity|]); lia. }
      apply wp_bind. set (w4 := World _ _ _ _ _). assert (holds [] (e :: o) w4) as Hh4 by by eapply holds_same.
      eapply wp_the_frame; [exact Hh4|set_solver|]. intros f4 _ _ _. apply wp_if; intros _.
      + apply wp_bind, wp_with_uart, wp_bind, wp_with_uart, wp_bind, wp_ask_uart. intros ? u _. apply wp_with_uart.
        split_and!; [by eapply holds_same|unfold rx_ok; cbn; by rewrite Hno3|exact Htx3|by apply disc_ok_none].
      + apply wp_bind, wp_with_port, wp_with_uart.
        split_and!; [by eapply holds_same|unfold rx_ok; cbn; by rewrite Hno3|exact Htx3|by apply disc_ok_none]. }
  apply wp_bind, wp_the_port, wp_bind. apply wp_when; intros Hsome.
  - apply bool_decide_eq_true in Hsome as [r Hr]. unfold rx_ok in Hrx. rewrite Hr in Hrx.
    assert (0 <= rx_count (w_port w) <= 513) as Hc by (unfold rx_base in Hrx; destruct (disc_state _); lia).
    eapply flush_reception_spec; [exact Hh0|exact Hr|exact Hc|]. intros w1 l Hh1 Hl Hp1 Hf1 _ _ _.
    apply Hgo; [done| | |].
    + rewrite Hp1. by destruct (in_rx_state _).
    + unfold tx_ok in *. rewrite Hp1. by destruct (in_rx_state _).
    + rewrite Hf1. rewrite lookup_partial_alter_ne; [done|]. intros ->. apply Hfresh. by eapply rx_owned.
  - apply Hgo; [done| |done|done]. apply bool_decide_eq_false in Hsome. by apply eq_None_not_Some.
Qed.
End safety.
