(* ===== verification/ClientReceive.v ===== *)
(** * Reception by the UART client

    The callback that takes octets from the UART, which the other callbacks
    of [ClientSafety] do not prepare for everything that can arrive: the
    lemmas say under which conditions it stays within the frame. *)
From stdpp Require Import base countable gmap list.
From S2P Require Import Prelude KList FrameQueue RdmFrame UartClient ClientSafety.

(** ** Frame programs of discovery *)

Lemma find_preamble_result f off n :
  frame_wf f -> 0 <= off -> off + Z.of_nat n <= 513 ->
  exists r, dmx512rtuart_find_preamble (f_data f) off (Z.of_nat n) = Done r /\
    (r = -2 \/
     (r = -1 /\ forall j, off <= j < off + Z.of_nat n -> slot f j = 0xFE) \/
     (exists k : nat, r = Z.of_nat k /\ (k < n)%nat /\ (forall j, off <= j < off + Z.of_nat k -> slot f j = 0xFE) /\
        slot f (off + Z.of_nat k) = 0xAA)).
Proof.
  intros Hf Ho Hn. unfold dmx512rtuart_find_preamble. rewrite Nat2Z.id.
  assert (forall m i, (i + m = n)%nat -> (forall j, off <= j < off + Z.of_nat i -> slot f j = 0xFE) ->
    exists r, find_preamble_loop m (Z.of_nat i) off (f_data f) = Done r /\
    (r = -2 \/ (r = -1 /\ forall j, off <= j < off + Z.of_nat n -> slot f j = 0xFE) \/
     (exists k : nat, r = Z.of_nat k /\ (k < n)%nat /\ (forall j, off <= j < off + Z.of_nat k -> slot f j = 0xFE) /\
        slot f (off + Z.of_nat k) = 0xAA))) as Hloop; [|apply (Hloop n 0%nat); [lia|intros; lia]].
  induction m as [|m IH]; intros i Hi Hfe; cbn [find_preamble_loop].
  - exists (-1). split; [done|]. right. left. split; [done|]. by replace n with i by lia.
  - rewrite load_slot by (done || lia). cbn [mbind outcome_bind].
    destruct (Z.eqb_spec (slot f (off + Z.of_nat i)) 0xAA) as [Haa|_].
    + exists (Z.of_nat i). split; [done|]. right. right. exists i. split_and!; done || lia.
    + destruct (Z.eqb_spec (slot f (off + Z.of_nat i)) 0xFE) as [Hx|_]; cbn [negb]; [|exists (-2); by auto].
      replace (Z.of_nat i + 1) with (Z.of_nat (S i)) by lia. apply IH; [lia|]. intros j Hj.
      destruct (decide (j = off + Z.of_nat i)) as [->|]; [done|]. apply Hfe. lia.
Qed.

Lemma check_pairs_total n off f :
  frame_wf f -> 0 <= off -> off + 2 * Z.of_nat n <= 513 -> exists b, check_pairs n off (f_data f) = Done b.
Proof.
  intros Hf. revert off. induction n as [|n IH]; intros off Ho Hn; cbn [check_pairs]; [by eauto|].
  rewrite !load_slot by (done || lia). cbn [mbind outcome_bind]. repeat case_match; eauto. apply IH; lia.
Qed.

Lemma land_octet a b : octet a -> octet b -> octet (Z.land a b).
Proof.
  intros Ha Hb. unfold octet in *. replace (Z.land a b) with (Z.land (Z.land a b) (Z.ones 8)).
  - rewrite Z.land_ones by lia. apply Z.mod_pos_bound. lia.
  - rewrite <- Z.land_assoc, (Z.land_ones b) by lia. by rewrite Z.mod_small.
Qed.

(** Decoding a reply of which all octets were received ends, whatever they
    are. *)
Lemma complete_reply_total f k :
  frame_wf f -> preamble f k -> Z.of_nat k + 17 <= f_payload_size f + 1 <= 257 ->
  exists err g, dmx512rtuart_complete_rdm_discovery_reply f = Done (err, g) /\ frame_wf g /\
    0 <= f_payload_size g < 2 ^ 16.
Proof.
  intros Hf [Hfe Haa] Hk. unfold dmx512rtuart_complete_rdm_discovery_reply.
  rewrite (find_preamble_spec f k) by (done || lia). cbn [mbind outcome_bind]. cbv zeta.
  rewrite (proj2 (Z.ltb_lt (-1) _)) by lia. set (off := 256 + Z.of_nat k + 1).
  destruct (check_pairs_total 8 off f Hf) as [b ->]; [lia..|]. cbn [mbind outcome_bind].
  destruct b; cbn [negb]; [|exists (-1), f; split_and!; done || lia].
  rewrite checksum_spec by (done || lia). cbn [mbind outcome_bind].
  rewrite !unpair_spec by (done || lia). cbn [mbind outcome_bind].
  case_match; [exists (-1), f; split_and!; done || lia|].
  unfold RDM_POS_DEST_UID, RDM_POS_SRC_UID, RDM_POS_COMMAND_CLASS. change RDM_POS_PDL with 23 at 1.
  frame_step (copy_in_frame_spec f 3 9 6 Hf) as g1 Hw1 Hg1 Hs1.
  set (uid := fun k => Z.land (slot g1 (off + 2 * k)) (slot g1 (off + 2 * k + 1))).
  destruct (decode_uid_spec 6 0 off g1 uid Hw1) as (g2 & -> & Hw2 & Hg2 & Hs2);
    [lia|lia|lia|intros j; apply land_octet; by apply slot_octet|done|]. cbn [mbind outcome_bind].
  frame_step (poke_spec g2 20 DISCOVERY_COMMAND_RESPONSE Hw2) as g3 Hw3 Hg3 Hs3.
  frame_step (poke_spec g3 23 0 Hw3) as g4 Hw4 Hg4 Hs4.
  assert (slot g4 RDM_POS_PDL = 0) as Hpdl by (rewrite Hs4 by (unfold RDM_POS_PDL; lia); done).
  destruct (sizes_spec g4 Hw4) as (g5 & -> & Hw5 & Hg5 & Hs5); [rewrite Hpdl; lia|].
  rewrite Hpdl in *. change (25 + 0) with 25. cbn [mbind outcome_bind]. set (g6 := with_payload_size 25 g5).
  assert (frame_wf g6) as Hw6 by done. change (f_payload_size g6 - 1) with 24.
  destruct (append_checksum_spec g6 24 Hw6) as (g7 & cs' & E7 & _ & _ & Hw7 & Hg7 & Hs7); [lia|].
  rewrite E7. cbn [mbind outcome_bind]. exists 0, g7. split_and!; [done|done|rewrite Hg7; cbn; lia|rewrite Hg7; cbn; lia].
Qed.

Section receive.
Context {U : Type} `{UartLaws U} (timer : bool).
Implicit Types w : world U.

(** ** Looking at the received octets *)

(** Only the expected size, the timer and the flags of frames change. *)
Record checked w w' : Prop := {
  c_state : up_state (w_port w') = up_state (w_port w);
  c_rx : rx_frame (w_port w') = rx_frame (w_port w);
  c_data : rx_data (w_port w') = rx_data (w_port w);
  c_count : rx_count (w_port w') = rx_count (w_port w);
  c_lock : rx_lock (w_port w') = rx_lock (w_port w);
  c_expected : 0 <= rx_expected (w_port w') <= 512;
  c_tx : tx_frame (w_port w') = tx_frame (w_port w);
  c_ptr : tx_ptr (w_port w') = tx_ptr (w_port w);
  c_remain : tx_remain (w_port w') = tx_remain (w_port w);
  c_pool : w_pool w' = w_pool w;
  c_received : w_received w' = w_received w;
  c_uart : w_uart w' = w_uart w;
  c_frames e : option_Forall2 (fun f f' => exists fl, f' = with_flags fl f) (w_frames w !! e) (w_frames w' !! e) }.

Lemma with_flags_id f : with_flags (f_flags f) f = f.
Proof. by destruct f. Qed.
Lemma checked_refl w : 0 <= rx_expected (w_port w) <= 512 -> checked w w.
Proof.
  intros He. split; try done. intros e. destruct (w_frames w !! e) as [f|]; constructor. exists (f_flags f). by rewrite with_flags_id.
Qed.
Lemma checked_trans w1 w2 w3 : checked w1 w2 -> checked w2 w3 -> checked w1 w3.
Proof.
  intros [] []. split; try congruence. intros e. specialize (c_frames0 e). specialize (c_frames1 e).
  inversion c_frames0 as [f f' [fl ->] Ea Eb|Ea Eb]; rewrite <- Eb in *; inversion c_frames1 as [g g' [fl' ->] Ec Ed|Ec Ed]; subst; constructor. by exists fl'.
Qed.
Lemma checked_holds fl o w w' : checked w w' -> holds fl o w -> holds fl o w'.
Proof.
  intros Hc [Hn Ho Hg Hl He Ht]. split.
  - done.
  - rewrite <- Ho. unfold owned. by rewrite (c_pool _ _ Hc), (c_received _ _ Hc), (c_rx _ _ Hc), (c_tx _ _ Hc).
  - intros e Hin. destruct (Hg e Hin) as (f & Hf & Hw & Hp). pose proof (c_frames _ _ Hc e) as Hx. rewrite Hf in Hx.
    inversion Hx as [f0 f' [fg ->] E0 Hf'|]; subst. by exists (with_flags fg f).
  - by rewrite (c_lock _ _ Hc).
  - apply (c_expected _ _ Hc).
  - intros e f' Hte Hf'. rewrite (c_tx _ _ Hc) in Hte. pose proof (c_frames _ _ Hc e) as Hx. rewrite Hf' in Hx.
    inversion Hx as [f f0 [fg ->] Hf E0|]; subst. by apply (Ht e f).
Qed.

(** What each step of [dmx512_check_received_data] keeps. *)
Definition checking (o : list nat) (w0 w : world U) : Prop := checked w0 w /\ holds [] o w.

Lemma checking_flags o w0 w e g (Q : unit -> world U -> Prop) :
  checking o w0 w -> e ∈ o -> (forall f, exists fl, g f = Done (with_flags fl f)) ->
  (forall w', checking o w0 w' -> Q tt w') -> wp (edit_frame e g) Q w.
Proof.
  intros [Hc Hh] He Hg HQ. eapply wp_edit_frame; [exact Hh|done|]. intros f Hf Hw Hp. destruct (Hg f) as [fl E].
  exists (with_flags fl f). split; [done|]. split; [done|]. split; [done|]. split; [by left|]. intros Hh'. apply HQ.
  split; [|done]. eapply checked_trans; [exact Hc|]. split; try done.
  - apply (c_expected _ _ Hc).
  - intros e'. cbn. destruct (decide (e' = e)) as [->|].
    + rewrite lookup_insert_eq, Hf. constructor. by exists fl.
    + rewrite lookup_insert_ne by done. destruct (w_frames w !! e') as [f'|]; constructor. exists (f_flags f'). by rewrite with_flags_id.
Qed.
Lemma checking_port o w0 w (Q : unit -> world U -> Prop) a us c x :
  checking o w0 w -> 0 <= x <= 512 ->
  (forall w', checking o w0 w' -> Q tt w') -> Q tt (port_is (set_timer a us c (set_expected x (w_port w))) w).
Proof.
  intros [Hc Hh] Hx HQ. apply HQ.
  assert (checked w (port_is (set_timer a us c (set_expected x (w_port w))) w)) as Hc'.
  { split; try done. intros e. destruct (w_frames w !! e) as [f|] eqn:E; cbn; rewrite ?E; constructor.
    exists (f_flags f). by rewrite with_flags_id. }
  split; [by eapply checked_trans|by eapply checked_holds].
Qed.
Lemma port_is_id w : port_is (set_timer (tm_active (w_port w)) (tm_us (w_port w)) (tm_call (w_port w))
    (set_expected (rx_expected (w_port w)) (w_port w))) w = w.
Proof. by destruct w as [[] ? ? ? ?]. Qed.
Lemma checking_expected o w0 w (Q : unit -> world U -> Prop) x :
  checking o w0 w -> 0 <= x <= 512 -> (forall w', checking o w0 w' -> Q tt w') -> wp (with_port (set_expected x)) Q w.
Proof.
  intros Hc Hx HQ. apply wp_with_port.
  pose proof (checking_port o w0 w Q (tm_active (w_port w)) (tm_us (w_port w)) (tm_call (w_port w)) x Hc Hx HQ) as Hgo.
  by destruct w as [[] ? ? ? ?].
Qed.
Lemma checking_timers o w0 w (Q : unit -> world U -> Prop) us :
  checking o w0 w -> (forall w', checking o w0 w' -> Q tt w') ->
  wp (dmx512rtuart_stop_rdm_timer ;; dmx512rtuart_start_rdm_timer timer us) Q w.
Proof.
  intros Hc HQ. apply wp_bind, stop_timer_spec. intros a1 us1 c1. apply start_timer_spec. intros a2 us2 c2.
  assert (0 <= rx_expected (w_port w) <= 512) as Hx by (destruct Hc as [Hc _]; apply (c_expected _ _ Hc)).
  pose proof (checking_port o w0 w Q a2 us2 c2 (rx_expected (w_port w)) Hc Hx HQ) as Hgo.
  by destruct w as [[] ? ? ? ?].
Qed.

Lemma checking_load o w0 w e off k (Q : Z -> world U -> Prop) :
  checking o w0 w -> e ∈ o -> 0 <= off + k < 513 -> (forall x, octet x -> Q x w) -> wp (ptr_load (At e off) k) Q w.
Proof.
  intros [Hc Hh] He Hk HQ. unfold ptr_load. apply wp_bind. eapply wp_the_frame; [exact Hh|done|]. intros f Hf Hw Hp.
  eapply wp_done; [unfold lift_outcome; rewrite load_slot by (done || lia); done|]. apply HQ. by apply slot_octet.
Qed.
Lemma checking_flag o w0 w e m (Q : bool -> world U -> Prop) :
  checking o w0 w -> e ∈ o -> (forall b, Q b w) -> wp (rx_flag e m) Q w.
Proof. intros [Hc Hh] He HQ. unfold rx_flag. apply wp_bind. eapply wp_the_frame; [exact Hh|done|]. intros f _ _ _. apply wp_ret, HQ. Qed.

Lemma check_received_spec o w e size (Q : unit -> world U -> Prop) :
  holds [] o w -> rx_frame (w_port w) = Some e -> rx_data (w_port w) = At e (rx_count (w_port w)) ->
  0 <= rx_count (w_port w) -> 0 < size -> rx_count (w_port w) + size <= 513 ->
  (forall w', checked w w' -> holds [] o w' -> Q tt w') ->
  wp (dmx512_check_received_data timer (rx_count (w_port w)) size (At e (rx_count (w_port w)))) Q w.
Proof.
  intros Hh He Hd Hc Hs Hsize HQ. unfold dmx512_check_received_data.
  assert (e ∈ o) as Hin by by eapply rx_owned.
  assert (checking o w w) as HI by (split; [apply checked_refl, (h_expected _ _ _ Hh)|done]).
  assert (forall w', checking o w w' -> Q tt w') as HQ' by (intros w' []; by apply HQ).
  apply wp_bind, wp_the_port. rewrite He. apply wp_bind, wp_ret, wp_bind.
  eapply checking_flag; [exact HI|done|]. intros [|]; [by apply wp_ret, HQ'|].
  apply wp_bind. eapply checking_flag; [exact HI|done|]. intros b1. apply wp_bind.
  apply (wp_mono _ (fun _ w' => checking o w w')).
  { apply wp_if; intros Hb1; [|by apply wp_ret]. apply andb_prop in Hb1 as [_ Hb1]. apply andb_prop in Hb1 as [Hz%Z.eqb_eq _].
    apply wp_bind. eapply checking_load; [exact HI|done|lia|]. intros x Hx. apply wp_if; intros _.
    - eapply checking_flags; [exact HI|done|by eexists|done].
    - apply wp_if; intros _; [|by apply wp_ret]. eapply checking_expected; [exact HI| |done].
      destruct (h_lock _ _ _ Hh) as [Hl Hlk]. destruct (l_locked _); [specialize (Hlk eq_refl)|]; lia. }
  intros _ w1 H1. apply wp_bind. eapply checking_flag; [exact H1|done|]. intros b2. apply wp_bind.
  apply (wp_mono _ (fun _ w' => checking o w w')).
  { apply wp_if; intros Hb; [|by apply wp_ret]. apply wp_bind. unfold RDM_POS_SUBSTARTCODE.
    eapply checking_load; [exact H1|done|lia|]. intros x Hx. apply wp_if; intros _; [|by apply wp_ret].
    eapply checking_flags; [exact H1|done|by eexists|done]. }
  intros _ w2 H2. apply wp_bind. eapply checking_flag; [exact H2|done|]. intros b3. apply wp_bind.
  apply (wp_mono _ (fun _ w' => checking o w w')).
  { apply wp_if; intros Hb; [|by apply wp_ret]. apply wp_bind. unfold RDM_POS_LENGTH.
    eapply checking_load; [exact H2|done|lia|]. intros x Hx. cbv zeta. apply wp_bind.
    unfold octet in Hx. rewrite u16_small by lia.
    eapply checking_expected; [exact H2|lia|]. intros w3 H3. by eapply checking_timers. }
  intros _ w3 H3. apply wp_bind. eapply checking_flag; [exact H3|done|]. intros b4.
  apply wp_if; intros Hb; [|by apply wp_ret, HQ']. destruct H3 as [Hc3 Hh3].
  apply wp_bind. eapply wp_the_frame; [exact Hh3|done|]. intros f Hf Hw _.
  destruct (is_disc_total DISCOVERY_COMMAND 12 f Hw) as [b Eb].
  apply wp_bind. eapply wp_done; [unfold lift_outcome, dmx512frame_is_rdm_discover; by rewrite Eb|].
  destruct b; [|by apply wp_ret, HQ']. eapply (checking_flags o w w3); [by split|done|by eexists|done].
Qed.

(** ** Reading into the frame *)

(** What the UART gives for a count, which it takes as a [size_t]. *)
Definition octets_read (n : Z) (u : U) : list Z := (uart_read_chars (u64 n) u).1.
Lemma octets_read_small n u : 0 <= n < 2 ^ 64 -> octets_read n u = (uart_read_chars n u).1.
Proof. intros Hn. unfold octets_read. by rewrite u64_small by lia. Qed.
Lemma octets_read_count n u : 0 <= n < 2 ^ 64 -> Z.of_nat (length (octets_read n u)) <= n.
Proof. intros Hn. rewrite octets_read_small by done. pose proof (read_chars_count n u). lia. Qed.

(** Octets that fit behind [off] are put there. *)
Lemma read_chars_fits o e off n (Q : Z -> world U -> Prop) w :
  holds [] o w -> e ∈ o -> 0 <= off -> off + Z.of_nat (length (octets_read n (w_uart w))) <= 513 ->
  (forall f vs u d, w_frames w !! e = Some f -> uart_read_chars (u64 n) (w_uart w) = (vs, u) -> octets_read n (w_uart w) = vs ->
     off + Z.of_nat (length vs) <= 513 -> frame_wf (with_data d f) ->
     (forall j, 0 <= j < 513 -> slot (with_data d f) j =
        if (off <=? j) && (j <? off + Z.of_nat (length vs)) then default 0 (vs !! Z.to_nat (j - off)) else slot f j) ->
     let w' := World (w_port w) u (<[e := with_data d f]> (w_frames w)) (w_pool w) (w_received w) in
     holds [] o w' -> Q (Z.of_nat (length vs)) w') ->
  wp (rtuart_read_chars (At e off) n) Q w.
Proof.
  intros Hh He Ho Hoff HQ. unfold rtuart_read_chars. apply wp_bind, wp_ask_uart.
  intros vs u E. pose proof (read_chars_octets (u64 n) (w_uart w)) as Hoct. unfold octets_read in Hoff, HQ.
  rewrite E in Hoct, Hoff, HQ. cbn in Hoct, Hoff, HQ. set (w1 := World _ _ _ _ _).
  assert (holds [] o w1) as Hh1 by by eapply holds_same.
  assert (wp (edit_frame e (fun f => d ← store_all off vs (f_data f); Done (with_data d f)))
    (fun _ w' => wp (mret (Z.of_nat (length vs))) Q w') w1) as Hedit.
  { eapply wp_edit_frame; [exact Hh1|done|]. intros f Hf Hw Hp.
    destruct (store_all_spec f off vs Hw) as (d & Ed & Hwd & _ & Hd); [lia|lia|done|].
    exists (with_data d f). rewrite Ed. split; [done|]. split; [done|]. split; [done|]. split; [by left|]. intros Hh2.
    apply wp_ret. eapply (HQ f vs u d); try done; lia. }
  apply wp_bind. destruct vs as [|v vs]; [|exact Hedit].
  cbn [ptr_store_all]. apply wp_ret. destruct (h_good _ _ _ Hh e He) as (f & Hf & Hw & Hp).
  assert (with_data (f_data f) f = f) as Hid by by destruct f.
  pose proof (HQ f [] u (f_data f) Hf eq_refl eq_refl) as Hgo. rewrite Hid, (insert_id (w_frames w)) in Hgo by done.
  apply Hgo; [done|done| |done]. intros j Hj. destruct (Z.leb_spec off j), (Z.ltb_spec j (off + Z.of_nat (length (@nil Z)))); cbn in *; done || lia.
Qed.

(** Octets that do not fit are written behind the frame. *)
Lemma store_all_overruns (vs l : list Z) i :
  0 <= i <= Z.of_nat (length l) -> Z.of_nat (length l) < i + Z.of_nat (length vs) -> store_all i vs l = Fault OutOfBounds.
Proof.
  revert i l. induction vs as [|v vs IH]; intros i l Hi Hl; cbn [store_all length] in *; [lia|]. unfold store at 1.
  rewrite (proj2 (Z.leb_le 0 i)) by lia. destruct (Z.ltb_spec i (Z.of_nat (length l))); cbn; [|done].
  apply IH; rewrite length_insert; lia.
Qed.
Lemma read_chars_overruns o e off n w :
  holds [] o w -> e ∈ o -> 0 <= off <= 513 -> 513 < off + Z.of_nat (length (octets_read n (w_uart w))) ->
  rtuart_read_chars (At e off) n w = Fault OutOfBounds.
Proof.
  intros Hh He Ho Hl. unfold octets_read in Hl. unfold rtuart_read_chars, ask_uart, mbind, prog_bind.
  destruct (uart_read_chars (u64 n) (w_uart w)) as [[|v vs] u] eqn:E; [cbn in Hl; lia|]. cbn [fst] in Hl.
  destruct (h_good _ _ _ Hh e He) as (f & Hf & [Hlen _] & _). unfold DATA_SIZE in Hlen. cbn -[store_all].
  unfold edit_frame, the_frame, get_state, lift_outcome, live, mbind, prog_bind, outcome_bind. cbn -[store_all]. rewrite Hf. cbn -[store_all].
  by rewrite store_all_overruns by lia.
Qed.

Lemma deliver_received_spec o e w :
  holds [] o w -> rx_frame (w_port w) = Some e -> 0 <= rx_count (w_port w) <= 513 ->
  wp deliver_received (fun _ w' => client_inv o w' /\ up_state (w_port w') = IDLE /\
    rx_frame (w_port w') = None /\ tx_frame (w_port w') = None /\
    w_received w' = w_received w ++ [e] /\ w_pool w' = w_pool w ++ opt (tx_frame (w_port w)) /\
    w_frames w' = partial_alter (fmap (with_payload_size (u16 (rx_count (w_port w) - 1)))) e (w_frames w)) w.
Proof.
  intros Hh He Hc. unfold deliver_received. apply wp_bind, wp_the_port, wp_bind.
  apply (wp_mono _ (fun _ w' => exists a us c, w' = port_is (set_timer a us c (w_port w)) w)).
  { destruct (tx_frame (w_port w)) as [t|] eqn:Ht.
    - apply wp_bind. eapply wp_the_frame; [exact Hh|by eapply tx_owned|]. intros f _ _ _. apply wp_when; intros _.
      + apply stop_timer_spec. by eauto.
      + exists (tm_active (w_port w)), (tm_us (w_port w)), (tm_call (w_port w)). by destruct w as [[] ? ? ? ?].
    - apply wp_ret. exists (tm_active (w_port w)), (tm_us (w_port w)), (tm_call (w_port w)). by destruct w as [[] ? ? ? ?]. }
  intros _ w0 (a & us & c & ->). set (w0 := port_is _ w). assert (holds [] o w0) as Hh0 by by eapply holds_same.
  apply wp_bind. eapply checkout_tx_spec; [exact Hh0|]. intros w1 Hh1 Hp1 Hf1 Hr1 Hl1 Hu1.
  apply wp_bind. eapply put_frame_spec; [exact Hh1|]. intros w2 Hh2 Hp2 Hf2 Hr2 Hl2 Hu2.
  assert (rx_frame (w_port w2) = Some e /\ rx_count (w_port w2) = rx_count (w_port w) /\ tx_frame (w_port w2) = None) as (E1 & E2 & E3).
  { rewrite Hp2, Hp1. cbn. by destruct (tx_frame (w_port w)) eqn:Ht. }
  apply wp_bind. eapply checkout_rx_spec; [exact Hh2|by rewrite E1, E2|]. rewrite E1, E2.
  intros w3 l Hh3 Hl3 Hp3 Hf3 Hr3 Hpl3 Hu3. apply wp_bind. eapply received_frame_spec; [exact Hh3|].
  intros w4 Hh4 Hp4 Hf4 Hr4 Hpl4 Hu4. unfold next_state. apply wp_with_port. cbn.
  assert (tx_frame (w_port w4) = None /\ rx_frame (w_port w4) = None) as [E4 E5] by by rewrite Hp4, Hp3.
  split_and!; try (rewrite ?Hp4, ?Hp3; done).
  - split_and!; [by eapply holds_same|unfold rx_ok; cbn; by rewrite E5|unfold tx_ok; cbn; by rewrite E4|by apply disc_ok_none].
  - by rewrite Hr4, Hr3, Hr2, Hr1.
  - by rewrite Hpl4, Hpl3, Hl2, Hl1.
  - by rewrite Hf4, Hf3, Hf2, Hf1.
Qed.

(** The first [n] octets of a frame. *)
Definition octets (n : Z) (f : dmx512frame) : list Z := (fun k => slot f (Z.of_nat k)) <$> seq 0 (Z.to_nat n).

Lemma octets_app c vs f f' :
  0 <= c -> c + Z.of_nat (length vs) <= 513 ->
  (forall j, 0 <= j < 513 -> slot f' j =
     if (c <=? j) && (j <? c + Z.of_nat (length vs)) then default 0 (vs !! Z.to_nat (j - c)) else slot f j) ->
  octets (c + Z.of_nat (length vs)) f' = octets c f ++ vs.
Proof.
  intros Hc Hn Hs. unfold octets. replace (Z.to_nat (c + _)) with (Z.to_nat c + length vs)%nat by lia.
  apply list_eq. intros i. destruct (decide (i < Z.to_nat c + length vs)%nat) as [Hi|Hi].
  - rewrite list_lookup_fmap, lookup_seq_lt by done. cbn. rewrite Hs by lia. rewrite lookup_app, list_lookup_fmap.
    destruct (decide (i < Z.to_nat c)%nat) as [Hlt|Hge].
    + rewrite lookup_seq_lt by done. cbn. by rewrite (proj2 (Z.leb_gt _ _)) by lia.
    + rewrite lookup_seq_ge by lia. cbn. rewrite (proj2 (Z.leb_le _ _)), (proj2 (Z.ltb_lt _ _)) by lia. cbn [andb].
      rewrite length_fmap, length_seq. replace (Z.to_nat (Z.of_nat i - c)) with (i - Z.to_nat c)%nat by lia.
      destruct (lookup_lt_is_Some_2 vs (i - Z.to_nat c)) as [v ->]; [lia|done].
  - rewrite (proj2 (lookup_ge_None _ _)), (proj2 (lookup_ge_None _ _)); [done|..].
    + rewrite length_app, length_fmap, length_seq. lia.
    + rewrite length_fmap, length_seq. lia.
Qed.
Lemma octets_ext n f f' : (forall j, 0 <= j < n -> slot f j = slot f' j) -> octets n f = octets n f'.
Proof. intros Hs. unfold octets. apply list_fmap_ext. intros k ? Hk%lookup_seq. apply Hs. lia. Qed.

(** What a callback that read the octets [vs] did to the reception of frame
    [e] of which at most [max] octets are wanted. *)
Definition took (e : nat) (max : Z) (vs : list Z) w w' : Prop :=
  let c := rx_count (w_port w) + Z.of_nat (length vs) in
  exists f f', w_frames w !! e = Some f /\ w_frames w' !! e = Some f' /\
    octets c f' = octets (rx_count (w_port w)) f ++ vs /\
    if (0 <? Z.of_nat (length vs)) && (max <=? c) then
      f_payload_size f' = c - 1 /\ up_state (w_port w') = IDLE /\ rx_frame (w_port w') = None /\
      tx_frame (w_port w') = None /\ w_received w' = w_received w ++ [e] /\ w_pool w' = w_pool w ++ opt (tx_frame (w_port w))
    else
      up_state (w_port w') = up_state (w_port w) /\ rx_frame (w_port w') = Some e /\ rx_count (w_port w') = c /\
      w_received w' = w_received w /\ w_pool w' = w_pool w.

Lemma receive_frame_data_spec o e count max n w :
  holds [] o w -> tx_ok (w_port w) -> rx_frame (w_port w) = Some e ->
  receiving (up_state (w_port w)) = true -> disc_state (up_state (w_port w)) = false ->
  rx_data (w_port w) = At e (rx_count (w_port w)) -> 0 <= rx_count (w_port w) ->
  rx_count (w_port w) + Z.of_nat (length (octets_read n (w_uart w))) <= 513 ->
  wp (receive_frame_data timer count max n)
    (fun _ w' => client_inv o w' /\ took e max (octets_read n (w_uart w)) w w') w.
Proof.
  intros Hh Htx He Hst Hds Hd Hc Hcn. unfold receive_frame_data. apply wp_bind, wp_the_port. rewrite Hd.
  assert (e ∈ o) as Hin by by eapply rx_owned.
  apply wp_bind. eapply read_chars_fits; [exact Hh|done..|].
  intros f vs u d Hf E Er Hlen Hwd Hs w1 Hh1. rewrite Er in Hcn |- *. set (c := rx_count (w_port w) + Z.of_nat (length vs)).
  assert (octets c (with_data d f) = octets (rx_count (w_port w)) f ++ vs) as Hoct by (apply octets_app; [lia|lia|done]).
  apply wp_bind. apply (wp_mono _ (fun _ w' => client_inv o w' /\ took e max vs w w')).
  2: { intros _ w2 [HI Ht]. apply wp_when; intros _; [|by split]. apply wp_with_uart. destruct HI as (? & ? & ? & ?).
       split; [split_and!; [by eapply holds_same|done|done|done]|exact Ht]. }
  apply wp_when; intros Hpos; [apply Z.ltb_lt in Hpos|].
  2: { split; [split_and!; [done| |done|by apply disc_ok_frame]|].
       - unfold rx_ok. cbn. unfold rx_base. rewrite He, Hds. split_and!; [done|done|done|lia|done].
       - exists f, (with_data d f). cbn. rewrite lookup_insert_eq, Hpos. cbn [andb]. apply Z.ltb_ge in Hpos.
         split_and!; try done. unfold c. lia. }
  apply wp_bind. eapply (check_received_spec o w1 e); [done|done|done|done|done|cbn; lia|].
  intros w2 Hc2 Hh2. apply wp_bind, wp_with_port, wp_bind, wp_the_port. cbn [w_port rx_count rx_frame set_rx ptr_add].
  assert (rx_frame (w_port w2) = Some e) as He2 by (rewrite (c_rx _ _ Hc2); done).
  assert (rx_count (w_port w2) = rx_count (w_port w)) as Hcnt by (rewrite (c_count _ _ Hc2); done).
  rewrite He2, Hcnt, u64_small, bool_decide_eq_true_2, andb_true_r by (lia || by eauto). fold c.
  pose proof (c_frames _ _ Hc2 e) as Hfx. cbn in Hfx. rewrite lookup_insert_eq in Hfx.
  inversion Hfx as [f0 f2 [fg ->] E0 Hf2|]; subst f0. symmetry in Hf2. clear Hfx.
  set (w3 := World _ _ _ _ _). assert (holds [] o w3) as Hh3.
  { eapply holds_same; [exact Hh2|..]; try done. unfold owned. cbn. by rewrite He2. }
  apply wp_if; intros Hmax.
  - assert (0 <= rx_count (w_port w3) <= 513) as Hc3 by (cbn; lia).
    eapply (wp_mono _ _ _ _ (deliver_received_spec o e w3 Hh3 eq_refl Hc3)).
    intros _ w4 (HI & Hs4 & Hr4 & Ht4 & Hrec & Hpool & Hfr). split; [done|].
    exists f. eexists. split; [done|]. split; [rewrite Hfr; cbn; rewrite lookup_partial_alter_eq, Hf2; done|].
    split; [exact Hoct|]. fold c. rewrite (proj2 (Z.ltb_lt 0 _)), Hmax by done. cbn [andb].
    split_and!; try done.
    + cbn. rewrite u16_small by lia. lia.
    + rewrite Hrec. cbn. by rewrite (c_received _ _ Hc2).
    + rewrite Hpool. cbn. by rewrite (c_pool _ _ Hc2), (c_tx _ _ Hc2).
  - apply wp_with_uart. cbn [w_port w_uart w_frames w_pool w_received]. split; [split_and!|].
    + by eapply holds_same.
    + unfold rx_ok, rx_base. cbn. rewrite (c_state _ _ Hc2). cbn. rewrite Hds. split_and!; [done|done|lia|lia|done].
    + unfold tx_ok in *. cbn. by rewrite (c_tx _ _ Hc2), (c_ptr _ _ Hc2), (c_remain _ _ Hc2).
    + apply disc_ok_frame. cbn. by rewrite (c_state _ _ Hc2).
    + exists f, (with_flags fg (with_data d f)). fold c. rewrite Hmax, andb_false_r. cbn.
      split_and!; try done; [by rewrite (c_state _ _ Hc2)|by rewrite (c_received _ _ Hc2)|by rewrite (c_pool _ _ Hc2)].
Qed.

(** ** Discovery replies *)

Lemma holds_idle o w : holds [] o w -> rx_frame (w_port w) = None -> tx_frame (w_port w) = None -> client_inv o w.
Proof. intros Hh Hr Ht. split_and!; [done|unfold rx_ok; by rewrite Hr|unfold tx_ok; by rewrite Ht|by apply disc_ok_none]. Qed.

Lemma fl_not_tx e fl o w : holds (e :: fl) o w -> tx_frame (w_port w) <> Some e.
Proof.
  intros Hh Ht. pose proof (h_nodup _ _ _ Hh) as Hnd. rewrite <- (h_owned _ _ _ Hh) in Hnd. unfold owned in Hnd.
  rewrite Ht in Hnd. cbn in Hnd. apply NoDup_cons in Hnd as [Hnd _]. apply Hnd. rewrite !elem_of_app. cbn. set_solver.
Qed.

Lemma complete_discovery_safe o e t w :
  holds [] o w -> rx_frame (w_port w) = Some e -> tx_frame (w_port w) = Some t ->
  0 <= rx_count (w_port w) <= 257 ->
  (forall f, w_frames w !! e = Some f -> exists k, preamble f k /\ Z.of_nat k + 17 <= rx_count (w_port w)) ->
  wp complete_discovery (fun _ w' => client_inv o w' /\ rx_frame (w_port w') = None) w.
Proof.
  intros Hh He Ht Hc Hpre. unfold complete_discovery. apply wp_bind, stop_timer_spec. intros a us c.
  set (w0 := port_is _ w). assert (holds [] o w0) as Hh0 by by eapply holds_same.
  apply wp_bind. eapply checkout_rx_spec; [exact Hh0|cbn; lia|]. cbn [w_port port_is set_timer w0 rx_frame rx_count]. rewrite He.
  intros w1 l Hh1 Hl Hp1 Hf1 _ _ _. cbn [opt app] in Hh1. cbn in Hp1.
  assert (tx_frame (w_port w1) = Some t /\ rx_frame (w_port w1) = None) as [Ht1 Hr1] by (rewrite Hp1; done).
  apply wp_bind. apply (wp_mono _ (fun _ w' => holds [] o w' /\ tx_frame (w_port w') = None /\ rx_frame (w_port w') = None)).
  2: { intros _ w2 (Hh2 & Ht2 & Hr2). unfold next_state. apply wp_with_port. cbn [w_port set_state rx_frame].
       split; [|done]. apply holds_idle; [eapply holds_same; [exact Hh2|done..]|done|done]. }
  assert (e ∈ o) as Hin by exact (rx_owned _ _ _ _ Hh He).
  apply wp_bind. eapply wp_the_frame; [exact Hh1|done|]. intros f Hf Hw _.
  rewrite Hf1 in Hf. cbn in Hf. rewrite lookup_partial_alter_eq in Hf.
  destruct (w_frames w !! e) as [f0|] eqn:Ef0; [|done]. injection Hf as <-.
  destruct (Hpre f0) as (k & Hk & Hlen); [done|].
  destruct (complete_reply_total (with_payload_size (u16 (rx_count (w_port w) - 1)) f0) k) as (err & g & E & Hwg & Hpg);
    [done|done|cbn; rewrite u16_small by lia; lia|].
  apply wp_bind. eapply wp_done; [unfold lift_outcome; by rewrite E|]. cbv beta iota.
  apply wp_bind. unfold put_contents. apply wp_modify. fold (set_contents e g w1).
  assert (holds [e] o (set_contents e g w1)) as Hh2.
  { apply holds_contents; [done|done|done|]. intros Hte. by apply fl_not_tx in Hh1. }
  apply wp_if; intros _.
  - apply wp_bind. eapply (reply_with_spec [e] o _ _ _ t); [exact Hh2|apply discovery_reply_prog; unfold octet; lia|done|].
    intros w3 f3 f3' Hh3 Hp3 _ _ _ _ _. eapply (put_frame_spec [] o (Some e)); [exact Hh3|]. intros w4 Hh4 Hp4 _ _ _ _.
    rewrite Hp4, Hp3. split_and!; [done|done|]. exact Hr1.
  - apply wp_bind. eapply checkout_tx_spec; [exact Hh2|]. cbn [set_contents w_port]. rewrite Ht1.
    intros w3 Hh3 Hp3 _ _ _ _. apply wp_bind. eapply (put_frame_spec [e] o (Some t)); [exact Hh3|]. intros w4 Hh4 Hp4 _ _ _ _.
    eapply received_frame_spec; [exact Hh4|]. intros w5 Hh5 Hp5 _ _ _ _. rewrite Hp5, Hp4, Hp3. by split_and!.
Qed.

(** The state after [check_preamble]: the reply was a collision and is
    settled, or the reception goes on in one of the discovery states. *)
Lemma check_preamble_spec o e t (n : nat) w :
  holds [] o w -> rx_frame (w_port w) = Some e -> tx_frame (w_port w) = Some t ->
  up_state (w_port w) = RDMDISC_RECV_PREAMBLE -> rx_data (w_port w) = At e (256 + rx_count (w_port w)) ->
  0 <= rx_count (w_port w) -> 256 + rx_count (w_port w) + Z.of_nat n <= 513 ->
  wp (check_preamble (Z.of_nat n)) (fun _ w' => holds [] o w' /\
    ((rx_frame (w_port w') = None /\ tx_frame (w_port w') = None /\ up_state (w_port w') = IDLE) \/
     (w' = w /\ forall f, w_frames w !! e = Some f -> forall j, 256 + rx_count (w_port w) <= j < 256 + rx_count (w_port w) + Z.of_nat n -> slot f j = 0xFE) \/
     exists k : nat, (k < n)%nat /\
       w' = port_is (set_state RDMDISC_RECV_DATA (set_expected (rx_count (w_port w) + Z.of_nat k + 16) (w_port w))) w /\
       forall f, w_frames w !! e = Some f ->
         (forall j, 256 + rx_count (w_port w) <= j < 256 + rx_count (w_port w) + Z.of_nat k -> slot f j = 0xFE) /\
         slot f (256 + rx_count (w_port w) + Z.of_nat k) = 0xAA)) w.
Proof.
  intros Hh He Ht Hs Hd Hc Hn. unfold check_preamble. assert (e ∈ o) as Hin by by eapply rx_owned.
  apply wp_bind, wp_the_port. rewrite Hd. apply wp_bind. eapply wp_the_frame; [exact Hh|done|]. intros f Hf Hw _.
  destruct (find_preamble_result f (256 + rx_count (w_port w)) n Hw) as (r & E & Hr); [lia|lia|].
  apply wp_bind. eapply wp_done; [unfold lift_outcome; by rewrite E|].
  destruct Hr as [-> | [[-> Hfe] | (k & -> & Hk & Hfe & Haa)]].
  - cbn [Z.eqb Z.opp Pos.eqb]. apply wp_bind, stop_timer_spec. intros a us c.
    set (w0 := port_is _ w). assert (holds [] o w0) as Hh0 by by eapply holds_same.
    apply wp_bind. eapply checkout_rx_spec; [exact Hh0|cbn; lia|]. cbn [w_port port_is set_timer w0 rx_frame rx_count]. rewrite He.
    intros w1 l Hh1 Hl Hp1 _ _ _ _. cbn in Hp1. apply wp_bind. eapply (put_frame_spec [] o (Some e)); [exact Hh1|].
    intros w2 Hh2 Hp2 _ _ _ _. apply wp_bind.
    eapply (reply_with_spec [] o _ _ _ t); [exact Hh2|apply discovery_reply_prog; unfold octet; lia|by rewrite Hp2, Hp1|].
    intros w3 f3 f3' Hh3 Hp3 _ _ _ _ _. unfold next_state. apply wp_with_port. split; [eapply holds_same; [exact Hh3|done..]|]. left.
    cbn. by rewrite Hp3, Hp2, Hp1.
  - cbn [Z.eqb Z.opp Pos.eqb]. change (-1 <? -1) with false. apply wp_ret. split; [done|]. right. left. split; [done|].
    intros f' Hf'. rewrite Hf in Hf'. by injection Hf' as <-.
  - rewrite (proj2 (Z.eqb_neq _ _)), (proj2 (Z.ltb_lt _ _)) by lia. apply wp_bind, wp_with_port. rewrite u16_small by lia.
    unfold next_state. apply wp_with_port. split.
    + destruct Hh. split; try done. cbn. lia.
    + right. right. exists k. split; [done|]. split; [done|]. intros f' Hf'. rewrite Hf in Hf'. by injection Hf' as <-.
Qed.

Lemma preamble_ext f f' k :
  (forall j, 256 <= j <= 256 + Z.of_nat k -> slot f' j = slot f j) -> preamble f k -> preamble f' k.
Proof. intros Hs [Hfe Haa]. split; [intros j Hj; rewrite Hs by lia; by apply Hfe|by rewrite Hs by lia]. Qed.

(** After the octets were counted: the reply is complete or goes on. *)
Lemma discovery_goes_on o e t w :
  holds [] o w -> tx_ok (w_port w) -> rx_frame (w_port w) = Some e -> tx_frame (w_port w) = Some t ->
  disc_state (up_state (w_port w)) = true -> rx_data (w_port w) = At e (256 + rx_count (w_port w)) ->
  0 <= rx_count (w_port w) <= 257 -> disc_ok w ->
  wp (q ← get_port;
      if decide (up_state q = RDMDISC_RECV_DATA) then
        if (rx_expected q + 1 <=? rx_count q) && bool_decide (is_Some (rx_frame q)) then complete_discovery
        else with_uart (uart_enable_notification UART_NOTIFY_RXAVAILABLE)
      else with_uart (uart_enable_notification UART_NOTIFY_RXAVAILABLE))
    (fun _ w' => client_inv o w') w.
Proof.
  intros Hh Htx He Ht Hs Hd Hc Hdc. apply wp_bind, wp_the_port.
  assert (wp (with_uart (uart_enable_notification UART_NOTIFY_RXAVAILABLE)) (fun _ w' => client_inv o w') w) as Hgo.
  { apply wp_with_uart. split_and!; [by eapply holds_same| |done|exact Hdc].
    unfold rx_ok, rx_base. cbn. rewrite He, Hs. split_and!; [by destruct (up_state (w_port w))|done|lia|lia|]. intros _. by eauto. }
  destruct (decide _) as [Hst|]; [|done]. apply wp_if; intros Hmax; [|done].
  apply andb_prop in Hmax as [Hmax%Z.leb_le _].
  eapply (wp_mono _ (fun _ w' => client_inv o w' /\ rx_frame (w_port w') = None)); [|by intros ? ? []].
  eapply complete_discovery_safe; [done..|]. intros f Hf. specialize (Hdc e f He Hf). rewrite Hst in Hdc. destruct Hdc as (k & Hk & _ & Hx). exists k. split; [done|]. lia.
Qed.

Lemma receive_discovery_safe o e t count w :
  holds [] o w -> tx_ok (w_port w) -> rx_frame (w_port w) = Some e -> tx_frame (w_port w) = Some t ->
  disc_state (up_state (w_port w)) = true -> rx_data (w_port w) = At e (256 + rx_count (w_port w)) ->
  0 <= rx_count (w_port w) -> 256 + rx_count (w_port w) + Z.of_nat (length (octets_read count (w_uart w))) <= 513 -> disc_ok w ->
  wp (receive_discovery_data count) (fun _ w' => client_inv o w') w.
Proof.
  intros Hh Htx He Ht Hs Hd Hc Hcn Hdc. unfold receive_discovery_data. apply wp_bind, wp_the_port. rewrite Hd.
  assert (e ∈ o) as Hin by by exact (rx_owned _ _ _ _ Hh He).
  apply wp_bind. eapply read_chars_fits; [exact Hh|done|lia|lia|].
  intros f vs u d Hf _ Er Hlen Hwd Hsl w1 Hh1. apply wp_when; intros Hpos; [apply Z.ltb_lt in Hpos|].
  2: { apply Z.ltb_ge in Hpos. split_and!; [done| |exact Htx|].
       - unfold rx_ok, rx_base. cbn. rewrite He, Hs. split_and!; [by destruct (up_state (w_port w))|done|lia|lia|]. intros _. by eauto.
       - intros e' f' He' Hf'. cbn in He', Hf' |- *. rewrite He in He'. injection He' as <-.
         rewrite lookup_insert_eq in Hf'. injection Hf' as <-. specialize (Hdc e f He Hf).
         assert (forall j, 0 <= j < 513 -> slot (with_data d f) j = slot f j) as Hsame.
         { intros j Hj. rewrite Hsl by done. by destruct (Z.leb_spec (256 + rx_count (w_port w)) j), (Z.ltb_spec j (256 + rx_count (w_port w) + Z.of_nat (length vs))); try lia. }
         destruct (up_state (w_port w)); try done.
         + intros j Hj. rewrite Hsame by lia. by apply Hdc.
         + destruct Hdc as (k & Hk & Hkc & Hx). exists k. split; [|done]. eapply preamble_ext; [|exact Hk]. intros j Hj. apply Hsame. lia. }
  assert (forall j, 0 <= j < 256 + rx_count (w_port w) -> slot (with_data d f) j = slot f j) as Hold.
  { intros j Hj. rewrite Hsl by lia. by rewrite (proj2 (Z.leb_gt _ _)) by lia. }
  apply wp_bind, wp_the_port. cbn [w_port w1].
  assert (forall w2, holds [] o w2 -> w_frames w2 = w_frames w1 -> rx_frame (w_port w2) = Some e -> tx_frame (w_port w2) = Some t ->
    disc_state (up_state (w_port w2)) = true -> rx_data (w_port w2) = At e (256 + rx_count (w_port w)) ->
    rx_count (w_port w2) = rx_count (w_port w) -> tx_ok (w_port w2) ->
    match up_state (w_port w2) with
    | RDMDISC_RECV_PREAMBLE => forall j, 256 <= j < 256 + rx_count (w_port w) + Z.of_nat (length vs) -> slot (with_data d f) j = 0xFE
    | RDMDISC_RECV_DATA => exists k : nat, preamble (with_data d f) k /\ Z.of_nat k < rx_count (w_port w) + Z.of_nat (length vs) /\
        rx_expected (w_port w2) = Z.of_nat k + 16
    | _ => True end ->
    wp (with_port (fun q => set_rx (rx_frame q) (ptr_add (rx_data q) (Z.of_nat (length vs))) (u64 (rx_count q + Z.of_nat (length vs))) q) ;;
      (q ← get_port;
      if decide (up_state q = RDMDISC_RECV_DATA) then
        if (rx_expected q + 1 <=? rx_count q) && bool_decide (is_Some (rx_frame q)) then complete_discovery
        else with_uart (uart_enable_notification UART_NOTIFY_RXAVAILABLE)
      else with_uart (uart_enable_notification UART_NOTIFY_RXAVAILABLE))) (fun _ w' => client_inv o w') w2) as Htail.
  { intros w2 Hh2 Hf2 He2 Ht2 Hs2 Hd2 Hc2 Htx2 Hdc2. apply wp_bind, wp_with_port. rewrite He2, Hd2, Hc2, u64_small by lia.
    apply (discovery_goes_on o e t).
    - eapply holds_same; [exact Hh2|..]; try done. unfold owned. cbn. by rewrite He2.
    - exact Htx2.
    - done.
    - done.
    - done.
    - cbn. f_equal. lia.
    - cbn. lia.
    - intros e' f' He' Hf'. cbn in *. injection He' as <-. rewrite Hf2 in Hf'. unfold w1 in Hf'. cbn in Hf'.
      rewrite lookup_insert_eq in Hf'. injection Hf' as <-. destruct (up_state (w_port w2)); try done.
      intros j Hj. apply Hdc2. lia. }
  specialize (Hdc e f He Hf). apply wp_bind, wp_when; intros Hst.
  - apply bool_decide_eq_true in Hst. rewrite Hst in Hdc.
    assert (256 + rx_count (w_port w1) + Z.of_nat (length vs) <= 513) as Hfit by (cbn; lia).
    eapply (wp_mono _ _ _ _ (check_preamble_spec o e t (length vs) w1 Hh1 He Ht Hst Hd Hc Hfit)).
    intros _ w2 (Hh2 & [(Hr2 & Ht2 & Hs2) | [[-> Hfe] | (k & Hk & -> & Hfe)]]).
    + apply wp_bind, wp_with_port. rewrite Hr2. apply wp_bind, wp_the_port. cbn [w_port up_state set_rx]. rewrite Hs2.
      rewrite decide_False by done. apply wp_with_uart.
      apply holds_idle; [|done|done]. eapply holds_same; [exact Hh2|..]; try done. unfold owned. cbn. by rewrite Hr2.
    + apply Htail; try done. cbn. rewrite Hst. intros j Hj.
      destruct (decide (j < 256 + rx_count (w_port w))); [rewrite Hold by lia; apply Hdc; lia|].
      apply (Hfe (with_data d f)); [cbn; by rewrite lookup_insert_eq|cbn; lia].
    + destruct (Hfe (with_data d f)) as [Hfe1 Haa]; [cbn; by rewrite lookup_insert_eq|]. cbn in Hfe1, Haa.
      apply Htail; try done. cbn. exists (Z.to_nat (rx_count (w_port w)) + k)%nat. split_and!; [|lia|lia]. split.
      * intros j Hj. destruct (decide (j < 256 + rx_count (w_port w))); [rewrite Hold by lia; apply Hdc; lia|]. apply Hfe1. lia.
      * replace (256 + Z.of_nat (Z.to_nat (rx_count (w_port w)) + k)) with (256 + rx_count (w_port w) + Z.of_nat k) by lia. done.
  - apply Htail; try done. cbn. apply bool_decide_eq_false in Hst. destruct (up_state (w_port w)); try done.
    destruct Hdc as (k & Hk & Hkc & Hx). exists k. split; [|split; [lia|done]]. eapply preamble_ext; [|exact Hk]. intros j Hj. apply Hold. lia.
Qed.

(** ** The callback *)

(** The number of octets that the callback is told of. *)
Definition announced (_count : Z) : Z := if _count =? -1 then 1 else _count.

(** The octets that the UART gives for one callback fit into the frame; a
    discovery reply is received from octet 256 on.  The code does not check it. *)
Definition fits (_count : Z) w : bool :=
  match rx_frame (w_port w) with
  | None => true
  | Some _ =>
      if disc_state (up_state (w_port w))
      then 256 + rx_count (w_port w) + Z.of_nat (length (octets_read (announced _count) (w_uart w))) <=? 513
      else rx_count (w_port w) + Z.of_nat (length (octets_read (toread (w_port w) (announced _count)) (w_uart w))) <=? 513
  end.

Lemma toread_bounds p count :
  0 < count < 2 ^ 31 -> 0 <= rx_count p -> 0 <= rx_expected p <= 512 -> rx_count p <= rx_expected p + 1 ->
  0 <= toread p count /\ rx_count p + toread p count <= max_size p.
Proof.
  intros Hn Hc He Hm. unfold toread, max_size in *. rewrite !u64_small by lia.
  destruct (Z.ltb_spec (rx_count p + count) (rx_expected p + 1)); [lia|]. rewrite i32_small by lia. lia.
Qed.

(** Octets for a DMX512 or RDM frame. *)
Lemma receiver_frame_spec o e count w :
  client_inv o w -> fits count w = true -> rx_frame (w_port w) = Some e -> disc_state (up_state (w_port w)) = false ->
  wp (dmx512rtuart_receiver_data_available timer count)
    (fun _ w' => client_inv o w' /\
      took e (max_size (w_port w)) (octets_read (toread (w_port w) (announced count)) (w_uart w))
        (if bool_decide (up_state (w_port w) = EXPECT_STARTCODE) then port_is (set_state RECEIVE_DMXDATA (w_port w)) w else w) w') w.
Proof.
  intros (Hh & Hrx & Htx & Hdc) Hfit He Hd. unfold fits in Hfit. rewrite He, Hd in Hfit. apply Z.leb_le in Hfit.
  unfold rx_ok in Hrx. rewrite He in Hrx. unfold rx_base in Hrx. rewrite Hd in Hrx. destruct Hrx as (Hst & Hdata & Hc0 & Hc1 & _).
  rewrite Z.add_0_l in Hdata.
  unfold dmx512rtuart_receiver_data_available. fold (announced count). apply wp_bind, wp_the_port.
  assert (in_tx_state (up_state (w_port w)) = false) as -> by by destruct (up_state (w_port w)). rewrite He.
  destruct (up_state (w_port w)) eqn:Hs; try done.
  - rewrite bool_decide_eq_true_2 by done. apply wp_bind. unfold next_state. apply wp_with_port.
    apply (receive_frame_data_spec o e _ _ _ (port_is (set_state RECEIVE_DMXDATA (w_port w)) w)); try done. by eapply holds_same.
  - rewrite bool_decide_eq_false_2 by done. apply wp_bind. unfold next_state. apply wp_with_port.
    assert (set_state RECEIVE_DMXDATA (w_port w) = w_port w) as -> by (destruct (w_port w); cbn in *; by subst).
    replace (World _ _ _ _ _) with w by by destruct w.
    apply (receive_frame_data_spec o e _ _ _ w); try done; by rewrite Hs.
  - rewrite bool_decide_eq_false_2 by done. apply (receive_frame_data_spec o e _ _ _ w); try done; by rewrite Hs.
Qed.

Lemma receiver_safe o count w :
  client_inv o w -> fits count w = true ->
  wp (dmx512rtuart_receiver_data_available timer count) (fun _ w' => client_inv o w') w.
Proof.
  intros HI Hfit. pose proof HI as (Hh & Hrx & Htx & Hdc). destruct (rx_frame (w_port w)) as [e|] eqn:He.
  - destruct (disc_state (up_state (w_port w))) eqn:Hd.
    + unfold fits in Hfit. rewrite He, Hd in Hfit. apply Z.leb_le in Hfit.
      unfold rx_ok in Hrx. rewrite He in Hrx. unfold rx_base in Hrx. rewrite Hd in Hrx.
      destruct Hrx as (Hst & Hdata & Hc0 & Hc1 & Ht). destruct (Ht eq_refl) as [t Ht'].
      unfold dmx512rtuart_receiver_data_available. fold (announced count). apply wp_bind, wp_the_port.
      assert (in_tx_state (up_state (w_port w)) = false) as -> by by destruct (up_state (w_port w)). rewrite He.
      destruct (up_state (w_port w)) eqn:Hs; try done.
      * apply wp_bind, stop_timer_spec. intros a us c. apply wp_bind, start_timer_spec. intros a' us' c'.
        set (w1 := port_is _ (port_is _ w)). assert (holds [] o w1) as Hh1 by by eapply holds_same.
        apply (receive_discovery_safe o e t); try done; cbn; rewrite ?Hs; try done; try lia.
      * apply (receive_discovery_safe o e t); try done; rewrite ?Hs; try done; lia.
    + eapply wp_mono; [by apply (receiver_frame_spec o e)|]. by intros ? ? [].
  - unfold dmx512rtuart_receiver_data_available. apply wp_bind, wp_the_port.
    apply wp_if; intros _; [by apply wp_ret|]. rewrite He. apply wp_bind, wp_with_uart. unfold next_state. apply wp_with_port.
    split_and!; [by eapply holds_same|unfold rx_ok; cbn; by rewrite He|exact Htx|by apply disc_ok_none].
Qed.

(** Octets that do not fit are written all the same. *)
Lemma receive_frame_overruns o e count max n w :
  holds [] o w -> rx_frame (w_port w) = Some e -> rx_data (w_port w) = At e (rx_count (w_port w)) -> 0 <= rx_count (w_port w) <= 513 ->
  513 < rx_count (w_port w) + Z.of_nat (length (octets_read n (w_uart w))) ->
  receive_frame_data timer count max n w = Fault OutOfBounds.
Proof.
  intros Hh He Hd Hc Hl. unfold receive_frame_data. rewrite (bind_run _ _ w (w_port w) w) by done. rewrite Hd.
  unfold mbind at 1, prog_bind at 1. by rewrite (read_chars_overruns o) by (done || by eapply rx_owned).
Qed.
Lemma receive_discovery_overruns o e count w :
  holds [] o w -> rx_frame (w_port w) = Some e -> rx_data (w_port w) = At e (256 + rx_count (w_port w)) -> 0 <= 256 + rx_count (w_port w) <= 513 ->
  513 < 256 + rx_count (w_port w) + Z.of_nat (length (octets_read count (w_uart w))) ->
  receive_discovery_data count w = Fault OutOfBounds.
Proof.
  intros Hh He Hd Hc Hl. unfold receive_discovery_data. rewrite (bind_run _ _ w (w_port w) w) by done. rewrite Hd.
  unfold mbind at 1, prog_bind at 1. by rewrite (read_chars_overruns o) by (done || by eapply rx_owned).
Qed.

Lemma receiver_overruns o count w :
  client_inv o w -> fits count w = false -> dmx512rtuart_receiver_data_available timer count w = Fault OutOfBounds.
Proof.
  intros (Hh & Hrx & Htx & Hdc) Hfit. unfold fits in Hfit. destruct (rx_frame (w_port w)) as [e|] eqn:He; [|done].
  unfold rx_ok in Hrx. rewrite He in Hrx. unfold rx_base in Hrx.
  unfold dmx512rtuart_receiver_data_available. fold (announced count). rewrite (bind_run _ _ w (w_port w) w) by done.
  assert (in_tx_state (up_state (w_port w)) = false) as -> by by destruct (up_state (w_port w)), Hrx. rewrite He.
  destruct (disc_state (up_state (w_port w))) eqn:Hd; rewrite ?Hd in Hfit, Hrx; apply Z.leb_gt in Hfit; destruct Hrx as (Hst & Hdata & Hc0 & Hc1 & _); [|rewrite Z.add_0_l in Hdata].
  - destruct (up_state (w_port w)) eqn:Hs; try done; [|apply (receive_discovery_overruns o e); done || lia].
    unfold dmx512rtuart_stop_rdm_timer, dmx512rtuart_start_rdm_timer. unfold mbind, prog_bind. cbn -[receive_discovery_data octets_read].
    apply (receive_discovery_overruns o e); cbn -[octets_read]; repeat case_match; cbn -[octets_read]; first [done|lia|by eapply holds_same].
  - destruct (up_state (w_port w)) eqn:Hs; try done; try (apply (receive_frame_overruns o e); done || lia).
    + rewrite (bind_run _ _ w tt (port_is (set_state RECEIVE_DMXDATA (w_port w)) w)) by done. apply (receive_frame_overruns o e); try done. by eapply holds_same.
    + rewrite (bind_run _ _ w tt (port_is (set_state RECEIVE_DMXDATA (w_port w)) w)) by done. apply (receive_frame_overruns o e); try done. by eapply holds_same.
Qed.
End receive.
