(* ===== verification/ClientContract.v ===== *)
(** * What the UART client promises

    The events that drive the client are steps on its state.  The theorems
    are about whole runs: no run loses a frame, and it fails exactly when
    there are octets for which the frame has no space; a frame that is sent
    is on the line octet by octet; what is received is what the UART gave.
    The last part are the runs in which the client does not do what it means
    to. *)
From stdpp Require Import base countable gmap list.
From S2P Require Import Prelude KList FrameQueue RdmFrame UartClient ClientSafety ClientReceive.

(** ** Events *)

Inductive event :=
  | EvSpace (n : Z)                       (* transmitter_has_space *)
  | EvEmpty                               (* transmitter_empty *)
  | EvReceive (n : Z)                     (* receiver_data_available *)
  | EvModem (values change : Z)           (* modem_input_changed *)
  | EvLine (mask : Z)                     (* line_status_event *)
  | EvTimer                               (* the thread of the RDM timer *)
  | EvPeriodical
  | EvSend (e : nat) (f : dmx512frame)    (* send_frame: the core hands over an entry *)
  | EvSupply (e : nat) (f : dmx512frame)  (* an entry comes into the pool *)
  | EvCollect.                            (* the core takes a received frame *)

Definition frame_wfb (f : dmx512frame) : bool :=
  (length (f_data f) =? DATA_SIZE)%nat && forallb (fun v => (0 <=? v) && (v <? 256)) (f_data f).
Lemma frame_wfb_spec f : frame_wfb f = true <-> frame_wf f.
Proof.
  unfold frame_wfb, frame_wf. rewrite andb_true_iff, Nat.eqb_eq, forallb_forall, Forall_forall.
  split; intros [Hl Hf]; (split; [done|]); intros x Hx; specialize (Hf x).
  - rewrite list_elem_of_In in Hx. specialize (Hf Hx). unfold octet. lia.
  - rewrite <- list_elem_of_In in Hx. specialize (Hf Hx). unfold octet in Hf. lia.
Qed.

Section events.
Context {U : Type} `{UartLaws U} (timer : bool) (spin : nat).
Implicit Types w : world U.

Definition handle (ev : event) : prog (world U) unit :=
  match ev with
  | EvSpace n => dmx512rtuart_transmitter_has_space spin n
  | EvEmpty => dmx512rtuart_transmitter_empty timer
  | EvReceive n => dmx512rtuart_receiver_data_available timer n
  | EvModem v c => dmx512rtuart_modem_input_changed v c
  | EvLine m => dmx512rtuart_line_status_event timer m
  | EvTimer => __posix_timer_thread_handler
  | EvPeriodical => dmx512_rtuart_periodical
  | EvSend e f => put_contents e f ;; dmx512_rtuart_client_send_frame e
  | EvSupply e f => put_contents e f ;; dmx512_put_frame (Some e)
  | EvCollect => modify (fun w => World (w_port w) (w_uart w) (w_frames w) (w_pool w) (tail (w_received w)))
  end.

(** When the environment may raise an event: space is announced to a
    transmitter only, and the entries that are handed over are not in the
    client's hands and hold frames. *)
Definition allowed (ev : event) w : bool :=
  match ev with
  | EvSpace n => in_tx_state (up_state (w_port w)) && ((n =? -1) || ((0 <=? n) && (n <? 2 ^ 31)))
  | EvReceive n => (-1 <=? n) && (n <? 2 ^ 31)
  | EvSend e f => negb (bool_decide (e ∈ owned w)) && frame_wfb f && ((1 <=? f_payload_size f) && (f_payload_size f <=? 512))
  | EvSupply e f => negb (bool_decide (e ∈ owned w)) && frame_wfb f && ((0 <=? f_payload_size f) && (f_payload_size f <? 2 ^ 16))
  | _ => true
  end.

(** The entries the client has after the event, but for order. *)
Definition entries_after (ev : event) w (o : list nat) : list nat :=
  match ev with
  | EvSend e _ | EvSupply e _ => e :: o
  | EvCollect => match w_received w with e :: _ => filter (fun e' => e' <> e) o | [] => o end
  | _ => o
  end.

Fixpoint run (evs : list event) : prog (world U) unit :=
  match evs with
  | [] => mret tt
  | ev :: evs => handle ev ;; run evs
  end.
Fixpoint admissible (evs : list event) w : bool :=
  match evs with
  | [] => true
  | ev :: evs => allowed ev w && match handle ev w with Done (_, w') => admissible evs w' | Fault _ => true end
  end.
(** The entries that the events of a run hand over and take. *)
Fixpoint entries_of (evs : list event) w (o : list nat) : list nat :=
  match evs with
  | [] => o
  | ev :: evs => match handle ev w with Done (_, w') => entries_of evs w' (entries_after ev w o) | Fault _ => o end
  end.

(** Somewhere in the run the UART gives octets for which the frame has no
    space left. *)
Definition overflows (ev : event) w : bool := match ev with EvReceive n => negb (fits n w) | _ => false end.
Fixpoint overruns (evs : list event) w : bool :=
  match evs with
  | [] => false
  | ev :: evs => overflows ev w || match handle ev w with Done (_, w') => overruns evs w' | Fault _ => false end
  end.

Lemma filter_out e l (o : list nat) : NoDup o -> o ≡ₚ e :: l -> filter (fun e' => e' <> e) o ≡ₚ l.
Proof.
  intros Hn Ho. rewrite Ho in *. apply NoDup_cons in Hn as [Hn _]. rewrite filter_cons_False by naive_solver.
  clear Ho. induction l as [|x l IH]; [done|]. rewrite filter_cons_True by set_solver.
  rewrite IH by set_solver. done.
Qed.

Lemma fresh_holds o w e f (p : list nat) :
  client_inv o w -> e ∉ owned w -> frame_wf f -> 0 <= f_payload_size f < 2 ^ 16 ->
  client_inv o (set_contents e f w) /\ e ∉ o.
Proof.
  intros (Hh & Hrx & Htx & Hdc) Hfresh Hf Hp.
  assert (tx_frame (w_port w) <> Some e) as Ht.
  { intros Ht. apply Hfresh. unfold owned. rewrite Ht. set_solver. }
  assert (rx_frame (w_port w) <> Some e) as Hr.
  { intros Hr. apply Hfresh. unfold owned. rewrite Hr. set_solver. }
  split; [|by rewrite <- (h_owned _ _ _ Hh)]. split_and!; [by apply holds_contents|done|done|].
  intros e' f' He' Hf'. cbn in He', Hf'. rewrite lookup_insert_ne in Hf' by congruence. by apply (Hdc e' f').
Qed.

Lemma event_safe ev o w :
  (forall u, drains spin u = true) -> client_inv o w -> allowed ev w = true -> overflows ev w = false ->
  wp (handle ev) (fun _ w' => client_inv (entries_after ev w o) w') w.
Proof.
  intros Hspin HI Hal Hfit. destruct ev as [n| |n|v c|m| | |e f|e f|]; cbn [handle allowed entries_after] in *.
  - apply andb_prop in Hal as [Hst Hn]. apply has_space_safe; [done..|lia].
  - by apply transmitter_empty_safe.
  - apply receiver_safe; [done|]. by apply negb_false_iff.
  - by apply wp_ret.
  - by apply line_status_safe.
  - unfold __posix_timer_thread_handler. apply wp_bind, wp_with_port. apply timeout_safe.
    destruct HI as (Hh & ? & ? & ?). split_and!; [by eapply holds_same|done..].
  - unfold dmx512_rtuart_periodical. apply wp_with_port. destruct HI as (Hh & ? & ? & Hdc).
    destruct (tm_call (w_port w)); [|by destruct w; split_and!]. split_and!; [by eapply holds_same|done..].
  - apply andb_prop in Hal as [Hal Hp]. apply andb_prop in Hal as [Hfr Hf%frame_wfb_spec].
    apply negb_true_iff, bool_decide_eq_false in Hfr. destruct (fresh_holds o w e f [] HI Hfr Hf) as [HI' Ho]; [lia|].
    apply wp_bind. unfold put_contents. apply wp_modify. fold (set_contents e f w).
    eapply (send_frame_safe o e f); [done|done|cbn; by rewrite lookup_insert_eq|done|lia].
  - apply andb_prop in Hal as [Hal Hp]. apply andb_prop in Hal as [Hfr Hf%frame_wfb_spec].
    apply negb_true_iff, bool_decide_eq_false in Hfr. destruct (fresh_holds o w e f [] HI Hfr Hf) as [(Hh & ? & ? & ?) Ho]; [lia|].
    apply wp_bind. unfold put_contents. apply wp_modify. fold (set_contents e f w). cbn [dmx512_put_frame]. apply wp_modify.
    split_and!; [|done..]. destruct Hh as [Hn Hown Hg ? ? Htx]. split; try done.
    + by apply NoDup_cons.
    + cbn in *. rewrite <- Hown. unfold owned. cbn. solve_Permutation.
    + intros e' [->|He']%elem_of_cons; [|by apply Hg]. exists f. cbn. rewrite lookup_insert_eq. split_and!; done || lia.
  - apply wp_modify. destruct HI as (Hh & ? & ? & ?). destruct (w_received w) as [|e l] eqn:Hr.
    + cbn. assert (World (w_port w) (w_uart w) (w_frames w) (w_pool w) [] = w) as -> by (rewrite <- Hr; by destruct w).
      by split_and!.
    + split_and!; [|done..]. destruct Hh as [Hn Hown Hg ? ? Htx]. split; try done.
      * by apply NoDup_filter.
      * symmetry. apply filter_out; [done|]. rewrite <- Hown. unfold owned. cbn. rewrite Hr. cbn. solve_Permutation.
      * intros e' [_ He']%list_elem_of_filter. by apply Hg.
Qed.

(** C13: Whatever callbacks, timeouts and transmissions the environment raises,
    a run of the client fails in one way only, and exactly then: the UART gives
    octets for which the 513 octets of the frame that is being received (of
    which a discovery reply uses those from 256 on) have no space left, which
    the client does not check; the write behind the frame is the fault.  A run
    without such octets returns: no null or dangling pointer is followed, no
    array is accessed out of bounds, the loop on the FIFO level ends and the
    fatal exit is not reached.  Afterwards every entry that was handed to the
    client and not taken from it is at exactly one place: in the pool, with the
    receiver, or in the reception or the transmission in progress.  The
    environment announces space to a transmitter only, and the core hands over
    frames that the client does not have. *)
Theorem client_run_safe evs o w :
  (forall u, drains spin u = true) -> client_inv o w -> admissible evs w = true ->
  if overruns evs w then run evs w = Fault OutOfBounds
  else exists w', run evs w = Done (tt, w') /\ client_inv (entries_of evs w o) w' /\ owned w' ≡ₚ entries_of evs w o.
Proof.
  intros Hspin. revert o w. induction evs as [|ev evs IH]; intros o w HI Hadm; cbn [run admissible entries_of overruns] in *.
  - exists w. split; [done|]. split; [done|]. destruct HI as [Hh _]. exact (h_owned _ _ _ Hh).
  - apply andb_prop in Hadm as [Hal Hadm]. destruct (overflows ev w) eqn:Hov; cbn [orb].
    + destruct ev; try done. cbn [handle] in *. unfold mbind, prog_bind.
      by rewrite (receiver_overruns timer o) by (done || by apply negb_true_iff).
    + pose proof (event_safe ev o w Hspin HI Hal Hov) as Hstep.
      apply wp_run in Hstep as ([] & w1 & E & HI1). rewrite E in *. specialize (IH _ _ HI1 Hadm).
      unfold mbind, prog_bind. rewrite E. exact IH.
Qed.
End events.

(** ** The line *)

(** What a UART puts on the line. *)
Inductive line_event := Baud (b : Z) | Octet (v : Z).

(** A UART whose line is observed: only [write_chars] and [set_baudrate]
    show there. *)
Class UartLine (U : Type) `{Uart U} := {
  line : U -> list line_event;
  line_write vs u : line (uart_write_chars vs u).2 = line u ++ (Octet <$> vs);
  line_baudrate b u : line (uart_set_baudrate b u) = line u ++ [Baud b];
  line_enable m u : line (uart_enable_notification m u) = line u;
  line_disable m u : line (uart_disable_notification m u) = line u;
  line_modem m v u : line (uart_set_modem_lines m v u) = line u;
  line_flush u : line (uart_flush_fifo false true u) = line u;
  line_fifo u : line (uart_get_tx_fifo_free u).2 = line u }.

(** A UART of two lists: the octets that arrive and the line. *)
Record wire := Wire { arriving : list Z; sent : list line_event }.
#[export] Instance wire_uart : Uart wire := {
  uart_write_chars vs u := (Z.of_nat (length vs), Wire (arriving u) (sent u ++ (Octet <$> vs)));
  uart_read_chars n u :=
    let k := Z.to_nat (Z.min n (Z.of_nat (length (arriving u)))) in
    (u8 <$> take k (arriving u), Wire (drop k (arriving u)) (sent u));
  uart_enable_notification _ u := u;
  uart_disable_notification _ u := u;
  uart_set_format _ _ _ u := u;
  uart_set_baudrate b u := Wire (arriving u) (sent u ++ [Baud b]);
  uart_set_fifo_enable _ u := u;
  uart_set_rxfifo_trigger_level _ u := u;
  uart_set_txfifo_trigger_level _ u := u;
  uart_set_modem_lines _ _ u := u;
  uart_flush_fifo _ rx u := if rx then Wire [] (sent u) else u;
  uart_get_tx_fifo_free u := (Some 16, u) }.
#[export] Instance wire_laws : UartLaws wire.
Proof.
  split; intros n u; cbn.
  - rewrite length_fmap, length_take. lia.
  - apply Forall_fmap, Forall_forall. intros x _. apply u8_octet.
Qed.
#[export] Instance wire_line : UartLine wire.
Proof. refine {| line := sent |}; intros; cbn; try done. Defined.

(** The client as it is created, with frames in the pool. *)
Definition idle_world (n : nat) (input : list Z) : world wire :=
  World (set_state IDLE new_port) (Wire input []) (gset_to_gmap zero_frame (list_to_set (seq 0 n))) (seq 0 n) [].

Lemma idle_world_inv n input : client_inv (seq 0 n) (idle_world n input).
Proof.
  split_and!; [|done..]. split.
  - apply NoDup_seq.
  - unfold owned. cbn. by rewrite app_nil_r.
  - intros e He. exists zero_frame. cbn [idle_world w_frames]. rewrite lookup_gset_to_gmap, option_guard_True by by apply elem_of_list_to_set.
    split_and!; [done|apply zero_frame_wf|cbn; lia|cbn; lia].
  - split; cbn; [lia|done].
  - cbn. lia.
  - done.
Qed.

Definition demo_frame : dmx512frame := with_payload_size 30 zero_frame.
(** An RDM request, as far as the client looks at it. *)
Definition demo_request : dmx512frame :=
  with_payload_size 25 (with_data ([0xCC; 1; 24] ++ replicate 510 0) zero_frame).
(** A reception, a transmission with its end, and an RDM exchange that times
    out. *)
Definition demo_run : list event :=
  [EvLine 8; EvReceive 16; EvReceive 16; EvLine 8; EvCollect; EvModem 0 0;
   EvSend 7 demo_frame; EvEmpty; EvSpace (-1); EvSpace 16; EvSpace 16; EvSpace 0; EvSpace 4; EvSpace 4; EvEmpty;
   EvSend 8 demo_request; EvEmpty; EvSpace (-1); EvSpace (-1); EvSpace (-1); EvSpace (-1); EvEmpty;
   EvSupply 9 zero_frame; EvTimer; EvPeriodical].

(** An RDM frame whose length octet says 2. *)
Definition short_run : list event := [EvLine 8; EvReceive 16; EvReceive 16].
Definition short_input : list Z := [0xCC; 1; 2] ++ repeat 0 600.

Lemma client_run_safe_witness :
  (exists w', run true 1 demo_run (idle_world 2 (repeat 0 100)) = Done (tt, w') /\
    client_inv (entries_of true 1 demo_run (idle_world 2 (repeat 0 100)) (seq 0 2)) w' /\
    owned w' ≡ₚ entries_of true 1 demo_run (idle_world 2 (repeat 0 100)) (seq 0 2)) /\
  run true 1 short_run (idle_world 2 short_input) = Fault OutOfBounds.
Proof.
  pose proof (client_run_safe true 1 demo_run (seq 0 2) (idle_world 2 (repeat 0 100)) ltac:(by intros []) (idle_world_inv _ _) ltac:(vm_compute; reflexivity)) as H1.
  pose proof (client_run_safe true 1 short_run (seq 0 2) (idle_world 2 short_input) ltac:(by intros []) (idle_world_inv _ _) ltac:(vm_compute; reflexivity)) as H2.
  assert (overruns true 1 demo_run (idle_world 2 (repeat 0 100)) = false) as E1 by (vm_compute; reflexivity).
  assert (overruns true 1 short_run (idle_world 2 short_input) = true) as E2 by (vm_compute; reflexivity).
  rewrite E1 in H1. rewrite E2 in H2. exact (conj H1 H2).
Defined.

Section transmission.
Context {U : Type} `{UartLaws U} `{!UartLine U} (timer : bool) (spin : nat).
Context (Hspin : forall u, drains spin u = true).
Implicit Types w : world U.

Lemma wait_tx_fifo_line n (Q : unit -> world U -> Prop) w :
  drains n (w_uart w) = true ->
  (forall u, line u = line (w_uart w) -> Q tt (World (w_port w) u (w_frames w) (w_pool w) (w_received w))) ->
  wp (wait_tx_fifo n) Q w.
Proof.
  revert w. induction n as [|n IH]; intros w Hd HQ; [done|]. cbn [wait_tx_fifo drains] in *.
  apply wp_bind, wp_ask_uart. intros r u E. pose proof (line_fifo (w_uart w)) as Hl. rewrite E in Hd, Hl. cbn in Hl.
  destruct r as [l|]; [|apply wp_ret, HQ, Hl].
  apply wp_if; intros Hlv; [apply wp_ret, HQ, Hl|]. rewrite Hlv in Hd. apply IH; [done|]. intros u' Hu'.
  apply HQ. cbn in Hu'. congruence.
Qed.

(** The transmission of [e] at [off], with [r] octets left. *)
Record sending (e : nat) (off r : Z) (f : dmx512frame) w : Prop := {
  s_tx : tx_frame (w_port w) = Some e;
  s_ptr : tx_ptr (w_port w) = At e off;
  s_remain : tx_remain (w_port w) = r;
  s_frame : w_frames w !! e = Some f;
  s_wf : frame_wf f;
  s_bounds : 0 <= off /\ 0 <= r /\ off + r <= 513 }.
Definition piece (off n : Z) (f : dmx512frame) : list Z := (fun k => slot f (off + Z.of_nat k)) <$> seq 0 (Z.to_nat n).

Lemma piece_app off a b f : 0 <= a -> 0 <= b -> piece off (a + b) f = piece off a f ++ piece (off + a) b f.
Proof.
  intros Ha Hb. unfold piece. rewrite Z2Nat.inj_add, seq_app, fmap_app by done. f_equal. cbn.
  rewrite <- (Nat.add_0_r (Z.to_nat a)) at 1. rewrite <- fmap_add_seq, <- list_fmap_compose.
  apply list_fmap_ext. intros i k Hk. cbn. f_equal. lia.
Qed.

(** One callback writes the next octets, at most twelve. *)
Lemma has_space_sends e off r f n (Q : unit -> world U -> Prop) w :
  sending e off r f w -> up_state (w_port w) = TRANSMIT_DATA -> (n = -1 \/ 12 <= n < 2 ^ 31) -> 0 < r ->
  (forall w', sending e (off + Z.min 12 r) (r - Z.min 12 r) f w' -> up_state (w_port w') = TRANSMIT_DATA ->
     line (w_uart w') = line (w_uart w) ++ (Octet <$> piece off (Z.min 12 r) f) ->
     w_pool w' = w_pool w -> w_received w' = w_received w -> w_frames w' = w_frames w ->
     rx_frame (w_port w') = rx_frame (w_port w) -> Q tt w') ->
  wp (dmx512rtuart_transmitter_has_space spin n) Q w.
Proof.
  intros [Ht Hp Hr Hf Hw Hb] Hs Hn Hpos HQ. unfold dmx512rtuart_transmitter_has_space.
  apply wp_bind, wp_the_port. rewrite Ht, Hp, Hs, Hr. cbn [decide]. rewrite decide_False by done.
  rewrite (proj2 (Z.ltb_lt 0 r)) by done. cbv zeta.
  assert ((if 12 <? (if (n =? -1) || (r <? u64 n) then i32 r else n) then 12 else
    (if (n =? -1) || (r <? u64 n) then i32 r else n)) = Z.min 12 r) as ->.
  { rewrite i32_small by lia. destruct Hn as [-> | Hn].
    - cbn. destruct (Z.ltb_spec 12 r); lia.
    - rewrite u64_small by lia. rewrite (proj2 (Z.eqb_neq n _)) by lia. cbn [orb].
      destruct (Z.ltb_spec r n); [destruct (Z.ltb_spec 12 r)|destruct (Z.ltb_spec 12 n)]; lia. }
  apply wp_bind, wait_tx_fifo_line; [apply Hspin|]. intros u Hu. apply wp_bind. unfold rtuart_write_chars. apply wp_bind.
  apply (wp_mono _ (fun vs w' => vs = piece off (Z.min 12 r) f /\ w' = World (w_port w) u (w_frames w) (w_pool w) (w_received w))).
  { destruct (Z.to_nat (Z.min 12 r)) as [|k] eqn:Ek; [lia|]. cbn [ptr_load_all].
    apply wp_bind. unfold the_frame. apply wp_bind, wp_get. cbn [w_frames]. rewrite Hf. apply wp_ret.
    eapply wp_done; [unfold lift_outcome; rewrite load_all_spec by (done || lia); done|]. unfold piece. by rewrite Ek. }
  intros vs w1 [-> ->]. apply wp_ask_uart. intros cnt u2 E. cbn [w_uart] in E.
  pose proof (line_write (piece off (Z.min 12 r) f) u) as Hl. rewrite E in Hl. cbn in Hl.
  apply wp_bind, wp_with_port, wp_with_uart. apply HQ; try done.
  - split; cbn; try done; try lia. rewrite u64_small by lia. done.
  - cbn. rewrite line_enable. congruence.
Qed.

(** The repetition of a callback. *)
Fixpoint times {S} (n : nat) (m : prog S unit) : prog S unit :=
  match n with O => mret tt | Datatypes.S n => m ;; times n m end.

Lemma times_spaces m : forall e off r f n (Q : unit -> world U -> Prop) w,
  sending e off r f w -> up_state (w_port w) = TRANSMIT_DATA -> (n = -1 \/ 12 <= n < 2 ^ 31) -> r <= 12 * Z.of_nat m ->
  (forall w', tx_frame (w_port w') = Some e -> w_frames w' = w_frames w -> up_state (w_port w') = WAIT_FOR_TX_COMPLETE ->
     line (w_uart w') = line (w_uart w) ++ (Octet <$> piece off r f) ->
     w_pool w' = w_pool w -> w_received w' = w_received w -> rx_frame (w_port w') = rx_frame (w_port w) -> Q tt w') ->
  wp (times (S m) (dmx512rtuart_transmitter_has_space spin n)) Q w.
Proof.
  assert (forall n e off k (Q : unit -> world U -> Prop) w, tx_frame (w_port w) = Some e -> tx_ptr (w_port w) = At e off ->
    up_state (w_port w) = WAIT_FOR_TX_COMPLETE -> Q tt w -> wp (times k (dmx512rtuart_transmitter_has_space spin n)) Q w) as Hidle.
  { intros n e off k Q w Ht Hp Hs HQ. induction k as [|k IH]; [by apply wp_ret|]. apply wp_bind.
    unfold dmx512rtuart_transmitter_has_space. apply wp_bind, wp_the_port. rewrite Ht, Hp, Hs. by rewrite decide_True. }
  induction m as [|m IH]; intros e off r f n Q w Hsend Hs Hn Hm HQ; cbn [times]; apply wp_bind.
  all: destruct (decide (r = 0)) as [->|Hr].
  1,3: destruct Hsend as [Ht Hp Hr0 Hf Hw Hb]; unfold dmx512rtuart_transmitter_has_space;
    apply wp_bind, wp_the_port; rewrite Ht, Hp, Hs, Hr0; rewrite decide_False by done; cbn [Z.ltb Z.compare];
    apply wp_bind; unfold next_state; apply wp_with_port, wp_with_uart.
  - apply wp_ret. apply HQ; try done. cbn. by rewrite line_enable, app_nil_r.
  - eapply (Hidle _ e off (S m)); [done..|]. apply HQ; try done. cbn. by rewrite line_enable, app_nil_r.
  - pose proof (s_bounds _ _ _ _ _ Hsend). lia.
  - pose proof (s_bounds _ _ _ _ _ Hsend) as Hb. eapply (has_space_sends e off r f); [done|done|done|lia|].
    intros w1 Hs1 Hst1 Hl1 Hpool1 Hrec1 Hf1 Hrx1.
    eapply (IH e _ _ f n _ w1 Hs1 Hst1 Hn); [lia|]. intros w2 Ht2 Hf2 Hst2 Hl2 Hpool2 Hrec2 Hrx2.
    apply HQ; try congruence. rewrite Hl2, Hl1, <- app_assoc, <- fmap_app.
    rewrite <- piece_app by lia. do 3 f_equal. lia.
Qed.

Definition transmission (e : nat) (f : dmx512frame) (n : Z) : prog (world U) unit :=
  put_contents e f ;;
  dmx512_rtuart_client_send_frame e ;;
  dmx512rtuart_transmitter_empty timer ;;
  times 44 (dmx512rtuart_transmitter_has_space spin n) ;;
  dmx512rtuart_transmitter_empty timer.

(** C14: A DMX512 frame that is sent while the line is free is on the line
    completely and in order: a break, which is an octet 0 at a third of the
    bit rate, then at 250 kbit/s the start code and every slot of the frame.
    After the last octet the port is idle again and the frame is given back
    to the pool. *)
Theorem frame_is_transmitted e f n w :
  frame_wf f -> 1 <= f_payload_size f <= 512 -> f_flags f = 0 -> slot f 0 <> SC_RDM -> (n = -1 \/ 12 <= n < 2 ^ 31) ->
  rx_frame (w_port w) = None -> tx_frame (w_port w) = None ->
  wp (transmission e f n) (fun _ w' =>
    line (w_uart w') = line (w_uart w) ++ [Baud 83333; Octet 0; Baud 250000] ++
      (Octet <$> octets (f_payload_size f + 1) f) /\
    up_state (w_port w') = IDLE /\ tx_frame (w_port w') = None /\ w_pool w' = w_pool w ++ [e] /\
    w_frames w' = <[e := f]> (w_frames w)) w.
Proof.
  intros Hw Hsize Hfl Hsc Hn Hrx Htx. unfold transmission. apply wp_bind. unfold put_contents. apply wp_modify.
  apply wp_bind. unfold dmx512_rtuart_client_send_frame. apply wp_bind, wp_the_port. cbn [w_port]. rewrite Hrx.
  rewrite bool_decide_eq_false_2 by (intros [? [=]]). cbn [when]. apply wp_bind, wp_ret, wp_bind, wp_the_port.
  cbn [w_port]. rewrite Htx. apply wp_bind. unfold next_state at 1. apply wp_with_port, wp_bind. cbn [w_port w_uart w_frames w_pool w_received].
  assert (forall w' Q, w_frames w' = <[e := f]> (w_frames w) -> Q f w' -> wp (the_frame (U := U) e) Q w') as Hthe.
  { intros w' Q Hf HQ. unfold the_frame. apply wp_bind, wp_get. rewrite Hf, lookup_insert_eq. by apply wp_ret. }
  apply Hthe; [done|]. apply wp_bind, wp_with_port. cbn [w_port w_uart w_frames w_pool w_received].
  apply wp_bind. unfold prepare_rdm. apply wp_bind, Hthe; [done|].
  apply wp_bind. eapply wp_done.
  { unfold lift_outcome, dmx512frame_is_rdm, octet_is, DMX_POS_STARTCODE. rewrite (load_slot f 0) by (done || lia). cbn [mbind outcome_bind].
    rewrite (proj2 (Z.eqb_neq (slot f 0) SC_RDM) Hsc). reflexivity. }
  apply wp_ret. apply wp_bind, wp_with_uart, wp_bind. unfold enable_rs485_transmitter at 1. apply wp_with_uart, wp_bind.
  cbn [w_port w_uart w_frames w_pool w_received]. apply Hthe; [done|]. rewrite Hfl. cbn [has Z.land Z.eqb negb].
  apply wp_bind, wp_with_uart, wp_bind, wp_with_uart, wp_bind, wp_ask_uart. intros cnt u1 E1. cbn [w_port w_uart w_frames w_pool w_received] in *.
  apply wp_with_uart. cbn [w_port w_uart w_frames w_pool w_received].
  pose proof (f_equal (fun x => line (snd x)) E1) as Hl1. cbn [snd] in Hl1.
  rewrite line_write, line_baudrate, line_disable, line_modem, line_disable in Hl1.
  apply wp_bind. unfold dmx512rtuart_transmitter_empty at 1. apply wp_bind, wp_the_port. cbn [w_port up_state set_tx set_state].
  rewrite decide_True by done. apply wp_bind, wp_with_uart, wp_bind, wp_with_uart, wp_bind. unfold next_state at 1. apply wp_with_port, wp_with_uart.
  cbn [w_port w_uart w_frames w_pool w_received]. set (w1 := World _ _ _ _ _).
  assert (sending e 0 (1 + f_payload_size f) f w1) as Hsend.
  { split; try done; [cbn; by rewrite lookup_insert_eq|lia]. }
  apply wp_bind, (times_spaces 43 e 0 (1 + f_payload_size f) f n); [done|done|done|lia|].
  intros w2 Ht2 Hf2 Hs2 Hl2 Hpool2 Hrec2 Hrx2. unfold dmx512rtuart_transmitter_empty. apply wp_bind, wp_the_port. rewrite Hs2.
  rewrite decide_False by done. rewrite decide_False by (intros Hx; by apply Hx). rewrite Ht2.
  apply wp_bind, wp_with_uart, wp_bind, wp_with_uart, wp_bind, wp_with_uart, wp_bind, wp_with_uart, wp_bind.
  cbn [w_port w_uart w_frames w_pool w_received]. apply Hthe; [done|]. rewrite Hfl. cbn [has Z.land Z.eqb negb].
  apply wp_bind. unfold dmx512rtuart_checkout_tx_frame. apply wp_bind, wp_the_port. cbn [w_port]. rewrite Ht2.
  apply wp_bind, wp_with_port, wp_ret, wp_bind. cbn [dmx512_put_frame]. apply wp_modify. unfold next_state. apply wp_with_port.
  cbn. split_and!; try done.
  - rewrite line_enable, line_flush, line_enable, line_modem, Hl2. unfold w1. cbn. rewrite line_enable, line_baudrate, line_disable, line_enable, <- Hl1.
    rewrite <- !app_assoc. do 2 f_equal. cbn. do 3 f_equal. replace (1 + f_payload_size f) with (f_payload_size f + 1) by lia. done.
  - by rewrite Hpool2.
Qed.
End transmission.

Lemma frame_is_transmitted_witness :
  wp (transmission true 1 7 demo_frame 16) (fun _ w' =>
    line (w_uart w') = [Baud 83333; Octet 0; Baud 250000] ++ (Octet <$> octets 31 demo_frame) /\
    up_state (w_port w') = IDLE /\ tx_frame (w_port w') = None /\ w_pool w' = [0%nat; 1%nat; 7%nat] /\
    w_frames w' = <[7%nat := demo_frame]> (w_frames (idle_world 2 []))) (idle_world 2 []).
Proof.
  apply (frame_is_transmitted (U := wire) true 1 ltac:(by intros []) 7 demo_frame 16 (idle_world 2 []));
    [apply zero_frame_wf|cbn; lia|done|done|lia|done|done].
Defined.
