(* ===== verification/ClientReception.v ===== *)
(** * Receiving with the UART client

    The frames that arrive: whole DMX512 frames, frames that the next break
    ends, and the slot count that locks in.  The last section are runs in
    which the client does what it should not; each is a finding. *)
From stdpp Require Import base countable gmap list.
From S2P Require Import Prelude KList FrameQueue RdmFrame UartClient ClientSafety ClientReceive ClientContract.

(** ** A UART whose input is observed *)

Class UartInput (U : Type) `{Uart U} := {
  pending : U -> list Z;
  read_takes n u : (uart_read_chars n u).1 = take (Z.to_nat n) (pending u);
  read_leaves n u : pending (uart_read_chars n u).2 = drop (Z.to_nat n) (pending u);
  input_enable m u : pending (uart_enable_notification m u) = pending u }.

#[export] Instance wire_input : UartInput wire.
Proof.
  refine {| pending := fun u => u8 <$> arriving u |}; intros; cbn.
  - rewrite <- fmap_take. f_equal. destruct (decide (Z.to_nat n <= length (arriving u))%nat).
    + f_equal. lia.
    + rewrite !take_ge by lia. done.
  - rewrite <- fmap_drop. f_equal. destruct (decide (Z.to_nat n <= length (arriving u))%nat).
    + f_equal. lia.
    + rewrite !drop_ge by lia. done.
  - done.
Defined.

Section reception.
Context {U : Type} `{UartLaws U} `{!UartInput U} (timer : bool).
Implicit Types w : world U.

(** What a locked slot count makes of the expected size. *)
Definition expected_of (l : slot_lock) : Z := if l_locked l then l_matching_slots l else 512.

(** Octets of a frame that is not RDM: only the start code is looked at, and
    the expected size is set when it is 0. *)
Lemma check_dmx e f size (Q : unit -> world U -> Prop) w :
  rx_frame (w_port w) = Some e -> w_frames w !! e = Some f -> frame_wf f -> f_flags f = 0 -> slot f 0 = 0 ->
  0 < size -> 0 <= rx_count (w_port w) ->
  Q tt (if rx_count (w_port w) =? 0 then port_is (set_expected (expected_of (rx_lock (w_port w))) (w_port w)) w else w) ->
  wp (dmx512_check_received_data timer (rx_count (w_port w)) size (At e (rx_count (w_port w)))) Q w.
Proof.
  intros He Hf Hw Hfl Hsc Hs Hc HQ. unfold dmx512_check_received_data. apply wp_bind, wp_the_port. rewrite He. apply wp_bind, wp_ret.
  assert (forall m w' Q, w_frames w' = w_frames w -> Q (has 0 m) w' -> wp (rx_flag (U := U) e m) Q w') as Hflag.
  { intros m w' Q' Hfr HQ'. unfold rx_flag, the_frame. apply wp_bind, wp_bind, wp_get. rewrite Hfr, Hf. apply wp_ret, wp_ret. by rewrite Hfl. }
  apply wp_bind, Hflag; [done|]. change (has 0 _) with false. cbv iota. apply wp_bind, Hflag; [done|]. change (has 0 _) with false.
  cbn [negb andb]. rewrite (proj2 (Z.ltb_lt 0 size)), andb_true_r by done. apply wp_bind.
  assert (forall w', w_frames w' = w_frames w -> Q tt w' ->
    wp (rdm ← rx_flag e DMX512_FLAG_IS_RDM;
      (if (rdm : bool) && is_between RDM_POS_SUBSTARTCODE (rx_count (w_port w)) (rx_count (w_port w) + size) then
        x ← ptr_load (At e (rx_count (w_port w))) (RDM_POS_SUBSTARTCODE - rx_count (w_port w));
        if negb (x =? SC_SUB_MESSAGE) then edit_frame e (clear_flag DMX512_FLAG_IS_RDM) else mret tt
      else mret tt) ;;
      rdm ← rx_flag e DMX512_FLAG_IS_RDM;
      (if (rdm : bool) && is_between RDM_POS_LENGTH (rx_count (w_port w)) (rx_count (w_port w) + size) then
        x ← ptr_load (At e (rx_count (w_port w))) (RDM_POS_LENGTH - rx_count (w_port w));
        let expected := u16 (x + 2 - 1) in
        with_port (set_expected expected) ;;
        dmx512rtuart_stop_rdm_timer ;;
        dmx512rtuart_start_rdm_timer timer (TIMEOUT_RDMFRAME_STATIC + (expected - RDM_POS_LENGTH) * TIMEOUT_RDMFRAME_PEROCTET)
      else mret tt) ;;
      rdm ← rx_flag e DMX512_FLAG_IS_RDM;
      if (rdm : bool) && is_between RDM_POS_PDL (rx_count (w_port w)) (rx_count (w_port w) + size) then
        f ← the_frame e;
        d ← lift_outcome (dmx512frame_is_rdm_discover (f_data f));
        if (d : bool) then edit_frame e (set_flag DMX512_FLAG_IS_RDM_DISC) else mret tt
      else mret tt) Q w') as Hrest.
  { intros w' Hfr HQ'. apply wp_bind, Hflag; [done|]. apply wp_bind, wp_ret, wp_bind, Hflag; [done|].
    apply wp_bind, wp_ret, wp_bind, Hflag; [done|]. by apply wp_ret. }
  destruct (Z.eqb_spec (rx_count (w_port w)) 0) as [Hz|Hz].
  - rewrite Hz in Hrest |- *. apply wp_bind. unfold ptr_load. apply wp_bind. unfold the_frame at 1. apply wp_bind, wp_get. rewrite Hf. apply wp_ret.
    eapply wp_done; [unfold lift_outcome; rewrite (load_slot f) by (done || lia); done|]. change (0 + 0) with 0. rewrite Hsc.
    change (0 =? SC_RDM) with false. change (0 =? 0) with true. cbv iota. apply wp_with_port. by apply Hrest.
  - apply wp_ret. by apply Hrest.
Qed.

(** A DMX512 frame is being received, [l] being its octets and those that
    follow; [c] octets are in [e]. *)
Record receiving_dmx (o : list nat) (e : nat) (l : list Z) (c : Z) w : Prop := {
  r_inv : client_inv o w;
  r_state : up_state (w_port w) = (if c =? 0 then EXPECT_STARTCODE else RECEIVE_DMXDATA);
  r_frame : rx_frame (w_port w) = Some e;
  r_count : rx_count (w_port w) = c;
  r_expected : rx_expected (w_port w) = 512;
  r_unlocked : l_locked (rx_lock (w_port w)) = false;
  r_octets : exists f, w_frames w !! e = Some f /\ f_flags f = 0 /\ octets c f = take (Z.to_nat c) l;
  r_pending : pending (w_uart w) = drop (Z.to_nat c) l }.

Definition receive_all (cs : list Z) : prog (world U) unit :=
  foldr (fun c m => dmx512rtuart_receiver_data_available timer c ;; m) (mret tt) cs.
Definition total (cs : list Z) : Z := foldr Z.add 0 cs.

Lemma wp_and {S A} (m : prog S A) (P Q : A -> S -> Prop) s : wp m P s -> wp m Q s -> wp m (fun a s' => P a s' /\ Q a s') s.
Proof. unfold wp. destruct (m s) as [[a s']|]; auto. Qed.

Lemma slot_of_octets c f (l : list Z) : 0 < c -> octets c f = take (Z.to_nat c) l -> Some (slot f 0) = l !! 0%nat.
Proof.
  intros Hc Ho. apply (f_equal (.!! 0%nat)) in Ho. rewrite lookup_take_lt in Ho by lia. rewrite <- Ho.
  unfold octets. rewrite list_lookup_fmap, lookup_seq_lt by lia. done.
Qed.

Section chunks.
Context (o : list nat) (e : nat) (l : list Z).
Context (Hlen : (513 <= length l)%nat) (Hstart : l !! 0%nat = Some 0).

Lemma dmx_fits c n k w :
  receiving_dmx o e l c w -> 0 < n < 2 ^ 31 -> toread (w_port w) n = k -> 0 <= c -> 0 <= k -> c + k <= 513 -> fits n w = true /\ announced n = n.
Proof.
  intros Hr Hn Ht Hc Hk Hck. assert (announced n = n) as Ha by (unfold announced; by rewrite (proj2 (Z.eqb_neq _ _)) by lia).
  split; [|done]. unfold fits. rewrite Ha, Ht, (r_frame _ _ _ _ _ Hr), (r_state _ _ _ _ _ Hr), (r_count _ _ _ _ _ Hr).
  assert (Z.of_nat (length (octets_read k (w_uart w))) <= k) by (apply octets_read_count; lia).
  destruct (c =? 0); cbn -[octets_read]; apply Z.leb_le; lia.
Qed.

(** The octets of a chunk after those that are there. *)
Lemma chunk_octets c k f f' vs :
  0 <= c -> 0 <= k -> octets c f = take (Z.to_nat c) l -> vs = take (Z.to_nat k) (drop (Z.to_nat c) l) ->
  octets (c + Z.of_nat (length vs)) f' = octets c f ++ vs -> c + k <= 513 ->
  Z.of_nat (length vs) = k /\ octets (c + k) f' = take (Z.to_nat (c + k)) l.
Proof.
  intros Hc Hk Ho Hvs Ho' Hck. assert (Z.of_nat (length vs) = k) as Hl.
  { rewrite Hvs, length_take, length_drop. lia. }
  split; [done|]. rewrite Hl in Ho'. rewrite Ho', Ho, Hvs. rewrite Z2Nat.inj_add by done.
  by rewrite take_take_drop.
Qed.

Lemma chunk_continues c n w :
  receiving_dmx o e l c w -> 0 <= c -> 0 < n < 2 ^ 31 -> c + n < 513 ->
  wp (dmx512rtuart_receiver_data_available timer n)
    (fun _ w' => receiving_dmx o e l (c + n) w' /\ w_received w' = w_received w /\ w_pool w' = w_pool w) w.
Proof.
  intros Hr Hc Hn Hcn.
  pose proof Hr as [HI Hs He Hcnt Hexp Hlk (f & Hf & Hfl & Hoct) Hpend].
  assert (disc_state (up_state (w_port w)) = false) as Hds by (rewrite Hs; by destruct (c =? 0)).
  assert (toread (w_port w) n = n) as Hto.
  { unfold toread, max_size. rewrite Hcnt, Hexp, !u64_small by lia. by rewrite (proj2 (Z.ltb_lt _ _)) by lia. }
  destruct (dmx_fits c n n w Hr) as [Hroom Ha]; [done|done|lia|lia|lia|].
  pose proof (receiver_frame_spec timer o e n w HI Hroom He Hds) as H1. rewrite Ha, Hto, octets_read_small in H1 by lia.
  set (vs := (uart_read_chars n (w_uart w)).1) in *.
  assert (vs = take (Z.to_nat n) (drop (Z.to_nat c) l)) as Hvs by (unfold vs; by rewrite read_takes, Hpend).
  assert (Z.of_nat (length vs) = n) as Hvn by (rewrite Hvs, length_take, length_drop; lia).
  pose proof HI as (Hh & Hrx & Htx & _). unfold rx_ok in Hrx. rewrite He in Hrx. unfold rx_base in Hrx. rewrite Hds in Hrx.
  destruct Hrx as (Hrec & Hdata & _ & _ & _). rewrite Z.add_0_l in Hdata.
  assert (wp (dmx512rtuart_receiver_data_available timer n) (fun _ w' =>
    up_state (w_port w') = RECEIVE_DMXDATA /\ rx_expected (w_port w') = 512 /\ rx_lock (w_port w') = rx_lock (w_port w) /\
    pending (w_uart w') = drop (Z.to_nat n) (pending (w_uart w)) /\ exists f', w_frames w' !! e = Some f' /\ f_flags f' = 0) w) as H2.
  { unfold dmx512rtuart_receiver_data_available. fold (announced n). rewrite Ha. apply wp_bind, wp_the_port.
    assert (in_tx_state (up_state (w_port w)) = false) as -> by (rewrite Hs; by destruct (c =? 0)). rewrite He.
    assert (forall p, (match up_state (w_port w) with
      | EXPECT_STARTCODE | RECEIVE_DMXDATA => next_state RECEIVE_DMXDATA ;; receive_frame_data timer n (max_size p) (toread p n)
      | RECEIVE_RDMDATA => receive_frame_data timer n (max_size p) (toread p n)
      | RDMDISC_RECV_PREAMBLE => dmx512rtuart_stop_rdm_timer ;; dmx512rtuart_start_rdm_timer timer TIMEOUT_RDMDISCOVERY_LENGTH ;; receive_discovery_data n
      | RDMDISC_RECV_DATA => receive_discovery_data n
      | _ => with_uart (uart_flush_fifo false true) end) =
      (next_state (U := U) RECEIVE_DMXDATA ;; receive_frame_data timer n (max_size p) (toread p n))) as -> by (intros p; rewrite Hs; by destruct (c =? 0)).
    rewrite Hto. apply wp_bind. unfold next_state. apply wp_with_port. set (w0 := World _ _ _ _ _).
    assert (holds [] o w0) as Hh0 by by eapply holds_same.
    unfold receive_frame_data. apply wp_bind, wp_the_port. cbn [w_port w0 set_state rx_data]. rewrite Hdata.
    assert (octets_read n (w_uart w0) = vs) as Hvs0 by (apply octets_read_small; lia).
    apply wp_bind. eapply read_chars_fits; [exact Hh0|by eapply rx_owned|lia|rewrite Hvs0; lia|].
    intros f0 vs0 u d Hf0 E Er Hlen0 Hwd Hsl w1 Hh1. rewrite u64_small in E by lia. cbn in Hf0, E. rewrite Hf in Hf0. injection Hf0 as <-.
    assert (vs0 = vs) as -> by (unfold vs; by rewrite E). rewrite Hvn in Hsl |- *.
    assert (pending u = drop (Z.to_nat n) (pending (w_uart w))) as Hpu by (rewrite <- read_leaves; by rewrite E).
    apply wp_bind, wp_when; intros Hpos; [|apply Z.ltb_ge in Hpos; lia]. apply wp_bind.
    assert (slot (with_data d f) 0 = 0) as Hz.
    { rewrite Hcnt in Hsl. destruct (decide (c = 0)) as [->|].
      - rewrite Hsl by lia. rewrite (proj2 (Z.ltb_lt 0 _)) by lia. cbn [Z.leb Z.compare andb]. change (Z.to_nat (0 - 0)) with 0%nat.
        rewrite Hvs. change (drop (Z.to_nat 0) l) with l. rewrite lookup_take_lt by lia. by rewrite Hstart.
      - rewrite Hsl by lia. rewrite (proj2 (Z.leb_gt _ _)) by lia. cbn.
        pose proof (slot_of_octets c f l) as Hx. rewrite Hstart in Hx. assert (Some (slot f 0) = Some 0) as [=] by (apply Hx; [lia|done]). done. }
    eapply (check_dmx e (with_data d f) n _ w1); [done|cbn; by rewrite lookup_insert_eq|done|done|done|lia|cbn; lia|].
    set (w2 := if rx_count (w_port w1) =? 0 then _ else w1). assert (up_state (w_port w2) = RECEIVE_DMXDATA /\ rx_expected (w_port w2) = 512 /\ rx_lock (w_port w2) = rx_lock (w_port w) /\
      rx_count (w_port w2) = c /\ w_uart w2 = u /\ w_frames w2 !! e = Some (with_data d f)) as (E1 & E2 & E3 & E4 & E5 & E6).
    { unfold w2. cbn [w_port w1 w0 set_state rx_count]. rewrite Hcnt. unfold expected_of. cbn. rewrite Hlk. destruct (c =? 0); cbn; rewrite lookup_insert_eq; by split_and!. }
    clearbody w2. apply wp_bind, wp_with_port, wp_bind, wp_the_port. cbn [w_port rx_count set_rx]. rewrite E4, u64_small by lia.
    unfold max_size. rewrite Hexp, (proj2 (Z.leb_gt _ _)) by lia. cbn [andb]. apply wp_with_uart.
    apply wp_when; intros Hlt; [apply Z.ltb_lt in Hlt; lia|]. cbn. rewrite input_enable, E5. split_and!; try done. by eexists. }
  eapply (wp_mono _ _ _ _ (wp_and _ _ _ _ H1 H2)). intros _ w' ((HI' & f0 & f' & Hf0 & Hf' & Ho' & Hcase) & Hs' & Hexp' & Hlk' & Hp' & f2 & Hf2 & Hfl2).
  assert (w_frames w !! e = Some f0) as Hf0' by (destruct (bool_decide _); exact Hf0). rewrite Hf in Hf0'. injection Hf0' as <-.
  assert (rx_count (w_port (if bool_decide (up_state (w_port w) = EXPECT_STARTCODE) then port_is (set_state RECEIVE_DMXDATA (w_port w)) w else w)) = c) as Hc' by (destruct (bool_decide _); done).
  rewrite Hc' in Ho', Hcase. destruct (chunk_octets c n f f' vs) as [_ Ho2]; [done|lia|done|done|done|lia|].
  rewrite Hvn in Hcase. unfold max_size in Hcase. rewrite Hexp, (proj2 (Z.leb_gt _ _)), andb_false_r in Hcase by lia.
  destruct Hcase as (_ & Hr' & Hcnt' & Hrec' & Hpool').
  split; [|split; [rewrite Hrec'|rewrite Hpool']; by destruct (bool_decide _)]. split; try done.
  - by rewrite (proj2 (Z.eqb_neq _ _)) by lia.
  - by rewrite Hlk'.
  - exists f'. rewrite Hf' in Hf2. injection Hf2 as <-. by split_and!.
  - rewrite Hp', Hpend, drop_drop. f_equal. lia.
Qed.

Lemma chunk_completes c n w :
  receiving_dmx o e l c w -> 0 <= c < 513 -> 0 < n < 2 ^ 31 -> 513 <= c + n ->
  wp (dmx512rtuart_receiver_data_available timer n)
    (fun _ w' => client_inv o w' /\ up_state (w_port w') = IDLE /\ w_received w' = w_received w ++ [e] /\
      w_pool w' = w_pool w ++ opt (tx_frame (w_port w)) /\
      exists f', w_frames w' !! e = Some f' /\ f_payload_size f' = 512 /\ octets 513 f' = take 513 l) w.
Proof.
  intros Hr Hc Hn Hcn.
  pose proof Hr as [HI Hs He Hcnt Hexp Hlk (f & Hf & Hfl & Hoct) Hpend].
  assert (disc_state (up_state (w_port w)) = false) as Hds by (rewrite Hs; by destruct (c =? 0)).
  assert (toread (w_port w) n = 513 - c) as Hto.
  { unfold toread, max_size. rewrite Hcnt, Hexp, !u64_small by lia. rewrite (proj2 (Z.ltb_ge _ _)) by lia. by rewrite i32_small by lia. }
  destruct (dmx_fits c n (513 - c) w Hr) as [Hroom Ha]; [done|done|lia|lia|lia|].
  pose proof (receiver_frame_spec timer o e n w HI Hroom He Hds) as H1. rewrite Ha, Hto, octets_read_small in H1 by lia.
  eapply (wp_mono _ _ _ _ H1). intros _ w' (HI' & f0 & f' & Hf0 & Hf' & Ho' & Hcase). split; [done|].
  set (vs := (uart_read_chars (513 - c) (w_uart w)).1) in *.
  assert (vs = take (Z.to_nat (513 - c)) (drop (Z.to_nat c) l)) as Hvs by (unfold vs; by rewrite read_takes, Hpend).
  assert (w_frames w !! e = Some f0) as Hf0' by (destruct (bool_decide _); exact Hf0). rewrite Hf in Hf0'. injection Hf0' as <-.
  assert (rx_count (w_port (if bool_decide (up_state (w_port w) = EXPECT_STARTCODE) then port_is (set_state RECEIVE_DMXDATA (w_port w)) w else w)) = c) as Hc' by (destruct (bool_decide _); done).
  rewrite Hc' in Ho', Hcase. destruct (chunk_octets c (513 - c) f f' vs) as [Hvn Ho2]; [lia|lia|done|done|done|lia|].
  rewrite Hvn in Hcase. unfold max_size in Hcase. rewrite Hexp in Hcase. replace (c + (513 - c)) with 513 in * by lia.
  rewrite (proj2 (Z.ltb_lt _ _)) in Hcase by lia. cbn [andb Z.leb Z.compare Z.add Pos.add Pos.succ] in Hcase. change (513 <=? 513) with true in Hcase. cbv iota in Hcase.
  destruct Hcase as (Hp' & Hs' & _ & _ & Hrec' & Hpool').
  split; [done|]. split; [rewrite Hrec'; by destruct (bool_decide _)|]. split; [rewrite Hpool'; by destruct (bool_decide _)|].
  exists f'. by split_and!.
Qed.

Lemma chunks_continue cs : forall c w,
  receiving_dmx o e l c w -> 0 <= c -> Forall (fun n => 0 < n < 2 ^ 31) cs -> c + total cs < 513 ->
  wp (receive_all cs) (fun _ w' => receiving_dmx o e l (c + total cs) w' /\ w_received w' = w_received w /\
    w_pool w' = w_pool w) w.
Proof.
  induction cs as [|n cs IH]; intros c w Hr Hc Hcs Ht; cbn [receive_all foldr total] in *.
  - apply wp_ret. by rewrite Z.add_0_r.
  - apply Forall_cons in Hcs as [Hn Hcs]. fold (total cs) in *.
    assert (0 <= total cs) as Htot.
    { clear -Hcs. induction Hcs as [|x xs Hx _ IH]; cbn; [lia|]. unfold total in IH. lia. }
    apply wp_bind. eapply (wp_mono _ _ _ _ (chunk_continues c n w Hr Hc Hn _)). Unshelve. 2: lia.
    intros _ w1 (Hr1 & E1 & E2). fold (receive_all cs).
    eapply (wp_mono _ _ _ _ (IH (c + n) w1 Hr1 _ Hcs _)). Unshelve. 2, 3: lia.
    intros _ w2 (Hr2 & E3 & E4). rewrite Z.add_assoc. split_and!; [done|congruence..].
Qed.
End chunks.

(** What a break leaves alone when it starts a reception. *)
Lemma start_reception_keeps w :
  (forall e, e ∈ w_pool w -> exists f, w_frames w !! e = Some f /\ frame_wf f) ->
  wp (start_reception timer) (fun _ w' => w_received w' = w_received w /\
    forall e, e ∉ w_pool w -> w_frames w' !! e = w_frames w !! e) w.
Proof.
  intros Hpool. unfold start_reception. apply wp_bind, wp_the_port, wp_bind.
  apply (wp_mono _ (fun _ w' => exists a us c, w' = port_is (set_timer a us c (w_port w)) w)).
  { apply wp_when; intros _.
    - apply wp_bind, stop_timer_spec. intros a us c. apply start_timer_spec. eauto.
    - exists (tm_active (w_port w)), (tm_us (w_port w)), (tm_call (w_port w)). by destruct w as [[] ? ? ? ?]. }
  intros _ w1 (a & us & c & ->). apply wp_bind. unfold wp at 1, dmx512_get_frame. cbn [w_pool port_is].
  destruct (w_pool w) as [|e p] eqn:Hp; [apply wp_bind, wp_with_port, wp_ret; done|].
  apply wp_bind, wp_with_port, wp_bind, wp_with_port, wp_bind. unfold edit_frame, the_frame.
  destruct (Hpool e ltac:(set_solver)) as (f & Hf & Hw).
  apply wp_bind, wp_bind, wp_get. cbn [w_frames port_is]. rewrite Hf. apply wp_ret, wp_bind.
  destruct (store_all_spec f 0 (replicate DATA_SIZE 0xCE) Hw) as (d & E & _); [done|done|by apply Forall_replicate; unfold octet|].
  rewrite E. eapply wp_done; [reflexivity|]. unfold put_contents. apply wp_modify.
  assert (forall e', e' ∉ e :: p -> <[e := with_data d f]> (w_frames w) !! e' = w_frames w !! e') as Hkeep.
  { intros e' He'. rewrite lookup_insert_ne; [done|]. intros ->. apply He'. left. }
  destruct (decide _); unfold next_state; apply wp_bind, wp_bind, wp_with_port, wp_with_port, wp_with_uart; by split.
Qed.

(** A break in an idle port starts a DMX512 reception. *)
Lemma break_starts o e f l p w :
  client_inv o w -> up_state (w_port w) = IDLE -> w_pool w = e :: p -> w_frames w !! e = Some f -> f_flags f = 0 ->
  l_locked (rx_lock (w_port w)) = false -> pending (w_uart w) = l ->
  wp (dmx512rtuart_line_status_event timer RTUART_EVENT_BREAK)
    (fun _ w' => receiving_dmx o e l 0 w' /\ w_received w' = w_received w /\ w_pool w' = p) w.
Proof.
  intros HI Hs Hp Hf Hfl Hlk Hpend. pose proof (line_status_safe timer o RTUART_EVENT_BREAK w HI) as H1.
  destruct HI as (Hh & Hrx & _). assert (rx_frame (w_port w) = None) as Hno.
  { unfold rx_ok in Hrx. destruct (rx_frame (w_port w)); [|done]. rewrite Hs in Hrx. by destruct Hrx. }
  assert (wp (dmx512rtuart_line_status_event timer RTUART_EVENT_BREAK) (fun _ w' =>
    up_state (w_port w') = EXPECT_STARTCODE /\ rx_frame (w_port w') = Some e /\ rx_count (w_port w') = 0 /\
    rx_expected (w_port w') = 512 /\ rx_lock (w_port w') = rx_lock (w_port w) /\ pending (w_uart w') = l /\
    (exists f', w_frames w' !! e = Some f' /\ f_flags f' = 0) /\ w_received w' = w_received w /\ w_pool w' = p) w) as H2.
  { unfold dmx512rtuart_line_status_event. apply wp_bind, wp_the_port. rewrite Hs. change (in_tx_state IDLE) with false. cbv iota.
    change (has RTUART_EVENT_BREAK RTUART_EVENT_BREAK) with true. cbn [when]. apply wp_bind. unfold handle_break. apply wp_bind, wp_the_port.
    rewrite Hno, Hs. rewrite bool_decide_eq_false_2 by (intros [? [=]]). rewrite andb_false_r. cbn [andb when].
    apply wp_bind, wp_ret, wp_bind, wp_the_port. rewrite Hs. unfold start_reception. apply wp_bind, wp_the_port. rewrite Hs.
    change (bool_decide (IDLE = EXPECT_RDM_FRAME)) with false. cbn [when]. apply wp_bind, wp_ret, wp_bind.
    unfold wp at 1, dmx512_get_frame. rewrite Hp. apply wp_bind, wp_with_port, wp_bind, wp_with_port, wp_bind. unfold edit_frame, the_frame.
    assert (e ∈ o) as Hin by (rewrite <- (h_owned _ _ _ Hh); unfold owned; rewrite Hp; set_solver).
    destruct (h_good _ _ _ Hh e Hin) as (f0 & Hf0 & Hw & _). rewrite Hf in Hf0. injection Hf0 as <-.
    apply wp_bind, wp_bind, wp_get. cbn [w_frames]. rewrite Hf. apply wp_ret, wp_bind.
    destruct (store_all_spec f 0 (replicate DATA_SIZE 0xCE) Hw) as (d & E & _); [done|done|by apply Forall_replicate; unfold octet|].
    rewrite E. eapply wp_done; [reflexivity|]. unfold put_contents. apply wp_modify. rewrite decide_False by done.
    unfold next_state. apply wp_bind, wp_bind, wp_with_port, wp_with_port, wp_with_uart, wp_with_uart. cbn.
    rewrite !input_enable, lookup_insert_eq. split_and!; try done. by eexists. }
  eapply (wp_mono _ _ _ _ (wp_and _ _ _ _ H1 H2)).
  intros _ w' (HI' & E1 & E2 & E3 & E4 & E5 & E6 & (f' & Ef & Efl) & E7 & E8). split; [|done].
  split; try done; [by rewrite E5|]. by exists f'.
Qed.

(** C15: A whole DMX512 frame is received: after a break the octets come in
    chunks of any sizes, and when 513 of them are there the frame, whose
    slots are exactly these octets in order, is delivered with 512 channels
    and the port is idle. *)
Theorem dmx_frame_received o e f l p cs n w :
  client_inv o w -> up_state (w_port w) = IDLE -> w_pool w = e :: p -> w_frames w !! e = Some f -> f_flags f = 0 ->
  l_locked (rx_lock (w_port w)) = false -> pending (w_uart w) = l -> (513 <= length l)%nat -> l !! 0%nat = Some 0 ->
  Forall (fun n => 0 < n < 2 ^ 31) cs -> 0 < n < 2 ^ 31 -> 0 <= total cs < 513 -> 513 <= total cs + n ->
  wp (dmx512rtuart_line_status_event timer RTUART_EVENT_BREAK ;; receive_all cs ;; dmx512rtuart_receiver_data_available timer n)
    (fun _ w' => client_inv o w' /\ up_state (w_port w') = IDLE /\ w_received w' = w_received w ++ [e] /\
      exists f', w_frames w' !! e = Some f' /\ f_payload_size f' = 512 /\ octets 513 f' = take 513 l) w.
Proof.
  intros HI Hs Hp Hf Hfl Hlk Hpend Hlen Hstart Hcs Hn Ht Htn.
  apply wp_bind. eapply (wp_mono _ _ _ _ (break_starts o e f l p w HI Hs Hp Hf Hfl Hlk Hpend)).
  intros _ w1 (Hr1 & E1 & _). apply wp_bind.
  eapply wp_mono; [eapply (chunks_continue o e l Hlen Hstart cs 0 w1 Hr1); [lia|done|lia]|].
  intros _ w2 (Hr2 & E2 & _). rewrite Z.add_0_l in Hr2.
  eapply wp_mono; [eapply (chunk_completes o e l Hlen (total cs) n w2 Hr2); lia|].
  intros _ w3 (HI3 & Hs3 & Hrec & _ & Hf3). rewrite Hrec, E2, E1. by split_and!.
Qed.

(** The next break ends a frame of fewer slots: it is delivered with the
    octets that arrived and the number of its channels. *)
Theorem break_delivers_short_frame o e f l p cs w :
  client_inv o w -> up_state (w_port w) = IDLE -> w_pool w = e :: p -> w_frames w !! e = Some f -> f_flags f = 0 ->
  l_locked (rx_lock (w_port w)) = false -> pending (w_uart w) = l -> (513 <= length l)%nat -> l !! 0%nat = Some 0 ->
  Forall (fun n => 0 < n < 2 ^ 31) cs -> 0 < total cs < 513 ->
  wp (dmx512rtuart_line_status_event timer RTUART_EVENT_BREAK ;; receive_all cs ;; dmx512rtuart_line_status_event timer RTUART_EVENT_BREAK)
    (fun _ w' => w_received w' = w_received w ++ [e] /\
      exists f', w_frames w' !! e = Some f' /\ f_payload_size f' = total cs - 1 /\
        octets (total cs) f' = take (Z.to_nat (total cs)) l) w.
Proof.
  intros HI Hs Hp Hf Hfl Hlk Hpend Hlen Hstart Hcs Ht.
  apply wp_bind. eapply (wp_mono _ _ _ _ (break_starts o e f l p w HI Hs Hp Hf Hfl Hlk Hpend)).
  intros _ w1 (Hr1 & E1 & _). apply wp_bind.
  eapply wp_mono; [eapply (chunks_continue o e l Hlen Hstart cs 0 w1 Hr1); [lia|done|lia]|].
  intros _ w2 (Hr2 & E2 & _). rewrite Z.add_0_l in Hr2. destruct Hr2 as [(Hh2 & _) Hs2 He2 Hc2 _ _ (f2 & Hf2 & _ & Ho2) _].
  rewrite (proj2 (Z.eqb_neq _ _)) in Hs2 by lia.
  unfold dmx512rtuart_line_status_event. apply wp_bind, wp_the_port. rewrite Hs2. change (in_tx_state _) with false. cbv iota.
  change (has RTUART_EVENT_BREAK RTUART_EVENT_BREAK) with true. cbn [when]. apply wp_bind. unfold handle_break. apply wp_bind, wp_the_port.
  rewrite He2, Hs2, bool_decide_eq_true_2 by by eexists. change (bool_decide (RECEIVE_DMXDATA = EXPECT_STARTCODE)) with false. cbn [andb negb].
  change (state_num RECEIVE_DMXDATA <=? state_num RECEIVE_DMXDATA) with true. cbn [andb when].
  apply wp_bind. eapply (flush_reception_spec [] o e); [exact Hh2|done|lia|]. rewrite Hs2. change (in_rx_state _) with true. cbv iota.
  intros w3 lk Hh3 Hlk3 Hp3 Hf3 Hr3 Hpool3 Hu3. apply wp_bind, wp_the_port. rewrite Hp3. cbn [up_state set_state].
  assert (e ∉ w_pool w3) as Hnp.
  { rewrite Hpool3. pose proof (h_nodup _ _ _ Hh2) as Hnd. rewrite <- (h_owned _ _ _ Hh2) in Hnd. unfold owned in Hnd. rewrite He2 in Hnd.
    cbn [app] in Hnd. apply NoDup_app in Hnd as (_ & Hnd & _). intros Hin. apply (Hnd e Hin). rewrite !elem_of_app. set_solver. }
  eapply wp_mono; [apply start_reception_keeps|].
  { intros e' He'. destruct (h_good _ _ _ Hh3 e') as (f' & ? & ? & _); [|by eauto]. rewrite <- (h_owned _ _ _ Hh3). unfold owned. set_solver. }
  intros _ w4 [Hr4 Hf4]. apply wp_with_uart. cbn. rewrite Hr4, Hr3, E2, E1. split; [done|].
  rewrite Hf4, Hf3, lookup_partial_alter_eq, Hf2 by done. cbn. eexists. split; [done|]. rewrite Hc2, u16_small by lia. by split.
Qed.
End reception.

Definition dmx_stream : list Z := 0 :: (Z.of_nat <$> seq 0 256) ++ (Z.of_nat <$> seq 0 256).

Lemma dmx_frame_received_witness :
  wp (dmx512rtuart_line_status_event true RTUART_EVENT_BREAK ;; receive_all true (replicate 32 16) ;; dmx512rtuart_receiver_data_available true 16)
    (fun _ w' => client_inv (seq 0 2) w' /\ up_state (w_port w') = IDLE /\ w_received w' = [0%nat] /\
      exists f', w_frames w' !! 0%nat = Some f' /\ f_payload_size f' = 512 /\ octets 513 f' = take 513 (u8 <$> dmx_stream)) (idle_world 2 dmx_stream).
Proof.
  apply (dmx_frame_received true (seq 0 2) 0 zero_frame (u8 <$> dmx_stream) [1%nat] (replicate 32 16) 16 (idle_world 2 dmx_stream));
    first [apply idle_world_inv|by repeat constructor|done|vm_compute; lia].
Defined.
Lemma break_delivers_short_frame_witness :
  wp (dmx512rtuart_line_status_event true RTUART_EVENT_BREAK ;; receive_all true [16; 9] ;; dmx512rtuart_line_status_event true RTUART_EVENT_BREAK)
    (fun _ w' => w_received w' = [0%nat] /\
      exists f', w_frames w' !! 0%nat = Some f' /\ f_payload_size f' = 24 /\ octets 25 f' = take 25 (u8 <$> dmx_stream)) (idle_world 2 dmx_stream).
Proof.
  apply (break_delivers_short_frame true (seq 0 2) 0 zero_frame (u8 <$> dmx_stream) [1%nat] [16; 9] (idle_world 2 dmx_stream));
    first [apply idle_world_inv|by repeat constructor|done|vm_compute; lia].
Defined.

(** ** Locking on the slot count *)

Section locking.
Context {U : Type} `{Uart U}.
Implicit Types w : world U.

(** [m] equal frames have been counted since the first. *)
Definition counting (s r m : Z) (l : slot_lock) : Prop :=
  l_locked l = false /\ l_required l = r /\ l_matching_frames l = m /\ l_matching_slots l = s.

Lemma lock_step e f (Q : unit -> world U -> Prop) w :
  rx_frame (w_port w) = Some e -> w_frames w !! e = Some f -> frame_wf f -> slot f 0 = 0 ->
  Q tt (let l := rx_lock (w_port w) in let size := f_payload_size f in
    if l_locked l && (size =? l_matching_slots l) then w else
    port_is (set_lock
      (if l_locked l then SlotLock (l_enabled l) false (l_required l) 0 (size mod 2 ^ 10)
       else if size =? l_matching_slots l then
         SlotLock (l_enabled l) (l_required l =? (l_matching_frames l + 1) mod 2 ^ 6) (l_required l)
           ((l_matching_frames l + 1) mod 2 ^ 6) (l_matching_slots l)
       else SlotLock (l_enabled l) false (l_required l) 0 (size mod 2 ^ 10)) (w_port w)) w) ->
  wp dmx512_uart_update_automatic_framecount_locking Q w.
Proof.
  intros He Hf Hw Hz HQ. unfold dmx512_uart_update_automatic_framecount_locking. apply wp_bind, wp_the_port. rewrite He.
  apply wp_bind. unfold the_frame. apply wp_bind, wp_get. rewrite Hf. apply wp_ret.
  apply wp_bind. eapply wp_done; [unfold lift_outcome; rewrite peek_slot by (done || lia); done|]. rewrite Hz. cbn [Z.eqb negb].
  cbv zeta in *. destruct (l_locked (rx_lock (w_port w))) eqn:Hl; cbn [andb] in HQ.
  - destruct (f_payload_size f =? l_matching_slots (rx_lock (w_port w))); cbn [negb]; [by apply wp_ret|by apply wp_with_port].
  - destruct (f_payload_size f =? l_matching_slots (rx_lock (w_port w))); apply wp_with_port; [|exact HQ].
    by destruct (l_required _ =? _).
Qed.

Lemma lock_counts e f r n : forall m (Q : unit -> world U -> Prop) w,
  rx_frame (w_port w) = Some e -> w_frames w !! e = Some f -> frame_wf f -> slot f 0 = 0 ->
  0 <= m -> m + Z.of_nat n <= r -> r < 64 -> counting (f_payload_size f) r m (rx_lock (w_port w)) ->
  (forall w', rx_frame (w_port w') = Some e -> w_frames w' = w_frames w ->
     l_locked (rx_lock (w_port w')) = (m + Z.of_nat n =? r) && (0 <? Z.of_nat n) ->
     l_matching_slots (rx_lock (w_port w')) = f_payload_size f -> Q tt w') ->
  wp (times n dmx512_uart_update_automatic_framecount_locking) Q w.
Proof.
  induction n as [|n IH]; intros m Q w He Hf Hw Hz Hm Hn Hr (Hl & Hreq & Hmf & Hms) HQ; cbn [times].
  - apply wp_ret, HQ; try done. by rewrite andb_false_r.
  - apply wp_bind. eapply lock_step; [done..|]. cbv zeta. rewrite Hl, Hreq, Hmf, Hms, Z.eqb_refl. cbn [andb].
    rewrite (Z.mod_small (m + 1)) by lia. set (w1 := port_is _ _).
    destruct n as [|n].
    + apply wp_ret, HQ; try done. cbn. rewrite Z.eqb_sym, andb_true_r. done.
    + apply (IH (m + 1)); try done; try lia.
      * split_and!; try done. apply Z.eqb_neq. lia.
      * intros w' E1 E2 E3 E4. apply HQ; try done. rewrite E3. rewrite !(proj2 (Z.ltb_lt 0 _)), !andb_true_r by lia.
        f_equal. lia.
Qed.

(** The slot count locks in when it repeats: of frames with the same
    size and start code 0 the first is remembered, and exactly the
    [required_count]-th repetition locks the receiver to their size; no
    earlier one does. *)
Theorem slot_count_locks e f k w :
  rx_frame (w_port w) = Some e -> w_frames w !! e = Some f -> frame_wf f -> slot f 0 = 0 -> 0 <= f_payload_size f <= 512 ->
  l_locked (rx_lock (w_port w)) = false -> l_matching_slots (rx_lock (w_port w)) <> f_payload_size f ->
  1 <= l_required (rx_lock (w_port w)) < 64 -> Z.of_nat k <= l_required (rx_lock (w_port w)) ->
  wp (times (S k) dmx512_uart_update_automatic_framecount_locking) (fun _ w' =>
    l_locked (rx_lock (w_port w')) = (Z.of_nat k =? l_required (rx_lock (w_port w))) /\
    l_matching_slots (rx_lock (w_port w')) = f_payload_size f) w.
Proof.
  intros He Hf Hw Hz Hs Hl Hne Hr Hk. cbn [times]. apply wp_bind. eapply lock_step; [done..|]. cbv zeta.
  rewrite Hl, (proj2 (Z.eqb_neq (f_payload_size f) _)) by done. cbn [andb]. rewrite Z.mod_small by lia.
  eapply (lock_counts e f (l_required (rx_lock (w_port w))) k 0); try done; try lia.
  intros w' _ _ E1 E2. split; [|done]. rewrite E1, Z.add_0_l. destruct (Z.eqb_spec (Z.of_nat k) (l_required (rx_lock (w_port w)))); [|done].
  cbn [andb]. lia.
Qed.
End locking.

(** A client that is receiving frame 0, of 24 channels. *)
Definition locking_world : world wire :=
  let w := idle_world 2 [] in
  World (set_rx (Some 0%nat) Null 0 (w_port w)) (w_uart w)
    (<[0%nat := with_payload_size 24 zero_frame]> (w_frames w)) [1%nat] [].
Lemma slot_count_locks_witness :
  wp (times 11 dmx512_uart_update_automatic_framecount_locking) (fun _ w' =>
    l_locked (rx_lock (w_port w')) = (10 =? 10) /\ l_matching_slots (rx_lock (w_port w')) = 24) locking_world.
Proof.
  apply (slot_count_locks 0%nat (with_payload_size 24 zero_frame) 10 locking_world);
    first [apply zero_frame_wf|done|cbn; lia].
Defined.

(** ** Where the client does not do what it means to *)

(** A script: octets arrive and events happen, in turns.  It starts from an
    idle client whose pool has two entries. *)
Definition feed (input : list Z) : prog (world wire) unit :=
  modify (fun w => World (w_port w) (Wire (arriving (w_uart w) ++ input) (sent (w_uart w))) (w_frames w) (w_pool w) (w_received w)).
Definition script (parts : list (list Z * list event)) : outcome (unit * world wire) :=
  foldr (fun '(input, evs) m => feed input ;; run true 1 evs ;; m) (mret tt) parts (idle_world 2 []).

(** The length octet of an RDM frame is believed: when it is smaller
    than what has been read of the frame, the number of octets that are left
    is negative, and the next callback asks the UART for 2^64 - 12 octets,
    so that whatever the line sends is written past the end of the frame. *)
Theorem short_rdm_length_overruns :
  script [([0xCC; 1; 2] ++ repeat 0 600, [EvLine 8; EvReceive 16; EvReceive 16])] = Fault OutOfBounds.
Proof. vm_compute. reflexivity. Qed.

Definition discovery_request : dmx512frame :=
  with_payload_size 37 (with_data ([0xCC; 1; 36] ++ repeat 0 17 ++ [0x10; 0; 1; 12] ++ repeat 0 489) zero_frame).
Definition get_request : dmx512frame :=
  with_payload_size 25 (with_data ([0xCC; 1; 24] ++ repeat 0 17 ++ [0x20] ++ repeat 0 492) zero_frame).
Definition request_sent (f : dmx512frame) : list event :=
  [EvSend 7 f; EvEmpty; EvSpace (-1); EvSpace (-1); EvSpace (-1); EvSpace (-1); EvSpace (-1); EvEmpty].

(** A preamble without end overruns the frame: the octets of a discovery
    reply are not counted against the buffer, which 16 chunks of 16 octets
    fill and the next one leaves. *)
Theorem endless_preamble_overruns :
  (exists w, script [([], request_sent discovery_request); (repeat 0xFE 272, replicate 16 (EvReceive 16))] = Done (tt, w)) /\
  script [([], request_sent discovery_request); (repeat 0xFE 272, replicate 17 (EvReceive 16))] = Fault OutOfBounds.
Proof. split; [eexists|]; vm_compute; reflexivity. Qed.

(** An octet before the break of an RDM reply wedges the transmitter: the
    port goes idle but keeps the request, the timeout of the request does
    nothing in the idle state, and every later frame is dropped. *)
Theorem early_octet_wedges_the_port :
  exists w, script [([], request_sent get_request); ([0x55], [EvReceive 1; EvTimer; EvPeriodical; EvSend 8 demo_frame])] = Done (tt, w) /\
    up_state (w_port w) = IDLE /\ tx_frame (w_port w) = Some 7%nat /\ 8%nat ∈ w_pool w /\
    sent (w_uart w) = [Baud 83333; Octet 0; Baud 250000] ++ (Octet <$> octets 26 get_request).
Proof. eexists. split; [vm_compute; reflexivity|]. cbn. split_and!; try done. set_solver. Qed.

(** The flags of an entry outlive its frame: a DMX512 frame that is
    received in an entry that carried an RDM frame before, and whose first
    channel is 1, is taken for RDM, and its second channel for the length. *)
Theorem stale_flags_cut_a_frame :
  exists w f, script [([], [EvSupply 2 (with_flags DMX512_FLAG_IS_RDM zero_frame); EvLine 8; EvLine 8]);
                      ([], [EvSend 7 demo_frame; EvEmpty; EvSpace (-1); EvSpace (-1); EvSpace (-1); EvSpace (-1); EvEmpty; EvLine 8]);
                      ([0; 7; 7] ++ repeat 7 510, [EvReceive 513; EvLine 8]);
                      ([0; 1; 30] ++ repeat 7 510, [EvReceive 16; EvReceive 16])] = Done (tt, w) /\
    w_frames w !! 2%nat = Some f /\ last (w_received w) = Some 2%nat /\ f_payload_size f = 31.
Proof. eexists. eexists. split; [vm_compute; reflexivity|]. vm_compute. done. Qed.
