(* ===== verification/Bus.v ===== *)
(** * Register buses

    [src/uio-testbench/bus]: a UART is reached over a bus with 8, 16 and 32
    bit registers.  [rtuart_bus.c] calls the operations of a bus if it has
    them; [dummy_bus.c] is a bus without hardware, an array of registers that
    behaves like those of a 16550, and is refined here by a register file.
    The class [Bus] is what the drivers of the chips use. *)
From stdpp Require Import base countable list.
From S2P Require Import Prelude.

(** ** Dispatch: rtuart_bus.c *)

(** [struct rtuart_bus_ops]; a null pointer is [None].  A read gives the value
    it stores and, like a write, the result 0. *)
Record rtuart_bus_ops (B : Type) := BusOps {
  read_u8 : option (Z -> prog B Z);
  write_u8 : option (Z -> Z -> prog B unit);
  read_u16 : option (Z -> prog B Z);
  write_u16 : option (Z -> Z -> prog B unit);
  read_u32 : option (Z -> prog B Z);
  write_u32 : option (Z -> Z -> prog B unit);
  cleanup : option (prog B unit);
  irq_pending : option (prog B Z) }.
Arguments read_u8 {B}. Arguments write_u8 {B}. Arguments read_u16 {B}. Arguments write_u16 {B}.
Arguments read_u32 {B}. Arguments write_u32 {B}. Arguments cleanup {B}. Arguments irq_pending {B}.

Section dispatch.
Context {B : Type} (ops : rtuart_bus_ops B).

(** [None] is the result -1, with which nothing is stored. *)
Definition bus_read (op : option (Z -> prog B Z)) (reg : Z) : prog B (option Z) :=
  match op with Some read => v ← read reg; mret (Some v) | None => mret None end.
Definition bus_write (op : option (Z -> Z -> prog B unit)) (reg value : Z) : prog B Z :=
  match op with Some write => write reg value ;; mret 0 | None => mret (-1) end.
Definition rtuart_bus_read_u8 (reg : Z) : prog B (option Z) := bus_read (read_u8 ops) reg.
Definition rtuart_bus_read_u16 (reg : Z) : prog B (option Z) := bus_read (read_u16 ops) reg.
Definition rtuart_bus_read_u32 (reg : Z) : prog B (option Z) := bus_read (read_u32 ops) reg.
Definition rtuart_bus_write_u8 (reg value : Z) : prog B Z := bus_write (write_u8 ops) reg (u8 value).
Definition rtuart_bus_write_u16 (reg value : Z) : prog B Z := bus_write (write_u16 ops) reg (u16 value).
Definition rtuart_bus_write_u32 (reg value : Z) : prog B Z := bus_write (write_u32 ops) reg (u64 value).
Definition rtuart_bus_irq_pending : prog B (option Z) :=
  match irq_pending ops with Some pending => v ← pending; mret (Some v) | None => mret None end.
End dispatch.

(** ** The bus without hardware: dummy_bus.c *)

Definition REGNO_RBR : Z := 0.
Definition REGNO_THR : Z := 0.
Definition REGNO_IER : Z := 1.
Definition REGNO_IIR : Z := 2.
Definition REGNO_FCR : Z := 8 + 2.
Definition REGNO_LCR : Z := 3.
Definition REGNO_MCR : Z := 4.
Definition REGNO_LSR : Z := 5.
Definition REGNO_MSR : Z := 6.
Definition REGNO_SCRATCH : Z := 7.
Definition REGNO_DLAB_LSB : Z := 8 + 0.
Definition REGNO_DLAB_MSB : Z := 8 + 1.

(** [struct dummy_bus]: 0x3f registers. *)
Record dummy_bus := DummyBus { register_values : list Z }.
Definition REGISTER_COUNT : nat := 0x3f.

Definition set_reg (i v : Z) (regs : list Z) : outcome (list Z) := store i (u8 v) regs.
Definition dummy_bus_init_internal_registers (regs : list Z) : outcome (list Z) :=
  regs ← set_reg REGNO_RBR 0 regs;
  regs ← set_reg REGNO_THR 0 regs;
  regs ← set_reg REGNO_IER 0 regs;
  regs ← set_reg REGNO_IIR 1 regs;
  regs ← set_reg REGNO_FCR 0 regs;
  regs ← set_reg REGNO_LCR 0 regs;
  regs ← set_reg REGNO_MCR 0 regs;
  regs ← set_reg REGNO_LSR 0x60 regs;
  regs ← set_reg REGNO_MSR 0 regs;
  regs ← set_reg REGNO_SCRATCH 0 regs;
  regs ← set_reg REGNO_DLAB_LSB 0 regs;
  set_reg REGNO_DLAB_MSB 0 regs.

Definition dummy_bus_read_internal_reg (regs : list Z) (regno : Z) : outcome Z := load regs regno.
Definition dummy_bus_write_internal_reg (regs : list Z) (regno value : Z) : outcome (list Z) :=
  if regno =? REGNO_THR then set_reg regno value regs
  else if regno =? REGNO_IIR then set_reg REGNO_FCR value regs
  else set_reg regno value regs.

(** The divisor latches are behind the first two registers. *)
Definition dlab (bus : dummy_bus) : outcome bool :=
  lcr ← load (register_values bus) REGNO_LCR; Done (has lcr 0x80).
Definition dummy_bus_read_reg (bus : dummy_bus) (regno : Z) : outcome Z :=
  d ← dlab bus;
  dummy_bus_read_internal_reg (register_values bus) (if (d : bool) && (regno <=? 1) then regno + 8 else regno).
Definition dummy_bus_write_reg (bus : dummy_bus) (regno value : Z) : outcome dummy_bus :=
  d ← dlab bus;
  regs ← dummy_bus_write_internal_reg (register_values bus) (if (d : bool) && (regno <=? 1) then regno + 8 else regno) value;
  Done (DummyBus regs).

Definition dummy_read (reg : Z) : prog dummy_bus Z := fun bus => v ← dummy_bus_read_reg bus reg; Done (v, bus).
Definition dummy_write (reg value : Z) : prog dummy_bus unit := fun bus => bus ← dummy_bus_write_reg bus reg value; Done (tt, bus).
Definition dummy_read_u8 : Z -> prog dummy_bus Z := dummy_read.
Definition dummy_read_u16 : Z -> prog dummy_bus Z := dummy_read.
Definition dummy_read_u32 : Z -> prog dummy_bus Z := dummy_read.
(** The registers take the low octet of what is written. *)
Definition dummy_write_u8 : Z -> Z -> prog dummy_bus unit := dummy_write.
Definition dummy_write_u16 (reg value : Z) : prog dummy_bus unit := dummy_write reg (u8 value).
Definition dummy_write_u32 (reg value : Z) : prog dummy_bus unit := dummy_write reg (u8 value).

Definition uart_dummy_bus_ops : rtuart_bus_ops dummy_bus :=
  BusOps dummy_bus (Some dummy_read_u8) (Some dummy_write_u8) (Some dummy_read_u16) (Some dummy_write_u16)
    (Some dummy_read_u32) (Some dummy_write_u32) (Some (mret tt)) None.
(** What [malloc] gives is not initialised: [garbage]. *)
Definition dummy_bus_create (malloc_ok : bool) (garbage : list Z) : outcome (option dummy_bus) :=
  if malloc_ok then regs ← dummy_bus_init_internal_registers garbage; Done (Some (DummyBus regs)) else Done None.

(** ** The register file that it stands for *)

Record registers := Registers {
  r_data : Z; r_ier : Z; r_iir : Z; r_fcr : Z; r_lcr : Z; r_mcr : Z; r_lsr : Z; r_msr : Z; r_scr : Z;
  r_dll : Z; r_dlm : Z }.
Definition spec_read (r : Z) (s : registers) : Z :=
  if r =? 0 then if has (r_lcr s) 0x80 then r_dll s else r_data s
  else if r =? 1 then if has (r_lcr s) 0x80 then r_dlm s else r_ier s
  else if r =? 2 then r_iir s else if r =? 3 then r_lcr s else if r =? 4 then r_mcr s
  else if r =? 5 then r_lsr s else if r =? 6 then r_msr s else r_scr s.
Definition spec_write (r v : Z) (s : registers) : registers :=
  let '(Registers d ier iir fcr lcr mcr lsr msr scr dll dlm) := s in
  if r =? 0 then if has lcr 0x80 then Registers d ier iir fcr lcr mcr lsr msr scr v dlm else Registers v ier iir fcr lcr mcr lsr msr scr dll dlm
  else if r =? 1 then if has lcr 0x80 then Registers d ier iir fcr lcr mcr lsr msr scr dll v else Registers d v iir fcr lcr mcr lsr msr scr dll dlm
  else if r =? 2 then Registers d ier iir v lcr mcr lsr msr scr dll dlm
  else if r =? 3 then Registers d ier iir fcr v mcr lsr msr scr dll dlm
  else if r =? 4 then Registers d ier iir fcr lcr v lsr msr scr dll dlm
  else if r =? 5 then Registers d ier iir fcr lcr mcr v msr scr dll dlm
  else if r =? 6 then Registers d ier iir fcr lcr mcr lsr v scr dll dlm
  else Registers d ier iir fcr lcr mcr lsr msr v dll dlm.

Definition reg_at (b : dummy_bus) (i : nat) : Z := default 0 (register_values b !! i).
Definition registers_of (b : dummy_bus) : registers :=
  Registers (reg_at b 0) (reg_at b 1) (reg_at b 2) (reg_at b 10) (reg_at b 3) (reg_at b 4) (reg_at b 5) (reg_at b 6) (reg_at b 7)
    (reg_at b 8) (reg_at b 9).
Definition dummy_wf (b : dummy_bus) : Prop := length (register_values b) = REGISTER_COUNT.

Lemma load_reg b i : dummy_wf b -> 0 <= i < 63 -> load (register_values b) i = Done (reg_at b (Z.to_nat i)).
Proof.
  intros Hb Hi. unfold dummy_wf, REGISTER_COUNT in Hb. destruct (lookup_lt_is_Some_2 (register_values b) (Z.to_nat i)) as [v Hv]; [lia|].
  pose proof (load_nat _ _ v Hv) as E. rewrite Z2Nat.id in E by lia. unfold reg_at. by rewrite E, Hv.
Qed.
Lemma store_reg b i v : dummy_wf b -> 0 <= i < 63 ->
  exists b', store i v (register_values b) = Done (register_values b') /\ dummy_wf b' /\
    forall k, reg_at b' k = if decide (k = Z.to_nat i) then v else reg_at b k.
Proof.
  intros Hb Hi. unfold dummy_wf, REGISTER_COUNT in Hb. pose proof (store_nat (register_values b) (Z.to_nat i) v) as E. rewrite Z2Nat.id in E by lia. rewrite E by lia.
  exists (DummyBus (<[Z.to_nat i := v]> (register_values b))). split; [done|]. split; [unfold dummy_wf; cbn; by rewrite length_insert|].
  intros k. unfold reg_at. cbn. destruct (decide (k = Z.to_nat i)) as [->|].
  - by rewrite list_lookup_insert_eq by lia.
  - by rewrite list_lookup_insert_ne by done.
Qed.

Lemma dummy_read_spec b r : dummy_wf b -> 0 <= r <= 7 -> dummy_bus_read_reg b r = Done (spec_read r (registers_of b)).
Proof.
  intros Hb Hr. unfold dummy_bus_read_reg, dlab, dummy_bus_read_internal_reg. rewrite load_reg by (done || (unfold REGNO_LCR; lia)).
  cbn [mbind outcome_bind]. change (reg_at b (Z.to_nat REGNO_LCR)) with (reg_at b 3).
  assert (r = 0 \/ r = 1 \/ r = 2 \/ r = 3 \/ r = 4 \/ r = 5 \/ r = 6 \/ r = 7) as Hcase by lia.
  destruct Hcase as [-> | [-> | [-> | [-> | [-> | [-> | [-> | ->]]]]]]]; unfold spec_read; cbn [r_lcr registers_of];
    destruct (has (reg_at b 3) 128); cbn [andb Z.leb Z.compare Pos.compare Pos.compare_cont]; by rewrite load_reg by (done || lia).
Qed.

Lemma dummy_write_spec b r v : dummy_wf b -> 0 <= r <= 7 -> 0 <= v < 256 ->
  exists b', dummy_bus_write_reg b r v = Done b' /\ dummy_wf b' /\ registers_of b' = spec_write r v (registers_of b).
Proof.
  intros Hb Hr Hv. unfold dummy_bus_write_reg, dlab. rewrite load_reg by (done || (unfold REGNO_LCR; lia)).
  cbn [mbind outcome_bind]. change (reg_at b (Z.to_nat REGNO_LCR)) with (reg_at b 3).
  unfold dummy_bus_write_internal_reg, set_reg. assert (u8 v = v) as -> by by apply Z.mod_small.
  set (i := if has (reg_at b 3) 0x80 && (r <=? 1) then r + 8 else r).
  assert (exists j, 0 <= j < 63 /\ (if i =? REGNO_THR then store i v (register_values b) else if i =? REGNO_IIR then store REGNO_FCR v (register_values b)
    else store i v (register_values b)) = store j v (register_values b) /\ j = if i =? REGNO_IIR then REGNO_FCR else i) as (j & Hj & -> & Ej).
  { exists (if i =? REGNO_IIR then REGNO_FCR else i). unfold i, REGNO_IIR, REGNO_FCR, REGNO_THR.
    destruct (has _ _); cbn [andb]; [destruct (Z.leb_spec r 1)|]; repeat case_match; split_and!; done || lia. }
  destruct (store_reg b j v Hb Hj) as (b' & -> & Hb' & Hreg). cbn [mbind outcome_bind]. eexists. split; [done|].
  destruct b' as [regs]. split; [done|]. unfold registers_of, spec_write. cbn [register_values]. rewrite !Hreg. clear Hreg.
  assert (r = 0 \/ r = 1 \/ r = 2 \/ r = 3 \/ r = 4 \/ r = 5 \/ r = 6 \/ r = 7) as Hcase by lia. unfold i in Ej. clear i.
  destruct Hcase as [-> | [-> | [-> | [-> | [-> | [-> | [-> | ->]]]]]]]; destruct (has (reg_at b 3) 128); cbn in Ej; subst j; reflexivity.
Qed.

(** The dummy bus is the register file of a 16550: reads and writes of
    the eight register numbers, at any of the three widths, never leave the
    array and act on the registers as the chip's do, the divisor latches
    being behind the first two while bit 7 of LCR is set and writes to IIR
    going to FCR. *)
Theorem dummy_bus_refines_registers b r v :
  dummy_wf b -> 0 <= r <= 7 -> 0 <= v < 256 ->
  Forall (fun read => read r b = Done (spec_read r (registers_of b), b)) [dummy_read_u8; dummy_read_u16; dummy_read_u32] /\
  Forall (fun write => exists b', write r v b = Done (tt, b') /\ dummy_wf b' /\ registers_of b' = spec_write r v (registers_of b))
    [dummy_write_u8; dummy_write_u16; dummy_write_u32].
Proof.
  intros Hb Hr Hv. assert (dummy_read r b = Done (spec_read r (registers_of b), b)) as Hread.
  { unfold dummy_read. by rewrite dummy_read_spec. }
  assert (exists b', dummy_write r v b = Done (tt, b') /\ dummy_wf b' /\ registers_of b' = spec_write r v (registers_of b)) as Hwrite.
  { destruct (dummy_write_spec b r v Hb Hr Hv) as (b' & E & ?). exists b'. unfold dummy_write. by rewrite E. }
  assert (u8 v = v) as Hu by by apply Z.mod_small.
  split; repeat constructor; try done; unfold dummy_write_u16, dummy_write_u32; by rewrite Hu.
Qed.

(** A fresh bus. *)
Definition fresh_dummy : dummy_bus :=
  match dummy_bus_create true (replicate REGISTER_COUNT 0) with Done (Some b) => b | _ => DummyBus [] end.
Lemma dummy_bus_refines_registers_witness :
  Forall (fun read => read 5 fresh_dummy = Done (0x60, fresh_dummy)) [dummy_read_u8; dummy_read_u16; dummy_read_u32] /\
  Forall (fun write => exists b', write 2 7 fresh_dummy = Done (tt, b') /\ dummy_wf b' /\ registers_of b' = spec_write 2 7 (registers_of fresh_dummy))
    [dummy_write_u8; dummy_write_u16; dummy_write_u32].
Proof.
  split.
  - apply (dummy_bus_refines_registers fresh_dummy 5 0); [reflexivity|lia|lia].
  - apply (dummy_bus_refines_registers fresh_dummy 2 7); [reflexivity|lia|lia].
Defined.

(** ** The interfaces of the drivers *)

(** A bus that has the 8 bit operations.  Without them a driver of the 16550
    would use values that were never read: it ignores the results. *)
Class Bus (B : Type) := {
  reg_read_u8 : Z -> st B Z;
  reg_write_u8 : Z -> Z -> B -> B }.

(** A bus with 32 bit registers, which can fail: a read that gives nothing
    has the result -1, and a write gives its result. *)
Class Bus32 (B : Type) := {
  reg_read_u32 : Z -> st B (option Z);
  reg_write_u32 : Z -> Z -> st B Z }.

(** The register file is such a bus; registers that it does not have read as
    0 and ignore what is written. *)
#[export] Instance registers_bus : Bus registers := {
  reg_read_u8 r s := (if (0 <=? r) && (r <=? 7) then spec_read r s else 0, s);
  reg_write_u8 r v s := if (0 <=? r) && (r <=? 7) then spec_write r (u8 v) s else s }.
