(* ===== verification/MappedBus.v ===== *)
(** * Buses in memory: mmap32_bus.c and uio32_bus.c

    [src/uio-testbench/bus/mmap32_bus.c] and [uio32_bus.c] reach the registers
    of a UART in memory that is mapped into the process, one register in each
    32 bit word.  Memory is a list of octets, little endian.  [u32] is
    [unsigned long] in [kernel.h], so its size [sz] is 4 or 8 octets: with 4
    the two buses are the same, with 8 they are not what they are meant to
    be. *)
From stdpp Require Import base countable list.
From S2P Require Import Prelude Bus.

(** ** Octets *)

Fixpoint of_octets (l : list Z) : Z := match l with [] => 0 | v :: l => v + 2 ^ 8 * of_octets l end.
Fixpoint octets_of (n : nat) (v : Z) : list Z := match n with O => [] | S n => v mod 2 ^ 8 :: octets_of n (v / 2 ^ 8) end.

Lemma length_octets_of n v : length (octets_of n v) = n.
Proof. revert v. induction n as [|n IH]; intros v; cbn; [done|]. by rewrite IH. Qed.
Lemma of_octets_of n v : 0 <= v < 2 ^ (8 * Z.of_nat n) -> of_octets (octets_of n v) = v.
Proof.
  revert v. induction n as [|n IH]; intros v Hv; [cbn in *; lia|]. cbn [octets_of of_octets].
  rewrite IH; [pose proof (Z.div_mod v (2 ^ 8)); lia|].
  replace (8 * Z.of_nat (S n)) with (8 + 8 * Z.of_nat n) in Hv by lia. rewrite Z.pow_add_r in Hv by lia.
  split; [apply Z.div_pos; lia|]. apply Z.div_lt_upper_bound; lia.
Qed.
Lemma take_octets_of n k v : (k <= n)%nat -> take k (octets_of n v) = octets_of k v.
Proof. revert n v. induction k as [|k IH]; intros [|n] v Hk; cbn; [done..|lia|]. by rewrite IH by lia. Qed.

(** ** The buses *)

(** The mapped memory and where the registers start in it: [struct
    mmap32_bus] ([base]) and [struct uio32_bus] ([regs]). *)
Record mapped := Mapped { octets : list Z; base : Z }.

Definition read_mem (n : nat) (p : Z) : prog mapped Z := fun b => l ← load_all p n (octets b); Done (of_octets l, b).
Definition write_mem (n : nat) (p v : Z) : prog mapped unit := fun b =>
  l ← store_all p (octets_of n v) (octets b); Done (tt, Mapped l (base b)).
Definition at_base {A} (f : Z -> prog mapped A) : prog mapped A := p ← gets base; f p.

Section buses.
(** [sizeof(u32)] *)
Context (sz : nat).

Definition mmap32_read_u8 (reg : Z) : prog mapped Z := at_base (fun p => read_mem 1 (p + 4 * reg)).
Definition mmap32_read_u16 (reg : Z) : prog mapped Z := at_base (fun p => read_mem 2 (p + 2 * (2 * reg))).
Definition mmap32_read_u32 (reg : Z) : prog mapped Z := at_base (fun p => read_mem sz (p + Z.of_nat sz * reg)).
Definition mmap32_write_u8 (reg v : Z) : prog mapped unit := at_base (fun p => write_mem 1 (p + 4 * reg) v).
Definition mmap32_write_u16 (reg v : Z) : prog mapped unit := at_base (fun p => write_mem 2 (p + 2 * (2 * reg)) v).
Definition mmap32_write_u32 (reg v : Z) : prog mapped unit := at_base (fun p => write_mem sz (p + Z.of_nat sz * reg) v).
Definition uart_mmap32_bus_ops : rtuart_bus_ops mapped :=
  BusOps mapped (Some mmap32_read_u8) (Some mmap32_write_u8) (Some mmap32_read_u16) (Some mmap32_write_u16)
    (Some mmap32_read_u32) (Some mmap32_write_u32) (Some (mret tt)) None.
Definition mmap32_create (malloc_ok : bool) (memory : list Z) (p : Z) : option mapped :=
  if malloc_ok then Some (Mapped memory p) else None.

(** [regs[reg]] *)
Definition reg_addr (reg p : Z) : Z := p + Z.of_nat sz * reg.
Definition uio32_read_u8 (reg : Z) : prog mapped Z := at_base (fun p => read_mem 1 (reg_addr reg p)).
Definition uio32_read_u16 (reg : Z) : prog mapped Z := at_base (fun p => read_mem 2 (reg_addr reg p)).
Definition uio32_read_u32 (reg : Z) : prog mapped Z := at_base (fun p => read_mem sz (reg_addr reg p)).
Definition uio32_write_u8 (reg v : Z) : prog mapped unit := at_base (fun p => write_mem 1 (reg_addr reg p) v).
Definition uio32_write_u16 (reg v : Z) : prog mapped unit := at_base (fun p => write_mem 2 (reg_addr reg p) v).
Definition uio32_write_u32 (reg v : Z) : prog mapped unit := at_base (fun p => write_mem sz (reg_addr reg p) v).
Definition uart_uio32_bus_ops : rtuart_bus_ops mapped :=
  BusOps mapped (Some uio32_read_u8) (Some uio32_write_u8) (Some uio32_read_u16) (Some uio32_write_u16)
    (Some uio32_read_u32) (Some uio32_write_u32) (Some (mret tt)) None.
(** The memory that [mmap] gives, [None] when it fails. *)
Definition uio32_create (mmap : option (list Z)) (malloc_ok : bool) (offset : Z) : option mapped :=
  memory ← mmap; if malloc_ok then Some (Mapped memory offset) else None.
End buses.

(** ** Properties *)

Lemma read_mem_at n (b : mapped) (p : nat) :
  (p + n <= length (octets b))%nat -> read_mem n (Z.of_nat p) b = Done (of_octets (take n (drop p (octets b))), b).
Proof. intros Hp. unfold read_mem. by rewrite load_all_nat. Qed.
Lemma write_mem_at n (b : mapped) (p : nat) v :
  (p + n <= length (octets b))%nat ->
  write_mem n (Z.of_nat p) v b = Done (tt, Mapped (take p (octets b) ++ octets_of n v ++ drop (p + n) (octets b)) (base b)).
Proof. intros Hp. unfold write_mem. rewrite store_all_nat by (rewrite length_octets_of; lia). by rewrite length_octets_of. Qed.

(** What is read where [n] octets were written, or next to them. *)
Lemma read_written n k v (b : mapped) (p : nat) : (p + n <= length (octets b))%nat -> (k <= n)%nat ->
  read_mem k (Z.of_nat p) (Mapped (take p (octets b) ++ octets_of n v ++ drop (p + n) (octets b)) (base b)) =
  Done (of_octets (octets_of k v), Mapped (take p (octets b) ++ octets_of n v ++ drop (p + n) (octets b)) (base b)).
Proof.
  intros Hp Hk. rewrite read_mem_at by (cbn; rewrite !length_app, length_take, length_octets_of; lia). cbn [octets].
  rewrite drop_app_length' by (rewrite length_take; lia). by rewrite take_app_le, take_octets_of by (rewrite ?length_octets_of; lia).
Qed.

Definition same_reads (o1 o2 : option (Z -> prog mapped Z)) : Prop :=
  match o1, o2 with Some f, Some g => forall reg b, f reg b = g reg b | _, _ => False end.
Definition same_writes (o1 o2 : option (Z -> Z -> prog mapped unit)) : Prop :=
  match o1, o2 with Some f, Some g => forall reg v b, f reg v b = g reg v b | _, _ => False end.
(** Two buses with the same registers. *)
Definition same_bus (o1 o2 : rtuart_bus_ops mapped) : Prop :=
  same_reads (read_u8 o1) (read_u8 o2) /\ same_reads (read_u16 o1) (read_u16 o2) /\ same_reads (read_u32 o1) (read_u32 o2) /\
  same_writes (write_u8 o1) (write_u8 o2) /\ same_writes (write_u16 o1) (write_u16 o2) /\ same_writes (write_u32 o1) (write_u32 o2).

Lemma at_base_run {A} (f : Z -> prog mapped A) b : at_base f b = f (base b) b.
Proof. done. Qed.
Lemma low_octets k v : 0 <= v -> of_octets (octets_of k v) = v mod 2 ^ (8 * Z.of_nat k).
Proof.
  revert v. induction k as [|k IH]; intros v Hv; [cbn; by rewrite Z.mod_1_r|]. cbn [octets_of of_octets].
  rewrite IH by (apply Z.div_pos; lia). replace (8 * Z.of_nat (S k)) with (8 + 8 * Z.of_nat k) by lia.
  rewrite Z.pow_add_r by lia. rewrite Z.rem_mul_r by lia. lia.
Qed.

(** C35: With an [unsigned long] of 32 bits the two buses in memory are the
    same bus: each operation of the one does at every register what that of
    the other does.  A register that is written with 32 bits holds the value,
    and at the smaller widths its low bits. *)
Theorem mapped_buses_agree :
  same_bus (uart_mmap32_bus_ops 4) (uart_uio32_bus_ops 4) /\
  forall b (r : nat) v, 0 <= base b -> (Z.to_nat (base b) + 4 * r + 4 <= length (octets b))%nat -> 0 <= v < 2 ^ 32 ->
    exists b', mmap32_write_u32 4 (Z.of_nat r) v b = Done (tt, b') /\
      mmap32_read_u32 4 (Z.of_nat r) b' = Done (v, b') /\ mmap32_read_u16 (Z.of_nat r) b' = Done (u16 v, b') /\
      mmap32_read_u8 (Z.of_nat r) b' = Done (u8 v, b').
Proof.
  split.
  { split_and!; intros reg b; try done.
    - unfold mmap32_read_u16, uio32_read_u16, reg_addr. rewrite !at_base_run. f_equal. lia.
    - intros b'. unfold mmap32_write_u16, uio32_write_u16, reg_addr. rewrite !at_base_run. f_equal. lia. }
  intros b r v Hb Hlen Hv. unfold mmap32_write_u32, mmap32_read_u32, mmap32_read_u16, mmap32_read_u8. rewrite at_base_run.
  replace (base b + Z.of_nat 4 * Z.of_nat r) with (Z.of_nat (Z.to_nat (base b) + 4 * r)) by lia.
  rewrite write_mem_at by lia. eexists. split; [done|]. rewrite !at_base_run. cbn [base].
  replace (base b + Z.of_nat 4 * Z.of_nat r) with (Z.of_nat (Z.to_nat (base b) + 4 * r)) by lia.
  replace (base b + 2 * (2 * Z.of_nat r)) with (Z.of_nat (Z.to_nat (base b) + 4 * r)) by lia.
  replace (base b + 4 * Z.of_nat r) with (Z.of_nat (Z.to_nat (base b) + 4 * r)) by lia.
  rewrite !read_written by lia. rewrite !low_octets by lia. split_and!; [|done..]. do 2 f_equal. apply Z.mod_small. done.
Qed.
Lemma mapped_buses_agree_witness : exists b',
  mmap32_write_u32 4 3 0x12345678 (Mapped (replicate 64 0) 16) = Done (tt, b') /\
  mmap32_read_u32 4 3 b' = Done (0x12345678, b') /\ mmap32_read_u16 3 b' = Done (0x5678, b') /\ mmap32_read_u8 3 b' = Done (0x78, b').
Proof. apply (proj2 mapped_buses_agree (Mapped (replicate 64 0) 16) 3%nat 0x12345678); [discriminate|apply Nat.leb_le; reflexivity|split; [discriminate|reflexivity]]. Defined.

(** With an [unsigned long] of 64 bits the words of the 32 bit operations are
    eight octets apart and those of the others four: what is written with 32
    bits to any register but the first is not what is read with 8. *)
Theorem long_registers_are_apart b (r : nat) v :
  0 <= base b -> (1 <= r)%nat -> (Z.to_nat (base b) + 8 * r + 8 <= length (octets b))%nat ->
  exists b' old, mmap32_read_u8 (Z.of_nat r) b = Done (old, b) /\ mmap32_write_u32 8 (Z.of_nat r) v b = Done (tt, b') /\
    mmap32_read_u8 (Z.of_nat r) b' = Done (old, b').
Proof.
  intros Hb Hr Hlen. unfold mmap32_write_u32, mmap32_read_u8. rewrite !at_base_run.
  replace (base b + Z.of_nat 8 * Z.of_nat r) with (Z.of_nat (Z.to_nat (base b) + 8 * r)) by lia.
  replace (base b + 4 * Z.of_nat r) with (Z.of_nat (Z.to_nat (base b) + 4 * r)) by lia.
  rewrite read_mem_at, write_mem_at by lia. eexists _, _. split; [done|]. split; [done|]. rewrite at_base_run. cbn [base].
  replace (base b + 4 * Z.of_nat r) with (Z.of_nat (Z.to_nat (base b) + 4 * r)) by lia.
  rewrite read_mem_at by (cbn [octets]; rewrite !length_app, length_take, length_drop, length_octets_of; lia). cbn [octets]. do 3 f_equal.
  rewrite drop_app_le by (rewrite length_take; lia). rewrite take_app_le by (rewrite length_drop, length_take; lia).
  apply list_eq. intros i. destruct (decide (i = 0%nat)) as [->|]; [|rewrite !lookup_take_ge by lia; done].
  rewrite !lookup_take_lt, !lookup_drop by lia. rewrite lookup_take_lt by lia. done.
Qed.
