(* ===== verification/Pc16c550.v ===== *)
(** * The driver of the 16550

    [src/uio-testbench/uart/pc16c550.c]: the operations of [rtuart_ops] on
    the registers of a 16550, which are reached over a [Bus], and the
    interrupt handler, which calls the client of the UART.  The driver is an
    instance of the class [Uart] that the client of [UartClient] uses. *)
From stdpp Require Import base countable gmap list.
From S2P Require Import Prelude KList FrameQueue RdmFrame UartClient Bus.

Definition PC16550_REG_RBR : Z := 0.
Definition PC16550_REG_THR : Z := 0.
Definition PC16550_REG_IER : Z := 1.
Definition PC16550_REG_IIR : Z := 2.
Definition PC16550_REG_FCR : Z := 2.
Definition PC16550_REG_LCR : Z := 3.
Definition PC16550_REG_MCR : Z := 4.
Definition PC16550_REG_LSR : Z := 5.
Definition PC16550_REG_MSR : Z := 6.
Definition PC16550_REG_SCR : Z := 7.
Definition PC16550_REG_DLL : Z := 0.
Definition PC16550_REG_DLM : Z := 1.
Definition PC16550_LSR_OVERRUN_ERROR : Z := Z.shiftl 1 1.
Definition PC16550_LSR_PARITY_ERROR : Z := Z.shiftl 1 2.
Definition PC16550_LSR_FRAMING_ERROR : Z := Z.shiftl 1 3.
Definition PC16550_LSR_BREAK_INTERRUPT : Z := Z.shiftl 1 4.
Definition PC16550_LSR_THRE : Z := Z.shiftl 1 5.
Definition PC16550_LSR_TRANSMITTER_EMPTY : Z := Z.shiftl 1 6.
Definition PC16550_LCR_DLAB : Z := Z.shiftl 1 7.
Definition RTUART_EVENT_OVERRUN_ERROR : Z := Z.shiftl 1 0.
Definition RTUART_EVENT_PARITY_ERROR : Z := Z.shiftl 1 1.
Definition RTUART_EVENT_FRAMING_ERROR : Z := Z.shiftl 1 2.

(** [struct rtuart_pc16c550] with the [struct rtuart] in it; the client and
    the operations are arguments of what uses them. *)
Record chip (B : Type) := Chip {
  c_bus : B;
  notify_mask : Z;
  address_offset : Z;
  irqno : Z;
  fcr_shadow : Z;              (* u8 *)
  base_clock : Z }.
Arguments Chip {B}. Arguments c_bus {B}. Arguments notify_mask {B}. Arguments address_offset {B}.
Arguments irqno {B}. Arguments fcr_shadow {B}. Arguments base_clock {B}.

Definition with_bus {B} (b : B) (c : chip B) : chip B :=
  Chip b (notify_mask c) (address_offset c) (irqno c) (fcr_shadow c) (base_clock c).
Definition with_notify {B} (m : Z) (c : chip B) : chip B :=
  Chip (c_bus c) m (address_offset c) (irqno c) (fcr_shadow c) (base_clock c).
Definition with_shadow {B} (v : Z) (c : chip B) : chip B :=
  Chip (c_bus c) (notify_mask c) (address_offset c) (irqno c) v (base_clock c).

(** [x & ~m] and the octet that is left of it. *)
Definition clear_bits (m x : Z) : Z := Z.ldiff x m.

Definition uart16550_lsr_to_event (lsr : Z) : Z :=
  Z.lor (Z.lor (Z.lor (if has lsr PC16550_LSR_OVERRUN_ERROR then RTUART_EVENT_OVERRUN_ERROR else 0)
    (if has lsr PC16550_LSR_PARITY_ERROR then RTUART_EVENT_PARITY_ERROR else 0))
    (if has lsr PC16550_LSR_FRAMING_ERROR then RTUART_EVENT_FRAMING_ERROR else 0))
    (if has lsr PC16550_LSR_BREAK_INTERRUPT then RTUART_EVENT_BREAK else 0).

(** The interrupts that are enabled for a mask of notifications. *)
Definition ier_of (mask : Z) : Z :=
  Z.lor (Z.lor (Z.lor (if has mask UART_NOTIFY_RXAVAILABLE then 1 else 0) (if has mask UART_NOTIFY_TXREADY then 2 else 0))
    (if has mask UART_NOTIFY_LINEEVENT then 4 else 0)) (if has mask UART_NOTIFY_INPUTCHANGED then 8 else 0).

Section driver.
Context {B : Type} `{Bus B}.
Abbreviation driver := (st (chip B)).

(** *** Registers *)
Definition __read_register (regno : Z) : driver Z := fun c =>
  let '(v, b) := reg_read_u8 (i32 (regno + address_offset c)) (c_bus c) in (u8 v, with_bus b c).
Definition __write_register (regno v : Z) : driver unit := fun c =>
  (tt, with_bus (reg_write_u8 (i32 (regno + address_offset c)) (u8 v) (c_bus c)) c).

Definition pc16c550_get_rbr : driver Z := __read_register PC16550_REG_RBR.
Definition pc16c550_set_thr (v : Z) : driver unit := __write_register PC16550_REG_THR v.
Definition pc16c550_set_ier (v : Z) : driver unit := __write_register PC16550_REG_IER v.
Definition pc16c550_get_iir : driver Z := __read_register PC16550_REG_IIR.
Definition pc16c550_set_fcr (v : Z) : driver unit := __write_register PC16550_REG_FCR v.
Definition pc16c550_get_lcr : driver Z := __read_register PC16550_REG_LCR.
Definition pc16c550_set_lcr (v : Z) : driver unit := __write_register PC16550_REG_LCR v.
Definition pc16c550_get_mcr : driver Z := __read_register PC16550_REG_MCR.
Definition pc16c550_set_mcr (v : Z) : driver unit := __write_register PC16550_REG_MCR v.
Definition pc16c550_get_lsr : driver Z := __read_register PC16550_REG_LSR.
Definition pc16c550_get_msr : driver Z := __read_register PC16550_REG_MSR.
Definition pc16c550_get_dll : driver Z := __read_register PC16550_REG_DLL.
Definition pc16c550_set_dll (v : Z) : driver unit := __write_register PC16550_REG_DLL v.
Definition pc16c550_get_dlm : driver Z := __read_register PC16550_REG_DLM.
(** The macro of the code, with the register it names. *)
Definition pc16c550_set_dlm (v : Z) : driver unit := __write_register PC16550_REG_LCR v.

(** *** Format, bit rate, break, modem lines *)
Definition char_e : Z := 101.
Definition char_o : Z := 111.
Definition char_n : Z := 110.
Definition pc16c550_set_format (databits parity stopbits : Z) : driver Z :=
  lcr ← pc16c550_get_lcr;
  let lcr := clear_bits 0x3f lcr in
  let lcr := u8 (Z.lor lcr (databits - 5)) in
  let lcr := Z.lor lcr (if 10 <? stopbits then 4 else 0) in
  let lcr := u8 (Z.lor lcr (Z.shiftl (if parity =? char_e then 3 else if parity =? char_o then 1 else 0) 3)) in
  pc16c550_set_lcr lcr ;;
  mret 0.
Definition pc16c550_get_format : driver (Z * Z * Z) :=
  lcr ← pc16c550_get_lcr;
  mret (Z.land lcr 3 + 5,
        (if has lcr 8 then if has lcr 0x10 then char_e else char_o else char_n),
        (if has lcr 4 then 20 else 10)).
Definition pc16c550_set_baudrate_divisor (divisor : Z) : driver unit :=
  lcr ← pc16c550_get_lcr;
  pc16c550_set_lcr (Z.lor lcr PC16550_LCR_DLAB) ;;
  pc16c550_set_dll (u8 divisor) ;;
  pc16c550_set_dlm (u8 (Z.shiftr divisor 8)) ;;
  pc16c550_set_lcr lcr.
(** The octets of the divisor are read in the order in which C compilers are
    free to read them; here the low one first. *)
Definition pc16c550_get_baudrate_divisor : driver Z :=
  lcr ← pc16c550_get_lcr;
  pc16c550_set_lcr (Z.lor lcr PC16550_LCR_DLAB) ;;
  lo ← pc16c550_get_dll;
  hi ← pc16c550_get_dlm;
  pc16c550_set_lcr lcr ;;
  mret (Z.lor lo (Z.shiftl hi 8)).
Definition pc16c550_baseclock : driver Z := st_gets base_clock.
Definition pc16c550_oversampling : driver Z := mret 16.
Definition pc16c550_set_baudrate (baudrate : Z) : driver Z :=
  if baudrate <=? 0 then mret (-1) else
  clock ← pc16c550_baseclock;
  over ← pc16c550_oversampling;
  pc16c550_set_baudrate_divisor ((clock / over / baudrate) mod 2 ^ 32) ;;
  mret 0.
(** Nothing prevents a divisor of 0. *)
Definition pc16c550_get_baudrate : prog (chip B) Z := fun c =>
  let '(clock, c) := pc16c550_baseclock c in
  let '(over, c) := pc16c550_oversampling c in
  let '(divisor, c) := pc16c550_get_baudrate_divisor c in
  if divisor =? 0 then Fault DivideByZero else Done ((clock / over / divisor) mod 2 ^ 32, c).
Definition pc16c550_set_break (on : bool) : driver Z :=
  lcr ← pc16c550_get_lcr;
  pc16c550_set_lcr (if on then Z.lor lcr 0x40 else clear_bits 0x40 lcr) ;;
  mret 0.
Definition pc16c550_get_break : driver bool := lcr ← pc16c550_get_lcr; mret (has lcr 0x40).
Definition pc16c550_get_line_status : driver Z := pc16c550_get_lsr.
Definition pc16c550_set_modem_lines (mask line : Z) : driver unit :=
  mcr ← pc16c550_get_mcr;
  pc16c550_set_mcr (u8 (Z.lor (clear_bits mask mcr) (Z.land mask line))).

(** *** FIFOs *)
Definition pc16c550_get_fcr : driver Z := st_gets fcr_shadow.
Definition pc16c550_rmw_fcr (mask value : Z) : driver unit := fun c =>
  let shadow := u8 (Z.lor (clear_bits mask (fcr_shadow c)) (clear_bits 6 (Z.land mask value))) in
  pc16c550_set_fcr (Z.lor shadow (Z.land mask value)) (with_shadow shadow c).
Definition pc16c550_set_fifo_enable (on : bool) : driver Z := pc16c550_rmw_fcr 7 (if on then 7 else 0) ;; mret 0.
Definition pc16c550_get_fifo_enable : driver Z := st_gets (fun c => Z.land (fcr_shadow c) 1).
Definition pc16c550_flush_fifo (flush_tx flush_rx : bool) : driver Z :=
  pc16c550_rmw_fcr 6 (Z.lor (if flush_tx then 4 else 0) (if flush_rx then 2 else 0)) ;; mret 0.
Definition pc16c550_set_rxfifo_trigger_level (level : Z) : driver Z :=
  if level =? 14 then pc16c550_rmw_fcr 0xC0 (Z.shiftl 3 6) ;; mret 0
  else if level =? 8 then pc16c550_rmw_fcr 0xC0 (Z.shiftl 2 6) ;; mret 0
  else if level =? 4 then pc16c550_rmw_fcr 0xC0 (Z.shiftl 1 6) ;; mret 0
  else if level =? 1 then pc16c550_rmw_fcr 0xC0 (Z.shiftl 0 6) ;; mret 0
  else mret (-1).
Definition pc16c550_get_rxfifo_trigger_level : prog (chip B) Z := fun c =>
  v ← load [1; 4; 8; 14] (fcr_shadow c); Done (v, c).
Definition pc16c550_set_txfifo_trigger_level (level : Z) : driver Z := mret (-1).
Definition pc16c550_get_tx_fifo_size : driver Z :=
  on ← pc16c550_get_fifo_enable; mret (if on =? 0 then 1 else 16).
Definition pc16c550_get_rx_fifo_size : driver Z := pc16c550_get_tx_fifo_size.
(** The result -1. *)
Definition pc16c550_get_tx_fifo_free : driver (option Z) := mret None.
Definition pc16c550_get_rx_fifo_level : driver (option Z) := mret None.

(** *** Data *)
Fixpoint pc16c550_write_chars (buffer : list Z) : driver Z :=
  match buffer with [] => mret 0 | v :: buffer => pc16c550_set_thr v ;; pc16c550_write_chars buffer end.
Fixpoint pc16c550_read_loop (c : nat) : driver (list Z) :=
  match c with
  | O => mret []
  | S c => v ← pc16c550_get_rbr; vs ← pc16c550_read_loop c; mret (v :: vs)
  end.
Definition pc16c550_read_chars (count : Z) : driver (list Z) := pc16c550_read_loop (Z.to_nat count).

(** *** Notifications *)
Definition pc16c550_uart_update_notification : driver unit :=
  mask ← st_gets notify_mask; pc16c550_set_ier (ier_of mask).
Definition pc16c550_uart_enable_notification (m : Z) : driver Z :=
  mask ← st_gets notify_mask;
  if negb (Z.land mask m =? m) then
    st_modify (with_notify (Z.lor mask m)) ;; pc16c550_uart_update_notification ;; mret 0
  else mret 0.
Definition pc16c550_uart_disable_notification (m : Z) : driver Z :=
  mask ← st_gets notify_mask;
  if negb (Z.land mask m =? m) then
    st_modify (with_notify (clear_bits m mask)) ;; pc16c550_uart_update_notification ;; mret 0
  else mret 0.

(** *** Creation; the memory of [malloc] keeps its contents, [garbage]. *)
Definition pc16c550_create (malloc_ok : bool) (garbage : chip B) (clock : Z) : option (chip B) :=
  if malloc_ok then Some (Chip (c_bus garbage) (notify_mask garbage) 0 0 0 clock) else None.
Definition pc16c550_create_at (malloc_ok : bool) (garbage : chip B) (clock offset irq : Z) : option (chip B) :=
  u ← pc16c550_create malloc_ok garbage clock;
  Some (Chip (c_bus u) (notify_mask u) offset irq (fcr_shadow u) (base_clock u)).

(** The operations as the client sees them. *)
#[export] Instance pc16c550_ops : Uart (chip B) := {
  uart_write_chars := pc16c550_write_chars;
  uart_read_chars := pc16c550_read_chars;
  uart_enable_notification m c := (pc16c550_uart_enable_notification m c).2;
  uart_disable_notification m c := (pc16c550_uart_disable_notification m c).2;
  uart_set_format d p s c := (pc16c550_set_format d p s c).2;
  uart_set_baudrate b c := (pc16c550_set_baudrate b c).2;
  uart_set_fifo_enable on c := (pc16c550_set_fifo_enable (negb (on =? 0)) c).2;
  uart_set_rxfifo_trigger_level l c := (pc16c550_set_rxfifo_trigger_level l c).2;
  uart_set_txfifo_trigger_level l c := (pc16c550_set_txfifo_trigger_level l c).2;
  uart_set_modem_lines m l c := (pc16c550_set_modem_lines m l c).2;
  uart_flush_fifo tx rx c := (pc16c550_flush_fifo tx rx c).2;
  uart_get_tx_fifo_free := pc16c550_get_tx_fifo_free }.

Lemma read_loop_octets n c : length (pc16c550_read_loop n c).1 = n /\ Forall octet (pc16c550_read_loop n c).1.
Proof.
  revert c. induction n as [|n IH]; intros c; cbn [pc16c550_read_loop]; [by split|].
  unfold mbind, st_bind, mret, st_ret. unfold pc16c550_get_rbr, __read_register. destruct (reg_read_u8 _ _) as [v b].
  specialize (IH (with_bus b c)). destruct (pc16c550_read_loop n (with_bus b c)) as [vs c']. destruct IH as [Hl Ho]. cbn in *. split; [by rewrite Hl|].
  constructor; [apply u8_octet|done].
Qed.

(** The driver keeps the promise that the client relies on. *)
#[export] Instance pc16c550_laws : UartLaws (chip B).
Proof.
  split; intros n c; cbn; unfold pc16c550_read_chars; destruct (read_loop_octets (Z.to_nat n) c) as [Hl Ho]; [|done].
  rewrite Hl. lia.
Qed.
End driver.

(** ** The interrupt handler *)

(** [struct rtuart_client_callbacks]: the callbacks a client may have; they
    run on the whole state. *)
Record rtuart_client_callbacks (W : Type) := Callbacks {
  transmitter_has_space : option (Z -> prog W unit);
  transmitter_empty : option (prog W unit);
  receiver_data_available : option (Z -> prog W unit);
  modem_input_changed : option (Z -> Z -> prog W unit);
  line_status_event : option (Z -> prog W unit) }.
Arguments Callbacks {W}. Arguments transmitter_has_space {W}. Arguments transmitter_empty {W}.
Arguments receiver_data_available {W}. Arguments modem_input_changed {W}. Arguments line_status_event {W}.

Section irq.
Context {B W : Type} `{Bus B} (get : W -> chip B) (put : chip B -> W -> W).
Context (client : option (rtuart_client_callbacks W)).

Definition on_chip {A} (m : st (chip B) A) : prog W A := on_part get put m.
(** The callback if the client has it. *)
Definition callback {A} (f : rtuart_client_callbacks W -> option A) : option A := client ≫= f.

Definition drop_notify (m : Z) : prog W unit := on_chip (st_modify (fun c => with_notify (clear_bits m (notify_mask c)) c)).
Definition notified (m : Z) : prog W bool := on_chip (st_gets (fun c => has (notify_mask c) m)).

(** [while (0 == (lsr & TRANSMITTER_EMPTY)) usleep(88);] *)
Fixpoint wait_transmitter_empty (fuel : nat) : prog W unit :=
  match fuel with
  | O => raise OutOfFuel
  | S fuel =>
      lsr ← on_chip pc16c550_get_lsr;
      if has lsr PC16550_LSR_TRANSMITTER_EMPTY then mret tt else wait_transmitter_empty fuel
  end.

Definition uart16550_handle_lsr (spin : nat) : prog W unit :=
  lsr ← on_chip pc16c550_get_lsr;
  when (has lsr PC16550_LSR_BREAK_INTERRUPT) (_ ← on_chip pc16c550_get_rbr; mret tt) ;;
  let lineStatusEvent := uart16550_lsr_to_event lsr in
  match callback line_status_event with
  | Some f => when (negb (lineStatusEvent =? 0)) (f lineStatusEvent)
  | None => mret tt
  end ;;
  empty ← notified UART_NOTIFY_TXEMPTY;
  when (has lsr PC16550_LSR_THRE && empty) (
    drop_notify UART_NOTIFY_TXEMPTY ;;
    match callback transmitter_empty with
    | Some f =>
        (if has lsr PC16550_LSR_TRANSMITTER_EMPTY then mret tt else wait_transmitter_empty spin) ;; f
    | None => mret tt
    end).

Definition uart16550_rxempty_task_handler (spin : nat) : prog W unit :=
  empty ← notified UART_NOTIFY_TXEMPTY; when empty (uart16550_handle_lsr spin).
Definition pc16c550_periodic_check : nat -> prog W unit := uart16550_rxempty_task_handler.

Definition flush_rx : prog W unit := _ ← on_chip (pc16c550_flush_fifo false true); mret tt.
(** The cases 4 and 0xC of the interrupt handler. *)
Definition serve_receiver (count : Z) : prog W unit :=
  available ← notified UART_NOTIFY_RXAVAILABLE;
  if (available : bool) then
    drop_notify UART_NOTIFY_RXAVAILABLE ;;
    match callback receiver_data_available with Some f => f count | None => flush_rx end
  else flush_rx.
Definition serve_modem : prog W unit :=
  msr ← on_chip pc16c550_get_msr;
  match callback modem_input_changed with
  | Some f => f (Z.land (Z.shiftr msr 4) 15) (Z.land msr 15)
  | None => mret tt
  end.
Definition serve_transmitter : prog W unit :=
  ready ← notified UART_NOTIFY_TXREADY;
  when ready (
    drop_notify UART_NOTIFY_TXREADY ;;
    match callback transmitter_has_space with
    | Some f => space ← on_chip pc16c550_get_tx_fifo_size; f space
    | None => mret tt
    end).

Fixpoint pc16c550_handle_irq (spin fuel : nat) : prog W Z :=
  match fuel with
  | O => raise OutOfFuel
  | S fuel =>
      iir ← on_chip pc16c550_get_iir;
      let cause := Z.land iir 0xf in
      if cause =? 1 then
        uart16550_handle_lsr spin ;; on_chip pc16c550_uart_update_notification ;; mret 0
      else if cause =? 0 then serve_modem ;; pc16c550_handle_irq spin fuel
      else if cause =? 2 then serve_transmitter ;; pc16c550_handle_irq spin fuel
      else if cause =? 4 then serve_receiver 8 ;; pc16c550_handle_irq spin fuel
      else if cause =? 0xC then serve_receiver (-1) ;; pc16c550_handle_irq spin fuel
      else if cause =? 6 then uart16550_handle_lsr spin ;; pc16c550_handle_irq spin fuel
      else on_chip pc16c550_uart_update_notification ;; mret (-1)
  end.

(** ** The contract with the client

    [I] is what the client keeps; it does not depend on the chip.  [pending]
    counts what the hardware has for the handler, and what comes while it
    runs: octets, conditions of the line, changes of the modem lines, and the
    times that the transmitter runs empty.  [shows k] says that the cause [k]
    of IIR stands. *)
Context (get_put : forall c w, get (put c w) = c).
Context (I : W -> Prop) (I_put : forall c w, I w -> I (put c w)).
Context (pending : B -> nat) (shows : Z -> B -> Prop) (off : Z) (spin : nat).
Definition left (w : W) : nat := pending (c_bus (get w)).
Definition asked (w : W) : bool := has (notify_mask (get w)) UART_NOTIFY_RXAVAILABLE.
Definition octets_stand (b : B) : Prop := shows 4 b \/ shows 0xC b.

(** The transmitter is empty while its status is looked at [n] times. *)
Fixpoint empties (n : nat) (b : B) : bool :=
  match n with
  | O => false
  | S n => let '(v, b') := reg_read_u8 (i32 (PC16550_REG_LSR + off)) b in
      has (u8 v) PC16550_LSR_TRANSMITTER_EMPTY || empties n b'
  end.

(** The causes of a 16550: reading IIR takes back that the transmitter is
    empty and nothing else; the conditions of the line are taken back by
    reading LSR, the changes of the modem lines by reading MSR, and octets by
    reading RBR or by a reset of the FIFO. *)
Record hardware_settles : Prop := {
  read_settles r b : (pending (reg_read_u8 r b).2 <= pending b)%nat;
  write_settles r v b : (pending (reg_write_u8 r v b) <= pending b)%nat;
  cause_read b : let '(v, b') := reg_read_u8 (i32 (PC16550_REG_IIR + off)) b in
    let k := Z.land (u8 v) 0xf in
    (k = 2 -> (pending b' < pending b)%nat) /\ (k = 0 \/ k = 4 \/ k = 6 \/ k = 0xC -> shows k b');
  line_read b : shows 6 b -> (pending (reg_read_u8 (i32 (PC16550_REG_LSR + off)) b).2 < pending b)%nat;
  modem_read b : shows 0 b -> (pending (reg_read_u8 (i32 (PC16550_REG_MSR + off)) b).2 < pending b)%nat;
  octet_read b : octets_stand b -> (pending (reg_read_u8 (i32 (PC16550_REG_RBR + off)) b).2 < pending b)%nat;
  receiver_reset v b : octets_stand b -> has v 2 = true -> (pending (reg_write_u8 (i32 (PC16550_REG_FCR + off)) v b) < pending b)%nat;
  transmitter_drains b : empties spin b = true }.

(** What every step keeps. *)
Definition steady (w w' : W) : Prop := I w' /\ (left w' <= left w)%nat /\ address_offset (get w') = off.

(** When a callback is called its notification is no longer asked for; the
    transmitter has 1 or 16 octets of space, the receiver has 8 octets or an
    unknown number, and something happened on the line.  A client that asks
    for octets again has taken one. *)
Record client_contract (cb : rtuart_client_callbacks W) : Prop := {
  cb_space f : transmitter_has_space cb = Some f -> forall n w, I w -> address_offset (get w) = off -> n = 1 \/ n = 16 ->
    has (notify_mask (get w)) UART_NOTIFY_TXREADY = false -> wp (f n) (fun _ => steady w) w;
  cb_empty f : transmitter_empty cb = Some f -> forall w, I w -> address_offset (get w) = off ->
    has (notify_mask (get w)) UART_NOTIFY_TXEMPTY = false -> wp f (fun _ => steady w) w;
  cb_receive f : receiver_data_available cb = Some f -> forall n w, I w -> address_offset (get w) = off -> n = 8 \/ n = -1 ->
    octets_stand (c_bus (get w)) -> asked w = false -> wp (f n) (fun _ w' => steady w w' /\ (asked w' = true -> (left w' < left w)%nat)) w;
  cb_modem f : modem_input_changed cb = Some f -> forall v c w, I w -> address_offset (get w) = off ->
    0 <= v < 16 -> 0 <= c < 16 -> wp (f v c) (fun _ => steady w) w;
  cb_line f : line_status_event cb = Some f -> forall m w, I w -> address_offset (get w) = off -> 0 < m < 16 ->
    wp (f m) (fun _ => steady w) w }.

Context (Hhw : hardware_settles) (Hclient : forall cb, client = Some cb -> client_contract cb).

Lemma steady_refl w : I w -> address_offset (get w) = off -> steady w w.
Proof. done. Qed.
Lemma steady_trans w1 w2 w3 : steady w1 w2 -> steady w2 w3 -> steady w1 w3.
Proof. intros (? & ? & ?) (? & ? & ?). split_and!; [done|lia|done]. Qed.

(** A register access. *)
Lemma wp_read_register r (Q : Z -> W -> Prop) w :
  I w -> address_offset (get w) = off ->
  (forall v w', 0 <= v < 256 -> steady w w' -> notify_mask (get w') = notify_mask (get w) ->
     let b' := reg_read_u8 (i32 (r + off)) (c_bus (get w)) in v = u8 b'.1 -> c_bus (get w') = b'.2 -> Q v w') ->
  wp (on_chip (__read_register r)) Q w.
Proof.
  intros HI Ho HQ. apply wp_on_part. unfold __read_register. rewrite Ho.
  pose proof (read_settles Hhw (i32 (r + off)) (c_bus (get w))) as Hs.
  destruct (reg_read_u8 _ _) as [v b] eqn:E. cbn [fst snd] in *. apply HQ.
  - apply u8_octet.
  - split_and!; [by apply I_put|unfold left; by rewrite get_put|by rewrite get_put].
  - by rewrite get_put.
  - cbv zeta. by rewrite ?E.
  - cbv zeta. by rewrite get_put, ?E.
Qed.

Lemma wp_chip {A} (m : st (chip B) A) (Q : A -> W -> Prop) w :
  I w -> (forall c, let '(_, c') := m c in address_offset c' = address_offset c /\ (pending (c_bus c') <= pending (c_bus c))%nat) ->
  address_offset (get w) = off ->
  (forall w', steady w w' -> get w' = (m (get w)).2 -> Q (m (get w)).1 w') -> wp (on_chip m) Q w.
Proof.
  intros HI Hm Ho HQ. apply wp_on_part. specialize (Hm (get w)). destruct (m (get w)) as [a c]. cbn in *. apply HQ.
  - split_and!; [by apply I_put|unfold left; rewrite get_put; lia|rewrite get_put; by destruct Hm as [-> _]].
  - by rewrite get_put.
Qed.

Lemma wp_notified m (Q : bool -> W -> Prop) w :
  I w -> address_offset (get w) = off ->
  (forall w', steady w w' -> get w' = get w -> Q (has (notify_mask (get w)) m) w') -> wp (notified m) Q w.
Proof. intros HI Ho HQ. apply wp_chip; [done|done|done|]. intros w' Hs Hg. by apply HQ. Qed.

Lemma has_cleared x m : has (clear_bits m x) m = false.
Proof.
  unfold has, clear_bits. apply negb_false_iff, Z.eqb_eq. apply Z.bits_inj'. intros n Hn.
  rewrite Z.land_spec, Z.ldiff_spec, Z.bits_0. by destruct (Z.testbit x n), (Z.testbit m n).
Qed.

Lemma wp_drop_notify m (Q : unit -> W -> Prop) w :
  I w -> address_offset (get w) = off ->
  (forall w', steady w w' -> has (notify_mask (get w')) m = false -> c_bus (get w') = c_bus (get w) -> Q tt w') -> wp (drop_notify m) Q w.
Proof.
  intros HI Ho HQ. apply wp_chip; [done|done|done|]. intros w' Hs Hg. apply HQ; [done| |]; rewrite Hg; cbn; [apply has_cleared|done].
Qed.

Lemma lsr_event_range lsr : 0 <= uart16550_lsr_to_event lsr < 16.
Proof. unfold uart16550_lsr_to_event. by destruct (has lsr _), (has lsr _), (has lsr _), (has lsr _). Qed.

Lemma has_flush x : has (u8 (Z.lor x (Z.land 6 2))) 2 = true.
Proof.
  unfold has. apply negb_true_iff, Z.eqb_neq. intros E. apply (f_equal (fun z => Z.testbit z 1)) in E.
  rewrite Z.land_spec, Z.bits_0 in E. unfold u8 in E. rewrite Z.mod_pow2_bits_low, Z.lor_spec in E by lia. change (Z.testbit (Z.land 6 2) 1) with true in E.
  by rewrite orb_true_r in E.
Qed.
Lemma flush_rx_takes w : I w -> address_offset (get w) = off -> octets_stand (c_bus (get w)) ->
  wp flush_rx (fun _ w' => steady w w' /\ (left w' < left w)%nat) w.
Proof.
  intros HI Ho Hst. unfold flush_rx. apply wp_bind. apply wp_chip; [done| |done|].
  - intros c. cbn. split; [done|]. apply (write_settles Hhw).
  - intros w' Hs Hg. apply wp_ret. split; [done|]. unfold left. rewrite Hg. unfold pc16c550_flush_fifo, mbind, st_bind, mret, st_ret, pc16c550_rmw_fcr, pc16c550_set_fcr, __write_register. cbn [snd c_bus with_bus with_shadow address_offset]. rewrite Ho. apply (receiver_reset Hhw); [done|]. apply has_flush.
Qed.

Lemma wait_steady n w : I w -> address_offset (get w) = off -> empties n (c_bus (get w)) = true ->
  wp (wait_transmitter_empty n) (fun _ w' => steady w w' /\ notify_mask (get w') = notify_mask (get w)) w.
Proof.
  revert w. induction n as [|n IH]; intros w HI Ho He; [done|]. cbn [wait_transmitter_empty empties] in *.
  apply wp_bind. unfold pc16c550_get_lsr. apply wp_read_register; [done|done|]. intros v w' Hv Hs Hm b' Ev Eb.
  destruct (reg_read_u8 _ _) as [x b] eqn:E. cbn in Ev, Eb. subst v. apply wp_if; intros Hx; [by apply wp_ret|].
  rewrite Hx in He. cbn in He. pose proof Hs as (HI' & _ & Ho').
  eapply wp_mono; [apply IH; [done|done|by rewrite Eb]|]. cbn. intros ? w2 [Hs2 Hm2]. split; [by eapply steady_trans|congruence].
Qed.

(** Reading the line status takes back the condition of the line; the rest of
    the handler keeps what it has to. *)
Lemma handle_lsr_steady w : I w -> address_offset (get w) = off ->
  wp (uart16550_handle_lsr spin) (fun _ w' => steady w w' /\ (shows 6 (c_bus (get w)) -> (left w' < left w)%nat)) w.
Proof.
  intros HI Ho. unfold uart16550_handle_lsr. apply wp_bind. unfold pc16c550_get_lsr. apply wp_read_register; [done|done|].
  intros lsr w1 _ Hs1 _ b1 _ Eb1. eapply (wp_mono _ (fun _ w' => steady w1 w')).
  2:{ intros ? w' Hs. split; [by eapply steady_trans|]. intros H6. destruct Hs as (_ & Hl & _).
      pose proof (line_read Hhw _ H6) as Hlt. unfold left in *. rewrite Eb1 in Hl. unfold b1 in Hl. lia. }
  assert (I w1 /\ address_offset (get w1) = off) as [HI1 Ho1] by (by destruct Hs1 as (? & ? & ?)). clear Hs1 HI Ho Eb1 b1. clear w. rename w1 into w.
 rename HI1 into HI, Ho1 into Ho.
  apply wp_bind, (wp_mono _ (fun _ => steady w)).
  { apply wp_when; intros _; [|done]. apply wp_bind. unfold pc16c550_get_rbr. apply wp_read_register; [done|done|].
    intros v w2 _ Hs2 _ b2 _ _. by apply wp_ret. }
  intros ? w2 Hs2. cbv zeta. apply wp_bind, (wp_mono _ (fun _ => steady w)).
  { pose proof Hs2 as (HI2 & _ & Ho2). unfold callback. destruct client as [cb|] eqn:Ecl; cbn; [|by apply wp_ret].
    destruct (line_status_event cb) as [f|] eqn:Ef; [|by apply wp_ret]. apply wp_when; intros Hne; [|done].
    eapply wp_mono; [eapply (cb_line _ (Hclient cb eq_refl) f Ef); [done|done|]|intros ? w3 Hs3; by eapply steady_trans].
    pose proof (lsr_event_range lsr). apply negb_true_iff, Z.eqb_neq in Hne. lia. }
  intros ? w3 Hs3. apply wp_bind. pose proof Hs3 as (HI3 & _ & Ho3). apply wp_notified; [done|done|]. intros w4 Hs4 _.
  assert (steady w w4) as H4 by by eapply steady_trans. pose proof H4 as (HI4 & _ & Ho4).
  apply wp_when; intros _; [|done]. apply wp_bind, wp_drop_notify; [done|done|]. intros w5 Hs5 Hm5 _.
  assert (steady w w5) as H5 by by eapply steady_trans. pose proof H5 as (HI5 & _ & Ho5).
  unfold callback. destruct client as [cb|] eqn:Ecl; cbn; [|by apply wp_ret].
  destruct (transmitter_empty cb) as [f|] eqn:Ef; [|by apply wp_ret].
  apply wp_bind, (wp_mono _ (fun _ w' => steady w5 w' /\ notify_mask (get w') = notify_mask (get w5))).
  { apply wp_if; intros _; [by apply wp_ret|]. apply wait_steady; [done|done|apply (transmitter_drains Hhw)]. }
  intros ? w6 [Hs6 Hm6]. pose proof Hs6 as (HI6 & _ & Ho6).
  eapply wp_mono; [eapply (cb_empty _ (Hclient cb eq_refl) f Ef); [done|done|by rewrite Hm6]|].
  intros ? w7 Hs7. eapply steady_trans; [done|]. by eapply steady_trans.
Qed.

Lemma serve_receiver_takes n w : I w -> address_offset (get w) = off -> n = 8 \/ n = -1 -> octets_stand (c_bus (get w)) ->
  wp (serve_receiver n) (fun _ w' => steady w w' /\ ((left w' < left w)%nat \/ asked w = true /\ asked w' = false)) w.
Proof.
  intros HI Ho Hn Hst. unfold serve_receiver. apply wp_bind, wp_notified; [done|done|]. intros w1 Hs1 Hg1. pose proof Hs1 as (HI1 & Hl1 & Ho1).
  assert (forall w', steady w w' -> octets_stand (c_bus (get w')) ->
    wp flush_rx (fun _ w'' => steady w w'' /\ ((left w'' < left w)%nat \/ asked w = true /\ asked w'' = false)) w') as Hflush.
  { intros w' Hs Hst'. pose proof Hs as (HI' & Hl' & Ho'). eapply wp_mono; [by apply flush_rx_takes|]. intros ? w2 [Hs2 Hlt].
    split; [by eapply steady_trans|left; lia]. }
  apply wp_if; intros Hask; [|apply Hflush; [done|by rewrite Hg1]]. apply wp_bind, wp_drop_notify; [done|done|]. intros w2 Hs2 Hm2 Hb2. rewrite Hg1 in Hb2.
  assert (steady w w2) as H2 by by eapply steady_trans. pose proof H2 as (HI2 & Hl2 & Ho2).
  unfold callback. destruct client as [cb|] eqn:Ecl; cbn; [|apply Hflush; [done|by rewrite Hb2]].
  destruct (receiver_data_available cb) as [f|] eqn:Ef; [|apply Hflush; [done|by rewrite Hb2]].
  eapply wp_mono; [eapply (cb_receive _ (Hclient cb eq_refl) f Ef); [done|done|done|by rewrite Hb2|done]|].
  intros ? w3 [Hs3 Hlt]. split; [by eapply steady_trans|]. destruct (asked w3) eqn:E3; [left; specialize (Hlt eq_refl); lia|by right].
Qed.

Lemma nibble x : 0 <= Z.land x 15 < 16.
Proof. change 15 with (Z.ones 4). rewrite Z.land_ones by lia. apply Z.mod_pos_bound. lia. Qed.

Lemma serve_modem_takes w : I w -> address_offset (get w) = off -> shows 0 (c_bus (get w)) ->
  wp serve_modem (fun _ w' => steady w w' /\ (left w' < left w)%nat) w.
Proof.
  intros HI Ho H0. unfold serve_modem. apply wp_bind. unfold pc16c550_get_msr. apply wp_read_register; [done|done|].
  intros msr w1 _ Hs1 _ b1 _ Eb1. pose proof Hs1 as (HI1 & _ & Ho1). pose proof (modem_read Hhw _ H0) as Hlt.
  assert (left w1 < left w)%nat as Hlt1 by (unfold left; by rewrite Eb1).
  unfold callback. destruct client as [cb|] eqn:Ecl; cbn; [|by apply wp_ret].
  destruct (modem_input_changed cb) as [f|] eqn:Ef; [|by apply wp_ret].
  eapply wp_mono; [eapply (cb_modem _ (Hclient cb eq_refl) f Ef); [done|done|apply nibble|apply nibble]|].
  intros ? w3 Hs3. split; [by eapply steady_trans|]. destruct Hs3 as (_ & ? & _). lia.
Qed.

Lemma serve_transmitter_steady w : I w -> address_offset (get w) = off -> wp serve_transmitter (fun _ => steady w) w.
Proof.
  intros HI Ho. unfold serve_transmitter. apply wp_bind, wp_notified; [done|done|]. intros w1 Hs1 _. pose proof Hs1 as (HI1 & _ & Ho1).
  apply wp_when; intros _; [|done]. apply wp_bind, wp_drop_notify; [done|done|]. intros w2 Hs2 Hm2 _.
  assert (steady w w2) as H2 by by eapply steady_trans. pose proof H2 as (HI2 & _ & Ho2).
  unfold callback. destruct client as [cb|] eqn:Ecl; cbn; [|by apply wp_ret].
  destruct (transmitter_has_space cb) as [f|] eqn:Ef; [|by apply wp_ret].
  apply wp_bind, wp_chip; [done|by intros c; cbn|done|]. intros w3 Hs3 Hg3. pose proof Hs3 as (HI3 & _ & Ho3).
  eapply wp_mono; [eapply (cb_space _ (Hclient cb eq_refl) f Ef); [done|done| |by rewrite Hg3]|].
  - unfold pc16c550_get_tx_fifo_size, pc16c550_get_fifo_enable, mbind, st_bind, mret, st_ret, st_gets. cbn. case_match; by auto.
  - intros ? w4 Hs4. eapply steady_trans; [done|]. by eapply steady_trans.
Qed.

(** The rounds that are left: two for everything that the hardware has, and
    one in which octets are flushed that the client has not taken. *)
Definition rounds (w : W) : nat := 2 * left w + (if asked w then 1 else 0).
Lemma rounds_left w w' : (left w' < left w)%nat -> (rounds w' < rounds w)%nat.
Proof. unfold rounds. destruct (asked w), (asked w'); lia. Qed.

End irq.

(** ** A small 16550, and a client that reads what it is told of *)

(** A condition of the line, the octets, the empty transmitter, and a change
    of the modem lines. *)
Record small := Small { s_line : bool; s_octets : list Z; s_empty : bool; s_modem : bool }.
Definition small_iir (s : small) : Z :=
  if s_line s then 6 else if decide (8 <= length (s_octets s))%nat then 4 else if decide (s_octets s <> []) then 0xC
  else if s_empty s then 2 else if s_modem s then 0 else 1.
#[export] Instance small_bus : Bus small := {
  reg_read_u8 r s :=
    if r =? 0 then (hd 0 (s_octets s), Small (s_line s) (tl (s_octets s)) (s_empty s) (s_modem s))
    else if r =? 2 then (small_iir s, if small_iir s =? 2 then Small (s_line s) (s_octets s) false (s_modem s) else s)
    else if r =? 5 then (0x60 + (if s_line s then 2 else 0) + (if decide (s_octets s = []) then 0 else 1), Small false (s_octets s) (s_empty s) (s_modem s))
    else if r =? 6 then (if s_modem s then 1 else 0, Small (s_line s) (s_octets s) (s_empty s) false)
    else (0, s);
  reg_write_u8 r v s :=
    if r =? 0 then Small (s_line s) (s_octets s) false (s_modem s)
    else if (r =? 2) && has v 2 then Small (s_line s) [] (s_empty s) (s_modem s) else s }.
Definition small_pending (s : small) : nat :=
  (if s_line s then 1 else 0) + length (s_octets s) + (if s_empty s then 1 else 0) + (if s_modem s then 1 else 0).
Definition small_shows (k : Z) (s : small) : Prop :=
  if k =? 6 then s_line s = true else if k =? 0 then s_modem s = true else s_octets s <> [].

Lemma small_settles : hardware_settles small_pending small_shows 0 1.
Proof.
  split.
  - intros r s. cbn. assert (length (tl (s_octets s)) <= length (s_octets s))%nat by (destruct s as [? [] ? ?]; cbn; lia). unfold small_pending.
    destruct (r =? 0), (r =? 2), (r =? 5), (r =? 6), (small_iir s =? 2); destruct s as [[] o [] []]; cbn in *; lia.
  - intros r v s. cbn. unfold small_pending. destruct (r =? 0), (r =? 2), (has v 2); destruct s as [[] o [] []]; cbn; lia.
  - intros [l o e m]. cbn. unfold small_iir, small_shows, small_pending. cbn.
    destruct l; [done|]. destruct (decide (8 <= length o)%nat); [split; [done|]; intros _; cbn; by destruct o; cbn in *; [lia|]|].
    destruct (decide (o <> [])); [done|]. destruct e; [split; [cbn; lia|by intros [?|[?|[?|?]]]]|]. destruct m; [done|]. split; [done|by intros [?|[?|[?|?]]]].
  - intros [l o e m] H. cbn in H. subst l. change (i32 (PC16550_REG_LSR + 0)) with 5. cbn. unfold small_pending. cbn. lia.
  - intros [l o e m] H. cbn in H. subst m. change (i32 (PC16550_REG_MSR + 0)) with 6. cbn. unfold small_pending. cbn. lia.
  - intros [l o e m] H. change (i32 (PC16550_REG_RBR + 0)) with 0. cbn. unfold small_pending. cbn. destruct o; [by destruct H|]. cbn. lia.
  - intros v [l o e m] H Hv. change (i32 (PC16550_REG_FCR + 0)) with 2. cbn. rewrite Hv. unfold small_pending. cbn. destruct o; [by destruct H|]. cbn. lia.
  - intros [l o e m]. cbn. by destruct l, (decide (o = [])).
Qed.

Definition listening : Type := chip small * list Z.
Definition put_chip (c : chip small) (w : listening) : listening := (c, w.2).
Definition note (z : Z) : prog listening unit := fun w => Done (tt, (w.1, w.2 ++ [z])).
(** It reads the octets, one when their number is not known, and asks for more. *)
Definition read_and_ask (n : Z) : prog listening unit :=
  vs ← on_chip fst put_chip (pc16c550_read_chars (if n =? -1 then 1 else n));
  modify (fun w => (w.1, w.2 ++ vs)) ;;
  _ ← on_chip fst put_chip (pc16c550_uart_enable_notification UART_NOTIFY_RXAVAILABLE); mret tt.
Definition reading_client : rtuart_client_callbacks listening :=
  Callbacks (Some note) (Some (note 0)) (Some read_and_ask) (Some (fun v _ => note v)) (Some note).

Lemma small_read_loop n c : address_offset c = 0 ->
  (pc16c550_read_loop n c).2 = with_bus (Small (s_line (c_bus c)) (drop n (s_octets (c_bus c))) (s_empty (c_bus c)) (s_modem (c_bus c))) c.
Proof.
  revert c. induction n as [|n IH]; intros c Ho; cbn [pc16c550_read_loop]; [rewrite drop_0; by destruct c as [[]]|].
  unfold mbind, st_bind, mret, st_ret, pc16c550_get_rbr, __read_register. rewrite Ho.
  change (i32 (PC16550_REG_RBR + 0)) with 0. cbn -[pc16c550_read_loop].
  specialize (IH (with_bus (Small (s_line (c_bus c)) (tl (s_octets (c_bus c))) (s_empty (c_bus c)) (s_modem (c_bus c))) c) Ho).
  destruct (pc16c550_read_loop n _) as [vs c']. cbn in IH |- *. rewrite IH.
  by replace (drop (S n) (s_octets (c_bus c))) with (drop n (tl (s_octets (c_bus c)))) by (destruct (s_octets (c_bus c)); cbn; by rewrite ?drop_nil).
Qed.
Lemma reading_contract : client_contract fst (fun _ => True) small_pending small_shows 0 reading_client.
Proof.
  split; intros f [= <-]; try (intros; unfold note, wp; cbn; (split; [done|split; [unfold left; cbn; lia|done]])).
  intros n w _ Ho Hn Hst _. unfold read_and_ask. apply wp_bind, wp_on_part. set (k := if n =? -1 then 1 else n).
  assert (0 < Z.to_nat k)%nat as Hk by (unfold k; destruct Hn as [-> | ->]; cbn; lia). unfold pc16c550_read_chars. rewrite small_read_loop by done.
  set (c1 := with_bus _ _). assert (small_pending (c_bus c1) < small_pending (c_bus w.1))%nat as Hlt.
  { clearbody k. destruct w as [[[l o e m] ? ? ? ? ?] q]. unfold c1, small_pending. cbn [c_bus with_bus s_line s_octets s_empty s_modem fst]. rewrite length_drop.
    destruct o; [by destruct Hst|]. cbn [length]. lia. }
  apply wp_bind, wp_modify, wp_bind, wp_on_part, wp_ret. assert (forall c, address_offset (pc16c550_uart_enable_notification UART_NOTIFY_RXAVAILABLE c).2 = address_offset c /\
    c_bus (pc16c550_uart_enable_notification UART_NOTIFY_RXAVAILABLE c).2 = c_bus c \/ address_offset c <> 0) as He.
  { intros [b m o i s q]. destruct (decide (o = 0)) as [->|]; [|by right]. left. unfold pc16c550_uart_enable_notification, mbind, st_bind, st_gets, st_modify. cbn. by case_match. }
  assert (address_offset c1 = 0) as Ho1 by done. destruct (He c1) as [[Ha Hb]|]; [|done]. clearbody c1.
  unfold steady, left. cbn [fst snd put_chip]. rewrite Ha, Hb. split; [split; [done|split; [lia|done]]|done].
Qed.

(** A condition of the line, nine octets, an empty transmitter and a change of
    the modem lines. *)
Definition everything : listening := (Chip (Small true (Z.of_nat <$> seq 1 9) true true) 6 0 0 1 1843200, []).
(** Everything is served once: the condition of the line (an overrun), eight
    octets and the last one, the transmitter, the modem lines. *)
Example everything_served :
  pc16c550_handle_irq fst put_chip (Some reading_client) 1 26 everything =
  Done (0, (Chip (Small false [] false false) 4 0 0 1 1843200, [1; 1; 2; 3; 4; 5; 6; 7; 8; 9; 16; 0])).
Proof. vm_compute. reflexivity. Qed.

(** ** The registers *)

Section on_registers.
Abbreviation chip16 := (chip registers).
Implicit Types c : chip16.

(** A chip whose registers are octets. *)
Definition octet_b (v : Z) : bool := (0 <=? v) && (v <? 256).
Record chip_wf (c : chip16) : Prop := {
  cw_offset : address_offset c = 0;
  cw_lcr : octet (r_lcr (c_bus c));
  cw_dll : octet (r_dll (c_bus c));
  cw_dlm : octet (r_dlm (c_bus c));
  cw_fcr : octet (fcr_shadow c) }.

Definition all_octets : list Z := Z.of_nat <$> seq 0 256.
Lemma all_octets_spec (P : Z -> bool) : forallb P all_octets = true -> forall v, octet v -> P v = true.
Proof.
  intros HP v Hv. unfold octet in Hv. rewrite forallb_forall in HP. apply HP. apply list_elem_of_In. unfold all_octets.
  apply list_elem_of_fmap. exists (Z.to_nat v). split; [lia|]. apply elem_of_seq. lia.
Qed.

Lemma read_reg c r : address_offset c = 0 -> 0 <= r <= 7 -> __read_register r c = (u8 (spec_read r (c_bus c)), c).
Proof.
  intros Ho Hr. unfold __read_register. rewrite Ho, Z.add_0_r. cbn.
  assert (i32 r = r) as -> by (rewrite i32_small; lia).
  rewrite (proj2 (Z.leb_le 0 r)), (proj2 (Z.leb_le r 7)) by lia. by destruct c.
Qed.
Lemma write_reg c r v : address_offset c = 0 -> 0 <= r <= 7 ->
  __write_register r v c = (tt, with_bus (spec_write r (u8 v) (c_bus c)) c).
Proof.
  intros Ho Hr. unfold __write_register. rewrite Ho, Z.add_0_r. cbn.
  assert (i32 r = r) as -> by (rewrite i32_small; lia).
  rewrite (proj2 (Z.leb_le 0 r)), (proj2 (Z.leb_le r 7)) by lia. unfold u8. by rewrite Zmod_mod.
Qed.
Lemma write_lcr c v : address_offset c = 0 ->
  pc16c550_set_lcr v c = (tt, with_bus (spec_write 3 (u8 v) (c_bus c)) c).
Proof. intros Ho. by apply write_reg. Qed.
Lemma read_lcr c : address_offset c = 0 -> pc16c550_get_lcr c = (u8 (r_lcr (c_bus c)), c).
Proof. intros Ho. by apply read_reg. Qed.
Lemma lcr_written v s : r_lcr (spec_write 3 v s) = v.
Proof. by destruct s. Qed.

(** The value that [pc16c550_set_format] computes. *)
Definition format_bits (databits parity stopbits lcr : Z) : Z :=
  u8 (Z.lor (Z.lor (u8 (Z.lor (clear_bits 0x3f lcr) (databits - 5))) (if 10 <? stopbits then 4 else 0))
    (Z.shiftl (if parity =? char_e then 3 else if parity =? char_o then 1 else 0) 3)).
Definition format_ok (d p s lcr : Z) : bool :=
  let x := format_bits d p s lcr in
  (Z.land x 3 + 5 =? d) &&
  ((if has x 8 then if has x 0x10 then char_e else char_o else char_n) =? p) &&
  ((if has x 4 then 20 else 10) =? (if 10 <? s then 20 else 10)) && (Z.land x 0xC0 =? Z.land lcr 0xC0) && octet_b x.

Lemma format_bits_ok d p s lcr :
  5 <= d <= 8 -> p = char_e \/ p = char_o \/ p = char_n -> octet lcr -> format_ok d p s lcr = true.
Proof.
  intros Hd Hp. assert (forall v, octet v -> forallb (fun d => forallb (fun p => format_ok d p 10 v && format_ok d p 20 v)
    [char_e; char_o; char_n]) [5; 6; 7; 8] = true) as Hall by (apply all_octets_spec; vm_compute; reflexivity).
  intros Hv. specialize (Hall lcr Hv). rewrite forallb_forall in Hall. specialize (Hall d).
  assert (In d [5; 6; 7; 8]) as Hd' by (cbn; lia). specialize (Hall Hd'). rewrite forallb_forall in Hall. specialize (Hall p).
  assert (In p [char_e; char_o; char_n]) as Hp' by (cbn; destruct Hp as [-> | [-> | ->]]; auto).
  specialize (Hall Hp'). apply andb_prop in Hall as [H1 H2]. unfold format_ok, format_bits in *. by destruct (10 <? s).
Qed.

(** The format that is set is the format that is read back: the number of
    data bits, the parity and whether there is more than one stop bit, while
    the break and the divisor latch bits of the line control register are
    kept. *)
Theorem format_roundtrip c d p s :
  chip_wf c -> 5 <= d <= 8 -> p = char_e \/ p = char_o \/ p = char_n ->
  let c' := (pc16c550_set_format d p s c).2 in
  (pc16c550_get_format c').1 = (d, p, if 10 <? s then 20 else 10) /\
  Z.land (r_lcr (c_bus c')) 0xC0 = Z.land (r_lcr (c_bus c)) 0xC0.
Proof.
  intros Hc Hd Hp. pose proof (format_bits_ok d p s _ Hd Hp (cw_lcr _ Hc)) as Hok.
  unfold format_ok in Hok. rewrite !andb_true_iff, !Z.eqb_eq in Hok. destruct Hok as ((((H1 & H2) & H3) & H4) & H5).
  unfold pc16c550_set_format, pc16c550_get_format, mbind, st_bind, mret, st_ret.
  rewrite (read_lcr c), (u8_small (r_lcr (c_bus c))) by apply Hc. fold (format_bits d p s (r_lcr (c_bus c))).
  rewrite write_lcr by apply Hc. cbv zeta. set (x := format_bits d p s (r_lcr (c_bus c))) in *.
  assert (octet x) as Hx by (unfold octet_b in H5; unfold octet; lia). rewrite (u8_small x) by done.
  cbn [snd]. rewrite read_lcr by apply Hc. cbn [c_bus with_bus fst]. rewrite lcr_written, (u8_small x) by done.
  by rewrite H1, H2, H3.
Qed.
End on_registers.

(** A chip at 1.8432 MHz. *)
Definition some_chip : chip registers := Chip (Registers 0 0 1 0 0x80 0 0x60 0 0 7 3) 0 0 0 1 1843200.
Lemma some_chip_wf : chip_wf some_chip.
Proof. by split. Qed.
Lemma format_roundtrip_witness :
  let c' := (pc16c550_set_format 8 char_n 20 some_chip).2 in
  (pc16c550_get_format c').1 = (8, char_n, 20) /\ Z.land (r_lcr (c_bus c')) 0xC0 = 0x80.
Proof. apply (format_roundtrip some_chip 8 char_n 20 some_chip_wf); [lia|by auto]. Defined.

Section properties.
Implicit Types c : chip registers.

Lemma dlab_set lcr : octet lcr -> has (u8 (Z.lor lcr PC16550_LCR_DLAB)) 0x80 = true.
Proof. revert lcr. apply (all_octets_spec (fun lcr => has (u8 (Z.lor lcr PC16550_LCR_DLAB)) 0x80)). vm_compute. reflexivity. Qed.

(** The chip after writing registers one after the other. *)
Lemma set_divisor_effect c n : chip_wf c ->
  (pc16c550_set_baudrate_divisor n c).2 =
  with_bus (let s := c_bus c in Registers (r_data s) (r_ier s) (r_iir s) (r_fcr s) (r_lcr s) (r_mcr s) (r_lsr s) (r_msr s) (r_scr s)
    (u8 n) (r_dlm s)) c.
Proof.
  intros [Ho Hl Hdl Hdm _]. unfold pc16c550_set_baudrate_divisor, mbind, st_bind. rewrite read_lcr, u8_small by done.
  rewrite write_lcr by done. unfold pc16c550_set_dll. rewrite write_reg by (done || lia).
  unfold pc16c550_set_dlm, pc16c550_set_lcr. rewrite !write_reg by (done || lia). cbn [snd c_bus with_bus].
  unfold PC16550_REG_DLL, PC16550_REG_LCR. rewrite (u8_small (r_lcr (c_bus c))) by done. pose proof (dlab_set _ Hl) as Hd.
  destruct c as [[d ier iir fcr lcr mcr lsr msr scr dll dlm] ? ? ? ? ?]. cbn in Hd |- *. rewrite Hd. unfold u8. by rewrite !Zmod_mod.
Qed.
Lemma get_divisor_value c : chip_wf c ->
  (pc16c550_get_baudrate_divisor c).1 = Z.lor (r_dll (c_bus c)) (Z.shiftl (r_dlm (c_bus c)) 8).
Proof.
  intros [Ho Hl Hdl Hdm _]. unfold pc16c550_get_baudrate_divisor, mbind, st_bind, mret, st_ret. rewrite read_lcr, u8_small by done.
  rewrite write_lcr by done. unfold pc16c550_get_dll. rewrite read_reg by (done || lia).
  unfold pc16c550_get_dlm. rewrite read_reg by (done || lia). rewrite write_lcr by done. cbn [fst].
  cbn [c_bus with_bus]. pose proof (dlab_set _ Hl) as Hd. unfold PC16550_REG_DLL, PC16550_REG_DLM.
  destruct c as [[d ier iir fcr lcr mcr lsr msr scr dll dlm] ? ? ? ? ?]. cbn in Hd, Hdl, Hdm |- *. unfold spec_read. cbn. rewrite Hd.
  by rewrite !u8_small.
Qed.

(** The high octet of the divisor of the bit rate is lost: it is written
    to the line control register instead of the latch, so that whatever
    divisor is set, the chip divides by its low octet and the high octet the
    latch happened to hold. *)
Theorem divisor_high_octet_is_lost c n :
  chip_wf c ->
  (pc16c550_get_baudrate_divisor (pc16c550_set_baudrate_divisor n c).2).1 = Z.lor (u8 n) (Z.shiftl (r_dlm (c_bus c)) 8) /\
  r_lcr (c_bus (pc16c550_set_baudrate_divisor n c).2) = r_lcr (c_bus c).
Proof.
  intros Hc. rewrite set_divisor_effect by done. split; [|done].
  rewrite get_divisor_value; [done|]. destruct Hc. split; try done. apply u8_octet.
Qed.
Lemma divisor_high_octet_is_lost_witness :
  (pc16c550_get_baudrate_divisor (pc16c550_set_baudrate_divisor 12 some_chip).2).1 = 780 /\
  r_lcr (c_bus (pc16c550_set_baudrate_divisor 12 some_chip).2) = 0x80.
Proof. apply (divisor_high_octet_is_lost some_chip 12 some_chip_wf). Defined.

(** Without the high octet a frame would be sent at the rates the client asks
    for only from a clock below 256 * 16 * 83333 Hz. *)
Lemma divisor_of_small_clock c n : chip_wf c -> r_dlm (c_bus c) = 0 -> 0 <= n < 256 ->
  (pc16c550_get_baudrate_divisor (pc16c550_set_baudrate_divisor n c).2).1 = n.
Proof.
  intros Hc Hz Hn. rewrite set_divisor_effect, get_divisor_value; [|destruct Hc; split; try done; apply u8_octet|done].
  cbn. rewrite Hz, u8_small by done. by rewrite Z.lor_0_r.
Qed.

(** *** Notifications *)

Lemma ier_octet m : octet (ier_of m).
Proof. unfold ier_of. by destruct (has m _), (has m _), (has m _), (has m _). Qed.

(** The divisor latch is hidden, and the chip raises what is notified. *)
Definition ier_ok (c : chip registers) : Prop :=
  has (r_lcr (c_bus c)) 0x80 = false /\ r_ier (c_bus c) = ier_of (notify_mask c).

Lemma update_notification_effect c : chip_wf c -> has (r_lcr (c_bus c)) 0x80 = false ->
  (pc16c550_uart_update_notification c).2 = with_bus (spec_write 1 (ier_of (notify_mask c)) (c_bus c)) c.
Proof.
  intros [Ho _ _ _ _] Hd. unfold pc16c550_uart_update_notification, pc16c550_set_ier, mbind, st_bind, st_gets.
  rewrite write_reg by (done || (unfold PC16550_REG_IER; lia)). cbn [snd]. by rewrite u8_small by apply ier_octet.
Qed.
Lemma ier_written v s : has (r_lcr s) 0x80 = false -> r_ier (spec_write 1 v s) = v /\ r_lcr (spec_write 1 v s) = r_lcr s.
Proof. destruct s. cbn. by intros ->. Qed.

(** Enabling notifications adds them to the mask and raises the
    interrupts of the whole mask.  Disabling them does so only if one of them
    was not enabled: the condition is that of enabling, so that disabling
    notifications which are all enabled, the usual case, does nothing. *)
Theorem notifications_and_interrupts c m :
  chip_wf c -> ier_ok c ->
  let e := (pc16c550_uart_enable_notification m c).2 in
  let d := (pc16c550_uart_disable_notification m c).2 in
  notify_mask e = Z.lor (notify_mask c) m /\ ier_ok e /\
  (Z.land (notify_mask c) m = m -> d = c) /\
  (Z.land (notify_mask c) m <> m -> notify_mask d = Z.ldiff (notify_mask c) m /\ ier_ok d).
Proof.
  intros Hc [Hd Hi].
  assert (forall k, let c' := (pc16c550_uart_update_notification (with_notify k c)).2 in notify_mask c' = k /\ ier_ok c') as Hupd.
  { intros k. rewrite update_notification_effect; [|destruct Hc; by split|done]. cbn [notify_mask with_notify with_bus c_bus].
    split; [done|]. unfold ier_ok. cbn [c_bus with_bus notify_mask with_notify].
    destruct (ier_written (ier_of k) (c_bus c) Hd) as [-> ->]. done. }
  unfold pc16c550_uart_enable_notification, pc16c550_uart_disable_notification, st_modify, st_gets, mbind, st_bind, mret, st_ret.
  destruct (Z.eqb_spec (Z.land (notify_mask c) m) m) as [Heq|Hne]; cbn [negb].
  - split_and!; [|done|done|done]. cbn. apply Z.bits_inj'. intros n Hn. rewrite Z.lor_spec.
    apply (f_equal (fun z => Z.testbit z n)) in Heq. rewrite Z.land_spec in Heq. by destruct (Z.testbit (notify_mask c) n), (Z.testbit m n).
  - destruct (Hupd (Z.lor (notify_mask c) m)) as [H1 H2]. destruct (Hupd (clear_bits m (notify_mask c))) as [H3 H4].
    destruct (pc16c550_uart_update_notification (with_notify (Z.lor (notify_mask c) m) c)) as [[] e].
    destruct (pc16c550_uart_update_notification (with_notify (clear_bits m (notify_mask c)) c)) as [[] d]. cbn in *. by split_and!.
Qed.

(** *** FIFOs *)

Inductive fifo_op := SetEnable (on : bool) | Flush (tx rx : bool) | Trigger (level : Z).
Definition do_fifo (op : fifo_op) : st (chip registers) Z :=
  match op with
  | SetEnable on => pc16c550_set_fifo_enable on
  | Flush tx rx => pc16c550_flush_fifo tx rx
  | Trigger level => pc16c550_set_rxfifo_trigger_level level
  end.
(** What the operation resets, and what it leaves in the register. *)
Definition resets (op : fifo_op) : Z :=
  match op with SetEnable true => 6 | Flush tx rx => Z.lor (if tx then 4 else 0) (if rx then 2 else 0) | _ => 0 end.
Definition remembered (op : fifo_op) (shadow : Z) : Z :=
  match op with
  | SetEnable on => Z.lor (Z.land shadow 0xF8) (b2z on)
  | Flush _ _ => Z.land shadow 0xF9
  | Trigger level => Z.lor (Z.land shadow 0x3F) (Z.shiftl (if level =? 14 then 3 else if level =? 8 then 2 else if level =? 4 then 1 else 0) 6)
  end.
Definition level_ok (op : fifo_op) : bool :=
  match op with Trigger l => (l =? 1) || (l =? 4) || (l =? 8) || (l =? 14) | _ => true end.

Lemma rmw_effect c mask value : chip_wf c ->
  let shadow := u8 (Z.lor (clear_bits mask (fcr_shadow c)) (clear_bits 6 (Z.land mask value))) in
  (pc16c550_rmw_fcr mask value c).2 = with_bus (spec_write 2 (u8 (Z.lor shadow (Z.land mask value))) (c_bus c)) (with_shadow shadow c).
Proof. intros [Ho _ _ _ _]. unfold pc16c550_rmw_fcr, pc16c550_set_fcr. by rewrite write_reg by (done || (unfold PC16550_REG_FCR; lia)). Qed.
Lemma fcr_written v s : r_fcr (spec_write 2 v s) = v.
Proof. by destruct s. Qed.

Definition rmw_ok (mask value res : Z) (rem : Z -> Z) (v : Z) : bool :=
  let s := u8 (Z.lor (clear_bits mask v) (clear_bits 6 (Z.land mask value))) in
  negb (Z.land v 6 =? 0) || ((s =? rem v) && (Z.land s 6 =? 0) && octet_b s && (u8 (Z.lor s (Z.land mask value)) =? Z.lor s res)).

(** The resets of the FIFOs are not remembered: every operation on the
    FIFOs writes to the chip what it remembers and, once, the resets it asks
    for; what is remembered never resets a FIFO, so that a later operation
    does not lose data. *)
Theorem fifo_resets_are_not_remembered c op :
  chip_wf c -> Z.land (fcr_shadow c) 6 = 0 -> level_ok op = true ->
  let c' := (do_fifo op c).2 in
  fcr_shadow c' = remembered op (fcr_shadow c) /\ r_fcr (c_bus c') = Z.lor (fcr_shadow c') (resets op) /\
  Z.land (fcr_shadow c') 6 = 0 /\ octet (fcr_shadow c').
Proof.
  intros Hc Hz Hok. pose proof (cw_fcr _ Hc) as Ho.
  assert (forall mask value, rmw_ok mask value (resets op) (remembered op) (fcr_shadow c) = true ->
    (do_fifo op c).2 = (pc16c550_rmw_fcr mask value c).2 ->
    let c' := (do_fifo op c).2 in
    fcr_shadow c' = remembered op (fcr_shadow c) /\ r_fcr (c_bus c') = Z.lor (fcr_shadow c') (resets op) /\
    Z.land (fcr_shadow c') 6 = 0 /\ octet (fcr_shadow c')) as Hgo.
  { intros mask value Hb E. cbv zeta. rewrite E, rmw_effect by done. unfold rmw_ok in Hb. cbv zeta in Hb. rewrite Hz in Hb. cbn [Z.eqb negb orb] in Hb.
    rewrite !andb_true_iff, !Z.eqb_eq in Hb. destruct Hb as (((H1 & H2) & H3) & H4).
    cbn [with_shadow fcr_shadow with_bus c_bus]. rewrite fcr_written, H4. unfold octet_b in H3. split_and!; try done; unfold octet; lia. }
  destruct op as [on|tx rx|level]; cbn [level_ok] in Hok.
  - destruct on; [apply (Hgo 7 7)|apply (Hgo 7 0)]; try done; revert Ho; apply all_octets_spec; vm_compute; reflexivity.
  - apply (Hgo 6 (Z.lor (if tx then 4 else 0) (if rx then 2 else 0))); [|done].
    revert Ho; apply all_octets_spec; destruct tx, rx; vm_compute; reflexivity.
  - rewrite !orb_true_iff, !Z.eqb_eq in Hok. destruct Hok as [[[-> | ->] | ->] | ->];
      [apply (Hgo 0xC0 (Z.shiftl 0 6))|apply (Hgo 0xC0 (Z.shiftl 1 6))|apply (Hgo 0xC0 (Z.shiftl 2 6))|apply (Hgo 0xC0 (Z.shiftl 3 6))];
      try done; revert Ho; apply all_octets_spec; vm_compute; reflexivity.
Qed.

(** The trigger level of the receive FIFO cannot be read back: the table
    of the four levels is indexed with the whole register instead of its two
    topmost bits, which is out of bounds for every level but the lowest. *)
Theorem trigger_level_out_of_bounds c level :
  chip_wf c -> level = 4 \/ level = 8 \/ level = 14 ->
  pc16c550_get_rxfifo_trigger_level (pc16c550_set_rxfifo_trigger_level level c).2 = Fault OutOfBounds.
Proof.
  intros Hc Hl. assert (exists n, 1 <= n <= 3 /\ (pc16c550_set_rxfifo_trigger_level level c).2 = (pc16c550_rmw_fcr 0xC0 (Z.shiftl n 6) c).2) as (n & Hn & ->).
  { destruct Hl as [-> | [-> | ->]]; [exists 1|exists 2|exists 3]; (split; [lia|done]). }
  rewrite rmw_effect by done. unfold pc16c550_get_rxfifo_trigger_level. cbn [with_bus fcr_shadow with_shadow].
  match goal with |- context [load _ ?x] => set (s := x) end. assert (4 <= s) as Hs.
  { unfold s. clear s. pose proof (cw_fcr _ Hc) as Ho. clear Hc Hl. revert Ho. generalize (fcr_shadow c). intros v Hv.
    assert (forallb (fun n => 4 <=? u8 (Z.lor (clear_bits 0xC0 v) (clear_bits 6 (Z.land 0xC0 (Z.shiftl n 6))))) [1; 2; 3] = true) as Hall.
    { revert v Hv. apply all_octets_spec. vm_compute. reflexivity. }
    rewrite forallb_forall in Hall. apply Z.leb_le, Hall. cbn. lia. }
  clearbody s. unfold load. rewrite (proj2 (Z.leb_le 0 s)) by lia.
  rewrite (proj2 (lookup_ge_None _ (Z.to_nat s))); [done|cbn; lia].
Qed.
End properties.

Lemma notifications_and_interrupts_witness :
  let c := Chip (Registers 0 5 1 0 3 0 0x60 0 0 7 3) 0x14 0 0 1 1843200 in
  let e := (pc16c550_uart_enable_notification 6 c).2 in let d := (pc16c550_uart_disable_notification 6 c).2 in
  notify_mask e = 0x16 /\ ier_ok e /\ (Z.land 0x14 6 = 6 -> d = c) /\ (Z.land 0x14 6 <> 6 -> notify_mask d = 0x10 /\ ier_ok d).
Proof. apply (notifications_and_interrupts (Chip (Registers 0 5 1 0 3 0 0x60 0 0 7 3) 0x14 0 0 1 1843200)); by split. Defined.
Lemma fifo_resets_are_not_remembered_witness :
  let c' := (do_fifo (Flush false true) some_chip).2 in
  fcr_shadow c' = 1 /\ r_fcr (c_bus c') = Z.lor (fcr_shadow c') 2 /\ Z.land (fcr_shadow c') 6 = 0 /\ octet (fcr_shadow c').
Proof. apply (fifo_resets_are_not_remembered some_chip (Flush false true) some_chip_wf); reflexivity. Defined.
Lemma trigger_level_out_of_bounds_witness :
  pc16c550_get_rxfifo_trigger_level (pc16c550_set_rxfifo_trigger_level 8 some_chip).2 = Fault OutOfBounds.
Proof. apply (trigger_level_out_of_bounds some_chip 8 some_chip_wf). by auto. Defined.
