(* ===== verification/Pl011.v ===== *)
(** * The driver of the PL011

    [src/uio-testbench/uart/pl011.c]: the UART of the Raspberry Pi.  Its
    registers have 32 bits, its bus can fail, and received octets go through
    a ring of 64 octets, because the chip reports errors with the octet they
    belong to.  Enabling a notification can call the client at once, so that
    the operations run on the whole state. *)
From stdpp Require Import base countable gmap list.
From S2P Require Import Prelude KList FrameQueue RdmFrame UartClient Bus Pc16c550.

(** ** The ring of received octets *)

Record rx_ring := Ring { fifo : list Z; inptr : Z; outptr : Z }.

Definition pl011_rx_fifo_flush (r : rx_ring) : rx_ring := Ring (fifo r) (outptr r) (outptr r).
Definition pl011_rx_fifo_full (r : rx_ring) : bool := Z.land (inptr r + 1) 63 =? outptr r.
Definition pl011_rx_fifo_empty (r : rx_ring) : bool := inptr r =? outptr r.
Definition pl011_rx_fifo_level (r : rx_ring) : Z :=
  if pl011_rx_fifo_empty r then 0
  else if outptr r <? inptr r then inptr r - outptr r
  else (inptr r + 64) - outptr r.
Definition pl011_rx_fifo_put (v : Z) (r : rx_ring) : outcome rx_ring :=
  if negb (pl011_rx_fifo_full r) then
    let p := inptr r in
    f ← store p (u8 v) (fifo r);
    Done (Ring f (Z.land (p + 1) 63) (outptr r))
  else Done r.
(** The octet, if there is one. *)
Definition pl011_rx_fifo_get (r : rx_ring) : outcome (option Z * rx_ring) :=
  if negb (pl011_rx_fifo_empty r) then
    let p := outptr r in
    v ← load (fifo r) p;
    Done (Some v, Ring (fifo r) (inptr r) (Z.land (p + 1) 63))
  else Done (None, r).

(** The ring as a queue. *)
Record ring_wf (r : rx_ring) : Prop := {
  rw_fifo : length (fifo r) = 64%nat;
  rw_in : 0 <= inptr r < 64;
  rw_out : 0 <= outptr r < 64 }.
Definition ring_at (r : rx_ring) (k : nat) : Z := default 0 (fifo r !! Z.to_nat (Z.land (outptr r + Z.of_nat k) 63)).
Definition queue_of (r : rx_ring) : list Z := ring_at r <$> seq 0 (Z.to_nat (Z.land (inptr r - outptr r) 63)).

Lemma land63 x : Z.land x 63 = x mod 64.
Proof. change 63 with (Z.ones 6). by rewrite Z.land_ones. Qed.
Lemma land63_small x : 0 <= x < 64 -> Z.land x 63 = x.
Proof. intros Hx. rewrite land63. by apply Z.mod_small. Qed.
Lemma land63_wrap x : 64 <= x < 128 -> Z.land x 63 = x - 64.
Proof. intros Hx. rewrite land63. symmetry. apply (Z.mod_unique _ _ 1); lia. Qed.
Lemma land63_neg x : -64 <= x < 0 -> Z.land x 63 = x + 64.
Proof. intros Hx. rewrite land63. symmetry. apply (Z.mod_unique _ _ (-1)); lia. Qed.

(** The distance of two positions of the ring. *)
Lemma distance i j : 0 <= i < 64 -> 0 <= j < 64 -> Z.land (i - j) 63 = if j <=? i then i - j else i + 64 - j.
Proof. intros Hi Hj. destruct (Z.leb_spec j i); [apply land63_small; lia|]. rewrite land63_neg; lia. Qed.
Lemma next_pos i : 0 <= i < 64 -> Z.land (i + 1) 63 = if i =? 63 then 0 else i + 1.
Proof. intros Hi. destruct (Z.eqb_spec i 63) as [->|]; [done|]. apply land63_small. lia. Qed.

Lemma ring_level r : ring_wf r -> pl011_rx_fifo_level r = Z.of_nat (length (queue_of r)).
Proof.
  intros [Hl Hi Ho]. unfold queue_of, pl011_rx_fifo_level, pl011_rx_fifo_empty. rewrite length_fmap, length_seq, distance by done.
  destruct (Z.eqb_spec (inptr r) (outptr r)), (Z.ltb_spec (outptr r) (inptr r)), (Z.leb_spec (outptr r) (inptr r)); lia.
Qed.

Lemma ring_pos r k : ring_wf r -> (k < 64)%nat ->
  Z.land (outptr r + Z.of_nat k) 63 = if outptr r + Z.of_nat k <? 64 then outptr r + Z.of_nat k else outptr r + Z.of_nat k - 64.
Proof.
  intros [_ _ Ho] Hk. destruct (Z.ltb_spec (outptr r + Z.of_nat k) 64); [apply land63_small; lia|apply land63_wrap; lia].
Qed.
(** The number of queued octets. *)
Definition fill (r : rx_ring) : nat := Z.to_nat (Z.land (inptr r - outptr r) 63).
Lemma fill_spec r : ring_wf r ->
  (fill r <= 63)%nat /\ inptr r = Z.land (outptr r + Z.of_nat (fill r)) 63 /\
  (pl011_rx_fifo_full r = true <-> fill r = 63%nat) /\ (pl011_rx_fifo_empty r = true <-> fill r = 0%nat).
Proof.
  intros Hr. pose proof Hr as [_ Hi Ho]. pose proof (distance _ _ Hi Ho) as Hd.
  assert ((fill r <= 63)%nat) as Hf by (unfold fill; rewrite Hd; destruct (Z.leb_spec (outptr r) (inptr r)); lia).
  split; [done|]. split.
  { rewrite ring_pos by (done || lia). unfold fill. rewrite Hd. destruct (Z.leb_spec (outptr r) (inptr r)); rewrite Z2Nat.id by lia.
    - rewrite (proj2 (Z.ltb_lt _ _)); lia.
    - rewrite (proj2 (Z.ltb_ge _ _)); lia. }
  unfold pl011_rx_fifo_full, pl011_rx_fifo_empty, fill. rewrite next_pos, Hd, !Z.eqb_eq by done.
  destruct (Z.eqb_spec (inptr r) 63), (Z.leb_spec (outptr r) (inptr r)); lia.
Qed.

Lemma ring_put r v : ring_wf r -> octet v -> (fill r < 63)%nat ->
  exists r', pl011_rx_fifo_put v r = Done r' /\ ring_wf r' /\ fill r' = S (fill r) /\ queue_of r' = queue_of r ++ [v].
Proof.
  intros Hr Hv Hn. pose proof (fill_spec r Hr) as (_ & Hin & Hfull & _). pose proof Hr as [Hl Hi Ho].
  unfold pl011_rx_fifo_put. destruct (pl011_rx_fifo_full r) eqn:Hb; [pose proof (proj1 Hfull eq_refl); lia|]. cbn [negb].
  rewrite u8_small by done. pose proof (store_nat (fifo r) (Z.to_nat (inptr r)) v) as E. rewrite Z2Nat.id in E by lia. rewrite E by lia.
  cbn [mbind outcome_bind]. eexists. split; [done|]. set (r' := Ring _ _ _).
  assert (ring_wf r') as Hr'.
  { split; cbn; [by rewrite length_insert|rewrite next_pos by done; destruct (Z.eqb_spec (inptr r) 63); lia|done]. }
  assert (fill r' = S (fill r)) as Hf.
  { unfold fill. cbn. rewrite distance; [|apply Hr'|done]. rewrite next_pos, (distance (inptr r)) by done.
    unfold pl011_rx_fifo_full in Hb. rewrite next_pos in Hb by done. apply Z.eqb_neq in Hb.
    destruct (Z.eqb_spec (inptr r) 63), (Z.leb_spec (outptr r) (inptr r));
      [destruct (Z.leb_spec (outptr r) 0)|destruct (Z.leb_spec (outptr r) 0)|destruct (Z.leb_spec (outptr r) (inptr r + 1))|destruct (Z.leb_spec (outptr r) (inptr r + 1))]; lia. }
  split; [done|]. split; [done|]. unfold queue_of. fold (fill r) (fill r'). rewrite Hf, seq_S, fmap_app. f_equal.
  - apply list_fmap_ext. intros i k Hk%lookup_seq. unfold ring_at. cbn. rewrite list_lookup_insert_ne; [done|].
    rewrite Hin, !ring_pos by (done || lia). destruct (Z.ltb_spec (outptr r + Z.of_nat k) 64), (Z.ltb_spec (outptr r + Z.of_nat (fill r)) 64); lia.
  - cbn. unfold ring_at. cbn. rewrite <- Hin. by rewrite list_lookup_insert_eq by lia.
Qed.

Lemma ring_get r : ring_wf r -> (0 < fill r)%nat ->
  exists r', pl011_rx_fifo_get r = Done (head (queue_of r), r') /\ ring_wf r' /\ queue_of r' = tail (queue_of r) /\ S (fill r') = fill r.
Proof.
  intros Hr Hn. pose proof (fill_spec r Hr) as (_ & Hin & _ & Hemp). pose proof Hr as [Hl Hi Ho].
  unfold pl011_rx_fifo_get. destruct (pl011_rx_fifo_empty r) eqn:Hb; [pose proof (proj1 Hemp eq_refl); lia|]. cbn [negb].
  destruct (lookup_lt_is_Some_2 (fifo r) (Z.to_nat (outptr r))) as [v Hv]; [lia|].
  pose proof (load_nat _ _ v Hv) as E. rewrite Z2Nat.id in E by lia. rewrite E. cbn [mbind outcome_bind].
  assert (queue_of r = v :: (ring_at r <$> seq 1 (fill r - 1))) as Hq.
  { unfold queue_of. fold (fill r). destruct (fill r) as [|n]; [lia|]. cbn [seq fmap list_fmap]. rewrite Nat.sub_succ, Nat.sub_0_r. f_equal.
    unfold ring_at. cbn. rewrite Z.add_0_r, land63_small by done. by rewrite Hv. }
  rewrite Hq. cbn [head]. eexists. split; [done|]. set (r' := Ring _ _ _).
  assert (ring_wf r') as Hr'.
  { split; cbn; [done|done|]. rewrite next_pos by done. destruct (Z.eqb_spec (outptr r) 63); lia. }
  assert (S (fill r') = fill r) as Hf.
  { unfold fill. cbn. rewrite distance; [|done|apply Hr']. unfold r'. cbn. rewrite next_pos, (distance (inptr r)) by done.
    unfold pl011_rx_fifo_empty in Hb. apply Z.eqb_neq in Hb.
    destruct (Z.eqb_spec (outptr r) 63), (Z.leb_spec (outptr r) (inptr r));
      [destruct (Z.leb_spec 0 (inptr r))|destruct (Z.leb_spec 0 (inptr r))|destruct (Z.leb_spec (outptr r + 1) (inptr r))|destruct (Z.leb_spec (outptr r + 1) (inptr r))]; lia. }
  split; [done|]. split; [|done]. unfold queue_of. fold (fill r'). cbn [tail]. replace (fill r - 1)%nat with (fill r') by lia.
  rewrite <- fmap_S_seq, <- list_fmap_compose. apply list_fmap_ext. intros i k Hk%lookup_seq. unfold ring_at. cbn. do 3 f_equal.
  rewrite !land63. rewrite Zplus_mod_idemp_l. f_equal. lia.
Qed.

(** C32: The ring is a queue of at most 63 octets: putting an octet appends it
    unless the queue is full, when the octet is dropped; getting takes the
    oldest one; flushing empties it; and the level is its length.  The array
    is never accessed out of its bounds. *)
Theorem ring_refines_queue r v :
  ring_wf r -> octet v ->
  (length (queue_of r) <= 63)%nat /\ pl011_rx_fifo_level r = Z.of_nat (length (queue_of r)) /\
  (exists r', pl011_rx_fifo_put v r = Done r' /\ ring_wf r' /\
     queue_of r' = if (length (queue_of r) <? 63)%nat then queue_of r ++ [v] else queue_of r) /\
  (exists r', pl011_rx_fifo_get r = Done (head (queue_of r), r') /\ ring_wf r' /\ queue_of r' = tail (queue_of r)) /\
  ring_wf (pl011_rx_fifo_flush r) /\ queue_of (pl011_rx_fifo_flush r) = [].
Proof.
  intros Hr Hv. pose proof (fill_spec r Hr) as (Hf & _ & Hfull & Hemp).
  assert (length (queue_of r) = fill r) as Hlen by (unfold queue_of; by rewrite length_fmap, length_seq).
  split; [lia|]. split; [by apply ring_level|]. split; [|split; [|split]].
  - rewrite Hlen. destruct (Nat.ltb_spec (fill r) 63) as [Hlt|Hge].
    + destruct (ring_put r v Hr Hv Hlt) as (r' & ? & ? & _ & ?). by exists r'.
    + exists r. unfold pl011_rx_fifo_put. rewrite (proj2 Hfull) by lia. done.
  - destruct (decide (fill r = 0%nat)) as [Hz|Hnz].
    + exists r. unfold pl011_rx_fifo_get. rewrite (proj2 Hemp) by done.
      destruct (queue_of r); [done|]. cbn in Hlen. lia.
    + destruct (ring_get r Hr) as (r' & ? & ? & ? & _); [lia|]. by exists r'.
  - destruct Hr. by split.
  - unfold queue_of. cbn. by rewrite Z.sub_diag.
Qed.
Definition some_ring : rx_ring := Ring (replicate 64 7) 3 60.
Lemma ring_refines_queue_witness :
  exists r', pl011_rx_fifo_put 9 some_ring = Done r' /\ ring_wf r' /\ queue_of r' = [7; 7; 7; 7; 7; 7; 7; 9].
Proof.
  assert (ring_wf some_ring) as Hr by (split; cbn; lia || done).
  exact (proj1 (proj2 (proj2 (ring_refines_queue some_ring 9 Hr (conj (Zle_0_pos 9 : 0 <= 9) (eq_refl : 9 < 256)))))).
Defined.

(** ** Registers *)

Definition PL011_REG_DR : Z := 0.
Definition PL011_REG_FR : Z := 0x18 / 4.
Definition PL011_REG_IBRD : Z := 0x24 / 4.
Definition PL011_REG_FBRD : Z := 0x28 / 4.
Definition PL011_REG_LCRH : Z := 0x2C / 4.
Definition PL011_REG_CR : Z := 0x30 / 4.
Definition PL011_REG_IFLS : Z := 0x34 / 4.
Definition PL011_REG_IMSC : Z := 0x38 / 4.
Definition PL011_REG_MIS : Z := 0x40 / 4.
Definition PL011_REG_ICR : Z := 0x44 / 4.
Definition PL011_LCRH_WLEN_SHIFT : Z := 5.
Definition PL011_LCRH_WLEN_MASK : Z := Z.shiftl 3 PL011_LCRH_WLEN_SHIFT.
Definition PL011_LCRH_FEN : Z := Z.shiftl 1 4.
Definition PL011_LCRH_STP2 : Z := Z.shiftl 1 3.
Definition PL011_LCRH_EPS : Z := Z.shiftl 1 2.
Definition PL011_LCRH_PEN : Z := Z.shiftl 1 1.
Definition PL011_LCRH_BRK : Z := Z.shiftl 1 0.
Definition PL011_CR_OUT2 : Z := Z.shiftl 1 13.
Definition PL011_CR_OUT1 : Z := Z.shiftl 1 12.
Definition PL011_CR_RTS : Z := Z.shiftl 1 11.
Definition PL011_CR_DTR : Z := Z.shiftl 1 10.
Definition PL011_CR_RXE : Z := Z.shiftl 1 9.
Definition PL011_CR_TXE : Z := Z.shiftl 1 8.
Definition PL011_MIS_OE : Z := Z.shiftl 1 10.
Definition PL011_MIS_BE : Z := Z.shiftl 1 9.
Definition PL011_MIS_PE : Z := Z.shiftl 1 8.
Definition PL011_MIS_FE : Z := Z.shiftl 1 7.
Definition PL011_MIS_RT : Z := Z.shiftl 1 6.
Definition PL011_MIS_TX : Z := Z.shiftl 1 5.
Definition PL011_MIS_RX : Z := Z.shiftl 1 4.
Definition PL011_MIS_CTS : Z := Z.shiftl 1 1.
Definition PL011_MIS_ERRORS : Z := Z.lor (Z.lor (Z.lor PL011_MIS_OE PL011_MIS_BE) PL011_MIS_PE) PL011_MIS_FE.
Definition PL011_MIS_ALL : Z :=
  Z.lor (Z.lor (Z.lor (Z.lor PL011_MIS_ERRORS PL011_MIS_RT) PL011_MIS_TX) PL011_MIS_RX) PL011_MIS_CTS.
Definition PL011_FR_TXFE : Z := Z.shiftl 1 7.
Definition PL011_FR_TXFF : Z := Z.shiftl 1 5.
Definition PL011_FR_RXFE : Z := Z.shiftl 1 4.
Definition PL011_FR_BUSY : Z := Z.shiftl 1 3.
Definition RTUART_OUTPUT_DTR : Z := Z.shiftl 1 0.
Definition RTUART_OUTPUT_GENERIC0 : Z := Z.shiftl 1 2.
Definition RTUART_OUTPUT_GENERIC1 : Z := Z.shiftl 1 3.

Definition pl011_irqstatus_to_event (status : Z) : Z :=
  Z.lor (Z.lor (Z.lor (if has status PL011_MIS_OE then RTUART_EVENT_OVERRUN_ERROR else 0)
    (if has status PL011_MIS_PE then RTUART_EVENT_PARITY_ERROR else 0))
    (if has status PL011_MIS_FE then RTUART_EVENT_FRAMING_ERROR else 0))
    (if has status PL011_MIS_BE then RTUART_EVENT_BREAK else 0).

(** [struct rtuart_pl011] with its [struct rtuart]; [p_txen] is the value of
    the GPIO line that enables the transmitter of the RS485 bus. *)
Record pl011 (B : Type) := Pl011 {
  p_bus : B;
  p_notify : Z;
  p_offset : Z;
  p_clock : Z;
  p_input : Z;                  (* old_input_state *)
  p_rx : rx_ring;
  p_txen : Z }.
Arguments Pl011 {B}. Arguments p_bus {B}. Arguments p_notify {B}. Arguments p_offset {B}. Arguments p_clock {B}.
Arguments p_input {B}. Arguments p_rx {B}. Arguments p_txen {B}.

Definition with_rx {B} (r : rx_ring) (c : pl011 B) : pl011 B :=
  Pl011 (p_bus c) (p_notify c) (p_offset c) (p_clock c) (p_input c) r (p_txen c).
Definition with_p_bus {B} (b : B) (c : pl011 B) : pl011 B :=
  Pl011 b (p_notify c) (p_offset c) (p_clock c) (p_input c) (p_rx c) (p_txen c).
Definition with_p_notify {B} (m : Z) (c : pl011 B) : pl011 B :=
  Pl011 (p_bus c) m (p_offset c) (p_clock c) (p_input c) (p_rx c) (p_txen c).
Definition with_input {B} (v : Z) (c : pl011 B) : pl011 B :=
  Pl011 (p_bus c) (p_notify c) (p_offset c) (p_clock c) v (p_rx c) (p_txen c).
Definition with_txen {B} (v : Z) (c : pl011 B) : pl011 B :=
  Pl011 (p_bus c) (p_notify c) (p_offset c) (p_clock c) (p_input c) (p_rx c) v.

Section driver.
Context {B : Type} `{Bus32 B}.
(** Does [gpiod_line_set_value] succeed? *)
Context (gpiod_ok : bool).
Abbreviation driver := (prog (pl011 B)).

Definition rtuart_read_u32 (reg : Z) : driver (option Z) := fun c =>
  let '(v, b) := reg_read_u32 (i32 (reg + p_offset c)) (p_bus c) in Done (u64 <$> v, with_p_bus b c).
Definition rtuart_write_u32 (reg v : Z) : driver Z := fun c =>
  let '(r, b) := reg_write_u32 (i32 (reg + p_offset c)) (u64 v) (p_bus c) in Done (r, with_p_bus b c).
(** A variable that a read stores to, when the result is not looked at. *)
Definition unchecked_read (reg : Z) : driver Z :=
  v ← rtuart_read_u32 reg;
  match v with Some v => mret v | None => raise Uninitialised end.

(** *** Format, bit rate, break, modem lines *)
Definition format_lcrh (databits parity stopbits lcr : Z) : Z :=
  let lcr := clear_bits PL011_LCRH_WLEN_MASK lcr in
  let lcr := Z.lor lcr (Z.land (Z.shiftl (databits - 5) PL011_LCRH_WLEN_SHIFT) PL011_LCRH_WLEN_MASK) in
  let lcr := clear_bits (Z.lor PL011_LCRH_PEN PL011_LCRH_EPS) lcr in
  let lcr := Z.lor lcr (if parity =? char_e then Z.lor PL011_LCRH_PEN PL011_LCRH_EPS
                        else if parity =? char_o then PL011_LCRH_PEN else 0) in
  let lcr := clear_bits PL011_LCRH_STP2 lcr in
  Z.lor lcr (if 10 <? stopbits then PL011_LCRH_STP2 else 0).
Definition pl011_set_format (databits parity stopbits : Z) : driver Z :=
  lcr ← unchecked_read PL011_REG_LCRH;
  _ ← rtuart_write_u32 PL011_REG_LCRH (format_lcrh databits parity stopbits lcr);
  mret 0.
Definition format_of (lcr : Z) : Z * Z * Z :=
  (Z.land (Z.shiftr lcr 5) 3 + 5,
   (if has lcr PL011_LCRH_PEN then if has lcr PL011_LCRH_EPS then char_e else char_o else char_n),
   (if has lcr PL011_LCRH_STP2 then 20 else 10)).
Definition pl011_get_format : driver (Z * Z * Z) :=
  lcr ← unchecked_read PL011_REG_LCRH; mret (format_of lcr).
(** [16 * baudrate] is computed in 32 bits. *)
Definition pl011_set_baudrate (baudrate : Z) : driver Z :=
  clock ← gets p_clock;
  let d := (16 * baudrate) mod 2 ^ 32 in
  if d =? 0 then raise DivideByZero else
  let divisor := u64 (clock * 64) / d in
  _ ← rtuart_write_u32 PL011_REG_IBRD (u16 (Z.shiftr divisor 6));
  _ ← rtuart_write_u32 PL011_REG_FBRD (Z.land divisor 0x63);
  lcrh ← rtuart_read_u32 PL011_REG_LCRH;
  match lcrh with
  | Some lcrh => _ ← rtuart_write_u32 PL011_REG_LCRH lcrh; mret 0
  | None => mret 0
  end.
Definition pl011_get_baudrate : driver Z :=
  clock ← gets p_clock;
  ibrd ← unchecked_read PL011_REG_IBRD;
  fbrd ← unchecked_read PL011_REG_FBRD;
  let divisor := Z.lor (Z.shiftl (Z.land ibrd 0xffff) 6) (Z.land fbrd 0x3f) in
  if divisor =? 0 then raise DivideByZero else mret ((u64 (clock * 64) / (16 * divisor)) mod 2 ^ 32).
Definition pl011_set_break (on : bool) : driver Z :=
  lcrh ← unchecked_read PL011_REG_LCRH;
  _ ← rtuart_write_u32 PL011_REG_LCRH (if on then Z.lor lcrh PL011_LCRH_BRK else clear_bits PL011_LCRH_BRK lcrh);
  mret 0.
Definition pl011_get_break : driver bool := lcrh ← unchecked_read PL011_REG_LCRH; mret (has lcrh PL011_LCRH_BRK).
Definition pl011_get_line_status : driver Z := mret (-1).

(** The bits of the control register for a set of outputs. *)
Definition outputs (l : Z) : Z :=
  Z.lor (Z.lor (Z.lor (if has l RTUART_OUTPUT_RTS then PL011_CR_RTS else 0) (if has l RTUART_OUTPUT_DTR then PL011_CR_DTR else 0))
    (if has l RTUART_OUTPUT_GENERIC0 then PL011_CR_OUT1 else 0)) (if has l RTUART_OUTPUT_GENERIC1 then PL011_CR_OUT2 else 0).
Definition pl011_set_modem_lines (_mask _line : Z) : driver Z :=
  let mask := outputs _mask in
  let line := outputs _line in
  when (has _mask RTUART_OUTPUT_RTS && gpiod_ok) (modify (with_txen (if has _line RTUART_OUTPUT_RTS then 0 else 1))) ;;
  cr ← rtuart_read_u32 PL011_REG_CR;
  match cr with
  | None => mret (-1)
  | Some cr => rtuart_write_u32 PL011_REG_CR (Z.lor (clear_bits mask cr) (Z.land mask line))
  end.

(** *** FIFOs *)
Definition pl011_set_fifo_enable (on : bool) : driver Z :=
  cr ← rtuart_read_u32 PL011_REG_LCRH;
  match cr with
  | None => mret (-1)
  | Some cr => rtuart_write_u32 PL011_REG_LCRH (if on then Z.lor cr PL011_LCRH_FEN else clear_bits PL011_LCRH_FEN cr)
  end.
(** The FIFO enable bit is looked for in the control register. *)
Definition pl011_flush_fifo (flush_tx flush_rx : bool) : driver Z :=
  let rx := (when flush_rx (modify (fun c => with_rx (pl011_rx_fifo_flush (p_rx c)) c)) ;; mret 0) in
  if flush_tx then
    cr ← rtuart_read_u32 PL011_REG_CR;
    match cr with
    | None => mret (-1)
    | Some cr =>
        (if has cr (Z.shiftl 1 4) then
           _ ← rtuart_write_u32 PL011_REG_CR (clear_bits (Z.shiftl 1 4) cr);
           _ ← rtuart_write_u32 PL011_REG_CR cr; mret tt
         else mret tt) ;;
        rx
    end
  else rx.
Definition pl011_fifo_level_to_code (level : Z) : Z :=
  if level =? 16 * 7 / 8 then 4 else if level =? 16 * 3 / 4 then 3 else if level =? 16 / 2 then 2
  else if level =? 16 / 4 then 1 else if level =? 16 / 8 then 0 else -1.
Definition pl011_set_fifo_trigger_level (level bitOffset : Z) : driver Z :=
  let rxcode := pl011_fifo_level_to_code level in
  if 0 <=? rxcode then
    ifls ← rtuart_read_u32 PL011_REG_IFLS;
    match ifls with
    | Some ifls =>
        _ ← rtuart_write_u32 PL011_REG_IFLS (Z.lor (clear_bits (Z.shiftl 7 bitOffset) ifls) (Z.shiftl rxcode bitOffset));
        mret 0
    | None => mret (-1)
    end
  else mret (-1).
Definition pl011_set_rxfifo_trigger_level (level : Z) : driver Z := pl011_set_fifo_trigger_level level 3.
Definition pl011_set_txfifo_trigger_level (level : Z) : driver Z := pl011_set_fifo_trigger_level level 0.
(** [None] is the result -1. *)
Definition pl011_get_tx_fifo_size : driver (option Z) :=
  lcrh ← rtuart_read_u32 PL011_REG_LCRH; mret ((fun lcrh => if has lcrh PL011_LCRH_FEN then 16 else 1) <$> lcrh).
Definition pl011_get_rx_fifo_size : driver (option Z) := pl011_get_tx_fifo_size.
Definition pl011_get_tx_fifo_free : driver (option Z) :=
  fr ← rtuart_read_u32 PL011_REG_FR;
  mret ((fun fr => if has fr (Z.shiftl 1 7) then 16 else if has fr (Z.shiftl 1 5) then 0 else 1) <$> fr).
Definition pl011_get_rx_fifo_level : driver (option Z) := mret None.

(** *** Data *)
Fixpoint pl011_write_chars (buffer : list Z) : driver Z :=
  match buffer with
  | [] => mret 0
  | v :: buffer =>
      fr ← rtuart_read_u32 PL011_REG_FR;
      match fr with
      | None => mret (-1)
      | Some fr =>
          if has fr PL011_FR_TXFF then mret 0
          else _ ← rtuart_write_u32 0 v; pl011_write_chars buffer
      end
  end.
Definition rx_get : driver (option Z) := fun c =>
  '(v, r) ← pl011_rx_fifo_get (p_rx c); Done (v, with_rx r c).
Definition rx_put (v : Z) : driver unit := fun c =>
  r ← pl011_rx_fifo_put v (p_rx c); Done (tt, with_rx r c).
(** The octets; their number is the result. *)
Fixpoint pl011_read_loop (count : nat) : driver (list Z) :=
  match count with
  | O => mret []
  | S count =>
      v ← rx_get;
      match v with
      | None => mret []
      | Some v => vs ← pl011_read_loop count; mret (v :: vs)
      end
  end.
Definition pl011_read_chars (count : Z) : driver (list Z) := pl011_read_loop (Z.to_nat count).

(** The loop of the interrupt handler that empties the receive FIFO of the
    chip into the ring, up to an octet with an error, which is its result. *)
Fixpoint drain_receiver (fuel : nat) : driver Z :=
  match fuel with
  | O => raise OutOfFuel
  | S fuel =>
      fr ← rtuart_read_u32 PL011_REG_FR;
      match fr with
      | None => mret 0
      | Some fr =>
          if has fr PL011_FR_RXFE then mret 0 else
          dr ← rtuart_read_u32 PL011_REG_DR;
          match dr with
          | None => drain_receiver fuel
          | Some dr =>
              let error := Z.land dr 0xF00 in
              if negb (error =? 0) then mret error else rx_put (u8 dr) ;; drain_receiver fuel
          end
      end
  end.

(** [malloc]'s memory keeps its contents; [gpio_line] is what the GPIO library
    makes of the line. *)
Definition pl011_create (malloc_ok : bool) (garbage : pl011 B) (clock gpio_line : Z) : option (pl011 B) :=
  if malloc_ok then
    Some (Pl011 (p_bus garbage) (p_notify garbage) (p_offset garbage) clock (p_input garbage) (p_rx garbage) gpio_line)
  else None.
End driver.

(** ** Notifications and the interrupt handler *)

Section irq.
Context {B W : Type} `{Bus32 B} (get : W -> pl011 B) (put : pl011 B -> W -> W).
Context (client : option (rtuart_client_callbacks W)) (spin : nat).

Definition on_device {A} (m : prog (pl011 B) A) : prog W A := fun w =>
  '(a, c) ← m (get w); Done (a, put c w).
Definition has_callback {A} (f : rtuart_client_callbacks W -> option A) : option A := client ≫= f.
Definition p_notified (m : Z) : prog W bool := on_device (gets (fun c => has (p_notify c) m)).
Definition p_drop_notify (m : Z) : prog W unit := on_device (modify (fun c => with_p_notify (clear_bits m (p_notify c)) c)).

(** The call of [transmitter_has_space] with the size of the FIFO. *)
Definition offer_space : prog W unit :=
  match has_callback transmitter_has_space with
  | Some f =>
      space ← on_device pl011_get_tx_fifo_size;
      match space with Some space => f space | None => mret tt end
  | None => mret tt
  end.

(** The interrupts for a mask of notifications. *)
Definition imsc_of (mask : Z) : Z :=
  Z.lor (Z.lor (Z.lor (if has mask UART_NOTIFY_RXAVAILABLE then Z.lor (Z.shiftl 1 4) (Z.shiftl 1 6) else 0)
    (if has mask UART_NOTIFY_TXREADY then Z.shiftl 1 5 else 0))
    (if has mask UART_NOTIFY_LINEEVENT then Z.shiftl 0xF 7 else 0)) (if has mask UART_NOTIFY_INPUTCHANGED then Z.shiftl 1 1 else 0).

(** [start_tx] is computed from the bit before it is set, so it is the
    notification itself. *)
Definition pl011_uart_update_notification : prog W unit :=
  mask ← on_device (gets p_notify);
  let start_tx := has mask UART_NOTIFY_TXREADY in
  _ ← on_device (rtuart_write_u32 PL011_REG_IMSC (imsc_of mask));
  cr ← on_device (rtuart_read_u32 PL011_REG_CR);
  match cr with
  | Some cr =>
      let cr := if has mask (Z.lor UART_NOTIFY_RXAVAILABLE UART_NOTIFY_LINEEVENT) then Z.lor cr PL011_CR_RXE
                else clear_bits PL011_CR_RXE cr in
      _ ← on_device (rtuart_write_u32 PL011_REG_CR (Z.lor cr PL011_CR_TXE)); mret tt
  | None => mret tt
  end ;;
  when start_tx offer_space.
Definition pl011_uart_enable_notification (m : Z) : prog W Z :=
  mask ← on_device (gets p_notify);
  when (negb (Z.land mask m =? m)) (
    on_device (modify (with_p_notify (Z.lor mask m))) ;; pl011_uart_update_notification) ;;
  mret 0.
Definition pl011_uart_disable_notification (m : Z) : prog W Z :=
  mask ← on_device (gets p_notify);
  when (negb (Z.land mask m =? m)) (
    on_device (modify (with_p_notify (clear_bits m mask))) ;; pl011_uart_update_notification) ;;
  mret 0.

(** [while (0 == read(FR, &fr) && (fr & BUSY)) usleep(88);] *)
Fixpoint wait_not_busy (fuel : nat) : prog W unit :=
  match fuel with
  | O => raise OutOfFuel
  | S fuel =>
      fr ← on_device (rtuart_read_u32 PL011_REG_FR);
      match fr with
      | Some fr => if has fr PL011_FR_BUSY then wait_not_busy fuel else mret tt
      | None => mret tt
      end
  end.
Definition pl011_handle_receiver_empty : prog W unit :=
  fr ← on_device (rtuart_read_u32 PL011_REG_FR);
  match fr with
  | None => mret tt
  | Some fr =>
      empty ← p_notified UART_NOTIFY_TXEMPTY;
      when (has fr PL011_FR_TXFE && empty) (
        p_drop_notify UART_NOTIFY_TXEMPTY ;;
        match has_callback transmitter_empty with
        | Some f => (if has fr PL011_FR_BUSY then wait_not_busy spin else mret tt) ;; f
        | None => mret tt
        end)
  end.
Definition line_event (ev : Z) : prog W unit :=
  match has_callback line_status_event with
  | Some f => when (negb (ev =? 0)) (f ev)
  | None => mret tt
  end.
Definition pl011_handle_lsr (status : Z) : prog W unit := line_event (pl011_irqstatus_to_event status).
Definition pl011_rxempty_task_handler : prog W unit :=
  empty ← p_notified UART_NOTIFY_TXEMPTY;
  when empty (
    mis ← on_device (rtuart_read_u32 PL011_REG_MIS);
    match mis with Some mis => pl011_handle_lsr mis | None => mret tt end ;;
    pl011_handle_receiver_empty).
Definition pl011_periodic_check : prog W unit := pl011_rxempty_task_handler.

(** The line event for the error bits of an octet. *)
Definition dr_event (error : Z) : Z :=
  Z.lor (Z.lor (Z.lor (if has error (Z.shiftl 1 11) then RTUART_EVENT_OVERRUN_ERROR else 0)
    (if has error (Z.shiftl 1 9) then RTUART_EVENT_PARITY_ERROR else 0))
    (if has error (Z.shiftl 1 8) then RTUART_EVENT_FRAMING_ERROR else 0))
    (if has error (Z.shiftl 1 10) then RTUART_EVENT_BREAK else 0).
Definition flush_ring : prog W unit := on_device (modify (fun c => with_rx (pl011_rx_fifo_flush (p_rx c)) c)).
(** The received octets are handed out, then the error that ended them. *)
Definition deliver_ring : prog W unit :=
  available ← p_notified UART_NOTIFY_RXAVAILABLE;
  if (available : bool) then
    level ← on_device (gets (fun c => pl011_rx_fifo_level (p_rx c)));
    when (negb (level =? 0)) (
      p_drop_notify UART_NOTIFY_RXAVAILABLE ;;
      match has_callback receiver_data_available with Some f => f level | None => flush_ring end)
  else flush_ring.
Definition receive_octets (fuel : nat) : prog W unit :=
  _ ← on_device (rtuart_write_u32 PL011_REG_ICR (Z.lor PL011_MIS_RX PL011_MIS_RT));
  error ← on_device (drain_receiver fuel);
  deliver_ring ;;
  when (negb (error =? 0)) (line_event (dr_event error)).
Definition handle_tx : prog W unit :=
  _ ← on_device (rtuart_write_u32 PL011_REG_ICR PL011_MIS_TX);
  ready ← p_notified UART_NOTIFY_TXREADY;
  when ready (p_drop_notify UART_NOTIFY_TXREADY ;; offer_space).
Definition handle_cts : prog W unit :=
  _ ← on_device (rtuart_write_u32 PL011_REG_ICR PL011_MIS_CTS);
  old ← on_device (gets p_input);
  match has_callback modem_input_changed with
  | Some f => when (negb (old =? 1)) (f 1 1)
  | None => mret tt
  end ;;
  on_device (modify (with_input 1)).

Fixpoint pl011_handle_irq (fuel : nat) : prog W Z :=
  match fuel with
  | O => raise OutOfFuel
  | S fuel' =>
      mis ← on_device (unchecked_read PL011_REG_MIS);
      if Z.land mis PL011_MIS_ALL =? 0 then
        pl011_handle_receiver_empty ;; pl011_uart_update_notification ;; mret 0
      else
        when (has mis PL011_MIS_ERRORS) (
          _ ← on_device (rtuart_write_u32 PL011_REG_ICR PL011_MIS_ERRORS); pl011_handle_lsr mis) ;;
        if has mis (Z.lor PL011_MIS_RX PL011_MIS_RT) then receive_octets fuel ;; mret 0
        else
          when (has mis PL011_MIS_TX) handle_tx ;;
          when (has mis PL011_MIS_CTS) handle_cts ;;
          pl011_handle_irq fuel'
  end.
End irq.

(** ** Properties *)

(** The registers as memory, behind a bus that never fails. *)
Record memory := Memory { m_regs : gmap Z Z }.
Definition reg_of (r : Z) (b : memory) : Z := default 0 (m_regs b !! r).
#[export] Instance memory_bus : Bus32 memory := {
  reg_read_u32 r b := (Some (reg_of r b), b);
  reg_write_u32 r v b := (0, Memory (<[r := v]> (m_regs b))) }.

Lemma reg_written r r' v m : reg_of r (Memory (<[r' := v]> m)) = if decide (r = r') then v else reg_of r (Memory m).
Proof.
  unfold reg_of. cbn. destruct (decide (r = r')) as [->|Hne]; [by rewrite lookup_insert_eq|by rewrite lookup_insert_ne].
Qed.

Section on_memory.
Implicit Types c : pl011 memory.

Lemma unchecked_spec reg c : p_offset c = 0 -> 0 <= reg < 64 ->
  unchecked_read reg c = Done (u64 (reg_of reg (p_bus c)), c).
Proof.
  intros Ho Hr. unfold unchecked_read, rtuart_read_u32, mbind, prog_bind. rewrite Ho, Z.add_0_r. cbn.
  assert (i32 reg = reg) as -> by (rewrite i32_small; lia). by destruct c.
Qed.
Lemma read32_spec reg c : p_offset c = 0 -> 0 <= reg < 64 ->
  rtuart_read_u32 reg c = Done (Some (u64 (reg_of reg (p_bus c))), c).
Proof.
  intros Ho Hr. unfold rtuart_read_u32. rewrite Ho, Z.add_0_r. cbn.
  assert (i32 reg = reg) as -> by (rewrite i32_small; lia). by destruct c.
Qed.
Lemma write32_spec reg v c : p_offset c = 0 -> 0 <= reg < 64 ->
  rtuart_write_u32 reg v c = Done (0, with_p_bus (Memory (<[reg := u64 v]> (m_regs (p_bus c)))) c).
Proof.
  intros Ho Hr. unfold rtuart_write_u32. rewrite Ho, Z.add_0_r. cbn.
  by assert (i32 reg = reg) as -> by (rewrite i32_small; lia).
Qed.

(** The fraction of the bit rate divisor is masked with 0x63 instead of
    0x3f: the chip is given the divisor without the bits 2, 3 and 4 of its
    fraction (the register takes six bits of it), so that the rate that is
    read back is that of another divisor unless these bits are 0. *)
Theorem divisor_fraction_is_masked c baudrate :
  p_offset c = 0 -> 0 < 16 * baudrate < 2 ^ 32 -> 0 <= p_clock c * 64 < 2 ^ 64 ->
  let d := p_clock c * 64 / (16 * baudrate) in
  d < 2 ^ 22 ->
  exists c', pl011_set_baudrate baudrate c = Done (0, c') /\
    reg_of PL011_REG_IBRD (p_bus c') = Z.shiftr d 6 /\ reg_of PL011_REG_FBRD (p_bus c') = Z.land d 0x63 /\
    let seen := Z.lor (Z.shiftl (Z.shiftr d 6) 6) (Z.land d 0x23) in
    pl011_get_baudrate c' = if seen =? 0 then Fault DivideByZero else Done ((p_clock c * 64 / (16 * seen)) mod 2 ^ 32, c').
Proof.
  intros Ho Hb Hc d Hd. unfold pl011_set_baudrate, gets, mbind, prog_bind. rewrite (Z.mod_small (16 * baudrate)) by lia.
  rewrite (proj2 (Z.eqb_neq _ _)) by lia. assert (u64 (p_clock c * 64) = p_clock c * 64) as -> by by apply Z.mod_small.
  fold d.
  assert (0 <= d) as Hd0 by (apply Z.div_pos; lia). clearbody d.
  assert (0 <= Z.shiftr d 6 < 65536) as Hi.
  { rewrite Z.shiftr_div_pow2 by lia. split; [apply Z.div_pos; lia|apply Z.div_lt_upper_bound; lia]. }
  assert (0 <= Z.land d 0x63 < 2 ^ 64) as Hf.
  { split; [apply Z.land_nonneg; lia|]. replace (Z.land d 0x63) with (Z.land (Z.land d 0x63) (Z.ones 7)).
    - rewrite Z.land_ones by lia. pose proof (Z.mod_pos_bound (Z.land d 0x63) (2 ^ 7)). lia.
    - rewrite <- Z.land_assoc. done. }
  rewrite write32_spec by (done || (unfold PL011_REG_IBRD; cbn; lia)). cbn beta iota.
  rewrite write32_spec by (done || (unfold PL011_REG_FBRD; cbn; lia)). cbn beta iota.
  rewrite read32_spec by (done || (unfold PL011_REG_LCRH; cbn; lia)). cbn beta iota.
  rewrite write32_spec by (done || (unfold PL011_REG_LCRH; cbn; lia)). cbn beta iota.
  eexists. split; [reflexivity|]. cbn [with_p_bus p_bus m_regs]. rewrite u16_small by lia.
  assert (u64 (Z.shiftr d 6) = Z.shiftr d 6) as -> by (apply Z.mod_small; lia).
  assert (u64 (Z.land d 0x63) = Z.land d 0x63) as -> by by apply Z.mod_small.
  set (c' := with_p_bus _ _).
  assert (reg_of PL011_REG_IBRD (p_bus c') = Z.shiftr d 6) as EI by (unfold c'; cbn [with_p_bus p_bus]; by rewrite !reg_written).
  assert (reg_of PL011_REG_FBRD (p_bus c') = Z.land d 0x63) as EF by (unfold c'; cbn [with_p_bus p_bus]; by rewrite !reg_written).
  split; [exact EI|]. split; [exact EF|].
  unfold pl011_get_baudrate, gets, mbind, prog_bind.
  assert (p_clock c' = p_clock c) as -> by done. assert (p_offset c' = 0) as Ho' by exact Ho. clearbody c'.
  rewrite unchecked_spec by (done || (unfold PL011_REG_IBRD; cbn; lia)). rewrite unchecked_spec by (done || (unfold PL011_REG_FBRD; cbn; lia)).
  rewrite EI, EF. unfold u64. rewrite (Z.mod_small (Z.shiftr d 6)), (Z.mod_small (Z.land d 0x63)), (Z.mod_small (p_clock c * 64)) by lia.
  assert (Z.land (Z.shiftr d 6) 0xffff = Z.shiftr d 6) as ->.
  { change 0xffff with (Z.ones 16). rewrite Z.land_ones by lia. apply Z.mod_small. lia. }
  rewrite <- Z.land_assoc. change (Z.land 0x63 0x3f) with 0x23. cbv zeta. by destruct (_ =? 0).
Qed.
End on_memory.

Definition some_pl011 (clock : Z) (regs : gmap Z Z) : pl011 memory := Pl011 (Memory regs) 0 0 clock 0 some_ring 0.
Lemma divisor_fraction_is_masked_witness :
  exists c', pl011_set_baudrate 115200 (some_pl011 3000000 ∅) = Done (0, c') /\
    reg_of PL011_REG_IBRD (p_bus c') = 1 /\ reg_of PL011_REG_FBRD (p_bus c') = Z.land 104 0x63 /\
    pl011_get_baudrate c' = Done ((3000000 * 64 / (16 * 96)) mod 2 ^ 32, c').
Proof. apply (divisor_fraction_is_masked (some_pl011 3000000 ∅) 115200); done. Defined.
