(* ===== verification/CuseDev.v ===== *)
(** * The character devices in user space: dmx512_cuse_dev.c

    [src/cuse-drivers/dmx512_cuse_dev.c]: every open file of a card is one of
    its 32 contexts, with filters for the ports, a queue of received frames
    and at most one read that waits.  libfuse is outside of the sources: its
    replies are recorded in a log, and whether a request was interrupted is a
    parameter, like the driver of the card.  The queues are those of
    [FrameQueue], in memory that all cards share. *)
From stdpp Require Import base countable gmap list.
From S2P Require Import Prelude KList FrameQueue DmxCore.

(** ** State *)

Definition EINTR : Z := 4.
Definition O_NONBLOCK : Z := 0x800.
Definition DMX512_CUSE_CONTEXT_COUNT : nat := 32.

(** [struct dmx512_cuse_context]; requests and poll handles are names. *)
Record context := Context {
  in_use : bool;
  nonblocking : bool;
  port_mask : Z;               (* unsigned long long *)
  port_txmask : Z;
  read_req : option nat;
  pollhandle : option nat }.
Definition zero_context : context := Context false false 0 0 None None.

Definition with_in_use (b : bool) (c : context) : context :=
  Context b (nonblocking c) (port_mask c) (port_txmask c) (read_req c) (pollhandle c).
Definition with_nonblocking (b : bool) (c : context) : context :=
  Context (in_use c) b (port_mask c) (port_txmask c) (read_req c) (pollhandle c).
Definition with_port_mask (v : Z) (c : context) : context :=
  Context (in_use c) (nonblocking c) v (port_txmask c) (read_req c) (pollhandle c).
Definition with_port_txmask (v : Z) (c : context) : context :=
  Context (in_use c) (nonblocking c) (port_mask c) v (read_req c) (pollhandle c).
Definition with_read_req (r : option nat) (c : context) : context :=
  Context (in_use c) (nonblocking c) (port_mask c) (port_txmask c) r (pollhandle c).
Definition with_pollhandle (ph : option nat) (c : context) : context :=
  Context (in_use c) (nonblocking c) (port_mask c) (port_txmask c) (read_req c) ph.

(** *** What libfuse is told *)

Record iovec := Iov { iov_base : Z; iov_len : Z }.
(** [struct dmx4linux2_key_value_tuple]: the key, the bit fields and the
    value. *)
Record tuple := Tuple { key : Z; changable : Z; maxlength : Z; value : list Z }.
(** [struct dmx4linux2_card_info] and [struct dmx4linux2_port_info]: the index
    of the card, the number of its ports or the index of a port, and the
    tuples, an address of the user; both structures have the same size. *)
Record info := Info { card_index : Z; port_number : Z; tuple_count : Z; tuples : Z }.
Definition SIZEOF_INFO : Z := 24.
Definition SIZEOF_TUPLE : Z := 264.

(** The octets of an answer to an [ioctl]. *)
Inductive ioctl_data :=
  | NoData
  | Word (size v : Z)
  | InfoData (i : info) (ts : option (list tuple)).
(** The calls of libfuse that a request or a poll handle is given to. *)
Inductive event :=
  | ReplyErr (req : nat) (err : Z)
  | ReplyOpen (req : nat) (fh : Z)
  | ReplyFrame (req : nat) (f : dmx512frame)
  | ReplyNothing (req : nat)                     (* fuse_reply_buf(req, 0, 0) *)
  | ReplyWrite (req : nat) (size : Z)
  | ReplyPoll (req : nat) (revents : Z)
  | ReplyIoctl (req : nat) (data : ioctl_data)
  | ReplyIoctlRetry (req : nat) (in_iov out_iov : list iovec)
  | NotifyPoll (ph : nat)
  | DestroyPollhandle (ph : nat).

(** A context is named by its card and its index. *)
Abbreviation ctx_id := (nat * nat)%type.
Definition ctx_queue (k : ctx_id) : queue_id := CtxQueue (32 * k.1 + k.2).

(** The frames, the contexts of all cards, what libfuse was told and the
    state of the drivers. *)
Record cuse (D : Type) := Cuse {
  u_mem : kmem;
  u_contexts : gmap ctx_id context;
  u_log : list event;
  u_drv : D }.
Arguments Cuse {D}. Arguments u_mem {D}. Arguments u_contexts {D}. Arguments u_log {D}. Arguments u_drv {D}.

(** [struct dmx512_cuse_card_ops]: the functions of a driver that are set.
    An info function is given the structure and the tuples, which may be a
    null pointer, and gives its result and what they are then. *)
Definition info_op (D : Type) : Type := info -> option (list tuple) -> prog (cuse D) (Z * info * option (list tuple)).
Record card_ops (D : Type) := CardOps {
  queryCardInfo : option (nat -> info_op D);
  changeCardInfo : option (nat -> info_op D);
  queryPortInfo : option (nat -> Z -> info_op D);
  changePortInfo : option (nat -> Z -> info_op D);
  op_init : option (nat -> prog (cuse D) unit);
  op_cleanup : option (nat -> prog (cuse D) unit);
  sendFrame : option (nat -> dmx512frame -> prog (cuse D) unit) }.
Arguments CardOps {D}. Arguments queryCardInfo {D}. Arguments changeCardInfo {D}. Arguments queryPortInfo {D}.
Arguments changePortInfo {D}. Arguments op_init {D}. Arguments op_cleanup {D}. Arguments sendFrame {D}.

Section cuse.
Context {D : Type}.
Implicit Types w : cuse D.

Definition with_u_mem (m : kmem) w : cuse D := Cuse m (u_contexts w) (u_log w) (u_drv w).
Definition with_u_contexts (c : gmap ctx_id context) w : cuse D := Cuse (u_mem w) c (u_log w) (u_drv w).
Definition with_u_log (l : list event) w : cuse D := Cuse (u_mem w) (u_contexts w) l (u_drv w).
Definition with_u_drv (d : D) w : cuse D := Cuse (u_mem w) (u_contexts w) (u_log w) d.

Definition on_mem {A} (k : prog kmem A) : prog (cuse D) A := fun w =>
  '(a, m) ← k (u_mem w); Done (a, with_u_mem m w).
Definition say (e : event) : prog (cuse D) unit := modify (fun w => with_u_log (u_log w ++ [e]) w).
Definition get_context (k : ctx_id) : prog (cuse D) context := s ← get_state; live (u_contexts s !! k).
Definition put_context (k : ctx_id) (c : context) : prog (cuse D) unit :=
  modify (fun w => with_u_contexts (<[k := c]> (u_contexts w)) w).
Definition update_context (k : ctx_id) (f : context -> context) : prog (cuse D) unit :=
  c ← get_context k; put_context k (f c).

(** ** Frames *)

(** The pool of free frames, shared by all cards. *)
Definition dmx512_get_frame : prog (cuse D) (option nat) := on_mem (dmx512_framequeue_get (Some FreeQueue)).
Definition dmx512_put_frame (frame : option nat) : prog (cuse D) unit :=
  _ ← on_mem (dmx512_framequeue_put (Some FreeQueue) frame); mret tt.

Section handlers.
(** The operations of the drivers, and whether a read was interrupted. *)
Context (ops : nat -> option (card_ops D)) (interrupted : nat -> bool).
(** Which calls of [malloc] for [n] octets succeed. *)
Context (malloc_ok : Z -> bool).

Definition dmx512_cuse_send_frame (card : option nat) (frame : dmx512frame) : prog (cuse D) unit :=
  match card with
  | Some card =>
      match ops card ≫= sendFrame with Some f => f card frame | None => mret tt end
  | None => mret tt
  end.

Definition dmx512_cuse_context_index_valid (index : Z) : bool := (0 <=? index) && (index <? Z.of_nat DMX512_CUSE_CONTEXT_COUNT).
(** The index is an [int]: of a handle, which has 64 bits, the low 32 are left. *)
Definition dmx512_cuse_context (card : option nat) (index : Z) : option ctx_id :=
  c ← card; let index := i32 index in if dmx512_cuse_context_index_valid index then Some (c, Z.to_nat index) else None.

(** [1 << port] is an [int]; with 31 it is the sign bit, which is extended
    when it meets the mask. *)
Definition port_bit (port : Z) : outcome Z :=
  if port <? 31 then Done (Z.shiftl 1 port)
  else if port =? 31 then Done (Z.shiftl (Z.ones 33) 31) else Fault ShiftRange.
Definition port_selected (mask port : Z) : outcome bool :=
  if port <? 64 then b ← port_bit port; Done (has mask b) else Done false.

(** A copy of the frame is queued if there is a free one. *)
Definition enqueue (k : ctx_id) (frame : dmx512frame) : prog (cuse D) unit :=
  e ← dmx512_get_frame;
  match e with
  | Some e =>
      on_mem (update_frame e (fun _ => frame)) ;;
      _ ← on_mem (dmx512_framequeue_put (Some (ctx_queue k)) (Some e)); mret tt
  | None => mret tt
  end.
(** The body of the loop over the contexts. *)
Definition offer_frame (card : option nat) (frame : dmx512frame) (i : nat) : prog (cuse D) unit :=
  k ← deref (dmx512_cuse_context card (Z.of_nat i));
  ctx ← get_context k;
  match read_req ctx with
  | Some r => if interrupted r then say (ReplyErr r EINTR) ;; update_context k (with_read_req None) else mret tt
  | None => mret tt
  end ;;
  ctx ← get_context k;
  let mask := if has (f_flags frame) DMX512_FLAGS_IS_TRANSMIT_FRAME then port_txmask ctx else port_mask ctx in
  if in_use ctx then
    selected ← lift_outcome (port_selected mask (f_port frame));
    if (selected : bool) then
      match read_req ctx, pollhandle ctx with
      | Some r, _ => say (ReplyFrame r frame) ;; update_context k (with_read_req None)
      | None, Some ph => enqueue k frame ;; say (NotifyPoll ph)
      | None, None => mret tt
      end
    else mret tt
  else mret tt.
Fixpoint offer_to_contexts (card : option nat) (frame : dmx512frame) (js : list nat) : prog (cuse D) unit :=
  match js with
  | [] => mret tt
  | i :: js => offer_frame card frame i ;; offer_to_contexts card frame js
  end.
Definition dmx512_cuse_handle_received_frame (card : option nat) (frame : dmx512frame) : prog (cuse D) unit :=
  offer_to_contexts card frame (seq 0 DMX512_CUSE_CONTEXT_COUNT).

(** ** Opening and closing *)

Fixpoint free_context_from (card : nat) (js : list nat) : prog (cuse D) Z :=
  match js with
  | [] => mret (-1)
  | i :: js =>
      ctx ← get_context (card, i);
      if in_use ctx then free_context_from card js else mret (Z.of_nat i)
  end.
Definition dmx512_cuse_free_context_index (card : nat) : prog (cuse D) Z :=
  free_context_from card (seq 0 DMX512_CUSE_CONTEXT_COUNT).

(** [bzero] of a context clears its queue too. *)
Definition bzero_queue (q : queue_id) : prog kmem unit :=
  modify (fun m => KMem (zeroed_node (QueueHead q) (m_links m)) (m_frames m) (m_locks m ∖ {[q]}) (m_next m)).
Definition bzero_context (k : ctx_id) : prog (cuse D) unit :=
  on_mem (bzero_queue (ctx_queue k)) ;; put_context k zero_context.

(** [card] is the user data of the request. *)
Definition dmx512_cuse_open (req : nat) (card : option nat) (flags : Z) : prog (cuse D) unit :=
  index ← match card with Some c => dmx512_cuse_free_context_index c | None => mret (-1) end;
  if index =? -1 then say (ReplyErr req ENOMEM) else
  k ← deref (dmx512_cuse_context card index);
  bzero_context k ;;
  update_context k (with_in_use true) ;;
  update_context k (with_port_mask 0) ;;
  update_context k (with_nonblocking (has flags O_NONBLOCK)) ;;
  on_mem (dmx512_framequeue_init (Some (ctx_queue k))) ;;
  say (ReplyOpen req index).

Definition dmx512_cuse_release (req : nat) (card : option nat) (fh : Z) : prog (cuse D) unit :=
  match dmx512_cuse_context card fh with
  | None => say (ReplyErr req EINVAL)
  | Some k =>
      update_context k (with_in_use false) ;;
      update_context k (with_port_mask 0) ;;
      on_mem (dmx512_framequeue_cleanup (Some (ctx_queue k))) ;;
      say (ReplyErr req 0)
  end.

(** ** Reading, writing, polling *)

(** [fi] is null or holds the file handle. *)
Definition dmx512_cuse_read (req : nat) (card : option nat) (fi : option Z) : prog (cuse D) unit :=
  match fi with
  | None => say (ReplyErr req EINVAL)
  | Some fh =>
      match dmx512_cuse_context card fh with
      | None => say (ReplyErr req EINVAL)
      | Some k =>
          empty ← on_mem (dmx512_framequeue_isempty (Some (ctx_queue k)));
          if negb empty then
            e ← on_mem (dmx512_framequeue_get (Some (ctx_queue k)));
            match e with
            | Some e =>
                f ← on_mem (m ← get_state; live (m_frames m !! e));
                say (ReplyFrame req f) ;;
                dmx512_put_frame (Some e)
            | None => mret tt
            end
          else
            ctx ← get_context k;
            if nonblocking ctx then say (ReplyNothing req)
            else
              match read_req ctx with
              | Some r => say (ReplyErr r EINTR) ;; update_context k (with_read_req None)
              | None => mret tt
              end ;;
              update_context k (with_read_req (Some req))
      end
  end.

Definition dmx512_cuse_write (req : nat) (card : option nat) (frame : dmx512frame) (size : Z) (fi : option Z) : prog (cuse D) unit :=
  match fi with
  | None => say (ReplyErr req EINVAL)
  | Some fh =>
      match dmx512_cuse_context card fh with
      | None => say (ReplyErr req EINVAL)
      | Some k =>
          if size <? SIZEOF_FRAME then say (ReplyErr req EINVAL) else
          let frame := with_flags (Z.lor (f_flags frame) DMX512_FLAGS_IS_TRANSMIT_FRAME) frame in
          dmx512_cuse_send_frame card frame ;;
          dmx512_cuse_handle_received_frame card frame ;;
          say (ReplyWrite req size)
      end
  end.

Definition dmx512_cuse_poll (req : nat) (card : option nat) (fh : Z) (ph : option nat) : prog (cuse D) unit :=
  match dmx512_cuse_context card fh with
  | None => say (ReplyErr req EINVAL)
  | Some k =>
      match ph with
      | Some p =>
          ctx ← get_context k;
          update_context k (with_pollhandle (Some p)) ;;
          match pollhandle ctx with Some old => say (DestroyPollhandle old) | None => mret tt end
      | None => mret tt
      end ;;
      empty ← on_mem (dmx512_framequeue_isempty (Some (ctx_queue k)));
      say (ReplyPoll req (if negb empty then POLLIN else 0))
  end.

(** ** ioctl *)

(** What the user gave: the octets of libfuse's buffer, which hold a word, or
    an info structure and the tuples behind it. *)
Inductive in_buffer := InNone | InWord (v : Z) | InInfo (i : info) (ts : list tuple).
Definition in_bufsz (b : in_buffer) : Z :=
  match b with InNone => 0 | InWord _ => 8 | InInfo _ ts => SIZEOF_INFO + SIZEOF_TUPLE * Z.of_nat (length ts) end.
(** The first eight octets, and the structure, of a buffer that is not empty. *)
Definition as_word (b : in_buffer) : outcome Z :=
  match b with
  | InNone => Fault NullPointer
  | InWord v => Done (u64 v)
  | InInfo i _ => Done (card_index i mod 2 ^ 32 + 2 ^ 32 * (port_number i mod 2 ^ 32))
  end.
Definition as_info (b : in_buffer) : outcome (info * list tuple) :=
  match b with InNone => Fault NullPointer | InWord _ => Fault OutOfBounds | InInfo i ts => Done (i, ts) end.

Definition no_info_op : info_op D := fun i ts => mret (EINVAL, i, ts).
Definition dmx512_card_query_info (card : option nat) : info_op D :=
  match card with Some c => match ops c ≫= queryCardInfo with Some f => f c | None => no_info_op end | None => no_info_op end.
Definition dmx512_card_change_info (card : option nat) : info_op D :=
  match card with Some c => match ops c ≫= changeCardInfo with Some f => f c | None => no_info_op end | None => no_info_op end.
Definition dmx512_port_query_info (card : option nat) (port : Z) : info_op D :=
  match card with Some c => match ops c ≫= queryPortInfo with Some f => f c port | None => no_info_op end | None => no_info_op end.
Definition dmx512_port_change_info (card : option nat) (port : Z) : info_op D :=
  match card with Some c => match ops c ≫= changePortInfo with Some f => f c port | None => no_info_op end | None => no_info_op end.

(** The number of octets of the tuples, in [size_t]. *)
Definition tuples_len (i : info) : Z := u64 (tuple_count i * SIZEOF_TUPLE).
(** One or two pieces of memory of the user. *)
Definition iovs (i : info) (first : iovec) : list iovec :=
  if tuples i =? 0 then [first] else [first; Iov (tuples i) (tuples_len i)].
(** [malloc] and [memcpy] of the tuples. *)
Definition copy_tuples (i : info) (ts : list tuple) : outcome (option (list tuple)) :=
  if tuples i =? 0 then Done None
  else if malloc_ok (tuples_len i) then
    if SIZEOF_TUPLE * Z.of_nat (length ts) <? tuples_len i then Fault OutOfBounds
    else Done (Some (take (Z.to_nat (tuple_count i)) ts))
  else Done None.
(** The answer has the structure without its pointer, and the tuples. *)
Definition reply_info (req : nat) (asked i : info) (ts : option (list tuple)) : prog (cuse D) unit :=
  if tuples asked =? 0 then say (ReplyIoctl req (InfoData i None))
  else match ts with
       | Some ts => say (ReplyIoctl req (InfoData i (Some ts)))
       | None => if tuples_len asked =? 0 then say (ReplyIoctl req (InfoData i (Some []))) else raise NullPointer
       end.

(** The functions for cards and for ports are alike but for [query]. *)
Definition query_info (query : info -> info_op D) (req : nat) (addr : Z) (in_buf : in_buffer) (out_bufsz : Z) : prog (cuse D) unit :=
  if in_bufsz in_buf =? 0 then say (ReplyIoctlRetry req [Iov addr SIZEOF_INFO] []) else
  '(ci, tuples_in) ← lift_outcome (as_info in_buf);
  if out_bufsz =? 0 then
    say (ReplyIoctlRetry req (iovs ci (Iov addr SIZEOF_INFO)) (iovs ci (Iov addr (SIZEOF_INFO - 8))))
  else
    ts ← lift_outcome (copy_tuples ci tuples_in);
    '(ret, card_out, ts) ← query ci ci ts;
    if negb (ret =? 0) then say (ReplyErr req EINVAL) else reply_info req ci card_out ts.
Definition change_info (change : info -> info_op D) (req : nat) (addr : Z) (in_buf : in_buffer) (out_bufsz : Z) : prog (cuse D) unit :=
  if in_bufsz in_buf =? 0 then say (ReplyIoctlRetry req [Iov addr SIZEOF_INFO] []) else
  '(ci, ts) ← lift_outcome (as_info in_buf);
  if (0 <? tuple_count ci) && (in_bufsz in_buf - SIZEOF_INFO =? 0) then
    say (ReplyIoctlRetry req [Iov addr SIZEOF_INFO; Iov (tuples ci) (tuples_len ci)] [])
  else
    '(ret, _, _) ← change ci ci (Some ts);
    if negb (ret =? 0) then say (ReplyErr req EINVAL) else say (ReplyIoctl req NoData).

Definition dmx512_cuse_query_card_info (card : option nat) := query_info (fun _ => dmx512_card_query_info card).
Definition dmx512_cuse_change_card_info (card : option nat) := change_info (fun _ => dmx512_card_change_info card).
Definition dmx512_cuse_query_port_info (card : option nat) := query_info (fun pi => dmx512_port_query_info card (port_number pi)).
Definition dmx512_cuse_change_port_info (card : option nat) := change_info (fun pi => dmx512_port_change_info card (port_number pi)).

Inductive ioctl_cmd :=
  | DMX512_IOCTL_VERSION
  | DMX512_IOCTL_SET_PORT_FILTER | DMX512_IOCTL_GET_PORT_FILTER
  | DMX512_IOCTL_SET_PORT_TXFILTER | DMX512_IOCTL_GET_PORT_TXFILTER
  | DMX512_IOCTL_QUERY_CARD_INFO | DMX512_IOCTL_CHANGE_CARD_INFO
  | DMX512_IOCTL_QUERY_PORT_INFO | DMX512_IOCTL_CHANGE_PORT_INFO
  | OtherIoctl (cmd : Z).
Definition DMX4LINUX2_VERSION : Z := Z.lor (Z.lor (Z.shiftl 3 16) (Z.shiftl 0 8)) 0.

Definition dmx512_cuse_ioctl (req : nat) (card : option nat) (cmd : ioctl_cmd) (arg fh : Z) (in_buf : in_buffer) (out_bufsz : Z)
    : prog (cuse D) unit :=
  match dmx512_cuse_context card fh with
  | None => say (ReplyErr req EINVAL)
  | Some k =>
      let set_filter set :=
        if in_bufsz in_buf =? 0 then say (ReplyIoctlRetry req [Iov arg 8] [])
        else value ← lift_outcome (as_word in_buf); update_context k (set value) ;; say (ReplyIoctl req NoData) in
      let get_filter get :=
        if out_bufsz =? 0 then say (ReplyIoctlRetry req [] [Iov arg 8])
        else ctx ← get_context k; say (ReplyIoctl req (Word 8 (get ctx))) in
      match cmd with
      | DMX512_IOCTL_VERSION =>
          if out_bufsz =? 0 then say (ReplyIoctlRetry req [] [Iov arg 8])
          else say (ReplyIoctl req (Word 8 DMX4LINUX2_VERSION))
      | DMX512_IOCTL_SET_PORT_FILTER => set_filter with_port_mask
      | DMX512_IOCTL_GET_PORT_FILTER => get_filter port_mask
      | DMX512_IOCTL_SET_PORT_TXFILTER => set_filter with_port_txmask
      | DMX512_IOCTL_GET_PORT_TXFILTER => get_filter port_txmask
      | DMX512_IOCTL_QUERY_CARD_INFO => dmx512_cuse_query_card_info card req arg in_buf out_bufsz
      | DMX512_IOCTL_CHANGE_CARD_INFO => dmx512_cuse_change_card_info card req arg in_buf out_bufsz
      | DMX512_IOCTL_QUERY_PORT_INFO => dmx512_cuse_query_port_info card req arg in_buf out_bufsz
      | DMX512_IOCTL_CHANGE_PORT_INFO => dmx512_cuse_change_port_info card req arg in_buf out_bufsz
      | OtherIoctl _ => say (ReplyErr req EINVAL)
      end
  end.

(** ** Cards *)

(** The [malloc] and the [bzero] of [dmx512_cuse_create_session]. *)
Fixpoint bzero_contexts (card : nat) (js : list nat) : prog (cuse D) unit :=
  match js with [] => mret tt | i :: js => bzero_context (card, i) ;; bzero_contexts card js end.
Definition create_card (allocated : bool) (card : nat) : prog (cuse D) unit :=
  if allocated then bzero_contexts card (seq 0 DMX512_CUSE_CONTEXT_COUNT) else raise NullPointer.
Definition dmx512_cuse_init_done (card : nat) : prog (cuse D) unit :=
  match ops card ≫= op_init with Some f => f card | None => mret tt end.

Fixpoint interrupt_reads (card : nat) (js : list nat) : prog (cuse D) unit :=
  match js with
  | [] => mret tt
  | i :: js =>
      ctx ← get_context (card, i);
      match read_req ctx with
      | Some r => say (ReplyErr r EINTR) ;; update_context (card, i) (with_read_req None)
      | None => mret tt
      end ;;
      interrupt_reads card js
  end.
(** [free] of the card. *)
Definition free_card (card : nat) : prog (cuse D) unit :=
  modify (fun w => with_u_contexts (filter (fun kc => kc.1.1 <> card) (u_contexts w)) w).
Definition dmx512_cuse_destroy (card : nat) : prog (cuse D) unit :=
  interrupt_reads card (seq 0 DMX512_CUSE_CONTEXT_COUNT) ;;
  match ops card ≫= op_cleanup with Some f => f card | None => mret tt end ;;
  free_card card.
End handlers.

(** ** The pool *)

Section pool.
Context (kzalloc_ok : nat -> bool).
Fixpoint fill_free_queue (n : nat) : prog (cuse D) unit :=
  match n with
  | O => mret tt
  | S n =>
      e ← on_mem (dmx512_framequeue_entry_alloc kzalloc_ok);
      _ ← on_mem (dmx512_framequeue_put (Some FreeQueue) e);
      fill_free_queue n
  end.
Definition dmx512_core_init : prog (cuse D) Z :=
  on_mem (dmx512_framequeue_init (Some FreeQueue)) ;; fill_free_queue (32 * 32 * 2 * 4) ;; mret 0.
Definition dmx512_core_exit : prog (cuse D) unit := on_mem (dmx512_framequeue_cleanup (Some FreeQueue)).
End pool.
End cuse.

(** ** Watched file descriptors *)

Definition MAX_FD_WATCHERS : Z := 256.
(** [struct dmx512_cuse_fdwatcher] and the table of them. *)
Record fdwatcher := FdWatcher { w_fd : Z; w_callback : option nat; w_user : Z }.
Record fdwatchers := FdWatchers { g_fdwatchers : list fdwatcher; g_num_fdwatchers : Z }.

(** The loop's condition is on the number of watchers, which it does not
    change; it ends with an entry or leaves the table. *)
Fixpoint find_fd_from (fuel : nat) (fd i : Z) (t : fdwatchers) : outcome Z :=
  match fuel with
  | O => Fault OutOfFuel
  | S fuel =>
      if g_num_fdwatchers t <? MAX_FD_WATCHERS then
        w ← load (g_fdwatchers t) i;
        if w_fd w =? fd then Done i else find_fd_from fuel fd (i + 1) t
      else Done (-1)
  end.
Definition dmx512_cuse_fdwatcher_find_fd (fd : Z) (t : fdwatchers) : outcome Z :=
  find_fd_from (S (Z.to_nat MAX_FD_WATCHERS)) fd 0 t.
Definition dmx512_cuse_fdwatcher_add (w : fdwatcher) : prog fdwatchers Z :=
  t ← get_state;
  found ← lift_outcome (dmx512_cuse_fdwatcher_find_fd (w_fd w) t);
  if negb (found =? -1) then mret (- EINVAL) else
  first_free_entry ← lift_outcome (dmx512_cuse_fdwatcher_find_fd (-1) t);
  if first_free_entry <? 0 then mret (- ENOMEM) else
  ws ← lift_outcome (store first_free_entry w (g_fdwatchers t));
  modify (fun _ => FdWatchers ws (if g_num_fdwatchers t <? first_free_entry + 1 then first_free_entry + 1 else g_num_fdwatchers t)) ;;
  mret 0.
Definition dmx512_cuse_fdwatcher_remove (w : fdwatcher) : prog fdwatchers Z :=
  t ← get_state;
  i ← lift_outcome (dmx512_cuse_fdwatcher_find_fd (w_fd w) t);
  if i <? 0 then mret (- EINVAL) else
  ws ← lift_outcome (store i (FdWatcher (-1) None 0) (g_fdwatchers t));
  modify (fun _ => FdWatchers ws (g_num_fdwatchers t)) ;;
  mret 0.
