(* ===== verification/CuseContract.v ===== *)
(** * What the character devices in user space promise

    The contract of [CuseDev.v]: an open file is a queue of frames and at
    most one read that waits.  [a_step] is a call on such files, and
    [call_refines] shows that the handlers, with their rings of entries and
    their pool of frames, implement it.  The properties of the handlers are
    proved on the contract: every request is answered exactly once, and the
    frames that arrive are read in their order. *)
From stdpp Require Import base countable gmap list.
From S2P Require Import Prelude KList FrameQueue DmxCore CuseDev.

(** ** Files as queues *)

(** A context with the frames in its queue; the number of free frames, the
    contexts of all cards and what libfuse was told. *)
Record file := File { a_ctx : context; a_frames : list dmx512frame }.
Record files := Files { a_free : nat; a_files : gmap ctx_id file; a_log : list event }.

Section contract.
Context (interrupted : nat -> bool).

Definition a_say (e : event) (a : files) : files := Files (a_free a) (a_files a) (a_log a ++ [e]).
Definition a_put (k : ctx_id) (c : file) (a : files) : files := Files (a_free a) (<[k := c]> (a_files a)) (a_log a).

(** An interrupted read is answered when the next frame arrives. *)
Definition after_interrupt (c : context) : context * list event :=
  match read_req c with
  | Some r => if interrupted r then (with_read_req None c, [ReplyErr r EINTR]) else (c, [])
  | None => (c, [])
  end.
Definition selects (f : dmx512frame) (c : context) : option bool :=
  if in_use c then
    match port_selected (if has (f_flags f) DMX512_FLAGS_IS_TRANSMIT_FRAME then port_txmask c else port_mask c) (f_port f) with
    | Done b => Some b
    | Fault _ => None
    end
  else Some false.
(** A frame is given to the read that waits, or queued when somebody polls;
    without a free frame it is dropped. *)
Definition deliver (f : dmx512frame) (sel : bool) (c : context) (q : list dmx512frame) (free : nat) : file * list event * nat :=
  if sel then
    match read_req c, pollhandle c with
    | Some r, _ => (File (with_read_req None c) q, [ReplyFrame r f], free)
    | None, Some ph =>
        (File c (q ++ if decide (free = 0%nat) then [] else [f]), [NotifyPoll ph], pred free)
    | None, None => (File c q, [], free)
    end
  else (File c q, [], free).
Definition a_offer (card : option nat) (f : dmx512frame) (i : nat) (a : files) : option files :=
  k ← dmx512_cuse_context card (Z.of_nat i);
  ac ← a_files a !! k;
  let '(c, evs) := after_interrupt (a_ctx ac) in
  sel ← selects f c;
  let '(ac', evs', free) := deliver f sel c (a_frames ac) (a_free a) in
  Some (Files free (<[k := ac']> (a_files a)) (a_log a ++ evs ++ evs')).
Fixpoint a_offers (card : option nat) (f : dmx512frame) (js : list nat) (a : files) : option files :=
  match js with [] => Some a | i :: js => a ← a_offer card f i a; a_offers card f js a end.
Definition a_receive (card : option nat) (f : dmx512frame) : files -> option files :=
  a_offers card f (seq 0 DMX512_CUSE_CONTEXT_COUNT).

Fixpoint a_free_context (card : nat) (js : list nat) (a : files) : option Z :=
  match js with
  | [] => Some (-1)
  | i :: js => ac ← a_files a !! (card, i); if in_use (a_ctx ac) then a_free_context card js a else Some (Z.of_nat i)
  end.
Definition a_open (req : nat) (card : option nat) (flags : Z) (a : files) : option files :=
  index ← match card with Some c => a_free_context c (seq 0 DMX512_CUSE_CONTEXT_COUNT) a | None => Some (-1) end;
  if index =? -1 then Some (a_say (ReplyErr req ENOMEM) a) else
  k ← dmx512_cuse_context card index;
  Some (a_say (ReplyOpen req index) (a_put k (File (Context true (has flags O_NONBLOCK) 0 0 None None) []) a)).

(** The open file of a handle; [None] when there is none. *)
Definition opened (card : option nat) (fh : Z) (a : files) : option (ctx_id * file) :=
  k ← dmx512_cuse_context card fh;
  ac ← a_files a !! k;
  if in_use (a_ctx ac) then Some (k, ac) else None.
(** A call on a handle: a handle that is no index is an error of the caller,
    and that of a file which is not open is none of libfuse's. *)
Definition on_file (req : nat) (card : option nat) (fh : Z) (a : files) (f : ctx_id -> file -> option files) : option files :=
  match dmx512_cuse_context card fh with
  | None => Some (a_say (ReplyErr req EINVAL) a)
  | Some _ => '(k, ac) ← opened card fh a; f k ac
  end.
(** The frames that are still queued are freed, not returned to the pool. *)
Definition a_release (req : nat) (card : option nat) (fh : Z) (a : files) : option files :=
  on_file req card fh a (fun k ac =>
    Some (a_say (ReplyErr req 0) (a_put k (File (with_port_mask 0 (with_in_use false (a_ctx ac))) []) a))).
Definition a_read (req : nat) (card : option nat) (fi : option Z) (a : files) : option files :=
  match fi with
  | None => Some (a_say (ReplyErr req EINVAL) a)
  | Some fh =>
      on_file req card fh a (fun k ac =>
        match a_frames ac with
        | f :: q => Some (Files (S (a_free a)) (<[k := File (a_ctx ac) q]> (a_files a)) (a_log a ++ [ReplyFrame req f]))
        | [] =>
            if nonblocking (a_ctx ac) then Some (a_say (ReplyNothing req) a)
            else Some (Files (a_free a) (<[k := File (with_read_req (Some req) (a_ctx ac)) []]> (a_files a))
                        (a_log a ++ match read_req (a_ctx ac) with Some r => [ReplyErr r EINTR] | None => [] end))
        end)
  end.
(** [send] is what the driver of the card makes of a frame. *)
Definition a_write (send : option nat -> dmx512frame -> files -> option files) (req : nat) (card : option nat) (f : dmx512frame)
    (size : Z) (fi : option Z) (a : files) : option files :=
  match fi with
  | None => Some (a_say (ReplyErr req EINVAL) a)
  | Some fh =>
      on_file req card fh a (fun _ _ =>
        if size <? SIZEOF_FRAME then Some (a_say (ReplyErr req EINVAL) a) else
        let f := with_flags (Z.lor (f_flags f) DMX512_FLAGS_IS_TRANSMIT_FRAME) f in
        a ← send card f a; a ← a_receive card f a; Some (a_say (ReplyWrite req size) a))
  end.
Definition a_poll (req : nat) (card : option nat) (fh : Z) (ph : option nat) (a : files) : option files :=
  on_file req card fh a (fun k ac =>
    let c := match ph with Some _ => with_pollhandle ph (a_ctx ac) | None => a_ctx ac end in
    let evs := match ph, pollhandle (a_ctx ac) with Some _, Some old => [DestroyPollhandle old] | _, _ => [] end in
    Some (Files (a_free a) (<[k := File c (a_frames ac)]> (a_files a))
      (a_log a ++ evs ++ [ReplyPoll req (if bool_decide (a_frames ac = []) then 0 else POLLIN)]))).
(** The filters; [None] for the requests that are the driver's. *)
Definition a_ioctl (req : nat) (card : option nat) (cmd : ioctl_cmd) (arg fh : Z) (in_buf : in_buffer) (out_bufsz : Z) (a : files) : option files :=
  on_file req card fh a (fun k ac =>
    let set_filter (set : Z -> context -> context) :=
      match as_word in_buf with
      | Done v => Some (a_say (ReplyIoctl req NoData) (a_put k (File (set v (a_ctx ac)) (a_frames ac)) a))
      | Fault _ => Some (a_say (ReplyIoctlRetry req [Iov arg 8] []) a)
      end in
    let get_word v := Some (a_say (if out_bufsz =? 0 then ReplyIoctlRetry req [] [Iov arg 8] else ReplyIoctl req (Word 8 v)) a) in
    match cmd with
    | DMX512_IOCTL_VERSION => get_word DMX4LINUX2_VERSION
    | DMX512_IOCTL_SET_PORT_FILTER => set_filter with_port_mask
    | DMX512_IOCTL_GET_PORT_FILTER => get_word (port_mask (a_ctx ac))
    | DMX512_IOCTL_SET_PORT_TXFILTER => set_filter with_port_txmask
    | DMX512_IOCTL_GET_PORT_TXFILTER => get_word (port_txmask (a_ctx ac))
    | OtherIoctl _ => Some (a_say (ReplyErr req EINVAL) a)
    | _ => None
    end).
End contract.

(** ** The handlers implement the contract *)

Section refinement.
Context {D : Type}.
Implicit Types (w : cuse D) (a : files) (Q : gmap queue_id (list nat)).

(** [Q] are the queues of entries; those of the open files hold the frames of
    the contract. *)
Record refines Q w a : Prop := {
  rf_mem : fq_inv (u_mem w) Q;
  rf_free : exists pool, Q !! FreeQueue = Some pool /\ length pool = a_free a;
  rf_ctx k : u_contexts w !! k = a_ctx <$> a_files a !! k;
  rf_index k ac : a_files a !! k = Some ac -> (k.2 < 32)%nat;
  rf_queue k ac : a_files a !! k = Some ac -> in_use (a_ctx ac) = true ->
    exists l, Q !! ctx_queue k = Some l /\ Forall2 (fun e f => m_frames (u_mem w) !! e = Some f) l (a_frames ac);
  rf_log : u_log w = a_log a }.
Definition implements w a : Prop := exists Q, refines Q w a.

Lemma Forall2_impl_in {A B} (P P' : A -> B -> Prop) l l' :
  Forall2 P l l' -> (forall x y, x ∈ l -> P x y -> P' x y) -> Forall2 P' l l'.
Proof. induction 1 as [|x y l l' ?? IH]; intros HP; constructor; [apply HP; set_solver|apply IH; intros; apply HP; set_solver]. Qed.
Lemma ctx_queue_inj k k' : (k.2 < 32)%nat -> (k'.2 < 32)%nat -> ctx_queue k = ctx_queue k' -> k = k'.
Proof.
  destruct k as [c i], k' as [c' i']. unfold ctx_queue. cbn [fst snd]. intros ? ? Heq.
  assert ((32 * c + i)%nat = (32 * c' + i')%nat) by congruence. f_equal; lia.
Qed.

Lemma context_valid card i k : dmx512_cuse_context card i = Some k -> exists c, card = Some c /\ k = (c, Z.to_nat (i32 i)) /\ 0 <= i32 i < 32.
Proof.
  unfold dmx512_cuse_context. destruct card as [c|]; [|done]. cbn [mbind option_bind].
  destruct (dmx512_cuse_context_index_valid (i32 i)) eqn:E; [|done]. intros [= <-].
  unfold dmx512_cuse_context_index_valid in E. rewrite andb_true_iff, Z.leb_le, Z.ltb_lt in E. by exists c.
Qed.

(** *** Steps *)

Lemma wp_on_mem {A} (k : prog kmem A) (P : A -> cuse D -> Prop) w :
  wp k (fun x m => P x (with_u_mem m w)) (u_mem w) -> wp (on_mem k) P w.
Proof. unfold wp, on_mem. destruct (k (u_mem w)) as [[x m]|]; done. Qed.
Lemma wp_say e (P : unit -> cuse D -> Prop) w : P tt (with_u_log (u_log w ++ [e]) w) -> wp (say e) P w.
Proof. done. Qed.
Lemma wp_get_context k c (P : context -> cuse D -> Prop) w : u_contexts w !! k = Some c -> P c w -> wp (get_context k) P w.
Proof. intros Hk HP. unfold get_context. apply wp_bind, wp_get. by eapply wp_live. Qed.
Lemma wp_update_context k f c (P : unit -> cuse D -> Prop) w :
  u_contexts w !! k = Some c -> P tt (with_u_contexts (<[k := f c]> (u_contexts w)) w) -> wp (update_context k f) P w.
Proof. intros Hk HP. unfold update_context. apply wp_bind. by eapply wp_get_context. Qed.

Lemma refines_say Q w a e : refines Q w a -> refines Q (with_u_log (u_log w ++ [e]) w) (a_say e a).
Proof. intros []. split; cbn; try done. by f_equal. Qed.

(** The context of a file changes, but not whether it is open. *)
Lemma refines_context Q w a k ac c :
  refines Q w a -> a_files a !! k = Some ac -> in_use c = in_use (a_ctx ac) ->
  refines Q (with_u_contexts (<[k := c]> (u_contexts w)) w) (a_put k (File c (a_frames ac)) a).
Proof.
  intros [Hm Hf Hc Hi Hq Hl] Hk Hu. split; cbn; try done.
  - intros k'. destruct (decide (k' = k)) as [->|]; [by rewrite !lookup_insert_eq|by rewrite !lookup_insert_ne by done].
  - intros k' ac' [[-> _]|[_ ?]]%lookup_insert_Some; eauto.
  - intros k' ac' [[<- <-]|[_ ?]]%lookup_insert_Some; [|by eauto]. cbn. rewrite Hu. by apply Hq.
Qed.

(** The queue of a context changes, and so do the memory and the pool. *)
Lemma refines_queues Q w a k ac ac' m pool l :
  refines Q w a -> a_files a !! k = Some ac ->
  fq_inv m (<[ctx_queue k := l]> (<[FreeQueue := pool]> Q)) ->
  (forall k' ac2 l' e, k' <> k -> a_files a !! k' = Some ac2 -> Q !! ctx_queue k' = Some l' -> e ∈ l' -> m_frames m !! e = m_frames (u_mem w) !! e) ->
  (in_use (a_ctx ac') = true -> Forall2 (fun e f => m_frames m !! e = Some f) l (a_frames ac')) ->
  refines (<[ctx_queue k := l]> (<[FreeQueue := pool]> Q))
    (with_u_contexts (<[k := a_ctx ac']> (u_contexts w)) (with_u_mem m w)) (Files (length pool) (<[k := ac']> (a_files a)) (a_log a)).
Proof.
  intros [Hm Hf Hc Hi Hq Hl] Hk Hm' Hsame Hfr. split; cbn; try done.
  - exists pool. by rewrite lookup_insert_ne, lookup_insert_eq by done.
  - intros k'. destruct (decide (k' = k)) as [->|]; [by rewrite !lookup_insert_eq|by rewrite !lookup_insert_ne by done].
  - intros k' ac2 [[-> _]|[_ ?]]%lookup_insert_Some; eauto.
  - intros k' ac2 [[<- <-]|[Hne Hk']]%lookup_insert_Some Hu; [exists l; rewrite lookup_insert_eq; by auto|].
    destruct (Hq _ _ Hk' Hu) as (l' & Hl' & HF). exists l'. split.
    + rewrite !lookup_insert_ne; [done|done|]. intros Heq%ctx_queue_inj; eauto.
    + eapply Forall2_impl_in; [exact HF|]. intros e f He <-. by eapply Hsame.
Qed.

Lemma refines_mem Q w a k ac q m pool l :
  refines Q w a -> a_files a !! k = Some ac ->
  fq_inv m (<[ctx_queue k := l]> (<[FreeQueue := pool]> Q)) ->
  (forall k' ac2 l' e, k' <> k -> a_files a !! k' = Some ac2 -> Q !! ctx_queue k' = Some l' -> e ∈ l' -> m_frames m !! e = m_frames (u_mem w) !! e) ->
  (in_use (a_ctx ac) = true -> Forall2 (fun e f => m_frames m !! e = Some f) l q) ->
  refines (<[ctx_queue k := l]> (<[FreeQueue := pool]> Q)) (with_u_mem m w)
    (Files (length pool) (<[k := File (a_ctx ac) q]> (a_files a)) (a_log a)).
Proof.
  intros Hr Hk Hm Hsame Hfr. pose proof (refines_queues Q w a k ac (File (a_ctx ac) q) m pool l Hr Hk Hm Hsame Hfr) as H.
  assert (<[k := a_ctx ac]> (u_contexts w) = u_contexts w) as E by (apply insert_id; by rewrite (rf_ctx _ _ _ Hr), Hk).
  cbn in H. rewrite E in H. by destruct w.
Qed.

Lemma head_elsewhere Q m q q' e pool l :
  fq_inv m Q -> Q !! q = Some (e :: pool) -> Q !! q' = Some l -> q' <> q -> e ∉ l.
Proof. intros Hi Hq Hq' Hne Hin. apply Hne. eapply (fqi_disj _ _ Hi); [done..|set_solver]. Qed.

Lemma enqueue_refines Q w a k ac f :
  refines Q w a -> a_files a !! k = Some ac -> in_use (a_ctx ac) = true ->
  wp (enqueue k f) (fun _ w' => u_drv w' = u_drv w /\ implements w' (Files (pred (a_free a))
    (<[k := File (a_ctx ac) (a_frames ac ++ if decide (a_free a = 0%nat) then [] else [f])]> (a_files a)) (a_log a))) w.
Proof.
  intros Hr Hk Hu. pose proof (rf_mem _ _ _ Hr) as Hi. destruct (rf_free _ _ _ Hr) as (pool & Hp & Hlen).
  destruct (rf_queue _ _ _ Hr k ac Hk Hu) as (l & Hl & HF).
  unfold enqueue, dmx512_get_frame. apply wp_bind, wp_on_mem. eapply wp_mono; [by eapply get_spec|]. cbn beta.
  intros r m1 (-> & Hi1 & Hf1 & _). destruct pool as [|e pool]; cbn [head tail length] in *.
  { apply wp_ret. split; [done|]. rewrite <- Hlen. exists (<[ctx_queue k := l]> (<[FreeQueue := []]> Q)). cbn.
    rewrite app_nil_r. apply (refines_mem Q w a k ac (a_frames ac) m1 [] l); try done.
    - rewrite (insert_id _ (ctx_queue k)); [done|]. by rewrite lookup_insert_ne.
    - intros. by rewrite Hf1.
    - intros _. by rewrite Hf1. }
  destruct (head_loose _ _ _ _ _ Hi Hp) as [Hloose Hlive]. destruct (m_frames (u_mem w) !! e) as [v|] eqn:Ev; [|by apply not_elem_of_dom in Ev].
  apply wp_bind, wp_on_mem. unfold update_frame. apply wp_bind, wp_get. apply wp_bind. cbn [u_mem with_u_mem].
  eapply wp_live; [by rewrite Hf1|]. apply wp_modify. rewrite Hf1.
  set (m2 := with_frames _ m1).
  assert (fq_inv m2 (<[FreeQueue := pool]> Q)) as Hi2.
  { eapply fq_inv_frame; [exact Hi1|done..| |done|done]. cbn. rewrite dom_insert_L, Hf1. set_solver. }
  apply wp_bind, wp_on_mem. cbn [u_mem with_u_mem].
  eapply wp_mono; [eapply (put_spec m2 _ (ctx_queue k) l e Hi2)|].
  { by rewrite lookup_insert_ne. } { unfold m2. cbn. rewrite dom_insert_L. set_solver. } { done. }
  cbn beta. intros r m3 (-> & Hi3 & Hf3 & _). apply wp_ret. split; [done|]. rewrite <- Hlen. cbn [pred]. rewrite decide_False by done.
  exists (<[ctx_queue k := l ++ [e]]> (<[FreeQueue := pool]> Q)).
  assert (forall x, x <> e -> m_frames m3 !! x = m_frames (u_mem w) !! x) as Hother.
  { intros x Hx. rewrite Hf3. unfold m2. cbn. by rewrite lookup_insert_ne. }
  apply (refines_mem Q w a k ac _ m3 pool (l ++ [e])); try done.
  - intros k' ac2 l' x _ Hk' Hl' Hx. apply Hother. intros ->. revert Hx. by eapply (head_elsewhere Q _ FreeQueue (ctx_queue k')).
  - intros _. apply Forall2_app.
    + eapply Forall2_impl_in; [exact HF|]. intros x y Hx <-. apply Hother. intros ->. revert Hx. by eapply (head_elsewhere Q _ FreeQueue (ctx_queue k)).
    + constructor; [|done]. rewrite Hf3. unfold m2. cbn. by rewrite lookup_insert_eq.
Qed.

Section handlers.
Context (ops : nat -> option (card_ops D)) (interrupted : nat -> bool) (malloc_ok : Z -> bool).

Lemma implements_say w a e : implements w a -> implements (with_u_log (u_log w ++ [e]) w) (a_say e a).
Proof. intros [Q Hr]. exists Q. by apply refines_say. Qed.
(** The handler has nothing left but its answer. *)
Ltac say_it := apply wp_say; try (split; [done|]); by apply implements_say.
Lemma implements_context w a k ac c :
  implements w a -> a_files a !! k = Some ac -> in_use c = in_use (a_ctx ac) ->
  implements (with_u_contexts (<[k := c]> (u_contexts w)) w) (a_put k (File c (a_frames ac)) a).
Proof. intros [Q Hr] Hk Hu. exists Q. by apply refines_context. Qed.
Lemma implements_ctx w a k ac : implements w a -> a_files a !! k = Some ac -> u_contexts w !! k = Some (a_ctx ac).
Proof. intros [Q Hr] Hk. by rewrite (rf_ctx _ _ _ Hr), Hk. Qed.

(** The interruption of the read that waits. *)
Lemma interrupt_refines w a k ac :
  implements w a -> a_files a !! k = Some ac ->
  wp (match read_req (a_ctx ac) with
      | Some r => if interrupted r then say (ReplyErr r EINTR) ;; update_context k (with_read_req None) else mret tt
      | None => mret tt
      end)
    (fun _ w' => u_drv w' = u_drv w /\ implements w' (Files (a_free a) (<[k := File (after_interrupt interrupted (a_ctx ac)).1 (a_frames ac)]> (a_files a))
      (a_log a ++ (after_interrupt interrupted (a_ctx ac)).2))) w.
Proof.
  intros Hw Hk.
  assert (implements w (Files (a_free a) (<[k := File (a_ctx ac) (a_frames ac)]> (a_files a)) (a_log a ++ []))) as Hsame.
  { rewrite app_nil_r, insert_id by (by destruct ac). by destruct a. }
  unfold after_interrupt. destruct (read_req (a_ctx ac)) as [r|]; [|by apply wp_ret].
  destruct (interrupted r); [|by apply wp_ret]. apply wp_bind, wp_say. eapply wp_update_context; [exact (implements_ctx _ _ _ _ Hw Hk)|]. split; [done|].
  exact (implements_context _ _ k ac (with_read_req None (a_ctx ac)) (implements_say _ _ (ReplyErr r EINTR) Hw) Hk eq_refl).
Qed.
Lemma after_interrupt_in_use c : in_use (after_interrupt interrupted c).1 = in_use c.
Proof. unfold after_interrupt. by repeat case_match. Qed.

Lemma offer_refines card f i w a a' :
  implements w a -> a_offer interrupted card f i a = Some a' ->
  wp (offer_frame interrupted card f i) (fun _ w' => u_drv w' = u_drv w /\ implements w' a') w.
Proof.
  intros Hw Ha. unfold a_offer in Ha. unfold offer_frame.
  destruct (dmx512_cuse_context card (Z.of_nat i)) as [k|] eqn:Ek; [|done]. cbn [mbind option_bind] in Ha.
  destruct (a_files a !! k) as [ac|] eqn:Hk; [|done]. cbn [mbind option_bind] in Ha.
  apply wp_bind. eapply wp_deref; [done|]. apply wp_bind. eapply wp_get_context; [by eapply implements_ctx|].
  apply wp_bind. eapply wp_mono; [by eapply interrupt_refines|]. cbn beta. intros _ w1 [Hd1 Hw1].
  pose proof (after_interrupt_in_use (a_ctx ac)) as Hin. destruct (after_interrupt interrupted (a_ctx ac)) as [c evs]. cbn [fst snd] in *.
  set (a1 := Files _ _ _) in Hw1.
  assert (a_files a1 !! k = Some (File c (a_frames ac))) as Hk1 by (cbn; by rewrite lookup_insert_eq).
  apply wp_bind. eapply wp_get_context; [exact (implements_ctx _ _ _ _ Hw1 Hk1)|]. cbn [a_ctx].
  destruct (selects f c) as [sel|] eqn:Es; [|done]. cbn [mbind option_bind] in Ha. unfold selects in Es.
  assert (forall evs', Files (a_free a1) (a_files a1) (a_log a1 ++ evs') = Files (a_free a) (<[k := File c (a_frames ac)]> (a_files a)) (a_log a ++ evs ++ evs')) as Ea1
    by (intros; cbn; by rewrite <- app_assoc).
  destruct (in_use c) eqn:Huse; cycle 1.
  { injection Es as <-. cbn in Ha. injection Ha as <-. apply wp_ret. rewrite <- Ea1, app_nil_r. by destruct a1. }
  destruct (port_selected _ _) as [b|] eqn:Ep; [|done]. injection Es as ->. cbv zeta. apply wp_bind. eapply wp_done; [reflexivity|].
  unfold deliver in Ha. destruct sel; cycle 1.
  { injection Ha as <-. apply wp_ret. rewrite <- Ea1, app_nil_r. by destruct a1. }
  destruct (read_req c) as [r|] eqn:Er.
  { injection Ha as <-. apply wp_bind, wp_say.
    pose proof (implements_say _ _ (ReplyFrame r f) Hw1) as Hw2. eapply wp_update_context; [exact (implements_ctx _ _ _ _ Hw2 Hk1)|]. split; [done|].
    pose proof (implements_context _ _ k _ (with_read_req None c) Hw2 Hk1 eq_refl) as Hw3. unfold a_put, a_say, a1 in Hw3. cbn in Hw3.
    by rewrite insert_insert_eq, <- app_assoc in Hw3. }
  destruct (pollhandle c) as [ph|] eqn:Eh.
  - injection Ha as <-. apply wp_bind. destruct Hw1 as [Q Hr1].
    eapply wp_mono; [exact (enqueue_refines Q _ _ k _ f Hr1 Hk1 Huse)|]. cbn beta. intros _ w2 [Hd2 Hw2]. apply wp_say. cbn [a_ctx a_frames] in Hw2.
    split; [by cbn; rewrite Hd2|]. pose proof (implements_say _ _ (NotifyPoll ph) Hw2) as Hw3. unfold a_say, a1 in Hw3. cbn in Hw3.
    by rewrite insert_insert_eq, <- app_assoc in Hw3.
  - injection Ha as <-. apply wp_ret. rewrite <- Ea1, app_nil_r. by destruct a1.
Qed.

Lemma offers_refine card f js w a a' :
  implements w a -> a_offers interrupted card f js a = Some a' ->
  wp (offer_to_contexts interrupted card f js) (fun _ w' => u_drv w' = u_drv w /\ implements w' a') w.
Proof.
  revert w a. induction js as [|i js IH]; intros w a Hw Ha; cbn [offer_to_contexts a_offers] in *; [apply wp_ret; by injection Ha as <-|].
  destruct (a_offer interrupted card f i a) as [a1|] eqn:E; [|done]. apply wp_bind. eapply wp_mono; [by eapply offer_refines|].
  cbn beta. intros _ w1 [Hd Hw1]. eapply wp_mono; [by eapply IH|]. cbn beta. intros ? w' [Hd' ?]. split; [by rewrite Hd'|done].
Qed.
Lemma receive_refines card f w a a' :
  implements w a -> a_receive interrupted card f a = Some a' ->
  wp (dmx512_cuse_handle_received_frame interrupted card f) (fun _ w' => u_drv w' = u_drv w /\ implements w' a') w.
Proof. apply offers_refine. Qed.

(** *** Open and release *)

Lemma free_context_refines card js w a z :
  implements w a -> a_free_context card js a = Some z ->
  free_context_from card js w = Done (z, w) /\
  (z = -1 \/ exists i ac, In i js /\ z = Z.of_nat i /\ a_files a !! (card, i) = Some ac /\ in_use (a_ctx ac) = false).
Proof.
  intros Hw. induction js as [|i js IH]; cbn [free_context_from a_free_context]; [intros [= <-]; by auto|].
  destruct (a_files a !! (card, i)) as [ac|] eqn:Hk; [|done]. cbn [mbind option_bind].
  pose proof (implements_ctx _ _ _ _ Hw Hk) as Hc. unfold get_context, mbind, prog_bind, get_state, live. rewrite Hc. cbn.
  destruct (in_use (a_ctx ac)) eqn:Hu.
  - intros Hz. destruct (IH Hz) as [E [->|(j & ac' & Hj & ?)]]; (split; [exact E|]); [by left|]. right. exists j, ac'. by auto.
  - intros [= <-]. split; [done|]. right. by exists i, ac; auto.
Qed.

Lemma init_bzero q m : dmx512_framequeue_init (Some q) (KMem (zeroed_node (QueueHead q) (m_links m)) (m_frames m) (m_locks m ∖ {[q]}) (m_next m)) =
  dmx512_framequeue_init (Some q) m.
Proof.
  unfold dmx512_framequeue_init, mbind, prog_bind, on_links, spin_lock_init, modify, with_links, with_locks, INIT_LIST_HEAD, zeroed_node.
  cbn. rewrite insert_insert_eq. do 3 f_equal. set_solver.
Qed.

Lemma open_refines req card flags w a a' :
  implements w a -> a_open req card flags a = Some a' ->
  wp (dmx512_cuse_open req card flags) (fun _ w' => u_drv w' = u_drv w /\ implements w' a') w.
Proof.
  intros Hw Ha. unfold a_open in Ha. unfold dmx512_cuse_open.
  assert (exists z, match card with Some c => a_free_context c (seq 0 DMX512_CUSE_CONTEXT_COUNT) a | None => Some (-1) end = Some z) as [z Hz]
    by (destruct (match card with Some _ => _ | None => _ end); [by eauto|done]).
  rewrite Hz in Ha. cbn [mbind option_bind] in Ha. apply wp_bind.
  assert (match card with Some c => dmx512_cuse_free_context_index c | None => mret (-1) end w = Done (z, w) /\
    (z = -1 \/ exists c i ac, card = Some c /\ (i < 32)%nat /\ z = Z.of_nat i /\ a_files a !! (c, i) = Some ac /\ in_use (a_ctx ac) = false)) as [E Hcase].
  { destruct card as [c|]; [|injection Hz as <-; by auto]. destruct (free_context_refines _ _ _ _ _ Hw Hz) as [E Hc]. split; [exact E|].
    destruct Hc as [->|(i & ac & Hi & ? & ? & ?)]; [by left|]. right. exists c, i, ac. apply in_seq in Hi. unfold DMX512_CUSE_CONTEXT_COUNT in Hi. split_and!; done || lia. }
  eapply wp_done; [exact E|]. destruct (z =? -1) eqn:Ez; [|apply Z.eqb_neq in Ez as Hne].
  { injection Ha as <-. by say_it. }
  destruct Hcase as [?|(c & i & ac & -> & Hi & -> & Hk & Hu)]; [done|].
  assert (dmx512_cuse_context (Some c) (Z.of_nat i) = Some (c, i)) as Ek.
  { unfold dmx512_cuse_context, dmx512_cuse_context_index_valid. cbn [mbind option_bind]. unfold DMX512_CUSE_CONTEXT_COUNT.
    assert (i32 (Z.of_nat i) = Z.of_nat i) as -> by (rewrite i32_small; lia).
    rewrite (proj2 (Z.leb_le _ _)), (proj2 (Z.ltb_lt _ _)) by lia. cbn. by rewrite Nat2Z.id. }
  rewrite Ek in Ha |- *. cbn [mbind option_bind] in Ha. injection Ha as <-. set (k := (c, i)) in *.
  apply wp_bind, wp_ret. unfold bzero_context. apply wp_bind, wp_bind, wp_on_mem. unfold bzero_queue. apply wp_modify. unfold put_context at 1. apply wp_modify.
  do 3 (apply wp_bind; eapply wp_update_context; [cbn; by rewrite lookup_insert_eq|]).
  apply wp_bind, wp_on_mem. cbn [u_mem with_u_contexts with_u_mem]. unfold wp. rewrite init_bzero. fold (wp (S := kmem) (A := unit)).
  destruct Hw as [Q Hr]. pose proof (init_spec (u_mem w) Q (ctx_queue k) (rf_mem _ _ _ Hr)) as (x & m & Em & Hm & Hf & _)%wp_run. rewrite Em.
  apply wp_say. split; [done|]. destruct (rf_free _ _ _ Hr) as (pool & Hp & Hlen).
  exists (<[ctx_queue k := []]> (<[FreeQueue := pool]> Q)).
  set (ac' := File (Context true (has flags O_NONBLOCK) 0 0 None None) []).
  assert (refines (<[ctx_queue k := []]> (<[FreeQueue := pool]> Q))
    (with_u_contexts (<[k := a_ctx ac']> (u_contexts w)) (with_u_mem m w)) (Files (length pool) (<[k := ac']> (a_files a)) (a_log a))) as Hr'.
  { eapply (refines_queues Q w a k ac ac' m pool []); [done|done|by rewrite (insert_id Q FreeQueue)|by intros; rewrite Hf|]. by intros _. }
  pose proof (refines_say _ _ _ (ReplyOpen req (Z.of_nat i)) Hr') as Hr2. rewrite Hlen in Hr2.
  unfold with_u_log, with_u_contexts, with_u_mem in *. cbn in *. rewrite !insert_insert_eq. exact Hr2.
Qed.

(** *** Calls on an open file *)

Lemma on_file_cases req card fh a f a' :
  on_file req card fh a f = Some a' ->
  (dmx512_cuse_context card fh = None /\ a' = a_say (ReplyErr req EINVAL) a) \/
  (exists k ac, dmx512_cuse_context card fh = Some k /\ a_files a !! k = Some ac /\ in_use (a_ctx ac) = true /\ f k ac = Some a').
Proof.
  unfold on_file, opened. destruct (dmx512_cuse_context card fh) as [k|]; [|intros [= <-]; by left]. cbn [mbind option_bind].
  destruct (a_files a !! k) as [ac|] eqn:Hk; [|done]. cbn [mbind option_bind]. destruct (in_use (a_ctx ac)) eqn:Hu; [|done].
  cbn [mbind option_bind]. intros Hf. right. by exists k, ac.
Qed.

Lemma release_refines req card fh w a a' :
  implements w a -> a_release req card fh a = Some a' ->
  wp (dmx512_cuse_release req card fh) (fun _ w' => u_drv w' = u_drv w /\ implements w' a') w.
Proof.
  intros Hw Ha. unfold a_release in Ha. unfold dmx512_cuse_release.
  apply on_file_cases in Ha as [[-> ->]|(k & ac & -> & Hk & Hu & [= <-])].
  { by say_it. }
  apply wp_bind. eapply wp_update_context; [by eapply implements_ctx|].
  apply wp_bind. eapply wp_update_context; [cbn; by rewrite lookup_insert_eq|]. apply wp_bind, wp_on_mem. cbn [u_mem with_u_contexts].
  destruct Hw as [Q Hr]. destruct (rf_free _ _ _ Hr) as (pool & Hp & Hlen). destruct (rf_queue _ _ _ Hr k ac Hk Hu) as (l & Hl & HF).
  eapply wp_mono; [eapply (cleanup_spec (u_mem w) Q (ctx_queue k) l); [by eapply rf_mem|done]|].
  cbn beta. intros _ m (Hm & _ & Hf & _). apply wp_say. split; [done|].
  exists (<[ctx_queue k := []]> (<[FreeQueue := pool]> Q)). set (c := with_port_mask 0 (with_in_use false (a_ctx ac))).
  assert (refines (<[ctx_queue k := []]> (<[FreeQueue := pool]> Q))
    (with_u_contexts (<[k := c]> (u_contexts w)) (with_u_mem m w)) (Files (length pool) (<[k := File c []]> (a_files a)) (a_log a))) as Hr'.
  { apply (refines_queues Q w a k ac (File c []) m pool []); try done; [by rewrite (insert_id Q FreeQueue)|].
    intros k' ac2 l' e Hne Hk' Hl' He. rewrite Hf, decide_False; [done|]. intros Hin. apply Hne.
    eapply ctx_queue_inj; [by eapply (rf_index _ _ _ Hr)..|]. eapply (fqi_disj _ _ (rf_mem _ _ _ Hr)); done. }
  pose proof (refines_say _ _ _ (ReplyErr req 0) Hr') as Hr2. rewrite Hlen in Hr2.
  unfold with_u_log, with_u_contexts, with_u_mem in *. cbn in *. rewrite !insert_insert_eq. exact Hr2.
Qed.

(** The queue of an open file is empty when the file has no frames. *)
Lemma isempty_refines w a k ac (P : bool -> cuse D -> Prop) :
  implements w a -> a_files a !! k = Some ac -> in_use (a_ctx ac) = true -> P (bool_decide (a_frames ac = [])) w ->
  wp (on_mem (dmx512_framequeue_isempty (Some (ctx_queue k)))) P w.
Proof.
  intros [Q Hr] Hk Hu HP. destruct (rf_queue _ _ _ Hr k ac Hk Hu) as (l & Hl & HF). apply wp_on_mem.
  eapply wp_mono; [by eapply isempty_spec, Hl; eapply rf_mem|]. cbn beta. intros b m [-> ->].
  replace (with_u_mem (u_mem w) w) with w by by destruct w.
  replace (bool_decide (l = [])) with (bool_decide (a_frames ac = [])); [done|]. apply bool_decide_ext. destruct HF; by split.
Qed.

(** Taking the oldest frame of an open file and returning it to the pool. *)
Lemma dequeue_refines req w a k ac f q :
  implements w a -> a_files a !! k = Some ac -> in_use (a_ctx ac) = true -> a_frames ac = f :: q ->
  wp (e ← on_mem (dmx512_framequeue_get (Some (ctx_queue k)));
      match e with
      | Some e => f ← on_mem (m ← get_state; live (m_frames m !! e)); say (ReplyFrame req f) ;; dmx512_put_frame (Some e)
      | None => mret tt
      end)
    (fun _ w' => u_drv w' = u_drv w /\
      implements w' (Files (S (a_free a)) (<[k := File (a_ctx ac) q]> (a_files a)) (a_log a ++ [ReplyFrame req f]))) w.
Proof.
  intros [Q Hr] Hk Hu Hq. pose proof (rf_mem _ _ _ Hr) as Hi. destruct (rf_free _ _ _ Hr) as (pool & Hp & Hlen).
  destruct (rf_queue _ _ _ Hr k ac Hk Hu) as (l & Hl & HF). rewrite Hq in HF. apply Forall2_cons_inv_r in HF as (e & l' & He & HF & ->).
  apply wp_bind, wp_on_mem. eapply wp_mono; [by eapply get_spec|]. cbn beta. intros r m1 (-> & Hi1 & Hf1 & _). cbn [head tail].
  apply wp_bind, wp_on_mem. apply wp_bind, wp_get. eapply wp_live; [by cbn; rewrite Hf1|].
  apply wp_bind, wp_say. unfold dmx512_put_frame. apply wp_bind, wp_on_mem. cbn [u_mem with_u_log with_u_mem].
  destruct (head_loose _ _ _ _ _ Hi Hl) as [Hloose Hlive].
  eapply wp_mono; [eapply (put_spec m1 _ FreeQueue pool e Hi1); [by rewrite lookup_insert_ne|by rewrite Hf1|done]|].
  cbn beta. intros r m2 (-> & Hi2 & Hf2 & _). apply wp_ret. split; [done|].
  rewrite insert_insert_ne in Hi2 by done. eexists.
  pose proof (refines_mem Q w a k ac q m2 (pool ++ [e]) l' Hr Hk Hi2) as Hr'.
  lapply Hr'; [clear Hr'; intros Hr'|intros; by rewrite Hf2, Hf1]. lapply Hr'; [clear Hr'; intros Hr'|intros _; rewrite Hf2, Hf1; done].
  apply (refines_say _ _ _ (ReplyFrame req f)) in Hr'. unfold a_say in Hr'. cbn in Hr'. rewrite length_app, Hlen, Nat.add_comm in Hr'. exact Hr'.
Qed.

Lemma read_refines req card fi w a a' :
  implements w a -> a_read req card fi a = Some a' ->
  wp (dmx512_cuse_read req card fi) (fun _ w' => u_drv w' = u_drv w /\ implements w' a') w.
Proof.
  intros Hw Ha. unfold a_read in Ha. unfold dmx512_cuse_read. destruct fi as [fh|]; [|injection Ha as <-; by say_it].
  apply on_file_cases in Ha as [[-> ->]|(k & ac & -> & Hk & Hu & Ha)]; [by say_it|].
  apply wp_bind. eapply isempty_refines; [done..|]. cbn beta. destruct (a_frames ac) as [|f q] eqn:Hq; cycle 1.
  { rewrite bool_decide_false by done. cbn [negb]. injection Ha as <-. by eapply dequeue_refines. }
  rewrite bool_decide_true by done. cbn [negb]. apply wp_bind. eapply wp_get_context; [by eapply implements_ctx|].
  destruct (nonblocking (a_ctx ac)); [injection Ha as <-; by say_it|]. injection Ha as <-.
  apply wp_bind. set (evs := match read_req (a_ctx ac) with Some r => [ReplyErr r EINTR] | None => [] end).
  eapply (wp_mono _ (fun _ w' => u_drv w' = u_drv w /\ exists c, in_use c = true /\ with_read_req (Some req) c = with_read_req (Some req) (a_ctx ac) /\
    implements w' (Files (a_free a) (<[k := File c []]> (a_files a)) (a_log a ++ evs)))).
  - unfold evs. destruct (read_req (a_ctx ac)) as [r|].
    + apply wp_bind, wp_say. eapply wp_update_context; [exact (implements_ctx _ _ _ _ Hw Hk)|]. split; [done|]. exists (with_read_req None (a_ctx ac)).
      pose proof (implements_context _ _ k ac (with_read_req None (a_ctx ac)) (implements_say _ _ (ReplyErr r EINTR) Hw) Hk eq_refl) as H. rewrite Hq in H. by split_and!.
    + apply wp_ret. split; [done|]. exists (a_ctx ac). rewrite app_nil_r, insert_id by (rewrite Hk; f_equal; destruct ac; cbn in *; by subst). split_and!; [done..|]. by destruct a.
  - cbn beta. intros _ w1 (Hd & c & Huc & Hc & Hw1).
    set (a1 := Files _ _ _) in Hw1. assert (a_files a1 !! k = Some (File c [])) as Hk1 by (cbn; by rewrite lookup_insert_eq).
    eapply wp_update_context; [exact (implements_ctx _ _ _ _ Hw1 Hk1)|]. split; [by cbn; rewrite Hd|].
    pose proof (implements_context _ _ k _ (with_read_req (Some req) c) Hw1 Hk1 eq_refl) as H. cbn [a_ctx]; rewrite Hc in H |- *. unfold a_put, a1 in H. cbn [a_free a_files a_log a_frames] in H. by rewrite insert_insert_eq in H.
Qed.

Lemma poll_refines req card fh ph w a a' :
  implements w a -> a_poll req card fh ph a = Some a' ->
  wp (dmx512_cuse_poll req card fh ph) (fun _ w' => u_drv w' = u_drv w /\ implements w' a') w.
Proof.
  intros Hw Ha. unfold a_poll in Ha. unfold dmx512_cuse_poll.
  apply on_file_cases in Ha as [[-> ->]|(k & ac & -> & Hk & Hu & Ha)]; [by say_it|].
  injection Ha as <-. set (c := match ph with Some _ => with_pollhandle ph (a_ctx ac) | None => a_ctx ac end). set (evs := match ph with Some _ => _ | None => [] end).
  apply wp_bind. eapply (wp_mono _ (fun _ w' => u_drv w' = u_drv w /\ implements w' (Files (a_free a) (<[k := File c (a_frames ac)]> (a_files a)) (a_log a ++ evs)))).
  - destruct ph as [p|]; unfold c, evs.
    + apply wp_bind. eapply wp_get_context; [by eapply implements_ctx|]. apply wp_bind. eapply wp_update_context; [by eapply implements_ctx|].
      pose proof (implements_context _ _ k ac (with_pollhandle (Some p) (a_ctx ac)) Hw Hk eq_refl) as Hw1.
      destruct (pollhandle (a_ctx ac)) as [old|]; [|apply wp_ret; split; [done|]; by rewrite app_nil_r].
      apply wp_say. split; [done|]. exact (implements_say _ _ (DestroyPollhandle old) Hw1).
    + apply wp_ret. split; [done|]. rewrite app_nil_r, insert_id by (by destruct ac). by destruct a.
  - cbn beta. intros _ w1 [Hd Hw1]. set (a1 := Files _ _ _) in Hw1.
    assert (a_files a1 !! k = Some (File c (a_frames ac))) as Hk1 by (cbn; by rewrite lookup_insert_eq).
    assert (in_use c = true) as Huc by (unfold c; by destruct ph).
    apply wp_bind. eapply (isempty_refines w1 a1 k (File c (a_frames ac))); [done..|]. cbn [a_frames]. apply wp_say. split; [done|].
    pose proof (implements_say _ _ (ReplyPoll req (if negb (bool_decide (a_frames ac = [])) then POLLIN else 0)) Hw1) as H.
    unfold a_say, a1 in H. cbn [a_free a_files a_log] in H. rewrite <- app_assoc in H. by destruct (bool_decide (a_frames ac = [])).
Qed.

Lemma in_bufsz_word b : match as_word b with Done _ => in_bufsz b <> 0 | Fault _ => in_bufsz b = 0 end.
Proof. destruct b as [|v|i ts]; cbn; [done|done|]. unfold SIZEOF_INFO, SIZEOF_TUPLE. lia. Qed.

Lemma ioctl_refines req card cmd arg fh in_buf out_bufsz w a a' :
  implements w a -> a_ioctl req card cmd arg fh in_buf out_bufsz a = Some a' ->
  wp (dmx512_cuse_ioctl ops malloc_ok req card cmd arg fh in_buf out_bufsz) (fun _ w' => u_drv w' = u_drv w /\ implements w' a') w.
Proof.
  intros Hw Ha. unfold a_ioctl in Ha. unfold dmx512_cuse_ioctl.
  apply on_file_cases in Ha as [[-> ->]|(k & ac & -> & Hk & Hu & Ha)]; [by say_it|].
  assert (forall set : Z -> context -> context, (forall v c, in_use (set v c) = in_use c) ->
    match as_word in_buf with
    | Done v => Some (a_say (ReplyIoctl req NoData) (a_put k (File (set v (a_ctx ac)) (a_frames ac)) a))
    | Fault _ => Some (a_say (ReplyIoctlRetry req [Iov arg 8] []) a)
    end = Some a' ->
    wp (if in_bufsz in_buf =? 0 then say (ReplyIoctlRetry req [Iov arg 8] [])
        else value ← lift_outcome (as_word in_buf); update_context k (set value) ;; say (ReplyIoctl req NoData))
      (fun _ w' => u_drv w' = u_drv w /\ implements w' a') w) as Hset.
  { intros set Hset Hs. pose proof (in_bufsz_word in_buf) as Hb. destruct (as_word in_buf) as [v|]; injection Hs as <-.
    - rewrite (proj2 (Z.eqb_neq _ _)) by done. apply wp_bind. eapply wp_done; [done|]. apply wp_bind.
      eapply wp_update_context; [by eapply implements_ctx|]. apply wp_say. split; [done|]. apply implements_say. by apply implements_context.
    - rewrite Hb. by say_it. }
  assert (forall v, Some (a_say (if out_bufsz =? 0 then ReplyIoctlRetry req [] [Iov arg 8] else ReplyIoctl req (Word 8 v)) a) = Some a' ->
    wp (if out_bufsz =? 0 then say (ReplyIoctlRetry req [] [Iov arg 8]) else say (ReplyIoctl req (Word 8 v)))
      (fun _ w' => u_drv w' = u_drv w /\ implements w' a') w) as Hget.
  { intros v [= <-]. destruct (out_bufsz =? 0); by say_it. }
  assert (forall get : context -> Z, Some (a_say (if out_bufsz =? 0 then ReplyIoctlRetry req [] [Iov arg 8] else ReplyIoctl req (Word 8 (get (a_ctx ac)))) a) = Some a' ->
    wp (if out_bufsz =? 0 then say (ReplyIoctlRetry req [] [Iov arg 8]) else ctx ← get_context k; say (ReplyIoctl req (Word 8 (get ctx))))
      (fun _ w' => u_drv w' = u_drv w /\ implements w' a') w) as Hget'.
  { intros get Hg. specialize (Hget _ Hg). destruct (out_bufsz =? 0); [done|]. apply wp_bind. eapply wp_get_context; [by eapply implements_ctx|done]. }
  destruct cmd; try done; cbv zeta; eauto.
  injection Ha as <-. by say_it.
Qed.

Context (send : option nat -> dmx512frame -> files -> option files).
(** What the contract assumes of a driver, whose state satisfies [I]. *)
Context (I : D -> Prop).
Definition send_implemented : Prop := forall card f w a a',
  implements w a -> I (u_drv w) -> send card f a = Some a' ->
  wp (dmx512_cuse_send_frame ops card f) (fun _ w' => I (u_drv w') /\ implements w' a') w.

Lemma write_refines req card f size fi w a a' :
  send_implemented -> implements w a -> I (u_drv w) -> a_write interrupted send req card f size fi a = Some a' ->
  wp (dmx512_cuse_write ops interrupted req card f size fi) (fun _ w' => I (u_drv w') /\ implements w' a') w.
Proof.
  intros Hsend Hw HI Ha. unfold a_write in Ha. unfold dmx512_cuse_write. destruct fi as [fh|]; [|injection Ha as <-; by say_it].
  apply on_file_cases in Ha as [[-> ->]|(k & ac & -> & Hk & Hu & Ha)]; [by say_it|].
  destruct (size <? SIZEOF_FRAME); [injection Ha as <-; by say_it|]. cbv zeta in *. set (f' := with_flags _ f) in *.
  destruct (send card f' a) as [a1|] eqn:E1; [|done]. cbn [mbind option_bind] in Ha.
  destruct (a_receive interrupted card f' a1) as [a2|] eqn:E2; [|done]. injection Ha as <-.
  apply wp_bind. eapply wp_mono; [by eapply Hsend|]. cbn beta. intros _ w1 [HI1 Hw1]. apply wp_bind. eapply wp_mono; [by eapply receive_refines|].
  cbn beta. intros _ w2 [Hd2 Hw2]. apply wp_say. split; [cbn; by rewrite Hd2|by apply implements_say].
Qed.

(** *** All calls *)

(** What libfuse and the drivers call. *)
Inductive call :=
  | COpen (req : nat) (card : option nat) (flags : Z)
  | CRelease (req : nat) (card : option nat) (fh : Z)
  | CRead (req : nat) (card : option nat) (fi : option Z)
  | CWrite (req : nat) (card : option nat) (f : dmx512frame) (size : Z) (fi : option Z)
  | CPoll (req : nat) (card : option nat) (fh : Z) (ph : option nat)
  | CIoctl (req : nat) (card : option nat) (cmd : ioctl_cmd) (arg fh : Z) (in_buf : in_buffer) (out_bufsz : Z)
  | CReceive (card : option nat) (f : dmx512frame).
Definition handle (c : call) : prog (cuse D) unit :=
  match c with
  | COpen req card flags => dmx512_cuse_open req card flags
  | CRelease req card fh => dmx512_cuse_release req card fh
  | CRead req card fi => dmx512_cuse_read req card fi
  | CWrite req card f size fi => dmx512_cuse_write ops interrupted req card f size fi
  | CPoll req card fh ph => dmx512_cuse_poll req card fh ph
  | CIoctl req card cmd arg fh in_buf out_bufsz => dmx512_cuse_ioctl ops malloc_ok req card cmd arg fh in_buf out_bufsz
  | CReceive card f => dmx512_cuse_handle_received_frame interrupted card f
  end.
Definition a_step (c : call) : files -> option files :=
  match c with
  | COpen req card flags => a_open req card flags
  | CRelease req card fh => a_release req card fh
  | CRead req card fi => a_read req card fi
  | CWrite req card f size fi => a_write interrupted send req card f size fi
  | CPoll req card fh ph => a_poll req card fh ph
  | CIoctl req card cmd arg fh in_buf out_bufsz => a_ioctl req card cmd arg fh in_buf out_bufsz
  | CReceive card f => a_receive interrupted card f
  end.

Lemma call_refines c w a a' :
  send_implemented -> implements w a -> I (u_drv w) -> a_step c a = Some a' -> wp (handle c) (fun _ w' => I (u_drv w') /\ implements w' a') w.
Proof.
  intros Hs Hw HI Ha. destruct c; cbn in *; [| | |by eapply write_refines| | |];
    (eapply wp_mono; [by first [eapply open_refines|eapply release_refines|eapply read_refines|eapply poll_refines|eapply ioctl_refines|eapply receive_refines]|
      by intros ?? [-> ?]]).
Qed.

Fixpoint run (cs : list call) : prog (cuse D) unit :=
  match cs with [] => mret tt | c :: cs => handle c ;; run cs end.
Fixpoint a_run (cs : list call) (a : files) : option files :=
  match cs with [] => Some a | c :: cs => a ← a_step c a; a_run cs a end.
Lemma run_refines cs w a a' :
  send_implemented -> implements w a -> I (u_drv w) -> a_run cs a = Some a' -> wp (run cs) (fun _ w' => I (u_drv w') /\ implements w' a') w.
Proof.
  intros Hs. revert w a. induction cs as [|c cs IH]; intros w a Hw HI Ha; cbn [run a_run] in *; [injection Ha as <-; by apply wp_ret|].
  destruct (a_step c a) as [a1|] eqn:E; [|done]. apply wp_bind. eapply wp_mono; [by eapply call_refines|]. cbn beta. intros _ w1 [HI1 Hw1]. by eapply IH.
Qed.
Lemma run_returns cs w a a' :
  send_implemented -> implements w a -> I (u_drv w) -> a_run cs a = Some a' ->
  exists w', run cs w = Done (tt, w') /\ I (u_drv w') /\ implements w' a'.
Proof.
  intros Hs Hw HI Ha. pose proof (run_refines cs w a a' Hs Hw HI Ha) as H. unfold wp in H. destruct (run cs w) as [[[] w']|]; [by exists w'|done].
Qed.
End handlers.
End refinement.
