(* ===== verification/CuseProperties.v ===== *)
(** * Properties of the character devices in user space

    Requests, frames and watchers of [CuseDev.v], on the contract of
    [CuseContract.v] where it applies. *)
From stdpp Require Import base countable gmap list.
From S2P Require Import Prelude KList FrameQueue DmxCore CuseDev CuseContract.

Lemma a_free_context_idle card js a z :
  a_free_context card js a = Some z ->
  z = -1 \/ exists i ac, i ∈ js /\ z = Z.of_nat i /\ a_files a !! (card, i) = Some ac /\ in_use (a_ctx ac) = false.
Proof.
  induction js as [|i js IH]; cbn [a_free_context]; [intros [= <-]; by left|].
  destruct (a_files a !! (card, i)) as [ac|] eqn:Hk; [|done]. cbn [mbind option_bind]. destruct (in_use (a_ctx ac)) eqn:Hu.
  - intros [?|(j & bc & Hj & Hbc)]%IH; [by left|]. right. exists j, bc. split; [by right|done].
  - intros [= <-]. right. exists i, ac. split; [by left|done].
Qed.

(** ** Requests *)

(** The request that a call of libfuse answers. *)
Definition answers (e : event) : option nat :=
  match e with
  | ReplyErr r _ | ReplyOpen r _ | ReplyFrame r _ | ReplyNothing r | ReplyWrite r _ | ReplyPoll r _
  | ReplyIoctl r _ | ReplyIoctlRetry r _ _ => Some r
  | NotifyPoll _ | DestroyPollhandle _ => None
  end.
Definition answered (log : list event) : list nat := omap answers log.
(** The requests of the reads that wait. *)
Definition pending (m : gmap ctx_id context) : list nat := omap (fun kc => read_req kc.2) (map_to_list m).
(** The request a call comes with. *)
Definition request (c : call) : list nat :=
  match c with
  | COpen r _ _ | CRelease r _ _ | CRead r _ _ | CWrite r _ _ _ _ | CPoll r _ _ _ | CIoctl r _ _ _ _ _ _ => [r]
  | CReceive _ _ => []
  end.

Definition waiting (c : context) : list nat := match read_req c with Some r => [r] | None => [] end.

Lemma pending_insert m k c c' : m !! k = Some c -> pending (<[k := c']> m) ++ waiting c ≡ₚ pending m ++ waiting c'.
Proof.
  intros Hk. unfold pending. rewrite <- insert_delete_eq.
  rewrite map_to_list_insert by apply lookup_delete_eq. rewrite <- (map_to_list_delete m k c Hk).
  cbn. unfold waiting. destruct (read_req c), (read_req c'); cbn; rewrite ?app_nil_r; try done.
  - rewrite <- !Permutation_cons_append. apply Permutation_swap.
  - by rewrite <- Permutation_cons_append.
  - by rewrite <- Permutation_cons_append.
Qed.

Section requests.
Context (interrupted : nat -> bool).
Implicit Types a : files.

Definition contexts_of a : gmap ctx_id context := a_ctx <$> a_files a.
Definition balance a : list nat := answered (a_log a) ++ pending (contexts_of a).
(** Only open files have a read that waits. *)
Definition reads_open a : Prop := forall k ac, a_files a !! k = Some ac -> read_req (a_ctx ac) <> None -> in_use (a_ctx ac) = true.
(** Everything that was asked for is answered once or waits. *)
Definition balanced (rs : list nat) a : Prop := reads_open a /\ balance a ≡ₚ rs.

Lemma contexts_insert a k ac l n : contexts_of (Files n (<[k := ac]> (a_files a)) l) = <[k := a_ctx ac]> (contexts_of a).
Proof. unfold contexts_of. cbn. by rewrite fmap_insert. Qed.

(** A step on one file: what it answers is what waited or was asked for. *)
Lemma balanced_step rs a k ac ac' n evs new :
  balanced rs a -> a_files a !! k = Some ac ->
  (read_req (a_ctx ac') <> None -> in_use (a_ctx ac') = true) ->
  answered evs ++ waiting (a_ctx ac') ≡ₚ waiting (a_ctx ac) ++ new ->
  balanced (rs ++ new) (Files n (<[k := ac']> (a_files a)) (a_log a ++ evs)).
Proof.
  intros [Ho Hb] Hk Hu He. split.
  - intros k' x Hk'. cbn in Hk'. apply lookup_insert_Some in Hk' as [[<- <-]|[_ ?]]; [done|by eapply Ho].
  - unfold balance in *. rewrite contexts_insert. cbn [a_log]. unfold answered in *. rewrite omap_app. rewrite <- Hb.
    assert (contexts_of a !! k = Some (a_ctx ac)) as Hc by (unfold contexts_of; by rewrite lookup_fmap, Hk).
    pose proof (pending_insert _ k _ (a_ctx ac') Hc) as Hp.
    apply (Permutation_app_inv_r (waiting (a_ctx ac))).
    rewrite <- !app_assoc. apply Permutation_app_head.
    rewrite Hp, (Permutation_app_comm (pending _)), app_assoc, He. solve_Permutation.
Qed.
Lemma balanced_say rs a e : balanced rs a -> balanced (rs ++ option_list (answers e)) (a_say e a).
Proof.
  intros [Ho Hb]. split; [exact Ho|]. unfold balance in *. cbn [a_say a_log]. unfold answered in *. rewrite omap_app, <- Hb.
  change (contexts_of (a_say e a)) with (contexts_of a). cbn. destruct (answers e); cbn; solve_Permutation.
Qed.

Lemma balanced_same rs a k ac ac' n evs :
  balanced rs a -> a_files a !! k = Some ac ->
  (read_req (a_ctx ac') <> None -> in_use (a_ctx ac') = true) ->
  answered evs ++ waiting (a_ctx ac') ≡ₚ waiting (a_ctx ac) ->
  balanced rs (Files n (<[k := ac']> (a_files a)) (a_log a ++ evs)).
Proof. intros Hb Hk Hu He. rewrite <- (app_nil_r rs). eapply balanced_step; [done..|]. by rewrite app_nil_r. Qed.

Lemma offer_balanced rs card f i a a' : balanced rs a -> a_offer interrupted card f i a = Some a' -> balanced rs a'.
Proof.
  intros Hb Ha. unfold a_offer in Ha. destruct (dmx512_cuse_context card (Z.of_nat i)) as [k|]; [|done]. cbn [mbind option_bind] in Ha.
  destruct (a_files a !! k) as [ac|] eqn:Hk; [|done]. cbn [mbind option_bind] in Ha.
  pose proof (proj1 Hb k ac Hk) as Hopen.
  assert (in_use (after_interrupt interrupted (a_ctx ac)).1 = in_use (a_ctx ac)) as Hin by apply after_interrupt_in_use.
  assert (answered (after_interrupt interrupted (a_ctx ac)).2 ++ waiting (after_interrupt interrupted (a_ctx ac)).1 ≡ₚ waiting (a_ctx ac) /\
    (read_req (after_interrupt interrupted (a_ctx ac)).1 <> None -> in_use (a_ctx ac) = true)) as [Hw Hr].
  { unfold after_interrupt. destruct (read_req (a_ctx ac)) as [r|] eqn:Er; [destruct (interrupted r)|]; cbn; unfold waiting; cbn; rewrite ?Er; split; done || by auto. }
  destruct (after_interrupt interrupted (a_ctx ac)) as [c evs]. cbn [fst snd] in *. rewrite <- Hin in Hr. clear Hin.
  destruct (selects f c) as [sel|]; [|done]. cbn [mbind option_bind] in Ha. unfold deliver in Ha.
  assert (forall c' q n evs', (read_req c' <> None -> in_use c' = true) -> answered evs' ++ waiting c' ≡ₚ waiting c ->
    balanced rs (Files n (<[k := File c' q]> (a_files a)) (a_log a ++ evs ++ evs'))) as Hgo.
  { intros c' q n evs' Hc' He'. eapply balanced_same; [done..|]. cbn [a_ctx]. unfold answered in *. by rewrite omap_app, <- app_assoc, He'. }
  destruct sel; [|injection Ha as <-; by apply Hgo].
  destruct (read_req c) as [r|] eqn:Er; [injection Ha as <-; apply Hgo; [done|]; unfold waiting; cbn; by rewrite Er|].
  destruct (pollhandle c); injection Ha as <-; apply Hgo; by rewrite ?Er.
Qed.
Lemma receive_balanced rs card f a a' : balanced rs a -> a_receive interrupted card f a = Some a' -> balanced rs a'.
Proof.
  unfold a_receive. generalize (seq 0 DMX512_CUSE_CONTEXT_COUNT) as js. intros js. revert a. induction js as [|i js IH]; intros a Hb Ha; cbn in Ha; [by injection Ha as <-|].
  destruct (a_offer interrupted card f i a) as [a1|] eqn:E; [|done]. eapply IH; [|exact Ha]. by eapply offer_balanced.
Qed.

(** A file is not closed while a read of it waits. *)
Definition careful (c : call) a : bool :=
  match c with
  | CRelease _ card fh => match opened card fh a with Some (_, ac) => bool_decide (read_req (a_ctx ac) = None) | None => true end
  | _ => true
  end.

Context (send : option nat -> dmx512frame -> files -> option files).
(** A driver keeps the requests of libfuse as they are. *)
Definition send_balanced : Prop := forall rs card f a a', balanced rs a -> send card f a = Some a' -> balanced rs a'.

Lemma on_file_balanced rs req card fh a f a' :
  balanced rs a -> (forall k ac, a_files a !! k = Some ac -> in_use (a_ctx ac) = true -> opened card fh a = Some (k, ac) ->
    f k ac = Some a' -> balanced (rs ++ [req]) a') ->
  on_file req card fh a f = Some a' -> balanced (rs ++ [req]) a'.
Proof.
  intros Hb Hf Ha. pose proof Ha as Ha2. apply on_file_cases in Ha2 as [[_ ->]|(k & ac & Ek & Hk & Hu & E)]; [by apply (balanced_say rs a (ReplyErr req EINVAL))|].
  apply (Hf k ac); try done. unfold opened. rewrite Ek. cbn. rewrite Hk. cbn. by rewrite Hu.
Qed.

Lemma call_balanced rs c a a' :
  send_balanced -> balanced rs a -> careful c a = true -> a_step interrupted send c a = Some a' -> balanced (rs ++ request c) a'.
Proof.
  intros Hsend Hb Hc Ha.
  assert (forall e r, answers e = Some r -> balanced (rs ++ [r]) (a_say e a)) as Hsay.
  { intros e r He. pose proof (balanced_say rs a e Hb) as H. by rewrite He in H. }
  destruct c as [req card flags|req card fh|req card fi|req card f size fi|req card fh ph|req card cmd arg fh buf out|card f]; cbn [a_step request] in *.
  - unfold a_open in Ha. destruct (match card with Some _ => _ | None => _ end) as [z|] eqn:Ez; [|done]. cbn [mbind option_bind] in Ha.
    destruct (z =? -1); [injection Ha as <-; by apply Hsay|].
    destruct (dmx512_cuse_context card z) as [k|] eqn:Ek; [|done]. cbn [mbind option_bind] in Ha. injection Ha as <-.
    apply context_valid in Ek as (cd & -> & -> & Hz).
    apply (a_free_context_idle cd _ _ _) in Ez as [->|(i & ac & Hi & -> & Hk & Hu)]; [by destruct Hz as [[] _]|]. apply elem_of_seq in Hi. unfold DMX512_CUSE_CONTEXT_COUNT in Hi.
    assert (i32 (Z.of_nat i) = Z.of_nat i) as Hs by (rewrite i32_small; lia). rewrite Hs, Nat2Z.id in *.
    apply (balanced_step rs a (cd, i) ac); [done..|]. unfold waiting. cbn. destruct (read_req (a_ctx ac)) eqn:Er; [|done].
    assert (in_use (a_ctx ac) = true) as Hu2 by (apply (proj1 Hb _ _ Hk); by rewrite Er). by rewrite Hu2 in Hu.
  - eapply on_file_balanced; [done| |exact Ha]. cbn beta. intros k ac Hk Hu Ho [= <-]. cbn in Hc. rewrite Ho in Hc. apply bool_decide_eq_true in Hc.
    apply (balanced_step rs a k ac); [done..| |]; cbn; unfold waiting; cbn; by rewrite Hc.
  - unfold a_read in Ha. destruct fi as [fh|]; [|injection Ha as <-; by apply Hsay].
    eapply on_file_balanced; [done| |exact Ha]. cbn beta. intros k ac Hk Hu _ E. destruct (a_frames ac) as [|f q].
    + destruct (nonblocking (a_ctx ac)); [injection E as <-; by apply Hsay|]. injection E as <-.
      apply (balanced_step rs a k ac); [done..|]. unfold waiting. cbn. by destruct (read_req (a_ctx ac)).
    + injection E as <-. apply (balanced_step rs a k ac); [done..|]. cbn. apply Permutation_cons_append.
  - unfold a_write in Ha. destruct fi as [fh|]; [|injection Ha as <-; by apply Hsay].
    eapply on_file_balanced; [done| |exact Ha]. cbn beta. intros k ac Hk Hu _ E. destruct (size <? SIZEOF_FRAME); [injection E as <-; by apply Hsay|].
    destruct (send card _ a) as [a1|] eqn:E1; [|done]. cbn [mbind option_bind] in E.
    destruct (a_receive interrupted card _ a1) as [a2|] eqn:E2; [|done]. injection E as <-.
    apply (balanced_say rs a2 (ReplyWrite req size)). eapply receive_balanced; [|exact E2]. by eapply Hsend.
  - unfold a_poll in Ha. eapply on_file_balanced; [done| |exact Ha]. cbn beta. intros k ac Hk Hu _ [= <-].
    apply (balanced_step rs a k ac); [done..| |]; cbn [a_ctx].
    + intros _. by destruct ph.
    + unfold answered. rewrite omap_app. destruct ph as [p|], (pollhandle (a_ctx ac)); cbn; unfold waiting; cbn;
        destruct (read_req (a_ctx ac)); cbn; done || apply Permutation_swap.
  - unfold a_ioctl in Ha. eapply on_file_balanced; [done| |exact Ha]. cbn beta. intros k ac Hk Hu _ E.
    assert (forall v, Some (a_say (if out =? 0 then ReplyIoctlRetry req [] [Iov arg 8] else ReplyIoctl req (Word 8 v)) a) = Some a' -> balanced (rs ++ [req]) a') as Hget.
    { intros v [= <-]. apply Hsay. by destruct (out =? 0). }
    assert (forall set : Z -> context -> context, (forall v c, in_use (set v c) = in_use c /\ read_req (set v c) = read_req c) ->
      match as_word buf with
      | Done v => Some (a_say (ReplyIoctl req NoData) (a_put k (File (set v (a_ctx ac)) (a_frames ac)) a))
      | Fault _ => Some (a_say (ReplyIoctlRetry req [Iov arg 8] []) a)
      end = Some a' -> balanced (rs ++ [req]) a') as Hset.
    { intros set Hs E'. destruct (as_word buf) as [v|]; injection E' as <-; [|by apply Hsay]. destruct (Hs v (a_ctx ac)) as [Hs1 Hs2].
      apply (balanced_step rs a k ac); [done..| |]; cbn [a_ctx]; [by rewrite Hs1|]. unfold waiting. rewrite Hs2. cbn. destruct (read_req (a_ctx ac)); cbn; [apply Permutation_swap|done]. }
    destruct cmd; try done; cbv zeta in E;
      first [exact (Hget _ E)|eapply (Hset with_port_mask); [by split|exact E]|eapply (Hset with_port_txmask); [by split|exact E]|injection E as <-; by apply Hsay].
  - rewrite app_nil_r. by eapply receive_balanced.
Qed.
End requests.

(** ** The contract holds from the start *)

Section start.
Context {D : Type}.
Implicit Types w : cuse D.

(** The zeroed [free_framequeue], no card yet. *)
Definition boot_cuse (d : D) : cuse D := Cuse (KMem (zeroed_node (QueueHead FreeQueue) ∅) ∅ ∅ 0) ∅ [] d.

(** No context has a queue yet. *)
Definition unopened (Q : gmap queue_id (list nat)) : Prop := forall i, Q !! CtxQueue i = None.

Lemma fill_refines n w Q k :
  refines Q w (Files n ∅ []) -> unopened Q ->
  wp (fill_free_queue (fun _ => true) k) (fun _ w' => u_drv w' = u_drv w /\ exists Q', refines Q' w' (Files (n + k) ∅ []) /\ unopened Q') w.
Proof.
  revert n w Q. induction k as [|k IH]; intros n w Q Hr Hun; cbn [fill_free_queue].
  { apply wp_ret. rewrite Nat.add_0_r. split; [done|]. by exists Q. }
  destruct (rf_free _ _ _ Hr) as (pool & Hp & Hlen).
  apply wp_bind, wp_on_mem. eapply wp_mono; [eapply (alloc_spec _ _ Q); [by eapply rf_mem|done]|].
  cbn beta. intros e m1 (-> & Hi1 & Hloose & Hf1 & _). apply wp_bind, wp_on_mem. cbn [u_mem with_u_mem].
  eapply wp_mono; [eapply (put_spec m1 Q FreeQueue pool); [done|done|rewrite Hf1, dom_insert_L; set_solver|done]|].
  cbn beta. intros r m2 (_ & Hi2 & _). replace (n + S k)%nat with (S n + k)%nat by lia.
  change (u_drv w) with (u_drv (with_u_mem m2 (with_u_mem m1 w))). apply (IH _ _ (<[FreeQueue := pool ++ [m_next (u_mem w)]]> Q)).
  - destruct Hr as [_ _ Hc _ _ Hl]. split; cbn in *; try done.
    exists (pool ++ [m_next (u_mem w)]). rewrite lookup_insert_eq, length_app. cbn. split; [done|lia].
  - intros i. by rewrite lookup_insert_ne.
Qed.

Lemma bzero_queue_spec m Q q : fq_inv m Q -> Q !! q = None ->
  fq_inv (KMem (zeroed_node (QueueHead q) (m_links m)) (m_frames m) (m_locks m ∖ {[q]}) (m_next m)) Q.
Proof.
  intros Hi Hq. split; cbn.
  - intros q' l Hl. eapply is_list_frame; [by eapply (fqi_list _ _ Hi)|]. intros x Hx. unfold zeroed_node. apply lookup_insert_ne.
    intros <-. apply elem_of_cons in Hx as [[= <-]|Hx]; [by rewrite Hq in Hl|]. by apply list_elem_of_fmap in Hx as (? & ? & _).
  - apply (fqi_disj _ _ Hi).
  - intros e He. unfold zeroed_node. rewrite dom_insert_L. apply (fqi_node _ _ Hi) in He. set_solver.
  - apply (fqi_live _ _ Hi).
  - rewrite (fqi_unlocked _ _ Hi). set_solver.
  - apply (fqi_fresh _ _ Hi).
Qed.

Definition a_new_context (a : files) (k : ctx_id) : files := a_put k (File zero_context []) a.
Definition a_new_card (a : files) (card : nat) : files := foldl a_new_context a (pair card <$> seq 0 DMX512_CUSE_CONTEXT_COUNT).
(** The pool and the contexts after [dmx512_core_init] and the creation of
    the cards. *)
Definition a_start (cards : list nat) : files := foldl a_new_card (Files 8192 ∅ []) cards.
Fixpoint create_cards (cards : list nat) : prog (cuse D) unit :=
  match cards with [] => mret tt | c :: cards => create_card true c ;; create_cards cards end.

Lemma bzero_contexts_refines Q card js w a :
  refines Q w a -> unopened Q -> Forall (fun i => (i < 32)%nat) js ->
  wp (bzero_contexts card js) (fun _ w' => u_drv w' = u_drv w /\ refines Q w' (foldl a_new_context a (pair card <$> js))) w.
Proof.
  intros Hr Hun Hjs. revert w a Hr. induction Hjs as [|i js Hi Hjs IH]; intros w a Hr; cbn [bzero_contexts]; [by apply wp_ret|].
  unfold bzero_context. apply wp_bind, wp_bind, wp_on_mem. unfold bzero_queue. apply wp_modify. unfold put_context. apply wp_modify.
  match goal with |- wp _ _ ?x => change (u_drv w) with (u_drv x) end. apply IH. clear IH. destruct Hr as [Hm Hf Hc Hx Hq Hl]. split; cbn; try done.
  - apply bzero_queue_spec; [done|apply Hun].
  - intros k. unfold a_new_context, a_put. cbn. destruct (decide (k = (card, i))) as [->|]; [by rewrite !lookup_insert_eq|by rewrite !lookup_insert_ne by done].
  - intros k ac [[<- <-]|[_ ?]]%lookup_insert_Some; [done|by eapply Hx].
  - intros k ac [[<- <-]|[_ ?]]%lookup_insert_Some; [done|by eapply Hq].
Qed.
Lemma create_cards_refines Q cards w a :
  refines Q w a -> unopened Q -> wp (create_cards cards) (fun _ w' => u_drv w' = u_drv w /\ refines Q w' (foldl a_new_card a cards)) w.
Proof.
  intros Hr Hun. revert w a Hr. induction cards as [|c cards IH]; intros w a Hr; cbn [create_cards]; [by apply wp_ret|].
  apply wp_bind. eapply wp_mono; [apply (bzero_contexts_refines Q c _ w a Hr Hun)|cbn beta; intros _ w1 [<- Hr1]; by apply IH].
  apply Forall_forall. intros i Hi%elem_of_seq. unfold DMX512_CUSE_CONTEXT_COUNT in Hi. lia.
Qed.

Lemma start_refines d cards :
  wp (_ ← dmx512_core_init (fun _ => true); create_cards cards) (fun _ w' => u_drv w' = d /\ implements w' (a_start cards)) (boot_cuse d).
Proof.
  apply wp_bind. unfold dmx512_core_init. apply wp_bind, wp_on_mem. unfold dmx512_framequeue_init. apply wp_bind.
  eapply wp_on_links; [done|]. unfold spin_lock_init. apply wp_modify.
  set (w0 := with_u_mem _ _).
  assert (refines {[FreeQueue := []]} w0 (Files 0 ∅ [])) as Hr0.
  { split; cbn; try done; [|by exists []; rewrite lookup_singleton_eq]. split; cbn; try done.
    - intros q l [<- <-]%lookup_singleton_Some. apply INIT_LIST_HEAD_spec.
    - intros q1 q2 l1 l2 e [<- <-]%lookup_singleton_Some. set_solver.
    - intros q l e [<- <-]%lookup_singleton_Some. set_solver. }
  apply wp_bind. eapply wp_mono; [eapply (fill_refines 0 _ _ _ Hr0)|].
  { intros i. by rewrite lookup_singleton_ne. }
  cbn beta. intros _ w1 (Hd1 & Q1 & Hr1 & Hun1). apply wp_ret. eapply wp_mono; [by eapply create_cards_refines|].
  cbn beta. intros _ w2 [Hd2 Hr2]. split; [by rewrite Hd2, Hd1|]. exists Q1. exact Hr2.
Qed.
Lemma start_returns d cards : exists w1,
  (_ ← dmx512_core_init (fun _ => true); create_cards cards) (boot_cuse d) = Done (tt, w1) /\ u_drv w1 = d /\ implements w1 (a_start cards).
Proof.
  pose proof (start_refines d cards) as H. unfold wp in H.
  destruct ((_ ← dmx512_core_init (fun _ => true); create_cards cards) (boot_cuse d)) as [[[] w1]|]; [by exists w1|done].
Qed.
End start.

(** ** The properties *)

Definition no_driver (send : option nat) (f : dmx512frame) (a : files) : option files := Some a.

Section properties.
Context {D : Type} (ops : nat -> option (card_ops D)) (interrupted : nat -> bool) (malloc_ok : Z -> bool).
Context (send : option nat -> dmx512frame -> files -> option files) (I : D -> Prop).

(** C11: The character devices implement open files that are queues of frames:
    after the module is loaded and the cards exist, any sequence of opens,
    releases, reads, writes, polls, filter requests and received frames that
    the contract allows returns, and leaves the rings, the pool and the log
    of libfuse as the contract says; so the handlers keep no other state. *)
Theorem cuse_refinement d cards cs a' :
  send_implemented ops send I -> I d -> a_run interrupted send cs (a_start cards) = Some a' ->
  exists w', (_ ← dmx512_core_init (fun _ => true); create_cards cards;; run ops interrupted malloc_ok cs) (boot_cuse d) = Done (tt, w') /\
    I (u_drv w') /\ implements w' a'.
Proof.
  intros Hs Hd Ha. destruct (start_returns d cards) as (w1 & E1 & Hd1 & Hw1). rewrite <- Hd1 in Hd.
  destruct (run_returns ops interrupted malloc_ok send I cs w1 _ _ Hs Hw1 Hd Ha) as (w' & E & Hw'). exists w'. split; [|done]. revert E1. unfold mbind, prog_bind. destruct (dmx512_core_init _ _) as [[z w0]|]; [|done]. intros ->. exact E.
Qed.

Fixpoint careful_run (cs : list call) (a : files) : bool :=
  match cs with
  | [] => true
  | c :: cs => careful c a && match a_step interrupted send c a with Some a => careful_run cs a | None => true end
  end.

Lemma run_balanced cs rs a a' :
  send_balanced send -> balanced rs a -> careful_run cs a = true -> a_run interrupted send cs a = Some a' -> balanced (rs ++ (cs ≫= request)) a'.
Proof.
  intros Hs. revert rs a. induction cs as [|c cs IH]; intros rs a Hb Hc Ha; cbn in *; [injection Ha as <-; by rewrite app_nil_r|].
  apply andb_true_iff in Hc as [Hc1 Hc2]. destruct (a_step interrupted send c a) as [a1|] eqn:E; [|done].
  rewrite app_assoc. apply (IH _ a1); [|done..]. by eapply call_balanced.
Qed.

Lemma implements_balance (w : cuse D) a : implements w a -> answered (u_log w) ++ pending (u_contexts w) = balance a.
Proof.
  intros [Q Hr]. unfold balance. rewrite (rf_log _ _ _ Hr). do 2 f_equal. apply map_eq. intros k.
  unfold contexts_of. by rewrite lookup_fmap, (rf_ctx _ _ _ Hr).
Qed.

(** C12: libfuse gets one answer for each request: after any sequence of calls
    in which no file is closed while a read of it waits, the answers that
    were given and the reads that wait are together, each once, the requests
    that were made. *)
Theorem requests_answered_once cs (w : cuse D) a a' :
  send_implemented ops send I -> send_balanced send -> implements w a -> I (u_drv w) -> reads_open a ->
  careful_run cs a = true -> a_run interrupted send cs a = Some a' ->
  exists w', run ops interrupted malloc_ok cs w = Done (tt, w') /\
    answered (u_log w') ++ pending (u_contexts w') ≡ₚ (answered (u_log w) ++ pending (u_contexts w)) ++ (cs ≫= request).
Proof.
  intros Hs Hb Hw HI Ho Hc Ha. destruct (run_returns ops interrupted malloc_ok send I cs w a a' Hs Hw HI Ha) as (w' & E & _ & Hw').
  exists w'. split; [done|]. rewrite (implements_balance w' a'), (implements_balance w a) by done.
  eapply run_balanced; [done| |done..]. by split.
Qed.
End properties.

Definition no_ops (card : nat) : option (card_ops unit) := None.
Definition any (d : unit) : Prop := True.
Lemma no_driver_implemented : send_implemented no_ops no_driver any.
Proof. intros card f w a a' Hw _ [= <-]. by destruct card. Qed.
Lemma no_driver_balanced : send_balanced no_driver.
Proof. intros rs card f a a' Hb [= <-]. done. Qed.

Definition frame_on (port v : Z) : dmx512frame := with_data (replicate DATA_SIZE v) (with_port port zero_frame).
(** Two files of card 0, one of card 1; a read that waits and one that is
    answered from the queue. *)
Definition some_calls : list call :=
  [COpen 1 (Some 0%nat) 0; COpen 2 (Some 0%nat) O_NONBLOCK; COpen 3 (Some 1%nat) 0;
   CIoctl 4 (Some 0%nat) DMX512_IOCTL_SET_PORT_FILTER 0 0 (InWord 6) 0; CIoctl 5 (Some 0%nat) DMX512_IOCTL_SET_PORT_FILTER 0 1 (InWord 2) 0;
   CPoll 6 (Some 0%nat) 1 (Some 9%nat); CRead 7 (Some 0%nat) (Some 0); CReceive (Some 0%nat) (frame_on 1 17);
   CRead 8 (Some 0%nat) (Some 1); CRead 9 (Some 0%nat) (Some 0); CRead 10 (Some 0%nat) (Some 1); CRelease 11 (Some 0%nat) 1].
Definition after_some_calls : files := default (a_start []) (a_run (fun _ => false) no_driver some_calls (a_start [0%nat; 1%nat])).

Lemma some_calls_run : a_run (fun _ => false) no_driver some_calls (a_start [0%nat; 1%nat]) = Some after_some_calls.
Proof. vm_compute. reflexivity. Qed.
Lemma cuse_refinement_witness : exists w',
  (_ ← dmx512_core_init (fun _ => true); create_cards [0%nat; 1%nat];; run no_ops (fun _ => false) (fun _ => true) some_calls) (boot_cuse tt) = Done (tt, w') /\
  any (u_drv w') /\ implements w' after_some_calls.
Proof. exact (cuse_refinement no_ops (fun _ => false) (fun _ => true) no_driver any tt [0%nat; 1%nat] some_calls _ no_driver_implemented Logic.I some_calls_run). Defined.

(** What is answered in this run: request 9 still waits. *)
Example some_answers : answered (a_log after_some_calls) = [1; 2; 3; 4; 5; 6; 7; 8; 10; 11]%nat /\ pending (contexts_of after_some_calls) = [9%nat].
Proof. vm_compute. by split. Qed.

Lemma start_reads_open cards : reads_open (a_start cards).
Proof.
  unfold a_start. assert (forall a, reads_open a -> reads_open (foldl a_new_card a cards)) as H; [|by apply H].
  induction cards as [|c cards IH]; intros a Ha; [exact Ha|]. cbn [foldl]. apply IH. unfold a_new_card.
  generalize (pair c <$> seq 0 DMX512_CUSE_CONTEXT_COUNT) as ks. clear IH. intros ks. revert a Ha. induction ks as [|k ks IH]; intros a Ha; [exact Ha|].
  apply IH. intros k' ac Hk. unfold a_new_context, a_put in Hk. cbn in Hk. apply lookup_insert_Some in Hk as [[<- <-]|[_ Hk]]; [done|by eapply Ha].
Qed.
Lemma requests_answered_once_witness : exists (w w' : cuse unit),
  implements w (a_start [0%nat; 1%nat]) /\ run no_ops (fun _ => false) (fun _ => true) some_calls w = Done (tt, w') /\
  answered (u_log w') ++ pending (u_contexts w') ≡ₚ (answered (u_log w) ++ pending (u_contexts w)) ++ [1; 2; 3; 4; 5; 6; 7; 8; 9; 10; 11]%nat.
Proof.
  destruct (start_returns tt [0%nat; 1%nat]) as (w & _ & _ & Hw). exists w.
  destruct (requests_answered_once no_ops (fun _ => false) (fun _ => true) no_driver any some_calls w _ after_some_calls
    no_driver_implemented no_driver_balanced Hw Logic.I (start_reads_open _) (eq_refl) some_calls_run) as (w' & E & Hp).
  exists w'. split; [exact Hw|split; [exact E|exact Hp]].
Defined.

(** ** Frames *)

Lemma context_of card i : (i < 32)%nat -> dmx512_cuse_context (Some card) (Z.of_nat i) = Some (card, i).
Proof.
  intros Hi. unfold dmx512_cuse_context, dmx512_cuse_context_index_valid, DMX512_CUSE_CONTEXT_COUNT. cbn [mbind option_bind].
  assert (i32 (Z.of_nat i) = Z.of_nat i) as -> by (rewrite i32_small; lia).
  rewrite (proj2 (Z.leb_le _ _)), (proj2 (Z.ltb_lt _ _)) by lia. cbn. by rewrite Nat2Z.id.
Qed.

Section frames.
Context (interrupted : nat -> bool).
Implicit Types a : files.

(** Is the file interested in a frame? *)
Definition listens (c : context) (f : dmx512frame) : bool := bool_decide (selects f c = Some true).
Lemma selects_low f c : f_port f < 32 -> selects f c = Some (listens c f).
Proof.
  intros Hp. unfold listens. assert (exists b, selects f c = Some b) as [b ->]; [|by destruct b].
  unfold selects. destruct (in_use c); [|by eauto]. unfold port_selected, port_bit. rewrite (proj2 (Z.ltb_lt _ 64)) by lia.
  destruct (Z.ltb_spec (f_port f) 31); [by eexists|]. destruct (Z.eqb_spec (f_port f) 31); [by eexists|lia].
Qed.

(** What an offer does to the pool and to a file that polls. *)
Definition offered (f : dmx512frame) (k : ctx_id) a a' : Prop :=
  (a_free a <= S (a_free a'))%nat /\ (forall k', k' <> k -> a_files a' !! k' = a_files a !! k') /\ is_Some (a_files a' !! k) /\
  (exists evs, a_log a' = a_log a ++ evs) /\
  (forall c q, a_files a !! k = Some (File c q) -> read_req c = None -> pollhandle c <> None -> a_free a <> 0%nat ->
     a_files a' !! k = Some (File c (q ++ if listens c f then [f] else []))).
Lemma offer_effect card f i a :
  (i < 32)%nat -> is_Some (a_files a !! (card, i)) -> f_port f < 32 ->
  exists a', a_offer interrupted (Some card) f i a = Some a' /\ offered f (card, i) a a'.
Proof.
  intros Hi [ac Hk] Hp. unfold a_offer. rewrite context_of by done. cbn [mbind option_bind]. rewrite Hk. cbn [mbind option_bind].
  destruct (after_interrupt interrupted (a_ctx ac)) as [c evs] eqn:Ei. rewrite selects_low by done. cbn [mbind option_bind].
  destruct (deliver f (listens c f) c (a_frames ac) (a_free a)) as [[ac' evs'] free] eqn:Ed. eexists. split; [done|]. split_and!; cbn.
  - unfold deliver in Ed. repeat case_match; simplify_eq; lia.
  - intros k' Hne. by rewrite lookup_insert_ne.
  - rewrite lookup_insert_eq. by eexists.
  - by exists (evs ++ evs').
  - intros c0 q0 Hk0 Hr Hph Hf. rewrite Hk in Hk0. injection Hk0 as ->. rewrite lookup_insert_eq. cbn [a_ctx] in Ei. unfold after_interrupt in Ei. rewrite Hr in Ei. injection Ei as <- <-.
    unfold deliver in Ed. rewrite Hr in Ed. destruct (listens c0 f); [|injection Ed as <- <- <-; by rewrite app_nil_r].
    destruct (pollhandle c0); [|done]. injection Ed as <- <- <-. by rewrite decide_False.
Qed.

Lemma offers_effect card f js a k c q :
  NoDup js -> Forall (fun i => (i < 32)%nat) js -> (forall i, (i < 32)%nat -> is_Some (a_files a !! (card, i))) -> f_port f < 32 ->
  a_files a !! k = Some (File c q) -> read_req c = None -> pollhandle c <> None -> (length js <= a_free a)%nat ->
  exists a', a_offers interrupted (Some card) f js a = Some a' /\ (a_free a <= a_free a' + length js)%nat /\
    (forall i, (i < 32)%nat -> is_Some (a_files a' !! (card, i))) /\ (exists evs, a_log a' = a_log a ++ evs) /\
    a_files a' !! k = Some (File c (q ++ if listens c f && bool_decide (k.1 = card /\ k.2 ∈ js) then [f] else [])).
Proof.
  intros Hnd Hjs. revert a q. induction Hjs as [|i js Hi Hjs IH]; intros a q Hex Hp Hk Hr Hph Hfree; cbn [a_offers].
  { exists a. rewrite bool_decide_false, andb_false_r, app_nil_r by set_solver. split_and!; try done; [cbn; lia|exists []; by rewrite app_nil_r]. }
  apply NoDup_cons in Hnd as [Hni Hnd]. cbn [length] in Hfree.
  destruct (offer_effect card f i a Hi (Hex i Hi) Hp) as (a1 & E1 & Hf1 & Hother & Hsome & [evs1 Hl1] & Hpoll). rewrite E1. cbn [mbind option_bind].
  set (q1 := q ++ if listens c f && bool_decide (k = (card, i)) then [f] else []).
  assert (a_files a1 !! k = Some (File c q1)) as Hk1.
  { unfold q1. destruct (decide (k = (card, i))) as [->|Hne].
    - rewrite bool_decide_true, andb_true_r by done. apply Hpoll; [done..|lia].
    - by rewrite bool_decide_false, andb_false_r, app_nil_r, Hother. }
  destruct (IH Hnd a1 q1) as (a' & E & Hf & Hex' & [evs Hl] & Hk'); try done; [|lia|].
  { intros i' Hi'. destruct (decide (i' = i)) as [->|]; [done|]. rewrite Hother by congruence. by apply Hex. }
  exists a'. split_and!; [done|cbn; lia|done|exists (evs1 ++ evs); by rewrite Hl, Hl1, <- app_assoc|]. rewrite Hk'. do 2 f_equal. unfold q1. rewrite <- app_assoc. f_equal.
  destruct (listens c f); [|done]. cbn [andb]. destruct k as [c0 i0]. cbn [fst snd].
  destruct (decide (c0 = card)) as [->|Hc]; [|by rewrite !bool_decide_false by (intros ?; simplify_eq; naive_solver)].
  destruct (decide (i0 = i)) as [->|Hi0].
  - rewrite (bool_decide_true ((card, i) = _)), (bool_decide_false (_ /\ i ∈ js)), bool_decide_true by set_solver. done.
  - rewrite (bool_decide_false ((card, i0) = _)) by congruence. cbn. assert (i0 ∈ i :: js <-> i0 ∈ js) as E0 by set_solver.
    by rewrite (bool_decide_ext (card = card /\ i0 ∈ i :: js) (card = card /\ i0 ∈ js)) by (by rewrite E0).
Qed.

Context (send : option nat -> dmx512frame -> files -> option files).
Lemma receive_all card fs a k c q :
  (forall i, (i < 32)%nat -> is_Some (a_files a !! (card, i))) -> Forall (fun f => f_port f < 32) fs ->
  k.1 = card -> (k.2 < 32)%nat -> a_files a !! k = Some (File c q) -> read_req c = None -> pollhandle c <> None -> (32 * length fs <= a_free a)%nat ->
  exists a' evs, a_run interrupted send (CReceive (Some card) <$> fs) a = Some a' /\ a_log a' = a_log a ++ evs /\
    a_files a' !! k = Some (File c (q ++ filter (fun f => listens c f) fs)).
Proof.
  intros Hex Hfs Hc Hi. revert a q Hex. induction Hfs as [|f fs Hp Hfs IH]; intros a q Hex Hk Hr Hph Hfree; cbn [fmap list_fmap a_run].
  { exists a, []. by rewrite !app_nil_r. }
  cbn [length] in Hfree. cbn [a_step].
  destruct (offers_effect card f (seq 0 DMX512_CUSE_CONTEXT_COUNT) a k c q) as (a1 & E1 & Hf1 & Hex1 & [evs1 Hl1] & Hk1); try done.
  { apply NoDup_ListNoDup, seq_NoDup. } { apply Forall_forall. intros i Hin%elem_of_seq. unfold DMX512_CUSE_CONTEXT_COUNT in Hin. lia. }
  { rewrite length_seq. unfold DMX512_CUSE_CONTEXT_COUNT. lia. }
  unfold a_receive. rewrite E1. cbn [mbind option_bind]. rewrite length_seq in Hf1. unfold DMX512_CUSE_CONTEXT_COUNT in Hf1.
  rewrite bool_decide_true, andb_true_r in Hk1 by (split; [done|apply elem_of_seq; unfold DMX512_CUSE_CONTEXT_COUNT; lia]).
  destruct (IH a1 _ Hex1 Hk1 Hr Hph) as (a' & evs & E & Hl & Hk'); [lia|]. exists a', (evs1 ++ evs). split; [done|].
  rewrite Hl, Hl1, <- app_assoc. split; [done|]. rewrite Hk', <- app_assoc. do 3 f_equal. rewrite filter_cons. by destruct (listens c f).
Qed.

Lemma read_all card fh a k c fs reqs :
  dmx512_cuse_context (Some card) fh = Some k -> a_files a !! k = Some (File c fs) -> in_use c = true -> length reqs = length fs ->
  exists a', a_run interrupted send ((fun r => CRead r (Some card) (Some fh)) <$> reqs) a = Some a' /\ a_log a' = a_log a ++ zip_with ReplyFrame reqs fs.
Proof.
  intros Ek Hk Hu Hlen. revert a reqs Hk Hlen. induction fs as [|f fs IH]; intros a reqs Hk Hlen; destruct reqs as [|r reqs]; try done.
  { exists a. cbn. by rewrite app_nil_r. }
  cbn [fmap list_fmap a_run a_step]. unfold a_read, on_file, opened. rewrite Ek. cbn [mbind option_bind]. rewrite Hk. cbn [mbind option_bind a_ctx]. rewrite Hu. cbn [mbind option_bind a_frames].
  match goal with |- context [a_run _ _ _ ?x] => destruct (IH x reqs) as (a' & E & Hl) end.
  { cbn. by rewrite lookup_insert_eq. } { by injection Hlen. }
  exists a'. split; [exact E|]. rewrite Hl. cbn [a_log zip_with]. by rewrite <- app_assoc.
Qed.
Lemma a_run_app cs cs' a a1 : a_run interrupted send cs a = Some a1 -> a_run interrupted send (cs ++ cs') a = a_run interrupted send cs' a1.
Proof.
  revert a. induction cs as [|c cs IH]; intros a Ha; cbn in *; [by injection Ha as <-|]. destruct (a_step interrupted send c a) as [a2|]; [|done]. by apply IH.
Qed.
End frames.

Lemma get_context_run {D} (w : cuse D) k c : u_contexts w !! k = Some c -> get_context k w = Done (c, w).
Proof. intros Hk. unfold get_context, mbind, prog_bind, get_state, live. by rewrite Hk. Qed.
Lemma update_context_run {D} (w : cuse D) k c f : u_contexts w !! k = Some c ->
  update_context k f w = Done (tt, with_u_contexts (<[k := f c]> (u_contexts w)) w).
Proof. intros Hk. unfold update_context. by rewrite (bind_run _ _ _ _ _ (get_context_run _ _ _ Hk)). Qed.

Lemma offer_high {D} interrupted (w : cuse D) card f j c :
  (j < 32)%nat -> u_contexts w !! (card, j) = Some c -> 32 <= f_port f < 64 ->
  if in_use c then offer_frame interrupted (Some card) f j w = Fault ShiftRange
  else exists c' log, offer_frame interrupted (Some card) f j w = Done (tt, with_u_log log (with_u_contexts (<[(card, j) := c']> (u_contexts w)) w)).
Proof.
  intros Hj Hc Hp. assert (forall mask, port_selected mask (f_port f) = Fault ShiftRange) as Hsel.
  { intros mask. unfold port_selected, port_bit. rewrite (proj2 (Z.ltb_lt _ 64)), (proj2 (Z.ltb_ge _ 31)), (proj2 (Z.eqb_neq _ 31)) by lia. done. }
  assert (exists c' log, let w' := with_u_log log (with_u_contexts (<[(card, j) := c']> (u_contexts w)) w) in in_use c' = in_use c /\
    match read_req c with
    | Some r => if interrupted r then say (ReplyErr r EINTR) ;; update_context (card, j) (with_read_req None) else mret tt
    | None => mret tt
    end w = Done (tt, w')) as (c' & log & Hu & E1).
  { assert (exists c' log, let w' := with_u_log log (with_u_contexts (<[(card, j) := c']> (u_contexts w)) w) in in_use c' = in_use c /\ (mret tt : prog (cuse D) unit) w = Done (tt, w')) as Hsame.
    { exists c, (u_log w). split; [done|]. rewrite insert_id by done. by destruct w. }
    destruct (read_req c) as [r|]; [|done]. destruct (interrupted r); [|done]. exists (with_read_req None c), (u_log w ++ [ReplyErr r EINTR]). split; [done|].
    rewrite (bind_run _ _ _ _ _ (eq_refl : say (ReplyErr r EINTR) w = Done (tt, _))). by rewrite (update_context_run _ _ c) by exact Hc. }
  unfold offer_frame. rewrite context_of by done. rewrite (bind_run _ _ _ _ _ (eq_refl : deref (Some (card, j)) w = _)).
  rewrite (bind_run _ _ _ _ _ (get_context_run _ _ _ Hc)). rewrite (bind_run _ _ _ _ _ E1).
  rewrite (bind_run _ _ _ _ _ (get_context_run _ (card, j) c' (lookup_insert_eq _ _ _ : u_contexts (with_u_log _ _) !! _ = _))).
  cbv zeta. rewrite Hu. destruct (in_use c); [|by exists c', log]. unfold mbind at 1, prog_bind at 1, lift_outcome. by rewrite Hsel.
Qed.

(** C22: The frames of a card arrive in their order: an open file that polls
    and has no read waiting gets, behind what was queued already, exactly the
    received frames that its filters select, and as many reads as there are
    then answer with these frames, the oldest first.  The pool must have a
    free frame for each of the 32 contexts and each frame, and the ports are
    below 32. *)
Theorem frames_read_in_order {D} (ops : nat -> option (card_ops D)) interrupted malloc_ok send (I : D -> Prop) (w : cuse D) a card fh k c q fs reqs :
  send_implemented ops send I -> implements w a -> I (u_drv w) -> (forall i, (i < 32)%nat -> is_Some (a_files a !! (card, i))) ->
  dmx512_cuse_context (Some card) fh = Some k -> a_files a !! k = Some (File c q) ->
  in_use c = true -> read_req c = None -> pollhandle c <> None ->
  Forall (fun f => f_port f < 32) fs -> (32 * length fs <= a_free a)%nat ->
  let expected := q ++ filter (fun f => listens c f) fs in
  length reqs = length expected ->
  exists w' evs,
    run ops interrupted malloc_ok ((CReceive (Some card) <$> fs) ++ ((fun r => CRead r (Some card) (Some fh)) <$> reqs)) w = Done (tt, w') /\
    u_log w' = u_log w ++ evs ++ zip_with ReplyFrame reqs expected.
Proof.
  intros Hs Hw HI Hex Ek Hk Hu Hr Hph Hfs Hfree expected Hlen.
  pose proof (context_valid _ _ _ Ek) as (c0 & [= <-] & -> & Hfh).
  destruct (receive_all interrupted send card fs a (card, Z.to_nat (i32 fh)) c q Hex Hfs eq_refl) as (a1 & evs & E1 & Hl1 & Hk1); try done; [cbn; lia|].
  destruct (read_all interrupted send card fh a1 _ c expected reqs Ek Hk1 Hu Hlen) as (a' & E2 & Hl2).
  pose proof (a_run_app interrupted send _ ((fun r => CRead r (Some card) (Some fh)) <$> reqs) _ _ E1) as E. rewrite E2 in E.
  destruct (run_returns ops interrupted malloc_ok send I _ w a a' Hs Hw HI E) as (w' & Erun & _ & [Q' Hr']).
  exists w', evs. split; [exact Erun|]. destruct Hw as [Q Hr0]. by rewrite (rf_log _ _ _ Hr'), (rf_log _ _ _ Hr0), Hl2, Hl1, <- app_assoc.
Qed.

(** Card 0 with one file that polls and listens to port 1. *)
Definition polling : files := default (a_start []) (a_run (fun _ => false) no_driver
  [COpen 1 (Some 0%nat) 0; CIoctl 2 (Some 0%nat) DMX512_IOCTL_SET_PORT_FILTER 0 0 (InWord 2) 0; CPoll 3 (Some 0%nat) 0 (Some 9%nat)] (a_start [0%nat])).
Lemma polling_run : a_run (fun _ => false) no_driver
  [COpen 1 (Some 0%nat) 0; CIoctl 2 (Some 0%nat) DMX512_IOCTL_SET_PORT_FILTER 0 0 (InWord 2) 0; CPoll 3 (Some 0%nat) 0 (Some 9%nat)] (a_start [0%nat]) = Some polling.
Proof. vm_compute. reflexivity. Qed.
Lemma all_contexts a : forallb (fun i => bool_decide (is_Some (a_files a !! (0%nat, i)))) (seq 0 32) = true -> forall i, (i < 32)%nat -> is_Some (a_files a !! (0%nat, i)).
Proof. intros H i Hi. rewrite forallb_forall in H. specialize (H i). rewrite bool_decide_eq_true in H. apply H, in_seq. lia. Qed.
Lemma polling_world : exists w : cuse unit, implements w polling.
Proof.
  destruct (start_returns tt [0%nat]) as (w & _ & _ & Hw).
  destruct (run_returns no_ops (fun _ => false) (fun _ => true) no_driver any _ w _ _ no_driver_implemented Hw Logic.I polling_run) as (w' & _ & _ & Hw').
  by exists w'.
Qed.
Lemma frames_read_in_order_witness : exists w w' evs, implements w polling /\
  run no_ops (fun _ => false) (fun _ => true)
    ((CReceive (Some 0%nat) <$> [frame_on 1 5; frame_on 2 6; frame_on 1 7]) ++ ((fun r => CRead r (Some 0%nat) (Some 0)) <$> [4; 5]%nat)) w = Done (tt, w') /\
  u_log w' = u_log w ++ evs ++ [ReplyFrame 4 (frame_on 1 5); ReplyFrame 5 (frame_on 1 7)].
Proof.
  destruct polling_world as [w Hw]. exists w.
  destruct (frames_read_in_order no_ops (fun _ => false) (fun _ => true) no_driver any w polling 0 0 (0%nat, 0%nat) (Context true false 2 0 None (Some 9%nat)) []
    [frame_on 1 5; frame_on 2 6; frame_on 1 7] [4; 5]%nat no_driver_implemented Hw Logic.I) as (w' & evs & E & Hl);
    [apply all_contexts; by vm_compute|reflexivity|by vm_compute|reflexivity|reflexivity|discriminate|by repeat constructor|
     vm_compute; lia|reflexivity|].
  exists w', evs. split; [exact Hw|]. split; [exact E|exact Hl].
Defined.

(** The filters have 64 bits and the bit of a port is made by a shift of
    an [int]: a frame of a port from 32 to 63 makes every card with an open
    file shift by 32 or more, whatever is selected. *)
Theorem high_ports_shift_out_of_range {D} interrupted (w : cuse D) card f :
  (forall i, (i < 32)%nat -> is_Some (u_contexts w !! (card, i))) ->
  (exists i c, u_contexts w !! (card, i) = Some c /\ in_use c = true /\ (i < 32)%nat) ->
  32 <= f_port f < 64 ->
  dmx512_cuse_handle_received_frame interrupted (Some card) f w = Fault ShiftRange.
Proof.
  intros Hall (i & c & Hi & Hu & Hlt) Hp. unfold dmx512_cuse_handle_received_frame.
  assert (forall js, Forall (fun j => (j < 32)%nat) js -> i ∈ js -> offer_to_contexts interrupted (Some card) f js w = Fault ShiftRange) as H; cycle 1.
  { apply H; [apply Forall_forall; intros j Hj%elem_of_seq|apply elem_of_seq]; unfold DMX512_CUSE_CONTEXT_COUNT in *; lia. }
  intros js Hjs. revert w c Hall Hi Hu. induction Hjs as [|j js Hj Hjs IH]; intros w c Hall Hi Hu Hin; [by apply not_elem_of_nil in Hin|].
  cbn [offer_to_contexts]. destruct (Hall j Hj) as [cj Hcj].
  assert (offer_frame interrupted (Some card) f j w = Fault ShiftRange \/ exists cj' log, in_use cj = false /\
    offer_frame interrupted (Some card) f j w = Done (tt, with_u_log log (with_u_contexts (<[(card, j) := cj']> (u_contexts w)) w))) as [E|(cj' & log & Hcu & E)].
  { pose proof (offer_high interrupted w card f j cj Hj Hcj Hp) as H. destruct (in_use cj); [by left|right]. destruct H as (cj' & log & H). by exists cj', log. }
  - unfold mbind, prog_bind. by rewrite E.
  - unfold mbind, prog_bind. rewrite E. apply elem_of_cons in Hin as [->|Hin]; [congruence|].
    assert (i <> j \/ i = j) as [Hne | ->] by lia; [|congruence].
    apply (IH _ c); [|cbn; by rewrite lookup_insert_ne by congruence|done|done].
    intros i' Hi'. cbn. destruct (decide (i' = j)) as [->|]; [rewrite lookup_insert_eq; by eexists|rewrite lookup_insert_ne by congruence; by apply Hall].
Qed.

Definition polling_contexts : cuse unit := Cuse kmem_init (contexts_of polling) [] tt.
Lemma polling_has_contexts i : (i < 32)%nat -> is_Some (u_contexts polling_contexts !! (0%nat, i)).
Proof.
  intros Hi. change (is_Some ((a_ctx <$> a_files polling) !! (0%nat, i))). rewrite lookup_fmap, fmap_is_Some. revert i Hi. apply all_contexts. by vm_compute.
Qed.
Lemma high_ports_shift_out_of_range_witness :
  dmx512_cuse_handle_received_frame (fun _ => false) (Some 0%nat) (frame_on 40 5) polling_contexts = Fault ShiftRange.
Proof.
  apply high_ports_shift_out_of_range.
  - exact polling_has_contexts.
  - exists 0%nat, (Context true false 2 0 None (Some 9%nat)). split; [vm_compute; reflexivity|]. split; [reflexivity|apply Nat.lt_0_succ].
  - split; [discriminate|reflexivity].
Defined.

(** ** Watchers *)

Lemma find_fd_never fuel fd i t : 0 <= i ->
  match find_fd_from fuel fd i t with
  | Done r => (r = -1 /\ MAX_FD_WATCHERS <= g_num_fdwatchers t) \/ (0 <= r /\ g_num_fdwatchers t < MAX_FD_WATCHERS)
  | Fault _ => True
  end.
Proof.
  revert i. induction fuel as [|fuel IH]; intros i Hi; cbn [find_fd_from]; [done|].
  destruct (Z.ltb_spec (g_num_fdwatchers t) MAX_FD_WATCHERS); [|by left].
  destruct (load (g_fdwatchers t) i) as [w|]; [|done]. cbn [mbind outcome_bind]. destruct (w_fd w =? fd); [by right|]. apply IH. lia.
Qed.
Lemma find_fd_step fuel fd i t : g_num_fdwatchers t < MAX_FD_WATCHERS ->
  find_fd_from (S fuel) fd i t = (w ← load (g_fdwatchers t) i; if w_fd w =? fd then Done i else find_fd_from fuel fd (i + 1) t).
Proof. intros Hn. cbn [find_fd_from]. by rewrite (proj2 (Z.ltb_lt _ _)). Qed.
Lemma find_fd_leaves_the_table t fd :
  length (g_fdwatchers t) = 256%nat -> g_num_fdwatchers t < MAX_FD_WATCHERS -> Forall (fun w => w_fd w <> fd) (g_fdwatchers t) ->
  dmx512_cuse_fdwatcher_find_fd fd t = Fault OutOfBounds.
Proof.
  intros Hlen Hnum Hfd. unfold dmx512_cuse_fdwatcher_find_fd.
  assert (forall n i, (i + n = 256)%nat -> find_fd_from (S n) fd (Z.of_nat i) t = Fault OutOfBounds) as H; [|apply (H 256%nat 0%nat); lia].
  induction n as [|n IH]; intros i Hi; rewrite find_fd_step by done.
  - by rewrite load_beyond by lia.
  - destruct (lookup_lt_is_Some_2 (g_fdwatchers t) i) as [w Hw]; [lia|]. rewrite (load_nat _ _ _ Hw). cbn [mbind outcome_bind].
    rewrite Forall_lookup in Hfd. rewrite (proj2 (Z.eqb_neq _ _)) by by eapply Hfd. replace (Z.of_nat i + 1) with (Z.of_nat (S i)) by lia. apply IH. lia.
Qed.

(** No watcher can ever be added: the search for a file descriptor does
    not stop at the last entry, so for a descriptor that is not in the table
    it reads behind the table, for one that is the call fails, and with a
    full table it fails too.  Whatever the table holds, the call gives an
    error and changes nothing, or does not return. *)
Theorem fdwatcher_add_never_succeeds t w :
  (forall r t', dmx512_cuse_fdwatcher_add w t = Done (r, t') -> r < 0 /\ t' = t) /\
  (length (g_fdwatchers t) = 256%nat -> g_num_fdwatchers t < MAX_FD_WATCHERS -> Forall (fun x => w_fd x <> w_fd w) (g_fdwatchers t) ->
   dmx512_cuse_fdwatcher_add w t = Fault OutOfBounds).
Proof.
  unfold dmx512_cuse_fdwatcher_add. unfold mbind, prog_bind, get_state, lift_outcome, mret, prog_ret, modify.
  split; [|intros; by rewrite find_fd_leaves_the_table].
  intros r t'. unfold dmx512_cuse_fdwatcher_find_fd.
  pose proof (find_fd_never (S (Z.to_nat MAX_FD_WATCHERS)) (w_fd w) 0 t) as H1. pose proof (find_fd_never (S (Z.to_nat MAX_FD_WATCHERS)) (-1) 0 t) as H2.
  destruct (find_fd_from _ (w_fd w) 0 t) as [i|]; [|done]. destruct (Z.eqb_spec i (-1)) as [-> |]; cbn [negb]; [|by intros [= <- <-]].
  destruct (find_fd_from _ (-1) 0 t) as [j|]; [|done]. destruct H1 as [[_ H1]|[H1 _]]; [lia| |lia].
  destruct H2 as [[-> _]|[_ H2]]; [lia| |lia]. cbn. by intros [= <- <-].
Qed.

(** The table as it is when the program starts. *)
Definition no_watchers : fdwatchers := FdWatchers (replicate 256 (FdWatcher 0 None 0)) 0.
Lemma fdwatcher_add_never_succeeds_witness : dmx512_cuse_fdwatcher_add (FdWatcher 3 (Some 1%nat) 0) no_watchers = Fault OutOfBounds.
Proof.
  apply (proj2 (fdwatcher_add_never_succeeds no_watchers (FdWatcher 3 (Some 1%nat) 0))); [reflexivity|reflexivity|].
  apply Forall_replicate. discriminate.
Defined.
