(* ===== verification/CuseInfo.v ===== *)
(** * Names and information of cards

    What the drivers of [CuseDev.v] have in common: strings in arrays, the
    tuples of an info request, and the four info operations that the drivers
    [dmx512_cuse_uart.c], [dmx512_cuse_pwm.c], [dmx512_cuse_llgip.c] and
    [dmx512_cuse_suart.c] have word for word, but for the names. *)
From stdpp Require Import base countable gmap list.
From S2P Require Import Prelude CuseDev.

(** ** Strings *)

(** At most [n] characters up to the end of a string; a string without an end
    leaves its array. *)
Fixpoint c_string (n : nat) (src : list Z) : outcome (list Z) :=
  match n with
  | O => Done []
  | S n =>
      match src with
      | [] => Fault OutOfBounds
      | v :: src => if v =? 0 then Done [] else s ← c_string n src; Done (v :: s)
      end
  end.
Definition strncpy (dst src : list Z) (n : nat) : outcome (list Z) :=
  s ← c_string n src; store_all 0 (s ++ replicate (n - length s) 0) dst.
Definition strcpy (dst lit : list Z) : outcome (list Z) := store_all 0 (lit ++ [0]) dst.

(** ** Tuples *)

Definition DMX4LINUX2_ID_NONE : Z := 0.
Definition DMX4LINUX2_ID_MANUFACTURER : Z := 1.
Definition DMX4LINUX2_ID_PRODUCT : Z := 2.
Definition DMX4LINUX2_ID_SERIAL_NUMBER : Z := 3.
Definition DMX4LINUX2_ID_CUSTOMER_NAME : Z := 4.
Definition DMX4LINUX2_ID_PORT_LABEL : Z := 5.
Definition MAX_NAME_LEN : nat := 256.

Definition NAME_SIZE : nat := 64.
Definition with_key (k : Z) (t : tuple) : tuple := Tuple k (changable t) (maxlength t) (value t).
Definition with_value (v : list Z) (t : tuple) : tuple := Tuple (key t) (changable t) (maxlength t) v.
Definition changeable (t : tuple) : tuple := Tuple (key t) 1 (Z.of_nat NAME_SIZE - 1) (value t).
Definition edit_tuple (i : Z) (f : tuple -> outcome tuple) (ts : list tuple) : outcome (list tuple) :=
  t ← load ts i; t ← f t; store i t ts.
(** [for (i = 0; i < n; ++i)] *)
Fixpoint for_tuples (n : nat) (i : Z) (body : Z -> list tuple -> outcome (list tuple)) (ts : list tuple) : outcome (list tuple) :=
  match n with O => Done ts | S n => ts ← body i ts; for_tuples n (i + 1) body ts end.
(** The keys that the user leaves open. *)
Definition default_key (supported : list Z) (i : Z) : list tuple -> outcome (list tuple) :=
  edit_tuple i (fun t => if key t =? DMX4LINUX2_ID_NONE then k ← load supported i; Done (with_key k t) else Done t).
Definition padded (s : list Z) : list Z := s ++ replicate (NAME_SIZE - length s) 0.

(** ** The info operations *)

(** What a driver has of its own: the product, the number in the
    configuration, how many ports it says it has, which port indexes it
    refuses, whether the index in a change request is compared, and the arrays
    with its names. *)
Record card_names (D : Type) := CardNames {
  n_product : list Z;
  n_cardno : Z;
  n_ports : D -> Z;
  n_refused : D -> Z -> bool;
  n_compares : bool;
  n_name : D -> outcome (list Z);
  n_set_name : list Z -> D -> outcome D;
  n_label : D -> Z -> outcome (list Z);
  n_set_label : D -> Z -> list Z -> outcome D }.
Arguments CardNames {D}. Arguments n_product {D}. Arguments n_cardno {D}. Arguments n_ports {D}. Arguments n_refused {D}.
Arguments n_compares {D}. Arguments n_name {D}. Arguments n_set_name {D}. Arguments n_label {D}. Arguments n_set_label {D}.

Definition card_tuples : list Z := [DMX4LINUX2_ID_MANUFACTURER; DMX4LINUX2_ID_PRODUCT; DMX4LINUX2_ID_SERIAL_NUMBER].
Definition port_tuples : list Z := [DMX4LINUX2_ID_PORT_LABEL].
(** "LLG", the product, "????????" *)
Definition card_text (product : list Z) (t : tuple) : outcome tuple :=
  let set v := (s ← v; Done (with_value s t)) in
  if key t =? DMX4LINUX2_ID_MANUFACTURER then set (strcpy (value t) [76; 76; 71])
  else if key t =? DMX4LINUX2_ID_PRODUCT then set (strcpy (value t) product)
  else if key t =? DMX4LINUX2_ID_SERIAL_NUMBER then set (strcpy (value t) (replicate 8 63))
  else set (strcpy (value t) []).
(** A label cannot be changed, says the tuple. *)
Definition label_value (label : outcome (list Z)) (t : tuple) : outcome tuple :=
  if key t =? DMX4LINUX2_ID_PORT_LABEL then
    l ← label; v ← strncpy (value t) l MAX_NAME_LEN; Done (Tuple (key t) 0 (Z.of_nat NAME_SIZE - 1) v)
  else Done (with_key DMX4LINUX2_ID_NONE t).

Section operations.
Context {D : Type} (names : card_names D).

Definition query_card (c : nat) : info_op D := fun ci ts =>
  d ← gets u_drv;
  let n := tuple_count ci in
  match ts with
  | Some ts =>
      ts ← lift_outcome (for_tuples (Z.to_nat n) 0 (default_key card_tuples) ts);
      ts ← lift_outcome (for_tuples (Z.to_nat (n `min` 3)) 0 (fun i => edit_tuple i (card_text (n_product names))) ts);
      mret (0, Info (n_cardno names) (n_ports names d) n (tuples ci), Some ts)
  | None => mret (0, Info (n_cardno names) (n_ports names d) (Z.of_nat (length card_tuples)) (tuples ci), None)
  end.

(** The tuples of a change request that have the key [k]. *)
Fixpoint change_tuples (n : nat) (i : Z) (ts : list tuple) (k : Z) (copy : list Z -> D -> outcome D) (d : D) : outcome D :=
  match n with
  | O => Done d
  | S n =>
      t ← load ts i;
      d ← (if key t =? k then copy (value t) d else Done d);
      change_tuples n (i + 1) ts k copy d
  end.
Definition set_name (v : list Z) (d : D) : outcome D := l ← n_name names d; s ← strncpy l v NAME_SIZE; n_set_name names s d.
Definition set_label (port : Z) (v : list Z) (d : D) : outcome D :=
  l ← n_label names d port; s ← strncpy l v NAME_SIZE; n_set_label names d port s.
Definition change_all (i : info) (ts : option (list tuple)) (k : Z) (copy : list Z -> D -> outcome D) : prog (cuse D) unit :=
  match ts with
  | Some l =>
      when (0 <? tuple_count i)
        (d ← gets u_drv; d ← lift_outcome (change_tuples (Z.to_nat (tuple_count i)) 0 l k copy d); modify (with_u_drv d))
  | None => mret tt
  end.
Definition change_card (c : nat) : info_op D := fun ci ts =>
  if negb (card_index ci =? n_cardno names) then mret (-1, ci, ts)
  else change_all ci ts DMX4LINUX2_ID_CUSTOMER_NAME set_name ;; mret (0, ci, ts).

Definition query_port (c : nat) (port : Z) : info_op D := fun pi ts =>
  d ← gets u_drv;
  if n_refused names d port then mret (-1, pi, ts) else
  let n := tuple_count pi in
  let out m := Info (n_cardno names) port m (tuples pi) in
  match ts with
  | Some l =>
      if 0 <? n then
        l ← lift_outcome (for_tuples (Z.to_nat (n `min` 1)) 0 (default_key port_tuples) l);
        l ← lift_outcome (for_tuples (Z.to_nat n) 0 (fun i => edit_tuple i (label_value (n_label names d port))) l);
        mret (0, out n, Some l)
      else mret (0, out (Z.of_nat (length port_tuples)), ts)
  | None => mret (0, out (Z.of_nat (length port_tuples)), ts)
  end.
Definition change_port (c : nat) (port : Z) : info_op D := fun pi ts =>
  d ← gets u_drv;
  if n_refused names d port then mret (-1, pi, ts)
  else if negb (card_index pi =? n_cardno names) then mret (-1, pi, ts)
  else if n_compares names && negb (port_number pi =? port) then mret (-1, pi, ts)
  else change_all pi ts DMX4LINUX2_ID_PORT_LABEL (set_label port) ;; mret (0, pi, ts).
End operations.

(** ** Lemmas on names *)

Definition no_zero (s : list Z) : Prop := Forall (fun v => v <> 0) s.
Lemma c_string_end n s r : no_zero s -> (length s < n)%nat -> c_string n (s ++ 0 :: r) = Done s.
Proof.
  intros Hs. revert n. induction Hs as [|v s Hv Hs IH]; intros [|n] Hn; cbn in Hn; try lia; [done|]. cbn.
  rewrite (proj2 (Z.eqb_neq _ _)) by done. by rewrite IH by lia.
Qed.
Lemma c_string_long n s r : no_zero s -> length s = n -> c_string n (s ++ r) = Done s.
Proof.
  intros Hs <-. induction Hs as [|v s Hv Hs IH]; [done|]. cbn. rewrite (proj2 (Z.eqb_neq _ _)) by done. by rewrite IH.
Qed.
Lemma c_string_open n s : no_zero s -> (length s < n)%nat -> c_string n s = Fault OutOfBounds.
Proof.
  intros Hs. revert n. induction Hs as [|v s Hv Hs IH]; intros [|n] Hn; cbn in Hn; try lia; [done|]. cbn.
  rewrite (proj2 (Z.eqb_neq _ _)) by done. by rewrite IH by lia.
Qed.
Lemma store_all_over (vs l : list Z) : length vs = length l -> store_all 0 vs l = Done vs.
Proof.
  intros Hlen. pose proof (store_all_nat l 0 vs) as H. change (Z.of_nat 0) with 0 in H. rewrite H by lia. cbn. rewrite drop_ge by lia. by rewrite app_nil_r.
Qed.

Lemma edit_one f t : edit_tuple 0 f [t] = (t' ← f t; Done [t']).
Proof. unfold edit_tuple, load, store. change ([t] !! Z.to_nat 0) with (Some t). cbn. by destruct (f t). Qed.
Lemma for_one body ts : for_tuples 1 0 body ts = body 0 ts.
Proof. cbn. by destruct (body 0 ts). Qed.

(** A name of a user: it ends somewhere in its array of 256 octets. *)
Definition named (s r : list Z) : list Z := s ++ 0 :: r.
Lemma strncpy_short dst s r n : no_zero s -> (length s < n)%nat -> length dst = n -> strncpy dst (named s r) n = Done (s ++ replicate (n - length s) 0).
Proof.
  intros Hs Hn Hd. unfold strncpy, named. rewrite c_string_end by done. cbn [mbind outcome_bind]. apply store_all_over. rewrite length_app, length_replicate. lia.
Qed.
Lemma strncpy_long dst s r n : no_zero s -> (n <= length s)%nat -> length dst = n -> strncpy dst (named s r) n = Done (take n s).
Proof.
  intros Hs Hn Hd. unfold strncpy, named. rewrite <- (take_drop n s), <- app_assoc at 1.
  rewrite c_string_long; [|by apply Forall_take|rewrite length_take; lia]. cbn [mbind outcome_bind]. rewrite length_take, Nat.min_l, Nat.sub_diag, app_nil_r by lia.
  apply store_all_over. rewrite length_take. lia.
Qed.
