(* ===== verification/CuseDrivers.v ===== *)
(** * What a driver of a character device can rely on

    Lemmas on [CuseDev.v] that the drivers in user space share: a frame that is
    written to a file reaches the driver, and a frame that the driver hands
    up is offered to the files without a fault. *)
From stdpp Require Import base countable gmap list.
From S2P Require Import Prelude KList FrameQueue DmxCore CuseDev CuseContract CuseProperties.

Lemma implements_drv {D} (d : D) (w : cuse D) a : implements w a -> implements (with_u_drv d w) a.
Proof. intros [Q []]. exists Q. by split. Qed.
(** The files are the same whatever the state of the driver is. *)
Lemma implements_any {D D'} (w : cuse D) a (d : D') : implements w a -> implements (Cuse (u_mem w) (u_contexts w) (u_log w) d) a.
Proof. intros [Q []]. exists Q. by split. Qed.
(** An offer to files of which nothing is known. *)
Lemma offers_safe interrupted card f js a :
  Forall (fun i => (i < 32)%nat) js -> (forall i, (i < 32)%nat -> is_Some (a_files a !! (card, i))) -> f_port f < 32 ->
  exists a', a_offers interrupted (Some card) f js a = Some a' /\ forall i, (i < 32)%nat -> is_Some (a_files a' !! (card, i)).
Proof.
  intros Hjs Hex Hp. revert a Hex. induction Hjs as [|i js Hi Hjs IH]; intros a Hex; cbn [a_offers]; [by exists a|].
  destruct (offer_effect interrupted card f i a Hi (Hex i Hi) Hp) as (a1 & E1 & _ & Hother & Hsome & _ & _). rewrite E1. cbn [mbind option_bind].
  apply IH. intros i' Hi'. destruct (decide (i' = i)) as [->|]; [done|]. rewrite Hother by congruence. by apply Hex.
Qed.
Lemma all_contexts_low : Forall (fun i => (i < 32)%nat) (seq 0 DMX512_CUSE_CONTEXT_COUNT).
Proof. apply Forall_forall. intros i Hi%elem_of_seq. unfold DMX512_CUSE_CONTEXT_COUNT in Hi. lia. Qed.

(** The frame as the driver gets it: marked as one to be sent. *)
Definition to_send (f : dmx512frame) : dmx512frame := with_flags (Z.lor (f_flags f) DMX512_FLAGS_IS_TRANSMIT_FRAME) f.

(** A write: the driver gets the frame, the files are offered it and the
    writer is told that all of it was written. *)
Lemma write_reaches_driver {D} (ops : nat -> option (card_ops D)) interrupted malloc_ok (w : cuse D) a req c fh k f size (send : nat -> dmx512frame -> prog (cuse D) unit) d :
  implements w a -> (forall j, (j < 32)%nat -> is_Some (a_files a !! (c, j))) -> opened (Some c) fh a = Some k -> SIZEOF_FRAME <= size ->
  f_port f < 32 -> ops c ≫= sendFrame = Some send -> send c (to_send f) w = Done (tt, with_u_drv d w) ->
  exists w' a' log, handle ops interrupted malloc_ok (CWrite req (Some c) f size (Some fh)) w = Done (tt, w') /\
    implements w' a' /\ u_log w' = log ++ [ReplyWrite req size] /\ u_drv w' = d.
Proof.
  intros Hw Hex Ho Hsize Hlow Hops Hsend.
  destruct (offers_safe interrupted c (to_send f) (seq 0 DMX512_CUSE_CONTEXT_COUNT) a) as (a' & Ea & _); [apply all_contexts_low|done|done|].
  pose proof (receive_refines interrupted (Some c) (to_send f) _ a a' (implements_drv d w a Hw) Ea) as Hrec.
  apply wp_run in Hrec as ([] & w2 & E2 & Hd2 & Hw2).
  exists (with_u_log (u_log w2 ++ [ReplyWrite req size]) w2), (a_say (ReplyWrite req size) a'), (u_log w2). split_and!; [|by apply implements_say|done..].
  unfold opened in Ho. cbn [handle]. unfold dmx512_cuse_write. destruct (dmx512_cuse_context (Some c) fh); [|done].
  rewrite (proj2 (Z.ltb_ge _ _)) by lia. fold (to_send f). unfold dmx512_cuse_send_frame. rewrite Hops.
  rewrite (bind_run _ _ _ _ _ Hsend). by rewrite (bind_run _ _ _ _ _ E2).
Qed.

(** A file that polls, with frames in its queue, and enough free frames for
    [n] more to arrive. *)
Record polled (c : nat) (fk : ctx_id) (fc : context) (q : list dmx512frame) (n : nat) (a : files) : Prop := Polled {
  polled_all : forall j, (j < 32)%nat -> is_Some (a_files a !! (c, j));
  polled_card : fk.1 = c;
  polled_index : (fk.2 < 32)%nat;
  polled_queue : a_files a !! fk = Some (File fc q);
  polled_no_read : read_req fc = None;
  polled_handle : pollhandle fc <> None;
  polled_free : (32 * n <= a_free a)%nat }.

(** A frame that the driver hands up. *)
Lemma wp_hand_up {D} interrupted c f (w : cuse D) a fk fc q n : implements w a -> f_port f < 32 -> polled c fk fc q (S n) a ->
  wp (dmx512_cuse_handle_received_frame interrupted (Some c) f)
    (fun _ w' => u_drv w' = u_drv w /\ exists a', implements w' a' /\ polled c fk fc (q ++ filter (fun f => listens fc f) [f]) n a') w.
Proof.
  intros Hw Hp [Hex Hc Hi Hk Hr Hph Hfree].
  destruct (offers_effect interrupted c f (seq 0 DMX512_CUSE_CONTEXT_COUNT) a fk fc q) as (a' & E & Hf & Hex' & _ & Hk'); try done;
    [apply NoDup_ListNoDup, seq_NoDup|apply all_contexts_low|rewrite length_seq; unfold DMX512_CUSE_CONTEXT_COUNT; lia|].
  eapply wp_mono; [by eapply receive_refines|]. cbn beta. intros _ w' [Hd Hw']. split; [done|]. exists a'. split; [done|].
  rewrite length_seq in Hf. unfold DMX512_CUSE_CONTEXT_COUNT in *. split; try done; [|lia].
  rewrite Hk', bool_decide_true, andb_true_r by (split; [done|apply elem_of_seq; lia]). rewrite filter_cons, filter_nil. by destruct (listens fc f).
Qed.
