(* ===== verification/Uio.v ===== *)
(** * Devices in user space: uio.c and uio_dmxcontroller.h

    [src/uio/uio.c] opens a device of the UIO framework and maps its registers
    into the process; [src/cuse-drivers/uio_dmxcontroller.h] has the registers
    of the DMX controller on top of it.  The hardware is the class [Device];
    memory is an instance.  The calls of the operating system that are not
    accesses to the registers are recorded. *)
From stdpp Require Import base countable list.
From S2P Require Import Prelude MappedBus.

(** ** The device behind a mapping *)

(** An access of so many octets at an offset. *)
Class Device (H : Type) := {
  dev_read : nat -> Z -> prog H Z;
  dev_write : nat -> Z -> Z -> prog H unit }.
#[export] Instance memory_device : Device mapped := {| dev_read := read_mem; dev_write := write_mem |}.

(** What the operating system is asked for. *)
Inductive os_call :=
  | Open
  | Mmap (size fd : Z) (ok : bool)
  | Munmap (size : Z)
  | Close (fd : Z)
  | ReadInfo (fd : Z)
  | WriteInfo (fd v : Z).

(** [struct uio_handle]; what [mem] points to is the device. *)
Record uio_handle (H : Type) := Handle { h_mem : H; h_size : Z; h_fd : Z }.
Arguments Handle {H}. Arguments h_mem {H}. Arguments h_size {H}. Arguments h_fd {H}.

Section uio.
(** [sizeof(unsigned long)] *)
Context {H : Type} `{Device H} (sz : nat).
(** The functions are given a pointer to a handle, which may be null. *)
Abbreviation handle := (option (uio_handle H)).

(** [if (h)], and the value without a handle. *)
Definition at_handle {A} (null : A) (m : prog H A) : prog handle A := fun h =>
  match h with
  | Some h => '(a, d) ← m (h_mem h); Done (a, Some (Handle d (h_size h) (h_fd h)))
  | None => Done (null, None)
  end.
(** The element [i] of the registers as an array of integers of [n] octets. *)
Definition peek_at (n : nat) (i : Z) : prog handle Z := at_handle 0 (dev_read n (Z.of_nat n * i)).
Definition poke_at (n : nat) (i v : Z) : prog handle unit := at_handle tt (dev_write n (Z.of_nat n * i) v).
Definition uio_poke (address v : Z) : prog handle unit := poke_at sz (address / 4) v.
Definition uio_poke16 (address v : Z) : prog handle unit := poke_at 2 (address / 2) (u16 v).
Definition uio_poke8 (address v : Z) : prog handle unit := poke_at 1 address (u8 v).
Definition uio_peek (address : Z) : prog handle Z := peek_at sz (address / 4).
Definition uio_peek16 (address : Z) : prog handle Z := peek_at 2 (address / 2).
Definition uio_peek8 (address : Z) : prog handle Z := peek_at 1 address.

(** The descriptor that [open] gives, what [mmap] maps ([None]: it fails), and
    whether there is memory for the handle. *)
Definition uio_open (fd : Z) (mapping : option H) (malloc_ok : bool) (size : Z) : handle * list os_call :=
  if fd <? 0 then (None, [Open]) else
  match mapping with
  | None => (None, [Open; Mmap size fd false; Close fd])
  | Some mem =>
      if malloc_ok then (Some (Handle mem size fd), [Open; Mmap size fd true])
      else (None, [Open; Mmap size fd true; Munmap size; Close fd])
  end.
(** What a handle maps is never null. *)
Definition uio_close (h : handle) : list os_call :=
  match h with
  | Some h => Munmap (h_size h) :: if 0 <=? h_fd h then [Close (h_fd h)] else []
  | None => []
  end.

(** An [info] has the size of a [long]: what [read] gives is its result and
    what it read. *)
Definition read_info (h : handle) (got : Z * Z) : outcome (Z * list os_call) :=
  match h with
  | Some h => Done (if got.1 =? Z.of_nat sz then got.2 else -1, [ReadInfo (h_fd h)])
  | None => Fault NullPointer
  end.
Definition uio_wait_for_interrupt (h : handle) (got : Z * Z) : outcome (Z * list os_call) := read_info h got.
(** [select] gives [ret] and whether the descriptor is set. *)
Definition uio_wait_for_interrupt_timeout (h : handle) (ret : Z) (isset : bool) (got : Z * Z) : outcome (Z * list os_call) :=
  match h with
  | None => Fault NullPointer
  | Some _ =>
      if ret =? 0 then Done (-1, [])
      else if ret <? 0 then Done (ret, [])
      else if negb isset then Done (-1, [])
      else read_info h got
  end.
Definition write_enable (h : handle) (v : Z) : outcome (list os_call) :=
  match h with Some h => Done [WriteInfo (h_fd h) v] | None => Fault NullPointer end.
Definition uio_enable_interrupt (h : handle) : outcome (list os_call) := write_enable h 1.
Definition uio_disable_interrupt (h : handle) : outcome (list os_call) := write_enable h 0.

(** ** The DMX controller: uio_dmxcontroller.h *)

Definition DMX_IPCOREIDENT_REGNO : Z := 0.
Definition DMX_IPCOREIDENT_MAGIC : Z := 0x444D5801.
Definition DMX_IPCORE_CONFIG_REGNO : Z := 1.
Definition DMX_IPCORE_CONFIG_PORTCOUNT (x : Z) : Z := Z.land x 63.
Definition DMX_IRQ_STATUS_REGNO : Z := 2.
Definition DMX_IRQ_ENABLE_REGNO : Z := 3.
Definition DMX_FIFODATA_REGNO : Z := 0.
Definition DMX_PORTCONFIG_REGNO : Z := 1.
Definition DMX_STATUS_REGNO : Z := 2.
Definition DMX_FIFOCONFIG_REGNO : Z := 3.
Definition DMX_RXFIFO_BREAK (s : Z) : Z := Z.land (Z.shiftr s 8) 1.
Definition DMX_RXFIFO_DATA (s : Z) : Z := Z.land s 0xff.
Definition DMX_STATUS_TXFIFOEMPTY (s : Z) : Z := Z.land (Z.shiftr s 28) 1.
Definition DMX_STATUS_RXFIFOEMPTY (s : Z) : Z := Z.land (Z.shiftr s 24) 1.
Definition DMX_STATUS_TXFIFO_LEVEL (s : Z) : Z := Z.land (Z.shiftr s 12) 0xFFF.

Definition write_dmx_reg (regno v : Z) : prog handle unit := uio_poke (4 * regno) v.
Definition read_dmx_reg (regno : Z) : prog handle Z := uio_peek (4 * regno).
Definition dmx_portregister_offset (portno regno : Z) : Z := 4 * (4 * (1 + portno) + regno).
Definition write_dmx_port_reg (portno regno v : Z) : prog handle unit := uio_poke (dmx_portregister_offset portno regno) v.
Definition read_dmx_port_reg (portno regno : Z) : prog handle Z := uio_peek (dmx_portregister_offset portno regno).
Definition write_fifo (portno v : Z) : prog handle unit := write_dmx_port_reg portno DMX_FIFODATA_REGNO v.
Definition read_fifo (portno : Z) : prog handle Z := read_dmx_port_reg portno DMX_FIFODATA_REGNO.
Definition read_fifo_status (portno : Z) : prog handle Z := read_dmx_port_reg portno DMX_STATUS_REGNO.
Definition read_port_config (portno : Z) : prog handle Z := read_dmx_port_reg portno DMX_PORTCONFIG_REGNO.
Definition write_port_config (portno v : Z) : prog handle unit := write_dmx_port_reg portno DMX_PORTCONFIG_REGNO v.
Definition read_fifo_config (portno : Z) : prog handle Z := read_dmx_port_reg portno DMX_FIFOCONFIG_REGNO.
Definition write_fifo_config (portno v : Z) : prog handle unit := write_dmx_port_reg portno DMX_FIFOCONFIG_REGNO v.
Definition is_dmx1_ipcore : prog handle Z :=
  ident ← read_dmx_reg DMX_IPCOREIDENT_REGNO; mret (if negb (ident =? DMX_IPCOREIDENT_MAGIC) then 0 else 1).
Definition dmx1_port_count : prog handle Z :=
  v ← read_dmx_reg DMX_IPCORE_CONFIG_REGNO; mret (DMX_IPCORE_CONFIG_PORTCOUNT v).
Definition dmx_write_global_irqenable (v : Z) : prog handle unit := write_dmx_reg DMX_IRQ_ENABLE_REGNO v.
Definition dmx_read_global_irqenable : prog handle Z := read_dmx_reg DMX_IRQ_ENABLE_REGNO.
Definition dmx_read_global_irqstatus : prog handle Z := read_dmx_reg DMX_IRQ_STATUS_REGNO.
End uio.

(** ** Properties *)

(** What is open after the calls: the descriptors and the mappings. *)
Fixpoint balance (fd : Z) (l : list os_call) : Z * Z :=
  match l with
  | [] => (0, 0)
  | Open :: l => (b2z (0 <=? fd) + (balance fd l).1, (balance fd l).2)
  | Mmap _ _ ok :: l => ((balance fd l).1, b2z ok + (balance fd l).2)
  | Munmap _ :: l => ((balance fd l).1, -1 + (balance fd l).2)
  | Close _ :: l => (-1 + (balance fd l).1, (balance fd l).2)
  | _ :: l => balance fd l
  end.

(** [uio_open] gives a handle if it can; whatever fails, the descriptor and the
    mapping are given back, and [uio_close] gives back those of the handle. *)
Theorem open_leaks_nothing {H} fd (mapping : option H) malloc_ok size :
  (is_Some (uio_open fd mapping malloc_ok size).1 <-> 0 <= fd /\ is_Some mapping /\ malloc_ok = true) /\
  balance fd ((uio_open fd mapping malloc_ok size).2 ++ uio_close (uio_open fd mapping malloc_ok size).1) = (0, 0).
Proof.
  unfold uio_open, uio_close, is_Some. destruct (Z.ltb_spec fd 0) as [Hfd|Hfd]; cbn.
  - rewrite (proj2 (Z.leb_gt _ _)) by done. split; [naive_solver lia|done].
  - destruct mapping, malloc_ok; cbn; rewrite (proj2 (Z.leb_le _ _)) by done; (split; [naive_solver|done]).
Qed.

(** The register at an address that is a multiple of four is the word of that
    number, as [uio32_bus.c] has it. *)
Lemma poke_word {H} `{Device H} sz (n v : Z) : uio_poke sz (4 * n) v = poke_at sz n v.
Proof. unfold uio_poke. by rewrite Z.mul_comm, Z.div_mul. Qed.
Lemma peek_word {H} `{Device H} sz (n : Z) : uio_peek sz (4 * n) = peek_at sz n.
Proof. unfold uio_peek. by rewrite Z.mul_comm, Z.div_mul. Qed.
Lemma poke_run {H} `{Device H} sz (n v : Z) (d d' : H) size fd :
  dev_write sz (Z.of_nat sz * n) v d = Done (tt, d') -> poke_at sz n v (Some (Handle d size fd)) = Done (tt, Some (Handle d' size fd)).
Proof. intros E. unfold poke_at, at_handle. cbn [h_mem h_size h_fd]. by rewrite E. Qed.
Lemma peek_run {H} `{Device H} sz (n v : Z) (d d' : H) size fd :
  dev_read sz (Z.of_nat sz * n) d = Done (v, d') -> peek_at sz n (Some (Handle d size fd)) = Done (v, Some (Handle d' size fd)).
Proof. intros E. unfold peek_at, at_handle. cbn [h_mem h_size h_fd]. by rewrite E. Qed.
(** The registers of the ports are apart from each other and from those of the
    controller. *)
Lemma port_registers_apart (p q r s : Z) : 0 <= p -> 0 <= q -> 0 <= r < 4 -> 0 <= s < 4 ->
  dmx_portregister_offset p r = dmx_portregister_offset q s -> p = q /\ r = s.
Proof. unfold dmx_portregister_offset. lia. Qed.
