(* ===== verification/CusePwm.v ===== *)
(** * The CUSE driver for a PWM controller: dmx512_cuse_pwm.c

    [src/cuse-drivers/dmx512_cuse_pwm.c]: a card of [CuseDev.v] with one port;
    the slots of a frame are written to the registers of a UIO device, one
    for each channel. *)
From stdpp Require Import base countable gmap list.
From S2P Require Import Prelude KList FrameQueue DmxCore CuseDev CuseContract CuseProperties CuseInfo CuseDrivers MappedBus Uio.

(** ** State *)

(** The handle of the device: null, of a device that was closed, or open; and
    the calls of the operating system. *)
Record pwmdmx_card (H : Type) := PwmCard {
  pwm_customer_name : list Z;
  pwm_port_label : list Z;
  pwm_uio : option (option (uio_handle H));
  pwm_calls : list os_call }.
Arguments PwmCard {H}. Arguments pwm_customer_name {H}. Arguments pwm_port_label {H}. Arguments pwm_uio {H}. Arguments pwm_calls {H}.

Section driver.
(** [sizeof(unsigned long)], the number of the card, and what the operating
    system gives when the device is opened. *)
Context {H : Type} `{Device H} (sz : nat) (cardno : Z) (fd : Z) (mapping : option H) (malloc_ok : bool).
Abbreviation card := (pwmdmx_card H).
Abbreviation W := (cuse card).
Implicit Types u : card.

Definition with_pwm_uio (h : option (option (uio_handle H))) (l : list os_call) u : card :=
  PwmCard (pwm_customer_name u) (pwm_port_label u) h (pwm_calls u ++ l).
Definition put_pwm u : prog W unit := modify (with_u_drv u).
(** A function that is called with [user->uio]. *)
Definition on_uio {A} (m : prog (option (uio_handle H)) A) : prog W A :=
  u ← gets u_drv;
  match pwm_uio u with
  | None => '(a, _) ← lift_outcome (m None); mret a
  | Some None => raise Dangling
  | Some h => '(a, h) ← lift_outcome (m h); put_pwm (with_pwm_uio (Some h) [] u) ;; mret a
  end.

(** ** Info requests *)

Definition pwm_names : card_names card := {|
  n_product := [80; 87; 77];
  n_cardno := cardno;
  n_ports _ := 1;
  n_refused _ port := 1 <=? port;
  n_compares := true;
  n_name u := Done (pwm_customer_name u);
  n_set_name v u := Done (PwmCard v (pwm_port_label u) (pwm_uio u) (pwm_calls u));
  n_label u _ := Done (pwm_port_label u);
  n_set_label u _ v := Done (PwmCard (pwm_customer_name u) v (pwm_uio u) (pwm_calls u)) |}.
Definition pwmdmx_queryCardInfo : nat -> info_op card := query_card pwm_names.
Definition pwmdmx_changeCardInfo : nat -> info_op card := change_card pwm_names.
Definition pwmdmx_queryPortInfo : nat -> Z -> info_op card := query_port pwm_names.
Definition pwmdmx_changePortInfo : nat -> Z -> info_op card := change_port pwm_names.

(** ** Frames *)

Definition pwmdmx_init (c : nat) : prog W unit :=
  u ← gets u_drv;
  let '(h, l) := uio_open fd mapping malloc_ok 0x1000 in
  put_pwm (with_pwm_uio (Some <$> h) l u).
(** The pointer stays. *)
Definition pwmdmx_cleanup (c : nat) : prog W unit :=
  u ← gets u_drv;
  match pwm_uio u with
  | None => mret tt
  | Some None => raise Dangling
  | Some h => put_pwm (with_pwm_uio (Some None) (uio_close h) u)
  end.
(** [for (; i < n; ++i)] *)
Fixpoint poke_slots (n : nat) (i : Z) (data : list Z) : prog (option (uio_handle H)) unit :=
  match n with
  | O => mret tt
  | S n => v ← lift_outcome (load data (i + 1)); uio_poke sz (i * 4) v ;; poke_slots n (i + 1) data
  end.
Definition pwmdmx_sendFrame (c : nat) (f : dmx512frame) : prog W unit :=
  u ← gets u_drv;
  match pwm_uio u with
  | None => mret tt
  | Some _ =>
      when ((f_port f =? 0) && (0 <? f_payload_size f))
        (startcode ← lift_outcome (load (f_data f) 0);
         when (startcode =? 0) (on_uio (poke_slots (Z.to_nat (512 `min` (f_payload_size f - 1))) 0 (f_data f))))
  end.
Definition pwmdmx_ops : card_ops card :=
  CardOps (Some pwmdmx_queryCardInfo) (Some pwmdmx_changeCardInfo) (Some pwmdmx_queryPortInfo) (Some pwmdmx_changePortInfo)
    (Some pwmdmx_init) (Some pwmdmx_cleanup) (Some pwmdmx_sendFrame).
Definition pwm_ops (c : nat) : option (card_ops card) := Some pwmdmx_ops.
End driver.

(** What [main] starts with: the card has no device yet, and no more than one
    digit in its label here. *)
Definition new_pwm_card {H} : pwmdmx_card H :=
  PwmCard (padded [99; 117; 115; 116; 111; 109; 101; 114; 32; 108; 97; 98; 101; 108]) (padded [80; 87; 77; 48]) None [].

(** ** Registers in memory *)

Section registers.
Context (sz : nat).
(** The register [i] of a device that is memory. *)
Definition word (i : nat) (m : list Z) : list Z := take sz (drop (sz * i) m).
Definition in_memory (i : nat) (m : list Z) : Prop := (sz * i + sz <= length m)%nat.

Lemma length_word i m : in_memory i m -> length (word i m) = sz.
Proof. unfold in_memory, word. intros. rewrite length_take, length_drop. lia. Qed.
Lemma poke_memory b (i : nat) v size fd : in_memory i (octets b) -> exists b',
  poke_at sz (Z.of_nat i) v (Some (Handle b size fd)) = Done (tt, Some (Handle b' size fd)) /\
  length (octets b') = length (octets b) /\ word i (octets b') = octets_of sz v /\
  forall j, j <> i -> in_memory j (octets b) -> word j (octets b') = word j (octets b).
Proof.
  intros Hi. unfold in_memory in *. eexists. split.
  { apply poke_run. cbn [dev_write memory_device]. replace (Z.of_nat sz * Z.of_nat i) with (Z.of_nat (sz * i)) by lia. by apply write_mem_at. }
  cbn [octets]. split_and!.
  - rewrite !length_app, length_take, length_octets_of, length_drop. lia.
  - unfold word. rewrite drop_app_length' by (rewrite length_take; lia). by rewrite take_app_length' by (by rewrite length_octets_of).
  - intros j Hj Hb. unfold word. apply list_eq. intros k. destruct (decide (k < sz)%nat) as [Hk|]; [|by rewrite !lookup_take_ge by lia].
    rewrite !lookup_take_lt, !lookup_drop by done. assert (sz * j + sz <= sz * i \/ sz * i + sz <= sz * j)%nat as [|] by nia.
    + rewrite lookup_app_l by (rewrite length_take; lia). by rewrite lookup_take_lt by lia.
    + rewrite lookup_app_r, length_take by (rewrite length_take; lia). rewrite lookup_app_r, length_octets_of by (rewrite length_octets_of; lia).
      rewrite lookup_drop. f_equal. lia.
Qed.
Lemma peek_memory b (i : nat) size fd : in_memory i (octets b) ->
  peek_at sz (Z.of_nat i) (Some (Handle b size fd)) = Done (of_octets (word i (octets b)), Some (Handle b size fd)).
Proof.
  intros Hi. apply peek_run. cbn [dev_read memory_device]. replace (Z.of_nat sz * Z.of_nat i) with (Z.of_nat (sz * i)) by lia.
  by rewrite read_mem_at.
Qed.

(** The loop of the driver. *)
Lemma poke_slots_run n (i : nat) data b size fd : (i + n < length data)%nat -> (sz * (i + n) <= length (octets b))%nat -> exists b',
  poke_slots sz n (Z.of_nat i) data (Some (Handle b size fd)) = Done (tt, Some (Handle b' size fd)) /\
  length (octets b') = length (octets b) /\
  (forall j v, (i <= j < i + n)%nat -> data !! S j = Some v -> word j (octets b') = octets_of sz v) /\
  (forall j, ~ (i <= j < i + n)%nat -> in_memory j (octets b) -> word j (octets b') = word j (octets b)).
Proof.
  revert i b. induction n as [|n IH]; intros i b Hd Hm; cbn [poke_slots].
  { exists b. split_and!; [done|done|lia|done]. }
  destruct (lookup_lt_is_Some_2 data (S i)) as [v Hv]; [lia|].
  destruct (poke_memory b i v size fd) as (b1 & E1 & Hl1 & Hi1 & Ho1); [unfold in_memory; lia|].
  destruct (IH (S i) b1) as (b2 & E2 & Hl2 & Hi2 & Ho2); [lia|rewrite Hl1; lia|].
  exists b2. split_and!; [|congruence|..].
  - replace (Z.of_nat i + 1) with (Z.of_nat (S i)) by lia. unfold mbind at 1, prog_bind at 1, lift_outcome. rewrite (load_nat _ _ v Hv).
    rewrite (Z.mul_comm _ 4), poke_word. by rewrite (bind_run _ _ _ _ _ E1).
  - intros j w Hj Hw. destruct (decide (j = i)) as [->|]; [|apply Hi2; [lia|done]].
    rewrite Ho2; [congruence|lia|unfold in_memory; rewrite Hl1; lia].
  - intros j Hj Hb. rewrite Ho2, Ho1; [done|lia|done|lia|unfold in_memory in *; by rewrite Hl1].
Qed.
End registers.

(** ** Properties *)

Section sending.
Context (sz : nat) (cardno : Z) (fd : Z) (mapping : option mapped) (ok : bool).
Abbreviation W := (cuse (pwmdmx_card mapped)).
Implicit Types w : W.

(** How many channels a frame has. *)
Definition channels (f : dmx512frame) : nat := Z.to_nat (512 `min` (f_payload_size f - 1)).
Lemma pwm_send_run c f w b size hfd :
  f_port f = 0 -> 0 < f_payload_size f -> f_data f !! 0%nat = Some 0 -> length (f_data f) = DATA_SIZE ->
  pwm_uio (u_drv w) = Some (Some (Handle b size hfd)) -> (sz * channels f <= length (octets b))%nat -> exists b',
  pwmdmx_sendFrame sz c f w = Done (tt, with_u_drv (with_pwm_uio (Some (Some (Handle b' size hfd))) [] (u_drv w)) w) /\
  (forall j v, (j < channels f)%nat -> f_data f !! S j = Some v -> word sz j (octets b') = octets_of sz v) /\
  (forall j, (channels f <= j)%nat -> in_memory sz j (octets b) -> word sz j (octets b') = word sz j (octets b)) /\
  length (octets b') = length (octets b).
Proof.
  intros Hp Hn Hs Hd Hu Hm. assert (channels f <= 512)%nat as Hc by (unfold channels; lia).
  destruct (poke_slots_run sz (channels f) 0 (f_data f) b size hfd) as (b' & E & Hl & Hin & Hout); [rewrite Hd; unfold DATA_SIZE; lia|done|].
  exists b'. split_and!; [|intros j v Hj; by apply Hin; lia|intros j Hj; apply Hout; lia|done].
  unfold pwmdmx_sendFrame. unfold mbind at 1, prog_bind at 1, gets at 1. rewrite Hu, Hp, (proj2 (Z.ltb_lt _ _)) by lia. cbn [Z.eqb andb when].
  unfold mbind at 1, prog_bind at 1, lift_outcome at 1. change (load (f_data f) 0) with (load (f_data f) (Z.of_nat 0)). rewrite (load_nat _ _ _ Hs). cbn [Z.eqb when].
  unfold on_uio. unfold mbind at 1, prog_bind at 1, gets at 1. rewrite Hu. unfold mbind at 1, prog_bind at 1, lift_outcome at 1. fold (channels f).
  change (Z.of_nat 0) with 0 in E. by rewrite E.
Qed.

(** C20: a frame with start code 0 that is written to a file of the PWM card
    sets the channels: what is read from the register of a channel then is
    the slot of that channel, and the registers of the channels that the
    frame does not have keep what they had.  No access leaves the page that
    is mapped, be an [unsigned long] of 32 or of 64 bits, and the writer is
    told that all of the frame was written. *)
Theorem written_frame_sets_channels interrupted malloc_ok w a req c fh k f size b hfd :
  implements w a -> (forall j, (j < 32)%nat -> is_Some (a_files a !! (c, j))) -> opened (Some c) fh a = Some k -> SIZEOF_FRAME <= size ->
  f_port f = 0 -> 0 < f_payload_size f -> f_data f !! 0%nat = Some 0 -> length (f_data f) = DATA_SIZE -> Forall (fun v => 0 <= v < 256) (f_data f) ->
  pwm_uio (u_drv w) = Some (Some (Handle b 0x1000 hfd)) -> length (octets b) = Z.to_nat 0x1000 -> (1 <= sz <= 8)%nat ->
  exists w' a' log b', let h := Some (Handle b' 0x1000 hfd) in
    handle (pwm_ops sz cardno fd mapping ok) interrupted malloc_ok (CWrite req (Some c) f size (Some fh)) w = Done (tt, w') /\
    implements w' a' /\ u_log w' = log ++ [ReplyWrite req size] /\ pwm_uio (u_drv w') = Some h /\
    (forall i, (i < channels f)%nat -> exists v, f_data f !! S i = Some v /\ uio_peek sz (4 * Z.of_nat i) h = Done (v, h)) /\
    (forall i, (channels f <= i < 512)%nat -> word sz i (octets b') = word sz i (octets b)).
Proof.
  intros Hw Hex Ho Hsize Hp Hn Hs Hd Hoct Hu Hm Hsz. assert (channels f <= 512)%nat as Hc by (unfold channels; lia).
  assert (sz * 512 <= length (octets b))%nat as Hpage by (rewrite Hm; change (Z.to_nat 0x1000) with (8 * 512)%nat; nia).
  destruct (pwm_send_run c (to_send f) w b 0x1000 hfd) as (b' & E & Hin & Hout & Hl); [done..|change (channels (to_send f)) with (channels f); nia|].
  change (channels (to_send f)) with (channels f) in *. change (f_data (to_send f)) with (f_data f) in *.
  destruct (write_reaches_driver (pwm_ops sz cardno fd mapping ok) interrupted malloc_ok w a req c fh k f size _ _ Hw Hex Ho Hsize ltac:(lia) eq_refl E)
    as (w' & a' & log & E' & Hw' & Hlog & Hd').
  exists w', a', log, b'. split_and!; [done..|by rewrite Hd'| |].
  - intros i Hi. destruct (lookup_lt_is_Some_2 (f_data f) (S i)) as [v Hv]; [rewrite Hd; unfold DATA_SIZE; lia|]. exists v. split; [done|].
    pose proof (Forall_lookup_1 _ _ _ _ Hoct Hv) as Hv'. cbn beta in Hv'.
    rewrite peek_word, peek_memory by (unfold in_memory; rewrite Hl; nia). rewrite (Hin i v) by done. do 2 f_equal. apply of_octets_of.
    assert (2 ^ 8 <= 2 ^ (8 * Z.of_nat sz)) by (apply Z.pow_le_mono_r; lia). lia.
  - intros i Hi. apply Hout; [lia|]. unfold in_memory. nia.
Qed.

(** Any other frame is ignored, and so is every frame before the device is
    open. *)
Theorem other_frames_are_ignored c f w v :
  f_data f !! 0%nat = Some v -> pwm_uio (u_drv w) = None \/ f_port f <> 0 \/ f_payload_size f <= 0 \/ v <> 0 ->
  pwmdmx_sendFrame sz c f w = Done (tt, w).
Proof.
  intros Hv Hwhy. unfold pwmdmx_sendFrame. unfold mbind at 1, prog_bind at 1, gets at 1.
  destruct (pwm_uio (u_drv w)); [|done]. destruct (Z.eqb_spec (f_port f) 0), (Z.ltb_spec 0 (f_payload_size f)); try done. cbn [andb when].
  unfold mbind at 1, prog_bind at 1, lift_outcome at 1. change (load (f_data f) 0) with (load (f_data f) (Z.of_nat 0)). rewrite (load_nat _ _ _ Hv).
  rewrite (proj2 (Z.eqb_neq _ _)); [done|]. by destruct Hwhy as [|[|[|]]]; [..|lia|].
Qed.
End sending.

(** A card with its device open, and a frame of four slots. *)
Definition lit_card : pwmdmx_card mapped := with_pwm_uio (Some (Some (Handle (Mapped (replicate 4096 0) 0) 0x1000 3))) [] new_pwm_card.
Definition dimmed : dmx512frame := Frame 0 0 0 5 (0 :: 10 :: 20 :: 30 :: 40 :: replicate 508 9) (0, 0) (0, 0).
Lemma written_frame_sets_channels_witness : exists w w' a' log b', let h := Some (Handle b' 0x1000 3) in
  handle (pwm_ops 4 0 3 None true) (fun _ => false) (fun _ => true) (CWrite 5 (Some 0%nat) dimmed 600 (Some 0)) w = Done (tt, w') /\
  implements w' a' /\ u_log w' = log ++ [ReplyWrite 5 600] /\ pwm_uio (u_drv w') = Some h /\
  (forall i, (i < 4)%nat -> exists v, f_data dimmed !! S i = Some v /\ uio_peek 4 (4 * Z.of_nat i) h = Done (v, h)) /\
  (forall i, (4 <= i < 512)%nat -> word 4 i (octets b') = word 4 i (replicate 4096 0)).
Proof.
  destruct polling_world as [w0 Hw]. exists (Cuse (u_mem w0) (u_contexts w0) (u_log w0) lit_card).
  apply (written_frame_sets_channels 4 0 3 None true (fun _ => false) (fun _ => true) _ polling 5 0 0
    ((0%nat, 0%nat), File (Context true false 2 0 None (Some 9%nat)) []) dimmed 600 (Mapped (replicate 4096 0) 0) 3);
    [by apply implements_any|apply all_contexts; by vm_compute|reflexivity|discriminate|reflexivity|reflexivity|reflexivity|reflexivity| |reflexivity|reflexivity|lia].
  unfold dimmed, f_data. repeat (apply Forall_cons; split; [lia|]). by apply Forall_nil.
Defined.
