(* ===== verification/CuseLlgip.v ===== *)
(** * The CUSE driver for the llg-ip DMX controller: dmx512_cuse_llgip.c

    [src/cuse-drivers/dmx512_cuse_llgip.c]: a card of [CuseDev.v] whose ports
    are FIFOs of the controller of [Uio.v], with words for octets and for
    breaks.  A port learns how long the frames on its line are and, when it
    is sure, hands a frame up with its last octet instead of with the next
    break.  The file is compiled with [CONFIG_LEARN_RXSIZE] and without
    [CONFIG_RDM]. *)
From stdpp Require Import base countable gmap list.
From S2P Require Import Prelude FrameQueue DmxCore CuseDev CuseInfo MappedBus Uio.

(** ** State *)

(** [learned_rx_framesize] *)
Record rx_learning := Learning {
  enabled : bool;
  locked : bool;
  learnedsize : Z;
  lastsize : Z;
  repetion_count : Z;
  repetion_count_treshold : Z }.
(** [struct llgdmx_port]; [l_breaks] is [frame.unused[0]], which the frames of
    [FrameQueue.v] do not have. *)
Record llgdmx_port := LlgPort {
  l_state : Z;
  l_frame : dmx512frame;
  l_breaks : Z;
  l_label : list Z;
  expected_rx_frame_size : Z;
  learned_rx_framesize : rx_learning }.
Definition with_l_state (v : Z) (p : llgdmx_port) : llgdmx_port :=
  LlgPort v (l_frame p) (l_breaks p) (l_label p) (expected_rx_frame_size p) (learned_rx_framesize p).
Definition with_l_frame (f : dmx512frame) (p : llgdmx_port) : llgdmx_port :=
  LlgPort (l_state p) f (l_breaks p) (l_label p) (expected_rx_frame_size p) (learned_rx_framesize p).
Definition with_l_breaks (v : Z) (p : llgdmx_port) : llgdmx_port :=
  LlgPort (l_state p) (l_frame p) v (l_label p) (expected_rx_frame_size p) (learned_rx_framesize p).
Definition with_l_label (v : list Z) (p : llgdmx_port) : llgdmx_port :=
  LlgPort (l_state p) (l_frame p) (l_breaks p) v (expected_rx_frame_size p) (learned_rx_framesize p).
Definition with_expected (v : Z) (p : llgdmx_port) : llgdmx_port :=
  LlgPort (l_state p) (l_frame p) (l_breaks p) (l_label p) v (learned_rx_framesize p).
Definition with_learned (l : rx_learning) (p : llgdmx_port) : llgdmx_port :=
  LlgPort (l_state p) (l_frame p) (l_breaks p) (l_label p) (expected_rx_frame_size p) l.

(** [struct dmxllgip_card], with the calls of the operating system. *)
Record dmxllgip_card (H : Type) := LlgCard {
  g_customer_name : list Z;
  g_uio : option (uio_handle H);
  g_card : option nat;
  g_num_ports : Z;
  g_ports : list llgdmx_port;
  g_calls : list os_call }.
Arguments LlgCard {H}. Arguments g_customer_name {H}. Arguments g_uio {H}. Arguments g_card {H}. Arguments g_num_ports {H}.
Arguments g_ports {H}. Arguments g_calls {H}.
Definition LLG_PORTS : nat := 32.

(** ** Receiving: the ports *)

(** The lock on a size is lost. *)
Definition lose_lock (l : rx_learning) : rx_learning := Learning (enabled l) false 512 512 0 (repetion_count_treshold l).
(** What the end of a frame of [size] octets teaches. *)
Definition learn_framesize (size : Z) (l : rx_learning) : rx_learning :=
  if negb (locked l) then
    if enabled l then
      let count := if size =? lastsize l then repetion_count l + 1 else 0 in
      if repetion_count_treshold l <? count
      then Learning (enabled l) true (lastsize l) size count (repetion_count_treshold l)
      else Learning (enabled l) (locked l) (learnedsize l) size count (repetion_count_treshold l)
    else l
  else if negb (size =? lastsize l) then lose_lock l else l.

(** A break: the port afterwards, and the frame that is handed up. *)
Definition rx_break (portno x : Z) (p : llgdmx_port) : outcome (llgdmx_port * option dmx512frame) :=
  let f := l_frame p in
  startcode ← load (f_data f) 0;
  let p := with_l_breaks (u8 (l_breaks p + 1)) p in
  let p := if (0 <? f_payload_size f) && (startcode =? 0)
           then with_learned (learn_framesize (f_payload_size f) (learned_rx_framesize p)) p else p in
  let f' := Frame (u16 portno) 0 (Z.shiftr (DMX_RXFIFO_DATA x) 2) 0 (f_data f) (f_timestamp f) (f_back_timestamp f) in
  Done (with_l_state 1 (with_l_frame f' p), if 0 <? f_payload_size f then Some f else None).

(** An octet. *)
Definition rx_octet (x : Z) (p : llgdmx_port) : outcome (llgdmx_port * option dmx512frame) :=
  let f := l_frame p in
  let l := learned_rx_framesize p in
  let v := DMX_RXFIFO_DATA x in
  if l_state p =? 0 then Done (if locked l then with_learned (lose_lock l) p else p, None)
  else if l_state p =? 1 then
    if v =? 0 then
      data ← store 0 v (f_data f);
      let p := with_l_state 2 (with_l_frame (with_payload_size 1 (with_data data f)) p) in
      Done (with_expected (if locked l then learnedsize l else 520) p, None)
    else Done (with_l_state 0 p, None)
  else if l_state p =? 2 then
    if f_payload_size f <? 513 then
      data ← store (f_payload_size f) v (f_data f);
      let f := with_payload_size (f_payload_size f + 1) (with_data data f) in
      if locked l && (f_payload_size f =? learnedsize l)
      then Done (with_l_state 0 (with_l_frame (with_payload_size 0 f) p), Some f)
      else Done (with_l_frame f p, None)
    else Done (p, None)
  else Done (with_l_state 0 p, None).

(** The body of the loop, for a word that was there. *)
Definition rx_word (portno x : Z) (p : llgdmx_port) : outcome (llgdmx_port * option dmx512frame) :=
  if negb (DMX_RXFIFO_BREAK x =? 0) then rx_break portno x p else rx_octet x p.

Section driver.
(** [sizeof(unsigned long)], the number of the card and the reads that were
    interrupted. *)
Context {H : Type} `{Device H} (sz : nat) (cardno : Z) (interrupted : nat -> bool).
Abbreviation card := (dmxllgip_card H).
Abbreviation W := (cuse card).
Implicit Types u : card.

Definition with_g_uio v u : card := LlgCard (g_customer_name u) v (g_card u) (g_num_ports u) (g_ports u) (g_calls u).
Definition with_g_card v u : card := LlgCard (g_customer_name u) (g_uio u) v (g_num_ports u) (g_ports u) (g_calls u).
Definition with_g_ports v u : card := LlgCard (g_customer_name u) (g_uio u) (g_card u) (g_num_ports u) v (g_calls u).
Definition with_g_calls v u : card := LlgCard (g_customer_name u) (g_uio u) (g_card u) (g_num_ports u) (g_ports u) v.
Definition put_llg u : prog W unit := modify (with_u_drv u).
(** A function that is called with [user->uio]. *)
Definition on_llg_uio {A} (m : prog (option (uio_handle H)) A) : prog W A :=
  u ← gets u_drv; '(a, h) ← lift_outcome (m (g_uio u)); put_llg (with_g_uio h u) ;; mret a.
Definition call_os (f : option (uio_handle H) -> outcome (list os_call)) : prog W unit :=
  u ← gets u_drv; l ← lift_outcome (f (g_uio u)); put_llg (with_g_calls (g_calls u ++ l) u).
Definition llg_port_at (i : Z) : prog W llgdmx_port := u ← gets u_drv; lift_outcome (load (g_ports u) i).
Definition set_llg_port (i : Z) (p : llgdmx_port) : prog W unit :=
  u ← gets u_drv; l ← lift_outcome (store i p (g_ports u)); put_llg (with_g_ports l u).

(** ** Info requests *)

(** A port index is compared as an [unsigned]. *)
Definition llg_names : card_names card := {|
  n_product := [100; 109; 120; 108; 108; 103; 105; 112];
  n_cardno := cardno;
  n_ports := g_num_ports;
  n_refused u port := g_num_ports u <=? port mod 2 ^ 32;
  n_compares := false;
  n_name u := Done (g_customer_name u);
  n_set_name v u := Done (LlgCard v (g_uio u) (g_card u) (g_num_ports u) (g_ports u) (g_calls u));
  n_label u port := p ← load (g_ports u) port; Done (l_label p);
  n_set_label u port v := p ← load (g_ports u) port; l ← store port (with_l_label v p) (g_ports u); Done (with_g_ports l u) |}.
Definition dmxllgip_queryCardInfo : nat -> info_op card := query_card llg_names.
Definition dmxllgip_changeCardInfo : nat -> info_op card := change_card llg_names.
Definition dmxllgip_queryPortInfo : nat -> Z -> info_op card := query_port llg_names.
Definition dmxllgip_changePortInfo : nat -> Z -> info_op card := change_port llg_names.

(** ** Receiving *)

Definition read_rx_fifo (portno : Z) : prog W Z := on_llg_uio (read_fifo sz portno).
Definition take_word (portno x : Z) : prog W unit :=
  p ← llg_port_at portno;
  '(p, out) ← lift_outcome (rx_word portno x p);
  u ← gets u_drv;
  match out with Some f => dmx512_cuse_handle_received_frame interrupted (g_card u) f | None => mret tt end ;;
  set_llg_port portno p.
Fixpoint llgdmx_check_rx_port (fuel : nat) (portno : Z) : prog W unit :=
  match fuel with
  | O => raise OutOfFuel
  | S fuel =>
      x ← read_rx_fifo portno;
      if negb (DMX_STATUS_RXFIFOEMPTY x =? 0) then mret tt
      else take_word portno x ;; llgdmx_check_rx_port fuel portno
  end.
(** [for (; i < num_ports; ++i)]; every port has the fuel. *)
Fixpoint check_ports (n : nat) (fuel : nat) (irqstat i : Z) : prog W unit :=
  match n with
  | O => mret tt
  | S n =>
      b ← lift_outcome (port_bit i);
      when (has irqstat b) (llgdmx_check_rx_port fuel i) ;;
      check_ports n fuel irqstat (i + 1)
  end.
Definition llgdmx_check_rx (fuel : nat) : prog W unit :=
  irqstat ← on_llg_uio (dmx_read_global_irqstatus sz);
  u ← gets u_drv;
  check_ports (Z.to_nat (g_num_ports u)) fuel irqstat 0.
(** What [read] gives the wait for the interrupt does not matter. *)
Definition handle_llgdmx_interrupt (got : Z * Z) (fuel : nat) : prog W unit :=
  call_os (fun h => r ← uio_wait_for_interrupt sz h got; Done r.2) ;;
  llgdmx_check_rx fuel ;;
  call_os uio_enable_interrupt.

(** ** Setting up *)

Definition RX_CONFIG : Z := Z.lor (Z.lor (Z.lor (Z.shiftl 1 27) (Z.shiftl 1 26)) (Z.shiftl 100 12)) 513.
Fixpoint configure_ports (n : nat) (i : Z) : prog W unit :=
  match n with O => mret tt | S n => on_llg_uio (write_fifo_config sz i RX_CONFIG) ;; configure_ports n (i + 1) end.
Definition llgdmx_setup_receiver : prog W unit :=
  u ← gets u_drv;
  configure_ports (Z.to_nat (g_num_ports u)) 0 ;;
  b ← lift_outcome (port_bit (g_num_ports u));
  on_llg_uio (dmx_write_global_irqenable sz (b - 1)) ;;
  call_os uio_enable_interrupt.
Definition llgdmx_cleanup_receiver : prog W unit :=
  call_os uio_disable_interrupt ;; on_llg_uio (dmx_write_global_irqenable sz 0).
Definition dmxllgip_init (c : nat) : prog W unit :=
  u ← gets u_drv;
  match g_uio u with
  | None => mret tt
  | Some _ => put_llg (with_g_card (Some c) u) ;; llgdmx_setup_receiver
  end.
Definition dmxllgip_cleanup (c : nat) : prog W unit :=
  u ← gets u_drv;
  match g_card u with
  | None => mret tt
  | Some _ =>
      match g_uio u with Some _ => llgdmx_cleanup_receiver | None => mret tt end ;;
      u ← gets u_drv; put_llg (with_g_card None u)
  end.

(** ** Sending *)

Fixpoint dmxllgip_ll_waitForTransmitterToBecomeEmpty (fuel : nat) (port : Z) : prog (option (uio_handle H)) unit :=
  match fuel with
  | O => raise OutOfFuel
  | S fuel =>
      s ← read_fifo_status sz port;
      if DMX_STATUS_TXFIFOEMPTY s =? 0 then dmxllgip_ll_waitForTransmitterToBecomeEmpty fuel port else mret tt
  end.
(** [payload] is behind the start code in [data]. *)
Fixpoint write_payload (n : nat) (i : Z) (port : Z) (data : list Z) : prog (option (uio_handle H)) unit :=
  match n with
  | O => mret tt
  | S n => v ← lift_outcome (load data (1 + i)); write_fifo sz port v ;; write_payload n (i + 1) port data
  end.
Definition tx_breaksize (f : dmx512frame) : Z := if f_breaksize f <? 22 then 22 else if 63 <? f_breaksize f then 63 else f_breaksize f.
Definition dmxllgip_ll_sendFrame (f : dmx512frame) : prog (option (uio_handle H)) unit :=
  h ← get_state;
  match h with
  | None => mret tt
  | Some _ =>
      write_fifo sz (f_port f) (0x100 + Z.shiftl (tx_breaksize f) 2 + 3) ;;
      startcode ← lift_outcome (load (f_data f) 0);
      write_fifo sz (f_port f) startcode ;;
      write_payload (Z.to_nat (f_payload_size f)) 0 (f_port f) (f_data f)
  end.
Definition dmxllgip_sendFrame (fuel : nat) (c : nat) (f : dmx512frame) : prog W unit :=
  u ← gets u_drv;
  match g_uio u with
  | None => mret tt
  | Some _ =>
      when ((f_port f <? 20) && (0 <? f_payload_size f))
        (on_llg_uio (dmxllgip_ll_waitForTransmitterToBecomeEmpty fuel (f_port f)) ;;
         on_llg_uio (dmxllgip_ll_sendFrame f))
  end.

Definition dmxllgip_ops (fuel : nat) : card_ops card :=
  CardOps (Some dmxllgip_queryCardInfo) (Some dmxllgip_changeCardInfo) (Some dmxllgip_queryPortInfo) (Some dmxllgip_changePortInfo)
    (Some dmxllgip_init) (Some dmxllgip_cleanup) (Some (dmxllgip_sendFrame fuel)).
Definition llg_ops (fuel : nat) (c : nat) : option (card_ops card) := Some (dmxllgip_ops fuel).

(** ** What [main] starts with *)

Definition no_learning : rx_learning := Learning false false 0 0 0 0.
Definition zero_port : llgdmx_port := LlgPort 0 zero_frame 0 (replicate NAME_SIZE 0) 0 no_learning.
(** The ports of the controller learn; their number is not that of the array. *)
Fixpoint enable_learning (n : nat) (i : Z) (ports : list llgdmx_port) : outcome (list llgdmx_port) :=
  match n with
  | O => Done ports
  | S n => p ← load ports i; ports ← store i (with_learned (Learning true false 0 0 0 20) p) ports; enable_learning n (i + 1) ports
  end.
(** [label i] is what is printed to the label of port [i]. *)
Fixpoint label_ports (n : nat) (i : Z) (label : Z -> list Z) (ports : list llgdmx_port) : outcome (list llgdmx_port) :=
  match n with
  | O => Done ports
  | S n => p ← load ports i; ports ← store i (with_l_label (label i) p) ports; label_ports n (i + 1) label ports
  end.
(** [None]: there is no such controller, and the program ends. *)
Definition new_llg_card (label : Z -> list Z) (h : option (uio_handle H)) : outcome (option card) :=
  match h with
  | None => Done None
  | Some _ =>
      '(ok, h) ← is_dmx1_ipcore sz h;
      if ok =? 0 then Done None else
      '(port_count, h) ← dmx1_port_count sz h;
      ports ← enable_learning (Z.to_nat port_count) 0 (replicate LLG_PORTS zero_port);
      ports ← label_ports (Z.to_nat port_count) 0 label ports;
      Done (Some (LlgCard (padded [99; 117; 115; 116; 111; 109; 101; 114; 32; 108; 97; 98; 101; 108]) h None 14 ports []))
  end.
End driver.
