(* ===== verification/CuseLlgipReception.v ===== *)
(** * Reception by the llg-ip driver: frames between breaks

    What the ports of [CuseLlgip.v] make of the words of a FIFO.  A line is a
    sequence of segments, each a break and the octets after it; the receiver,
    which takes one word at a time and learns the size of the frames, refines
    [segments_step], which takes whole segments. *)
From stdpp Require Import base countable list.
From S2P Require Import Prelude FrameQueue MappedBus Uio CuseInfo CuseLlgip.

(** ** Segments *)

(** A break, in the unit of the controller, and octets. *)
Abbreviation segment := (Z * list Z)%type.
Definition segment_words (s : segment) : list Z := 0x100 + s.1 :: s.2.
Definition octet (v : Z) : Prop := 0 <= v < 256.
Definition segment_ok (s : segment) : Prop := octet s.1 /\ Forall octet s.2.

(** The words of a FIFO, and the frames that are handed up. *)
Fixpoint rx_words (portno : Z) (xs : list Z) (p : llgdmx_port) : outcome (llgdmx_port * list dmx512frame) :=
  match xs with
  | [] => Done (p, [])
  | x :: xs =>
      '(p, f) ← rx_word portno x p;
      '(p, fs) ← rx_words portno xs p;
      Done (p, option_list f ++ fs)
  end.

(** ** The reference: whole segments *)

(** A frame that waits for the next break, and what is known of the sizes. *)
Record line := Line { pending : option segment; learning : rx_learning }.
(** The next break. *)
Definition after_break (l : line) : rx_learning :=
  match pending l with Some s => learn_framesize (Z.of_nat (length s.2)) (learning l) | None => learning l end.
(** With a lock a frame is complete with the octet of that number; the start
    code alone is not looked at. *)
Definition completes (l : rx_learning) (s : segment) : bool :=
  locked l && (2 <=? learnedsize l) && (learnedsize l <=? Z.of_nat (length s.2)).
(** Octets that come when the frame is over. *)
Definition overrun (l : rx_learning) (n : nat) : rx_learning := if locked l && (0 <? n)%nat then lose_lock l else l.
(** The segment is heard: the line afterwards, and what is complete. *)
Definition hear (l : rx_learning) (s : segment) : line * list segment :=
  match s.2 with
  | [] => (Line None l, [])
  | v :: vs =>
      if v =? 0 then
        let n := Z.to_nat (learnedsize l) in
        if completes l s then (Line None (overrun l (length s.2 - n)), [(s.1, take n s.2)])
        else (Line (Some (s.1, take 513 s.2)) l, [])
      else (Line None (overrun l (length vs)), [])
  end.
Definition segments_step (l : line) (s : segment) : line * list segment :=
  let '(l', out) := hear (after_break l) s in (l', option_list (pending l) ++ out).
Fixpoint segments_run (ss : list segment) (l : line) : line * list segment :=
  match ss with
  | [] => (l, [])
  | s :: ss => let '(l, out) := segments_step l s in let '(l, outs) := segments_run ss l in (l, out ++ outs)
  end.

(** A frame that shows a segment: the octets behind those of the frame are
    those of earlier ones. *)
Definition shows (portno : Z) (s : segment) (f : dmx512frame) : Prop :=
  f_port f = u16 portno /\ f_flags f = 0 /\ f_breaksize f = Z.shiftr s.1 2 /\ f_payload_size f = Z.of_nat (length s.2) /\
  length (f_data f) = DATA_SIZE /\ take (length s.2) (f_data f) = s.2.
Definition on_line (portno : Z) (p : llgdmx_port) (l : line) : Prop :=
  length (f_data (l_frame p)) = DATA_SIZE /\ learned_rx_framesize p = learning l /\
  match pending l with
  | Some s => shows portno s (l_frame p) /\ exists vs, s.2 = 0 :: vs
  | None => f_payload_size (l_frame p) = 0
  end.
(** A size that is known is that of a frame. *)
Definition sizes_ok (l : rx_learning) : Prop :=
  0 <= lastsize l <= 513 /\ (locked l = true -> learnedsize l = lastsize l) /\ 0 <= repetion_count_treshold l.

(** ** Words *)

Lemma data_octet v : octet v -> DMX_RXFIFO_DATA v = v.
Proof. intros Hv. unfold DMX_RXFIFO_DATA. change 0xff with (Z.ones 8). rewrite Z.land_ones by lia. by apply Z.mod_small. Qed.
Lemma octet_no_break v : octet v -> DMX_RXFIFO_BREAK v = 0.
Proof. intros Hv. unfold DMX_RXFIFO_BREAK. rewrite Z.shiftr_div_pow2 by lia. change (2 ^ 8) with 256. by rewrite Z.div_small. Qed.
Lemma data_break v : octet v -> DMX_RXFIFO_DATA (0x100 + v) = v.
Proof.
  intros Hv. unfold DMX_RXFIFO_DATA. change 0xff with (Z.ones 8). rewrite Z.land_ones by lia. change 0x100 with (1 * 2 ^ 8).
  rewrite Z.add_comm, Z.mod_add by done. by apply Z.mod_small.
Qed.
Lemma break_break v : octet v -> DMX_RXFIFO_BREAK (0x100 + v) = 1.
Proof.
  intros Hv. unfold DMX_RXFIFO_BREAK. rewrite Z.shiftr_div_pow2 by lia. change 0x100 with (1 * 2 ^ 8). rewrite Z.add_comm, Z.div_add by done.
  change (2 ^ 8) with 256. by rewrite (Z.div_small v) by done.
Qed.
Lemma word_octet portno v p : octet v -> rx_word portno v p = rx_octet v p.
Proof. intros Hv. unfold rx_word. by rewrite octet_no_break. Qed.
Lemma word_break portno v p : octet v -> rx_word portno (0x100 + v) p = rx_break portno (0x100 + v) p.
Proof. intros Hv. unfold rx_word. by rewrite break_break. Qed.
Lemma rx_words_app portno xs ys p p1 fs1 p2 fs2 :
  rx_words portno xs p = Done (p1, fs1) -> rx_words portno ys p1 = Done (p2, fs2) -> rx_words portno (xs ++ ys) p = Done (p2, fs1 ++ fs2).
Proof.
  revert p fs1. induction xs as [|x xs IH]; intros p fs1 E1 E2; [by injection E1 as -> <-|]. cbn [app rx_words] in *.
  destruct (rx_word portno x p) as [[q f]|]; [|done]. cbn [mbind outcome_bind] in *.
  destruct (rx_words portno xs q) as [[q' fs]|] eqn:E; [|done]. injection E1 as -> <-. rewrite (IH q fs E E2). cbn [mbind outcome_bind]. by rewrite app_assoc.
Qed.

(** ** Octets *)

(** When the frame is over, octets only cost the lock. *)
Lemma octets_dropped portno vs p : Forall octet vs -> l_state p = 0 ->
  rx_words portno vs p = Done (with_learned (overrun (learned_rx_framesize p) (length vs)) p, []).
Proof.
  intros Hv. revert p. induction Hv as [|v vs Hv Hvs IH]; intros p Hs; cbn [rx_words].
  { unfold overrun. rewrite andb_false_r. by destruct p. }
  rewrite word_octet by done. unfold rx_octet. rewrite Hs. cbn [Z.eqb mbind outcome_bind]. destruct (locked (learned_rx_framesize p)) eqn:E.
  - rewrite IH by done. cbn [mbind outcome_bind option_list app]. do 2 f_equal. unfold overrun. rewrite E. cbn. done.
  - rewrite IH by done. cbn [mbind outcome_bind option_list app]. unfold overrun. by rewrite E.
Qed.

(** The octets of the frame in the making. *)
Definition holds (os : list Z) (p : llgdmx_port) : Prop :=
  l_state p = 2 /\ f_payload_size (l_frame p) = Z.of_nat (length os) /\ length (f_data (l_frame p)) = DATA_SIZE /\
  take (length os) (f_data (l_frame p)) = os /\ (1 <= length os <= 513)%nat.
Definition with_octets (os data : list Z) (p : llgdmx_port) : llgdmx_port :=
  with_l_frame (with_payload_size (Z.of_nat (length os)) (with_data data (l_frame p))) p.
Lemma octet_stored v os p : octet v -> holds os p -> (length os < 513)%nat ->
  let p' := with_octets (os ++ [v]) (<[length os := v]> (f_data (l_frame p))) p in
  let l := learned_rx_framesize p in
  holds (os ++ [v]) p' /\
  rx_octet v p = if locked l && (Z.of_nat (S (length os)) =? learnedsize l)
                 then Done (with_l_state 0 (with_l_frame (with_payload_size 0 (l_frame p')) p'), Some (l_frame p')) else Done (p', None).
Proof.
  intros Hv (Hs & Hp & Hd & Ht & Hl) Hlen p' l. assert (length (os ++ [v]) = S (length os)) as Hos by (rewrite length_app; cbn; lia).
  split.
  { split_and!; try done; [by cbn; rewrite length_insert|unfold p'; cbn [with_octets with_l_frame l_frame with_payload_size with_data f_data]|lia..].
    rewrite Hos. rewrite take_S_r with (x := v) by (apply list_lookup_insert_eq; rewrite Hd; unfold DATA_SIZE; lia). by rewrite take_insert_ge, Ht by lia. }
  unfold rx_octet. rewrite Hs, Hp, (proj2 (Z.ltb_lt _ _)) by lia. cbn [Z.eqb]. rewrite data_octet by done.
  rewrite store_nat by (rewrite Hd; unfold DATA_SIZE; lia). cbn [mbind outcome_bind].
  unfold p', with_octets. rewrite Hos. replace (Z.of_nat (length os) + 1) with (Z.of_nat (S (length os))) by lia. done.
Qed.
Lemma with_octets_same os p : holds os p -> with_octets os (f_data (l_frame p)) p = p.
Proof. intros (_ & Hp & _). destruct p as [? [] ????]. cbn in Hp. unfold with_octets. cbn. by rewrite <- Hp. Qed.

(** Octets that do not complete the frame; those behind the last slot are not
    kept. *)
Lemma octets_collected portno vs os p : Forall octet vs -> holds os p ->
  (locked (learned_rx_framesize p) = true -> forall k, (length os < k <= 513)%nat -> (k <= length os + length vs)%nat -> learnedsize (learned_rx_framesize p) <> Z.of_nat k) ->
  let os' := take 513 (os ++ vs) in
  exists data, rx_words portno vs p = Done (with_octets os' data p, []) /\ holds os' (with_octets os' data p).
Proof.
  intros Hvs. revert os p. induction Hvs as [|v vs Hv Hvs IH]; intros os p Hh Hn os'.
  { exists (f_data (l_frame p)). assert (os' = os) as -> by (subst os'; rewrite app_nil_r; apply take_ge; destruct Hh as (_ & _ & _ & _ & ?); lia).
    by rewrite with_octets_same. }
  cbn [rx_words]. rewrite word_octet by done. destruct (decide (length os < 513)%nat) as [Hlen|Hlen].
  - destruct (octet_stored v os p Hv Hh Hlen) as [Hh' E]. rewrite E. set (p' := with_octets _ _ p) in *.
    replace (locked (learned_rx_framesize p) && _) with false.
    2: { symmetry. apply andb_false_iff. destruct (locked (learned_rx_framesize p)) eqn:El; [right|by left]. apply Z.eqb_neq. specialize (Hn eq_refl (S (length os))). cbn in Hn. lia. }
    cbn [mbind outcome_bind]. destruct (IH (os ++ [v]) p' Hh') as (data & E' & Hd).
    { intros El k Hk Hk'. rewrite length_app in *. cbn in *. apply Hn; [done|lia|lia]. }
    rewrite <- app_assoc in E', Hd. cbn [app] in E', Hd. exists data. by rewrite E'.
  - destruct Hh as (Hs & Hp & Hd & Ht & Hl). assert (length os = 513%nat) as E5 by lia.
    assert (rx_octet v p = Done (p, None)) as -> by (unfold rx_octet; by rewrite Hs, Hp, E5).
    cbn [mbind outcome_bind]. destruct (IH os p) as (data & E' & Hd'); [done|intros El k ??; lia|].
    assert (os' = take 513 (os ++ vs)) as ->; [subst os'; by rewrite !take_app_le by lia|]. exists data. by rewrite E'.
Qed.

(** Octets that complete it, and those that come too late. *)
Lemma octets_complete portno vs os p n : let l := learned_rx_framesize p in
  Forall octet vs -> holds os p -> locked l = true -> learnedsize l = Z.of_nat n -> (length os < n <= 513)%nat -> (n <= length os + length vs)%nat ->
  exists p' data, rx_words portno vs p = Done (p', [with_payload_size (Z.of_nat n) (with_data data (l_frame p))]) /\
    length data = DATA_SIZE /\ take n data = take n (os ++ vs) /\
    f_payload_size (l_frame p') = 0 /\ length (f_data (l_frame p')) = DATA_SIZE /\ learned_rx_framesize p' = overrun l (length os + length vs - n).
Proof.
  intros l Hvs Hh Hlk Hn Hlt Hle. set (k := (n - length os - 1)%nat).
  destruct (lookup_lt_is_Some_2 vs k) as [v Hv]; [lia|]. pose proof (take_drop_middle _ _ _ Hv) as E.
  assert (length (take k vs) = k) as Ek by (rewrite length_take; lia).
  pose proof (Forall_lookup_1 _ _ _ _ Hvs Hv) as Hov.
  destruct (octets_collected portno (take k vs) os p) as (d1 & E1 & Hh1); [by apply Forall_take|done|intros _ j ??; rewrite Ek in *; fold l; lia|].
  assert (take 513 (os ++ take k vs) = os ++ take k vs) as Et by (apply take_ge; rewrite length_app, Ek; lia).
  rewrite Et in E1, Hh1. set (p1 := with_octets (os ++ take k vs) d1 p) in *.
  assert (length (os ++ take k vs) = n - 1)%nat as E3 by (rewrite length_app, Ek; lia).
  destruct (octet_stored v _ p1 Hov Hh1) as [Hh2 E2]; [lia|]. set (p2 := with_octets _ _ p1) in *.
  change (learned_rx_framesize p1) with l in E2. rewrite Hlk, Hn, E3, (proj2 (Z.eqb_eq _ _)) in E2 by lia. cbn [andb] in E2.
  set (p3 := with_l_state 0 _) in E2. pose proof (octets_dropped portno (drop (S k) vs) p3 (Forall_drop _ _ _ Hvs) eq_refl) as E4.
  assert (rx_words portno (v :: drop (S k) vs) p1 = Done (with_learned (overrun l (length (drop (S k) vs))) p3, [l_frame p2])) as E5.
  { cbn [rx_words]. rewrite word_octet, E2 by done. cbn [mbind outcome_bind]. by rewrite E4. }
  pose proof (rx_words_app _ _ _ _ _ _ _ _ E1 E5) as E6. rewrite E in E6. destruct Hh2 as (_ & Hp2 & Hd2 & Ht2 & _).
  assert (length ((os ++ take k vs) ++ [v]) = n) as E7 by (rewrite length_app, E3; cbn; lia). rewrite E7 in Ht2.
  eexists _, (f_data (l_frame p2)). split_and!; [rewrite E6; do 3 f_equal; rewrite <- E7; reflexivity|done| |done|done|].
  - rewrite Ht2. etransitivity; [|exact (f_equal (fun l => take n (os ++ l)) E)]. cbn beta.
    replace (os ++ take k vs ++ v :: drop (S k) vs) with (((os ++ take k vs) ++ [v]) ++ drop (S k) vs) by (by rewrite <- !app_assoc).
    by rewrite take_app_length' by done.
  - cbn. f_equal. rewrite length_drop. lia.
Qed.

(** ** Whole segments *)

Lemma learned_sizes_ok size l : 0 <= size <= 513 -> sizes_ok l -> sizes_ok (learn_framesize size l).
Proof.
  intros Hs (Hl & Hk & Ht). unfold learn_framesize. destruct (locked l) eqn:E; cbn [negb].
  - destruct (Z.eqb_spec size (lastsize l)); unfold sizes_ok; cbn; rewrite ?E; split_and!; (done || lia).
  - destruct (enabled l); [|unfold sizes_ok; rewrite E; split_and!; (done || lia)]. destruct (Z.eqb_spec size (lastsize l)) as [->|].
    + destruct (_ <? _); unfold sizes_ok; cbn; rewrite ?E; split_and!; (done || lia).
    + rewrite (proj2 (Z.ltb_ge _ _)) by lia. unfold sizes_ok; cbn; rewrite ?E; split_and!; (done || lia).
Qed.
Lemma overrun_sizes_ok l n : sizes_ok l -> sizes_ok (overrun l n).
Proof. intros (Hl & Hk & Ht). unfold overrun. destruct (_ && _); unfold sizes_ok; cbn; split_and!; (done || lia). Qed.
Lemma after_break_ok portno p l : on_line portno p l -> sizes_ok (learning l) -> sizes_ok (after_break l).
Proof.
  intros (Hd & _ & Hp) Hl. unfold after_break. destruct (pending l) as [s|]; [|done]. destruct Hp as [(_ & _ & _ & _ & _ & Ht) _].
  apply learned_sizes_ok; [|done]. apply (f_equal length) in Ht. rewrite length_take, Hd in Ht. unfold DATA_SIZE in Ht. lia.
Qed.

(** The break of a segment. *)
Lemma break_heard portno b p l : octet b -> on_line portno p l -> exists p' f,
  rx_words portno [0x100 + b] p = Done (p', option_list f) /\ Forall2 (shows portno) (option_list (pending l)) (option_list f) /\
  l_state p' = 1 /\ learned_rx_framesize p' = after_break l /\ length (f_data (l_frame p')) = DATA_SIZE /\
  f_port (l_frame p') = u16 portno /\ f_flags (l_frame p') = 0 /\ f_breaksize (l_frame p') = Z.shiftr b 2 /\ f_payload_size (l_frame p') = 0.
Proof.
  intros Hb (Hd & Hl & Hp). cbn [rx_words]. rewrite word_break by done. unfold rx_break.
  destruct (lookup_lt_is_Some_2 (f_data (l_frame p)) 0) as [v0 Hv0]; [rewrite Hd; unfold DATA_SIZE; lia|].
  rewrite (load_nat _ 0 _ Hv0 : load _ 0 = Done v0). cbn [mbind outcome_bind]. rewrite data_break by done. unfold after_break.
  destruct (pending l) as [s|] eqn:Es.
  - destruct Hp as [Hs (vs & E)]. pose proof Hs as (_ & _ & _ & Hn & _ & Ht). assert (0 < length s.2)%nat as Hpos by (rewrite E; cbn; lia).
    assert (v0 = 0) as -> by (apply (f_equal (fun l => l !! 0%nat)) in Ht; rewrite lookup_take_lt, Hv0, E in Ht by lia; by injection Ht).
    rewrite Hn, (proj2 (Z.ltb_lt _ _)) by lia. cbn [andb Z.eqb]. eexists _, (Some (l_frame p)). split; [reflexivity|].
    split; [constructor; [done|constructor]|]. cbn. by rewrite Hl.
  - rewrite Hp. eexists _, None. split; [reflexivity|]. by split_and!.
Qed.

(** A segment: the receiver does what the reference says. *)
Lemma segment_heard portno s p l : segment_ok s -> on_line portno p l -> sizes_ok (learning l) -> exists p' fs,
  rx_words portno (segment_words s) p = Done (p', fs) /\ Forall2 (shows portno) (segments_step l s).2 fs /\
  on_line portno p' (segments_step l s).1 /\ sizes_ok (learning (segments_step l s).1).
Proof.
  intros [Hb Hvs] Hp Hl. destruct s as [b os]. unfold segment_words. cbn [fst snd] in *.
  pose proof (after_break_ok portno p l Hp Hl) as Hok. destruct (break_heard portno b p l Hb Hp) as (p1 & f & E1 & Hf & Hst & Hlrn & Hd1 & Hprt & Hfl & Hbr & Hpay).
  unfold segments_step, hear. cbn [fst snd]. change (0x100 + b :: os) with ([0x100 + b] ++ os). rewrite <- Hlrn in *.
  destruct os as [|v vs].
  { exists p1, (option_list f). rewrite !app_nil_r. by split_and!. }
  apply Forall_cons in Hvs as [Hv Hvs]. destruct (Z.eqb_spec v 0) as [->|Hne].
  2: { assert (rx_word portno v p1 = Done (with_l_state 0 p1, None)) as E2.
       { rewrite word_octet by done. unfold rx_octet. rewrite Hst, data_octet by done. cbn [Z.eqb]. by rewrite (proj2 (Z.eqb_neq _ _)). }
       assert (rx_words portno (v :: vs) p1 = Done (with_learned (overrun (learned_rx_framesize p1) (length vs)) (with_l_state 0 p1), [])) as E3.
       { cbn [rx_words]. rewrite E2. cbn [mbind outcome_bind]. by rewrite octets_dropped. }
       eexists _, _. split; [by eapply rx_words_app|]. rewrite !app_nil_r. split_and!; [done|by split_and!|by apply overrun_sizes_ok]. }
  set (p2 := with_expected (if locked (learned_rx_framesize p1) then learnedsize (learned_rx_framesize p1) else 520)
    (with_l_state 2 (with_l_frame (with_payload_size 1 (with_data (<[0%nat := 0]> (f_data (l_frame p1))) (l_frame p1))) p1))).
  assert (rx_word portno 0 p1 = Done (p2, None)) as E2.
  { rewrite word_octet by done. unfold rx_octet. rewrite Hst, data_octet by done. cbn [Z.eqb].
    rewrite (store_nat _ 0 0 : (0 < _)%nat -> store 0 0 _ = _) by (rewrite Hd1; unfold DATA_SIZE; lia). done. }
  assert (holds [0] p2) as Hh.
  { split_and!; try done; [by cbn; rewrite length_insert|cbn; destruct (f_data (l_frame p1)); [discriminate|done]|cbn; lia..]. }
  assert (forall ys q fs, rx_words portno ys p2 = Done (q, fs) -> rx_words portno ([0x100 + b] ++ 0 :: ys) p = Done (q, option_list f ++ fs)) as Hrun.
  { intros ys q fs E. eapply rx_words_app; [done|]. cbn [rx_words]. rewrite E2. cbn [mbind outcome_bind]. by rewrite E. }
  set (l0 := learned_rx_framesize p1) in *. pose proof Hok as (Hlast & Hlk & Ht). unfold completes. cbn [fst snd].
  destruct (locked l0 && (2 <=? learnedsize l0) && (learnedsize l0 <=? Z.of_nat (length (0 :: vs)))) eqn:Ec.
  - apply andb_prop in Ec as [[Ek E3]%andb_prop E4]. apply Z.leb_le in E3, E4. specialize (Hlk Ek). cbn [length] in E4.
    destruct (octets_complete portno vs [0] p2 (Z.to_nat (learnedsize l0))) as (p3 & data & E5 & Hlen & Htake & Hpay3 & Hd3 & Hlrn3); try done; [change (learnedsize l0 = Z.of_nat (Z.to_nat (learnedsize l0))); lia|cbn; lia|cbn; lia|].
    exists p3, (option_list f ++ [with_payload_size (Z.of_nat (Z.to_nat (learnedsize l0))) (with_data data (l_frame p2))]).
    split_and!; [by apply Hrun| |split_and!; [done|done|done]|by apply overrun_sizes_ok].
    apply Forall2_app; [done|]. constructor; [|constructor]. assert (length (take (Z.to_nat (learnedsize l0)) (0 :: vs)) = Z.to_nat (learnedsize l0)) as El by (rewrite length_take; cbn; lia).
    unfold shows. cbn [fst snd]. rewrite El. by split_and!.
  - destruct (octets_collected portno vs [0] p2) as (data & E5 & Hh2); [done|done| |].
    { intros Ek k Hk Hk' Hn. change (learned_rx_framesize p2) with l0 in *. rewrite Ek, Hn in Ec. cbn [length andb] in *.
      rewrite (proj2 (Z.leb_le _ _)), (proj2 (Z.leb_le _ _)) in Ec by lia. done. }
    eexists _, _. split; [by apply Hrun|]. rewrite !app_nil_r. split; [done|]. split; [|done].
    destruct Hh2 as (_ & Hp2 & Hd2 & Ht2 & _). split_and!; [done|done|]. split; [by split_and!|]. by eexists.
Qed.

Lemma line_heard portno ss p l : Forall segment_ok ss -> on_line portno p l -> sizes_ok (learning l) -> exists p' fs,
  rx_words portno (concat (segment_words <$> ss)) p = Done (p', fs) /\ Forall2 (shows portno) (segments_run ss l).2 fs /\
  on_line portno p' (segments_run ss l).1 /\ sizes_ok (learning (segments_run ss l).1).
Proof.
  intros Hss. revert p l. induction Hss as [|s ss Hs Hss IH]; intros p l Hp Hl; [exists p, []; by split_and!|].
  destruct (segment_heard portno s p l Hs Hp Hl) as (p1 & fs1 & E1 & Hf1 & Hp1 & Hl1). cbn [segments_run].
  destruct (segments_step l s) as [l1 out1]. cbn [fst snd] in *. destruct (IH p1 l1 Hp1 Hl1) as (p2 & fs2 & E2 & Hf2 & Hp2 & Hl2).
  destruct (segments_run ss l1) as [l2 out2]. cbn [fst snd] in *. exists p2, (fs1 ++ fs2).
  split_and!; [by eapply (rx_words_app portno (segment_words s))|by apply Forall2_app|done|done].
Qed.

(** C10: what the ports of the llg-ip card make of a line is what [segments_run]
    says of its segments, whatever the sizes of the frames are and whether the
    port has learned a size or not: frames are handed up in order and none
    twice, each with its octets, the port and the length of its break; the
    octets never leave the buffer. *)
Theorem line_refinement portno ss p l : Forall segment_ok ss -> on_line portno p l -> sizes_ok (learning l) -> exists p' fs,
  rx_words portno (concat (segment_words <$> ss)) p = Done (p', fs) /\ Forall2 (shows portno) (segments_run ss l).2 fs /\
  on_line portno p' (segments_run ss l).1 /\ sizes_ok (learning (segments_run ss l).1).
Proof. apply line_heard. Qed.

(** Without a lock a frame waits for the next break. *)
Lemma hear_unlocked l s : locked l = false -> head s.2 = Some 0 -> hear l s = (Line (Some (s.1, take 513 s.2)) l, []).
Proof. intros Hl Hh. unfold hear, completes. destruct s.2; [done|]. injection Hh as ->. by rewrite Hl. Qed.

(** ** Learning *)

Lemma segments_run_snoc ss s l : segments_run (ss ++ [s]) l =
  let '(l1, out) := segments_run ss l in let '(l2, out') := segments_step l1 s in (l2, out ++ out').
Proof.
  revert l. induction ss as [|s' ss IH]; intros l; cbn [app segments_run].
  - destruct (segments_step l s) as [l2 out]. by rewrite app_nil_r.
  - destruct (segments_step l s') as [l1 out]. rewrite IH. destruct (segments_run ss l1) as [l2 out2].
    destruct (segments_step l2 s) as [l3 out3]. by rewrite app_assoc.
Qed.

(** What a port starts with that learns after [t] repetitions. *)
Definition learner (t : nat) : rx_learning := Learning true false 0 0 0 (Z.of_nat t).
(** A frame of [n] octets. *)
Definition steady (n : nat) (s : segment) : Prop := length s.2 = n /\ head s.2 = Some 0.
Definition steady_line (n t : nat) (ss : list segment) : line :=
  let k := length ss in
  if (t + 3 <=? k)%nat then Line None (Learning true true (Z.of_nat n) (Z.of_nat n) (Z.of_nat t + 1) (Z.of_nat t))
  else Line (last ss) (Learning true false 0 (if (k <=? 1)%nat then 0 else Z.of_nat n) (Z.of_nat (k - 2)) (Z.of_nat t)).
Definition steady_out (t : nat) (ss : list segment) : list segment := if (t + 3 <=? length ss)%nat then ss else removelast ss.

Lemma hear_steady n l s : steady n s -> (2 <= n <= 513)%nat ->
  hear l s = if locked l && (2 <=? learnedsize l) && (learnedsize l <=? Z.of_nat n)
             then (Line None (overrun l (n - Z.to_nat (learnedsize l))), [(s.1, take (Z.to_nat (learnedsize l)) s.2)])
             else (Line (Some s) l, []).
Proof.
  intros [Hn Hh] Hlen. unfold hear, completes. destruct s as [b os]. cbn [fst snd] in *. rewrite Hn. destruct os as [|v os]; [by cbn in Hn|].
  injection Hh as ->. cbn [Z.eqb]. destruct (_ && _); [done|]. by rewrite take_ge by (rewrite Hn; lia).
Qed.
Lemma steady_run n t ss : (2 <= n <= 513)%nat -> Forall (steady n) ss -> segments_run ss (Line None (learner t)) = (steady_line n t ss, steady_out t ss).
Proof.
  intros Hn. induction ss as [|s ss IH] using rev_ind; intros Hss.
  { unfold steady_line, steady_out. cbn [length]. by rewrite (proj2 (Nat.leb_gt _ _)) by lia. }
  apply Forall_app in Hss as [Hss Hs]. rewrite Forall_singleton in Hs. rewrite segments_run_snoc, IH by done. unfold segments_step.
  unfold steady_line, steady_out. rewrite length_app. cbn [length]. destruct (Nat.leb_spec (t + 3) (length ss)) as [Hk|Hk].
  - rewrite (proj2 (Nat.leb_le _ _)) by lia. unfold after_break. cbn [pending learning]. rewrite (hear_steady n) by done. cbn [locked learnedsize].
    rewrite (proj2 (Z.leb_le _ _)), Z.leb_refl by lia. cbn [andb]. rewrite Nat2Z.id, Nat.sub_diag. destruct s as [b os]. cbn [fst snd option_list app].
    rewrite take_ge by (destruct Hs as [<- _]; done). unfold overrun. cbn. done.
  - destruct ss as [|s0 ss0] using rev_ind; [clear IH|clear IHss0].
    { rewrite (proj2 (Nat.leb_gt (t + 3) _)) by (cbn; lia). unfold after_break. cbn [pending learning last]. by rewrite (hear_steady n). }
    apply Forall_app in Hss as [_ Hs0]. rewrite Forall_singleton in Hs0. destruct Hs0 as [Hs0 _]. rewrite last_snoc, removelast_last, length_app in *. cbn [length] in *.
    unfold after_break. cbn [pending learning option_list]. rewrite Hs0.
    assert (learn_framesize (Z.of_nat n) (Learning true false 0 (if (length ss0 + 1 <=? 1)%nat then 0 else Z.of_nat n) (Z.of_nat (length ss0 + 1 - 2)) (Z.of_nat t)) =
      if (t + 3 <=? length ss0 + 1 + 1)%nat then Learning true true (Z.of_nat n) (Z.of_nat n) (Z.of_nat t + 1) (Z.of_nat t)
      else Learning true false 0 (Z.of_nat n) (Z.of_nat (length ss0 + 1 + 1 - 2)) (Z.of_nat t)) as ->.
    { unfold learn_framesize. cbn [locked enabled negb lastsize repetion_count repetion_count_treshold]. destruct (Nat.leb_spec (length ss0 + 1) 1).
      - rewrite (proj2 (Z.eqb_neq _ _)), (proj2 (Z.ltb_ge _ _)), (proj2 (Nat.leb_gt _ _)) by lia. cbn. do 2 f_equal. lia.
      - rewrite Z.eqb_refl. destruct (Nat.leb_spec (t + 3) (length ss0 + 1 + 1)).
        + rewrite (proj2 (Z.ltb_lt _ _)) by lia. f_equal. lia.
        + rewrite (proj2 (Z.ltb_ge _ _)) by lia. cbn. f_equal. lia. }
    rewrite (hear_steady n) by done. rewrite removelast_last, (proj2 (Nat.leb_gt _ 1)) by lia. destruct (Nat.leb_spec (t + 3) (length ss0 + 1 + 1)).
    + cbn [locked learnedsize]. rewrite (proj2 (Z.leb_le _ _)), Z.leb_refl by lia. cbn [andb]. rewrite Nat2Z.id, Nat.sub_diag. destruct s as [b os]. cbn [fst snd].
      rewrite take_ge by (destruct Hs as [<- _]; done). unfold overrun. cbn [locked andb Nat.ltb Nat.leb]. by rewrite <- app_assoc.
    + cbn [locked andb]. by rewrite last_snoc.
Qed.

(** Frames of one size: a port that learns hands all of them up, in order
    and with their octets.  The last one waits for the next break as long as
    not more than [t + 2] were heard; from then on (the driver has [t] = 20)
    every frame is handed up with its last octet. *)
Theorem steady_frames_are_received portno n t ss p : (2 <= n <= 513)%nat -> Forall segment_ok ss -> Forall (steady n) ss ->
  on_line portno p (Line None (learner t)) -> exists p' fs,
  rx_words portno (concat (segment_words <$> ss)) p = Done (p', fs) /\
  Forall2 (shows portno) (if (t + 3 <=? length ss)%nat then ss else removelast ss) fs.
Proof.
  intros Hn Hss Hst Hp. destruct (line_heard portno ss p _ Hss Hp) as (p' & fs & E & Hfs & _); [split_and!; cbn; try lia; done|].
  exists p', fs. split; [done|]. by rewrite (steady_run n t) in Hfs.
Qed.

(** A frame that is longer than the size that was learned is cut there, and the
    size is forgotten. *)
Theorem longer_frame_is_cut portno p l n b os : on_line portno p (Line None l) -> sizes_ok l -> locked l = true -> learnedsize l = Z.of_nat n -> (2 <= n)%nat ->
  octet b -> Forall octet os -> (n < length os)%nat -> head os = Some 0 -> exists p' f,
  rx_words portno (segment_words (b, os)) p = Done (p', [f]) /\ shows portno (b, take n os) f /\ on_line portno p' (Line None (lose_lock l)).
Proof.
  intros Hp Hl Hlk Hn H2 Hb Hos Hlen Hh. destruct (segment_heard portno (b, os) p (Line None l)) as (p' & fs & E & Hfs & Hp' & _); [by split|done..|].
  unfold segments_step, after_break, hear in Hfs, Hp'. cbn [pending learning fst snd] in Hfs, Hp'. destruct os as [|v os]; [by cbn in Hlen|]. injection Hh as ->.
  cbn [Z.eqb] in Hfs, Hp'. unfold completes in Hfs, Hp'. cbn [fst snd] in Hfs, Hp'.
  rewrite Hlk, Hn, (proj2 (Z.leb_le 2 _)), (proj2 (Z.leb_le (Z.of_nat n) _)) in Hfs, Hp' by lia. cbn [andb option_list app fst snd] in Hfs, Hp'.
  rewrite Nat2Z.id in Hfs, Hp'. apply Forall2_cons_inv_l in Hfs as (f & fs' & Hf & Hnil & ->). apply Forall2_nil_inv_l in Hnil as ->.
  exists p', f. split_and!; [done|done|]. unfold overrun in Hp'. rewrite Hlk, (proj2 (Nat.ltb_lt _ _)) in Hp' by (cbn [length] in *; lia). done.
Qed.

(** ** Concrete lines *)

Definition test_port : llgdmx_port := with_learned (learner 1) zero_port.
Definition test_frames : list segment := [(100, [0; 1; 2]); (100, [0; 3; 4]); (104, [0; 5; 6]); (100, [0; 7; 8]); (100, [0; 9; 10])].
Lemma test_port_on_line : on_line 4 test_port (Line None (learner 1)).
Proof. by split_and!. Qed.
Lemma test_frames_ok : Forall segment_ok test_frames.
Proof. unfold test_frames. repeat constructor; cbn; lia. Qed.
Lemma line_refinement_witness : exists p' fs,
  rx_words 4 (concat (segment_words <$> test_frames ++ [(100, [0; 1; 2; 3]); (100, [5; 6]); (100, [])])) test_port = Done (p', fs) /\
  Forall2 (shows 4) (test_frames ++ [(100, [0; 1; 2])]) fs /\
  on_line 4 p' (Line None (Learning true false 512 512 0 1)) /\ sizes_ok (Learning true false 512 512 0 1).
Proof.
  apply (line_refinement 4 (test_frames ++ [(100, [0; 1; 2; 3]); (100, [5; 6]); (100, [])]) test_port (Line None (learner 1)));
    [repeat constructor; cbn; lia|apply test_port_on_line|split_and!; [cbn; lia..|done|cbn; lia]].
Defined.
Lemma steady_frames_are_received_witness : exists p' fs,
  rx_words 4 (concat (segment_words <$> test_frames)) test_port = Done (p', fs) /\ Forall2 (shows 4) test_frames fs.
Proof.
  apply (steady_frames_are_received 4 3 1 test_frames test_port); [lia|apply test_frames_ok|by repeat constructor|apply test_port_on_line].
Defined.
