(* ===== verification/CuseLlgipContract.v ===== *)
(** * The llg-ip driver: from the line to the files and from a file to the line

    The composition of [CuseDev.v] and [CuseLlgip.v] with a controller of
    which only the class [Controller] is known: an interrupt brings the
    frames in the FIFOs to the files, and a frame that is written to a file
    becomes words of a FIFO. *)
From stdpp Require Import base countable gmap list.
From S2P Require Import Prelude KList FrameQueue DmxCore CuseDev CuseContract CuseProperties CuseInfo CuseDrivers MappedBus Uio CuseLlgip CuseLlgipReception.

(** ** The controller *)

(** Where a register of a port is. *)
Definition port_offset (sz : nat) (p r : Z) : Z := Z.of_nat sz * (4 * (1 + p) + r).

(** What the driver relies on: the words that were received are read one by one
    and then the word that says that there are none; the words that are
    written are sent if there is room, and there is room for a frame when the
    transmitter says that it is empty, which it says some day. *)
Class Controller (H : Type) `{Device H} (sz : nat) := {
  rx_fifo : Z -> H -> list Z;
  irq_status : H -> Z;
  tx_words : Z -> H -> list Z;
  tx_room : Z -> H -> nat;
  tx_busy : Z -> H -> nat;
  rx_empty p d : 0 <= p -> rx_fifo p d = [] -> exists x d',
    dev_read sz (port_offset sz p DMX_FIFODATA_REGNO) d = Done (x, d') /\ DMX_STATUS_RXFIFOEMPTY x <> 0 /\ forall q, rx_fifo q d' = rx_fifo q d;
  rx_pop p d x xs : 0 <= p -> rx_fifo p d = x :: xs -> exists d',
    dev_read sz (port_offset sz p DMX_FIFODATA_REGNO) d = Done (x, d') /\ DMX_STATUS_RXFIFOEMPTY x = 0 /\
    rx_fifo p d' = xs /\ forall q, q <> p -> rx_fifo q d' = rx_fifo q d;
  irq_read d : exists d', dev_read sz (Z.of_nat sz * DMX_IRQ_STATUS_REGNO) d = Done (irq_status d, d') /\ forall q, rx_fifo q d' = rx_fifo q d;
  tx_push p d v : 0 <= p -> (0 < tx_room p d)%nat -> exists d',
    dev_write sz (port_offset sz p DMX_FIFODATA_REGNO) v d = Done (tt, d') /\ tx_words p d' = tx_words p d ++ [v] /\ tx_room p d' = pred (tx_room p d);
  tx_status p d : 0 <= p -> exists s d',
    dev_read sz (port_offset sz p DMX_STATUS_REGNO) d = Done (s, d') /\ tx_words p d' = tx_words p d /\
    if decide (DMX_STATUS_TXFIFOEMPTY s = 0) then (tx_busy p d' < tx_busy p d)%nat else (514 <= tx_room p d')%nat }.

Section card.
Context {H : Type} `{Controller H sz} (cardno : Z) (interrupted : nat -> bool).
Abbreviation card := (dmxllgip_card H).
Abbreviation W := (cuse card).
Implicit Types w : W.

Lemma read_port_register p r (d d' : H) v size fd : dev_read sz (port_offset sz p r) d = Done (v, d') ->
  read_dmx_port_reg sz p r (Some (Handle d size fd)) = Done (v, Some (Handle d' size fd)).
Proof. intros E. unfold read_dmx_port_reg, dmx_portregister_offset. rewrite peek_word. by apply peek_run. Qed.
Lemma write_port_register p r (d d' : H) v size fd : dev_write sz (port_offset sz p r) v d = Done (tt, d') ->
  write_dmx_port_reg sz p r v (Some (Handle d size fd)) = Done (tt, Some (Handle d' size fd)).
Proof. intros E. unfold write_dmx_port_reg, dmx_portregister_offset. rewrite poke_word. by apply poke_run. Qed.
Lemma on_llg_uio_run {A} (m : prog (option (uio_handle H)) A) w v h' : m (g_uio (u_drv w)) = Done (v, h') ->
  on_llg_uio m w = Done (v, with_u_drv (with_g_uio h' (u_drv w)) w).
Proof. intros E. unfold on_llg_uio, mbind, prog_bind, gets, lift_outcome. by rewrite E. Qed.

(** ** From the line to the files *)

(** A word of the FIFO: the port takes it and what is complete is handed up. *)
Lemma wp_take_word i x w a p p' f c fk fc q n : g_ports (u_drv w) !! i = Some p -> rx_word (Z.of_nat i) x p = Done (p', f) -> g_card (u_drv w) = Some c ->
  implements w a -> Forall (fun f => f_port f < 32) (option_list f) -> polled c fk fc q (length (option_list f) + n) a ->
  wp (take_word interrupted (Z.of_nat i) x)
    (fun _ w' => u_drv w' = with_g_ports (<[i := p']> (g_ports (u_drv w))) (u_drv w) /\
       exists a', implements w' a' /\ polled c fk fc (q ++ filter (fun f => listens fc f) (option_list f)) n a') w.
Proof.
  intros Hp Ex Hc Hw Hf Hk. assert (i < length (g_ports (u_drv w)))%nat as Hi by (by eapply lookup_lt_Some).
  assert (forall w1, u_drv w1 = u_drv w -> forall a', implements w1 a' ->
    wp (set_llg_port (Z.of_nat i) p') (fun _ w' => u_drv w' = with_g_ports (<[i := p']> (g_ports (u_drv w))) (u_drv w) /\ implements w' a') w1) as Hset.
  { intros w1 Hd a' Hw1. unfold set_llg_port. apply wp_bind, wp_gets, wp_bind. rewrite Hd.
    eapply wp_done; [unfold lift_outcome; by rewrite store_nat by done|]. apply wp_modify. split; [done|]. by apply implements_drv. }
  unfold take_word, llg_port_at. apply wp_bind, wp_bind, wp_gets. eapply wp_done; [unfold lift_outcome; by rewrite (load_nat _ _ _ Hp)|]. cbn beta.
  apply wp_bind. eapply wp_done; [unfold lift_outcome; by rewrite Ex|]. cbn beta iota. apply wp_bind, wp_gets, wp_bind. rewrite Hc. destruct f as [f|]; cbn [option_list length] in *.
  - apply (proj1 (Forall_singleton _ f)) in Hf. eapply wp_mono; [by eapply wp_hand_up|]. cbn beta. intros _ w1 [Hd (a' & Hw1 & Hk')].
    eapply wp_mono; [by eapply Hset|]. cbn beta. intros _ w2 [Hd2 Hw2]. split; [done|]. by exists a'.
  - apply wp_ret. eapply wp_mono; [by eapply Hset|]. cbn beta. intros _ w2 [Hd2 Hw2]. split; [done|]. exists a. rewrite app_nil_r. done.
Qed.

(** The loop over the words of one FIFO. *)
Lemma wp_check_port xs : forall i fuel w a d size fd p p' fs c fk fc q n,
  g_uio (u_drv w) = Some (Handle d size fd) -> rx_fifo (Z.of_nat i) d = xs -> (length xs < fuel)%nat ->
  g_ports (u_drv w) !! i = Some p -> rx_words (Z.of_nat i) xs p = Done (p', fs) -> Forall (fun f => f_port f < 32) fs ->
  g_card (u_drv w) = Some c -> implements w a -> polled c fk fc q (length fs + n) a ->
  wp (llgdmx_check_rx_port sz interrupted fuel (Z.of_nat i))
    (fun _ w' => exists d' a', u_drv w' = with_g_ports (<[i := p']> (g_ports (u_drv w))) (with_g_uio (Some (Handle d' size fd)) (u_drv w)) /\
       rx_fifo (Z.of_nat i) d' = [] /\ (forall j, j <> Z.of_nat i -> rx_fifo j d' = rx_fifo j d) /\
       implements w' a' /\ polled c fk fc (q ++ filter (fun f => listens fc f) fs) n a') w.
Proof.
  induction xs as [|x xs IH]; intros i fuel w a d size fd p p' fs c fk fc q n Hu Hx Hfuel Hp Hrx Hfs Hc Hw Hk; (destruct fuel as [|fuel]; [lia|]);
    cbn [llgdmx_check_rx_port]; unfold read_rx_fifo, read_fifo; apply wp_bind.
  - destruct (rx_empty (Z.of_nat i) d) as (x & d' & E & Hemp & Hsame); [lia|done|].
    eapply wp_done; [apply on_llg_uio_run; rewrite Hu; by apply read_port_register|]. cbn beta. rewrite (proj2 (Z.eqb_neq _ _)) by done. cbn [negb]. apply wp_ret.
    injection Hrx as <- <-. exists d', a. cbn [u_drv with_u_drv]. split_and!; [|by rewrite Hsame|by intros; apply Hsame|by apply implements_drv|by rewrite app_nil_r].
    rewrite list_insert_id by done. done.
  - destruct (rx_pop (Z.of_nat i) d x xs) as (d1 & E & Hemp & Hx1 & Hsame1); [lia|done|].
    eapply wp_done; [apply on_llg_uio_run; rewrite Hu; by apply read_port_register|]. cbn beta. rewrite Hemp. cbn [Z.eqb negb]. apply wp_bind.
    cbn [rx_words] in Hrx. destruct (rx_word (Z.of_nat i) x p) as [[p1 f]|] eqn:Ex; [|done]. cbn [mbind outcome_bind] in Hrx.
    destruct (rx_words (Z.of_nat i) xs p1) as [[p2 fs2]|] eqn:Exs; [|done]. injection Hrx as <- <-. apply Forall_app in Hfs as [Hf Hfs].
    rewrite length_app, <- Nat.add_assoc in Hk. cbn [length] in Hfuel.
    eapply wp_mono; [eapply (wp_take_word i x _ a p p1 f c fk fc q (length fs2 + n)); try done; by apply implements_drv|].
    cbn beta. intros _ w1 [Hd1 (a1 & Hw1 & Hk1)].
    eapply wp_mono; [eapply (IH i fuel w1 a1 d1 size fd p1 p2 fs2 c fk fc); rewrite ?Hd1; try done; [lia|cbn; apply list_lookup_insert_eq; by eapply lookup_lt_Some]|].
    cbn beta. intros _ w2 (d2 & a2 & Hd2 & Hx2 & Hsame2 & Hw2 & Hk2). exists d2, a2. split_and!; [|done| |done|].
    + rewrite Hd2, Hd1. cbn. unfold with_g_ports, with_g_uio. cbn. by rewrite list_insert_insert_eq.
    + intros j Hj. by rewrite Hsame2, Hsame1.
    + by rewrite filter_app, app_assoc.
Qed.

(** What is on the lines of the ports: the words in their FIFOs, and what the
    ports know before. *)
Context (segs : nat -> list segment) (lines : nat -> line).
Definition port_ready (i : nat) (d : H) (u : card) : Prop :=
  rx_fifo (Z.of_nat i) d = concat (segment_words <$> segs i) /\ Forall segment_ok (segs i) /\ sizes_ok (learning (lines i)) /\
  exists p, g_ports u !! i = Some p /\ on_line (Z.of_nat i) p (lines i).
Definition port_served (i : nat) (d : H) (u : card) : Prop :=
  rx_fifo (Z.of_nat i) d = [] /\ exists p, g_ports u !! i = Some p /\ on_line (Z.of_nat i) p (segments_run (segs i) (lines i)).1.
(** What is complete at the ports whose bits are set. *)
Definition heard_at (irq : Z) (i : nat) : list (Z * segment) :=
  if Z.testbit irq (Z.of_nat i) then pair (Z.of_nat i) <$> (segments_run (segs i) (lines i)).2 else [].
Definition heard_by (irq : Z) (js : list nat) : list (Z * segment) := concat (heard_at irq <$> js).
Definition shown (x : Z * segment) (f : dmx512frame) : Prop := shows x.1 x.2 f.
(** Ports and FIFOs that are not touched. *)
Definition untouched (i : nat) (d d' : H) (u u' : card) : Prop := rx_fifo (Z.of_nat i) d' = rx_fifo (Z.of_nat i) d /\ g_ports u' !! i = g_ports u !! i.

Lemma port_bit_low i : (i < 31)%nat -> port_bit (Z.of_nat i) = Done (2 ^ Z.of_nat i).
Proof. intros Hi. unfold port_bit. rewrite (proj2 (Z.ltb_lt _ _)) by lia. by rewrite Z.shiftl_1_l. Qed.
Lemma has_bit x i : has x (2 ^ Z.of_nat i) = Z.testbit x (Z.of_nat i).
Proof.
  unfold has. destruct (Z.testbit x (Z.of_nat i)) eqn:E.
  - apply negb_true_iff, Z.eqb_neq. intros Hz. apply (f_equal (fun v => Z.testbit v (Z.of_nat i))) in Hz.
    rewrite Z.land_spec, E, Z.pow2_bits_true, Z.bits_0 in Hz by lia. done.
  - apply negb_false_iff, Z.eqb_eq. apply Z.bits_inj'. intros k Hk. rewrite Z.land_spec, Z.bits_0. destruct (decide (k = Z.of_nat i)) as [->|]; [by rewrite E|].
    rewrite Z.pow2_bits_false by lia. by rewrite andb_false_r.
Qed.
Lemma shown_ports i ss fs : (i < 32)%nat -> Forall2 (shows (Z.of_nat i)) ss fs -> Forall (fun f => f_port f < 32) fs.
Proof.
  intros Hi Hf. induction Hf as [|s f ss fs (Hp & _) Hf IH]; constructor; [|done]. rewrite Hp. unfold u16. rewrite Z.mod_small; lia.
Qed.

(** One port of the loop over the ports. *)
Lemma wp_serve_port i fuel irq w a d size fd c fk fc q n : g_uio (u_drv w) = Some (Handle d size fd) -> (i < 31)%nat ->
  port_ready i d (u_drv w) -> (length (concat (segment_words <$> segs i)) < fuel)%nat -> g_card (u_drv w) = Some c ->
  implements w a -> polled c fk fc q (length (heard_at irq i) + n) a ->
  wp (when (has irq (2 ^ Z.of_nat i)) (llgdmx_check_rx_port sz interrupted fuel (Z.of_nat i)))
    (fun _ w' => exists d' a' fs, g_uio (u_drv w') = Some (Handle d' size fd) /\ g_card (u_drv w') = Some c /\
       (Z.testbit irq (Z.of_nat i) = true -> port_served i d' (u_drv w')) /\
       (forall j, j <> i -> untouched j d d' (u_drv w) (u_drv w')) /\
       Forall2 shown (heard_at irq i) fs /\ implements w' a' /\ polled c fk fc (q ++ filter (fun f => listens fc f) fs) n a') w.
Proof.
  intros Hu Hi (Hx & Hok & Hl & p & Hp & Hline) Hfuel Hc Hw Hk. rewrite has_bit. unfold heard_at in *. destruct (Z.testbit irq (Z.of_nat i)); cbn [when].
  2: { apply wp_ret. exists d, a, []. rewrite app_nil_r. by split_and!. }
  destruct (line_heard (Z.of_nat i) (segs i) p (lines i) Hok Hline Hl) as (p' & fs & E & Hfs & Hline' & _).
  rewrite length_fmap, (Forall2_length _ _ _ Hfs) in Hk.
  eapply wp_mono; [eapply (wp_check_port _ i fuel w a d size fd p p' fs c fk fc q n); try done; [eapply shown_ports; [|done]; lia]|].
  cbn beta. intros _ w' (d' & a' & Hd & Hx' & Hsame & Hw' & Hk'). exists d', a', fs. rewrite Hd. cbn. split_and!; try done.
  - intros _. split; [done|]. exists p'. split; [|done]. cbn. apply list_lookup_insert_eq. by eapply lookup_lt_Some.
  - intros j Hj. split; [apply Hsame; lia|]. cbn. by rewrite list_lookup_insert_ne by done.
  - apply Forall2_fmap_l. eapply Forall2_impl; [done|]. by intros.
Qed.

Lemma wp_check_ports fuel irq size fd c fk fc k : forall i w a d q n, g_uio (u_drv w) = Some (Handle d size fd) -> (i + k <= 31)%nat ->
  (forall j, (i <= j < i + k)%nat -> port_ready j d (u_drv w) /\ (length (concat (segment_words <$> segs j)) < fuel)%nat) -> g_card (u_drv w) = Some c ->
  implements w a -> polled c fk fc q (length (heard_by irq (seq i k)) + n) a ->
  wp (check_ports sz interrupted k fuel irq (Z.of_nat i))
    (fun _ w' => exists d' a' fs, g_uio (u_drv w') = Some (Handle d' size fd) /\
       (forall j, (i <= j < i + k)%nat -> Z.testbit irq (Z.of_nat j) = true -> port_served j d' (u_drv w')) /\
       (forall j, (j < i)%nat -> untouched j d d' (u_drv w) (u_drv w')) /\
       Forall2 shown (heard_by irq (seq i k)) fs /\ implements w' a' /\ polled c fk fc (q ++ filter (fun f => listens fc f) fs) n a') w.
Proof.
  induction k as [|k IH]; intros i w a d q n Hu Hi Hready Hc Hw Hk; cbn [check_ports seq].
  { apply wp_ret. exists d, a, []. rewrite app_nil_r. split_and!; [done|lia|by split|constructor|done..]. }
  apply wp_bind. eapply wp_done; [unfold lift_outcome; by rewrite port_bit_low by lia|]. cbn beta. apply wp_bind.
  unfold heard_by in Hk. cbn [seq fmap list_fmap concat] in Hk. rewrite length_app, <- Nat.add_assoc in Hk.
  eapply wp_mono; [by eapply (wp_serve_port i fuel irq w a d size fd c fk fc q); try done; try lia; apply Hready; lia|].
  cbn beta. intros _ w1 (d1 & a1 & fs1 & Hu1 & Hc1 & Hserved1 & Hother1 & Hfs1 & Hw1 & Hk1).
  replace (Z.of_nat i + 1) with (Z.of_nat (S i)) by lia.
  eapply wp_mono; [eapply (IH (S i) w1 a1 d1); try done; [lia|]|].
  { intros j Hj. destruct (Hready j) as [(Hx & Hok & Hl & p & Hp & Hline) Hfuel]; [lia|]. destruct (Hother1 j) as [Ex Ep]; [lia|].
    split; [|done]. split_and!; [by rewrite Ex|done|done|]. exists p. by rewrite Ep. }
  cbn beta. intros _ w2 (d2 & a2 & fs2 & Hu2 & Hserved2 & Hother2 & Hfs2 & Hw2 & Hk2). exists d2, a2, (fs1 ++ fs2). split_and!; [done|..|done|].
  - intros j Hj Hbit. destruct (decide (j = i)) as [->|]; [|apply Hserved2; [lia|done]]. destruct (Hother2 i) as [Ex Ep]; [lia|].
    destruct (Hserved1 Hbit) as (Hx & p & Hp & Hline). split; [by rewrite Ex|]. exists p. by rewrite Ep.
  - intros j Hj. destruct (Hother2 j) as [Ex Ep]; [lia|]. destruct (Hother1 j) as [Ex1 Ep1]; [lia|]. split; congruence.
  - unfold heard_by. cbn [seq fmap list_fmap concat]. by apply Forall2_app.
  - by rewrite filter_app, app_assoc.
Qed.

(** C8: an interrupt of the llg-ip controller: the words in the FIFOs of the
    ports whose bits are set are read to the last, every port makes the
    frames of them that the reference makes of its line, and a file that
    polls has those that its filter selects in its queue, in the order of the
    ports and, of one port, of the line. *)
Theorem interrupt_brings_frames got fuel w a d size fd c fk fc q n : g_uio (u_drv w) = Some (Handle d size fd) -> 0 <= g_num_ports (u_drv w) < 32 ->
  (forall j, (j < Z.to_nat (g_num_ports (u_drv w)))%nat -> port_ready j d (u_drv w) /\ (length (concat (segment_words <$> segs j)) < fuel)%nat) ->
  g_card (u_drv w) = Some c -> implements w a -> let out := heard_by (irq_status d) (seq 0 (Z.to_nat (g_num_ports (u_drv w)))) in
  polled c fk fc q (length out + n) a ->
  wp (handle_llgdmx_interrupt sz interrupted got fuel)
    (fun _ w' => exists d' a' fs, g_uio (u_drv w') = Some (Handle d' size fd) /\
       (forall j, (j < Z.to_nat (g_num_ports (u_drv w)))%nat -> Z.testbit (irq_status d) (Z.of_nat j) = true -> port_served j d' (u_drv w')) /\
       Forall2 shown out fs /\ implements w' a' /\ a_files a' !! fk = Some (File fc (q ++ filter (fun f => listens fc f) fs))) w.
Proof.
  intros Hu Hn Hready Hc Hw out Hk. unfold handle_llgdmx_interrupt, call_os. apply wp_bind, wp_bind, wp_gets, wp_bind.
  eapply wp_done; [unfold lift_outcome; by rewrite Hu|]. cbn beta. apply wp_modify. unfold llgdmx_check_rx. apply wp_bind, wp_bind.
  destruct (irq_read d) as (d1 & E & Hsame). eapply wp_done; [apply on_llg_uio_run; cbn [u_drv with_u_drv with_g_calls g_uio]; rewrite Hu; unfold dmx_read_global_irqstatus, read_dmx_reg; rewrite peek_word; by apply peek_run|].
  cbn beta. apply wp_bind, wp_gets. change 0 with (Z.of_nat 0) at 1. cbn [u_drv with_u_drv with_g_uio with_g_calls g_num_ports].
  eapply wp_mono; [eapply (wp_check_ports fuel (irq_status d) size fd c fk fc _ 0 _ a d1 q n); try done; [lia| |by do 2 apply implements_drv]|].
  { intros j Hj. destruct (Hready j) as [(Hx & Hr) Hf]; [lia|]. split; [|done]. split; [by rewrite Hsame|done]. }
  cbn beta. intros _ w' (d' & a' & fs & Hu' & Hserved & _ & Hfs & Hw' & Hk'). apply wp_bind, wp_gets, wp_bind.
  eapply wp_done; [unfold lift_outcome; by rewrite Hu'|]. cbn beta. apply wp_modify. exists d', a', fs. split_and!; [done| |done|by apply implements_drv|by destruct Hk'].
  intros j Hj Hbit. by apply Hserved; [lia|].
Qed.

(** ** From a file to the line *)

Lemma wait_run p size fd fuel : forall d, 0 <= p -> (tx_busy p d < fuel)%nat -> exists d',
  dmxllgip_ll_waitForTransmitterToBecomeEmpty sz fuel p (Some (Handle d size fd)) = Done (tt, Some (Handle d' size fd)) /\
  tx_words p d' = tx_words p d /\ (514 <= tx_room p d')%nat.
Proof.
  induction fuel as [|fuel IH]; intros d Hp Hb; [lia|]. destruct (tx_status p d Hp) as (s & d1 & E & Hw & Hs).
  cbn [dmxllgip_ll_waitForTransmitterToBecomeEmpty]. unfold read_fifo_status. rewrite (bind_run _ _ _ _ _ (read_port_register p _ d d1 s size fd E)).
  destruct (decide (DMX_STATUS_TXFIFOEMPTY s = 0)) as [->|Hne].
  - cbn [Z.eqb]. destruct (IH d1 Hp ltac:(lia)) as (d2 & E2 & Hw2 & Hr). exists d2. split; [done|]. by rewrite Hw2.
  - rewrite (proj2 (Z.eqb_neq _ _)) by done. by exists d1.
Qed.
Lemma push_run p v d size fd : 0 <= p -> (0 < tx_room p d)%nat -> exists d',
  write_fifo sz p v (Some (Handle d size fd)) = Done (tt, Some (Handle d' size fd)) /\
  tx_words p d' = tx_words p d ++ [v] /\ tx_room p d' = pred (tx_room p d).
Proof. intros Hp Hr. destruct (tx_push p d v Hp Hr) as (d' & E & Hw & Hroom). exists d'. split; [by apply write_port_register|done]. Qed.
Lemma write_payload_run p data size fd n : forall (i : nat) d, 0 <= p -> (1 + i + n <= length data)%nat -> (n <= tx_room p d)%nat -> exists d',
  write_payload sz n (Z.of_nat i) p data (Some (Handle d size fd)) = Done (tt, Some (Handle d' size fd)) /\
  tx_words p d' = tx_words p d ++ take n (drop (S i) data) /\ (tx_room p d' = tx_room p d - n)%nat.
Proof.
  induction n as [|n IH]; intros i d Hp Hlen Hr; cbn [write_payload]; [exists d; rewrite take_0, app_nil_r; split_and!; [done..|lia]|].
  destruct (lookup_lt_is_Some_2 data (S i)) as [v Hv]; [lia|]. destruct (push_run p v d size fd Hp) as (d1 & E1 & Hw1 & Hr1); [lia|].
  destruct (IH (S i) d1 Hp) as (d2 & E2 & Hw2 & Hr2); [lia|lia|]. exists d2. split_and!; [| |lia].
  - unfold mbind at 1, prog_bind at 1, lift_outcome. replace (1 + Z.of_nat i) with (Z.of_nat (S i)) by lia. rewrite (load_nat _ _ _ Hv).
    rewrite (bind_run _ _ _ _ _ E1). by replace (Z.of_nat i + 1) with (Z.of_nat (S i)) by lia.
  - rewrite Hw2, Hw1, <- app_assoc. by rewrite (drop_S data v (S i)).
Qed.
(** The first word past the data is not written: the program has left it. *)
Lemma write_payload_beyond p data size fd n : forall (i : nat) d, 0 <= p -> (i < length data)%nat -> (length data < 1 + i + n)%nat -> (length data - 1 - i <= tx_room p d)%nat ->
  write_payload sz n (Z.of_nat i) p data (Some (Handle d size fd)) = Fault OutOfBounds.
Proof.
  induction n as [|n IH]; intros i d Hp Hi Hlen Hr; cbn [write_payload]; [lia|]. unfold mbind at 1, prog_bind at 1, lift_outcome.
  replace (1 + Z.of_nat i) with (Z.of_nat (S i)) by lia. destruct (decide (S i < length data)%nat) as [Hlt|Hge]; [|by rewrite load_beyond by lia].
  destruct (lookup_lt_is_Some_2 data (S i)) as [v Hv]; [done|]. rewrite (load_nat _ _ _ Hv).
  destruct (push_run p v d size fd Hp) as (d1 & E1 & Hw1 & Hr1); [lia|]. rewrite (bind_run _ _ _ _ _ E1). replace (Z.of_nat i + 1) with (Z.of_nat (S i)) by lia.
  apply IH; [done|lia..].
Qed.

(** The frame as words: a break whose length the receiver gives back, the start
    code, and as many slots as the payload is said to have. *)
Definition sent_segment (f : dmx512frame) : segment := (4 * tx_breaksize f + 3, take (S (Z.to_nat (f_payload_size f))) (f_data f)).
Lemma tx_breaksize_range f : 22 <= tx_breaksize f <= 63.
Proof. unfold tx_breaksize. destruct (Z.ltb_spec (f_breaksize f) 22), (Z.ltb_spec 63 (f_breaksize f)); lia. Qed.
Lemma header_run f size fd d v : 0 <= f_port f -> f_data f !! 0%nat = Some v -> (514 <= tx_room (f_port f) d)%nat -> exists d',
  dmxllgip_ll_sendFrame sz f (Some (Handle d size fd)) = write_payload sz (Z.to_nat (f_payload_size f)) 0 (f_port f) (f_data f) (Some (Handle d' size fd)) /\
  tx_words (f_port f) d' = tx_words (f_port f) d ++ [0x100 + (4 * tx_breaksize f + 3); v] /\ (512 <= tx_room (f_port f) d')%nat.
Proof.
  intros Hp Hv Hr. destruct (push_run (f_port f) (0x100 + Z.shiftl (tx_breaksize f) 2 + 3) d size fd Hp) as (d1 & E1 & Hw1 & Hr1); [lia|].
  destruct (push_run (f_port f) v d1 size fd Hp) as (d2 & E2 & Hw2 & Hr2); [lia|]. exists d2. split_and!; [| |lia].
  - unfold dmxllgip_ll_sendFrame. unfold mbind at 1, prog_bind at 1, get_state. rewrite (bind_run _ _ _ _ _ E1). unfold mbind at 1, prog_bind at 1, lift_outcome at 1.
    change (load (f_data f) 0) with (load (f_data f) (Z.of_nat 0)). rewrite (load_nat _ _ _ Hv). by rewrite (bind_run _ _ _ _ _ E2).
  - rewrite Hw2, Hw1, <- app_assoc. cbn [app]. do 2 f_equal. rewrite Z.shiftl_mul_pow2 by lia. lia.
Qed.

Lemma llg_send_run fuel c f w d size fd n : g_uio (u_drv w) = Some (Handle d size fd) -> 0 <= f_port f < 20 -> f_payload_size f = Z.of_nat n -> (0 < n <= 512)%nat ->
  length (f_data f) = DATA_SIZE -> (tx_busy (f_port f) d < fuel)%nat -> exists d',
  dmxllgip_sendFrame sz fuel c f w = Done (tt, with_u_drv (with_g_uio (Some (Handle d' size fd)) (u_drv w)) w) /\
  tx_words (f_port f) d' = tx_words (f_port f) d ++ segment_words (sent_segment f).
Proof.
  intros Hu Hp Hn Hlen Hd Hb. destruct (lookup_lt_is_Some_2 (f_data f) 0) as [v Hv]; [rewrite Hd; unfold DATA_SIZE; lia|].
  destruct (wait_run (f_port f) size fd fuel d) as (d1 & E1 & Hw1 & Hr1); [lia|done|]. destruct (header_run f size fd d1 v) as (d2 & E2 & Hw2 & Hr2); [lia|done..|].
  destruct (write_payload_run (f_port f) (f_data f) size fd n 0 d2) as (d3 & E3 & Hw3 & _); [lia|rewrite Hd; unfold DATA_SIZE; lia|lia|].
  exists d3. split.
  - unfold dmxllgip_sendFrame. unfold mbind at 1, prog_bind at 1, gets at 1. rewrite Hu, (proj2 (Z.ltb_lt _ 20)), (proj2 (Z.ltb_lt 0 _)) by lia. cbn [andb when].
    erewrite bind_run; [|apply on_llg_uio_run; rewrite Hu; exact E1]. rewrite Hn, Nat2Z.id in E2. erewrite on_llg_uio_run; [|cbn [u_drv with_u_drv with_g_uio g_uio]; rewrite E2; exact E3]. done.
  - rewrite Hw3, Hw2, Hw1, <- app_assoc. unfold sent_segment. rewrite Hn, Nat2Z.id. unfold segment_words. cbn [fst snd app].
    destruct (f_data f) as [|v' data]; [discriminate|]. by injection Hv as ->.
Qed.

(** C21: a frame that is written to a file of the llg-ip card goes out at its
    port: once the transmitter is empty the words of a break, of the start
    code and of the slots are written to the FIFO, and the writer is told that
    all of it was written.  The slots are one more than the octets behind the
    start code. *)
Theorem written_frame_becomes_words malloc_ok fuel w a req c fh k f size d msize fd n : implements w a -> (forall j, (j < 32)%nat -> is_Some (a_files a !! (c, j))) ->
  opened (Some c) fh a = Some k -> SIZEOF_FRAME <= size -> g_uio (u_drv w) = Some (Handle d msize fd) -> 0 <= f_port f < 20 ->
  f_payload_size f = Z.of_nat n -> (0 < n <= 512)%nat -> length (f_data f) = DATA_SIZE -> (tx_busy (f_port f) d < fuel)%nat -> exists w' a' log d',
  handle (llg_ops sz cardno fuel) interrupted malloc_ok (CWrite req (Some c) f size (Some fh)) w = Done (tt, w') /\
  implements w' a' /\ u_log w' = log ++ [ReplyWrite req size] /\ g_uio (u_drv w') = Some (Handle d' msize fd) /\
  tx_words (f_port f) d' = tx_words (f_port f) d ++ segment_words (sent_segment f).
Proof.
  intros Hw Hex Ho Hsize Hu Hp Hn Hlen Hd Hb. destruct (llg_send_run fuel c (to_send f) w d msize fd n) as (d' & E & Hwords); try done.
  destruct (write_reaches_driver (llg_ops sz cardno fuel) interrupted malloc_ok w a req c fh k f size _ _ Hw Hex Ho Hsize ltac:(lia) eq_refl E) as (w' & a' & log & E' & Hw' & Hlog & Hd').
  exists w', a', log, d'. split_and!; try done. by rewrite Hd'.
Qed.

(** A frame that fills its buffer has no such slot: the program leaves the
    frame. *)
Theorem full_frame_leaves_the_buffer fuel c f w d size fd : g_uio (u_drv w) = Some (Handle d size fd) -> 0 <= f_port f < 20 -> f_payload_size f = 513 ->
  length (f_data f) = DATA_SIZE -> (tx_busy (f_port f) d < fuel)%nat -> dmxllgip_sendFrame sz fuel c f w = Fault OutOfBounds.
Proof.
  intros Hu Hp Hn Hd Hb. destruct (lookup_lt_is_Some_2 (f_data f) 0) as [v Hv]; [rewrite Hd; unfold DATA_SIZE; lia|].
  destruct (wait_run (f_port f) size fd fuel d) as (d1 & E1 & Hw1 & Hr1); [lia|done|]. destruct (header_run f size fd d1 v) as (d2 & E2 & Hw2 & Hr2); [lia|done..|].
  assert (write_payload sz (Z.to_nat (f_payload_size f)) 0 (f_port f) (f_data f) (Some (Handle d2 size fd)) = Fault OutOfBounds) as E3.
  { change 0 with (Z.of_nat 0) at 1. apply write_payload_beyond; rewrite ?Hn, ?Hd; unfold DATA_SIZE; lia. }
  unfold dmxllgip_sendFrame. unfold mbind at 1, prog_bind at 1, gets at 1. rewrite Hu, (proj2 (Z.ltb_lt _ 20)), (proj2 (Z.ltb_lt 0 _)) by lia. cbn [andb when].
  erewrite bind_run; [|apply on_llg_uio_run; rewrite Hu; exact E1]. unfold on_llg_uio, mbind, prog_bind, gets, lift_outcome. cbn [u_drv with_u_drv with_g_uio g_uio]. by rewrite E2, E3.
Qed.
End card.

(** What one llg-ip card sends another one hears: the frame of the other
    port has the start code, the slots and the length of the break, but one
    slot more than was asked for, so that it grows from card to card. *)
Theorem sent_frame_is_heard portno p l f n b : f_payload_size f = Z.of_nat n -> (0 < n <= 512)%nat -> length (f_data f) = DATA_SIZE -> Forall octet (f_data f) ->
  head (f_data f) = Some 0 -> on_line portno p (Line None l) -> sizes_ok l -> locked l = false -> octet b -> exists p' f',
  rx_words portno (segment_words (sent_segment f) ++ [0x100 + b]) p = Done (p', [f']) /\
  f_port f' = u16 portno /\ f_breaksize f' = tx_breaksize f /\ f_payload_size f' = f_payload_size f + 1 /\ take (S n) (f_data f') = take (S n) (f_data f).
Proof.
  intros Hn Hlen Hd Hoct Hh Hp Hl Hlk Hb. pose proof (tx_breaksize_range f) as Hbr. set (s := sent_segment f). assert (s.2 = take (S n) (f_data f)) as Hs by (unfold s, sent_segment; by rewrite Hn, Nat2Z.id).
  assert (head s.2 = Some 0) as Hhead by (rewrite Hs; by destruct (f_data f)).
  assert (length s.2 = S n) as Els by (rewrite Hs, length_take, Hd; unfold DATA_SIZE; lia).
  destruct (line_heard portno [s; (b, [])] p (Line None l)) as (p' & fs & E & Hfs & _); [|done|done|].
  { constructor; [split; [unfold s, octet; cbn; lia|rewrite Hs; by apply Forall_take]|constructor; [|constructor]]. split; [done|constructor]. }
  cbn [fmap list_fmap concat] in E. rewrite app_nil_r in E. change (segment_words (b, [])) with [0x100 + b] in E.
  assert ((segments_run [s; (b, [])] (Line None l)).2 = [s]) as Hout.
  { cbn [segments_run]. unfold segments_step. change (after_break (Line None l)) with l. rewrite (hear_unlocked l s) by done. by rewrite take_ge, <- surjective_pairing by lia. }
  rewrite Hout in Hfs. apply Forall2_cons_inv_l in Hfs as (f' & fs' & Hf & Hnil & ->). apply Forall2_nil_inv_l in Hnil as ->.
  destruct Hf as (Hport & _ & Hbreak & Hsize & _ & Hdata). exists p', f'. rewrite Els in *. split_and!; [done|done| |lia|by rewrite Hdata].
  rewrite Hbreak. unfold s, sent_segment. cbn [fst]. rewrite Z.shiftr_div_pow2 by lia. change (2 ^ 2) with 4. symmetry. apply (Z.div_unique _ _ _ 3); lia.
Qed.

(** ** A concrete controller *)

(** FIFOs by port, which ports interrupt, and how much room there is; the
    transmitter is empty whenever it is asked. *)
Record toy := Toy { toy_rx : gmap Z (list Z); toy_irq : Z; toy_tx : gmap Z (list Z); toy_room : gmap Z nat }.
Definition fifo_at (m : gmap Z (list Z)) (p : Z) : list Z := default [] (m !! p).
Definition room_at (d : toy) (p : Z) : nat := default 514%nat (toy_room d !! p).
Definition toy_read (off : Z) : prog toy Z := fun d =>
  let i := off / 4 in let p := i / 4 - 1 in
  if i =? DMX_IRQ_STATUS_REGNO then Done (toy_irq d, d)
  else if i mod 4 =? DMX_FIFODATA_REGNO then
    match fifo_at (toy_rx d) p with
    | [] => Done (Z.shiftl 1 24, d)
    | x :: xs => Done (x mod 512, Toy (<[p := xs]> (toy_rx d)) (toy_irq d) (toy_tx d) (toy_room d))
    end
  else if i mod 4 =? DMX_STATUS_REGNO then Done (Z.shiftl 1 28, Toy (toy_rx d) (toy_irq d) (toy_tx d) (<[p := 514%nat]> (toy_room d)))
  else Done (0, d).
Definition toy_write (off v : Z) : prog toy unit := fun d =>
  let i := off / 4 in let p := i / 4 - 1 in
  if (i mod 4 =? DMX_FIFODATA_REGNO) && (0 <? room_at d p)%nat
  then Done (tt, Toy (toy_rx d) (toy_irq d) (<[p := fifo_at (toy_tx d) p ++ [v]]> (toy_tx d)) (<[p := pred (room_at d p)]> (toy_room d)))
  else Done (tt, d).
#[export] Instance toy_device : Device toy := {| dev_read _ := toy_read; dev_write _ := toy_write |}.

Lemma port_offset_word p r : port_offset 4 p r / 4 = 4 * (1 + p) + r.
Proof. unfold port_offset. change (Z.of_nat 4) with 4. by rewrite Z.mul_comm, Z.div_mul. Qed.
Lemma port_of_word p r : 0 <= r < 4 -> (4 * (1 + p) + r) / 4 - 1 = p.
Proof. intros. rewrite (Z.mul_comm 4), Z.div_add_l, Z.div_small by lia. lia. Qed.
Lemma register_of_word p r : 0 <= r < 4 -> (4 * (1 + p) + r) mod 4 = r.
Proof. intros. rewrite (Z.mul_comm 4), Z.add_comm, Z.mod_add by lia. by apply Z.mod_small. Qed.
Lemma no_global p r : 0 <= p -> 0 <= r -> (4 * (1 + p) + r =? DMX_IRQ_STATUS_REGNO) = false.
Proof. intros. apply Z.eqb_neq. unfold DMX_IRQ_STATUS_REGNO. lia. Qed.
Lemma fifo_at_same m p l : fifo_at (<[p := l]> m) p = l.
Proof. unfold fifo_at. by rewrite lookup_insert_eq. Qed.
Lemma fifo_at_other m p q l : q <> p -> fifo_at (<[p := l]> m) q = fifo_at m q.
Proof. intros. unfold fifo_at. by rewrite lookup_insert_ne. Qed.
Lemma low_word x : DMX_STATUS_RXFIFOEMPTY (x mod 512) = 0.
Proof.
  unfold DMX_STATUS_RXFIFOEMPTY. rewrite Z.shiftr_div_pow2 by lia. pose proof (Z.mod_pos_bound x 512 ltac:(lia)). rewrite Z.div_small; [done|lia].
Qed.
#[export] Program Instance toy_controller : Controller toy 4 := {|
  rx_fifo p d := (fun x => x mod 512) <$> fifo_at (toy_rx d) p;
  irq_status := toy_irq;
  tx_words p d := fifo_at (toy_tx d) p;
  tx_room p d := room_at d p;
  tx_busy p d := 0%nat |}.
Next Obligation.
  intros p d Hp Hx. cbn [dev_read toy_device]. unfold toy_read. rewrite port_offset_word, port_of_word, register_of_word, no_global by (unfold DMX_FIFODATA_REGNO; lia).
  rewrite Z.eqb_refl. destruct (fifo_at (toy_rx d) p) eqn:E; [|apply fmap_nil_inv in Hx; congruence]. by eexists _, _.
Qed.
Next Obligation.
  intros p d x xs Hp Hx. cbn [dev_read toy_device]. unfold toy_read. rewrite port_offset_word, port_of_word, register_of_word, no_global by (unfold DMX_FIFODATA_REGNO; lia).
  rewrite Z.eqb_refl. destruct (fifo_at (toy_rx d) p) as [|y ys] eqn:E; cbn beta in Hx; rewrite E in Hx; [done|]. rewrite fmap_cons in Hx. injection Hx as <- <-. eexists. split; [done|]. cbn [toy_rx].
  split_and!; [apply low_word|by rewrite fifo_at_same|]. intros q Hq. by rewrite fifo_at_other.
Qed.
Next Obligation. intros d. by exists d. Qed.
Next Obligation.
  intros p d v Hp Hr. cbn [dev_write toy_device]. unfold toy_write. rewrite port_offset_word, port_of_word, register_of_word by (unfold DMX_FIFODATA_REGNO; lia).
  rewrite Z.eqb_refl, (proj2 (Nat.ltb_lt _ _)) by done. eexists. split; [done|]. cbn [toy_tx]. rewrite fifo_at_same. split; [done|]. unfold room_at. cbn [toy_room]. by rewrite lookup_insert_eq.
Qed.
Next Obligation.
  intros p d Hp. cbn [dev_read toy_device]. unfold toy_read. rewrite port_offset_word, port_of_word, register_of_word, no_global by (unfold DMX_STATUS_REGNO; lia).
  eexists _, _. split; [done|]. split; [done|]. rewrite decide_False by done. unfold room_at. cbn [toy_room]. rewrite lookup_insert_eq. cbn. lia.
Qed.

(** A card whose ports 1 and 5 hear frames; only port 1 interrupts. *)
Definition toy_segs (i : nat) : list segment := if decide (i = 1%nat) then test_frames else if decide (i = 5%nat) then [(100, [0; 1])] else [].
Definition toy_line (i : nat) : line := Line None (learner 1).
Definition toy_chip : toy := Toy (<[1 := concat (segment_words <$> toy_segs 1)]> {[5 := concat (segment_words <$> toy_segs 5)]}) 2 ∅ ∅.
Definition toy_card : dmxllgip_card toy := LlgCard (padded []) (Some (Handle toy_chip 0x1000 3)) (Some 0%nat) 14 (replicate LLG_PORTS test_port) [].
Lemma toy_ready i : (i < 14)%nat -> port_ready toy_segs toy_line i toy_chip toy_card /\ (length (concat (segment_words <$> toy_segs i)) < 21)%nat.
Proof.
  intros Hi. assert (i ∈ seq 0 14) as Hin by (apply elem_of_seq; lia). split.
  - split_and!; [|unfold toy_segs; repeat case_decide; [apply test_frames_ok|repeat constructor; cbn; lia|constructor]|split_and!; cbn; (done || lia)|].
    + do 14 (destruct i as [|i]; [vm_compute; reflexivity|]). lia.
    + exists test_port. split; [apply lookup_replicate_2; unfold LLG_PORTS; lia|by split_and!].
  - do 14 (destruct i as [|i]; [vm_compute; lia|]). lia.
Qed.
Definition toy_file : context := Context true false 2 0 None (Some 9%nat).
Lemma toy_heard : heard_by toy_segs toy_line 2 (seq 0 (Z.to_nat 14)) = pair 1 <$> test_frames.
Proof. vm_compute. reflexivity. Qed.
Lemma interrupt_brings_frames_witness : exists w : cuse (dmxllgip_card toy),
  wp (handle_llgdmx_interrupt 4 (fun _ => false) (8, 1) 21)
    (fun _ w' => exists d' a' fs, g_uio (u_drv w') = Some (Handle d' 0x1000 3) /\
       (forall j, (j < 14)%nat -> Z.testbit 2 (Z.of_nat j) = true -> port_served toy_segs toy_line j d' (u_drv w')) /\
       Forall2 shown (pair 1 <$> test_frames) fs /\ implements w' a' /\
       a_files a' !! (0%nat, 0%nat) = Some (File toy_file (filter (fun f => listens toy_file f) fs))) w.
Proof.
  destruct polling_world as [w0 Hw]. exists (Cuse (u_mem w0) (u_contexts w0) (u_log w0) toy_card).
  rewrite <- toy_heard. eapply wp_mono.
  - apply (interrupt_brings_frames (sz := 4) (fun _ => false) toy_segs toy_line (8, 1) 21 (Cuse (u_mem w0) (u_contexts w0) (u_log w0) toy_card) polling toy_chip 0x1000 3 0 (0%nat, 0%nat) toy_file [] 0);
      [reflexivity|cbn; lia|intros j Hj; by apply toy_ready|reflexivity|by apply implements_any|].
    split; [apply all_contexts; by vm_compute|reflexivity|cbn; lia|by vm_compute|reflexivity|discriminate|vm_compute; lia].
  - intros _ w' (d' & a' & fs & Hu & Hs & Hf & Hw' & Hq). exists d', a', fs. split; [exact Hu|]. split; [exact Hs|]. split; [exact Hf|]. split; [exact Hw'|exact Hq].
Defined.
Definition toy_frame : dmx512frame := Frame 1 0 30 2 (0 :: 7 :: 8 :: replicate 510 9) (0, 0) (0, 0).
Lemma toy_sent : tx_words 1 toy_chip ++ segment_words (sent_segment toy_frame) = [0x100 + 123; 0; 7; 8].
Proof. vm_compute. reflexivity. Qed.
Lemma written_frame_becomes_words_witness : exists (w : cuse (dmxllgip_card toy)) w' a' log d',
  handle (llg_ops 4 0 1) (fun _ => false) (fun _ => true) (CWrite 5 (Some 0%nat) toy_frame 600 (Some 0)) w = Done (tt, w') /\
  implements w' a' /\ u_log w' = log ++ [ReplyWrite 5 600] /\ g_uio (u_drv w') = Some (Handle d' 0x1000 3) /\
  tx_words 1 d' = [0x100 + 123; 0; 7; 8].
Proof.
  destruct polling_world as [w0 Hw]. exists (Cuse (u_mem w0) (u_contexts w0) (u_log w0) toy_card).
  rewrite <- toy_sent. apply (written_frame_becomes_words (sz := 4) 0 (fun _ => false) (fun _ => true) 1 (Cuse (u_mem w0) (u_contexts w0) (u_log w0) toy_card) polling 5 0 0 ((0%nat, 0%nat), File toy_file [])
    toy_frame 600 toy_chip 0x1000 3 2);
    [by apply implements_any|apply all_contexts; by vm_compute|reflexivity|discriminate|reflexivity|cbn; lia|reflexivity|lia|reflexivity|cbn; lia].
Defined.
Lemma sent_frame_is_heard_witness : exists p' f',
  rx_words 4 ([0x100 + 123; 0; 7; 8] ++ [0x100 + 100]) test_port = Done (p', [f']) /\
  f_port f' = 4 /\ f_breaksize f' = 30 /\ f_payload_size f' = 3 /\ take 3 (f_data f') = [0; 7; 8].
Proof.
  apply (sent_frame_is_heard 4 test_port (learner 1) toy_frame 2 100); try reflexivity;
    [lia|cbn; repeat (apply Forall_cons; split; [unfold octet; lia|]); by apply Forall_nil|by split_and!|split_and!; cbn; (done || lia)|unfold octet; lia].
Defined.
