(* ===== verification/CuseUart.v ===== *)
(** * The CUSE driver for a serial port: dmx512_cuse_uart.c

    [src/cuse-drivers/dmx512_cuse_uart.c]: up to four cards of [CuseDev.v],
    each with one port on a serial port of the kernel.  The calls on the
    descriptor are the class [Tty]. *)
From stdpp Require Import base countable gmap list.
From S2P Require Import Prelude KList FrameQueue DmxCore CuseDev CuseContract CuseProperties CuseInfo CuseDrivers.

(** ** The serial port *)

(** [struct termios], with the control characters that [cfmakeraw] sets, and
    the members of [struct serial_struct] that the driver uses. *)
Record termios := Termios { c_iflag : Z; c_oflag : Z; c_cflag : Z; c_lflag : Z; c_vmin : Z; c_vtime : Z; c_ispeed : Z; c_ospeed : Z }.
Record serial_struct := Serial { baud_base : Z; custom_divisor : Z; s_flags : Z }.

(** The calls on a descriptor; [None] and [false] are errors. *)
Class Tty (T : Type) := {
  tty_open : list Z -> prog T Z;
  tty_close : Z -> prog T unit;
  tty_write : Z -> list Z -> prog T unit;
  tiocmget : Z -> prog T (option Z);
  tiocmset : Z -> Z -> prog T bool;
  tiocsergetlsr : Z -> prog T (option Z);
  tiocgserial : Z -> prog T (option serial_struct);
  tiocsserial : Z -> serial_struct -> prog T bool;
  tcgetattr : Z -> prog T (option termios);
  tcsetattr : Z -> termios -> prog T bool;
  usleep : Z -> prog T bool }.

Definition TIOCM_RTS : Z := 4.
Definition TIOCSER_TEMT : Z := 1.
Definition B19200 : Z := 14.
Definition B38400 : Z := 15.
Definition CSIZE : Z := 0x30.
Definition CS8 : Z := 0x30.
Definition CSTOPB : Z := 0x40.
Definition PARENB : Z := 0x100.
Definition PARODD : Z := 0x200.
Definition CRTSCTS : Z := 0x80000000.
Definition ASYNC_SPD_CUST : Z := 0x30.
Definition ASYNC_SPD_MASK : Z := 0x1030.
Definition with_speeds (v : Z) (t : termios) : termios := Termios (c_iflag t) (c_oflag t) (c_cflag t) (c_lflag t) (c_vmin t) (c_vtime t) v v.
Definition with_cflag (v : Z) (t : termios) : termios := Termios (c_iflag t) (c_oflag t) v (c_lflag t) (c_vmin t) (c_vtime t) (c_ispeed t) (c_ospeed t).
(** IGNBRK, BRKINT, PARMRK, ISTRIP, INLCR, IGNCR, ICRNL and IXON; OPOST; ECHO,
    ECHONL, ICANON, ISIG and IEXTEN. *)
Definition cfmakeraw (t : termios) : termios :=
  Termios (Z.ldiff (c_iflag t) 0x5eb) (Z.ldiff (c_oflag t) 1) (Z.lor (Z.ldiff (c_cflag t) (Z.lor CSIZE PARENB)) CS8) (Z.ldiff (c_lflag t) 0x804b) 1 0
    (c_ispeed t) (c_ospeed t).

Section port.
Context {T : Type} `{Tty T}.

Definition uartdmx_set_rts (fh level : Z) : prog T Z :=
  status ← tiocmget fh;
  match status with
  | None => mret 0
  | Some status =>
      ok ← tiocmset fh (if negb (level =? 0) then Z.lor status TIOCM_RTS else Z.ldiff status TIOCM_RTS);
      mret (if ok : bool then 1 else 0)
  end.
(** A structure that [tcgetattr] did not fill has no value. *)
Definition attributes (fh : Z) : prog T termios :=
  t ← tcgetattr fh; match t with Some t => mret t | None => raise Uninitialised end.
Definition select_baudrate (fh speed : Z) : prog T Z :=
  t ← attributes fh; ok ← tcsetattr fh (with_speeds speed t); mret (if ok : bool then 0 else -1).
Definition uartdmx_select_dmx_baudrate (fh : Z) : prog T Z := select_baudrate fh B38400.
Definition uartdmx_select_break_baudrate (fh : Z) : prog T Z := select_baudrate fh B19200.

(** The loop ends when the transmitter is empty and nothing else is said of
    it, and when the time is over that was slept. *)
Fixpoint uartdmx_waitUntilTransmitterEmpty (fuel : nat) (fh timeoutUs : Z) : prog T Z :=
  match fuel with
  | O => raise OutOfFuel
  | S fuel =>
      lsr ← tiocsergetlsr fh;
      match lsr with
      | None => mret 0
      | Some result =>
          if result =? TIOCSER_TEMT then mret 0 else
          ok ← usleep 500;
          let timeoutUs := if ok : bool then timeoutUs - 500 else timeoutUs in
          if timeoutUs <? 0 then mret (-1) else uartdmx_waitUntilTransmitterEmpty fuel fh timeoutUs
      end
  end.

Definition DMX_BAUDRATE : Z := 250000.
Definition dmx_serial (s : serial_struct) : serial_struct :=
  Serial (baud_base s) (baud_base s ÷ DMX_BAUDRATE) (Z.lor (Z.ldiff (s_flags s) ASYNC_SPD_MASK) ASYNC_SPD_CUST).
(** 8N2 at the rate of the divisor, without flow control. *)
Definition dmx_termios (t : termios) : termios :=
  let t := with_speeds B38400 (cfmakeraw t) in
  let c := Z.lor (Z.ldiff (c_cflag t) CSIZE) CS8 in
  let c := Z.lor (Z.ldiff c (Z.lor PARENB PARODD)) CSTOPB in
  with_cflag (Z.ldiff c CRTSCTS) t.
Definition uartdmx_configure_uart (fh : Z) : prog T Z :=
  if fh =? -1 then mret 5 else
  s ← tiocgserial fh;
  match s with
  | None => mret 1
  | Some s =>
      if baud_base s <? DMX_BAUDRATE then mret 2 else
      ok ← tiocsserial fh (dmx_serial s);
      if negb ok then mret 3 else
      t ← attributes fh;
      ok ← tcsetattr fh (dmx_termios t);
      mret (if ok : bool then 0 else 4)
  end.

(** A zero at half of the rate. *)
Definition uartdmx_send_break (fuel : nat) (fh : Z) : prog T unit :=
  _ ← uartdmx_select_break_baudrate fh;
  tty_write fh [0] ;;
  _ ← uartdmx_waitUntilTransmitterEmpty fuel fh 1000;
  _ ← uartdmx_select_dmx_baudrate fh;
  mret tt.
End port.

(** ** Cards *)

Record uartdmx_card := SerialCard { s_customer_name : list Z; s_port_label : list Z; uartname : list Z; uartfd : Z }.
Definition with_uartfd (v : Z) (u : uartdmx_card) : uartdmx_card := SerialCard (s_customer_name u) (s_port_label u) (uartname u) v.
(** [uartdmx_cards], and the serial ports. *)
Record serial_cards (T : Type) := SerialCards { uartdmx_cards : list uartdmx_card; s_tty : T }.
Arguments SerialCards {T}. Arguments uartdmx_cards {T}. Arguments s_tty {T}.
Definition UART_CARDS : nat := 4.

Section driver.
(** How often the wait for the transmitter is allowed to look. *)
Context {T : Type} `{Tty T} (fuel : nat).
Abbreviation D := (serial_cards T).
Abbreviation W := (cuse D).

(** The user pointer of card [c] is [&uartdmx_cards[c]], and its number [c]. *)
Definition serial_card_at (c : nat) : prog W uartdmx_card := u ← gets u_drv; lift_outcome (load (uartdmx_cards u) (Z.of_nat c)).
Definition edit_serial_card (c : nat) (f : uartdmx_card -> uartdmx_card) (u : D) : outcome D :=
  k ← load (uartdmx_cards u) (Z.of_nat c); l ← store (Z.of_nat c) (f k) (uartdmx_cards u); Done (SerialCards l (s_tty u)).
Definition set_serial_card (c : nat) (f : uartdmx_card -> uartdmx_card) : prog W unit :=
  u ← gets u_drv; u ← lift_outcome (edit_serial_card c f u); modify (with_u_drv u).
Definition on_tty {A} (m : prog T A) : prog W A :=
  u ← gets u_drv; '(a, t) ← lift_outcome (m (s_tty u)); modify (with_u_drv (SerialCards (uartdmx_cards u) t)) ;; mret a.

Definition serial_names (c : nat) : card_names D := {|
  n_product := [85; 65; 82; 84];
  n_cardno := Z.of_nat c;
  n_ports _ := 1;
  n_refused _ port := 1 <=? port;
  n_compares := true;
  n_name u := k ← load (uartdmx_cards u) (Z.of_nat c); Done (s_customer_name k);
  n_set_name v := edit_serial_card c (fun k => SerialCard v (s_port_label k) (uartname k) (uartfd k));
  n_label u _ := k ← load (uartdmx_cards u) (Z.of_nat c); Done (s_port_label k);
  n_set_label u _ v := edit_serial_card c (fun k => SerialCard (s_customer_name k) v (uartname k) (uartfd k)) u |}.

Definition uartdmx_queryCardInfo (c : nat) : info_op D := query_card (serial_names c) c.
Definition uartdmx_changeCardInfo (c : nat) : info_op D := change_card (serial_names c) c.
Definition uartdmx_queryPortInfo (c : nat) : Z -> info_op D := query_port (serial_names c) c.
Definition uartdmx_changePortInfo (c : nat) : Z -> info_op D := change_port (serial_names c) c.

Definition uartdmx_init (c : nat) : prog W unit :=
  k ← serial_card_at c;
  fd ← on_tty (tty_open (uartname k));
  set_serial_card c (with_uartfd fd) ;;
  if fd <? 0 then mret tt else _ ← on_tty (uartdmx_configure_uart fd); mret tt.
(** The descriptor stays in the card. *)
Definition uartdmx_cleanup (c : nat) : prog W unit :=
  k ← serial_card_at c; when (0 <=? uartfd k) (on_tty (tty_close (uartfd k))).
Definition send_serial (fd : Z) (f : dmx512frame) : prog T unit :=
  _ ← uartdmx_set_rts fd 1;
  _ ← usleep 1000;
  when (negb (has (f_flags f) DMX512_FLAG_NOBREAK)) (uartdmx_send_break fuel fd) ;;
  _ ← uartdmx_set_rts fd 0;
  mret tt.
Definition uartdmx_sendFrame (c : nat) (f : dmx512frame) : prog W unit :=
  k ← serial_card_at c;
  when ((0 <=? uartfd k) && (f_port f =? 0)) (on_tty (send_serial (uartfd k) f)).

Definition uartdmx_ops : card_ops D :=
  CardOps (Some uartdmx_queryCardInfo) (Some uartdmx_changeCardInfo) (Some uartdmx_queryPortInfo) (Some uartdmx_changePortInfo)
    (Some uartdmx_init) (Some uartdmx_cleanup) (Some uartdmx_sendFrame).
Definition serial_ops (c : nat) : option (card_ops D) := Some uartdmx_ops.
End driver.

(** What [main] makes of its arguments, names of serial ports. *)
Definition new_serial_cards {T} (t : T) (names : list (list Z)) : serial_cards T :=
  SerialCards ((fun i => match take UART_CARDS names !! i with
    | Some name => SerialCard (padded [99; 117; 115; 116; 111; 109; 101; 114; 32; 108; 97; 98; 101; 108]) (padded [85; 65; 82; 84; 48 + Z.of_nat i]) (padded name) (-1)
    | None => SerialCard (padded []) (padded []) (padded []) 0
    end) <$> seq 0 UART_CARDS) t.

(** ** Properties *)

(** The rate: with the divisor that is set the port is at 250 kbaud at least
    and below twice that, and exactly there when the clock is a multiple. *)
Theorem divisor_gives_the_rate s : DMX_BAUDRATE <= baud_base s -> let d := custom_divisor (dmx_serial s) in
  1 <= d /\ DMX_BAUDRATE * d <= baud_base s < DMX_BAUDRATE * (d + 1) /\ DMX_BAUDRATE <= baud_base s / d < 2 * DMX_BAUDRATE.
Proof.
  intros Hb d. unfold d, dmx_serial, DMX_BAUDRATE in *. cbn [custom_divisor]. rewrite Z.quot_div_nonneg by lia.
  pose proof (Z.div_mod (baud_base s) 250000 ltac:(lia)). pose proof (Z.mod_pos_bound (baud_base s) 250000 ltac:(lia)).
  assert (1 <= baud_base s / 250000) by (apply Z.div_le_lower_bound; lia). split; [done|]. split; [lia|].
  split; [apply Z.div_le_lower_bound; nia|apply Z.div_lt_upper_bound; nia].
Qed.

(** The program returns and sends the octets [l]. *)
Definition sends {T A} (sent : T -> list Z) (l : list Z) (m : prog T A) : Prop := forall t, exists a t', m t = Done (a, t') /\ sent t' = sent t ++ l.
(** What a serial port promises: the calls return, those that ask, set or wait
    send nothing, what is written is sent, and nothing interrupts a sleep. *)
Class TtyLaws (T : Type) `{Tty T} := {
  tty_sent : Z -> T -> list Z;
  get_modem fd : sends (tty_sent fd) [] (tiocmget fd);
  set_modem fd v : sends (tty_sent fd) [] (tiocmset fd v);
  get_lsr fd : sends (tty_sent fd) [] (tiocsergetlsr fd);
  get_attr fd t : exists a t', tcgetattr fd t = Done (Some a, t') /\ tty_sent fd t' = tty_sent fd t;
  set_attr fd v : sends (tty_sent fd) [] (tcsetattr fd v);
  sleep_sleeps fd us t : exists t', usleep us t = Done (true, t') /\ tty_sent fd t' = tty_sent fd t;
  write_sends fd l : sends (tty_sent fd) l (tty_write fd l) }.

Section sending.
Context {T : Type} `{TtyLaws T}.

Lemma sends_bind {A B} (sent : T -> list Z) l1 l2 (m : prog T A) (k : A -> prog T B) :
  sends sent l1 m -> (forall a, sends sent l2 (k a)) -> sends sent (l1 ++ l2) (m ≫= k).
Proof.
  intros Hm Hk t. destruct (Hm t) as (a & t1 & E1 & H1). destruct (Hk a t1) as (b & t2 & E2 & H2). exists b, t2.
  rewrite (bind_run _ _ _ _ _ E1). split; [done|]. by rewrite H2, H1, app_assoc.
Qed.
Lemma sends_nothing_first {A B} (sent : T -> list Z) l (m : prog T A) (k : A -> prog T B) : sends sent [] m -> (forall a, sends sent l (k a)) -> sends sent l (m ≫= k).
Proof. apply (sends_bind sent []). Qed.
Lemma sends_ret {A} (sent : T -> list Z) (a : A) : sends sent [] (mret a).
Proof. intros t. exists a, t. by rewrite app_nil_r. Qed.
#[local] Hint Resolve sends_ret get_modem set_modem get_lsr set_attr : core.

Lemma attributes_send fd : sends (tty_sent fd) [] (attributes fd).
Proof.
  intros t. destruct (get_attr fd t) as (a & t' & E & Hs). exists a, t'. rewrite app_nil_r. split; [|done]. unfold attributes. by rewrite (bind_run _ _ _ _ _ E).
Qed.
Lemma select_sends fd speed : sends (tty_sent fd) [] (select_baudrate fd speed).
Proof. apply sends_nothing_first; [apply attributes_send|]. intros a. apply sends_nothing_first; auto. Qed.
Lemma rts_sends fd level : sends (tty_sent fd) [] (uartdmx_set_rts fd level).
Proof. apply sends_nothing_first; [auto|]. intros [v|]; [|auto]. apply sends_nothing_first; auto. Qed.
Lemma sleep_sends fd us : sends (tty_sent fd) [] (usleep us).
Proof. intros t. destruct (sleep_sleeps fd us t) as (t' & E & Hs). exists true, t'. by rewrite app_nil_r. Qed.
(** The wait ends: every turn takes half a millisecond of the time. *)
Lemma wait_sends fd fuel : forall timeout, 0 <= timeout < 500 * Z.of_nat fuel -> sends (tty_sent fd) [] (uartdmx_waitUntilTransmitterEmpty fuel fd timeout).
Proof.
  induction fuel as [|fuel IH]; intros timeout Ht; [lia|]. cbn [uartdmx_waitUntilTransmitterEmpty]. apply sends_nothing_first; [auto|].
  intros [result|]; [|auto]. destruct (result =? TIOCSER_TEMT); [auto|]. intros t. destruct (sleep_sleeps fd 500 t) as (t1 & E1 & H1).
  rewrite (bind_run _ _ _ _ _ E1). destruct (Z.ltb_spec (timeout - 500) 0); [exists (-1), t1; by rewrite app_nil_r|].
  destruct (IH (timeout - 500) ltac:(lia) t1) as (a & t' & E & Hs). exists a, t'. by rewrite Hs, H1.
Qed.
Lemma break_sends fd fuel : (3 <= fuel)%nat -> sends (tty_sent fd) [0] (uartdmx_send_break fuel fd).
Proof.
  intros Hf. apply sends_nothing_first; [apply select_sends|]. intros _. apply (sends_bind _ [0] []); [apply write_sends|]. intros _.
  apply sends_nothing_first; [apply wait_sends; lia|]. intros _. apply sends_nothing_first; [apply select_sends|auto].
Qed.

(** What goes out of a frame. *)
Definition sent_of (f : dmx512frame) : list Z := if has (f_flags f) DMX512_FLAG_NOBREAK then [] else [0].
Lemma frame_sends fd fuel f : (3 <= fuel)%nat -> sends (tty_sent fd) (sent_of f) (send_serial fuel fd f).
Proof.
  intros Hf. apply sends_nothing_first; [apply rts_sends|]. intros _. apply sends_nothing_first; [apply sleep_sends|]. intros _.
  rewrite <- (app_nil_r (sent_of f)). apply sends_bind; [|intros _; apply sends_nothing_first; [apply rts_sends|auto]].
  unfold sent_of. destruct (has _ _); [apply sends_ret|by apply break_sends].
Qed.

(** The serial card does not send frames: whatever the slots are, all that
    leaves the port when a frame is written to a file is the zero that is the
    break, or nothing when the frame is to have none; and still the writer is
    told that the frame was written.  Three looks at the transmitter are
    enough. *)
Theorem only_the_break_is_sent fuel interrupted malloc_ok (w : cuse (serial_cards T)) a req c fh k f size card :
  implements w a -> (forall j, (j < 32)%nat -> is_Some (a_files a !! (c, j))) -> opened (Some c) fh a = Some k -> SIZEOF_FRAME <= size ->
  f_port f = 0 -> uartdmx_cards (u_drv w) !! c = Some card -> 0 <= uartfd card -> (3 <= fuel)%nat -> exists w' a' log,
  handle (serial_ops fuel) interrupted malloc_ok (CWrite req (Some c) f size (Some fh)) w = Done (tt, w') /\
  implements w' a' /\ u_log w' = log ++ [ReplyWrite req size] /\
  tty_sent (uartfd card) (s_tty (u_drv w')) = tty_sent (uartfd card) (s_tty (u_drv w)) ++ if has (f_flags f) DMX512_FLAG_NOBREAK then [] else [0].
Proof.
  intros Hw Hex Ho Hsize Hp Hc Hfd Hfuel. destruct (frame_sends (uartfd card) fuel (to_send f) Hfuel (s_tty (u_drv w))) as ([] & t' & E & Hs).
  assert (uartdmx_sendFrame fuel c (to_send f) w = Done (tt, with_u_drv (SerialCards (uartdmx_cards (u_drv w)) t') w)) as Hsend.
  { unfold uartdmx_sendFrame, serial_card_at. unfold mbind at 1 2, prog_bind at 1 2, gets at 1, lift_outcome at 1. rewrite (load_nat _ _ _ Hc).
    change (f_port (to_send f)) with (f_port f). rewrite Hp, (proj2 (Z.leb_le _ _)) by done. cbn [Z.eqb andb when].
    unfold on_tty, mbind, prog_bind, gets, lift_outcome, modify. by rewrite E. }
  destruct (write_reaches_driver (serial_ops fuel) interrupted malloc_ok w a req c fh k f size _ _ Hw Hex Ho Hsize ltac:(lia) eq_refl Hsend) as (w' & a' & log & E' & Hw' & Hlog & Hd').
  exists w', a', log. split_and!; try done. rewrite Hd'. cbn [s_tty]. rewrite Hs. f_equal. unfold sent_of, to_send. cbn [f_flags with_flags].
  unfold has. rewrite Z.land_lor_distr_l. change (Z.land DMX512_FLAGS_IS_TRANSMIT_FRAME DMX512_FLAG_NOBREAK) with 0. by rewrite Z.lor_0_r.
Qed.
End sending.

(** A serial port that sends at once and is never said to be empty, as more than
    one bit of its status is set. *)
#[export] Instance test_tty : Tty (list Z) := {|
  tty_open _ := mret 3;
  tty_close _ := mret tt;
  tty_write _ l := modify (fun t => t ++ l);
  tiocmget _ := mret (Some 0);
  tiocmset _ _ := mret true;
  tiocsergetlsr _ := mret (Some 3);
  tiocgserial _ := mret (Some (Serial 1500000 0 0));
  tiocsserial _ _ := mret true;
  tcgetattr _ := mret (Some (Termios 0 0 0 0 0 0 0 0));
  tcsetattr _ _ := mret true;
  usleep _ := mret true |}.
#[export] Program Instance test_tty_laws : TtyLaws (list Z) := {| tty_sent _ t := t |}.
Next Obligation. intros fd. apply sends_ret. Qed.
Next Obligation. intros fd v. apply sends_ret. Qed.
Next Obligation. intros fd. apply sends_ret. Qed.
Next Obligation. intros fd t. by eexists _, _. Qed.
Next Obligation. intros fd v. apply sends_ret. Qed.
Next Obligation. intros fd us t. by eexists. Qed.
Next Obligation. intros fd l t. by eexists _, _. Qed.
Definition open_card : uartdmx_card := SerialCard (padded []) (padded []) (padded []) 3.
Definition bright : dmx512frame := Frame 0 0 0 513 (0 :: replicate 512 255) (0, 0) (0, 0).
Lemma only_the_break_is_sent_witness : exists (w : cuse (serial_cards (list Z))) w' a' log,
  handle (serial_ops 3) (fun _ => false) (fun _ => true) (CWrite 5 (Some 0%nat) bright 600 (Some 0)) w = Done (tt, w') /\
  implements w' a' /\ u_log w' = log ++ [ReplyWrite 5 600] /\ tty_sent 3 (s_tty (u_drv w')) = tty_sent 3 [] ++ [0].
Proof.
  destruct polling_world as [w0 Hw]. exists (Cuse (u_mem w0) (u_contexts w0) (u_log w0) (SerialCards (replicate UART_CARDS open_card) [])).
  apply (only_the_break_is_sent (T := list Z) 3 (fun _ => false) (fun _ => true)
    (Cuse (u_mem w0) (u_contexts w0) (u_log w0) (SerialCards (replicate UART_CARDS open_card) [])) polling 5 0 0 ((0%nat, 0%nat), File (Context true false 2 0 None (Some 9%nat)) []) bright 600 open_card);
    [by apply implements_any|apply all_contexts; by vm_compute|reflexivity|discriminate|reflexivity|reflexivity|cbn; lia|lia].
Defined.
