(* ===== verification/CuseLoop.v ===== *)
(** * The loop device: dmx512_cuse_loop_device.c

    [src/cuse-drivers/dmx512_cuse_loop_device.c]: two cards of [CuseDev.v]
    that are wired to each other, and the names that can be read and changed
    through their info requests.  This is the composition of the character
    devices with a driver: what is written to a file of one card is received
    by the files of the other. *)
From stdpp Require Import base countable gmap list.
From S2P Require Import Prelude KList FrameQueue DmxCore CuseDev CuseContract CuseProperties CuseInfo.

(** ** State *)

(** [struct testdmx_card]: a name of 64 octets and 16 labels of 64. *)
Record testdmx_card := TestCard {
  other_card : option nat;
  num_ports : Z;
  customer_name : list Z;
  port_labels : list (list Z) }.
Definition with_other (o : option nat) (c : testdmx_card) : testdmx_card := TestCard o (num_ports c) (customer_name c) (port_labels c).
Definition with_name (n : list Z) (c : testdmx_card) : testdmx_card := TestCard (other_card c) (num_ports c) n (port_labels c).
Definition with_labels (l : list (list Z)) (c : testdmx_card) : testdmx_card := TestCard (other_card c) (num_ports c) (customer_name c) l.

(** [testdmx_cards]; card [c] has the number [c] and the user pointer
    [&testdmx_cards[c]]. *)
Abbreviation loop := (cuse (gmap nat testdmx_card)).
Definition get_card (c : nat) : prog loop testdmx_card := w ← get_state; live (u_drv w !! c).
Definition put_card (c : nat) (v : testdmx_card) : prog loop unit := modify (fun w => with_u_drv (<[c := v]> (u_drv w)) w).

(** ** Info requests *)

Definition supported_card_tuples : list Z :=
  [DMX4LINUX2_ID_MANUFACTURER; DMX4LINUX2_ID_PRODUCT; DMX4LINUX2_ID_SERIAL_NUMBER; DMX4LINUX2_ID_CUSTOMER_NAME].
Definition supported_port_tuples : list Z := [DMX4LINUX2_ID_PORT_LABEL].
(** "llg-Dmx4linux2", "dummydmx", "0123456789" *)
Definition manufacturer : list Z := [108; 108; 103; 45; 68; 109; 120; 52; 108; 105; 110; 117; 120; 50].
Definition product : list Z := [100; 117; 109; 109; 121; 100; 109; 120].
Definition serial_number : list Z := [48; 49; 50; 51; 52; 53; 54; 55; 56; 57].
Definition card_value (user : testdmx_card) (t : tuple) : outcome tuple :=
  let set v := (s ← v; Done (with_value s t)) in
  if key t =? DMX4LINUX2_ID_MANUFACTURER then set (strcpy (value t) manufacturer)
  else if key t =? DMX4LINUX2_ID_PRODUCT then set (strcpy (value t) product)
  else if key t =? DMX4LINUX2_ID_SERIAL_NUMBER then set (strcpy (value t) serial_number)
  else if key t =? DMX4LINUX2_ID_CUSTOMER_NAME then
    v ← strncpy (value t) (customer_name user) MAX_NAME_LEN; Done (changeable (with_value v t))
  else set (strcpy (value t) []).

Definition testdmx_queryCardInfo (c : nat) : info_op (gmap nat testdmx_card) := fun ci ts =>
  user ← get_card c;
  let n := tuple_count ci in
  match ts with
  | Some ts =>
      ts ← lift_outcome (for_tuples (Z.to_nat n) 0 (default_key supported_card_tuples) ts);
      ts ← lift_outcome (for_tuples (Z.to_nat (n `min` 4)) 0 (fun i => edit_tuple i (card_value user)) ts);
      mret (0, Info (Z.of_nat c) (num_ports user) n (tuples ci), Some ts)
  | None => mret (0, Info (Z.of_nat c) (num_ports user) (Z.of_nat (length supported_card_tuples)) (tuples ci), None)
  end.

(** The tuples of a change request, one after another: those with the key [k]
    are copied. *)
Fixpoint change_names (n : nat) (i : Z) (ts : list tuple) (k : Z) (copy : list Z -> testdmx_card -> outcome testdmx_card)
    (user : testdmx_card) : outcome testdmx_card :=
  match n with
  | O => Done user
  | S n =>
      t ← load ts i;
      user ← (if key t =? k then copy (value t) user else Done user);
      change_names n (i + 1) ts k copy user
  end.
Definition copy_name (v : list Z) (user : testdmx_card) : outcome testdmx_card :=
  name ← strncpy (customer_name user) v NAME_SIZE; Done (with_name name user).
Definition copy_label (port : Z) (v : list Z) (user : testdmx_card) : outcome testdmx_card :=
  label ← load (port_labels user) port;
  label ← strncpy label v NAME_SIZE;
  labels ← store port label (port_labels user); Done (with_labels labels user).
Definition testdmx_changeCardInfo (c : nat) : info_op (gmap nat testdmx_card) := fun ci ts =>
  user ← get_card c;
  if negb (card_index ci =? Z.of_nat c) then mret (-1, ci, ts) else
  match ts with
  | Some l =>
      if 0 <? tuple_count ci then
        user ← lift_outcome (change_names (Z.to_nat (tuple_count ci)) 0 l DMX4LINUX2_ID_CUSTOMER_NAME copy_name user);
        put_card c user ;; mret (0, ci, ts)
      else mret (0, ci, ts)
  | None => mret (0, ci, ts)
  end.

Definition port_value (label : outcome (list Z)) (t : tuple) : outcome tuple :=
  if key t =? DMX4LINUX2_ID_PORT_LABEL then
    l ← label; v ← strncpy (value t) l MAX_NAME_LEN; Done (changeable (with_value v t))
  else Done (with_key DMX4LINUX2_ID_NONE t).
(** The index is only compared with the number of ports. *)
Definition bad_port (user : testdmx_card) (port : Z) : bool := (num_ports user <=? port) || (16 <=? port).
Definition testdmx_queryPortInfo (c : nat) (port : Z) : info_op (gmap nat testdmx_card) := fun pi ts =>
  user ← get_card c;
  if bad_port user port then mret (-1, pi, ts) else
  let n := tuple_count pi in
  let out m := Info (Z.of_nat c) port m (tuples pi) in
  match ts with
  | Some l =>
      if 0 <? n then
        l ← lift_outcome (for_tuples (Z.to_nat (n `min` 1)) 0 (default_key supported_port_tuples) l);
        l ← lift_outcome (for_tuples (Z.to_nat n) 0 (fun i => edit_tuple i (port_value (load (port_labels user) port))) l);
        mret (0, out n, Some l)
      else mret (0, out (Z.of_nat (length supported_port_tuples)), ts)
  | None => mret (0, out (Z.of_nat (length supported_port_tuples)), ts)
  end.
Definition testdmx_changePortInfo (c : nat) (port : Z) : info_op (gmap nat testdmx_card) := fun pi ts =>
  user ← get_card c;
  if bad_port user port then mret (-1, pi, ts)
  else if negb (card_index pi =? Z.of_nat c) then mret (-1, pi, ts)
  else if negb (port_number pi =? port) then mret (-1, pi, ts) else
  match ts with
  | Some l =>
      if 0 <? tuple_count pi then
        user ← lift_outcome (change_names (Z.to_nat (tuple_count pi)) 0 l DMX4LINUX2_ID_PORT_LABEL (copy_label port) user);
        put_card c user ;; mret (0, pi, ts)
      else mret (0, pi, ts)
  | None => mret (0, pi, ts)
  end.

(** ** The wire *)

(** [testdmx_cards[cardno ? 0 : 1].other_card] *)
Definition peer (c : nat) : nat := if decide (c = 0%nat) then 1 else 0.
Definition testdmx_init (c : nat) : prog loop unit := v ← get_card (peer c); put_card (peer c) (with_other (Some c) v).
Definition testdmx_cleanup (c : nat) : prog loop unit := v ← get_card (peer c); put_card (peer c) (with_other None v).
Section wire.
Context (interrupted : nat -> bool).
Definition testdmx_sendFrame (c : nat) (f : dmx512frame) : prog loop unit :=
  user ← get_card c; dmx512_cuse_handle_received_frame interrupted (other_card user) f.
Definition testdmx_ops : card_ops (gmap nat testdmx_card) :=
  CardOps (Some testdmx_queryCardInfo) (Some testdmx_changeCardInfo) (Some testdmx_queryPortInfo) (Some testdmx_changePortInfo)
    (Some testdmx_init) (Some testdmx_cleanup) (Some testdmx_sendFrame).
Definition loop_ops (c : nat) : option (card_ops (gmap nat testdmx_card)) := Some testdmx_ops.
End wire.

(** What [main] makes of a card: 16 ports "Port-A" to "Port-P". *)
Definition new_test_card : testdmx_card :=
  TestCard None 16 (padded [99; 117; 115; 116; 111; 109; 101; 114; 32; 108; 97; 98; 101; 108])
    ((fun i => padded [80; 111; 114; 116; 45; 65 + Z.of_nat i]) <$> seq 0 16).
Definition test_cards : gmap nat testdmx_card := {[ 0%nat := new_test_card; 1%nat := new_test_card ]}.

(** ** What is written to one card is received by the other *)

(** Both cards are initialised. *)
Definition wired (d : gmap nat testdmx_card) : Prop := forall c, (c < 2)%nat -> exists v, d !! c = Some v /\ other_card v = Some (peer c).
Definition loop_send (interrupted : nat -> bool) (card : option nat) (f : dmx512frame) (a : files) : option files :=
  match card with
  | Some c => if decide (c < 2)%nat then a_receive interrupted (Some (peer c)) f a else None
  | None => Some a
  end.

Lemma loop_implemented interrupted : send_implemented (loop_ops interrupted) (loop_send interrupted) wired.
Proof.
  intros card f w a a' Hw HI Ha. destruct card as [c|]; cbn in Ha |- *; [|injection Ha as <-; by apply wp_ret].
  case_decide as Hc; [|done]. destruct (HI c Hc) as (v & Hv & Ho). unfold testdmx_sendFrame, get_card. apply wp_bind, wp_bind, wp_get.
  eapply wp_live; [done|]. rewrite Ho. eapply wp_mono; [by eapply receive_refines|]. cbn beta. intros _ w' [-> Hw']. by split.
Qed.

(** After [dmx512_cuse_init_done] for both cards they are wired. *)
Lemma init_wires interrupted w : u_drv w = test_cards ->
  exists w', (dmx512_cuse_init_done (loop_ops interrupted) 0 ;; dmx512_cuse_init_done (loop_ops interrupted) 1) w = Done (tt, w') /\
    wired (u_drv w') /\ forall a, implements w a -> implements w' a.
Proof.
  intros Hd. destruct w as [m cs l d]. cbn in Hd. subst d. eexists. split; [reflexivity|]. split.
  - intros [|[|c]] Hc; [| |lia]; eexists; (split; [vm_compute; reflexivity|reflexivity]).
  - intros a [Q []]. exists Q. by split.
Qed.

Lemma a_run_snoc interrupted send c a a' : a_step interrupted send c a = Some a' -> a_run interrupted send [c] a = Some a'.
Proof. intros E. cbn. by rewrite E. Qed.

(** The filter of transmitted frames selects the frame of a port below 31. *)
Lemma listens_transmitted c f : 0 <= f_port f < 31 -> has (f_flags f) DMX512_FLAGS_IS_TRANSMIT_FRAME = true ->
  listens c f = in_use c && Z.testbit (port_txmask c) (f_port f).
Proof.
  intros Hp Hf. unfold listens, selects. rewrite Hf. destruct (in_use c); [|by rewrite bool_decide_false].
  unfold port_selected, port_bit. rewrite (proj2 (Z.ltb_lt _ 64)), (proj2 (Z.ltb_lt _ 31)) by lia. cbn [mbind outcome_bind].
  assert (has (port_txmask c) (Z.shiftl 1 (f_port f)) = Z.testbit (port_txmask c) (f_port f)) as ->; [|by destruct (Z.testbit _ _)].
  unfold has. destruct (Z.testbit (port_txmask c) (f_port f)) eqn:Eb.
  - apply negb_true_iff, Z.eqb_neq. intros E. assert (Z.testbit (Z.land (port_txmask c) (Z.shiftl 1 (f_port f))) (f_port f) = false) as H by (by rewrite E, Z.bits_0).
    rewrite Z.land_spec, Eb, Z.shiftl_spec, Z.sub_diag in H by lia. done.
  - apply negb_false_iff, Z.eqb_eq. apply Z.bits_inj'. intros n Hn. rewrite Z.land_spec, Z.bits_0.
    destruct (Z.eq_dec n (f_port f)) as [->|Hne]; [by rewrite Eb|]. rewrite Z.shiftl_spec by lia.
    destruct (Z.ltb_spec n (f_port f)); [rewrite (Z.testbit_neg_r _ (n - f_port f)) by lia; apply andb_false_r|].
    replace 1 with (2 ^ 0) by done. rewrite Z.pow2_bits_false by lia. apply andb_false_r.
Qed.
Lemma transmit_flag x : has (Z.lor x DMX512_FLAGS_IS_TRANSMIT_FRAME) DMX512_FLAGS_IS_TRANSMIT_FRAME = true.
Proof.
  unfold has. apply negb_true_iff, Z.eqb_neq. intros E.
  assert (Z.testbit (Z.land (Z.lor x DMX512_FLAGS_IS_TRANSMIT_FRAME) DMX512_FLAGS_IS_TRANSMIT_FRAME) 15 = false) as H by (by rewrite E, Z.bits_0).
  rewrite Z.land_spec, Z.lor_spec, andb_comm in H. change (Z.testbit DMX512_FLAGS_IS_TRANSMIT_FRAME 15) with true in H. by rewrite orb_true_r in H.
Qed.

Lemma offers_other interrupted card f js a k : k.1 <> card -> Forall (fun i => (i < 32)%nat) js -> (forall i, (i < 32)%nat -> is_Some (a_files a !! (card, i))) ->
  f_port f < 32 ->
  exists a', a_offers interrupted (Some card) f js a = Some a' /\ a_files a' !! k = a_files a !! k.
Proof.
  intros Hk Hjs Hex Hp. revert a Hex. induction Hjs as [|i js Hi Hjs IH]; intros a Hex; cbn [a_offers]; [by exists a|].
  destruct (offer_effect interrupted card f i a Hi (Hex i Hi) Hp) as (a1 & E1 & _ & Hother & Hsome & _ & _). rewrite E1. cbn [mbind option_bind].
  destruct (IH a1) as (a' & E & Hk').
  { intros i' Hi'. destruct (decide (i' = i)) as [->|]; [done|]. rewrite Hother by congruence. by apply Hex. }
  exists a'. split; [done|]. rewrite Hk', Hother; [done|]. intros ->. by cbn in Hk.
Qed.

(** C23: A frame that is written to a file of one card of the loop is received
    by the files of the other card: a file there that polls and has no read
    waiting gets it, marked as transmitted, behind what it had, if the filter
    for transmitted frames selects its port; the filter for received frames
    does not matter, because the mark is set before the frame is sent.  The
    writer is told that all of it was written. *)
Theorem loop_write_received interrupted malloc_ok (w : loop) a req c fh k f k' ctx q size :
  implements w a -> wired (u_drv w) -> (c < 2)%nat ->
  (forall c' i, (c' < 2)%nat -> (i < 32)%nat -> is_Some (a_files a !! (c', i))) ->
  opened (Some c) fh a = Some k -> SIZEOF_FRAME <= size -> 0 <= f_port f < 31 ->
  k'.1 = peer c -> (k'.2 < 32)%nat -> a_files a !! k' = Some (File ctx q) -> read_req ctx = None -> pollhandle ctx <> None -> (32 <= a_free a)%nat ->
  let sent := with_flags (Z.lor (f_flags f) DMX512_FLAGS_IS_TRANSMIT_FRAME) f in
  exists w' a' log, handle (loop_ops interrupted) interrupted malloc_ok (CWrite req (Some c) f size (Some fh)) w = Done (tt, w') /\ implements w' a' /\
    a_files a' !! k' = Some (File ctx (q ++ if in_use ctx && Z.testbit (port_txmask ctx) (f_port f) then [sent] else [])) /\
    u_log w' = log ++ [ReplyWrite req size].
Proof.
  intros Hw HI Hc Hex Ho Hsize Hp Hk1 Hk2 Hk' Hr Hph Hfree sent.
  assert (peer c < 2)%nat as Hpeer by (unfold peer; case_decide; lia). assert (peer c <> c) as Hne by (unfold peer; case_decide; lia).
  assert (Forall (fun i => (i < 32)%nat) (seq 0 DMX512_CUSE_CONTEXT_COUNT)) as Hall by (apply Forall_forall; intros i Hi%elem_of_seq; unfold DMX512_CUSE_CONTEXT_COUNT in Hi; lia).
  destruct (offers_effect interrupted (peer c) sent (seq 0 DMX512_CUSE_CONTEXT_COUNT) a k' ctx q) as (a1 & E1 & _ & Hex1 & _ & Hk1'); try done;
    [apply NoDup_ListNoDup, seq_NoDup|by intros; apply Hex|cbn; lia|].
  assert (forall i, (i < 32)%nat -> is_Some (a_files a1 !! (c, i))) as Hex2.
  { intros i Hi. destruct (offers_other interrupted (peer c) sent (seq 0 DMX512_CUSE_CONTEXT_COUNT) a (c, i)) as (a1' & E1' & Hsame); [cbn; done|done|by intros; apply Hex|cbn; lia|].
    rewrite E1 in E1'. injection E1' as <-. rewrite Hsame. by apply Hex. }
  destruct (offers_other interrupted c sent (seq 0 DMX512_CUSE_CONTEXT_COUNT) a1 k') as (a2 & E2 & Hk2'); [by rewrite Hk1|done|done|cbn; lia|].
  assert (a_step interrupted (loop_send interrupted) (CWrite req (Some c) f size (Some fh)) a = Some (a_say (ReplyWrite req size) a2)) as Ea.
  { cbn [a_step]. unfold a_write, on_file. rewrite Ho. unfold opened in Ho. destruct (dmx512_cuse_context (Some c) fh); [|done].
    cbn [mbind option_bind]. destruct k as [k ac]. rewrite (proj2 (Z.ltb_ge _ _)) by lia. fold sent. cbn [loop_send]. rewrite decide_True by done.
    unfold a_receive. rewrite E1. cbn [mbind option_bind]. by rewrite E2. }
  pose proof (call_refines (loop_ops interrupted) interrupted malloc_ok (loop_send interrupted) wired _ w a _ (loop_implemented interrupted) Hw HI Ea) as H.
  unfold wp in H. destruct (handle _ _ _ _ w) as [[[] w']|]; [|done]. destruct H as [HI' Hw']. exists w', (a_say (ReplyWrite req size) a2), (a_log a2).
  split; [done|]. split; [done|]. split; [|destruct Hw' as [Q Hr']; by rewrite (rf_log _ _ _ Hr')].
  cbn [a_say a_files]. rewrite Hk2', Hk1'. do 2 f_equal. f_equal. rewrite bool_decide_true, andb_true_r.
  - by rewrite (listens_transmitted ctx sent) by (done || apply transmit_flag).
  - split; [done|]. apply elem_of_seq. unfold DMX512_CUSE_CONTEXT_COUNT. lia.
Qed.

(** A writer on card 0 and a file of card 1 that polls port 2. *)
Definition loop_calls : list call :=
  [COpen 1 (Some 0%nat) 0; COpen 2 (Some 1%nat) 0; CIoctl 3 (Some 1%nat) DMX512_IOCTL_SET_PORT_TXFILTER 0 0 (InWord 4) 0; CPoll 4 (Some 1%nat) 0 (Some 9%nat)].
Definition loop_files : files :=
  default (a_start []) (a_run (fun _ => false) (loop_send (fun _ => false)) loop_calls (a_start [0%nat; 1%nat])).
Lemma loop_run : a_run (fun _ => false) (loop_send (fun _ => false)) loop_calls (a_start [0%nat; 1%nat]) = Some loop_files.
Proof. vm_compute. reflexivity. Qed.
Lemma loop_world : exists w : loop, implements w loop_files /\ wired (u_drv w).
Proof.
  destruct (start_returns test_cards [0%nat; 1%nat]) as (w0 & _ & Hd & Hw0).
  destruct (init_wires (fun _ => false) w0 Hd) as (w & _ & Hwired & Hw).
  destruct (run_returns (loop_ops (fun _ => false)) (fun _ => false) (fun _ => true) (loop_send (fun _ => false)) wired loop_calls w _ _
    (loop_implemented _) (Hw _ Hw0) Hwired loop_run) as (w' & _ & ? & ?). by exists w'.
Qed.
Lemma both_cards a : forallb (fun k => bool_decide (is_Some (a_files a !! k))) (list_prod [0; 1]%nat (seq 0 32)) = true ->
  forall c i, (c < 2)%nat -> (i < 32)%nat -> is_Some (a_files a !! (c, i)).
Proof.
  intros H c i Hc Hi. rewrite forallb_forall in H. specialize (H (c, i)). rewrite bool_decide_eq_true in H. apply H, in_prod; [|apply in_seq; lia].
  destruct c as [|[|c]]; cbn; by auto || lia.
Qed.
Lemma loop_write_received_witness : exists w w' a' log,
  handle (loop_ops (fun _ => false)) (fun _ => false) (fun _ => true) (CWrite 5 (Some 0%nat) (frame_on 2 77) 600 (Some 0)) w = Done (tt, w') /\ implements w' a' /\
  a_files a' !! (1%nat, 0%nat) = Some (File (Context true false 0 4 None (Some 9%nat)) [with_flags 0x8000 (frame_on 2 77)]) /\
  u_log w' = log ++ [ReplyWrite 5 600].
Proof.
  destruct loop_world as (w & Hw & Hwired). exists w.
  apply (loop_write_received (fun _ => false) (fun _ => true) w loop_files 5 0 0 ((0%nat, 0%nat), File (Context true false 0 0 None None) [])
    (frame_on 2 77) (1%nat, 0%nat) (Context true false 0 4 None (Some 9%nat)) [] 600 Hw Hwired);
    [apply Nat.lt_0_succ|apply both_cards; vm_compute; reflexivity|vm_compute; reflexivity|discriminate|split; [discriminate|reflexivity]|reflexivity|
     apply Nat.lt_0_succ|vm_compute; reflexivity|reflexivity|discriminate|apply Nat.leb_le; vm_compute; reflexivity].
Defined.

(** ** Names *)

Lemma change_one k copy t user : key t = k -> change_names 1 0 [t] k copy user = copy (value t) user.
Proof. intros Hk. cbn. change ([t] !! Z.to_nat 0) with (Some t). cbn. rewrite Hk, Z.eqb_refl. by destruct (copy _ _). Qed.

(** A customer name that is changed is the name that is read back, as
    long as it has fewer than 64 characters: the value of the tuple is then
    the name and zeros.  A longer name is cut without an end and the next
    query of the name reads behind its array. *)
Theorem customer_name_roundtrip (w : loop) c user s r ci ch ml ts q t :
  u_drv w !! c = Some user -> length (customer_name user) = NAME_SIZE -> no_zero s ->
  card_index ci = Z.of_nat c -> tuple_count ci = 1 -> ts = [Tuple DMX4LINUX2_ID_CUSTOMER_NAME ch ml (named s r)] ->
  tuple_count q = 1 -> key t = DMX4LINUX2_ID_CUSTOMER_NAME -> length (value t) = MAX_NAME_LEN ->
  exists w', testdmx_changeCardInfo c ci (Some ts) w = Done (0, ci, Some ts, w') /\
    testdmx_queryCardInfo c q (Some [t]) w' =
      if (length s <? NAME_SIZE)%nat then
        Done (0, Info (Z.of_nat c) (num_ports user) 1 (tuples q), Some [Tuple DMX4LINUX2_ID_CUSTOMER_NAME 1 63 (s ++ replicate (MAX_NAME_LEN - length s) 0)], w')
      else Fault OutOfBounds.
Proof.
  intros Hu Hlen Hs Hci Hcount -> Hq Hkey Hv.
  set (name := if (length s <? NAME_SIZE)%nat then s ++ replicate (NAME_SIZE - length s) 0 else take NAME_SIZE s).
  assert (strncpy (customer_name user) (named s r) NAME_SIZE = Done name) as Ename.
  { unfold name. destruct (Nat.ltb_spec (length s) NAME_SIZE); [by apply strncpy_short|by apply strncpy_long]. }
  set (w' := with_u_drv (<[c := with_name name user]> (u_drv w)) w). exists w'. split.
  - unfold testdmx_changeCardInfo. assert (get_card c w = Done (user, w)) as Eg by (unfold get_card, mbind, prog_bind, get_state, live; by rewrite Hu).
    rewrite (bind_run _ _ _ _ _ Eg). rewrite Hci, Z.eqb_refl, Hcount. cbn [negb Z.ltb Z.compare].
    assert (lift_outcome (change_names (Z.to_nat 1) 0 [Tuple DMX4LINUX2_ID_CUSTOMER_NAME ch ml (named s r)] DMX4LINUX2_ID_CUSTOMER_NAME copy_name user) w =
      Done (with_name name user, w)) as Ec.
    { unfold lift_outcome. change (Z.to_nat 1) with 1%nat. rewrite change_one by done. unfold copy_name. cbn [value]. by rewrite Ename. }
    rewrite (bind_run _ _ _ _ _ Ec). done.
  - unfold testdmx_queryCardInfo. assert (get_card c w' = Done (with_name name user, w')) as Eg
      by (unfold get_card, mbind, prog_bind, get_state, live; cbn; by rewrite lookup_insert_eq).
    rewrite (bind_run _ _ _ _ _ Eg). cbv zeta. rewrite Hq.
    assert (lift_outcome (for_tuples (Z.to_nat 1) 0 (default_key supported_card_tuples) [t]) w' = Done ([t], w')) as Ek.
    { unfold lift_outcome. change (Z.to_nat 1) with 1%nat. rewrite for_one. unfold default_key. by rewrite edit_one, Hkey. }
    rewrite (bind_run _ _ _ _ _ Ek). change (Z.to_nat (1 `min` 4)) with 1%nat.
    assert (for_tuples 1 0 (fun i => edit_tuple i (card_value (with_name name user))) [t] = (v ← strncpy (value t) name MAX_NAME_LEN; Done [changeable (with_value v t)])) as ->.
    { rewrite for_one, edit_one. unfold card_value. rewrite Hkey. change (customer_name (with_name name user)) with name. by destruct (strncpy (value t) name MAX_NAME_LEN). }
    unfold name. destruct (Nat.ltb_spec (length s) NAME_SIZE) as [Hlt|Hge].
    + replace (NAME_SIZE - length s)%nat with (S (NAME_SIZE - length s - 1)) by lia. cbn [replicate].
      rewrite (strncpy_short (value t) s (replicate (NAME_SIZE - length s - 1) 0)) by (done || (unfold NAME_SIZE, MAX_NAME_LEN in *; lia)).
      cbn [mbind outcome_bind]. rewrite (bind_run _ _ w' [changeable (with_value (s ++ replicate (MAX_NAME_LEN - length s) 0) t)] w') by done.
      unfold changeable, with_value. cbn [key changable maxlength value]. by rewrite Hkey.
    + unfold strncpy. rewrite c_string_open; [done|by apply Forall_take|]. rewrite length_take. unfold NAME_SIZE, MAX_NAME_LEN in *. lia.
Qed.
(** "llg" is set and read back. *)
Lemma customer_name_roundtrip_witness : exists w',
  testdmx_changeCardInfo 0 (Info 0 0 1 8) (Some [Tuple 4 0 0 (named [108; 108; 103] (replicate 252 7))]) (Cuse kmem_init ∅ [] test_cards) =
    Done (0, Info 0 0 1 8, Some [Tuple 4 0 0 (named [108; 108; 103] (replicate 252 7))], w') /\
  testdmx_queryCardInfo 0 (Info 0 0 1 8) (Some [Tuple 4 0 0 (replicate 256 0)]) w' =
    Done (0, Info 0 16 1 8, Some [Tuple 4 1 63 ([108; 108; 103] ++ replicate 253 0)], w').
Proof.
  exact (customer_name_roundtrip (Cuse kmem_init ∅ [] test_cards) 0 new_test_card [108; 108; 103] (replicate 252 7) (Info 0 0 1 8) 0 0 _ (Info 0 0 1 8)
    (Tuple 4 0 0 (replicate 256 0)) eq_refl eq_refl ltac:(by repeat constructor) eq_refl eq_refl eq_refl eq_refl eq_refl eq_refl).
Defined.
