(* ===== verification/Tasklets.v ===== *)
(** * Tasklets: kernel.c

    [src/uio-testbench/kernel.c] and [kernel.h]: functions that are scheduled
    to run later, on a list that is linked through the tasklets themselves.
    The list is a queue without duplicates as long as a tasklet that is
    scheduled has no link left from an earlier run; nothing removes these
    links, and with one of them the list can become a cycle. *)
From stdpp Require Import base gmap list.
From S2P Require Import Prelude.

(** ** The list *)

(** [g_tasklet_list], the member [next] of each tasklet and the state of the
    functions.  The other members of [struct tasklet_struct] never change. *)
Record tasklets (W : Type) := Tasklets {
  g_tasklet_list : option nat;
  t_next : gmap nat (option nat);
  t_world : W }.
Arguments Tasklets {W}. Arguments g_tasklet_list {W}. Arguments t_next {W}. Arguments t_world {W}.

Section tasklets.
Context {W : Type}.
Implicit Types s : tasklets W.

Definition with_list (l : option nat) s : tasklets W := Tasklets l (t_next s) (t_world s).
Definition with_next (t : nat) (n : option nat) s : tasklets W := Tasklets (g_tasklet_list s) (<[t := n]> (t_next s)) (t_world s).
Definition with_world (f : W -> W) s : tasklets W := Tasklets (g_tasklet_list s) (t_next s) (f (t_world s)).

Definition tasklet_init (t : nat) : prog (tasklets W) unit := modify (with_next t None).

(** [struct tasklet_struct **]: the head of the list or a member [next]. *)
Inductive slot := Head | NextOf (t : nat).
Definition read_slot (l : slot) : prog (tasklets W) (option nat) :=
  match l with
  | Head => gets g_tasklet_list
  | NextOf t => s ← get_state; live (t_next s !! t)
  end.
Definition write_slot (l : slot) (v : option nat) : prog (tasklets W) unit :=
  match l with
  | Head => modify (with_list v)
  | NextOf t => s ← get_state; _ ← live (t_next s !! t); modify (with_next t v)
  end.

Fixpoint schedule_from (fuel : nat) (l : slot) (t : nat) : prog (tasklets W) unit :=
  match fuel with
  | O => raise OutOfFuel
  | S fuel =>
      v ← read_slot l;
      match v with
      | None => write_slot l (Some t)
      | Some u => if decide (u = t) then mret tt else schedule_from fuel (NextOf u) t
      end
  end.
Definition tasklet_schedule (fuel : nat) (t : nat) : prog (tasklets W) unit := schedule_from fuel Head t.
Definition tasklet_hi_schedule : nat -> nat -> prog (tasklets W) unit := tasklet_schedule.
Definition tasklet_hi_schedule_first : nat -> nat -> prog (tasklets W) unit := tasklet_schedule.

(** The functions may schedule tasklets. *)
Fixpoint run_all_tasklets (func : nat -> prog (tasklets W) unit) (fuel : nat) : prog (tasklets W) unit :=
  match fuel with
  | O => raise OutOfFuel
  | S fuel =>
      t ← gets g_tasklet_list;
      match t with
      | None => mret tt
      | Some t =>
          next ← read_slot (NextOf t);
          write_slot Head next ;;
          func t ;;
          run_all_tasklets func fuel
      end
  end.

Fixpoint schedule_all (fuel : nat) (ts : list nat) : prog (tasklets W) unit :=
  match ts with [] => mret tt | t :: ts => tasklet_schedule fuel t ;; schedule_all fuel ts end.

(** ** The list as a queue *)

(** [l] is linked from the slot on and ends with a null pointer. *)
Fixpoint chained (N : gmap nat (option nat)) (v : option nat) (l : list nat) : Prop :=
  match l with
  | [] => v = None
  | t :: l => v = Some t /\ exists n, N !! t = Some n /\ chained N n l
  end.
Definition slot_value (s : tasklets W) (l : slot) : option (option nat) :=
  match l with Head => Some (g_tasklet_list s) | NextOf t => t_next s !! t end.

Lemma chained_insert N v l t n : t ∉ l -> chained N v l -> chained (<[t := n]> N) v l.
Proof.
  revert v. induction l as [|u l IH]; intros v Ht; cbn; [done|]. intros (-> & m & Hm & Hl). apply not_elem_of_cons in Ht as [Hne Ht].
  split; [done|]. exists m. by rewrite lookup_insert_ne; auto.
Qed.

(** Walking to the end of the list. *)
Lemma schedule_from_spec fuel sl l v t s :
  slot_value s sl = Some v -> chained (t_next s) v l -> NoDup l -> (length l < fuel)%nat -> t_next s !! t = Some None ->
  match sl with Head => True | NextOf u => u ∉ l /\ u <> t end ->
  wp (schedule_from fuel sl t) (fun _ s' => t_world s' = t_world s /\ dom (t_next s') = dom (t_next s) /\
    (forall u, u ∉ l -> sl <> NextOf u -> t_next s' !! u = t_next s !! u) /\
    (exists v', slot_value s' sl = Some v' /\ chained (t_next s') v' (if decide (t ∈ l) then l else l ++ [t])) /\
    (sl <> Head -> g_tasklet_list s' = g_tasklet_list s)) s.
Proof.
  intros Hv Hc Hnd Hlen Ht. revert sl v l Hv Hc Hnd Hlen. induction fuel as [|fuel IH]; intros sl v l Hv Hc Hnd Hlen Hsl; [lia|].
  cbn [schedule_from]. apply wp_bind.
  assert (forall P, P v s -> wp (read_slot sl) P s) as Hread.
  { intros P HP. destruct sl as [|u]; cbn in *; [injection Hv as <-; by apply wp_gets|]. apply wp_bind, wp_get. by eapply wp_live. }
  apply Hread. destruct l as [|u l]; cbn in Hc.
  - subst v. assert (forall P : unit -> tasklets W -> Prop, P tt (match sl with Head => with_list (Some t) s | NextOf u => with_next u (Some t) s end) ->
      wp (write_slot sl (Some t)) P s) as Hwrite.
    { intros P HP. destruct sl as [|u]; [by apply wp_modify|]. apply wp_bind, wp_get. apply wp_bind. by eapply wp_live. }
    apply Hwrite. rewrite decide_False by set_solver. destruct sl as [|u]; cbn in Hv |- *.
    + split_and!; try done. exists (Some t). split; [done|]. split; [done|]. by exists None.
    + destruct Hsl as [_ Hne]. split_and!; try done.
      * apply elem_of_dom_2 in Hv. rewrite dom_insert_L. set_solver.
      * intros x _ Hx. rewrite lookup_insert_ne; congruence.
      * exists (Some t). rewrite lookup_insert_eq. split; [done|]. split; [done|]. exists None. by rewrite lookup_insert_ne.
  - destruct Hc as (-> & n & Hn & Hc). apply NoDup_cons in Hnd as [Hu Hnd]. destruct (decide (u = t)) as [->|Hne].
    + apply wp_ret. rewrite decide_True by set_solver. split_and!; try done. exists (Some t). split; [done|]. split; [done|]. by exists n.
    + eapply wp_mono; [eapply (IH (NextOf u) n l); try done; cbn in Hlen; lia|]. cbn beta.
      intros _ s' (Hw & Hd & Hother & (v' & Hv' & Hc') & Hhead). split_and!; [done|done| | |].
      * intros x Hx Hsx. apply Hother; [set_solver|]. intros [= <-]. set_solver.
      * exists (Some u). split.
        { destruct sl as [|x]; cbn in *; [by rewrite Hhead|]. rewrite Hother; [done|set_solver|]. intros [= ->]. set_solver. }
        assert ((if decide (t ∈ u :: l) then u :: l else (u :: l) ++ [t]) = u :: if decide (t ∈ l) then l else l ++ [t]) as ->.
        { repeat case_decide; set_solver. }
        split; [done|]. by exists v'.
      * intros Hs. by apply Hhead.
Qed.

(** The queue of the contract: no tasklet is in it twice. *)
Definition enqueue_once (l : list nat) (t : nat) : list nat := if decide (t ∈ l) then l else l ++ [t].
(** The list is [l], and tasklets that are not in it have no link. *)
Definition queued (l : list nat) s : Prop :=
  chained (t_next s) (g_tasklet_list s) l /\ NoDup l /\ forall t n, t_next s !! t = Some n -> t ∉ l -> n = None.

Lemma schedule_spec fuel l t s :
  queued l s -> (length l < fuel)%nat -> is_Some (t_next s !! t) ->
  wp (tasklet_schedule fuel t) (fun _ s' => queued (enqueue_once l t) s' /\ t_world s' = t_world s /\ dom (t_next s') = dom (t_next s)) s.
Proof.
  intros (Hc & Hnd & Hidle) Hlen [n Hn]. unfold enqueue_once.
  assert (wp (tasklet_schedule fuel t) (fun _ s' => t_world s' = t_world s /\ dom (t_next s') = dom (t_next s) /\
    (forall u, u ∉ l -> t_next s' !! u = t_next s !! u) /\
    chained (t_next s') (g_tasklet_list s') (if decide (t ∈ l) then l else l ++ [t])) s) as H.
  { destruct (decide (t ∈ l)) as [Hin|Hout]; cycle 1.
    - assert (n = None) as -> by by eapply Hidle. eapply wp_mono; [by eapply (schedule_from_spec fuel Head l)|]. cbn beta.
      intros _ s' (Hw & Hd & Hother & (v' & [= <-] & Hc') & _). split_and!; [done|done|intros u Hu; by apply Hother|]. by rewrite decide_False in Hc'.
    - clear Hidle. unfold tasklet_schedule. assert (forall k sl v, (length k < fuel)%nat -> slot_value s sl = Some v -> chained (t_next s) v k -> t ∈ k ->
        schedule_from fuel sl t s = Done (tt, s)) as Hstay.
      { clear Hlen Hc Hin Hnd l. induction fuel as [|fuel' IH]; intros k sl v Hlen Hv Hc Hin; [lia|]. cbn [schedule_from].
        assert (read_slot sl s = Done (v, s)) as E. { destruct sl as [|u]; cbn in *; [by injection Hv as <-|]. unfold mbind, prog_bind, get_state, live. by rewrite Hv. }
        rewrite (bind_run _ _ _ _ _ E). destruct k as [|u k]; [set_solver|]. destruct Hc as (-> & m & Hm & Hc).
        destruct (decide (u = t)); [done|]. cbn in Hlen. apply (IH k (NextOf u) m); [lia|done|done|set_solver]. }
      unfold wp. rewrite (Hstay l Head (g_tasklet_list s)) by done. by split_and!. }
  eapply wp_mono; [exact H|]. cbn beta. intros _ s' (Hw & Hd & Hother & Hc'). split; [|done]. split_and!; [done| |].
  - case_decide; [done|]. apply NoDup_app. split_and!; [done|set_solver|apply NoDup_singleton].
  - intros u m Hu Hnu. case_decide as Hin; [rewrite Hother in Hu by done; by eapply Hidle|].
    assert (u ∉ l) by set_solver. rewrite Hother in Hu by done. by eapply Hidle.
Qed.

Lemma schedule_all_spec fuel ts l s :
  queued l s -> (length l + length ts < fuel)%nat -> (forall t, t ∈ ts -> is_Some (t_next s !! t)) ->
  wp (schedule_all fuel ts) (fun _ s' => queued (foldl enqueue_once l ts) s' /\ t_world s' = t_world s) s.
Proof.
  revert l s. induction ts as [|t ts IH]; intros l s Hq Hlen Hts; cbn [schedule_all foldl]; [by apply wp_ret|]. cbn [length] in Hlen.
  apply wp_bind. eapply wp_mono; [apply (schedule_spec fuel l t s Hq); [lia|apply Hts; set_solver]|]. cbn beta.
  intros _ s1 (Hq1 & Hw1 & Hd1). eapply wp_mono; [apply (IH (enqueue_once l t) s1 Hq1)|].
  - unfold enqueue_once. case_decide; rewrite ?length_app; cbn; lia.
  - intros u Hu. apply elem_of_dom. rewrite Hd1. apply elem_of_dom, Hts. set_solver.
  - cbn beta. intros _ s' [Hq' Hw']. split; [done|by rewrite Hw'].
Qed.
End tasklets.

(** ** Properties *)

Section properties.
Context {W : Type} (f : nat -> W -> W).
Implicit Types s : tasklets W.

(** Functions that do not schedule tasklets. *)
Definition work (t : nat) : prog (tasklets W) unit := modify (with_world (f t)).

Lemma run_all_spec fuel l s :
  chained (t_next s) (g_tasklet_list s) l -> (length l < fuel)%nat ->
  run_all_tasklets work fuel s = Done (tt, Tasklets None (t_next s) (foldl (fun w t => f t w) (t_world s) l)).
Proof.
  revert l s. induction fuel as [|fuel IH]; intros l s Hc Hlen; [lia|]. cbn [run_all_tasklets].
  rewrite (bind_run _ _ s (g_tasklet_list s) s) by done. destruct l as [|t l]; cbn in Hc.
  - rewrite Hc. destruct s. cbn in *. by subst.
  - destruct Hc as (-> & n & Hn & Hc). cbn [length] in Hlen.
    assert (read_slot (NextOf t) s = Done (n, s)) as E by (unfold read_slot, mbind, prog_bind, get_state, live; by rewrite Hn).
    rewrite (bind_run _ _ _ _ _ E). rewrite (bind_run _ _ _ tt (with_list n s)) by done.
    rewrite (bind_run _ _ _ tt (with_world (f t) (with_list n s))) by done. by rewrite (IH l) by (done || lia).
Qed.

(** C34: Tasklets are a queue: when no link is left from earlier runs, those
    that are scheduled, some perhaps more than once, are all run, each once,
    in the order in which they were scheduled first, and the list is empty
    then. *)
Theorem tasklets_run_in_order fuel ts s :
  g_tasklet_list s = None -> (forall t n, t_next s !! t = Some n -> n = None) ->
  (forall t, t ∈ ts -> is_Some (t_next s !! t)) -> (length ts < fuel)%nat ->
  exists s', (schedule_all fuel ts ;; run_all_tasklets work fuel) s = Done (tt, s') /\ g_tasklet_list s' = None /\
    t_world s' = foldl (fun w t => f t w) (t_world s) (foldl enqueue_once [] ts).
Proof.
  intros Hl Hn Hts Hfuel. assert (queued [] s) as Hq by (split_and!; [done|constructor|intros t n Ht _; by eapply Hn]).
  pose proof (schedule_all_spec fuel ts [] s Hq Hfuel Hts) as (x & s1 & E1 & (Hc & Hnd & _) & Hw)%wp_run. destruct x.
  rewrite (bind_run _ _ _ _ _ E1). rewrite (run_all_spec fuel _ s1 Hc); [eexists; split; [done|]; by rewrite Hw|].
  assert (forall us l, (length (foldl enqueue_once l us) <= length l + length us)%nat) as Hle; [|specialize (Hle ts []); cbn in Hle; lia].
  induction us as [|u us IH]; intros l; cbn [foldl length]; [lia|]. etrans; [apply IH|]. unfold enqueue_once. case_decide; rewrite ?length_app; cbn; lia.
Qed.

(** Two tasklets that are linked to each other. *)
Definition cyclic (a b : nat) s : Prop :=
  (g_tasklet_list s = Some a \/ g_tasklet_list s = Some b) /\ t_next s !! a = Some (Some b) /\ t_next s !! b = Some (Some a).
Lemma cyclic_run a b s fuel : cyclic a b s -> run_all_tasklets work fuel s = Fault OutOfFuel.
Proof.
  revert s. induction fuel as [|fuel IH]; intros s (Hl & Ha & Hb); [done|]. cbn [run_all_tasklets].
  rewrite (bind_run _ _ s (g_tasklet_list s) s) by done.
  assert (exists t u, g_tasklet_list s = Some t /\ t_next s !! t = Some (Some u) /\ (u = a \/ u = b)) as (t & u & -> & Ht & Hu) by (destruct Hl; eauto 8).
  assert (read_slot (NextOf t) s = Done (Some u, s)) as E by (unfold read_slot, mbind, prog_bind, get_state, live; by rewrite Ht).
  rewrite (bind_run _ _ _ _ _ E). rewrite (bind_run _ _ _ tt (with_list (Some u) s)) by done.
  rewrite (bind_run _ _ _ tt (with_world (f t) (with_list (Some u) s))) by done. apply IH. split_and!; [|done..]. cbn. destruct Hu as [-> | ->]; by auto.
Qed.
Lemma cyclic_schedule a b c s fuel : cyclic a b s -> c <> a -> c <> b -> tasklet_schedule fuel c s = Fault OutOfFuel.
Proof.
  intros (Hl & Ha & Hb) Hca Hcb. unfold tasklet_schedule.
  assert (forall sl, slot_value s sl = Some (Some a) \/ slot_value s sl = Some (Some b) -> schedule_from fuel sl c s = Fault OutOfFuel) as H.
  { induction fuel as [|fuel' IH]; intros sl Hsl; [done|]. cbn [schedule_from].
    assert (exists t, slot_value s sl = Some (Some t) /\ (t = a \/ t = b)) as (t & Hv & Ht) by (destruct Hsl; eauto).
    assert (read_slot sl s = Done (Some t, s)) as E.
    { destruct sl as [|u]; cbn in *; [injection Hv as Hv; unfold gets; by rewrite Hv|]. unfold mbind, prog_bind, get_state, live. by rewrite Hv. }
    rewrite (bind_run _ _ _ _ _ E). rewrite decide_False by (destruct Ht as [-> | ->]; done). apply IH. cbn. destruct Ht as [-> | ->]; by auto. }
  apply H. cbn. destruct Hl as [-> | ->]; by auto.
Qed.

(** A tasklet that has run keeps its link.  When two tasklets were
    scheduled and run, and are scheduled again in the opposite order, the
    list is a cycle: running the tasklets never ends, and neither does
    scheduling a third one. *)
Theorem stale_link_makes_a_cycle a b s :
  a <> b -> g_tasklet_list s = None -> t_next s !! a = Some None -> t_next s !! b = Some None ->
  exists s', (schedule_all 3 [a; b] ;; run_all_tasklets work 3 ;; schedule_all 3 [b; a]) s = Done (tt, s') /\
    (forall fuel, run_all_tasklets work fuel s' = Fault OutOfFuel) /\
    (forall fuel c, c <> a -> c <> b -> tasklet_schedule fuel c s' = Fault OutOfFuel).
Proof.
  intros Hne Hl Ha Hb. destruct s as [h N w]. cbn in Hl, Ha, Hb. subst h.
  set (s' := Tasklets (Some b) (<[b := Some a]> (<[a := Some b]> N)) (f b (f a w))).
  assert (cyclic a b s') as Hcyc.
  { split_and!; [by right| |]; cbn; [rewrite lookup_insert_ne by done|]; by rewrite lookup_insert_eq. }
  exists s'. split; [|split; [intros; by eapply cyclic_run|intros; by eapply cyclic_schedule]].
  assert (schedule_all 3 [a; b] (Tasklets None N w) = Done (tt, Tasklets (Some a) (<[a := Some b]> N) w)) as E1.
  { cbn. unfold tasklet_schedule, mbind, prog_bind. cbn. rewrite decide_False by done.
    unfold mbind, prog_bind, get_state, live, modify. cbn. rewrite Ha. cbn. rewrite Ha. done. }
  rewrite (bind_run _ _ _ _ _ E1).
  assert (run_all_tasklets work 3 (Tasklets (Some a) (<[a := Some b]> N) w) = Done (tt, Tasklets None (<[a := Some b]> N) (f b (f a w)))) as E2.
  { rewrite (run_all_spec 3 [a; b]); [done| |cbn; lia]. cbn. split; [done|]. exists (Some b). rewrite lookup_insert_eq. split_and!; [done..|].
    exists None. by rewrite lookup_insert_ne. }
  rewrite (bind_run _ _ _ _ _ E2).
  cbn. unfold tasklet_schedule, mbind, prog_bind. cbn. rewrite decide_False by done.
  unfold mbind, prog_bind, get_state, live, modify. cbn. rewrite lookup_insert_ne, Hb by done. cbn. rewrite lookup_insert_ne, Hb by done. done.
Qed.
End properties.

Definition note (t : nat) (log : list nat) : list nat := log ++ [t].
Definition three_tasklets : tasklets (list nat) := Tasklets None {[ 1%nat := None; 2%nat := None; 3%nat := None ]} [].
Lemma tasklets_run_in_order_witness : exists s',
  (schedule_all 5 [2; 1; 2; 3]%nat ;; run_all_tasklets (work note) 5) three_tasklets = Done (tt, s') /\ g_tasklet_list s' = None /\ t_world s' = [2; 1; 3]%nat.
Proof.
  apply (tasklets_run_in_order note 5 [2; 1; 2; 3]%nat three_tasklets); [done| | |cbn; lia].
  - intros t n Ht. cbn in Ht. apply lookup_insert_Some in Ht as [[_ <-]|[_ Ht]]; [done|]. apply lookup_insert_Some in Ht as [[_ <-]|[_ Ht]]; [done|].
    by apply lookup_singleton_Some in Ht as [_ <-].
  - intros t Ht. repeat (apply elem_of_cons in Ht as [->|Ht]; [by eexists|]). by apply not_elem_of_nil in Ht.
Defined.
Lemma stale_link_makes_a_cycle_witness : exists s',
  (schedule_all 3 [1; 2]%nat ;; run_all_tasklets (work note) 3 ;; schedule_all 3 [2; 1]%nat) three_tasklets = Done (tt, s') /\
  (forall fuel, run_all_tasklets (work note) fuel s' = Fault OutOfFuel) /\
  (forall fuel c, c <> 1%nat -> c <> 2%nat -> tasklet_schedule fuel c s' = Fault OutOfFuel).
Proof. by apply (stale_link_makes_a_cycle note 1 2 three_tasklets). Defined.
