(* ===== verification/RtUart.v ===== *)
(** * UARTs with buffers: rtuart.c

    [src/uio-testbench/rtuart/rtuart.c] with [rtuart.h], [rtuart_priv.h] and
    [rtuart_values.h]: the second generation of the UART drivers, in which a
    client hands over whole buffers.  The buffers belong to the client and are
    reached through pointers: they live in a store, so that a callback can
    change or free the buffer that the driver is working on.  [C] is the
    client's own state and [X] what a driver adds to [struct rtuart]. *)
From stdpp Require Import base countable gmap list.
From S2P Require Import Prelude Bus.

Definition RTUART_CONTROL_LOOP : Z := Z.shiftl 1 0.
Definition RTUART_CONTROL_BREAK : Z := Z.shiftl 1 1.
Definition RTUART_CONTROL_RTS : Z := Z.shiftl 1 2.
Definition RTUART_CONTROL_DTR : Z := Z.shiftl 1 3.
Definition RTUART_CONTROL_OUT1 : Z := Z.shiftl 1 4.
Definition RTUART_CONTROL_OUT2 : Z := Z.shiftl 1 5.
Definition RTUART_EVENT_BREAK : Z := Z.shiftl 1 0.
Definition RTUART_EVENT_CTS_CHANGE : Z := Z.shiftl 1 1.
Definition RTUART_EVENT_DSR_CHANGE : Z := Z.shiftl 1 2.
Definition RTUART_EVENT_DCD_CHANGE : Z := Z.shiftl 1 3.
Definition RTUART_EVENT_RI_CHANGE : Z := Z.shiftl 1 4.
Definition RTUART_EVENT_OVERRUN_ERROR : Z := Z.shiftl 1 5.
Definition RTUART_EVENT_FRAME_ERROR : Z := Z.shiftl 1 6.
Definition RTUART_EVENT_PARITY_ERROR : Z := Z.shiftl 1 7.
Definition RTUART_NOTIFY_TRANSMITTER_READY : Z := Z.shiftl 1 0.
Definition RTUART_NOTIFY_TRANSMITTER_EMPTY : Z := Z.shiftl 1 1.
Definition RTUART_NOTIFY_RECEIVER_HASDATA : Z := Z.shiftl 1 2.
Definition RTUART_NOTIFY_RECEIVER_TIMEOUT : Z := Z.shiftl 1 3.
Definition RTUART_NOTIFY_RECEIVER_EVENT : Z := Z.shiftl 1 4.
Definition RTUART_MAX_TRIGGERS : nat := 32.

(** [struct rtuart_buffer]; [data] is the memory behind the pointer, which
    need not be as long as [size] says. *)
Record rtuart_buffer := Buffer {
  data : option (list Z);
  size : Z;
  validcount : Z;
  transfered : Z;
  triggermask : Z;             (* unsigned long *)
  trigger : list Z }.          (* unsigned int [RTUART_MAX_TRIGGERS] *)

#[export] Instance rtuart_buffer_eq_dec : EqDecision rtuart_buffer.
Proof. solve_decision. Defined.

Definition with_data (d : list Z) (b : rtuart_buffer) : rtuart_buffer :=
  Buffer (Some d) (size b) (validcount b) (transfered b) (triggermask b) (trigger b).
Definition with_validcount (n : Z) (b : rtuart_buffer) : rtuart_buffer :=
  Buffer (data b) (size b) n (transfered b) (triggermask b) (trigger b).
Definition with_transfered (n : Z) (b : rtuart_buffer) : rtuart_buffer :=
  Buffer (data b) (size b) (validcount b) n (triggermask b) (trigger b).
Definition with_triggermask (m : Z) (b : rtuart_buffer) : rtuart_buffer :=
  Buffer (data b) (size b) (validcount b) (transfered b) m (trigger b).
Definition with_trigger (t : list Z) (b : rtuart_buffer) : rtuart_buffer :=
  Buffer (data b) (size b) (validcount b) (transfered b) (triggermask b) t.

(** [struct rtuart] with the fields that both drivers add to it, the store of
    the buffers and the state of the client.  [cb] points to one of the
    client's tables of callbacks. *)
Record rtuart (B X C : Type) := Uart {
  bus : B;
  notify_mask : Z;
  cb : option nat;
  cb_user_ptr : Z;
  tx_buffer : option nat;
  rx_buffer : option nat;
  in_irq : Z;
  ext : X;
  buffers : gmap nat rtuart_buffer;
  client : C }.
Arguments Uart {B X C}. Arguments bus {B X C}. Arguments notify_mask {B X C}. Arguments cb {B X C}.
Arguments cb_user_ptr {B X C}. Arguments tx_buffer {B X C}. Arguments rx_buffer {B X C}.
Arguments in_irq {B X C}. Arguments ext {B X C}. Arguments buffers {B X C}. Arguments client {B X C}.

Section setters.
Context {B X C : Type}.
Implicit Types u : rtuart B X C.
Definition with_bus b u : rtuart B X C := Uart b (notify_mask u) (cb u) (cb_user_ptr u) (tx_buffer u) (rx_buffer u) (in_irq u) (ext u) (buffers u) (client u).
Definition with_notify m u : rtuart B X C := Uart (bus u) m (cb u) (cb_user_ptr u) (tx_buffer u) (rx_buffer u) (in_irq u) (ext u) (buffers u) (client u).
Definition with_callbacks c p u : rtuart B X C := Uart (bus u) (notify_mask u) c p (tx_buffer u) (rx_buffer u) (in_irq u) (ext u) (buffers u) (client u).
Definition with_tx b u : rtuart B X C := Uart (bus u) (notify_mask u) (cb u) (cb_user_ptr u) b (rx_buffer u) (in_irq u) (ext u) (buffers u) (client u).
Definition with_rx b u : rtuart B X C := Uart (bus u) (notify_mask u) (cb u) (cb_user_ptr u) (tx_buffer u) b (in_irq u) (ext u) (buffers u) (client u).
Definition with_in_irq i u : rtuart B X C := Uart (bus u) (notify_mask u) (cb u) (cb_user_ptr u) (tx_buffer u) (rx_buffer u) i (ext u) (buffers u) (client u).
Definition with_ext x u : rtuart B X C := Uart (bus u) (notify_mask u) (cb u) (cb_user_ptr u) (tx_buffer u) (rx_buffer u) (in_irq u) x (buffers u) (client u).
Definition with_buffers m u : rtuart B X C := Uart (bus u) (notify_mask u) (cb u) (cb_user_ptr u) (tx_buffer u) (rx_buffer u) (in_irq u) (ext u) m (client u).
Definition with_client c u : rtuart B X C := Uart (bus u) (notify_mask u) (cb u) (cb_user_ptr u) (tx_buffer u) (rx_buffer u) (in_irq u) (ext u) (buffers u) c.
End setters.

(** [struct rtuart_callbacks]; a null pointer is [None]. *)
Record rtuart_callbacks (W : Type) := Callbacks {
  tx_start : option (option nat -> prog W unit);
  tx_end1 : option (option nat -> prog W unit);
  tx_end2 : option (option nat -> prog W unit);
  input_change : option (Z -> Z -> prog W unit);
  rx_err : option (Z -> prog W unit);
  rx_char : option (Z -> prog W unit);
  rx_end : option (option nat -> prog W unit);
  rx_timeout : option (option nat -> prog W unit);
  rx_trigger : option (option nat -> Z -> prog W unit) }.
Arguments Callbacks {W}. Arguments tx_start {W}. Arguments tx_end1 {W}. Arguments tx_end2 {W}.
Arguments input_change {W}. Arguments rx_err {W}. Arguments rx_char {W}. Arguments rx_end {W}.
Arguments rx_timeout {W}. Arguments rx_trigger {W}.

(** [struct rtuart_ops]; a getter gives the value it stores. *)
Record rtuart_ops (W : Type) := Ops {
  op_destroy : option (prog W unit);
  op_set_baudrate : option (Z -> prog W unit);
  op_get_baudrate : option (prog W Z);
  op_set_format : option (Z -> Z -> Z -> prog W unit);
  op_set_handshake : option (Z -> prog W unit);
  op_set_control : option (Z -> prog W unit);
  op_clr_control : option (Z -> prog W unit);
  op_get_control : option (prog W Z);
  op_set_notify : option (Z -> prog W unit);
  op_clr_notify : option (Z -> prog W unit);
  op_get_notify : option (prog W Z);
  op_tx_start : option (option nat -> prog W unit);
  op_tx_stop : option (option nat -> prog W (option Z));
  op_tx_written : option (option nat -> prog W Z);
  op_rx_start : option (option nat -> prog W unit);
  op_rx_stop : option (option nat -> prog W Z);
  op_rx_set_timeout : option (Z -> prog W unit);
  op_handle_irq : option (prog W unit) }.
Arguments Ops {W}. Arguments op_destroy {W}. Arguments op_set_baudrate {W}. Arguments op_get_baudrate {W}.
Arguments op_set_format {W}. Arguments op_set_handshake {W}. Arguments op_set_control {W}. Arguments op_clr_control {W}.
Arguments op_get_control {W}. Arguments op_set_notify {W}. Arguments op_clr_notify {W}. Arguments op_get_notify {W}.
Arguments op_tx_start {W}. Arguments op_tx_stop {W}. Arguments op_tx_written {W}. Arguments op_rx_start {W}.
Arguments op_rx_stop {W}. Arguments op_rx_set_timeout {W}. Arguments op_handle_irq {W}.

(** *** Dispatch to the driver *)
Section dispatch.
Context {W : Type} (ops : rtuart_ops W).

(** [if (uart->ops->f) uart->ops->f(uart, ...)] *)
Definition invoke {A} (f : option A) (call : A -> prog W unit) : prog W unit :=
  match f with Some f => call f | None => mret tt end.
Definition query (f : option (prog W Z)) : prog W (option Z) :=
  match f with Some f => v ← f; mret (Some v) | None => mret None end.

Definition rtuart_destroy : prog W unit := invoke (op_destroy ops) id.
Definition rtuart_set_baudrate (baudrate : Z) : prog W unit := invoke (op_set_baudrate ops) (fun f => f baudrate).
Definition rtuart_get_baudrate : prog W (option Z) := query (op_get_baudrate ops).
Definition rtuart_set_format (databits parity stopbits : Z) : prog W unit :=
  invoke (op_set_format ops) (fun f => f databits parity stopbits).
Definition rtuart_set_handshake (hs : Z) : prog W unit := invoke (op_set_handshake ops) (fun f => f hs).
Definition rtuart_set_control (to_set : Z) : prog W unit := invoke (op_set_control ops) (fun f => f to_set).
Definition rtuart_clr_control (to_clr : Z) : prog W unit := invoke (op_clr_control ops) (fun f => f to_clr).
Definition rtuart_get_control : prog W (option Z) := query (op_get_control ops).
(** The test is for the other operation. *)
Definition rtuart_set_notify (m : Z) : prog W unit :=
  match op_get_notify ops with
  | Some _ => f ← deref (op_set_notify ops); f m
  | None => mret tt
  end.
Definition rtuart_clr_notify (m : Z) : prog W unit := invoke (op_clr_notify ops) (fun f => f m).
Definition rtuart_get_notify : prog W (option Z) := query (op_get_notify ops).
Definition rtuart_tx_start (buffer : option nat) : prog W unit := invoke (op_tx_start ops) (fun f => f buffer).
Definition rtuart_tx_stop (buffer : option nat) : prog W (option Z) :=
  match op_tx_stop ops with Some f => f buffer | None => mret None end.
Definition rtuart_tx_written (buffer : option nat) : prog W Z :=
  match op_tx_written ops with Some f => f buffer | None => mret (-1) end.
Definition rtuart_rx_start (buffer : option nat) : prog W unit := invoke (op_rx_start ops) (fun f => f buffer).
Definition rtuart_rx_stop (buffer : option nat) : prog W Z :=
  match op_rx_stop ops with Some f => f buffer | None => mret (-1) end.
Definition rtuart_rx_set_timeout (timeout : Z) : prog W unit := invoke (op_rx_set_timeout ops) (fun f => f timeout).
Definition rtuart_handle_irq : prog W unit := invoke (op_handle_irq ops) id.
End dispatch.

Section uart.
Context {B X C : Type} (bops : rtuart_bus_ops B).
Abbreviation W := (rtuart B X C).
(** The client's tables of callbacks. *)
Context (table : nat -> rtuart_callbacks W).

(** [rtuart_init]: everything is zero, the bus is set by the drivers. *)
Definition rtuart_init (b : B) (x : X) (m : gmap nat rtuart_buffer) (c : C) : W := Uart b 0 None 0 None None 0 x m c.
Definition rtuart_assign_callbacks (c : option nat) (userptr : Z) : prog W unit := modify (with_callbacks c userptr).
Definition rtuart_callback_user_ptr : prog W Z := gets cb_user_ptr.

(** *** Registers *)
Definition on_bus {A} (m : prog B A) : prog W A :=
  fun u => match m (bus u) with Done (a, b) => Done (a, with_bus b u) | Fault f => Fault f end.
(** [None] is an error, with which nothing is stored. *)
Definition rtuart_read_u8 (reg : Z) : prog W (option Z) := v ← on_bus (rtuart_bus_read_u8 bops reg); mret (u8 <$> v).
Definition rtuart_read_u16 (reg : Z) : prog W (option Z) := v ← on_bus (rtuart_bus_read_u16 bops reg); mret (u16 <$> v).
Definition rtuart_read_u32 (reg : Z) : prog W (option Z) := v ← on_bus (rtuart_bus_read_u32 bops reg); mret (u64 <$> v).
Definition rtuart_write_u8 (reg value : Z) : prog W Z := on_bus (rtuart_bus_write_u8 bops reg value).
Definition rtuart_write_u16 (reg value : Z) : prog W Z := on_bus (rtuart_bus_write_u16 bops reg value).
Definition rtuart_write_u32 (reg value : Z) : prog W Z := on_bus (rtuart_bus_write_u32 bops reg value).
(** The use of a variable that may not have been stored. *)
Definition initialised {A} (v : option A) : prog W A :=
  match v with Some v => mret v | None => raise Uninitialised end.

(** *** Callbacks *)
(** [if (uart->cb && uart->cb->f) uart->cb->f(uart, ...)] *)
Definition rtuart_call {A} (f : rtuart_callbacks W -> option A) (call : A -> prog W unit) : prog W unit :=
  c ← gets cb;
  match c ≫= (fun c => f (table c)) with Some f => call f | None => mret tt end.
Definition rtuart_call_tx_start (buffer : option nat) : prog W unit := rtuart_call tx_start (fun f => f buffer).
Definition rtuart_call_tx_end1 (buffer : option nat) : prog W unit := rtuart_call tx_end1 (fun f => f buffer).
Definition rtuart_call_tx_end2 (buffer : option nat) : prog W unit := rtuart_call tx_end2 (fun f => f buffer).
Definition rtuart_call_input_change (eventmask values : Z) : prog W unit := rtuart_call input_change (fun f => f eventmask values).
Definition rtuart_call_rx_err (errmask : Z) : prog W unit := rtuart_call rx_err (fun f => f errmask).
Definition rtuart_call_rx_char (c : Z) : prog W unit := rtuart_call rx_char (fun f => f c).
Definition rtuart_call_rx_end (buffer : option nat) : prog W unit := rtuart_call rx_end (fun f => f buffer).
Definition rtuart_call_rx_timeout (buffer : option nat) : prog W unit := rtuart_call rx_timeout (fun f => f buffer).
Definition rtuart_call_rx_trigger (buffer : option nat) (m : Z) : prog W unit := rtuart_call rx_trigger (fun f => f buffer m).
(** [uart->cb], which must not be null. *)
Definition the_callbacks : prog W (rtuart_callbacks W) := c ← gets cb; c ← deref c; mret (table c).

(** *** Buffers *)
Definition fetch (buffer : option nat) : prog W rtuart_buffer :=
  a ← deref buffer; m ← gets buffers; live (m !! a).
Definition update_buffer (buffer : option nat) (f : rtuart_buffer -> rtuart_buffer) : prog W unit :=
  a ← deref buffer; m ← gets buffers; b ← live (m !! a); modify (with_buffers (<[a := f b]> m)).
(** [buffer->data[i] = c] *)
Definition store_octet (buffer : option nat) (i c : Z) : prog W unit :=
  b ← fetch buffer;
  d ← deref (data b);
  d ← lift_outcome (store i c d);
  update_buffer buffer (with_data d).
Definition load_octet (buffer : option nat) (i : Z) : prog W Z :=
  b ← fetch buffer; d ← deref (data b); lift_outcome (load d i).

(** [1<<i] is an [int], which is extended with its sign to the width of the
    mask; [1<<31] is negative with the compilers in use. *)
Definition trigger_bit (i : Z) : Z := i32 (Z.shiftl 1 i).

Definition rtuart_buffer_set_trigger (buffer : option nat) (triggerno position : Z) : prog W Z :=
  match buffer with
  | None => mret (-1)
  | Some _ =>
      if Z.of_nat RTUART_MAX_TRIGGERS <=? triggerno then mret (-1)
      else if triggerno <? 0 then raise ShiftRange
      else
        b ← fetch buffer;
        t ← lift_outcome (store triggerno (position mod 2 ^ 32) (trigger b));
        update_buffer buffer (fun b => with_trigger t (with_triggermask (u64 (Z.lor (triggermask b) (trigger_bit triggerno))) b)) ;;
        mret 0
  end.

(** The loop over the triggers: those that are set and whose position
    satisfies [passed]. *)
Fixpoint passed_triggers (passed : Z -> bool) (b : rtuart_buffer) (i : Z) (n : nat) (m : Z) : outcome Z :=
  match n with
  | O => Done m
  | S n =>
      m ← (if has (triggermask b) (trigger_bit i) then
             t ← load (trigger b) i; Done (if passed t : bool then u64 (Z.lor m (trigger_bit i)) else m)
           else Done m);
      passed_triggers passed b (i + 1) n m
  end.

Definition rtuart_handle_trigger (buffer : option nat) : prog W unit :=
  b ← fetch buffer;
  when (negb (triggermask b =? 0)) (
    m ← lift_outcome (passed_triggers (fun t => validcount b <=? t) b 0 RTUART_MAX_TRIGGERS 0);
    when (negb (m =? 0)) (
      update_buffer buffer (fun b => with_triggermask (Z.ldiff (triggermask b) m) b) ;;
      c ← the_callbacks;
      invoke (rx_trigger c) (fun f => f buffer m))).

Definition rtuart_rx_buffer_valid (buffer : option nat) : prog W Z := mret 1.

Definition rtuart_handle_buffer_fill (buffer : option nat) : prog W unit :=
  rtuart_handle_trigger buffer ;;
  valid ← rtuart_rx_buffer_valid buffer;
  when (negb (valid =? 0)) (
    b ← fetch buffer;
    when (size b <=? validcount b) (
      c ← the_callbacks;
      invoke (rx_end c) (fun f => f buffer))).

Definition rtuart_buffer_put (buffer : option nat) (c : Z) : prog W unit :=
  b ← fetch buffer;
  when (bool_decide (is_Some (data b)) && (validcount b <? size b)) (
    store_octet buffer (validcount b) c ;;
    update_buffer buffer (fun b => with_validcount (validcount b + 1) b) ;;
    rtuart_handle_buffer_fill buffer).

(** The loop; the result is what is left of the octets. *)
Fixpoint put_octets (buffer : option nat) (c : list Z) : prog W (list Z) :=
  match c with
  | [] => mret []
  | v :: c' =>
      b ← fetch buffer;
      if validcount b <? size b then
        store_octet buffer (validcount b) v ;;
        update_buffer buffer (fun b => with_validcount (validcount b + 1) b) ;;
        put_octets buffer c'
      else mret c
  end.
Definition rtuart_buffer_put_vector (buffer : option nat) (c : list Z) : prog W Z :=
  b ← fetch buffer;
  match data b with
  | None => mret (-1)
  | Some _ =>
      rest ← put_octets buffer c;
      rtuart_handle_buffer_fill buffer ;;
      mret (Z.of_nat (length c - length rest))
  end.

(** *** What reading and storing do *)
Lemma has_lor m j k : has m k = false -> has j k = false -> has (Z.lor m j) k = false.
Proof. unfold has. rewrite !negb_false_iff, !Z.eqb_eq. intros Hm Hj. by rewrite Z.land_lor_distr_l, Hm, Hj. Qed.
Lemma has_ldiff m j k : has m k = false -> has (Z.ldiff m j) k = false.
Proof.
  unfold has. rewrite !negb_false_iff, !Z.eqb_eq. intros H. apply Z.bits_inj'. intros n Hn.
  rewrite Z.land_spec, Z.ldiff_spec, Z.bits_0. apply (f_equal (fun z => Z.testbit z n)) in H. rewrite Z.land_spec, Z.bits_0 in H.
  destruct (Z.testbit m n), (Z.testbit k n); by rewrite ?andb_false_r.
Qed.
Implicit Types (u : W) (d : list Z).
Lemma wp_read_u8 reg v (b' : B) (Q : option Z -> W -> Prop) u :
  rtuart_bus_read_u8 bops reg (bus u) = Done (Some v, b') -> Q (Some (u8 v)) (with_bus b' u) ->
  wp (rtuart_read_u8 reg) Q u.
Proof. intros H HQ. unfold wp, rtuart_read_u8, on_bus, mbind, prog_bind. by rewrite H. Qed.
Lemma wp_fetch a (b : rtuart_buffer) (Q : rtuart_buffer -> W -> Prop) u : buffers u !! a = Some b -> Q b u -> wp (fetch (Some a)) Q u.
Proof. intros H HQ. unfold wp, fetch, mbind, prog_bind. cbn. by rewrite H. Qed.
Lemma wp_update_buffer a b f (Q : unit -> W -> Prop) u :
  buffers u !! a = Some b -> Q tt (with_buffers (<[a := f b]> (buffers u)) u) -> wp (update_buffer (Some a) f) Q u.
Proof. intros H HQ. unfold wp, update_buffer, mbind, prog_bind. cbn. by rewrite H. Qed.
Lemma wp_store_octet a (b : rtuart_buffer) d i c (Q : unit -> W -> Prop) u :
  buffers u !! a = Some b -> data b = Some d -> (i < length d)%nat ->
  Q tt (with_buffers (<[a := with_data (<[i := c]> d) b]> (buffers u)) u) -> wp (store_octet (Some a) (Z.of_nat i) c) Q u.
Proof.
  intros H Hd Hi HQ. unfold store_octet. apply wp_bind, (wp_fetch _ b); [done|]. rewrite Hd. apply wp_bind, (wp_deref _ d); [done|].
  rewrite store_nat by done. by apply (wp_update_buffer _ b).
Qed.
End uart.
Arguments wp_read_u8 {B X C bops}.

(** ** A buffer that is being filled *)

(** [buffer->transfered >= buffer->validcount || buffer->transfered >= buffer->size] *)
Definition full (b : rtuart_buffer) : bool := (validcount b <=? transfered b) || (size b <=? transfered b).
(** The buffer with contents [d] of which [t] octets are filled; it has no triggers. *)
Definition buffer_at (b : rtuart_buffer) (d : list Z) (t : nat) : rtuart_buffer := Buffer (Some d) (size b) (validcount b) (Z.of_nat t) 0 (trigger b).
Lemma full_at b lim d t : Z.of_nat lim = Z.min (size b) (validcount b) -> (t <= lim)%nat -> full (buffer_at b d t) = bool_decide (t = lim).
Proof.
  intros Hlim Ht. unfold full, buffer_at. cbn. case_bool_decide.
  - destruct (Z.leb_spec (validcount b) (Z.of_nat t)); [done|]. cbn. apply Z.leb_le. lia.
  - apply orb_false_iff. split; apply Z.leb_gt; lia.
Qed.
(** The octets [os] fill the buffer from position [t] on. *)
Definition fill (t : nat) (os d : list Z) : list Z := take t d ++ os ++ drop (t + length os) d.
Lemma fill_cons t x os d : (t < length d)%nat -> fill (S t) os (<[t := x]> d) = fill t (x :: os) d.
Proof.
  intros Ht. unfold fill. rewrite take_S_r with (x := x) by (by apply list_lookup_insert_eq). rewrite take_insert_ge, drop_insert_lt by lia.
  rewrite <- app_assoc. cbn. by rewrite Nat.add_succ_r.
Qed.

Section filling.
Context {B X C : Type} (a : nat) (note : option nat -> C -> C).
Abbreviation W := (rtuart B X C).
Implicit Types (u : W) (b : rtuart_buffer).
Definition filling u b (d : list Z) (t : nat) : W := with_buffers (<[a := buffer_at b d t]> (buffers u)) u.
(** What the driver does when the buffer is full, with a client that takes note of it. *)
Definition delivered u : W :=
  with_client (note (Some a) (client u)) (with_notify (Z.ldiff (notify_mask u) RTUART_NOTIFY_RECEIVER_HASDATA) (with_rx None u)).
Definition deliver_if_full (lim t : nat) u : W := if decide (t = lim) then delivered u else u.

Lemma rebus (b1 b2 : B) b lim t u d n :
  with_bus b2 (deliver_if_full lim t (filling (with_bus b1 u) b d n)) = deliver_if_full lim t (filling (with_bus b2 u) b d n).
Proof. unfold deliver_if_full. by case_decide. Qed.
Lemma refill (b1 b2 : B) b u d d' t t' : filling (with_bus b2 (filling (with_bus b1 u) b d t)) b d' t' = filling (with_bus b2 u) b d' t'.
Proof. unfold filling, with_buffers. cbn. by rewrite insert_insert_eq. Qed.
End filling.
