(* ===== verification/RtPc16c550.v ===== *)
(** * The driver of the 16550, second generation

    [src/uio-testbench/rtuart/rtuart_pc16c550.c]: the operations of
    [rtuart_ops] for a 16550 and the interrupt handler that moves octets
    between the chip and the buffers of the client.  A variable that a failed
    access to the bus leaves unset is [None]; using it is a fault. *)
From stdpp Require Import base countable gmap list.
From S2P Require Import Prelude Bus RtUart.

Definition PC16550_REG_RBR : Z := 0.
Definition PC16550_REG_THR : Z := 0.
Definition PC16550_REG_IER : Z := 1.
Definition PC16550_REG_IIR : Z := 2.
Definition PC16550_REG_FCR : Z := 2.
Definition PC16550_REG_LCR : Z := 3.
Definition PC16550_REG_MCR : Z := 4.
Definition PC16550_REG_LSR : Z := 5.
Definition PC16550_REG_MSR : Z := 6.
Definition PC16550_REG_DLL : Z := 0.
Definition PC16550_REG_DLM : Z := 1.
Definition PC16C550_IER_RECEIVED_DATA_AVAILABLE : Z := Z.shiftl 1 0.
Definition PC16C550_IER_TRANSMITTER_HOLDING_REGISTER_EMPTY : Z := Z.shiftl 1 1.
Definition PC16C550_IER_RECEIVER_LINE_STATUS : Z := Z.shiftl 1 2.
Definition PC16C550_IER_MODEM_STATUS : Z := Z.shiftl 1 3.
Definition PC16C550_IIR_IRQ_NONE : Z := 1.
Definition PC16C550_IIR_IRQ_RECEIVER_LINE_STATUS : Z := 6.
Definition PC16C550_IIR_IRQ_RECEIVED_DATA_AVAILABLE : Z := 4.
Definition PC16C550_IIR_IRQ_CHARACTER_TIMEOUT : Z := 0xC.
Definition PC16C550_IIR_IRQ_TRANSMITTER_HOLDING_EMPTY : Z := 2.
Definition PC16C550_IIR_IRQ_MODEM_STATUS : Z := 0.
Definition PC16C550_IIR_IRQ_MASK : Z := 0xf.
Definition PC16C550_FCR_FIFO_ENABLE : Z := Z.shiftl 1 0.
Definition PC16C550_FCR_RCVR_FIFO_RESET : Z := Z.shiftl 1 1.
Definition PC16C550_FCR_XMIT_FIFO_RESET : Z := Z.shiftl 1 2.
Definition PC16C550_FCR_RCVR_TRIGGER_1BYTE : Z := Z.shiftl 0 6.
Definition PC16C550_FCR_RCVR_TRIGGER_4BYTE : Z := Z.shiftl 1 6.
Definition PC16C550_FCR_RCVR_TRIGGER_8BYTE : Z := Z.shiftl 2 6.
Definition PC16C550_FCR_RCVR_TRIGGER_14BYTE : Z := Z.shiftl 3 6.
Definition PC16C550_FCR_RCVR_TRIGGER (level : Z) : Z :=
  if level =? 1 then PC16C550_FCR_RCVR_TRIGGER_1BYTE
  else if level =? 4 then PC16C550_FCR_RCVR_TRIGGER_4BYTE
  else if level =? 8 then PC16C550_FCR_RCVR_TRIGGER_8BYTE
  else if level =? 14 then PC16C550_FCR_RCVR_TRIGGER_14BYTE
  else -1.
Definition PC16550_LCR_WLS0 : Z := Z.shiftl 1 0.
Definition PC16550_LCR_WLS1 : Z := Z.shiftl 1 1.
Definition PC16550_LCR_STB : Z := Z.shiftl 1 2.
Definition PC16550_LCR_PEN : Z := Z.shiftl 1 3.
Definition PC16550_LCR_EPS : Z := Z.shiftl 1 4.
Definition PC16550_LCR_STICK_PARITY : Z := Z.shiftl 1 5.
Definition PC16550_LCR_BREAK : Z := Z.shiftl 1 6.
Definition PC16550_LCR_DLAB : Z := Z.shiftl 1 7.
Definition PC16550_MCR_DTR : Z := Z.shiftl 1 0.
Definition PC16550_MCR_RTS : Z := Z.shiftl 1 1.
Definition PC16550_MCR_OUT1 : Z := Z.shiftl 1 2.
Definition PC16550_MCR_OUT2 : Z := Z.shiftl 1 3.
(** The same bit again. *)
Definition PC16550_MCR_LOOP : Z := Z.shiftl 1 3.
Definition PC16550_LSR_DATA_READY : Z := Z.shiftl 1 0.
Definition PC16550_LSR_OVERRUN_ERROR : Z := Z.shiftl 1 1.
Definition PC16550_LSR_PARITY_ERROR : Z := Z.shiftl 1 2.
Definition PC16550_LSR_FRAMING_ERROR : Z := Z.shiftl 1 3.
Definition PC16550_LSR_BREAK_INTERRUPT : Z := Z.shiftl 1 4.
Definition PC16550_LSR_THRE : Z := Z.shiftl 1 5.
Definition PC16550_LSR_TRANSMITTER_EMPTY : Z := Z.shiftl 1 6.
Definition PC16550_MSR_DCTS : Z := Z.shiftl 1 0.
Definition PC16550_MSR_DDSR : Z := Z.shiftl 1 1.
Definition PC16550_MSR_TERI : Z := Z.shiftl 1 2.
Definition PC16550_MSR_DDCD : Z := Z.shiftl 1 3.

(** What [struct rtuart_pc16c550] adds to the fields of [rtuart]. *)
Record pc16c550 := Pc16c550 {
  base_clock : Z;
  shadow_fcr : Z }.            (* u8 *)

Definition uart16c550_msr_to_event (msr : Z) : Z :=
  Z.lor (Z.lor (Z.lor (if has msr PC16550_MSR_DCTS then RTUART_EVENT_CTS_CHANGE else 0)
    (if has msr PC16550_MSR_DDSR then RTUART_EVENT_DSR_CHANGE else 0))
    (if has msr PC16550_MSR_TERI then RTUART_EVENT_RI_CHANGE else 0))
    (if has msr PC16550_MSR_DDCD then RTUART_EVENT_DCD_CHANGE else 0).
Definition uart16c550_lsr_to_event (lsr : Z) : Z :=
  Z.lor (Z.lor (Z.lor (if has lsr PC16550_LSR_OVERRUN_ERROR then RTUART_EVENT_OVERRUN_ERROR else 0)
    (if has lsr PC16550_LSR_PARITY_ERROR then RTUART_EVENT_PARITY_ERROR else 0))
    (if has lsr PC16550_LSR_FRAMING_ERROR then RTUART_EVENT_FRAME_ERROR else 0))
    (if has lsr PC16550_LSR_BREAK_INTERRUPT then RTUART_EVENT_BREAK else 0).

(** The parity of a line, by its letter. *)
Definition char_e : Z := 101.
Definition char_n : Z := 110.
Definition char_o : Z := 111.
Definition char_0 : Z := 48.
Definition char_1 : Z := 49.
Definition parity_mask : Z := Z.lor (Z.lor PC16550_LCR_STICK_PARITY PC16550_LCR_PEN) PC16550_LCR_EPS.
Definition format_mask : Z := Z.lor (Z.lor (Z.lor PC16550_LCR_WLS0 PC16550_LCR_WLS1) PC16550_LCR_STB) parity_mask.
Definition parity_bits (parity : Z) : Z :=
  if parity =? char_e then Z.lor PC16550_LCR_PEN PC16550_LCR_EPS
  else if parity =? char_o then PC16550_LCR_PEN
  else if parity =? char_1 then Z.lor PC16550_LCR_STICK_PARITY PC16550_LCR_PEN
  else if parity =? char_0 then parity_mask
  else 0.
(** [bits2code[(databits-5)&3]] *)
Definition bits2code (databits : Z) : Z :=
  nth (Z.to_nat (Z.land (databits - 5) 3)) [0; PC16550_LCR_WLS0; PC16550_LCR_WLS1; Z.lor PC16550_LCR_WLS0 PC16550_LCR_WLS1] 0.
(** The interrupts that are enabled for a mask of notifications. *)
Definition ier_of (mask : Z) : Z :=
  Z.lor (Z.lor (if has mask RTUART_NOTIFY_TRANSMITTER_READY then PC16C550_IER_TRANSMITTER_HOLDING_REGISTER_EMPTY else 0)
           (if has mask RTUART_NOTIFY_TRANSMITTER_EMPTY then PC16C550_IER_TRANSMITTER_HOLDING_REGISTER_EMPTY else 0))
    (Z.lor (Z.lor (if has mask RTUART_NOTIFY_RECEIVER_HASDATA then PC16C550_IER_RECEIVED_DATA_AVAILABLE else 0)
              (if has mask RTUART_NOTIFY_RECEIVER_TIMEOUT then PC16C550_IER_RECEIVED_DATA_AVAILABLE else 0))
       (if has mask RTUART_NOTIFY_RECEIVER_EVENT then Z.lor PC16C550_IER_RECEIVER_LINE_STATUS PC16C550_IER_MODEM_STATUS else 0)).
Definition mcr_bits (control : Z) : Z :=
  Z.lor (Z.lor (Z.lor (Z.lor (if has control RTUART_CONTROL_RTS then PC16550_MCR_RTS else 0)
    (if has control RTUART_CONTROL_DTR then PC16550_MCR_DTR else 0))
    (if has control RTUART_CONTROL_OUT1 then PC16550_MCR_OUT1 else 0))
    (if has control RTUART_CONTROL_OUT2 then PC16550_MCR_OUT2 else 0))
    (if has control RTUART_CONTROL_LOOP then PC16550_MCR_LOOP else 0).
Definition modem_controls : Z :=
  Z.lor (Z.lor (Z.lor (Z.lor RTUART_CONTROL_RTS RTUART_CONTROL_DTR) RTUART_CONTROL_OUT1) RTUART_CONTROL_OUT2) RTUART_CONTROL_LOOP.

Section driver.
Context {B C : Type} (bops : rtuart_bus_ops B).
Abbreviation W := (rtuart B pc16c550 C).
Abbreviation driver := (prog W).
Context (table : nat -> rtuart_callbacks W).
#[local] Notation read_u8 := (rtuart_read_u8 bops).
#[local] Notation write_u8 := (rtuart_write_u8 bops).

(** A write whose result is not looked at. *)
Definition put_reg (reg v : Z) : driver unit := _ ← write_u8 reg v; mret tt.

Definition _pc16550_flush_rx_fifo : driver unit :=
  x ← gets ext; put_reg PC16550_REG_FCR (Z.lor (shadow_fcr x) PC16C550_FCR_RCVR_FIFO_RESET).
Definition _pc16550_enable_fifo : driver unit :=
  modify (fun u => with_ext (Pc16c550 (base_clock (ext u)) (Z.lor (shadow_fcr (ext u)) PC16C550_FCR_FIFO_ENABLE)) u) ;;
  x ← gets ext; put_reg PC16550_REG_FCR (shadow_fcr x).

Definition buffer_is_complete (buffer : option nat) : driver bool :=
  match buffer with
  | None => mret true
  | Some _ => b ← fetch buffer; mret ((size b <=? transfered b) || (validcount b <=? transfered b))
  end.

(** *** Bit rate and format *)
Definition pc16c550_set_baudrate (baudrate : Z) : driver unit :=
  x ← gets ext;
  if baudrate =? 0 then raise DivideByZero else
  let divisor := (base_clock x / 16 / baudrate) mod 2 ^ 32 in
  lcr ← read_u8 PC16550_REG_LCR;
  lcr ← initialised lcr;
  put_reg PC16550_REG_LCR (Z.lor lcr PC16550_LCR_DLAB) ;;
  put_reg PC16550_REG_DLL (u8 divisor) ;;
  put_reg PC16550_REG_DLM (u8 (Z.shiftr divisor 8)) ;;
  put_reg PC16550_REG_LCR lcr.
Definition pc16c550_get_baudrate : driver Z :=
  x ← gets ext;
  lcr ← read_u8 PC16550_REG_LCR;
  lcr ← initialised lcr;
  put_reg PC16550_REG_LCR (Z.lor lcr PC16550_LCR_DLAB) ;;
  divisor_lsb ← read_u8 PC16550_REG_DLL;
  divisor_msb ← read_u8 PC16550_REG_DLM;
  put_reg PC16550_REG_LCR lcr ;;
  divisor_lsb ← initialised divisor_lsb;
  divisor_msb ← initialised divisor_msb;
  let divisor := Z.shiftl divisor_msb 8 + divisor_lsb in
  if divisor =? 0 then raise DivideByZero else mret (base_clock x / 16 / divisor).
Definition pc16c550_set_format (databits parity stopbits : Z) : driver unit :=
  lcr ← read_u8 PC16550_REG_LCR;
  lcr ← initialised lcr;
  let lcr := Z.ldiff lcr format_mask in
  let lcr := Z.lor lcr (bits2code databits) in
  let lcr := Z.lor lcr (if 1 <? stopbits then PC16550_LCR_STB else 0) in
  let lcr := Z.lor lcr (parity_bits parity) in
  put_reg PC16550_REG_LCR lcr.
(** [None] is the result -1. *)
Definition pc16c550_get_format : driver (option (Z * Z * Z)) :=
  lcr ← read_u8 PC16550_REG_LCR;
  match lcr with
  | None => mret None
  | Some lcr =>
      let p := Z.land lcr parity_mask in
      mret (Some (Z.land lcr 3 + 5,
        (if p =? parity_mask then char_0
         else if p =? Z.lor PC16550_LCR_STICK_PARITY PC16550_LCR_PEN then char_1
         else if p =? Z.lor PC16550_LCR_PEN PC16550_LCR_EPS then char_e
         else if p =? PC16550_LCR_PEN then char_o else char_n),
        (if has lcr PC16550_LCR_STB then 2 else 1)))
  end.
Definition pc16c550_set_handshake (hs : Z) : driver unit := mret tt.

(** *** Control lines *)
Definition change_reg (reg : Z) (f : Z -> Z) : driver unit :=
  old ← read_u8 reg;
  match old with
  | Some old => when (negb (f old =? old)) (put_reg reg (f old))
  | None => mret tt
  end.
Definition pc16c550_set_control (control_mask : Z) : driver unit :=
  when (has control_mask RTUART_CONTROL_BREAK) (change_reg PC16550_REG_LCR (fun lcr => Z.lor lcr PC16550_LCR_BREAK)) ;;
  when (has control_mask modem_controls) (change_reg PC16550_REG_MCR (fun mcr => Z.lor mcr (mcr_bits control_mask))).
Definition pc16c550_clr_control (control_mask : Z) : driver unit :=
  when (has control_mask RTUART_CONTROL_BREAK) (change_reg PC16550_REG_LCR (fun lcr => Z.ldiff lcr PC16550_LCR_BREAK)) ;;
  when (has control_mask modem_controls) (change_reg PC16550_REG_MCR (fun mcr => Z.ldiff mcr (mcr_bits control_mask))).
Definition pc16c550_get_control : driver Z :=
  lcr ← read_u8 PC16550_REG_LCR;
  mcr ← read_u8 PC16550_REG_MCR;
  let line := match lcr with Some lcr => if has lcr PC16550_LCR_BREAK then RTUART_CONTROL_BREAK else 0 | None => 0 end in
  mret match mcr with
       | Some mcr =>
           Z.lor (Z.lor (Z.lor (Z.lor (Z.lor line (if has mcr PC16550_MCR_RTS then RTUART_CONTROL_RTS else 0))
             (if has mcr PC16550_MCR_DTR then RTUART_CONTROL_DTR else 0))
             (if has mcr PC16550_MCR_OUT1 then RTUART_CONTROL_OUT1 else 0))
             (if has mcr PC16550_MCR_OUT2 then RTUART_CONTROL_OUT2 else 0))
             (if has mcr PC16550_MCR_LOOP then RTUART_CONTROL_LOOP else 0)
       | None => line
       end.

(** *** Notifications *)
Definition pc16c550_update_notification : driver unit :=
  m ← gets notify_mask; put_reg PC16550_REG_IER (ier_of m).
Definition change_notify (f : Z -> Z) : driver unit :=
  m ← gets notify_mask;
  when (negb (m =? f m)) (
    modify (with_notify (f m)) ;;
    i ← gets in_irq;
    when (i =? 0) pc16c550_update_notification).
Definition pc16c550_set_notify (notify : Z) : driver unit := change_notify (fun m => Z.lor m notify).
Definition pc16c550_clr_notify (notify : Z) : driver unit := change_notify (fun m => Z.ldiff m notify).
Definition pc16c550_get_notify : driver Z := gets notify_mask.
Definition drop_notify (m : Z) : driver unit := modify (fun u => with_notify (Z.ldiff (notify_mask u) m) u).
Definition notified (m : Z) : driver bool := gets (fun u => has (notify_mask u) m).

(** *** Buffers *)
Definition pc16c550_tx_written (buffer : option nat) : driver Z := b ← fetch buffer; mret (i32 (transfered b)).
(** The value that is stored in [*allready_written], a pointer that is not null. *)
Definition pc16c550_tx_stop (buffer : option nat) : driver (option Z) :=
  t ← gets tx_buffer;
  if decide (t = buffer) then n ← pc16c550_tx_written t; modify (with_tx None) ;; mret (Some n) else mret None.
Definition pc16c550_tx_start (buffer : option nat) : driver unit :=
  update_buffer buffer (with_transfered 0) ;;
  t ← gets tx_buffer;
  when (bool_decide (is_Some t)) (_ ← pc16c550_tx_stop buffer; mret tt) ;;
  t ← gets tx_buffer;
  when (bool_decide (t = None)) (
    modify (with_tx buffer) ;;
    pc16c550_set_notify RTUART_NOTIFY_TRANSMITTER_READY).
Definition receiver_notifications : Z := Z.lor RTUART_NOTIFY_RECEIVER_HASDATA RTUART_NOTIFY_RECEIVER_TIMEOUT.
Definition pc16c550_rx_stop (buffer : option nat) : driver Z :=
  modify (with_rx None) ;; pc16c550_clr_notify receiver_notifications ;; mret 0.
Definition pc16c550_rx_start (buffer : option nat) : driver unit :=
  r ← gets rx_buffer;
  when (bool_decide (is_Some r)) (_ ← pc16c550_rx_stop r; mret tt) ;;
  update_buffer buffer (with_transfered 0) ;;
  modify (with_rx buffer) ;;
  pc16c550_set_notify receiver_notifications.
Definition pc16c550_rx_set_timeout (timeout : Z) : driver unit := mret tt.

(** The loop, with what is left of [count] and of the eight octets at most. *)
Fixpoint copy_octets (buffer : option nat) (rest : nat) (copied : Z) : driver Z :=
  match rest with
  | O => mret copied
  | S rest =>
      b ← fetch buffer;
      if (validcount b <=? transfered b) || (size b <=? transfered b) then mret copied
      else
        update_buffer buffer (with_transfered (u64 (transfered b + 1))) ;;
        c ← load_octet buffer (transfered b);
        put_reg PC16550_REG_THR c ;;
        copy_octets buffer rest (copied + 1)
  end.
Definition copy_from_buffer_to_transmitter (buffer : option nat) (count : Z) : driver Z :=
  copy_octets buffer (Z.to_nat (Z.min count 8)) 0.

Definition handle_received_data (buffer : option nat) (due_to_timeout : bool) : driver unit :=
  room ← match buffer with
         | None => mret false
         | Some _ => b ← fetch buffer; mret (negb (full b))
         end;
  if negb room then
    cbs ← the_callbacks table;
    if bool_decide (is_Some (rx_char cbs)) then
      c ← read_u8 PC16550_REG_RBR;
      drop_notify RTUART_NOTIFY_RECEIVER_HASDATA ;;
      c ← initialised c;
      rtuart_call_rx_char table c
    else _pc16550_flush_rx_fifo
  else
    b ← fetch buffer;
    c ← read_u8 PC16550_REG_RBR;
    match c with Some c => store_octet buffer (transfered b) c | None => mret tt end ;;
    update_buffer buffer (fun b => with_transfered (u64 (transfered b + 1)) b) ;;
    b ← fetch buffer;
    when (negb (triggermask b =? 0)) (
      m ← lift_outcome (passed_triggers (fun t => t <? transfered b) b 0 RTUART_MAX_TRIGGERS 0);
      when (negb (m =? 0)) (
        rtuart_call_rx_trigger table buffer m ;;
        update_buffer buffer (fun b => with_triggermask (Z.ldiff (triggermask b) m) b))) ;;
    b ← fetch buffer;
    if full b then
      modify (with_rx None) ;;
      drop_notify RTUART_NOTIFY_RECEIVER_HASDATA ;;
      rtuart_call_rx_end table buffer
    else when due_to_timeout (rtuart_call_rx_timeout table buffer).

(** *** The interrupt handler *)

(** The variables [iir] and [lsr]. *)
Definition status : Type := option Z * option Z.
Definition cause (iir : Z) : Z := Z.land iir PC16C550_IIR_IRQ_MASK.
Definition or_else (v old : option Z) : option Z := match v with Some _ => v | None => old end.
Definition update_iir_and_lsr (s : status) : driver status :=
  v ← read_u8 PC16550_REG_IIR;
  let iir := or_else v s.1 in
  i ← initialised iir;
  let c := cause i in
  if (c =? PC16C550_IIR_IRQ_RECEIVED_DATA_AVAILABLE) || (c =? PC16C550_IIR_IRQ_CHARACTER_TIMEOUT)
     || (c =? PC16C550_IIR_IRQ_NONE) || (c =? PC16C550_IIR_IRQ_RECEIVER_LINE_STATUS) then
    v ← read_u8 PC16550_REG_LSR; mret (iir, or_else v s.2)
  else mret (iir, s.2).

(** The loop over the received octets. *)
Fixpoint receive_loop (fuel : nat) (s : status) : driver status :=
  match fuel with
  | O => raise OutOfFuel
  | S fuel =>
      i ← initialised s.1;
      r ← gets rx_buffer;
      handle_received_data r (cause i =? PC16C550_IIR_IRQ_CHARACTER_TIMEOUT) ;;
      s ← update_iir_and_lsr s;
      i ← initialised s.1;
      lsr ← initialised s.2;
      if (cause i =? PC16C550_IIR_IRQ_RECEIVED_DATA_AVAILABLE) || (cause i =? PC16C550_IIR_IRQ_CHARACTER_TIMEOUT)
         || has lsr PC16550_LSR_DATA_READY
      then receive_loop fuel s else mret s
  end.

(** The loop over the buffers that fit into the transmitter. *)
Fixpoint transmit_loop (fuel : nat) (available_space : Z) : driver unit :=
  match fuel with
  | O => raise OutOfFuel
  | S fuel =>
      t ← gets tx_buffer;
      match t with
      | Some _ => b ← fetch t; when (transfered b =? 0) (rtuart_call_tx_start table t)
      | None => mret tt
      end ;;
      t ← gets tx_buffer;
      copied ← copy_from_buffer_to_transmitter t available_space;
      let available_space := if 0 <? copied then available_space - copied else available_space in
      t ← gets tx_buffer;
      complete ← buffer_is_complete t;
      when complete (
        drop_notify RTUART_NOTIFY_TRANSMITTER_READY ;;
        modify (with_tx None) ;;
        rtuart_call_tx_end1 table t ;;
        t' ← gets tx_buffer;
        empty ← notified RTUART_NOTIFY_TRANSMITTER_EMPTY;
        when (bool_decide (t' = None) && empty) (modify (with_tx t))) ;;
      ready ← notified RTUART_NOTIFY_TRANSMITTER_READY;
      t ← gets tx_buffer;
      again ← match t with
              | Some _ =>
                  if (0 <? copied) && (0 <? available_space) && (ready : bool)
                  then b ← fetch t; mret (transfered b =? 0) else mret false
              | None => mret false
              end;
      if again : bool then transmit_loop fuel available_space else mret tt
  end.
(** Each round but the last copies an octet, so 17 rounds are enough. *)
Definition serve_transmitter : driver unit :=
  ready ← notified RTUART_NOTIFY_TRANSMITTER_READY;
  when ready (transmit_loop 17 16).

Definition serve_modem : driver unit :=
  msr ← read_u8 PC16550_REG_MSR;
  match msr with
  | Some msr =>
      let event := uart16c550_msr_to_event msr in
      when (negb (event =? 0)) (rtuart_call_input_change table event (uart16c550_msr_to_event (Z.shiftr msr 4)))
  | None => mret tt
  end.

Definition serve_line_status (lsr : Z) : driver unit :=
  when (has lsr PC16550_LSR_BREAK_INTERRUPT) (_ ← read_u8 PC16550_REG_RBR; mret tt) ;;
  let event := uart16c550_lsr_to_event lsr in
  when (negb (event =? 0)) (
    cbs ← the_callbacks table;
    f ← deref (rx_err cbs);
    f event).

(** What is done when no cause is left; [false] says that the transmitter is
    about to become empty and the handler has to look again. *)
Definition serve_idle (lsr : option Z) : driver bool :=
  empty ← notified RTUART_NOTIFY_TRANSMITTER_EMPTY;
  t ← gets tx_buffer;
  complete ← (if empty : bool then buffer_is_complete t else mret false);
  if complete : bool then
    lsr ← initialised lsr;
    if has lsr PC16550_LSR_TRANSMITTER_EMPTY then
      drop_notify RTUART_NOTIFY_TRANSMITTER_EMPTY ;;
      modify (with_tx None) ;;
      rtuart_call_tx_end2 table t ;;
      t ← gets tx_buffer;
      when (bool_decide (is_Some t)) (
        ier ← read_u8 PC16550_REG_IER;
        match ier with
        | Some ier => put_reg PC16550_REG_IER (Z.ldiff ier PC16C550_IER_TRANSMITTER_HOLDING_REGISTER_EMPTY)
        | None => mret tt
        end) ;;
      mret true
    else mret (negb (has lsr PC16550_LSR_THRE))
  else mret true.

Definition leave_irq : driver unit := pc16c550_update_notification ;; modify (with_in_irq 0).

Fixpoint irq_loop (fuel : nat) (s : status) : driver unit :=
  match fuel with
  | O => raise OutOfFuel
  | S fuel =>
      i ← initialised s.1;
      let again := s ← update_iir_and_lsr s; irq_loop fuel s in
      if (cause i =? PC16C550_IIR_IRQ_RECEIVED_DATA_AVAILABLE) || (cause i =? PC16C550_IIR_IRQ_CHARACTER_TIMEOUT) then
        hasdata ← notified RTUART_NOTIFY_RECEIVER_HASDATA;
        if (hasdata : bool) then s ← receive_loop fuel s; irq_loop fuel s
        else _pc16550_flush_rx_fifo ;; again
      else if cause i =? PC16C550_IIR_IRQ_TRANSMITTER_HOLDING_EMPTY then serve_transmitter ;; again
      else if cause i =? PC16C550_IIR_IRQ_MODEM_STATUS then serve_modem ;; again
      else if cause i =? PC16C550_IIR_IRQ_NONE then
        done ← serve_idle s.2;
        if (done : bool) then leave_irq else again
      else if cause i =? PC16C550_IIR_IRQ_RECEIVER_LINE_STATUS then
        lsr ← initialised s.2; serve_line_status lsr ;; again
      else leave_irq
  end.
Definition pc16c550_handle_irq (fuel : nat) : driver unit :=
  modify (with_in_irq 1) ;;
  s ← update_iir_and_lsr (None, None);
  irq_loop fuel s.

(** *** The table of operations, and creation *)
(** [destroy] frees the object, which is outside of what a program on its state can do. *)
Definition rtuart_pc16c550_ops (destroy : driver unit) (fuel : nat) : rtuart_ops W :=
  Ops (Some destroy) (Some pc16c550_set_baudrate) (Some pc16c550_get_baudrate) (Some pc16c550_set_format)
    (Some pc16c550_set_handshake) (Some pc16c550_set_control) (Some pc16c550_clr_control) (Some pc16c550_get_control)
    (Some pc16c550_set_notify) (Some pc16c550_clr_notify) (Some pc16c550_get_notify) (Some pc16c550_tx_start)
    (Some pc16c550_tx_stop) (Some pc16c550_tx_written) (Some pc16c550_rx_start) (Some pc16c550_rx_stop)
    (Some pc16c550_rx_set_timeout) (Some (pc16c550_handle_irq fuel)).
Definition rtuart_pc16c550_create (malloc_ok : bool) (b : B) (base_clock_hz : Z) (m : gmap nat rtuart_buffer) (c : C) : outcome (option W) :=
  if malloc_ok then
    let shadow := Z.lor PC16C550_FCR_FIFO_ENABLE PC16C550_FCR_RCVR_TRIGGER_4BYTE in
    '(_, u) ← (pc16c550_update_notification ;;
               modify (with_ext (Pc16c550 base_clock_hz shadow)) ;;
               put_reg PC16550_REG_FCR (Z.lor (Z.lor shadow PC16C550_FCR_RCVR_FIFO_RESET) PC16C550_FCR_XMIT_FIFO_RESET) ;;
               put_reg PC16550_REG_FCR shadow) (rtuart_init b (Pc16c550 base_clock_hz 0) m c);
    Done (Some u)
  else Done None.

Lemma wp_put_reg reg v r (b' : B) (Q : unit -> W -> Prop) (u : W) :
  rtuart_bus_write_u8 bops reg v (bus u) = Done (r, b') -> Q tt (with_bus b' u) -> wp (put_reg reg v) Q u.
Proof. intros H HQ. unfold wp, put_reg, rtuart_write_u8, on_bus, mbind, prog_bind. by rewrite H. Qed.

(** An interrupt without a cause only updates the interrupts that are enabled. *)
Lemma idle_irq (P : B -> Prop) (u : W) i l fuel :
  cause i = PC16C550_IIR_IRQ_NONE -> has (notify_mask u) RTUART_NOTIFY_TRANSMITTER_EMPTY = false ->
  (forall v, exists r (b' : B), rtuart_bus_write_u8 bops PC16550_REG_IER v (bus u) = Done (r, b') /\ P b') ->
  wp (irq_loop (S fuel) (Some i, l)) (fun _ u' => exists b' : B, P b' /\ u' = with_in_irq 0 (with_bus b' u)) u.
Proof.
  intros Hi He HP. cbn [irq_loop fst snd initialised]. apply wp_bind, wp_ret. rewrite Hi.
  change (PC16C550_IIR_IRQ_NONE =? _) with false at 1 2 3 4. change (PC16C550_IIR_IRQ_NONE =? PC16C550_IIR_IRQ_NONE) with true. cbn [orb].
  apply wp_bind. unfold serve_idle, notified. apply wp_bind, wp_gets. rewrite He. apply wp_bind, wp_gets, wp_bind, wp_ret, wp_ret.
  unfold leave_irq, pc16c550_update_notification. apply wp_bind, wp_bind, wp_gets. destruct (HP (ier_of (notify_mask u))) as (r & b1 & Hw & Hp).
  eapply wp_put_reg; [exact Hw|]. apply wp_modify. by exists b1.
Qed.
End driver.
Arguments wp_put_reg {B C bops}.
