(* ===== verification/RtReception.v ===== *)
(** * Receiving with the second generation of the 16550 driver

    What the interrupt handler of [RtPc16c550.v] does with the octets that the
    chip has received.  The chip is known through the laws [receiver_laws],
    the receiver of a 16550 with its trigger level: below the level it reports
    no cause, though the line status says that there are octets, and a time-out
    when the line has been quiet.  Then the runs in which the line status that
    the handler remembers is out of date. *)
From stdpp Require Import base countable gmap list.
From S2P Require Import Prelude Bus RtUart RtPc16c550.

Section reception.
Context {B C : Type} (bops : rtuart_bus_ops B) (table : nat -> rtuart_callbacks (rtuart B pc16c550 C)).
Abbreviation W := (rtuart B pc16c550 C).
Implicit Types (u : W) (d : list Z).

(** The receiver of the chip: the octets that wait in it, and whether the
    line has been [quiet] for the four characters after which the chip asks
    for the octets below its trigger [level]. *)
Definition receiver_cause (level : nat) (waiting : list Z) (quiet : bool) : Z :=
  if decide (waiting = []) then PC16C550_IIR_IRQ_NONE
  else if decide (level <= length waiting)%nat then PC16C550_IIR_IRQ_RECEIVED_DATA_AVAILABLE
  else if quiet then PC16C550_IIR_IRQ_CHARACTER_TIMEOUT else PC16C550_IIR_IRQ_NONE.
Record receiver_laws (level : nat) (pending : B -> list Z) (quiet : B -> bool) : Prop := {
  rx_octets (b : B) : Forall (fun x => u8 x = x) (pending b);
  rx_rbr (b : B) x r : pending b = x :: r ->
    exists b' : B, rtuart_bus_read_u8 bops PC16550_REG_RBR b = Done (Some x, b') /\ pending b' = r;
  rx_iir (b : B) : exists v (b' : B), rtuart_bus_read_u8 bops PC16550_REG_IIR b = Done (Some v, b') /\ pending b' = pending b /\
    cause (u8 v) = receiver_cause level (pending b) (quiet b);
  rx_lsr (b : B) : exists v (b' : B), rtuart_bus_read_u8 bops PC16550_REG_LSR b = Done (Some v, b') /\ pending b' = pending b /\
    has (u8 v) PC16550_LSR_DATA_READY = bool_decide (pending b <> []);
  rx_ier v (b : B) : exists r (b' : B), rtuart_bus_write_u8 bops PC16550_REG_IER v b = Done (r, b') /\ pending b' = pending b }.

Context (level : nat) (pending : B -> list Z) (quiet : B -> bool) (laws : receiver_laws level pending quiet).

Lemma wp_receiver_status u s (Q : status -> W -> Prop) :
  (forall i l (b' : B), pending b' = pending (bus u) ->
     cause i = receiver_cause level (pending (bus u)) (quiet (bus u)) ->
     has l PC16550_LSR_DATA_READY = bool_decide (pending (bus u) <> []) ->
     Q (Some i, Some l) (with_bus b' u)) ->
  wp (update_iir_and_lsr bops s) Q u.
Proof.
  intros HQ. unfold update_iir_and_lsr. destruct (rx_iir _ _ _ laws (bus u)) as (v & b1 & Hr & Hp & Hc).
  apply wp_bind, (wp_read_u8 _ v b1); [done|]. cbn [or_else initialised]. apply wp_bind, wp_ret.
  destruct (rx_lsr _ _ _ laws b1) as (l & b2 & Hr2 & Hp2 & Hd). rewrite Hp in Hp2, Hd.
  assert ((cause (u8 v) =? PC16C550_IIR_IRQ_RECEIVED_DATA_AVAILABLE) || (cause (u8 v) =? PC16C550_IIR_IRQ_CHARACTER_TIMEOUT)
    || (cause (u8 v) =? PC16C550_IIR_IRQ_NONE) || (cause (u8 v) =? PC16C550_IIR_IRQ_RECEIVER_LINE_STATUS) = true) as ->
    by (rewrite Hc; unfold receiver_cause; repeat case_decide; by try destruct (quiet _)).
  apply wp_bind, (wp_read_u8 _ l b2); [done|]. apply wp_ret. by apply (HQ _ _ b2).
Qed.

(** The client only takes note of the end of a buffer and of the time-outs. *)
Context (a c : nat) (note late : option nat -> C -> C).
Context (Hend : rx_end (table c) = Some (fun p => modify (fun u => with_client (note p (client u)) u))).
Context (Hlate : rx_timeout (table c) = Some (fun p => modify (fun u => with_client (late p (client u)) u))).
(** What is left after [k] time-outs. *)
Definition lated (k : nat) u : W := with_client (Nat.iter k (late (Some a)) (client u)) u.

Abbreviation filling := (filling a).
Abbreviation deliver_if_full := (deliver_if_full a note).

Context (b : rtuart_buffer) (lim : nat) (Hlim : Z.of_nat lim = Z.min (size b) (validcount b)) (Hwidth : Z.of_nat lim < 2 ^ 64).

Lemma receive_octet u d t x r due :
  rx_buffer u = Some a -> cb u = Some c -> pending (bus u) = x :: r -> (t < lim)%nat -> (lim <= length d)%nat ->
  buffers u !! a = Some (buffer_at b d t) ->
  wp (handle_received_data bops table (Some a) due)
    (fun _ u' => exists k (b' : B), (k <= 1)%nat /\ pending b' = r /\
       u' = deliver_if_full lim (S t) (lated k (filling (with_bus b' u) b (<[t := x]> d) (S t)))) u.
Proof.
  intros Hrx Hcb Hp Ht Hd Hb. unfold handle_received_data.
  apply wp_bind, wp_bind, (wp_fetch _ (buffer_at b d t)); [done|]. apply wp_ret. rewrite (full_at b lim _ _ Hlim) by lia. rewrite bool_decide_false by lia. cbn [negb].
  apply wp_bind, (wp_fetch _ (buffer_at b d t)); [done|]. destruct (rx_rbr _ _ _ laws _ _ _ Hp) as (b1 & Hr & Hp1).
  pose proof (rx_octets _ _ _ laws (bus u)) as Ho. rewrite Hp in Ho. apply Forall_cons in Ho as [Hx _].
  apply wp_bind, (wp_read_u8 _ x b1); [done|]. rewrite Hx. apply wp_bind, (wp_store_octet _ (buffer_at b d t) d); [done|done|lia|].
  apply wp_bind, (wp_update_buffer _ (with_data (<[t:=x]> d) (buffer_at b d t))); [by rewrite <- (lookup_insert_eq (buffers u) a)|].
  cbn [transfered with_data buffer_at]. set (u1 := with_buffers _ _).
  assert (u1 = filling (with_bus b1 u) b (<[t := x]> d) (S t)) as ->.
  { unfold u1, RtUart.filling, with_buffers. cbn. rewrite insert_insert_eq. unfold with_transfered, with_data, buffer_at. cbn.
    replace (u64 (Z.of_nat t + 1)) with (Z.of_nat (S t)); [done|]. unfold u64. rewrite Z.mod_small by lia. lia. }
  set (u1 := filling _ _ _ _). assert (buffers u1 !! a = Some (buffer_at b (<[t:=x]> d) (S t))) as Hb1 by apply lookup_insert_eq.
  apply wp_bind, (wp_fetch _ _ _ _ Hb1). apply wp_bind. cbn [triggermask buffer_at]. apply wp_ret.
  apply wp_bind, (wp_fetch _ _ _ _ Hb1). rewrite (full_at b lim _ _ Hlim) by lia. unfold RtUart.deliver_if_full. destruct (decide (S t = lim)) as [E|E].
  - rewrite bool_decide_true by done. apply wp_bind, wp_modify, wp_bind, wp_modify. unfold rtuart_call_rx_end, rtuart_call. apply wp_bind, wp_gets.
    cbn. rewrite Hcb. cbn. rewrite Hend. exists 0%nat, b1. split; [lia|done].
  - rewrite bool_decide_false by done. apply wp_when; intros _; [|exists 0%nat, b1; split; [lia|]; by destruct u].
    unfold rtuart_call_rx_timeout, rtuart_call. apply wp_bind, wp_gets. cbn [cb u1 RtUart.filling with_buffers with_bus]. rewrite Hcb. cbn [mbind option_bind].
    rewrite Hlate. apply wp_modify. exists 1%nat, b1. split; [lia|done].
Qed.

Lemma lated_filling k j (b1 b2 : B) u d d' t t' :
  lated k (filling (with_bus b2 (lated j (filling (with_bus b1 u) b d t))) b d' t') = lated (k + j) (filling (with_bus b2 u) b d' t').
Proof. unfold lated, RtUart.filling, with_buffers, with_client. cbn. by rewrite insert_insert_eq, Nat.iter_add. Qed.

Lemma receive_pending os : forall u d t i l fuel,
  os <> [] -> pending (bus u) = os -> rx_buffer u = Some a -> cb u = Some c -> (t + length os <= lim)%nat -> (lim <= length d)%nat ->
  buffers u !! a = Some (buffer_at b d t) -> (length os <= fuel)%nat ->
  wp (receive_loop bops table fuel (Some i, l))
    (fun s u' => exists i' l' k (b' : B), s = (Some i', Some l') /\ cause i' = PC16C550_IIR_IRQ_NONE /\ (k <= length os)%nat /\ pending b' = [] /\
       u' = deliver_if_full lim (t + length os) (lated k (filling (with_bus b' u) b (fill t os d) (t + length os)))) u.
Proof.
  induction os as [|x os IH]; intros u d t i l fuel Hne Hp Hrx Hcb Hl Hd Hb Hf; [done|].
  destruct fuel as [|fuel]; cbn [length] in *; [lia|]. cbn [receive_loop fst snd initialised].
  apply wp_bind, wp_ret, wp_bind, wp_gets. rewrite Hrx.
  apply wp_bind. eapply wp_mono; [eapply (receive_octet _ d t); [done|done|done|lia|lia|done]|]. cbn beta. intros _ u1 (k1 & b1 & Hk1 & Hp1 & ->).
  apply wp_bind, wp_receiver_status. intros i2 l2 b2 Hp2 Hi2 Hl2. set (u1 := lated _ _) in *.
  assert (pending (bus (deliver_if_full lim (S t) u1)) = os) as E by (unfold RtUart.deliver_if_full; by destruct (decide (S t = lim))).
  rewrite E in Hp2, Hi2, Hl2. cbn [fst snd initialised]. apply wp_bind, wp_ret, wp_bind, wp_ret.
  destruct os as [|y os].
  - unfold receiver_cause in Hi2. rewrite decide_True in Hi2 by done.
    rewrite Hi2, Hl2, (bool_decide_false (_ <> [])) by (intros Hn; by apply Hn).
    apply wp_if; [done|intros _; apply wp_ret]. exists i2, l2, k1, b2. split; [done|]. split; [done|]. split; [done|]. split; [done|].
    rewrite Nat.add_1_r. replace (fill t [x] d) with (<[t := x]> d).
    + unfold u1, RtUart.deliver_if_full. by case_decide.
    + rewrite <- fill_cons by lia. unfold fill. cbn. by rewrite Nat.add_0_r, take_drop.
  - rewrite Hl2, (bool_decide_true (_ <> [])) by done. rewrite orb_true_r. unfold RtUart.deliver_if_full at 2. cbn [length] in *.
    rewrite decide_False by lia. eapply wp_mono.
    + eapply (IH _ (<[t:=x]> d) (S t)); [done|done|done|done|lia|by rewrite length_insert|by apply lookup_insert_eq|lia].
    + cbn beta. intros s u' (ix & lx & k2 & bx & -> & Hc & Hk2 & Hpe & ->). exists ix, lx, (k2 + k1)%nat, bx. split; [done|]. split; [done|]. split; [lia|]. split; [done|].
      rewrite fill_cons by lia. replace (t + S (S (length os)))%nat with (S t + S (length os))%nat by lia. unfold u1. by rewrite <- (lated_filling k2 k1 b1 bx u (<[t:=x]> d) _ (S t)).
Qed.

(** C24: when the receiver asks for service, because it holds as many octets as
    its trigger level says or because the line has been quiet since, an
    interrupt takes all the octets that wait in it, those below the level too,
    for which the chip reports no cause, and puts them into the client's
    buffer, in their order and behind those that are there.  When the buffer is
    full it is handed back to the client, exactly once, and the driver has no
    receive buffer any more; before that the client may be told of time-outs,
    at most once per octet.  The handler returns, with fuel for one round per
    octet and one more; no octet arrives while it runs. *)
Theorem received_octets_fill_the_buffer u d t os fuel :
  rx_buffer u = Some a -> cb u = Some c -> os <> [] -> pending (bus u) = os -> (level <= length os)%nat \/ quiet (bus u) = true ->
  (t + length os <= lim)%nat -> (lim <= length d)%nat -> buffers u !! a = Some (buffer_at b d t) ->
  has (notify_mask u) RTUART_NOTIFY_RECEIVER_HASDATA = true -> has (notify_mask u) RTUART_NOTIFY_TRANSMITTER_EMPTY = false ->
  (length os < fuel)%nat ->
  wp (pc16c550_handle_irq bops table fuel)
    (fun _ u' => exists k (b' : B), (k <= length os)%nat /\ pending b' = [] /\
       u' = with_in_irq 0 (with_bus b' (deliver_if_full lim (t + length os) (lated k (filling u b (fill t os d) (t + length os)))))) u.
Proof.
  intros Hrx Hcb Hne Hp Hask Ht Hd Hb Hh He Hf. destruct fuel as [|fuel]; [lia|]. unfold pc16c550_handle_irq. apply wp_bind, wp_modify, wp_bind, wp_receiver_status.
  intros i l b1 Hp1 Hi _. cbn [bus with_in_irq] in Hp1, Hi. rewrite Hp in Hp1, Hi.
  assert ((cause i =? PC16C550_IIR_IRQ_RECEIVED_DATA_AVAILABLE) || (cause i =? PC16C550_IIR_IRQ_CHARACTER_TIMEOUT) = true) as Hc.
  { rewrite Hi. unfold receiver_cause. rewrite decide_False by done. case_decide as E; [done|]. destruct Hask as [?| ->]; [lia|done]. }
  cbn [irq_loop fst snd initialised]. apply wp_bind, wp_ret. rewrite Hc.
  apply wp_bind, wp_gets. cbn [notify_mask with_bus with_in_irq]. rewrite Hh. apply wp_bind.
  eapply wp_mono; [eapply (receive_pending os _ d t); cbn; [done|done|done|done|done|done|done|lia]|].
  cbn beta. intros s u1 (i' & l' & k & b2 & -> & Hi' & Hk & Hp2 & ->). destruct fuel as [|fuel]; [destruct os; cbn in *; [done|lia]|].
  eapply wp_mono; [apply (idle_irq bops table (fun b3 => pending b3 = []) _ i' (Some l')); [done| |]|].
  - unfold RtUart.deliver_if_full. destruct (decide _); cbn; [by apply has_ldiff|done].
  - intros v. destruct (rx_ier _ _ _ laws v b2) as (r & b3 & Hw & Hp3). rewrite Hp2 in Hp3. exists r, b3. unfold RtUart.deliver_if_full. by destruct (decide _).
  - cbn beta. intros _ u2 (b3 & Hp3 & ->). exists k, b3. split; [done|]. split; [done|]. unfold RtUart.deliver_if_full. by destruct (decide _).
Qed.
End reception.

(** ** A chip that only receives, with its trigger level at four octets *)

Definition receiver_read (reg : Z) : prog (list Z) Z := fun b =>
  if reg =? PC16550_REG_RBR then Done (u8 (hd 0 b), tl b)
  else if reg =? PC16550_REG_IIR then Done (receiver_cause 4 b false, b)
  else if reg =? PC16550_REG_LSR then Done (if decide (b = []) then 0x60 else 0x61, b)
  else Done (0, b).
Definition receiver_chip : rtuart_bus_ops (list Z) :=
  BusOps (list Z) (Some receiver_read) (Some (fun _ _ => mret tt)) None None None None None None.

Lemma receiver_chip_laws : receiver_laws receiver_chip 4 (fmap u8) (fun _ => false).
Proof.
  split.
  - intros b. apply Forall_fmap, Forall_forall. intros x _. apply u8_u8.
  - intros [|y b] x r; cbn; [done|]. intros [= <- <-]. by eexists.
  - intros b. exists (receiver_cause 4 b false), b. split; [done|]. split; [done|]. unfold receiver_cause. rewrite length_fmap.
    destruct b; [done|]. rewrite !(decide_False (P := _ = [])) by done. by case_decide.
  - intros b. exists (if decide (b = []) then 0x60 else 0x61), b. split; [done|]. split; [done|]. by destruct b.
  - intros v b. by exists 0, b.
Qed.

(** A client that counts the buffers it gets back. *)
Definition counting : rtuart_callbacks (rtuart (list Z) pc16c550 (list (option nat))) :=
  Callbacks None None None None None None (Some (fun p => modify (fun u => with_client (p :: client u) u)))
    (Some (fun p => modify (fun u => with_client (client u) u))) None.
Definition waiting_buffer : rtuart_buffer := Buffer (Some [0; 0; 0; 0]) 4 3 0 0 [].
Definition five_octets : list Z := [0x55; 0xAA; 0x42; 0x17; 0x99].
Definition empty_buffer : rtuart_buffer := Buffer (Some (replicate 6 0)) 6 5 0 0 [].
Definition receiving : rtuart (list Z) pc16c550 (list (option nat)) :=
  Uart five_octets 0xC (Some 0%nat) 0 None (Some 7%nat) 0 (Pc16c550 1843200 0x41) {[7%nat := empty_buffer]} [].

Lemma received_octets_fill_the_buffer_witness :
  wp (pc16c550_handle_irq receiver_chip (fun _ => counting) 6)
    (fun _ u' => exists k b', (k <= 5)%nat /\ u8 <$> b' = [] /\ u' = with_in_irq 0 (with_bus b'
       (deliver_if_full 7 cons 5 5 (lated 7 (fun _ l => l) k (filling 7 receiving empty_buffer (fill 0 five_octets (replicate 6 0)) 5))))) receiving.
Proof.
  apply (received_octets_fill_the_buffer receiver_chip (fun _ => counting) 4 (fmap u8) (fun _ => false) receiver_chip_laws 7 0 cons (fun _ l => l) eq_refl eq_refl
    empty_buffer 5 eq_refl ltac:(lia) receiving (replicate 6 0) 0 five_octets 6); try done; cbn; lia.
Defined.

(** ** A line status that is out of date *)

(** A chip whose answers are a script, and the writes to it. *)
Definition scripted : Type := list (Z * Z) * list (Z * Z).
Definition scripted_read (reg : Z) : prog scripted Z := fun '(s, w) =>
  match s with
  | (r, v) :: s' => if r =? reg then Done (v, (s', w)) else Fault Uninitialised
  | [] => Fault Uninitialised
  end.
Definition scripted_chip : rtuart_bus_ops scripted :=
  BusOps scripted (Some scripted_read) (Some (fun reg v '(s, w) => Done (tt, (s, w ++ [(reg, v)])))) None None None None None None.
(** One octet was received and the transmitter has space at the same time:
    reading the cause for the second interrupt takes it back. *)
Definition both_directions (x empty : Z) : list (Z * Z) :=
  [(PC16550_REG_IIR, 4); (PC16550_REG_LSR, 1); (PC16550_REG_RBR, x); (PC16550_REG_IIR, 2); (PC16550_REG_RBR, empty);
   (PC16550_REG_IIR, 1); (PC16550_REG_LSR, 0x60)].
Definition outgoing : rtuart_buffer := Buffer (Some [0x11]) 1 1 0 0 [].
Definition duplex (x empty : Z) : rtuart scripted pc16c550 unit :=
  Uart (both_directions x empty, []) 0xD (Some 0%nat) 0 (Some 8%nat) (Some 7%nat) 0 (Pc16c550 1843200 0x41)
    {[7%nat := waiting_buffer; 8%nat := outgoing]} tt.

(** When the last octet is taken and the next cause is not the receiver's,
    the handler tests the line status of the cause before: it reads once more
    from the empty receiver and stores an octet that never arrived, and the
    interrupt of the transmitter that it had read is not served, so nothing
    of the buffer that waits is sent. *)
Theorem stale_line_status_reads_on x empty table fuel :
  exists u', pc16c550_handle_irq scripted_chip table (3 + fuel) (duplex x empty) = Done (tt, u') /\
    buffers u' !! 7%nat = Some (Buffer (Some [u8 x; u8 empty; 0; 0]) 4 3 2 0 []) /\
    buffers u' !! 8%nat = Some outgoing /\ bus u' = ([], [(PC16550_REG_IER, 3)]).
Proof. eexists. split; [vm_compute; reflexivity|]. split; [vm_compute; reflexivity|]. split; vm_compute; reflexivity. Qed.
