(* ===== verification/RtTransmission.v ===== *)
(** * Sending with the second generation of the 16550 driver

    How the buffers of the client get into the transmitter of the chip in
    [RtPc16c550.v].  The transmitter is that of a 16550: it has a FIFO of
    sixteen octets, loses what is written to it when it is full, and asks for
    more when it has run empty.  The loop of the interrupt handler ends and
    never writes to a full FIFO whatever the callbacks do; a buffer is sent
    octet by octet, eight per interrupt, and is handed back once.  At the
    end, a buffer that is started while another one is sent. *)
From stdpp Require Import base countable gmap list.
From S2P Require Import Prelude Bus RtUart RtPc16c550.

(** ** Programs that do not run out of fuel *)

Definition ends {S A} (m : prog S A) : Prop := forall s, m s <> Fault OutOfFuel.

Lemma ends_ret {S A} (x : A) : ends (mret x : prog S A).
Proof. done. Qed.
Lemma ends_gets {S A} (f : S -> A) : ends (gets f).
Proof. done. Qed.
Lemma ends_modify {S} (f : S -> S) : ends (modify f).
Proof. done. Qed.
Lemma ends_live {S A} (o : option A) : ends (live o : prog S A).
Proof. by destruct o. Qed.
Lemma ends_deref {S A} (o : option A) : ends (deref o : prog S A).
Proof. by destruct o. Qed.
Lemma ends_load {S A} (l : list A) i : ends (lift_outcome (load l i) : prog S A).
Proof. intros s. unfold lift_outcome, load. destruct (0 <=? i); [|done]. by destruct (l !! _). Qed.
Lemma ends_bind {S A B} (m : prog S A) (k : A -> prog S B) : ends m -> (forall x, ends (k x)) -> ends (m ≫= k).
Proof. intros Hm Hk s. unfold mbind, prog_bind. specialize (Hm s). destruct (m s) as [[x s']|f]; [apply Hk|congruence]. Qed.
Lemma ends_when {S} (b : bool) (m : prog S unit) : ends m -> ends (when b m).
Proof. by destruct b. Qed.
Create HintDb ends.
#[export] Hint Resolve ends_ret ends_gets ends_modify ends_live ends_deref ends_load ends_when : ends.
#[export] Hint Extern 2 (ends (_ ≫= _)) => apply ends_bind; [|intros] : ends.

Section transmission.
Context {B C : Type} (bops : rtuart_bus_ops B) (table : nat -> rtuart_callbacks (rtuart B pc16c550 C)).
Abbreviation W := (rtuart B pc16c550 C).
Implicit Types (u : W) (d : list Z).

Section termination.
(** The bus and the client's callbacks return. *)
Context (bus_ends : forall reg v, ends (rtuart_bus_write_u8 bops reg v)).
Context (start_ends : forall c f p, tx_start (table c) = Some f -> ends (f p)).
Context (end1_ends : forall c f p, tx_end1 (table c) = Some f -> ends (f p)).

Lemma ends_fetch p : ends (fetch p : prog W rtuart_buffer).
Proof. unfold fetch. auto with ends. Qed.
Lemma ends_update p f : ends (update_buffer p f : prog W unit).
Proof. unfold update_buffer. auto 10 with ends. Qed.
Lemma ends_put reg v : ends (put_reg bops reg v : prog W unit).
Proof.
  intros u. unfold put_reg, rtuart_write_u8, on_bus, mbind, prog_bind. specialize (bus_ends reg v (bus u)).
  destruct (rtuart_bus_write_u8 _ _ _ _) as [[x b]|f]; [done|congruence].
Qed.
Lemma ends_call {A} (f : rtuart_callbacks W -> option A) call : (forall c g, f (table c) = Some g -> ends (call g)) -> ends (rtuart_call table f call).
Proof.
  intros Hf. unfold rtuart_call. apply ends_bind; [apply ends_gets|]. intros [c|]; cbn; [|apply ends_ret].
  destruct (f (table c)) as [g|] eqn:E; [by apply (Hf c)|apply ends_ret].
Qed.
#[local] Hint Resolve ends_fetch ends_update ends_put : ends.

Lemma ends_copy p n k : ends (copy_octets bops p n k : prog W Z).
Proof.
  revert k. induction n as [|n IH]; intros k; cbn [copy_octets]; [auto with ends|]. apply ends_bind; [auto with ends|]. intros b.
  destruct (_ || _); [auto with ends|]. unfold load_octet. auto 12 with ends.
Qed.
Lemma ends_complete p : ends (buffer_is_complete p : prog W bool).
Proof. destruct p; cbn; auto with ends. Qed.

Lemma transmit_loop_ends fuel : forall available_space, available_space < Z.of_nat fuel -> (0 < fuel)%nat -> ends (transmit_loop bops table fuel available_space).
Proof.
  induction fuel as [|fuel IH]; intros av Hav Hf; [lia|]. cbn [transmit_loop].
  apply ends_bind; [auto with ends|]. intros t. apply ends_bind.
  { destruct t; [|auto with ends]. apply ends_bind; [auto with ends|]. intros b. apply ends_when, ends_call. by eauto. }
  intros _. apply ends_bind; [auto with ends|]. intros t1. apply ends_bind; [apply ends_copy|]. intros copied.
  apply ends_bind; [auto with ends|]. intros t2. apply ends_bind; [apply ends_complete|]. intros complete. apply ends_bind.
  { apply ends_when. apply ends_bind; [unfold drop_notify; auto with ends|]. intros _. apply ends_bind; [auto with ends|]. intros _.
    apply ends_bind; [apply ends_call; by eauto|]. intros _. unfold notified. auto 10 with ends. }
  intros _. apply ends_bind; [unfold notified; auto with ends|]. intros ready. apply ends_bind; [auto with ends|]. intros [t3|]; [|done].
  destruct (Z.ltb_spec 0 copied) as [Hc|]; cbn [andb]; [|done]. destruct (Z.ltb_spec 0 (av - copied)); cbn [andb]; [|done].
  destruct ready; [|done]. apply ends_bind; [auto with ends|]. intros again. destruct again; [|auto with ends]. apply IH; lia.
Qed.
End termination.

(** The loop that fills the transmitter ends: every round but the last sends an
    octet of the sixteen that the transmitter takes. *)
Lemma serve_transmitter_no_fuel u :
  (forall reg v, ends (rtuart_bus_write_u8 bops reg v)) ->
  (forall c f p, tx_start (table c) = Some f -> ends (f p)) -> (forall c f p, tx_end1 (table c) = Some f -> ends (f p)) ->
  serve_transmitter bops table u <> Fault OutOfFuel.
Proof.
  intros Hb Hs He. unfold serve_transmitter. revert u. change (ends (ready ← notified RTUART_NOTIFY_TRANSMITTER_READY; when ready (transmit_loop bops table 17 16))).
  apply ends_bind; [apply ends_gets|]. intros ready. by apply ends_when, transmit_loop_ends; [| | |lia|lia].
Qed.

(** *** The transmitter of the chip *)

(** What the laws say of a chip: the octets that the transmitter has accepted
    since it was started, the places that are free in its FIFO, the number of
    octets that it lost, and whether it asks for more. *)
Record transmitter := Transmitter { accepted : list Z; room : nat; lost : nat; asks : bool }.
Definition FIFO : nat := 16.
(** An octet is written to THR: it is lost when the FIFO is full, and the
    request for more is taken back. *)
Definition take_octet (x : Z) (s : transmitter) : transmitter :=
  match room s with
  | O => Transmitter (accepted s) 0 (S (lost s)) false
  | S k => Transmitter (accepted s ++ [x]) k (lost s) false
  end.
Definition asking (q : bool) (s : transmitter) : transmitter := Transmitter (accepted s) (room s) (lost s) q.
(** The FIFO has run empty: only then does the chip ask for more. *)
Definition emptied (s : transmitter) : transmitter := Transmitter (accepted s) FIFO (lost s) true.

(** Reading the cause takes the request back; writing the interrupt enable
    register may raise it again. *)
Record transmitter_laws (view : B -> transmitter) : Prop := {
  tx_thr x (b : B) : exists r (b' : B), rtuart_bus_write_u8 bops PC16550_REG_THR x b = Done (r, b') /\ view b' = take_octet (u8 x) (view b);
  tx_iir (b : B) : exists v (b' : B), rtuart_bus_read_u8 bops PC16550_REG_IIR b = Done (Some v, b') /\ view b' = asking false (view b) /\
    cause (u8 v) = if asks (view b) then PC16C550_IIR_IRQ_TRANSMITTER_HOLDING_EMPTY else PC16C550_IIR_IRQ_NONE;
  tx_lsr (b : B) : exists v (b' : B), rtuart_bus_read_u8 bops PC16550_REG_LSR b = Done (Some v, b') /\ view b' = view b;
  tx_ier v (b : B) : exists r (b' : B) q, rtuart_bus_write_u8 bops PC16550_REG_IER v b = Done (r, b') /\ view b' = asking q (view b) }.
Context (view : B -> transmitter) (laws : transmitter_laws view).
Abbreviation sent := (fun b => accepted (view b)).

(** *** No octet is lost *)

(** A program that leaves the transmitter alone. *)
Definition leaves_chip {A} (m : prog W A) : Prop := forall u, match m u with Done (_, u') => view (bus u') = view (bus u) | Fault _ => True end.
(** What holds if a program returns. *)
Definition may {A} (m : prog W A) (Q : A -> W -> Prop) u : Prop := match m u with Done (x, u') => Q x u' | Fault _ => True end.

Lemma may_bind {A D} (m : prog W A) (k : A -> prog W D) Q u : may m (fun x => may (k x) Q) u -> may (m ≫= k) Q u.
Proof. unfold may, mbind, prog_bind. by destruct (m u) as [[x u']|f]. Qed.
Lemma may_mono {A} (m : prog W A) (P Q : A -> W -> Prop) u : may m P u -> (forall x u', P x u' -> Q x u') -> may m Q u.
Proof. unfold may. destruct (m u) as [[x u']|f]; auto. Qed.
Lemma may_leave {A} (m : prog W A) (Q : A -> W -> Prop) u :
  leaves_chip m -> (forall x u', view (bus u') = view (bus u) -> Q x u') -> may m Q u.
Proof. unfold may. intros Hm HQ. specialize (Hm u). destruct (m u) as [[x u']|f]; auto. Qed.

Lemma leaves_ret {A} (x : A) : leaves_chip (mret x).
Proof. done. Qed.
Lemma leaves_gets {A} (f : W -> A) : leaves_chip (gets f).
Proof. done. Qed.
Lemma leaves_modify (f : W -> W) : (forall u, bus (f u) = bus u) -> leaves_chip (modify f).
Proof. intros Hf u. cbn. by rewrite Hf. Qed.
Lemma leaves_bind {A D} (m : prog W A) (k : A -> prog W D) : leaves_chip m -> (forall x, leaves_chip (k x)) -> leaves_chip (m ≫= k).
Proof.
  intros Hm Hk u. unfold mbind, prog_bind. specialize (Hm u). destruct (m u) as [[x u']|f]; [|done].
  specialize (Hk x u'). destruct (k x u') as [[y u'']|f]; [|done]. by rewrite Hk, Hm.
Qed.
Lemma leaves_when (b : bool) m : leaves_chip m -> leaves_chip (when b m).
Proof. by destruct b. Qed.
Lemma leaves_live {A} (o : option A) : leaves_chip (live o).
Proof. by destruct o. Qed.
Lemma leaves_deref {A} (o : option A) : leaves_chip (deref o).
Proof. by destruct o. Qed.
Lemma leaves_load {A} (l : list A) i : leaves_chip (lift_outcome (load l i)).
Proof. intros u. unfold lift_outcome. by destruct (load l i). Qed.
#[local] Hint Resolve leaves_ret leaves_gets leaves_when leaves_live leaves_deref leaves_load : chip.
#[local] Hint Extern 2 (leaves_chip (_ ≫= _)) => apply leaves_bind; [|intros] : chip.
#[local] Hint Extern 2 (leaves_chip (modify _)) => by apply leaves_modify : chip.

Lemma leaves_fetch p : leaves_chip (fetch p).
Proof. unfold fetch. auto with chip. Qed.
Lemma leaves_update p f : leaves_chip (update_buffer p f).
Proof. unfold update_buffer. auto 10 with chip. Qed.
Lemma leaves_call {A} (f : rtuart_callbacks W -> option A) call : (forall c g, f (table c) = Some g -> leaves_chip (call g)) -> leaves_chip (rtuart_call table f call).
Proof.
  intros Hf. unfold rtuart_call. apply leaves_bind; [apply leaves_gets|]. intros [c|]; cbn; [|apply leaves_ret].
  destruct (f (table c)) as [g|] eqn:E; [by apply (Hf c)|apply leaves_ret].
Qed.
Lemma leaves_complete p : leaves_chip (buffer_is_complete p).
Proof. unfold buffer_is_complete. destruct p; [|apply leaves_ret]. apply leaves_bind; [apply leaves_fetch|auto with chip]. Qed.
#[local] Hint Resolve leaves_fetch leaves_update leaves_complete : chip.

Lemma copy_octets_fit p rest : forall copied u, (rest <= room (view (bus u)))%nat ->
  may (copy_octets bops p rest copied)
    (fun r u' => exists m : nat, r = copied + Z.of_nat m /\ (m <= rest)%nat /\
       lost (view (bus u')) = lost (view (bus u)) /\ (room (view (bus u')) + m = room (view (bus u)))%nat) u.
Proof.
  induction rest as [|rest IH]; intros copied u Hr; cbn [copy_octets]; [exists 0%nat; repeat split; lia|].
  apply may_bind, may_leave; [auto with chip|]. intros b u1 E1. rewrite <- E1 in Hr |- *. destruct (_ || _); [exists 0%nat; repeat split; lia|].
  apply may_bind, may_leave; [auto with chip|]. intros _ u2 E2. apply may_bind, may_leave; [unfold load_octet; auto 10 with chip|]. intros x u3 E3.
  rewrite <- E2, <- E3 in Hr |- *. destruct (tx_thr _ laws x (bus u3)) as (r & b1 & Hw & Hv). apply may_bind.
  assert (put_reg bops PC16550_REG_THR x u3 = Done (tt, with_bus b1 u3)) as Hput by (unfold put_reg, rtuart_write_u8, on_bus, mbind, prog_bind; by rewrite Hw).
  unfold may at 1. rewrite Hput. unfold take_octet in Hv. destruct (room (view (bus u3))) as [|k] eqn:E; [lia|].
  eapply may_mono; [apply IH; cbn; rewrite Hv; cbn; lia|]. cbn. rewrite Hv. cbn. intros r' u' (m & -> & Hm & Hl & Hrm).
  exists (S m). repeat split; [lia|lia|done|lia].
Qed.

Section callbacks.
(** The client's callbacks do not write to the transmitter themselves. *)
Context (start_leaves : forall c f p, tx_start (table c) = Some f -> leaves_chip (f p)).
Context (end1_leaves : forall c f p, tx_end1 (table c) = Some f -> leaves_chip (f p)).

Lemma transmit_loop_fits fuel : forall av u, 0 <= av <= Z.of_nat (room (view (bus u))) ->
  may (transmit_loop bops table fuel av) (fun _ u' => lost (view (bus u')) = lost (view (bus u))) u.
Proof.
  induction fuel as [|fuel IH]; intros av u Hav; cbn [transmit_loop]; [done|].
  apply may_bind, may_leave; [auto with chip|]. intros t u1 E1. apply may_bind, may_leave.
  { destruct t; [|auto with chip]. apply leaves_bind; [auto with chip|]. intros b. apply leaves_when, leaves_call. by eauto. }
  intros _ u2 E2. apply may_bind, may_leave; [auto with chip|]. intros t1 u3 E3. rewrite <- E1, <- E2, <- E3 in Hav |- *.
  apply may_bind. eapply may_mono; [apply copy_octets_fit; lia|]. cbn beta. intros copied u4 (m & -> & Hm & Hl & Hr). rewrite <- Hl.
  apply may_bind, may_leave; [auto with chip|]. intros t2 u5 E5. apply may_bind, may_leave; [auto with chip|]. intros complete u6 E6. apply may_bind, may_leave.
  { apply leaves_when. apply leaves_bind; [unfold drop_notify; auto with chip|]. intros _. apply leaves_bind; [auto with chip|]. intros _.
    apply leaves_bind; [apply leaves_call; by eauto|]. intros _. unfold notified. auto 10 with chip. }
  intros _ u7 E7. apply may_bind, may_leave; [unfold notified; auto with chip|]. intros ready u8 E8.
  apply may_bind, may_leave; [auto with chip|]. intros t3 u9 E9. apply may_bind, may_leave.
  { destruct t3; [|auto with chip]. destruct (_ && _); auto with chip. }
  intros again u10 E10. assert (view (bus u10) = view (bus u4)) as E by congruence. rewrite <- E in Hr |- *.
  destruct again; [|done]. apply IH. destruct (Z.ltb_spec 0 (0 + Z.of_nat m)); lia.
Qed.
End callbacks.

(** C26: one interrupt never writes to a full FIFO: when the transmitter has
    run empty, the loop that fills it loses no octet, whatever buffers the
    client starts in its callbacks: each buffer gives eight octets at most and
    all of them sixteen.  The loop always ends; a buffer of the client that is
    gone or too short is a fault. *)
Theorem no_octet_is_lost u :
  room (view (bus u)) = FIFO -> (forall reg v, ends (rtuart_bus_write_u8 bops reg v)) ->
  (forall c f p, tx_start (table c) = Some f -> ends (f p) /\ leaves_chip (f p)) ->
  (forall c f p, tx_end1 (table c) = Some f -> ends (f p) /\ leaves_chip (f p)) ->
  match serve_transmitter bops table u with
  | Done (_, u') => lost (view (bus u')) = lost (view (bus u))
  | Fault f => f <> OutOfFuel
  end.
Proof.
  intros Hr Hw Hs He. pose proof (serve_transmitter_no_fuel u Hw (fun c f p H => proj1 (Hs c f p H)) (fun c f p H => proj1 (He c f p H))) as Hend.
  assert (may (serve_transmitter bops table) (fun _ u' => lost (view (bus u')) = lost (view (bus u))) u) as H.
  { unfold serve_transmitter. apply may_bind, may_leave; [unfold notified; auto with chip|]. intros ready u1 E1. rewrite <- E1. destruct ready; [|done].
    apply transmit_loop_fits; [by intros c f p E; apply (Hs c f p E)|by intros c f p E; apply (He c f p E)|]. rewrite E1, Hr. done. }
  unfold may in H. destruct (serve_transmitter bops table u) as [[x u']|f]; [done|congruence].
Qed.

(** *** A buffer on the line *)

(** The client takes note of the start and of the end. *)
Context (a c : nat) (note_start note_end : option nat -> C -> C).
Context (Hstart : tx_start (table c) = Some (fun p => modify (fun u => with_client (note_start p (client u)) u))).
Context (Hend : tx_end1 (table c) = Some (fun p => modify (fun u => with_client (note_end p (client u)) u))).
(** The buffer: [n] octets of [d]. *)
Context (b : rtuart_buffer) (d : list Z) (n : nat).
Context (Hd : data b = Some d) (Hn : validcount b = Z.of_nat n) (Hsize : Z.of_nat n <= size b) (Hlen : (n <= length d)%nat).
Context (Hwidth : Z.of_nat n < 2 ^ 64) (Hoctets : Forall (fun x => u8 x = x) d).

Definition sent_until (t : nat) u : W := with_buffers (<[a := with_transfered (Z.of_nat t) b]> (buffers u)) u.
Definition started (t : nat) u : W := if decide (t = 0%nat) then with_client (note_start (Some a) (client u)) u else u.
Definition ended (t : nat) u : W :=
  if decide (t = n) then
    with_client (note_end (Some a) (client u)) (with_tx None (with_notify (Z.ldiff (notify_mask u) RTUART_NOTIFY_TRANSMITTER_READY) u))
  else u.

Lemma tx_full t : (t <= n)%nat ->
  (validcount b <=? transfered (with_transfered (Z.of_nat t) b)) || (size b <=? transfered (with_transfered (Z.of_nat t) b)) = bool_decide (t = n).
Proof.
  intros Ht. cbn. rewrite Hn. case_bool_decide as E.
  - subst t. apply orb_true_iff. left. apply Z.leb_le. lia.
  - apply orb_false_iff. split; apply Z.leb_gt; lia.
Qed.

Lemma sent_until_id u t : buffers u !! a = Some (with_transfered (Z.of_nat t) b) -> sent_until t u = u.
Proof. intros H. unfold sent_until. rewrite insert_id by done. by destruct u. Qed.

Lemma copy_octets_sends k : forall u t copied,
  (t <= n)%nat -> (k <= room (view (bus u)))%nat -> asks (view (bus u)) = false -> buffers u !! a = Some (with_transfered (Z.of_nat t) b) ->
  wp (copy_octets bops (Some a) k copied)
    (fun r u' => let m := Nat.min k (n - t) in r = copied + Z.of_nat m /\
       exists b' : B, sent b' = sent (bus u) ++ take m (drop t d) /\ asks (view b') = false /\ u' = with_bus b' (sent_until (t + m) u)) u.
Proof.
  induction k as [|k IH]; intros u t copied Ht Hk Hq Hb; cbn [copy_octets].
  - apply wp_ret. cbn. split; [lia|]. exists (bus u). rewrite take_0, app_nil_r, Nat.add_0_r. split; [done|]. split; [done|].
    rewrite sent_until_id by done. by destruct u.
  - apply wp_bind, (wp_fetch _ _ _ _ Hb). cbn [validcount size with_transfered] in *. rewrite tx_full by done. case_bool_decide as E.
    + apply wp_ret. rewrite E, Nat.sub_diag, Nat.min_0_r. cbn. split; [lia|]. exists (bus u). rewrite app_nil_r, Nat.add_0_r. split; [done|]. split; [done|].
      subst t. rewrite sent_until_id by done. by destruct u.
    + apply wp_bind, (wp_update_buffer _ _ _ _ _ Hb). cbn [transfered with_transfered]. unfold u64. rewrite Z.mod_small by lia.
      replace (Z.of_nat t + 1) with (Z.of_nat (S t)) by lia.
      change (with_transfered (Z.of_nat (S t)) (with_transfered (Z.of_nat t) b)) with (with_transfered (Z.of_nat (S t)) b).
      change (with_buffers _ u) with (sent_until (S t) u). destruct (lookup_lt_is_Some_2 d t) as [x Hx]; [lia|].
      assert (buffers (sent_until (S t) u) !! a = Some (with_transfered (Z.of_nat (S t)) b)) as Hb1 by apply lookup_insert_eq.
      apply wp_bind. unfold load_octet. apply wp_bind, (wp_fetch _ _ _ _ Hb1), wp_bind, (wp_deref _ d); [done|]. unfold wp at 1. unfold lift_outcome.
      rewrite (load_nat _ _ _ Hx). destruct (tx_thr _ laws x (bus (sent_until (S t) u))) as (r & b1 & Hw & Hv1).
      cbn [bus sent_until with_buffers] in Hv1. unfold take_octet in Hv1. destruct (room (view (bus u))) as [|q] eqn:Eq; [lia|].
      apply wp_bind. eapply wp_put_reg; [exact Hw|]. eapply wp_mono; [apply (IH _ (S t)); [lia|cbn; rewrite Hv1; cbn; lia|cbn; by rewrite Hv1|exact Hb1]|].
      cbn beta zeta. intros r' u' (-> & b2 & Hs2 & Ht2 & ->). cbn [bus with_bus sent_until with_buffers] in *. split; [lia|].
      exists b2. rewrite Hs2, Hv1, Ht2. replace (Nat.min (S k) (n - t)) with (S (Nat.min k (n - S t))) by lia.
      rewrite (drop_S d x t Hx). cbn [take accepted]. rewrite <- app_assoc. cbn.
      assert (u8 x = x) as -> by exact (Forall_lookup_1 _ _ _ _ Hoctets Hx). split; [done|]. split; [done|].
      unfold sent_until, with_bus, with_buffers. cbn. by rewrite insert_insert_eq, Nat.add_succ_r.
Qed.

(** One interrupt sends the next eight octets, or what is left. *)
Definition upto (t : nat) : nat := t + Nat.min 8 (n - t).
Definition served (t : nat) u : W := ended (upto t) (sent_until (upto t) (started t u)).

Lemma serve_transmitter_sends u t :
  (t < n)%nat -> cb u = Some c -> tx_buffer u = Some a -> buffers u !! a = Some (with_transfered (Z.of_nat t) b) ->
  has (notify_mask u) RTUART_NOTIFY_TRANSMITTER_READY = true -> has (notify_mask u) RTUART_NOTIFY_TRANSMITTER_EMPTY = false ->
  (8 <= room (view (bus u)))%nat -> asks (view (bus u)) = false ->
  wp (serve_transmitter bops table)
    (fun _ u' => exists b' : B, sent b' = sent (bus u) ++ take 8 (drop t (take n d)) /\ asks (view b') = false /\ u' = with_bus b' (served t u)) u.
Proof.
  intros Ht Hcb Htx Hb Hr He Hroom Hq. unfold serve_transmitter. apply wp_bind, wp_gets. rewrite Hr. cbn [when]. change 17%nat with (S 16). generalize 16%nat as fuel. intros fuel. cbn [transmit_loop].
  apply wp_bind, wp_gets. rewrite Htx. apply wp_bind, wp_bind, (wp_fetch _ _ _ _ Hb). cbn [transfered with_transfered].
  apply (wp_mono _ (fun _ u' => u' = started t u)).
  { apply wp_when; intros Hz.
    - unfold rtuart_call_tx_start, rtuart_call. apply wp_bind, wp_gets. rewrite Hcb. cbn. rewrite Hstart. apply wp_modify. unfold started.
      by rewrite decide_True by lia.
    - unfold started. by rewrite decide_False by lia. }
  intros _ ? ->. assert (forall A (f : W -> A), (forall k, f (with_client k u) = f u) -> f (started t u) = f u) as Hs.
  { intros A f Hf. unfold started. by destruct (decide _). }
  apply wp_bind, wp_gets. rewrite (Hs _ tx_buffer) by done. rewrite Htx. apply wp_bind. unfold copy_from_buffer_to_transmitter. change (Z.to_nat (Z.min 16 8)) with 8%nat.
  eapply wp_mono; [apply (copy_octets_sends 8 _ t); rewrite ?(Hs _ buffers), ?(Hs _ bus) by done; try done; lia|]. cbn beta zeta.
  intros k u1 (-> & b1 & Hs1 & Ht1 & ->). fold (upto t). rewrite (Hs _ bus) in Hs1 by done. set (u1 := with_bus b1 _).
  assert (buffers u1 !! a = Some (with_transfered (Z.of_nat (upto t)) b)) as Hb1 by apply lookup_insert_eq.
  assert (tx_buffer u1 = Some a) as Htx1 by (rewrite <- Htx; apply (Hs _ tx_buffer); done).
  assert (notify_mask u1 = notify_mask u) as Hm1 by (apply (Hs _ notify_mask); done).
  assert (cb u1 = Some c) as Hcb1 by (rewrite <- Hcb; apply (Hs _ cb); done).
  apply wp_bind, wp_gets. rewrite Htx1. apply wp_bind. cbn [buffer_is_complete]. apply wp_bind, (wp_fetch _ _ _ _ Hb1), wp_ret.
  rewrite orb_comm, tx_full by (unfold upto; lia). apply wp_bind.
  apply (wp_mono _ (fun _ u' => u' = ended (upto t) u1)).
  { apply wp_when; intros Hf; [apply bool_decide_eq_true in Hf|apply bool_decide_eq_false in Hf].
    - unfold drop_notify. apply wp_bind, wp_modify, wp_bind, wp_modify, wp_bind. unfold rtuart_call_tx_end1, rtuart_call. apply wp_bind, wp_gets.
      cbn [cb with_tx with_notify]. rewrite Hcb1. cbn [mbind option_bind]. rewrite Hend. apply wp_modify, wp_bind, wp_gets, wp_bind, wp_gets.
      cbn [tx_buffer with_client with_tx notify_mask with_notify]. rewrite Hm1. rewrite has_ldiff by done. rewrite bool_decide_true by done. cbn [andb when]. apply wp_ret. unfold ended. rewrite decide_True by done.
      by rewrite Hm1.
    - unfold ended. by rewrite decide_False by done. }
  intros _ ? ->. apply wp_bind, wp_gets, wp_bind, wp_gets, wp_bind. assert (upto t <> 0%nat) as Hz by (unfold upto; lia).
  apply (wp_mono _ (fun again u' => again = false /\ u' = ended (upto t) u1)).
  { destruct (tx_buffer (ended (upto t) u1)) as [p|] eqn:E; [|by apply wp_ret].
    assert (p = a /\ buffers (ended (upto t) u1) !! a = Some (with_transfered (Z.of_nat (upto t)) b)) as [-> Hb2].
    { unfold ended in *. destruct (decide _); [done|]. split; [congruence|done]. }
    apply wp_if; intros _; [|by apply wp_ret]. apply wp_bind, (wp_fetch _ _ _ _ Hb2), wp_ret. cbn [transfered with_transfered]. split; [lia|done]. }
  intros again ? [-> ->]. apply wp_ret. exists b1. split; [|split; [done|]].
  - rewrite Hs1. f_equal. rewrite skipn_firstn_comm, take_take. f_equal; lia.
  - unfold u1, served, ended. by destruct (decide _).
Qed.

Lemma wp_transmitter_status u s (Q : status -> W -> Prop) :
  (forall i l (b' : B), view b' = asking false (view (bus u)) ->
     cause i = (if asks (view (bus u)) then PC16C550_IIR_IRQ_TRANSMITTER_HOLDING_EMPTY else PC16C550_IIR_IRQ_NONE) -> Q (Some i, l) (with_bus b' u)) ->
  wp (update_iir_and_lsr bops s) Q u.
Proof.
  intros HQ. unfold update_iir_and_lsr. destruct (tx_iir _ laws (bus u)) as (v & b1 & Hr & Hv & Hc).
  apply wp_bind, (wp_read_u8 _ v b1); [done|]. cbn [or_else initialised]. apply wp_bind, wp_ret. destruct (_ || _).
  - destruct (tx_lsr _ laws b1) as (l & b2 & Hr2 & Hv2). apply wp_bind, (wp_read_u8 _ l b2); [done|]. apply wp_ret.
    apply (HQ _ _ b2); [by rewrite Hv2|done].
  - apply wp_ret. by apply HQ.
Qed.

(** The interrupt of a transmitter that has run empty. *)
Lemma transmitter_interrupt u t fuel :
  asks (view (bus u)) = true -> room (view (bus u)) = FIFO ->
  (t < n)%nat -> cb u = Some c -> tx_buffer u = Some a -> buffers u !! a = Some (with_transfered (Z.of_nat t) b) ->
  has (notify_mask u) RTUART_NOTIFY_TRANSMITTER_READY = true -> has (notify_mask u) RTUART_NOTIFY_TRANSMITTER_EMPTY = false ->
  wp (pc16c550_handle_irq bops table (2 + fuel))
    (fun _ u' => exists b' : B, sent b' = sent (bus u) ++ take 8 (drop t (take n d)) /\ u' = with_in_irq 0 (with_bus b' (served t u))) u.
Proof.
  intros Hth Hroom Ht Hcb Htx Hb Hr He. unfold pc16c550_handle_irq. apply wp_bind, wp_modify, wp_bind, wp_transmitter_status.
  intros i l b1 Hv1 Hi. cbn [bus with_in_irq] in Hv1, Hi. rewrite Hth in Hi. change (2 + fuel)%nat with (S (S fuel)). cbn [irq_loop fst snd initialised].
  apply wp_bind, wp_ret. rewrite Hi. change (PC16C550_IIR_IRQ_TRANSMITTER_HOLDING_EMPTY =? _) with false at 1 2.
  change (PC16C550_IIR_IRQ_TRANSMITTER_HOLDING_EMPTY =? PC16C550_IIR_IRQ_TRANSMITTER_HOLDING_EMPTY) with true. cbn [orb].
  apply wp_bind. eapply wp_mono; [apply (serve_transmitter_sends _ t); cbn [bus with_bus]; rewrite ?Hv1; cbn [room asks asking]; rewrite ?Hroom; try done; unfold FIFO; lia|].
  cbn beta. intros _ u1 (b2 & Hs2 & Ht2 & ->).
  cbn [bus with_bus] in Hs2. rewrite Hv1 in Hs2. apply wp_bind, wp_transmitter_status. cbn [bus with_bus]. intros i2 l2 b3 Hv3 Hi2. rewrite Ht2 in Hi2.
  eapply wp_mono; [apply (idle_irq bops table (fun b4 => sent b4 = sent b3) _ i2 l2); [done| |]|].
  - cbn [notify_mask with_bus]. unfold served, ended, started. by repeat destruct (decide _); cbn; try apply has_ldiff.
  - intros v. destruct (tx_ier _ laws v b3) as (r & b4 & q & Hw & Hv4). exists r, b4. by rewrite Hv4.
  - cbn beta. intros _ u2 (b4 & Hs4 & ->). exists b4. split; [rewrite Hs4, Hv3; exact Hs2|].
    unfold served, ended, started. by repeat destruct (decide _).
Qed.

(** The transmitter runs empty between the interrupts. *)
Context (drain : B -> B) (drained : forall b', view (drain b') = emptied (view b')).
Fixpoint interrupts (fuel k : nat) : prog W unit :=
  match k with
  | O => mret tt
  | S k => modify (fun u => with_bus (drain (bus u)) u) ;; pc16c550_handle_irq bops table fuel ;; interrupts fuel k
  end.

(** [k] interrupts send [8 * k] octets, or what is left. *)
Lemma interrupts_send fuel k : forall u t,
  (t < n)%nat -> (0 < k)%nat -> (8 * k < n - t + 8)%nat -> in_irq u = 0 -> cb u = Some c -> tx_buffer u = Some a ->
  buffers u !! a = Some (with_transfered (Z.of_nat t) b) ->
  has (notify_mask u) RTUART_NOTIFY_TRANSMITTER_READY = true -> has (notify_mask u) RTUART_NOTIFY_TRANSMITTER_EMPTY = false ->
  wp (interrupts (2 + fuel) k)
    (fun _ u' => exists b' : B, sent b' = sent (bus u) ++ take (8 * k) (drop t (take n d)) /\
       let m := (t + Nat.min (8 * k) (n - t))%nat in u' = with_bus b' (ended m (sent_until m (started t u)))) u.
Proof.
  induction k as [|k IH]; intros u t Ht Hk1 Hk2 Hi Hcb Htx Hb Hr He; [lia|]. cbn [interrupts]. apply wp_bind, wp_modify, wp_bind.
  pose proof (drained (bus u)) as Hdr. eapply wp_mono; [apply (transmitter_interrupt _ t); cbn [bus with_bus]; rewrite ?Hdr; done|]. cbn beta.
  intros _ u1 (b1 & Hs1 & ->). cbn [bus with_bus] in Hs1. rewrite Hdr in Hs1. cbn [accepted emptied] in Hs1. destruct (decide (k = 0%nat)) as [->|E].
  - apply wp_ret. exists b1. split; [done|]. cbn zeta. change (8 * 1)%nat with 8%nat. fold (upto t).
    unfold served, ended, started. destruct (decide (t = 0%nat)), (decide _); destruct u; cbn in Hi |- *; by subst.
  - assert (upto t = (t + 8)%nat) as Hu by (unfold upto; lia).
    assert (forall u0, served t u0 = sent_until (t + 8) (started t u0)) as Hsv by (intros u0; unfold served, ended; rewrite Hu; by rewrite decide_False by lia). rewrite Hsv. clear Hsv.
    eapply wp_mono; [apply (IH _ (t + 8)%nat); try lia|].
    + done.
    + unfold started. by destruct (decide _).
    + unfold started. by destruct (decide _).
    + unfold started. destruct (decide _); apply lookup_insert_eq.
    + unfold started. by destruct (decide _).
    + unfold started. by destruct (decide _).
    + cbn beta zeta. intros _ u2 (b2 & Hs2 & ->). exists b2. split.
      * cbn [bus with_in_irq with_bus] in Hs2. rewrite Hs2, Hs1, <- app_assoc. f_equal. rewrite <- drop_drop.
        replace (8 * S k)%nat with (8 + 8 * k)%nat by lia. apply take_take_drop.
      * replace (t + 8 + Nat.min (8 * k) (n - (t + 8)))%nat with (t + Nat.min (8 * S k) (n - t))%nat by lia. set (m := (t + _)%nat).
        unfold ended, started. rewrite (decide_False (P := (t + 8)%nat = 0%nat)) by lia.
        unfold sent_until. destruct (decide (t = 0%nat)), (decide (m = n)); destruct u; cbn in Hi |- *; subst; unfold with_buffers; cbn; by rewrite insert_insert_eq.
Qed.

(** C25: a buffer that is handed to an idle driver is sent octet by octet, in
    its order: after each interrupt of a transmitter that has run empty, eight
    more octets have been accepted, or the rest.  The client is told once that
    it starts, and once that it has been read, which is with the last octet and
    not before; then the driver does not hold the buffer any more.  The FIFO
    does not run empty while the handler runs. *)
Theorem started_buffer_is_sent u fuel k :
  (0 < n)%nat -> in_irq u = 0 -> cb u = Some c -> tx_buffer u = None -> buffers u !! a = Some b ->
  has (notify_mask u) RTUART_NOTIFY_TRANSMITTER_EMPTY = false -> (0 < k <= (n + 7) / 8)%nat ->
  let m := Nat.min (8 * k) n in
  wp (pc16c550_tx_start bops (Some a) ;; interrupts (2 + fuel) k)
    (fun _ u' => sent (bus u') = sent (bus u) ++ take m d /\ buffers u' = <[a := with_transfered (Z.of_nat m) b]> (buffers u) /\
       client u' = (if decide (m = n) then note_end (Some a) else id) (note_start (Some a) (client u)) /\
       tx_buffer u' = (if decide (m = n) then None else Some a) /\
       has (notify_mask u') RTUART_NOTIFY_TRANSMITTER_READY = negb (bool_decide (m = n))) u.
Proof.
  intros Hpos Hi Hcb Htx Hb He Hk. assert (8 * k < n + 8)%nat as Hk2.
  { pose proof (Nat.div_mod_eq (n + 7) 8). lia. }
  unfold pc16c550_tx_start. apply wp_bind, wp_bind, (wp_update_buffer _ _ _ _ _ Hb), wp_bind, wp_gets.
  change (tx_buffer (with_buffers _ _)) with (tx_buffer u). rewrite Htx, bool_decide_false by (by intros []). apply wp_bind, wp_ret, wp_bind, wp_gets.
  change (tx_buffer (with_buffers _ _)) with (tx_buffer u). rewrite Htx, bool_decide_true by done. apply wp_bind, wp_modify.
  set (u1 := with_tx (Some a) (with_buffers (<[a := with_transfered 0 b]> (buffers u)) u)).
  apply (wp_mono _ (fun _ u2 => exists b2 : B, sent b2 = sent (bus u) /\
    u2 = with_bus b2 (with_notify (Z.lor (notify_mask u) RTUART_NOTIFY_TRANSMITTER_READY) u1))).
  - unfold pc16c550_set_notify, change_notify. apply wp_bind, wp_gets, wp_when; intros Hm.
    + apply wp_bind, wp_modify, wp_bind, wp_gets. cbn [in_irq with_notify u1 with_tx with_buffers]. rewrite Hi. cbn [Z.eqb when].
      unfold pc16c550_update_notification. apply wp_bind, wp_gets. destruct (tx_ier _ laws (ier_of (Z.lor (notify_mask u) RTUART_NOTIFY_TRANSMITTER_READY)) (bus u)) as (r & b2 & q & Hw & Hs2).
      eapply wp_put_reg; [exact Hw|]. exists b2. by rewrite Hs2.
    + exists (bus u). split; [done|]. apply negb_false_iff, Z.eqb_eq in Hm. change (notify_mask u1) with (notify_mask u) in Hm. rewrite <- Hm. by destruct u.
  - intros _ ? (b2 & Hs2 & ->). assert (has (Z.lor (notify_mask u) RTUART_NOTIFY_TRANSMITTER_READY) RTUART_NOTIFY_TRANSMITTER_READY = true) as Hready.
    { unfold has. rewrite negb_true_iff. apply Z.eqb_neq. intros H. apply (f_equal (fun z => Z.testbit z 0)) in H.
      rewrite Z.land_spec, Z.lor_spec in H. by rewrite orb_true_r in H. }
    eapply wp_mono; [apply (interrupts_send fuel k _ 0); try done; try lia|].
    + apply lookup_insert_eq.
    + cbn. by apply has_lor.
    + cbn beta. intros _ u3 (b3 & Hs3 & ->). rewrite Nat.sub_0_r, Nat.add_0_l. cbn zeta. cbn [bus with_bus] in Hs3. rewrite drop_0, take_take in Hs3.
      unfold ended, started. rewrite (decide_True (P := 0%nat = 0%nat)) by done. split; [by rewrite <- Hs2, <- Hs3|].
      destruct (decide _) as [E|E]; cbn; rewrite ?insert_insert_eq; split; try done; split; try done; split; try done; [|by rewrite bool_decide_false].
      rewrite bool_decide_true by done. unfold has. rewrite negb_false_iff. apply Z.eqb_eq, Z.bits_inj'. intros j Hj. rewrite Z.land_spec, Z.ldiff_spec, Z.bits_0.
      destruct (Z.testbit (Z.lor _ _) j) eqn:E1; [|done]. by destruct (Z.testbit RTUART_NOTIFY_TRANSMITTER_READY j).
Qed.
End transmission.

(** A driver that is sending does not take another buffer, and does not say so:
    [pc16c550_tx_start] stops the buffer that it is to start instead of the
    one that is being sent. *)
Theorem second_buffer_is_dropped {B C} (bops : rtuart_bus_ops B) (u : rtuart B pc16c550 C) a1 a2 b :
  tx_buffer u = Some a1 -> a1 <> a2 -> buffers u !! a2 = Some b ->
  wp (pc16c550_tx_start bops (Some a2)) (fun _ u' => u' = with_buffers (<[a2 := with_transfered 0 b]> (buffers u)) u) u.
Proof.
  intros Ht Hne Hb. unfold pc16c550_tx_start. apply wp_bind, (wp_update_buffer _ _ _ _ _ Hb), wp_bind, wp_gets.
  apply wp_bind, wp_when; intros _; [unfold pc16c550_tx_stop; apply wp_bind, wp_bind, wp_gets; rewrite decide_False by (cbn; congruence); apply wp_ret, wp_ret|];
    apply wp_bind, wp_gets, wp_when; try done; cbn; rewrite Ht; by rewrite bool_decide_false.
Qed.

(** ** A chip that only sends *)

(** The transmitter itself, with the registers through which it is reached. *)
Definition sender_read (reg : Z) : prog transmitter Z := fun s =>
  if reg =? PC16550_REG_IIR then Done (if asks s then 2 else 1, asking false s) else Done (0x60, s).
Definition sender_write (reg v : Z) : prog transmitter unit := fun s =>
  Done (tt, if reg =? PC16550_REG_THR then take_octet v s else s).
Definition sender_chip : rtuart_bus_ops transmitter := BusOps transmitter (Some sender_read) (Some sender_write) None None None None None None.

Lemma sender_chip_laws : transmitter_laws sender_chip id.
Proof.
  split.
  - intros x s. by exists 0, (take_octet (u8 x) s).
  - intros s. exists (if asks s then 2 else 1), (asking false s). split; [done|]. split; [done|]. cbn. by destruct (asks s).
  - intros s. by exists 0x60, s.
  - intros v s. exists 0, s, (asks s). split; [done|]. by destruct s.
Qed.

(** A client that notes the start and the end of its buffers. *)
Definition noting : rtuart_callbacks (rtuart transmitter pc16c550 (list (bool * option nat))) :=
  Callbacks (Some (fun p => modify (fun u => with_client ((true, p) :: client u) u)))
    (Some (fun p => modify (fun u => with_client ((false, p) :: client u) u))) None None None None None None None.
Definition twenty_octets : list Z := Z.of_nat <$> seq 1 20.
Definition twenty : rtuart_buffer := Buffer (Some twenty_octets) 20 20 0 0 [].
Definition idle_sender : rtuart transmitter pc16c550 (list (bool * option nat)) :=
  Uart (Transmitter [] 16 0 false) 0 (Some 0%nat) 0 None None 0 (Pc16c550 1843200 0x41) {[8%nat := twenty]} [].
Definition busy_sender : rtuart transmitter pc16c550 (list (bool * option nat)) :=
  with_tx (Some 8%nat) (with_notify RTUART_NOTIFY_TRANSMITTER_READY idle_sender).

Lemma started_buffer_is_sent_witness :
  wp (pc16c550_tx_start sender_chip (Some 8%nat) ;; interrupts sender_chip (fun _ => noting) emptied 2 3)
    (fun _ u' => accepted (bus u') = twenty_octets /\ buffers u' = {[8%nat := with_transfered 20 twenty]} /\
       client u' = [(false, Some 8%nat); (true, Some 8%nat)] /\ tx_buffer u' = None /\
       has (notify_mask u') RTUART_NOTIFY_TRANSMITTER_READY = false) idle_sender.
Proof.
  apply (started_buffer_is_sent sender_chip (fun _ => noting) id sender_chip_laws 8 0 (fun p l => (true, p) :: l) (fun p l => (false, p) :: l)
    eq_refl eq_refl twenty twenty_octets 20 eq_refl eq_refl ltac:(done) ltac:(done) ltac:(done) ltac:(repeat constructor) emptied ltac:(done) idle_sender 0 3); try done; cbn; lia.
Defined.

Lemma no_octet_is_lost_witness :
  match serve_transmitter sender_chip (fun _ => noting) busy_sender with
  | Done (_, u') => lost (bus u') = 0%nat
  | Fault f => f <> OutOfFuel
  end.
Proof.
  apply (no_octet_is_lost sender_chip (fun _ => noting) id sender_chip_laws busy_sender); [done| | |].
  - by intros reg v s.
  - intros _ f p [= <-]. split; by intros s.
  - intros _ f p [= <-]. split; by intros s.
Defined.
