(* ===== verification/RtLines.v ===== *)
(** * Formats, bit rates and control lines of the second generation

    The settings of [RtPc16c550.v] that are kept in registers of the chip.  The
    chip is known through [register_laws]: the registers for the line and for
    the modem keep what is written to them.  What is set is read back, apart
    from one output that has the bit of the loop-back mode. *)
From stdpp Require Import base countable gmap list.
From S2P Require Import Prelude Bus RtUart RtPc16c550.

(** What a value of the registers says about the control lines. *)
Definition control_of (lcr mcr : Z) : Z :=
  Z.lor (Z.lor (Z.lor (Z.lor (Z.lor (if has lcr PC16550_LCR_BREAK then RTUART_CONTROL_BREAK else 0)
    (if has mcr PC16550_MCR_RTS then RTUART_CONTROL_RTS else 0)) (if has mcr PC16550_MCR_DTR then RTUART_CONTROL_DTR else 0))
    (if has mcr PC16550_MCR_OUT1 then RTUART_CONTROL_OUT1 else 0)) (if has mcr PC16550_MCR_OUT2 then RTUART_CONTROL_OUT2 else 0))
    (if has mcr PC16550_MCR_LOOP then RTUART_CONTROL_LOOP else 0).
(** The control lines that are there, with the two that share a bit. *)
Definition coupled (m : Z) : Z :=
  let both := has m RTUART_CONTROL_OUT2 || has m RTUART_CONTROL_LOOP in
  Z.lor (Z.lor (Z.lor (Z.lor (Z.lor (if has m RTUART_CONTROL_BREAK then RTUART_CONTROL_BREAK else 0)
    (if has m RTUART_CONTROL_RTS then RTUART_CONTROL_RTS else 0)) (if has m RTUART_CONTROL_DTR then RTUART_CONTROL_DTR else 0))
    (if has m RTUART_CONTROL_OUT1 then RTUART_CONTROL_OUT1 else 0)) (if both then RTUART_CONTROL_OUT2 else 0))
    (if both then RTUART_CONTROL_LOOP else 0).

Lemma has_lor_or x y k : has (Z.lor x y) k = has x k || has y k.
Proof.
  unfold has. rewrite Z.land_lor_distr_l. destruct (Z.eqb_spec (Z.land x k) 0) as [->|Hx]; [by rewrite Z.lor_0_l|].
  destruct (Z.eqb_spec (Z.lor (Z.land x k) (Z.land y k)) 0) as [E|]; [|done]. apply Z.lor_eq_0_iff in E as [? _]. done.
Qed.
Lemma has_mask_or m j k : has m (Z.lor j k) = has m j || has m k.
Proof. unfold has. rewrite !(Z.land_comm m). apply has_lor_or. Qed.
Lemma has_ldiff_and x y j : 0 <= j -> has (Z.ldiff x y) (Z.shiftl 1 j) = has x (Z.shiftl 1 j) && negb (has y (Z.shiftl 1 j)).
Proof.
  intros Hj. assert (forall z, has z (Z.shiftl 1 j) = Z.testbit z j) as Hb.
  { intros z. unfold has. rewrite Z.shiftl_1_l. destruct (Z.testbit z j) eqn:E.
    - apply negb_true_iff, Z.eqb_neq. intros H. apply (f_equal (fun w => Z.testbit w j)) in H. rewrite Z.land_spec, Z.bits_0, E, Z.pow2_bits_true in H by done. done.
    - apply negb_false_iff, Z.eqb_eq, Z.bits_inj'. intros k Hk. rewrite Z.land_spec, Z.bits_0, Z.pow2_bits_eqb by done.
      destruct (Z.eqb_spec j k) as [<-|]; [by rewrite E|by rewrite andb_false_r]. }
  by rewrite !Hb, Z.ldiff_spec.
Qed.

(** Setting lines, as far as the registers are concerned. *)
Lemma control_after_set lcr mcr m :
  control_of (if has m RTUART_CONTROL_BREAK then Z.lor lcr PC16550_LCR_BREAK else lcr)
    (if has m modem_controls then Z.lor mcr (mcr_bits m) else mcr) = Z.lor (control_of lcr mcr) (coupled m).
Proof.
  unfold control_of, coupled, modem_controls, mcr_bits. rewrite !has_mask_or. unfold PC16550_MCR_LOOP, PC16550_MCR_OUT2.
  destruct (has m RTUART_CONTROL_BREAK), (has m RTUART_CONTROL_RTS), (has m RTUART_CONTROL_DTR), (has m RTUART_CONTROL_OUT1),
    (has m RTUART_CONTROL_OUT2), (has m RTUART_CONTROL_LOOP); cbn [orb]; rewrite ?has_lor_or;
    destruct (has lcr PC16550_LCR_BREAK), (has mcr PC16550_MCR_RTS), (has mcr PC16550_MCR_DTR), (has mcr PC16550_MCR_OUT1), (has mcr (Z.shiftl 1 3));
    vm_compute; reflexivity.
Qed.

(** What [pc16c550_set_format] and [pc16c550_get_format] do with an octet. *)
Definition format_written (lcr databits parity stopbits : Z) : Z :=
  Z.lor (Z.lor (Z.lor (Z.ldiff lcr format_mask) (bits2code databits)) (if 1 <? stopbits then PC16550_LCR_STB else 0)) (parity_bits parity).
Definition format_of (lcr : Z) : Z * Z * Z :=
  let p := Z.land lcr parity_mask in
  (Z.land lcr 3 + 5,
   (if p =? parity_mask then char_0 else if p =? Z.lor PC16550_LCR_STICK_PARITY PC16550_LCR_PEN then char_1
    else if p =? Z.lor PC16550_LCR_PEN PC16550_LCR_EPS then char_e else if p =? PC16550_LCR_PEN then char_o else char_n),
   (if has lcr PC16550_LCR_STB then 2 else 1)).
Definition parities : list Z := [char_n; char_e; char_o; char_1; char_0].
Definition triple_eqb (x y : Z * Z * Z) : bool := (x.1.1 =? y.1.1) && (x.1.2 =? y.1.2) && (x.2 =? y.2).
Definition format_kept (lcr : Z) : bool :=
  forallb (fun d => forallb (fun p => forallb (fun s =>
    triple_eqb (format_of (format_written lcr d p s)) (d, p, s) && (u8 (format_written lcr d p s) =? format_written lcr d p s))
    [1; 2]) parities) [5; 6; 7; 8].
Lemma all_formats_kept : forallb format_kept (Z.of_nat <$> seq 0 256) = true.
Proof. vm_compute. reflexivity. Qed.
Lemma format_is_kept lcr d p s :
  u8 lcr = lcr -> 5 <= d <= 8 -> p ∈ parities -> s = 1 \/ s = 2 ->
  format_of (format_written lcr d p s) = (d, p, s) /\ u8 (format_written lcr d p s) = format_written lcr d p s.
Proof.
  intros Hl Hd Hp Hs. pose proof all_formats_kept as H. rewrite forallb_forall in H.
  ospecialize (H lcr _).
  { apply list_elem_of_In, list_elem_of_fmap. exists (Z.to_nat lcr). unfold u8 in Hl. pose proof (Z.mod_pos_bound lcr (2 ^ 8)). split; [lia|]. apply elem_of_seq. lia. }
  unfold format_kept in H. rewrite forallb_forall in H. ospecialize (H d _); [cbn; lia|].
  rewrite forallb_forall in H. ospecialize (H p _); [by apply list_elem_of_In|].
  rewrite forallb_forall in H. ospecialize (H s _); [cbn; lia|].
  apply andb_true_iff in H as [H1 H2]. apply Z.eqb_eq in H2. split; [|done]. unfold triple_eqb in H1.
  apply andb_true_iff in H1 as [H1 E3]. apply andb_true_iff in H1 as [E1 E2]. rewrite Z.eqb_eq in *.
  destruct (format_of _) as [[x y] z]. cbn in *. by subst.
Qed.

Section lines.
Context {B C : Type} (bops : rtuart_bus_ops B).
Abbreviation W := (rtuart B pc16c550 C).
Implicit Types u : W.

(** The line control, the modem control and the divisor latches, which are
    behind the first two registers. *)
Record register_laws (line modem latch : B -> Z) : Prop := {
  line_octet (b : B) : u8 (line b) = line b;
  modem_octet (b : B) : u8 (modem b) = modem b;
  read_line (b : B) : exists b' : B, rtuart_bus_read_u8 bops PC16550_REG_LCR b = Done (Some (line b), b') /\
    line b' = line b /\ modem b' = modem b /\ latch b' = latch b;
  read_modem (b : B) : exists b' : B, rtuart_bus_read_u8 bops PC16550_REG_MCR b = Done (Some (modem b), b') /\
    line b' = line b /\ modem b' = modem b /\ latch b' = latch b;
  write_line v (b : B) : exists r (b' : B), rtuart_bus_write_u8 bops PC16550_REG_LCR v b = Done (r, b') /\
    line b' = u8 v /\ modem b' = modem b /\ latch b' = latch b;
  write_modem v (b : B) : exists r (b' : B), rtuart_bus_write_u8 bops PC16550_REG_MCR v b = Done (r, b') /\
    line b' = line b /\ modem b' = u8 v /\ latch b' = latch b;
  write_low v (b : B) : has (line b) PC16550_LCR_DLAB = true -> exists r (b' : B), rtuart_bus_write_u8 bops PC16550_REG_DLL v b = Done (r, b') /\
    line b' = line b /\ latch b' = Z.shiftl (Z.shiftr (latch b) 8) 8 + u8 v;
  write_high v (b : B) : has (line b) PC16550_LCR_DLAB = true -> exists r (b' : B), rtuart_bus_write_u8 bops PC16550_REG_DLM v b = Done (r, b') /\
    line b' = line b /\ latch b' = Z.shiftl (u8 v) 8 + u8 (latch b);
  read_low (b : B) : has (line b) PC16550_LCR_DLAB = true -> exists b' : B, rtuart_bus_read_u8 bops PC16550_REG_DLL b = Done (Some (u8 (latch b)), b') /\
    line b' = line b /\ latch b' = latch b;
  read_high (b : B) : has (line b) PC16550_LCR_DLAB = true -> exists b' : B, rtuart_bus_read_u8 bops PC16550_REG_DLM b = Done (Some (Z.shiftr (latch b) 8), b') /\
    line b' = line b /\ latch b' = latch b }.
Context (line modem latch : B -> Z) (laws : register_laws line modem latch).

Lemma wp_change_line u f (Q : unit -> W -> Prop) :
  u8 (f (line (bus u))) = f (line (bus u)) ->
  (forall b', line b' = f (line (bus u)) -> modem b' = modem (bus u) -> Q tt (with_bus b' u)) ->
  wp (change_reg bops PC16550_REG_LCR f) Q u.
Proof.
  intros Hf HQ. unfold change_reg. destruct (read_line _ _ _ laws (bus u)) as (b1 & Hr & Hl & Hm & _).
  apply wp_bind. eapply wp_read_u8; [exact Hr|]. rewrite (line_octet _ _ _ laws). apply wp_when; intros Hc.
  - destruct (write_line _ _ _ laws (f (line (bus u))) b1) as (r & b2 & Hw & Hl2 & Hm2 & _).
    eapply wp_put_reg; [exact Hw|]. cbn. apply HQ; [by rewrite Hl2|by rewrite Hm2].
  - apply negb_false_iff, Z.eqb_eq in Hc. apply HQ; [by rewrite Hl, Hc|done].
Qed.
Lemma wp_change_modem u f (Q : unit -> W -> Prop) :
  u8 (f (modem (bus u))) = f (modem (bus u)) ->
  (forall b', line b' = line (bus u) -> modem b' = f (modem (bus u)) -> Q tt (with_bus b' u)) ->
  wp (change_reg bops PC16550_REG_MCR f) Q u.
Proof.
  intros Hf HQ. unfold change_reg. destruct (read_modem _ _ _ laws (bus u)) as (b1 & Hr & Hl & Hm & _).
  apply wp_bind. eapply wp_read_u8; [exact Hr|]. rewrite (modem_octet _ _ _ laws). apply wp_when; intros Hc.
  - destruct (write_modem _ _ _ laws (f (modem (bus u))) b1) as (r & b2 & Hw & Hl2 & Hm2 & _).
    eapply wp_put_reg; [exact Hw|]. cbn. apply HQ; [by rewrite Hl2|by rewrite Hm2].
  - apply negb_false_iff, Z.eqb_eq in Hc. apply HQ; [done|by rewrite Hm, Hc].
Qed.
Lemma wp_get_control u (Q : Z -> W -> Prop) :
  (forall b', line b' = line (bus u) -> modem b' = modem (bus u) -> Q (control_of (line (bus u)) (modem (bus u))) (with_bus b' u)) ->
  wp (pc16c550_get_control bops) Q u.
Proof.
  intros HQ. unfold pc16c550_get_control. destruct (read_line _ _ _ laws (bus u)) as (b1 & Hr & Hl & Hm & _).
  apply wp_bind. eapply wp_read_u8; [exact Hr|]. destruct (read_modem _ _ _ laws b1) as (b2 & Hr2 & Hl2 & Hm2 & _).
  apply wp_bind. eapply wp_read_u8; [exact Hr2|]. apply wp_ret. rewrite (line_octet _ _ _ laws), (modem_octet _ _ _ laws), Hm.
  apply (HQ b2); by rewrite ?Hl2, ?Hm2.
Qed.
Lemma mcr_bits_octet m : u8 (mcr_bits m) = mcr_bits m.
Proof.
  unfold mcr_bits. destruct (has m _), (has m _), (has m _), (has m _), (has m _); reflexivity.
Qed.

(** The control lines that are set are read back together with those that
    were set before; the second output and the loop-back mode have the same bit,
    so setting one of them is read back as both. *)
Theorem control_lines_read_back u m :
  wp (pc16c550_set_control bops m ;; pc16c550_get_control bops)
    (fun r _ => r = Z.lor (control_of (line (bus u)) (modem (bus u))) (coupled m)) u.
Proof.
  apply wp_bind. unfold pc16c550_set_control. apply wp_bind.
  apply (wp_mono _ (fun _ u' => line (bus u') = (if has m RTUART_CONTROL_BREAK then Z.lor (line (bus u)) PC16550_LCR_BREAK else line (bus u)) /\
    modem (bus u') = modem (bus u))).
  - destruct (has m RTUART_CONTROL_BREAK); [|done]. apply wp_change_line; [|done]. by apply octet_lor; [apply (line_octet _ _ _ laws)|].
  - intros _ u1 [Hl1 Hm1].
    apply (wp_mono _ (fun _ u' => line (bus u') = line (bus u1) /\
      modem (bus u') = (if has m modem_controls then Z.lor (modem (bus u)) (mcr_bits m) else modem (bus u)))).
    + rewrite <- Hm1. destruct (has m modem_controls); [|done]. apply wp_change_modem; [|done].
      apply octet_lor; [apply (modem_octet _ _ _ laws)|apply mcr_bits_octet].
    + intros _ u2 [Hl2 Hm2]. apply wp_get_control. intros _ _ _. rewrite Hl2, Hm2, Hl1. apply control_after_set.
Qed.

(** A format of the line that is set is read back, whatever was in the
    register; break and latch stay as they are. *)
Theorem format_read_back u d p s :
  5 <= d <= 8 -> p ∈ parities -> s = 1 \/ s = 2 ->
  wp (pc16c550_set_format bops d p s ;; pc16c550_get_format bops)
    (fun r u' => r = Some (d, p, s) /\ Z.land (line (bus u')) 0xC0 = Z.land (line (bus u)) 0xC0) u.
Proof.
  intros Hd Hp Hs. destruct (format_is_kept (line (bus u)) d p s (line_octet _ _ _ laws _) Hd Hp Hs) as [Hf Ho].
  apply wp_bind. unfold pc16c550_set_format. destruct (read_line _ _ _ laws (bus u)) as (b1 & Hr & Hl & _).
  apply wp_bind. eapply wp_read_u8; [exact Hr|]. apply wp_bind, wp_ret. rewrite (line_octet _ _ _ laws).
  destruct (write_line _ _ _ laws (format_written (line (bus u)) d p s) b1) as (r & b2 & Hw & Hl2 & _).
  eapply wp_put_reg; [exact Hw|]. unfold pc16c550_get_format. destruct (read_line _ _ _ laws b2) as (b3 & Hr3 & Hl3 & _).
  apply wp_bind. eapply wp_read_u8; [exact Hr3|]. apply wp_ret. rewrite (line_octet _ _ _ laws), Hl2, Ho. split; [by rewrite <- Hf|].
  cbn. rewrite Hl3, Hl2, Ho. unfold format_written. rewrite !Z.land_lor_distr_l.
  assert (Z.land (bits2code d) 0xC0 = 0) as -> by (unfold bits2code; pose proof (Z.land_nonneg (d - 5) 3); destruct (Z.to_nat (Z.land (d - 5) 3)) as [|[|[|[|[|?]]]]]; reflexivity).
  assert (Z.land (parity_bits p) 0xC0 = 0) as -> by (unfold parity_bits; repeat destruct (_ =? _); reflexivity).
  assert (Z.land (if 1 <? s then PC16550_LCR_STB else 0) 0xC0 = 0) as -> by (by destruct (1 <? s)).
  rewrite !Z.lor_0_r. apply Z.bits_inj'. intros n Hn. rewrite !Z.land_spec, Z.ldiff_spec. destruct (Z.testbit 0xC0 n) eqn:E; [|by rewrite !andb_false_r].
  assert (Z.testbit format_mask n = false) as ->; [|by rewrite !andb_true_r].
  destruct (Z.testbit format_mask n) eqn:E2; [|done]. assert (Z.testbit (Z.land format_mask 0xC0) n = true) as H by (by rewrite Z.land_spec, E, E2).
  by rewrite (eq_refl : Z.land format_mask 0xC0 = 0), Z.bits_0 in H.
Qed.

Lemma has_dlab l : has (u8 (Z.lor l PC16550_LCR_DLAB)) PC16550_LCR_DLAB = true.
Proof.
  unfold has. apply negb_true_iff, Z.eqb_neq. intros H. apply (f_equal (fun z => Z.testbit z 7)) in H.
  rewrite Z.land_spec, u8_land, Z.land_spec, Z.lor_spec, orb_true_r in H. done.
Qed.

(** The two octets of the divisor. *)
Lemma set_baudrate_effect u baudrate :
  baudrate <> 0 -> let divisor := base_clock (ext u) / 16 / baudrate in 0 <= divisor < 65536 ->
  wp (pc16c550_set_baudrate bops baudrate)
    (fun _ u' => exists b' : B, line b' = line (bus u) /\ latch b' = divisor /\ u' = with_bus b' u) u.
Proof.
  intros Hb divisor Hd. unfold pc16c550_set_baudrate. apply wp_bind, wp_gets. rewrite (proj2 (Z.eqb_neq _ _)) by done. fold divisor. rewrite Z.mod_small by lia.
  destruct (read_line _ _ _ laws (bus u)) as (b1 & Hr & Hl1 & _ & _). apply wp_bind. eapply wp_read_u8; [exact Hr|]. apply wp_bind, wp_ret.
  rewrite (line_octet _ _ _ laws). destruct (write_line _ _ _ laws (Z.lor (line (bus u)) PC16550_LCR_DLAB) b1) as (r2 & b2 & Hw2 & Hl2 & _ & _).
  apply wp_bind. eapply wp_put_reg; [exact Hw2|]. destruct (write_low _ _ _ laws (u8 divisor) b2) as (r3 & b3 & Hw3 & Hl3 & Hd3); [by rewrite Hl2, has_dlab|].
  apply wp_bind. eapply wp_put_reg; [exact Hw3|]. destruct (write_high _ _ _ laws (u8 (Z.shiftr divisor 8)) b3) as (r4 & b4 & Hw4 & Hl4 & Hd4); [by rewrite Hl3, Hl2, has_dlab|].
  apply wp_bind. eapply wp_put_reg; [exact Hw4|]. destruct (write_line _ _ _ laws (line (bus u)) b4) as (r5 & b5 & Hw5 & Hl5 & _ & Hd5).
  eapply wp_put_reg; [exact Hw5|]. exists b5. split; [by rewrite Hl5, (line_octet _ _ _ laws)|]. split; [|by destruct u].
  rewrite Hd5, Hd4, Hd3, !Z.shiftl_mul_pow2, !Z.shiftr_div_pow2 by lia. unfold u8. generalize (latch b2 / 2 ^ 8). intros q. generalize divisor Hd. clear. intros d Hd.
  rewrite (Z.mod_small (d / 2 ^ 8) (2 ^ 8)), (Z.mod_small (d / 2 ^ 8) (2 ^ 8)) by (Z.div_mod_to_equations; lia). Z.div_mod_to_equations. lia.
Qed.
Lemma get_baudrate_effect u :
  0 <= latch (bus u) < 65536 -> latch (bus u) <> 0 ->
  wp (pc16c550_get_baudrate bops)
    (fun r u' => r = base_clock (ext u) / 16 / latch (bus u) /\ exists b' : B, line b' = line (bus u) /\ latch b' = latch (bus u) /\ u' = with_bus b' u) u.
Proof.
  intros Hd Hz. unfold pc16c550_get_baudrate. apply wp_bind, wp_gets.
  destruct (read_line _ _ _ laws (bus u)) as (b1 & Hr & Hl1 & _ & Hd1). apply wp_bind. eapply wp_read_u8; [exact Hr|]. apply wp_bind, wp_ret.
  rewrite (line_octet _ _ _ laws). destruct (write_line _ _ _ laws (Z.lor (line (bus u)) PC16550_LCR_DLAB) b1) as (r2 & b2 & Hw2 & Hl2 & _ & Hd2).
  apply wp_bind. eapply wp_put_reg; [exact Hw2|]. destruct (read_low _ _ _ laws b2) as (b3 & Hr3 & Hl3 & Hd3); [by rewrite Hl2, has_dlab|].
  apply wp_bind. eapply wp_read_u8; [exact Hr3|]. destruct (read_high _ _ _ laws b3) as (b4 & Hr4 & Hl4 & Hd4); [by rewrite Hl3, Hl2, has_dlab|].
  apply wp_bind. eapply wp_read_u8; [exact Hr4|]. destruct (write_line _ _ _ laws (line (bus u)) b4) as (r5 & b5 & Hw5 & Hl5 & _ & Hd5).
  apply wp_bind. eapply wp_put_reg; [exact Hw5|]. apply wp_bind, wp_ret, wp_bind, wp_ret. rewrite Hd2, Hd1, Hd3, Hd2, Hd1.
  assert (Z.shiftl (u8 (Z.shiftr (latch (bus u)) 8)) 8 + u8 (u8 (latch (bus u))) = latch (bus u)) as ->.
  { rewrite Z.shiftl_mul_pow2, Z.shiftr_div_pow2 by lia. unfold u8. generalize (latch (bus u)) Hd. clear. intros d Hd.
    rewrite Z.mod_mod, (Z.mod_small (d / 2 ^ 8)) by (Z.div_mod_to_equations; lia). Z.div_mod_to_equations. lia. }
  rewrite (proj2 (Z.eqb_neq _ _)) by done. apply wp_ret. split; [done|]. exists b5. split; [by rewrite Hl5, (line_octet _ _ _ laws)|].
  split; [by rewrite Hd5, Hd4, Hd3, Hd2, Hd1|]. by destruct u.
Qed.

(** A bit rate that is set is read back up to the rounding of the divisor. *)
Theorem bit_rate_read_back u baudrate :
  baudrate <> 0 -> let divisor := base_clock (ext u) / 16 / baudrate in 0 < divisor < 65536 ->
  wp (pc16c550_set_baudrate bops baudrate ;; pc16c550_get_baudrate bops)
    (fun r u' => r = base_clock (ext u) / 16 / divisor /\ line (bus u') = line (bus u)) u.
Proof.
  intros Hb divisor Hd. apply wp_bind. eapply wp_mono; [apply set_baudrate_effect; [done|fold divisor; lia]|]. cbn beta. fold divisor.
  intros _ u1 (b1 & Hl1 & Hd1 & ->). eapply wp_mono; [apply get_baudrate_effect; cbn; rewrite Hd1; lia|]. cbn.
  intros r u2 (-> & b2 & Hl2 & _ & ->). cbn. by rewrite Hd1, Hl2, Hl1.
Qed.
End lines.

(** ** A chip with these registers *)

Record line_chip := LineChip { lc_line : Z; lc_modem : Z; lc_latch : Z }.
Definition line_read (reg : Z) : prog line_chip Z := fun b =>
  Done (if reg =? PC16550_REG_LCR then u8 (lc_line b) else if reg =? PC16550_REG_MCR then u8 (lc_modem b)
        else if reg =? PC16550_REG_DLL then u8 (lc_latch b) else Z.shiftr (lc_latch b) 8, b).
Definition line_write (reg v : Z) : prog line_chip unit := fun b =>
  Done (tt, if reg =? PC16550_REG_LCR then LineChip v (lc_modem b) (lc_latch b)
            else if reg =? PC16550_REG_MCR then LineChip (lc_line b) v (lc_latch b)
            else if reg =? PC16550_REG_DLL then LineChip (lc_line b) (lc_modem b) (Z.shiftl (Z.shiftr (lc_latch b) 8) 8 + v)
            else LineChip (lc_line b) (lc_modem b) (Z.shiftl v 8 + u8 (lc_latch b))).
Definition line_chip_ops : rtuart_bus_ops line_chip := BusOps line_chip (Some line_read) (Some line_write) None None None None None None.

Lemma line_chip_laws : register_laws line_chip_ops (fun b => u8 (lc_line b)) (fun b => u8 (lc_modem b)) lc_latch.
Proof.
  assert (forall x, u8 (u8 x) = u8 x) as Hu by (intros x; unfold u8; by rewrite Z.mod_mod).
  split; intros; try apply Hu.
  - by exists b.
  - by exists b.
  - eexists 0, _. split; [reflexivity|]. cbn. by rewrite Hu.
  - eexists 0, _. split; [reflexivity|]. cbn. by rewrite Hu.
  - eexists 0, _. by split; [reflexivity|].
  - eexists 0, _. by split; [reflexivity|].
  - by exists b.
  - by exists b.
Qed.
Definition fresh : rtuart line_chip pc16c550 unit := Uart (LineChip 0x40 1 12) 0 None 0 None None 0 (Pc16c550 1843200 0x41) ∅ tt.

Lemma control_lines_read_back_witness :
  wp (pc16c550_set_control line_chip_ops (Z.lor RTUART_CONTROL_RTS RTUART_CONTROL_LOOP) ;; pc16c550_get_control line_chip_ops)
    (fun r _ => r = Z.lor (control_of 0x40 1) (coupled (Z.lor RTUART_CONTROL_RTS RTUART_CONTROL_LOOP))) fresh.
Proof. apply (control_lines_read_back line_chip_ops _ _ _ line_chip_laws fresh). Defined.
Lemma format_read_back_witness :
  wp (pc16c550_set_format line_chip_ops 8 char_n 2 ;; pc16c550_get_format line_chip_ops)
    (fun r u' => r = Some (8, char_n, 2) /\ Z.land (u8 (lc_line (bus u'))) 0xC0 = Z.land 0x40 0xC0) fresh.
Proof. apply (format_read_back line_chip_ops _ _ _ line_chip_laws fresh); [lia|by left|by right]. Defined.
Lemma bit_rate_read_back_witness :
  wp (pc16c550_set_baudrate line_chip_ops 9600 ;; pc16c550_get_baudrate line_chip_ops)
    (fun r u' => r = 9600 /\ u8 (lc_line (bus u')) = 0x40) fresh.
Proof. apply (bit_rate_read_back line_chip_ops _ _ _ line_chip_laws fresh 9600); [lia|]. vm_compute. by split. Defined.
