(* ===== verification/RtPl011.v ===== *)
(** * The driver of the PL011, second generation

    [src/uio-testbench/rtuart/rtuart_pl011.c]: the operations of [rtuart_ops]
    for the PL011 and its interrupt handler, which runs as a tasklet.  The
    tasklet is the flag [scheduled]: scheduling it twice is scheduling it
    once ([Tasklets.v]).  Registers are [unsigned long]; a variable that a
    failed access leaves unset is [None].  The loops that wait for the chip
    have fuel. *)
From stdpp Require Import base countable gmap list.
From S2P Require Import Prelude Bus RtUart.

Definition PL011_REG_DR : Z := 0 / 4.
Definition PL011_REG_FR : Z := 0x18 / 4.
Definition PL011_REG_IBRD : Z := 0x24 / 4.
Definition PL011_REG_FBRD : Z := 0x28 / 4.
Definition PL011_REG_LCRH : Z := 0x2C / 4.
Definition PL011_REG_CR : Z := 0x30 / 4.
Definition PL011_REG_IFLS : Z := 0x34 / 4.
Definition PL011_REG_IMSC : Z := 0x38 / 4.
Definition PL011_REG_MIS : Z := 0x40 / 4.
Definition PL011_REG_ICR : Z := 0x44 / 4.
Definition PL011_LCRH_WLEN_SHIFT : Z := 5.
Definition PL011_LCRH_WLEN_MASK : Z := Z.shiftl 3 PL011_LCRH_WLEN_SHIFT.
Definition PL011_LCRH_FEN : Z := Z.shiftl 1 4.
Definition PL011_LCRH_STP2 : Z := Z.shiftl 1 3.
Definition PL011_LCRH_EPS : Z := Z.shiftl 1 2.
Definition PL011_LCRH_PEN : Z := Z.shiftl 1 1.
Definition PL011_LCRH_BRK : Z := Z.shiftl 1 0.
Definition PL011_DR_OE : Z := Z.shiftl 1 11.
Definition PL011_DR_BE : Z := Z.shiftl 1 10.
Definition PL011_DR_PE : Z := Z.shiftl 1 9.
Definition PL011_DR_FE : Z := Z.shiftl 1 8.
Definition PL011_RSRECR_OE : Z := Z.shiftl 1 3.
Definition PL011_RSRECR_BE : Z := Z.shiftl 1 2.
Definition PL011_RSRECR_PE : Z := Z.shiftl 1 1.
Definition PL011_RSRECR_FE : Z := Z.shiftl 1 0.
Definition PL011_CR_CTSEN : Z := Z.shiftl 1 15.
Definition PL011_CR_RTSEN : Z := Z.shiftl 1 14.
Definition PL011_CR_OUT2 : Z := Z.shiftl 1 13.
Definition PL011_CR_OUT1 : Z := Z.shiftl 1 12.
Definition PL011_CR_RTS : Z := Z.shiftl 1 11.
Definition PL011_CR_DTR : Z := Z.shiftl 1 10.
Definition PL011_CR_RXE : Z := Z.shiftl 1 9.
Definition PL011_CR_TXE : Z := Z.shiftl 1 8.
Definition PL011_CR_LBE : Z := Z.shiftl 1 7.
Definition PL011_CR_UARTEN : Z := Z.shiftl 1 0.
Definition PL011_IFLS_RXIFLSEL_MASK : Z := Z.shiftl 3 3.
Definition PL011_IFLS_RXIFLSEL_2BYTE : Z := Z.shiftl 0 3.
Definition PL011_IFLS_RXIFLSEL_4BYTE : Z := Z.shiftl 1 3.
Definition PL011_IFLS_RXIFLSEL_8BYTE : Z := Z.shiftl 2 3.
Definition PL011_IFLS_RXIFLSEL_12BYTE : Z := Z.shiftl 3 3.
Definition PL011_IFLS_RXIFLSEL_14BYTE : Z := Z.shiftl 4 3.
Definition PL011_IFLS_TXIFLSEL_MASK : Z := Z.shiftl 3 0.
Definition PL011_IFLS_TXIFLSEL_2BYTE : Z := Z.shiftl 0 0.
Definition PL011_IFLS_TXIFLSEL_4BYTE : Z := Z.shiftl 1 0.
Definition PL011_IFLS_TXIFLSEL_8BYTE : Z := Z.shiftl 2 0.
Definition PL011_IFLS_TXIFLSEL_12BYTE : Z := Z.shiftl 3 0.
Definition PL011_IFLS_TXIFLSEL_14BYTE : Z := Z.shiftl 4 0.
Definition PL011_MIS_OE : Z := Z.shiftl 1 10.
Definition PL011_MIS_BE : Z := Z.shiftl 1 9.
Definition PL011_MIS_PE : Z := Z.shiftl 1 8.
Definition PL011_MIS_FE : Z := Z.shiftl 1 7.
Definition PL011_MIS_RT : Z := Z.shiftl 1 6.
Definition PL011_MIS_TX : Z := Z.shiftl 1 5.
Definition PL011_MIS_RX : Z := Z.shiftl 1 4.
Definition PL011_MIS_DSR : Z := Z.shiftl 1 3.
Definition PL011_MIS_DCD : Z := Z.shiftl 1 2.
Definition PL011_MIS_CTS : Z := Z.shiftl 1 1.
Definition PL011_MIS_RI : Z := Z.shiftl 1 0.
Definition PL011_FR_RI : Z := Z.shiftl 1 8.
Definition PL011_FR_TXFE : Z := Z.shiftl 1 7.
Definition PL011_FR_RXFF : Z := Z.shiftl 1 6.
Definition PL011_FR_TXFF : Z := Z.shiftl 1 5.
Definition PL011_FR_RXFE : Z := Z.shiftl 1 4.
Definition PL011_FR_BUSY : Z := Z.shiftl 1 3.
Definition PL011_FR_DCD : Z := Z.shiftl 1 2.
Definition PL011_FR_DSR : Z := Z.shiftl 1 1.
Definition PL011_FR_CTS : Z := Z.shiftl 1 0.
Definition ERRORS_INT_MASK : Z := Z.lor (Z.lor (Z.lor PL011_MIS_OE PL011_MIS_BE) PL011_MIS_PE) PL011_MIS_FE.

(** What [struct rtuart_pl011] adds to the fields of [rtuart]. *)
Record pl011 := Pl011 {
  base_clock : Z;              (* u32 *)
  do_tx_polling : bool;
  scheduled : bool }.          (* irq_tasklet *)

Definition flag (x m v : Z) : Z := if has x m then v else 0.
Definition pl011_fr_to_event (fr : Z) : Z :=
  Z.lor (Z.lor (Z.lor (flag fr PL011_FR_CTS RTUART_EVENT_CTS_CHANGE) (flag fr PL011_FR_DSR RTUART_EVENT_DSR_CHANGE))
    (flag fr PL011_FR_RI RTUART_EVENT_RI_CHANGE)) (flag fr PL011_FR_DCD RTUART_EVENT_DCD_CHANGE).
Definition pl011_is_to_event (i : Z) : Z :=
  Z.lor (Z.lor (Z.lor (Z.lor (Z.lor (Z.lor (Z.lor (flag i PL011_MIS_CTS RTUART_EVENT_CTS_CHANGE) (flag i PL011_MIS_DSR RTUART_EVENT_DSR_CHANGE))
    (flag i PL011_MIS_RI RTUART_EVENT_RI_CHANGE)) (flag i PL011_MIS_DCD RTUART_EVENT_DCD_CHANGE))
    (flag i PL011_MIS_OE RTUART_EVENT_OVERRUN_ERROR)) (flag i PL011_MIS_PE RTUART_EVENT_PARITY_ERROR))
    (flag i PL011_MIS_FE RTUART_EVENT_FRAME_ERROR)) (flag i PL011_MIS_BE RTUART_EVENT_BREAK).
(** The arguments of these two are octets. *)
Definition pl011_rsrecr_to_event (rsrecr : Z) : Z :=
  let x := u8 rsrecr in
  Z.lor (Z.lor (Z.lor (flag x PL011_RSRECR_OE RTUART_EVENT_OVERRUN_ERROR) (flag x PL011_RSRECR_PE RTUART_EVENT_PARITY_ERROR))
    (flag x PL011_RSRECR_FE RTUART_EVENT_FRAME_ERROR)) (flag x PL011_RSRECR_BE RTUART_EVENT_BREAK).
Definition pl011_dr_to_event (rsrecr : Z) : Z :=
  let x := u8 rsrecr in
  Z.lor (Z.lor (Z.lor (flag x PL011_DR_OE RTUART_EVENT_OVERRUN_ERROR) (flag x PL011_DR_PE RTUART_EVENT_PARITY_ERROR))
    (flag x PL011_DR_FE RTUART_EVENT_FRAME_ERROR)) (flag x PL011_DR_BE RTUART_EVENT_BREAK).

Definition char_e : Z := 101.
Definition char_n : Z := 110.
Definition char_o : Z := 111.
Definition RTUART_HANDSHAKE_RTSCTS : Z := 1.
Definition RTUART_HANDSHAKE_RTSCTS_DSRDTR : Z := 3.

(** The values for the fill levels of the FIFOs. *)
Definition rx_level_bits (level : Z) : Z :=
  if level <=? 2 then PL011_IFLS_RXIFLSEL_2BYTE else if level <=? 4 then PL011_IFLS_RXIFLSEL_4BYTE
  else if level <=? 8 then PL011_IFLS_RXIFLSEL_8BYTE else if level <=? 12 then PL011_IFLS_RXIFLSEL_12BYTE
  else PL011_IFLS_RXIFLSEL_14BYTE.
Definition rx_level_of (value : Z) : Z :=
  let v := Z.land value PL011_IFLS_RXIFLSEL_MASK in
  if v =? PL011_IFLS_RXIFLSEL_2BYTE then 2 else if v =? PL011_IFLS_RXIFLSEL_4BYTE then 4
  else if v =? PL011_IFLS_RXIFLSEL_8BYTE then 8 else if v =? PL011_IFLS_RXIFLSEL_12BYTE then 12
  else if v =? PL011_IFLS_RXIFLSEL_14BYTE then 14 else -1.
Definition tx_level_bits (level : Z) : Z :=
  if level <? 4 then PL011_IFLS_TXIFLSEL_2BYTE else if level <? 8 then PL011_IFLS_TXIFLSEL_4BYTE
  else if level <? 12 then PL011_IFLS_TXIFLSEL_8BYTE else if level <? 14 then PL011_IFLS_TXIFLSEL_12BYTE
  else PL011_IFLS_TXIFLSEL_14BYTE.
Definition tx_level_of (value : Z) : Z :=
  let v := Z.land value PL011_IFLS_TXIFLSEL_MASK in
  if v =? PL011_IFLS_TXIFLSEL_2BYTE then 2 else if v =? PL011_IFLS_TXIFLSEL_4BYTE then 4
  else if v =? PL011_IFLS_TXIFLSEL_8BYTE then 8 else if v =? PL011_IFLS_TXIFLSEL_12BYTE then 12
  else if v =? PL011_IFLS_TXIFLSEL_14BYTE then 14 else -1.

Definition control_to_pl011_lcrh (control_mask : Z) : Z := flag control_mask RTUART_CONTROL_BREAK PL011_LCRH_BRK.
Definition control_to_pl011_cr (control_mask : Z) : Z :=
  Z.lor (Z.lor (Z.lor (Z.lor (flag control_mask RTUART_CONTROL_RTS PL011_CR_RTS) (flag control_mask RTUART_CONTROL_DTR PL011_CR_DTR))
    (flag control_mask RTUART_CONTROL_OUT1 PL011_CR_OUT1)) (flag control_mask RTUART_CONTROL_OUT2 PL011_CR_OUT2))
    (flag control_mask RTUART_CONTROL_LOOP PL011_CR_LBE).
(** The interrupts that are enabled for a mask of notifications. *)
Definition imsc_of (m : Z) : Z :=
  Z.lor (Z.lor (if has m RTUART_NOTIFY_RECEIVER_HASDATA || has m RTUART_NOTIFY_RECEIVER_TIMEOUT then Z.lor PL011_MIS_RT PL011_MIS_RX else 0)
           (Z.lor (flag m RTUART_NOTIFY_TRANSMITTER_READY PL011_MIS_TX) (flag m RTUART_NOTIFY_TRANSMITTER_EMPTY PL011_MIS_TX)))
    (flag m RTUART_NOTIFY_RECEIVER_EVENT (Z.lor ERRORS_INT_MASK PL011_MIS_CTS)).
Definition receiver_events : Z :=
  Z.lor (Z.lor RTUART_NOTIFY_RECEIVER_HASDATA RTUART_NOTIFY_RECEIVER_TIMEOUT) RTUART_NOTIFY_RECEIVER_EVENT.

Section driver.
Context {B C : Type} (bops : rtuart_bus_ops B).
Abbreviation W := (rtuart B pl011 C).
Abbreviation driver := (prog W).
Context (table : nat -> rtuart_callbacks W).

(** *** Registers *)
Definition pl011_read_register (regno : Z) : driver (option Z) := rtuart_read_u32 bops regno.
Definition pl011_write_register (regno value : Z) : driver Z := rtuart_write_u32 bops regno value.
(** A write whose result is not looked at. *)
Definition put_reg (regno value : Z) : driver unit := _ ← pl011_write_register regno value; mret tt.
Definition pl011_change_register (regno mask value : Z) : driver Z :=
  if mask =? 0 then mret 0 else
  old ← pl011_read_register regno;
  match old with
  | None => mret (-1)
  | Some old =>
      let new := Z.lor (Z.ldiff old mask) (Z.land value mask) in
      if new =? old then mret 0
      else r ← rtuart_write_u32 bops regno new; mret (if r =? 0 then 0 else -1)
  end.
Definition change_reg (regno mask value : Z) : driver unit := _ ← pl011_change_register regno mask value; mret tt.

(** [read fails || fr & m] *)
Definition fr_is (m : Z) : driver bool :=
  fr ← pl011_read_register PL011_REG_FR; mret (match fr with Some fr => has fr m | None => true end).
Definition pl011_txfifo_is_full : driver bool := fr_is PL011_FR_TXFF.
Definition pl011_txfifo_is_empty : driver bool := fr_is PL011_FR_TXFE.
Definition pl011_rxfifo_is_full : driver bool := fr_is PL011_FR_RXFF.
Definition pl011_rxfifo_is_empty : driver bool := fr_is PL011_FR_RXFE.
Definition pl011_tx_is_not_empty : driver bool :=
  fr ← pl011_read_register PL011_REG_FR;
  match fr with Some fr => mret (has fr PL011_FR_BUSY) | None => raise (Exited 1) end.

Definition spl011_set_rx_fifo_level (level : Z) : driver unit :=
  change_reg PL011_REG_IFLS PL011_IFLS_RXIFLSEL_MASK (rx_level_bits level).
Definition spl011_rx_fifo_level : driver Z :=
  v ← pl011_read_register PL011_REG_IFLS; mret (match v with Some v => rx_level_of v | None => -1 end).
Definition spl011_set_tx_fifo_level (level : Z) : driver unit :=
  change_reg PL011_REG_IFLS PL011_IFLS_TXIFLSEL_MASK (tx_level_bits level).
Definition spl011_tx_fifo_level : driver Z :=
  v ← pl011_read_register PL011_REG_IFLS; mret (match v with Some v => tx_level_of v | None => -1 end).
(** The result is not defined after a success and not used. *)
Definition pl011_set_fifo_enable (on : bool) : driver unit :=
  r ← pl011_change_register PL011_REG_LCRH PL011_LCRH_FEN (if on then PL011_LCRH_FEN else 0);
  when (r =? 0) (spl011_set_rx_fifo_level 4 ;; spl011_set_tx_fifo_level 8).
Definition pl011_mod_control (new_lcrh_mask new_lcrh_value new_cr_mask new_cr_value : Z) : driver Z :=
  r ← pl011_change_register PL011_REG_LCRH new_lcrh_mask new_lcrh_value;
  if r =? 0 then pl011_change_register PL011_REG_CR new_cr_mask new_cr_value else mret (-1).
Definition mod_control (lm lv cm cv : Z) : driver unit := _ ← pl011_mod_control lm lv cm cv; mret tt.
Definition pl011_enable_uart (on : bool) : driver unit :=
  let m := Z.lor (Z.lor PL011_CR_RXE PL011_CR_TXE) PL011_CR_UARTEN in mod_control 0 0 m (if on then m else 0).

Definition buffer_is_complete (buffer : option nat) : driver bool :=
  match buffer with
  | None => mret true
  | Some _ => b ← fetch buffer; mret ((size b <=? transfered b) || (validcount b <=? transfered b))
  end.

(** *** Bit rate, format and lines *)
Definition pl011_set_baudrate (baudrate : Z) : driver unit :=
  x ← gets ext;
  if u64 (16 * baudrate) =? 0 then raise DivideByZero else
  let divisor := u64 (base_clock x * 64) / u64 (16 * baudrate) in
  put_reg PL011_REG_IBRD (u16 (Z.shiftr divisor 6)) ;;
  put_reg PL011_REG_FBRD (Z.land divisor 0x63) ;;
  lcrh ← pl011_read_register PL011_REG_LCRH;
  match lcrh with Some lcrh => put_reg PL011_REG_LCRH lcrh | None => mret tt end.
Definition pl011_get_baudrate : driver Z :=
  x ← gets ext;
  ibrd ← pl011_read_register PL011_REG_IBRD;
  fbrd ← pl011_read_register PL011_REG_FBRD;
  ibrd ← initialised ibrd;
  fbrd ← initialised fbrd;
  let divisor := Z.lor (Z.shiftl (Z.land ibrd 0xffff) 6) (Z.land fbrd 0x3f) in
  if divisor =? 0 then raise DivideByZero else mret (u64 (base_clock x * 64) / (16 * divisor)).
Definition pl011_set_format (databits parity stopbits : Z) : driver unit :=
  let mask := Z.lor (Z.lor (Z.lor PL011_LCRH_WLEN_MASK PL011_LCRH_PEN) PL011_LCRH_EPS) PL011_LCRH_STP2 in
  let value := Z.lor (Z.lor (Z.land (Z.shiftl (databits - 5) PL011_LCRH_WLEN_SHIFT) PL011_LCRH_WLEN_MASK)
      (if parity =? char_e then Z.lor PL011_LCRH_PEN PL011_LCRH_EPS else if parity =? char_o then PL011_LCRH_PEN else 0))
      (if 1 <? stopbits then PL011_LCRH_STP2 else 0) in
  change_reg PL011_REG_LCRH mask value.
Definition pl011_get_format : driver (option (Z * Z * Z)) :=
  lcr ← pl011_read_register PL011_REG_LCRH;
  mret match lcr with
       | None => None
       | Some lcr => Some (Z.land (Z.shiftr lcr 5) 3 + 5,
                       (if has lcr PL011_LCRH_PEN then if has lcr PL011_LCRH_EPS then char_e else char_o else char_n),
                       (if has lcr PL011_LCRH_STP2 then 2 else 1))
       end.
Definition pl011_set_handshake (hs : Z) : driver unit :=
  let rtsctson := (hs =? RTUART_HANDSHAKE_RTSCTS) || (hs =? RTUART_HANDSHAKE_RTSCTS_DSRDTR) in
  let m := Z.lor PL011_CR_CTSEN PL011_CR_RTSEN in
  mod_control 0 0 m (if rtsctson then m else 0).
Definition pl011_set_control (control_mask : Z) : driver unit :=
  let lcrh := control_to_pl011_lcrh control_mask in
  let cr := control_to_pl011_cr control_mask in
  mod_control lcrh lcrh cr cr.
Definition pl011_clr_control (control_mask : Z) : driver unit :=
  mod_control (control_to_pl011_lcrh control_mask) 0 (control_to_pl011_cr control_mask) 0.
Definition pl011_get_control : driver Z :=
  lcrh ← pl011_read_register PL011_REG_LCRH;
  cr ← pl011_read_register PL011_REG_CR;
  let brk := match lcrh with Some lcrh => flag lcrh PL011_LCRH_BRK RTUART_CONTROL_BREAK | None => 0 end in
  mret match cr with
       | Some cr =>
           Z.lor (Z.lor (Z.lor (Z.lor (Z.lor brk (flag cr PL011_CR_RTS RTUART_CONTROL_RTS)) (flag cr PL011_CR_DTR RTUART_CONTROL_DTR))
             (flag cr PL011_CR_OUT1 RTUART_CONTROL_OUT1)) (flag cr PL011_CR_OUT2 RTUART_CONTROL_OUT2)) (flag cr PL011_CR_LBE RTUART_CONTROL_LOOP)
       | None => brk
       end.

(** *** Notifications *)
Definition pl011_update_notification : driver unit :=
  m ← gets notify_mask;
  when (has m RTUART_NOTIFY_TRANSMITTER_READY) (_ ← pl011_read_register PL011_REG_IMSC; mret tt) ;;
  change_reg PL011_REG_CR (Z.lor PL011_CR_RXE PL011_CR_TXE) (Z.lor (flag m receiver_events PL011_CR_RXE) PL011_CR_TXE) ;;
  put_reg PL011_REG_IMSC (imsc_of m).
Definition change_notify (f : Z -> Z) : driver unit :=
  m ← gets notify_mask;
  when (negb (m =? f m)) (
    modify (with_notify (f m)) ;;
    i ← gets in_irq;
    when (i =? 0) pl011_update_notification).
Definition pl011_set_notify (notify : Z) : driver unit := change_notify (fun m => Z.lor m notify).
Definition pl011_clr_notify (notify : Z) : driver unit := change_notify (fun m => Z.ldiff m notify).
Definition pl011_get_notify : driver Z := gets notify_mask.
Definition drop_notify (m : Z) : driver unit := modify (fun u => with_notify (Z.ldiff (notify_mask u) m) u).
Definition notified (m : Z) : driver bool := gets (fun u => has (notify_mask u) m).
Definition set_polling (p : bool) : driver unit :=
  modify (fun u => with_ext (Pl011 (base_clock (ext u)) p (scheduled (ext u))) u).
Definition schedule_irq : driver unit :=
  modify (fun u => with_ext (Pl011 (base_clock (ext u)) (do_tx_polling (ext u)) true) u).

(** *** Buffers *)
Definition pl011_tx_written (buffer : option nat) : driver Z := b ← fetch buffer; mret (i32 (transfered b)).
Definition pl011_tx_stop (buffer : option nat) : driver (option Z) :=
  t ← gets tx_buffer;
  if decide (t = buffer) then n ← pl011_tx_written t; modify (with_tx None) ;; mret (Some n) else mret None.
Definition pl011_tx_start (buffer : option nat) : driver unit :=
  update_buffer buffer (with_transfered 0) ;;
  b ← fetch buffer;
  if size b <? validcount b then mret tt else
  t ← gets tx_buffer;
  when (bool_decide (is_Some t)) (_ ← pl011_tx_stop buffer; mret tt) ;;
  t ← gets tx_buffer;
  when (bool_decide (t = None)) (
    modify (with_tx buffer) ;;
    set_polling false ;;
    pl011_set_notify RTUART_NOTIFY_TRANSMITTER_READY ;;
    schedule_irq).
Definition receiver_notifications : Z := Z.lor RTUART_NOTIFY_RECEIVER_HASDATA RTUART_NOTIFY_RECEIVER_TIMEOUT.
Definition pl011_rx_stop (buffer : option nat) : driver Z :=
  modify (with_rx None) ;; pl011_clr_notify receiver_notifications ;; mret 0.
Definition pl011_rx_start (buffer : option nat) : driver unit :=
  r ← gets rx_buffer;
  when (bool_decide (is_Some r)) (_ ← pl011_rx_stop r; mret tt) ;;
  update_buffer buffer (with_transfered 0) ;;
  modify (with_rx buffer) ;;
  pl011_set_notify receiver_notifications.
Definition pl011_rx_set_timeout (timeout : Z) : driver unit := mret tt.

(** *** The transmitter *)
Fixpoint copy_octets (buffer : option nat) (fuel : nat) (copied : Z) : driver Z :=
  match fuel with
  | O => raise OutOfFuel
  | S fuel =>
      is_full ← pl011_txfifo_is_full;
      if is_full : bool then mret copied else
      b ← fetch buffer;
      if (validcount b <=? transfered b) || (size b <=? transfered b) then mret copied
      else
        update_buffer buffer (with_transfered (u64 (transfered b + 1))) ;;
        c ← load_octet buffer (transfered b);
        put_reg PL011_REG_DR (u8 c) ;;
        copy_octets buffer fuel (copied + 1)
  end.
(** The octets that a buffer has left bound the loop. *)
Definition octets_left (buffer : option nat) (u : W) : nat :=
  match buffer ≫= (fun a => buffers u !! a) with Some b => Z.to_nat (validcount b - transfered b) | None => 0 end.
Definition copy_from_buffer_to_transmitter (buffer : option nat) : driver Z :=
  n ← gets (octets_left buffer); copy_octets buffer (S n) 0.

Fixpoint pl011_send_as_much_as_possible (fuel : nat) : driver unit :=
  match fuel with
  | O => raise OutOfFuel
  | S fuel =>
      t ← gets tx_buffer;
      match t with
      | Some _ => b ← fetch t; when (transfered b =? 0) (rtuart_call_tx_start table t)
      | None => mret tt
      end ;;
      t ← gets tx_buffer;
      copied ← copy_from_buffer_to_transmitter t;
      t ← gets tx_buffer;
      complete ← buffer_is_complete t;
      when complete (
        drop_notify RTUART_NOTIFY_TRANSMITTER_READY ;;
        modify (with_tx None) ;;
        rtuart_call_tx_end1 table t ;;
        t' ← gets tx_buffer;
        empty ← notified RTUART_NOTIFY_TRANSMITTER_EMPTY;
        when (bool_decide (t' = None) && empty) (modify (with_tx t))) ;;
      again ← (if 0 <? copied then
                 is_full ← pl011_txfifo_is_full;
                 ready ← notified RTUART_NOTIFY_TRANSMITTER_READY;
                 t ← gets tx_buffer;
                 match t with
                 | Some _ => if negb is_full && ready then b ← fetch t; mret (transfered b =? 0) else mret false
                 | None => mret false
                 end
               else mret false);
      if again : bool then pl011_send_as_much_as_possible fuel else mret tt
  end.

Definition pl011_fill_transmitter (fuel : nat) : driver unit :=
  t ← gets tx_buffer;
  b ← fetch t;
  let remaining_tx_count := i32 (validcount b - transfered b) in
  (if remaining_tx_count <? 2 + 2 then set_polling true
   else set_polling false ;; spl011_set_tx_fifo_level (remaining_tx_count - 2)) ;;
  pl011_send_as_much_as_possible fuel.
Definition pl011_handle_transmitter_empty (fuel : nat) : driver unit :=
  ready ← notified RTUART_NOTIFY_TRANSMITTER_READY; when ready (pl011_fill_transmitter fuel).

(** *** The receiver *)
Definition dr_errors : Z := Z.lor (Z.lor (Z.lor PL011_DR_OE PL011_DR_BE) PL011_DR_PE) PL011_DR_FE.
(** An octet for the buffer, and the triggers it passes. *)
Definition store_received (buffer : option nat) (d : Z) : driver unit :=
  b ← fetch buffer;
  update_buffer buffer (with_transfered (u64 (transfered b + 1))) ;;
  store_octet buffer (transfered b) (u8 d) ;;
  b ← fetch buffer;
  when (negb (triggermask b =? 0)) (
    m ← lift_outcome (passed_triggers (fun t => t <? transfered b) b 0 RTUART_MAX_TRIGGERS 0);
    when (negb (m =? 0)) (
      rtuart_call_rx_trigger table buffer m ;;
      update_buffer buffer (fun b => with_triggermask (Z.ldiff (triggermask b) m) b))).
Definition take_octet (buffer : option nat) (due_to_timeout : bool) (d : Z) : driver unit :=
  if has d dr_errors then
    let event := pl011_dr_to_event d in
    when (negb (event =? 0)) (cbs ← the_callbacks table; f ← deref (rx_err cbs); f event)
  else
    hasdata ← notified RTUART_NOTIFY_RECEIVER_HASDATA;
    when hasdata (
      room ← match buffer with
             | None => mret false
             | Some _ => b ← fetch buffer; mret (negb (full b))
             end;
      (if room : bool then store_received buffer d
       else drop_notify RTUART_NOTIFY_RECEIVER_HASDATA ;; rtuart_call_rx_char table (u8 d)) ;;
      match buffer with
      | Some _ =>
          b ← fetch buffer;
          if full b then
            modify (with_rx None) ;;
            drop_notify RTUART_NOTIFY_RECEIVER_HASDATA ;;
            rtuart_call_rx_end table buffer
          else when due_to_timeout (rtuart_call_rx_timeout table buffer)
      | None => mret tt
      end).
Fixpoint handle_received_data (fuel : nat) (buffer : option nat) (due_to_timeout : bool) : driver unit :=
  match fuel with
  | O => raise OutOfFuel
  | S fuel =>
      empty ← pl011_rxfifo_is_empty;
      if empty : bool then mret tt else
      d ← pl011_read_register PL011_REG_DR;
      match d with
      | None => mret tt
      | Some d => take_octet buffer due_to_timeout d ;; handle_received_data fuel buffer due_to_timeout
      end
  end.

(** *** The interrupt handler *)

(** What is done when there is no cause; [true] says that the transmitter is
    almost empty and the handler has to look again. *)
Definition serve_idle : driver bool :=
  empty ← notified RTUART_NOTIFY_TRANSMITTER_EMPTY;
  t ← gets tx_buffer;
  complete ← (if empty : bool then buffer_is_complete t else mret false);
  if complete : bool then
    fifo_empty ← pl011_txfifo_is_empty;
    if negb fifo_empty then set_polling true ;; mret false
    else
      busy ← pl011_tx_is_not_empty;
      if busy : bool then mret true
      else
        drop_notify RTUART_NOTIFY_TRANSMITTER_EMPTY ;;
        modify (with_tx None) ;;
        rtuart_call_tx_end2 table t ;;
        mret false
  else mret false.
Definition leave_irq : driver unit :=
  pl011_update_notification ;;
  modify (with_in_irq 0) ;;
  x ← gets ext;
  when (do_tx_polling x) schedule_irq.
Definition all_causes : Z :=
  Z.lor (Z.lor (Z.lor (Z.lor ERRORS_INT_MASK PL011_MIS_RT) PL011_MIS_TX) PL011_MIS_RX) PL011_MIS_CTS.
Definition have_remaining_tx_data : driver bool :=
  t ← gets tx_buffer;
  match t with Some _ => b ← fetch t; mret (transfered b <? validcount b) | None => mret false end.
Definition serve_cts : driver unit :=
  put_reg PL011_REG_ICR PL011_MIS_CTS ;;
  fr ← pl011_read_register PL011_REG_FR;
  match fr with
  | Some _ => mret tt
  | None => fr ← initialised fr; rtuart_call_input_change table RTUART_EVENT_CTS_CHANGE (flag fr PL011_FR_CTS RTUART_EVENT_CTS_CHANGE)
  end.

Fixpoint irq_loop (fuel : nat) : driver unit :=
  match fuel with
  | O => raise OutOfFuel
  | S fuel =>
      mis ← pl011_read_register PL011_REG_MIS;
      have ← have_remaining_tx_data;
      mis ← initialised mis;
      refill ← (if negb (has mis PL011_MIS_TX) && (have : bool) then pl011_txfifo_is_empty else mret false);
      if refill : bool then pl011_fill_transmitter fuel ;; irq_loop fuel
      else if negb (has mis all_causes) then
        again ← serve_idle;
        if (again : bool) then irq_loop fuel else leave_irq
      else if has mis (Z.lor PL011_MIS_RX PL011_MIS_RT) then
        put_reg PL011_REG_ICR (Z.land mis (Z.lor PL011_MIS_RX PL011_MIS_RT)) ;;
        r ← gets rx_buffer;
        handle_received_data fuel r (has mis PL011_MIS_RT) ;;
        irq_loop fuel
      else if has mis ERRORS_INT_MASK then
        put_reg PL011_REG_ICR (Z.land mis ERRORS_INT_MASK) ;;
        rtuart_call_rx_err table (pl011_is_to_event (Z.land mis ERRORS_INT_MASK)) ;;
        irq_loop fuel
      else if has mis PL011_MIS_TX then
        put_reg PL011_REG_ICR PL011_MIS_TX ;;
        pl011_handle_transmitter_empty fuel ;;
        irq_loop fuel
      else if has mis PL011_MIS_CTS then serve_cts ;; irq_loop fuel
      else irq_loop fuel
  end.
Definition pl011_interrupt_handler_function (fuel : nat) : driver unit := modify (with_in_irq 1) ;; irq_loop fuel.
Definition pl011_irq_tasklet : nat -> driver unit := pl011_interrupt_handler_function.
Definition pl011_handle_irq : driver unit := schedule_irq.
(** [run_all_tasklets] as far as this tasklet is concerned. *)
Definition run_irq_tasklet (fuel : nat) : driver unit :=
  x ← gets ext;
  when (scheduled x) (modify (with_ext (Pl011 (base_clock x) (do_tx_polling x) false)) ;; pl011_irq_tasklet fuel).

(** *** The table of operations, and creation *)
Definition rtuart_pl011_ops (destroy : driver unit) : rtuart_ops W :=
  Ops (Some destroy) (Some pl011_set_baudrate) (Some pl011_get_baudrate) (Some pl011_set_format)
    (Some pl011_set_handshake) (Some pl011_set_control) (Some pl011_clr_control) (Some pl011_get_control)
    (Some pl011_set_notify) (Some pl011_clr_notify) (Some pl011_get_notify) (Some pl011_tx_start)
    (Some pl011_tx_stop) (Some pl011_tx_written) (Some pl011_rx_start) (Some pl011_rx_stop)
    (Some pl011_rx_set_timeout) (Some pl011_handle_irq).
Definition rtuart_pl011_create (malloc_ok : bool) (b : B) (base_clock_hz : Z) (m : gmap nat rtuart_buffer) (c : C) : outcome (option W) :=
  if malloc_ok then
    '(_, u) ← (pl011_enable_uart true ;; pl011_set_fifo_enable true ;; pl011_update_notification)
                (rtuart_init b (Pl011 base_clock_hz false false) m c);
    Done (Some u)
  else Done None.
End driver.
