(* ===== verification/RtPl011Reception.v ===== *)
(** * Receiving with the second generation of the PL011 driver

    What the interrupt handler of [RtPl011.v] does with received octets, against
    the laws of the receiver of the chip, and where octets and errors get
    lost.  Then the fill levels of the FIFOs. *)
From stdpp Require Import base countable gmap list.
From S2P Require Import Prelude Bus RtUart RtPl011.

Lemma has_ldiff_self m k : has (Z.ldiff m k) k = false.
Proof.
  unfold has. apply negb_false_iff, Z.eqb_eq, Z.bits_inj'. intros n Hn. rewrite Z.land_spec, Z.ldiff_spec, Z.bits_0. by destruct (Z.testbit m n), (Z.testbit k n).
Qed.

(** The errors of an octet are above its eight bits, and the function that is
    to find them gets an octet. *)
Lemma octet_has_no_errors d k : 8 <= k -> has (u8 d) (Z.shiftl 1 k) = false.
Proof.
  intros Hk. unfold has, u8. apply negb_false_iff, Z.eqb_eq, Z.bits_inj'. intros n Hn. rewrite Z.land_spec, Z.bits_0, Z.shiftl_1_l, Z.pow2_bits_eqb by lia.
  destruct (Z.eqb_spec k n) as [<-|]; [|by rewrite andb_false_r]. rewrite Z.mod_pow2_bits_high by lia. done.
Qed.
Lemma dr_event_is_none d : pl011_dr_to_event d = 0.
Proof.
  unfold pl011_dr_to_event, flag, PL011_DR_OE, PL011_DR_PE, PL011_DR_FE, PL011_DR_BE. by rewrite !octet_has_no_errors by lia.
Qed.

Section reception.
Context {B C : Type} (bops : rtuart_bus_ops B) (table : nat -> rtuart_callbacks (rtuart B pl011 C)).
Abbreviation W := (rtuart B pl011 C).
Implicit Types (u : W) (d : list Z).

(** An octet that arrives with an error (overrun, break, parity, framing)
    is dropped and nobody is told: the event is computed from the low eight bits
    of the data register, in which there are no errors. *)
Theorem errors_with_octets_are_dropped buffer due_to_timeout x u :
  has x dr_errors = true -> take_octet table buffer due_to_timeout x u = Done (tt, u).
Proof. intros Hx. unfold take_octet. by rewrite Hx, dr_event_is_none. Qed.

Lemma wp_read_pl011 reg v (b' : B) (Q : option Z -> W -> Prop) u :
  rtuart_bus_read_u32 bops reg (bus u) = Done (Some v, b') -> Q (Some (u64 v)) (with_bus b' u) -> wp (pl011_read_register bops reg) Q u.
Proof. intros H HQ. unfold wp, pl011_read_register, rtuart_read_u32, on_bus, mbind, prog_bind. by rewrite H. Qed.

(** The receiver of the chip: the octets that wait in it, which have no errors. *)
Record receiver_laws (pending : B -> list Z) : Prop := {
  rx_octets (b : B) : Forall (fun x => u8 x = x) (pending b);
  rx_dr (b : B) x r : pending b = x :: r ->
    exists b' : B, rtuart_bus_read_u32 bops PL011_REG_DR b = Done (Some x, b') /\ pending b' = r;
  rx_fr (b : B) : exists v (b' : B), rtuart_bus_read_u32 bops PL011_REG_FR b = Done (Some v, b') /\ pending b' = pending b /\
    has (u64 v) PL011_FR_RXFE = bool_decide (pending b = []) }.
Context (pending : B -> list Z) (laws : receiver_laws pending).

Lemma octet_is_clean x : u8 x = x -> u64 x = x /\ has x dr_errors = false.
Proof.
  intros Hx. split.
  - unfold u8, u64 in *. pose proof (Z.mod_pos_bound x (2 ^ 8)). rewrite Z.mod_small by lia. done.
  - rewrite <- Hx. unfold has, u8. apply negb_false_iff, Z.eqb_eq, Z.bits_inj'. intros n Hn. rewrite Z.land_spec, Z.bits_0.
    destruct (Z.ltb_spec n 8); [|by rewrite Z.mod_pow2_bits_high by lia].
    assert (Z.testbit dr_errors n = false) as ->; [|by rewrite andb_false_r].
    assert (n = 0 \/ n = 1 \/ n = 2 \/ n = 3 \/ n = 4 \/ n = 5 \/ n = 6 \/ n = 7) as Hc by lia. by destruct Hc as [->|[->|[->|[->|[->|[->|[->| ->]]]]]]].
Qed.

(** One round of the loop over the FIFO, if there is an octet. *)
Lemma wp_next_octet x r u fuel buffer due (Q : unit -> W -> Prop) :
  pending (bus u) = x :: r ->
  (forall b' : B, pending b' = r -> u8 x = x -> wp (take_octet table buffer due x ;; handle_received_data bops table fuel buffer due) Q (with_bus b' u)) ->
  wp (handle_received_data bops table (S fuel) buffer due) Q u.
Proof.
  intros Hp HQ. cbn [handle_received_data]. unfold pl011_rxfifo_is_empty, fr_is. destruct (rx_fr _ laws (bus u)) as (v & b1 & Hr1 & Hp1 & He).
  rewrite Hp in Hp1, He. apply wp_bind, wp_bind. eapply wp_read_pl011; [exact Hr1|]. apply wp_ret. rewrite He, bool_decide_false by done.
  destruct (rx_dr _ laws b1 x r Hp1) as (b2 & Hr2 & Hp2). apply wp_bind. eapply wp_read_pl011; [exact Hr2|].
  pose proof (rx_octets _ laws b1) as Ho. rewrite Hp1 in Ho. apply Forall_cons in Ho as [Hx _].
  rewrite (proj1 (octet_is_clean x Hx)). by apply (HQ b2).
Qed.
Lemma wp_fifo_empty u fuel buffer due (Q : unit -> W -> Prop) :
  pending (bus u) = [] -> (forall b' : B, pending b' = [] -> Q tt (with_bus b' u)) ->
  wp (handle_received_data bops table (S fuel) buffer due) Q u.
Proof.
  intros Hp HQ. cbn [handle_received_data]. unfold pl011_rxfifo_is_empty, fr_is. destruct (rx_fr _ laws (bus u)) as (v & b1 & Hr1 & Hp1 & He).
  rewrite Hp in Hp1, He. apply wp_bind, wp_bind. eapply wp_read_pl011; [exact Hr1|]. apply wp_ret. rewrite He, bool_decide_true by done. by apply HQ.
Qed.

(** While the client does not want octets they are read and lost. *)
Lemma unwanted_octets_are_lost os : forall u buffer due fuel,
  pending (bus u) = os -> has (notify_mask u) RTUART_NOTIFY_RECEIVER_HASDATA = false -> (length os < fuel)%nat ->
  wp (handle_received_data bops table fuel buffer due) (fun _ u' => exists b' : B, pending b' = [] /\ u' = with_bus b' u) u.
Proof.
  induction os as [|x os IH]; intros u buffer due fuel Hp Hh Hf; cbn in Hf; (destruct fuel as [|fuel]; [lia|]).
  - apply wp_fifo_empty; [done|]. by eauto.
  - eapply wp_next_octet; [done|]. intros b1 Hp1 Hx. apply wp_bind. unfold take_octet. rewrite (proj2 (octet_is_clean x Hx)).
    apply wp_bind, wp_gets. cbn [notify_mask with_bus]. rewrite Hh. apply wp_ret.
    eapply wp_mono; [apply IH; [done|done|lia]|]. cbn beta. intros _ u1 (b2 & Hp2 & ->). by exists b2.
Qed.

(** The client takes note of the end of a buffer, and of nothing else. *)
Context (a c : nat) (note : option nat -> C -> C).
Context (Hend : rx_end (table c) = Some (fun p => modify (fun u => with_client (note p (client u)) u))).
Context (Htimeout : rx_timeout (table c) = None).
Abbreviation filling := (filling a).
Abbreviation deliver_if_full := (deliver_if_full a note).
Context (b : rtuart_buffer) (lim : nat) (Hlim : Z.of_nat lim = Z.min (size b) (validcount b)) (Hwidth : Z.of_nat lim < 2 ^ 64).

Lemma take_one_octet u d t x due :
  cb u = Some c -> (t < lim)%nat -> (lim <= length d)%nat -> u8 x = x ->
  buffers u !! a = Some (buffer_at b d t) -> has (notify_mask u) RTUART_NOTIFY_RECEIVER_HASDATA = true ->
  wp (take_octet table (Some a) due x) (fun _ u' => u' = deliver_if_full lim (S t) (filling u b (<[t := x]> d) (S t))) u.
Proof.
  intros Hcb Ht Hd Hx Hb Hh. unfold take_octet. rewrite (proj2 (octet_is_clean x Hx)). apply wp_bind, wp_gets. rewrite Hh. cbn [when].
  apply wp_bind, wp_bind, (wp_fetch _ _ _ _ Hb), wp_ret. rewrite (full_at b lim _ _ Hlim), bool_decide_false by lia. cbn [negb]. apply wp_bind.
  apply (wp_mono _ (fun _ u' => u' = filling u b (<[t := x]> d) (S t))).
  - unfold store_received. apply wp_bind, (wp_fetch _ _ _ _ Hb), wp_bind, (wp_update_buffer _ _ _ _ _ Hb).
    cbn [transfered buffer_at with_transfered]. apply wp_bind. eapply wp_store_octet with (d := d); [apply lookup_insert_eq|done|lia|]. rewrite Hx.
    set (u1 := with_buffers _ _). assert (u1 = filling u b (<[t := x]> d) (S t)) as ->.
    { unfold u1, RtUart.filling, with_buffers. cbn. rewrite insert_insert_eq. unfold with_transfered, with_data, buffer_at. cbn.
      replace (u64 (Z.of_nat t + 1)) with (Z.of_nat (S t)); [done|]. unfold u64. rewrite Z.mod_small by lia. lia. }
    apply wp_bind. eapply wp_fetch; [apply lookup_insert_eq|]. cbn [triggermask buffer_at]. by apply wp_ret.
  - intros _ ? ->. apply wp_bind. eapply wp_fetch; [apply lookup_insert_eq|]. rewrite (full_at b lim _ _ Hlim) by lia.
    unfold RtUart.deliver_if_full. destruct (decide (S t = lim)).
    + rewrite bool_decide_true by done. apply wp_bind, wp_modify, wp_bind, wp_modify. unfold rtuart_call_rx_end, rtuart_call. apply wp_bind, wp_gets.
      cbn. rewrite Hcb. cbn. by rewrite Hend.
    + rewrite bool_decide_false by done. apply wp_when; [|done]. intros _. unfold rtuart_call_rx_timeout, rtuart_call. apply wp_bind, wp_gets.
      cbn. rewrite Hcb. cbn. by rewrite Htimeout.
Qed.

(** C27: the octets of the receiver's FIFO fill the client's buffer in their
    order; if there are more than it has room for, the buffer is handed back
    and the rest of the FIFO is read and lost.  The loop returns with fuel
    for one round per octet and one more. *)
Theorem fifo_fills_the_buffer os : forall u d t due fuel,
  pending (bus u) = os -> cb u = Some c -> (t < lim)%nat -> (lim <= length d)%nat ->
  buffers u !! a = Some (buffer_at b d t) -> has (notify_mask u) RTUART_NOTIFY_RECEIVER_HASDATA = true -> (length os < fuel)%nat ->
  wp (handle_received_data bops table fuel (Some a) due)
    (fun _ u' => let n := Nat.min (length os) (lim - t) in
       exists b' : B, pending b' = [] /\ u' = deliver_if_full lim (t + n) (filling (with_bus b' u) b (fill t (take n os) d) (t + n))) u.
Proof.
  induction os as [|x os IH]; intros u d t due fuel Hp Hcb Ht Hd Hb Hh Hf; cbn [length] in Hf; (destruct fuel as [|fuel]; [lia|]).
  - apply wp_fifo_empty; [done|]. intros b1 Hp1. cbn. exists b1. split; [done|]. rewrite Nat.add_0_r. unfold RtUart.deliver_if_full. rewrite decide_False by lia.
    unfold fill. cbn. rewrite Nat.add_0_r, take_drop. unfold RtUart.filling, with_buffers. cbn. rewrite insert_id by done. done.
  - eapply wp_next_octet; [done|]. intros b1 Hp1 Hx. apply wp_bind. eapply wp_mono; [by apply (take_one_octet _ d t)|]. cbn beta. intros _ ? ->.
    unfold RtUart.deliver_if_full at 2. destruct (decide (S t = lim)) as [E|E].
    + eapply wp_mono; [apply (unwanted_octets_are_lost os); [exact Hp1|apply has_ldiff_self|lia]|]. cbn beta zeta. intros _ u1 (b2 & Hp2 & ->). exists b2. split; [done|].
      replace (Nat.min (length (x :: os)) (lim - t)) with 1%nat by (cbn [length]; lia). unfold RtUart.deliver_if_full. rewrite decide_True by lia.
      cbn [take]. rewrite take_0, <- fill_cons by lia. unfold fill. cbn. rewrite !Nat.add_0_r, take_drop. by rewrite Nat.add_1_r.
    + eapply wp_mono; [apply (IH _ (<[t:=x]> d) (S t)); [done|done|lia|by rewrite length_insert|by apply lookup_insert_eq|done|lia]|].
      cbn beta zeta. intros _ u1 (b2 & Hp2 & ->). exists b2. split; [done|]. cbn [length]. rewrite refill.
      replace (Nat.min (S (length os)) (lim - t)) with (S (Nat.min (length os) (lim - S t))) by lia. cbn [take]. rewrite fill_cons by lia. by rewrite Nat.add_succ_r.
Qed.
End reception.

(** ** A chip that only receives *)

Definition fifo_read (reg : Z) : prog (list Z) Z := fun b =>
  if reg =? PL011_REG_DR then Done (u8 (hd 0 b), tl b)
  else if reg =? PL011_REG_FR then Done (if decide (b = []) then PL011_FR_RXFE else 0, b)
  else if reg =? PL011_REG_MIS then Done (if decide (b = []) then 0 else PL011_MIS_RX, b)
  else Done (0, b).
Definition fifo_chip : rtuart_bus_ops (list Z) :=
  BusOps (list Z) None None None None (Some fifo_read) (Some (fun _ _ => mret tt)) None None.
Lemma fifo_chip_laws : receiver_laws fifo_chip (fmap u8).
Proof.
  split.
  - intros b. apply Forall_fmap, Forall_forall. intros x _. cbn. unfold u8. by rewrite Z.mod_mod.
  - intros [|y b] x r; cbn; [done|]. intros [= <- <-]. by eexists.
  - intros b. exists (if decide (b = []) then PL011_FR_RXFE else 0), b. split; [done|]. split; [done|]. by destruct b.
Qed.

(** What a client is told. *)
Inductive told := GotBuffer (buffer : option nat) | GotOctet (c : Z).
Definition tell (e : told) : prog (rtuart (list Z) pl011 (list told)) unit := modify (fun u => with_client (client u ++ [e]) u).
Definition listener : rtuart_callbacks (rtuart (list Z) pl011 (list told)) :=
  Callbacks None None None None None (Some (fun c => tell (GotOctet c))) (Some (fun p => tell (GotBuffer p))) None None.
Definition two_octets : rtuart_buffer := Buffer (Some [0; 0]) 2 2 0 0 [].
Definition listening (os : list Z) : rtuart (list Z) pl011 (list told) :=
  Uart os 0xC (Some 0%nat) 0 None (Some 7%nat) 0 (Pl011 48000000 false false) {[7%nat := two_octets]} [].

Lemma fifo_fills_the_buffer_witness :
  wp (handle_received_data fifo_chip (fun _ => listener) 4 (Some 7%nat) false)
    (fun _ u' => exists b', u8 <$> b' = [] /\ u' = deliver_if_full 7 (fun p l => l ++ [GotBuffer p]) 2 2
       (filling 7 (with_bus b' (listening [0x55; 0xAA; 0x42])) two_octets (fill 0 [0x55; 0xAA] [0; 0]) 2)) (listening [0x55; 0xAA; 0x42]).
Proof.
  apply (fifo_fills_the_buffer fifo_chip (fun _ => listener) (fmap u8) fifo_chip_laws 7 0 (fun p l => l ++ [GotBuffer p]) eq_refl eq_refl two_octets 2
    eq_refl ltac:(lia) [0x55; 0xAA; 0x42] (listening [0x55; 0xAA; 0x42]) [0; 0] 0 false 4); try done; cbn; lia.
Defined.
Lemma errors_with_octets_are_dropped_witness :
  has 0x455 dr_errors = true /\ take_octet (fun _ => listener) (Some 7%nat) false 0x455 (listening []) = Done (tt, listening []).
Proof. split; [reflexivity|]. apply (errors_with_octets_are_dropped (fun _ => listener) (Some 7%nat) false 0x455 (listening [])). reflexivity. Defined.

(** A client that has its next buffer ready when it gets one back. *)
Definition streaming : rtuart_callbacks (rtuart (list Z) pl011 (list told)) :=
  Callbacks None None None None None (Some (fun c => tell (GotOctet c)))
    (Some (fun p => tell (GotBuffer p) ;; pl011_rx_start fifo_chip (Some 9%nat))) None None.
Definition one_octet : rtuart_buffer := Buffer (Some [0]) 1 1 0 0 [].
Definition next_buffer : rtuart_buffer := Buffer (Some [0; 0; 0; 0]) 4 4 0 0 [].
Definition streaming_state (os : list Z) : rtuart (list Z) pl011 (list told) :=
  Uart os 0xC (Some 0%nat) 0 None (Some 7%nat) 0 (Pl011 48000000 false false) {[7%nat := one_octet; 9%nat := next_buffer]} [].

(** A client that starts its next buffer from [rx_end] does not get the next
    octet of the FIFO in it: the loop goes on with the buffer that is full, hands
    the octet out on its own and gives the full buffer back a second time. *)
Theorem full_buffer_is_given_back_twice x y fuel :
  wp (handle_received_data fifo_chip (fun _ => streaming) (3 + fuel) (Some 7%nat) false)
    (fun _ u' => client u' = [GotBuffer (Some 7%nat); GotOctet (u8 y); GotBuffer (Some 7%nat)] /\
       buffers u' !! 7%nat = Some (Buffer (Some [u8 x]) 1 1 1 0 []) /\ buffers u' !! 9%nat = Some next_buffer /\
       u8 <$> bus u' = []) (streaming_state [x; y]).
Proof.
  set (after b v log := Uart b 0xC (Some 0%nat) 0 None (Some 9%nat) 0 (Pl011 48000000 false false)
    {[7%nat := Buffer (Some [v]) 1 1 1 0 []; 9%nat := next_buffer]} log : rtuart (list Z) pl011 (list told)).
  eapply (wp_next_octet _ _ _ fifo_chip_laws (u8 x) [u8 y]); [done|]. intros b1 Hb1 Hx. apply wp_bind.
  unfold take_octet at 1. rewrite (proj2 (octet_is_clean _ Hx)).
  apply (wp_done _ tt (after b1 (u8 (u8 x)) [GotBuffer (Some 7%nat)])); [vm_compute; reflexivity|].
  eapply (wp_next_octet _ _ _ fifo_chip_laws (u8 y) []); [exact Hb1|]. intros b2 Hb2 Hy. apply wp_bind.
  unfold take_octet at 1. rewrite (proj2 (octet_is_clean _ Hy)).
  apply (wp_done _ tt (after b2 (u8 (u8 x)) [GotBuffer (Some 7%nat); GotOctet (u8 (u8 y)); GotBuffer (Some 7%nat)])); [vm_compute; reflexivity|].
  apply (wp_fifo_empty _ _ _ fifo_chip_laws); [exact Hb2|]. intros b3 Hb3. cbn [client buffers with_bus bus after]. rewrite Hy, Hx. by split.
Qed.

(** ** Fill levels *)

Section levels.
Context {B C : Type} (bops : rtuart_bus_ops B).
Abbreviation W := (rtuart B pl011 C).
Implicit Types u : W.
(** The register with the levels. *)
Record level_laws (levels : B -> Z) : Prop := {
  read_levels (b : B) : exists b' : B, rtuart_bus_read_u32 bops PL011_REG_IFLS b = Done (Some (levels b), b') /\ levels b' = levels b;
  write_levels v (b : B) : exists r (b' : B), rtuart_bus_write_u32 bops PL011_REG_IFLS v b = Done (r, b') /\ levels b' = u64 v;
  levels_width (b : B) : u64 (levels b) = levels b }.
Context (levels : B -> Z) (laws : level_laws levels).

Lemma u64_land x : u64 x = Z.land x (Z.ones 64).
Proof. unfold u64. by rewrite Z.land_ones. Qed.
(** A field of a register after [pl011_change_register]. *)
Lemma change_levels mask v u :
  mask <> 0 -> u64 (Z.land v mask) = Z.land v mask ->
  wp (change_reg bops PL011_REG_IFLS mask v)
    (fun _ u' => levels (bus u') = Z.lor (Z.ldiff (levels (bus u)) mask) (Z.land v mask)) u.
Proof.
  intros Hm Hw. unfold change_reg, pl011_change_register. rewrite (proj2 (Z.eqb_neq _ _)) by done.
  destruct (read_levels _ laws (bus u)) as (b1 & Hr & Hl1). apply wp_bind, wp_bind. eapply wp_read_pl011; [exact Hr|].
  rewrite (levels_width _ laws). set (new := Z.lor _ _).
  assert (u64 new = new) as Hn.
  { unfold new. rewrite u64_land, Z.land_lor_distr_l, <- !u64_land, Hw. f_equal. rewrite <- (levels_width _ laws) at 2. rewrite !u64_land.
    apply Z.bits_inj'. intros n Hn. rewrite !Z.land_spec, !Z.ldiff_spec, Z.land_spec. by destruct (Z.testbit (levels _) n), (Z.testbit mask n), (Z.testbit (Z.ones 64) n). }
  apply wp_if; intros Hc.
  - apply wp_ret, wp_ret. apply Z.eqb_eq in Hc. cbn. by rewrite Hl1, <- Hc.
  - destruct (write_levels _ laws new b1) as (r & b2 & Hw2 & Hl2). apply wp_bind. unfold wp at 1. unfold rtuart_write_u32, on_bus. cbn [bus with_bus]. rewrite Hw2.
    apply wp_ret, wp_ret. cbn. by rewrite Hl2, Hn.
Qed.
Lemma field_read_back x mask v : Z.land (Z.lor (Z.ldiff x mask) (Z.land v mask)) mask = Z.land v mask.
Proof.
  apply Z.bits_inj'. intros n Hn. rewrite !Z.land_spec, Z.lor_spec, Z.ldiff_spec, Z.land_spec. by destruct (Z.testbit x n), (Z.testbit v n), (Z.testbit mask n).
Qed.

(** A level of the receive FIFO is read back rounded up to a level that the
    chip has, up to 12; a higher level does not fit into the mask of two bits
    and becomes the lowest one. *)
Theorem rx_level_read_back level u :
  wp (spl011_set_rx_fifo_level bops level ;; spl011_rx_fifo_level bops)
    (fun r _ => r = if level <=? 2 then 2 else if level <=? 4 then 4 else if level <=? 8 then 8 else if level <=? 12 then 12 else 2) u.
Proof.
  apply wp_bind. eapply wp_mono; [apply change_levels; [done|]|].
  { unfold rx_level_bits. repeat destruct (_ <=? _); reflexivity. }
  cbn beta. intros _ u1 Hl. unfold spl011_rx_fifo_level. destruct (read_levels _ laws (bus u1)) as (b2 & Hr & _).
  apply wp_bind. eapply wp_read_pl011; [exact Hr|]. apply wp_ret. rewrite (levels_width _ laws), Hl. unfold rx_level_of. rewrite field_read_back.
  unfold rx_level_bits. repeat destruct (_ <=? _); reflexivity.
Qed.
End levels.

(** A chip with this register. *)
Definition level_chip : rtuart_bus_ops Z :=
  BusOps Z None None None None (Some (fun _ b => Done (u64 b, b))) (Some (fun _ v _ => Done (tt, v))) None None.
Lemma level_chip_laws : level_laws level_chip u64.
Proof.
  split.
  - intros b. by exists b.
  - intros v b. exists 0, (u64 v). split; [done|]. unfold u64. by rewrite Z.mod_mod.
  - intros b. unfold u64. by rewrite Z.mod_mod.
Qed.
Lemma rx_level_read_back_witness :
  wp (spl011_set_rx_fifo_level level_chip 14 ;; spl011_rx_fifo_level level_chip) (fun r _ => r = 2)
    (Uart 0 0 None 0 None None 0 (Pl011 48000000 false false) ∅ tt).
Proof. apply (rx_level_read_back level_chip u64 level_chip_laws 14). Defined.
