(* ===== verification/Pc16cx50.v ===== *)
(** * Register access of the stream UART: pc16cx50.c

    [src/simulation/uart/pc16cx50.c] with [pc16cx50.h] and
    [pc16cx50_registers.h]: a 16550 behind two functions that read and write a
    register, with shadows of the registers that cannot be read.  The first
    part is the code, the second the registers as the chip has them
    ([registers]) and what each operation does to them. *)
From stdpp Require Import base countable sets list.
From S2P Require Import Prelude.

Definition PC16550_REG_RBR : Z := 0.
Definition PC16550_REG_THR : Z := 0.
Definition PC16550_REG_IER : Z := 1.
Definition PC16550_REG_IIR : Z := 2.
Definition PC16550_REG_FCR : Z := 2.
Definition PC16550_REG_LCR : Z := 3.
Definition PC16550_REG_MCR : Z := 4.
Definition PC16550_REG_LSR : Z := 5.
Definition PC16550_REG_MSR : Z := 6.
Definition PC16550_REG_SCR : Z := 7.
Definition PC16550_REG_DLL : Z := 0.
Definition PC16550_REG_DLM : Z := 1.
Definition PC16C550_IER_RECEIVED_DATA_AVAILABLE : Z := Z.shiftl 1 0.
Definition PC16C550_IER_TRANSMITTER_HOLDING_REGISTER_EMPTY : Z := Z.shiftl 1 1.
Definition PC16C550_IER_RECEIVER_LINE_STATUS : Z := Z.shiftl 1 2.
Definition PC16C550_IER_MODEM_STATUS : Z := Z.shiftl 1 3.
Definition PC16C550_IIR_IRQ_NONE : Z := 1.
Definition PC16C550_IIR_IRQ_RECEIVER_LINE_STATUS : Z := 6.
Definition PC16C550_IIR_IRQ_RECEIVED_DATA_AVAILABLE : Z := 4.
Definition PC16C550_IIR_IRQ_CHARACTER_TIMEOUT : Z := 0xC.
Definition PC16C550_IIR_IRQ_TRANSMITTER_HOLDING_EMPTY : Z := 2.
Definition PC16C550_IIR_IRQ_MODEM_STATUS : Z := 0.
Definition PC16C550_IIR_IRQ_MASK : Z := 0xf.
Definition PC16C550_FCR_FIFO_ENABLE : Z := Z.shiftl 1 0.
Definition PC16C550_FCR_RCVR_FIFO_RESET : Z := Z.shiftl 1 1.
Definition PC16C550_FCR_XMIT_FIFO_RESET : Z := Z.shiftl 1 2.
Definition PC16C550_FCR_DMA_MODE0 : Z := Z.shiftl 0 3.
Definition PC16C550_FCR_DMA_MODE1 : Z := Z.shiftl 1 3.
Definition PC16C550_FCR_RCVR_TRIGGER_1BYTE : Z := Z.shiftl 0 6.
Definition PC16C550_FCR_RCVR_TRIGGER_4BYTE : Z := Z.shiftl 1 6.
Definition PC16C550_FCR_RCVR_TRIGGER_8BYTE : Z := Z.shiftl 2 6.
Definition PC16C550_FCR_RCVR_TRIGGER_14BYTE : Z := Z.shiftl 3 6.
Definition PC16C550_FCR_RCVR_TRIGGER_MASK : Z := Z.shiftl 3 6.
Definition PC16550_LCR_WLS0 : Z := Z.shiftl 1 0.
Definition PC16550_LCR_WLS1 : Z := Z.shiftl 1 1.
Definition PC16550_LCR_STB : Z := Z.shiftl 1 2.
Definition PC16550_LCR_PEN : Z := Z.shiftl 1 3.
Definition PC16550_LCR_EPS : Z := Z.shiftl 1 4.
Definition PC16550_LCR_STICK_PARITY : Z := Z.shiftl 1 5.
Definition PC16550_LCR_BREAK : Z := Z.shiftl 1 6.
Definition PC16550_LCR_DLAB : Z := Z.shiftl 1 7.
Definition PC16550_MCR_DTR : Z := Z.shiftl 1 0.
Definition PC16550_MCR_RTS : Z := Z.shiftl 1 1.
Definition PC16550_MCR_OUT1 : Z := Z.shiftl 1 2.
Definition PC16550_MCR_OUT2 : Z := Z.shiftl 1 3.
Definition PC16550_MCR_LOOP : Z := Z.shiftl 1 3.
Definition PC16550_LSR_DATA_READY : Z := Z.shiftl 1 0.
Definition PC16550_LSR_OVERRUN_ERROR : Z := Z.shiftl 1 1.
Definition PC16550_LSR_PARITY_ERROR : Z := Z.shiftl 1 2.
Definition PC16550_LSR_FRAMING_ERROR : Z := Z.shiftl 1 3.
Definition PC16550_LSR_BREAK_INTERRUPT : Z := Z.shiftl 1 4.
Definition PC16550_LSR_THRE : Z := Z.shiftl 1 5.
Definition PC16550_LSR_TRANSMITTER_EMPTY : Z := Z.shiftl 1 6.
Definition PC16550_LSR_ERROR_IN_RXFIFO : Z := Z.shiftl 1 7.
Definition PC16550_MSR_DCTS : Z := Z.shiftl 1 0.
Definition PC16550_MSR_DDSR : Z := Z.shiftl 1 1.
Definition PC16550_MSR_TERI : Z := Z.shiftl 1 2.
Definition PC16550_MSR_DDCD : Z := Z.shiftl 1 3.
Definition PC16550_MSR_CTS : Z := Z.shiftl 1 4.
Definition PC16550_MSR_DSR : Z := Z.shiftl 1 5.
Definition PC16550_MSR_RI : Z := Z.shiftl 1 6.
Definition PC16550_MSR_DCD : Z := Z.shiftl 1 7.

Definition PC16C550_FCR_RCVR_TRIGGER (level : Z) : Z :=
  if level =? 1 then PC16C550_FCR_RCVR_TRIGGER_1BYTE
  else if level =? 4 then PC16C550_FCR_RCVR_TRIGGER_4BYTE
  else if level =? 8 then PC16C550_FCR_RCVR_TRIGGER_8BYTE
  else if level =? 14 then PC16C550_FCR_RCVR_TRIGGER_14BYTE
  else -1.

(** ** The code *)

(** The functions behind [write_reg] and [read_reg]: the hardware, or what
    stands for it. *)
Class Regs (C : Type) := {
  write_reg : Z -> Z -> C -> C;
  read_reg : Z -> C -> Z * C }.

(** [struct pc16x50] *)
Record pc16x50 (C : Type) := Pc16x50 {
  reg_context : C;
  shadow_fcr : Z;              (* u8 *)
  mcr_shadow : Z }.            (* u8 *)
Arguments Pc16x50 {C}. Arguments reg_context {C}. Arguments shadow_fcr {C}. Arguments mcr_shadow {C}.

(** The format of a line: data bits, the letter of the parity, stop bits. *)
Definition char_e : Z := 101.
Definition char_n : Z := 110.
Definition char_o : Z := 111.
Definition char_0 : Z := 48.
Definition char_1 : Z := 49.
Definition parity_mask : Z := Z.lor (Z.lor PC16550_LCR_STICK_PARITY PC16550_LCR_PEN) PC16550_LCR_EPS.
Definition format_mask : Z := Z.lor (Z.lor (Z.lor PC16550_LCR_WLS0 PC16550_LCR_WLS1) PC16550_LCR_STB) parity_mask.
Definition parity_bits (parity : Z) : Z :=
  if parity =? char_e then Z.lor PC16550_LCR_PEN PC16550_LCR_EPS
  else if parity =? char_o then PC16550_LCR_PEN
  else if parity =? char_1 then Z.lor PC16550_LCR_STICK_PARITY PC16550_LCR_PEN
  else if parity =? char_0 then parity_mask
  else 0.
Definition bits2code (databits : Z) : Z :=
  nth (Z.to_nat (Z.land (databits - 5) 3)) [0; PC16550_LCR_WLS0; PC16550_LCR_WLS1; Z.lor PC16550_LCR_WLS0 PC16550_LCR_WLS1] 0.
Definition pc16x50_update_format_bits (lcr databits parity stopbits : Z) : Z :=
  let lcr := u8 (Z.land lcr (Z.lnot format_mask)) in
  let lcr := u8 (Z.lor lcr (bits2code databits)) in
  let lcr := u8 (Z.lor lcr (if 1 <? stopbits then PC16550_LCR_STB else 0)) in
  u8 (Z.lor lcr (parity_bits parity)).
Definition pc16x50_decode_format (lcr : Z) : Z * Z * Z :=
  let p := Z.land lcr parity_mask in
  (Z.land lcr 3 + 5,
   if p =? parity_mask then char_0
   else if p =? Z.lor PC16550_LCR_STICK_PARITY PC16550_LCR_PEN then char_1
   else if p =? Z.lor PC16550_LCR_PEN PC16550_LCR_EPS then char_e
   else if p =? PC16550_LCR_PEN then char_o
   else char_n,
   if has lcr PC16550_LCR_STB then 2 else 1).

Section access.
Context {C : Type} `{Regs C}.
Abbreviation access := (st (pc16x50 C)).

Definition pc16x50_init (reg_context : C) : pc16x50 C := Pc16x50 reg_context 0 0.
Definition pc16x50_reg_write (reg value : Z) : access unit :=
  st_modify (fun u => Pc16x50 (write_reg reg (u8 value) (reg_context u)) (shadow_fcr u) (mcr_shadow u)).
Definition pc16x50_reg_read (reg : Z) : access Z := fun u =>
  let '(v, c) := read_reg reg (reg_context u) in (u8 v, Pc16x50 c (shadow_fcr u) (mcr_shadow u)).
Definition pc16x50_reg_set_bits (reg bits : Z) : access unit :=
  v ← pc16x50_reg_read reg; pc16x50_reg_write reg (Z.lor v (u8 bits)).
Definition pc16x50_reg_clear_bits (reg bits : Z) : access unit :=
  v ← pc16x50_reg_read reg; pc16x50_reg_write reg (Z.land v (Z.lnot (u8 bits))).
Definition pc16x50_reg_change_bits (reg bits mask : Z) : access unit :=
  v ← pc16x50_reg_read reg;
  pc16x50_reg_write reg (Z.lor (Z.land (Z.lnot (u8 mask)) v) (Z.land (u8 mask) (u8 bits))).

Definition pc16x50_write_thr (value : Z) : access unit := pc16x50_reg_write PC16550_REG_THR value.
Definition pc16x50_read_rbr : access Z := pc16x50_reg_read PC16550_REG_RBR.

Definition pc16x50_read_ier : access Z := pc16x50_reg_read PC16550_REG_IER.
Definition pc16x50_write_ier (ier : Z) : access unit := pc16x50_reg_write PC16550_REG_IER ier.
Definition pc16x50_set_ier_bits (bits : Z) : access unit := pc16x50_reg_set_bits PC16550_REG_IER bits.
Definition pc16x50_clear_ier_bits (bits : Z) : access unit := pc16x50_reg_clear_bits PC16550_REG_IER bits.
Definition pc16x50_change_ier_bits (bits mask : Z) : access unit := pc16x50_reg_change_bits PC16550_REG_IER bits mask.

Definition pc16x50_read_isr : access Z := pc16x50_reg_read PC16550_REG_IIR.

Definition set_shadow_fcr (v : Z) : access unit := st_modify (fun u => Pc16x50 (reg_context u) (u8 v) (mcr_shadow u)).
Definition pc16x50_flush_tx_fifo : access unit :=
  f ← st_gets shadow_fcr; pc16x50_reg_write PC16550_REG_FCR (Z.lor f PC16C550_FCR_XMIT_FIFO_RESET).
Definition pc16x50_flush_rx_fifo : access unit :=
  f ← st_gets shadow_fcr; pc16x50_reg_write PC16550_REG_FCR (Z.lor f PC16C550_FCR_RCVR_FIFO_RESET).
Definition pc16x50_flush_txrx_fifo : access unit :=
  f ← st_gets shadow_fcr;
  pc16x50_reg_write PC16550_REG_FCR (Z.lor (Z.lor f PC16C550_FCR_RCVR_FIFO_RESET) PC16C550_FCR_XMIT_FIFO_RESET).
Definition pc16x50_enable_fifo : access unit :=
  f ← st_gets shadow_fcr; set_shadow_fcr (Z.lor f PC16C550_FCR_FIFO_ENABLE) ;;
  f ← st_gets shadow_fcr; pc16x50_reg_write PC16550_REG_FCR f.
Definition pc16x50_disable_fifo : access unit :=
  f ← st_gets shadow_fcr; set_shadow_fcr (Z.land f (Z.lnot PC16C550_FCR_FIFO_ENABLE)) ;;
  f ← st_gets shadow_fcr; pc16x50_reg_write PC16550_REG_FCR f.
(** 1 for a level that the chip does not have. *)
Definition pc16x50_set_fifo_trigger_level (level : Z) : access Z :=
  f ← st_gets shadow_fcr;
  let fcr := u8 (Z.land f (Z.lnot PC16C550_FCR_RCVR_TRIGGER_MASK)) in
  let set bits := (set_shadow_fcr (Z.lor fcr bits) ;; pc16x50_reg_write PC16550_REG_FCR (Z.lor fcr bits) ;; mret 0) in
  if level =? 1 then set PC16C550_FCR_RCVR_TRIGGER_1BYTE
  else if level =? 4 then set PC16C550_FCR_RCVR_TRIGGER_4BYTE
  else if level =? 8 then set PC16C550_FCR_RCVR_TRIGGER_8BYTE
  else if level =? 14 then set PC16C550_FCR_RCVR_TRIGGER_14BYTE
  else mret 1.

Definition pc16x50_set_baudrate_divisor (divisor : Z) : access unit :=
  let divisor := u16 divisor in
  lcr ← pc16x50_reg_read PC16550_REG_LCR;
  pc16x50_reg_write PC16550_REG_LCR (Z.lor lcr PC16550_LCR_DLAB) ;;
  pc16x50_reg_write PC16550_REG_DLL (u8 divisor) ;;
  pc16x50_reg_write PC16550_REG_DLM (u8 (Z.shiftr divisor 8)) ;;
  pc16x50_reg_write PC16550_REG_LCR lcr.
Definition pc16x50_get_baudrate_divisor : access Z :=
  lcr ← pc16x50_reg_read PC16550_REG_LCR;
  pc16x50_reg_write PC16550_REG_LCR (Z.lor lcr PC16550_LCR_DLAB) ;;
  low ← pc16x50_reg_read PC16550_REG_DLL;
  high ← pc16x50_reg_read PC16550_REG_DLM;
  pc16x50_reg_write PC16550_REG_LCR lcr ;;
  mret (u16 (Z.lor low (Z.shiftl high 8))).

Definition pc16x50_read_lcr : access Z := pc16x50_reg_read PC16550_REG_LCR.
Definition pc16x50_write_lcr (lcr : Z) : access unit := pc16x50_reg_write PC16550_REG_LCR lcr.
Definition pc16x50_set_lcr_bits (bits : Z) : access unit := pc16x50_reg_set_bits PC16550_REG_LCR bits.
Definition pc16x50_clear_lcr_bits (bits : Z) : access unit := pc16x50_reg_clear_bits PC16550_REG_LCR bits.
Definition pc16x50_change_lcr_bits (bits mask : Z) : access unit := pc16x50_reg_change_bits PC16550_REG_LCR bits mask.
Definition pc16x50_set_format (databits parity stopbits : Z) : access unit :=
  lcr ← pc16x50_read_lcr; pc16x50_write_lcr (pc16x50_update_format_bits lcr databits parity stopbits).
Definition pc16x50_get_format : access (Z * Z * Z) :=
  lcr ← pc16x50_read_lcr; mret (pc16x50_decode_format lcr).
Definition pc16x50_enable_break : access unit := pc16x50_set_lcr_bits PC16550_LCR_BREAK.
Definition pc16x50_disable_break : access unit := pc16x50_clear_lcr_bits PC16550_LCR_BREAK.

Definition pc16x50_read_mcr : access Z := st_gets mcr_shadow.
Definition pc16x50_write_mcr (mcr : Z) : access unit :=
  st_modify (fun u => Pc16x50 (reg_context u) (shadow_fcr u) (u8 mcr)) ;;
  pc16x50_reg_write PC16550_REG_MCR mcr.
Definition pc16x50_set_mcr_bits (bits : Z) : access unit :=
  m ← st_gets mcr_shadow; pc16x50_write_mcr (Z.lor m (u8 bits)).
Definition pc16x50_clear_mcr_bits (bits : Z) : access unit :=
  m ← st_gets mcr_shadow; pc16x50_write_mcr (Z.land m (Z.lnot (u8 bits))).
Definition pc16x50_change_mcr_bits (bits mask : Z) : access unit :=
  m ← st_gets mcr_shadow;
  pc16x50_write_mcr (Z.lor (Z.land (Z.lnot (u8 mask)) m) (Z.land (u8 mask) (u8 bits))).

Definition pc16x50_read_lsr : access Z := pc16x50_reg_read PC16550_REG_LSR.
Definition pc16x50_read_msr : access Z := pc16x50_reg_read PC16550_REG_MSR.
End access.

(** ** The registers of the chip *)

(** An octet on the line, the divisor of the bit rate with which and the
    format in which it is sent. *)
Record sent := Sent { s_octet : Z; s_divisor : Z; s_format : Z }.
#[export] Instance sent_eq_dec : EqDecision sent.
Proof. solve_decision. Defined.

Record registers := Registers {
  r_ier : Z; r_lcr : Z; r_mcr : Z; r_dll : Z; r_dlm : Z;
  r_line : list sent;          (* everything that was sent, oldest first *)
  r_held : list Z }.           (* what the transmitter holds, oldest first *)
Definition r_divisor (r : registers) : Z := Z.lor (r_dll r) (Z.shiftl (r_dlm r) 8).
Definition with_ier v r := Registers v (r_lcr r) (r_mcr r) (r_dll r) (r_dlm r) (r_line r) (r_held r).
Definition with_lcr v r := Registers (r_ier r) v (r_mcr r) (r_dll r) (r_dlm r) (r_line r) (r_held r).
Definition with_mcr v r := Registers (r_ier r) (r_lcr r) v (r_dll r) (r_dlm r) (r_line r) (r_held r).
Definition with_dll v r := Registers (r_ier r) (r_lcr r) (r_mcr r) v (r_dlm r) (r_line r) (r_held r).
Definition with_dlm v r := Registers (r_ier r) (r_lcr r) (r_mcr r) (r_dll r) v (r_line r) (r_held r).
Definition with_divisor d r := with_dlm (Z.shiftr d 8) (with_dll (u8 d) r).
Definition with_line l r := Registers (r_ier r) (r_lcr r) (r_mcr r) (r_dll r) (r_dlm r) l (r_held r).
Definition with_held l r := Registers (r_ier r) (r_lcr r) (r_mcr r) (r_dll r) (r_dlm r) (r_line r) l.

(** The transmitter is a FIFO of 16 octets in front of a shift register; an
    octet that finds both full is lost. *)
Definition TRANSMITTER : nat := 17.
Definition hold v r := if (length (r_held r) <? TRANSMITTER)%nat then with_held (r_held r ++ [v]) r else r.
(** An octet goes out with the settings there are when it is sent, not with
    those when it was written. *)
Definition in_settings r (v : Z) : sent := Sent v (r_divisor r) (Z.land (r_lcr r) format_mask).
Definition shift_out (n : nat) r := with_held (drop n (r_held r)) (with_line (r_line r ++ (in_settings r <$> take n (r_held r))) r).
(** The octets that the transmitter holds have gone out. *)
Definition drained r := shift_out (length (r_held r)) r.
(** An octet goes out at once. *)
Definition put_on_line v r := with_line (r_line r ++ [in_settings r v]) r.

(** Behind the first two numbers are the divisor latches while DLAB is set;
    a bit of the FIFO control throws away what the transmitter holds. *)
Definition latches (r : registers) : bool := has (r_lcr r) PC16550_LCR_DLAB.
Definition latch (reg v : Z) (r : registers) : registers :=
  if reg =? 0 then (if latches r then with_dll v r else hold v r)
  else if reg =? 1 then (if latches r then with_dlm v r else with_ier (Z.land v 0xF) r)
  else if reg =? 2 then (if has v PC16C550_FCR_XMIT_FIFO_RESET then with_held [] r else r)
  else if reg =? 3 then with_lcr v r
  else if reg =? 4 then with_mcr v r
  else r.

(** What the driver relies on: a 16550 keeps what is written to it; while the
    program runs, its transmitter sends what it holds, some of it between any
    two accesses; the line status says whether the FIFO ([THRE]) or all of the
    transmitter ([TEMT]) is empty.  The transmitter is seen busy [due] more
    times at most, [patience] times after an octet was written. *)
Class Chip (C : Type) `{Regs C} := {
  wires : C -> registers;
  due : C -> nat;
  patience : nat;
  write_latches reg v c : u8 v = v -> exists n, wires (write_reg reg v c) = latch reg v (shift_out n (wires c));
  read_shifts reg c : exists n, wires (read_reg reg c).2 = shift_out n (wires c);
  lcr_is c : (read_reg PC16550_REG_LCR c).1 = r_lcr (wires c);
  ier_is c : latches (wires c) = false -> (read_reg PC16550_REG_IER c).1 = r_ier (wires c);
  dll_is c : latches (wires c) = true -> (read_reg PC16550_REG_DLL c).1 = r_dll (wires c);
  dlm_is c : latches (wires c) = true -> (read_reg PC16550_REG_DLM c).1 = r_dlm (wires c);
  thre_means c : has (u8 (read_reg PC16550_REG_LSR c).1) PC16550_LSR_THRE = true ->
    (length (r_held (wires (read_reg PC16550_REG_LSR c).2)) <= 1)%nat;
  temt_means c : has (u8 (read_reg PC16550_REG_LSR c).1) PC16550_LSR_TRANSMITTER_EMPTY = true ->
    r_held (wires (read_reg PC16550_REG_LSR c).2) = [];
  read_due reg c : (due (read_reg reg c).2 <= due c)%nat;
  write_due reg v c : (due (write_reg reg v c) <= if (reg =? 0)%Z && negb (latches (wires c)) then patience else due c)%nat;
  lsr_due c : has (u8 (read_reg PC16550_REG_LSR c).1) PC16550_LSR_TRANSMITTER_EMPTY = false ->
    (due (read_reg PC16550_REG_LSR c).2 < due c)%nat;
  empty_is_ready c : has (u8 (read_reg PC16550_REG_LSR c).1) PC16550_LSR_TRANSMITTER_EMPTY = true ->
    has (u8 (read_reg PC16550_REG_LSR c).1) PC16550_LSR_THRE = true }.

(** The registers, and the line once the transmitter has sent what it holds:
    a setting that is changed before that changes what will be on the line. *)
Definition regs {C} `{Chip C} (c : C) : registers := drained (wires c).
Definition held {C} `{Chip C} (c : C) : nat := length (r_held (wires c)).
Definition idle {C} `{Chip C} (c : C) : Prop := held c = 0%nat.
Arguments regs {C _ _} c : simpl never.
Arguments held {C _ _} c : simpl never.
Arguments hold v r : simpl never.

Lemma drained_shift_out n r : drained (shift_out n r) = drained r.
Proof.
  unfold drained, shift_out, with_held, with_line. cbn. f_equal; [|by rewrite !drop_all].
  rewrite <- app_assoc. f_equal. rewrite !firstn_all, <- fmap_app. unfold in_settings. cbn. by rewrite take_drop.
Qed.
Lemma drained_hold v r : (length (r_held r) < TRANSMITTER)%nat -> drained (hold v r) = put_on_line v (drained r).
Proof.
  intros Hl%Nat.ltb_lt. unfold hold. rewrite Hl. unfold drained, shift_out, put_on_line, with_held, with_line, in_settings. cbn.
  rewrite !firstn_all, !drop_all, fmap_app, app_assoc. done.
Qed.
Lemma shift_out_idle n r : r_held r = [] -> shift_out n r = r.
Proof. intros E. unfold shift_out, with_held, with_line. rewrite E, take_nil, drop_nil. cbn. rewrite app_nil_r, <- E. by destruct r. Qed.
Lemma shift_out_length n r : (length (r_held (shift_out n r)) <= length (r_held r))%nat.
Proof. cbn. rewrite length_drop. lia. Qed.
Lemma drained_idle r : r_held r = [] -> drained r = r.
Proof. intros E. unfold drained. by apply shift_out_idle. Qed.
Lemma latch_held reg v r : (reg =? 0) && negb (latches r) = false -> (length (r_held (latch reg v r)) <= length (r_held r))%nat.
Proof.
  unfold latch. destruct (reg =? 0); cbn; [intros ->%negb_false_iff; cbn; lia|]. intros _. repeat case_match; cbn; lia.
Qed.

(** The registers hold octets, and the divisor latches are hidden. *)
Record tame (r : registers) : Prop := {
  ier_octet : u8 (r_ier r) = r_ier r;
  lcr_octet : u8 (r_lcr r) = r_lcr r;
  dll_octet : u8 (r_dll r) = r_dll r;
  dlm_octet : u8 (r_dlm r) = r_dlm r;
  latches_hidden : latches r = false }.

(** Setting a format keeps the break and the latch, and is read back. *)
Definition parities : list Z := [char_n; char_e; char_o; char_1; char_0].
Definition format_ok (d p s lcr : Z) : bool :=
  let l := pc16x50_update_format_bits lcr d p s in
  bool_decide (u8 l = l) && bool_decide (Z.land l 0xC0 = Z.land lcr 0xC0) && bool_decide (pc16x50_decode_format l = (d, p, s)).
Lemma all_formats_ok d p s lcr :
  5 <= d <= 8 -> p ∈ parities -> s = 1 \/ s = 2 -> u8 lcr = lcr ->
  let l := pc16x50_update_format_bits lcr d p s in
  u8 l = l /\ Z.land l 0xC0 = Z.land lcr 0xC0 /\ pc16x50_decode_format l = (d, p, s).
Proof.
  intros Hd Hp Hs Hl. assert (forallb (fun d => forallb (fun p => forallb (fun s => format_ok d p s lcr) [1; 2]) parities) [5; 6; 7; 8] = true) as H.
  { revert lcr Hl. apply octet_cases. vm_compute. reflexivity. }
  rewrite forallb_forall in H. ospecialize (H d _); [cbn; lia|]. rewrite forallb_forall in H. ospecialize (H p _); [by apply list_elem_of_In|].
  rewrite forallb_forall in H. ospecialize (H s _); [cbn; lia|]. unfold format_ok in H. rewrite !andb_true_iff, !bool_decide_eq_true in H.
  destruct H as [[? ?] ?]. by split_and!.
Qed.
(** Whatever the arguments are, the result is an octet with the same break and
    the same latch. *)
Lemma update_format_octet lcr d p s : u8 (pc16x50_update_format_bits lcr d p s) = pc16x50_update_format_bits lcr d p s.
Proof. apply u8_u8. Qed.
Lemma update_format_upper lcr d p s : u8 lcr = lcr -> Z.land (pc16x50_update_format_bits lcr d p s) 0xC0 = Z.land lcr 0xC0.
Proof.
  intros Hl. assert (exists d', 5 <= d' <= 8 /\ bits2code d = bits2code d') as (d' & Hd' & Ed).
  { pose proof (Z.mod_pos_bound (d - 5) 4 ltac:(lia)) as Hm. exists ((d - 5) mod 4 + 5). split; [lia|]. unfold bits2code. f_equal. f_equal.
    change 3 with (Z.ones 2). rewrite !Z.land_ones by lia. replace ((d - 5) mod 4 + 5 - 5) with ((d - 5) mod 4) by lia. by rewrite Z.mod_mod. }
  assert (exists s', (s' = 1 \/ s' = 2) /\ (1 <? s) = (1 <? s')) as (s' & Hs' & Es).
  { destruct (1 <? s); [exists 2|exists 1]; auto. }
  assert (exists p', p' ∈ parities /\ parity_bits p = parity_bits p') as (p' & Hp' & Ep).
  { destruct (decide (p ∈ parities)) as [|Hn]; [by exists p|]. exists char_n. split; [unfold parities; set_solver|].
    unfold parities in Hn. rewrite !not_elem_of_cons in Hn. unfold parity_bits. destruct Hn as (Hn & He & Ho & H1 & H0 & _).
    by rewrite !(proj2 (Z.eqb_neq _ _)). }
  assert (pc16x50_update_format_bits lcr d p s = pc16x50_update_format_bits lcr d' p' s') as ->.
  { unfold pc16x50_update_format_bits. by rewrite Ed, Es, Ep. }
  by apply all_formats_ok.
Qed.
Lemma latches_of r r' : Z.land (r_lcr r') 0xC0 = Z.land (r_lcr r) 0xC0 -> latches r' = latches r.
Proof.
  intros E. unfold latches, has. assert (forall x, Z.land x PC16550_LCR_DLAB = Z.land (Z.land x 0xC0) PC16550_LCR_DLAB) as Hx.
  { intros x. by rewrite <- Z.land_assoc. }
  by rewrite (Hx (r_lcr r')), E, <- Hx.
Qed.

(** ** What the operations do to the registers *)

Lemma latches_set r : latches (with_lcr (u8 (Z.lor (r_lcr r) PC16550_LCR_DLAB)) r) = true.
Proof.
  unfold latches. cbn [r_lcr with_lcr]. unfold has. apply negb_true_iff, Z.eqb_neq. intros E.
  apply (f_equal (fun z => Z.testbit z 7)) in E. revert E. unfold u8. rewrite Z.land_spec, Z.mod_pow2_bits_low by lia.
  rewrite Z.lor_spec. change (Z.testbit PC16550_LCR_DLAB 7) with true. by rewrite orb_true_r.
Qed.
Lemma high_octet d : u8 (Z.shiftr (u16 d) 8) = Z.shiftr (u16 d) 8.
Proof.
  apply octet_bounds. unfold u16. rewrite Z.shiftr_div_pow2 by lia. pose proof (Z.mod_pos_bound d (2 ^ 16) ltac:(lia)) as Hd.
  split; [apply Z.div_pos; lia|apply Z.div_lt_upper_bound; lia].
Qed.
Lemma divisor_joined d : Z.lor (u8 (u16 d)) (Z.shiftl (Z.shiftr (u16 d) 8) 8) = u16 d.
Proof.
  apply Z.bits_inj'. intros n Hn. rewrite Z.lor_spec. unfold u8. destruct (Z.ltb_spec n 8).
  - rewrite Z.mod_pow2_bits_low, Z.shiftl_spec_low, orb_false_r by lia. done.
  - rewrite Z.mod_pow2_bits_high, Z.shiftl_spec, Z.shiftr_spec by lia. cbn. f_equal. lia.
Qed.

(** The registers change by [f] and no octet is written. *)
Definition becomes {C} `{Chip C} (f : registers -> registers) (c c' : C) : Prop := regs c' = f (regs c) /\ (due c' <= due c)%nat /\ (held c' <= held c)%nat.
Ltac still_idle := unfold becomes, idle in *; cbn in *; lia.

Section operations.
Context {C : Type} `{Chip C}.
Implicit Types (u : pc16x50 C) (c : C).

Definition with_chip c u : pc16x50 C := Pc16x50 c (shadow_fcr u) (mcr_shadow u).
Lemma becomes_idle f c (c' : C) : becomes f c c' -> idle c -> idle c'.
Proof. unfold idle. intros (_ & _ & ?). lia. Qed.

Lemma idle_wires c : idle c -> r_held (wires c) = [] /\ regs c = wires c.
Proof. intros E%nil_length_inv. split; [done|]. by apply drained_idle. Qed.
Lemma read_keeps reg c : regs (read_reg reg c).2 = regs c /\ (held (read_reg reg c).2 <= held c)%nat.
Proof.
  destruct (read_shifts reg c) as [n E]. unfold regs, held. rewrite E. split; [apply drained_shift_out|apply shift_out_length].
Qed.
Lemma lcr_reads c : (read_reg PC16550_REG_LCR c).1 = r_lcr (regs c).
Proof. apply lcr_is. Qed.
Lemma ier_reads c : latches (regs c) = false -> (read_reg PC16550_REG_IER c).1 = r_ier (regs c).
Proof. apply (ier_is c). Qed.
Lemma dll_reads c : latches (regs c) = true -> (read_reg PC16550_REG_DLL c).1 = r_dll (regs c).
Proof. apply (dll_is c). Qed.
Lemma dlm_reads c : latches (regs c) = true -> (read_reg PC16550_REG_DLM c).1 = r_dlm (regs c).
Proof. apply (dlm_is c). Qed.
Lemma read_becomes reg c : becomes id c (read_reg reg c).2.
Proof. split; [apply read_keeps|]. split; [apply read_due|apply read_keeps]. Qed.

Lemma after_read reg (Q : Z -> pc16x50 C -> Prop) u :
  (forall c' : C, becomes id (reg_context u) c' -> Q (u8 (read_reg reg (reg_context u)).1) (with_chip c' u)) -> after (pc16x50_reg_read reg) Q u.
Proof.
  intros HQ. unfold after, pc16x50_reg_read. specialize (HQ (read_reg reg (reg_context u)).2).
  pose proof (read_becomes reg (reg_context u)) as Hb. destruct (read_reg _ _). by apply HQ.
Qed.
(** Settings are changed while the transmitter is idle. *)
Lemma after_write reg v (Q : unit -> pc16x50 C -> Prop) u :
  idle (reg_context u) -> (reg =? 0) && negb (latches (regs (reg_context u))) = false ->
  (forall c' : C, becomes (latch reg (u8 v)) (reg_context u) c' -> Q tt (with_chip c' u)) -> after (pc16x50_reg_write reg v) Q u.
Proof.
  intros Hi Hr HQ. apply HQ. destruct (idle_wires _ Hi) as [Hh Hw]. destruct (write_latches reg (u8 v) (reg_context u) (u8_u8 v)) as [n E].
  rewrite shift_out_idle in E by done. pose proof (latch_held reg (u8 v) _ Hr) as Hl. rewrite Hw, Hh in Hl. cbn in Hl.
  assert (r_held (wires (write_reg reg (u8 v) (reg_context u))) = []) as Hn by (rewrite E; apply nil_length_inv; lia).
  split; [rewrite Hw, <- E; by apply drained_idle|]. split.
  - pose proof (write_due reg (u8 v) (reg_context u)) as Hd. change (latches (wires (reg_context u))) with (latches (regs (reg_context u))) in Hd.
    by rewrite Hr in Hd.
  - unfold held. rewrite Hn. cbn. lia.
Qed.
(** An octet is written while there is room in the transmitter. *)
Lemma after_send v (Q : unit -> pc16x50 C -> Prop) u :
  latches (regs (reg_context u)) = false -> (held (reg_context u) < TRANSMITTER)%nat ->
  (forall c' : C, regs c' = put_on_line (u8 v) (regs (reg_context u)) -> (due c' <= patience)%nat -> (held c' <= S (held (reg_context u)))%nat ->
     Q tt (with_chip c' u)) ->
  after (pc16x50_write_thr v) Q u.
Proof.
  intros Hl Hr HQ. destruct (write_latches 0 (u8 v) (reg_context u) (u8_u8 v)) as [n E]. pose proof (shift_out_length n (wires (reg_context u))) as Hn.
  change (latch 0 (u8 v) (shift_out n (wires (reg_context u)))) with
    (if latches (regs (reg_context u)) then with_dll (u8 v) (shift_out n (wires (reg_context u))) else hold (u8 v) (shift_out n (wires (reg_context u)))) in E.
  rewrite Hl in E. unfold held in Hr. unfold after, pc16x50_write_thr, pc16x50_reg_write, st_modify, PC16550_REG_THR. cbn [fst snd]. apply HQ.
  - unfold regs. rewrite E, drained_hold by lia. by rewrite drained_shift_out.
  - pose proof (write_due 0 (u8 v) (reg_context u)) as Hd. change (latches (wires (reg_context u))) with (latches (regs (reg_context u))) in Hd. by rewrite Hl in Hd.
  - unfold held. rewrite E. unfold hold. case_match; cbn [r_held with_held]; rewrite ?length_app; cbn [length]; lia.
Qed.

Lemma becomes_trans f g (c c' c'' : C) : becomes f c c' -> becomes g c' c'' -> becomes (fun r => g (f r)) c c''.
Proof. unfold becomes. intros (-> & ? & ?) (-> & ? & ?). split_and!; [done|lia..]. Qed.
Lemma becomes_ext f g (c c' : C) : f (regs c) = g (regs c) -> becomes f c c' -> becomes g c c'.
Proof. unfold becomes. by intros ->. Qed.

(** While the transmitter is busy, looking at it brings its end closer. *)
Lemma after_lsr (Q : Z -> pc16x50 C -> Prop) u :
  (forall lsr (c' : C), becomes id (reg_context u) c' ->
     (has lsr PC16550_LSR_TRANSMITTER_EMPTY = false -> (due c' < due (reg_context u))%nat) ->
     (has lsr PC16550_LSR_TRANSMITTER_EMPTY = true -> has lsr PC16550_LSR_THRE = true /\ idle c') ->
     (has lsr PC16550_LSR_THRE = true -> (held c' <= 1)%nat) -> Q lsr (with_chip c' u)) ->
  after pc16x50_read_lsr Q u.
Proof.
  intros HQ. unfold after, pc16x50_read_lsr, pc16x50_reg_read. pose proof (lsr_due (reg_context u)) as Hd. pose proof (empty_is_ready (reg_context u)) as He.
  pose proof (temt_means (reg_context u)) as Ht. pose proof (thre_means (reg_context u)) as Hh. pose proof (read_becomes PC16550_REG_LSR (reg_context u)) as Hb.
  destruct (read_reg PC16550_REG_LSR (reg_context u)) as [v c]. cbn in *. apply HQ; [done|done| |done].
  intros Hm. split; [by apply He|]. unfold idle, held. by rewrite Ht.
Qed.

Lemma after_set_divisor d (Q : unit -> pc16x50 C -> Prop) u :
  tame (regs (reg_context u)) -> idle (reg_context u) ->
  (forall c' : C, becomes (with_divisor (u16 d)) (reg_context u) c' -> Q tt (with_chip c' u)) -> after (pc16x50_set_baudrate_divisor d) Q u.
Proof.
  intros Ht Hi HQ. unfold pc16x50_set_baudrate_divisor. apply after_bind, after_read. intros c1 H1. rewrite lcr_reads, (lcr_octet _ Ht).
  pose proof (latches_set (regs (reg_context u))) as Hs. destruct H1 as [E1 D1]. cbn in E1.
  apply after_bind, after_write; [still_idle|done|]. cbn [reg_context with_chip]. intros c2 [E2 D2].
  assert (latches (regs c2) = true) as L2 by (rewrite E2, E1; exact Hs).
  apply after_bind, after_write; cbn [reg_context with_chip]; [still_idle|by rewrite L2|]. intros c3 [E3 D3].
  assert (latches (regs c3) = true) as L3 by (rewrite E3; unfold latch; cbn; rewrite L2; unfold latches; cbn; by rewrite <- L2).
  apply after_bind, after_write; cbn [reg_context with_chip]; [still_idle|done|]. intros c4 [E4 D4].
  apply after_write; cbn [reg_context with_chip]; [still_idle|done|]. intros c5 [E5 D5]. apply HQ. split; [|lia].
  rewrite E5, E4, E3, E2, E1. unfold latch. cbn. rewrite Hs. cbn. unfold latches in *. cbn in *. rewrite Hs. cbn.
  rewrite (lcr_octet _ Ht), !u8_u8, high_octet. destruct (regs (reg_context u)). reflexivity.
Qed.
Lemma after_get_divisor (Q : Z -> pc16x50 C -> Prop) u :
  tame (regs (reg_context u)) -> idle (reg_context u) ->
  (forall c' : C, becomes id (reg_context u) c' -> Q (u16 (r_divisor (regs (reg_context u)))) (with_chip c' u)) -> after pc16x50_get_baudrate_divisor Q u.
Proof.
  intros Ht Hi HQ. unfold pc16x50_get_baudrate_divisor. apply after_bind, after_read. intros c1 [E1 D1]. rewrite lcr_reads, (lcr_octet _ Ht).
  pose proof (latches_set (regs (reg_context u))) as Hs. cbn in E1.
  apply after_bind, after_write; [still_idle|done|]. cbn [reg_context with_chip]. intros c2 [E2 D2].
  assert (latches (regs c2) = true) as L2 by (rewrite E2, E1; exact Hs).
  apply after_bind, after_read. cbn [reg_context with_chip]. intros c3 [E3 D3]. rewrite dll_reads by done. cbn in E3.
  apply after_bind, after_read. cbn [reg_context with_chip]. intros c4 [E4 D4]. rewrite dlm_reads by (by rewrite E3). cbn in E4.
  apply after_bind, after_write; cbn [reg_context with_chip]; [still_idle|done|]. intros c5 [E5 D5]. apply after_ret.
  assert (Z.lor (u8 (r_dll (regs c2))) (Z.shiftl (u8 (r_dlm (regs c3))) 8) = r_divisor (regs (reg_context u))) as ->.
  { rewrite E3, E2, E1. cbn. by rewrite (dll_octet _ Ht), (dlm_octet _ Ht). }
  apply HQ. split; [|lia]. rewrite E5, E4, E3, E2, E1. cbn. rewrite (lcr_octet _ Ht). by destruct (regs (reg_context u)).
Qed.
Lemma after_set_format d p s (Q : unit -> pc16x50 C -> Prop) u :
  tame (regs (reg_context u)) -> idle (reg_context u) ->
  (forall c' : C, becomes (fun r => with_lcr (pc16x50_update_format_bits (r_lcr r) d p s) r) (reg_context u) c' -> Q tt (with_chip c' u)) ->
  after (pc16x50_set_format d p s) Q u.
Proof.
  intros Ht Hi HQ. apply after_bind, after_read. intros c1 [E1 D1]. rewrite lcr_reads, (lcr_octet _ Ht).
  apply after_write; [still_idle|done|]. intros c2 [E2 D2]. apply HQ. split; [|cbn in D2; lia]. rewrite E2. cbn. rewrite E1, update_format_octet. done.
Qed.
Lemma after_get_format (Q : Z * Z * Z -> pc16x50 C -> Prop) u :
  tame (regs (reg_context u)) -> idle (reg_context u) ->
  (forall c' : C, becomes id (reg_context u) c' -> Q (pc16x50_decode_format (r_lcr (regs (reg_context u)))) (with_chip c' u)) -> after pc16x50_get_format Q u.
Proof. intros Ht Hi HQ. apply after_bind, after_read. intros c1 H1. rewrite lcr_reads, (lcr_octet _ Ht). by apply HQ. Qed.
Lemma after_set_ier bits (Q : unit -> pc16x50 C -> Prop) u :
  tame (regs (reg_context u)) -> idle (reg_context u) ->
  (forall c' : C, becomes (fun r => with_ier (Z.land (u8 (Z.lor (r_ier r) (u8 bits))) 0xF) r) (reg_context u) c' -> Q tt (with_chip c' u)) ->
  after (pc16x50_set_ier_bits bits) Q u.
Proof.
  intros Ht Hi HQ. apply after_bind, after_read. intros c1 [E1 D1]. rewrite ier_reads, (ier_octet _ Ht) by apply Ht.
  apply after_write; [still_idle|done|]. intros c2 [E2 D2]. apply HQ. split; [|cbn in D2; lia]. rewrite E2. cbn. rewrite E1. cbn.
  unfold latch. cbn. by rewrite (latches_hidden _ Ht).
Qed.
Lemma after_clear_ier bits (Q : unit -> pc16x50 C -> Prop) u :
  tame (regs (reg_context u)) -> idle (reg_context u) ->
  (forall c' : C, becomes (fun r => with_ier (Z.land (u8 (Z.land (r_ier r) (Z.lnot (u8 bits)))) 0xF) r) (reg_context u) c' -> Q tt (with_chip c' u)) ->
  after (pc16x50_clear_ier_bits bits) Q u.
Proof.
  intros Ht Hi HQ. apply after_bind, after_read. intros c1 [E1 D1]. rewrite ier_reads, (ier_octet _ Ht) by apply Ht.
  apply after_write; [still_idle|done|]. intros c2 [E2 D2]. apply HQ. split; [|cbn in D2; lia]. rewrite E2. cbn. rewrite E1. cbn.
  unfold latch. cbn. by rewrite (latches_hidden _ Ht).
Qed.
Lemma after_change_mcr bits mask (Q : unit -> pc16x50 C -> Prop) u :
  idle (reg_context u) ->
  (forall c' m, m = u8 (Z.lor (Z.land (Z.lnot (u8 mask)) (mcr_shadow u)) (Z.land (u8 mask) (u8 bits))) ->
     becomes (with_mcr m) (reg_context u) c' -> Q tt (Pc16x50 c' (shadow_fcr u) m)) ->
  after (pc16x50_change_mcr_bits bits mask) Q u.
Proof.
  intros Hi HQ. unfold pc16x50_change_mcr_bits, pc16x50_write_mcr. apply after_bind, after_gets, after_bind, after_modify.
  apply after_write; [still_idle|done|]. cbn [reg_context with_chip]. intros c' Hc. cbn. eapply HQ; [reflexivity|exact Hc].
Qed.
Lemma fifo_reset_idle v c : latch PC16550_REG_FCR v (regs c) = id (regs c).
Proof.
  assert (r_held (regs c) = []) as E by (unfold regs, drained, shift_out; cbn; apply drop_all).
  unfold latch, id. cbn. destruct (has v _); [|done]. unfold with_held. destruct (regs c). cbn in *. by rewrite E.
Qed.
Lemma after_flush_rx (Q : unit -> pc16x50 C -> Prop) u :
  idle (reg_context u) -> (forall c' : C, becomes id (reg_context u) c' -> Q tt (with_chip c' u)) -> after pc16x50_flush_rx_fifo Q u.
Proof. intros Hi HQ. apply after_bind, after_gets, after_write; [done|done|]. intros c' Hc. apply HQ. eapply becomes_ext; [|exact Hc]. apply fifo_reset_idle. Qed.
End operations.

(** ** Settings keep the registers tame, and are read back *)

Lemma tame_divisor d r : tame r -> tame (with_divisor (u16 d) r).
Proof. intros []. split; cbn; try done; [apply u8_u8|apply high_octet]. Qed.
Lemma tame_format d p s r : tame r -> tame (with_lcr (pc16x50_update_format_bits (r_lcr r) d p s) r).
Proof.
  intros Ht. pose proof Ht as []. split; cbn; try done; [apply update_format_octet|]. rewrite <- (latches_hidden _ Ht).
  apply latches_of. by apply update_format_upper.
Qed.
Lemma tame_ier v r : tame r -> tame (with_ier (Z.land (u8 v) 0xF) r).
Proof. intros []. split; cbn; try done. apply octet_land, u8_u8. Qed.
Lemma tame_mcr v r : tame r -> tame (with_mcr v r).
Proof. by intros []. Qed.
Lemma tame_line v r : tame r -> tame (put_on_line v r).
Proof. by intros []. Qed.

(** The bit rate and the format of the line are independent settings: setting
    both while the transmitter is empty, each is read back, and the interrupts,
    the lines of the modem and what was sent stay as they are. *)
Theorem settings_read_back {C} `{Chip C} (u : pc16x50 C) divisor databits parity stopbits :
  tame (regs (reg_context u)) -> idle (reg_context u) -> 5 <= databits <= 8 -> parity ∈ parities -> stopbits = 1 \/ stopbits = 2 ->
  after (pc16x50_set_format databits parity stopbits ;; pc16x50_set_baudrate_divisor divisor ;;
         f ← pc16x50_get_format; d ← pc16x50_get_baudrate_divisor; mret (f, d))
    (fun r u' => r = (databits, parity, stopbits, u16 divisor) /\ tame (regs (reg_context u')) /\
       r_line (regs (reg_context u')) = r_line (regs (reg_context u)) /\ r_ier (regs (reg_context u')) = r_ier (regs (reg_context u)) /\
       r_mcr (regs (reg_context u')) = r_mcr (regs (reg_context u))) u.
Proof.
  intros Ht Hi Hd Hp Hs. apply after_bind, after_set_format; [done|done|]. intros c1 [E1 D1].
  assert (tame (regs c1)) as T1 by (rewrite E1; by apply tame_format).
  apply after_bind, after_set_divisor; [done|still_idle|]. intros c2 [E2 D2]. cbn in E2.
  assert (tame (regs c2)) as T2 by (rewrite E2; by apply tame_divisor).
  apply after_bind, after_get_format; [done|still_idle|]. intros c3 [E3 D3]. cbn in E3.
  apply after_bind, after_get_divisor; cbn; [by rewrite E3|still_idle|]. intros c4 [E4 D4]. cbn in E4. apply after_ret.
  cbn. rewrite E4, E3, E2, E1. cbn.
  destruct (all_formats_ok databits parity stopbits (r_lcr (regs (reg_context u))) Hd Hp Hs (lcr_octet _ Ht)) as (_ & _ & Hf).
  split_and!; [|rewrite <- E1, <- E2; done|done|done|done]. rewrite Hf. f_equal. unfold r_divisor. cbn.
  rewrite divisor_joined. unfold u16. by rewrite Z.mod_mod.
Qed.

(** ** The receiver of the chip *)

(** What arrives: octets, and conditions of the line. *)
Inductive item := Octet (v : Z) | Status (lsr : Z).

(** The conditions in the line status: overrun, parity, framing, break. *)
Definition errors : Z := 0x1E.

(** What the driver relies on: the chip reports what is at the head of its
    FIFO; an octet is taken by reading it, a condition by reading the line
    status, and a break leaves an octet 0 behind it.  The cause of an empty
    transmitter is gone when it was reported; [thre] more of them may come, and
    [quiet] more octets may be reported because nothing came after them. *)
Class Receiver (C : Type) `{Chip C} := {
  incoming : C -> list item;
  thre : C -> nat;
  quiet : C -> nat;
  isr_reports c : let isr := u8 (read_reg PC16550_REG_IIR c).1 in let c' := (read_reg PC16550_REG_IIR c).2 in
    incoming c' = incoming c /\ (thre c' <= thre c)%nat /\ (quiet c' <= quiet c)%nat /\
    ((Z.land isr 1 <> 0 /\ incoming c = []) \/
     (Z.land isr PC16C550_IIR_IRQ_MASK = PC16C550_IIR_IRQ_TRANSMITTER_HOLDING_EMPTY /\ (thre c' < thre c)%nat) \/
     match incoming c with
     | [] => False
     | Octet _ :: _ => Z.land isr PC16C550_IIR_IRQ_MASK = PC16C550_IIR_IRQ_RECEIVED_DATA_AVAILABLE \/
                       Z.land isr PC16C550_IIR_IRQ_MASK = PC16C550_IIR_IRQ_CHARACTER_TIMEOUT /\ (quiet c' < quiet c)%nat
     | Status _ :: _ => Z.land isr PC16C550_IIR_IRQ_MASK = PC16C550_IIR_IRQ_RECEIVER_LINE_STATUS
     end);
  rbr_takes c v l : latches (regs c) = false -> incoming c = Octet v :: l ->
    let r := read_reg PC16550_REG_RBR c in u8 r.1 = u8 v /\ incoming r.2 = l /\ (thre r.2 <= thre c)%nat /\ (quiet r.2 <= quiet c)%nat;
  lsr_takes c x l : incoming c = Status x :: l ->
    let r := read_reg PC16550_REG_LSR c in
    Z.land (u8 r.1) errors = Z.land x errors /\ (thre r.2 <= thre c)%nat /\ (quiet r.2 <= quiet c)%nat /\
    incoming r.2 = if has x PC16550_LSR_BREAK_INTERRUPT then Octet 0 :: l else l }.

(** A chip that has sent nothing at the first look at its line status, all but
    the last octet at the second, and all at the third: the laws can be met. *)
Record small_chip := SmallChip { sc_regs : registers; sc_due : nat; sc_incoming : list item }.
Definition sc_busy (due : nat) : Z := match due with O => 0x60 | 1%nat => 0x20 | _ => 0 end.
Definition sc_status (due : nat) (l : list item) : Z :=
  Z.lor (match l with Status x :: _ => Z.land x errors | _ => 0 end) (sc_busy due).
Definition sc_after_status (l : list item) : list item :=
  match l with Status x :: l => if has x PC16550_LSR_BREAK_INTERRUPT then Octet 0 :: l else l | _ => l end.
Definition sc_sent (due : nat) (r : registers) : registers :=
  shift_out (match due with O => length (r_held r) | 1%nat => pred (length (r_held r)) | _ => 0%nat end) r.
Definition sc_read (reg : Z) (c : small_chip) : Z * small_chip :=
  let r := sc_regs c in
  if reg =? 0 then
    if latches r then (r_dll r, c)
    else match sc_incoming c with Octet v :: l => (v, SmallChip r (sc_due c) l) | _ => (0, c) end
  else if reg =? 1 then (if latches r then r_dlm r else r_ier r, c)
  else if reg =? 2 then (match sc_incoming c with [] => 1 | Octet _ :: _ => 4 | Status _ :: _ => 6 end, c)
  else if reg =? 3 then (r_lcr r, c)
  else if reg =? 5 then
    (sc_status (sc_due c) (sc_incoming c), SmallChip (sc_sent (sc_due c) r) (pred (sc_due c)) (sc_after_status (sc_incoming c)))
  else (0, c).
#[export] Instance small_regs : Regs small_chip := {|
  write_reg reg v c := SmallChip (latch reg v (sc_regs c)) (if (reg =? 0) && negb (latches (sc_regs c)) then 2%nat else sc_due c) (sc_incoming c);
  read_reg := sc_read |}.
Lemma shift_out_0 r : shift_out 0 r = r.
Proof. unfold shift_out, with_held, with_line. cbn. rewrite app_nil_r. by destruct r. Qed.
Lemma sc_read_cases reg c : (exists n, sc_regs (sc_read reg c).2 = shift_out n (sc_regs c)) /\ (sc_due (sc_read reg c).2 <= sc_due c)%nat.
Proof.
  unfold sc_read. destruct (reg =? 5) eqn:E5; [apply Z.eqb_eq in E5; subst reg; cbn; split; [by eexists|lia]|].
  repeat case_match; cbn; (split; [exists 0%nat; by rewrite shift_out_0|lia]).
Qed.
Lemma sc_status_bits due l :
  has (u8 (sc_status due l)) PC16550_LSR_TRANSMITTER_EMPTY = (due =? 0)%nat /\ has (u8 (sc_status due l)) PC16550_LSR_THRE = (due <=? 1)%nat /\
  Z.land (u8 (sc_status due l)) errors = match l with Status x :: _ => Z.land x errors | _ => 0 end.
Proof.
  unfold sc_status. set (e := match l with Status x :: _ => Z.land x errors | _ => 0 end).
  assert (exists x, e = Z.land x errors) as [x ->] by (unfold e; destruct l as [|[v|x] l]; [by exists 0|by exists 0|by exists x]).
  assert (Z.land x errors = Z.land (u8 x) errors) as -> by (unfold errors; by rewrite u8_land, <- Z.land_assoc).
  pose proof (u8_u8 x) as Hx. revert Hx. generalize (u8 x). clear x. intros x Hx.
  assert (forall y b b', u8 y = y -> let z := u8 (Z.lor (Z.land y errors) (if b : bool then 0x60 else if b' : bool then 0x20 else 0)) in
    bool_decide (has z PC16550_LSR_TRANSMITTER_EMPTY = b) && bool_decide (has z PC16550_LSR_THRE = b || b') && bool_decide (Z.land z errors = Z.land y errors) = true) as H.
  { intros y b b'. revert y. apply octet_cases. destruct b, b'; vm_compute; reflexivity. }
  specialize (H x (due =? 0)%nat (due =? 1)%nat Hx). cbn zeta in H. rewrite !andb_true_iff, !bool_decide_eq_true in H.
  by destruct due as [|[|due]]; cbn in *; tauto.
Qed.
#[export] Instance small_chip_laws : Chip small_chip.
Proof.
  refine {| wires := sc_regs; due := sc_due; patience := 2 |}; try done.
  - intros reg v c _. exists 0%nat. by rewrite shift_out_0.
  - intros reg c. apply sc_read_cases.
  - intros c Hl. cbn. by rewrite Hl.
  - intros c Hl. cbn. by rewrite Hl.
  - intros c Hl. cbn. by rewrite Hl.
  - intros c. change (read_reg PC16550_REG_LSR c) with (sc_status (sc_due c) (sc_incoming c), SmallChip (sc_sent (sc_due c) (sc_regs c)) (pred (sc_due c)) (sc_after_status (sc_incoming c))).
    cbn [fst snd sc_regs]. destruct (sc_status_bits (sc_due c) (sc_incoming c)) as (_ & -> & _). unfold sc_sent.
    destruct (sc_due c) as [|[|]]; [..|done]; intros _; cbn [shift_out with_held r_held]; rewrite length_drop; lia.
  - intros c. change (read_reg PC16550_REG_LSR c) with (sc_status (sc_due c) (sc_incoming c), SmallChip (sc_sent (sc_due c) (sc_regs c)) (pred (sc_due c)) (sc_after_status (sc_incoming c))).
    cbn [fst snd sc_regs]. destruct (sc_status_bits (sc_due c) (sc_incoming c)) as (-> & _ & _). unfold sc_sent.
    destruct (sc_due c) as [|]; [|done]. intros _. apply drop_all.
  - intros reg c. apply sc_read_cases.
  - intros c. change (read_reg PC16550_REG_LSR c).1 with (sc_status (sc_due c) (sc_incoming c)).
    destruct (sc_status_bits (sc_due c) (sc_incoming c)) as (-> & _ & _). cbn. intros Hd%Nat.eqb_neq. lia.
  - intros c. change (read_reg PC16550_REG_LSR c).1 with (sc_status (sc_due c) (sc_incoming c)).
    destruct (sc_status_bits (sc_due c) (sc_incoming c)) as (-> & -> & _). destruct (sc_due c); [done|discriminate].
Defined.
#[export] Instance small_chip_receives : Receiver small_chip.
Proof.
  refine {| incoming := sc_incoming; thre := fun _ => 0%nat; quiet := fun _ => 0%nat |}.
  - intros c. cbn. split_and!; [done..|]. destruct (sc_incoming c) as [|[v|x] l]; [by left|right; right; by left|by right; right].
  - intros c v l Hl E. change (read_reg PC16550_REG_RBR c) with (sc_read 0 c). unfold sc_read. change (latches (sc_regs c) = false) in Hl. cbn in *. by rewrite Hl, E.
  - intros c x l E. change (read_reg PC16550_REG_LSR c) with (sc_status (sc_due c) (sc_incoming c), SmallChip (sc_sent (sc_due c) (sc_regs c)) (pred (sc_due c)) (sc_after_status (sc_incoming c))).
    destruct (sc_status_bits (sc_due c) (sc_incoming c)) as (_ & _ & Hs). cbn [fst snd]. rewrite Hs. cbn. by rewrite E.
Defined.
Definition reset_registers : registers := Registers 0 0 0 1 0 [] [].
Lemma reset_is_tame : tame reset_registers.
Proof. by split. Qed.
Definition small_uart : pc16x50 small_chip := pc16x50_init (SmallChip reset_registers 0 []).

Lemma settings_read_back_witness :
  after (pc16x50_set_format 8 char_n 2 ;; pc16x50_set_baudrate_divisor 25 ;; f ← pc16x50_get_format; d ← pc16x50_get_baudrate_divisor; mret (f, d))
    (fun r u' => r = (8, char_n, 2, u16 25) /\ tame (regs (reg_context u')) /\
       r_line (regs (reg_context u')) = r_line (regs (reg_context small_uart)) /\ r_ier (regs (reg_context u')) = r_ier (regs (reg_context small_uart)) /\
       r_mcr (regs (reg_context u')) = r_mcr (regs (reg_context small_uart))) small_uart.
Proof. apply (settings_read_back small_uart 25 8 char_n 2); [apply reset_is_tame|done|lia|unfold parities; set_solver|by right]. Defined.
