(* ===== verification/StreamUart.v ===== *)
(** * The stream UART: streamuart.c and streamuart_event.c

    [src/simulation/suart]: a UART behind two queues of events.  Everything
    goes through them, octets as well as settings, so that a setting takes
    effect between the octets before and after it.  The queues are kfifos of
    the kernel, which are not in the repository: the class [Kfifo] has their
    documented operations and [KfifoLaws] what they do. *)
From stdpp Require Import base countable list.
From S2P Require Import Prelude.

(** ** kfifo *)

Class Kfifo (F : Type -> Type) := {
  INIT_KFIFO {A} : nat -> F A;                      (* with the size of DECLARE_KFIFO *)
  kfifo_in {A} : list A -> F A -> nat * F A;
  kfifo_out {A} : nat -> F A -> list A * F A;
  kfifo_peek {A} : F A -> option A;
  kfifo_len {A} : F A -> nat;
  kfifo_avail {A} : F A -> nat }.

Class KfifoLaws (F : Type -> Type) `{Kfifo F} := {
  contents {A} : F A -> list A;
  init_contents {A} n : contents (INIT_KFIFO n : F A) = [];
  init_avail {A} n : kfifo_avail (INIT_KFIFO n : F A) = n;
  in_contents {A} l (q : F A) : contents (kfifo_in l q).2 = contents q ++ take (kfifo_avail q) l;
  in_avail {A} l (q : F A) : kfifo_avail (kfifo_in l q).2 = (kfifo_avail q - length l)%nat;
  in_count {A} l (q : F A) : (kfifo_in l q).1 = (kfifo_avail q `min` length l)%nat;
  out_result {A} n (q : F A) : (kfifo_out n q).1 = take n (contents q);
  out_contents {A} n (q : F A) : contents (kfifo_out n q).2 = drop n (contents q);
  out_avail {A} n (q : F A) : kfifo_avail (kfifo_out n q).2 = (kfifo_avail q + (n `min` length (contents q)))%nat;
  peek_head {A} (q : F A) : kfifo_peek q = head (contents q);
  len_length {A} (q : F A) : kfifo_len q = length (contents q) }.

(** [kfifo_in(fifo, buffer, n)] reads as many elements of the buffer as there
    is room for; an element that was never written is [None]. *)
Definition u32 (z : Z) : Z := z mod 2 ^ 32.
Fixpoint initialised {A} (l : list (option A)) : outcome (list A) :=
  match l with
  | [] => Done []
  | None :: _ => Fault Uninitialised
  | Some v :: l => vs ← initialised l; Done (v :: vs)
  end.
Definition kfifo_copy {F} `{Kfifo F} {A} (buffer : list (option A)) (n : Z) (q : F A) : outcome (F A) :=
  l ← load_all 0 (Z.to_nat (u32 n) `min` kfifo_avail q) buffer;
  l ← initialised l;
  Done (kfifo_in l q).2.

(** ** Events: streamuart_event.c *)

Definition SUART_LINE_RTS : Z := Z.shiftl 1 0.
Definition SUART_LINE_CTS : Z := Z.shiftl 1 1.
Definition SUART_LINE_DTR : Z := Z.shiftl 1 2.
Definition SUART_LINE_DSR : Z := Z.shiftl 1 3.
Definition SUART_LINE_DCD : Z := Z.shiftl 1 4.
Definition SUART_LINE_RI : Z := Z.shiftl 1 5.
Definition SUART_LINE_OUT0 : Z := Z.shiftl 1 6.
Definition SUART_LINE_OUT1 : Z := Z.shiftl 1 7.
Definition SUART_LINE_GPIO0 : Z := Z.shiftl 1 8.
Definition SUART_OCTETS_PER_INLINE_DATA_CHUNK : Z := 14.

(** [struct suart_event_s], a union by [event_type].  The octets of inline
    data are those that were written; [Data] points to memory elsewhere. *)
Inductive suart_event : Type :=
  | Shutdown
  | Echo (eventid : Z)
  | SetBaudrate (value : Z)
  | GetBaudrate (value : Z)
  | SetFormat (databits parity stopbits : Z)
  | GetFormat (databits parity stopbits : Z)
  | SetHandshake (handshake : Z)
  | GetHandshake (handshake : Z)
  | Data (data : option (list Z)) (count : Z)
  | DataInline (count : Z) (data : list Z)
  | EnableTx | DisableTx | EnableRx | DisableRx
  | ChangeLine (mask value : Z)
  | EnableNotification | DisableNotification
  | LineStatus (mask value : Z).

#[export] Instance suart_event_eq_dec : EqDecision suart_event.
Proof. solve_decision. Defined.

Definition suart_event_set_format (databits parity stopbits : Z) : suart_event := SetFormat (u8 databits) parity (u8 stopbits).
Definition suart_event_enable_tx : suart_event := EnableTx.
Definition suart_event_disable_tx : suart_event := DisableTx.
Definition suart_event_enable_rx : suart_event := EnableRx.
Definition suart_event_disable_rx : suart_event := DisableRx.
Definition suart_event_change_line (mask value : Z) : suart_event := ChangeLine (u32 mask) (u32 value).
Definition suart_event_change_baudrate (baudrate : Z) : suart_event := SetBaudrate (u32 baudrate).
(** The value of the event is not written; it is when the event comes back. *)
Definition suart_event_query_baudrate (old : Z) : suart_event := GetBaudrate old.
Definition suart_event_echo (value : Z) : suart_event := Echo (u32 value).

(** [None] is the result -1, with which no event is written. *)
Definition suart_event_data_inline_small_va (count : Z) (args : list Z) : outcome (option suart_event) :=
  if SUART_OCTETS_PER_INLINE_DATA_CHUNK <? count then Done None
  else l ← load_all 0 (Z.to_nat count) args; Done (Some (DataInline (u8 count) (u8 <$> l))).
Definition suart_event_data_inline_small (data : list Z) (count : Z) : outcome (option suart_event) :=
  if SUART_OCTETS_PER_INLINE_DATA_CHUNK <? count then Done None
  else l ← load_all 0 (Z.to_nat count) data; Done (Some (DataInline (u8 count) l)).

(** The loop of [suart_event_data_inline]; each round takes an octet at
    least, so that their number is fuel enough. *)
Fixpoint inline_events (fuel : nat) (pdata remain : Z) (data : list Z) : outcome (list suart_event) :=
  if remain <=? 0 then Done [] else
  match fuel with
  | O => Fault OutOfFuel
  | S fuel =>
      let chunksize := if SUART_OCTETS_PER_INLINE_DATA_CHUNK <? remain then SUART_OCTETS_PER_INLINE_DATA_CHUNK else remain in
      l ← load_all pdata (Z.to_nat chunksize) data;
      es ← inline_events fuel (pdata + chunksize) (remain - chunksize) data;
      Done (DataInline (u8 chunksize) l :: es)
  end.
(** The events that are written from the first one on; their number is the
    result. *)
Definition suart_event_data_inline (maxevents : Z) (data : list Z) (count : Z) : outcome (option (list suart_event)) :=
  if maxevents <? Z.quot (count + 6) SUART_OCTETS_PER_INLINE_DATA_CHUNK then Done None
  else es ← inline_events (Z.to_nat count) 0 count data; Done (Some es).

(** ** The queues: streamuart.c *)

Section queues.
Context {F : Type -> Type} `{Kfifo F}.

(** [struct suart_s]; wait queues are known by name, and [woken] has the
    calls of [wake_up_interruptible]. *)
Record suart_s := Suart {
  txfifo : F suart_event;
  rxfifo : F suart_event;
  txwaitqueue : Z;
  rxwaitqueue : Z;
  woken : list Z }.
Definition EVENTS : nat := 128.

Definition suart_init (tx rx : Z) (u : suart_s) : suart_s := Suart (INIT_KFIFO EVENTS) (INIT_KFIFO EVENTS) tx rx (woken u).
Definition wake_up_interruptible (q : Z) : prog suart_s unit :=
  modify (fun u => Suart (txfifo u) (rxfifo u) (txwaitqueue u) (rxwaitqueue u) (woken u ++ [q])).
Definition set_txfifo (q : F suart_event) (u : suart_s) : suart_s := Suart q (rxfifo u) (txwaitqueue u) (rxwaitqueue u) (woken u).
Definition set_rxfifo (q : F suart_event) (u : suart_s) : suart_s := Suart (txfifo u) q (txwaitqueue u) (rxwaitqueue u) (woken u).

Definition suart_wakeup : prog suart_s unit := u ← get_state; wake_up_interruptible (txwaitqueue u).
(** The number that was put in is not returned, although the type says so. *)
Definition suart_put_txevents (e : list (option suart_event)) (count : Z) : prog suart_s unit :=
  u ← get_state; q ← lift_outcome (kfifo_copy e count (txfifo u));
  modify (set_txfifo q) ;; suart_wakeup.
Definition suart_get_txevents (count : Z) : prog suart_s (list suart_event) :=
  u ← get_state; let '(l, q) := kfifo_out (Z.to_nat (u32 count)) (txfifo u) in modify (set_txfifo q) ;; mret l.
Definition suart_peek_txevent : prog suart_s (option suart_event) := gets (fun u => kfifo_peek (txfifo u)).
Definition suart_put_rxevents (e : list (option suart_event)) (count : Z) : prog suart_s unit :=
  u ← get_state; q ← lift_outcome (kfifo_copy e count (rxfifo u));
  modify (set_rxfifo q) ;; wake_up_interruptible (rxwaitqueue u).
Definition suart_get_rxevents (count : Z) : prog suart_s (list suart_event) :=
  u ← get_state; let '(l, q) := kfifo_out (Z.to_nat (u32 count)) (rxfifo u) in modify (set_rxfifo q) ;; mret l.
Definition suart_txspace : prog suart_s nat := gets (fun u => kfifo_avail (txfifo u)).
Definition suart_txavailable : prog suart_s nat := gets (fun u => kfifo_len (txfifo u)).
Definition suart_rxspace : prog suart_s nat := gets (fun u => kfifo_avail (rxfifo u)).
Definition suart_rxavailable : prog suart_s nat := gets (fun u => kfifo_len (rxfifo u)).
Definition suart_txwaitqueue : prog suart_s Z := gets txwaitqueue.
Definition suart_rxwaitqueue : prog suart_s Z := gets rxwaitqueue.
End queues.
Arguments suart_s F : clear implicits.

(** ** Splitting octets into events *)

Definition payload (e : suart_event) : list Z :=
  match e with DataInline _ d => d | _ => [] end.
(** An event that carries between 1 and 14 octets, and says how many. *)
Definition carries (e : suart_event) : Prop :=
  exists d, e = DataInline (Z.of_nat (length d)) d /\ (1 <= length d <= 14)%nat.

Lemma inline_events_split fuel : forall p n (d : list Z), (n <= fuel)%nat -> (p + n <= length d)%nat ->
  exists es, inline_events fuel (Z.of_nat p) (Z.of_nat n) d = Done es /\ concat (payload <$> es) = take n (drop p d) /\
    Forall carries es /\ Z.of_nat (length es) = (Z.of_nat n + 13) / 14.
Proof.
  induction fuel as [|fuel IH]; intros p n d Hf Hn; cbn [inline_events].
  { assert (n = 0)%nat as -> by lia. exists []. by rewrite take_0. }
  destruct (Z.leb_spec (Z.of_nat n) 0) as [|Hpos].
  { assert (n = 0)%nat as -> by lia. exists []. by rewrite take_0. }
  set (c := if SUART_OCTETS_PER_INLINE_DATA_CHUNK <? Z.of_nat n then SUART_OCTETS_PER_INLINE_DATA_CHUNK else Z.of_nat n).
  unfold SUART_OCTETS_PER_INLINE_DATA_CHUNK in c.
  remember (14 `min` n)%nat as k eqn:Ek. assert (c = Z.of_nat k) as -> by (unfold c; destruct (Z.ltb_spec 14 (Z.of_nat n)); lia).
  rewrite Nat2Z.id, load_all_nat by (lia). cbn. replace (Z.of_nat p + Z.of_nat k) with (Z.of_nat (p + k)) by lia.
  replace (Z.of_nat n - Z.of_nat k) with (Z.of_nat (n - k)) by (lia).
  destruct (IH (p + k)%nat (n - k)%nat d) as (es & -> & Hes & Hc & Hl); [lia..|]. cbn.
  assert (length (take k (drop p d)) = k) as Hk by (rewrite length_take, length_drop; lia).
  eexists. split; [done|]. split; [|split].
  - cbn. rewrite Hes. replace (drop (p + k) d) with (drop k (drop p d)) by (rewrite drop_drop; f_equal; lia).
    rewrite take_take_drop. f_equal. lia.
  - constructor; [|done]. exists (take k (drop p d)). rewrite Hk. split; [|lia]. f_equal. apply Z.mod_small. lia.
  - cbn. rewrite Nat2Z.inj_succ, Hl. Z.to_euclidean_division_equations. lia.
Qed.

(** All events but the last one are full. *)
Lemma inline_events_prefix fuel : forall p n (d : list Z) es, (p + n <= length d)%nat ->
  inline_events fuel (Z.of_nat p) (Z.of_nat n) d = Done es -> forall k, concat (payload <$> take k es) = take ((14 * k) `min` n) (drop p d).
Proof.
  induction fuel as [|fuel IH]; intros p n d es Hn He k; cbn [inline_events] in He; destruct (Z.leb_spec (Z.of_nat n) 0) as [|Hpos]; try done.
  1, 2: injection He as <-; assert (n = 0)%nat as -> by lia; by rewrite take_nil, Nat.min_0_r, take_0.
  remember (14 `min` n)%nat as c eqn:Ec.
  assert ((if SUART_OCTETS_PER_INLINE_DATA_CHUNK <? Z.of_nat n then SUART_OCTETS_PER_INLINE_DATA_CHUNK else Z.of_nat n) = Z.of_nat c) as Hc.
  { unfold SUART_OCTETS_PER_INLINE_DATA_CHUNK. destruct (Z.ltb_spec 14 (Z.of_nat n)); lia. }
  rewrite Hc, Nat2Z.id, load_all_nat in He by lia. cbn [mbind outcome_bind] in He.
  replace (Z.of_nat p + Z.of_nat c) with (Z.of_nat (p + c)) in He by lia. replace (Z.of_nat n - Z.of_nat c) with (Z.of_nat (n - c)) in He by lia.
  destruct (inline_events fuel _ _ d) as [es'|] eqn:E; [|done]. injection He as <-. destruct k as [|k]; [by rewrite Nat.mul_0_r, Nat.min_0_l, take_0|].
  cbn [take fmap list_fmap concat payload]. change (list_fmap suart_event (list Z) payload (take k es')) with (payload <$> take k es').
  rewrite (IH (p + c)%nat (n - c)%nat d es' ltac:(lia) E k). replace (drop (p + c) d) with (drop c (drop p d)) by (rewrite drop_drop; f_equal; lia).
  rewrite take_take_drop. f_equal. lia.
Qed.

(** Octets survive being split into events: the octets of the events, one
    behind the other, are the octets that were given; every event carries
    between 1 and 14 of them and there are no more events than needed.  The
    check of the space may still be too weak by one event. *)
Theorem inline_data_roundtrip maxevents (data : list Z) (count : nat) :
  (count <= length data)%nat -> (Z.of_nat count + 6) / 14 <= maxevents ->
  exists es, suart_event_data_inline maxevents data (Z.of_nat count) = Done (Some es) /\
    concat (payload <$> es) = take count data /\ Forall carries es /\
    Z.of_nat (length es) = (Z.of_nat count + 13) / 14 /\ Z.of_nat (length es) <= maxevents + 1.
Proof.
  intros Hc Hm. unfold suart_event_data_inline, SUART_OCTETS_PER_INLINE_DATA_CHUNK.
  rewrite Z.quot_div_nonneg by lia. rewrite (proj2 (Z.ltb_ge _ _)) by lia. rewrite Nat2Z.id.
  destruct (inline_events_split count 0 count data) as (es & He & Hj & Hf & Hl); [lia..|]. change (Z.of_nat 0) with 0 in He. rewrite He.
  exists es. split; [done|]. rewrite drop_0 in Hj. split_and!; try done. rewrite Hl. Z.to_euclidean_division_equations. lia.
Qed.
Lemma inline_data_roundtrip_witness :
  exists es, suart_event_data_inline 2 (Z.of_nat <$> seq 0 30) 30 = Done (Some es) /\
    concat (payload <$> es) = take 30 (Z.of_nat <$> seq 0 30) /\ Forall carries es /\
    Z.of_nat (length es) = (30 + 13) / 14 /\ Z.of_nat (length es) <= 2 + 1.
Proof. apply (inline_data_roundtrip 2 (Z.of_nat <$> seq 0 30) 30); [vm_compute; lia|vm_compute; discriminate]. Defined.

(** ** The queues are lists *)

Lemma initialised_some {A} (l : list A) : initialised (Some <$> l) = Done l.
Proof. induction l as [|v l IH]; cbn; [done|]. change (list_fmap A (option A) Some l) with (Some <$> l). by rewrite IH. Qed.
Lemma u32_small n : 0 <= n < 2 ^ 32 -> u32 n = n.
Proof. apply Z.mod_small. Qed.

Section fifo.
Context {F : Type -> Type} `{KfifoLaws F}.

Lemma copy_fits {A} (l : list A) rest (q : F A) n :
  n = Z.of_nat (length l) -> Z.of_nat (length l) < 2 ^ 32 -> (length l <= kfifo_avail q)%nat ->
  exists q' : F A, kfifo_copy ((Some <$> l) ++ rest) n q = Done q' /\ contents q' = contents q ++ l /\
    kfifo_avail q' = (kfifo_avail q - length l)%nat.
Proof.
  intros -> Hn Ha. unfold kfifo_copy. rewrite u32_small by lia. rewrite Nat2Z.id, Nat.min_l by done.
  rewrite (load_all_nat _ 0) by (rewrite length_app, length_fmap; lia). rewrite drop_0, take_app_le by (rewrite length_fmap; lia).
  rewrite take_ge by (by rewrite length_fmap). cbn [mbind outcome_bind]. rewrite initialised_some. eexists. split; [done|].
  rewrite in_contents, in_avail, take_ge by done. done.
Qed.

Lemma wp_put_txevents l rest n (Q : unit -> suart_s F -> Prop) u :
  n = Z.of_nat (length l) -> Z.of_nat (length l) < 2 ^ 32 -> (length l <= kfifo_avail (txfifo u))%nat ->
  (forall q w, contents q = contents (txfifo u) ++ l -> kfifo_avail q = (kfifo_avail (txfifo u) - length l)%nat ->
     Q tt (Suart q (rxfifo u) (txwaitqueue u) (rxwaitqueue u) w)) ->
  wp (suart_put_txevents ((Some <$> l) ++ rest) n) Q u.
Proof.
  intros Hn Hb Ha HQ. destruct (copy_fits l rest (txfifo u) n Hn Hb Ha) as (q & Hq & Hc & Hv).
  unfold suart_put_txevents, suart_wakeup, wake_up_interruptible. wp_step. wp_step. wp_step. eapply wp_done; [unfold lift_outcome; by rewrite Hq|].
  do 5 wp_step. by apply HQ.
Qed.
Lemma wp_put_rxevents l rest n (Q : unit -> suart_s F -> Prop) u :
  n = Z.of_nat (length l) -> Z.of_nat (length l) < 2 ^ 32 -> (length l <= kfifo_avail (rxfifo u))%nat ->
  (forall q w, contents q = contents (rxfifo u) ++ l -> kfifo_avail q = (kfifo_avail (rxfifo u) - length l)%nat ->
     Q tt (Suart (txfifo u) q (txwaitqueue u) (rxwaitqueue u) w)) ->
  wp (suart_put_rxevents ((Some <$> l) ++ rest) n) Q u.
Proof.
  intros Hn Hb Ha HQ. destruct (copy_fits l rest (rxfifo u) n Hn Hb Ha) as (q & Hq & Hc & Hv).
  unfold suart_put_rxevents, wake_up_interruptible. wp_step. wp_step. wp_step. eapply wp_done; [unfold lift_outcome; by rewrite Hq|].
  do 3 wp_step. by apply HQ.
Qed.
Lemma wp_get_txevent (Q : list suart_event -> suart_s F -> Prop) u :
  (forall q, contents q = drop 1 (contents (txfifo u)) -> kfifo_avail q = (kfifo_avail (txfifo u) + (1 `min` length (contents (txfifo u))))%nat ->
     Q (take 1 (contents (txfifo u))) (set_txfifo q u)) ->
  wp (suart_get_txevents 1) Q u.
Proof.
  intros HQ. unfold suart_get_txevents. wp_step. wp_step. change (Z.to_nat (u32 1)) with 1%nat.
  pose proof (out_result 1 (txfifo u)) as Hr. pose proof (out_contents 1 (txfifo u)) as Hc. pose proof (out_avail 1 (txfifo u)) as Ha.
  destruct (kfifo_out 1 (txfifo u)) as [l q]. cbn in Hr, Hc, Ha. subst l. do 3 wp_step. by apply HQ.
Qed.
Lemma wp_get_rxevent (Q : list suart_event -> suart_s F -> Prop) u :
  (forall q, contents q = drop 1 (contents (rxfifo u)) -> kfifo_avail q = (kfifo_avail (rxfifo u) + (1 `min` length (contents (rxfifo u))))%nat ->
     Q (take 1 (contents (rxfifo u))) (set_rxfifo q u)) ->
  wp (suart_get_rxevents 1) Q u.
Proof.
  intros HQ. unfold suart_get_rxevents. wp_step. wp_step. change (Z.to_nat (u32 1)) with 1%nat.
  pose proof (out_result 1 (rxfifo u)) as Hr. pose proof (out_contents 1 (rxfifo u)) as Hc. pose proof (out_avail 1 (rxfifo u)) as Ha.
  destruct (kfifo_out 1 (rxfifo u)) as [l q]. cbn in Hr, Hc, Ha. subst l. do 3 wp_step. by apply HQ.
Qed.
End fifo.

(** A kfifo that is a list with the room behind it: the laws can be met. *)
Record list_fifo (A : Type) := ListFifo { lf_room : nat; lf_list : list A }.
Arguments ListFifo {A}. Arguments lf_room {A}. Arguments lf_list {A}.
#[export] Instance list_kfifo : Kfifo list_fifo := {|
  INIT_KFIFO A n := ListFifo n [];
  kfifo_in A l q := ((lf_room q `min` length l)%nat, ListFifo (lf_room q - length l) (lf_list q ++ take (lf_room q) l));
  kfifo_out A n q := (take n (lf_list q), ListFifo (lf_room q + (n `min` length (lf_list q))) (drop n (lf_list q)));
  kfifo_peek A q := head (lf_list q);
  kfifo_len A q := length (lf_list q);
  kfifo_avail A q := lf_room q |}.
#[export] Instance list_kfifo_laws : KfifoLaws list_fifo.
Proof. refine {| contents := @lf_list |}; by intros. Defined.
