(* ===== verification/SuartDriver.v ===== *)
(** * The thread of the stream UART: dmx512_suart.c, first part

    [src/simulation/dmx512_suart.c] up to [suart_pc16x50_delete]: a thread
    carries out the events of the transmit queue on a 16550 and puts what
    arrives there into the receive queue.  The chip is behind [Regs] of
    [Pc16cx50.v]; what other threads do while this one sleeps is the parameter
    [wait]. *)
From stdpp Require Import base countable list.
From S2P Require Import Prelude Pc16cx50 StreamUart.

Definition WaitForReceiveDataTimeout_ms : Z := 20.
Definition UartIdleTimeout_ms : Z := 2000.

(** [struct suart_pc16x50] *)
Record suart_pc16x50 (F : Type -> Type) (C : Type) := SuartPc {
  suart : suart_s F;
  uart : pc16x50 C;
  base_clock : Z;
  rxenabled : Z;
  txbuffer : F Z;
  rxbuffer : F Z }.
Arguments SuartPc {F C}. Arguments suart {F C}. Arguments uart {F C}. Arguments base_clock {F C}.
Arguments rxenabled {F C}. Arguments txbuffer {F C}. Arguments rxbuffer {F C}.
Definition BUFFER : nat := 1024.

Definition suart_line_to_mcr (v : Z) : Z :=
  let x := if has v SUART_LINE_RTS then PC16550_MCR_RTS else 0 in
  let x := Z.lor x (if has v SUART_LINE_DTR then PC16550_MCR_DTR else 0) in
  let x := Z.lor x (if has v SUART_LINE_OUT0 then PC16550_MCR_OUT1 else 0) in
  let x := Z.lor x (if has v SUART_LINE_OUT1 then PC16550_MCR_OUT2 else 0) in
  Z.lor x (if has v SUART_LINE_GPIO0 then PC16550_MCR_LOOP else 0).
Definition is_rxdata_interrupt (isr : Z) : bool :=
  (Z.land isr PC16C550_IIR_IRQ_MASK =? PC16C550_IIR_IRQ_RECEIVED_DATA_AVAILABLE)
  || (Z.land isr PC16C550_IIR_IRQ_MASK =? PC16C550_IIR_IRQ_CHARACTER_TIMEOUT).
(** An octet of [char] where it is signed. *)
Definition char (z : Z) : Z := (z + 2 ^ 7) mod 2 ^ 8 - 2 ^ 7.

Section driver.
Context {F : Type -> Type} `{Kfifo F} {C : Type} `{Regs C}.
Abbreviation W := (suart_pc16x50 F C).
Abbreviation driver := (prog W).
Implicit Types s : W.

Definition with_suart u s : W := SuartPc u (uart s) (base_clock s) (rxenabled s) (txbuffer s) (rxbuffer s).
Definition with_uart u s : W := SuartPc (suart s) u (base_clock s) (rxenabled s) (txbuffer s) (rxbuffer s).
Definition with_rxenabled r s : W := SuartPc (suart s) (uart s) (base_clock s) r (txbuffer s) (rxbuffer s).
Definition with_txbuffer q s : W := SuartPc (suart s) (uart s) (base_clock s) (rxenabled s) q (rxbuffer s).
Definition with_rxbuffer q s : W := SuartPc (suart s) (uart s) (base_clock s) (rxenabled s) (txbuffer s) q.
Definition on_uart {A} (m : st (pc16x50 C) A) : driver A := on_part uart with_uart m.
Definition on_suart {A} (m : prog (suart_s F) A) : driver A := fun s =>
  match m (suart s) with Done (a, u) => Done (a, with_suart u s) | Fault f => Fault f end.

Definition suart_pc16x50_change_line (mask value : Z) : driver unit :=
  on_uart (pc16x50_change_mcr_bits (suart_line_to_mcr value) (suart_line_to_mcr mask)).

(** ** What arrives *)

Definition rxbuffer_out (n : nat) : driver (list Z) :=
  s ← get_state; let '(t, q) := kfifo_out n (rxbuffer s) in modify (with_rxbuffer q) ;; mret t.
(** One event is put into the queue even if none was made. *)
Definition flush_rxbuffer_fifo_one_entry : driver unit :=
  t ← rxbuffer_out 14;
  let count := Z.of_nat (length t) in
  when (0 <? count)
    (ret ← lift_outcome (suart_event_data_inline 1 t count);
     let e := match ret with Some es => Some <$> es | None => [None] end in
     if (1 <? length e)%nat then raise OutOfBounds else on_suart (suart_put_rxevents e 1)).
Fixpoint flush_loop (fuel : nat) : driver unit :=
  n ← gets (fun s => kfifo_len (rxbuffer s));
  if (0 <? n)%nat then
    match fuel with O => raise OutOfFuel | S fuel => flush_rxbuffer_fifo_one_entry ;; flush_loop fuel end
  else mret tt.
(** Every round takes an octet. *)
Definition flush_rxbuffer_fifo : driver unit := n ← gets (fun s => kfifo_len (rxbuffer s)); flush_loop n.
Definition write_to_rxbuffer_fifo (c : Z) : driver unit :=
  modify (fun s => with_rxbuffer (kfifo_in [c] (rxbuffer s)).2 s) ;;
  l ← gets (fun s => kfifo_len (rxbuffer s));
  when (14 <=? l)%nat flush_rxbuffer_fifo_one_entry.
Definition send_line_status_event (linestatus : Z) : driver unit :=
  on_suart (suart_put_rxevents [Some (LineStatus 0xff linestatus)] 1).

(** One cause of an interrupt. *)
Definition handle_cause (isr : Z) : driver unit :=
  if is_rxdata_interrupt isr then
    c ← on_uart pc16x50_read_rbr;
    write_to_rxbuffer_fifo c ;;
    when (Z.land isr PC16C550_IIR_IRQ_MASK =? PC16C550_IIR_IRQ_CHARACTER_TIMEOUT) flush_rxbuffer_fifo
  else
    flush_rxbuffer_fifo ;;
    when (Z.land isr PC16C550_IIR_IRQ_MASK =? PC16C550_IIR_IRQ_RECEIVER_LINE_STATUS)
      (lsr ← on_uart pc16x50_read_lsr;
       when (has lsr PC16550_LSR_OVERRUN_ERROR) (on_uart pc16x50_flush_rx_fifo) ;;
       when (has lsr PC16550_LSR_BREAK_INTERRUPT) (_ ← on_uart pc16x50_read_rbr; mret tt) ;;
       send_line_status_event lsr).
Fixpoint interrupt_loop (fuel : nat) (isr : Z) : driver unit :=
  if Z.land isr 1 =? 0 then
    match fuel with
    | O => raise OutOfFuel
    | S fuel => handle_cause isr ;; isr ← on_uart pc16x50_read_isr; interrupt_loop fuel isr
    end
  else mret tt.
Definition handle_all_pending_interrupts (fuel : nat) : driver unit :=
  isr ← on_uart pc16x50_read_isr; interrupt_loop fuel isr.

(** ** What is sent *)

Definition txbuffer_in (data : list Z) (count : Z) : driver unit :=
  s ← get_state; q ← lift_outcome (kfifo_copy (Some <$> data) count (txbuffer s)); modify (with_txbuffer q).
(** The memory behind a data event. *)
Definition data_in (data : option (list Z)) (count : Z) : driver unit :=
  d ← (if count =? 0 then mret [] else deref data); txbuffer_in d count.
Definition put_back (e : suart_event) : driver unit := on_suart (suart_put_rxevents [Some e] 1).

Definition handle_one_event (e : suart_event) : driver Z :=
  let oversampling := 16 in
  match e with
  | Echo _ => put_back e ;; mret 0
  | SetBaudrate value =>
      s ← get_state;
      if value =? 0 then raise DivideByZero
      else on_uart (pc16x50_set_baudrate_divisor (u32 (base_clock s / oversampling / value))) ;; mret 0
  | GetBaudrate _ =>
      divisor ← on_uart pc16x50_get_baudrate_divisor;
      s ← get_state;
      put_back (GetBaudrate (if divisor =? 0 then 0 else u32 (base_clock s / oversampling / divisor))) ;; mret 0
  | SetFormat databits parity stopbits => on_uart (pc16x50_set_format databits parity (char stopbits)) ;; mret 0
  | GetFormat _ _ _ =>
      f ← on_uart pc16x50_get_format;
      let '(databits, parity, stopbits) := f in
      put_back (GetFormat (u8 databits) parity (u8 stopbits)) ;; mret 0
  | Data data count => data_in data count ;; mret 2
  | DataInline count data => txbuffer_in data count ;; mret 2
  | EnableTx => on_uart (pc16x50_set_ier_bits PC16C550_IER_TRANSMITTER_HOLDING_REGISTER_EMPTY) ;; mret 0
  | DisableTx => on_uart (pc16x50_clear_ier_bits PC16C550_IER_TRANSMITTER_HOLDING_REGISTER_EMPTY) ;; mret 0
  | EnableRx =>
      modify (with_rxenabled 1) ;;
      on_uart pc16x50_flush_rx_fifo ;;
      on_uart (pc16x50_set_ier_bits PC16C550_IER_RECEIVED_DATA_AVAILABLE) ;; mret 0
  | DisableRx =>
      modify (with_rxenabled 0) ;;
      on_uart (pc16x50_clear_ier_bits PC16C550_IER_RECEIVED_DATA_AVAILABLE) ;; mret 0
  | ChangeLine mask value => suart_pc16x50_change_line mask value ;; mret 0
  | _ => mret 0
  end.

Fixpoint wait_until_transmitter_empty (fuel : nat) : driver unit :=
  lsr ← on_uart pc16x50_read_lsr;
  if has lsr PC16550_LSR_TRANSMITTER_EMPTY then mret tt
  else match fuel with O => raise OutOfFuel | S fuel => wait_until_transmitter_empty fuel end.

Definition is_data (e : suart_event) : bool := match e with Data _ _ | DataInline _ _ => true | _ => false end.
Definition fetch_one (e : suart_event) : driver unit :=
  match e with Data data count => data_in data count | DataInline count data => txbuffer_in data count | _ => mret tt end.
Fixpoint fetch_loop (fuel : nat) : driver unit :=
  e ← on_suart suart_peek_txevent;
  match e with
  | Some e =>
      if is_data e then
        match fuel with
        | O => raise OutOfFuel
        | S fuel =>
            es ← on_suart (suart_get_txevents 1);
            match es with e :: _ => fetch_one e | [] => mret tt end ;; fetch_loop fuel
        end
      else mret tt
  | None => mret tt
  end.
(** Every round takes an event. *)
Definition fetch_as_much_data_events_as_possible : driver unit :=
  n ← on_suart suart_txavailable; fetch_loop n.

Fixpoint write_all (l : list Z) : driver unit :=
  match l with [] => mret tt | v :: l => on_uart (pc16x50_write_thr v) ;; write_all l end.
Definition transmit_as_much_as_possible : driver Z :=
  l ← gets (fun s => kfifo_len (txbuffer s));
  if (0 <? l)%nat then
    lsr ← on_uart pc16x50_read_lsr;
    let space := if has lsr PC16550_LSR_TRANSMITTER_EMPTY then 17%nat else if has lsr PC16550_LSR_THRE then 16%nat else 0%nat in
    when (0 <? space)%nat
      (s ← get_state;
       let '(tmp, q) := kfifo_out (space `min` l) (txbuffer s) in
       modify (with_txbuffer q) ;; write_all tmp) ;;
    mret (Z.of_nat l)
  else mret 0.

(** The events up to the first one with data: 2 after data, -1 at the end of
    the thread, 0 when the queue is empty. *)
Fixpoint event_loop (fuel : nat) : driver Z :=
  n ← on_suart suart_txavailable;
  if (0 <? n)%nat then
    match fuel with
    | O => raise OutOfFuel
    | S fuel =>
        es ← on_suart (suart_get_txevents 1);
        match es with
        | Shutdown :: _ => mret (-1)
        | e :: _ =>
            ret ← handle_one_event e;
            if ret =? 2 then fetch_as_much_data_events_as_possible ;; _ ← transmit_as_much_as_possible; mret 2
            else event_loop fuel
        | [] => event_loop fuel
        end
    end
  else mret 0.
(** [polls]: how often the transmitter is looked at until it is empty. *)
Definition handle_all_pending_events (polls : nat) : driver Z :=
  l ← gets (fun s => kfifo_len (txbuffer s));
  if (0 <? l)%nat then
    fetch_as_much_data_events_as_possible ;; _ ← transmit_as_much_as_possible; mret 0
  else
    lsr ← on_uart pc16x50_read_lsr;
    if negb (has lsr PC16550_LSR_THRE) then mret 0 else
    when (negb (has lsr PC16550_LSR_TRANSMITTER_EMPTY)) (wait_until_transmitter_empty polls) ;;
    n ← on_suart suart_txavailable; event_loop n.

(** ** The thread *)

(** [wait ms] is [wait_event_interruptible_timeout] on the transmit queue. *)
Context (wait : Z -> driver Z).

Definition handler_round (fuel polls : nat) : driver bool :=
  handle_all_pending_interrupts fuel ;;
  r ← handle_all_pending_events polls;
  if r <? 0 then mret true else
  l ← gets (fun s => kfifo_len (rxbuffer s));
  ret ← wait (if (0 <? l)%nat then WaitForReceiveDataTimeout_ms else UartIdleTimeout_ms);
  when (ret =? 1) flush_rxbuffer_fifo ;;
  mret false.
Fixpoint suart_handler_pc16x50 (rounds fuel polls : nat) : driver unit :=
  match rounds with
  | O => raise OutOfFuel
  | S rounds => stop ← handler_round fuel polls; if (stop : bool) then mret tt else suart_handler_pc16x50 rounds fuel polls
  end.
Definition suart_pc16x50_irqfunc : driver unit := on_suart suart_wakeup.

(** ** Creating and deleting *)

(** Whether there is memory and what [wbuart_pc16x50_create_by_index] gives
    are parameters. *)
Definition suart_pc16x50_create (memory : bool) (chip : option (pc16x50 C)) (tx rx : Z) : option W :=
  if memory then
    u ← chip;
    let q := suart_init tx rx (Suart (INIT_KFIFO EVENTS) (INIT_KFIFO EVENTS) tx rx []) in
    let '(_, u) := pc16x50_flush_rx_fifo u in
    let '(_, u) := pc16x50_set_ier_bits (Z.lor PC16C550_IER_RECEIVER_LINE_STATUS PC16C550_IER_MODEM_STATUS) u in
    let '(_, u) := pc16x50_set_fifo_trigger_level 14 u in
    Some (SuartPc q u 100000000 1 (INIT_KFIFO BUFFER) (INIT_KFIFO BUFFER))
  else None.
(** The thread runs until it has seen the event; then it can be joined. *)
Definition suart_pc16x50_shutdown (rounds fuel polls : nat) : driver unit :=
  on_suart (suart_put_txevents [Some Shutdown] 1) ;; suart_handler_pc16x50 rounds fuel polls.
End driver.

(** [suart_pc16x50_delete]: the chip is given back by [release], which is
    [wbuart_set_irqhandler] and [wbuart_delete]. *)
Definition suart_pc16x50_delete {F} `{Kfifo F} {C} `{Regs C} (wait : Z -> prog (suart_pc16x50 F C) Z)
    (release : pc16x50 C -> outcome unit) (rounds fuel polls : nat) (suart : option (suart_pc16x50 F C)) : outcome unit :=
  match suart with
  | None => Done tt
  | Some s =>
      match suart_pc16x50_shutdown wait rounds fuel polls s with
      | Done (_, s) => release (uart s)
      | Fault f => Fault f
      end
  end.
