(* ===== verification/SuartTransmit.v ===== *)
(** * How the stream UART carries out its events

    The transmit side of [SuartDriver.v] refines a queue of work: octets that
    go out and settings that take effect, one after another ([perform]), on
    the registers of the chip.  What is in [txbuffer] and in [txfifo] is the
    work that is left ([todo]); a round of the thread does a prefix of it. *)
From stdpp Require Import base countable list.
From S2P Require Import Prelude Pc16cx50 StreamUart SuartDriver.

(** ** The work *)

Inductive work := Out (v : Z) | Do (e : suart_event).

Definition octets_of_event (e : suart_event) : option (list Z) :=
  match e with
  | DataInline n d => Some (take (Z.to_nat n) d)
  | Data d n => Some (take (Z.to_nat n) (default [] d))
  | _ => None
  end.
Definition work_of (e : suart_event) : list work :=
  match octets_of_event e with Some d => Out <$> d | None => [Do e] end.

(** The registers and the shadow of the modem control, with which the lines
    are changed. *)
Record settings := Settings { on_chip : registers; modem_shadow : Z }.
Definition change (f : registers -> registers) (v : settings) : settings := Settings (f (on_chip v)) (modem_shadow v).
Definition set_ier_to (f : Z -> Z) (v : settings) : settings := change (fun r => with_ier (Z.land (u8 (f (r_ier r))) 0xF) r) v.
Definition perform (clock : Z) (v : settings) (w : work) : settings :=
  match w with
  | Out x => change (put_on_line (u8 x)) v
  | Do e =>
      match e with
      | SetBaudrate value => change (with_divisor (u16 (u32 (clock / 16 / value)))) v
      | SetFormat d p s => change (fun r => with_lcr (pc16x50_update_format_bits (r_lcr r) d p (char s)) r) v
      | EnableTx => set_ier_to (fun i => Z.lor i PC16C550_IER_TRANSMITTER_HOLDING_REGISTER_EMPTY) v
      | DisableTx => set_ier_to (fun i => Z.land i (Z.lnot PC16C550_IER_TRANSMITTER_HOLDING_REGISTER_EMPTY)) v
      | EnableRx => set_ier_to (fun i => Z.lor i PC16C550_IER_RECEIVED_DATA_AVAILABLE) v
      | DisableRx => set_ier_to (fun i => Z.land i (Z.lnot PC16C550_IER_RECEIVED_DATA_AVAILABLE)) v
      | ChangeLine mask value =>
          let m := u8 (Z.lor (Z.land (Z.lnot (u8 (suart_line_to_mcr mask))) (modem_shadow v)) (Z.land (u8 (suart_line_to_mcr mask)) (u8 (suart_line_to_mcr value)))) in
          Settings (with_mcr m (on_chip v)) m
      | _ => v
      end
  end.

(** Events that the driver can carry out: the octets that a data event
    announces are there, and the bit rate is not 0. *)
Definition proper (e : suart_event) : Prop :=
  match e with
  | Shutdown => False
  | SetBaudrate value => value <> 0
  | DataInline n d => 0 < n < 2 ^ 32 /\ n <= Z.of_nat (length d)
  | Data d n => 0 < n < 2 ^ 32 /\ exists l, d = Some l /\ n <= Z.of_nat (length l)
  | _ => True
  end.
Lemma carries_proper e : carries e -> proper e.
Proof. intros (d & -> & Hd). cbn. lia. Qed.

(** The octets at the front, and that no run of octets is longer than the
    buffer. *)
Fixpoint leading (l : list work) : nat := match l with Out _ :: l => S (leading l) | _ => 0 end.
Definition runs_fit (cap : nat) (l : list work) : Prop := forall pre suf, l = pre ++ suf -> (leading suf <= cap)%nat.

Lemma runs_fit_suffix cap pre suf : runs_fit cap (pre ++ suf) -> runs_fit cap suf.
Proof. intros H p q ->. apply (H (pre ++ p) q). by rewrite <- app_assoc. Qed.
Lemma leading_out (d : list Z) l : leading ((Out <$> d) ++ l) = (length d + leading l)%nat.
Proof. induction d as [|v d IH]; cbn; [done|]. by f_equal. Qed.

(** A step after a rule that leaves an application behind. *)
Ltac wp_next := cbn beta; wp_step.

Section transmit.
Context {F : Type -> Type} `{KfifoLaws F} {C : Type} `{Chip C}.
Abbreviation W := (suart_pc16x50 F C).
Implicit Types s : W.

Definition chip s : C := reg_context (uart s).
Definition sending s : settings := Settings (regs (chip s)) (mcr_shadow (uart s)).
Definition events s : list suart_event := contents (txfifo (suart s)).
Definition todo s : list work := (Out <$> contents (txbuffer s)) ++ concat (work_of <$> events s).
Definition BUSY s : nat := due (chip s).
(** The transmitter holds nothing. *)
Definition is_idle s : Prop := idle (chip s).
Definition capacity s : nat := (kfifo_avail (txbuffer s) + length (contents (txbuffer s)))%nat.

Record tx_ok s : Prop := {
  ok_tame : tame (regs (chip s));
  ok_events : Forall proper (events s);
  ok_runs : runs_fit (capacity s) (todo s) }.

(** What is not touched. *)
Record same_setup s s' : Prop := {
  same_clock : base_clock s' = base_clock s;
  same_capacity : capacity s' = capacity s }.

(** ** The buffer *)

Lemma wp_txbuffer_in (d : list Z) n (Q : unit -> W -> Prop) s :
  0 < n < 2 ^ 32 -> n <= Z.of_nat (length d) -> n <= Z.of_nat (kfifo_avail (txbuffer s)) ->
  (forall q, contents q = contents (txbuffer s) ++ take (Z.to_nat n) d -> kfifo_avail q = (kfifo_avail (txbuffer s) - Z.to_nat n)%nat ->
     Q tt (with_txbuffer q s)) -> wp (txbuffer_in d n) Q s.
Proof.
  intros Hn Hd Ha HQ. unfold txbuffer_in. wp_step. wp_step. wp_step.
  assert (length (take (Z.to_nat n) d) = Z.to_nat n) as Hl by (rewrite length_take; lia).
  destruct (copy_fits (take (Z.to_nat n) d) (Some <$> drop (Z.to_nat n) d) (txbuffer s) n) as (q & Hq & Hc & Hv); [lia..|].
  rewrite <- fmap_app, take_drop in Hq. eapply wp_done; [unfold lift_outcome; by rewrite Hq|]. wp_step. apply HQ; [done|lia].
Qed.
Lemma wp_data_event e d (Q : unit -> W -> Prop) s :
  proper e -> octets_of_event e = Some d -> (length d <= kfifo_avail (txbuffer s))%nat ->
  (forall q, contents q = contents (txbuffer s) ++ d -> kfifo_avail q = (kfifo_avail (txbuffer s) - length d)%nat -> Q tt (with_txbuffer q s)) ->
  wp (fetch_one e) Q s.
Proof.
  destruct e; cbn; try done.
  - intros (Hn & l & -> & Hl) [= <-] Ha HQ. cbn in *. rewrite length_take in *. unfold data_in. rewrite (proj2 (Z.eqb_neq _ _)) by lia.
    wp_step. wp_step. apply wp_txbuffer_in; [done|done|lia|]. intros q Hq Hv. apply HQ; [done|lia].
  - intros (Hn & Hl) [= <-] Ha HQ. rewrite length_take in *. apply wp_txbuffer_in; [done|done|lia|]. intros q Hq Hv. apply HQ; [done|lia].
Qed.
Lemma data_has_octets e : is_data e = true <-> is_Some (octets_of_event e).
Proof. destruct e; cbn; split; try done; by intros [? ?]. Qed.
Lemma proper_octets e d : proper e -> octets_of_event e = Some d -> (0 < length d)%nat.
Proof.
  destruct e; cbn; try done.
  - intros (? & l & -> & ?) [= <-]. cbn. rewrite length_take. lia.
  - intros (? & ?) [= <-]. rewrite length_take. lia.
Qed.

(** ** Fetching data events *)

(** The same work is left, and only the buffer and the queue have changed. *)
Record moved s s' : Prop := {
  moved_todo : todo s' = todo s;
  moved_capacity : capacity s' = capacity s;
  moved_uart : uart s' = uart s;
  moved_clock : base_clock s' = base_clock s;
  moved_events : exists l, events s = l ++ events s';
  moved_buffer : exists l, contents (txbuffer s') = contents (txbuffer s) ++ l }.
Lemma moved_refl s : moved s s.
Proof. split; try done; exists []; by rewrite ?app_nil_r. Qed.
Lemma moved_trans s1 s2 s3 : moved s1 s2 -> moved s2 s3 -> moved s1 s3.
Proof.
  intros [T1 C1 U1 K1 [e1 E1] [b1 B1]] [T2 C2 U2 K2 [e2 E2] [b2 B2]]. split; try congruence.
  - exists (e1 ++ e2). by rewrite E1, E2, app_assoc.
  - exists (b1 ++ b2). by rewrite B2, B1, app_assoc.
Qed.
Lemma moved_ok s s' : moved s s' -> tx_ok s -> tx_ok s'.
Proof.
  intros [T Cp U K [l E] _] [Ht He Hr]. split; [by unfold chip; rewrite U| |by rewrite T, Cp].
  rewrite E, Forall_app in He. tauto.
Qed.

(** The event at the front of the queue is data: its octets move. *)
Lemma wp_fetch_one e es d s (Q : unit -> W -> Prop) q :
  tx_ok s -> events s = e :: es -> octets_of_event e = Some d ->
  contents q = es ->
  (forall s', moved s s' -> events s' = es -> contents (txbuffer s') = contents (txbuffer s) ++ d -> Q tt s') ->
  wp (fetch_one e) Q (with_suart (set_txfifo q (suart s)) s).
Proof.
  intros Hok He Hd Hq HQ. pose proof (ok_events _ Hok) as Hp. rewrite He in Hp. apply Forall_cons in Hp as [Hp _].
  assert (work_of e = Out <$> d) as Hw by (unfold work_of; by rewrite Hd).
  assert (length d <= kfifo_avail (txbuffer s))%nat as Hroom.
  { pose proof (ok_runs _ Hok [] (todo s) eq_refl) as Hr. unfold todo, capacity in Hr. rewrite He in Hr. cbn in Hr.
    rewrite Hw, leading_out, leading_out in Hr. lia. }
  eapply wp_data_event; [done|done|exact Hroom|]. cbn. intros q' Hc Ha.
  assert (todo (with_txbuffer q' (with_suart (set_txfifo q (suart s)) s)) = todo s) as Ht.
  { unfold todo, events in *. cbn. rewrite He, Hq, Hc. cbn. by rewrite Hw, fmap_app, <- app_assoc. }
  apply HQ; [|done|done]. split; try done.
  - unfold capacity. cbn. rewrite Ha, Hc, length_app. lia.
  - exists [e]. unfold events in *. cbn. by rewrite He, Hq.
  - by exists d.
Qed.
Lemma wp_fetch_loop fuel : forall s (Q : unit -> W -> Prop),
  tx_ok s -> (length (events s) <= fuel)%nat -> (forall s', moved s s' -> Q tt s') -> wp (fetch_loop fuel) Q s.
Proof.
  induction fuel as [|fuel IH]; intros s Q Hok Hf HQ; cbn [fetch_loop]; apply wp_bind; (eapply wp_done; [reflexivity|]); rewrite peek_head; fold (events s).
  { destruct (events s) eqn:E; cbn in Hf; [|lia]. cbn [head]. wp_step. apply HQ. destruct s; apply moved_refl. }
  destruct (events s) as [|e es] eqn:E; cbn [head].
  { wp_step. apply HQ. destruct s; apply moved_refl. }
  destruct (is_data e) eqn:Ed; [|wp_step; apply HQ; destruct s; apply moved_refl].
  apply data_has_octets in Ed as [d Hd]. apply wp_bind. unfold on_suart at 1.
  assert (with_suart (suart s) s = s) as Hs by (by destruct s). rewrite Hs.
  pose proof (wp_get_txevent (fun l u => l = [e] /\ exists q, u = set_txfifo q (suart s) /\ contents q = es) (suart s)) as Hg.
  unfold wp in Hg |- *. fold (events s) in Hg. rewrite E in Hg. ospecialize (Hg _).
  { intros q Hq _. split; [done|]. exists q. done. }
  destruct (suart_get_txevents 1 (suart s)) as [[l u]|]; [|done]. destruct Hg as (-> & q & -> & Hq).
  change (wp (fetch_one e ;; fetch_loop fuel) Q (with_suart (set_txfifo q (suart s)) s)). apply wp_bind.
  eapply wp_fetch_one; [exact Hok|exact E|exact Hd|exact Hq|]. intros s1 Hm1 E1 _. apply IH; [by eapply moved_ok|rewrite E1; cbn in Hf; lia|].
  intros s' Hs'. apply HQ. by eapply moved_trans.
Qed.
Lemma wp_fetch_events s (Q : unit -> W -> Prop) : tx_ok s -> (forall s', moved s s' -> Q tt s') -> wp fetch_as_much_data_events_as_possible Q s.
Proof.
  intros Hok HQ. unfold fetch_as_much_data_events_as_possible. apply wp_bind. eapply wp_done; [reflexivity|].
  assert (with_suart (suart s) s = s) as -> by (by destruct s). rewrite len_length. by apply wp_fetch_loop.
Qed.

(** ** Doing work *)

(** [done] was done, in this order, and the rest is left. *)
Record did (l : list work) s s' : Prop := {
  did_todo : todo s = l ++ todo s';
  did_sending : sending s' = foldl (perform (base_clock s)) (sending s) l;
  did_clock : base_clock s' = base_clock s;
  did_capacity : capacity s' = capacity s;
  did_events : exists es, events s = es ++ events s';
  did_busy : (BUSY s' <= BUSY s `max` patience)%nat }.

Lemma did_moved s s' : moved s s' -> did [] s s'.
Proof. intros [T Cp U K E _]. split; try done. - by unfold sending, chip; rewrite U. - unfold BUSY, chip. rewrite U. lia. Qed.
Lemma did_trans l1 l2 s1 s2 s3 : did l1 s1 s2 -> did l2 s2 s3 -> did (l1 ++ l2) s1 s3.
Proof.
  intros [T1 S1 K1 C1 [e1 E1] B1] [T2 S2 K2 C2 [e2 E2] B2]. split; try congruence.
  - by rewrite T1, T2, app_assoc.
  - by rewrite S2, S1, K1, foldl_app.
  - exists (e1 ++ e2). by rewrite E1, E2, app_assoc.
  - lia.
Qed.
Lemma tame_perform clock v w : tame (on_chip v) -> tame (on_chip (perform clock v w)).
Proof.
  intros Ht. destruct w as [x|[]]; cbn; try done; by first [apply tame_line|apply tame_divisor|apply tame_format|apply tame_ier|apply tame_mcr].
Qed.
Lemma tame_work clock l : forall v, tame (on_chip v) -> tame (on_chip (foldl (perform clock) v l)).
Proof. induction l as [|w l IH]; intros v Hv; cbn; [done|]. by apply IH, tame_perform. Qed.
Lemma did_ok l s s' : did l s s' -> tx_ok s -> tx_ok s'.
Proof.
  intros [T Sd K Cp [es E] _] [Ht He Hr]. split.
  - change (regs (chip s')) with (on_chip (sending s')). rewrite Sd. by apply tame_work.
  - rewrite E, Forall_app in He. tauto.
  - rewrite Cp. rewrite T in Hr. by eapply runs_fit_suffix.
Qed.

Lemma wp_uart {A} (m : st (pc16x50 C) A) (Q : A -> W -> Prop) s :
  after m (fun a u => Q a (with_uart u s)) (uart s) -> wp (on_uart m) Q s.
Proof. apply wp_part. Qed.
Lemma chip_with c u s : chip (with_uart (with_chip c u) s) = c.
Proof. done. Qed.

Lemma wp_write_all (l : list Z) : forall s (Q : unit -> W -> Prop), tame (regs (chip s)) -> (held (chip s) + length l <= TRANSMITTER)%nat ->
  (forall u, sending (with_uart u s) = foldl (perform (base_clock s)) (sending s) (Out <$> l) -> (due (reg_context u) <= BUSY s `max` patience)%nat ->
     Q tt (with_uart u s)) -> wp (write_all l) Q s.
Proof.
  induction l as [|v l IH]; intros s Q Ht Hr HQ; cbn [write_all].
  { wp_step. assert (with_uart (uart s) s = s) as Hs by (by destruct s). rewrite <- Hs. apply HQ; [by rewrite Hs|unfold BUSY, chip; lia]. }
  cbn [length] in Hr. apply wp_bind, wp_uart, after_send; [apply Ht|unfold chip in Hr; lia|]. intros c Hc Hd Hh.
  assert (tame (regs c)) as Hct by (rewrite Hc; by apply tame_line).
  apply IH; [done|rewrite chip_with; unfold chip in Hr; lia|]. intros u Hu Hb. change (with_uart u (with_uart (with_chip c (uart s)) s)) with (with_uart u s) in *.
  apply HQ; [|unfold BUSY in Hb; rewrite chip_with in Hb; lia]. rewrite Hu. cbn. unfold sending at 1. cbn. rewrite Hc. done.
Qed.

(** What is left in the buffer goes out as far as there is room in the chip;
    when there is none, the transmitter is less busy afterwards. *)
Lemma wp_transmit s (Q : Z -> W -> Prop) : tx_ok s ->
  (forall r l s', did l s s' -> (contents (txbuffer s) <> [] -> l <> [] \/ (BUSY s' < BUSY s)%nat) -> Q r s') ->
  wp transmit_as_much_as_possible Q s.
Proof.
  intros Hok HQ. unfold transmit_as_much_as_possible. wp_step. wp_step. rewrite len_length. apply wp_if; intros Hl; [|].
  2: { wp_step. apply (HQ _ [] s); [apply did_moved, moved_refl|]. intros Hne. by destruct (contents (txbuffer s)). }
  apply Nat.ltb_lt in Hl. apply wp_bind, wp_uart, after_lsr. intros lsr c (Ec & Dc & _) Hbusy Htemt Hthre. cbn in Ec.
  set (space := if has lsr PC16550_LSR_TRANSMITTER_EMPTY then _ else _). set (s1 := with_uart (with_chip c (uart s)) s).
  assert (held c + space <= TRANSMITTER \/ space = 0)%nat as Hroom.
  { unfold space, TRANSMITTER. destruct (has lsr PC16550_LSR_TRANSMITTER_EMPTY); [destruct (Htemt eq_refl) as [_ Hi]; unfold idle in Hi; lia|].
    destruct (has lsr PC16550_LSR_THRE); [specialize (Hthre eq_refl)|]; lia. }
  assert (did [] s s1) as D1 by (split; try done; [unfold sending; cbn; by rewrite Ec|by exists []|unfold BUSY; cbn; unfold chip; lia]).
  apply wp_bind, wp_when; intros Hs.
  2: { wp_step. apply (HQ _ [] s1 D1). intros _. right. unfold space in Hs. destruct (has lsr PC16550_LSR_TRANSMITTER_EMPTY); [done|by apply Hbusy]. }
  apply Nat.ltb_lt in Hs. wp_step. wp_step.
  remember (space `min` length (contents (txbuffer s)))%nat as k eqn:Ek.
  change (txbuffer s1) with (txbuffer s). pose proof (out_result k (txbuffer s)) as Hr. pose proof (out_contents k (txbuffer s)) as Hc.
  pose proof (out_avail k (txbuffer s)) as Ha. destruct (kfifo_out k (txbuffer s)) as [tmp q]. cbn in Hr, Hc, Ha. do 2 wp_step.
  assert (length tmp <= k)%nat as Hk by (rewrite Hr, length_take; lia).
  set (s2 := with_txbuffer q s1). apply wp_write_all; [cbn; rewrite Ec; apply Hok|change (chip s2) with c; lia|]. intros u Hu Hb. wp_step.
  apply (HQ _ (Out <$> tmp) (with_uart u s2)).
  - split; try done.
    + unfold todo, events. cbn. rewrite Hc, Hr, app_assoc, <- fmap_app. by rewrite take_drop.
    + rewrite Hu. unfold sending at 1. cbn. by rewrite Ec.
    + unfold capacity. cbn. rewrite Ha, Hc, length_drop. lia.
    + by exists [].
    + change (BUSY (with_uart u s2)) with (due (reg_context u)). change (BUSY s2) with (due c) in Hb. change (BUSY s) with (due (reg_context (uart s))). clear - Dc Hb. lia.
  - intros _. left. rewrite Hr. destruct (contents (txbuffer s)); cbn in Hl; [lia|]. destruct k as [|k]; [|done]. cbn in Ek. lia.
Qed.

(** ** Settings *)

(** A setting was done: the queue for sending and the buffer are as before. *)
Record settled (e : suart_event) s s' : Prop := {
  settled_sending : sending s' = perform (base_clock s) (sending s) (Do e);
  settled_queue : txfifo (suart s') = txfifo (suart s);
  settled_buffer : txbuffer s' = txbuffer s;
  settled_clock : base_clock s' = base_clock s;
  settled_busy : (BUSY s' <= BUSY s)%nat;
  settled_idle : is_idle s' }.

Lemma wp_put_back e (Q : unit -> W -> Prop) s :
  (forall q w, Q tt (with_suart (Suart (txfifo (suart s)) q (txwaitqueue (suart s)) (rxwaitqueue (suart s)) w) s)) -> wp (put_back e) Q s.
Proof.
  intros HQ. unfold put_back, on_suart, wp, suart_put_rxevents, mbind, prog_bind, get_state, lift_outcome, wake_up_interruptible, modify.
  assert (exists q : F suart_event, kfifo_copy [Some e] 1 (rxfifo (suart s)) = Done q) as [q ->].
  { unfold kfifo_copy. rewrite u32_small by lia. destruct (kfifo_avail (rxfifo (suart s))) as [|n]; [by eexists|]. change (Z.to_nat 1) with 1%nat.
    rewrite Nat.min_l by lia. by eexists. }
  apply HQ.
Qed.
Lemma wp_setting e (Q : Z -> W -> Prop) s : tame (regs (chip s)) -> is_idle s -> proper e -> is_data e = false ->
  (forall s', settled e s s' -> Q 0 s') -> wp (handle_one_event e) Q s.
Proof.
  intros Ht Hi Hp Hd HQ. assert (forall f (c : C), becomes f (chip s) c -> change f (sending s) = perform (base_clock s) (sending s) (Do e) ->
    forall r, Q 0 (with_rxenabled r (with_uart (with_chip c (uart s)) s))) as HC.
  { intros f c (Ec & Dc & Hc) Hf r. apply HQ. split; try done; [rewrite <- Hf; unfold sending, change; cbn; by rewrite Ec|unfold is_idle, idle, chip in *; cbn; lia]. }
  assert (forall s', with_rxenabled (rxenabled s') s' = s') as Hrx by (by intros []).
  destruct e; try done; cbn [handle_one_event].
  - apply wp_bind, wp_put_back. intros q w. wp_next. by apply HQ.
  - cbn in Hp. wp_next. wp_next. rewrite (proj2 (Z.eqb_neq _ _)) by done. apply wp_bind, wp_uart, after_set_divisor; [done|done|]. intros c Hc. wp_next.
    rewrite <- (Hrx (with_uart _ _)). by eapply HC.
  - apply wp_bind, wp_uart, after_get_divisor; [done|done|]. intros c (Ec & Dc & Hc). wp_next. wp_next. apply wp_bind, wp_put_back. intros q w. wp_next.
    apply HQ. split; try done; [unfold sending; cbn; by rewrite Ec|unfold is_idle, idle, chip in *; cbn; lia].
  - apply wp_bind, wp_uart, after_set_format; [done|done|]. intros c Hc. wp_next. rewrite <- (Hrx (with_uart _ _)). by eapply HC.
  - apply wp_bind, wp_uart, after_get_format; [done|done|]. intros c (Ec & Dc & Hc). cbn beta. destruct (pc16x50_decode_format _) as [[x y] z]. apply wp_bind, wp_put_back. intros q w. wp_next.
    apply HQ. split; try done; [unfold sending; cbn; by rewrite Ec|unfold is_idle, idle, chip in *; cbn; lia].
  - wp_next. by apply HQ.
  - wp_next. by apply HQ.
  - apply wp_bind, wp_uart, after_set_ier; [done|done|]. intros c Hc. wp_next. rewrite <- (Hrx (with_uart _ _)). by eapply HC.
  - apply wp_bind, wp_uart, after_clear_ier; [done|done|]. intros c Hc. wp_next. rewrite <- (Hrx (with_uart _ _)). by eapply HC.
  - wp_next. wp_next. apply wp_bind, wp_uart, after_flush_rx; [done|]. intros c1 (E1 & D1 & H1c). cbn in E1.
    apply wp_bind, wp_uart, after_set_ier; [cbn; by rewrite E1|unfold is_idle, idle, chip in *; cbn in *; lia|]. intros c (Ec & Dc & Hc). wp_next.
    change (with_uart _ _) with (with_rxenabled 1 (with_uart (with_chip c (uart s)) s)). eapply HC; [|reflexivity].
    unfold chip in *. cbn in Ec, Dc, D1, Hc, H1c. split; [rewrite Ec, E1; done|lia].
  - wp_next. wp_next. apply wp_bind, wp_uart, after_clear_ier; [done|done|]. intros c Hc. wp_next.
    change (with_uart _ _) with (with_rxenabled 0 (with_uart (with_chip c (uart s)) s)). by eapply HC.
  - apply wp_bind, wp_uart, after_change_mcr; [done|]. intros c m -> (Ec & Dc & Hc). wp_next. apply HQ. split; try done; [unfold sending; cbn; by rewrite Ec|unfold is_idle, idle, chip in *; cbn; lia].
  - wp_next. by apply HQ.
  - wp_next. by apply HQ.
  - wp_next. by apply HQ.
Qed.

(** ** A round of the thread *)

Lemma pop_event (Q : list suart_event -> W -> Prop) e es s : events s = e :: es ->
  (forall q : F suart_event, contents q = es -> Q [e] (with_suart (set_txfifo q (suart s)) s)) -> wp (on_suart (suart_get_txevents 1)) Q s.
Proof.
  intros E HQ. pose proof (wp_get_txevent (fun l u => l = [e] /\ exists q, u = set_txfifo q (suart s) /\ contents q = es) (suart s)) as Hg.
  unfold on_suart, wp in *. fold (events s) in Hg. rewrite E in Hg. ospecialize (Hg _).
  { intros q Hq _. split; [done|]. by exists q. }
  destruct (suart_get_txevents 1 (suart s)) as [[l u]|]; [|done]. destruct Hg as (-> & q & -> & Hq). by apply HQ.
Qed.
Lemma wp_available (Q : nat -> W -> Prop) s : Q (length (events s)) s -> wp (on_suart suart_txavailable) Q s.
Proof.
  intros HQ. unfold wp, on_suart, suart_txavailable, gets. rewrite len_length. fold (events s). by destruct s.
Qed.
(** A setting at the front of the queue is done. *)
Lemma did_setting e es q s s' : events s = e :: es -> contents q = es -> is_data e = false -> contents (txbuffer s) = [] ->
  settled e (with_suart (set_txfifo q (suart s)) s) s' -> did [Do e] s s' /\ events s' = es /\ contents (txbuffer s') = [] /\ is_idle s'.
Proof.
  intros He Hq Hd Hb [Hs Hf Ht Hc Hy Hi]. cbn in *.
  assert (events s' = es) as E' by (unfold events; by rewrite Hf). split; [|split; [done|by rewrite Ht]].
  assert (work_of e = [Do e]) as Hw.
  { unfold work_of. destruct (octets_of_event e) eqn:E; [|done]. assert (is_data e = true) by (apply data_has_octets; by rewrite E). congruence. }
  split; try done.
  - unfold todo. rewrite Ht, Hb, E', He. cbn. by rewrite Hw.
  - unfold capacity. by rewrite Ht.
  - exists [e]. by rewrite E'.
  - unfold BUSY, chip in *. cbn in Hy. lia.
Qed.

Lemma wp_event_loop fuel : forall s (Q : Z -> W -> Prop), tx_ok s -> is_idle s -> contents (txbuffer s) = [] -> (length (events s) <= fuel)%nat ->
  (forall r l s', 0 <= r -> did l s s' -> (events s <> [] -> l <> [] \/ (BUSY s' < BUSY s)%nat) -> Q r s') -> wp (event_loop fuel) Q s.
Proof.
  induction fuel as [|fuel IH]; intros s Q Hok Hi Hb Hf HQ; cbn [event_loop]; apply wp_bind, wp_available; destruct (events s) as [|e es] eqn:E; cbn [length Nat.ltb Nat.leb] in *.
  1, 3: wp_next; by apply (HQ _ []); [|apply did_moved, moved_refl|].
  { lia. }
  cbn. apply wp_bind, (pop_event _ _ _ _ E). intros q Hq. pose proof (ok_events _ Hok) as Hp. rewrite E in Hp. apply Forall_cons in Hp as [Hp _].
  assert (forall P : prog W Z, match e with Shutdown => mret (-1) | _ => P end = P) as -> by (by destruct e). apply wp_bind. destruct (is_data e) eqn:Ed.
  - apply data_has_octets in Ed as [d Hd]. assert (handle_one_event e = (fetch_one e ;; mret 2)) as -> by (by destruct e). apply wp_bind.
    eapply wp_fetch_one; [done..|]. intros s1 M1 _ B1. wp_next. cbn [Z.eqb Pos.eqb]. apply wp_bind, wp_fetch_events; [by eapply moved_ok|]. intros s2 M2.
    pose proof (moved_trans _ _ _ M1 M2) as M. apply wp_bind, wp_transmit; [by eapply moved_ok|]. intros r l s' D Hpro. wp_next.
    apply (HQ _ ([] ++ l)); [done|eapply did_trans; [by apply did_moved|done]|]. intros _. cbn.
    assert (BUSY s2 = BUSY s) as Hb2 by (unfold BUSY, chip; by rewrite (moved_uart _ _ M)). rewrite <- Hb2. apply Hpro.
    destruct (moved_buffer _ _ M2) as [x ->]. rewrite B1, Hb. pose proof (proper_octets e d Hp Hd). by destruct d; cbn in *; [lia|].
  - eapply wp_setting; [exact (ok_tame _ Hok)|exact Hi|done|done|]. intros s1 S1. cbn [Z.eqb].
    destruct (did_setting _ _ _ _ _ E Hq Ed Hb S1) as (D & E1 & B1 & I1). apply IH; [by eapply did_ok|done|done|rewrite E1; lia|].
    intros r l s' Hr D' _. apply (HQ _ ([Do e] ++ l)); [done|by eapply did_trans|]. by left.
Qed.

Lemma did_look c s : becomes id (chip s) c -> did [] s (with_uart (with_chip c (uart s)) s).
Proof.
  intros (Ec & Dc & _). cbn in Ec. split; try done; [unfold sending; cbn; by rewrite Ec|by exists []|unfold BUSY; cbn; unfold chip in *; lia].
Qed.
Lemma wp_wait_empty fuel : forall s (Q : unit -> W -> Prop), (BUSY s <= fuel)%nat ->
  (forall c, becomes id (chip s) c -> idle c -> Q tt (with_uart (with_chip c (uart s)) s)) -> wp (wait_until_transmitter_empty fuel) Q s.
Proof.
  induction fuel as [|fuel IH]; intros s Q Hf HQ; cbn [wait_until_transmitter_empty]; apply wp_bind, wp_uart, after_lsr; intros lsr c (Ec & Dc & Hc) Hbusy Htemt _; cbn in Ec;
    destruct (has lsr PC16550_LSR_TRANSMITTER_EMPTY); try (wp_next; apply HQ; [done|by apply Htemt]).
  - specialize (Hbusy eq_refl). unfold BUSY, chip in Hf. lia.
  - specialize (Hbusy eq_refl). apply IH; [unfold BUSY, chip in *; cbn; lia|]. intros c' (E' & D' & H') Hi'. cbn in E', D', H'. apply HQ; [|done].
    unfold BUSY, chip in *. split; [cbn; by rewrite E', Ec|lia].
Qed.

(** A round does a prefix of the work, and gets on: it does some of it, or the
    transmitter is less busy. *)
Lemma wp_round polls s (Q : Z -> W -> Prop) : tx_ok s -> (BUSY s <= polls)%nat ->
  (forall r l s', 0 <= r -> did l s s' -> (todo s <> [] -> l <> [] \/ (BUSY s' < BUSY s)%nat) -> Q r s') ->
  wp (handle_all_pending_events polls) Q s.
Proof.
  intros Hok Hpolls HQ. unfold handle_all_pending_events. wp_step. wp_step. rewrite len_length. apply wp_if; intros Hl.
  - apply Nat.ltb_lt in Hl. apply wp_bind, wp_fetch_events; [done|]. intros s1 M1. apply wp_bind, wp_transmit; [by eapply moved_ok|].
    intros r l s' D Hpro. wp_next. apply (HQ _ ([] ++ l)); [done|eapply did_trans; [by apply did_moved|done]|]. intros _. cbn.
    assert (BUSY s1 = BUSY s) as <- by (unfold BUSY, chip; by rewrite (moved_uart _ _ M1)). apply Hpro.
    destruct (moved_buffer _ _ M1) as [x ->]. by destruct (contents (txbuffer s)); cbn in *; [lia|].
  - assert (contents (txbuffer s) = []) as Hb by (apply Nat.ltb_ge in Hl; by destruct (contents (txbuffer s)); cbn in *; [|lia]).
    apply wp_bind, wp_uart, after_lsr. intros lsr c Hc Hbusy Htemt _. set (s1 := with_uart (with_chip c (uart s)) s).
    assert (did [] s s1) as D1 by (by apply did_look). assert (BUSY s1 <= BUSY s)%nat as Hb1 by (apply Hc). apply wp_if; intros Hthre.
    { wp_next. apply (HQ _ []); [done|done|]. intros _. right. apply Hbusy. apply negb_true_iff in Hthre.
      destruct (has lsr PC16550_LSR_TRANSMITTER_EMPTY); [|done]. destruct (Htemt eq_refl). congruence. }
    assert (forall s2, did [] s1 s2 -> is_idle s2 -> (BUSY s2 <= BUSY s1)%nat -> txbuffer s2 = txbuffer s1 -> events s2 = events s1 ->
      wp (n ← on_suart suart_txavailable; event_loop n) Q s2) as Hloop.
    { intros s2 D2 I2 B2 Hx He. pose proof (did_trans _ _ _ _ _ D1 D2) as D. apply wp_bind, wp_available, wp_event_loop; [by eapply did_ok|done|by rewrite Hx|done|].
      intros r l s' Hr D' Hpro. apply (HQ _ ([] ++ l)); [done|by eapply did_trans|]. intros Ht. cbn. destruct Hpro as [?|?]; [|by left|right; lia].
      rewrite He. intros Hn. apply Ht. unfold todo. change (events s) with (events s1). by rewrite Hn, Hb. }
    apply wp_bind, wp_when; intros Hempty.
    + apply wp_wait_empty; [lia|]. intros c' Hc' Hi'. apply Hloop; [by apply did_look|done|apply Hc'|done..].
    + apply negb_false_iff in Hempty. apply Hloop; [apply did_moved, moved_refl|by apply Htemt|done..].
Qed.

(** ** Runs *)

Fixpoint rounds (n polls : nat) : prog W unit :=
  match n with O => mret tt | S n => _ ← handle_all_pending_events polls; rounds n polls end.

(** What happens to the transmit side: rounds of the thread, events that
    clients put into the queue, and whatever leaves this side alone. *)
Inductive tx_step : W -> list work -> W -> Prop :=
  | tx_round polls r s s' :
      (BUSY s <= polls)%nat -> handle_all_pending_events polls s = Done (r, s') -> tx_step s [] s'
  | tx_put es s s' :
      on_suart (suart_put_txevents (Some <$> es) (Z.of_nat (length es))) s = Done (tt, s') ->
      (length es <= kfifo_avail (txfifo (suart s)))%nat -> Z.of_nat (length es) < 2 ^ 32 -> Forall proper es ->
      runs_fit (capacity s) (todo s ++ concat (work_of <$> es)) -> tx_step s (concat (work_of <$> es)) s'
  | tx_other s s' :
      txfifo (suart s') = txfifo (suart s) -> txbuffer s' = txbuffer s -> base_clock s' = base_clock s -> sending s' = sending s ->
      tx_step s [] s'.
Inductive tx_run : W -> list work -> W -> Prop :=
  | tx_nil s : tx_run s [] s
  | tx_cons s1 s2 s3 w1 w2 : tx_step s1 w1 s2 -> tx_run s2 w2 s3 -> tx_run s1 (w1 ++ w2) s3.

Lemma tx_step_refines s w s' : tx_ok s -> tx_step s w s' ->
  tx_ok s' /\ base_clock s' = base_clock s /\
  exists l, todo s ++ w = l ++ todo s' /\ sending s' = foldl (perform (base_clock s)) (sending s) l.
Proof.
  intros Hok Hs. destruct Hs as [polls r s s' Hp Hr|es s s' Hr Ha Hn Hes Hfit|s s' Hq Hb Hc Hv].
  - pose proof (wp_round polls s (fun _ s' => exists l, did l s s') Hok Hp) as HW. unfold wp in HW. rewrite Hr in HW.
    destruct HW as [l D]; [intros r' l s1 _ D _; by exists l|]. split; [by eapply did_ok|]. split; [by apply (did_clock _ _ _ D)|].
    exists l. rewrite app_nil_r. split; [apply D|apply (did_sending _ _ _ D)].
  - pose proof (wp_put_txevents es [] (Z.of_nat (length es)) (fun _ u => exists q w, contents q = events s ++ es /\
      u = Suart q (rxfifo (suart s)) (txwaitqueue (suart s)) (rxwaitqueue (suart s)) w) (suart s) eq_refl Hn Ha) as HW.
    rewrite app_nil_r in HW. unfold wp, on_suart in *. destruct (suart_put_txevents _ _ _) as [[[] u]|]; [|done].
    destruct HW as (q & w & Hq & ->); [intros q w Hq _; by exists q, w|]. injection Hr as <-. set (s' := with_suart _ s).
    assert (todo s' = todo s ++ concat (work_of <$> es)) as Ht.
    { unfold todo, events. cbn. rewrite Hq, fmap_app, concat_app. by rewrite app_assoc. }
    split; [|split; [done|]].
    + split; [apply Hok| |by rewrite Ht]. unfold events. cbn. rewrite Hq. apply Forall_app. split; [apply Hok|done].
    + exists []. by rewrite Ht.
  - assert (todo s' = todo s /\ events s' = events s /\ capacity s' = capacity s) as (Ht & He & Hcp).
    { unfold todo, events, capacity. by rewrite Hq, Hb. }
    split; [|split; [done|]].
    + split; [|by rewrite He; apply Hok|by rewrite Ht, Hcp; apply Hok]. change (regs (chip s')) with (on_chip (sending s')). rewrite Hv. apply Hok.
    + exists []. by rewrite Ht, app_nil_r.
Qed.

(** C18: everything that is put into the queue takes effect in its order,
    octets and settings alike, and nothing is lost or repeated: whatever rounds
    of the thread, new events and other activity come one after another, what
    was done is a prefix of the work that there was and that was put in, the
    registers are as after that prefix, and so is the line once the transmitter
    has sent what it holds (17 octets at most, which it loses when there are
    more) with the settings that are in force then; the rest is still there. *)
Theorem events_take_effect_in_order s w s' : tx_ok s -> tx_run s w s' ->
  tx_ok s' /\ exists l, todo s ++ w = l ++ todo s' /\ sending s' = foldl (perform (base_clock s)) (sending s) l.
Proof.
  intros Hok Hrun. induction Hrun as [s|s1 s2 s3 w1 w2 H12 _ IH]; [split; [done|exists []; by rewrite app_nil_r]|].
  destruct (tx_step_refines _ _ _ Hok H12) as (Hok2 & Hc & l1 & Hl1 & Hv1). destruct (IH Hok2) as (Hok3 & l2 & Hl2 & Hv2).
  split; [done|]. exists (l1 ++ l2). rewrite app_assoc, Hl1, <- app_assoc, Hl2, app_assoc. split; [done|]. by rewrite foldl_app, Hv2, Hc, Hv1.
Qed.

(** And all of it is done: a thread that runs without new events comes to
    the end of its work, in not more rounds than every piece of work may need
    with a chip that is busy [patience] times after an octet. *)
Lemma all_events_are_carried_out polls s : tx_ok s -> (BUSY s <= polls)%nat -> (patience <= polls)%nat ->
  exists n, (n <= length (todo s) * S polls + BUSY s)%nat /\
    wp (rounds n polls) (fun _ s' => todo s' = [] /\ sending s' = foldl (perform (base_clock s)) (sending s) (todo s)) s.
Proof.
  remember (length (todo s) * S polls + BUSY s)%nat as m eqn:Em. revert s Em. induction (lt_wf m) as [m _ IH]. intros s -> Hok Hb Hp.
  destruct (todo s) as [|w ws] eqn:E; [exists 0%nat; split; [lia|]; apply wp_ret; by rewrite E|]. rewrite <- E in *.
  pose proof (wp_round polls s (fun _ s' => exists l, did l s s' /\ (l <> [] \/ (BUSY s' < BUSY s)%nat)) Hok Hb) as HW.
  ospecialize (HW _). { intros r l s' _ D Hpro. exists l. split; [done|]. apply Hpro. by rewrite E. }
  apply wp_run in HW as (r & s' & Hr & l & D & Hpro). pose proof (did_busy _ _ _ D) as Hb'. pose proof (did_todo _ _ _ D) as Ht.
  assert (length (todo s) = length l + length (todo s'))%nat as Hl by (by rewrite Ht, length_app).
  assert (length (todo s') * S polls + BUSY s' < length (todo s) * S polls + BUSY s)%nat as Hm.
  { destruct Hpro as [Hne|Hlt]; [|nia]. destruct l as [|x l]; [done|]. cbn in Hl. nia. }
  destruct (IH _ Hm s' eq_refl) as (n & Hn & HW); [by eapply did_ok|lia|done|]. exists (S n). split; [lia|].
  cbn [rounds]. apply wp_bind. unfold wp at 1. rewrite Hr. eapply wp_mono; [exact HW|]. intros _ s2 [T2 S2]. split; [done|].
  by rewrite S2, Ht, foldl_app, (did_clock _ _ _ D), (did_sending _ _ _ D).
Qed.
End transmit.

Lemma leading_length l : (leading l <= length l)%nat.
Proof. induction l as [|[v|e] l IH]; cbn; lia. Qed.
Lemma runs_fit_length cap l : (length l <= cap)%nat -> runs_fit cap l.
Proof. intros Hl pre suf ->. pose proof (leading_length suf). rewrite length_app in Hl. lia. Qed.

(** ** A concrete UART *)

Definition demo_uart : suart_pc16x50 list_fifo small_chip :=
  default (SuartPc (Suart (INIT_KFIFO EVENTS) (INIT_KFIFO EVENTS) 0 1 []) small_uart 0 0 (INIT_KFIFO BUFFER) (INIT_KFIFO BUFFER))
    (suart_pc16x50_create true (Some small_uart) 0 1).
Lemma demo_uart_ok : tx_ok demo_uart.
Proof. split; [by split|by constructor|by apply runs_fit_length; vm_compute; lia]. Qed.

Definition demo_events : list suart_event :=
  [SetFormat 8 110 2; SetBaudrate 250000; DataInline 3 [1; 2; 3]; ChangeLine 1 1; DataInline 1 [4]; Echo 7].
Definition state_after {S A} (m : prog S A) (s : S) : S := match m s with Done (_, s') => s' | Fault _ => s end.
Definition demo_put := state_after (on_suart (suart_put_txevents (Some <$> demo_events) 6)) demo_uart.
Definition demo_round := state_after (handle_all_pending_events 2) demo_put.

Lemma events_take_effect_in_order_witness :
  exists w, tx_run demo_uart w demo_round /\ tx_ok demo_round /\
    exists l, todo demo_uart ++ w = l ++ todo demo_round /\ sending demo_round = foldl (perform (base_clock demo_uart)) (sending demo_uart) l.
Proof.
  assert (tx_run demo_uart (concat (work_of <$> demo_events) ++ [] ++ []) demo_round) as Hrun.
  { apply (tx_cons _ demo_put).
    - apply tx_put; [vm_compute; reflexivity|vm_compute; lia|vm_compute; reflexivity| |apply runs_fit_length; vm_compute; lia].
      unfold demo_events. repeat constructor; cbn; try lia; done.
    - apply (tx_cons _ demo_round); [|apply tx_nil]. apply (tx_round 2 2); [vm_compute; lia|vm_compute; reflexivity]. }
  eexists. split; [exact Hrun|]. apply (events_take_effect_in_order _ _ _ demo_uart_ok Hrun).
Defined.
