(* ===== verification/SuartReceive.v ===== *)
(** * What the stream UART receives

    The receive side of [SuartDriver.v]: the interrupts take everything that
    waits in the chip, and the events in [rxfifo] carry it on, octets in chunks
    of at most 14 and conditions of the line between them, in their order. *)
From stdpp Require Import base countable list.
From S2P Require Import Prelude Pc16cx50 StreamUart SuartDriver SuartTransmit.

(** What an item looks like once it was read, and what an event carries. *)
Definition seen (i : item) : item := match i with Octet v => Octet (u8 v) | Status x => Status (Z.land x errors) end.
Definition items_of (e : suart_event) : list item :=
  match e with DataInline n d => Octet <$> take (Z.to_nat n) d | LineStatus _ v => [Status (Z.land v errors)] | _ => [] end.
Definition items (es : list suart_event) : list item := concat (items_of <$> es).
Definition received_event (e : suart_event) : Prop := carries e \/ exists v, e = LineStatus 0xff v.
Lemma items_app l1 l2 : items (l1 ++ l2) = items l1 ++ items l2.
Proof. unfold items. by rewrite fmap_app, concat_app. Qed.

(** The event in which the octets of the buffer go on, if there are any. *)
Definition chunk (t : list Z) : list suart_event := match t with [] => [] | _ => [DataInline (Z.of_nat (length t)) t] end.
Lemma items_chunk t : items (chunk t) = Octet <$> t.
Proof. destruct t as [|v t]; [done|]. unfold items. cbn [chunk fmap list_fmap concat items_of]. rewrite Nat2Z.id, take_ge, app_nil_r; done. Qed.
Lemma chunk_received t : (length t <= 14)%nat -> Forall received_event (chunk t).
Proof. destruct t as [|v t]; intros Hl; [done|]. apply Forall_singleton. left. eexists. split; [done|]. cbn in *. lia. Qed.
Lemma data_inline_one t : (1 <= length t <= 14)%nat -> suart_event_data_inline 1 t (Z.of_nat (length t)) = Done (Some (chunk t)).
Proof.
  intros Hl. unfold suart_event_data_inline, SUART_OCTETS_PER_INLINE_DATA_CHUNK. rewrite Z.quot_div_nonneg by lia.
  destruct (Z.ltb_spec 1 ((Z.of_nat (length t) + 6) / 14)) as [Hb|_]; [Z.to_euclidean_division_equations; lia|]. rewrite Nat2Z.id.
  destruct (inline_events_split (length t) 0 (length t) t) as (es & He & Hj & Hc & Hn); [lia..|]. change (Z.of_nat 0) with 0 in He. rewrite He. cbn.
  destruct es as [|e [|e' es]]; cbn in Hn; [Z.to_euclidean_division_equations; lia| |Z.to_euclidean_division_equations; lia].
  apply Forall_cons in Hc as [(d & -> & _) _]. cbn [fmap list_fmap concat payload] in Hj.
  rewrite app_nil_r, drop_0, (take_ge t (length t)) in Hj by done. subst d. by destruct t; cbn in *; [lia|].
Qed.

Section receive.
Context {F : Type -> Type} `{KfifoLaws F} {C : Type} `{Receiver C}.
Abbreviation W := (suart_pc16x50 F C).
Implicit Types s : W.

Definition rbuf s : list Z := contents (rxbuffer s).
Definition revents s : list suart_event := contents (rxfifo (suart s)).
Definition room s : nat := kfifo_avail (rxfifo (suart s)).
Definition waiting s : list item := incoming (chip s).

Record rx_ok s : Prop := {
  rx_tame : tame (regs (chip s));
  rx_below : (length (rbuf s) < 14)%nat;
  rx_space : (14 <= kfifo_avail (rxbuffer s) + length (rbuf s))%nat }.
(** The side that sends is left alone. *)
Record tx_same s s' : Prop := {
  same_queue : txfifo (suart s') = txfifo (suart s);
  same_buffer : txbuffer s' = txbuffer s;
  same_clock : base_clock s' = base_clock s;
  same_sending : sending s' = sending s }.
Lemma tx_same_refl s : tx_same s s.
Proof. done. Qed.
Lemma tx_same_trans s1 s2 s3 : tx_same s1 s2 -> tx_same s2 s3 -> tx_same s1 s3.
Proof. intros [] []. split; congruence. Qed.

(** The events that there may be room needed for: one for 14 octets and one
    for every report that empties the buffer early, two for a condition. *)
Fixpoint octets_waiting (l : list item) : nat := match l with [] => 0 | Octet _ :: l => S (octets_waiting l) | Status _ :: l => octets_waiting l end.
Fixpoint conditions_waiting (l : list item) : nat := match l with [] => 0 | Octet _ :: l => conditions_waiting l | Status _ :: l => S (conditions_waiting l) end.
Definition need_of (b : nat) (l : list item) (t q : nat) : nat := ((b + octets_waiting l) / 14 + 2 * conditions_waiting l + t + q)%nat.
Definition need s : nat := need_of (length (rbuf s)) (waiting s) (thre (chip s)) (quiet (chip s)).
Lemma need_octet b v l t q : need_of b (Octet v :: l) t q = need_of (S b) l t q.
Proof. unfold need_of. cbn [octets_waiting conditions_waiting]. by rewrite Nat.add_succ_r. Qed.
Lemma need_status b x l t q : need_of b (Status x :: l) t q = S (S (need_of b l t q)).
Proof. unfold need_of. cbn [octets_waiting conditions_waiting]. lia. Qed.
Lemma need_chunk b l t q : need_of (14 + b) l t q = S (need_of b l t q).
Proof.
  unfold need_of. assert (((14 + b + octets_waiting l) / 14 = (b + octets_waiting l) / 14 + 1)%nat) as E; [|lia].
  rewrite <- (Nat.div_add (b + octets_waiting l) 1 14) by lia. f_equal. lia.
Qed.
Lemma need_chunks k b l t q : need_of (14 * k + b) l t q = (k + need_of b l t q)%nat.
Proof.
  induction k as [|k IH]; [done|]. replace (14 * S k + b)%nat with (14 + (14 * k + b))%nat by lia. rewrite need_chunk, IH. lia.
Qed.
Lemma need_less b b' l t t' q q' : (b' <= b)%nat -> (t' <= t)%nat -> (q' <= q)%nat -> (need_of b' l t' q' <= need_of b l t q)%nat.
Proof. intros Hb Ht Hq. unfold need_of. pose proof (Nat.Div0.div_le_mono (b' + octets_waiting l) (b + octets_waiting l) 14 ltac:(lia)). lia. Qed.
Lemma chunk_length t : (length (chunk t) <= 1)%nat.
Proof. destruct t; cbn; lia. Qed.

(** [new] events were put into the queue, [k] of them for early reports; nothing
    that came is lost. *)
Record taken (k : nat) (new : list suart_event) s s' : Prop := {
  taken_events : revents s' = revents s ++ new;
  taken_items : items new ++ (Octet <$> rbuf s') ++ (seen <$> waiting s') = (Octet <$> rbuf s) ++ (seen <$> waiting s);
  taken_received : Forall received_event new;
  taken_room : room s' = (room s - length new)%nat;
  taken_need : (length new + need s' <= need s + k)%nat;
  taken_tx : tx_same s s' }.
Lemma taken_refl s : taken 0 [] s s.
Proof. split; rewrite ?app_nil_r; try done; cbn [length]; lia. Qed.
Lemma taken_trans k1 k2 n1 n2 s1 s2 s3 : taken k1 n1 s1 s2 -> taken k2 n2 s2 s3 -> taken (k1 + k2) (n1 ++ n2) s1 s3.
Proof.
  intros [E1 I1 F1 R1 N1 T1] [E2 I2 F2 R2 N2 T2]. split.
  - by rewrite E2, E1, app_assoc.
  - by rewrite items_app, <- app_assoc, I2, I1.
  - by apply Forall_app.
  - rewrite length_app. lia.
  - rewrite length_app. lia.
  - by eapply tx_same_trans.
Qed.

(** ** The buffer of octets *)

Record flushed s s' : Prop := {
  flushed_buffer : rbuf s' = [];
  flushed_events : revents s' = revents s ++ chunk (rbuf s);
  flushed_room : room s' = (room s - length (chunk (rbuf s)))%nat;
  flushed_space : (kfifo_avail (rxbuffer s') = kfifo_avail (rxbuffer s) + length (rbuf s))%nat;
  flushed_uart : uart s' = uart s;
  flushed_tx : txfifo (suart s') = txfifo (suart s) /\ txbuffer s' = txbuffer s /\ base_clock s' = base_clock s }.

Lemma wp_flush_one s (Q : unit -> W -> Prop) : (length (rbuf s) <= 14)%nat -> (length (chunk (rbuf s)) <= room s)%nat ->
  (forall s', flushed s s' -> Q tt s') -> wp flush_rxbuffer_fifo_one_entry Q s.
Proof.
  intros Hl Hr HQ. unfold flush_rxbuffer_fifo_one_entry, rxbuffer_out. do 3 wp_step.
  pose proof (out_result 14 (rxbuffer s)) as Ho. pose proof (out_contents 14 (rxbuffer s)) as Hc. pose proof (out_avail 14 (rxbuffer s)) as Ha.
  destruct (kfifo_out 14 (rxbuffer s)) as [t q]. cbn [fst snd] in *. unfold rbuf in *. rewrite take_ge in Ho by done. rewrite drop_ge in Hc by done.
  rewrite <- Ho in *. do 3 wp_next. apply wp_when; intros Ht.
  2: { assert (t = []) as -> by (by destruct t). apply HQ. split; unfold rbuf, revents, room; cbn; try done; rewrite <- ?Ho; cbn; rewrite ?app_nil_r; try done; cbn in Ha; lia. }
  assert (1 <= length t)%nat as H1t by (destruct t; cbn in *; [done|lia]).
  apply wp_bind. eapply wp_done; [unfold lift_outcome; by rewrite data_inline_one by lia|]. cbn beta.
  assert (chunk t = [DataInline (Z.of_nat (length t)) t]) as Hk by (by destruct t). rewrite Hk in *. cbn [fmap list_fmap length Nat.ltb Nat.leb].
  set (s1 := with_rxbuffer q s). unfold on_suart, wp.
  pose proof (wp_put_rxevents [DataInline (Z.of_nat (length t)) t] [] 1 (fun _ u => exists q' w, u = Suart (txfifo (suart s)) q' (txwaitqueue (suart s)) (rxwaitqueue (suart s)) w /\
     contents q' = revents s ++ chunk t /\ kfifo_avail q' = (room s - 1)%nat) (suart s1)) as HW.
  ospecialize (HW _ _ _ _); [done|done|done|by intros q' w Hq' Hv'; exists q', w; rewrite Hk|].
  unfold wp in HW. change (suart_put_rxevents [Some (DataInline (Z.of_nat (length t)) t)] 1 (suart s1)) with
    (suart_put_rxevents ((Some <$> [DataInline (Z.of_nat (length t)) t]) ++ []) 1 (suart s1)).
  destruct (suart_put_rxevents _ _ _) as [[[] u]|]; [|done]. destruct HW as (q' & w & -> & Hq' & Hv').
  apply HQ. split; unfold rbuf, revents, room in *; cbn; rewrite <- ?Ho, ?Hk in *; try done. rewrite Ha. lia.
Qed.

Lemma wp_flush s (Q : unit -> W -> Prop) : (length (rbuf s) <= 14)%nat -> (length (chunk (rbuf s)) <= room s)%nat ->
  (forall s', flushed s s' -> Q tt s') -> wp flush_rxbuffer_fifo Q s.
Proof.
  intros Hl Hr HQ. unfold flush_rxbuffer_fifo. do 2 wp_step. rewrite len_length. fold (rbuf s).
  assert (forall n s1, rbuf s1 = [] -> Q tt s1 -> wp (flush_loop n) Q s1) as Hend.
  { intros n s1 E1 HQ1. destruct n; cbn [flush_loop]; do 2 wp_step; rewrite len_length; fold (rbuf s1); by rewrite E1. }
  destruct (rbuf s) as [|v t] eqn:E.
  - apply (Hend _ s E). apply HQ. split; try done; [by rewrite E, app_nil_r|rewrite E; cbn; lia|rewrite E; cbn; lia].
  - cbn [length flush_loop]. do 2 wp_step. rewrite len_length. fold (rbuf s). rewrite E. apply wp_bind, wp_flush_one; [by rewrite E|by rewrite E|].
    intros s1 H1s. apply Hend; [apply (flushed_buffer _ _ H1s)|by apply HQ].
Qed.
(** Flushing moves octets from the buffer to the queue. *)
Lemma flushed_taken s s' : rx_ok s -> flushed s s' -> taken 1 (chunk (rbuf s)) s s' /\ rx_ok s' /\ chip s' = chip s /\ rbuf s' = [].
Proof.
  intros [Ht Hb Hs] [Fb Fe Fr Fs Fu [Fq [Fx Fc]]]. assert (chip s' = chip s) as Hc by (unfold chip; by rewrite Fu).
  split; [|split; [|by rewrite Fb]].
  - split; try done.
    + rewrite items_chunk, Fb. unfold waiting. by rewrite Hc.
    + apply chunk_received. lia.
    + pose proof (chunk_length (rbuf s)). unfold need, waiting. rewrite Hc, Fb.
      pose proof (need_less (length (rbuf s)) (length (@nil Z)) (incoming (chip s)) (thre (chip s)) (thre (chip s)) (quiet (chip s)) (quiet (chip s)) ltac:(cbn; lia)). lia.
    + split; try done. unfold sending. by rewrite Hc, Fu.
  - split; [by rewrite Hc|rewrite Fb; cbn; lia|rewrite Fb, Fs; cbn; lia].
Qed.
Lemma wp_flush_ok s (Q : unit -> W -> Prop) : rx_ok s -> (length (chunk (rbuf s)) <= room s)%nat ->
  (forall s', taken 1 (chunk (rbuf s)) s s' -> rx_ok s' -> chip s' = chip s -> rbuf s' = [] -> Q tt s') -> wp flush_rxbuffer_fifo Q s.
Proof.
  intros Hok Hn HQ. pose proof (rx_below _ Hok). apply wp_flush; [lia|done|]. intros s' Hf.
  destruct (flushed_taken s s' Hok Hf) as (? & ? & ? & ?). by apply HQ.
Qed.

(** ** One cause *)

(** The cause that was read, for what waits in the chip. *)
Definition cause (isr : Z) s : Prop :=
  (Z.land isr 1 <> 0 /\ waiting s = []) \/
  Z.land isr PC16C550_IIR_IRQ_MASK = PC16C550_IIR_IRQ_TRANSMITTER_HOLDING_EMPTY \/
  match waiting s with
  | [] => False
  | Octet _ :: _ => Z.land isr PC16C550_IIR_IRQ_MASK = PC16C550_IIR_IRQ_RECEIVED_DATA_AVAILABLE \/
                    Z.land isr PC16C550_IIR_IRQ_MASK = PC16C550_IIR_IRQ_CHARACTER_TIMEOUT
  | Status _ :: _ => Z.land isr PC16C550_IIR_IRQ_MASK = PC16C550_IIR_IRQ_RECEIVER_LINE_STATUS
  end.
Lemma mask_pending isr m : Z.land isr PC16C550_IIR_IRQ_MASK = m -> (Z.land isr 1 =? 0) = (Z.land m 1 =? 0).
Proof. intros <-. by rewrite <- Z.land_assoc. Qed.
(** The last octet was read, or a condition: the rest waits. *)
Definition clean (l : list item) : Prop := forall x, Status x ∈ l -> has x PC16550_LSR_OVERRUN_ERROR = false.

Lemma tx_same_chip s c : becomes id (chip s) c -> tx_same s (with_uart (with_chip c (uart s)) s).
Proof. intros [Ec _]. cbn in Ec. split; try done. unfold sending. cbn. by rewrite Ec. Qed.
Lemma wp_read_rbr s v l (Q : Z -> W -> Prop) : tame (regs (chip s)) -> waiting s = Octet v :: l ->
  (forall c, becomes id (chip s) c -> incoming c = l -> (thre c <= thre (chip s))%nat -> (quiet c <= quiet (chip s))%nat -> Q (u8 v) (with_uart (with_chip c (uart s)) s)) ->
  wp (on_uart pc16x50_read_rbr) Q s.
Proof.
  intros Ht Hw HQ. apply wp_uart. unfold pc16x50_read_rbr, after, pc16x50_reg_read. unfold waiting in Hw.
  destruct (rbr_takes (chip s) v l (latches_hidden _ Ht) Hw) as (Hv & Hi & Hh & Hq).
  pose proof (read_becomes PC16550_REG_RBR (chip s)) as Hk.
  fold (chip s). destruct (read_reg PC16550_REG_RBR (chip s)) as [x c]. cbn in *. rewrite Hv. by apply HQ.
Qed.
Lemma wp_read_status s x l (Q : Z -> W -> Prop) : waiting s = Status x :: l ->
  (forall lsr c, becomes id (chip s) c -> Z.land lsr errors = Z.land x errors -> (thre c <= thre (chip s))%nat -> (quiet c <= quiet (chip s))%nat ->
     incoming c = (if has x PC16550_LSR_BREAK_INTERRUPT then Octet 0 :: l else l) -> Q lsr (with_uart (with_chip c (uart s)) s)) ->
  wp (on_uart pc16x50_read_lsr) Q s.
Proof.
  intros Hw HQ. apply wp_uart. unfold pc16x50_read_lsr, after, pc16x50_reg_read. unfold waiting in Hw.
  destruct (lsr_takes (chip s) x l Hw) as (Hv & Hh & Hq & Hi).
  pose proof (read_becomes PC16550_REG_LSR (chip s)) as Hk.
  fold (chip s). destruct (read_reg PC16550_REG_LSR (chip s)) as [y c]. cbn in *. by apply HQ.
Qed.
(** The events that the report of a cause may make necessary. *)
Definition early (isr : Z) : nat :=
  if bool_decide (Z.land isr PC16C550_IIR_IRQ_MASK = PC16C550_IIR_IRQ_TRANSMITTER_HOLDING_EMPTY \/
                  Z.land isr PC16C550_IIR_IRQ_MASK = PC16C550_IIR_IRQ_CHARACTER_TIMEOUT) then 1 else 0.
Definition is_thre (isr : Z) : nat :=
  if bool_decide (Z.land isr PC16C550_IIR_IRQ_MASK = PC16C550_IIR_IRQ_TRANSMITTER_HOLDING_EMPTY) then 1 else 0.
Lemma wp_read_isr s (Q : Z -> W -> Prop) :
  (forall isr c, becomes id (chip s) c -> incoming c = waiting s -> cause isr (with_uart (with_chip c (uart s)) s) ->
     (early isr + thre c + quiet c <= thre (chip s) + quiet (chip s))%nat -> (is_thre isr + thre c <= thre (chip s))%nat ->
     Q isr (with_uart (with_chip c (uart s)) s)) ->
  wp (on_uart pc16x50_read_isr) Q s.
Proof.
  intros HQ. apply wp_uart. unfold pc16x50_read_isr, after, pc16x50_reg_read.
  pose proof (isr_reports (chip s)) as (Hi & Ht & Hq & Hc). pose proof (read_becomes PC16550_REG_IIR (chip s)) as Hk.
  fold (chip s).
  destruct (read_reg PC16550_REG_IIR (chip s)) as [y c]. cbn [fst snd] in *.
  assert (forall m, Z.land (u8 y) PC16C550_IIR_IRQ_MASK = m -> Z.land m 1 = 0 -> Z.land (u8 y) 1 = 0) as Hp.
  { intros m Hm H1m. apply Z.eqb_eq. rewrite (mask_pending _ _ Hm). by rewrite H1m. }
  apply HQ; [done|done| | |].
  - unfold cause, waiting. cbn. rewrite Hi. destruct (incoming (chip s)) as [|[]]; tauto.
  - unfold early. case_bool_decide as Hb; [|lia]. destruct Hc as [[Hc _]|[[_ Hc]|Hc]]; [exfalso; by destruct Hb as [Hb|Hb]; apply Hc, (Hp _ Hb)|lia|].
    destruct (incoming (chip s)) as [|[]]; [done|destruct Hc as [Hc|[_ Hc]]; [|lia]|]; rewrite Hc in Hb; by destruct Hb.
  - unfold is_thre. case_bool_decide as Hb; [|lia]. destruct Hc as [[Hc _]|[[_ Hc]|Hc]]; [by destruct (Hc (Hp _ Hb eq_refl))|lia|].
    rewrite Hb in Hc. destruct (incoming (chip s)) as [|[]]; [done|by destruct Hc as [?|[? _]]|done].
Qed.

(** An octet goes into the buffer, which is emptied when it holds 14. *)
Lemma wp_write_rx s v (Q : unit -> W -> Prop) : rx_ok s -> (S (length (rbuf s)) / 14 <= room s)%nat ->
  (forall s' new, revents s' = revents s ++ new -> items new ++ (Octet <$> rbuf s') = Octet <$> (rbuf s ++ [v]) -> Forall received_event new ->
     room s' = (room s - length new)%nat -> (14 * length new + length (rbuf s') = S (length (rbuf s)))%nat -> uart s' = uart s -> tx_same s s' -> rx_ok s' -> Q tt s') ->
  wp (write_to_rxbuffer_fifo v) Q s.
Proof.
  intros [Ht Hb Hs] Hr HQ. unfold write_to_rxbuffer_fifo. do 4 wp_step.
  pose proof (in_contents [v] (rxbuffer s)) as Hc. pose proof (in_avail [v] (rxbuffer s)) as Ha. fold (rbuf s) in Hc. rewrite take_ge in Hc by (cbn; lia).
  destruct (kfifo_in [v] (rxbuffer s)) as [k q]. cbn [snd length] in *. set (s1 := with_rxbuffer q s).
  assert (rbuf s1 = rbuf s ++ [v]) as E1 by done. apply wp_when; intros Hl.
  - change (rxbuffer s1) with q in Hl. rewrite len_length, Hc, length_app in Hl. cbn [length] in Hl. apply Nat.leb_le in Hl.
    assert (length (rbuf s1) = 14)%nat as L1 by (rewrite E1, length_app; cbn; lia).
    assert (length (chunk (rbuf s1)) = 1)%nat as K1 by (by destruct (rbuf s1)).
    assert (S (length (rbuf s)) = 14)%nat as L2 by (rewrite E1, length_app in L1; cbn in L1; lia). rewrite L2 in Hr.
    apply wp_flush_one; [lia|by rewrite K1|]. intros s' [Fb Fe Fr Fs Fu [Fq [Fx Fc]]].
    apply (HQ s' (chunk (rbuf s1))); try done.
    + by rewrite items_chunk, Fb, E1, app_nil_r.
    + apply chunk_received. lia.
    + rewrite Fb, K1, L2. done.
    + split; try done. unfold sending, chip. by rewrite Fu.
    + split; [unfold chip; by rewrite Fu|rewrite Fb; cbn; lia|rewrite Fs, Fb; cbn; change (kfifo_avail (rxbuffer s1)) with (kfifo_avail q); lia].
  - change (rxbuffer s1) with q in Hl. rewrite len_length, Hc, length_app in Hl. cbn [length] in Hl. apply Nat.leb_gt in Hl.
    apply (HQ s1 []); try done.
    + by rewrite app_nil_r.
    + by rewrite E1.
    + change (room s1) with (room s). cbn [length]. lia.
    + rewrite E1, length_app. cbn. lia.
    + split; [done|rewrite E1, length_app; cbn; lia|change (kfifo_avail (rxbuffer s1)) with (kfifo_avail q); rewrite E1, length_app; cbn; lia].
Qed.
Lemma wp_send_status s lsr (Q : unit -> W -> Prop) : (1 <= room s)%nat ->
  (forall s', revents s' = revents s ++ [LineStatus 0xff lsr] -> room s' = (room s - 1)%nat -> rxbuffer s' = rxbuffer s -> uart s' = uart s -> tx_same s s' -> Q tt s') ->
  wp (send_line_status_event lsr) Q s.
Proof.
  intros Hr HQ. unfold send_line_status_event, on_suart, wp.
  pose proof (wp_put_rxevents [LineStatus 0xff lsr] [] 1 (fun _ u => exists q' w, u = Suart (txfifo (suart s)) q' (txwaitqueue (suart s)) (rxwaitqueue (suart s)) w /\
     contents q' = revents s ++ [LineStatus 0xff lsr] /\ kfifo_avail q' = (room s - 1)%nat) (suart s)) as HW.
  ospecialize (HW _ _ _ _); [done|done|done|by intros q' w Hq' Hv'; exists q', w|]. unfold wp in HW. rewrite app_nil_r in HW.
  change (Some <$> [LineStatus 0xff lsr]) with [Some (LineStatus 0xff lsr)] in HW.
  destruct (suart_put_rxevents _ _ _) as [[[] u]|]; [|done]. destruct HW as (q' & w & -> & Hq' & Hv'). by apply HQ.
Qed.

Lemma same_condition x y m : Z.land x errors = Z.land y errors -> Z.land errors m = m -> has x m = has y m.
Proof. intros E Hm. unfold has. by rewrite <- Hm, !Z.land_assoc, E. Qed.
Lemma rx_ok_chip s c : becomes id (chip s) c -> rx_ok s -> rx_ok (with_uart (with_chip c (uart s)) s).
Proof. intros [Ec _] []. cbn in Ec. split; try done. unfold chip. cbn. by rewrite Ec. Qed.
Lemma clean_tail i l : clean (i :: l) -> clean l.
Proof. intros Hc x Hx. apply Hc. by right. Qed.

(** What is left to be reported. *)
Definition reports s : nat := (length (waiting s) + thre (chip s))%nat.
(** After a cause that was served: if it was the receiver's, less is waiting. *)
Definition served (k : nat) (rx : bool) s (Q : unit -> W -> Prop) : Prop :=
  forall new s', taken k new s s' -> rx_ok s' -> clean (waiting s') -> (reports s' + (if rx then 1 else 0) <= reports s)%nat -> Q tt s'.

Lemma wp_octet_cause isr v l s Q : rx_ok s -> (need s + early isr <= room s)%nat -> clean (waiting s) -> waiting s = Octet v :: l ->
  Z.land isr PC16C550_IIR_IRQ_MASK = PC16C550_IIR_IRQ_RECEIVED_DATA_AVAILABLE \/ Z.land isr PC16C550_IIR_IRQ_MASK = PC16C550_IIR_IRQ_CHARACTER_TIMEOUT ->
  served (early isr) true s Q -> wp (handle_cause isr) Q s.
Proof.
  intros Hok Hr Hcl Hw Hm HQ. unfold handle_cause. assert (is_rxdata_interrupt isr = true) as -> by (unfold is_rxdata_interrupt; by destruct Hm as [-> | ->]).
  assert (need s = need_of (S (length (rbuf s))) l (thre (chip s)) (quiet (chip s))) as Hns by (unfold need; by rewrite Hw, need_octet).
  assert (S (length (rbuf s)) / 14 <= room s)%nat as Hr2.
  { unfold need_of in Hns. pose proof (Nat.Div0.div_le_mono (S (length (rbuf s))) (S (length (rbuf s)) + octets_waiting l) 14 ltac:(lia)). lia. }
  apply wp_bind. eapply wp_read_rbr; [apply Hok|done|]. intros c Hc Hi Hh Hq.
  set (s1 := with_uart (with_chip c (uart s)) s). apply wp_bind, wp_write_rx; [by apply rx_ok_chip|done|].
  intros s2 new Ev It Rc Rm Nd Hu Tx Ok. assert (waiting s2 = l /\ chip s2 = c) as [W2 C2] by (unfold waiting, chip; rewrite Hu; by cbn).
  assert (taken 0 new s s2) as T2.
  { split; [done| |done|done| |].
    - rewrite W2, Hw. cbn. rewrite app_assoc, It, fmap_app, <- app_assoc. done.
    - change (rbuf s1) with (rbuf s) in Nd. rewrite Hns, <- Nd, need_chunks. unfold need. rewrite W2, C2.
      pose proof (need_less (length (rbuf s2)) (length (rbuf s2)) l (thre (chip s)) (thre c) (quiet (chip s)) (quiet c) ltac:(lia) Hh Hq). lia.
    - eapply tx_same_trans; [by apply tx_same_chip|done]. }
  assert (reports s2 + 1 <= reports s)%nat as Hm2 by (unfold reports; rewrite W2, C2, Hw; cbn; lia).
  assert (clean (waiting s2)) as Cl2 by (rewrite W2; rewrite Hw in Hcl; by eapply clean_tail). apply wp_when; intros Hto.
  - assert (early isr = 1%nat) as He by (unfold early; rewrite bool_decide_true; [done|right; by apply Z.eqb_eq]). rewrite He in *.
    pose proof (taken_need _ _ _ _ T2) as N2. pose proof (taken_room _ _ _ _ T2) as R2. pose proof (chunk_length (rbuf s2)).
    apply wp_flush_ok; [done|lia|]. intros s3 T3 Ok3 Hc3 _.
    eapply HQ; [by apply (taken_trans 0 1 _ _ _ _ _ T2 T3)|done|unfold waiting; by rewrite Hc3|unfold reports, waiting in *; by rewrite Hc3].
  - apply (HQ new); [|done..]. destruct T2 as [? ? ? ? N2 ?]. split; try done. lia.
Qed.
Lemma wp_status_cause isr x l s Q : rx_ok s -> (need s <= room s)%nat -> clean (waiting s) -> waiting s = Status x :: l ->
  Z.land isr PC16C550_IIR_IRQ_MASK = PC16C550_IIR_IRQ_RECEIVER_LINE_STATUS -> served 0 true s Q -> wp (handle_cause isr) Q s.
Proof.
  intros Hok Hr Hcl Hw Hm HQ. unfold handle_cause. assert (is_rxdata_interrupt isr = false) as -> by (unfold is_rxdata_interrupt; by rewrite Hm).
  assert (forall b t q, need_of b (waiting s) t q = S (S (need_of b l t q))) as Hns by (intros b t q; by rewrite Hw, need_status).
  pose proof (chunk_length (rbuf s)) as Hch. assert (2 <= need s)%nat as H2s by (unfold need; rewrite Hns; lia).
  rewrite Hm. apply wp_bind, wp_flush_ok; [done|lia|]. intros s1 T1 Ok1 C1 B1. cbn [Z.eqb Pos.eqb PC16C550_IIR_IRQ_RECEIVER_LINE_STATUS when].
  assert (waiting s1 = Status x :: l) as W1 by (unfold waiting; by rewrite C1).
  assert (need s1 = S (S (need_of 0 l (thre (chip s)) (quiet (chip s))))) as N1 by (unfold need; by rewrite W1, B1, C1, need_status).
  apply wp_bind. eapply wp_read_status; [done|]. intros lsr c Hc He Hh Hqt Hi. set (s2 := with_uart (with_chip c (uart s1)) s1).
  rewrite !(same_condition _ _ _ He) by done. rewrite Hw in Hcl. rewrite (Hcl x) by left. cbn [when].
  assert (rx_ok s2) as Ok2 by (by apply rx_ok_chip). assert (tx_same s1 s2) as X2 by (by apply tx_same_chip).
  assert (forall s3, rxbuffer s3 = rxbuffer s1 -> suart s3 = suart s1 -> rx_ok s3 -> tx_same s1 s3 -> waiting s3 = l ->
    (thre (chip s3) <= thre (chip s))%nat -> (quiet (chip s3) <= quiet (chip s))%nat -> wp (send_line_status_event lsr) Q s3) as Hsend.
  { intros s3 Hb3 Hq3 Ok3 X3 W3 H3t H3q. assert (revents s3 = revents s1 /\ room s3 = room s1 /\ rbuf s3 = []) as (E3 & R3 & B3).
    { unfold revents, room, rbuf in *. by rewrite Hq3, Hb3. }
    pose proof (taken_room _ _ _ _ T1) as R1. pose proof (taken_need _ _ _ _ T1) as K1.
    apply wp_send_status; [lia|]. intros s4 E4 R4 B4 U4 X4.
    assert (waiting s4 = l) as W4 by (unfold waiting, chip in *; by rewrite U4). assert (rbuf s4 = []) as Bf4 by (unfold rbuf in *; by rewrite B4).
    assert (need s4 <= need_of 0 l (thre (chip s)) (quiet (chip s)))%nat as N4.
    { unfold need. rewrite W4, Bf4. assert (chip s4 = chip s3) as -> by (unfold chip; by rewrite U4). by apply need_less. }
    assert (chip s4 = chip s3) as C4 by (unfold chip; by rewrite U4).
    apply (HQ (chunk (rbuf s) ++ [LineStatus 0xff lsr])).
    - assert (tx_same s1 s4) as X14 by (by eapply tx_same_trans). destruct T1 as [Ev It Rc Rm _ Tx]. split.
      + by rewrite E4, E3, Ev, app_assoc.
      + rewrite items_app, <- app_assoc, <- It, W4, W1, Bf4, B1. cbn. by rewrite He.
      + apply Forall_app. split; [done|]. apply Forall_singleton. right. by eexists.
      + rewrite R4, R3, Rm, length_app. cbn [length]. lia.
      + rewrite length_app. cbn [length]. lia.
      + by eapply tx_same_trans.
    - destruct Ok3. split; [by rewrite C4|by rewrite Bf4; cbn; lia|by rewrite B4, Bf4, <- B3].
    - rewrite W4. by eapply clean_tail.
    - unfold reports. rewrite W4, Hw, C4. cbn [length]. lia. }
  apply wp_bind, wp_ret, wp_bind, wp_when; intros Hbi; rewrite Hbi in Hi.
  - apply wp_bind. eapply wp_read_rbr; [apply Ok2|exact Hi|]. intros c' Hc' Hi' Hh' Hq'. wp_next. apply Hsend; try done.
    + by apply rx_ok_chip.
    + eapply tx_same_trans; [exact X2|by apply tx_same_chip].
    + change (thre c' <= thre (chip s))%nat. change (chip s2) with c in Hh'. rewrite C1 in Hh. lia.
    + change (quiet c' <= quiet (chip s))%nat. change (chip s2) with c in Hq'. rewrite C1 in Hqt. lia.
  - rewrite C1 in Hh, Hqt. by apply Hsend.
Qed.
Lemma wp_thre_cause isr s Q : rx_ok s -> (need s + 1 <= room s)%nat -> clean (waiting s) ->
  Z.land isr PC16C550_IIR_IRQ_MASK = PC16C550_IIR_IRQ_TRANSMITTER_HOLDING_EMPTY -> served 1 false s Q -> wp (handle_cause isr) Q s.
Proof.
  intros Hok Hr Hcl Hm HQ. unfold handle_cause. assert (is_rxdata_interrupt isr = false) as -> by (unfold is_rxdata_interrupt; by rewrite Hm).
  pose proof (chunk_length (rbuf s)). rewrite Hm. apply wp_bind, wp_flush_ok; [done|lia|]. intros s1 T1 Ok1 C1 B1. eapply HQ; [done|done|unfold waiting; by rewrite C1|].
  unfold reports, waiting. rewrite C1. lia.
Qed.

(** ** All causes *)

Lemma wp_interrupt_loop fuel : forall s isr (Q : unit -> W -> Prop), rx_ok s -> (need s + early isr <= room s)%nat -> clean (waiting s) -> cause isr s ->
  (reports s + is_thre isr <= fuel)%nat ->
  (forall k new s', taken k new s s' -> rx_ok s' -> waiting s' = [] -> Q tt s') -> wp (interrupt_loop fuel isr) Q s.
Proof.
  induction fuel as [|fuel IH]; intros s isr Q Hok Hr Hcl Hc Hf HQ; cbn [interrupt_loop]; destruct (Z.eqb_spec (Z.land isr 1) 0) as [E|E].
  2, 4: destruct Hc as [[_ Hw]|[Hm|Hm]]; [by apply wp_ret, (HQ 0%nat []); [apply taken_refl| |]|by rewrite <- Z.eqb_neq, (mask_pending _ _ Hm) in E|].
  2, 3: destruct (waiting s) as [|[v|x] l]; [done|destruct Hm as [Hm|Hm]|]; by rewrite <- Z.eqb_neq, (mask_pending _ _ Hm) in E.
  { exfalso. unfold is_thre in Hf. destruct Hc as [[Hc _]|[Hm|Hm]]; [done|rewrite bool_decide_true in Hf by done; lia|].
    unfold reports in Hf. destruct (waiting s) as [|i l]; [done|]. cbn in Hf. lia. }
  assert (forall k (rx : bool), (need s + k <= room s)%nat -> (reports s <= fuel + (if rx then 1 else 0))%nat ->
    served k rx s (fun _ s1 => wp (isr ← on_uart pc16x50_read_isr; interrupt_loop fuel isr) Q s1)) as Hnext.
  { clear Hf Hr. intros k rx Hr Hfuel new s1 T1 Ok1 C1 R1. pose proof (taken_room _ _ _ _ T1). pose proof (taken_need _ _ _ _ T1).
    apply wp_bind, wp_read_isr. intros isr' c Hc' Hi Hcs He Hth. set (s2 := with_uart (with_chip c (uart s1)) s1) in *.
    assert (waiting s2 = waiting s1) as W2 by done.
    assert (need s2 + early isr' <= need s1)%nat as N2.
    { unfold need. rewrite W2. change (rbuf s2) with (rbuf s1). change (chip s2) with c. unfold need_of. lia. }
    assert (taken 0 [] s1 s2) as T2.
    { split; try done; rewrite ?W2; try done; [by rewrite app_nil_r|change (room s2) with (room s1); cbn [length]; lia|cbn [length]; lia|by apply tx_same_chip]. }
    apply IH; [by apply rx_ok_chip|change (room s2) with (room s1); lia|by rewrite W2|done| |].
    - unfold reports in *. rewrite W2. change (chip s2) with c. destruct rx; lia.
    - intros k' new' s' T' Ok' W'. eapply HQ; [|done|done]. eapply taken_trans; [exact T1|]. by eapply (taken_trans 0 k' [] new'). }
  apply wp_bind. destruct Hc as [[Hc _]|[Hm|Hm]]; [done| |].
  - assert (is_thre isr = 1 /\ early isr = 1)%nat as [Eth Eea] by (unfold is_thre, early; rewrite !bool_decide_true; auto). rewrite Eth in Hf. rewrite Eea in Hr.
    apply (wp_thre_cause isr); [done..|]. apply Hnext; lia.
  - destruct (waiting s) as [|[v|x] l] eqn:Hw; [done| |].
    + eapply wp_octet_cause; [done|done|by rewrite Hw|done|done|apply Hnext; [done|lia]].
    + eapply wp_status_cause; [done|lia|by rewrite Hw|done|done|apply Hnext; lia].
Qed.
Lemma wp_interrupts fuel s (Q : unit -> W -> Prop) : rx_ok s -> (need s <= room s)%nat -> clean (waiting s) -> (reports s <= fuel)%nat ->
  (forall new s', waiting s' = [] -> rx_ok s' -> tx_same s s' -> revents s' = revents s ++ new -> Forall received_event new ->
     items new ++ (Octet <$> rbuf s') = (Octet <$> rbuf s) ++ (seen <$> waiting s) -> Q tt s') ->
  wp (handle_all_pending_interrupts fuel) Q s.
Proof.
  intros Hok Hr Hcl Hf HQ. unfold handle_all_pending_interrupts. apply wp_bind, wp_read_isr. intros isr c Hc Hi Hcs He Hth.
  set (s1 := with_uart (with_chip c (uart s)) s) in *. assert (waiting s1 = waiting s) as W1 by done.
  apply wp_interrupt_loop; [by apply rx_ok_chip| |by rewrite W1|done| |].
  - change (room s1) with (room s). unfold need, need_of in *. rewrite W1. change (rbuf s1) with (rbuf s). change (chip s1) with c. lia.
  - unfold reports in *. rewrite W1. change (chip s1) with c. lia.
  - intros k new s' T Ok W'. eapply (HQ new); [done|done|eapply tx_same_trans; [by apply tx_same_chip|apply (taken_tx _ _ _ _ T)]|apply (taken_events _ _ _ _ T)|apply (taken_received _ _ _ _ T)|].
    pose proof (taken_items _ _ _ _ T) as It. by rewrite W', app_nil_r, W1 in It.
Qed.


(** When nothing more comes for a while, what is left in the buffer goes on. *)
Theorem rest_goes_on s : rx_ok s -> (1 <= room s)%nat ->
  wp flush_rxbuffer_fifo (fun _ s' => rbuf s' = [] /\ waiting s' = waiting s /\ tx_same s s' /\
    exists new, revents s' = revents s ++ new /\ Forall received_event new /\ items new = Octet <$> rbuf s) s.
Proof.
  intros Hok Hr. pose proof (chunk_length (rbuf s)). apply wp_flush_ok; [done|lia|]. intros s' T Ok Hc Hb.
  split_and!; [done|unfold waiting; by rewrite Hc|apply (taken_tx _ _ _ _ T)|].
  exists (chunk (rbuf s)). split_and!; [apply (taken_events _ _ _ _ T)|apply (taken_received _ _ _ _ T)|apply items_chunk].
Qed.
End receive.

(** ** The cause that is never cleared *)

(** The handler does not read the status of the modem, although it enables
    its interrupt when the UART is created: with a chip that keeps reporting a
    change of the modem lines until its status is read, as a 16550 does, the
    loop does not end, whatever its fuel. *)
Theorem modem_change_hangs {F} `{Kfifo F} {C} `{Regs C} (changed : C -> Prop)
  (reported : forall c, changed c -> Z.land (u8 (read_reg PC16550_REG_IIR c).1) PC16C550_IIR_IRQ_MASK = PC16C550_IIR_IRQ_MODEM_STATUS)
  (until_read : forall reg c, changed c -> reg <> PC16550_REG_MSR -> changed (read_reg reg c).2) fuel (s : suart_pc16x50 F C) :
  changed (reg_context (uart s)) -> kfifo_len (rxbuffer s) = 0%nat -> handle_all_pending_interrupts fuel s = Fault OutOfFuel.
Proof.
  intros Hc Hb. unfold handle_all_pending_interrupts. set (P := fun s : suart_pc16x50 F C => changed (reg_context (uart s)) /\ kfifo_len (rxbuffer s) = 0%nat).
  assert (forall s, P s -> exists isr s', on_uart pc16x50_read_isr s = Done (isr, s') /\ P s' /\ Z.land isr PC16C550_IIR_IRQ_MASK = PC16C550_IIR_IRQ_MODEM_STATUS) as Hisr.
  { intros s0 [Hc0 Hb0]. unfold on_uart, on_part, pc16x50_read_isr, pc16x50_reg_read. pose proof (reported _ Hc0) as Hr.
    pose proof (until_read PC16550_REG_IIR _ Hc0 ltac:(done)) as Hk. destruct (read_reg _ _) as [v c]. by eexists _, _. }
  assert (forall isr s, P s -> Z.land isr PC16C550_IIR_IRQ_MASK = PC16C550_IIR_IRQ_MODEM_STATUS -> handle_cause isr s = Done (tt, s)) as Hcause.
  { intros isr s0 [Hc0 Hb0] Hm. unfold handle_cause. assert (is_rxdata_interrupt isr = false) as -> by (unfold is_rxdata_interrupt; by rewrite Hm).
    rewrite Hm. unfold flush_rxbuffer_fifo, mbind, prog_bind, gets. rewrite Hb0. cbn. unfold mbind, prog_bind, gets. by rewrite Hb0. }
  assert (forall fuel isr s, P s -> Z.land isr PC16C550_IIR_IRQ_MASK = PC16C550_IIR_IRQ_MODEM_STATUS -> interrupt_loop fuel isr s = Fault OutOfFuel) as Hloop.
  { clear fuel s Hc Hb. intros fuel. induction fuel as [|fuel IH]; intros isr s Hp Hm; cbn [interrupt_loop]; rewrite (mask_pending _ _ Hm); [done|].
    change (Z.land PC16C550_IIR_IRQ_MODEM_STATUS 1 =? 0) with true. cbv iota.
    rewrite (bind_run _ _ _ _ _ (Hcause isr s Hp Hm)). destruct (Hisr s Hp) as (isr' & s' & E & Hp' & Hm'). rewrite (bind_run _ _ _ _ _ E). by apply IH. }
  destruct (Hisr s) as (isr & s' & E & Hp & Hm); [done|]. rewrite (bind_run _ _ _ _ _ E). by apply Hloop.
Qed.

(** ** A concrete UART *)

Definition line_demo : list item := Status 0x10 :: (Octet ∘ Z.of_nat <$> seq 0 20) ++ [Status 0x10; Octet 5].
Definition rx_demo : suart_pc16x50 list_fifo small_chip :=
  with_uart (with_chip (SmallChip reset_registers 0 line_demo) (uart demo_uart)) demo_uart.
Lemma rx_demo_ok : rx_ok rx_demo.
Proof. split; [by split|by vm_compute; lia|by vm_compute; lia]. Qed.
Lemma line_demo_clean : clean line_demo.
Proof.
  intros x Hx. assert (Forall (fun i => match i with Status y => has y PC16550_LSR_OVERRUN_ERROR = false | _ => True end) line_demo) as Hf.
  { repeat constructor. }
  rewrite Forall_forall in Hf. apply (Hf (Status x) Hx).
Qed.

(** A chip whose modem lines have changed until the modem status is read. *)
#[local] Instance modem_regs : Regs bool := {|
  write_reg _ _ c := c;
  read_reg := fun reg (c : bool) => if reg =? PC16550_REG_MSR then (if c then 1 else 0, false)
                    else if reg =? PC16550_REG_IIR then (if c then 0 else 1, c) else (0, c) |}.
Definition modem_demo : suart_pc16x50 list_fifo bool :=
  SuartPc (Suart (INIT_KFIFO EVENTS) (INIT_KFIFO EVENTS) 0 1 []) (pc16x50_init true) 100000000 1 (INIT_KFIFO BUFFER) (INIT_KFIFO BUFFER).
Lemma modem_change_hangs_witness : handle_all_pending_interrupts 1000 modem_demo = Fault OutOfFuel.
Proof.
  apply (modem_change_hangs (fun c : bool => c = true)).
  - by intros c ->.
  - intros reg c -> Hreg. cbn. apply Z.eqb_neq in Hreg. rewrite Hreg. by destruct (reg =? PC16550_REG_IIR).
  - reflexivity.
  - reflexivity.
Defined.
