(* ===== verification/DmxSuart.v ===== *)
(** * DMX512 over the stream UART: dmx512_suart.c, second part

    [src/simulation/dmx512_suart.c] from [struct dmx512suart_port] on: frames
    become events for the UART, with the break made of a slow octet, and a
    thread makes frames of the events that come back.  [G] is the state of the
    client that the frames are given to. *)
From stdpp Require Import base countable list.
From S2P Require Import Prelude FrameQueue Pc16cx50 StreamUart SuartDriver.

(** ** RDM: rdm_priv.h *)

Definition SC_RDM : Z := 0xCC.
Definition SC_SUB_MESSAGE : Z := 0x01.
Definition DISCOVERY_COMMAND : Z := 0x10.
Definition DISCOVERY_COMMAND_RESPONSE : Z := 0x11.
Definition DISC_UNIQUE_BRANCH : Z := 0x0001.
Definition DMX_POS_STARTCODE : Z := 0.
Definition RDM_POS_SUBSTARTCODE : Z := 1.
Definition RDM_POS_SRC_UID : Z := 9.
Definition RDM_POS_COMMAND_CLASS : Z := 20.
Definition RDM_POS_PID : Z := 21.
Definition RDM_POS_PDL : Z := 23.

Definition dmx512_calculate_rdm_checksum (data : list Z) : Z := foldl (fun sum v => u16 (sum + v)) 0 data.
(** Slots that have given values, looked at one after the other. *)
Fixpoint slots_are (data : list Z) (slots : list (Z * Z)) : outcome bool :=
  match slots with
  | [] => Done true
  | (pos, v) :: slots => x ← load data pos; if x =? v then slots_are data slots else Done false
  end.
Definition unique_branch (command_class pdl : Z) : list (Z * Z) :=
  [(DMX_POS_STARTCODE, SC_RDM); (RDM_POS_SUBSTARTCODE, SC_SUB_MESSAGE); (RDM_POS_COMMAND_CLASS, command_class);
   (RDM_POS_PID, u8 (Z.shiftr DISC_UNIQUE_BRANCH 8)); (RDM_POS_PID + 1, u8 DISC_UNIQUE_BRANCH); (RDM_POS_PDL, pdl)].
Definition dmx512_is_rdm_discover (data : list Z) : outcome bool := slots_are data (unique_branch DISCOVERY_COMMAND 12).
Definition dmx512_is_rdm_discover_reply (data : list Z) : outcome bool := slots_are data (unique_branch DISCOVERY_COMMAND_RESPONSE 0).

(** ** Making the events of a frame *)

(** An array of events and the number of those that are in use. *)
Abbreviation building := (prog (list (option suart_event) * Z)).
Definition emit (e : option suart_event) : building unit :=
  s ← get_state; l ← lift_outcome (match e with Some e => store s.2 (Some e) s.1 | None => Done s.1 end); modify (fun _ => (l, s.2 + 1)).
Definition emit_all (es : list suart_event) : building unit :=
  s ← get_state; l ← lift_outcome (store_all s.2 (Some <$> es) s.1); modify (fun _ => (l, s.2 + Z.of_nat (length es))).
(** [ret = suart_event_data_inline(...); if (ret <= 0) return -1;] *)
Definition emit_data (maxevents : Z) (data : list Z) (count : Z) : building bool :=
  ret ← lift_outcome (suart_event_data_inline (maxevents - 13) data count);
  match ret with
  | Some (e :: es) => emit_all (e :: es) ;; mret true
  | _ => mret false
  end.

Definition char_n : Z := 110.
(** Every octet as two, in which it is masked. *)
Definition masked (v : Z) : list Z := [u8 (Z.lor 0xAA v); u8 (Z.lor 0x55 v)].
Fixpoint masked_slots (n : nat) (pos : Z) (data : list Z) : outcome (list Z) :=
  match n with
  | O => Done []
  | S n => v ← load data pos; l ← masked_slots n (pos + 1) data; Done (masked v ++ l)
  end.
(** The 24 octets of a discovery reply. *)
Definition discovery_octets (data : list Z) : outcome (list Z) :=
  uid ← masked_slots 6 RDM_POS_SRC_UID data;
  let checksum := dmx512_calculate_rdm_checksum uid in
  Done (replicate 7 0xFE ++ [0xAA] ++ uid ++ masked (u8 (Z.shiftr checksum 8)) ++ masked (u8 checksum)).

(** -1 is [None]. *)
Definition dmx512suart_create_frame (maxevents flags : Z) (dmxdata : list Z) (payload_count : Z) : building (option Z) :=
  if maxevents <? 13 + Z.quot (payload_count + 13) 14 then mret None else
  emit (Some suart_event_disable_rx) ;;
  emit (Some suart_event_enable_tx) ;;
  emit (Some (suart_event_change_line SUART_LINE_RTS SUART_LINE_RTS)) ;;
  reply ← lift_outcome (dmx512_is_rdm_discover_reply dmxdata);
  ok ← (if (reply : bool) then
          buffer ← lift_outcome (discovery_octets dmxdata);
          emit_data maxevents buffer (Z.of_nat (length buffer))
        else
          when (Z.land flags DMX512_FLAG_NOBREAK =? 0)
            (emit (Some (suart_event_set_format 8 char_n 1)) ;;
             emit (Some (suart_event_change_baudrate 100500)) ;;
             e ← lift_outcome (suart_event_data_inline_small_va 1 [0]); emit e ;;
             emit (Some (suart_event_set_format 8 char_n 2)) ;;
             emit (Some (suart_event_change_baudrate 250000))) ;;
          emit_data maxevents dmxdata payload_count);
  if negb ok then mret None else
  emit (Some (suart_event_change_line SUART_LINE_RTS 0)) ;;
  emit (Some suart_event_disable_tx) ;;
  emit (Some suart_event_enable_rx) ;;
  emit (Some (suart_event_echo 1)) ;;
  s ← get_state; mret (Some s.2).

(** ** Ports *)

Record dmx512suart_port (F : Type -> Type) (C G : Type) := SuartPort {
  dmxstate : Z;
  dmxsize : Z;
  dmx_data : list Z;           (* 513 octets *)
  dmx_locked : Z;
  dmx_lock_count : Z;
  dmx_lock_size : Z;
  port_suart : option (suart_pc16x50 F C);
  stop_rxhandler : Z;
  frame_received : option (Z -> Z -> list Z -> Z -> prog G unit);
  frame_received_handle : Z }.
Arguments SuartPort {F C G}. Arguments dmxstate {F C G}. Arguments dmxsize {F C G}. Arguments dmx_data {F C G}.
Arguments dmx_locked {F C G}. Arguments dmx_lock_count {F C G}. Arguments dmx_lock_size {F C G}. Arguments port_suart {F C G}.
Arguments stop_rxhandler {F C G}. Arguments frame_received {F C G}. Arguments frame_received_handle {F C G}.
Definition MAX_EVENTS : nat := 128.
Definition DMX_DATA_SIZE : nat := 513.

Section port.
Context {F : Type -> Type} `{Kfifo F} {C : Type} `{Regs C} {G : Type}.
Abbreviation port := (dmx512suart_port F C G).
Implicit Types p : port.

Definition with_dmxstate v p : port := SuartPort v (dmxsize p) (dmx_data p) (dmx_locked p) (dmx_lock_count p) (dmx_lock_size p) (port_suart p) (stop_rxhandler p) (frame_received p) (frame_received_handle p).
Definition with_dmxsize v p : port := SuartPort (dmxstate p) v (dmx_data p) (dmx_locked p) (dmx_lock_count p) (dmx_lock_size p) (port_suart p) (stop_rxhandler p) (frame_received p) (frame_received_handle p).
Definition with_dmx_data v p : port := SuartPort (dmxstate p) (dmxsize p) v (dmx_locked p) (dmx_lock_count p) (dmx_lock_size p) (port_suart p) (stop_rxhandler p) (frame_received p) (frame_received_handle p).
Definition with_lock l c s p : port := SuartPort (dmxstate p) (dmxsize p) (dmx_data p) l c s (port_suart p) (stop_rxhandler p) (frame_received p) (frame_received_handle p).
Definition with_port_suart v p : port := SuartPort (dmxstate p) (dmxsize p) (dmx_data p) (dmx_locked p) (dmx_lock_count p) (dmx_lock_size p) v (stop_rxhandler p) (frame_received p) (frame_received_handle p).
Definition with_stop v p : port := SuartPort (dmxstate p) (dmxsize p) (dmx_data p) (dmx_locked p) (dmx_lock_count p) (dmx_lock_size p) (port_suart p) v (frame_received p) (frame_received_handle p).

(** An operation on the UART of the port. *)
Definition with_events {A} (m : prog (suart_s F) A) : prog port A := fun p =>
  match port_suart p with
  | None => Fault NullPointer
  | Some s => match on_suart m s with Done (a, s) => Done (a, with_port_suart (Some s) p) | Fault f => Fault f end
  end.

(** ** Sending *)

Definition dmx512suart_send_frame (flags : Z) (dmxdata : list Z) (count : Z) : prog port unit :=
  p ← get_state;
  match port_suart p with
  | None => mret tt
  | Some _ =>
      r ← lift_outcome (dmx512suart_create_frame (Z.of_nat MAX_EVENTS) flags dmxdata count (replicate MAX_EVENTS None, 0));
      let '(n, (events, _)) := r in
      with_events (suart_put_txevents events (default (-1) n))
  end.
Definition init_events : list suart_event :=
  [suart_event_set_format 8 char_n 2; suart_event_change_baudrate 250000; suart_event_disable_tx; suart_event_enable_rx;
   suart_event_change_line (Z.lor SUART_LINE_RTS SUART_LINE_DTR) SUART_LINE_DTR; suart_event_echo 12345678].
Definition dmx512suart_send_init_events : prog port unit :=
  p ← get_state;
  match port_suart p with None => mret tt | Some _ => with_events (suart_put_txevents (Some <$> init_events) 6) end.
Definition dmx512suart_set_dtr (value : Z) : prog port unit :=
  p ← get_state;
  match port_suart p with
  | None => mret tt
  | Some _ =>
      with_events (suart_put_txevents [Some (suart_event_change_line SUART_LINE_DTR (if value =? 0 then 0 else SUART_LINE_DTR))] 1)
  end.

(** ** Receiving *)

Abbreviation receiving := (prog (port * G)).
Definition on_port {A} (m : prog port A) : receiving A := fun w =>
  match m w.1 with Done (a, p) => Done (a, (p, w.2)) | Fault f => Fault f end.
Definition on_client {A} (m : prog G A) : receiving A := fun w =>
  match m w.2 with Done (a, g) => Done (a, (w.1, g)) | Fault f => Fault f end.
Definition the_port : receiving port := gets fst.
Definition update (f : port -> port) : receiving unit := modify (fun w => (f w.1, w.2)).

Definition dmx512suart_received_frame (flags : Z) (data : list Z) (size : Z) : receiving unit :=
  p ← the_port;
  match frame_received p with
  | Some f => on_client (f (frame_received_handle p) flags data size)
  | None => mret tt
  end.

(** Octets.  The condition of the first branch is an assignment. *)
Definition received_data (count : Z) (data : list Z) : receiving unit :=
  p ← the_port;
  too_long ← (if negb (dmx_locked p =? 0) then update (with_dmxstate 0) ;; mret (negb (0 =? 0)) else mret false);
  when too_long (update (with_lock 0 0 (dmxsize p))) ;;
  update (with_dmxstate 2) ;;
  p ← the_port;
  when (count <? 512 - dmxsize p)
    (octets ← lift_outcome (load_all 0 (Z.to_nat count) data);
     array ← lift_outcome (store_all (dmxsize p) octets (dmx_data p));
     update (with_dmx_data array) ;;
     update (with_dmxsize (dmxsize p + count)) ;;
     p ← the_port;
     when (negb (dmx_locked p =? 0) && (dmxsize p =? dmx_lock_size p))
       (dmx512suart_received_frame 0 (dmx_data p) (dmxsize p) ;;
        update (with_dmxsize 0) ;;
        update (with_dmxstate 0))).
(** The length of the frames: it is locked after four that were as long as the
    one before. *)
Definition update_lock (p : port) : port :=
  if negb (dmx_locked p =? 0) then
    (if negb (dmx_lock_size p =? dmxsize p) then with_lock 0 0 (dmxsize p) p else p)
  else
    let count := if dmx_lock_size p =? dmxsize p then dmx_lock_count p + 1 else dmx_lock_count p in
    with_lock (if 3 <? count then 1 else dmx_locked p) count (dmxsize p) p.
Definition received_break : receiving unit :=
  p ← the_port;
  when (0 <? dmxsize p)
    (update update_lock ;;
     p ← the_port;
     dmx512suart_received_frame 0 (dmx_data p) (dmxsize p) ;;
     update (with_dmxsize 0)) ;;
  update (with_dmxstate 1) ;;
  update (with_dmxsize 0).
Definition handle_rx_event (e : suart_event) : receiving unit :=
  match e with
  | Data _ _ => raise (Exited 1)
  | DataInline count data => received_data count data
  | LineStatus _ value => when (has value PC16550_LSR_BREAK_INTERRUPT) received_break
  | _ => mret tt
  end.
Fixpoint rx_loop (fuel : nat) : receiving unit :=
  n ← on_port (with_events suart_rxavailable);
  if (0 <? n)%nat then
    match fuel with
    | O => raise OutOfFuel
    | S fuel =>
        es ← on_port (with_events (suart_get_rxevents 1));
        match es with e :: _ => handle_rx_event e | [] => mret tt end ;; rx_loop fuel
    end
  else mret tt.
(** The thread; [wait] is the time it sleeps, in which others run.  [fuel] has
    to be the number of events that come in one go. *)
Fixpoint dmx512suart_rxfifo_handler (wait : receiving unit) (rounds fuel : nat) : receiving unit :=
  p ← the_port;
  if stop_rxhandler p =? 0 then
    match rounds with
    | O => raise OutOfFuel
    | S rounds => rx_loop fuel ;; wait ;; dmx512suart_rxfifo_handler wait rounds fuel
    end
  else mret tt.

(** ** Creating and deleting *)

Definition dmx512suart_port_init (suart : suart_pc16x50 F C) (received : option (Z -> Z -> list Z -> Z -> prog G unit)) (handle : Z)
    (data : list Z) (stop : Z) : port :=
  SuartPort 0 0 data 0 0 0 (Some suart) stop received handle.
(** [data] is what the new memory holds, and [suart] what
    [suart_pc16x50_create] gives. *)
Definition dmx512suart_create_port_with_index (memory : option (list Z)) (suart : option (suart_pc16x50 F C))
    (received : option (Z -> Z -> list Z -> Z -> prog G unit)) (handle : Z) : outcome (option port) :=
  match memory, suart with
  | Some data, Some s =>
      match dmx512suart_send_init_events (with_stop 0 (dmx512suart_port_init s received handle data 1)) with
      | Done (_, p) => Done (Some p)
      | Fault f => Fault f
      end
  | _, _ => Done None
  end.
Definition dmx512suart_create_port (memory : option (list Z)) (suart_by_index : Z -> option (suart_pc16x50 F C))
    (received : option (Z -> Z -> list Z -> Z -> prog G unit)) (handle : Z) : outcome (option port) :=
  dmx512suart_create_port_with_index memory (suart_by_index 0) received handle.
(** The thread of the port ends when it wakes up, the one of the UART with its
    own event. *)
Definition dmx512suart_delete_port (wait : Z -> prog (suart_pc16x50 F C) Z) (release : pc16x50 C -> outcome unit) (rounds fuel polls : nat)
    (port : option port) : outcome unit :=
  match port with
  | None => Done tt
  | Some p =>
      r ← (if stop_rxhandler p =? 0 then
             with_events (q ← suart_rxwaitqueue; wake_up_interruptible q) (with_stop 1 p)
           else Done (tt, p));
      suart_pc16x50_delete wait release rounds fuel polls (port_suart r.2)
  end.
End port.
