(* ===== verification/DmxSuartContract.v ===== *)
(** * Frames over the stream UART: what is sent

    The first half of the contract of [DmxSuart.v]: a frame becomes the events
    that put it on the line, and the thread of [SuartDriver.v] carries them
    out: the break, which is an octet 0 at 100500 baud, and the octets at
    250000 baud. *)
From stdpp Require Import base countable list.
From S2P Require Import Prelude FrameQueue Pc16cx50 StreamUart SuartDriver SuartTransmit DmxSuart.

(** ** Building the events *)

(** The array of 128 with [es] at its start. *)
Definition built (es : list suart_event) (k : nat) : list (option suart_event) * Z :=
  ((Some <$> es) ++ replicate k None, Z.of_nat (length es)).

Lemma wp_emit_all es' es k (Q : unit -> _ -> Prop) : (length es' <= k)%nat ->
  Q tt (built (es ++ es') (k - length es')) -> wp (emit_all es') Q (built es k).
Proof.
  intros Hk HQ. unfold emit_all, built at 1. do 3 wp_step. cbn [fst snd].
  eapply wp_done; [unfold lift_outcome; rewrite store_all_nat by (rewrite length_app, !length_fmap, length_replicate; lia); reflexivity|].
  wp_step. unfold built in HQ. rewrite length_app, Nat2Z.inj_add in HQ. rewrite take_app_le by (rewrite length_fmap; lia).
  rewrite take_ge by (rewrite length_fmap; lia). rewrite drop_app_ge by (rewrite !length_fmap; lia).
  rewrite !length_fmap, drop_replicate. rewrite fmap_app, <- app_assoc in HQ. replace (length es + length es' - length es)%nat with (length es') by lia. exact HQ.
Qed.
Lemma wp_emit e es k (Q : unit -> _ -> Prop) : Q tt (built (es ++ [e]) k) -> wp (emit (Some e)) Q (built es (S k)).
Proof.
  intros HQ. pose proof (wp_emit_all [e] es (S k) Q ltac:(cbn; lia)) as HW. cbn [length] in HW. replace (S k - 1)%nat with k in HW by lia. specialize (HW HQ).
  unfold wp, emit, emit_all, mbind, prog_bind, get_state, lift_outcome, modify in *. cbn in HW. by destruct (store _ _ _).
Qed.
(** An event at the end of the array, with the room that is left. *)
Lemma wp_emit_room e es k (Q : unit -> _ -> Prop) : (0 < k)%nat -> Q tt (built (es ++ [e]) (pred k)) -> wp (emit (Some e)) Q (built es k).
Proof. destruct k; [lia|]. intros _. apply wp_emit. Qed.

Lemma wp_emit_data d n es k (Q : bool -> _ -> Prop) : (0 < n <= length d)%nat -> Z.of_nat n <= 1600 -> (120 <= k)%nat ->
  (forall es', concat (payload <$> es') = take n d -> Forall carries es' -> Z.of_nat (length es') = (Z.of_nat n + 13) / 14 ->
     (length es' <= 116)%nat -> Q true (built (es ++ es') (k - length es'))) ->
  wp (emit_data 128 d (Z.of_nat n)) Q (built es k).
Proof.
  intros Hn Hb Hk HQ. unfold emit_data. apply wp_bind. unfold suart_event_data_inline, SUART_OCTETS_PER_INLINE_DATA_CHUNK.
  rewrite Z.quot_div_nonneg by lia. destruct (Z.ltb_spec (128 - 13) ((Z.of_nat n + 6) / 14)) as [Hl|_]; [Z.to_euclidean_division_equations; lia|].
  rewrite Nat2Z.id. destruct (inline_events_split n 0 n d) as (es' & He & Hj & Hc & Hl); [lia..|]. change (Z.of_nat 0) with 0 in He. rewrite He. rewrite drop_0 in Hj.
  assert (length es' <= 116)%nat as Hl' by (Z.to_euclidean_division_equations; lia).
  eapply wp_done; [reflexivity|]. destruct es' as [|e es'].
  { exfalso. cbn in Hj. apply (f_equal length) in Hj. rewrite length_take in Hj. cbn in Hj. lia. }
  apply wp_bind, wp_emit_all; [lia|]. wp_next. by apply HQ.
Qed.

(** What a frame becomes. *)
Definition break_events : list suart_event :=
  [SetFormat 8 char_n 1; SetBaudrate 100500; DataInline 1 [0]; SetFormat 8 char_n 2; SetBaudrate 250000].
Definition frame_events (brk : bool) (es : list suart_event) : list suart_event :=
  [DisableRx; EnableTx; ChangeLine SUART_LINE_RTS SUART_LINE_RTS] ++ (if brk then break_events else []) ++ es ++
  [ChangeLine SUART_LINE_RTS 0; DisableTx; EnableRx; Echo 1].
(** Its octets on the line, and whether a break comes first. *)
Definition with_break (reply : bool) (flags : Z) : bool := negb reply && (Z.land flags DMX512_FLAG_NOBREAK =? 0).
Definition line_octets (reply : bool) (data : list Z) (n : nat) (l : list Z) : Prop :=
  if reply then discovery_octets data = Done l else l = take n data.

(** The room in the queue that is enough for [n] octets. *)
Definition events_for (n : nat) : nat := (12 + (n + 13) / 14)%nat.
Lemma events_for_chunks n (es : list suart_event) : Z.of_nat (length es) = (Z.of_nat n + 13) / 14 -> (12 + length es = events_for n)%nat.
Proof.
  intros Hl. unfold events_for. apply Nat2Z.inj. rewrite !Nat2Z.inj_add, Nat2Z.inj_div, Hl. change (Z.of_nat 14) with 14. do 2 f_equal. lia.
Qed.

Lemma masked_slots_length n : forall pos data l, masked_slots n pos data = Done l -> length l = (2 * n)%nat.
Proof.
  induction n as [|n IH]; intros pos data l; cbn [masked_slots]; [by intros [= <-]|].
  destruct (load data pos); [|done]. cbn. destruct (masked_slots n (pos + 1) data) eqn:E; [|done]. cbn. intros [= <-]. cbn. rewrite (IH _ _ _ E). lia.
Qed.
Lemma discovery_octets_length data l : discovery_octets data = Done l -> length l = 24%nat.
Proof.
  unfold discovery_octets. destruct (masked_slots 6 RDM_POS_SRC_UID data) as [uid|] eqn:E; [|done]. cbn. intros [= <-].
  apply masked_slots_length in E. cbn. rewrite length_app. cbn. lia.
Qed.

Lemma wp_create_frame flags data n reply l (Q : option Z -> _ -> Prop) :
  dmx512_is_rdm_discover_reply data = Done reply -> line_octets reply data n l -> (0 < n <= length data)%nat -> Z.of_nat n <= 1600 ->
  (forall es, concat (payload <$> es) = l -> Forall carries es -> (length (frame_events (with_break reply flags) es) <= 128)%nat ->
     (length (frame_events (with_break reply flags) es) <= events_for (length l))%nat ->
     Q (Some (Z.of_nat (length (frame_events (with_break reply flags) es))))
       (built (frame_events (with_break reply flags) es) (128 - length (frame_events (with_break reply flags) es)))) ->
  wp (dmx512suart_create_frame 128 flags data (Z.of_nat n)) Q (built [] 128).
Proof.
  intros Hr Hl Hn Hb HQ. unfold dmx512suart_create_frame. rewrite Z.quot_div_nonneg by lia.
  destruct (Z.ltb_spec 128 (13 + (Z.of_nat n + 13) / 14)) as [Hx|_]; [Z.to_euclidean_division_equations; lia|].
  apply wp_bind, wp_emit, wp_bind, wp_emit, wp_bind, wp_emit. cbn [app]. apply wp_bind. eapply wp_done; [unfold lift_outcome; by rewrite Hr|]. cbn beta.
  assert (forall brk es, concat (payload <$> es) = l -> Forall carries es -> (length es <= 116)%nat -> (12 + length es = events_for (length l))%nat -> brk = with_break reply flags ->
    wp (if negb true then mret None else
        emit (Some (suart_event_change_line SUART_LINE_RTS 0)) ;; emit (Some suart_event_disable_tx) ;; emit (Some suart_event_enable_rx) ;;
        emit (Some (suart_event_echo 1)) ;; s ← get_state; mret (Some s.2)) Q
      (built ([DisableRx; EnableTx; ChangeLine SUART_LINE_RTS SUART_LINE_RTS] ++ (if brk then break_events else []) ++ es)
         (125 - length (if brk then break_events else []) - length es))) as Htail.
  { intros brk es Hj Hc Hlen Hfor ->. cbn [negb]. assert (length (if with_break reply flags then break_events else []) <= 5)%nat as Hbr by (destruct (with_break reply flags); cbn; lia).
    do 4 (apply wp_bind, wp_emit_room; [lia|]). apply wp_bind, wp_get, wp_ret.
    assert (forall a b c : list suart_event, ((((a ++ b ++ c) ++ [ChangeLine SUART_LINE_RTS 0]) ++ [DisableTx]) ++ [EnableRx]) ++ [Echo 1] =
      a ++ b ++ c ++ [ChangeLine SUART_LINE_RTS 0; DisableTx; EnableRx; Echo 1]) as Ha by (intros a b c; by rewrite <- !app_assoc).
    change (suart_event_change_line SUART_LINE_RTS 0) with (ChangeLine SUART_LINE_RTS 0). change (suart_event_echo 1) with (Echo 1).
    unfold suart_event_disable_tx, suart_event_enable_rx. rewrite Ha. fold (frame_events (with_break reply flags) es).
    assert (length (frame_events (with_break reply flags) es) = (7 + length (if with_break reply flags then break_events else []) + length es))%nat as Hlf.
    { unfold frame_events. rewrite !length_app. cbn [length]. lia. }
    specialize (HQ es Hj Hc ltac:(lia) ltac:(lia)). cbn [snd built].
    replace (pred (pred (pred (pred (125 - length (if with_break reply flags then break_events else []) - length es))))) with
      (128 - length (frame_events (with_break reply flags) es))%nat by (rewrite Hlf; lia). exact HQ. }
  apply wp_bind. destruct reply; unfold line_octets in Hl.
  - apply wp_bind. eapply wp_done; [unfold lift_outcome; by rewrite Hl|]. pose proof (discovery_octets_length _ _ Hl) as H24.
    apply wp_emit_data; [lia|lia|lia|]. intros es Hj Hc Hch Hlen. apply events_for_chunks in Hch. rewrite take_ge in Hj by lia. by apply (Htail false).
  - assert (length l = n) as El by (subst l; rewrite length_take; lia). subst l. rewrite El in *. apply wp_bind, wp_when; intros Hnb.
    + do 2 apply wp_bind, wp_emit. apply wp_bind. eapply wp_done; [reflexivity|]. cbn beta.
      do 2 apply wp_bind, wp_emit. apply wp_emit. cbn [app]. apply wp_emit_data; [done|done|lia|]. intros es Hj Hc Hch%events_for_chunks Hlen.
      apply (Htail true); [done..|]. unfold with_break. by rewrite Hnb.
    + apply wp_emit_data; [done|done|lia|]. intros es Hj Hc Hch%events_for_chunks Hlen. apply (Htail false); [done..|]. unfold with_break. by rewrite Hnb.
Qed.

(** ** The events on the line *)

Lemma work_of_carries es : Forall carries es -> concat (work_of <$> es) = Out <$> concat (payload <$> es).
Proof.
  induction 1 as [|e es (d & -> & Hd) _ IH]; [done|]. cbn [fmap list_fmap concat]. change (list_fmap suart_event (list work) work_of es) with (work_of <$> es).
  rewrite IH. cbn [payload]. rewrite fmap_app. f_equal. unfold work_of. cbn [octets_of_event]. rewrite Nat2Z.id. by rewrite take_ge.
Qed.
Definition head_work (brk : bool) : list work :=
  [Do DisableRx; Do EnableTx; Do (ChangeLine SUART_LINE_RTS SUART_LINE_RTS)] ++
  (if brk then [Do (SetFormat 8 char_n 1); Do (SetBaudrate 100500); Out 0; Do (SetFormat 8 char_n 2); Do (SetBaudrate 250000)] else []).
Definition tail_work : list work := [Do (ChangeLine SUART_LINE_RTS 0); Do DisableTx; Do EnableRx; Do (Echo 1)].
Lemma work_of_frame brk es : Forall carries es ->
  concat (work_of <$> frame_events brk es) = head_work brk ++ (Out <$> concat (payload <$> es)) ++ tail_work.
Proof.
  intros Hc. unfold frame_events. rewrite !fmap_app, !concat_app, (work_of_carries es Hc). rewrite !app_assoc. f_equal. f_equal.
  by destruct brk.
Qed.

Lemma runs_fit_do cap e l : runs_fit cap l -> runs_fit cap (Do e :: l).
Proof. intros H [|x pre] suf E; cbn in E; [subst suf; cbn; lia|]. injection E as _ E. by apply (H pre suf). Qed.
Lemma runs_fit_outs cap d l : (length d + leading l <= cap)%nat -> runs_fit cap l -> runs_fit cap ((Out <$> d) ++ l).
Proof.
  induction d as [|v d IH]; intros Hd Hl; [done|]. intros [|x pre] suf E; cbn in E; [subst suf; cbn; rewrite leading_out; cbn in Hd; lia|].
  injection E as _ E. cbn in Hd. eapply IH; [lia|done|exact E].
Qed.
Definition is_line (e : suart_event) : Prop := exists m v, e = ChangeLine m v.
Lemma lines_work es : Forall is_line es -> concat (work_of <$> es) = Do <$> es.
Proof. induction 1 as [|e es (m & v & ->) _ IH]; [done|]. cbn. f_equal. exact IH. Qed.
Lemma runs_fit_dos cap es l : runs_fit cap l -> runs_fit cap ((Do <$> es) ++ l).
Proof. intros Hl. induction es as [|e es IH]; [done|]. by apply runs_fit_do. Qed.
Lemma runs_fit_frame cap brk d l : (length d <= cap)%nat -> (1 <= cap)%nat -> runs_fit cap l ->
  runs_fit cap (head_work brk ++ (Out <$> d) ++ tail_work ++ l).
Proof.
  intros Hd Hc Hl. assert (runs_fit cap (tail_work ++ l)) as Ht by (by repeat apply runs_fit_do).
  assert (runs_fit cap ((Out <$> d) ++ tail_work ++ l)) as Hb by (apply runs_fit_outs; [cbn; lia|done]).
  unfold head_work. destruct brk; cbn [app]; repeat apply runs_fit_do; [|done].
  apply (runs_fit_outs cap [0]); [cbn; lia|]. by repeat apply runs_fit_do.
Qed.

(** Octets go out with the settings there are. *)
Lemma perform_outs clock d : forall v, foldl (perform clock) v (Out <$> d) =
  change (with_line (r_line (on_chip v) ++ ((fun x => Sent (u8 x) (r_divisor (on_chip v)) (Z.land (r_lcr (on_chip v)) format_mask)) <$> d))) v.
Proof.
  induction d as [|x d IH]; intros v; cbn [fmap list_fmap foldl].
  - rewrite app_nil_r. unfold change. by destruct v as [[] ?].
  - change (list_fmap Z work Out d) with (Out <$> d). rewrite IH. unfold change. cbn. by rewrite <- app_assoc.
Qed.
Definition put_octets (d : list Z) (r : registers) : list sent := (fun x => Sent (u8 x) (r_divisor r) (Z.land (r_lcr r) format_mask)) <$> d.
(** The format in the registers after it was set. *)
Lemma format_8n lcr s : s = 1 \/ s = 2 -> u8 lcr = lcr -> Z.land (pc16x50_update_format_bits lcr 8 char_n s) format_mask = 3 + 4 * (s - 1).
Proof.
  intros Hs Hl. assert (forallb (fun s => Z.land (pc16x50_update_format_bits lcr 8 char_n s) format_mask =? 3 + 4 * (s - 1)) [1; 2] = true) as H.
  { revert lcr Hl. apply octet_cases. vm_compute. reflexivity. }
  rewrite forallb_forall in H. apply Z.eqb_eq, H. cbn. lia.
Qed.

Definition BREAK_DIVISOR : Z := 62.
Definition DMX_DIVISOR : Z := 25.
(** With a clock of 100 MHz these are 100806 and 250000 baud. *)
Definition CLOCK : Z := 100000000.
Definition line_of_frame (brk : bool) (d : list Z) (r : registers) : list sent :=
  if brk then Sent 0 BREAK_DIVISOR 3 :: ((fun x => Sent (u8 x) DMX_DIVISOR 7) <$> d) else put_octets d r.

Lemma frame_line brk d v : tame (on_chip v) ->
  r_line (on_chip (foldl (perform CLOCK) v (head_work brk ++ (Out <$> d) ++ tail_work))) = r_line (on_chip v) ++ line_of_frame brk d (on_chip v).
Proof.
  intros Ht. rewrite !foldl_app. set (v1 := foldl (perform CLOCK) v (head_work brk)). rewrite perform_outs.
  assert (forall v', r_line (on_chip (foldl (perform CLOCK) v' tail_work)) = r_line (on_chip v')) as -> by done. cbn [on_chip change with_line r_line].
  change ((fun x => Sent (u8 x) (r_divisor (on_chip v1)) (Z.land (r_lcr (on_chip v1)) format_mask)) <$> d) with (put_octets d (on_chip v1)).
  destruct brk; [|done].
  assert (r_line (on_chip v1) = r_line (on_chip v) ++ [Sent 0 BREAK_DIVISOR 3]) as ->.
  { unfold v1. cbn. do 2 f_equal. unfold in_settings. f_equal. apply (format_8n _ 1); [by left|apply Ht]. }
  rewrite <- app_assoc. cbn. do 2 f_equal. unfold put_octets. apply list_fmap_ext. intros i x _. f_equal.
  unfold v1. cbn. apply (format_8n _ 2); [by right|apply update_format_octet].
Qed.

(** Changes of the lines before and after it make no difference. *)
Lemma lines_quiet es : Forall is_line es -> forall v, let v' := foldl (perform CLOCK) v (Do <$> es) in
  r_line (on_chip v') = r_line (on_chip v) /\ r_divisor (on_chip v') = r_divisor (on_chip v) /\ r_lcr (on_chip v') = r_lcr (on_chip v).
Proof.
  induction 1 as [|e es (m & x & ->) _ IH]; intros v; [done|]. cbn [fmap list_fmap foldl].
  destruct (IH (perform CLOCK v (Do (ChangeLine m x)))) as (E1 & E2 & E3). cbv zeta. rewrite E1, E2, E3. done.
Qed.
Lemma frame_line_between pre post brk d v : Forall is_line pre -> Forall is_line post -> tame (on_chip v) ->
  r_line (on_chip (foldl (perform CLOCK) v ((Do <$> pre) ++ head_work brk ++ (Out <$> d) ++ tail_work ++ (Do <$> post)))) =
    r_line (on_chip v) ++ line_of_frame brk d (on_chip v).
Proof.
  intros Hpre Hpost Ht. rewrite foldl_app. set (v1 := foldl (perform CLOCK) v (Do <$> pre)). destruct (lines_quiet pre Hpre v) as (E1 & E2 & E3).
  assert (head_work brk ++ (Out <$> d) ++ tail_work ++ (Do <$> post) = (head_work brk ++ (Out <$> d) ++ tail_work) ++ (Do <$> post)) as -> by (by rewrite <- !app_assoc).
  rewrite foldl_app, (proj1 (lines_quiet post Hpost _)). rewrite frame_line by (by apply tame_work).
  unfold line_of_frame, put_octets. fold v1 in E1, E2, E3. by rewrite E1, E2, E3.
Qed.

(** ** Sending *)

Section sending.
Context {F : Type -> Type} `{KfifoLaws F} {C : Type} `{Chip C} {G : Type}.
Abbreviation port := (dmx512suart_port F C G).
Implicit Types p : port.

Lemma carries_all_proper es : Forall carries es -> Forall proper es.
Proof. intros Hc. eapply Forall_impl; [exact Hc|apply carries_proper]. Qed.
Lemma frame_proper brk es : Forall carries es -> Forall proper (frame_events brk es).
Proof.
  intros Hc. unfold frame_events. repeat rewrite Forall_app. split_and!; [by repeat constructor| |by apply carries_all_proper|by repeat constructor].
  destruct brk; [|done]. unfold break_events. repeat constructor; cbn; lia.
Qed.

(** The events of the frame are put into the queue, if there is room. *)
Lemma wp_send_frame flags data n reply l p s (Q : unit -> port -> Prop) :
  port_suart p = Some s -> dmx512_is_rdm_discover_reply data = Done reply -> line_octets reply data n l ->
  (0 < n <= length data)%nat -> Z.of_nat n <= 1600 -> (events_for (length l) <= kfifo_avail (txfifo (suart s)))%nat ->
  (forall es q w, concat (payload <$> es) = l -> Forall carries es -> contents q = events s ++ frame_events (with_break reply flags) es ->
     (kfifo_avail (txfifo (suart s)) <= kfifo_avail q + events_for (length l))%nat ->
     Q tt (with_port_suart (Some (with_suart (Suart q (rxfifo (suart s)) (txwaitqueue (suart s)) (rxwaitqueue (suart s)) w) s)) p)) ->
  wp (dmx512suart_send_frame flags data (Z.of_nat n)) Q p.
Proof.
  intros Hp Hr Hl Hn Hb Ha HQ. unfold dmx512suart_send_frame. do 2 wp_step. rewrite Hp. apply wp_bind.
  pose proof (wp_create_frame flags data n reply l (fun r a => exists es, concat (payload <$> es) = l /\ Forall carries es /\
    (length (frame_events (with_break reply flags) es) <= 128)%nat /\ (length (frame_events (with_break reply flags) es) <= events_for (length l))%nat /\ r = Some (Z.of_nat (length (frame_events (with_break reply flags) es))) /\
    a = built (frame_events (with_break reply flags) es) (128 - length (frame_events (with_break reply flags) es))) Hr Hl Hn Hb) as HC.
  ospecialize (HC _); [intros es; by exists es|]. apply wp_run in HC as (r & a & HC & es & Hj & Hc & Hlen & Hfor & -> & ->).
  change (replicate MAX_EVENTS None, 0) with (built [] 128). change (Z.of_nat MAX_EVENTS) with 128.
  eapply wp_done; [unfold lift_outcome; by rewrite HC|]. unfold built. cbn [default].
  unfold with_events, wp. rewrite Hp. unfold on_suart.
  pose proof (wp_put_txevents (frame_events (with_break reply flags) es) (replicate (128 - length (frame_events (with_break reply flags) es)) None)
    (Z.of_nat (length (frame_events (with_break reply flags) es)))
    (fun _ u => exists q w, contents q = events s ++ frame_events (with_break reply flags) es /\ kfifo_avail q = (kfifo_avail (txfifo (suart s)) - length (frame_events (with_break reply flags) es))%nat /\ u = Suart q (rxfifo (suart s)) (txwaitqueue (suart s)) (rxwaitqueue (suart s)) w)
    (suart s) eq_refl ltac:(lia) ltac:(lia)) as HW.
  ospecialize (HW _); [intros q w Hq Hv; by exists q, w|]. unfold wp in HW.
  destruct (suart_put_txevents _ _ (suart s)) as [[[] u]|]; [|done]. destruct HW as (q & w & Hq & Hv & ->). cbn. eapply HQ; [exact Hj|exact Hc|exact Hq|lia].
Qed.

(** The rounds of the thread put a queued frame on the line, also between
    changes of the lines. *)
Lemma line_octets_length reply data n l : line_octets reply data n l -> (0 < n <= length data)%nat -> (1 <= length l)%nat.
Proof. intros Hl Hn. destruct reply; unfold line_octets in Hl; [rewrite (discovery_octets_length _ _ Hl); lia|subst l; rewrite length_take; lia]. Qed.
Lemma queued_frame_goes_out s pre brk es post q w polls : let s' := with_suart (Suart q (rxfifo (suart s)) (txwaitqueue (suart s)) (rxwaitqueue (suart s)) w) s in
  let l := concat (payload <$> es) in
  tx_ok s -> todo s = [] -> base_clock s = CLOCK -> contents q = events s ++ pre ++ frame_events brk es ++ post ->
  Forall carries es -> Forall is_line pre -> Forall is_line post -> (1 <= length l <= capacity s)%nat -> (BUSY s <= polls)%nat -> (patience <= polls)%nat ->
  exists k, wp (rounds k polls) (fun _ s'' => todo s'' = [] /\
    r_line (regs (chip s'')) = r_line (regs (chip s)) ++ line_of_frame brk l (regs (chip s))) s'.
Proof.
  intros s' l Hok Htodo Hclk Hq Hc Hpre Hpost Hl Hbusy Hpat. apply app_nil in Htodo as [Hx He].
  assert (todo s' = (Do <$> pre) ++ head_work brk ++ (Out <$> l) ++ tail_work ++ (Do <$> post)) as Ht'.
  { unfold todo, events. cbn [s' suart with_suart txbuffer txfifo]. apply fmap_nil_inv in Hx. rewrite Hx, Hq.
    rewrite !fmap_app, !concat_app, He, (lines_work pre Hpre), (lines_work post Hpost), (work_of_frame _ _ Hc). cbn [fmap list_fmap app]. by rewrite <- !app_assoc. }
  assert (forall es0, Forall is_line es0 -> Forall proper es0) as Hlp by (intros es0 Hes0; eapply Forall_impl; [exact Hes0|]; by intros e (m & v & ->)).
  assert (tx_ok s') as Hok'.
  { split; [apply Hok| |].
    - unfold events. cbn [s' suart with_suart txfifo]. rewrite Hq. repeat rewrite Forall_app. split_and!; [apply Hok|by apply Hlp|by apply frame_proper|by apply Hlp].
    - rewrite Ht'. apply runs_fit_dos, runs_fit_frame; [apply Hl|change (capacity s') with (capacity s); lia|]. rewrite <- (app_nil_r (Do <$> post)).
      apply runs_fit_dos, runs_fit_length. cbn. lia. }
  destruct (all_events_are_carried_out polls s' Hok' Hbusy Hpat) as (k & _ & HW). exists k. eapply wp_mono; [exact HW|].
  intros _ s'' [Hd Hs]. split; [done|]. change (regs (chip s'')) with (on_chip (sending s'')). rewrite Hs, Ht'.
  change (base_clock s') with (base_clock s). rewrite Hclk. apply (frame_line_between pre post); [done..|]. apply Hok.
Qed.

(** C17: a frame that is sent while nothing waits is on the line completely and
    in order: for a frame with a break an octet 0 in the format 8N1 at the rate
    of the break, then its octets in the format 8N2 at 250000 baud; a frame
    without a break goes out with the settings there are, and a reply to a
    discovery as its 24 octets.  The rest of the line is as before.  This is
    the line once the transmitter has sent what it still holds, each octet with
    the settings that are in force when it goes out. *)
Theorem frame_goes_out flags data n reply l p s polls :
  port_suart p = Some s -> tx_ok s -> todo s = [] -> base_clock s = CLOCK -> kfifo_avail (txfifo (suart s)) = 128%nat ->
  dmx512_is_rdm_discover_reply data = Done reply -> line_octets reply data n l -> (0 < n <= length data)%nat -> Z.of_nat n <= 1600 ->
  (length l <= capacity s)%nat -> (BUSY s <= polls)%nat -> (patience <= polls)%nat ->
  wp (dmx512suart_send_frame flags data (Z.of_nat n))
    (fun _ p' => exists s', port_suart p' = Some s' /\ exists k,
       wp (rounds k polls) (fun _ s'' => todo s'' = [] /\
         r_line (regs (chip s'')) = r_line (regs (chip s)) ++ line_of_frame (with_break reply flags) l (regs (chip s))) s') p.
Proof.
  intros Hp Hok Htodo Hclk Ha Hr Hl Hn Hb Hcap Hbusy Hpat. pose proof (line_octets_length _ _ _ _ Hl Hn) as H1l.
  assert (events_for (length l) <= 128)%nat as Hroom.
  { assert (length l <= 1600)%nat as Hle by (destruct reply; unfold line_octets in Hl; [rewrite (discovery_octets_length _ _ Hl); lia|subst l; rewrite length_take; lia]).
    unfold events_for. pose proof (Nat.Div0.div_le_mono (length l + 13) 1613 14 ltac:(lia)) as Hd. change (1613 / 14)%nat with 115%nat in Hd. lia. }
  eapply wp_send_frame; [done..|by rewrite Ha|]. intros es q w Hj Hc Hq _.
  eexists. split; [done|]. rewrite <- Hj in *. apply (queued_frame_goes_out s [] _ es []); try done. by rewrite Hq, app_nil_r.
Qed.

(** ** A frame without octets *)

Lemma initialised_stops (l : list suart_event) (r : list (option suart_event)) : initialised ((Some <$> l) ++ None :: r) = Fault Uninitialised.
Proof. induction l as [|e l IH]; cbn; [done|]. change (list_fmap suart_event (option suart_event) Some l) with (Some <$> l). by rewrite IH. Qed.
Lemma create_empty flags data : dmx512_is_rdm_discover_reply data = Done false ->
  exists es, (length es <= 8)%nat /\ dmx512suart_create_frame 128 flags data 0 (built [] 128) = Done (None, built es (128 - length es)).
Proof.
  intros Hr.
  assert (wp (dmx512suart_create_frame 128 flags data 0) (fun r a => r = None /\ exists es, (length es <= 8)%nat /\ a = built es (128 - length es)) (built [] 128)) as HW.
  { unfold dmx512suart_create_frame. change (128 <? 13 + Z.quot (0 + 13) 14) with false. cbv iota.
    apply wp_bind, wp_emit, wp_bind, wp_emit, wp_bind, wp_emit. cbn [app]. apply wp_bind. eapply wp_done; [unfold lift_outcome; by rewrite Hr|]. cbn beta iota.
    assert (forall es k, wp (emit_data 128 data 0) (fun ok a => ok = false /\ a = built es k) (built es k)) as Hno by done.
    apply wp_bind, wp_bind, wp_when; intros Hnb.
    - do 2 apply wp_bind, wp_emit. apply wp_bind. eapply wp_done; [reflexivity|]. cbn beta. do 2 apply wp_bind, wp_emit. apply wp_emit. cbn [app].
      eapply wp_mono; [apply Hno|]. intros ? ? [-> ->]. cbn [negb]. apply wp_ret. split; [done|]. lazymatch goal with |- context [built ?l _] => exists l end. split; [cbn; lia|reflexivity].
    - eapply wp_mono; [apply Hno|]. intros ? ? [-> ->]. cbn [negb]. apply wp_ret. split; [done|]. lazymatch goal with |- context [built ?l _] => exists l end. split; [cbn; lia|reflexivity]. }
  apply wp_run in HW as (r & a & E & -> & es & Hl & ->). by exists es.
Qed.

(** A frame without octets is not refused, although no frame can be made of
    it: the error of [dmx512suart_create_frame] is used as the number of events,
    and the queue takes all that it has room for, most of which was never
    written. *)
Theorem empty_frame_sends_garbage flags data p s :
  port_suart p = Some s -> kfifo_avail (txfifo (suart s)) = 128%nat -> dmx512_is_rdm_discover_reply data = Done false ->
  dmx512suart_send_frame flags data 0 p = Fault Uninitialised.
Proof.
  intros Hp Ha Hr. destruct (create_empty flags data Hr) as (es & Hl & Hc). unfold dmx512suart_send_frame, mbind, prog_bind, get_state. rewrite Hp.
  change (replicate MAX_EVENTS None, 0) with (built [] 128). change (Z.of_nat MAX_EVENTS) with 128. unfold lift_outcome. rewrite Hc.
  unfold built. cbn [default]. unfold with_events. rewrite Hp. unfold on_suart, suart_put_txevents, mbind, prog_bind, get_state, lift_outcome.
  assert (kfifo_copy ((Some <$> es) ++ replicate (128 - length es) None) (-1) (txfifo (suart s)) = Fault Uninitialised) as ->; [|done].
  unfold kfifo_copy. rewrite Ha. assert (Z.to_nat (u32 (-1)) `min` 128 = 128)%nat as -> by (unfold u32; change ((-1) mod 2 ^ 32) with 4294967295; lia).
  rewrite (load_all_nat _ 0) by (rewrite length_app, length_fmap, length_replicate; lia). cbn [mbind outcome_bind]. rewrite drop_0, take_ge.
  - replace (128 - length es)%nat with (S (127 - length es)) by lia. cbn [replicate]. by rewrite initialised_stops.
  - rewrite length_app, length_fmap, length_replicate. lia.
Qed.
End sending.

(** ** A concrete port *)

Definition demo_port : dmx512suart_port list_fifo small_chip unit := dmx512suart_port_init demo_uart None 0 (replicate DMX_DATA_SIZE 0) 0.
Lemma frame_goes_out_witness :
  wp (dmx512suart_send_frame 0 [0; 10; 20] (Z.of_nat 3))
    (fun _ p' => exists s', port_suart p' = Some s' /\ exists k,
       wp (rounds k 2) (fun _ s'' => todo s'' = [] /\
         r_line (regs (chip s'')) = r_line (regs (chip demo_uart)) ++ line_of_frame (with_break false 0) [0; 10; 20] (regs (chip demo_uart))) s') demo_port.
Proof.
  apply (frame_goes_out 0 [0; 10; 20] 3 false [0; 10; 20] demo_port demo_uart 2); try reflexivity; try (vm_compute; lia); try (cbn; lia).
  apply demo_uart_ok.
Defined.
Lemma empty_frame_sends_garbage_witness : dmx512suart_send_frame 0 (replicate 513 0) 0 demo_port = Fault Uninitialised.
Proof. apply (empty_frame_sends_garbage 0 (replicate 513 0) demo_port demo_uart); reflexivity. Defined.
