(* ===== verification/DmxSuartReception.v ===== *)
(** * Frames over the stream UART: what is received

    The second half of the contract of [DmxSuart.v]: the thread that makes
    frames of the events of the UART.  A frame is given to the client when the
    break of the next one comes, or, once the length of the frames is known,
    with its last octet. *)
From stdpp Require Import base countable list.
From S2P Require Import Prelude FrameQueue Pc16cx50 StreamUart SuartDriver SuartTransmit SuartReceive DmxSuart.

Section reception.
Context {F : Type -> Type} `{Kfifo F} {C : Type} `{Regs C} {G : Type}.
Abbreviation port := (dmx512suart_port F C G).
Abbreviation state := (port * G)%type.
Implicit Types (p : port) (w : state).

(** The octets fit into the frame. *)
Record port_ok p : Prop := {
  size_bounds : 0 <= dmxsize p <= 511;
  data_length : length (dmx_data p) = DMX_DATA_SIZE }.
(** What the receiver does not change. *)
Record same_port p p' : Prop := {
  kept_suart : port_suart p' = port_suart p;
  kept_stop : stop_rxhandler p' = stop_rxhandler p;
  kept_client : frame_received p' = frame_received p;
  kept_handle : frame_received_handle p' = frame_received_handle p }.
Definition same_lock p p' : Prop :=
  dmx_locked p' = dmx_locked p /\ dmx_lock_count p' = dmx_lock_count p /\ dmx_lock_size p' = dmx_lock_size p.
Lemma same_port_trans p1 p2 p3 : same_port p1 p2 -> same_port p2 p3 -> same_port p1 p3.
Proof. intros [] []. split; congruence. Qed.
(** The octets of the frame so far. *)
Definition frame_so_far p : list Z := take (Z.to_nat (dmxsize p)) (dmx_data p).

Definition gives (p : port) (data : list Z) (size : Z) (Q : G -> Prop) (g : G) : Prop :=
  match frame_received p with
  | Some f => wp (f (frame_received_handle p) 0 data size) (fun _ g' => Q g') g
  | None => Q g
  end.
Lemma wp_give p data size g (Q : unit -> state -> Prop) :
  gives p data size (fun g' => Q tt (p, g')) g -> wp (dmx512suart_received_frame 0 data size) Q (p, g).
Proof.
  unfold gives, dmx512suart_received_frame, the_port, on_client. intros HQ. do 2 wp_step. cbn [fst]. destruct (frame_received p) as [recv|]; [|by wp_step].
  unfold wp in *. cbn [snd fst]. destruct (recv _ _ _ _ _) as [[u g']|]; [by destruct u|done].
Qed.
Lemma gives_same p p' data size Q g : same_port p p' -> gives p' data size Q g -> gives p data size Q g.
Proof. intros [_ _ Hc Hh]. unfold gives. by rewrite Hc, Hh. Qed.
Lemma gives_mono p data size (P Q : G -> Prop) g : gives p data size P g -> (forall g', P g' -> Q g') -> gives p data size Q g.
Proof. unfold gives. destruct (frame_received p); [|by auto]. intros HP HQ. eapply wp_mono; [exact HP|]. intros ? g'. apply HQ. Qed.

(** ** One event *)

Lemma wp_too_long p g (k : bool -> prog state unit) (Q : unit -> state -> Prop) :
  (forall v, wp (k false) Q (with_dmxstate v p, g)) ->
  wp ((if negb (dmx_locked p =? 0) then update (with_dmxstate 0) ;; mret (negb (0 =? 0)) else mret false) ≫= k) Q (p, g).
Proof.
  intros HQ. apply wp_bind, wp_if; intros _; [unfold update; do 3 wp_step; apply HQ|]. wp_step. assert (with_dmxstate (dmxstate p) p = p) as <- by (by destruct p). apply HQ.
Qed.
Lemma wp_data_fits d p g (Q : unit -> state -> Prop) : port_ok p -> dmxsize p + Z.of_nat (length d) <= 511 ->
  (forall p', same_port p p' -> same_lock p p' -> port_ok p' -> dmxsize p' = dmxsize p + Z.of_nat (length d) -> frame_so_far p' = frame_so_far p ++ d ->
     if negb (dmx_locked p =? 0) && (dmxsize p' =? dmx_lock_size p) then
       gives p (dmx_data p') (dmxsize p') (fun g' => forall p'', same_port p p'' -> same_lock p p'' -> port_ok p'' -> dmxsize p'' = 0 -> Q tt (p'', g')) g
     else Q tt (p', g)) ->
  wp (received_data (Z.of_nat (length d)) d) Q (p, g).
Proof.
  intros [Hs Hd] Hl HQ. unfold received_data, the_port. do 2 wp_step. cbn [fst]. apply wp_too_long. intros v. cbn [when]. unfold update. do 6 wp_step. cbn [fst with_dmxstate dmxsize].
  apply wp_when; intros Hc; [|apply Z.ltb_ge in Hc; lia].
  rewrite Nat2Z.id. apply wp_bind. eapply wp_done; [unfold lift_outcome; rewrite (load_all_nat d 0) by lia; reflexivity|]. rewrite drop_0, firstn_all.
  remember (Z.to_nat (dmxsize p)) as n eqn:En. assert (dmxsize p = Z.of_nat n) as Hn by lia.
  apply wp_bind. eapply wp_done; [unfold lift_outcome; rewrite Hn; cbn [dmx_data with_dmxstate]; rewrite store_all_nat by (rewrite Hd; unfold DMX_DATA_SIZE; lia); reflexivity|]. cbn beta.
  do 6 wp_step. cbn [fst snd with_dmxsize with_dmx_data with_dmxstate dmxsize dmx_data dmx_locked dmx_lock_size].
  set (array := take n (dmx_data p) ++ d ++ drop (n + length d) (dmx_data p)). set (p' := with_dmxsize _ _).
  assert (length array = DMX_DATA_SIZE) as Ha by (unfold array; rewrite !length_app, length_take, length_drop, Hd; unfold DMX_DATA_SIZE; lia).
  assert (port_ok p') as Ok by (split; [cbn; lia|done]).
  specialize (HQ p' ltac:(done) ltac:(done) Ok eq_refl). ospecialize (HQ _).
  { unfold frame_so_far. cbn. replace (Z.to_nat (dmxsize p + Z.of_nat (length d))) with (n + length d)%nat by lia. rewrite <- En.
    assert (n <= length (dmx_data p))%nat by (rewrite Hd; unfold DMX_DATA_SIZE; lia). unfold array. rewrite <- (length_take_le (dmx_data p) n) at 1 by done.
    rewrite take_app_add. by rewrite take_app_length. }
  change (dmxsize p') with (dmxsize p + Z.of_nat (length d)) in HQ. destruct (negb (dmx_locked p =? 0) && _); cbn [when]; [|done].
  apply wp_bind, wp_give. eapply gives_same; [|eapply gives_mono; [exact HQ|]]; [by split|]. intros g' Hg'. cbn beta. wp_steps.
  apply Hg'; [done|done|split; [cbn; lia|done]|done].
Qed.
Lemma wp_data_dropped d p g (Q : unit -> state -> Prop) : 512 <= dmxsize p + Z.of_nat (length d) ->
  (forall v, Q tt (with_dmxstate v p, g)) -> wp (received_data (Z.of_nat (length d)) d) Q (p, g).
Proof.
  intros Hl HQ. unfold received_data, the_port. do 2 wp_step. cbn [fst]. apply wp_too_long. intros v. cbn [when]. unfold update. do 6 wp_step. cbn [fst with_dmxstate dmxsize].
  apply wp_when; intros Hc; [apply Z.ltb_lt in Hc; lia|]. apply (HQ 2).
Qed.
Lemma wp_break p g (Q : unit -> state -> Prop) : port_ok p ->
  (if 0 <? dmxsize p then
     gives p (dmx_data p) (dmxsize p) (fun g' => forall p', same_port p p' -> port_ok p' -> dmxsize p' = 0 ->
       dmx_locked p' = dmx_locked (update_lock p) -> dmx_lock_count p' = dmx_lock_count (update_lock p) -> dmx_lock_size p' = dmx_lock_size (update_lock p) -> Q tt (p', g')) g
   else forall p', same_port p p' -> same_lock p p' -> port_ok p' -> dmxsize p' = 0 -> Q tt (p', g)) ->
  wp received_break Q (p, g).
Proof.
  intros Ok HQ. unfold received_break, the_port, update. do 2 wp_step. cbn [fst]. apply wp_bind, wp_when; intros Hs; rewrite Hs in HQ.
  - do 4 wp_step. cbn [fst].
    assert (dmxsize (update_lock p) = dmxsize p /\ dmx_data (update_lock p) = dmx_data p /\ same_port p (update_lock p)) as (E1 & E2 & E3).
    { unfold update_lock. by repeat case_match. }
    rewrite E1, E2. apply wp_bind, wp_give. eapply gives_same; [|eapply gives_mono; [exact HQ|]].
    { by destruct E3; split. }
    intros g' Hg'. cbn beta. wp_steps. apply Hg'; try done; [|split; [cbn; lia|cbn; rewrite E2; apply Ok]]. by destruct E3; split.
  - do 3 wp_step. apply HQ; try done. split; [cbn; lia|apply Ok].
Qed.
End reception.

(** ** Runs of the thread *)

Definition octets (es : list suart_event) : list Z := concat (payload <$> es).
Lemma octets_cons n d es : octets (DataInline n d :: es) = d ++ octets es.
Proof. done. Qed.
Lemma payloads_app l1 l2 : octets (l1 ++ l2) = octets l1 ++ octets l2.
Proof. unfold octets. by rewrite fmap_app, concat_app. Qed.

Section frames.
Context {F : Type -> Type} `{KfifoLaws F} {C : Type} `{Regs C} {G : Type}.
Abbreviation port := (dmx512suart_port F C G).
Abbreviation state := (port * G)%type.
Implicit Types (p : port) (w : state).

(** The events that wait for the thread. *)
Definition queue p : option (list suart_event) := (fun s => contents (rxfifo (suart s))) <$> port_suart p.
Record same_client p p' : Prop := {
  client_stop : stop_rxhandler p' = stop_rxhandler p;
  client_received : frame_received p' = frame_received p;
  client_handle : frame_received_handle p' = frame_received_handle p }.
Lemma same_client_trans p1 p2 p3 : same_client p1 p2 -> same_client p2 p3 -> same_client p1 p3.
Proof. intros [] []. split; congruence. Qed.
Lemma same_port_client p p' : same_port p p' -> same_client p p'.
Proof. intros []. by split. Qed.
Lemma gives_client p p' data size Q g : same_client p p' -> gives p' data size Q g -> gives p data size Q g.
Proof. intros [_ Hc Hh]. unfold gives. by rewrite Hc, Hh. Qed.

(** Taking the next event; everything else is as before. *)
Definition with_queue (q : F suart_event) p : port := with_port_suart ((fun s => with_suart (set_rxfifo q (suart s)) s) <$> port_suart p) p.
Lemma wp_rx_step fuel e es p g (Q : unit -> state -> Prop) : queue p = Some (e :: es) ->
  (forall q, queue (with_queue q p) = Some es -> wp (handle_rx_event e) (fun _ w => wp (rx_loop fuel) Q w) (with_queue q p, g)) ->
  wp (rx_loop (S fuel)) Q (p, g).
Proof.
  unfold queue. intros Hq HQ. destruct (port_suart p) as [s|] eqn:Hs; [|done]. injection Hq as Hq.
  cbn [rx_loop]. assert (on_port (with_events suart_rxavailable) (p, g) = Done (S (length es), (p, g))) as Ea.
  { unfold on_port, with_events. cbn [fst]. rewrite Hs. cbn. rewrite len_length, Hq. do 2 f_equal.
    assert (with_suart (suart s) s = s) as -> by (by destruct s). rewrite <- Hs. by destruct p. }
  unfold wp. rewrite (bind_run _ _ _ _ _ Ea). cbn [Nat.ltb Nat.leb].
  pose proof (wp_get_rxevent (fun l u => l = [e] /\ exists q, u = set_rxfifo q (suart s) /\ contents q = es) (suart s)) as Hg. rewrite Hq in Hg.
  ospecialize (Hg _); [intros q Eq _; split; [done|by exists q]|]. apply wp_run in Hg as (l & u & Eg & -> & q & -> & Eq).
  assert (on_port (with_events (suart_get_rxevents 1)) (p, g) = Done ([e], (with_queue q p, g))) as Ep.
  { unfold on_port, with_events. cbn [fst]. rewrite Hs. unfold on_suart. rewrite Eg. unfold with_queue. by rewrite Hs. }
  rewrite (bind_run _ _ _ _ _ Ep). change (wp (handle_rx_event e ;; rx_loop fuel) Q (with_queue q p, g)). apply wp_bind, HQ.
  unfold with_queue. rewrite Hs. cbn. by rewrite Eq.
Qed.
Lemma wp_rx_end fuel p g (Q : unit -> state -> Prop) : queue p = Some [] -> Q tt (p, g) -> wp (rx_loop fuel) Q (p, g).
Proof.
  unfold queue. intros Hq HQ. destruct (port_suart p) as [s|] eqn:Hs; [|done]. injection Hq as Hq.
  assert (on_port (with_events suart_rxavailable) (p, g) = Done (0%nat, (p, g))) as Ea.
  { unfold on_port, with_events. cbn [fst]. rewrite Hs. cbn. rewrite len_length, Hq. do 2 f_equal.
    assert (with_suart (suart s) s = s) as -> by (by destruct s). rewrite <- Hs. by destruct p. }
  unfold wp. destruct fuel; cbn [rx_loop]; by rewrite (bind_run _ _ _ _ _ Ea).
Qed.
Lemma port_ok_queue q p : port_ok p -> port_ok (with_queue q p).
Proof. by intros []. Qed.
Lemma queue_same p p' : same_port p p' -> queue p' = queue p.
Proof. intros [Hs _ _ _]. unfold queue. by rewrite Hs. Qed.

(** Octets that do not end a frame are collected. *)
Lemma wp_collect es : forall rest fuel p g (Q : unit -> state -> Prop), queue p = Some (es ++ rest) -> Forall carries es -> port_ok p ->
  dmxsize p + Z.of_nat (length (octets es)) <= 511 ->
  (dmx_locked p <> 0 -> forall k, (1 <= k <= length es)%nat -> dmxsize p + Z.of_nat (length (octets (take k es))) <> dmx_lock_size p) ->
  (forall p', queue p' = Some rest -> same_client p p' -> same_lock p p' -> port_ok p' -> dmxsize p' = dmxsize p + Z.of_nat (length (octets es)) ->
     frame_so_far p' = frame_so_far p ++ octets es -> wp (rx_loop fuel) Q (p', g)) ->
  wp (rx_loop (length es + fuel)) Q (p, g).
Proof.
  induction es as [|e es IH]; intros rest fuel p g Q Hq Hc Ok Hn Hk HQ.
  { apply HQ; try done; cbn; [lia|by rewrite app_nil_r]. }
  apply Forall_cons in Hc as [(d & -> & Hd) Hc]. rewrite octets_cons in HQ, Hn. rewrite length_app in Hn.
  cbn [length Nat.add]. eapply wp_rx_step; [exact Hq|]. intros q Eq. cbn [handle_rx_event].
  apply wp_data_fits; [by apply port_ok_queue|cbn; lia|]. intros p' SP (L1 & L2 & L3) Ok' Es Ef.
  cbn [with_queue with_port_suart dmxsize dmx_locked dmx_lock_size dmx_lock_count] in *.
  assert (negb (dmx_locked p =? 0) && (dmxsize p' =? dmx_lock_size p) = false) as ->.
  { destruct (Z.eqb_spec (dmx_locked p) 0) as [|Hl]; [done|]. cbn. apply Z.eqb_neq. specialize (Hk Hl 1%nat ltac:(cbn; lia)). cbn [take] in Hk.
    rewrite octets_cons, length_app in Hk. change (octets (take 0 es)) with (@nil Z) in Hk. rewrite Es. cbn [length] in Hk. lia. }
  apply (IH rest); [by rewrite (queue_same _ _ SP)|done|done|lia| |].
  - rewrite L1, L3, Es. intros Hl k Hk'. specialize (Hk Hl (S k) ltac:(cbn; lia)). cbn [take] in Hk. rewrite octets_cons, length_app in Hk. lia.
  - intros p2 Q2 S2 (A2 & B2 & C2) Ok2 E2 F2. apply HQ; try done.
    + eapply same_client_trans; [|exact S2]. by destruct (same_port_client _ _ SP).
    + unfold same_lock. by rewrite A2, B2, C2.
    + rewrite E2, Es, length_app. lia.
    + rewrite F2, Ef. by rewrite <- app_assoc.
Qed.

(** ** Streams of frames *)

Definition is_break (e : suart_event) : bool := match e with LineStatus _ v => has v PC16550_LSR_BREAK_INTERRUPT | _ => false end.
Lemma carries_octets es : Forall carries es -> (length es <= length (octets es))%nat.
Proof. induction 1 as [|e es (d & -> & Hd) _ IH]; [done|]. rewrite octets_cons, length_app. cbn. lia. Qed.

Lemma update_lock_queue q p :
  dmx_locked (update_lock (with_queue q p)) = dmx_locked (update_lock p) /\
  dmx_lock_count (update_lock (with_queue q p)) = dmx_lock_count (update_lock p) /\
  dmx_lock_size (update_lock (with_queue q p)) = dmx_lock_size (update_lock p).
Proof. destruct p. unfold update_lock, with_queue. cbn. by repeat case_match. Qed.
(** A break that ends what was collected, and one with nothing before it. *)
Lemma wp_rx_break e rest fuel p g (Q : unit -> state -> Prop) : queue p = Some (e :: rest) -> is_break e = true -> port_ok p ->
  (if 0 <? dmxsize p then
     gives p (dmx_data p) (dmxsize p) (fun g' => forall p', queue p' = Some rest -> same_client p p' -> port_ok p' -> dmxsize p' = 0 ->
       dmx_locked p' = dmx_locked (update_lock p) -> dmx_lock_count p' = dmx_lock_count (update_lock p) -> dmx_lock_size p' = dmx_lock_size (update_lock p) ->
       wp (rx_loop fuel) Q (p', g')) g
   else forall p', queue p' = Some rest -> same_client p p' -> same_lock p p' -> port_ok p' -> dmxsize p' = 0 -> wp (rx_loop fuel) Q (p', g)) ->
  wp (rx_loop (S fuel)) Q (p, g).
Proof.
  intros Hq He Ok HQ. eapply wp_rx_step; [exact Hq|]. intros q Eq. destruct e; try done. cbn [handle_rx_event]. cbn in He. rewrite He. cbn [when].
  apply wp_break; [by apply port_ok_queue|]. cbn [with_queue with_port_suart dmxsize dmx_data]. destruct (0 <? dmxsize p).
  - eapply gives_client; [|eapply gives_mono; [exact HQ|]]; [done|]. intros g' Hg' p' SP Ok' E0 E1 E2 E3.
    destruct (update_lock_queue q p) as (U1 & U2 & U3).
    apply Hg'; [by rewrite (queue_same _ _ SP)|by destruct (same_port_client _ _ SP)|done|done|by rewrite E1|by rewrite E2|by rewrite E3].
  - intros p' SP SL Ok' E0. apply HQ; [by rewrite (queue_same _ _ SP)|by destruct (same_port_client _ _ SP)|done|done|done].
Qed.
(** The octets with which a frame of the known length is complete. *)
Lemma wp_rx_last d rest fuel p g (Q : unit -> state -> Prop) : queue p = Some (DataInline (Z.of_nat (length d)) d :: rest) -> port_ok p ->
  dmx_locked p <> 0 -> dmxsize p + Z.of_nat (length d) = dmx_lock_size p -> dmx_lock_size p <= 511 ->
  (forall data, take (Z.to_nat (dmx_lock_size p)) data = frame_so_far p ++ d -> length data = DMX_DATA_SIZE ->
     gives p data (dmx_lock_size p) (fun g' => forall p', queue p' = Some rest -> same_client p p' -> same_lock p p' -> port_ok p' -> dmxsize p' = 0 ->
       wp (rx_loop fuel) Q (p', g')) g) ->
  wp (rx_loop (S fuel)) Q (p, g).
Proof.
  intros Hq Ok Hl Hs H511 HQ. eapply wp_rx_step; [exact Hq|]. intros q Eq. cbn [handle_rx_event].
  apply wp_data_fits; [by apply port_ok_queue|cbn; lia|]. intros p1 SP SL Ok1 E1 F1. cbn [with_queue with_port_suart dmxsize dmx_locked dmx_lock_size] in *.
  rewrite E1, Hs, Z.eqb_refl, (proj2 (Z.eqb_neq _ _) Hl). cbn [negb andb]. rewrite Hs in E1. unfold frame_so_far at 1 in F1. rewrite E1 in F1.
  eapply gives_client; [|eapply gives_mono; [apply (HQ (dmx_data p1) F1); apply Ok1|]]; [done|]. intros g' Hg' p' SP' SL' Ok' E0.
  apply Hg'; [by rewrite (queue_same _ _ SP')|by destruct (same_port_client _ _ SP')|done|done|done].
Qed.

Section stream.
(** All frames have [n] octets; [R l] says that the client was given [l]. *)
Context (n : nat) (Hn : (0 < n <= 511)%nat) (R : list (list Z) -> G -> Prop) (client : port).
Definition frame_of (f : list suart_event) : Prop :=
  exists es e, f = es ++ [e] /\ Forall carries es /\ is_break e = true /\ length (octets es) = n.
Definition in_step p : Prop := dmx_locked p = 0 \/ dmx_lock_size p = Z.of_nat n.

Lemma wp_one_frame es e rest fuel p g l (Q : unit -> state -> Prop) : queue p = Some (es ++ e :: rest) -> Forall carries es -> is_break e = true ->
  length (octets es) = n -> port_ok p -> dmxsize p = 0 -> in_step p ->
  (forall data, take n data = octets es -> gives p data (Z.of_nat n) (R (l ++ [octets es])) g) ->
  (forall p' g', queue p' = Some rest -> same_client p p' -> port_ok p' -> dmxsize p' = 0 -> in_step p' -> R (l ++ [octets es]) g' -> wp (rx_loop fuel) Q (p', g')) ->
  wp (rx_loop (length es + S fuel)) Q (p, g).
Proof.
  intros Hq Hc He Hl Ok E0 Hin Hg HQ. assert (forall p, dmxsize p = 0 -> frame_so_far p = []) as Hnil by (intros p0 Ep; unfold frame_so_far; by rewrite Ep, take_0).
  destruct (decide (dmx_locked p = 0)) as [Hu|Hk].
  - apply (wp_collect es (e :: rest)); [done|done|done|lia|intros Hx; by destruct (Hx Hu)|]. intros p1 Q1 S1 (K1 & _ & _) Ok1 E1 F1. rewrite (Hnil p) in F1 by done. rewrite E0, Hl in E1. cbn [app] in F1.
    eapply wp_rx_break; [done|done|done|]. rewrite E1. destruct (Z.ltb_spec 0 (0 + Z.of_nat n)); [|lia]. rewrite Z.add_0_l in *.
    unfold frame_so_far in F1. rewrite E1, Nat2Z.id in F1. eapply gives_client; [|eapply gives_mono; [apply (Hg _ F1)|]]; [by destruct S1|].
    intros g' Hg' p' Q' S' Ok' E' L1 _ L3. apply HQ; [done|by eapply same_client_trans|done|done| |done].
    right. rewrite L3. unfold update_lock. rewrite K1, Hu. cbn. exact E1.
  - assert (dmx_lock_size p = Z.of_nat n) as Hls by (by destruct Hin).
    destruct es as [|e0 es0 _] using rev_ind; [cbn in Hl; lia|].
    apply Forall_app in Hc as [Hc0 [(d & -> & Hd) _]%Forall_cons]. 
    assert (octets (es0 ++ [DataInline (Z.of_nat (length d)) d]) = octets es0 ++ d) as Ho by (rewrite payloads_app, octets_cons; by rewrite app_nil_r).
    rewrite Ho in *. rewrite length_app in Hl.
    rewrite length_app. cbn [length]. rewrite <- Nat.add_assoc. rewrite <- app_assoc in Hq. apply (wp_collect es0 ([DataInline (Z.of_nat (length d)) d] ++ e :: rest)); [done|done|done|lia| |].
    { intros _ k Hkk. rewrite E0, Hls. assert (length (octets (take k es0)) <= length (octets es0))%nat; [|lia].
      rewrite <- (take_drop k es0) at 2. rewrite payloads_app, length_app. lia. }
    intros p1 Q1 S1 (K1 & K2 & K3) Ok1 E1 F1. rewrite (Hnil p) in F1 by done. rewrite E0 in E1. cbn [app] in Q1, F1. cbn [Nat.add].
    eapply wp_rx_last; [exact Q1|done|by rewrite K1|rewrite K3; lia|rewrite K3; lia|]. rewrite K3, Hls, Nat2Z.id, F1. intros data Hdata _.
    eapply gives_client; [|eapply gives_mono; [apply (Hg _ Hdata)|]]; [by destruct S1|]. intros g' Hg' p2 Q2 S2 (J1 & J2 & J3) Ok2 E2.
    eapply wp_rx_break; [exact Q2|done|done|]. rewrite E2. cbn. intros p' Q' S' (I1 & I2 & I3) Ok' E'.
    apply HQ; [done|by do 2 (eapply same_client_trans; [eassumption|])|done|done| |done]. right. by rewrite I3, J3, K3.
Qed.

(** Every frame in the queue is given to the client, in order. *)
Lemma wp_frames (Hclient : forall p f data l g, same_client (client : port) p -> length f = n -> take n data = f -> R l g -> gives p data (Z.of_nat n) (R (l ++ [f])) g) fs :
  forall fuel p g l (Q : unit -> state -> Prop), queue p = Some (concat fs) -> Forall frame_of fs -> same_client client p -> port_ok p -> dmxsize p = 0 -> in_step p ->
  R l g -> (length (concat fs) <= fuel)%nat ->
  (forall p' g', queue p' = Some [] -> same_client client p' -> port_ok p' -> dmxsize p' = 0 -> in_step p' -> R (l ++ (octets <$> fs)) g' -> Q tt (p', g')) ->
  wp (rx_loop fuel) Q (p, g).
Proof.
  induction fs as [|f fs IH]; intros fuel p g l Q Hq Hf Hcl Ok E0 Hin HR Hfuel HQ.
  { apply wp_rx_end; [done|]. apply HQ; try done. by rewrite app_nil_r. }
  apply Forall_cons in Hf as [(es & e & -> & Hc & He & Hl) Hf]. cbn [concat] in Hq, Hfuel. rewrite <- app_assoc in Hq.
  rewrite !length_app in Hfuel. cbn [length] in Hfuel.
  assert (octets (es ++ [e]) = octets es) as Ho by (rewrite payloads_app; destruct e; try done; by rewrite app_nil_r).
  replace fuel with (length es + S (fuel - length es - 1))%nat by lia.
  eapply (wp_one_frame es e (concat fs)); [done..| |].
  - intros data Hd. by apply Hclient.
  - intros p' g' Q' S' Ok' E' I' R'. apply (IH _ _ _ (l ++ [octets es])); try done; [by eapply same_client_trans|lia|].
    intros p2 g2 Q2 S2 Ok2 E2 I2 R2. apply HQ; try done. cbn [fmap list_fmap]. rewrite Ho. by rewrite <- app_assoc in R2.
Qed.
End stream.
End frames.
