(* ===== verification/DmxSuartFrames.v ===== *)
(** * Frames over the stream UART: from one end to the other

    The composition of [SuartReceive.v] and [DmxSuartReception.v]: what a port
    puts on the line, as [DmxSuartContract.v] says, another one takes from it
    and gives to its client; and what becomes of frames that are too long. *)
From stdpp Require Import base countable list.
From S2P Require Import Prelude FrameQueue Pc16cx50 StreamUart SuartDriver SuartTransmit SuartReceive DmxSuart DmxSuartContract DmxSuartReception.

(** ** What the other end hears *)

(** What becomes of the octets on the line. *)
Definition as_octets (d : list Z) : list Z := u8 <$> d.
(** An octet 0 that is slower than the receiver expects is a break. *)
Definition BREAK : item := Status (Z.lor PC16550_LSR_BREAK_INTERRUPT PC16550_LSR_FRAMING_ERROR).
Definition heard (x : sent) : item := if (s_octet x =? 0) && (DMX_DIVISOR <? s_divisor x) then BREAK else Octet (s_octet x).
Lemma hear_frame d r : heard <$> line_of_frame true d r = BREAK :: (Octet ∘ u8 <$> d).
Proof.
  unfold line_of_frame. cbn [fmap list_fmap]. f_equal. rewrite <- list_fmap_compose. apply list_fmap_ext. intros i x _. cbn. unfold heard. cbn. by rewrite andb_false_r.
Qed.

(** ** The events of a stream of octets and breaks *)

Lemma octets_split d0 : forall d X i l, (forall v, i <> Octet v) -> (Octet <$> d0) ++ X = (Octet <$> d) ++ i :: l -> exists d', d = d0 ++ d' /\ X = (Octet <$> d') ++ i :: l.
Proof.
  induction d0 as [|v d0 IH]; intros d X i l Hi E; [by exists d|]. destruct d as [|v' d]; cbn in E; [by injection E as <-; destruct (Hi v)|].
  injection E as -> E. destruct (IH _ _ _ _ Hi E) as (d' & -> & ->). by exists d'.
Qed.
(** The events of some octets, and the one of the condition after them. *)
Lemma events_split x l new : forall d, Forall received_event new -> items new = (Octet <$> d) ++ Status x :: l ->
  exists es v new', new = es ++ LineStatus 0xff v :: new' /\ Forall carries es /\ octets es = d /\ Z.land v errors = x /\ items new' = l.
Proof.
  induction new as [|e new IH]; intros d Hr E; [by destruct d|]. apply Forall_cons in Hr as [[(d0 & -> & Hd)|(v & ->)] Hr]; unfold items in E; cbn [fmap list_fmap concat items_of] in E; fold (items new) in E.
  - rewrite Nat2Z.id, take_ge in E by done. apply octets_split in E as (d' & -> & E); [|done]. destruct (IH _ Hr E) as (es & v & new' & -> & Hc & Ho & Hv & Hn).
    exists (DataInline (Z.of_nat (length d0)) d0 :: es), v, new'. split_and!; try done; [|by rewrite octets_cons, Ho]. constructor; [|done]. by exists d0.
  - destruct d as [|v' d]; [|done]. injection E as Ev E. by exists [], v, new.
Qed.
(** The events of frames, each with the break that ends it. *)
Lemma frames_split n x ds : has x PC16550_LSR_BREAK_INTERRUPT = true -> Forall (fun d => length d = n) ds -> forall new, Forall received_event new ->
  items new = concat ((fun d => (Octet <$> d) ++ [Status (Z.land x errors)]) <$> ds) -> exists fs, new = concat fs /\ Forall (frame_of n) fs /\ octets <$> fs = ds.
Proof.
  intros Hx. induction 1 as [|d ds Hd _ IH]; intros new Hr E; cbn [fmap list_fmap concat] in E.
  - destruct Hr as [|e new [(d & -> & Hd)|(v & ->)] _]; [by exists []|unfold items in E; cbn in E; by rewrite Nat2Z.id in E; destruct d; cbn in *; [lia|]|done].
  - rewrite <- app_assoc in E. destruct (events_split _ _ _ _ Hr E) as (es & v & new' & -> & Hc & Ho & Hv & En).
    apply Forall_app in Hr as [_ [_ Hr]%Forall_cons]. destruct (IH _ Hr En) as (fs & -> & Hf & Hfs).
    exists ((es ++ [LineStatus 0xff v]) :: fs). split_and!; [cbn; by rewrite <- app_assoc| |].
    + constructor; [|done]. exists es, (LineStatus 0xff v). split_and!; [done|done| |by rewrite Ho]. cbn. by rewrite (same_condition v x).
    + cbn [fmap list_fmap]. by rewrite payloads_app, Ho, Hfs, app_nil_r.
Qed.

Section ends.
Context {F : Type -> Type} `{KfifoLaws F} {C : Type} `{Receiver C} {G : Type}.
Abbreviation port := (dmx512suart_port F C G).
Implicit Types p : port.

Lemma breaks_move {A} (b : A) (f : list Z -> list A) (ds : list (list Z)) :
  concat ((fun d => b :: f d) <$> ds) ++ [b] = b :: concat ((fun d => f d ++ [b]) <$> ds).
Proof. induction ds as [|d ds IH]; [done|]. cbn [fmap list_fmap concat app]. rewrite <- app_assoc, IH. cbn. by rewrite <- app_assoc. Qed.
(** The stream of frames on the line, and the break of one more. *)
Definition stream (ds : list (list Z)) (r : registers) : list item := concat ((fun d => heard <$> line_of_frame true d r) <$> ds) ++ [BREAK].
Lemma stream_shape ds r : stream ds r = BREAK :: concat ((fun d => (Octet ∘ u8 <$> d) ++ [BREAK]) <$> ds).
Proof. unfold stream. rewrite <- breaks_move. do 2 f_equal. apply list_fmap_ext. intros i d _. apply hear_frame. Qed.
Lemma stream_clean ds r : clean (stream ds r).
Proof.
  rewrite stream_shape. intros x [Hx|Hx]%elem_of_cons; [by injection Hx as ->|]. apply list_elem_of_In, in_concat in Hx as (l & Hl & Hx).
  apply list_elem_of_In, list_elem_of_fmap in Hl as (d & -> & _). apply list_elem_of_In, elem_of_app in Hx as [(v & ? & _)%list_elem_of_fmap|Hx]; [done|].
  apply list_elem_of_singleton in Hx. by injection Hx as ->.
Qed.
Lemma stream_seen ds r : seen <$> stream ds r = Status 0x18 :: concat ((fun d => (Octet <$> (u8 <$> d)) ++ [Status (Z.land 0x18 errors)]) <$> ds).
Proof.
  rewrite stream_shape. cbn [fmap list_fmap]. f_equal. induction ds as [|d ds IH]; [done|]. cbn [fmap list_fmap concat]. rewrite fmap_app.
  change (list_fmap item item seen) with (fmap (M := list) seen). rewrite IH. f_equal. rewrite fmap_app. f_equal. rewrite <- !list_fmap_compose.
  apply list_fmap_ext. intros i v _. cbn. by rewrite u8_u8.
Qed.

(** The events that the interrupts make of such a stream. *)
Lemma stream_events n ds (new : list suart_event) b r : Forall (fun d : list Z => length d = n) ds -> Forall received_event new ->
  items new ++ (Octet <$> b) = seen <$> stream ds r ->
  b = [] /\ exists v fs, new = LineStatus 0xff v :: concat fs /\ has v PC16550_LSR_BREAK_INTERRUPT = true /\ Forall (frame_of n) fs /\ octets <$> fs = (as_octets <$> ds).
Proof.
  intros Hd Hr E. assert (b = []) as ->.
  { destruct b as [|x b _] using rev_ind; [done|]. apply (f_equal last) in E. rewrite fmap_app, app_assoc in E. unfold stream in E. rewrite fmap_app in E.
    change (Octet <$> [x]) with [Octet x] in E. change (seen <$> [BREAK]) with [seen BREAK] in E. by rewrite !last_snoc in E. }
  split; [done|]. rewrite app_nil_r, stream_seen in E. destruct (events_split _ _ _ [] Hr E) as (es & v & new' & -> & Hc & Ho & Hv & En).
  assert (es = []) as -> by (apply carries_octets in Hc; rewrite Ho in Hc; destruct es; [done|cbn in Hc; lia]). apply Forall_cons in Hr as [_ Hr].
  destruct (frames_split n 0x18 (as_octets <$> ds)) with (new := new') as (fs & -> & Hf & Hfs); [done| |done| |].
  - apply Forall_fmap. eapply Forall_impl; [exact Hd|]. intros d Hl. change (length (u8 <$> d) = n). by rewrite length_fmap.
  - rewrite En. f_equal. by rewrite <- list_fmap_compose.
  - exists v, fs. split_and!; try done. by rewrite (same_condition v 0x18).
Qed.

(** A stream of frames goes to the client, whatever it does with them. *)
Lemma deliver_stream n (R : list (list Z) -> G -> Prop) p s ds r polls l g :
  (0 < n <= 511)%nat -> Forall (fun d => length d = n) ds ->
  (forall p' f data l g, same_client p p' -> length f = n -> take n data = f -> R l g -> gives p' data (Z.of_nat n) (R (l ++ [f])) g) ->
  port_suart p = Some s -> port_ok p -> dmxsize p = 0 -> in_step n p -> R l g ->
  rx_ok s -> rbuf s = [] -> revents s = [] -> waiting s = stream ds r -> (need s <= room s)%nat -> (reports s <= polls)%nat ->
  wp (handle_all_pending_interrupts polls)
    (fun _ s' => waiting s' = [] /\ forall fuel, (length (revents s') <= fuel)%nat ->
       wp (rx_loop fuel) (fun _ w => R (l ++ (as_octets <$> ds)) w.2) (with_port_suart (Some s') p, g)) s.
Proof.
  intros Hn Hd Hclient Hp Ok E0 Hin HR Hrx Hb He Hw Hroom Hpolls. apply wp_interrupts; [done|done|rewrite Hw; apply stream_clean|done|].
  intros new s' W' Ok' _ Ev Hr It. split; [done|]. intros fuel Hfuel. rewrite Hb, Hw in It. cbn [fmap list_fmap app] in It.
  destruct (stream_events n ds new (rbuf s') r Hd Hr It) as (_ & v & fs & -> & Hv & Hf & Hfs). rewrite Ev, He in *. cbn [length app] in *.
  destruct fuel as [|fuel]; [lia|]. apply (wp_rx_break (LineStatus 0xff v) (concat fs)); [|exact Hv|by destruct Ok|].
  { unfold queue. cbn [port_suart with_port_suart fmap option_fmap option_map]. fold (revents s'). by rewrite Ev. }
  cbn [dmxsize with_port_suart]. rewrite E0. change (0 <? 0) with false. cbv iota.
  intros p' Q' S' (L1 & L2 & L3) Okp E'. eapply (wp_frames n Hn R p Hclient); [exact Q'|done|by destruct S'|done|done| |exact HR|lia|].
  - unfold in_step. rewrite L1, L3. exact Hin.
  - intros p2 g2 _ _ _ _ _ HR2. by rewrite <- Hfs.
Qed.


(** Whatever comes, the thread stays within the frame and ends: every event
    in the queue is taken, octets that do not fit are dropped, and the client is
    only ever given arrays of 513 octets of which between 1 and 511 are used.
    Only [SUART_DATA], which the UART never makes, stops the program. *)
Theorem received_frames_are_short (I : G -> Prop) es fuel p g :
  (forall p' data size g, same_client p p' -> 1 <= size <= 511 -> length data = DMX_DATA_SIZE -> I g -> gives p' data size I g) ->
  queue p = Some es -> Forall (fun e => match e with Data _ _ => False | DataInline _ _ => carries e | _ => True end) es ->
  port_ok p -> I g -> (length es <= fuel)%nat ->
  wp (rx_loop fuel) (fun _ w => queue w.1 = Some [] /\ same_client p w.1 /\ port_ok w.1 /\ I w.2) (p, g).
Proof.
  intros Hclient Hq. assert (same_client p p) as Hs by done. revert Hs Hq. generalize p at 2 3 4 6 as p1. intros p1.
  revert fuel p1 g. induction es as [|e es IH]; intros fuel p1 g Hs Hq Hf Ok HI Hfuel; [by apply wp_rx_end|].
  apply Forall_cons in Hf as [He Hf]. cbn [length] in Hfuel. destruct fuel as [|fuel]; [lia|].
  assert (forall p2 g2, queue p2 = Some es -> same_client p1 p2 -> port_ok p2 -> I g2 ->
    wp (rx_loop fuel) (fun _ w => queue w.1 = Some [] /\ same_client p w.1 /\ port_ok w.1 /\ I w.2) (p2, g2)) as Hnext.
  { intros p2 g2 Q2 S2 Ok2 I2. apply IH; try done; [by eapply same_client_trans|lia]. }
  assert (forall p2, port_ok p2 -> same_client p1 p2 -> 1 <= dmxsize p2 -> gives p1 (dmx_data p2) (dmxsize p2) I g) as Hgive.
  { intros p2 [Hb Hd] S2 Hpos. apply Hclient; [done|lia|done|done]. }
  destruct (is_break e) eqn:Eb.
  { apply (wp_rx_break e es); [done..|]. destruct (Z.ltb_spec 0 (dmxsize p1)) as [Hpos|_]; [|by intros; apply Hnext].
    eapply gives_mono; [by apply Hgive; [|done|lia]|]. cbn beta. intros g' Ig' p2 Q2 S2 Ok2 _ _ _ _. by apply Hnext. }
  eapply wp_rx_step; [done|]. intros q Eq. pose proof (Hnext _ g Eq ltac:(done) (port_ok_queue _ _ Ok) HI) as Hskip.
  destruct e; try done; cbn [handle_rx_event]; try (by apply wp_ret).
  2: { cbn [is_break] in Eb. rewrite Eb. by apply wp_ret. }
  destruct He as (d & [= -> ->] & Hd). destruct (Z.leb_spec (dmxsize p1 + Z.of_nat (length d)) 511) as [Hle|Hgt].
  - apply wp_data_fits; [by apply port_ok_queue|done|]. intros p2 SP SL Ok2 E2 _. pose proof (size_bounds _ Ok).
    assert (same_client p1 p2) as S2 by (by destruct (same_port_client _ _ SP)).
    destruct (_ && _); [|by apply Hnext; [rewrite (queue_same _ _ SP)|..]].
    eapply gives_client; [|eapply gives_mono; [apply (Hgive p2 Ok2 S2)|]]; [done|cbn in E2; lia|]. cbn beta.
    intros g' Ig' p3 SP3 _ Ok3 _. apply Hnext; [by rewrite (queue_same _ _ SP3)|by destruct (same_port_client _ _ SP3)|done|done].
  - apply wp_data_dropped; [cbn; lia|]. intros v. by apply Hnext; [|..|destruct Ok|].
Qed.

(** A full frame is not received as it was sent: the start code and 512
    slots, in events of 14 octets, do not fit, because the frame is kept below
    512 octets and an event that does not fit is dropped as a whole: the client
    is given the first 504 octets. *)
Theorem full_frame_is_cut (Q : G -> Prop) maxevents d es e fuel p g :
  length d = 513%nat -> suart_event_data_inline maxevents d 513 = Done (Some es) -> is_break e = true ->
  queue p = Some (es ++ [e]) -> port_ok p -> dmxsize p = 0 -> dmx_locked p = 0 -> (38 <= fuel)%nat ->
  (forall data, take 504 data = take 504 d -> gives p data 504 Q g) ->
  wp (rx_loop fuel) (fun _ w => Q w.2) (p, g).
Proof.
  intros Hd Hes He Hq Ok E0 Hu Hfuel Hg. unfold suart_event_data_inline in Hes. destruct (_ <? _); [done|]. change (Z.to_nat 513) with 513%nat in Hes.
  destruct (inline_events_split 513 0 513 d) as (es' & He' & Hj & Hc & Hn); [lia..|].
  pose proof (inline_events_prefix 513 0 513 d es' ltac:(lia) He' 36) as Hp. change (Z.of_nat 0) with 0 in He'. change (Z.of_nat 513) with 513 in He'.
  rewrite He' in Hes. injection Hes as <-. rewrite drop_0 in Hj, Hp. rewrite take_ge in Hj by lia.
  assert (length es' = 37)%nat as Hl by (change ((Z.of_nat 513 + 13) / 14) with 37 in Hn; lia). change ((14 * 36) `min` 513)%nat with 504%nat in Hp.
  fold (octets (take 36 es')) in Hp. fold (octets es') in Hj.
  destruct (drop 36 es') as [|e1 [|e2 rest]] eqn:Ed; apply (f_equal length) in Ed as Hdl; rewrite length_drop, Hl in Hdl; [done| |done].
  rewrite <- (take_drop 36 es'), Ed in Hc, Hj, Hq. apply Forall_app in Hc as [Hc (d1 & -> & Hd1)%Forall_singleton].
  rewrite payloads_app in Hj. rewrite octets_cons, app_nil_r, Hp in Hj.
  assert (length d1 = 9)%nat as H9 by (apply (f_equal length) in Hj; rewrite length_app, length_take, Hd in Hj; lia).
  assert (length (octets (take 36 es')) = 504)%nat as H504 by (rewrite Hp, length_take; lia).
  replace fuel with (length (take 36 es') + S (S (fuel - 38)))%nat by (rewrite length_take; lia). rewrite <- app_assoc in Hq.
  apply (wp_collect (take 36 es') ([DataInline (Z.of_nat (length d1)) d1] ++ [e])); [done|done|done|lia|intros Hx; by destruct (Hx Hu)|].
  intros p1 Q1 S1 (K1 & _ & _) Ok1 E1 F1. rewrite E0, H504 in E1. rewrite Hp in F1. unfold frame_so_far in F1 at 2. rewrite E0, take_0 in F1.
  eapply wp_rx_step; [exact Q1|]. intros q Eq. cbn [handle_rx_event]. apply wp_data_dropped; [cbn; lia|]. intros v.
  apply (wp_rx_break e []); [exact Eq|done|by destruct Ok1|]. cbn [dmxsize dmx_data with_dmxstate with_queue with_port_suart]. rewrite E1. change (0 <? 0 + Z.of_nat 504) with true. cbv iota.
  unfold frame_so_far in F1. rewrite E1 in F1. eapply gives_client; [|eapply gives_mono; [apply (Hg _ F1)|]]; [by destruct S1|].
  intros g' HQ p' Q' _ _ _ _ _ _. by apply wp_rx_end.
Qed.
End ends.

(** ** Concrete frames *)

(** A client that keeps the frames it is given. *)
Definition recorder : Z -> Z -> list Z -> Z -> prog (list (list Z)) unit := fun _ _ data size => modify (fun l => l ++ [take (Z.to_nat size) data]).
Definition record_port (s : suart_pc16x50 list_fifo small_chip) : dmx512suart_port list_fifo small_chip (list (list Z)) :=
  dmx512suart_port_init s (Some recorder) 0 (replicate DMX_DATA_SIZE 0) 0.
Definition demo_frames : list (list Z) := [Z.of_nat <$> seq 0 17; Z.of_nat <$> seq 100 17; replicate 17 255].
Definition hearing : suart_pc16x50 list_fifo small_chip :=
  with_uart (with_chip (SmallChip reset_registers 0 (stream demo_frames reset_registers)) (uart demo_uart)) demo_uart.

Definition hearing_events (es : list suart_event) : suart_pc16x50 list_fifo small_chip :=
  with_suart (set_rxfifo (ListFifo 256 es) (suart demo_uart)) demo_uart.
Definition some_events : list suart_event := [LineStatus 255 16; DataInline 3 [1; 2; 3]; Echo 4; LineStatus 255 16; LineStatus 255 2; DataInline 1 [7]].
Lemma received_frames_are_short_witness :
  wp (rx_loop 6) (fun _ w => queue w.1 = Some [] /\ same_client (record_port (hearing_events some_events)) w.1 /\ port_ok w.1 /\ Forall (fun f => (length f <= 511)%nat) w.2)
    (record_port (hearing_events some_events), []).
Proof.
  apply (received_frames_are_short (Forall (fun f => (length f <= 511)%nat)) some_events 6 (record_port (hearing_events some_events)) []); [|reflexivity| | |constructor|cbn; lia].
  - intros p' data size g [_ Hc _] Hs Hd Hg. unfold gives. rewrite Hc. apply Forall_app. split; [exact Hg|]. constructor; [|constructor]. rewrite length_take. lia.
  - repeat constructor; [exists [1; 2; 3]|exists [7]]; split; cbn; auto; lia.
  - split; [cbn; lia|reflexivity].
Defined.

Definition full_frame : list Z := Z.of_nat <$> seq 0 513.
Definition full_frame_events : list suart_event := match suart_event_data_inline 40 full_frame 513 with Done (Some es) => es | _ => [] end.
Lemma full_frame_is_cut_witness :
  wp (rx_loop 38) (fun _ w => w.2 = [take 504 full_frame]) (record_port (hearing_events (full_frame_events ++ [LineStatus 255 16])), []).
Proof.
  apply (full_frame_is_cut (fun g => g = [take 504 full_frame]) 40 full_frame full_frame_events (LineStatus 255 16) 38
    (record_port (hearing_events (full_frame_events ++ [LineStatus 255 16]))) []); try reflexivity.
  - split; [cbn; lia|reflexivity].
  - intros data Hd. unfold gives. cbn. change (Z.to_nat 504) with 504%nat. rewrite Hd. reflexivity.
Defined.
