(* ===== verification/CuseSuart.v ===== *)
(** * The CUSE driver for the stream UART: dmx512_cuse_suart.c

    [src/simulation/dmx512_cuse_suart.c]: a card of [CuseDev.v] with up to 32
    ports, each of which is a port of [DmxSuart.v].  What the driver needs of
    these is the class [SuartPorts]. *)
From stdpp Require Import base countable gmap list.
From S2P Require Import Prelude FrameQueue DmxCore StreamUart SuartDriver DmxSuart Pc16cx50 CuseDev CuseInfo.

(** What [dmx512_suart.h] declares; the first argument of
    [create_port_with_index] is the handle of the client. *)
Class SuartPorts (P : Type) := {
  create_port_with_index : Z -> Z -> outcome (option P);
  delete_port : option P -> outcome unit;
  send_frame : Z -> list Z -> Z -> prog P unit;
  set_dtr : Z -> prog P unit }.

(** The ports of [DmxSuart.v]: the memory they get, the UART by its index and
    what goes on while threads end are parameters. *)
Definition dmx512suart_ports {F C G} `{Kfifo F} `{Regs C} (memory : option (list Z)) (suart_by_index : Z -> option (suart_pc16x50 F C))
    (received : option (Z -> Z -> list Z -> Z -> prog G unit)) (wait : Z -> prog (suart_pc16x50 F C) Z) (release : pc16x50 C -> outcome unit)
    (rounds fuel polls : nat) : SuartPorts (dmx512suart_port F C G) := {|
  create_port_with_index handle index := dmx512suart_create_port_with_index memory (suart_by_index index) received handle;
  delete_port := dmx512suart_delete_port wait release rounds fuel polls;
  send_frame := dmx512suart_send_frame;
  set_dtr := dmx512suart_set_dtr |}.

(** ** State *)

(** A pointer to a port: null, to a port that was deleted, or to a port. *)
Abbreviation port_pointer P := (option (option P)).
Record uartdmx_port (P : Type) := UartPort {
  dmxport : port_pointer P;
  has_card : bool;             (* whether [card] is set *)
  portno : Z;
  uio_index : Z }.
Arguments UartPort {P}. Arguments dmxport {P}. Arguments has_card {P}. Arguments portno {P}. Arguments uio_index {P}.
Record uartdmx_card (P : Type) := UartCard {
  uart_customer_name : list Z;
  uart_port_label : list Z;
  uart_ports : list (uartdmx_port P);
  uart_num_ports : Z;
  uart_cuse_card : option nat }.
Arguments UartCard {P}. Arguments uart_customer_name {P}. Arguments uart_port_label {P}. Arguments uart_ports {P}.
Arguments uart_num_ports {P}. Arguments uart_cuse_card {P}.
Definition UART_PORTS : nat := 32.

Section driver.
Context {P : Type} `{SuartPorts P}.
(** The number in the configuration of the card. *)
Context (cardno : Z) (interrupted : nat -> bool).
Abbreviation card := (uartdmx_card P).
Abbreviation W := (cuse card).
Implicit Types u : card.

Definition with_customer_name v u : card := UartCard v (uart_port_label u) (uart_ports u) (uart_num_ports u) (uart_cuse_card u).
Definition with_port_label v u : card := UartCard (uart_customer_name u) v (uart_ports u) (uart_num_ports u) (uart_cuse_card u).
Definition with_uart_ports v u : card := UartCard (uart_customer_name u) (uart_port_label u) v (uart_num_ports u) (uart_cuse_card u).
Definition with_cuse_card v u : card := UartCard (uart_customer_name u) (uart_port_label u) (uart_ports u) (uart_num_ports u) v.
(** The user pointer of the configuration is [&uartdmx_card]. *)
Definition the_card : prog W card := gets u_drv.
Definition put_user u : prog W unit := modify (with_u_drv u).
Definition port_at (i : Z) : prog W (uartdmx_port P) := u ← the_card; lift_outcome (load (uart_ports u) i).
Definition set_port_at (i : Z) (p : uartdmx_port P) : prog W unit :=
  u ← the_card; l ← lift_outcome (store i p (uart_ports u)); put_user (with_uart_ports l u).

(** ** Info requests *)

(** The card says that it has one port, and has one label. *)
Definition uart_names : card_names card := {|
  n_product := [85; 65; 82; 84];
  n_cardno := cardno;
  n_ports _ := 1;
  n_refused _ port := 1 <=? port;
  n_compares := true;
  n_name u := Done (uart_customer_name u);
  n_set_name v u := Done (with_customer_name v u);
  n_label u _ := Done (uart_port_label u);
  n_set_label u _ v := Done (with_port_label v u) |}.
Definition uartdmx_queryCardInfo : nat -> info_op card := query_card uart_names.
Definition uartdmx_changeCardInfo : nat -> info_op card := change_card uart_names.
Definition uartdmx_queryPortInfo : nat -> Z -> info_op card := query_port uart_names.
Definition uartdmx_changePortInfo : nat -> Z -> info_op card := change_port uart_names.

(** ** Frames *)

(** The handle of a port: 0 is the null pointer, [1 + i] is [&ports[i]]. *)
Definition handle_of (i : nat) : Z := 1 + Z.of_nat i.
Definition dmx512_receive_frame (handle flags : Z) (dmx_data : list Z) (dmxsize : Z) : prog W unit :=
  if handle =? 0 then mret tt else
  p ← port_at (handle - 1);
  when (has_card p)
    (let payload_size := u16 (if dmxsize <? 513 then dmxsize else 513) in
     octets ← lift_outcome (load_all 0 (Z.to_nat payload_size) dmx_data);
     data ← lift_outcome (store_all 0 octets (replicate 513 0));
     u ← the_card;
     dmx512_cuse_handle_received_frame interrupted (uart_cuse_card u) (Frame (u16 (portno p)) (u16 flags) (88 / 4) payload_size data (0, 0) (0, 0))).

(** The ports from [i] on; false when one cannot be created. *)
Fixpoint init_ports (n i : nat) : prog W bool :=
  match n with
  | O => mret true
  | S n =>
      p ← port_at (Z.of_nat i);
      q ← lift_outcome (create_port_with_index (handle_of i) (uio_index p));
      set_port_at (Z.of_nat i) (UartPort (Some <$> q) (has_card p) (portno p) (uio_index p)) ;;
      match q with
      | None => mret false
      | Some _ => set_port_at (Z.of_nat i) (UartPort (Some <$> q) true (Z.of_nat i) (uio_index p)) ;; init_ports n (S i)
      end
  end.
Definition uartdmx_init (c : nat) : prog W unit :=
  u ← the_card;
  ok ← init_ports (Z.to_nat (uart_num_ports u)) 0;
  when ok (u ← the_card; put_user (with_cuse_card (Some c) u)).
(** The pointers stay. *)
Fixpoint cleanup_ports (n i : nat) : prog W unit :=
  match n with
  | O => mret tt
  | S n =>
      p ← port_at (Z.of_nat i);
      match dmxport p with
      | None => mret tt
      | Some None => raise Dangling
      | Some (Some q) =>
          lift_outcome (delete_port (Some q)) ;;
          set_port_at (Z.of_nat i) (UartPort (Some None) (has_card p) (portno p) (uio_index p))
      end ;;
      cleanup_ports n (S i)
  end.
Definition uartdmx_cleanup (c : nat) : prog W unit := u ← the_card; cleanup_ports (Z.to_nat (uart_num_ports u)) 0.

(** A function of the port that is called with [ports[i].dmxport]; a null
    pointer is allowed. *)
Definition on_dmxport (i : Z) (m : prog P unit) : prog W unit :=
  p ← port_at i;
  match dmxport p with
  | None => mret tt
  | Some None => raise Dangling
  | Some (Some q) =>
      '(_, q) ← lift_outcome (m q);
      set_port_at i (UartPort (Some (Some q)) (has_card p) (portno p) (uio_index p))
  end.
Definition uartdmx_sendFrame (c : nat) (f : dmx512frame) : prog W unit :=
  u ← the_card;
  when ((f_port f <? uart_num_ports u) && (f_payload_size f <=? 513))
    (on_dmxport (f_port f) (set_dtr 1) ;;
     on_dmxport (f_port f) (send_frame (f_flags f) (f_data f) (f_payload_size f)) ;;
     on_dmxport (f_port f) (set_dtr 0)).

Definition uartdmx_ops : card_ops card :=
  CardOps (Some uartdmx_queryCardInfo) (Some uartdmx_changeCardInfo) (Some uartdmx_queryPortInfo) (Some uartdmx_changePortInfo)
    (Some uartdmx_init) (Some uartdmx_cleanup) (Some uartdmx_sendFrame).
(** The same functions for every card of the program; there is one. *)
Definition uart_ops (c : nat) : option (card_ops card) := Some uartdmx_ops.
End driver.

(** What [main] makes of its arguments: the indexes of the UIO devices. *)
Definition new_uart_card {P} (uio : list Z) : uartdmx_card P :=
  let n := (length uio `min` UART_PORTS)%nat in
  UartCard (padded [99; 117; 115; 116; 111; 109; 101; 114; 32; 108; 97; 98; 101; 108]) (padded [85; 65; 82; 84; 48])
    ((fun i => UartPort None false 0 (if (i <? n)%nat then default 0 (uio !! i) else 0)) <$> seq 0 UART_PORTS) (Z.of_nat n) None.
