(* ===== verification/CuseSuartContract.v ===== *)
(** * The CUSE driver for the stream UART: from a file to the line and back

    The composition of [CuseDev.v], [CuseSuart.v] and [DmxSuart.v]: a frame
    that is written to a file of the card goes out at its port, and the frames
    that a port hears are read at the files of the card. *)
From stdpp Require Import base countable gmap list.
From S2P Require Import Prelude KList FrameQueue DmxCore CuseDev CuseContract CuseProperties CuseLoop CuseDrivers.
From S2P Require Import Pc16cx50 StreamUart SuartDriver SuartTransmit SuartReceive DmxSuart DmxSuartContract DmxSuartReception DmxSuartFrames CuseInfo CuseSuart.

(** ** From a file to the line *)

Section sending.
Context {F : Type -> Type} `{KfifoLaws F} {C : Type} `{Chip C} {G : Type}.
Abbreviation port := (dmx512suart_port F C G).
Implicit Types p : port.

Lemma wp_set_dtr v p s (Q : unit -> port -> Prop) : port_suart p = Some s -> (1 <= kfifo_avail (txfifo (suart s)))%nat ->
  (forall q w, contents q = events s ++ [ChangeLine SUART_LINE_DTR (if v =? 0 then 0 else SUART_LINE_DTR)] ->
     kfifo_avail q = (kfifo_avail (txfifo (suart s)) - 1)%nat ->
     Q tt (with_port_suart (Some (with_suart (Suart q (rxfifo (suart s)) (txwaitqueue (suart s)) (rxwaitqueue (suart s)) w) s)) p)) ->
  wp (dmx512suart_set_dtr v) Q p.
Proof.
  intros Hp Ha HQ. unfold dmx512suart_set_dtr. do 2 wp_step. rewrite Hp. unfold with_events, wp. rewrite Hp. unfold on_suart.
  set (e := suart_event_change_line SUART_LINE_DTR (if v =? 0 then 0 else SUART_LINE_DTR)).
  pose proof (wp_put_txevents [e] [] 1 (fun _ u => exists q w, contents q = events s ++ [e] /\ kfifo_avail q = (kfifo_avail (txfifo (suart s)) - 1)%nat /\
    u = Suart q (rxfifo (suart s)) (txwaitqueue (suart s)) (rxwaitqueue (suart s)) w) (suart s) eq_refl ltac:(cbn; lia) Ha) as HW.
  ospecialize (HW _); [intros q w Hq Hv; by exists q, w|]. unfold wp in HW. change ((Some <$> [e]) ++ []) with [Some e] in HW.
  destruct (suart_put_txevents _ _ (suart s)) as [[[] u]|]; [|done]. destruct HW as (q & w & Hq & Hv & ->). apply HQ; [|done].
  unfold e, suart_event_change_line in Hq. by destruct (v =? 0).
Qed.

(** What a frame of the driver is: between two changes of DTR. *)
Definition dtr (b : bool) : suart_event := ChangeLine SUART_LINE_DTR (if b then SUART_LINE_DTR else 0).
Lemma wp_frame_with_dtr flags data n reply l p s (Q : port -> Prop) :
  port_suart p = Some s -> dmx512_is_rdm_discover_reply data = Done reply -> line_octets reply data n l ->
  (0 < n <= length data)%nat -> Z.of_nat n <= 1600 -> (2 + events_for (length l) <= kfifo_avail (txfifo (suart s)))%nat ->
  (forall es q w, concat (payload <$> es) = l -> Forall carries es -> contents q = events s ++ [dtr true] ++ frame_events (with_break reply flags) es ++ [dtr false] ->
     Q (with_port_suart (Some (with_suart (Suart q (rxfifo (suart s)) (txwaitqueue (suart s)) (rxwaitqueue (suart s)) w) s)) p)) ->
  wp (dmx512suart_set_dtr 1) (fun _ p => wp (dmx512suart_send_frame flags data (Z.of_nat n)) (fun _ p => wp (dmx512suart_set_dtr 0) (fun _ => Q) p) p) p.
Proof.
  intros Hp Hr Hl Hn Hb Ha HQ. eapply wp_set_dtr; [done|lia|]. intros q1 w1 Hq1 Hv1.
  eapply wp_send_frame; [reflexivity|done|done|done|done|change (events_for (length l) <= kfifo_avail q1)%nat; lia|].
  intros es q2 w2 Hj Hc Hq2 Hv2. change (kfifo_avail q1 <= kfifo_avail q2 + events_for (length l))%nat in Hv2.
  eapply wp_set_dtr; [reflexivity|change (1 <= kfifo_avail q2)%nat; lia|]. intros q3 w3 Hq3 _. apply (HQ es q3 w3 Hj Hc).
  change (contents q3 = contents q2 ++ [dtr false]) in Hq3. change (contents q2 = contents q1 ++ frame_events (with_break reply flags) es) in Hq2.
  rewrite Hq3, Hq2, Hq1. change (ChangeLine _ (if 1 =? 0 then 0 else _)) with (dtr true). by rewrite <- !app_assoc.
Qed.

(** The ports of the driver are those of [DmxSuart.v]. *)
Context (memory : option (list Z)) (suart_by_index : Z -> option (suart_pc16x50 F C)) (received : option (Z -> Z -> list Z -> Z -> prog G unit))
  (wait : Z -> prog (suart_pc16x50 F C) Z) (release : pc16x50 C -> outcome unit) (rs fuel ps : nat).
#[local] Instance the_ports : SuartPorts port := dmx512suart_ports memory suart_by_index received wait release rs fuel ps.
Abbreviation W := (cuse (uartdmx_card port)).
Implicit Types w : W.

Definition with_dmxport (q : port) (x : uartdmx_port port) : uartdmx_port port := UartPort (Some (Some q)) (has_card x) (portno x) (uio_index x).
Definition with_port_at (i : nat) (x : uartdmx_port port) w : W := with_u_drv (with_uart_ports (<[i := x]> (uart_ports (u_drv w))) (u_drv w)) w.
Lemma on_dmxport_run i m w x q q' : uart_ports (u_drv w) !! i = Some x -> dmxport x = Some (Some q) -> m q = Done (tt, q') ->
  on_dmxport (Z.of_nat i) m w = Done (tt, with_port_at i (with_dmxport q' x) w).
Proof.
  intros Hx Hq Em. assert (i < length (uart_ports (u_drv w)))%nat as Hi by (by eapply lookup_lt_Some). unfold on_dmxport, port_at, set_port_at, the_card, put_user.
  unfold mbind, prog_bind, gets, lift_outcome, modify. rewrite (load_nat _ _ x Hx), Hq, Em. by rewrite (store_nat _ i _ Hi).
Qed.

(** [uartdmx_sendFrame]: the port has the frame, nothing else changes. *)
Lemma sendFrame_run card f n reply l w x p s : let i := Z.to_nat (f_port f) in
  0 <= f_port f < uart_num_ports (u_drv w) -> uart_ports (u_drv w) !! i = Some x -> dmxport x = Some (Some p) -> port_suart p = Some s ->
  dmx512_is_rdm_discover_reply (f_data f) = Done reply -> line_octets reply (f_data f) n l -> f_payload_size f = Z.of_nat n -> (0 < n <= 513)%nat -> (n <= length (f_data f))%nat ->
  (2 + events_for (length l) <= kfifo_avail (txfifo (suart s)))%nat ->
  exists es q wk, concat (payload <$> es) = l /\ Forall carries es /\ contents q = events s ++ [dtr true] ++ frame_events (with_break reply (f_flags f)) es ++ [dtr false] /\
    uartdmx_sendFrame card f w =
      Done (tt, with_port_at i (with_dmxport (with_port_suart (Some (with_suart (Suart q (rxfifo (suart s)) (txwaitqueue (suart s)) (rxwaitqueue (suart s)) wk) s)) p) x) w).
Proof.
  intros i Hnum Hx Hp Hs Hr Hl Hsize Hn Hdata Ha. assert (i < length (uart_ports (u_drv w)))%nat as Hi by (by eapply lookup_lt_Some).
  pose proof (wp_frame_with_dtr (f_flags f) (f_data f) n reply l p s (fun p' => exists es q wk, concat (payload <$> es) = l /\ Forall carries es /\
    contents q = events s ++ [dtr true] ++ frame_events (with_break reply (f_flags f)) es ++ [dtr false] /\
    p' = with_port_suart (Some (with_suart (Suart q (rxfifo (suart s)) (txwaitqueue (suart s)) (rxwaitqueue (suart s)) wk) s)) p)
    Hs Hr Hl ltac:(lia) ltac:(lia) Ha) as HW.
  ospecialize (HW _); [intros es q wk ???; by exists es, q, wk|].
  apply wp_run in HW as ([] & p1 & E1 & HW). apply wp_run in HW as ([] & p2 & E2 & HW). apply wp_run in HW as ([] & p3 & E3 & es & q & wk & Hj & Hc & Hq & ->).
  exists es, q, wk. split_and!; try done. unfold uartdmx_sendFrame, the_card.
  unfold mbind at 1, prog_bind at 1, gets. rewrite (proj2 (Z.ltb_lt _ _)), Hsize, (proj2 (Z.leb_le _ _)) by lia. cbn [andb when].
  assert (f_port f = Z.of_nat i) as -> by lia.
  assert (forall y w, uart_ports (u_drv w) !! i = Some y -> forall z, uart_ports (u_drv (with_port_at i z w)) !! i = Some z) as Hget.
  { intros y w' Hy z. cbn. apply list_lookup_insert_eq. by eapply lookup_lt_Some. }
  rewrite (bind_run _ _ _ _ _ (on_dmxport_run i _ w x p p1 Hx Hp E1)).
  rewrite (bind_run _ _ _ _ _ (on_dmxport_run i _ _ _ p1 p2 (Hget _ _ Hx (with_dmxport p1 x)) eq_refl E2)).
  etransitivity; [exact (on_dmxport_run i _ _ _ p2 _ (Hget _ _ (Hget _ _ Hx (with_dmxport p1 x)) (with_dmxport p2 (with_dmxport p1 x))) eq_refl E3)|]. do 2 f_equal.
  unfold with_port_at. cbn. unfold with_uart_ports. cbn. by rewrite !list_insert_insert_eq.
Qed.

Lemma transmit_with_break reply x : with_break reply (Z.lor x DMX512_FLAGS_IS_TRANSMIT_FRAME) = with_break reply x.
Proof. unfold with_break. rewrite Z.land_lor_distr_l. change (Z.land DMX512_FLAGS_IS_TRANSMIT_FRAME DMX512_FLAG_NOBREAK) with 0. by rewrite Z.lor_0_r. Qed.

(** C3: a frame that is written to a file of the card goes out at its port: the
    writer is told that all of it was written, and the rounds of the thread
    of that port put the frame on the line, with a break in front unless its
    flags say otherwise, octet by octet and each at the rate and in the format
    that are in force when the transmitter sends it, the last ones when it has
    sent what it holds; the files are as the device says ([cuse_refinement]). *)
Theorem written_frame_goes_out cardno interrupted malloc_ok w a req c fh k f size n reply l x p s polls :
  implements w a -> (forall j, (j < 32)%nat -> is_Some (a_files a !! (c, j))) -> opened (Some c) fh a = Some k -> SIZEOF_FRAME <= size ->
  0 <= f_port f < uart_num_ports (u_drv w) -> f_port f < 32 -> uart_ports (u_drv w) !! Z.to_nat (f_port f) = Some x -> dmxport x = Some (Some p) ->
  port_suart p = Some s -> tx_ok s -> todo s = [] -> base_clock s = CLOCK -> (2 + events_for (length l) <= kfifo_avail (txfifo (suart s)))%nat ->
  dmx512_is_rdm_discover_reply (f_data f) = Done reply -> line_octets reply (f_data f) n l -> f_payload_size f = Z.of_nat n ->
  (0 < n <= 513)%nat -> (n <= length (f_data f))%nat -> (length l <= capacity s)%nat -> (BUSY s <= polls)%nat -> (patience <= polls)%nat ->
  exists w' a' log x' p' s', handle (uart_ops cardno) interrupted malloc_ok (CWrite req (Some c) f size (Some fh)) w = Done (tt, w') /\
    implements w' a' /\ u_log w' = log ++ [ReplyWrite req size] /\
    uart_ports (u_drv w') !! Z.to_nat (f_port f) = Some x' /\ dmxport x' = Some (Some p') /\ port_suart p' = Some s' /\
    exists r, wp (rounds r polls) (fun _ s'' => todo s'' = [] /\
      r_line (regs (chip s'')) = r_line (regs (chip s)) ++ line_of_frame (with_break reply (f_flags f)) l (regs (chip s))) s'.
Proof.
  intros Hw Hex Ho Hsize Hnum Hlow Hx Hp Hs Hok Htodo Hclk Ha Hr Hl Hpay Hn Hdata Hcap Hbusy Hpat.
  destruct (sendFrame_run c (to_send f) n reply l w x p s) as (es & q & wk & Hj & Hc & Hq & Hsend); try done.
  set (s' := with_suart _ s) in Hsend. change (f_flags (to_send f)) with (Z.lor (f_flags f) DMX512_FLAGS_IS_TRANSMIT_FRAME) in Hq. rewrite transmit_with_break in Hq.
  destruct (write_reaches_driver (uart_ops cardno) interrupted malloc_ok w a req c fh k f size _ _ Hw Hex Ho Hsize Hlow eq_refl Hsend) as (w' & a' & log & E & Hw' & Hlog & Hd).
  exists w', a', log, (with_dmxport (with_port_suart (Some s') p) x), (with_port_suart (Some s') p), s'. split_and!; try done.
  - rewrite Hd. cbn. rewrite list_lookup_insert_eq; [done|by eapply lookup_lt_Some].
  - rewrite <- Hj in *. apply (queued_frame_goes_out s [dtr true] (with_break reply (f_flags f)) es [dtr false] q wk polls); try done.
    + apply Forall_singleton. by eexists _, _.
    + apply Forall_singleton. by eexists _, _.
    + split; [by eapply line_octets_length; [done|lia]|done].
Qed.
End sending.

(** ** From the line to a file *)

(** The frame that is made of octets at the port [i]. *)
Definition frame_heard (i : nat) (data : list Z) : dmx512frame :=
  Frame (Z.of_nat i) 0 22 (Z.of_nat (length data)) (data ++ replicate (513 - length data) 0) (0, 0) (0, 0).

Section hearing.
Context {F : Type -> Type} `{KfifoLaws F} {C : Type} `{Receiver C} {P : Type} `{SuartPorts P} (interrupted : nat -> bool).
Abbreviation W := (cuse (uartdmx_card P)).
Abbreviation port := (dmx512suart_port F C W).
Implicit Types (w : W) (p : port).

Lemma wp_receive_frame w i x data n a a' : uart_ports (u_drv w) !! i = Some x -> has_card x = true -> portno x = Z.of_nat i -> (i < 32)%nat ->
  (n <= 512)%nat -> (n <= length data)%nat -> implements w a -> a_receive interrupted (uart_cuse_card (u_drv w)) (frame_heard i (take n data)) a = Some a' ->
  wp (dmx512_receive_frame interrupted (handle_of i) 0 data (Z.of_nat n)) (fun _ w' => u_drv w' = u_drv w /\ implements w' a') w.
Proof.
  intros Hx Hc Hno Hi Hn Hd Hw Ha. unfold dmx512_receive_frame, handle_of. rewrite (proj2 (Z.eqb_neq _ _)) by lia.
  replace (1 + Z.of_nat i - 1) with (Z.of_nat i) by lia. unfold port_at, the_card. apply wp_bind, wp_bind, wp_gets.
  eapply wp_done; [unfold lift_outcome; by rewrite (load_nat _ _ x Hx)|]. cbn beta. rewrite Hc. cbn [when].
  assert (u16 (if Z.of_nat n <? 513 then Z.of_nat n else 513) = Z.of_nat n) as ->.
  { rewrite (proj2 (Z.ltb_lt _ _)) by lia. unfold u16. rewrite Z.mod_small; lia. }
  rewrite Nat2Z.id. apply wp_bind. eapply wp_done; [unfold lift_outcome; rewrite (load_all_nat data 0) by lia; reflexivity|]. cbn beta. rewrite drop_0.
  assert (length (take n data) = n) as Hl by (rewrite length_take; lia).
  apply wp_bind. eapply wp_done; [unfold lift_outcome; rewrite (store_all_nat _ 0) by (rewrite length_replicate; lia); reflexivity|]. cbn beta.
  apply wp_bind, wp_gets. eapply receive_refines; [done|]. rewrite <- Ha. f_equal. unfold frame_heard. rewrite Hl, Hno. cbn [take app Nat.add].
  f_equal; [unfold u16; rewrite Z.mod_small; lia|]. by rewrite drop_replicate.
Qed.

End hearing.

(** ** A concrete card *)

Definition ports_at {P} (q : P) (i : nat) : uartdmx_card P :=
  with_cuse_card (Some 0%nat) (with_uart_ports (<[i := UartPort (Some (Some q)) true (Z.of_nat i) 0]> (uart_ports (new_uart_card [0; 1; 2]))) (new_uart_card [0; 1; 2])).
Definition written : dmx512frame := Frame 1 0 0 3 (replicate 513 7) (0, 0) (0, 0).
Definition no_wait (ms : Z) : prog (suart_pc16x50 list_fifo small_chip) Z := mret 0.
Lemma written_frame_goes_out_witness : exists (w : cuse (uartdmx_card (dmx512suart_port list_fifo small_chip unit))) w' a' log x' p' s',
  handle (@uart_ops _ (dmx512suart_ports None (fun _ => None) None no_wait (fun _ => Done tt) 0 0 0) 0) (fun _ => false) (fun _ => true)
    (CWrite 5 (Some 0%nat) written 600 (Some 0)) w = Done (tt, w') /\
  implements w' a' /\ u_log w' = log ++ [ReplyWrite 5 600] /\
  uart_ports (u_drv w') !! 1%nat = Some x' /\ dmxport x' = Some (Some p') /\ port_suart p' = Some s' /\
  exists r, wp (rounds r 2) (fun _ s'' => todo s'' = [] /\
    r_line (regs (chip s'')) = r_line (regs (chip demo_uart)) ++ line_of_frame (with_break false 0) [7; 7; 7] (regs (chip demo_uart))) s'.
Proof.
  destruct polling_world as [w0 Hw]. exists (Cuse (u_mem w0) (u_contexts w0) (u_log w0) (ports_at demo_port 1)).
  apply (written_frame_goes_out None (fun _ => None) None no_wait (fun _ => Done tt) 0 0 0 0 (fun _ => false) (fun _ => true) _ polling 5 0 0
    ((0%nat, 0%nat), File (Context true false 2 0 None (Some 9%nat)) []) written 600 3 false [7; 7; 7] (UartPort (Some (Some demo_port)) true 1 0) demo_port demo_uart 2);
    [by apply implements_any|apply all_contexts; by vm_compute|reflexivity|discriminate|split; [discriminate|reflexivity]|reflexivity|reflexivity|reflexivity|reflexivity|
     apply demo_uart_ok|reflexivity|reflexivity|vm_compute; lia|reflexivity|reflexivity|reflexivity|lia|vm_compute; lia|vm_compute; lia|vm_compute; lia|vm_compute; lia].
Defined.

(** The port 1 that hears the frames, and the file that selects it. *)
Definition heard_frames : list (list Z) := [Z.of_nat <$> seq 0 17; Z.of_nat <$> seq 100 17].
Definition hearing_uart : suart_pc16x50 list_fifo small_chip :=
  with_uart (with_chip (SmallChip reset_registers 0 (stream heard_frames reset_registers)) (SuartDriver.uart demo_uart)) demo_uart.
Definition hearing_port : dmx512suart_port list_fifo small_chip (cuse (uartdmx_card unit)) :=
  dmx512suart_port_init hearing_uart (Some (dmx512_receive_frame (fun _ => false))) (handle_of 1) (replicate DMX_DATA_SIZE 0) 0.
#[local] Instance unit_ports : SuartPorts unit :=
  {| create_port_with_index _ _ := Done None; delete_port _ := Done tt; send_frame _ _ _ := mret tt; set_dtr _ := mret tt |}.
