(* ===== verification/RdmValues.v ===== *)
(** * Values of the RDM standard

    [src/librdm/rdmvalues.hpp], the first half: the values of the standard
    (ANSI E1.20), UIDs, the layout of a packet in a buffer and the checksum;
    and [IDmxData] of [dmx.hpp].  A buffer is a list of octets and an access
    outside of it is a fault.  The byte order of the machine is a parameter
    ([Machine]), because the code asks for it. *)
From stdpp Require Import base countable list.
From S2P Require Import Prelude.

(** ** The values of the standard *)

Definition SC_RDM : Z := 0xCC.
Definition STATUS_ERROR : Z := 0xFF.
Definition SC_SUB_MESSAGE : Z := 0x01.

Inductive RdmFieldIndex : Type :=
  | RDMFIELD_STARTCODE | RDMFIELD_SUBSTARTCODE | RDMFIELD_MESSAGELENGTH
  | RDMFIELD_DEST_UID0 | RDMFIELD_SRC_UID0
  | RDMFIELD_TRANSACTION_NUMBER | RDMFIELD_PORTID_RESPONSETYPE | RDMFIELD_MESSAGE_COUNT
  | RDMFIELD_SUBDEVICE0 | RDMFIELD_COMMANDCLASS | RDMFIELD_PARAMETER_ID0
  | RDMFIELD_PARAMETER_DATA_LENGTH | RDMFIELD_PARAMETER_DATA.
(** The enumeration counts the octets, so the fields of more than one octet
    have the index of their first one here. *)
Definition field_index (i : RdmFieldIndex) : Z :=
  match i with
  | RDMFIELD_STARTCODE => 0 | RDMFIELD_SUBSTARTCODE => 1 | RDMFIELD_MESSAGELENGTH => 2
  | RDMFIELD_DEST_UID0 => 3 | RDMFIELD_SRC_UID0 => 9
  | RDMFIELD_TRANSACTION_NUMBER => 15 | RDMFIELD_PORTID_RESPONSETYPE => 16 | RDMFIELD_MESSAGE_COUNT => 17
  | RDMFIELD_SUBDEVICE0 => 18 | RDMFIELD_COMMANDCLASS => 20 | RDMFIELD_PARAMETER_ID0 => 21
  | RDMFIELD_PARAMETER_DATA_LENGTH => 23 | RDMFIELD_PARAMETER_DATA => 24
  end.
Coercion field_index : RdmFieldIndex >-> Z.

Inductive RdmCommandClass : Type :=
  | DISCOVERY_COMMAND | DISCOVERY_COMMAND_RESPONSE
  | GET_COMMAND | GET_COMMAND_RESPONSE
  | SET_COMMAND | SET_COMMAND_RESPONSE.
Definition command_class (c : RdmCommandClass) : Z :=
  match c with
  | DISCOVERY_COMMAND => 0x10 | DISCOVERY_COMMAND_RESPONSE => 0x11
  | GET_COMMAND => 0x20 | GET_COMMAND_RESPONSE => 0x21
  | SET_COMMAND => 0x30 | SET_COMMAND_RESPONSE => 0x31
  end.
Coercion command_class : RdmCommandClass >-> Z.

Inductive RdmResponseType : Type :=
  | RESPONSE_TYPE_ACK | RESPONSE_TYPE_ACK_TIMER | RESPONSE_TYPE_NACK_REASON
  | RESPONSE_TYPE_ACK_OVERFLOW | RESPONSE_TYPE_UNKNOWN_PID | RESPONSE_TYPE_NOREPLY.
Definition response_type (t : RdmResponseType) : Z :=
  match t with
  | RESPONSE_TYPE_ACK => 0x00 | RESPONSE_TYPE_ACK_TIMER => 0x01 | RESPONSE_TYPE_NACK_REASON => 0x02
  | RESPONSE_TYPE_ACK_OVERFLOW => 0x03 | RESPONSE_TYPE_UNKNOWN_PID => 0xfe | RESPONSE_TYPE_NOREPLY => 0xff
  end.
Coercion response_type : RdmResponseType >-> Z.

Inductive RdmParameterIds : Type :=
  | DISC_UNIQUE_BRANCH | DISC_MUTE | DISC_UN_MUTE
  | PROXIED_DEVICES | PROXIED_DEVICE_COUNT | COMMS_STATUS
  | QUEUED_MESSAGE | STATUS_MESSAGES | STATUS_ID_DESCRIPTION | CLEAR_STATUS_ID
  | SUB_DEVICE_STATUS_REPORT_THRESHOLD
  | SUPPORTED_PARAMETERS | PARAMETER_DESCRIPTION
  | DEVICE_INFO | PRODUCT_DETAIL_ID_LIST | DEVICE_MODEL_DESCRIPTION | MANUFACTURER_LABEL
  | DEVICE_LABEL | FACTORY_DEFAULTS | LANGUAGE_CAPABILITIES | LANGUAGE
  | SOFTWARE_VERSION_LABEL | BOOT_SOFTWARE_VERSION_ID | BOOT_SOFTWARE_VERSION_LABEL
  | DMX_FOOTPRINT | DMX_PERSONALITY | DMX_PERSONALITY_DESCRIPTION | DMX_START_ADDRESS
  | SLOT_INFO | SLOT_DESCRIPTION | DEFAULT_SLOT_VALUE
  | SENSOR_DEFINITION | SENSOR_VALUE | RECORD_SENSORS
  | DEVICE_HOURS | LAMP_HOURS | LAMP_STRIKES | LAMP_STATE | LAMP_ON_MODE | DEVICE_POWER_CYCLES
  | DISPLAY_INVERT | DISPLAY_LEVEL
  | PAN_INVERT | TILT_INVERT | PAN_TILT_SWAP | REAL_TIME_CLOCK
  | IDENTIFY_DEVICE | RESET_DEVICE | POWER_STATE | PERFORM_SELFTEST | SELF_TEST_DESCRIPTION
  | CAPTURE_PRESET | PRESET_PLAYBACK.
Definition parameter_id (p : RdmParameterIds) : Z :=
  match p with
  | DISC_UNIQUE_BRANCH => 0x0001 | DISC_MUTE => 0x0002 | DISC_UN_MUTE => 0x0003
  | PROXIED_DEVICES => 0x0010 | PROXIED_DEVICE_COUNT => 0x0011 | COMMS_STATUS => 0x0015
  | QUEUED_MESSAGE => 0x0020 | STATUS_MESSAGES => 0x0030 | STATUS_ID_DESCRIPTION => 0x0031
  | CLEAR_STATUS_ID => 0x0032 | SUB_DEVICE_STATUS_REPORT_THRESHOLD => 0x0033
  | SUPPORTED_PARAMETERS => 0x0050 | PARAMETER_DESCRIPTION => 0x0051
  | DEVICE_INFO => 0x0060 | PRODUCT_DETAIL_ID_LIST => 0x0070 | DEVICE_MODEL_DESCRIPTION => 0x0080
  | MANUFACTURER_LABEL => 0x0081 | DEVICE_LABEL => 0x0082 | FACTORY_DEFAULTS => 0x0090
  | LANGUAGE_CAPABILITIES => 0x00A0 | LANGUAGE => 0x00B0
  | SOFTWARE_VERSION_LABEL => 0x00C0 | BOOT_SOFTWARE_VERSION_ID => 0x00C1 | BOOT_SOFTWARE_VERSION_LABEL => 0x00C2
  | DMX_FOOTPRINT => 0x00D0 | DMX_PERSONALITY => 0x00E0 | DMX_PERSONALITY_DESCRIPTION => 0x00E1
  | DMX_START_ADDRESS => 0x00F0 | SLOT_INFO => 0x0120 | SLOT_DESCRIPTION => 0x0121 | DEFAULT_SLOT_VALUE => 0x0122
  | SENSOR_DEFINITION => 0x0200 | SENSOR_VALUE => 0x0201 | RECORD_SENSORS => 0x0202
  | DEVICE_HOURS => 0x0400 | LAMP_HOURS => 0x0401 | LAMP_STRIKES => 0x0402 | LAMP_STATE => 0x0403
  | LAMP_ON_MODE => 0x0404 | DEVICE_POWER_CYCLES => 0x0405
  | DISPLAY_INVERT => 0x0500 | DISPLAY_LEVEL => 0x0501
  | PAN_INVERT => 0x0600 | TILT_INVERT => 0x0601 | PAN_TILT_SWAP => 0x0602 | REAL_TIME_CLOCK => 0x0603
  | IDENTIFY_DEVICE => 0x1000 | RESET_DEVICE => 0x1001 | POWER_STATE => 0x1010 | PERFORM_SELFTEST => 0x1020
  | SELF_TEST_DESCRIPTION => 0x1021 | CAPTURE_PRESET => 0x1030 | PRESET_PLAYBACK => 0x1031
  end.
Coercion parameter_id : RdmParameterIds >-> Z.

(** ** Integers and octets *)

(** The byte order of the machine the code is compiled for. *)
Class Machine := { big_endian : bool }.

(** The octets of an integer in network order; [from_network] is their value. *)
Fixpoint network (n : nat) (v : Z) : list Z :=
  match n with O => [] | S n => u8 (Z.shiftr v (8 * Z.of_nat n)) :: network n v end.
Definition from_network (l : list Z) : Z := foldl (fun a x => a * 2 ^ 8 + x) 0 l.

(** An integer as an object in memory. *)
Definition object `{Machine} (n : nat) (v : Z) : list Z := if big_endian then network n v else rev (network n v).
Definition object_value `{Machine} (l : list Z) : Z := from_network (if big_endian then l else rev l).

(** The test [ntohl(0x12345678) == 0x12345678]: [ntohl] takes the octets of
    its argument in the order of memory. *)
Definition ntohl `{Machine} (v : Z) : Z := from_network (object 4 v).
Definition machineIsBigEndian `{Machine} : bool := ntohl 0x12345678 =? 0x12345678.

(** ** UIDs: six octets in network order *)

Definition Uid : Type := list Z.
Definition uid_manufacturer (u : Uid) : Z := from_network (take 2 u).
Definition uid_device (u : Uid) : Z := from_network (take 4 (drop 2 u)).
Definition uid_set_manufacturer (m : Z) (u : Uid) : Uid := network 2 m ++ drop 2 u.
Definition uid_set_device (d : Z) (u : Uid) : Uid := take 2 u ++ network 4 d.
(** The constructors: [Uid()], and the one from an integer, which is also the
    one from a string with the value that [strtoull] gives. *)
Definition Uid_zero : Uid := replicate 6 0.
Definition Uid_of (uid : Z) : Uid :=
  uid_set_device (uid mod 2 ^ 32) (uid_set_manufacturer (u16 (Z.shiftr uid 32)) Uid_zero).
Definition uid_value (u : Uid) : Z := Z.shiftl (uid_manufacturer u) 32 + uid_device u.
Definition uid_is (u : Uid) (other : Z) : bool := uid_value u =? other.
Definition uid_eqb (u v : Uid) : bool :=
  (uid_manufacturer u =? uid_manufacturer v) && (uid_device u =? uid_device v).
Definition broadcast : Z := 0xFFFFFFFFFFFF.
Definition any : Z := 0.

(** ** Packets in memory *)

(** The fields of [struct Header] with their values, and their octets in the
    packed structure. *)
Record Header := mkHeader {
  h_startCode : Z; h_subStartCode : Z; h_msgLength : Z;
  h_dstUid : Z; h_srcUid : Z;
  h_TN : Z; h_portId : Z; h_msgCount : Z;
  h_subDevice : Z; h_CC : Z; h_PID : Z; h_PDL : Z }.
Definition header_octets (h : Header) : list Z :=
  [u8 (h_startCode h); u8 (h_subStartCode h); u8 (h_msgLength h)] ++
  network 6 (h_dstUid h) ++ network 6 (h_srcUid h) ++
  [u8 (h_TN h); u8 (h_portId h); u8 (h_msgCount h)] ++
  network 2 (h_subDevice h) ++ [u8 (h_CC h)] ++ network 2 (h_PID h) ++ [u8 (h_PDL h)].
Definition sizeof_Header : Z := 24.
(** [Packet]: the header and [256-sizeof(Header)] octets of data. *)
Definition sizeof_Packet : Z := 256.

(** The loop of [calculateChecksum], whose sum is an [unsigned short]. *)
Fixpoint checksum_from (n : nat) (i sum : Z) (buffer : list Z) : outcome Z :=
  match n with
  | O => Done sum
  | S n => x ← load buffer i; checksum_from n (i + 1) (u16 (sum + x)) buffer
  end.
Definition calculateChecksum (buffer : list Z) (size : Z) : outcome Z := checksum_from (Z.to_nat size) 0 0 buffer.

(** [memcpy_reverse] to the octets of [dest] at [i] from an object [src]: the
    source is read from its octet [size - 1] on downwards. *)
Fixpoint copy_down (n : nat) (i j : Z) (src dest : list Z) : outcome (list Z) :=
  match n with
  | O => Done dest
  | S n => x ← load src j; dest ← store i x dest; copy_down n (i + 1) (j - 1) src dest
  end.
Definition memcpy_reverse (i : Z) (src : list Z) (size : nat) (dest : list Z) : outcome (list Z) :=
  copy_down size i (Z.of_nat size - 1) src dest.

(** ** Data that is handed around: [IDmxData] of [dmx.hpp] *)

(** The octets from the pointer to the end of the object it points into, and
    the size that is claimed. *)
Record IDmxData := ConstDmxData { data : list Z; size : Z }.

(** ** Lemmas: octets *)

Lemma length_network n v : length (network n v) = n.
Proof. induction n as [|n IH]; cbn; [done|]. by rewrite IH. Qed.
#[export] Hint Rewrite length_network : packet.

Lemma from_network_cons x l : from_network (x :: l) = x * 2 ^ (8 * Z.of_nat (length l)) + from_network l.
Proof.
  unfold from_network. cbn [foldl]. rewrite Z.mul_0_l, Z.add_0_l.
  cut (forall l a, foldl (fun a x => a * 2 ^ 8 + x) a l = a * 2 ^ (8 * Z.of_nat (length l)) + foldl (fun a x => a * 2 ^ 8 + x) 0 l); [done|].
  clear. induction l as [|y l IH]; intros a; cbn [foldl length]; [rewrite Z.mul_1_r; lia|].
  rewrite (IH (a * 2 ^ 8 + y)), (IH (0 * 2 ^ 8 + y)).
  replace (8 * Z.of_nat (S (length l))) with (8 + 8 * Z.of_nat (length l)) by lia. rewrite Z.pow_add_r by lia. lia.
Qed.
Lemma from_network_network n v : from_network (network n v) = v mod 2 ^ (8 * Z.of_nat n).
Proof.
  induction n as [|n IH]; [cbn; by rewrite Z.mod_1_r|]. cbn [network].
  rewrite from_network_cons, IH, length_network. unfold u8. rewrite Z.shiftr_div_pow2 by lia.
  replace (8 * Z.of_nat (S n)) with (8 * Z.of_nat n + 8) by lia.
  rewrite Z.pow_add_r, Z.rem_mul_r by lia. lia.
Qed.
Lemma network_small n v : 0 <= v < 2 ^ (8 * Z.of_nat n) -> from_network (network n v) = v.
Proof. intros Hv. by rewrite from_network_network, Z.mod_small. Qed.

(** The octets of a number depend on its lower bits only. *)
Lemma network_mod n k v : (8 * Z.of_nat n <= k) -> network n (v mod 2 ^ k) = network n v.
Proof.
  induction n as [|n IH]; intros Hk; cbn; [done|]. f_equal; [|apply IH; lia].
  unfold u8. rewrite <- !Z.land_ones by lia. apply Z.bits_inj'. intros i Hi.
  rewrite !Z.land_spec, !Z.shiftr_spec, Z.land_spec by lia.
  destruct (Z.ltb_spec i 8); [|by rewrite (Z.ones_spec_high 8 i), !andb_false_r by lia].
  by rewrite (Z.ones_spec_low k) by lia; rewrite andb_true_r.
Qed.
Lemma network_split n k v : network (n + k) v = network n (Z.shiftr v (8 * Z.of_nat k)) ++ network k v.
Proof.
  induction n as [|n IH]; cbn; [done|]. rewrite IH. f_equal. f_equal. rewrite Z.shiftr_shiftr by lia. f_equal. lia.
Qed.
Lemma network_uid v : network 2 (u16 (Z.shiftr v 32)) ++ network 4 (v mod 2 ^ 32) = network 6 v.
Proof. unfold u16. rewrite !network_mod by lia. symmetry. exact (network_split 2 4 v). Qed.
Lemma uid_value_network v : uid_value (network 6 v) = v mod 2 ^ 48.
Proof.
  unfold uid_value, uid_manufacturer, uid_device.
  rewrite (network_split 2 4), take_app_length', drop_app_length' by done. rewrite take_ge by done.
  rewrite !from_network_network, Z.shiftl_mul_pow2, Z.shiftr_div_pow2 by lia.
  replace (2 ^ 48) with (2 ^ 32 * 2 ^ 16) by done. rewrite Z.rem_mul_r by lia. change (8 * Z.of_nat 4) with 32. change (8 * Z.of_nat 2) with 16. lia.
Qed.

Lemma Uid_of_network v : Uid_of v = network 6 v.
Proof. rewrite <- network_uid. unfold Uid_of, uid_set_device, uid_set_manufacturer. by rewrite take_app_length' by done. Qed.
Lemma uid_value_of v : uid_value (Uid_of v) = v mod 2 ^ 48.
Proof. by rewrite Uid_of_network, uid_value_network. Qed.

(** Comparing UIDs is comparing their values. *)
Lemma uid_eqb_of u v : 0 <= u < 2 ^ 48 -> 0 <= v < 2 ^ 48 -> uid_eqb (Uid_of u) (Uid_of v) = (u =? v).
Proof.
  intros Hu Hv. unfold uid_eqb. rewrite !Uid_of_network.
  pose proof (uid_value_network u) as Eu. pose proof (uid_value_network v) as Ev. unfold uid_value in *.
  rewrite Z.shiftl_mul_pow2, Z.mod_small in Eu, Ev by lia.
  assert (forall x, 0 <= uid_device (network 6 x) < 2 ^ 32) as Hd.
  { intros x. unfold uid_device. change (drop 2 (network 6 x)) with (network 4 x).
    rewrite take_ge, from_network_network by (by rewrite length_network). apply Z.mod_pos_bound. lia. }
  pose proof (Hd u). pose proof (Hd v).
  destruct (Z.eqb_spec u v) as [->|Huv]; [by rewrite !Z.eqb_refl|].
  destruct (Z.eqb_spec (uid_manufacturer (network 6 u)) (uid_manufacturer (network 6 v))) as [E|E]; [|done].
  cbn [andb]. apply Z.eqb_neq. rewrite E in Eu. lia.
Qed.

Section machine.
Context `{Machine}.

Lemma length_object n v : length (object n v) = n.
Proof. unfold object. destruct big_endian; rewrite ?length_rev; apply length_network. Qed.
Lemma machineIsBigEndian_eq : machineIsBigEndian = big_endian.
Proof. unfold machineIsBigEndian, ntohl, object. by destruct big_endian. Qed.

Lemma copy_down_store n i src dest :
  (n <= length src)%nat -> 0 <= i ->
  copy_down n i (Z.of_nat n - 1) src dest = store_all i (rev (take n src)) dest.
Proof.
  revert i dest. induction n as [|n IH]; intros i dest Hn Hi; [done|]. cbn [copy_down].
  destruct (lookup_lt_is_Some_2 src n) as [x Hx]; [lia|].
  replace (Z.of_nat (S n) - 1) with (Z.of_nat n) by lia. rewrite (load_nat _ _ _ Hx).
  rewrite (take_S_r _ _ _ Hx), rev_app_distr. cbn.
  destruct (store i x dest) as [d|f]; cbn; [|done]. apply IH; lia.
Qed.
Lemma memcpy_reverse_store i src n dest :
  (n <= length src)%nat -> 0 <= i -> memcpy_reverse i src n dest = store_all i (rev (take n src)) dest.
Proof. apply copy_down_store. Qed.
End machine.
