(* ===== verification/RdmEncoder.v ===== *)
(** * PacketEncoder

    The class [PacketEncoder] of [src/librdm/rdmvalues.hpp] builds a packet in
    a buffer it has a reference to: each of its operations is a function on
    the octets of the buffer.  [RdmPacket] says what they do to a packet. *)
From stdpp Require Import base countable list.
From S2P Require Import Prelude RdmValues.

Section encoder.
Context `{Machine}.
Implicit Types b : list Z.

Definition put8 (i v : Z) b : outcome (list Z) := store i (u8 v) b.
Definition put16 (i v : Z) b : outcome (list Z) := store_all i (network 2 v) b.
(** [manufacturer] and [device] of a UID inside of the packet. *)
Definition put_uid (i v : Z) b : outcome (list Z) :=
  b ← store_all i (network 2 (u16 (Z.shiftr v 32))) b;
  store_all (i + 2) (network 4 (v mod 2 ^ 32)) b.

Definition PacketEncoder b : outcome (list Z) :=
  b ← put8 RDMFIELD_STARTCODE SC_RDM b;
  b ← put8 RDMFIELD_SUBSTARTCODE SC_SUB_MESSAGE b;
  put8 RDMFIELD_PARAMETER_DATA_LENGTH 0 b.

Definition finalize b : outcome (list Z) :=
  pdl ← load b RDMFIELD_PARAMETER_DATA_LENGTH;
  b ← put8 RDMFIELD_MESSAGELENGTH (sizeof_Header + pdl) b;
  len ← load b RDMFIELD_MESSAGELENGTH;
  c ← calculateChecksum b len;
  b ← put8 (RDMFIELD_PARAMETER_DATA + pdl) (Z.shiftr c 8) b;
  put8 (RDMFIELD_PARAMETER_DATA + pdl + 1) c b.

Definition size b : outcome Z := len ← load b RDMFIELD_MESSAGELENGTH; Done (len + 2).

Definition Source (src : Z) : list Z -> outcome (list Z) := put_uid RDMFIELD_SRC_UID0 src.
Definition Destination (dst : Z) : list Z -> outcome (list Z) := put_uid RDMFIELD_DEST_UID0 dst.
Definition TransactionNumber (tn : Z) : list Z -> outcome (list Z) := put8 RDMFIELD_TRANSACTION_NUMBER tn.
Definition PortId (id : Z) : list Z -> outcome (list Z) := put8 RDMFIELD_PORTID_RESPONSETYPE id.
Definition ResponseType (t : Z) : list Z -> outcome (list Z) := put8 RDMFIELD_PORTID_RESPONSETYPE t.
Definition MessageCount (c : Z) : list Z -> outcome (list Z) := put8 RDMFIELD_MESSAGE_COUNT c.
Definition SubDevice (sd : Z) : list Z -> outcome (list Z) := put16 RDMFIELD_SUBDEVICE0 sd.
Definition CommandClass (cc : Z) : list Z -> outcome (list Z) := put8 RDMFIELD_COMMANDCLASS cc.
Definition Pid (pid : Z) : list Z -> outcome (list Z) := put16 RDMFIELD_PARAMETER_ID0 pid.

(** The end of every [addPd]: the octets were written at the end of the data,
    whose length is an octet. *)
Definition grow (n : nat) b : outcome (list Z) :=
  pdl ← load b RDMFIELD_PARAMETER_DATA_LENGTH; put8 RDMFIELD_PARAMETER_DATA_LENGTH (pdl + Z.of_nat n) b.
(** [&m_pkt.data[m_pkt.header.PDL]] *)
Definition data_end b : outcome Z := pdl ← load b RDMFIELD_PARAMETER_DATA_LENGTH; Done (RDMFIELD_PARAMETER_DATA + pdl).

Definition addPd_octet (v : Z) b : outcome (list Z) :=
  i ← data_end b; b ← store i (u8 v) b; grow 1 b.
(** [addPd(v, _size)] of an object whose octets in memory are [v]. *)
Definition addPd_size (v : list Z) (_size : nat) b : outcome (list Z) :=
  i ← data_end b;
  let sz := if (_size <? length v)%nat then _size else length v in
  b ← (if machineIsBigEndian then store_all i (take sz v) b else memcpy_reverse i v sz b);
  grow sz b.
(** [addPd(v)] of an integer type of [n] octets. *)
Definition addPd (n : nat) (v : Z) b : outcome (list Z) :=
  i ← data_end b;
  b ← (if machineIsBigEndian then store_all i (object n v) b else memcpy_reverse i (object n v) n b);
  grow n b.
(** [addPd(v, _size)] of an array of octets. *)
Fixpoint addPd_array (i : Z) (n : nat) (v : list Z) b : outcome (list Z) :=
  match n with
  | O => Done b
  | S n => x ← load v i; b ← addPd_octet x b; addPd_array (i + 1) n v b
  end.
(** [addPd(str)]: the characters up to the one that is null. *)
Definition addPd_string (str : list Z) b : outcome (list Z) :=
  i ← data_end b; b ← store_all i str b; grow (length str) b.
Definition addPd_uid (v : Uid) : list Z -> outcome (list Z) := addPd_size v 6.
End encoder.
