(* ===== verification/RdmPacket.v ===== *)
(** * RDM packets of librdm

    The class [PacketDecoder] of [src/librdm/rdmvalues.hpp] and what the two
    classes promise each other.  They read and write single octets at the
    offsets of [Header]; the lemmas say what they do to a packet as a record
    ([header_octets]), and the round trip composes them. *)
From stdpp Require Import base countable list.
From S2P Require Import Prelude RdmEncoder RdmValues.

(** ** [PacketDecoder]: no access looks at the size of the data *)

Section decoder.
Context `{Machine}.
Implicit Types d : IDmxData.

Definition field8 (i : Z) d : outcome Z := load (data d) i.
Definition field_network (n : nat) (i : Z) d : outcome Z := l ← load_all i n (data d); Done (from_network l).

Definition StartCode d : outcome Z := field8 RDMFIELD_STARTCODE d.
Definition SubStartCode d : outcome Z := field8 RDMFIELD_SUBSTARTCODE d.
Definition CommandClass d : outcome Z := field8 RDMFIELD_COMMANDCLASS d.
Definition SubDevice d : outcome Z := field_network 2 RDMFIELD_SUBDEVICE0 d.
Definition Pid d : outcome Z := field_network 2 RDMFIELD_PARAMETER_ID0 d.
Definition Pdl d : outcome Z := field8 RDMFIELD_PARAMETER_DATA_LENGTH d.
Definition Source d : outcome Z := u ← load_all RDMFIELD_SRC_UID0 6 (data d); Done (uid_value u).
Definition Destination d : outcome Z := u ← load_all RDMFIELD_DEST_UID0 6 (data d); Done (uid_value u).

Definition isRdm d : outcome bool :=
  sc ← StartCode d;
  if sc =? SC_RDM then (ssc ← SubStartCode d; Done (ssc =? SC_SUB_MESSAGE)) else Done false.
Definition isDmx d : outcome bool := sc ← StartCode d; Done (sc =? 0).
Definition isRequest d : outcome bool :=
  cc ← CommandClass d;
  Done ((command_class DISCOVERY_COMMAND <=? Z.land cc 0xf0) && (Z.land cc 0xf0 <=? SET_COMMAND) && (Z.land cc 0xF =? 0)).
Definition ItIsForMe d (myUid : Z) : outcome bool :=
  dst ← Destination d; Done ((dst =? myUid) || (dst =? 0xFFFFFFFFFFFF)).

(** [PdAt] into an integer of [n] octets: none is a result of false, which
    leaves the variable as it was. *)
Definition PdAt_size (n : nat) (pos : Z) (sz : nat) d : outcome (option Z) :=
  pdl ← Pdl d;
  if pdl <? pos + Z.of_nat sz then Done None else
  src ← load_all (RDMFIELD_PARAMETER_DATA + pos) sz (data d);
  v ← memcpy_reverse 0 src sz (replicate n 0);
  Done (Some (object_value v)).
Definition PdAt (n : nat) (pos : Z) d : outcome (option Z) := PdAt_size n pos n d.
(** [PdAt] into a string of characters. *)
Definition PdAt_chars (pos : Z) (sz : nat) d : outcome (option (list Z)) :=
  pdl ← Pdl d;
  if pdl <? pos + Z.of_nat sz then Done None else
  v ← load_all (RDMFIELD_PARAMETER_DATA + pos) sz (data d); Done (Some v).
End decoder.

(** ** Lemmas: the octets of a header *)

Lemma length_header_octets h : length (header_octets h) = 24%nat.
Proof. done. Qed.

Lemma store_header (h h' : Header) (i : nat) v rest :
  (i < 24)%nat -> <[i := v]> (header_octets h) = header_octets h' ->
  store (Z.of_nat i) v (header_octets h ++ rest) = Done (header_octets h' ++ rest).
Proof.
  intros Hi E. rewrite store_nat by (rewrite length_app, length_header_octets; lia).
  by rewrite insert_app_l, E by (rewrite length_header_octets; lia).
Qed.
Lemma store_all_header (h h' : Header) (i : nat) vs rest :
  (i + length vs <= 24)%nat ->
  take i (header_octets h) ++ vs ++ drop (i + length vs) (header_octets h) = header_octets h' ->
  store_all (Z.of_nat i) vs (header_octets h ++ rest) = Done (header_octets h' ++ rest).
Proof.
  intros Hi E. rewrite store_all_nat by (rewrite length_app, length_header_octets; lia).
  rewrite take_app_le, drop_app_le by (rewrite length_header_octets; lia). by rewrite <- E, <- !app_assoc.
Qed.
Lemma load_header h (i : nat) v rest :
  header_octets h !! i = Some v -> load (header_octets h ++ rest) (Z.of_nat i) = Done v.
Proof. intros Hi. apply load_nat. by apply lookup_app_l_Some. Qed.
Lemma load_all_header h (i n : nat) rest :
  (i + n <= 24)%nat -> load_all (Z.of_nat i) n (header_octets h ++ rest) = Done (take n (drop i (header_octets h))).
Proof.
  intros Hi. rewrite load_all_nat by (rewrite length_app, length_header_octets; lia).
  by rewrite drop_app_le, take_app_le by (rewrite ?length_drop, length_header_octets; lia).
Qed.

(** Every 24 octets are those of a header. *)
Definition octet (x : Z) : Prop := u8 x = x.
Lemma network_from_network l : Forall octet l -> network (length l) (from_network l) = l.
Proof.
  induction 1 as [|x l Hx Hl IH]; [done|]. cbn [length network]. rewrite from_network_cons.
  assert (0 <= from_network l < 2 ^ (8 * Z.of_nat (length l))) as Hb.
  { pose proof (from_network_network (length l) (from_network l)) as E. rewrite IH in E. rewrite E. apply Z.mod_pos_bound. lia. }
  f_equal.
  - rewrite Z.shiftr_div_pow2, Z.div_add_l, Z.div_small, Z.add_0_r by lia. exact Hx.
  - rewrite <- (network_mod (length l) (8 * Z.of_nat (length l))) by lia.
    rewrite Z.add_comm, Z.mod_add, Z.mod_small by lia. exact IH.
Qed.
Lemma octets_of_header l : length l = 24%nat -> Forall octet l -> exists h, header_octets h = l.
Proof.
  intros Hl Ho.
  do 24 (destruct l as [|? l]; [done|]). destruct l; [|done].
  repeat match goal with Ho : Forall octet (_ :: _) |- _ => apply Forall_cons in Ho; destruct Ho end.
  match goal with |- exists h, header_octets h = [?a; ?b; ?c; ?d1; ?d2; ?d3; ?d4; ?d5; ?d6; ?s1; ?s2; ?s3; ?s4; ?s5; ?s6; ?t; ?p; ?m; ?e1; ?e2; ?cc; ?p1; ?p2; ?n] =>
    exists (mkHeader a b c (from_network [d1; d2; d3; d4; d5; d6]) (from_network [s1; s2; s3; s4; s5; s6]) t p m (from_network [e1; e2]) cc (from_network [p1; p2]) n);
    pose proof (network_from_network [d1; d2; d3; d4; d5; d6]) as Hd;
    pose proof (network_from_network [s1; s2; s3; s4; s5; s6]) as Hs;
    pose proof (network_from_network [e1; e2]) as He; pose proof (network_from_network [p1; p2]) as Hp end.
  cbn [length] in *. unfold header_octets. cbn [h_startCode h_subStartCode h_msgLength h_dstUid h_srcUid h_TN h_portId h_msgCount h_subDevice h_CC h_PID h_PDL].
  rewrite Hd, Hs, He, Hp by (repeat constructor; done). unfold octet in *.
  repeat match goal with Hx : u8 ?x = ?x |- _ => rewrite Hx; clear Hx end. done.
Qed.

Lemma from_network_zeros k l : from_network (rev (replicate k 0) ++ l) = from_network l.
Proof.
  assert (rev (replicate k 0) = replicate k 0) as ->.
  { induction k as [|k IH]; [done|]. cbn [replicate rev]. rewrite IH. symmetry. exact (replicate_S_end k 0). }
  induction k as [|k IH]; [done|]. cbn [replicate app]. by rewrite from_network_cons, Z.mul_0_l.
Qed.

(** ** Lemmas: reading a packet *)

(** The octets of a header are followed by those of [rest]. *)
Section reading.
Context `{Machine}.
Implicit Types h : Header.
Variables (h : Header) (rest : list Z) (n : Z).
Let d := ConstDmxData (header_octets h ++ rest) n.

Lemma StartCode_header : StartCode d = Done (u8 (h_startCode h)).
Proof. by apply (load_header _ 0). Qed.
Lemma SubStartCode_header : SubStartCode d = Done (u8 (h_subStartCode h)).
Proof. by apply (load_header _ 1). Qed.
Lemma CommandClass_header : CommandClass d = Done (u8 (h_CC h)).
Proof. by apply (load_header _ 20). Qed.
Lemma Pdl_header : Pdl d = Done (u8 (h_PDL h)).
Proof. by apply (load_header _ 23). Qed.
Lemma Pid_header : Pid d = Done (u16 (h_PID h)).
Proof.
  unfold Pid, field_network. change (field_index RDMFIELD_PARAMETER_ID0) with (Z.of_nat 21). unfold d. cbn [data]. rewrite load_all_header by lia.
  change (take 2 (drop 21 (header_octets h))) with (network 2 (h_PID h)). cbn [mbind outcome_bind].
  by rewrite from_network_network.
Qed.
Lemma SubDevice_header : SubDevice d = Done (u16 (h_subDevice h)).
Proof.
  unfold SubDevice, field_network. change (field_index RDMFIELD_SUBDEVICE0) with (Z.of_nat 18). unfold d. cbn [data]. rewrite load_all_header by lia.
  change (take 2 (drop 18 (header_octets h))) with (network 2 (h_subDevice h)). cbn [mbind outcome_bind].
  by rewrite from_network_network.
Qed.
Lemma Source_header : Source d = Done (h_srcUid h mod 2 ^ 48).
Proof.
  unfold Source. change (field_index RDMFIELD_SRC_UID0) with (Z.of_nat 9). unfold d. cbn [data]. rewrite load_all_header by lia.
  change (take 6 (drop 9 (header_octets h))) with (network 6 (h_srcUid h)). cbn [mbind outcome_bind].
  by rewrite uid_value_network.
Qed.
Lemma Destination_header : Destination d = Done (h_dstUid h mod 2 ^ 48).
Proof.
  unfold Destination. change (field_index RDMFIELD_DEST_UID0) with (Z.of_nat 3). unfold d. cbn [data]. rewrite load_all_header by lia.
  change (take 6 (drop 3 (header_octets h))) with (network 6 (h_dstUid h)). cbn [mbind outcome_bind].
  by rewrite uid_value_network.
Qed.
Lemma isRdm_header : u8 (h_startCode h) = SC_RDM -> u8 (h_subStartCode h) = SC_SUB_MESSAGE -> isRdm d = Done true.
Proof. intros H1 H2. unfold isRdm. rewrite StartCode_header. cbn [mbind outcome_bind]. rewrite H1, Z.eqb_refl, SubStartCode_header. cbn [mbind outcome_bind]. by rewrite H2. Qed.
Lemma isRequest_header : isRequest d = Done
  ((command_class DISCOVERY_COMMAND <=? Z.land (u8 (h_CC h)) 0xf0) && (Z.land (u8 (h_CC h)) 0xf0 <=? SET_COMMAND) && (Z.land (u8 (h_CC h)) 0xF =? 0)).
Proof. unfold isRequest. by rewrite CommandClass_header. Qed.
Lemma ItIsForMe_header u :
  ItIsForMe d u = Done ((h_dstUid h mod 2 ^ 48 =? u) || (h_dstUid h mod 2 ^ 48 =? 0xFFFFFFFFFFFF)).
Proof. unfold ItIsForMe. by rewrite Destination_header. Qed.

(** Data that the packet claims to have and that are in the buffer. *)
Lemma PdAt_size_header k pos sz :
  (sz <= k)%nat -> Z.of_nat (pos + sz) <= u8 (h_PDL h) -> (pos + sz <= length rest)%nat -> big_endian = false ->
  PdAt_size k (Z.of_nat pos) sz d = Done (Some (from_network (take sz (drop pos rest)))).
Proof.
  intros Hk Hp Hr Hend. unfold PdAt_size. rewrite Pdl_header. cbn [mbind outcome_bind].
  rewrite (proj2 (Z.ltb_ge _ _)) by lia.
  replace (field_index RDMFIELD_PARAMETER_DATA + Z.of_nat pos) with (Z.of_nat (24 + pos)) by (cbn; lia).
  unfold d. cbn [data]. rewrite load_all_nat by (rewrite length_app, length_header_octets; lia). cbn [mbind outcome_bind].
  rewrite drop_app_ge, length_header_octets by (rewrite length_header_octets; lia).
  replace (24 + pos - 24)%nat with pos by lia. set (v := take sz (drop pos rest)).
  assert (length v = sz) as Hv by (unfold v; rewrite length_take, length_drop; lia).
  rewrite memcpy_reverse_store, take_ge by lia.
  rewrite (store_all_nat _ 0) by (rewrite length_rev, length_replicate; lia).
  cbn [mbind outcome_bind take app]. unfold object_value. rewrite Hend, take_0, app_nil_l, rev_app_distr, rev_involutive, length_rev, Nat.add_0_l, drop_replicate, Hv.
  by rewrite from_network_zeros.
Qed.
End reading.

(** ** Lemmas: building a packet *)

Definition started (h : Header) : Header :=
  mkHeader SC_RDM SC_SUB_MESSAGE (h_msgLength h) (h_dstUid h) (h_srcUid h) (h_TN h) (h_portId h) (h_msgCount h) (h_subDevice h) (h_CC h) (h_PID h) 0.
Definition with_msgLength v h := mkHeader (h_startCode h) (h_subStartCode h) v (h_dstUid h) (h_srcUid h) (h_TN h) (h_portId h) (h_msgCount h) (h_subDevice h) (h_CC h) (h_PID h) (h_PDL h).
Definition with_dstUid v h := mkHeader (h_startCode h) (h_subStartCode h) (h_msgLength h) v (h_srcUid h) (h_TN h) (h_portId h) (h_msgCount h) (h_subDevice h) (h_CC h) (h_PID h) (h_PDL h).
Definition with_srcUid v h := mkHeader (h_startCode h) (h_subStartCode h) (h_msgLength h) (h_dstUid h) v (h_TN h) (h_portId h) (h_msgCount h) (h_subDevice h) (h_CC h) (h_PID h) (h_PDL h).
Definition with_TN v h := mkHeader (h_startCode h) (h_subStartCode h) (h_msgLength h) (h_dstUid h) (h_srcUid h) v (h_portId h) (h_msgCount h) (h_subDevice h) (h_CC h) (h_PID h) (h_PDL h).
Definition with_portId v h := mkHeader (h_startCode h) (h_subStartCode h) (h_msgLength h) (h_dstUid h) (h_srcUid h) (h_TN h) v (h_msgCount h) (h_subDevice h) (h_CC h) (h_PID h) (h_PDL h).
Definition with_msgCount v h := mkHeader (h_startCode h) (h_subStartCode h) (h_msgLength h) (h_dstUid h) (h_srcUid h) (h_TN h) (h_portId h) v (h_subDevice h) (h_CC h) (h_PID h) (h_PDL h).
Definition with_subDevice v h := mkHeader (h_startCode h) (h_subStartCode h) (h_msgLength h) (h_dstUid h) (h_srcUid h) (h_TN h) (h_portId h) (h_msgCount h) v (h_CC h) (h_PID h) (h_PDL h).
Definition with_CC v h := mkHeader (h_startCode h) (h_subStartCode h) (h_msgLength h) (h_dstUid h) (h_srcUid h) (h_TN h) (h_portId h) (h_msgCount h) (h_subDevice h) v (h_PID h) (h_PDL h).
Definition with_PID v h := mkHeader (h_startCode h) (h_subStartCode h) (h_msgLength h) (h_dstUid h) (h_srcUid h) (h_TN h) (h_portId h) (h_msgCount h) (h_subDevice h) (h_CC h) v (h_PDL h).
Definition with_PDL v h := mkHeader (h_startCode h) (h_subStartCode h) (h_msgLength h) (h_dstUid h) (h_srcUid h) (h_TN h) (h_portId h) (h_msgCount h) (h_subDevice h) (h_CC h) (h_PID h) v.

Definition checksum (l : list Z) : Z := foldl (fun s x => u16 (s + x)) 0 l.
(** The octets of a complete packet. *)
Definition packet (h : Header) (pd : list Z) : list Z :=
  let h := with_msgLength (24 + Z.of_nat (length pd)) h in
  let c := checksum (header_octets h ++ pd) in
  header_octets h ++ pd ++ [u8 (Z.shiftr c 8); u8 c].

Lemma checksum_loads l rest : calculateChecksum (l ++ rest) (Z.of_nat (length l)) = Done (checksum l).
Proof.
  unfold calculateChecksum, checksum. rewrite Nat2Z.id.
  cut (forall l1 l2 s, checksum_from (length l2) (Z.of_nat (length l1)) s (l1 ++ l2 ++ rest) = Done (foldl (fun s x => u16 (s + x)) s l2)).
  { intros Hc. exact (Hc [] l 0). }
  clear l. intros l1 l2. revert l1. induction l2 as [|x l2 IH]; intros l1 s; [done|]. cbn [length checksum_from foldl].
  rewrite (load_nat _ _ x) by (rewrite lookup_app_r, Nat.sub_diag by lia; done). cbn [mbind outcome_bind].
  specialize (IH (l1 ++ [x]) (u16 (s + x))). rewrite length_app in IH. cbn [length] in IH.
  replace (Z.of_nat (length l1) + 1) with (Z.of_nat (length l1 + 1)) by lia.
  rewrite <- app_assoc in IH. exact IH.
Qed.

Section building.
Context `{Machine}.
Variables (h : Header) (rest : list Z).

(** One line per operation that sets a field. *)
Ltac field8 i := apply (store_header _ _ i); [lia|reflexivity].
Ltac field16 i := apply (store_all_header _ _ i); [rewrite length_network; lia|reflexivity].

Lemma started_header : RdmEncoder.PacketEncoder (header_octets h ++ rest) = Done (header_octets (started h) ++ rest).
Proof.
  unfold RdmEncoder.PacketEncoder, RdmEncoder.put8. change (field_index RDMFIELD_STARTCODE) with (Z.of_nat 0).
  erewrite (store_header _ (mkHeader SC_RDM _ _ _ _ _ _ _ _ _ _ _)) by (lia || reflexivity). cbn [mbind outcome_bind].
  change (field_index RDMFIELD_SUBSTARTCODE) with (Z.of_nat 1).
  erewrite (store_header _ (mkHeader SC_RDM SC_SUB_MESSAGE _ _ _ _ _ _ _ _ _ _)) by (lia || reflexivity). cbn [mbind outcome_bind].
  field8 23%nat.
Qed.
Lemma msgLength_header v : RdmEncoder.put8 RDMFIELD_MESSAGELENGTH v (header_octets h ++ rest) = Done (header_octets (with_msgLength v h) ++ rest).
Proof. field8 2%nat. Qed.
Lemma PDL_header v : RdmEncoder.put8 RDMFIELD_PARAMETER_DATA_LENGTH v (header_octets h ++ rest) = Done (header_octets (with_PDL v h) ++ rest).
Proof. field8 23%nat. Qed.
Lemma TransactionNumber_header v : RdmEncoder.TransactionNumber v (header_octets h ++ rest) = Done (header_octets (with_TN v h) ++ rest).
Proof. field8 15%nat. Qed.
Lemma PortId_header v : RdmEncoder.PortId v (header_octets h ++ rest) = Done (header_octets (with_portId v h) ++ rest).
Proof. field8 16%nat. Qed.
Lemma ResponseType_header v : RdmEncoder.ResponseType v (header_octets h ++ rest) = Done (header_octets (with_portId v h) ++ rest).
Proof. field8 16%nat. Qed.
Lemma MessageCount_header v : RdmEncoder.MessageCount v (header_octets h ++ rest) = Done (header_octets (with_msgCount v h) ++ rest).
Proof. field8 17%nat. Qed.
Lemma setCommandClass_header v : RdmEncoder.CommandClass v (header_octets h ++ rest) = Done (header_octets (with_CC v h) ++ rest).
Proof. field8 20%nat. Qed.
Lemma setSubDevice_header v : RdmEncoder.SubDevice v (header_octets h ++ rest) = Done (header_octets (with_subDevice v h) ++ rest).
Proof. field16 18%nat. Qed.
Lemma setPid_header v : RdmEncoder.Pid v (header_octets h ++ rest) = Done (header_octets (with_PID v h) ++ rest).
Proof. field16 21%nat. Qed.

(** A UID is stored in two halves, which are six octets together. *)
Lemma store_two (i : nat) v (b : list Z) :
  (i + 6 <= length b)%nat ->
  RdmEncoder.put_uid (Z.of_nat i) v b = store_all (Z.of_nat i) (network 6 v) b.
Proof.
  intros Hi. unfold RdmEncoder.put_uid. rewrite !store_all_nat by (rewrite length_network; lia). cbn [mbind outcome_bind].
  replace (Z.of_nat i + 2) with (Z.of_nat (i + 2)) by lia. rewrite store_all_nat by (rewrite !length_app, length_take, length_drop, !length_network; lia).
  f_equal. rewrite <- network_uid, !length_app, !length_network.
  rewrite (app_assoc (take i b)), take_app_length' by (rewrite length_app, length_take, length_network; lia).
  rewrite drop_app_ge by (rewrite length_app, length_take, length_network; lia).
  rewrite length_app, length_take, length_network, drop_drop, <- !app_assoc. do 4 f_equal. lia.
Qed.
Lemma setSource_header v : RdmEncoder.Source v (header_octets h ++ rest) = Done (header_octets (with_srcUid v h) ++ rest).
Proof.
  unfold RdmEncoder.Source. change (field_index RDMFIELD_SRC_UID0) with (Z.of_nat 9).
  rewrite store_two by (rewrite length_app, length_header_octets; lia). field16 9%nat.
Qed.
Lemma setDestination_header v : RdmEncoder.Destination v (header_octets h ++ rest) = Done (header_octets (with_dstUid v h) ++ rest).
Proof.
  unfold RdmEncoder.Destination. change (field_index RDMFIELD_DEST_UID0) with (Z.of_nat 3).
  rewrite store_two by (rewrite length_app, length_header_octets; lia). field16 3%nat.
Qed.
Lemma load_PDL_header : load (header_octets h ++ rest) RDMFIELD_PARAMETER_DATA_LENGTH = Done (u8 (h_PDL h)).
Proof. by apply (load_header _ 23). Qed.
Lemma size_header : RdmEncoder.size (header_octets h ++ rest) = Done (u8 (h_msgLength h) + 2).
Proof. unfold RdmEncoder.size. change (field_index RDMFIELD_MESSAGELENGTH) with (Z.of_nat 2). by rewrite (load_header _ _ (u8 (h_msgLength h))). Qed.
End building.

(** Symbolic execution of the operations that set fields. *)
Ltac encode_steps :=
  repeat (first
    [ rewrite started_header | rewrite setSource_header | rewrite setDestination_header
    | rewrite setCommandClass_header | rewrite setPid_header | rewrite ResponseType_header
    | rewrite PortId_header | rewrite TransactionNumber_header | rewrite MessageCount_header
    | rewrite setSubDevice_header ]; cbn [mbind outcome_bind]).

(** The operations that append data: [pd] is the data so far. *)
Section data.
Context `{Machine}.
Implicit Types h : Header.
Variables (h : Header) (pd rest : list Z).
Hypothesis HPDL : u8 (h_PDL h) = Z.of_nat (length pd).

Definition draft (h : Header) (pd rest : list Z) : list Z := header_octets h ++ pd ++ rest.

Lemma draft_nil h0 rest0 : header_octets h0 ++ rest0 = draft h0 [] rest0.
Proof. done. Qed.
Lemma data_end_draft : RdmEncoder.data_end (draft h pd rest) = Done (Z.of_nat (24 + length pd)).
Proof. unfold RdmEncoder.data_end, draft. rewrite load_PDL_header. cbn [mbind outcome_bind]. f_equal. rewrite HPDL. cbn. lia. Qed.
Lemma store_all_draft vs :
  (length vs <= length rest)%nat ->
  store_all (Z.of_nat (24 + length pd)) vs (draft h pd rest) = Done (draft h (pd ++ vs) (drop (length vs) rest)).
Proof.
  intros Hl. unfold draft. rewrite store_all_nat by (rewrite !length_app, length_header_octets; lia).
  rewrite (app_assoc (header_octets h) pd rest), take_app_length', drop_app_ge by (rewrite length_app, length_header_octets; lia).
  rewrite length_app, length_header_octets. replace (24 + length pd + length vs - (24 + length pd))%nat with (length vs) by lia.
  by rewrite <- !app_assoc.
Qed.
Lemma grow_draft n vs rest' :
  n = length vs ->
  RdmEncoder.grow n (draft h (pd ++ vs) rest') = Done (draft (with_PDL (Z.of_nat (length (pd ++ vs))) h) (pd ++ vs) rest').
Proof.
  intros ->. unfold RdmEncoder.grow, draft. rewrite load_PDL_header. cbn [mbind outcome_bind].
  rewrite PDL_header, length_app, Nat2Z.inj_add. by rewrite HPDL.
Qed.

Lemma addPd_octet_draft v :
  (1 <= length rest)%nat ->
  RdmEncoder.addPd_octet v (draft h pd rest) = Done (draft (with_PDL (Z.of_nat (length (pd ++ [u8 v]))) h) (pd ++ [u8 v]) (drop 1 rest)).
Proof.
  intros Hl. unfold RdmEncoder.addPd_octet. rewrite data_end_draft. cbn [mbind outcome_bind].
  pose proof (store_all_draft [u8 v] Hl) as Hs. cbn [store_all] in Hs.
  destruct (store (Z.of_nat (24 + length pd)) (u8 v) (draft h pd rest)) as [b|]; [|done]. cbn [mbind outcome_bind] in *. injection Hs as ->.
  by apply grow_draft.
Qed.
Lemma addPd_size_draft n sz v :
  (sz <= n)%nat -> (sz <= length rest)%nat -> big_endian = false ->
  RdmEncoder.addPd_size (object n v) sz (draft h pd rest) =
  Done (draft (with_PDL (Z.of_nat (length (pd ++ network sz v))) h) (pd ++ network sz v) (drop sz rest)).
Proof.
  intros Hn Hl Hend. unfold RdmEncoder.addPd_size. rewrite data_end_draft. cbn [mbind outcome_bind].
  rewrite machineIsBigEndian_eq, Hend, length_object.
  assert ((if (sz <? n)%nat then sz else n) = sz) as ->. { destruct (Nat.ltb_spec sz n); lia. }
  rewrite memcpy_reverse_store by (rewrite ?length_object; lia).
  assert (rev (take sz (object n v)) = network sz v) as ->.
  { unfold object. rewrite Hend. replace n with ((n - sz) + sz)%nat by lia. rewrite network_split, rev_app_distr.
    rewrite take_app_length' by (by rewrite length_rev, length_network). apply rev_involutive. }
  rewrite store_all_draft by (by rewrite length_network). cbn [mbind outcome_bind].
  rewrite grow_draft by (by rewrite length_network). by rewrite length_network.
Qed.
Lemma addPd_draft n v :
  (n <= length rest)%nat ->
  RdmEncoder.addPd n v (draft h pd rest) =
  Done (draft (with_PDL (Z.of_nat (length (pd ++ network n v))) h) (pd ++ network n v) (drop n rest)).
Proof.
  intros Hl. unfold RdmEncoder.addPd. rewrite data_end_draft. cbn [mbind outcome_bind].
  rewrite machineIsBigEndian_eq, memcpy_reverse_store by (rewrite ?length_object; lia).
  rewrite take_ge by (by rewrite length_object). unfold object.
  destruct big_endian; rewrite ?rev_involutive; (rewrite store_all_draft by (by rewrite length_network)); cbn [mbind outcome_bind];
    (rewrite grow_draft by (by rewrite length_network)); by rewrite length_network.
Qed.
Lemma addPd_string_draft str :
  (length str <= length rest)%nat ->
  RdmEncoder.addPd_string str (draft h pd rest) =
  Done (draft (with_PDL (Z.of_nat (length (pd ++ str))) h) (pd ++ str) (drop (length str) rest)).
Proof.
  intros Hl. unfold RdmEncoder.addPd_string. rewrite data_end_draft. cbn [mbind outcome_bind].
  rewrite store_all_draft by done. cbn [mbind outcome_bind]. by apply grow_draft.
Qed.
(** A UID as an object is in network order already, so it is turned round
    where integers are. *)
Lemma addPd_uid_draft v :
  (6 <= length rest)%nat -> big_endian = false ->
  RdmEncoder.addPd_uid (network 6 v) (draft h pd rest) =
  Done (draft (with_PDL (Z.of_nat (length (pd ++ rev (network 6 v)))) h) (pd ++ rev (network 6 v)) (drop 6 rest)).
Proof.
  intros Hl Hend. unfold RdmEncoder.addPd_uid, RdmEncoder.addPd_size. rewrite data_end_draft. cbn [mbind outcome_bind].
  rewrite machineIsBigEndian_eq, Hend, length_network. change (6 <? 6)%nat with false. cbv iota.
  rewrite memcpy_reverse_store, take_ge by (rewrite ?length_network; lia).
  rewrite store_all_draft by (rewrite length_rev, length_network; lia). cbn [mbind outcome_bind].
  rewrite grow_draft by (by rewrite length_rev, length_network). by rewrite length_rev, length_network.
Qed.

(** The checksum needs two octets behind the data. *)
Lemma finalize_draft :
  (24 + length pd < 256)%nat -> (2 <= length rest)%nat ->
  RdmEncoder.finalize (draft h pd rest) = Done (packet h pd ++ drop 2 rest).
Proof.
  intros Hs Hl. unfold RdmEncoder.finalize, draft. rewrite load_PDL_header. cbn [mbind outcome_bind].
  rewrite msgLength_header. cbn [mbind outcome_bind]. rewrite HPDL.
  replace (sizeof_Header + Z.of_nat (length pd)) with (24 + Z.of_nat (length pd)) by done.
  change (field_index RDMFIELD_MESSAGELENGTH) with (Z.of_nat 2). rewrite (load_header _ _ (u8 (24 + Z.of_nat (length pd)))) by done. cbn [mbind outcome_bind].
  rewrite (proj2 (octet_bounds _)) by lia. unfold packet. set (h' := with_msgLength _ h).
  pose proof (checksum_loads (header_octets h' ++ pd) rest) as Hc. rewrite <- app_assoc, length_app, length_header_octets in Hc.
  replace (24 + Z.of_nat (length pd)) with (Z.of_nat (24 + length pd)) by lia. rewrite Hc. cbn [mbind outcome_bind].
  set (c := checksum _). destruct rest as [|x [|y rest']]; [cbn in Hl; lia..|]. unfold RdmEncoder.put8.
  replace (field_index RDMFIELD_PARAMETER_DATA + Z.of_nat (length pd)) with (Z.of_nat (24 + length pd)) by (cbn; lia).
  rewrite app_assoc, store_nat by (rewrite !length_app, length_header_octets; cbn; lia). cbn [mbind outcome_bind].
  rewrite insert_app_r_alt by (rewrite length_app, length_header_octets; lia).
  replace (24 + length pd - length (header_octets h' ++ pd))%nat with O by (rewrite length_app, length_header_octets; lia). cbn [insert list_insert].
  replace (Z.of_nat (24 + length pd) + 1) with (Z.of_nat (25 + length pd)) by lia.
  rewrite store_nat by (rewrite !length_app, length_header_octets; cbn; lia).
  rewrite insert_app_r_alt by (rewrite length_app, length_header_octets; lia).
  replace (25 + length pd - length (header_octets h' ++ pd))%nat with 1%nat by (rewrite length_app, length_header_octets; lia).
  cbn [insert list_insert drop]. by rewrite <- !app_assoc.
Qed.
End data.

Lemma length_packet h pd : length (packet h pd) = (26 + length pd)%nat.
Proof. unfold packet. rewrite !length_app, length_header_octets. cbn. lia. Qed.
Lemma packet_draft h pd rest :
  packet h pd ++ rest =
  draft (with_msgLength (24 + Z.of_nat (length pd)) h) pd
    ([u8 (Z.shiftr (checksum (header_octets (with_msgLength (24 + Z.of_nat (length pd)) h) ++ pd)) 8);
      u8 (checksum (header_octets (with_msgLength (24 + Z.of_nat (length pd)) h) ++ pd))] ++ rest).
Proof. unfold packet, draft. by rewrite <- !app_assoc. Qed.

(** An integer at position [pos] of the data. *)
Lemma PdAt_size_draft `{Machine} h pd rest n k pos sz :
  u8 (h_PDL h) = Z.of_nat (length pd) -> big_endian = false ->
  (sz <= k)%nat -> (pos + sz <= length pd)%nat ->
  PdAt_size k (Z.of_nat pos) sz (ConstDmxData (draft h pd rest) n) = Done (Some (from_network (take sz (drop pos pd)))).
Proof.
  intros HP Hend Hk Hp. unfold draft. rewrite PdAt_size_header by (rewrite ?length_app; lia || done).
  by rewrite drop_app_le, take_app_le by (rewrite ?length_drop; lia).
Qed.

(** ** Whole packets *)

Lemma checksum_bounds l : 0 <= checksum l < 2 ^ 16.
Proof.
  unfold checksum. induction l as [|x l _] using rev_ind; [cbn; lia|]. rewrite foldl_app. cbn. apply Z.mod_pos_bound. lia.
Qed.

(** What is read from a packet that may be followed by other octets. *)
Section packets.
Context `{Machine}.
Variables (h : Header) (pd rest : list Z) (n : Z).
Let d := ConstDmxData (packet h pd ++ rest) n.
Ltac reads E := unfold d; rewrite packet_draft; unfold draft; rewrite E; reflexivity.

Lemma isRdm_packet : u8 (h_startCode h) = SC_RDM -> u8 (h_subStartCode h) = SC_SUB_MESSAGE -> isRdm d = Done true.
Proof. intros. unfold d. rewrite packet_draft. by apply isRdm_header. Qed.
Lemma StartCode_packet : StartCode d = Done (u8 (h_startCode h)).
Proof. reads StartCode_header. Qed.
Lemma SubStartCode_packet : SubStartCode d = Done (u8 (h_subStartCode h)).
Proof. reads SubStartCode_header. Qed.
Lemma Source_packet : Source d = Done (h_srcUid h mod 2 ^ 48).
Proof. reads Source_header. Qed.
Lemma Destination_packet : Destination d = Done (h_dstUid h mod 2 ^ 48).
Proof. reads Destination_header. Qed.
Lemma CommandClass_packet : CommandClass d = Done (u8 (h_CC h)).
Proof. reads CommandClass_header. Qed.
Lemma Pid_packet : Pid d = Done (u16 (h_PID h)).
Proof. reads Pid_header. Qed.
Lemma Pdl_packet : Pdl d = Done (u8 (h_PDL h)).
Proof. reads Pdl_header. Qed.
Lemma isRequest_packet : isRequest d = Done
  ((command_class DISCOVERY_COMMAND <=? Z.land (u8 (h_CC h)) 0xf0) && (Z.land (u8 (h_CC h)) 0xf0 <=? SET_COMMAND) && (Z.land (u8 (h_CC h)) 0xF =? 0)).
Proof. reads isRequest_header. Qed.
Lemma ItIsForMe_packet u :
  ItIsForMe d u = Done ((h_dstUid h mod 2 ^ 48 =? u) || (h_dstUid h mod 2 ^ 48 =? 0xFFFFFFFFFFFF)).
Proof. reads ItIsForMe_header. Qed.
Lemma PdAt_size_packet k pos sz :
  u8 (h_PDL h) = Z.of_nat (length pd) -> big_endian = false -> (sz <= k)%nat -> (pos + sz <= length pd)%nat ->
  PdAt_size k (Z.of_nat pos) sz d = Done (Some (from_network (take sz (drop pos pd)))).
Proof. intros. unfold d. rewrite packet_draft. by apply PdAt_size_draft. Qed.
Lemma size_packet : (24 + length pd < 256)%nat -> RdmEncoder.size (packet h pd ++ rest) = Done (Z.of_nat (26 + length pd)).
Proof.
  intros Hs. rewrite packet_draft. unfold draft. rewrite size_header. cbn. rewrite (proj2 (octet_bounds _)) by lia. f_equal. lia.
Qed.
Lemma checksum_packet :
  exists hi lo, load (packet h pd ++ rest) (Z.of_nat (24 + length pd)) = Done hi /\
    load (packet h pd ++ rest) (Z.of_nat (25 + length pd)) = Done lo /\
    calculateChecksum (packet h pd ++ rest) (Z.of_nat (24 + length pd)) = Done (hi * 2 ^ 8 + lo).
Proof.
  rewrite packet_draft. set (h2 := with_msgLength _ h). set (cs := checksum _).
  exists (u8 (Z.shiftr cs 8)), (u8 cs). unfold draft. rewrite app_assoc.
  assert (length (header_octets h2 ++ pd) = 24 + length pd)%nat as Hl by (rewrite length_app, length_header_octets; done).
  split_and!.
  - apply load_nat. by rewrite lookup_app_r, Hl, Nat.sub_diag by lia.
  - apply load_nat. rewrite lookup_app_r, Hl by lia. by replace (25 + length pd - (24 + length pd))%nat with 1%nat by lia.
  - rewrite <- Hl, checksum_loads. f_equal. fold cs. pose proof (checksum_bounds (header_octets h2 ++ pd)) as Hc. fold cs in Hc.
    unfold u8. rewrite Z.shiftr_div_pow2 by lia. rewrite (Z.mod_small (cs / 2 ^ 8)).
    + pose proof (Z.div_mod cs (2 ^ 8)). lia.
    + split; [apply Z.div_pos; lia|apply Z.div_lt_upper_bound; lia].
Qed.
End packets.

Section roundtrip.
Context `{Machine}.
Implicit Types vs : list (nat * Z).

(** Integers with their sizes, one after the other. *)
Fixpoint addPds vs (b : list Z) : outcome (list Z) :=
  match vs with [] => Done b | (n, v) :: vs => b ← RdmEncoder.addPd n v b; addPds vs b end.
Definition encode (src dst cc pid : Z) vs (b : list Z) : outcome (list Z) :=
  b ← RdmEncoder.PacketEncoder b;
  b ← RdmEncoder.Source src b;
  b ← RdmEncoder.Destination dst b;
  b ← RdmEncoder.CommandClass cc b;
  b ← RdmEncoder.Pid pid b;
  b ← addPds vs b;
  RdmEncoder.finalize b.
Definition octets_of_items vs : list Z := concat ((fun v => network v.1 v.2) <$> vs).

Lemma addPds_draft vs h pd rest :
  u8 (h_PDL h) = Z.of_nat (length pd) -> (length (pd ++ octets_of_items vs) < 256)%nat ->
  (length (octets_of_items vs) <= length rest)%nat ->
  exists h', addPds vs (draft h pd rest) = Done (draft h' (pd ++ octets_of_items vs) (drop (length (octets_of_items vs)) rest)) /\
    u8 (h_PDL h') = Z.of_nat (length (pd ++ octets_of_items vs)) /\ with_PDL 0 h' = with_PDL 0 h.
Proof.
  revert h pd rest. induction vs as [|[n v] vs IH]; intros h pd rest HP Hs Hr; unfold octets_of_items in *; cbn [addPds fmap list_fmap concat fst snd] in *.
  { exists h. by rewrite app_nil_r in *. }
  rewrite !length_app, length_network in *. rewrite addPd_draft by (done || lia). cbn [mbind outcome_bind].
  destruct (IH (with_PDL (Z.of_nat (length (pd ++ network n v))) h) (pd ++ network n v) (drop n rest)) as (h' & E & HP' & Hh).
  - cbn. apply octet_bounds. rewrite length_app, length_network. lia.
  - rewrite !length_app, length_network. lia.
  - rewrite length_drop. lia.
  - exists h'. rewrite E, <- app_assoc, drop_drop. split_and!; [done| |exact Hh].
    rewrite HP', !length_app, length_network. lia.
Qed.

(** The packet that [encode] makes. *)
Lemma encode_packet (raw rest : list Z) src dst cc pid vs :
  length raw = 24%nat -> Forall octet raw ->
  (length (octets_of_items vs) < 232)%nat -> (length (octets_of_items vs) + 2 <= length rest)%nat ->
  exists h, encode src dst cc pid vs (raw ++ rest) =
      Done (packet h (octets_of_items vs) ++ drop 2 (drop (length (octets_of_items vs)) rest)) /\
    u8 (h_PDL h) = Z.of_nat (length (octets_of_items vs)) /\
    h_startCode h = SC_RDM /\ h_subStartCode h = SC_SUB_MESSAGE /\ h_srcUid h = src /\ h_dstUid h = dst /\
    h_CC h = cc /\ h_PID h = pid.
Proof.
  intros Hraw Ho Hn Hr. destruct (octets_of_header raw) as [h <-]; [done..|].
  unfold encode. encode_steps.
  set (h1 := with_PID pid _). destruct (addPds_draft vs h1 [] rest) as (h' & E & HP & Hh); [done|cbn; lia|cbn; lia|].
  unfold draft in E at 1. cbn [app] in E, HP. rewrite E. cbn [mbind outcome_bind].
  rewrite finalize_draft by (rewrite ?length_drop; done || lia). exists h'. split; [done|].
  assert (forall f : Header -> Z, (forall h v, f (with_PDL v h) = f h) -> f h' = f h1) as Hf.
  { intros f Hi. by rewrite <- (Hi h' 0), <- (Hi h1 0), Hh. }
  split_and!; [done|by rewrite (Hf h_startCode)|by rewrite (Hf h_subStartCode)|by rewrite (Hf h_srcUid)
    |by rewrite (Hf h_dstUid)|by rewrite (Hf h_CC)|by rewrite (Hf h_PID)].
Qed.

(** C7: On a little-endian machine, a packet that is built with
    [PacketEncoder] is read back by [PacketDecoder]: it is an RDM packet with the source, destination,
    command class and parameter id it was given, each as wide as its field;
    every integer that was added is found at its position of the data; and
    the last two octets are the checksum of those before. *)
Theorem packet_roundtrip (raw rest : list Z) src dst cc pid vs :
  big_endian = false -> length raw = 24%nat -> Forall octet raw ->
  let n := length (octets_of_items vs) in
  (n < 232)%nat -> (n + 2 <= length rest)%nat ->
  exists b, encode src dst cc pid vs (raw ++ rest) = Done b /\ RdmEncoder.size b = Done (Z.of_nat (26 + n)) /\
    let d := ConstDmxData b (Z.of_nat (26 + n)) in
    isRdm d = Done true /\ Source d = Done (src mod 2 ^ 48) /\ Destination d = Done (dst mod 2 ^ 48) /\
    CommandClass d = Done (u8 cc) /\ Pid d = Done (u16 pid) /\ Pdl d = Done (Z.of_nat n) /\
    (forall vs1 k v vs2, vs = vs1 ++ (k, v) :: vs2 ->
      PdAt k (Z.of_nat (length (octets_of_items vs1))) d = Done (Some (v mod 2 ^ (8 * Z.of_nat k)))) /\
    exists hi lo, load b (Z.of_nat (24 + n)) = Done hi /\ load b (Z.of_nat (25 + n)) = Done lo /\
      calculateChecksum b (Z.of_nat (24 + n)) = Done (hi * 2 ^ 8 + lo).
Proof.
  intros Hend Hraw Ho n Hn Hr.
  destruct (encode_packet raw rest src dst cc pid vs) as (h & E & HP & Hsc & Hss & Hsrc & Hdst & Hcc & Hpid); [done..|].
  eexists. split; [exact E|]. fold n in HP |- *. split; [by apply size_packet; unfold n in *; lia|]. cbv zeta.
  rewrite Source_packet, Destination_packet, CommandClass_packet, Pid_packet, Pdl_packet, Hsrc, Hdst, Hcc, Hpid, HP.
  split_and!; [|done..| |apply checksum_packet].
  - apply isRdm_packet; by rewrite ?Hsc, ?Hss.
  - intros vs1 k v vs2 Hvs. unfold PdAt.
    assert (octets_of_items vs = octets_of_items vs1 ++ network k v ++ octets_of_items vs2) as Ev.
    { unfold octets_of_items. by rewrite Hvs, fmap_app, concat_app. }
    rewrite PdAt_size_packet; [|done..|rewrite Ev, !length_app, length_network; lia].
    rewrite Ev, drop_app_length', take_app_length' by (by rewrite ?length_network). by rewrite from_network_network.
Qed.

(** C40: [finalize] in a [Packet] with [n] octets of data writes its checksum
    inside of the packet if there are at most 230 of them; the longest data
    the standard allows, 231 octets, makes it write behind the packet. *)
Theorem packet_size_bound h pd rest :
  u8 (h_PDL h) = Z.of_nat (length pd) -> Z.of_nat (length (draft h pd rest)) = sizeof_Packet -> (length pd <= 231)%nat ->
  (exists b, RdmEncoder.finalize (draft h pd rest) = Done b /\ Z.of_nat (length b) = sizeof_Packet) <-> (length pd <= 230)%nat.
Proof.
  unfold sizeof_Packet. intros HP Hl Hn. unfold draft in Hl. rewrite !length_app, length_header_octets in Hl. split.
  - intros (b & E & _). destruct (decide (length pd = 231%nat)) as [Hp|]; [|lia]. exfalso.
    unfold RdmEncoder.finalize, draft in E. rewrite load_PDL_header in E. cbn [mbind outcome_bind] in E.
    rewrite msgLength_header in E. cbn [mbind outcome_bind] in E.
    change (field_index RDMFIELD_MESSAGELENGTH) with (Z.of_nat 2) in E. erewrite load_header in E by done. cbn [mbind outcome_bind] in E.
    destruct (calculateChecksum _ _) as [c|]; [|done]. cbn [mbind outcome_bind] in E.
    rewrite HP, Hp in E. unfold RdmEncoder.put8 in E. change (field_index RDMFIELD_PARAMETER_DATA + Z.of_nat 231) with (Z.of_nat 255) in E.
    rewrite store_nat in E by (rewrite !length_app, length_header_octets; lia). cbn [mbind outcome_bind] in E.
    unfold store in E. rewrite length_insert, !length_app, length_header_octets in E.
    rewrite (proj2 (Z.ltb_ge _ _)), andb_false_r in E by lia. done.
  - intros Hp. exists (packet h pd ++ drop 2 rest). rewrite finalize_draft by (done || lia). split; [done|].
    rewrite length_app, length_packet, length_drop. lia.
Qed.
End roundtrip.

(** ** Witnesses *)

Definition little_endian_machine : Machine := {| big_endian := false |}.

Lemma packet_roundtrip_witness :
  exists b, @encode little_endian_machine 0x123400000001 0xFFFFFFFFFFFF DISCOVERY_COMMAND DISC_UNIQUE_BRANCH [(2%nat, 0x4711); (4%nat, 7)] (replicate 258 0) = Done b /\
    @PdAt little_endian_machine 4 2 (ConstDmxData b 32) = Done (Some 7).
Proof.
  destruct (@packet_roundtrip little_endian_machine (replicate 24 0) (replicate 234 0) 0x123400000001 0xFFFFFFFFFFFF DISCOVERY_COMMAND DISC_UNIQUE_BRANCH [(2%nat, 0x4711); (4%nat, 7)])
    as (b & E & _ & _ & _ & _ & _ & _ & _ & Hp & _).
  - reflexivity.
  - reflexivity.
  - repeat constructor.
  - cbn. lia.
  - cbn. lia.
  - exists b. split; [exact E|]. exact (Hp [(2%nat, 0x4711)] 4%nat 7 [] eq_refl).
Defined.
Lemma packet_size_bound_witness :
  ~ exists b, @RdmEncoder.finalize (draft (mkHeader SC_RDM 1 0 0 0 0 0 0 0 SET_COMMAND 0x82 231) (replicate 231 65) [0]) = Done b /\ Z.of_nat (length b) = sizeof_Packet.
Proof.
  intros Hb. apply (packet_size_bound (mkHeader SC_RDM 1 0 0 0 0 0 0 0 SET_COMMAND 0x82 231) (replicate 231 65) [0]) in Hb; [|vm_compute; reflexivity..|vm_compute; lia].
  rewrite length_replicate in Hb. lia.
Defined.
