(* ===== verification/RdmDevice.v ===== *)
(** * A responder: rdmdevice.cpp

    [src/librdm/rdmdevice.cpp] with the class [DmxTransceiver] of [dmx.hpp]: a
    device with an UID that answers RDM requests.  Its object is behind a
    reference ([device]) in the state [W]; what it is registered at is
    [m_receiver].  The octets of the stack under its buffer are [stack].  The
    lemmas say what [handle] does with a complete packet ([answers_*]); the
    theorems are about requests that change the device. *)
From stdpp Require Import base countable list.
From S2P Require Import Prelude RdmEncoder RdmValues RdmPacket.

(** ** The object *)

Record RdmDeviceP := mkDevice {
  dev_name : list Z; myUid : Z; muted : bool;
  deviceModelId : Z; productCategory : Z; softwareVersion : Z;
  dmx512Footprint : Z; dmx512Personality : Z; dmxAddress : Z; identifyOn : Z }.

(** The constructor with what it sets in its body. *)
Definition RdmDevice (_name : list Z) (_myUid : Z) : RdmDeviceP :=
  mkDevice _name _myUid false 0x4711 0 0x12345678 20 0 0 0.

Definition set_myUid (u : Z) (m : RdmDeviceP) : RdmDeviceP :=
  mkDevice (dev_name m) u (muted m) (deviceModelId m) (productCategory m) (softwareVersion m) (dmx512Footprint m) (dmx512Personality m) (dmxAddress m) (identifyOn m).
Definition set_muted (b : bool) (m : RdmDeviceP) : RdmDeviceP :=
  mkDevice (dev_name m) (myUid m) b (deviceModelId m) (productCategory m) (softwareVersion m) (dmx512Footprint m) (dmx512Personality m) (dmxAddress m) (identifyOn m).
Definition set_dmxAddress (a : Z) (m : RdmDeviceP) : RdmDeviceP :=
  mkDevice (dev_name m) (myUid m) (muted m) (deviceModelId m) (productCategory m) (softwareVersion m) (dmx512Footprint m) (dmx512Personality m) a (identifyOn m).
Definition set_identifyOn (i : Z) (m : RdmDeviceP) : RdmDeviceP :=
  mkDevice (dev_name m) (myUid m) (muted m) (deviceModelId m) (productCategory m) (softwareVersion m) (dmx512Footprint m) (dmx512Personality m) (dmxAddress m) i.
(** The accessor with an [int]. *)
Definition dmx512Address (a : Z) (m : RdmDeviceP) : RdmDeviceP := set_dmxAddress (u16 a) m.
Definition isMe (_uid : Z) (m : RdmDeviceP) : bool := (_uid =? broadcast) || (_uid =? myUid m).

(** ** Its operations *)

Section device.
Context `{Machine} {W : Type}.
Context (device : W -> option RdmDeviceP) (put_device : RdmDeviceP -> W -> W).
Context (m_receiver : option (IDmxData -> prog W unit)).
Context (stack : list Z).

Definition the_device : prog W RdmDeviceP := w ← get_state; live (device w).
Definition update_device (f : RdmDeviceP -> RdmDeviceP) : prog W unit := m ← the_device; modify (put_device (f m)).

(** [handleTx] tests the pointer, which has no initial value. *)
Definition handleTx (f : IDmxData) : prog W unit :=
  match m_receiver with Some receiver => receiver f | None => raise Uninitialised end.
Definition sendReply (f : IDmxData) : prog W unit := handleTx f.

(** [buffer], whose header is cleared. *)
Definition buffer : outcome (list Z) := store_all 0 (replicate 24 0) stack.

(** The replies to the three discovery commands, which differ in the [Pid]. *)
Definition discovery_reply (rdm : IDmxData) (pid : Z) : prog W unit :=
  m ← the_device;
  src ← lift_outcome (Source rdm);
  b ← lift_outcome (
    b ← buffer;
    b ← RdmEncoder.PacketEncoder b;
    b ← RdmEncoder.Source (myUid m) b;
    b ← RdmEncoder.Destination src b;
    b ← RdmEncoder.CommandClass DISCOVERY_COMMAND_RESPONSE b;
    b ← RdmEncoder.Pid pid b;
    b ← RdmEncoder.ResponseType RESPONSE_TYPE_ACK b;
    RdmEncoder.finalize b);
  n ← lift_outcome (RdmEncoder.size b);
  sendReply (ConstDmxData b n).

Definition handle_disc_unique_branch (rdm : IDmxData) : prog W unit :=
  m ← the_device;
  if muted m then mret tt else
  from ← lift_outcome (PdAt_size 8 0 6 rdm);
  match from with None => mret tt | Some from =>
  to ← lift_outcome (PdAt_size 8 6 6 rdm);
  match to with None => mret tt | Some to =>
  when ((from <=? myUid m) && (myUid m <=? to)) (discovery_reply rdm DISC_UNIQUE_BRANCH)
  end end.

(** [DISC_MUTE] and [DISC_UN_MUTE]. *)
Definition handle_disc_mute (b : bool) (pid : Z) (rdm : IDmxData) : prog W unit :=
  _ ← update_device (set_muted b);
  dst ← lift_outcome (Destination rdm);
  when (negb (dst =? broadcast)) (discovery_reply rdm pid).

Definition handle_discovery (rdm : IDmxData) : prog W unit :=
  pid ← lift_outcome (Pid rdm);
  if pid =? DISC_UNIQUE_BRANCH then handle_disc_unique_branch rdm
  else if pid =? DISC_MUTE then handle_disc_mute true DISC_MUTE rdm
  else if pid =? DISC_UN_MUTE then handle_disc_mute false DISC_UN_MUTE rdm
  else mret tt.

(** The encoder [e] at the start of the other two commands. *)
Definition reply_encoder (rdm : IDmxData) : prog W (list Z) :=
  m ← the_device;
  src ← lift_outcome (Source rdm);
  lift_outcome (
    b ← buffer;
    b ← RdmEncoder.PacketEncoder b;
    b ← RdmEncoder.Source (myUid m) b;
    b ← RdmEncoder.Destination src b;
    b ← RdmEncoder.CommandClass GET_COMMAND_RESPONSE b;
    b ← RdmEncoder.Pid DEVICE_INFO b;
    RdmEncoder.ResponseType RESPONSE_TYPE_ACK b).
Definition send_encoded (b : list Z) : prog W unit :=
  b ← lift_outcome (RdmEncoder.finalize b);
  n ← lift_outcome (RdmEncoder.size b);
  sendReply (ConstDmxData b n).

(** "V1.0.0" *)
Definition software_version_label : list Z := [86; 49; 46; 48; 46; 48].

Definition get_value (m : RdmDeviceP) (pid : Z) (e : list Z) : outcome (list Z) :=
  if pid =? DEVICE_INFO then
    e ← RdmEncoder.addPd 2 0x100 e;
    e ← RdmEncoder.addPd 2 (deviceModelId m) e;
    e ← RdmEncoder.addPd 2 (productCategory m) e;
    e ← RdmEncoder.addPd 4 (softwareVersion m) e;
    e ← RdmEncoder.addPd 2 (dmx512Footprint m) e;
    e ← RdmEncoder.addPd 2 (dmx512Personality m) e;
    e ← RdmEncoder.addPd 2 (dmxAddress m) e;
    e ← RdmEncoder.addPd 2 0 e;
    RdmEncoder.addPd_octet 0 e
  else if pid =? SOFTWARE_VERSION_LABEL then RdmEncoder.addPd_string software_version_label e
  else if pid =? DMX_START_ADDRESS then RdmEncoder.addPd 2 (dmxAddress m) e
  else if pid =? IDENTIFY_DEVICE then RdmEncoder.addPd_octet (identifyOn m) e
  else RdmEncoder.ResponseType RESPONSE_TYPE_UNKNOWN_PID e.
Definition handle_get (rdm : IDmxData) : prog W unit :=
  e ← reply_encoder rdm;
  pid ← lift_outcome (Pid rdm);
  m ← the_device;
  e ← lift_outcome (get_value m pid e);
  send_encoded e.

(** A [PdAt] into a field of the object. *)
Definition set_from (n sz : nat) (set : Z -> RdmDeviceP -> RdmDeviceP) (rdm : IDmxData) : prog W unit :=
  v ← lift_outcome (PdAt_size n 0 sz rdm);
  match v with Some v => update_device (set v) | None => mret tt end.
Definition handle_set (rdm : IDmxData) : prog W unit :=
  e ← reply_encoder rdm;
  pid ← lift_outcome (Pid rdm);
  e ← (if pid =? DMX_START_ADDRESS then _ ← set_from 2 2 set_dmxAddress rdm; mret e
       else if pid =? IDENTIFY_DEVICE then _ ← set_from 1 1 set_identifyOn rdm; mret e
       else if pid =? 0xFEED then _ ← set_from 8 6 set_myUid rdm; mret e
       else lift_outcome (RdmEncoder.ResponseType RESPONSE_TYPE_UNKNOWN_PID e));
  send_encoded e.

(** [RdmDevice::handle] *)
Definition handle (rdm : IDmxData) : prog W unit :=
  r ← lift_outcome (isRdm rdm);
  if negb (r : bool) then mret tt else
  q ← lift_outcome (isRequest rdm);
  if negb (q : bool) then mret tt else
  m ← the_device;
  me ← lift_outcome (ItIsForMe rdm (myUid m));
  if negb (me : bool) then mret tt else
  cc ← lift_outcome (CommandClass rdm);
  if cc =? DISCOVERY_COMMAND then handle_discovery rdm
  else if cc =? GET_COMMAND then handle_get rdm
  else if cc =? SET_COMMAND then handle_set rdm
  else mret tt.
End device.

(** ** What [handle] does with a complete packet *)

(** The packet of a reply, in the buffer with the rest of the stack. *)
Definition reply_header (dst src cc pid rt n : Z) : Header := mkHeader SC_RDM SC_SUB_MESSAGE 0 dst src 0 rt 0 0 cc pid n.
Definition reply (stack : list Z) (dst src cc pid rt : Z) (pd : list Z) : IDmxData :=
  ConstDmxData (packet (reply_header dst src cc pid rt (Z.of_nat (length pd))) pd ++ drop (26 + length pd) stack) (Z.of_nat (26 + length pd)).

(** A request as others send it. *)
Record is_request (h : Header) (cc : Z) : Prop := {
  request_startCode : u8 (h_startCode h) = SC_RDM;
  request_subStartCode : u8 (h_subStartCode h) = SC_SUB_MESSAGE;
  request_CC : u8 (h_CC h) = cc }.

(** [GET_COMMAND]: the response type and the data of the answer. *)
Definition get_answer (m : RdmDeviceP) (p : Z) : Z * list Z :=
  if p =? DEVICE_INFO then
    (response_type RESPONSE_TYPE_ACK,
     network 2 0x100 ++ network 2 (deviceModelId m) ++ network 2 (productCategory m) ++ network 4 (softwareVersion m) ++
     network 2 (dmx512Footprint m) ++ network 2 (dmx512Personality m) ++ network 2 (dmxAddress m) ++ network 2 0 ++ [0])
  else if p =? SOFTWARE_VERSION_LABEL then (response_type RESPONSE_TYPE_ACK, software_version_label)
  else if p =? DMX_START_ADDRESS then (response_type RESPONSE_TYPE_ACK, network 2 (dmxAddress m))
  else if p =? IDENTIFY_DEVICE then (response_type RESPONSE_TYPE_ACK, [u8 (identifyOn m)])
  else (response_type RESPONSE_TYPE_UNKNOWN_PID, []).
Lemma length_get_answer m p : (length (get_answer m p).2 <= 19)%nat.
Proof. unfold get_answer. repeat case_match; cbn; lia. Qed.

Section answers.
Context `{Machine} {W : Type}.
Context (device : W -> option RdmDeviceP) (put_device : RdmDeviceP -> W -> W).
Context (receiver : IDmxData -> prog W unit).
Context (stack : list Z).
Hypothesis Hstack : length stack = 256%nat.
Hypothesis Hend : big_endian = false.
Hypothesis device_put : forall m m' w, device w = Some m -> device (put_device m' w) = Some m'.
Notation handle := (handle device put_device (Some receiver) stack).

Lemma buffer_draft : buffer stack = Done (header_octets (mkHeader 0 0 0 0 0 0 0 0 0 0 0 0) ++ drop 24 stack).
Proof.
  unfold buffer. rewrite (store_all_nat _ 0) by (rewrite length_replicate; lia). by rewrite length_replicate.
Qed.

Variables (h : Header) (pd rest : list Z) (n : Z).
Let rdm := ConstDmxData (packet h pd ++ rest) n.
Hypothesis HPDL : u8 (h_PDL h) = Z.of_nat (length pd).
Notation dst := (h_dstUid h mod 2 ^ 48).
Notation src := (h_srcUid h mod 2 ^ 48).
Notation pid := (u16 (h_PID h)).

Lemma rdm_isRdm cc : is_request h cc -> isRdm rdm = Done true.
Proof. intros []. by apply isRdm_packet. Qed.
Lemma rdm_isRequest cc :
  is_request h cc -> In cc [command_class DISCOVERY_COMMAND; command_class GET_COMMAND; command_class SET_COMMAND] ->
  isRequest rdm = Done true.
Proof. intros [_ _ E] Hcc. unfold rdm. rewrite isRequest_packet, E. by destruct Hcc as [<-|[<-|[<-|[]]]]. Qed.
Lemma rdm_ItIsForMe u : ItIsForMe rdm u = Done ((dst =? u) || (dst =? broadcast)).
Proof. apply ItIsForMe_packet. Qed.
Lemma rdm_CommandClass cc : is_request h cc -> CommandClass rdm = Done cc.
Proof. intros [_ _ <-]. apply CommandClass_packet. Qed.
Lemma rdm_Pid : Pid rdm = Done pid.
Proof. apply Pid_packet. Qed.
Lemma rdm_Source : Source rdm = Done src.
Proof. apply Source_packet. Qed.
Lemma rdm_Destination : Destination rdm = Done dst.
Proof. apply Destination_packet. Qed.
Lemma rdm_PdAt k pos sz :
  (sz <= k)%nat -> (pos + sz <= length pd)%nat -> PdAt_size k (Z.of_nat pos) sz rdm = Done (Some (from_network (take sz (drop pos pd)))).
Proof. intros. by apply PdAt_size_packet. Qed.
Lemma lift_run {S A B} (a : A) (k : A -> prog S B) (s : S) : (lift_outcome (Done a) ≫= k) s = k a s.
Proof. done. Qed.
Lemma the_device_run {B} (k : RdmDeviceP -> prog W B) w m : device w = Some m -> (the_device device ≫= k) w = k m w.
Proof. intros Hm. apply bind_run. unfold the_device, live, get_state, mbind, prog_bind. by rewrite Hm. Qed.

(** The way to the switch over the command class. *)
Lemma handle_run w m cc :
  is_request h cc -> In cc [command_class DISCOVERY_COMMAND; command_class GET_COMMAND; command_class SET_COMMAND] ->
  device w = Some m ->
  handle rdm w =
    (if (dst =? myUid m) || (dst =? broadcast) then
       if cc =? DISCOVERY_COMMAND then handle_discovery device put_device (Some receiver) stack rdm
       else if cc =? GET_COMMAND then handle_get device (Some receiver) stack rdm
       else handle_set device put_device (Some receiver) stack rdm
     else mret tt) w.
Proof.
  intros Hq Hcc Hm. unfold RdmDevice.handle. rewrite (rdm_isRdm cc) by done. rewrite lift_run. cbn [negb].
  rewrite (rdm_isRequest cc) by done. rewrite lift_run. cbn [negb]. rewrite (the_device_run _ _ m) by done.
  rewrite rdm_ItIsForMe, lift_run.
  destruct (_ || _); cbn [negb]; [|done]. rewrite (rdm_CommandClass cc), lift_run by done.
  by destruct Hcc as [<-|[<-|[<-|[]]]].
Qed.

(** Requests of others are not looked at any further. *)
Lemma answers_not_me w m cc :
  is_request h cc -> In cc [command_class DISCOVERY_COMMAND; command_class GET_COMMAND; command_class SET_COMMAND] ->
  device w = Some m -> dst <> myUid m -> dst <> broadcast -> handle rdm w = Done (tt, w).
Proof.
  intros Hq Hcc Hm Hd Hb. rewrite (handle_run w m cc) by done.
  by rewrite (proj2 (Z.eqb_neq _ _)), (proj2 (Z.eqb_neq _ broadcast)) by done.
Qed.
Lemma is_for_me m : dst = myUid m \/ dst = broadcast -> (dst =? myUid m) || (dst =? broadcast) = true.
Proof. intros [E|E]; rewrite E; [by rewrite Z.eqb_refl|by rewrite Z.eqb_refl, orb_true_r]. Qed.

Lemma discovery_reply_run w m p :
  device w = Some m ->
  discovery_reply device (Some receiver) stack rdm p w =
  receiver (reply stack src (myUid m) DISCOVERY_COMMAND_RESPONSE p RESPONSE_TYPE_ACK []) w.
Proof.
  intros Hm. unfold discovery_reply. rewrite (the_device_run _ _ m) by done.
  rewrite rdm_Source, lift_run, buffer_draft. cbn [mbind outcome_bind]. encode_steps.
  rewrite draft_nil, finalize_draft by (cbn; rewrite ?length_drop; lia || done).
  rewrite lift_run, size_packet by (cbn; lia). rewrite lift_run. by rewrite drop_drop.
Qed.

(** [DISC_UNIQUE_BRANCH] of the range [from..to]. *)
Lemma answers_branch w m from to :
  is_request h DISCOVERY_COMMAND -> pid = DISC_UNIQUE_BRANCH -> device w = Some m -> dst = myUid m \/ dst = broadcast ->
  pd = network 6 from ++ network 6 to ->
  handle rdm w =
    (if negb (muted m) && (from mod 2 ^ 48 <=? myUid m) && (myUid m <=? to mod 2 ^ 48)
     then receiver (reply stack src (myUid m) DISCOVERY_COMMAND_RESPONSE DISC_UNIQUE_BRANCH RESPONSE_TYPE_ACK []) w
     else Done (tt, w)).
Proof.
  intros Hq Hp Hm Hd Hpd. rewrite (handle_run w m DISCOVERY_COMMAND) by (done || by left). rewrite is_for_me by done.
  change (command_class DISCOVERY_COMMAND =? DISCOVERY_COMMAND) with true. cbv iota. unfold handle_discovery.
  rewrite rdm_Pid, lift_run, Hp. change (parameter_id DISC_UNIQUE_BRANCH =? DISC_UNIQUE_BRANCH) with true. cbv iota.
  unfold handle_disc_unique_branch. rewrite (the_device_run _ _ m) by done. destruct (muted m); [done|]. cbn [negb andb].
  assert (length pd = 12%nat) as Hl by (by rewrite Hpd, length_app, !length_network).
  change 0 with (Z.of_nat 0). rewrite (rdm_PdAt 8 0 6), lift_run by lia.
  change 6 with (Z.of_nat 6). rewrite (rdm_PdAt 8 6 6), lift_run by lia.
  rewrite Hpd, drop_0, take_app_length', drop_app_length' by (by rewrite length_network).
  rewrite take_ge by (by rewrite length_network). rewrite !from_network_network. change (8 * Z.of_nat 6) with 48.
  destruct (_ && _); [|done]. unfold when. by apply discovery_reply_run.
Qed.

(** [DISC_MUTE] and [DISC_UN_MUTE]; a broadcast is not answered. *)
Lemma answers_mute w m (b : bool) :
  is_request h DISCOVERY_COMMAND -> pid = (if b then DISC_MUTE else DISC_UN_MUTE) -> device w = Some m -> dst = myUid m \/ dst = broadcast ->
  handle rdm w =
    (if dst =? broadcast then Done (tt, put_device (set_muted b m) w)
     else receiver (reply stack src (myUid m) DISCOVERY_COMMAND_RESPONSE (if b then DISC_MUTE else DISC_UN_MUTE) RESPONSE_TYPE_ACK []) (put_device (set_muted b m) w)).
Proof.
  intros Hq Hp Hm Hd. rewrite (handle_run w m DISCOVERY_COMMAND) by (done || by left). rewrite is_for_me by done.
  change (command_class DISCOVERY_COMMAND =? DISCOVERY_COMMAND) with true. cbv iota. unfold handle_discovery.
  rewrite rdm_Pid, lift_run, Hp.
  assert ((if (if b then parameter_id DISC_MUTE else DISC_UN_MUTE) =? DISC_UNIQUE_BRANCH then handle_disc_unique_branch device (Some receiver) stack rdm
    else if (if b then parameter_id DISC_MUTE else DISC_UN_MUTE) =? DISC_MUTE then handle_disc_mute device put_device (Some receiver) stack true DISC_MUTE rdm
    else if (if b then parameter_id DISC_MUTE else DISC_UN_MUTE) =? DISC_UN_MUTE then handle_disc_mute device put_device (Some receiver) stack false DISC_UN_MUTE rdm else mret tt) w
    = handle_disc_mute device put_device (Some receiver) stack b (if b then DISC_MUTE else DISC_UN_MUTE) rdm w) as -> by (by destruct b).
  unfold handle_disc_mute, update_device.
  rewrite (bind_run _ _ _ tt (put_device (set_muted b m) w)) by (rewrite (the_device_run _ _ m) by done; done).
  rewrite rdm_Destination, lift_run.
  destruct (_ =? broadcast); [done|]. unfold when. cbn [negb]. by rewrite (discovery_reply_run _ (set_muted b m)) by eauto.
Qed.

Notation started_reply m := (draft (reply_header src (myUid m) GET_COMMAND_RESPONSE DEVICE_INFO RESPONSE_TYPE_ACK 0) [] (drop 24 stack)).
Lemma reply_encoder_run {B} (k : list Z -> prog W B) w m :
  device w = Some m -> (reply_encoder device stack rdm ≫= k) w = k (started_reply m) w.
Proof.
  intros Hm. apply bind_run. unfold reply_encoder. rewrite (the_device_run _ _ m) by done.
  rewrite rdm_Source, lift_run, buffer_draft. cbn [mbind outcome_bind]. by encode_steps.
Qed.
Lemma send_encoded_run (b : list Z) w me rt pd' :
  (length pd' <= 200)%nat ->
  b = draft (reply_header src me GET_COMMAND_RESPONSE DEVICE_INFO rt (Z.of_nat (length pd'))) pd' (drop (24 + length pd') stack) ->
  send_encoded (Some receiver) b w = receiver (reply stack src me GET_COMMAND_RESPONSE DEVICE_INFO rt pd') w.
Proof.
  intros Hl ->. unfold send_encoded. rewrite finalize_draft; [|cbn; apply octet_bounds; lia|lia|rewrite length_drop; lia].
  rewrite lift_run, size_packet by (cbn; lia). rewrite lift_run. unfold sendReply, handleTx, reply.
  rewrite drop_drop. do 3 f_equal. f_equal. lia.
Qed.

(** One value that is added to a reply. *)
Ltac add_values :=
  repeat (rewrite addPd_draft by (first [reflexivity | rewrite ?length_drop; lia]); cbn [mbind outcome_bind]).
Lemma get_value_run m p :
  get_value m p (started_reply m) =
  Done (draft (reply_header src (myUid m) GET_COMMAND_RESPONSE DEVICE_INFO (get_answer m p).1 (Z.of_nat (length (get_answer m p).2)))
    (get_answer m p).2 (drop (24 + length (get_answer m p).2) stack)).
Proof.
  unfold get_value, get_answer. repeat case_match.
  - add_values. rewrite addPd_octet_draft by (first [reflexivity | rewrite !length_drop; lia]). rewrite !drop_drop. reflexivity.
  - rewrite addPd_string_draft by (first [reflexivity | rewrite length_drop; cbn; lia]). rewrite !drop_drop. reflexivity.
  - add_values. rewrite !drop_drop. reflexivity.
  - rewrite addPd_octet_draft by (first [reflexivity | rewrite !length_drop; lia]). rewrite !drop_drop. reflexivity.
  - unfold draft at 1. rewrite ResponseType_header. reflexivity.
Qed.
Lemma answers_get w m :
  is_request h GET_COMMAND -> device w = Some m -> dst = myUid m \/ dst = broadcast ->
  handle rdm w = receiver (reply stack src (myUid m) GET_COMMAND_RESPONSE DEVICE_INFO (get_answer m pid).1 (get_answer m pid).2) w.
Proof.
  intros Hq Hm Hd. rewrite (handle_run w m GET_COMMAND) by (done || by right; left). rewrite is_for_me by done.
  change (command_class GET_COMMAND =? DISCOVERY_COMMAND) with false. change (command_class GET_COMMAND =? GET_COMMAND) with true. cbv iota.
  unfold handle_get. rewrite (reply_encoder_run _ _ m) by done. rewrite rdm_Pid, lift_run, (the_device_run _ _ m) by done.
  rewrite get_value_run, lift_run. pose proof (length_get_answer m pid). apply send_encoded_run; [lia|done].
Qed.

(** [SET_COMMAND] with enough data: the device afterwards, and the response
    type of the answer, which is that of a [GET_COMMAND]. *)
Definition set_answer (p : Z) (m : RdmDeviceP) : RdmDeviceP :=
  if p =? DMX_START_ADDRESS then set_dmxAddress (from_network (take 2 pd)) m
  else if p =? IDENTIFY_DEVICE then set_identifyOn (from_network (take 1 pd)) m
  else if p =? 0xFEED then set_myUid (from_network (take 6 pd)) m
  else m.
Definition is_settable (p : Z) : bool := (p =? DMX_START_ADDRESS) || (p =? IDENTIFY_DEVICE) || (p =? 0xFEED).
Lemma set_from_run {B} (k : prog W B) n0 sz set w m :
  device w = Some m -> (sz <= n0)%nat -> (sz <= length pd)%nat ->
  (set_from device put_device n0 sz set rdm ≫= fun _ => k) w = k (put_device (set (from_network (take sz pd)) m) w).
Proof.
  intros Hm Hn Hl. apply (bind_run _ (fun _ => k) _ tt). unfold set_from. change 0 with (Z.of_nat 0). rewrite rdm_PdAt by lia.
  rewrite drop_0, lift_run. unfold update_device. by rewrite (the_device_run _ _ m) by done.
Qed.
Lemma answers_set w m :
  is_request h SET_COMMAND -> device w = Some m -> dst = myUid m \/ dst = broadcast -> is_settable pid = true -> (6 <= length pd)%nat \/ (2 <= length pd)%nat /\ pid <> 0xFEED ->
  handle rdm w = receiver (reply stack src (myUid m) GET_COMMAND_RESPONSE DEVICE_INFO RESPONSE_TYPE_ACK []) (put_device (set_answer pid m) w).
Proof.
  intros Hq Hm Hd Hs Hl. rewrite (handle_run w m SET_COMMAND) by (done || by right; right; left). rewrite is_for_me by done.
  change (command_class SET_COMMAND =? DISCOVERY_COMMAND) with false. change (command_class SET_COMMAND =? GET_COMMAND) with false. cbv iota.
  unfold handle_set. rewrite (reply_encoder_run _ _ m) by done. rewrite rdm_Pid, lift_run. unfold is_settable in Hs. unfold set_answer.
  assert (forall w', send_encoded (Some receiver) (started_reply m) w' =
    receiver (reply stack src (myUid m) GET_COMMAND_RESPONSE DEVICE_INFO RESPONSE_TYPE_ACK []) w') as Hsend.
  { intros w'. apply send_encoded_run; [cbn; lia|done]. }
  destruct (Z.eqb_spec pid DMX_START_ADDRESS) as [E|_].
  { erewrite bind_run by (rewrite (set_from_run _ _ _ _ w m) by (done || lia); done). apply Hsend. }
  destruct (Z.eqb_spec pid IDENTIFY_DEVICE) as [E|_].
  { erewrite bind_run by (rewrite (set_from_run _ _ _ _ w m) by (done || lia); done). apply Hsend. }
  destruct (Z.eqb_spec pid 0xFEED) as [E|_]; [|done].
  erewrite bind_run by (rewrite (set_from_run _ _ _ _ w m) by (done || lia); done). apply Hsend.
Qed.
End answers.
