(* ===== verification/RdmBus.v ===== *)
(** * A bus in software: dmxbus.cpp

    [src/librdm/dmxbus.cpp] connects one master with slaves: a frame of the
    master is handed to all slaves, and what they answer meanwhile is
    condensed to at most one frame for the master.  Receivers are pointers of
    a type [R]; [receive] is the virtual [handle] of the object behind one. *)
From stdpp Require Import base countable list.
From S2P Require Import Prelude RdmEncoder RdmValues RdmPacket.

Record DmxBusP (R : Type) := mkBus {
  m_master : option R; m_slaves : list R; m_masterRequestActive : bool; m_rxqueue : list (list Z) }.
Arguments mkBus {R}. Arguments m_master {R}. Arguments m_slaves {R}. Arguments m_masterRequestActive {R}. Arguments m_rxqueue {R}.

(** The constructor: the queue and the vector of the slaves are empty. *)
Definition DmxBus {R} : DmxBusP R := mkBus None [] false [].
Definition set_master {R} (r : option R) (b : DmxBusP R) := mkBus r (m_slaves b) (m_masterRequestActive b) (m_rxqueue b).
Definition set_slaves {R} (l : list R) (b : DmxBusP R) := mkBus (m_master b) l (m_masterRequestActive b) (m_rxqueue b).
Definition set_active {R} (a : bool) (b : DmxBusP R) := mkBus (m_master b) (m_slaves b) a (m_rxqueue b).
Definition set_rxqueue {R} (q : list (list Z)) (b : DmxBusP R) := mkBus (m_master b) (m_slaves b) (m_masterRequestActive b) q.

Section bus.
Context `{Machine} {W R : Type}.
Context (bus : W -> DmxBusP R) (put_bus : DmxBusP R -> W -> W).
Context (receive : R -> IDmxData -> prog W unit).
Context (stack : list Z).

Definition update_bus (f : DmxBusP R -> DmxBusP R) : prog W unit := modify (fun w => put_bus (f (bus w)) w).

Definition registerMasterReceiver (r : R) : prog W unit := update_bus (set_master (Some r)).
Definition registerSlaveReceiver (r : R) : prog W unit := update_bus (fun b => set_slaves (m_slaves b ++ [r]) b).

(** [handleSlave]: the copy reads as much as the frame says it has. *)
Definition handleSlave (f : IDmxData) : prog W unit :=
  b ← gets bus;
  if m_masterRequestActive b then
    v ← lift_outcome (load_all 0 (Z.to_nat (size f)) (data f));
    update_bus (fun b => set_rxqueue (m_rxqueue b ++ [v]) b)
  else mret tt.

Fixpoint for_slaves (l : list R) (f : IDmxData) : prog W unit :=
  match l with [] => mret tt | r :: l => _ ← receive r f; for_slaves l f end.

Definition to_master (f : IDmxData) : prog W unit := b ← gets bus; r ← deref (m_master b); receive r f.
Definition frame_of (v : list Z) : IDmxData := ConstDmxData v (Z.of_nat (length v)).
Definition is_discovery_request (rdm : IDmxData) : outcome bool :=
  r ← isRdm rdm; if negb (r : bool) then Done false else
  q ← isRequest rdm; if negb (q : bool) then Done false else
  cc ← CommandClass rdm; if negb (cc =? DISCOVERY_COMMAND) then Done false else
  pid ← Pid rdm; Done (pid =? DISC_UNIQUE_BRANCH).

(** The frame that stands for a collision or for no answer. *)
Definition condensed_reply (rdm : IDmxData) (replies : nat) : outcome IDmxData :=
  b ← store_all 0 (replicate 24 0) stack;
  b ← RdmEncoder.PacketEncoder b;
  b ← RdmEncoder.Source (if (1 <? replies)%nat then 0xFFFFFFFFFFFF else 0) b;
  src ← Source rdm;
  b ← RdmEncoder.Destination src b;
  b ← RdmEncoder.CommandClass DISCOVERY_COMMAND_RESPONSE b;
  b ← RdmEncoder.Pid DISC_UNIQUE_BRANCH b;
  b ← RdmEncoder.finalize b;
  n ← RdmEncoder.size b;
  Done (ConstDmxData b n).

Definition condense (f : IDmxData) : prog W unit :=
  b ← gets bus;
  match m_rxqueue b with
  | [v] => _ ← to_master (frame_of v); update_bus (set_rxqueue [])
  | q =>
      disc ← lift_outcome (is_discovery_request f);
      _ ← (if (disc : bool) then r ← lift_outcome (condensed_reply f (length q)); to_master r
           else match q with v :: _ => to_master (frame_of v) | [] => mret tt end);
      update_bus (set_rxqueue [])
  end.

Definition handleMaster (f : IDmxData) : prog W unit :=
  _ ← update_bus (set_active true);
  b ← gets bus;
  _ ← for_slaves (m_slaves b) f;
  _ ← update_bus (set_active false);
  condense f.
End bus.

(** ** What the master gets *)

(** The frame of a discovery without one answer: its source is the broadcast
    UID for a collision and zero for silence. *)
Definition discovery_header (dst src : Z) : Header :=
  mkHeader SC_RDM SC_SUB_MESSAGE 0 dst src 0 0 0 0 DISCOVERY_COMMAND_RESPONSE DISC_UNIQUE_BRANCH 0.

Section condensed.
Context `{Machine}.
Variables (stack : list Z) (h : Header) (pd rest : list Z) (n : Z).
Hypothesis Hstack : length stack = 256%nat.
Let rdm := ConstDmxData (packet h pd ++ rest) n.

Lemma condensed_reply_eq replies :
  condensed_reply stack rdm replies =
  Done (ConstDmxData (packet (discovery_header (h_srcUid h mod 2 ^ 48) (if (1 <? replies)%nat then broadcast else any)) [] ++ drop 26 stack) 26).
Proof.
  unfold condensed_reply. rewrite (store_all_nat _ 0) by (rewrite length_replicate; lia). cbn [mbind outcome_bind].
  rewrite length_replicate. change (take 0 stack ++ replicate 24 0 ++ drop (0 + 24) stack) with (header_octets (mkHeader 0 0 0 0 0 0 0 0 0 0 0 0) ++ drop 24 stack).
  encode_steps. unfold rdm. rewrite Source_packet. cbn [mbind outcome_bind]. encode_steps.
  rewrite draft_nil, finalize_draft by (cbn; rewrite ?length_drop; lia || done). cbn [mbind outcome_bind].
  rewrite size_packet by (cbn; lia). cbn [mbind outcome_bind]. by rewrite drop_drop.
Qed.
Lemma is_discovery_request_eq (cc : RdmCommandClass) :
  u8 (h_startCode h) = SC_RDM -> u8 (h_subStartCode h) = SC_SUB_MESSAGE -> u8 (h_CC h) = cc ->
  (cc = DISCOVERY_COMMAND \/ cc = GET_COMMAND \/ cc = SET_COMMAND) ->
  is_discovery_request rdm = Done ((cc =? DISCOVERY_COMMAND) && (u16 (h_PID h) =? DISC_UNIQUE_BRANCH)).
Proof.
  intros H1 H2 H3 Hcc. unfold is_discovery_request, rdm. rewrite isRdm_packet by done. cbn [mbind outcome_bind negb].
  rewrite isRequest_packet, H3. replace ((_ <=? _) && _ && _) with true by (by destruct Hcc as [->|[->| ->]]).
  cbn [mbind outcome_bind negb]. rewrite CommandClass_packet, H3. cbn [mbind outcome_bind].
  destruct Hcc as [->|[->| ->]]; [|done..].
  change (command_class DISCOVERY_COMMAND =? DISCOVERY_COMMAND) with true. cbn [negb]. by rewrite Pid_packet.
Qed.
End condensed.
