(* ===== verification/RdmApi.v ===== *)
(** * A controller: rdmapi.cpp

    [src/librdm/rdmapi.cpp] and [rdmapi.hpp]: requests to devices, the futures
    their replies are written to, and the discovery of devices by halving
    ranges of UIDs.  Futures are objects in a store, those on the stack end
    with their function, and [m_futures] has pointers to them.  The static
    buffers of the functions are part of the state. *)
From stdpp Require Import base countable list.
From S2P Require Import Prelude RdmEncoder RdmValues RdmPacket.

Inductive State : Type := Busy | Ready | Timeout.
#[export] Instance State_eq_dec : EqDecision State.
Proof. solve_decision. Defined.
Inductive Verbosity : Type := Quiet | Wisper | Loud | Screaming.

Record RdmFuture := mkFuture { m_buffer : list Z; m_state : State }.

Record RdmApi := mkApi {
  futures : list (option RdmFuture);
  m_futures : list nat;
  m_discoveredDevices : list Uid;
  m_verbosity : Verbosity;
  mute_buffer : list Z; unmute_buffer : list Z; discover_buffer : list Z; get_buffer : list Z }.

Definition set_store s a := mkApi s (m_futures a) (m_discoveredDevices a) (m_verbosity a) (mute_buffer a) (unmute_buffer a) (discover_buffer a) (get_buffer a).
Definition set_m_futures l a := mkApi (futures a) l (m_discoveredDevices a) (m_verbosity a) (mute_buffer a) (unmute_buffer a) (discover_buffer a) (get_buffer a).
Definition set_discovered l a := mkApi (futures a) (m_futures a) l (m_verbosity a) (mute_buffer a) (unmute_buffer a) (discover_buffer a) (get_buffer a).
Definition set_verbosity v a := mkApi (futures a) (m_futures a) (m_discoveredDevices a) v (mute_buffer a) (unmute_buffer a) (discover_buffer a) (get_buffer a).
Definition set_mute_buffer b a := mkApi (futures a) (m_futures a) (m_discoveredDevices a) (m_verbosity a) b (unmute_buffer a) (discover_buffer a) (get_buffer a).
Definition set_unmute_buffer b a := mkApi (futures a) (m_futures a) (m_discoveredDevices a) (m_verbosity a) (mute_buffer a) b (discover_buffer a) (get_buffer a).
Definition set_discover_buffer b a := mkApi (futures a) (m_futures a) (m_discoveredDevices a) (m_verbosity a) (mute_buffer a) (unmute_buffer a) b (get_buffer a).
Definition set_get_buffer b a := mkApi (futures a) (m_futures a) (m_discoveredDevices a) (m_verbosity a) (mute_buffer a) (unmute_buffer a) (discover_buffer a) b.

(** The constructor.  A static buffer of 256+2 octets starts with zeros. *)
Definition RdmApi_new : RdmApi :=
  mkApi [] [] [Uid_of 0x4D530000AAAA; Uid_of 0x4D5300000005] Wisper
    (replicate 258 0) (replicate 258 0) (replicate 258 0) (replicate 258 0).

Definition buildDiscoveryRequest `{Machine} (source from to : Z) (e : list Z) : outcome (list Z) :=
  e ← RdmEncoder.Source source e;
  e ← RdmEncoder.Destination 0xffffffffffff e;
  e ← RdmEncoder.CommandClass DISCOVERY_COMMAND e;
  e ← RdmEncoder.Pid DISC_UNIQUE_BRANCH e;
  e ← RdmEncoder.addPd_size (object 8 from) 6 e;
  e ← RdmEncoder.addPd_size (object 8 to) 6 e;
  RdmEncoder.finalize e.

(** [myUid], which its setter does not change. *)
Definition myUid : Z := uid_value (Uid_of 0x123400000001).
Definition set_myUid (_uid : Uid) (a : RdmApi) : RdmApi := a.

Section api.
Context `{Machine} {W : Type}.
Context (api : W -> RdmApi) (put_api : RdmApi -> W -> W).
Context (m_receiver : option (IDmxData -> prog W unit)).
(** What happens elsewhere while a thread sleeps. *)
Context (sleep : prog W unit).
(** The octets of the memory a future or a setter is made in. *)
Context (raw : list Z).

Definition update_api (f : RdmApi -> RdmApi) : prog W unit := modify (fun w => put_api (f (api w)) w).
Definition api_handleTx (f : IDmxData) : prog W unit :=
  match m_receiver with Some receiver => receiver f | None => raise Uninitialised end.

(** ** Futures *)

Definition new_RdmFuture : prog W nat :=
  w ← get_state;
  _ ← update_api (fun a => set_store (futures a ++ [Some (mkFuture raw Busy)]) a);
  mret (length (futures (api w))).
(** The end of the scope of a future on the stack. *)
Definition end_RdmFuture (i : nat) : prog W unit := update_api (fun a => set_store (<[i := None]> (futures a)) a).
Definition the_future (i : nat) : prog W RdmFuture :=
  w ← get_state; o ← live (futures (api w) !! i); live o.
Definition put_future (i : nat) (f : RdmFuture) : prog W unit := update_api (fun a => set_store (<[i := Some f]> (futures a)) a).

(** [RdmFuture::set]: the [int] is compared with a [size_t]. *)
Definition RdmFuture_set (i : nat) (d : IDmxData) : prog W unit :=
  f ← the_future i;
  let s := if u64 (size d) <? 256 then size d else 256 in
  vs ← lift_outcome (load_all 0 (Z.to_nat s) (data d));
  b ← lift_outcome (store_all 0 vs (m_buffer f));
  put_future i (mkFuture b Ready).

Fixpoint wait_loop (timeout_ms : nat) (i : nat) : prog W unit :=
  f ← the_future i;
  if decide (m_state f = Busy) then
    match timeout_ms with
    | O => mret tt
    | S timeout_ms => _ ← sleep; wait_loop timeout_ms i
    end
  else mret tt.
Definition wait (i : nat) : prog W bool :=
  f ← the_future i;
  _ ← (if decide (m_state f = Busy) then
         _ ← wait_loop 1000 i;
         f ← the_future i;
         if decide (m_state f = Busy) then put_future i (mkFuture (m_buffer f) Timeout) else mret tt
       else mret tt);
  f ← the_future i;
  mret (bool_decide (m_state f = Ready)).
Definition okay (i : nat) : prog W bool := f ← the_future i; mret (bool_decide (m_state f = Ready)).

(** What an accessor of [PacketDecoder] says of the reply, or [d] after a
    timeout. *)
Definition reply_field (i : nat) (read : IDmxData -> outcome Z) (d : Z) : prog W Z :=
  ok ← wait i;
  if (ok : bool) then f ← the_future i; lift_outcome (read (ConstDmxData (m_buffer f) 256)) else mret d.
Definition f_size (i : nat) : prog W Z := reply_field i Pdl 0.
Definition f_StartCode (i : nat) : prog W Z := reply_field i StartCode (-1).
Definition f_SubStartCode (i : nat) : prog W Z := reply_field i SubStartCode (-1).
Definition f_CommandClass (i : nat) : prog W Z := reply_field i CommandClass (-1).
Definition f_SubDevice (i : nat) : prog W Z := reply_field i SubDevice (-1).
Definition f_Pid (i : nat) : prog W Z := reply_field i Pid (-1).
Definition f_Source (i : nat) : prog W Z := reply_field i Source (u64 (-1)).
Definition f_Destination (i : nat) : prog W Z := reply_field i Destination (u64 (-1)).
(** [at] of an integer type with [n] octets: the variable that is returned is
    not set when the data is too short. *)
Definition f_at (n : nat) (i : nat) (offset : Z) : prog W Z :=
  ok ← wait i;
  if (ok : bool) then
    f ← the_future i;
    t ← lift_outcome (PdAt n offset (ConstDmxData (m_buffer f) 256));
    match t with Some t => mret t | None => raise Uninitialised end
  else mret 0.
(** [at] of a string: the characters, if there are as many. *)
Definition f_at_chars (i : nat) (offset : Z) (n : nat) : prog W (option (list Z)) :=
  ok ← wait i;
  if (ok : bool) then f ← the_future i; lift_outcome (PdAt_chars offset n (ConstDmxData (m_buffer f) 256)) else mret None.

Definition addFuture (i : nat) : prog W unit := update_api (fun a => set_m_futures (m_futures a ++ [i]) a).

(** [RdmApi::handle]: the first future gets the frame, the others nothing. *)
Definition handle (d : IDmxData) : prog W unit :=
  w ← get_state;
  _ ← match m_futures (api w) with needle :: _ => RdmFuture_set needle d | [] => mret tt end;
  update_api (set_m_futures []).

(** ** Requests *)

(** [mute] and [unmute], each with its buffer and parameter id. *)
Definition mute_with (get_b : RdmApi -> list Z) (set_b : list Z -> RdmApi -> RdmApi) (pid : Z) (whom : Uid) : prog W unit :=
  w ← get_state;
  b ← lift_outcome (
    b ← RdmEncoder.PacketEncoder (get_b (api w));
    b ← RdmEncoder.Source myUid b;
    b ← RdmEncoder.Destination (uid_value whom) b;
    b ← RdmEncoder.CommandClass DISCOVERY_COMMAND b;
    b ← RdmEncoder.Pid pid b;
    RdmEncoder.finalize b);
  n ← lift_outcome (RdmEncoder.size b);
  _ ← update_api (set_b b);
  if uid_eqb whom (Uid_of broadcast) then api_handleTx (ConstDmxData b n) else
  f ← new_RdmFuture;
  _ ← addFuture f;
  _ ← api_handleTx (ConstDmxData b n);
  _ ← wait f;
  end_RdmFuture f.
Definition mute : Uid -> prog W unit := mute_with mute_buffer set_mute_buffer DISC_MUTE.
Definition unmute : Uid -> prog W unit := mute_with unmute_buffer set_unmute_buffer DISC_UN_MUTE.

(** ** Discovery *)

(** The test of the reply to a discovery request. *)
Definition is_discovery_reply (f : nat) : prog W bool :=
  sc ← f_StartCode f; if negb (sc =? SC_RDM) then mret false else
  ssc ← f_SubStartCode f; if negb (ssc =? SC_SUB_MESSAGE) then mret false else
  cc ← f_CommandClass f; if negb (cc =? DISCOVERY_COMMAND_RESPONSE) then mret false else
  pid ← f_Pid f; mret (pid =? DISC_UNIQUE_BRANCH).

(** What follows for the search space, and the devices found. *)
Definition evaluate_reply (f : nat) (a : Z * Z) (found : list Uid) : prog W (list (Z * Z) * list Uid) :=
  ok ← is_discovery_reply f;
  if negb (ok : bool) then mret ([], found) else
  dst ← f_Destination f;
  if negb (dst =? myUid) then mret ([], found) else
  src ← f_Source f;
  if src =? broadcast then
    mret ([(a.1, u64 (u64 (a.1 + a.2) / 2 - 1)); (u64 (a.1 + a.2) / 2, a.2)], found)
  else if src =? any then mret ([], found)
  else
    let found := if existsb (fun u => uid_eqb u (Uid_of src)) found then found else found ++ [Uid_of src] in
    _ ← mute (Uid_of src);
    mret ([a], found).

Definition search_range (a : Z * Z) (found : list Uid) : prog W (list (Z * Z) * list Uid) :=
  w ← get_state;
  b ← lift_outcome (
    b ← store_all 0 (replicate 24 0) (discover_buffer (api w));
    b ← RdmEncoder.PacketEncoder b;
    buildDiscoveryRequest myUid a.1 a.2 b);
  _ ← update_api (set_discover_buffer b);
  f ← new_RdmFuture;
  _ ← addFuture f;
  n ← lift_outcome (RdmEncoder.size b);
  _ ← api_handleTx (ConstDmxData b n);
  ok ← wait f;
  r ← (if negb (ok : bool) then mret ([], found) else evaluate_reply f a found);
  _ ← end_RdmFuture f;
  mret r.

Fixpoint search (searchCount : nat) (searchSpace : list (Z * Z)) (found : list Uid) : prog W (list Uid) :=
  match searchSpace, searchCount with
  | [], _ => mret found
  | _, O => mret found
  | a :: searchSpace, S searchCount =>
      r ← search_range a found;
      search searchCount (searchSpace ++ r.1) r.2
  end.
Definition discoverDevices (from to : Uid) (maxSearchCount : Z) : prog W (list Uid) :=
  search (Z.to_nat maxSearchCount) [(uid_value from, uid_value to)] [].
Definition startDiscovery (from to : Uid) (maxSearchCount : Z) : prog W unit :=
  found ← discoverDevices from to maxSearchCount;
  update_api (set_discovered found).
(** Without a range: all UIDs. *)
Definition startDiscovery_all (maxSearchCount : Z) : prog W unit :=
  startDiscovery (Uid_of 0x000000000001) (Uid_of 0xFFFFFFFFFFFE) maxSearchCount.
Definition devicesDiscovered : prog W (list Uid) := gets (fun w => m_discoveredDevices (api w)).

(** ** Getting and setting parameters *)

(** [RdmApiSetter]: its constructor, and its destructor ([commit]). *)
Definition RdmApiSetter (who : Uid) (cc pid : Z) : outcome (list Z) :=
  b ← RdmEncoder.PacketEncoder raw;
  b ← RdmEncoder.Destination (uid_value who) b;
  b ← RdmEncoder.CommandClass cc b;
  RdmEncoder.Pid pid b.
Definition commit (b : list Z) : prog W unit :=
  b ← lift_outcome (
    b ← RdmEncoder.Source myUid b;
    b ← RdmEncoder.TransactionNumber 0 b;
    b ← RdmEncoder.PortId 0 b;
    b ← RdmEncoder.MessageCount 0 b;
    b ← RdmEncoder.SubDevice 0 b;
    RdmEncoder.finalize b);
  n ← lift_outcome (RdmEncoder.size b);
  api_handleTx (ConstDmxData b n).
(** [set(who, pid).add(...)], whose value is dropped at the end of the
    statement; [add] is one of the [addPd]. *)
Definition set (who : Uid) (pid : Z) (add : list Z -> outcome (list Z)) : prog W unit :=
  b ← lift_outcome (b ← RdmApiSetter who SET_COMMAND pid; add b);
  commit b.

(** [get]: the future is allocated and never freed. *)
Definition get (who : Uid) (pid : Z) : prog W nat :=
  w ← get_state;
  b ← lift_outcome (
    b ← RdmEncoder.PacketEncoder (get_buffer (api w));
    b ← RdmEncoder.Source myUid b;
    b ← RdmEncoder.Destination (uid_value who) b;
    b ← RdmEncoder.CommandClass GET_COMMAND b;
    b ← RdmEncoder.Pid pid b;
    b ← RdmEncoder.TransactionNumber 0 b;
    b ← RdmEncoder.PortId 0 b;
    b ← RdmEncoder.MessageCount 0 b;
    b ← RdmEncoder.SubDevice 0 b;
    RdmEncoder.finalize b);
  n ← lift_outcome (RdmEncoder.size b);
  _ ← update_api (set_get_buffer b);
  f ← new_RdmFuture;
  _ ← addFuture f;
  _ ← api_handleTx (ConstDmxData b n);
  mret f.
End api.
