(* ===== verification/RdmNetwork.v ===== *)
(** * A controller and its devices on one bus

    [RdmApi] at the master port of a [DmxBus] and instances of [RdmDevice] at
    its slave port, wired as in [src/librdm/rdmresponder.cpp]: requests and
    replies are calls between the objects.  A request that is sent gets its
    reply before the call returns, so no time passes in [wait]; [exchange]
    says what an exchange does, and the lemmas on [mute] and [search_range]
    follow from it. *)
From stdpp Require Import base countable list.
From S2P Require Import Prelude RdmValues RdmPacket RdmDevice RdmBus RdmApi.

Inductive pointer : Type := Slave (i : nat) | Master.

Record world := World { w_bus : DmxBusP pointer; w_devices : list RdmDeviceP; w_api : RdmApi }.
Definition put_bus (b : DmxBusP pointer) (w : world) : world := World b (w_devices w) (w_api w).
Definition put_device (i : nat) (m : RdmDeviceP) (w : world) : world := World (w_bus w) (<[i := m]> (w_devices w)) (w_api w).
Definition put_api (a : RdmApi) (w : world) : world := World (w_bus w) (w_devices w) a.

Section network.
Context `{Machine}.
(** The octets of the stack under the buffers, and those of a new future. *)
Context (stack raw : list Z).

Definition slave_port : IDmxData -> prog world unit := handleSlave w_bus put_bus.
(** [handle] of the object behind a pointer. *)
Definition receive (r : pointer) (f : IDmxData) : prog world unit :=
  match r with
  | Slave i => RdmDevice.handle (fun w => w_devices w !! i) (put_device i) (Some slave_port) stack f
  | Master => RdmApi.handle w_api put_api f
  end.
Definition master_port : IDmxData -> prog world unit := handleMaster w_bus put_bus receive stack.

(** The wiring of [main]: the devices are registered one after the other. *)
Fixpoint plug_in (devices : list (list Z * Z)) : prog world unit :=
  match devices with
  | [] => mret tt
  | d :: devices =>
      w ← get_state;
      _ ← modify (fun w => World (w_bus w) (w_devices w ++ [RdmDevice d.1 d.2]) (w_api w));
      _ ← registerSlaveReceiver w_bus put_bus (Slave (length (w_devices w)));
      plug_in devices
  end.
Definition set_up (devices : list (list Z * Z)) : prog world unit :=
  _ ← plug_in devices; registerMasterReceiver w_bus put_bus Master.
Definition unplugged : world := World DmxBus [] RdmApi_new.

(** The controller: it sends to the master port, and nobody else is running
    while it sleeps. *)
Notation no_sleep := (mret tt).
Definition net_mute : Uid -> prog world unit := mute w_api put_api (Some master_port) no_sleep raw.
Definition net_unmute : Uid -> prog world unit := unmute w_api put_api (Some master_port) no_sleep raw.
Definition net_search_range := search_range w_api put_api (Some master_port) no_sleep raw.
Definition net_search := search w_api put_api (Some master_port) no_sleep raw.
Definition net_discoverDevices := discoverDevices w_api put_api (Some master_port) no_sleep raw.
Definition net_startDiscovery := startDiscovery w_api put_api (Some master_port) no_sleep raw.
Definition net_set := RdmApi.set (W := world) (Some master_port) raw.
Definition net_get := RdmApi.get w_api put_api (Some master_port) raw.
Definition net_at := f_at w_api put_api (mret tt).

(** ** The devices hear a request *)

(** A bus between two requests. *)
Record idle (w : world) : Prop := {
  idle_master : m_master (w_bus w) = Some Master;
  idle_slaves : m_slaves (w_bus w) = Slave <$> seq 0 (length (w_devices w));
  idle_active : m_masterRequestActive (w_bus w) = false;
  idle_rxqueue : m_rxqueue (w_bus w) = [] }.

Lemma slave_port_run d v b devs a :
  m_masterRequestActive b = true -> load_all 0 (Z.to_nat (RdmValues.size d)) (data d) = Done v ->
  slave_port d (World b devs a) = Done (tt, World (set_rxqueue (m_rxqueue b ++ [v]) b) devs a).
Proof. intros Ha Hv. unfold slave_port, handleSlave, gets, mbind, prog_bind. cbn. rewrite Ha. unfold lift_outcome. by rewrite Hv. Qed.

(** What each device does with the frame: its new state and its replies. *)
Lemma slaves_run (step : RdmDeviceP -> RdmDeviceP * list (list Z)) f :
  (forall b devs a i m, devs !! i = Some m -> m_masterRequestActive b = true ->
    receive (Slave i) f (World b devs a) = Done (tt, World (set_rxqueue (m_rxqueue b ++ (step m).2) b) (<[i := (step m).1]> devs) a)) ->
  forall b devs a, m_masterRequestActive b = true ->
    for_slaves receive (Slave <$> seq 0 (length devs)) f (World b devs a) =
    Done (tt, World (set_rxqueue (m_rxqueue b ++ concat (snd ∘ step <$> devs)) b) (fst ∘ step <$> devs) a).
Proof.
  intros Hstep b devs a. cut (forall old new b, m_masterRequestActive b = true ->
    for_slaves receive (Slave <$> seq (length old) (length new)) f (World b (old ++ new) a) =
    Done (tt, World (set_rxqueue (m_rxqueue b ++ concat (snd ∘ step <$> new)) b) (old ++ (fst ∘ step <$> new)) a)).
  { intros Hc. exact (Hc [] devs b). }
  intros old new. revert old. induction new as [|m new IH]; intros old b' Ha.
  { cbn. rewrite !app_nil_r. by destruct b'. }
  cbn [length seq fmap list_fmap for_slaves].
  erewrite bind_run by (apply (Hstep _ _ _ _ m); [by rewrite lookup_app_r, Nat.sub_diag by lia|done]).
  rewrite insert_app_r_alt, Nat.sub_diag by lia. cbn [insert list_insert].
  specialize (IH (old ++ [(step m).1]) (set_rxqueue (m_rxqueue b' ++ (step m).2) b') Ha).
  rewrite length_app in IH. cbn [length] in IH. rewrite Nat.add_1_r, <- !app_assoc in IH. cbn [app] in IH. rewrite IH.
  cbn [fmap list_fmap concat m_rxqueue set_rxqueue compose]. by rewrite <- app_assoc.
Qed.

(** The frame for the master, if there is one. *)
Definition condensed (f : IDmxData) (disc : bool) (replies : list (list Z)) : outcome (option IDmxData) :=
  match replies with
  | [v] => Done (Some (frame_of v))
  | q => if disc then r ← condensed_reply stack f (length q); Done (Some r)
         else Done (match q with v :: _ => Some (frame_of v) | [] => None end)
  end.
Lemma master_port_run (step : RdmDeviceP -> RdmDeviceP * list (list Z)) f disc w reply :
  idle w -> is_discovery_request f = Done disc ->
  (forall b devs a i m, devs !! i = Some m -> m_masterRequestActive b = true ->
    receive (Slave i) f (World b devs a) = Done (tt, World (set_rxqueue (m_rxqueue b ++ (step m).2) b) (<[i := (step m).1]> devs) a)) ->
  condensed f disc (concat (snd ∘ step <$> w_devices w)) = Done reply ->
  master_port f w =
    match reply with
    | None => Done (tt, World (w_bus w) (fst ∘ step <$> w_devices w) (w_api w))
    | Some r =>
        '(_, w') ← RdmApi.handle w_api put_api r (World (set_rxqueue (concat (snd ∘ step <$> w_devices w)) (w_bus w)) (fst ∘ step <$> w_devices w) (w_api w));
        Done (tt, World (set_rxqueue [] (w_bus w')) (w_devices w') (w_api w'))
    end.
Proof.
  intros [Hm Hs Ha Hq] Hdisc Hstep Hr. destruct w as [[ma sl ac rq] devs a].
  cbn [w_bus m_master m_slaves m_masterRequestActive m_rxqueue w_devices w_api] in *. subst.
  unfold master_port, handleMaster. rewrite (bind_run _ _ _ tt (World (mkBus (Some Master) (Slave <$> seq 0 (length devs)) true []) devs a)) by done.
  unfold gets. rewrite (bind_run _ _ _ (mkBus (Some Master) (Slave <$> seq 0 (length devs)) true []) (World (mkBus (Some Master) (Slave <$> seq 0 (length devs)) true []) devs a)) by done.
  cbn [m_slaves]. erewrite bind_run by (by apply (slaves_run step)). cbn [m_rxqueue app set_rxqueue m_master m_slaves m_masterRequestActive].
  set (q := concat _) in *. unfold update_bus, modify. unfold mbind at 1, prog_bind at 1. cbn [w_bus put_bus set_active m_master m_slaves m_masterRequestActive m_rxqueue w_devices w_api].
  unfold condense. unfold gets, mbind at 1, prog_bind at 1.
  cbn [w_bus put_bus set_active set_rxqueue m_rxqueue m_master m_slaves m_masterRequestActive w_devices w_api]. unfold condensed in Hr.
  assert (forall r (w : world), m_master (w_bus w) = Some Master ->
    (to_master w_bus receive r ≫= fun _ => update_bus w_bus put_bus (set_rxqueue [])) w =
    ('(_, w') ← RdmApi.handle w_api put_api r w; Done (tt, World (set_rxqueue [] (w_bus w')) (w_devices w') (w_api w')))) as Hto.
  { intros r w Hw. unfold to_master, gets, deref, mbind, prog_bind, outcome_bind, update_bus, modify, put_bus. rewrite Hw. cbn [mret prog_ret receive].
    by destruct (RdmApi.handle w_api put_api r w) as [[[] w']|]. }
  destruct q as [|v [|v' q']] eqn:Eq.
  - rewrite Hdisc. unfold lift_outcome at 1. unfold mbind at 1, prog_bind at 1. destruct disc.
    + destruct (condensed_reply stack f (length [])) as [r|]; [|done]. cbn [mbind outcome_bind] in Hr. injection Hr as <-.
      by rewrite <- Hto.
    + injection Hr as <-. done.
  - injection Hr as <-. by rewrite <- Hto.
  - rewrite Hdisc. unfold lift_outcome at 1. unfold mbind at 1, prog_bind at 1. destruct disc.
    + destruct (condensed_reply stack f _) as [r|]; [|done]. cbn [mbind outcome_bind] in Hr. injection Hr as <-.
      by rewrite <- Hto.
    + injection Hr as <-. by rewrite <- Hto.
Qed.

(** ** An exchange *)

Lemma api_handle_run b devs a i fut r v :
  m_futures a = [i] -> futures a !! i = Some (Some fut) -> length (m_buffer fut) = 256%nat ->
  0 <= RdmValues.size r < 256 -> load_all 0 (Z.to_nat (RdmValues.size r)) (data r) = Done v -> length v = Z.to_nat (RdmValues.size r) ->
  RdmApi.handle w_api put_api r (World b devs a) =
  Done (tt, World b devs (set_m_futures [] (set_store (<[i := Some (mkFuture (v ++ drop (length v) (m_buffer fut)) Ready)]> (futures a)) a))).
Proof.
  intros Hf Hi Hl Hn Hv Hlen. unfold RdmApi.handle, get_state. unfold mbind at 1, prog_bind at 1. cbn [w_api]. rewrite Hf.
  rewrite (bind_run _ _ _ tt (World b devs (set_store (<[i := Some (mkFuture (v ++ drop (length v) (m_buffer fut)) Ready)]> (futures a)) a))); [reflexivity|].
  unfold RdmFuture_set, the_future, get_state, live, mbind, prog_bind. cbn [w_api]. rewrite Hi. cbn [mret prog_ret].
  unfold u64. rewrite Z.mod_small by lia. rewrite (proj2 (Z.ltb_lt _ _)) by lia. unfold lift_outcome. rewrite Hv.
  rewrite (store_all_nat _ 0) by lia. unfold put_future, update_api, modify, put_api. cbn. done.
Qed.

Hypothesis Hstack : length stack = 256%nat.
Hypothesis Hraw : length raw = 256%nat.
Lemma exchange {B} step f disc w r v (k : nat -> prog world B) :
  idle w -> m_futures (w_api w) = [] -> is_discovery_request f = Done disc ->
  (forall b devs a i m, devs !! i = Some m -> m_masterRequestActive b = true ->
    receive (Slave i) f (World b devs a) = Done (tt, World (set_rxqueue (m_rxqueue b ++ (step m).2) b) (<[i := (step m).1]> devs) a)) ->
  condensed f disc (concat (snd ∘ step <$> w_devices w)) = Done (Some r) ->
  0 <= RdmValues.size r < 256 -> load_all 0 (Z.to_nat (RdmValues.size r)) (data r) = Done v -> length v = Z.to_nat (RdmValues.size r) ->
  (i ← new_RdmFuture w_api put_api raw; _ ← addFuture w_api put_api i; _ ← api_handleTx (Some master_port) f; k i) w =
  k (length (futures (w_api w)))
    (World (w_bus w) (fst ∘ step <$> w_devices w)
      (set_store (futures (w_api w) ++ [Some (mkFuture (v ++ drop (length v) raw) Ready)]) (w_api w))).
Proof.
  intros Hw Hf Hd Hstep Hr Hn Hv Hlen. destruct w as [b devs a]. cbn [w_bus w_devices w_api] in *.
  set (i := length (futures a)). set (w1 := World b devs (set_m_futures [i] (set_store (futures a ++ [Some (mkFuture raw Busy)]) a))).
  assert (forall k' : nat -> prog world B, (i ← new_RdmFuture w_api put_api raw; _ ← addFuture w_api put_api i; k' i) (World b devs a) = k' i w1) as E1.
  { intros k'. unfold new_RdmFuture, addFuture, get_state, update_api, modify, mbind, prog_bind, put_api, w1. cbn. by rewrite Hf. }
  rewrite E1. apply (bind_run _ (fun _ => k i) w1 tt). unfold api_handleTx.
  rewrite (master_port_run step f disc w1 (Some r)); [|by destruct Hw|done..]. unfold w1. cbn [w_devices w_bus w_api].
  erewrite api_handle_run; [|done|cbn; by rewrite lookup_app_r, Nat.sub_diag by lia|done|done|done|done].
  cbn [mbind outcome_bind w_bus w_devices w_api]. do 2 f_equal. destruct Hw as [_ _ _ Hq]. destruct b as [ma sl ac rq]. cbn in Hq. subst rq.
  unfold set_rxqueue. cbn. f_equal. destruct a as [s fs ds vb b1 b2 b3 b4]. cbn in Hf. subst fs. unfold set_m_futures, set_store, i. cbn. f_equal.
  by rewrite insert_app_r_alt, Nat.sub_diag by lia.
Qed.
(** Without an answer the future stays with the controller. *)
Lemma exchange_silent {B} step f disc w (k : nat -> prog world B) :
  idle w -> m_futures (w_api w) = [] -> is_discovery_request f = Done disc ->
  (forall b devs a i m, devs !! i = Some m -> m_masterRequestActive b = true ->
    receive (Slave i) f (World b devs a) = Done (tt, World (set_rxqueue (m_rxqueue b ++ (step m).2) b) (<[i := (step m).1]> devs) a)) ->
  condensed f disc (concat (snd ∘ step <$> w_devices w)) = Done None ->
  (i ← new_RdmFuture w_api put_api raw; _ ← addFuture w_api put_api i; _ ← api_handleTx (Some master_port) f; k i) w =
  k (length (futures (w_api w)))
    (World (w_bus w) (fst ∘ step <$> w_devices w)
      (set_m_futures [length (futures (w_api w))] (set_store (futures (w_api w) ++ [Some (mkFuture raw Busy)]) (w_api w)))).
Proof.
  intros Hw Hf Hd Hstep Hr. destruct w as [b devs a]. cbn [w_bus w_devices w_api] in *.
  set (i := length (futures a)). set (w1 := World b devs (set_m_futures [i] (set_store (futures a ++ [Some (mkFuture raw Busy)]) a))).
  assert (forall k' : nat -> prog world B, (i ← new_RdmFuture w_api put_api raw; _ ← addFuture w_api put_api i; k' i) (World b devs a) = k' i w1) as E1.
  { intros k'. unfold new_RdmFuture, addFuture, get_state, update_api, modify, mbind, prog_bind, put_api, w1. cbn. by rewrite Hf. }
  rewrite E1. apply (bind_run _ (fun _ => k i) w1 tt). unfold api_handleTx.
  by rewrite (master_port_run step f disc w1 None); [|by destruct Hw|..].
Qed.

End network.

(** ** Futures that are ready *)

Lemma the_future_run {B} (k : RdmFuture -> prog world B) b devs a i f :
  futures a !! i = Some (Some f) -> (the_future w_api i ≫= k) (World b devs a) = k f (World b devs a).
Proof. intros Hi. apply bind_run. unfold the_future, get_state, live, mbind, prog_bind. cbn [w_api]. by rewrite Hi. Qed.
Lemma future_wait_run b devs a i f :
  futures a !! i = Some (Some f) -> m_state f = Ready -> wait w_api put_api (mret tt) i (World b devs a) = Done (true, World b devs a).
Proof.
  intros Hi Hr. unfold wait. rewrite (the_future_run _ _ _ _ _ f) by done. rewrite Hr. rewrite decide_False by done.
  unfold mbind at 1, prog_bind at 1. cbn [mret prog_ret]. by rewrite (the_future_run _ _ _ _ _ f), Hr by done.
Qed.
Lemma reply_field_run b devs a i f read d x :
  futures a !! i = Some (Some f) -> m_state f = Ready -> read (ConstDmxData (m_buffer f) 256) = Done x ->
  reply_field w_api put_api (mret tt) i read d (World b devs a) = Done (x, World b devs a).
Proof.
  intros Hi Hr Hx. unfold reply_field. rewrite (bind_run _ _ _ _ _ (future_wait_run _ _ _ _ _ Hi Hr)).
  rewrite (the_future_run _ _ _ _ _ f) by done. by rewrite Hx.
Qed.
Lemma new_future_ready s v a : futures (set_store (s ++ [Some (mkFuture v Ready)]) a) !! length s = Some (Some (mkFuture v Ready)).
Proof. cbn. by rewrite lookup_app_r, Nat.sub_diag by lia. Qed.
Lemma wait_new b devs s v a :
  wait w_api put_api (mret tt) (length s) (World b devs (set_store (s ++ [Some (mkFuture v Ready)]) a)) =
  Done (true, World b devs (set_store (s ++ [Some (mkFuture v Ready)]) a)).
Proof. apply (future_wait_run _ _ _ _ (mkFuture v Ready)); [apply new_future_ready|done]. Qed.
