(* ===== verification/RdmDiscovery.v ===== *)
(** * Discovery on a bus

    What the requests of [RdmApi] do to the devices on the bus, and that the
    search of [discoverDevices] finds and mutes all of them, if no two have
    neighbouring UIDs.  Two neighbours are never told apart, because the split
    of a range of two UIDs has that range again as its upper half. *)
From stdpp Require Import base countable list.
From S2P Require Import Prelude RdmEncoder RdmValues RdmPacket RdmDevice RdmBus RdmApi RdmNetwork.

Section requests.
Context `{Machine}.
Context (stack : list Z).
Hypothesis Hstack : length stack = 256%nat.
Hypothesis Hend : big_endian = false.
Notation receive := (receive stack).

(** ** What each device does *)

Lemma reply_loaded dst src cc pid rt pd :
  load_all 0 (Z.to_nat (RdmValues.size (reply stack dst src cc pid rt pd))) (data (reply stack dst src cc pid rt pd)) =
  Done (packet (reply_header dst src cc pid rt (Z.of_nat (length pd))) pd).
Proof.
  unfold reply. cbn [RdmValues.size data]. rewrite Nat2Z.id. rewrite (load_all_nat _ 0) by (rewrite length_app, length_packet; lia).
  by rewrite drop_0, take_app_length' by (by rewrite length_packet).
Qed.
Lemma replied b devs a dst src cc pid rt pd :
  m_masterRequestActive b = true ->
  slave_port (reply stack dst src cc pid rt pd) (World b devs a) =
  Done (tt, World (set_rxqueue (m_rxqueue b ++ [packet (reply_header dst src cc pid rt (Z.of_nat (length pd))) pd]) b) devs a).
Proof. intros Ha. apply slave_port_run; [done|apply reply_loaded]. Qed.
Lemma unchanged b (devs : list RdmDeviceP) a i m :
  devs !! i = Some m -> World b devs a = World (set_rxqueue (m_rxqueue b ++ []) b) (<[i := m]> devs) a.
Proof. intros Hi. rewrite list_insert_id by done. rewrite app_nil_r. by destruct b. Qed.

Variables (h : Header) (pd rest : list Z) (n : Z).
Hypothesis HPDL : u8 (h_PDL h) = Z.of_nat (length pd).
Let f := ConstDmxData (packet h pd ++ rest) n.
Notation dst := (h_dstUid h mod 2 ^ 48).
Notation src := (h_srcUid h mod 2 ^ 48).
Notation pid := (u16 (h_PID h)).

Lemma device_law i m m' w : w_devices w !! i = Some m -> w_devices (put_device i m' w) !! i = Some m'.
Proof. intros Hi. cbn. apply list_lookup_insert_eq. by apply lookup_lt_Some in Hi. Qed.

Definition step_branch (s from to : Z) (m : RdmDeviceP) : RdmDeviceP * list (list Z) :=
  (m, if negb (muted m) && (from <=? RdmDevice.myUid m) && (RdmDevice.myUid m <=? to)
      then [packet (reply_header s (RdmDevice.myUid m) DISCOVERY_COMMAND_RESPONSE DISC_UNIQUE_BRANCH RESPONSE_TYPE_ACK 0) []] else []).
Lemma receive_branch from to b devs a i m :
  is_request h DISCOVERY_COMMAND -> pid = DISC_UNIQUE_BRANCH -> dst = broadcast ->
  pd = network 6 from ++ network 6 to -> devs !! i = Some m -> m_masterRequestActive b = true ->
  receive (Slave i) f (World b devs a) =
  Done (tt, World (set_rxqueue (m_rxqueue b ++ (step_branch src (from mod 2 ^ 48) (to mod 2 ^ 48) m).2) b) (<[i := (step_branch src (from mod 2 ^ 48) (to mod 2 ^ 48) m).1]> devs) a).
Proof.
  intros Hq Hp Hd Hpd Hm Ha. unfold RdmNetwork.receive, f.
  rewrite (answers_branch _ _ _ _ Hstack Hend _ _ _ _ HPDL _ m from to) by (done || by right).
  unfold step_branch. cbn [fst snd]. destruct (_ && _).
  - rewrite replied by done. by rewrite list_insert_id.
  - by rewrite <- unchanged.
Qed.

Definition step_mute (s u : Z) (b : bool) (m : RdmDeviceP) : RdmDeviceP * list (list Z) :=
  if RdmDevice.myUid m =? u then
    (set_muted b m, [packet (reply_header s u DISCOVERY_COMMAND_RESPONSE (if b then DISC_MUTE else DISC_UN_MUTE) RESPONSE_TYPE_ACK 0) []])
  else (m, []).
Lemma receive_mute (bm : bool) b devs a i m :
  is_request h DISCOVERY_COMMAND -> pid = (if bm then DISC_MUTE else DISC_UN_MUTE) -> dst <> broadcast ->
  devs !! i = Some m -> m_masterRequestActive b = true ->
  receive (Slave i) f (World b devs a) =
  Done (tt, World (set_rxqueue (m_rxqueue b ++ (step_mute src dst bm m).2) b) (<[i := (step_mute src dst bm m).1]> devs) a).
Proof.
  intros Hq Hp Hd Hm Ha. unfold RdmNetwork.receive, f, step_mute. destruct (Z.eqb_spec (RdmDevice.myUid m) dst) as [E|E].
  - rewrite (answers_mute _ _ _ _ Hstack (device_law i) _ _ _ _ _ m bm); [|done|done|done|by left].
    rewrite (proj2 (Z.eqb_neq dst broadcast)) by done. unfold put_device. cbn [w_bus w_devices w_api]. rewrite replied by done. cbn [fst snd]. by rewrite E.
  - rewrite (answers_not_me _ _ _ _ _ _ _ _ _ m DISCOVERY_COMMAND); [|done|by left|done|congruence|done].
    cbn [fst snd]. by rewrite <- unchanged.
Qed.
Definition step_mute_all (b : bool) (m : RdmDeviceP) : RdmDeviceP * list (list Z) := (set_muted b m, []).
Lemma receive_mute_all (bm : bool) b devs a i m :
  is_request h DISCOVERY_COMMAND -> pid = (if bm then DISC_MUTE else DISC_UN_MUTE) -> dst = broadcast ->
  devs !! i = Some m -> m_masterRequestActive b = true ->
  receive (Slave i) f (World b devs a) =
  Done (tt, World (set_rxqueue (m_rxqueue b ++ (step_mute_all bm m).2) b) (<[i := (step_mute_all bm m).1]> devs) a).
Proof.
  intros Hq Hp Hd Hm Ha. unfold RdmNetwork.receive, f, step_mute_all.
  rewrite (answers_mute _ _ _ _ Hstack (device_law i) _ _ _ _ _ m bm); [|done|done|done|by right].
  rewrite Hd, Z.eqb_refl. cbn [fst snd]. rewrite app_nil_r. by destruct b.
Qed.

Definition step_get (s u p : Z) (m : RdmDeviceP) : RdmDeviceP * list (list Z) :=
  (m, if RdmDevice.myUid m =? u then
        [packet (reply_header s u GET_COMMAND_RESPONSE DEVICE_INFO (get_answer m p).1 (Z.of_nat (length (get_answer m p).2))) (get_answer m p).2]
      else []).
Lemma receive_get b devs a i m :
  is_request h GET_COMMAND -> dst <> broadcast -> devs !! i = Some m -> m_masterRequestActive b = true ->
  receive (Slave i) f (World b devs a) =
  Done (tt, World (set_rxqueue (m_rxqueue b ++ (step_get src dst pid m).2) b) (<[i := (step_get src dst pid m).1]> devs) a).
Proof.
  intros Hq Hd Hm Ha. unfold RdmNetwork.receive, f, step_get. cbn [fst snd]. destruct (Z.eqb_spec (RdmDevice.myUid m) dst) as [E|E].
  - rewrite (answers_get _ _ _ _ Hstack _ _ _ _ _ m); [|done|done|by left]. rewrite replied by done. rewrite E. by rewrite list_insert_id.
  - rewrite (answers_not_me _ _ _ _ _ _ _ _ _ m GET_COMMAND); [|done|by right; left|done|congruence|done]. by rewrite <- unchanged.
Qed.

Definition step_set (s u p : Z) (m : RdmDeviceP) : RdmDeviceP * list (list Z) :=
  if RdmDevice.myUid m =? u then
    (set_answer pd p m, [packet (reply_header s u GET_COMMAND_RESPONSE DEVICE_INFO RESPONSE_TYPE_ACK 0) []])
  else (m, []).
Lemma receive_set b devs a i m :
  is_request h SET_COMMAND -> dst <> broadcast -> is_settable pid = true -> (6 <= length pd)%nat \/ (2 <= length pd)%nat /\ pid <> 0xFEED ->
  devs !! i = Some m -> m_masterRequestActive b = true ->
  receive (Slave i) f (World b devs a) =
  Done (tt, World (set_rxqueue (m_rxqueue b ++ (step_set src dst pid m).2) b) (<[i := (step_set src dst pid m).1]> devs) a).
Proof.
  intros Hq Hd Hs Hl Hm Ha. unfold RdmNetwork.receive, f, step_set. destruct (Z.eqb_spec (RdmDevice.myUid m) dst) as [E|E].
  - rewrite (answers_set _ _ _ _ Hstack Hend _ _ _ _ HPDL _ m); [|done|done|by left|done|done].
    unfold put_device. cbn [w_bus w_devices w_api]. rewrite replied by done. cbn [fst snd]. by rewrite E.
  - rewrite (answers_not_me _ _ _ _ _ _ _ _ _ m SET_COMMAND); [|done|by right; right; left|done|congruence|done].
    cbn [fst snd]. by rewrite <- unchanged.
Qed.
End requests.

(** ** Requests of the controller *)

(** A buffer of a request, and a controller between two requests. *)
Definition request_buffer (b : list Z) : Prop := exists h rest, b = header_octets h ++ rest /\ length rest = 234%nat.
Record calm (a : RdmApi) : Prop := {
  calm_futures : m_futures a = [];
  calm_mute : request_buffer (mute_buffer a);
  calm_unmute : request_buffer (unmute_buffer a);
  calm_discover : request_buffer (discover_buffer a);
  calm_get : request_buffer (get_buffer a) }.

Lemma request_buffer_of (rest : list Z) h pd : (length pd <= 12)%nat -> length rest = 234%nat ->
  request_buffer (packet h pd ++ drop (2 + length pd) rest).
Proof.
  intros Hp Hr. unfold packet. eexists _, _. split; [by rewrite <- app_assoc|].
  rewrite !length_app, length_drop. cbn. lia.
Qed.

Section controller.
Context `{Machine}.
Context (stack raw : list Z).
Hypothesis Hstack : length stack = 256%nat.
Hypothesis Hraw : length raw = 256%nat.
Hypothesis Hend : big_endian = false.

Definition mute_device (u : Z) (b : bool) (m : RdmDeviceP) : RdmDeviceP := if RdmDevice.myUid m =? u then set_muted b m else m.
Definition uids (devs : list RdmDeviceP) : list Z := RdmDevice.myUid <$> devs.

Lemma one_answer {A} (P : RdmDeviceP -> bool) (g : RdmDeviceP -> A) devs :
  concat ((fun m => if P m then [g m] else []) <$> devs) = g <$> filter (fun m => P m = true) devs.
Proof.
  induction devs as [|m devs IH]; [done|]. rewrite fmap_cons, filter_cons. cbn [concat]. rewrite IH. destruct (P m) eqn:E.
  - by rewrite decide_True.
  - by rewrite decide_False.
Qed.
Lemma filter_unique (devs : list RdmDeviceP) u :
  NoDup (uids devs) -> u ∈ uids devs -> exists m, filter (fun m => (RdmDevice.myUid m =? u) = true) devs = [m] /\ RdmDevice.myUid m = u.
Proof.
  induction devs as [|m devs IH]; intros Hnd Hin; [by apply elem_of_nil in Hin|]. unfold uids in *. rewrite fmap_cons in *.
  apply NoDup_cons in Hnd as [Hm Hnd]. rewrite filter_cons. destruct (Z.eqb_spec (RdmDevice.myUid m) u) as [E|E].
  - rewrite decide_True by done. exists m. split; [|done]. f_equal. clear IH Hin.
    assert (forall d, d ∈ devs -> RdmDevice.myUid d <> u) as Hno.
    { intros d Hd <-. apply Hm. rewrite E. by apply list_elem_of_fmap_2. }
    clear -Hno. induction devs as [|d devs IH]; [done|]. rewrite filter_cons.
    rewrite decide_False by (rewrite Z.eqb_eq; apply Hno; by left). apply IH. intros d' Hd'. apply Hno. by right.
  - rewrite decide_False by done. apply elem_of_cons in Hin as [->|Hin]; [done|]. by apply IH.
Qed.

(** [mute] and [unmute] of a device that is there, once. *)
Section mute.
Variables (get_b : RdmApi -> list Z) (set_b : list Z -> RdmApi -> RdmApi) (bm : bool).
Hypothesis Hset : forall b a, request_buffer b -> calm a ->
  calm (set_b b a) /\ futures (set_b b a) = futures a /\ m_discoveredDevices (set_b b a) = m_discoveredDevices a.
Lemma mute_with_wp u (w : world) :
  idle w -> calm (w_api w) -> request_buffer (get_b (w_api w)) -> 0 <= u < broadcast -> NoDup (uids (w_devices w)) -> u ∈ uids (w_devices w) ->
  wp (mute_with w_api put_api (Some (master_port stack)) (mret tt) raw get_b set_b (if bm then DISC_MUTE else DISC_UN_MUTE) (Uid_of u))
    (fun _ w' => w_bus w' = w_bus w /\ w_devices w' = mute_device u bm <$> w_devices w /\ calm (w_api w') /\
      m_discoveredDevices (w_api w') = m_discoveredDevices (w_api w)) w.
Proof.
  intros Hw Hc (h & rest & Hb & Hr) Hu Hnd Hin. destruct w as [b devs a]. cbn [w_bus w_devices w_api] in *.
  unfold mute_with. do 2 wp_step. cbn [w_api]. rewrite Hb. encode_steps. rewrite draft_nil, finalize_draft by (cbn; done || lia).
  unfold wp. rewrite lift_run, size_packet by (cbn; lia). rewrite lift_run.
  set (h' := with_PID _ _). set (p := packet h' [] ++ drop 2 rest).
  assert (request_buffer p) as Hp by (apply (request_buffer_of rest h' []); [cbn; lia|done]).
  destruct (Hset p a Hp Hc) as (Hc' & Hfut & Hdis).
  rewrite (bind_run _ _ _ tt (World b devs (set_b p a))) by done.
  rewrite uid_eqb_of by (unfold broadcast in *; lia). rewrite (proj2 (Z.eqb_neq u broadcast)) by lia.
  assert (h_dstUid h' mod 2 ^ 48 = u) as Hdst.
  { unfold h'. cbn [h_dstUid with_PID with_CC with_dstUid with_srcUid]. rewrite uid_value_of, Z.mod_mod by lia. apply Z.mod_small. unfold broadcast in Hu. lia. }
  set (s := h_srcUid h' mod 2 ^ 48).
  destruct (filter_unique devs u Hnd Hin) as (m & Hm & Hmu).
  rewrite (exchange stack raw Hstack Hraw (step_mute s u bm) _ false _
    (frame_of (packet (reply_header s u DISCOVERY_COMMAND_RESPONSE (if bm then DISC_MUTE else DISC_UN_MUTE) RESPONSE_TYPE_ACK 0) []))
    (packet (reply_header s u DISCOVERY_COMMAND_RESPONSE (if bm then DISC_MUTE else DISC_UN_MUTE) RESPONSE_TYPE_ACK 0) []));
    [|by destruct Hw|by destruct Hc'|..].
  - cbn [w_devices w_bus w_api]. rewrite (bind_run _ _ _ _ _ (wait_new _ _ _ _ _)).
    unfold end_RdmFuture, update_api, modify. cbn [w_bus w_devices w_api put_api]. split_and!; [done| | |done].
    + apply list_fmap_ext. intros ? d _. unfold step_mute, mute_device, compose. by destruct (_ =? u).
    + destruct Hc' as []. by split.
  - unfold p. rewrite (is_discovery_request_eq h' [] _ _ DISCOVERY_COMMAND) by (done || by left). by destruct bm.
  - intros b' devs' a' i m' Hi Ha. unfold p. rewrite (receive_mute stack Hstack h' [] (drop 2 rest) _ bm _ _ _ _ m'); try done.
    + by rewrite Hdst.
    + by destruct bm.
    + rewrite Hdst. unfold broadcast in *. lia.
  - cbn [w_devices]. unfold condensed. rewrite <- Hmu.
    replace (concat (snd ∘ step_mute s (RdmDevice.myUid m) bm <$> devs)) with
      [packet (reply_header s (RdmDevice.myUid m) DISCOVERY_COMMAND_RESPONSE (if bm then DISC_MUTE else DISC_UN_MUTE) RESPONSE_TYPE_ACK 0) []]; [done|].
    rewrite Hmu. etransitivity; [|etransitivity; [symmetry; apply (one_answer (fun m => RdmDevice.myUid m =? u) (fun _ => packet (reply_header s u DISCOVERY_COMMAND_RESPONSE (if bm then DISC_MUTE else DISC_UN_MUTE) RESPONSE_TYPE_ACK 0) []))|]].
    + by rewrite Hm.
    + f_equal. apply list_fmap_ext. intros ? d _. unfold step_mute, compose. by destruct (_ =? u).
  - unfold frame_of. cbn [RdmValues.size]. rewrite length_packet. cbn. lia.
  - unfold frame_of. cbn [RdmValues.size data]. rewrite Nat2Z.id. rewrite (load_all_nat _ 0) by lia. by rewrite drop_0, take_ge.
  - unfold frame_of. cbn [RdmValues.size]. by rewrite Nat2Z.id.
Qed.
End mute.

Lemma net_mute_wp u (w : world) :
  idle w -> calm (w_api w) -> 0 <= u < broadcast -> NoDup (uids (w_devices w)) -> u ∈ uids (w_devices w) ->
  wp (net_mute stack raw (Uid_of u))
    (fun _ w' => w_bus w' = w_bus w /\ w_devices w' = mute_device u true <$> w_devices w /\ calm (w_api w') /\
      m_discoveredDevices (w_api w') = m_discoveredDevices (w_api w)) w.
Proof.
  intros Hw Hc Hu Hnd Hin. apply (mute_with_wp mute_buffer set_mute_buffer true); try done; [|by destruct Hc].
  intros b a Hb []. done.
Qed.

(** ** One range *)

Definition hits (from to : Z) (devs : list RdmDeviceP) : list RdmDeviceP :=
  filter (fun m => muted m = false /\ from <= RdmDevice.myUid m /\ RdmDevice.myUid m <= to) devs.

(** The reply to a discovery request in a future. *)
Record is_reply (hh : Header) (src : Z) : Prop := {
  reply_startCode : u8 (h_startCode hh) = SC_RDM;
  reply_subStartCode : u8 (h_subStartCode hh) = SC_SUB_MESSAGE;
  reply_CC : u8 (h_CC hh) = DISCOVERY_COMMAND_RESPONSE;
  reply_PID : u16 (h_PID hh) = DISC_UNIQUE_BRANCH;
  reply_dst : h_dstUid hh mod 2 ^ 48 = RdmApi.myUid;
  reply_src : h_srcUid hh mod 2 ^ 48 = src }.
Lemma reply_of_device u : 0 <= u < 2 ^ 48 -> is_reply (reply_header RdmApi.myUid u DISCOVERY_COMMAND_RESPONSE DISC_UNIQUE_BRANCH RESPONSE_TYPE_ACK 0) u.
Proof. intros Hu. split; [done..|]. cbn [reply_header h_srcUid]. by rewrite Z.mod_small. Qed.
Lemma reply_of_bus u : 0 <= u < 2 ^ 48 -> is_reply (discovery_header RdmApi.myUid u) u.
Proof. intros Hu. split; [done..|]. cbn [discovery_header h_srcUid]. by rewrite Z.mod_small. Qed.

Section reply.
Variables (b : DmxBusP pointer) (devs : list RdmDeviceP) (s : list (option RdmFuture)) (a : RdmApi) (hh : Header) (src : Z) (rest : list Z).
Hypothesis Hh : is_reply hh src.
Let w := World b devs (set_store (s ++ [Some (mkFuture (packet hh [] ++ rest) Ready)]) a).
Lemma field_run {B} (k : Z -> prog world B) read d x :
  read (ConstDmxData (packet hh [] ++ rest) 256) = Done x ->
  (reply_field w_api put_api (mret tt) (length s) read d ≫= k) w = k x w.
Proof.
  intros Hx. apply bind_run. apply (reply_field_run _ _ _ _ (mkFuture (packet hh [] ++ rest) Ready)); [apply new_future_ready|done|done].
Qed.
Lemma is_discovery_reply_run {B} (k : bool -> prog world B) :
  (is_discovery_reply w_api put_api (mret tt) (length s) ≫= k) w = k true w.
Proof.
  destruct Hh as [H1 H2 H3 H4 H5 H6]. apply bind_run. unfold is_discovery_reply, f_StartCode, f_SubStartCode, f_CommandClass, f_Pid.
  rewrite (field_run _ _ _ SC_RDM) by (by rewrite StartCode_packet, H1). rewrite Z.eqb_refl. cbn [negb].
  rewrite (field_run _ _ _ SC_SUB_MESSAGE) by (by rewrite SubStartCode_packet, H2). rewrite Z.eqb_refl. cbn [negb].
  rewrite (field_run _ _ _ DISCOVERY_COMMAND_RESPONSE) by (by rewrite CommandClass_packet, H3). rewrite Z.eqb_refl. cbn [negb].
  by rewrite (field_run _ _ _ DISC_UNIQUE_BRANCH) by (by rewrite Pid_packet, H4).
Qed.
Lemma evaluate_reply_run r found :
  evaluate_reply w_api put_api (Some (master_port stack)) (mret tt) raw (length s) r found w =
  (if src =? broadcast then mret ([(r.1, u64 (u64 (r.1 + r.2) / 2 - 1)); (u64 (r.1 + r.2) / 2, r.2)], found)
   else if src =? any then mret ([], found)
   else _ ← net_mute stack raw (Uid_of src);
     mret ([r], if existsb (fun u => uid_eqb u (Uid_of src)) found then found else found ++ [Uid_of src])) w.
Proof.
  unfold evaluate_reply. rewrite is_discovery_reply_run. cbn [negb]. unfold f_Destination, f_Source.
  destruct Hh as [H1 H2 H3 H4 H5 H6].
  rewrite (field_run _ _ _ RdmApi.myUid) by (by rewrite Destination_packet, H5). rewrite Z.eqb_refl. cbn [negb].
  rewrite (field_run _ _ _ src) by (by rewrite Source_packet, H6). done.
Qed.
End reply.

Lemma hits_answers from to devs s :
  concat (snd ∘ step_branch s from to <$> devs) =
  (fun m => packet (reply_header s (RdmDevice.myUid m) DISCOVERY_COMMAND_RESPONSE DISC_UNIQUE_BRANCH RESPONSE_TYPE_ACK 0) []) <$> hits from to devs.
Proof.
  etransitivity; [apply (one_answer (fun m => negb (muted m) && (from <=? RdmDevice.myUid m) && (RdmDevice.myUid m <=? to))
    (fun m => packet (reply_header s (RdmDevice.myUid m) DISCOVERY_COMMAND_RESPONSE DISC_UNIQUE_BRANCH RESPONSE_TYPE_ACK 0) []))|].
  f_equal. unfold hits. apply list_filter_iff. intros m. rewrite !andb_true_iff, negb_true_iff, !Z.leb_le. tauto.
Qed.

(** The packet of a discovery request in the buffer of the controller. *)
Definition request_header : Header := mkHeader SC_RDM SC_SUB_MESSAGE 0 broadcast RdmApi.myUid 0 0 0 0 DISCOVERY_COMMAND DISC_UNIQUE_BRANCH 12.
Lemma discovery_request_eq b from to :
  request_buffer b ->
  exists rest, length rest = 234%nat /\
    (b ← store_all 0 (replicate 24 0) b; b ← RdmEncoder.PacketEncoder b; buildDiscoveryRequest RdmApi.myUid from to b) =
    Done (packet request_header (network 6 from ++ network 6 to) ++ drop 14 rest).
Proof.
  intros (h & rest & -> & Hr). exists rest. split; [done|].
  rewrite (store_all_header h (mkHeader 0 0 0 0 0 0 0 0 0 0 0 0) 0) by done. cbn [mbind outcome_bind].
  unfold buildDiscoveryRequest. encode_steps. rewrite draft_nil.
  rewrite addPd_size_draft by (done || lia). cbn [mbind outcome_bind].
  rewrite addPd_size_draft by (done || rewrite ?length_drop; lia). cbn [mbind outcome_bind].
  rewrite finalize_draft; [by rewrite !drop_drop|done|cbn; lia|rewrite !length_drop; lia].
Qed.
Lemma request_header_is : is_request request_header DISCOVERY_COMMAND.
Proof. done. Qed.

(** The future of a discovery request is ready, and says how many answered. *)
Definition range_reply (devs : list RdmDeviceP) (from to : Z) : Header :=
  match hits from to devs with
  | [m] => reply_header RdmApi.myUid (RdmDevice.myUid m) DISCOVERY_COMMAND_RESPONSE DISC_UNIQUE_BRANCH RESPONSE_TYPE_ACK 0
  | l => discovery_header RdmApi.myUid (if (1 <? length l)%nat then broadcast else any)
  end.
Lemma range_exchange {B} (k : nat -> prog world B) from to rest (w : world) :
  idle w -> m_futures (w_api w) = [] -> 0 <= from < 2 ^ 48 -> 0 <= to < 2 ^ 48 ->
  (i ← new_RdmFuture w_api put_api raw; _ ← addFuture w_api put_api i;
   _ ← api_handleTx (Some (master_port stack)) (ConstDmxData (packet request_header (network 6 from ++ network 6 to) ++ rest) 38); k i) w =
  k (length (futures (w_api w)))
    (World (w_bus w) (w_devices w)
      (set_store (futures (w_api w) ++ [Some (mkFuture (packet (range_reply (w_devices w) from to) [] ++ drop 26 raw) Ready)]) (w_api w))).
Proof.
  intros Hw Hf Hfrom Hto.
  set (r := match hits from to (w_devices w) with
            | [_] => frame_of (packet (range_reply (w_devices w) from to) [])
            | _ => ConstDmxData (packet (range_reply (w_devices w) from to) [] ++ drop 26 stack) 26 end).
  assert (RdmValues.size r = 26 /\ exists rest, data r = packet (range_reply (w_devices w) from to) [] ++ rest) as [Hs [rest' Hd]].
  { unfold r. destruct (hits from to (w_devices w)) as [|m [|m' l]]; [split; [done|by eexists]| |split; [done|by eexists]].
    unfold frame_of. cbn [RdmValues.size data]. rewrite length_packet. split; [done|]. exists []. by rewrite app_nil_r. }
  rewrite (exchange stack raw Hstack Hraw (step_branch RdmApi.myUid from to) _ true _ r (packet (range_reply (w_devices w) from to) [])); [..|].
  - rewrite length_packet. cbn [length]. do 2 f_equal. apply list_fmap_id.
  - done.
  - done.
  - by rewrite (is_discovery_request_eq request_header _ _ _ DISCOVERY_COMMAND) by (done || by left).
  - intros b devs a i m Hi Ha.
    pose proof (receive_branch stack Hstack Hend request_header (network 6 from ++ network 6 to) rest 38 eq_refl from to b devs a i m) as E.
    rewrite !Z.mod_small in E by (done || lia). by apply E.
  - rewrite hits_answers. unfold condensed, r, range_reply. destruct (hits from to (w_devices w)) as [|m [|m' l]]; cbn [fmap list_fmap].
    + by rewrite (condensed_reply_eq stack request_header).
    + done.
    + by rewrite (condensed_reply_eq stack request_header).
  - rewrite Hs. lia.
  - rewrite Hs, Hd. rewrite (load_all_nat _ 0) by (rewrite length_app, length_packet; cbn; lia).
    by rewrite drop_0, take_app_length' by (by rewrite length_packet).
  - by rewrite Hs, length_packet.
Qed.

(** What a search in a range does to the world. *)
Record responders (devs : list RdmDeviceP) : Prop := {
  responders_distinct : NoDup (uids devs);
  responders_uids : Forall (fun u => 0 < u < broadcast) (uids devs) }.
Definition range_searched (from to : Z) (found : list Uid) (devs : list RdmDeviceP) (r : list (Z * Z) * list Uid) (devs' : list RdmDeviceP) : Prop :=
  match hits from to devs with
  | [] => r = ([], found) /\ devs' = devs
  | [m] => r = ([(from, to)], if existsb (fun u => uid_eqb u (Uid_of (RdmDevice.myUid m))) found then found else found ++ [Uid_of (RdmDevice.myUid m)]) /\
      devs' = mute_device (RdmDevice.myUid m) true <$> devs
  | _ => r = ([(from, (from + to) / 2 - 1); ((from + to) / 2, to)], found) /\ devs' = devs
  end.
Lemma hits_elem from to devs m : m ∈ hits from to devs <-> m ∈ devs /\ muted m = false /\ from <= RdmDevice.myUid m <= to.
Proof. unfold hits. rewrite list_elem_of_filter. tauto. Qed.

Lemma wp_from {A} (m' m : prog world A) (w' w : world) Q : m w = m' w' -> wp m' Q w' -> wp m Q w.
Proof. unfold wp. by intros ->. Qed.
Lemma end_wp {A} i (r : A) w :
  wp (_ ← end_RdmFuture w_api put_api i; mret r) (fun r' w' => r' = r /\ w_bus w' = w_bus w /\ w_devices w' = w_devices w /\
    (calm (w_api w) -> calm (w_api w')) /\ m_discoveredDevices (w_api w') = m_discoveredDevices (w_api w)) w.
Proof. unfold end_RdmFuture, update_api. do 3 wp_step. unfold put_api. cbn [w_bus w_devices w_api]. split_and!; try done. intros []. by split. Qed.

Lemma search_range_wp from to found (w : world) :
  idle w -> calm (w_api w) -> responders (w_devices w) -> 1 <= from < 2 ^ 48 -> 0 <= to < 2 ^ 48 ->
  wp (net_search_range stack raw (from, to) found)
    (fun r w' => w_bus w' = w_bus w /\ calm (w_api w') /\ m_discoveredDevices (w_api w') = m_discoveredDevices (w_api w) /\
      range_searched from to found (w_devices w) r (w_devices w')) w.
Proof.
  intros Hw Hc [Hnd Hu] Hfrom Hto. destruct w as [b devs a]. cbn [w_bus w_devices w_api] in *.
  destruct (discovery_request_eq (discover_buffer a) from to) as (rest & Hr & E); [by destruct Hc|].
  set (p := packet request_header (network 6 from ++ network 6 to) ++ drop 14 rest) in E.
  assert (calm (set_discover_buffer p a)) as Hc'.
  { destruct Hc. split; try done. by apply (request_buffer_of rest request_header (network 6 from ++ network 6 to)). }
  set (hh := range_reply devs from to).
  set (a2 := set_store (futures (set_discover_buffer p a) ++ [Some (mkFuture (packet hh [] ++ drop 26 raw) Ready)]) (set_discover_buffer p a)).
  assert (calm a2) as Hc2 by (destruct Hc'; by split).
  eapply (wp_from (r ← evaluate_reply w_api put_api (Some (master_port stack)) (mret tt) raw (length (futures (set_discover_buffer p a))) (from, to) found;
    _ ← end_RdmFuture w_api put_api (length (futures (set_discover_buffer p a))); mret r) _ (World b devs a2)).
  { unfold net_search_range, search_range. unfold get_state. unfold mbind at 1, prog_bind at 1. cbn [w_api fst snd]. rewrite E, lift_run. clear E.
    rewrite (bind_run _ _ _ tt (World b devs (set_discover_buffer p a))) by done.
    assert (RdmEncoder.size p = Done 38) as -> by (unfold p; by rewrite size_packet by (cbn; lia)).
    etransitivity; [apply range_exchange; [by destruct Hw|by destruct Hc'|lia|lia]|]. cbn [w_bus w_devices w_api].
    by rewrite (bind_run _ _ _ _ _ (wait_new _ _ _ _ _)). }
  wp_step. apply (wp_mono _ (fun r w' => w_bus w' = b /\ calm (w_api w') /\ m_discoveredDevices (w_api w') = m_discoveredDevices a /\
      range_searched from to found devs r (w_devices w'))).
  2:{ intros r w' HQ. eapply wp_mono; [apply (end_wp _ r)|]. cbn beta. intros r' w'' (-> & Hb & Hd & Hcc & Hx).
      revert HQ. rewrite Hb, Hd, Hx. intros (Hb' & Hc'' & Hx' & Hs). exact (conj Hb' (conj (Hcc Hc'') (conj Hx' Hs))). }
  unfold range_searched, hh, range_reply in *. clear hh. fold a2.
  assert (forall m, m ∈ hits from to devs -> 0 < RdmDevice.myUid m < broadcast /\ RdmDevice.myUid m ∈ uids devs /\ RdmDevice.myUid m <= to) as Hin.
  { intros m Hm. apply hits_elem in Hm as [Hm Hr']. rewrite Forall_forall in Hu. assert (RdmDevice.myUid m ∈ uids devs) by (by apply list_elem_of_fmap_2).
    split_and!; [by apply Hu..|done|lia]. }
  destruct (hits from to devs) as [|m [|m' l]] eqn:Eh; cbn [length] in a2.
  - eapply wp_from; [by apply (evaluate_reply_run _ _ _ _ _ any _ (reply_of_bus any ltac:(done)))|]. done.
  - destruct (Hin m ltac:(by left)) as (Hm & Hmu & _). assert (0 <= RdmDevice.myUid m < 2 ^ 48) as Hm48 by (unfold broadcast in Hm; lia).
    eapply wp_from; [apply (evaluate_reply_run _ _ _ _ _ (RdmDevice.myUid m) _ (reply_of_device _ Hm48))|].
    rewrite (proj2 (Z.eqb_neq _ broadcast)), (proj2 (Z.eqb_neq _ any)) by (unfold any; lia).
    wp_step. eapply wp_mono; [apply (net_mute_wp (RdmDevice.myUid m)); [by destruct Hw|done|lia|done|done]|].
    cbn beta. intros [] w3 (Hb3 & Hd3 & Hc3 & Hx3). by wp_step.
  - eapply wp_from; [apply (evaluate_reply_run _ _ _ _ _ broadcast _ (reply_of_bus broadcast ltac:(done)))|].
    rewrite Z.eqb_refl. cbn [fst snd].
    assert (0 <= (from + to) / 2 - 1 < 2 ^ 64 /\ 0 <= from + to < 2 ^ 64) as [H1 H2].
    { destruct (Hin m ltac:(by left)) as (Hm & _ & Hto').
      assert (1 <= (from + to) / 2) by (apply Z.div_le_lower_bound; lia). assert ((from + to) / 2 < 2 ^ 63) by (apply Z.div_lt_upper_bound; lia). lia. }
    unfold u64. rewrite !(Z.mod_small (from + to)), (Z.mod_small ((from + to) / 2 - 1)) by lia. by wp_step.
Qed.
End controller.
