(* ===== verification/RdmSearch.v ===== *)
(** * The search of discoverDevices

    The queue of ranges against the devices that are still to be found.
    [remaining F from to] are the devices of a range that are not muted and not
    in [F], the UIDs found so far; a range costs at most one request, and
    [2 * depth + 1] more for every device in it, where [depth] bounds how often
    the range can be halved. *)
From stdpp Require Import base countable list.
From S2P Require Import Prelude RdmValues RdmPacket RdmDevice RdmBus RdmApi RdmNetwork RdmDiscovery.

(** ** Devices that are still to be found *)

Definition mute_found (F : list Z) (devs : list RdmDeviceP) : list RdmDeviceP :=
  (fun m => if bool_decide (RdmDevice.myUid m ∈ F) then set_muted true m else m) <$> devs.
Definition remaining (devs : list RdmDeviceP) (F : list Z) (from to : Z) : list RdmDeviceP :=
  filter (fun m => RdmDevice.myUid m ∉ F) (hits from to devs).
Definition depth (from to : Z) : nat := Z.to_nat (Z.log2_up (to - from)).
Definition cost (devs : list RdmDeviceP) (F : list Z) (r : Z * Z) : nat :=
  (1 + length (remaining devs F r.1 r.2) * (2 * depth r.1 r.2 + 1))%nat.
Definition total (devs : list RdmDeviceP) (F : list Z) (space : list (Z * Z)) : nat := sum_list_with (cost devs F) space.
(** No two of the devices in question have neighbouring UIDs. *)
Definition spaced (from to : Z) (devs : list RdmDeviceP) : Prop :=
  forall m m', m ∈ hits from to devs -> m' ∈ hits from to devs ->
    RdmDevice.myUid m < RdmDevice.myUid m' -> RdmDevice.myUid m + 2 <= RdmDevice.myUid m'.

Lemma uids_mute_found F devs : uids (mute_found F devs) = uids devs.
Proof. unfold uids, mute_found. rewrite <- list_fmap_compose. apply list_fmap_ext. intros ? m _. cbn. by case_bool_decide. Qed.
Lemma length_mute_found F devs : length (mute_found F devs) = length devs.
Proof. apply length_fmap. Qed.
Lemma hits_mute_found F from to devs : hits from to (mute_found F devs) = remaining devs F from to.
Proof.
  unfold remaining, hits, mute_found. induction devs as [|m devs IH]; [done|]. rewrite fmap_cons, !filter_cons, IH.
  case_bool_decide as Hm; cbn [muted RdmDevice.myUid set_muted].
  - rewrite decide_False by (by intros []). case_decide; [|done]. by rewrite filter_cons, decide_False by (by intros []).
  - case_decide; [|done]. by rewrite filter_cons, decide_True.
Qed.
Lemma mute_found_snoc u F devs : mute_device u true <$> mute_found F devs = mute_found (F ++ [u]) devs.
Proof.
  unfold mute_found. rewrite <- list_fmap_compose. apply list_fmap_ext. intros ? m _. unfold compose, mute_device.
  destruct (bool_decide_reflect (RdmDevice.myUid m ∈ F)) as [H1|H1]; cbn [RdmDevice.myUid set_muted]; destruct (Z.eqb_spec (RdmDevice.myUid m) u) as [E|E];
    destruct (bool_decide_reflect (RdmDevice.myUid m ∈ F ++ [u])) as [H2|H2]; try done; exfalso; revert H2; rewrite elem_of_app, list_elem_of_singleton; tauto.
Qed.
Lemma NoDup_uids_filter (P : RdmDeviceP -> Prop) `{!forall m, Decision (P m)} devs : NoDup (uids devs) -> NoDup (uids (filter P devs)).
Proof.
  unfold uids. induction devs as [|m devs IH]; [done|]. rewrite fmap_cons, filter_cons. intros [Hm Hnd]%NoDup_cons.
  case_decide; [|by apply IH]. rewrite fmap_cons. apply NoDup_cons. split; [|by apply IH].
  intros (m' & E & Hm')%list_elem_of_fmap. apply Hm. rewrite E. apply list_elem_of_fmap_2. by apply list_elem_of_filter in Hm' as [_ ?].
Qed.
Lemma remaining_elem devs F from to m :
  m ∈ remaining devs F from to <-> RdmDevice.myUid m ∉ F /\ m ∈ hits from to devs.
Proof. unfold remaining. by rewrite list_elem_of_filter. Qed.

(** Halving a range. *)
Lemma remaining_split devs F from mid to :
  from <= mid <= to ->
  length (remaining devs F from to) = (length (remaining devs F from (mid - 1)) + length (remaining devs F mid to))%nat.
Proof.
  intros Hm. unfold remaining, hits. induction devs as [|m devs IH]; [done|]. rewrite !filter_cons.
  destruct (decide (muted m = false /\ from <= RdmDevice.myUid m /\ RdmDevice.myUid m <= to)) as [(Hu & H1 & H2)|Hn].
  - destruct (Z.lt_ge_cases (RdmDevice.myUid m) mid) as [Hlt|Hge].
    + rewrite (decide_True (P := muted m = false /\ from <= RdmDevice.myUid m /\ RdmDevice.myUid m <= mid - 1)) by (split_and!; done || lia).
      rewrite (decide_False (P := muted m = false /\ mid <= RdmDevice.myUid m /\ RdmDevice.myUid m <= to)) by lia.
      rewrite !filter_cons. case_decide; cbn [length]; lia.
    + rewrite (decide_False (P := muted m = false /\ from <= RdmDevice.myUid m /\ RdmDevice.myUid m <= mid - 1)) by lia.
      rewrite (decide_True (P := muted m = false /\ mid <= RdmDevice.myUid m /\ RdmDevice.myUid m <= to)) by (split_and!; done || lia).
      rewrite !filter_cons. case_decide; cbn [length]; lia.
  - rewrite (decide_False (P := muted m = false /\ from <= RdmDevice.myUid m /\ RdmDevice.myUid m <= mid - 1)) by (intros (?&?&?); apply Hn; split_and!; done || lia).
    rewrite (decide_False (P := muted m = false /\ mid <= RdmDevice.myUid m /\ RdmDevice.myUid m <= to)) by (intros (?&?&?); apply Hn; split_and!; done || lia).
    exact IH.
Qed.
Lemma depth_le from to k : to - from <= 2 ^ Z.of_nat k -> (depth from to <= k)%nat.
Proof.
  intros Hk. unfold depth. apply Z.log2_up_le_mono in Hk. rewrite Z.log2_up_pow2 in Hk by lia. lia.
Qed.
Lemma depth_half from to :
  2 <= to - from ->
  (S (depth from ((from + to) / 2 - 1)%Z) <= depth from to)%nat /\ (S (depth ((from + to) / 2)%Z to) <= depth from to)%nat.
Proof.
  intros Hd. assert (to - from <= 2 ^ Z.log2_up (to - from)) as Hl by (apply Z.log2_up_spec; lia).
  assert (1 <= Z.log2_up (to - from)) as H1 by (change 1 with (Z.log2_up 2); by apply Z.log2_up_le_mono).
  unfold depth at 2 4. set (l := Z.log2_up (to - from)) in *.
  assert (2 ^ l = 2 * 2 ^ (l - 1)) as El by (rewrite <- Z.pow_succ_r by lia; f_equal; lia).
  assert (from + to = 2 * ((from + to) / 2) + (from + to) mod 2) as Em by (apply Z.div_mod; lia).
  pose proof (Z.mod_pos_bound (from + to) 2 ltac:(lia)).
  assert (depth from ((from + to) / 2 - 1) <= Z.to_nat (l - 1))%nat by (apply depth_le; rewrite Z2Nat.id by lia; lia).
  assert (depth ((from + to) / 2) to <= Z.to_nat (l - 1))%nat by (apply depth_le; rewrite Z2Nat.id by lia; lia).
  lia.
Qed.

Lemma cost_split devs F from to :
  (2 <= length (remaining devs F from to))%nat -> 2 <= to - from ->
  (1 + cost devs F (from, ((from + to) / 2 - 1)%Z) + cost devs F (((from + to) / 2)%Z, to) <= cost devs F (from, to))%nat.
Proof.
  intros Hk Hd. unfold cost. cbn [fst snd].
  assert (from <= (from + to) / 2 <= to) as Hm.
  { split; [apply Z.div_le_lower_bound; lia|]. apply Z.lt_succ_r. apply Z.div_lt_upper_bound; lia. }
  pose proof (remaining_split devs F from _ to Hm) as Hs. destruct (depth_half from to Hd) as [D1 D2]. nia.
Qed.
Lemma remaining_snoc devs F u from to : remaining devs (F ++ [u]) from to = filter (fun m => RdmDevice.myUid m <> u) (remaining devs F from to).
Proof.
  unfold remaining. rewrite list_filter_filter. apply list_filter_iff. intros m. rewrite elem_of_app, list_elem_of_singleton. tauto.
Qed.
Lemma total_snoc devs F u space : (total devs (F ++ [u]) space <= total devs F space)%nat.
Proof.
  induction space as [|r space IH]; [done|]. unfold total in *. cbn [sum_list_with].
  assert (cost devs (F ++ [u]) r <= cost devs F r)%nat; [|lia]. unfold cost. rewrite remaining_snoc.
  pose proof (length_filter (fun m => RdmDevice.myUid m <> u) (remaining devs F r.1 r.2)). nia.
Qed.
Lemma total_cons devs F r space : total devs F (r :: space) = (cost devs F r + total devs F space)%nat.
Proof. done. Qed.
Lemma total_nil devs F : total devs F [] = 0%nat.
Proof. done. Qed.
Lemma total_app devs F s1 s2 : total devs F (s1 ++ s2) = (total devs F s1 + total devs F s2)%nat.
Proof. apply sum_list_with_app. Qed.

(** ** The search *)

Section search.
Context `{Machine}.
Context (stack raw : list Z).
Hypothesis Hstack : length stack = 256%nat.
Hypothesis Hraw : length raw = 256%nat.
Hypothesis Hend : big_endian = false.
(** The devices at the start, and the range that is searched. *)
Variables (devs : list RdmDeviceP) (lo hi : Z).
Hypothesis Hdevs : responders devs.
Hypothesis Hlo : 1 <= lo < 2 ^ 48.
Hypothesis Hhi : 0 <= hi < 2 ^ 48.

Lemma remaining_wider F from to m : lo <= from -> to <= hi -> m ∈ remaining devs F from to -> m ∈ hits lo hi devs /\ RdmDevice.myUid m ∉ F /\ from <= RdmDevice.myUid m <= to.
Proof. intros H1 H2 Hm. apply remaining_elem in Hm as [HF Hm]. rewrite !hits_elem in *. split_and!; (done || lia || tauto). Qed.
Lemma remaining_two_apart F from to :
  spaced lo hi devs -> lo <= from -> to <= hi -> (2 <= length (remaining devs F from to))%nat -> 2 <= to - from.
Proof.
  intros Hsp H1 H2 Hl. assert (NoDup (uids (remaining devs F from to))) as Hnd.
  { unfold remaining, hits. do 2 apply NoDup_uids_filter. by destruct Hdevs. }
  destruct (remaining devs F from to) as [|m [|m' l]] eqn:E; [cbn in Hl; lia..|].
  destruct (remaining_wider F from to m) as (Hm & _ & Hr); [done..|rewrite E; by left|].
  destruct (remaining_wider F from to m') as (Hm' & _ & Hr'); [done..|rewrite E; by right; left|].
  assert (RdmDevice.myUid m <> RdmDevice.myUid m') as Hne.
  { unfold uids in Hnd. rewrite !fmap_cons in Hnd. apply NoDup_cons in Hnd as [Hn _]. intros Heq. apply Hn. rewrite Heq. by left. }
  destruct (Z.lt_total (RdmDevice.myUid m) (RdmDevice.myUid m')) as [Hlt|[?|Hlt]]; [|done|].
  - specialize (Hsp _ _ Hm Hm' Hlt). lia.
  - specialize (Hsp _ _ Hm' Hm Hlt). lia.
Qed.

(** The state of the loop: [F] is what was found, [space] the queue. *)
Record searching (F : list Z) (space : list (Z * Z)) (w : world) : Prop := {
  searching_idle : idle w;
  searching_calm : calm (w_api w);
  searching_devices : w_devices w = mute_found F devs;
  searching_found : NoDup F /\ Forall (fun u => u ∈ uids (hits lo hi devs)) F;
  searching_space : Forall (fun r => lo <= r.1 < 2 ^ 48 /\ 0 <= r.2 <= hi) space;
  searching_cover : forall m, m ∈ hits lo hi devs -> RdmDevice.myUid m ∉ F -> Exists (fun r => r.1 <= RdmDevice.myUid m <= r.2) space }.

Lemma same_idle w w' : idle w -> w_bus w' = w_bus w -> length (w_devices w') = length (w_devices w) -> idle w'.
Proof. intros [H1 H2 H3 H4] Hb Hl. split; by rewrite Hb, ?Hl. Qed.
Lemma all_found F w : searching F [] w -> F ≡ₚ uids (hits lo hi devs).
Proof.
  intros Hw. destruct (searching_found _ _ _ Hw) as [Hnd HF]. apply NoDup_Permutation; [done| |].
  { apply NoDup_uids_filter. by destruct Hdevs. }
  intros u. rewrite Forall_forall in HF. split; [by apply HF|]. intros (m & -> & Hm)%list_elem_of_fmap.
  destruct (decide (RdmDevice.myUid m ∈ F)) as [|Hn]; [done|]. apply (searching_cover _ _ _ Hw) in Hm; [|done]. by apply Exists_nil in Hm.
Qed.
Lemma found_before F u : Forall (fun v => v ∈ uids (hits lo hi devs)) F -> u ∉ F -> 0 <= u < 2 ^ 48 ->
  existsb (fun v => uid_eqb v (Uid_of u)) (Uid_of <$> F) = false.
Proof.
  intros HF Hu Hb. destruct (existsb _ _) eqn:E; [|done]. exfalso. apply existsb_exists in E as (v & Hv & Ev).
  apply list_elem_of_In, list_elem_of_fmap in Hv as (x & -> & Hx). rewrite Forall_forall in HF. pose proof (HF x Hx) as Hin.
  apply list_elem_of_fmap in Hin as (m & -> & Hm). destruct Hdevs as [_ Hr]. rewrite Forall_forall in Hr.
  assert (0 < RdmDevice.myUid m < broadcast) as Hm48. { apply Hr. apply list_elem_of_fmap_2. apply hits_elem in Hm. tauto. }
  rewrite uid_eqb_of in Ev by (unfold broadcast in *; lia). apply Z.eqb_eq in Ev. by subst u.
Qed.

(** One round keeps the invariant and uses up a request of the budget. *)
Lemma search_step F r space w :
  spaced lo hi devs -> searching F (r :: space) w ->
  wp (net_search_range stack raw r (Uid_of <$> F))
    (fun x w' => w_bus w' = w_bus w /\ m_discoveredDevices (w_api w') = m_discoveredDevices (w_api w) /\
      exists F', x.2 = Uid_of <$> F' /\ searching F' (space ++ x.1) w' /\
        (total devs F' (space ++ x.1) < total devs F (r :: space))%nat) w.
Proof.
  intros Hsp [Hi Hc Hd [Hnd HF] Hs Hcov]. destruct r as [from to].
  apply Forall_cons in Hs as [[Hfrom Hto] Hs]. cbn [fst snd] in *.
  eapply wp_mono; [apply search_range_wp; try done; [|lia..]|].
  { rewrite Hd. destruct Hdevs as [H1 H2]. split; by rewrite uids_mute_found. }
  cbn beta. intros [new found] w' (Hb & Hc' & Hx & Hsearch). split_and!; [done..|].
  unfold range_searched in Hsearch. rewrite Hd, hits_mute_found in Hsearch.
  assert (forall m, m ∈ remaining devs F from to -> m ∈ hits lo hi devs /\ RdmDevice.myUid m ∉ F /\ from <= RdmDevice.myUid m <= to) as Hrem.
  { intros m. apply remaining_wider; lia. }
  pose proof (remaining_two_apart F from to Hsp ltac:(lia) ltac:(lia)) as Hapart.
  assert (forall m, m ∈ hits lo hi devs -> RdmDevice.myUid m ∉ F -> ~ m ∈ remaining devs F from to -> Exists (fun r => r.1 <= RdmDevice.myUid m <= r.2) space) as Hother.
  { intros m Hm HmF Hn. pose proof (Hcov m Hm HmF) as Hex. apply Exists_cons in Hex as [Hex|]; [|done]. exfalso. apply Hn, remaining_elem. split; [done|].
    cbn in Hex. rewrite !hits_elem in *. tauto. }
  rewrite (total_cons devs F _ space). destruct (remaining devs F from to) as [|m [|m' l]] eqn:E.
  - destruct Hsearch as [[= -> ->] Hd']. exists F. rewrite app_nil_r. split; [done|]. split; [|unfold cost; lia].
    split; try done; [by apply (same_idle w); [..|rewrite Hd, Hd']|]. intros m Hm HmF. apply Hother; [done..|]. by apply not_elem_of_nil.
  - destruct (Hrem m) as (Hm & HmF & Hmr); [by left|]. assert (0 <= RdmDevice.myUid m < 2 ^ 48) as Hm48 by lia.
    rewrite found_before in Hsearch by done. destruct Hsearch as [[= -> ->] Hd']. exists (F ++ [RdmDevice.myUid m]).
    rewrite mute_found_snoc in Hd'. split; [by rewrite fmap_app|]. split.
    + split; try done.
      * apply (same_idle w); [done..|]. by rewrite Hd, Hd', !length_mute_found.
      * split; [apply NoDup_app; split_and!; [done| |by apply NoDup_singleton]; by intros x Hx' ->%list_elem_of_singleton|].
        apply Forall_app. split; [done|]. apply Forall_singleton. by apply list_elem_of_fmap_2.
      * apply Forall_app. split; [done|]. apply Forall_singleton. done.
      * intros m2 Hm2 HmF2. apply Exists_app. left. rewrite elem_of_app, list_elem_of_singleton in HmF2. apply Hother; [done|tauto|].
        rewrite list_elem_of_singleton. intros ->. tauto.
    + cbn [fst snd]. rewrite total_app, total_cons, total_nil. pose proof (total_snoc devs F (RdmDevice.myUid m) space).
      unfold cost. cbn [fst snd]. rewrite remaining_snoc, E, filter_cons, decide_False by tauto. cbn. lia.
  - destruct Hsearch as [[= -> ->] Hd']. exists F. split; [done|].
    assert (2 <= to - from) as Hwide by (apply Hapart; cbn; lia). pose proof (cost_split devs F from to) as Hcost. rewrite E in Hcost.
    specialize (Hcost ltac:(cbn; lia) Hwide).
    assert (from <= (from + to) / 2 /\ (from + to) / 2 < to) as Hmid by (split; [apply Z.div_le_lower_bound|apply Z.div_lt_upper_bound]; lia).
    split; [|cbn [fst snd]; rewrite total_app, !total_cons, total_nil; lia].
    split; try done.
    + apply (same_idle w); [done..|]. by rewrite Hd, Hd'.
    + apply Forall_app. split; [done|]. apply Forall_cons. cbn [fst snd]. split; [lia|]. apply Forall_singleton. cbn [fst snd]. lia.
    + intros m2 Hm2 HmF2. apply Exists_app. pose proof (Hcov m2 Hm2 HmF2) as Hex. apply Exists_cons in Hex as [Hr|]; [right|by left]. cbn [fst snd] in Hr.
      destruct (Z.lt_ge_cases (RdmDevice.myUid m2) ((from + to) / 2)); [apply Exists_cons_hd|apply Exists_cons_tl, Exists_cons_hd]; cbn [fst snd]; lia.
Qed.

Lemma search_all count F space w :
  spaced lo hi devs -> searching F space w -> (total devs F space <= count)%nat ->
  wp (net_search stack raw count space (Uid_of <$> F))
    (fun found w' => w_bus w' = w_bus w /\ m_discoveredDevices (w_api w') = m_discoveredDevices (w_api w) /\
      exists F', found = Uid_of <$> F' /\ searching F' [] w') w.
Proof.
  intros Hsp. revert F space w. induction count as [|count IH]; intros F [|r space] w Hw Hc.
  - unfold net_search. cbn [RdmApi.search]. wp_step. split_and!; [done..|]. by exists F.
  - rewrite total_cons in Hc. unfold cost in Hc. lia.
  - unfold net_search. cbn [RdmApi.search]. wp_step. split_and!; [done..|]. by exists F.
  - unfold net_search. cbn [RdmApi.search]. wp_step. eapply wp_mono; [by apply search_step|].
    cbn beta. intros x w' (Hb & Hx & F' & -> & Hw' & Hlt). eapply wp_mono; [apply IH; [done|lia]|].
    cbn beta. intros found w'' (Hb' & Hx' & Hr). by rewrite Hb', Hb, Hx', Hx.
Qed.
End search.

Lemma mute_found_perm F F' devs : F ≡ₚ F' -> mute_found F devs = mute_found F' devs.
Proof.
  intros HF. unfold mute_found. apply list_fmap_ext. intros ? m _.
  by rewrite (bool_decide_ext (RdmDevice.myUid m ∈ F) (RdmDevice.myUid m ∈ F')) by (by rewrite HF).
Qed.
Lemma depth_48 from to : 1 <= from -> to < 2 ^ 48 -> (depth from to <= 48)%nat.
Proof. intros H1 H2. apply depth_le. change (Z.of_nat 48) with 48. lia. Qed.
Lemma uid_values (F : list Z) : Forall (fun u => 0 <= u < 2 ^ 48) F -> uid_value <$> (Uid_of <$> F) = F.
Proof.
  induction 1 as [|u F Hu _ IH]; [done|]. rewrite !fmap_cons, IH, uid_value_of, Z.mod_small by done. done.
Qed.
Lemma hits_bounds from to devs : responders devs -> Forall (fun u => 0 <= u < 2 ^ 48) (uids (hits from to devs)).
Proof.
  intros [_ Hu]. rewrite Forall_forall in *. intros u (m & -> & Hm)%list_elem_of_fmap.
  assert (0 < RdmDevice.myUid m < broadcast) as Hb. { apply Hu, list_elem_of_fmap_2. apply hits_elem in Hm. tauto. }
  unfold broadcast in Hb. lia.
Qed.

(** ** What discovery finds *)

Section discovery.
Context `{Machine}.
Context (stack raw : list Z).
Hypothesis Hstack : length stack = 256%nat.
Hypothesis Hraw : length raw = 256%nat.
Hypothesis Hend : big_endian = false.

Lemma searching_start from to (w : world) :
  idle w -> calm (w_api w) -> responders (w_devices w) -> 1 <= from < 2 ^ 48 -> 0 <= to < 2 ^ 48 ->
  searching (w_devices w) from to [] [(from, to)] w.
Proof.
  intros Hi Hc Hd Hfrom Hto. split; [done..| | | |].
  - unfold mute_found. symmetry. etransitivity; [|apply list_fmap_id]. apply list_fmap_ext. intros ? m _. done.
  - split; [by apply NoDup_nil|by apply Forall_nil].
  - apply Forall_singleton. cbn [fst snd]. lia.
  - intros m Hm _. apply Exists_cons_hd. cbn [fst snd]. apply hits_elem in Hm. tauto.
Qed.

(** C6: On a little-endian machine, the discovery of a range finds all devices in it that are not muted,
    each once, and leaves exactly these muted as well.  It needs at most one
    request and 97 more for each device; no two of the devices may have
    neighbouring UIDs. *)
Theorem discovery_finds_devices from to count (w : world) :
  idle w -> calm (w_api w) -> responders (w_devices w) -> 1 <= from < 2 ^ 48 -> 0 <= to < 2 ^ 48 ->
  spaced from to (w_devices w) -> 1 + 97 * Z.of_nat (length (hits from to (w_devices w))) <= count ->
  wp (net_startDiscovery stack raw (Uid_of from) (Uid_of to) count)
    (fun _ w' => idle w' /\ calm (w_api w') /\
      uid_value <$> m_discoveredDevices (w_api w') ≡ₚ uids (hits from to (w_devices w)) /\
      w_devices w' = mute_found (uids (hits from to (w_devices w))) (w_devices w)) w.
Proof.
  intros Hi Hc Hd Hfrom Hto Hsp Hcount. unfold net_startDiscovery, startDiscovery, discoverDevices. wp_step.
  rewrite !uid_value_of, !Z.mod_small by lia.
  eapply wp_mono; [apply (search_all stack raw Hstack Hraw Hend (w_devices w) from to Hd Hfrom Hto (Z.to_nat count) []); [done|by apply searching_start|]|].
  { rewrite total_cons, total_nil. unfold cost. cbn [fst snd]. pose proof (depth_48 from to ltac:(lia) ltac:(lia)).
    assert (remaining (w_devices w) [] from to = hits from to (w_devices w)) as ->; [|nia].
    rewrite <- hits_mute_found. f_equal. etransitivity; [|apply list_fmap_id]. apply list_fmap_ext. intros ? m _. done. }
  cbn beta. intros found w' (Hb & Hx & F & -> & Hs). unfold update_api. wp_step. unfold put_api. cbn [w_bus w_devices w_api set_discovered m_discoveredDevices].
  pose proof (all_found _ _ _ Hd _ _ Hs) as HF. destruct Hs as [[] [] Hdev _ _ _]. split_and!; [by split..| |].
  - rewrite uid_values; [done|]. rewrite HF. by apply hits_bounds.
  - rewrite Hdev. by apply mute_found_perm.
Qed.

(** C38: On a little-endian machine, two devices that are not muted and have
    neighbouring UIDs are never found by the discovery of these two UIDs, however many requests it may
    make: the range is split into an empty one and itself. *)
Theorem neighbours_are_not_found a count (w : world) :
  idle w -> calm (w_api w) -> responders (w_devices w) -> 1 <= a -> a + 1 < 2 ^ 48 ->
  a ∈ uids (hits a (a + 1) (w_devices w)) -> a + 1 ∈ uids (hits a (a + 1) (w_devices w)) ->
  wp (net_discoverDevices stack raw (Uid_of a) (Uid_of (a + 1)) count) (fun found w' => found = [] /\ w_devices w' = w_devices w) w.
Proof.
  intros Hi Hc Hd Ha1 Ha2 Hin1 Hin2. unfold net_discoverDevices, discoverDevices. rewrite !uid_value_of, !Z.mod_small by lia.
  cut (forall n space w', space = [(a, a + 1)] \/ space = [(a, a - 1); (a, a + 1)] ->
    idle w' -> calm (w_api w') -> w_devices w' = w_devices w ->
    wp (net_search stack raw n space []) (fun found w'' => found = [] /\ w_devices w'' = w_devices w) w').
  { intros Hcut. apply Hcut; try done. by left. }
  induction n as [|n IH]; intros space w' Hspace Hi' Hc' Hw'.
  { by destruct Hspace as [->| ->]; unfold net_search; cbn [RdmApi.search]; wp_step. }
  assert (responders (w_devices w')) as Hd' by (by rewrite Hw').
  destruct Hspace as [->| ->]; unfold net_search; cbn [RdmApi.search]; wp_step;
    (eapply wp_mono; [apply search_range_wp; try done; lia|]); cbn beta; intros r w'' (Hb & Hc'' & Hx & Hs); rewrite Hw' in Hs; unfold range_searched in Hs.
  - destruct (hits a (a + 1) (w_devices w)) as [|m [|m' l]] eqn:E.
    + by apply elem_of_nil in Hin1.
    + cbn in Hin1, Hin2. apply list_elem_of_singleton in Hin1, Hin2. lia.
    + destruct Hs as [-> Hdev]. cbn [fst snd app]. apply IH; [right|by apply (same_idle w'); [..|rewrite Hdev, Hw']|done|done].
      assert ((a + (a + 1)) / 2 = a) as -> by (symmetry; apply (Z.div_unique _ _ _ 1); lia). done.
  - assert (hits a (a - 1) (w_devices w) = []) as E.
    { apply elem_of_nil_inv. intros m (_ & _ & Hm)%hits_elem. lia. }
    rewrite E in Hs. destruct Hs as [-> Hdev]. cbn [fst snd app]. apply IH; [by left|by apply (same_idle w'); [..|rewrite Hdev, Hw']|done|done].
Qed.
End discovery.

(** ** The bus of rdmresponder.cpp *)

(** The world after the wiring of the devices. *)
Definition rig (devices : list (list Z * Z)) : world :=
  World (mkBus (Some Master) (Slave <$> seq 0 (length devices)) false []) ((fun d => RdmDevice d.1 d.2) <$> devices) RdmApi_new.
Lemma set_up_rig devices : set_up devices unplugged = Done (tt, rig devices).
Proof.
  unfold set_up. rewrite (bind_run _ _ _ tt (World (mkBus None (Slave <$> seq 0 (length devices)) false []) ((fun d => RdmDevice d.1 d.2) <$> devices) RdmApi_new)); [done|].
  cut (forall old, plug_in devices (World (mkBus None (Slave <$> seq 0 (length old)) false []) old RdmApi_new) =
    Done (tt, World (mkBus None (Slave <$> seq 0 (length old + length devices)) false []) (old ++ ((fun d => RdmDevice d.1 d.2) <$> devices)) RdmApi_new)).
  { intros Hc. exact (Hc []). }
  induction devices as [|d devices IH]; intros old; cbn [plug_in length].
  { by rewrite Nat.add_0_r, app_nil_r. }
  unfold get_state, mbind at 1, prog_bind at 1. cbn [w_devices].
  rewrite (bind_run _ _ _ tt (World (mkBus None (Slave <$> seq 0 (length old)) false []) (old ++ [RdmDevice d.1 d.2]) RdmApi_new)) by done.
  rewrite (bind_run _ _ _ tt (World (mkBus None (Slave <$> seq 0 (length (old ++ [RdmDevice d.1 d.2]))) false []) (old ++ [RdmDevice d.1 d.2]) RdmApi_new)).
  - rewrite IH, length_app. cbn [length fmap list_fmap]. rewrite <- app_assoc, <- Nat.add_assoc. done.
  - unfold registerSlaveReceiver, update_bus, modify, put_bus. cbn. rewrite length_app. cbn [length]. rewrite seq_app, fmap_app. done.
Qed.
Lemma rig_idle devices : idle (rig devices).
Proof. split; try done. cbn. by rewrite length_fmap. Qed.
Lemma rig_calm devices : calm (w_api (rig devices)).
Proof.
  assert (request_buffer (replicate 258 0)) as Hb by (exists (mkHeader 0 0 0 0 0 0 0 0 0 0 0 0), (replicate 234 0); done).
  by split.
Qed.

(** ** Witnesses *)

(** The devices of [main]; the names are "1", "2" and "3". *)
Definition responder_devices : list (list Z * Z) := [([49], 0x123400000815); ([50], 0x123400040000); ([51], 0x123400100000)].
Lemma responder_devices_ok : responders (w_devices (rig responder_devices)).
Proof.
  split.
  - apply (bool_decide_unpack (NoDup [0x123400000815; 0x123400040000; 0x123400100000])). vm_compute. done.
  - repeat constructor.
Qed.
Lemma responder_devices_spaced : spaced 1 0xFFFFFFFFFFFE (w_devices (rig responder_devices)).
Proof.
  intros m m' [Hm _]%hits_elem [Hm' _]%hits_elem. cbn in Hm, Hm'.
  rewrite !list_elem_of_In in Hm, Hm'. cbn in Hm, Hm'.
  destruct Hm as [<-|[<-|[<-|[]]]]; destruct Hm' as [<-|[<-|[<-|[]]]]; cbn; lia.
Qed.

Lemma discovery_finds_devices_witness :
  wp (@net_startDiscovery little_endian_machine (replicate 256 0) (replicate 256 0) (Uid_of 1) (Uid_of 0xFFFFFFFFFFFE) 1000)
    (fun _ w' => uid_value <$> m_discoveredDevices (w_api w') ≡ₚ [0x123400000815; 0x123400040000; 0x123400100000]) (rig responder_devices).
Proof.
  eapply wp_mono.
  - apply (@discovery_finds_devices little_endian_machine (replicate 256 0) (replicate 256 0) eq_refl eq_refl eq_refl 1 0xFFFFFFFFFFFE 1000 (rig responder_devices)).
    + apply rig_idle.
    + apply rig_calm.
    + apply responder_devices_ok.
    + lia.
    + lia.
    + apply responder_devices_spaced.
    + vm_compute. discriminate.
  - intros [] w' (_ & _ & Hf & _). exact Hf.
Defined.

Lemma neighbours_are_not_found_witness :
  wp (@net_discoverDevices little_endian_machine (replicate 256 0) (replicate 256 0) (Uid_of 0x814) (Uid_of 0x815) 0xFFFFFFFF)
    (fun found _ => found = []) (rig [([49], 0x814); ([50], 0x815)]).
Proof.
  eapply wp_mono.
  - apply (@neighbours_are_not_found little_endian_machine (replicate 256 0) (replicate 256 0) eq_refl eq_refl eq_refl 0x814 0xFFFFFFFF (rig [([49], 0x814); ([50], 0x815)])).
    + apply rig_idle.
    + apply rig_calm.
    + split; [apply (bool_decide_unpack (NoDup [0x814; 0x815])); vm_compute; done|repeat constructor].
    + lia.
    + lia.
    + apply list_elem_of_here.
    + apply list_elem_of_further, list_elem_of_here.
  - intros found w' [Hf _]. exact Hf.
Defined.
