(* ===== verification/RdmParameters.v ===== *)
(** * Parameters of devices on a bus

    [set] and [get] of [RdmApi] with the devices of [RdmNetwork]: a start
    address that is set is read back, a UID arrives reversed, and a request
    that nobody answers leaves the controller with a pointer to a future that
    is gone. *)
From stdpp Require Import base countable list.
From S2P Require Import Prelude RdmEncoder RdmValues RdmPacket RdmDevice RdmBus RdmApi RdmNetwork RdmDiscovery RdmSearch.

Section parameters.
Context `{Machine}.
Context (stack raw : list Z).
Hypothesis Hstack : length stack = 256%nat.
Hypothesis Hraw : length raw = 256%nat.
Hypothesis Hoctets : Forall octet raw.
Hypothesis Hend : big_endian = false.

(** ** Setting *)

(** The device with UID [u] after a [SET_COMMAND] with the data [pd]. *)
Definition set_device (u p : Z) (pd : list Z) (m : RdmDeviceP) : RdmDeviceP :=
  if RdmDevice.myUid m =? u then set_answer pd p m else m.

Lemma setter_start u pid :
  0 <= u < 2 ^ 48 ->
  exists h rest, length rest = 232%nat /\ RdmApiSetter raw (Uid_of u) SET_COMMAND pid = Done (draft h [] rest) /\
    h_startCode h = SC_RDM /\ h_subStartCode h = SC_SUB_MESSAGE /\ h_CC h = command_class SET_COMMAND /\ h_PID h = pid /\
    h_dstUid h = u /\ h_PDL h = 0.
Proof.
  intros Hu. destruct (octets_of_header (take 24 raw)) as [h Eh]; [rewrite length_take; lia|by apply Forall_take|].
  eexists _, (drop 24 raw). split; [by rewrite length_drop, Hraw|]. unfold RdmApiSetter.
  rewrite <- (take_drop 24 raw) at 1. rewrite <- Eh. encode_steps. rewrite draft_nil. split; [done|].
  split_and!; try done. change (uid_value (Uid_of u) = u). by rewrite uid_value_of, Z.mod_small.
Qed.

(** The answer to a [SET_COMMAND] finds no future and is dropped. *)
Lemma nobody_waits b devs a r : m_futures a = [] -> RdmApi.handle w_api put_api r (World b devs a) = Done (tt, World b devs a).
Proof.
  intros Hf. unfold RdmApi.handle, get_state, mbind, prog_bind. cbn [w_api]. rewrite Hf. cbn.
  do 3 f_equal. destruct a. cbn in *. by subst.
Qed.

Lemma commit_wp u pid h pd rest (w : world) :
  idle w -> calm (w_api w) -> NoDup (uids (w_devices w)) -> u ∈ uids (w_devices w) -> 0 <= u < broadcast ->
  h_startCode h = SC_RDM -> h_subStartCode h = SC_SUB_MESSAGE -> h_CC h = command_class SET_COMMAND -> h_PID h = pid -> h_dstUid h = u ->
  u8 (h_PDL h) = Z.of_nat (length pd) -> (length pd <= 12)%nat -> (length pd + length rest = 232)%nat ->
  is_settable pid = true -> 0 <= pid < 2 ^ 16 -> (6 <= length pd)%nat \/ (2 <= length pd)%nat /\ pid <> 0xFEED ->
  wp (commit (W := world) (Some (master_port stack)) (draft h pd rest))
    (fun _ w' => w' = World (w_bus w) (set_device u pid pd <$> w_devices w) (w_api w)) w.
Proof.
  intros Hw Hc Hnd Hin Hu H1 H2 H3 H4 H5 HP Hl Hr Hs Hpid Hlen. unfold commit, draft. encode_steps.
  set (h' := with_subDevice 0 _). assert (u8 (h_PDL h') = Z.of_nat (length pd)) as HP' by done.
  change (header_octets h' ++ pd ++ rest) with (draft h' pd rest). rewrite finalize_draft by (done || lia).
  unfold wp. rewrite lift_run, size_packet by lia. rewrite lift_run. unfold api_handleTx.
  set (s := h_srcUid h' mod 2 ^ 48).
  assert (h_dstUid h' mod 2 ^ 48 = u) as Hdst. { change (h_dstUid h' mod 2 ^ 48) with (h_dstUid h mod 2 ^ 48). rewrite H5. apply Z.mod_small. unfold broadcast in Hu. lia. }
  assert (u16 (h_PID h') = pid) as Hp. { change (u16 (h_PID h') = pid) with (u16 (h_PID h) = pid). rewrite H4. by apply Z.mod_small. }
  assert (is_request h' SET_COMMAND) as Hq by (split; cbn; by rewrite ?H1, ?H2, ?H3).
  destruct (filter_unique (w_devices w) u Hnd Hin) as (m & Hm & Hmu).
  set (reply := packet (reply_header s u GET_COMMAND_RESPONSE DEVICE_INFO RESPONSE_TYPE_ACK 0) []).
  rewrite (master_port_run stack (step_set pd s u pid) _ false w (Some (frame_of reply))); [| |..].
  - rewrite nobody_waits by (by destruct Hc). cbn [mbind outcome_bind w_bus w_devices w_api]. f_equal.
    + destruct w as [[ma sl ac rq] devs a]. destruct Hw as [_ _ _ Hq']. cbn in Hq'. by subst rq.
    + apply list_fmap_ext. intros ? d _. unfold step_set, set_device, compose. by destruct (_ =? u).
  - done.
  - rewrite (is_discovery_request_eq h' pd _ _ SET_COMMAND) by (first [by destruct Hq | by right; right]). done.
  - intros b devs a i m' Hi Ha.
    pose proof (receive_set stack Hstack Hend h' pd (drop 2 rest) (Z.of_nat (26 + length pd)) HP' b devs a i m') as E. rewrite Hdst, Hp in E.
    apply E; try done. unfold broadcast in *. lia.
  - unfold condensed. replace (concat (snd ∘ step_set pd s u pid <$> w_devices w)) with [reply]; [done|].
    etransitivity; [|etransitivity; [symmetry; apply (one_answer (fun m => RdmDevice.myUid m =? u) (fun _ => reply))|]]; [by rewrite Hm|].
    f_equal. apply list_fmap_ext. intros ? d _. unfold step_set, compose. by destruct (_ =? u).
Qed.

(** ** Getting *)

Lemma net_get_wp u pid (w : world) :
  idle w -> calm (w_api w) -> NoDup (uids (w_devices w)) -> u ∈ uids (w_devices w) -> 0 <= u < broadcast -> 0 <= pid < 2 ^ 16 ->
  wp (net_get stack raw (Uid_of u) pid)
    (fun f w' => w_bus w' = w_bus w /\ w_devices w' = w_devices w /\ calm (w_api w') /\
      exists m hh rest, m ∈ w_devices w /\ RdmDevice.myUid m = u /\
        futures (w_api w') !! f = Some (Some (mkFuture (packet hh (get_answer m pid).2 ++ rest) Ready)) /\
        u8 (h_PDL hh) = Z.of_nat (length (get_answer m pid).2) /\ h_portId hh = (get_answer m pid).1) w.
Proof.
  intros Hw Hc Hnd Hin Hu Hpid. destruct w as [b devs a]. cbn [w_bus w_devices w_api] in *.
  unfold net_get, get. do 2 wp_step. cbn [w_api]. destruct (calm_get _ Hc) as (h & rest & Hb & Hr). rewrite Hb. encode_steps.
  set (h' := with_subDevice 0 _). rewrite draft_nil, finalize_draft by (cbn; done || lia).
  unfold wp. rewrite lift_run, size_packet by (cbn; lia). rewrite lift_run.
  set (p := packet h' [] ++ drop 2 rest). rewrite (bind_run _ _ _ tt (World b devs (set_get_buffer p a))) by done.
  assert (calm (set_get_buffer p a)) as Hc'.
  { destruct Hc. split; try done. by apply (request_buffer_of rest h' []); [cbn; lia|]. }
  assert (h_dstUid h' mod 2 ^ 48 = u) as Hdst.
  { change (h_dstUid h') with (uid_value (Uid_of u)). rewrite uid_value_of, Z.mod_mod by lia. apply Z.mod_small. unfold broadcast in Hu. lia. }
  assert (u16 (h_PID h') = pid) as Hp by (by apply Z.mod_small).
  set (s := h_srcUid h' mod 2 ^ 48).
  destruct (filter_unique devs u Hnd Hin) as (m & Hm & Hmu).
  assert (m ∈ devs) as Hmd. { assert (m ∈ [m]) as Hone by (by left). rewrite <- Hm in Hone. by apply list_elem_of_filter in Hone as [_ ?]. }
  set (hh := reply_header s u GET_COMMAND_RESPONSE DEVICE_INFO (get_answer m pid).1 (Z.of_nat (length (get_answer m pid).2))).
  pose proof (length_get_answer m pid) as Hlen.
  assert (RdmValues.size (frame_of (packet hh (get_answer m pid).2)) = Z.of_nat (26 + length (get_answer m pid).2)) as Hsize.
  { unfold frame_of. cbn [RdmValues.size]. by rewrite length_packet. }
  rewrite (exchange stack raw Hstack Hraw (step_get s u pid) _ false _ (frame_of (packet hh (get_answer m pid).2)) (packet hh (get_answer m pid).2));
    [|by destruct Hw|by destruct Hc'|..].
  - cbn [w_bus w_devices w_api mret prog_ret]. split_and!; [done|apply list_fmap_id|destruct Hc'; by split|].
    exists m, hh, (drop (length (packet hh (get_answer m pid).2)) raw). split_and!; [done|done|apply new_future_ready| |done].
    cbn. apply octet_bounds. lia.
  - unfold p. by rewrite (is_discovery_request_eq h' [] _ _ GET_COMMAND) by (done || by right; left).
  - intros b' devs' a' i m' Hi Ha. unfold p.
    pose proof (receive_get stack Hstack h' [] (drop 2 rest) (Z.of_nat (26 + length (@nil Z))) b' devs' a' i m') as E. rewrite Hdst, Hp in E.
    apply E; try done. unfold broadcast in *. lia.
  - cbn [w_devices]. unfold condensed. replace (concat (snd ∘ step_get s u pid <$> devs)) with [packet hh (get_answer m pid).2]; [done|].
    symmetry. etransitivity; [apply (one_answer (fun m => RdmDevice.myUid m =? u) (fun m =>
      packet (reply_header s u GET_COMMAND_RESPONSE DEVICE_INFO (get_answer m pid).1 (Z.of_nat (length (get_answer m pid).2))) (get_answer m pid).2))|]. by rewrite Hm.
  - rewrite Hsize. lia.
  - rewrite Hsize, Nat2Z.id. unfold frame_of. cbn [data]. rewrite (load_all_nat _ 0) by (rewrite length_packet; lia).
    by rewrite drop_0, take_ge by (rewrite length_packet; lia).
  - by rewrite Hsize, Nat2Z.id, length_packet.
Qed.

Lemma responder_uid (devs : list RdmDeviceP) u : responders devs -> u ∈ uids devs -> 0 <= u < broadcast.
Proof. intros [_ Hu] Hin. rewrite Forall_forall in Hu. specialize (Hu u Hin). lia. Qed.

Lemma net_set_wp u pid (add : list Z -> outcome (list Z)) pd (w : world) :
  idle w -> calm (w_api w) -> responders (w_devices w) -> u ∈ uids (w_devices w) ->
  (forall h rest, length rest = 232%nat -> h_PDL h = 0 ->
    exists h', add (draft h [] rest) = Done (draft h' pd (drop (length pd) rest)) /\ u8 (h_PDL h') = Z.of_nat (length pd) /\
      with_PDL 0 h' = with_PDL 0 h) ->
  (length pd <= 12)%nat -> is_settable pid = true -> 0 <= pid < 2 ^ 16 -> (6 <= length pd)%nat \/ (2 <= length pd)%nat /\ pid <> 0xFEED ->
  wp (net_set stack raw (Uid_of u) pid add) (fun _ w' => w' = World (w_bus w) (set_device u pid pd <$> w_devices w) (w_api w)) w.
Proof.
  intros Hw Hc Hd Hin Hadd Hl Hs Hpid Hlen. pose proof (responder_uid _ _ Hd Hin) as Hu.
  destruct (setter_start u pid) as (h & rest & Hr & E & H1 & H2 & H3 & H4 & H5 & HP); [unfold broadcast in Hu; lia|].
  destruct (Hadd h rest Hr HP) as (h' & Ea & HP' & Hh).
  unfold net_set, RdmApi.set. wp_step. unfold wp at 1. rewrite E. cbn [mbind outcome_bind]. rewrite Ea. cbn [lift_outcome].
  assert (forall f : Header -> Z, (forall h v, f (with_PDL v h) = f h) -> f h' = f h) as Hf.
  { intros f Hi. by rewrite <- (Hi h' 0), <- (Hi h 0), Hh. }
  apply commit_wp; try done.
  - by destruct Hd.
  - by rewrite (Hf h_startCode).
  - by rewrite (Hf h_subStartCode).
  - by rewrite (Hf h_CC).
  - by rewrite (Hf h_PID).
  - by rewrite (Hf h_dstUid).
  - rewrite length_drop. lia.
Qed.

(** The start address that is set at a device of the bus is the one that
    [get] reads back from it, as far as it fits into 16 bits; the other devices
    keep theirs. *)
Theorem address_read_back u v (w : world) :
  idle w -> calm (w_api w) -> responders (w_devices w) -> u ∈ uids (w_devices w) ->
  wp (_ ← net_set stack raw (Uid_of u) DMX_START_ADDRESS (RdmEncoder.addPd 2 v);
      f ← net_get stack raw (Uid_of u) DMX_START_ADDRESS;
      net_at 2 f 0)
    (fun x w' => x = v mod 2 ^ 16 /\
      w_devices w' = (fun m => if RdmDevice.myUid m =? u then set_dmxAddress (v mod 2 ^ 16) m else m) <$> w_devices w) w.
Proof.
  intros Hw Hc Hd Hin. pose proof (responder_uid _ _ Hd Hin) as Hu. wp_step. eapply wp_mono.
  { apply (net_set_wp u DMX_START_ADDRESS _ (network 2 v)); try done.
    - intros h rest Hr HP. rewrite (addPd_draft h [] rest) by (rewrite ?HP; done || lia). eexists. split; [by rewrite length_network|]. done.
    - rewrite length_network. lia.
    - right. by rewrite length_network. }
  cbn beta. intros [] w1 ->. wp_step.
  set (devs1 := set_device u DMX_START_ADDRESS (network 2 v) <$> w_devices w).
  assert (forall m, set_device u DMX_START_ADDRESS (network 2 v) m = if RdmDevice.myUid m =? u then set_dmxAddress (v mod 2 ^ 16) m else m) as Hset.
  { intros m. unfold set_device, set_answer. rewrite Z.eqb_refl, take_ge, from_network_network by (by rewrite length_network). done. }
  assert (uids devs1 = uids (w_devices w)) as Huids.
  { unfold uids, devs1. rewrite <- list_fmap_compose. apply list_fmap_ext. intros ? m _. unfold compose. rewrite Hset. by destruct (_ =? u). }
  eapply wp_mono; [apply (net_get_wp u DMX_START_ADDRESS)|]; cbn [w_bus w_devices w_api].
  { apply (same_idle w); [done..|]. cbn [w_devices]. apply length_fmap. }
  { done. }
  { rewrite Huids. by destruct Hd. }
  { by rewrite Huids. }
  { done. }
  { cbn. lia. }
  intros f [b2 devs2 a2] (Hb2 & Hd2 & Hc2 & m & hh & rest & Hm & Hmu & Hfut & HP & _). cbn [w_bus w_devices w_api] in *. subst b2 devs2.
  apply list_elem_of_fmap in Hm as (m0 & -> & Hm0). rewrite Hset in *. destruct (Z.eqb_spec (RdmDevice.myUid m0) u) as [E|E]; [|done].
  set (pd := (get_answer (set_dmxAddress (v mod 2 ^ 16) m0) DMX_START_ADDRESS).2) in *. change pd with (network 2 (v mod 2 ^ 16)) in *.
  unfold net_at, f_at, wp. rewrite (bind_run _ _ _ _ _ (future_wait_run _ _ _ _ _ Hfut eq_refl)). cbn beta iota.
  rewrite (the_future_run _ _ _ _ _ _ Hfut). cbn [m_buffer]. unfold PdAt. change 0 with (Z.of_nat 0).
  rewrite PdAt_size_packet by (done || (rewrite length_network; lia)). rewrite lift_run. cbn [mret prog_ret w_devices].
  rewrite drop_0, take_ge, from_network_network by (by rewrite length_network). split; [by rewrite Z.mod_mod by lia|].
  apply list_fmap_ext. intros ? d _. apply Hset.
Qed.

(** [set ... factory-uid] gives the device the octets of the new UID in
    reverse order: a UID as an object is in network order already, and
    [addPd] turns it round like an integer. *)
Theorem uid_arrives_reversed u v (w : world) :
  idle w -> calm (w_api w) -> responders (w_devices w) -> u ∈ uids (w_devices w) ->
  wp (net_set stack raw (Uid_of u) 0xFEED (RdmEncoder.addPd_uid (Uid_of v)))
    (fun _ w' => w_devices w' = (fun m => if RdmDevice.myUid m =? u then RdmDevice.set_myUid (from_network (rev (network 6 v))) m else m) <$> w_devices w) w.
Proof.
  intros Hw Hc Hd Hin. eapply wp_mono.
  { apply (net_set_wp u 0xFEED _ (rev (network 6 v))); try done.
    - intros h rest Hr HP. rewrite Uid_of_network, (addPd_uid_draft h [] rest) by (rewrite ?HP; done || lia). eexists. split; [by rewrite length_rev, length_network|]. done.
    - rewrite length_rev, length_network. lia.
    - left. by rewrite length_rev, length_network. }
  cbn beta. intros [] w' ->. cbn [w_devices]. apply list_fmap_ext. intros ? m _. unfold set_device.
  change (set_answer (rev (network 6 v)) 0xFEED m) with (RdmDevice.set_myUid (from_network (take 6 (rev (network 6 v)))) m).
  by rewrite take_ge by (by rewrite length_rev, length_network).
Qed.

(** ** Requests without an answer *)

Lemma wait_loop_busy n i b devs a :
  futures a !! i = Some (Some (mkFuture raw Busy)) -> wait_loop w_api (mret tt) n i (World b devs a) = Done (tt, World b devs a).
Proof.
  intros Hi. induction n as [|n IH]; cbn [wait_loop]; rewrite (the_future_run _ _ _ _ _ _ Hi); cbn [m_state]; rewrite decide_True by done; [done|].
  exact IH.
Qed.
Lemma filter_none (devs : list RdmDeviceP) u : u ∉ uids devs -> filter (fun m => (RdmDevice.myUid m =? u) = true) devs = [].
Proof.
  intros Hn. apply elem_of_nil_inv. intros m [E Hm]%list_elem_of_filter. apply Hn. apply Z.eqb_eq in E as <-. by apply list_elem_of_fmap_2.
Qed.

(** A reply is written through the first pointer, whose future is gone. *)
Lemma search_range_dangles from to found b devs a i l :
  idle (World b devs a) -> request_buffer (discover_buffer a) -> 0 <= from < 2 ^ 48 -> 0 <= to < 2 ^ 48 ->
  m_futures a = i :: l -> futures a !! i = Some None ->
  net_search_range stack raw (from, to) found (World b devs a) = Fault Dangling.
Proof.
  intros Hw Hbuf Hfrom Hto Hl Hi. destruct (discovery_request_eq stack raw Hstack Hraw Hend _ from to Hbuf) as (rest & Hr & E).
  set (p := packet request_header (network 6 from ++ network 6 to) ++ drop 14 rest) in E.
  unfold net_search_range, search_range, get_state. unfold mbind at 1, prog_bind at 1. cbn [w_api fst snd]. rewrite E, lift_run. clear E.
  rewrite (bind_run _ _ _ tt (World b devs (set_discover_buffer p a))) by done.
  set (w1 := World b devs (set_m_futures (m_futures a ++ [length (futures a)]) (set_store (futures a ++ [Some (mkFuture raw Busy)]) (set_discover_buffer p a)))).
  assert (forall B (k : nat -> prog world B), (i ← new_RdmFuture w_api put_api raw; _ ← addFuture w_api put_api i; k i) (World b devs (set_discover_buffer p a)) = k (length (futures a)) w1) as E1 by done.
  rewrite E1. clear E1. assert (RdmEncoder.size p = Done 38) as -> by (unfold p; by rewrite size_packet by (cbn; lia)). rewrite lift_run.
  assert (forall B (k : unit -> prog world B), master_port stack (ConstDmxData p 38) w1 = Fault Dangling -> (api_handleTx (Some (master_port stack)) (ConstDmxData p 38) ≫= k) w1 = Fault Dangling) as Hbind.
  { intros B k Hf. unfold api_handleTx, mbind, prog_bind. by rewrite Hf. }
  apply Hbind. destruct (condensed stack (ConstDmxData p 38) true (concat (snd ∘ step_branch RdmApi.myUid from to <$> devs))) as [[r|]|f] eqn:Er.
  - rewrite (master_port_run stack (step_branch RdmApi.myUid from to) _ true w1 (Some r)); [|by destruct Hw| | |done].
    + unfold RdmApi.handle, get_state, mbind, prog_bind, outcome_bind. cbn [w_api w1 m_futures set_m_futures]. rewrite Hl. cbn [app].
      unfold RdmFuture_set, the_future, get_state, live, mbind, prog_bind. cbn [w_api w1 futures set_m_futures set_store].
      rewrite lookup_app_l by (by apply lookup_lt_Some in Hi). by rewrite Hi.
    + unfold p. by rewrite (is_discovery_request_eq request_header _ _ _ DISCOVERY_COMMAND) by (done || by left).
    + intros b' devs' a' j m Hj Ha.
      pose proof (receive_branch stack Hstack Hend request_header (network 6 from ++ network 6 to) (drop 14 rest) 38 eq_refl from to b' devs' a' j m) as E.
      rewrite !Z.mod_small in E by (done || lia). by apply E.
  - exfalso. unfold condensed in Er. destruct (concat _) as [|v [|v' q]]; [|done|]; unfold p in Er; by rewrite (condensed_reply_eq stack request_header) in Er.
  - exfalso. unfold condensed in Er. destruct (concat _) as [|v [|v' q]]; [|done|]; unfold p in Er; by rewrite (condensed_reply_eq stack request_header) in Er.
Qed.

(** C39: On a little-endian machine, a [mute] of a device that is not there waits for a second and returns.
    The pointer to its future, which is gone then, stays with the controller,
    and the reply to the next discovery is written through it. *)
Theorem unanswered_request_dangles u (w : world) :
  idle w -> calm (w_api w) -> responders (w_devices w) -> u ∉ uids (w_devices w) -> 0 <= u < broadcast ->
  exists w', net_mute stack raw (Uid_of u) w = Done (tt, w') /\ w_devices w' = w_devices w /\
    forall from to found, 0 <= from < 2 ^ 48 -> 0 <= to < 2 ^ 48 -> net_search_range stack raw (from, to) found w' = Fault Dangling.
Proof.
  intros Hw Hc Hd Hnin Hu. destruct w as [b devs a]. cbn [w_bus w_devices w_api] in *.
  destruct (calm_mute _ Hc) as (h & rest & Hb & Hr).
  set (h' := with_PID DISC_MUTE (with_CC DISCOVERY_COMMAND (with_dstUid (uid_value (Uid_of u)) (with_srcUid RdmApi.myUid (started h))))).
  set (p := packet h' [] ++ drop 2 rest). set (a1 := set_mute_buffer p a). set (i := length (futures a)).
  set (a3 := set_m_futures [i] (set_store (futures a ++ [None]) a1)).
  exists (World b devs a3). split_and!; [| done |].
  - unfold net_mute, mute, mute_with, get_state. unfold mbind at 1, prog_bind at 1. cbn [w_api]. rewrite Hb. encode_steps.
    fold h'. rewrite draft_nil, finalize_draft by (cbn; done || lia). rewrite lift_run, size_packet by (cbn; lia). rewrite lift_run. fold p.
    rewrite (bind_run _ _ _ tt (World b devs a1)) by done.
    rewrite uid_eqb_of by (unfold broadcast in *; lia). rewrite (proj2 (Z.eqb_neq u broadcast)) by lia.
    assert (h_dstUid h' mod 2 ^ 48 = u) as Hdst.
    { change (h_dstUid h') with (uid_value (Uid_of u)). rewrite uid_value_of, Z.mod_mod by lia. apply Z.mod_small. unfold broadcast in Hu. lia. }
    rewrite (exchange_silent stack raw (step_mute RdmApi.myUid u true) _ false); [|by destruct Hw|by destruct Hc|..].
    + change (futures (w_api (World b devs a1))) with (futures a). fold i. cbn [w_bus w_devices w_api].
      assert (fst ∘ step_mute RdmApi.myUid u true <$> devs = devs) as ->.
      { etransitivity; [|apply list_fmap_id]. apply list_fmap_ext. intros j m Hm. unfold compose, step_mute.
        destruct (Z.eqb_spec (RdmDevice.myUid m) u) as [E|]; [|done]. exfalso. apply Hnin. rewrite <- E. apply list_elem_of_fmap_2. by eapply list_elem_of_lookup_2. }
      set (a2 := set_m_futures [i] (set_store (futures a ++ [Some (mkFuture raw Busy)]) a1)).
      assert (futures a2 !! i = Some (Some (mkFuture raw Busy))) as Hi by (cbn; unfold i; by rewrite lookup_app_r, Nat.sub_diag by lia).
      rewrite (bind_run _ _ _ false (World b devs (set_store (futures a ++ [Some (mkFuture raw Timeout)]) a2))).
      * unfold end_RdmFuture, update_api, modify, put_api. cbn. unfold i. by rewrite insert_app_r_alt, Nat.sub_diag by lia.
      * unfold wait. rewrite (the_future_run _ _ _ _ _ _ Hi). cbn [m_state]. rewrite decide_True by done.
        rewrite (bind_run _ _ _ tt (World b devs (set_store (futures a ++ [Some (mkFuture raw Timeout)]) a2))).
        -- rewrite (the_future_run _ _ _ _ _ (mkFuture raw Timeout)); [done|]. cbn. unfold i. by rewrite lookup_app_r, Nat.sub_diag by lia.
        -- rewrite (bind_run _ _ _ _ _ (wait_loop_busy _ _ _ _ _ Hi)), (the_future_run _ _ _ _ _ _ Hi). cbn [m_state m_buffer]. rewrite decide_True by done.
           unfold put_future, update_api, modify, put_api. cbn. unfold i. by rewrite insert_app_r_alt, Nat.sub_diag by lia.
    + unfold p. by rewrite (is_discovery_request_eq h' [] _ _ DISCOVERY_COMMAND) by (done || by left).
    + intros b' devs' a' j m' Hi Ha. unfold p.
      pose proof (receive_mute stack Hstack h' [] (drop 2 rest) (Z.of_nat (26 + length (@nil Z))) true b' devs' a' j m') as E. rewrite Hdst in E.
      apply E; try done. unfold broadcast in *. lia.
    + cbn [w_devices]. unfold condensed. replace (concat (snd ∘ step_mute RdmApi.myUid u true <$> devs)) with (@nil (list Z)); [done|].
      symmetry. etransitivity; [|etransitivity; [apply (one_answer (fun m => RdmDevice.myUid m =? u) (fun _ : RdmDeviceP => @nil Z))|by rewrite filter_none]].
      f_equal. apply list_fmap_ext. intros j m Hm. unfold compose, step_mute.
      destruct (Z.eqb_spec (RdmDevice.myUid m) u) as [E|]; [|done]. exfalso. apply Hnin. rewrite <- E. apply list_elem_of_fmap_2. by eapply list_elem_of_lookup_2.
  - intros from to found Hfrom Hto. apply (search_range_dangles from to found b devs a3 i []); [by destruct Hw|by destruct Hc|done..|].
    cbn. unfold i. by rewrite lookup_app_r, Nat.sub_diag by lia.
Qed.
End parameters.

(** ** Witnesses *)

Notation stack0 := (replicate 256 0).
Lemma responder_here : 0x123400040000 ∈ uids (w_devices (rig responder_devices)).
Proof. apply list_elem_of_In. cbn. tauto. Qed.

Lemma address_read_back_witness :
  wp (_ ← @net_set little_endian_machine stack0 stack0 (Uid_of 0x123400040000) DMX_START_ADDRESS (@RdmEncoder.addPd little_endian_machine 2 0x10123);
      f ← @net_get little_endian_machine stack0 stack0 (Uid_of 0x123400040000) DMX_START_ADDRESS;
      @net_at little_endian_machine 2 f 0)
    (fun x w' => x = 0x123 /\ dmxAddress <$> w_devices w' = [0; 0x123; 0]) (rig responder_devices).
Proof.
  eapply wp_mono.
  - apply (@address_read_back little_endian_machine stack0 stack0 eq_refl eq_refl (Forall_replicate _ _ _ eq_refl) eq_refl 0x123400040000 0x10123 (rig responder_devices)).
    + apply rig_idle.
    + apply rig_calm.
    + apply responder_devices_ok.
    + apply responder_here.
  - intros x w' [Hx Hd]. rewrite Hd. split; [exact Hx|reflexivity].
Defined.
Lemma uid_arrives_reversed_witness :
  wp (@net_set little_endian_machine stack0 stack0 (Uid_of 0x123400040000) 0xFEED (@RdmEncoder.addPd_uid little_endian_machine (Uid_of 0x123400000001)))
    (fun _ w' => uids (w_devices w') = [0x123400000815; 0x010000003412; 0x123400100000]) (rig responder_devices).
Proof.
  eapply wp_mono.
  - apply (@uid_arrives_reversed little_endian_machine stack0 stack0 eq_refl eq_refl (Forall_replicate _ _ _ eq_refl) eq_refl 0x123400040000 0x123400000001 (rig responder_devices)).
    + apply rig_idle.
    + apply rig_calm.
    + apply responder_devices_ok.
    + apply responder_here.
  - intros x w' Hd. rewrite Hd. reflexivity.
Defined.
Lemma unanswered_request_dangles_witness :
  exists w', @net_mute little_endian_machine stack0 stack0 (Uid_of 7) (rig responder_devices) = Done (tt, w') /\
    @net_search_range little_endian_machine stack0 stack0 (1, 0xFFFFFFFFFFFE) [] w' = Fault Dangling.
Proof.
  destruct (@unanswered_request_dangles little_endian_machine stack0 stack0 eq_refl eq_refl eq_refl 7 (rig responder_devices)) as (w' & E & _ & Hf).
  - apply rig_idle.
  - apply rig_calm.
  - apply responder_devices_ok.
  - rewrite list_elem_of_In. cbn. lia.
  - unfold broadcast. lia.
  - exists w'. split; [exact E|]. apply Hf; lia.
Defined.
