(* ===== verification/RdmInterface.v ===== *)
(** * RDM packets over a DMX device: dmx4linux2.cpp, dmx4linux2interface.cpp

    [src/librdm/dmx4linux2interface.cpp] hands packets to the file of a DMX
    card as frames and frames from the file to its receiver as packets; the
    size of a packet counts the start code, [payload_size] does not.  The file
    ([src/librdm/dmx4linux2.cpp]) is reached over the class [DmxFile]. *)
From stdpp Require Import base countable gmap list.
From S2P Require Import Prelude KList FrameQueue RdmValues RdmPacket.

(** ** The device *)

(** [Dmx4Linux2Device::open]: the name that is opened, from the argument and
    the two variables of the environment. *)
Definition open_name {N} (default : N) (env_DMXDEVICE env_DEFAULT_DMXDEVICE name : option N) : N :=
  let name := match env_DMXDEVICE with Some n => Some n | None => name end in
  let name := match name with Some n => Some n | None => env_DEFAULT_DMXDEVICE end in
  match name with Some n => n | None => default end.

(** The system calls on the open file: the number of octets that were written
    or read, with the frame, and whether [poll] finds something to read. *)
Class DmxFile (W : Type) := {
  sizeof_dmx512frame : Z;
  fd_write : dmx512frame -> prog W Z;
  fd_read : prog W (Z * dmx512frame);
  fd_poll : prog W bool }.

Section interface.
Context {W : Type} `{DmxFile W}.
Context (m_receiver : option (IDmxData -> prog W unit)).

Definition device_write (dmxframe : dmx512frame) : prog W bool :=
  ret ← fd_write dmxframe; mret (ret =? sizeof_dmx512frame).
Definition device_read : prog W (bool * dmx512frame) :=
  r ← fd_read; mret (r.1 =? sizeof_dmx512frame, r.2).

(** The frame that [Dmx4Linux2Interface::handle] makes of a packet: the copy
    takes as much as the packet says it has. *)
Definition frame_of_packet (f : IDmxData) : outcome dmx512frame :=
  if size f <? 0 then Fault OutOfBounds else
  vs ← load_all 0 (Z.to_nat (size f)) (data f);
  d ← store_all 0 vs (f_data zero_frame);
  Done (with_data d (with_payload_size (u16 (size f - 1)) (with_port 0 zero_frame))).
Definition handle (f : IDmxData) : prog W unit :=
  dmxframe ← lift_outcome (frame_of_packet f);
  _ ← device_write dmxframe;
  mret tt.

(** [Dmx4Linux2::DmxData] *)
Definition DmxData (_frame : dmx512frame) : IDmxData := ConstDmxData (f_data _frame) (f_payload_size _frame + 1).
Definition interface_handleTx (f : IDmxData) : prog W unit :=
  match m_receiver with Some receiver => receiver f | None => raise Uninitialised end.
Definition handleIngressData : prog W unit :=
  ready ← fd_poll;
  when ready (
    r ← device_read;
    when (r.1 : bool) (when (f_port r.2 =? 0) (interface_handleTx (DmxData r.2)))).
End interface.

(** ** What comes out of a device that loops frames back *)

(** A file from which the frame is read next that was written before. *)
Class LoopedFile (W : Type) `{DmxFile W} := {
  looped : forall f w, exists w1 w2 w3, fd_write f w = Done (sizeof_dmx512frame, w1) /\
    fd_poll w1 = Done (true, w2) /\ fd_read w2 = Done ((sizeof_dmx512frame, f), w3) }.

Section loop.
Context {W : Type} `{LoopedFile W}.

Lemma frame_of_packet_eq (f : IDmxData) vs :
  1 <= size f <= 513 -> load_all 0 (Z.to_nat (size f)) (data f) = Done vs -> length vs = Z.to_nat (size f) ->
  frame_of_packet f = Done (with_data (vs ++ replicate (513 - length vs) 0) (with_payload_size (size f - 1) (with_port 0 zero_frame))).
Proof.
  intros Hs Hv Hl. unfold frame_of_packet. rewrite (proj2 (Z.ltb_ge _ _)) by lia. rewrite Hv. cbn [mbind outcome_bind].
  rewrite (store_all_nat _ 0) by (cbn [f_data zero_frame]; rewrite length_replicate; unfold DATA_SIZE; lia). cbn [mbind outcome_bind].
  unfold u16. rewrite Z.mod_small by lia. cbn [f_data zero_frame]. by rewrite take_0, Nat.add_0_l, drop_replicate.
Qed.

(** A packet of up to 513 octets that goes through the interface to a
    device, and back from it, reaches the receiver with its size and its
    octets. *)
Theorem packet_through_interface receiver (f : IDmxData) (w : W) :
  1 <= size f <= 513 -> (Z.to_nat (size f) <= length (data f))%nat ->
  exists d w', size d = size f /\ take (Z.to_nat (size d)) (data d) = take (Z.to_nat (size f)) (data f) /\
    (_ ← handle f; handleIngressData (Some receiver)) w = receiver d w'.
Proof.
  intros Hs Hl. set (vs := take (Z.to_nat (size f)) (data f)).
  assert (length vs = Z.to_nat (size f)) as Hv by (unfold vs; rewrite length_take; lia).
  pose proof (load_all_nat (data f) 0 (Z.to_nat (size f)) ltac:(lia)) as Hload. rewrite drop_0 in Hload. fold vs in Hload.
  pose proof (frame_of_packet_eq f vs Hs Hload Hv) as Hf. set (fr := with_data _ _) in Hf.
  destruct (looped fr w) as (w1 & w2 & w3 & Ew & Ep & Er).
  exists (DmxData fr), w3. unfold DmxData. cbn [size data fr f_data f_payload_size with_data with_payload_size with_port].
  split_and!; [lia| |].
  - replace (size f - 1 + 1) with (size f) by lia. by rewrite take_app_length' by done.
  - unfold handle, handleIngressData, device_write, device_read, mbind, prog_bind, lift_outcome. rewrite Hf, Ew. cbn [mret prog_ret].
    rewrite Ep. unfold when. rewrite Er. cbn [mret prog_ret fst snd]. rewrite Z.eqb_refl. done.
Qed.
End loop.

(** ** Witnesses *)

(** A file that holds one frame. *)
#[local] Instance one_frame_file : DmxFile (option dmx512frame * list IDmxData) := {|
  sizeof_dmx512frame := 560;
  fd_write f := fun w => Done (560, (Some f, w.2));
  fd_read := fun w => match w.1 with Some f => Done ((560, f), (None, w.2)) | None => Done ((-1, zero_frame), w) end;
  fd_poll := fun w => Done (bool_decide (is_Some w.1), w) |}.
#[local] Instance one_frame_loops : LoopedFile (option dmx512frame * list IDmxData).
Proof.
  split. intros f w. exists (Some f, w.2), (Some f, w.2), (None, w.2).
  split; [reflexivity|]. split; reflexivity.
Defined.
Lemma packet_through_interface_witness :
  exists d w', size d = 3 /\ take 3 (data d) = [0xCC; 1; 24] /\
    (_ ← handle (ConstDmxData [0xCC; 1; 24; 99] 3); handleIngressData (Some (fun d => modify (fun w => (w.1, d :: w.2))))) (None, []) = Done (tt, (w'.1, d :: w'.2)).
Proof.
  destruct (packet_through_interface (fun d => modify (fun w : option dmx512frame * list IDmxData => (w.1, d :: w.2))) (ConstDmxData [0xCC; 1; 24; 99] 3) (None, []))
    as (d & w' & Hs & Hd & E).
  - cbn. lia.
  - vm_compute. lia.
  - exists d, w'. rewrite Hs in Hd. split; [exact Hs|]. split; [exact Hd|exact E].
Defined.
