(* ===== verification/CommandShell.v ===== *)
(** * Command lines: commandinterpreter.hpp

    [src/librdm/commandinterpreter.hpp]: commands by name, the splitting of a
    line into arguments, the completion of names, and files of commands.  A
    [std::string] is a list of characters; the functions of [std::string] the
    code uses are defined first.  A command is a program on the state [W] that
    returns what it prints ([Out]).  The file system is a parameter. *)
From Stdlib Require Import String Ascii.
From stdpp Require Import base countable list.
From S2P Require Import Prelude.

Notation text := (list ascii).
Definition str (s : String.string) : text := String.list_ascii_of_string s.
#[export] Instance ascii_eq_dec : EqDecision ascii := Ascii.ascii_dec.

(** ** [std::string] *)

(** Positions; none is [npos]. *)
Fixpoint find_if (p : ascii -> bool) (s : text) : option nat :=
  match s with [] => None | c :: s => if p c then Some O else S <$> find_if p s end.
Definition one_of (set : text) (c : ascii) : bool := bool_decide (c ∈ set).
Definition find_first_not_of (s set : text) : option nat := find_if (fun c => negb (one_of set c)) s.
Definition find_last_not_of (s set : text) : option nat :=
  (fun i => (length s - 1 - i)%nat) <$> find_if (fun c => negb (one_of set c)) (rev s).
Definition find (c : ascii) (pos : nat) (s : text) : option nat := (fun i => (pos + i)%nat) <$> find_if (fun x => bool_decide (x = c)) (drop pos s).
Definition substr (pos len : nat) (s : text) : text := take len (drop pos s).

(** ** Splitting a line *)

Definition blanks : text := [" "; "009"]%char.
Definition trim (s whitespace : text) : text :=
  match find_first_not_of s whitespace with
  | None => []
  | Some strBegin =>
      match find_last_not_of s whitespace with
      | Some strEnd => substr strBegin (strEnd - strBegin + 1) s
      | None => []
      end
  end.

(** The loop of [split_command], which looks for the next separator from
    [pos] on; the fuel is the number of characters that are left. *)
Definition seperator : ascii := " "%char.
Fixpoint split_from (fuel : nat) (command : text) (prev_pos pos : nat) : list text :=
  match find seperator pos command, fuel with
  | Some i, S fuel => substr prev_pos (i - prev_pos) command :: split_from fuel command (S i) (S i)
  | _, _ => [drop prev_pos command]
  end.
Definition split_command (_command : text) : list text :=
  let command := trim _command blanks in split_from (length command) command 0 0.

(** ** Commands *)

(** [operator <] of strings, by the codes of the characters. *)
Fixpoint text_compare (a b : text) : comparison :=
  match a, b with
  | [], [] => Eq
  | [], _ => Lt
  | _, [] => Gt
  | x :: a, y :: b => match Z.of_N (N_of_ascii x) ?= Z.of_N (N_of_ascii y) with Eq => text_compare a b | c => c end
  end.

Section parser.
Context {W Out : Type}.
(** The lines of a file, if it can be opened. *)
Context (files : text -> option (list text)).

(** A function of the map: [execute_file] of the parser itself, which is bound
    by the constructor, or one that was added. *)
Inductive CommandFunction : Type :=
  | ExecuteFile
  | Function (f : list text -> prog W (list Out)).
(** [std::map]: the keys in their order. *)
Definition CommandMap : Type := list (text * CommandFunction).

Fixpoint map_set (name : text) (f : CommandFunction) (m : CommandMap) : CommandMap :=
  match m with
  | [] => [(name, f)]
  | (k, g) :: m =>
      match text_compare name k with
      | Lt => (name, f) :: (k, g) :: m
      | Eq => (name, f) :: m
      | Gt => (k, g) :: map_set name f m
      end
  end.
Fixpoint map_find (name : text) (m : CommandMap) : option CommandFunction :=
  match m with
  | [] => None
  | (k, g) :: m => if decide (k = name) then Some g else map_find name m
  end.

Definition addCommand : text -> CommandFunction -> CommandMap -> CommandMap := map_set.
Definition CommandParser : CommandMap := addCommand (str "execfile"%string) ExecuteFile [].
Definition commandNames (m : CommandMap) : list text := fst <$> m.
Definition listMatchings (m : CommandMap) (cmdlineSoFar text : text) : list (list ascii) :=
  filter (fun word => (length text <= length word)%nat /\ take (length text) word = text) (commandNames m).

(** [Execute] and [execute_file]; [depth] bounds how deep files may run
    files.  A name that is not known is printed with its arguments on the
    standard output, not on the stream of the parser. *)
Fixpoint Execute (depth : nat) (m : CommandMap) (args : list text) : prog W (bool * list Out) :=
  match args with
  | [] => mret (false, [])
  | name :: _ =>
      match map_find name m with
      | None => mret (false, [])
      | Some (Function f) => o ← f args; mret (true, o)
      | Some ExecuteFile =>
          match depth with
          | O => raise OutOfFuel
          | S depth =>
              o ← match args with
                  | _ :: file :: _ =>
                      match files file with
                      | None => mret []
                      | Some lines =>
                          (fix execute_lines (lines : list text) : prog W (list Out) :=
                             match lines with
                             | [] => mret []
                             | line :: lines =>
                                 o ← (if decide (head line = Some "#"%char) then mret []
                                      else r ← Execute depth m (split_command line); mret r.2);
                                 os ← execute_lines lines;
                                 mret (o ++ os)
                             end) lines
                      end
                  | _ => mret []
                  end;
              mret (true, o)
          end
      end
  end.
Definition Execute_line (depth : nat) (m : CommandMap) (_command : text) : prog W (bool * list Out) :=
  Execute depth m (split_command _command).
End parser.
Arguments CommandFunction : clear implicits.
Arguments CommandMap : clear implicits.

(** ** Lemmas: splitting *)

Lemma find_if_Some p s i : find_if p s = Some i -> exists c, s !! i = Some c /\ p c = true /\ Forall (fun c => p c = false) (take i s).
Proof.
  revert i. induction s as [|c s IH]; intros i; cbn; [done|]. destruct (p c) eqn:E.
  - intros [= <-]. exists c. by rewrite take_0.
  - destruct (find_if p s) as [j|] eqn:Ej; [|done]. intros [= <-]. destruct (IH j eq_refl) as (d & Hd & Hp & Hf).
    exists d. cbn. split_and!; [done|done|]. by apply Forall_cons.
Qed.
Lemma find_if_None p s : find_if p s = None -> Forall (fun c => p c = false) s.
Proof.
  induction s as [|c s IH]; cbn; [by constructor|]. destruct (p c) eqn:E; [done|]. destruct (find_if p s); [done|].
  intros _. apply Forall_cons. split; [done|by apply IH].
Qed.
Lemma find_sep pos s i :
  find seperator pos s = Some i -> (pos <= i)%nat /\ s !! i = Some seperator /\ seperator ∉ take (i - pos) (drop pos s).
Proof.
  unfold find. intros (j & Hj & E)%fmap_Some. subst i. destruct (find_if_Some _ _ _ Hj) as (c & Hc & Hp & Hf).
  apply bool_decide_eq_true in Hp. subst c. rewrite lookup_drop in Hc. split_and!; [lia|done|].
  replace (pos + j - pos)%nat with j by lia. intros Hin. rewrite Forall_forall in Hf. specialize (Hf _ Hin).
  by rewrite bool_decide_eq_false in Hf.
Qed.
Lemma find_sep_none pos s : find seperator pos s = None -> seperator ∉ drop pos s.
Proof.
  unfold find. intros Hn. destruct (find_if _ (drop pos s)) eqn:E; [done|]. apply find_if_None in E. rewrite Forall_forall in E.
  intros Hin. specialize (E _ Hin). by rewrite bool_decide_eq_false in E.
Qed.

(** The arguments with one separator between them. *)
Fixpoint join (args : list text) : text :=
  match args with [] => [] | [a] => a | a :: args => a ++ seperator :: join args end.
Lemma join_cons a args : args <> [] -> join (a :: args) = a ++ seperator :: join args.
Proof. by destruct args. Qed.
Lemma split_from_cons fuel s prev pos : split_from fuel s prev pos <> [].
Proof. destruct fuel; cbn; by destruct (find _ _ _). Qed.
Lemma split_from_joins fuel s pos :
  (length s <= pos + fuel)%nat ->
  join (split_from fuel s pos pos) = drop pos s /\ Forall (fun a => seperator ∉ a) (split_from fuel s pos pos).
Proof.
  revert pos. induction fuel as [|fuel IH]; intros pos Hl; cbn [split_from]; destruct (find seperator pos s) as [i|] eqn:E.
  - exfalso. apply find_sep in E as (Hi & Hs & _). apply lookup_lt_Some in Hs. lia.
  - split; [done|]. apply Forall_singleton. by apply find_sep_none.
  - apply find_sep in E as (Hi & Hs & Hn). destruct (IH (S i)) as [Hj Hf]; [lia|].
    rewrite join_cons by apply split_from_cons. rewrite Hj. split.
    + unfold substr. rewrite <- (take_drop (i - pos) (drop pos s)) at 2. f_equal. rewrite drop_drop.
      replace (pos + (i - pos))%nat with i by lia. by rewrite (drop_S s seperator i).
    + apply Forall_cons. split; [exact Hn|done].
  - split; [done|]. apply Forall_singleton. by apply find_sep_none.
Qed.

(** The arguments of a line contain no blank, and with one blank between
    them they are the line without the blanks and tabs around it: nothing is
    lost, and two blanks in a row make an empty argument. *)
Theorem split_command_joins line :
  join (split_command line) = trim line blanks /\ Forall (fun a => seperator ∉ a) (split_command line).
Proof. apply split_from_joins. lia. Qed.

(** ** Lemmas: the map of the commands *)

Lemma text_compare_eq a b : text_compare a b = Eq <-> a = b.
Proof.
  revert b. induction a as [|x a IH]; intros [|y b]; cbn; try done. destruct (Z.compare_spec (Z.of_N (N_of_ascii x)) (Z.of_N (N_of_ascii y))) as [E|E|E].
  - rewrite IH. apply N2Z.inj, (f_equal ascii_of_N) in E. rewrite !ascii_N_embedding in E. subst y. split; [by intros ->|by intros [=]].
  - split; [done|]. intros [= -> ->]. lia.
  - split; [done|]. intros [= -> ->]. lia.
Qed.
Lemma text_compare_antisym a b : text_compare b a = CompOpp (text_compare a b).
Proof.
  revert b. induction a as [|x a IH]; intros [|y b]; cbn; try done.
  rewrite (Z.compare_antisym (Z.of_N (N_of_ascii x))). destruct (_ ?= _); cbn; [apply IH|done..].
Qed.

Section commands.
Context {W Out : Type}.
Notation CommandMap := (CommandMap W Out).
Implicit Types m : CommandMap.

(** A command that was added is found, and hides the one of its name only. *)
Lemma map_find_set k name f m : map_find k (map_set name f m) = if decide (k = name) then Some f else map_find k m.
Proof.
  induction m as [|[k' g] m IH]; cbn; [by repeat case_decide; subst|].
  destruct (text_compare name k') eqn:E; cbn.
  - apply text_compare_eq in E as ->. by repeat case_decide; subst.
  - by repeat case_decide; subst.
  - rewrite IH. repeat case_decide; subst; try done. by rewrite (proj2 (text_compare_eq _ _)) in E.
Qed.

(** The keys are in their order, each once. *)
Fixpoint ordered (l : list text) : Prop :=
  match l with a :: ((b :: _) as l') => text_compare a b = Lt /\ ordered l' | _ => True end.
Lemma map_set_ordered name f m : ordered (commandNames m) -> ordered (commandNames (map_set name f m)).
Proof.
  induction m as [|[k g] m IH]; [done|]. intros Ho. unfold commandNames in *. cbn [map_set]. destruct (text_compare name k) eqn:E.
  - apply text_compare_eq in E as ->. exact Ho.
  - by cbn in *.
  - assert (text_compare k name = Lt) as E' by (rewrite text_compare_antisym, E; done).
    destruct m as [|[k2 g2] m]; [done|]. destruct Ho as [Hk Ho]. specialize (IH Ho). cbn [map_set] in *.
    destruct (text_compare name k2) eqn:E2; cbn in *; tauto.
Qed.

(** The names of the commands are always in their order without
    repetition, and completion lists exactly those that start with the text
    that was typed, in that order. *)
Theorem completion_lists_names (cmds : list (text * CommandFunction W Out)) sofar t :
  let m := foldl (fun m c => addCommand c.1 c.2 m) CommandParser cmds in
  ordered (commandNames m) /\
  (forall n, n ∈ commandNames m <-> n = str "execfile" \/ n ∈ cmds.*1) /\
  (forall n, n ∈ listMatchings m sofar t <-> n ∈ commandNames m /\ t `prefix_of` n) /\
  listMatchings m sofar t `sublist_of` commandNames m.
Proof.
  cbv zeta. split_and!.
  - cut (ordered (commandNames (@CommandParser W Out))); [|done]. generalize (@CommandParser W Out) as m.
    induction cmds as [|c cmds IH]; intros m Ho; [done|]. apply IH. by apply map_set_ordered.
  - assert (forall m n, n ∈ commandNames m <-> is_Some (map_find n m)) as Hfind.
    { intros m n. unfold commandNames. induction m as [|[k g] m IH]; cbn; [split; [by intros ?%elem_of_nil|by intros []]|].
      rewrite elem_of_cons. case_decide as Hk; [split; [by eexists|by left]|]. rewrite IH. split; [by intros [->|]|by right]. }
    cut (forall m n, n ∈ commandNames (foldl (fun m c => addCommand c.1 c.2 m) m cmds) <-> n ∈ commandNames m \/ n ∈ cmds.*1).
    { intros Hc n. rewrite Hc. change (commandNames CommandParser) with [str "execfile"]. by rewrite list_elem_of_singleton. }
    induction cmds as [|c cmds IH]; intros m n; cbn [foldl fmap list_fmap]; [split; [by left|by intros [|?%elem_of_nil]]|].
    rewrite IH, elem_of_cons, !Hfind. unfold addCommand. rewrite map_find_set. case_decide; [|tauto]. split; [tauto|]. intros _. left. by eexists.
  - intros n. unfold listMatchings. rewrite list_elem_of_filter. split.
    + intros [[_ Ht] Hn]. split; [done|]. rewrite <- Ht. apply prefix_take.
    + intros [Hn [k ->]]. split; [|done]. rewrite length_app. split; [lia|]. by rewrite take_app_length.
  - apply sublist_filter.
Qed.

(** A file of commands whose first line runs this file again runs for
    ever: however deep the nesting may be, it is not deep enough. *)
Theorem file_that_runs_itself files depth m name line lines s :
  map_find (str "execfile") m = Some (@ExecuteFile W Out) -> files name = Some (line :: lines) ->
  split_command line = [str "execfile"; name] -> head line <> Some "#"%char ->
  Execute files depth m [str "execfile"; name] s = Fault OutOfFuel.
Proof.
  intros Hm Hf Hl Hc. induction depth as [|depth IH]; cbn [Execute]; rewrite Hm; [done|]. rewrite Hf, decide_False by done.
  unfold mbind, prog_bind in *. by rewrite Hl, IH.
Qed.
End commands.

(** ** Witnesses *)

Lemma file_that_runs_itself_witness :
  Execute (fun f => if decide (f = str "a.rdm") then Some [str "  execfile a.rdm"] else None) 100 (@CommandParser unit unit)
    [str "execfile"; str "a.rdm"] tt = Fault OutOfFuel.
Proof. apply (file_that_runs_itself _ 100 _ _ (str "  execfile a.rdm") []); [reflexivity|reflexivity|reflexivity|discriminate]. Defined.
