(* ===== verification/RdmShell.v ===== *)
(** * The commands of the RDM shell: rdmcommands.cpp

    [src/librdm/rdmcommands.cpp]: the commands that [CommandShell] runs by
    name, on the operations of [RdmApi].  UIDs and numbers are parsed as by
    [strtoull] and [strtol] of the C library, which are defined first.  A
    command returns what it prints as items; how the stream formats a number
    is left to the item. *)
From Stdlib Require Import String Ascii.
From stdpp Require Import base countable list.
From S2P Require Import Prelude RdmEncoder RdmValues RdmPacket RdmDevice RdmBus RdmApi RdmNetwork RdmDiscovery RdmSearch RdmParameters CommandShell.

(** ** Numbers *)

Definition code (c : ascii) : Z := Z.of_N (N_of_ascii c).
Definition is_space (c : ascii) : bool := (code c =? 32) || ((9 <=? code c) && (code c <=? 13)).
Definition digit (c : ascii) : option Z :=
  let x := code c in
  if (48 <=? x) && (x <=? 57) then Some (x - 48)
  else if (97 <=? x) && (x <=? 122) then Some (x - 87)
  else if (65 <=? x) && (x <=? 90) then Some (x - 55)
  else None.
(** The digits of the base up to the first character that is none. *)
Fixpoint digits (base acc : Z) (s : text) : Z :=
  match s with
  | [] => acc
  | c :: s => match digit c with Some d => if d <? base then digits base (acc * base + d) s else acc | None => acc end
  end.
Definition is_hex_prefix (s : text) : bool :=
  match s with
  | z :: x :: d :: _ => (code z =? 48) && ((code x =? 120) || (code x =? 88)) &&
      match digit d with Some v => v <? 16 | None => false end
  | _ => false
  end.
Fixpoint skip_space (s : text) : text :=
  match s with c :: s' => if is_space c then skip_space s' else s | [] => [] end.
(** The sign and the magnitude; base zero is found out from the prefix. *)
Definition strto (s : text) (base : Z) : bool * Z :=
  let s := skip_space s in
  let '(neg, s) := match s with
    | c :: s' => if code c =? 45 then (true, s') else if code c =? 43 then (false, s') else (false, s)
    | [] => (false, []) end in
  if ((base =? 0) || (base =? 16)) && is_hex_prefix s then (neg, digits 16 0 (drop 2 s))
  else if base =? 0 then (neg, digits (match s with c :: _ => if code c =? 48 then 8 else 10 | [] => 10 end) 0 s)
  else (neg, digits base 0 s).
Definition strtoull (s : text) (base : Z) : Z :=
  let '(neg, v) := strto s base in
  if 2 ^ 64 - 1 <? v then 2 ^ 64 - 1 else if neg then u64 (- v) else v.
Definition strtol (s : text) (base : Z) : Z :=
  let '(neg, v) := strto s base in
  if (neg : bool) then Z.max (- v) (- 2 ^ 63) else Z.min v (2 ^ 63 - 1).
(** [Rdm::Uid] from a string. *)
Definition Uid_from (s : text) : Uid := Uid_of (strtoull s 16).

(** What is printed. *)
Inductive item : Type :=
  | OutUid (u : Z)
  | OutValue (label : text) (v : Z)
  | OutChar (label : text) (v : Z)
  | OutString (s : Z) (str : list Z)
  | OutEnd.

Section interpreter.
Context `{Machine} {W : Type}.
Context (api : W -> RdmApi) (put_api : RdmApi -> W -> W).
Context (m_receiver : option (IDmxData -> prog W unit)).
Context (sleep : prog W unit).
Context (raw : list Z).
Notation arguments := (list text).
Notation at_ n := (f_at api put_api sleep n).

Definition arg (args : arguments) (i : nat) : text := nth i args [].

Definition cmd_mute (args : arguments) : prog W (list item) :=
  _ ← when (1 <? length args)%nat (mute api put_api m_receiver sleep raw (Uid_from (arg args 1)));
  mret [].
Definition cmd_unmute (args : arguments) : prog W (list item) :=
  _ ← when (1 <? length args)%nat (unmute api put_api m_receiver sleep raw (Uid_from (arg args 1)));
  mret [].
(** The default of [maxSearchCount]. *)
Definition cmd_discovery (args : arguments) : prog W (list item) :=
  _ ← (if (length args =? 3)%nat then startDiscovery api put_api m_receiver sleep raw (Uid_from (arg args 1)) (Uid_from (arg args 2)) 0xffffffff
       else if (length args =? 2)%nat then startDiscovery api put_api m_receiver sleep raw (Uid_from (arg args 1)) (Uid_from (arg args 1)) 1
       else startDiscovery_all api put_api m_receiver sleep raw 0xffffffff);
  mret [].
Definition cmd_listdevices (args : arguments) : prog W (list item) :=
  d ← devicesDiscovered api; mret ((fun u => OutUid (uid_value u)) <$> d).

Definition cmd_set (args : arguments) : prog W (list item) :=
  _ ← (if (2 <? length args)%nat then
         if decide (arg args 2 = str "address"%string) then
           when (3 <? length args)%nat
             (RdmApi.set m_receiver raw (Uid_from (arg args 1)) DMX_START_ADDRESS (RdmEncoder.addPd 2 (u16 (strtol (arg args 3) 0))))
         else if decide (arg args 2 = str "identify"%string) then
           when (3 <? length args)%nat
             (RdmApi.set m_receiver raw (Uid_from (arg args 1)) IDENTIFY_DEVICE (RdmEncoder.addPd_octet (u8 (strtol (arg args 3) 0))))
         else if decide (arg args 2 = str "factory-uid"%string) then
           when (3 <? length args)%nat
             (RdmApi.set m_receiver raw (Uid_from (arg args 1)) 0xFEED (RdmEncoder.addPd_uid (Uid_from (arg args 3))))
         else mret tt
       else mret tt);
  mret [].

Definition get_info (f : nat) : prog W (list item) :=
  _ ← wait api put_api sleep f;
  v0 ← at_ 2 f 0; v1 ← at_ 2 f 2; v2 ← at_ 2 f 4; v3 ← at_ 4 f 6; v4 ← at_ 2 f 10;
  v5 ← at_ 2 f 12; v6 ← at_ 2 f 14; v7 ← at_ 2 f 16; v8 ← at_ 1 f 18;
  mret [OutValue (str "RDM Protocol Version:"%string) v0; OutValue (str "DeviceModel ID:"%string) v1;
        OutValue (str "Product Category:"%string) v2; OutValue (str "Software Version:"%string) v3;
        OutValue (str "DMX512 Footprint:"%string) v4; OutValue (str "DMX512 Personality:"%string) v5;
        OutValue (str "DMX512 Start Address:"%string) v6; OutValue (str "SubDevice Count:"%string) v7;
        OutValue (str "Sensor Count:"%string) v8].
(** The characters are copied into a buffer of 256 zeros and ended; what is
    printed ends at the first zero. *)
Fixpoint until_null (s : list Z) : list Z := match s with c :: s => if c =? 0 then [] else c :: until_null s | [] => [] end.
Definition get_swversion (f : nat) : prog W (list item) :=
  s ← f_size api put_api sleep f;
  v ← f_at_chars api put_api sleep f 0 (Z.to_nat s);
  b ← lift_outcome (store_all 0 (match v with Some v => v | None => [] end) (replicate 256 0));
  b ← lift_outcome (store s 0 b);
  mret [OutString s (until_null b)].
Definition cmd_get (args : arguments) : prog W (list item) :=
  if (2 <? length args)%nat then
    if decide (arg args 2 = str "address"%string) then
      f ← RdmApi.get api put_api m_receiver raw (Uid_from (arg args 1)) DMX_START_ADDRESS;
      v ← at_ 2 f 0; mret [OutValue (str "dmx-address:"%string) v]
    else if decide (arg args 2 = str "identify"%string) then
      f ← RdmApi.get api put_api m_receiver raw (Uid_from (arg args 1)) IDENTIFY_DEVICE;
      v ← at_ 1 f 0; mret [OutChar (str "identify:"%string) v]
    else if decide (arg args 2 = str "info"%string) then
      f ← RdmApi.get api put_api m_receiver raw (Uid_from (arg args 1)) DEVICE_INFO;
      get_info f
    else if decide (arg args 2 = str "swversion"%string) then
      f ← RdmApi.get api put_api m_receiver raw (Uid_from (arg args 1)) SOFTWARE_VERSION_LABEL;
      get_swversion f
    else mret []
  else mret [].

(** [test]: discovery, a list, and all unmuted, as often as asked for. *)
Fixpoint test_loop (n : nat) : prog W (list item) :=
  match n with
  | O => mret []
  | S n =>
      _ ← startDiscovery_all api put_api m_receiver sleep raw 0xffffffff;
      _ ← sleep;
      d ← devicesDiscovered api;
      _ ← sleep;
      _ ← unmute api put_api m_receiver sleep raw (Uid_of broadcast);
      _ ← sleep;
      os ← test_loop n;
      mret (((fun u => OutUid (uid_value u)) <$> d) ++ [OutEnd] ++ os)
  end.
Definition cmd_test (args : arguments) : prog W (list item) :=
  if (1 <? length args)%nat then test_loop (Z.to_nat (i32 (strtol (arg args 1) 0))) else mret [].

(** [foreachFunction] with [addCommand] of the parser, as in the shell. *)
Definition foreachFunction (m : CommandMap W item) : CommandMap W item :=
  foldl (fun m c => addCommand c.1 (Function c.2) m) m
    [(str "mute"%string, cmd_mute); (str "unmute"%string, cmd_unmute); (str "discovery"%string, cmd_discovery);
     (str "listdevices"%string, cmd_listdevices); (str "get"%string, cmd_get); (str "set"%string, cmd_set); (str "test"%string, cmd_test)].
Definition rdm_commands : CommandMap W item := foreachFunction CommandParser.
End interpreter.

(** ** The shell on a bus *)

Section shell.
Context `{Machine}.
Context (stack raw : list Z).
Hypothesis Hstack : length stack = 256%nat.
Hypothesis Hraw : length raw = 256%nat.
Hypothesis Hoctets : Forall octet raw.
Hypothesis Hend : big_endian = false.

Definition net_commands : CommandMap world item := rdm_commands w_api put_api (Some (master_port stack)) (mret tt) raw.

(** C5: On a little-endian machine, the start address that a line [set <uid> address <value>] gives a
    device of the bus is the one that the line [get <uid> address] prints, as
    far as it fits into 16 bits, whatever the names of the files and the form
    of the numbers; the other devices keep theirs. *)
Theorem shell_address_roundtrip files depth l1 l2 tu ta (w : world) :
  idle w -> calm (w_api w) -> responders (w_devices w) -> strtoull tu 16 ∈ uids (w_devices w) ->
  split_command l1 = [str "set"%string; tu; str "address"%string; ta] ->
  split_command l2 = [str "get"%string; tu; str "address"%string] ->
  wp (r1 ← Execute_line files depth net_commands l1; r2 ← Execute_line files depth net_commands l2; mret (r1, r2))
    (fun r w' => r = ((true, []), (true, [OutValue (str "dmx-address:"%string) (strtol ta 0 mod 2 ^ 16)])) /\
      w_devices w' = (fun m => if RdmDevice.myUid m =? strtoull tu 16 then set_dmxAddress (strtol ta 0 mod 2 ^ 16) m else m) <$> w_devices w) w.
Proof.
  intros Hw Hc Hd Hin E1 E2. unfold Execute_line. rewrite E1, E2.
  assert (forall args, Execute files depth net_commands (str "set"%string :: args) = (o ← cmd_set (Some (master_port stack)) raw (str "set"%string :: args); mret (true, o))) as -> by (by destruct depth).
  assert (forall args, Execute files depth net_commands (str "get"%string :: args) = (o ← cmd_get w_api put_api (Some (master_port stack)) (mret tt) raw (str "get"%string :: args); mret (true, o))) as -> by (by destruct depth).
  pose proof (address_read_back stack raw Hstack Hraw Hoctets Hend (strtoull tu 16) (u16 (strtol ta 0)) w Hw Hc Hd Hin) as Hr.
  unfold u16 in Hr at 2 3. rewrite Z.mod_mod in Hr by lia.
  unfold wp, mbind, prog_bind in Hr. unfold wp, mbind, prog_bind, cmd_set, cmd_get. cbn [length Nat.ltb Nat.leb arg nth].
  rewrite !decide_True by done. unfold when, mbind, prog_bind. unfold net_set, net_get, net_at in Hr.
  fold (Uid_from tu) in Hr.
  destruct (RdmApi.set _ _ _ _ _ w) as [[[] w1]|]; [|done]. cbn [mret prog_ret].
  destruct (RdmApi.get _ _ _ _ _ _ w1) as [[f w2]|]; [|done]. destruct (f_at _ _ _ _ _ _ w2) as [[v w3]|]; [|done].
  cbn [mret prog_ret]. by destruct Hr as [-> ->].
Qed.
End shell.

(** ** Witnesses *)

Lemma shell_address_roundtrip_witness :
  wp (r1 ← Execute_line (fun _ => None) 0 (@net_commands little_endian_machine stack0 stack0) (str "set 123400040000 address 0x10123"%string);
      r2 ← Execute_line (fun _ => None) 0 (@net_commands little_endian_machine stack0 stack0) (str "get 123400040000 address"%string); mret (r1, r2))
    (fun r _ => r.2 = (true, [OutValue (str "dmx-address:"%string) 0x123])) (rig responder_devices).
Proof.
  eapply wp_mono.
  - eapply wp_mono.
    + apply (@shell_address_roundtrip little_endian_machine stack0 stack0 eq_refl eq_refl (Forall_replicate _ _ _ eq_refl) eq_refl (fun _ => None) 0%nat
        (str "set 123400040000 address 0x10123"%string) (str "get 123400040000 address"%string) (str "123400040000"%string) (str "0x10123"%string) (rig responder_devices)).
      * apply rig_idle.
      * apply rig_calm.
      * apply responder_devices_ok.
      * apply responder_here.
      * reflexivity.
      * reflexivity.
    + intros r w' [Hr _]. exact Hr.
  - intros r w' ->. reflexivity.
Defined.
