(* ===== verification/RtuartDev.v ===== *)
(** * A character device for a UART

    [src/cuse-drivers/cuse/rtuart_dev.c] with [rtuart_ioctl.h]: a device of
    libfuse in front of one UART of [RtUart].  What the driver reports becomes
    an entry of a linked list, which [read] takes apart; [write] starts a
    buffer, [ioctl] sets and asks for what the UART has.  The state of the
    client in [rtuart] is the state of this file: the list of events and the
    answers that libfuse was given. *)
From stdpp Require Import base countable gmap sets list.
From S2P Require Import Prelude Bus RtUart RtPc16c550.

(** ** Numbers *)

Definition RTUART_SET_FORMAT : Z := 1.
Definition RTUART_GET_FORMAT : Z := 2.
Definition RTUART_SET_BAUDRATE : Z := 3.
Definition RTUART_GET_BAUDRATE : Z := 4.
Definition RTUART_SET_CONTROL : Z := 5.
Definition RTUART_CLR_CONTROL : Z := 6.
Definition RTUART_GET_CONTROL : Z := 7.
Definition RTUART_SET_NOTIFY : Z := 8.
Definition RTUART_CLR_NOTIFY : Z := 9.
Definition RTUART_GET_NOTIFY : Z := 10.
Definition RTUART_TX_ENABLE : Z := 11.
Definition RTUART_RX_ENABLE : Z := 12.
Definition SIZEOF_ULONG : Z := 8.
(** [_IOW] and [_IOR] of the letter Z for an [unsigned long], as the [int]
    that [ioctl] is given. *)
Definition ioc (dir nr : Z) : Z := i32 (Z.lor (Z.shiftl dir 30) (Z.lor (Z.shiftl SIZEOF_ULONG 16) (Z.lor (Z.shiftl 90 8) nr))).
Definition RTUART_IOCTL_S_FMT : Z := ioc 1 RTUART_SET_FORMAT.
Definition RTUART_IOCTL_G_FMT : Z := ioc 2 RTUART_GET_FORMAT.
Definition RTUART_IOCTL_S_BAUDRATE : Z := ioc 1 RTUART_SET_BAUDRATE.
Definition RTUART_IOCTL_G_BAUDRATE : Z := ioc 2 RTUART_GET_BAUDRATE.
Definition RTUART_IOCTL_S_CONTROL : Z := ioc 1 RTUART_SET_CONTROL.
Definition RTUART_IOCTL_C_CONTROL : Z := ioc 1 RTUART_CLR_CONTROL.
Definition RTUART_IOCTL_G_CONTROL : Z := ioc 2 RTUART_GET_CONTROL.
Definition RTUART_IOCTL_S_NOTIFY : Z := ioc 1 RTUART_SET_NOTIFY.
Definition RTUART_IOCTL_C_NOTIFY : Z := ioc 1 RTUART_CLR_NOTIFY.
Definition RTUART_IOCTL_G_NOTIFY : Z := ioc 2 RTUART_GET_NOTIFY.
Definition RTUART_IOCTL_TX_ENABLE : Z := ioc 1 RTUART_TX_ENABLE.
Definition RTUART_IOCTL_RX_ENABLE : Z := ioc 1 RTUART_RX_ENABLE.

Definition RTUART_WHAT_CALLBACK_TX_START : Z := 0.
Definition RTUART_WHAT_CALLBACK_TX_END1 : Z := 1.
Definition RTUART_WHAT_CALLBACK_TX_END2 : Z := 2.
Definition RTUART_WHAT_CALLBACK_INPUT_CHANGE : Z := 3.
Definition RTUART_WHAT_CALLBACK_RX_ERR : Z := 4.
Definition RTUART_WHAT_CALLBACK_RX_CHAR : Z := 5.
Definition RTUART_WHAT_CALLBACK_RX_END : Z := 6.
Definition RTUART_WHAT_CALLBACK_RX_TIMEOUT : Z := 7.
Definition RTUART_WHAT_CALLBACK_RX_TRIGGER : Z := 8.

(** ** The list of events *)

(** The members of the union that are written; all others stay zero. *)
Inductive event_data :=
  | NoData
  | InputChange (eventmask values : Z)
  | RxErr (error_mask : Z)
  | RxTrigger (trigger_mask : Z).
(** [struct rtuart_read_event] *)
Record rtuart_read_event := ReadEvent { what : Z; union : event_data }.
(** [struct rtuart_read_event_entry] *)
Record rtuart_read_event_entry := Entry { next : option nat; e : rtuart_read_event }.

(** The calls of libfuse that a request is answered with. *)
Inductive reply :=
  | ReplyOpen (req : nat)
  | ReplyBuf (req : nat) (e : option rtuart_read_event)     (* no event: no octets *)
  | ReplyWrite (req : nat) (size : Z)
  | ReplyIoctl (req : nat) (value : option Z)
  | ReplyIoctlRetry (req : nat) (in_iov out_iov : list (Z * Z)).

(** The variables of the file: the entries that are allocated, how often
    [malloc] was called, the ends of the list and the answers so far. *)
Record dev := Dev {
  entries : gmap nat rtuart_read_event_entry;
  allocations : nat;
  event_head : option nat;
  event_tail : option nat;
  replies : list reply }.
Definition with_entries (m : gmap nat rtuart_read_event_entry) (d : dev) : dev := Dev m (allocations d) (event_head d) (event_tail d) (replies d).
Definition with_allocations (n : nat) (d : dev) : dev := Dev (entries d) n (event_head d) (event_tail d) (replies d).
Definition with_head (a : option nat) (d : dev) : dev := Dev (entries d) (allocations d) a (event_tail d) (replies d).
Definition with_tail (a : option nat) (d : dev) : dev := Dev (entries d) (allocations d) (event_head d) a (replies d).
Definition with_replies (r : list reply) (d : dev) : dev := Dev (entries d) (allocations d) (event_head d) (event_tail d) r.
Definition dev_init : dev := Dev ∅ 0 None None [].

Definition get_entry (a : nat) : prog dev rtuart_read_event_entry := m ← gets entries; live (m !! a).
Definition update_entry (a : nat) (f : rtuart_read_event_entry -> rtuart_read_event_entry) : prog dev unit :=
  n ← get_entry a; modify (fun d => with_entries (<[a := f n]> (entries d)) d).

Definition add_event (a : nat) : prog dev unit :=
  update_entry a (fun n => Entry None (e n)) ;;
  t ← gets event_tail;
  match t with Some t => update_entry t (fun n => Entry (Some a) (e n)) | None => mret tt end ;;
  modify (with_tail (Some a)) ;;
  h ← gets event_head;
  when (bool_decide (h = None)) (modify (with_head (Some a))).
Definition get_event : prog dev (option nat) :=
  h ← gets event_head;
  match h with
  | Some a =>
      n ← get_entry a;
      modify (with_head (next n)) ;;
      when (bool_decide (next n = None)) (modify (with_tail None)) ;;
      mret (Some a)
  | None => mret None
  end.
Definition free_event (a : nat) : prog dev unit := modify (fun d => with_entries (delete a (entries d)) d).
Definition answer (r : reply) : prog dev unit := modify (fun d => with_replies (replies d ++ [r]) d).

Section device.
(** Which calls of [malloc] succeed. *)
Context (malloc_ok : nat -> bool).

Definition alloc_event : prog dev (option nat) :=
  a ← gets allocations;
  modify (with_allocations (S a)) ;;
  if malloc_ok a then
    modify (fun d => with_entries (<[a := Entry None (ReadEvent 0 NoData)]> (entries d)) d) ;;
    mret (Some a)
  else mret None.
(** What all the callbacks do. *)
Definition report (w : Z) (u : event_data) : prog dev unit :=
  a ← alloc_event;
  match a with
  | Some a => update_entry a (fun n => Entry (next n) (ReadEvent (u8 w) u)) ;; add_event a
  | None => mret tt
  end.

Context {B X : Type} (bops : rtuart_bus_ops B).
Abbreviation W := (rtuart B X dev).
Context (ops : rtuart_ops W).

Definition on_client {A} (m : prog dev A) : prog W A :=
  fun u => match m (client u) with Done (a, d) => Done (a, with_client d u) | Fault f => Fault f end.

(** ** Callbacks *)
Definition rtuart_dev_tx_start (buffer : option nat) : prog W unit := on_client (report RTUART_WHAT_CALLBACK_TX_START NoData).
Definition rtuart_dev_tx_end1 (buffer : option nat) : prog W unit := on_client (report RTUART_WHAT_CALLBACK_TX_END1 NoData).
Definition rtuart_dev_tx_end2 (buffer : option nat) : prog W unit := on_client (report RTUART_WHAT_CALLBACK_TX_END2 NoData).
Definition rtuart_dev_input_change (eventmask values : Z) : prog W unit :=
  on_client (report RTUART_WHAT_CALLBACK_INPUT_CHANGE (InputChange eventmask values)).
Definition rtuart_dev_rx_err (errmask : Z) : prog W unit := on_client (report RTUART_WHAT_CALLBACK_RX_ERR (RxErr errmask)).
(** The octet is not stored. *)
Definition rtuart_dev_rx_char (c : Z) : prog W unit := on_client (report RTUART_WHAT_CALLBACK_RX_CHAR NoData).
Definition rtuart_dev_rx_end (buffer : option nat) : prog W unit := on_client (report RTUART_WHAT_CALLBACK_RX_END NoData).
Definition rtuart_dev_rx_timeout (buffer : option nat) : prog W unit := on_client (report RTUART_WHAT_CALLBACK_RX_TIMEOUT NoData).
Definition rtuart_dev_rx_trigger (buffer : option nat) (triggermask : Z) : prog W unit :=
  on_client (report RTUART_WHAT_CALLBACK_RX_TRIGGER (RxTrigger triggermask)).
Definition rtuart_dev_callbacks : rtuart_callbacks W :=
  Callbacks (Some rtuart_dev_tx_start) (Some rtuart_dev_tx_end1) (Some rtuart_dev_tx_end2) (Some rtuart_dev_input_change)
    (Some rtuart_dev_rx_err) (Some rtuart_dev_rx_char) (Some rtuart_dev_rx_end) (Some rtuart_dev_rx_timeout) (Some rtuart_dev_rx_trigger).
(** The only table of callbacks, which [main] assigns. *)
Definition dev_table (_ : nat) : rtuart_callbacks W := rtuart_dev_callbacks.
Definition assign_dev_callbacks : prog W unit := rtuart_assign_callbacks (Some 0%nat) 0.

(** ** Requests *)
(** How the machine orders the octets of an [unsigned long], the conversion
    to [char], and the address of the variable [buffer] of [cusetest_write]. *)
Context (word : list Z -> Z) (to_char : Z -> Z) (local : nat).

Definition cusetest_open (req : nat) : prog W unit := on_client (answer (ReplyOpen req)).
Definition cusetest_read (req : nat) : prog W unit :=
  a ← on_client get_event;
  match a with
  | Some a =>
      n ← on_client (get_entry a);
      on_client (answer (ReplyBuf req (Some (e n)))) ;;
      on_client (free_event a)
  | None => on_client (answer (ReplyBuf req None))
  end.

(** The variable [buffer]; [size] stays zero. *)
Definition write_buffer (buf : list Z) : rtuart_buffer :=
  Buffer (Some buf) 0 (Z.of_nat (length buf)) 0 (Z.lor 1 2) ([2; 12] ++ replicate (RTUART_MAX_TRIGGERS - 2) 0).
(** The variable is gone when the function returns. *)
Definition cusetest_write (req : nat) (buf : list Z) : prog W unit :=
  modify (fun u => with_buffers (<[local := write_buffer buf]> (buffers u)) u) ;;
  rtuart_tx_start ops (Some local) ;;
  on_client (answer (ReplyWrite req (Z.of_nat (length buf)))) ;;
  modify (fun u => with_buffers (delete local (buffers u)) u).

Definition is_set_command (cmd : Z) : bool :=
  existsb (Z.eqb cmd) [RTUART_IOCTL_S_FMT; RTUART_IOCTL_S_BAUDRATE; RTUART_IOCTL_S_CONTROL; RTUART_IOCTL_C_CONTROL;
                       RTUART_IOCTL_S_NOTIFY; RTUART_IOCTL_C_NOTIFY].
Definition is_get_command (cmd : Z) : bool :=
  existsb (Z.eqb cmd) [RTUART_IOCTL_G_FMT; RTUART_IOCTL_G_BAUDRATE; RTUART_IOCTL_G_CONTROL; RTUART_IOCTL_G_NOTIFY].
Definition set_value (cmd value : Z) : prog W unit :=
  if cmd =? RTUART_IOCTL_S_FMT then
    rtuart_set_format ops (u8 (Z.shiftr value 16)) (to_char (Z.shiftr value 8)) (to_char (u8 value))
  else if cmd =? RTUART_IOCTL_S_BAUDRATE then rtuart_set_baudrate ops value
  else if cmd =? RTUART_IOCTL_S_CONTROL then rtuart_set_control ops value
  else if cmd =? RTUART_IOCTL_C_CONTROL then rtuart_clr_control ops value
  else if cmd =? RTUART_IOCTL_S_NOTIFY then rtuart_set_notify ops value
  else rtuart_clr_notify ops value.
(** [value] is zero before it is asked for; the format is not. *)
Definition get_value (cmd : Z) : prog W Z :=
  if cmd =? RTUART_IOCTL_G_FMT then mret 0
  else
    v ← (if cmd =? RTUART_IOCTL_G_BAUDRATE then rtuart_get_baudrate ops
         else if cmd =? RTUART_IOCTL_G_CONTROL then rtuart_get_control ops
         else rtuart_get_notify ops);
    mret (default 0 v).
(** [in_buf] has as many octets as [in_bufsz] says. *)
Definition cusetest_ioctl (req : nat) (cmd arg : Z) (in_buf : list Z) (out_bufsz : Z) : prog W unit :=
  if is_set_command cmd then
    if Z.of_nat (length in_buf) =? 0 then on_client (answer (ReplyIoctlRetry req [(arg, SIZEOF_ULONG)] []))
    else
      octets ← lift_outcome (load_all 0 (Z.to_nat SIZEOF_ULONG) in_buf);
      set_value cmd (u64 (word octets)) ;;
      on_client (answer (ReplyIoctl req None))
  else if is_get_command cmd then
    if out_bufsz =? 0 then on_client (answer (ReplyIoctlRetry req [] [(arg, SIZEOF_ULONG)]))
    else
      value ← get_value cmd;
      on_client (answer (ReplyIoctl req (Some value)))
  else mret tt.

(** ** The events are a queue *)

(** What happens at the device: a report of the driver, or a read. *)
Inductive step :=
  | TxStart (buffer : option nat)
  | TxEnd1 (buffer : option nat)
  | TxEnd2 (buffer : option nat)
  | InputChanged (eventmask values : Z)
  | RxError (errmask : Z)
  | RxChar (c : Z)
  | RxEnd (buffer : option nat)
  | RxTimeout (buffer : option nat)
  | RxTriggered (buffer : option nat) (triggermask : Z)
  | Read (req : nat).
Definition run_step (s : step) : prog W unit :=
  match s with
  | TxStart b => rtuart_call_tx_start dev_table b
  | TxEnd1 b => rtuart_call_tx_end1 dev_table b
  | TxEnd2 b => rtuart_call_tx_end2 dev_table b
  | InputChanged m v => rtuart_call_input_change dev_table m v
  | RxError m => rtuart_call_rx_err dev_table m
  | RxChar c => rtuart_call_rx_char dev_table c
  | RxEnd b => rtuart_call_rx_end dev_table b
  | RxTimeout b => rtuart_call_rx_timeout dev_table b
  | RxTriggered b m => rtuart_call_rx_trigger dev_table b m
  | Read req => cusetest_read req
  end.
Fixpoint run_steps (l : list step) : prog W unit :=
  match l with [] => mret tt | s :: l => run_step s ;; run_steps l end.

(** The specification: a queue, from which reads take. *)
Definition event_of (s : step) : option rtuart_read_event :=
  match s with
  | TxStart _ => Some (ReadEvent 0 NoData)
  | TxEnd1 _ => Some (ReadEvent 1 NoData)
  | TxEnd2 _ => Some (ReadEvent 2 NoData)
  | InputChanged m v => Some (ReadEvent 3 (InputChange m v))
  | RxError m => Some (ReadEvent 4 (RxErr m))
  | RxChar _ => Some (ReadEvent 5 NoData)
  | RxEnd _ => Some (ReadEvent 6 NoData)
  | RxTimeout _ => Some (ReadEvent 7 NoData)
  | RxTriggered _ m => Some (ReadEvent 8 (RxTrigger m))
  | Read _ => None
  end.
Record queue := Queue { pending : list rtuart_read_event; tried : nat; answered : list reply }.
Definition queue_step (s : step) (q : queue) : queue :=
  match event_of s, s with
  | Some ev, _ => Queue (if malloc_ok (tried q) then pending q ++ [ev] else pending q) (S (tried q)) (answered q)
  | None, Read req => Queue (tail (pending q)) (tried q) (answered q ++ [ReplyBuf req (head (pending q))])
  | None, _ => q
  end.
Definition queue_steps (l : list step) (q : queue) : queue := fold_left (fun q s => queue_step s q) l q.

(** The entries of a list with these addresses and events. *)
Fixpoint cells (l : list (nat * rtuart_read_event)) : gmap nat rtuart_read_event_entry :=
  match l with
  | [] => ∅
  | (a, ev) :: l => <[a := Entry (fst <$> head l) ev]> (cells l)
  end.
Definition holds (d : dev) (q : queue) : Prop :=
  exists l : list (nat * rtuart_read_event),
    d = Dev (cells l) (tried q) (fst <$> head l) (fst <$> last l) (answered q) /\ l.*2 = pending q /\
    NoDup l.*1 /\ Forall (fun a => a < tried q)%nat l.*1.
End device.

(** *** The list and its cells *)
Lemma cells_lookup l i a ev :
  NoDup l.*1 -> l !! i = Some (a, ev) -> cells l !! a = Some (Entry (fst <$> l !! S i) ev).
Proof.
  revert i. induction l as [|[a0 ev0] l IH]; intros i Hnd Hi; [done|]. cbn in Hnd. apply NoDup_cons in Hnd as [Hn Hnd].
  destruct i as [|i]; cbn in *.
  - injection Hi as -> ->. rewrite lookup_insert_eq. by destruct l.
  - change (l !! i = Some (a, ev)) in Hi. rewrite lookup_insert_ne; [by apply IH|]. intros ->.
    apply Hn, list_elem_of_lookup. exists i. by rewrite list_lookup_fmap, Hi.
Qed.
Lemma cells_fresh l a : a ∉ l.*1 -> cells l !! a = None.
Proof.
  induction l as [|[a0 ev0] l IH]; [done|]. cbn. rewrite not_elem_of_cons. intros [Hne Hn].
  rewrite lookup_insert_ne by done. by apply IH.
Qed.
(** An entry behind the last one. *)
Lemma cells_snoc l a0 ev0 a ev :
  NoDup (l ++ [(a0, ev0)]).*1 -> a ∉ (l ++ [(a0, ev0)]).*1 ->
  cells ((l ++ [(a0, ev0)]) ++ [(a, ev)]) = <[a0 := Entry (Some a) ev0]> (<[a := Entry None ev]> (cells (l ++ [(a0, ev0)]))).
Proof.
  induction l as [|[a1 ev1] l IH]; intros Hnd Hn; cbn in *.
  - rewrite (insert_insert_ne _ a a0) by set_solver. by rewrite insert_insert_eq.
  - apply NoDup_cons in Hnd as [Hn1 Hnd]. apply not_elem_of_cons in Hn as [Hne Hn].
    rewrite IH by done. rewrite insert_insert_ne, (insert_insert_ne _ a1 a) by (rewrite ?fmap_app in Hn1; set_solver).
    do 3 f_equal. by destruct l.
Qed.
Lemma cells_delete a ev l : a ∉ l.*1 -> delete a (cells ((a, ev) :: l)) = cells l.
Proof. intros Hn. cbn. rewrite delete_insert_eq. by apply delete_id, cells_fresh. Qed.

Section queue.
Context (malloc_ok : nat -> bool).

Lemma report_holds w u d q :
  holds d q ->
  exists d', report malloc_ok w u d = Done (tt, d') /\
    holds d' (Queue (if malloc_ok (tried q) then pending q ++ [ReadEvent (u8 w) u] else pending q) (S (tried q)) (answered q)).
Proof.
  intros (l & -> & Hp & Hnd & Hf). unfold report, alloc_event, mbind, prog_bind. cbn [gets allocations modify with_allocations].
  assert (Hfresh : tried q ∉ l.*1) by (intros H; rewrite Forall_forall in Hf; apply Hf in H; lia).
  assert (Hf' : Forall (fun a => a < S (tried q))%nat l.*1) by (eapply Forall_impl; [exact Hf|]; cbn; lia).
  destruct (malloc_ok (tried q)); cbn.
  2:{ eexists. split; [done|]. exists l. done. }
  unfold update_entry, get_entry, add_event, mbind, prog_bind. cbn. rewrite lookup_insert_eq. cbn. rewrite insert_insert_eq.
  destruct (last l) as [[a0 ev0]|] eqn:Hl.
  - apply last_Some in Hl as [l' ->].
    assert (Hne : tried q <> a0) by (intros <-; apply Hfresh; rewrite fmap_app; apply elem_of_app; right; constructor).
    unfold update_entry, get_entry, mbind, prog_bind. cbn. rewrite lookup_insert_eq. cbn. rewrite insert_insert_eq.
    rewrite lookup_insert_ne by done.
    rewrite (cells_lookup _ (length l') a0 ev0) by (done || by rewrite lookup_app_r, Nat.sub_diag by lia).
    cbn. rewrite bool_decide_eq_false_2 by (by destruct l'). cbn. eexists. split; [done|].
    exists ((l' ++ [(a0, ev0)]) ++ [(tried q, ReadEvent (u8 w) u)]). rewrite cells_snoc by done. repeat split; cbn.
    + unfold with_tail, with_entries. cbn. rewrite last_snoc. f_equal. by destruct l'.
    + by rewrite (fmap_app snd (l' ++ _)), Hp.
    + rewrite (fmap_app fst (l' ++ _)). apply NoDup_app. repeat split; [done| |by apply NoDup_singleton]. set_solver.
    + rewrite (fmap_app fst (l' ++ _)). apply Forall_app. split; [done|]. cbn. constructor; [lia|done].
  - apply last_None in Hl as ->. cbn. unfold update_entry, get_entry, mbind, prog_bind. cbn. rewrite lookup_insert_eq. cbn. rewrite !insert_insert_eq. eexists. split; [done|].
    exists [(tried q, ReadEvent (u8 w) u)]. repeat split; cbn; [|by apply NoDup_singleton|constructor; [lia|done]]. cbn in Hp. by rewrite <- Hp.
Qed.

Context {B X : Type}.
Abbreviation W := (rtuart B X dev).
Implicit Types u : W.

Lemma on_client_run {A} (m : prog dev A) u a d : m (client u) = Done (a, d) -> on_client m u = Done (a, with_client d u).
Proof. unfold on_client. by intros ->. Qed.

Lemma read_holds req u q :
  holds (client u) q ->
  exists d', cusetest_read req u = Done (tt, with_client d' u) /\ holds d' (queue_step malloc_ok (Read req) q).
Proof.
  intros (l & Hd & Hp & Hnd & Hf). unfold queue_step. cbn.
  unfold cusetest_read, get_event, get_entry, answer, free_event, on_client, mbind, prog_bind. rewrite Hd. cbn.
  destruct l as [|[a ev] l]; cbn in *.
  - eexists. split; [reflexivity|]. exists []. rewrite <- Hp. done.
  - rewrite lookup_insert_eq. cbn. apply NoDup_cons in Hnd as [Hn Hnd]. apply Forall_cons in Hf as [Ha Hf].
    rewrite <- Hp. cbn.
    assert (Hrest : holds (Dev (delete a (cells ((a, ev) :: l))) (tried q) (fst <$> head l) (fst <$> last l) (answered q ++ [ReplyBuf req (Some ev)]))
      (Queue l.*2 (tried q) (answered q ++ [ReplyBuf req (Some ev)]))) by (exists l; by rewrite cells_delete).
    destruct l as [|[a1 ev1] l]; cbn; rewrite lookup_insert_eq; cbn; (eexists; split; [reflexivity|exact Hrest]).
Qed.

Lemma report_step s v x u q :
  event_of s = Some (ReadEvent v x) -> u8 v = v -> run_step malloc_ok s u = on_client (report malloc_ok v x) u -> holds (client u) q ->
  exists d', run_step malloc_ok s u = Done (tt, with_client d' u) /\ holds d' (queue_step malloc_ok s q).
Proof.
  intros Hev Hv Hrun Hq. destruct (report_holds v x (client u) q Hq) as (d' & Hr & Hh). exists d'. rewrite Hrun. split; [by apply on_client_run|].
  unfold queue_step. rewrite Hev. by rewrite Hv in Hh.
Qed.

Lemma step_holds s u q c :
  cb u = Some c -> holds (client u) q ->
  exists d', run_step malloc_ok s u = Done (tt, with_client d' u) /\ holds d' (queue_step malloc_ok s q).
Proof.
  intros Hc Hq.
  destruct s; try (by apply read_holds); (eapply report_step; [reflexivity|reflexivity| |exact Hq]).
  all: unfold run_step, rtuart_call_tx_start, rtuart_call_tx_end1, rtuart_call_tx_end2, rtuart_call_input_change, rtuart_call_rx_err,
      rtuart_call_rx_char, rtuart_call_rx_end, rtuart_call_rx_timeout, rtuart_call_rx_trigger, rtuart_call, mbind, prog_bind, gets.
  all: rewrite Hc; reflexivity.
Qed.

(** C30: whatever sequence of reports of the driver and reads comes, every
    report that an entry can be allocated for is queued, each read is answered
    at once with the oldest event or with nothing, and the entries that are
    allocated are those of the events that wait. *)
Theorem events_read_in_order (l : list step) u q c :
  cb u = Some c -> holds (client u) q ->
  wp (run_steps malloc_ok l) (fun _ u' => exists d, u' = with_client d u /\ holds d (queue_steps malloc_ok l q)) u.
Proof.
  intros Hc. revert u q Hc. induction l as [|s l IH]; intros u q Hc Hq; cbn [run_steps].
  - apply wp_ret. exists (client u). split; [by destruct u|done].
  - destruct (step_holds s u q c Hc Hq) as (d & Hr & Hh). apply wp_bind, (wp_done _ _ _ _ _ Hr).
    eapply wp_mono; [exact (IH (with_client d u) _ Hc Hh)|]. intros _ u' (d' & -> & Hd'). by exists d'.
Qed.
End queue.

(** ** With the driver of the 16550 *)
Section pc16c550.
Context (malloc_ok : nat -> bool) (word : list Z -> Z) (to_char : Z -> Z) (local : nat).
Context {B : Type} (bops : rtuart_bus_ops B).
Abbreviation W := (rtuart B pc16c550 dev).
Context (destroy : prog W unit) (fuel : nat).
#[local] Notation table := (dev_table malloc_ok).
#[local] Notation ops := (rtuart_pc16c550_ops bops table destroy fuel).
Implicit Types u : W.

(** The registers can be written. *)
Definition writable (b : B) : Prop := forall reg v, exists r b', rtuart_bus_write_u8 bops reg v b = Done (r, b').

Lemma wp_set_notify m (Q : unit -> W -> Prop) u :
  writable (bus u) ->
  (forall b', Q tt (with_bus b' (with_notify (Z.lor (notify_mask u) m) u))) ->
  wp (pc16c550_set_notify bops m) Q u.
Proof.
  intros Hb HQ. unfold pc16c550_set_notify, change_notify. apply wp_bind, wp_gets, wp_when.
  - intros _. apply wp_bind, wp_modify, wp_bind, wp_gets, wp_when.
    + intros _. unfold pc16c550_update_notification. apply wp_bind, wp_gets. destruct (Hb PC16550_REG_IER (ier_of (notify_mask (with_notify (Z.lor (notify_mask u) m) u)))) as (r & b' & Hw).
      eapply wp_put_reg; [exact Hw|]. apply HQ.
    + intros _. specialize (HQ (bus u)). by destruct u.
  - intros Hm. apply negb_false_iff, Z.eqb_eq in Hm. specialize (HQ (bus u)). rewrite <- Hm in HQ. by destruct u.
Qed.

(** C37: the buffer of a write is a variable of the handler: the request is
    answered, the driver keeps the pointer, and the interrupt that is to send
    it uses an object that is gone. *)
Theorem written_buffer_dangles req buf u :
  tx_buffer u = None -> writable (bus u) ->
  exists u', cusetest_write ops local req buf u = Done (tt, u') /\
    replies (client u') = replies (client u) ++ [ReplyWrite req (Z.of_nat (length buf))] /\
    tx_buffer u' = Some local /\ serve_transmitter bops table u' = Fault Dangling.
Proof.
  intros Ht Hb.
  enough (wp (cusetest_write ops local req buf) (fun _ u' => replies (client u') = replies (client u) ++ [ReplyWrite req (Z.of_nat (length buf))] /\
    tx_buffer u' = Some local /\ has (notify_mask u') RTUART_NOTIFY_TRANSMITTER_READY = true /\ buffers u' !! local = None) u) as Hw.
  { apply wp_run in Hw as ([] & u' & Hr & Hrep & Htx & Hn & Hl). exists u'. repeat split; try done.
    unfold serve_transmitter, notified, mbind, prog_bind, gets. rewrite Hn. cbn [when transmit_loop]. unfold mbind, prog_bind, gets. rewrite Htx.
    unfold fetch, mbind, prog_bind, gets. cbn. by rewrite Hl. }
  unfold cusetest_write. apply wp_bind, wp_modify, wp_bind. unfold rtuart_tx_start. cbn [op_tx_start rtuart_pc16c550_ops invoke]. unfold pc16c550_tx_start.
  eapply wp_bind, wp_update_buffer; [apply lookup_insert_eq|]. apply wp_bind, wp_gets. cbn [tx_buffer with_buffers]. rewrite Ht.
  apply wp_bind, wp_when; [done|]. intros _. apply wp_bind, wp_gets. cbn [tx_buffer with_buffers]. rewrite Ht.
  apply wp_when; [intros _|done]. apply wp_bind, wp_modify, wp_set_notify; [done|]. intros b'.
  apply wp_bind. unfold wp, on_client, answer, modify. cbn -[has]. rewrite lookup_delete_eq. repeat split; try done.
  unfold has. apply negb_true_iff, Z.eqb_neq. intros H. apply (f_equal (fun z => Z.testbit z 0)) in H.
  by rewrite Z.land_spec, Z.lor_spec, orb_true_r in H.
Qed.

(** What is asked for with S_NOTIFY is what G_NOTIFY then answers. *)
Lemma notifications_add_up req req' arg arg' in_buf out_bufsz u octets :
  load_all 0 8 in_buf = Done octets -> out_bufsz <> 0 -> writable (bus u) ->
  wp (cusetest_ioctl ops word to_char req RTUART_IOCTL_S_NOTIFY arg in_buf 0 ;;
      cusetest_ioctl ops word to_char req' RTUART_IOCTL_G_NOTIFY arg' [] out_bufsz)
    (fun _ u' => replies (client u') = replies (client u) ++
       [ReplyIoctl req None; ReplyIoctl req' (Some (Z.lor (notify_mask u) (u64 (word octets))))]) u.
Proof.
  intros Hl Ho Hb. apply wp_bind. unfold cusetest_ioctl.
  change (is_set_command RTUART_IOCTL_S_NOTIFY) with true. change (is_set_command RTUART_IOCTL_G_NOTIFY) with false.
  change (is_get_command RTUART_IOCTL_G_NOTIFY) with true. cbn iota.
  destruct (Z.eqb_spec (Z.of_nat (length in_buf)) 0) as [H0|_].
  { destruct in_buf; [done|cbn in H0; lia]. }
  apply wp_bind. eapply wp_done; [unfold lift_outcome; change (Z.to_nat SIZEOF_ULONG) with 8%nat; rewrite Hl; reflexivity|].
  apply wp_bind. change (set_value ops to_char RTUART_IOCTL_S_NOTIFY (u64 (word octets))) with (rtuart_set_notify ops (u64 (word octets))).
  unfold rtuart_set_notify. cbn [op_get_notify op_set_notify rtuart_pc16c550_ops]. apply wp_bind, wp_ret, wp_set_notify; [done|]. intros b'.
  apply Z.eqb_neq in Ho. unfold wp, on_client, answer, modify. rewrite Ho. cbn iota.
  match goal with |- context [get_value ops RTUART_IOCTL_G_NOTIFY] => change (get_value ops RTUART_IOCTL_G_NOTIFY) with (v ← (v ← pc16c550_get_notify; mret (Some v)); mret (default 0 v) : prog W Z) end.
  unfold mbind, prog_bind. cbn. by rewrite <- app_assoc.
Qed.

(** A bit rate of zero ends the program. *)
Lemma zero_baudrate_divides req arg in_buf out_bufsz u octets :
  load_all 0 8 in_buf = Done octets -> u64 (word octets) = 0 ->
  cusetest_ioctl ops word to_char req RTUART_IOCTL_S_BAUDRATE arg in_buf out_bufsz u = Fault DivideByZero.
Proof.
  intros Hl Hz. unfold cusetest_ioctl. change (is_set_command RTUART_IOCTL_S_BAUDRATE) with true. cbn iota.
  destruct (Z.eqb_spec (Z.of_nat (length in_buf)) 0) as [H0|_].
  { destruct in_buf; [done|cbn in H0; lia]. }
  unfold mbind at 1, prog_bind at 1, lift_outcome. change (Z.to_nat SIZEOF_ULONG) with 8%nat. rewrite Hl. cbn iota.
  rewrite Hz. reflexivity.
Qed.
End pc16c550.

(** ** Concrete runs *)
Definition every (_ : nat) : bool := true.
Definition bus_of_nothing : rtuart_bus_ops unit :=
  BusOps _ (Some (fun _ => mret 0)) (Some (fun _ _ => mret tt)) None None None None None None.
Definition idle_uart : rtuart unit pc16c550 dev := with_callbacks (Some 0%nat) 0 (rtuart_init tt (Pc16c550 100000000 0) ∅ dev_init).
Lemma idle_holds : holds (client idle_uart) (Queue [] 0 []).
Proof. exists []. split; [reflexivity|]. split; [reflexivity|]. split; constructor. Defined.

Lemma events_read_in_order_witness :
  wp (run_steps every [RxChar 65; RxError 1; Read 1; Read 2; Read 3])
    (fun _ u' => exists d, u' = with_client d idle_uart /\
       holds d (queue_steps every [RxChar 65; RxError 1; Read 1; Read 2; Read 3] (Queue [] 0 []))) idle_uart.
Proof. apply (events_read_in_order every [RxChar 65; RxError 1; Read 1; Read 2; Read 3] idle_uart (Queue [] 0 []) 0); [reflexivity|apply idle_holds]. Defined.

Lemma written_buffer_dangles_witness :
  exists u', cusetest_write (rtuart_pc16c550_ops bus_of_nothing (dev_table every) (mret tt) 9) 0 7 [0; 255; 1] idle_uart = Done (tt, u') /\
    replies (client u') = [] ++ [ReplyWrite 7 3] /\ tx_buffer u' = Some 0%nat /\
    serve_transmitter bus_of_nothing (dev_table every) u' = Fault Dangling.
Proof.
  apply (written_buffer_dangles every 0 bus_of_nothing (mret tt) 9 7 [0; 255; 1] idle_uart); [reflexivity|].
  intros reg v. eexists 0, tt. reflexivity.
Defined.
