(* ===== verification/RtuartFactory.v ===== *)
(** * The UART that a command line names: rtuart_factory.c

    [src/uio-testbench/rtuart/rtuart_factory.c]: the bus and the driver are
    chosen by their names, and a thread waits for interrupts at the descriptor
    of the UIO device.  What the system answers is a parameter; the objects
    that are created are those of [RtPc16c550] and [RtPl011] on the buses of
    [Bus] and [MappedBus]. *)
From Stdlib Require Import String.
From stdpp Require Import base countable gmap list.
From S2P Require Import Prelude Bus MappedBus RtUart RtPc16c550 RtPl011.
#[local] Open Scope Z_scope.

(** ** Creation *)

(** A driver on a bus. *)
Inductive uart_object (C : Type) :=
  | Dummy16550 (u : rtuart dummy_bus pc16c550 C)
  | DummyPl011 (u : rtuart dummy_bus pl011 C)
  | Uio16550 (u : rtuart mapped pc16c550 C)
  | UioPl011 (u : rtuart mapped pl011 C).
Arguments Dummy16550 {C}. Arguments DummyPl011 {C}. Arguments Uio16550 {C}. Arguments UioPl011 {C}.
Inductive bus_object := DummyBusAt (b : dummy_bus) | UioBusAt (b : mapped).

(** What the code asks the system for. *)
Inductive os_call :=
  | Open (device : string)
  | Mmap (fd offset size : Z)
  | FreeBus
  | FreeUart (u : nat)
  | StartThread
  | JoinThread.

(** The variables of the file, and the UARTs that are allocated. *)
Record factory (C : Type) := Factory {
  g_uart : option nat;
  g_run_irq : Z;
  g_uio_fd : Z;
  uarts : gmap nat (uart_object C);
  calls : list os_call }.
Arguments Factory {C}. Arguments g_uart {C}. Arguments g_run_irq {C}. Arguments g_uio_fd {C}. Arguments uarts {C}. Arguments calls {C}.
Definition factory_init {C} : factory C := Factory None 0 (-1) ∅ [].

Definition NAME_PC16C550 : string := "pc16c550".
Definition NAME_PL011 : string := "pl011".

Section factory.
Context {C : Type} (client0 : C).
Implicit Types w : factory C.
Definition with_g_uart (u : option nat) w : factory C := Factory u (g_run_irq w) (g_uio_fd w) (uarts w) (calls w).
Definition with_g_run_irq (r : Z) w : factory C := Factory (g_uart w) r (g_uio_fd w) (uarts w) (calls w).
Definition with_g_uio_fd (fd : Z) w : factory C := Factory (g_uart w) (g_run_irq w) fd (uarts w) (calls w).
Definition with_uarts (m : gmap nat (uart_object C)) w : factory C := Factory (g_uart w) (g_run_irq w) (g_uio_fd w) m (calls w).
Definition call_os (c : os_call) : prog (factory C) unit :=
  modify (fun w => Factory (g_uart w) (g_run_irq w) (g_uio_fd w) (uarts w) (calls w ++ [c])).

(** The width of [u32], what [open] and [mmap] give, which calls of [malloc]
    succeed, what is in memory that was just allocated, and the address of
    the UART. *)
Context (sz : nat) (open : string -> option Z) (mmap : Z -> option (list Z)) (malloc_bus malloc_uart : bool) (garbage : list Z) (address : nat).

Definition dummy_object : prog (factory C) (option bus_object) :=
  b ← lift_outcome (dummy_bus_create malloc_bus garbage); mret (DummyBusAt <$> b).
Definition uio_object (fd offset size : Z) : prog (factory C) (option bus_object) :=
  call_os (Mmap fd offset size) ;; mret (UioBusAt <$> uio32_create (mmap size) malloc_bus offset).

(** [None] is the early return. *)
Definition create_bus (name : string) (bus_name : option string) : prog (factory C) (option (option bus_object)) :=
  bus_name ← deref bus_name;
  if (bus_name =? "dummy")%string then b ← dummy_object; mret (Some b)
  else if String.prefix "dummy:"%string bus_name then b ← dummy_object; mret (Some b)
  else
    call_os (Open bus_name) ;;
    modify (with_g_uio_fd (default (-1) (open bus_name))) ;;
    match open bus_name with
    | None => mret None
    | Some fd =>
        b ← (if (name =? NAME_PC16C550)%string then uio_object fd 0x1000 0x10000
             else if (name =? NAME_PL011)%string then uio_object fd 0 0x1000
             else mret None);
        modify (with_g_run_irq 1) ;;
        mret (Some b)
    end.
Definition made {U} (f : U -> uart_object C) (o : outcome (option U)) : outcome (option (uart_object C)) :=
  u ← o; Done (option_map f u).
Definition create_driver (name : string) (b : bus_object) : outcome (option (uart_object C)) :=
  if (name =? NAME_PC16C550)%string then
    match b with
    | DummyBusAt b => made Dummy16550 (rtuart_pc16c550_create uart_dummy_bus_ops malloc_uart b (100 * 1000 * 1000) ∅ client0)
    | UioBusAt b => made Uio16550 (rtuart_pc16c550_create (uart_uio32_bus_ops sz) malloc_uart b (100 * 1000 * 1000) ∅ client0)
    end
  else if (name =? NAME_PL011)%string then
    match b with
    | DummyBusAt b => made DummyPl011 (rtuart_pl011_create uart_dummy_bus_ops malloc_uart b (48 * 1000 * 1000) ∅ client0)
    | UioBusAt b => made UioPl011 (rtuart_pl011_create (uart_uio32_bus_ops sz) malloc_uart b (48 * 1000 * 1000) ∅ client0)
    end
  else Done None.

Definition rtuart_create (name : string) (bus_name : option string) : prog (factory C) (option nat) :=
  b ← create_bus name bus_name;
  match b with
  | None | Some None => mret None
  | Some (Some b) =>
      u ← lift_outcome (create_driver name b);
      match u with
      | Some u =>
          modify (fun w => with_uarts (<[address := u]> (uarts w)) w) ;;
          modify (with_g_uart (Some address)) ;;
          run ← gets g_run_irq;
          when (negb (run =? 0)) (call_os StartThread) ;;
          mret (Some address)
      | None => call_os FreeBus ;; mret None
      end
  end.

(** The bus of a UART that was created is never null. *)
Definition rtuart_cleanup (uart : option nat) : prog (factory C) unit :=
  g ← gets g_uart;
  if negb (bool_decide (uart = g)) then mret tt
  else
    run ← gets g_run_irq;
    when (negb (run =? 0)) (modify (with_g_run_irq 0) ;; call_os JoinThread) ;;
    modify (with_g_uart None) ;;
    a ← deref uart;
    m ← gets uarts;
    _ ← live (m !! a);
    call_os FreeBus ;;
    modify (fun w => with_uarts (delete a (uarts w)) w) ;;
    call_os (FreeUart a).
End factory.

(** ** The thread *)

(** The answers of the system in a round: of [poll], the events that it
    found, and how many octets [read] and [write] took. *)
Record answers := Answers { ret : Z; revents : Z; nb_read : Z; nb_write : Z }.
Definition POLLIN : Z := 1.
Definition EXIT_FAILURE : Z := 1.

(** The state of the UART and the masks that were written to the device. *)
Record irq_thread (U : Type) := IrqThread { t_uart : U; t_enables : list Z }.
Arguments IrqThread {U}. Arguments t_uart {U}. Arguments t_enables {U}.

Section thread.
Context {U : Type} (sz : nat).
(** The interrupt handler of the driver and the tasklets. *)
Context (rtuart_handle_irq run_all_tasklets : prog U unit).
Definition on_uart (m : prog U unit) : prog (irq_thread U) unit :=
  fun t => match m (t_uart t) with Done (_, u) => Done (tt, IrqThread u (t_enables t)) | Fault f => Fault f end.

Definition uio_handle_irq (nb : Z) : Z := if nb =? Z.of_nat sz then 1 else 0.
Definition uio_set_interrupt_enable (on nb : Z) : prog (irq_thread U) unit :=
  modify (fun t => IrqThread (t_uart t) (t_enables t ++ [on])) ;;
  if negb (nb =? Z.of_nat sz) then raise (Exited EXIT_FAILURE) else mret tt.

Definition irq_round (a : answers) : prog (irq_thread U) unit :=
  if ret a <? 0 then mret tt
  else
    (if ret a =? 0 then mret tt
     else when (revents a =? POLLIN) (
       when (negb (uio_handle_irq (nb_read a) =? 0)) (on_uart rtuart_handle_irq) ;;
       uio_set_interrupt_enable 1 (nb_write a))) ;;
    on_uart run_all_tasklets.
Fixpoint irq_rounds (rounds : list answers) : prog (irq_thread U) unit :=
  match rounds with [] => mret tt | a :: rounds => irq_round a ;; irq_rounds rounds end.
(** The rounds until [g_run_irq] is zero; the first and the last write take
    [first] and [last] octets. *)
Definition irq_handler_function (first last : Z) (rounds : list answers) : prog (irq_thread U) unit :=
  uio_set_interrupt_enable 1 first ;;
  irq_rounds rounds ;;
  uio_set_interrupt_enable 0 last.
End thread.

(** ** What is created *)
Section properties.
Context {C : Type} (client0 : C).
Context (sz : nat) (open : string -> option Z) (mmap : Z -> option (list Z)) (malloc_bus malloc_uart : bool) (garbage : list Z) (address : nat).
#[local] Notation create := (rtuart_create client0 sz open mmap malloc_bus malloc_uart garbage address).
Implicit Types w : factory C.

(** Without the name of a bus the comparison is with a null pointer, before
    the test for it. *)
Lemma no_bus_name_faults name w : create name None w = Fault NullPointer.
Proof. reflexivity. Qed.

(** A driver that does not exist: the device has been opened, and stays open. *)
Lemma unknown_driver_keeps_device name device fd w :
  name <> NAME_PC16C550 -> name <> NAME_PL011 -> (device =? "dummy")%string = false -> String.prefix "dummy:"%string device = false -> open device = Some fd ->
  create name (Some device) w = Done (None, Factory (g_uart w) 1 fd (uarts w) (calls w ++ [Open device])).
Proof.
  intros H1 H2 Hd Hp Ho. apply String.eqb_neq in H1, H2. unfold rtuart_create, create_bus, mbind, prog_bind. cbn [deref mret prog_ret].
  unfold mret, prog_ret. rewrite Hd, Hp, Ho, H1, H2. reflexivity.
Qed.

(** The cleanup of a UART that was never created. *)
Lemma cleanup_of_nothing_faults w : g_uart w = None -> g_run_irq w = 0 -> rtuart_cleanup None w = Fault NullPointer.
Proof. intros Hg Hr. destruct w; cbn in *. by subst. Qed.
End properties.

Section thread_properties.
Context {U : Type} (handle tasklets : prog U unit).

(** What the driver of UIO of the kernel documents: an interrupt is read, and
    a mask is written, with four octets; other sizes are refused. *)
Definition uio_answers (sz : nat) (a : answers) : Prop :=
  nb_write a = (if (sz =? 4)%nat then 4 else -1) /\ (nb_read a <> -1 -> sz = 4%nat /\ nb_read a = 4).

(** An [u32] that is an [unsigned long] of eight octets is refused: the
    program ends before it waits for the first interrupt. *)
Lemma wide_mask_exits last rounds t : irq_handler_function 8 handle tasklets (-1) last rounds t = Fault (Exited EXIT_FAILURE).
Proof. reflexivity. Qed.

(** The handler runs once for each interrupt that is read, and each time the
    interrupt is enabled again. *)
Definition interrupt (a : answers) : bool := (0 <? ret a) && (revents a =? POLLIN).
Definition work (a : answers) : prog U unit :=
  if ret a <? 0 then mret tt
  else when (interrupt a && (nb_read a =? 4)) handle ;; tasklets.
Fixpoint works (rounds : list answers) : prog U unit :=
  match rounds with [] => mret tt | a :: rounds => work a ;; works rounds end.

Lemma round_work a t : uio_answers 4 a ->
  irq_round 4 handle tasklets a t =
  match work a (t_uart t) with
  | Done (_, u) => Done (tt, IrqThread u (t_enables t ++ (if interrupt a then [1] else [])))
  | Fault f => Fault f
  end.
Proof.
  intros [Hw _]. unfold irq_round, work, interrupt, uio_handle_irq, uio_set_interrupt_enable. cbn in Hw. rewrite Hw.
  destruct (Z.ltb_spec (ret a) 0) as [Hn|Hn].
  { destruct (Z.ltb_spec 0 (ret a)); [lia|]. cbn. rewrite app_nil_r. by destruct t. }
  destruct (Z.eqb_spec (ret a) 0) as [->|Hr]; unfold mbind, prog_bind, on_uart; cbn.
  { destruct t as [u l]; cbn. rewrite app_nil_r. by destruct (tasklets u) as [[[] u']|f]. }
  destruct (Z.ltb_spec 0 (ret a)); [|lia]. cbn. change (Z.of_nat 4) with 4.
  destruct t as [u l]; cbn. destruct (revents a =? POLLIN); cbn.
  - destruct (nb_read a =? 4); cbn; [destruct (handle u) as [[[] u']|f]; cbn; [|done]|].
    + unfold mbind, prog_bind; cbn. by destruct (tasklets u') as [[[] u'']|f].
    + unfold mbind, prog_bind; cbn. by destruct (tasklets u) as [[[] u'']|f].
  - rewrite app_nil_r. by destruct (tasklets u) as [[[] u'']|f].
Qed.

(** With a mask of four octets, whatever [poll] answers, the thread runs
    the interrupt handler once for each interrupt that it reads and the
    tasklets in every round that did not fail, and it enables the interrupt
    at the beginning, after each one, and not at the end. *)
Theorem interrupts_are_handled rounds t :
  Forall (uio_answers 4) rounds ->
  irq_handler_function 4 handle tasklets 4 4 rounds t =
  match works rounds (t_uart t) with
  | Done (_, u) => Done (tt, IrqThread u (t_enables t ++ [1] ++ replicate (length (filter interrupt rounds)) 1 ++ [0]))
  | Fault f => Fault f
  end.
Proof.
  intros Hr. unfold irq_handler_function, mbind, prog_bind.
  change (uio_set_interrupt_enable 4 1 4 t) with (@Done (unit * irq_thread U) (tt, IrqThread (t_uart t) (t_enables t ++ [1]))). cbn iota.
  enough (forall t, irq_rounds 4 handle tasklets rounds t = match works rounds (t_uart t) with
    | Done (_, u) => Done (tt, IrqThread u (t_enables t ++ replicate (length (filter interrupt rounds)) 1)) | Fault f => Fault f end) as ->.
  { cbn. destruct (works rounds (t_uart t)) as [[[] u]|f]; [|done].
    match goal with |- uio_set_interrupt_enable 4 0 4 ?s = _ => change (uio_set_interrupt_enable 4 0 4 s) with (@Done (unit * irq_thread U) (tt, IrqThread (t_uart s) (t_enables s ++ [0]))) end.
    cbn. by rewrite <- !app_assoc. }
  clear t. induction Hr as [|a rounds Ha Hr IH]; intros t; cbn [irq_rounds works].
  { cbn. rewrite app_nil_r. by destruct t. }
  unfold mbind, prog_bind. rewrite round_work by done. destruct (work a (t_uart t)) as [[[] u]|f]; [|done].
  rewrite IH. cbn [t_uart t_enables]. destruct (works rounds u) as [[[] u']|f]; [|done]. rewrite <- app_assoc. do 4 f_equal.
  rewrite filter_cons. destruct (interrupt a); by destruct (decide _).
Qed.
End thread_properties.

Definition counted : prog Z unit := modify (fun n => n + 100).
Lemma interrupts_are_handled_witness :
  irq_handler_function 4 counted (modify Z.succ) 4 4 [Answers 1 1 4 4; Answers 0 0 (-1) 4; Answers (-1) 0 (-1) 4; Answers 1 1 4 4] (IrqThread 0 []) =
  Done (tt, IrqThread 203 [1; 1; 1; 0]).
Proof.
  rewrite (interrupts_are_handled counted (modify Z.succ)); [reflexivity|].
  repeat (apply List.Forall_cons; [split; [reflexivity|cbn; lia]|]). apply List.Forall_nil.
Defined.
