(* ===== verification/WaitQueue.v ===== *)
(** * Waiting with a time limit: waitqueue.c

    [src/kernel_emulation/waitqueue/waitqueue.c] and [waitqueue.h]: the wait
    queues of the kernel on top of condition variables.  The clock and what
    [pthread_cond_timedwait] answers are parameters of a round; the arithmetic
    of times and the loop of [wait_event_interruptible_timeout] are those of
    the code. *)
From stdpp Require Import base list.
From S2P Require Import Prelude.

(** A [long] of 64 bits. *)
Definition i64 (z : Z) : Z := (z + 2 ^ 63) mod 2 ^ 64 - 2 ^ 63.
Definition ETIMEDOUT : Z := 110.
Definition ERESTART : Z := 85.
Definition NSEC_PER_SEC : Z := 1000000000.
Definition NSEC_PER_MSEC : Z := 1000000.

Record timespec := Timespec { tv_sec : Z; tv_nsec : Z }.

(** [milliseconds] is an [unsigned long]. *)
Definition timespec_add_milliseconds (ts : timespec) (milliseconds : Z) : timespec :=
  let sec := i64 (tv_sec ts + milliseconds / 1000) in
  if milliseconds mod 1000 =? 0 then Timespec sec (tv_nsec ts)
  else
    let nsec := i64 (tv_nsec ts + milliseconds mod 1000 * NSEC_PER_MSEC) in
    Timespec (i64 (sec + Z.quot nsec NSEC_PER_SEC)) (Z.rem nsec NSEC_PER_SEC).

(** The loop of [timespec_sub]. *)
Fixpoint borrow (fuel : nat) (ts : timespec) : outcome timespec :=
  match fuel with
  | O => Fault OutOfFuel
  | S fuel =>
      if tv_nsec ts <? 0 then borrow fuel (Timespec (i64 (tv_sec ts - 1)) (tv_nsec ts + NSEC_PER_SEC)) else Done ts
  end.
Definition timespec_sub (fuel : nat) (ts subtractor : timespec) : outcome timespec :=
  borrow fuel (Timespec (i64 (tv_sec ts - tv_sec subtractor)) (i64 (tv_nsec ts - tv_nsec subtractor))).
(** The result is an [unsigned long]. *)
Definition timespec_to_milliseconds (ts : timespec) : Z := u64 (Z.quot (tv_nsec ts) NSEC_PER_MSEC + 1000 * tv_sec ts).
(** Jiffies are milliseconds. *)
Definition milliseconds_to_jiffies (ms : Z) : Z := ms.
Definition jiffies_to_milliseconds (jiffies : Z) : Z := jiffies.

(** A wait: the time when it starts, the answer of [pthread_cond_timedwait],
    the time after it, and the condition that the caller evaluates then. *)
Record wait_round := Round { w_then : timespec; w_ret : Z; w_now : timespec; w_condition : Z }.

(** The borrow is needed once at most. *)
Definition sub_fuel : nat := 2.
Definition __wait_event_interruptible_timeout (timeout_jiffies : Z) (r : wait_round) : outcome Z :=
  let ts_then := timespec_add_milliseconds (w_then r) (jiffies_to_milliseconds timeout_jiffies) in
  if w_ret r =? 0 then
    rest ← timespec_sub sub_fuel ts_then (w_now r); Done (i32 (timespec_to_milliseconds rest))
  else if w_ret r =? ETIMEDOUT then Done 0
  else if w_ret r <? 0 then Done (- ERESTART)
  else Done (i32 (- w_ret r)).

(** [___wait_cond_timeout]: whether the loop ends, and [__ret] then; the
    condition is stored in a [char]. *)
Definition ___wait_cond_timeout (condition ret : Z) : bool * Z :=
  let c := negb (u8 condition =? 0) in
  let ret' := if c && (ret =? 0) then 1 else ret in
  (c || (ret' =? 0), ret').
(** The macro, with the rounds to come. *)
Fixpoint wait_event_interruptible_timeout (timeout_jiffies : Z) (rounds : list wait_round) : outcome Z :=
  match rounds with
  | [] => Fault OutOfFuel
  | r :: rounds =>
      ret ← __wait_event_interruptible_timeout timeout_jiffies r;
      let '(stop, ret) := ___wait_cond_timeout (w_condition r) ret in
      if stop : bool then Done ret else wait_event_interruptible_timeout timeout_jiffies rounds
  end.

(** ** Times as numbers *)

Definition ns (ts : timespec) : Z := tv_sec ts * NSEC_PER_SEC + tv_nsec ts.
(** A time as the clock gives it. *)
Definition clock_time (ts : timespec) : Prop := 0 <= tv_sec ts < 2 ^ 62 /\ 0 <= tv_nsec ts < NSEC_PER_SEC.

Lemma i64_id z : - 2 ^ 63 <= z < 2 ^ 63 -> i64 z = z.
Proof. intros Hz. unfold i64. rewrite Z.mod_small; lia. Qed.
Lemma i32_u64 z : - 2 ^ 31 <= z < 2 ^ 31 -> i32 (u64 z) = z.
Proof.
  intros Hz. unfold i32, u64. rewrite <- (Z.mod_mod_divide (z mod 2 ^ 64 + 2 ^ 31) (2 ^ 64) (2 ^ 32)) by (exists (2 ^ 32); lia).
  rewrite Z.add_mod_idemp_l by lia. rewrite Z.mod_mod_divide by (exists (2 ^ 32); lia). rewrite Z.mod_small; lia.
Qed.

(** A time limit is what it says. *)
Lemma ns_add ts ms : clock_time ts -> 0 <= ms < 2 ^ 62 ->
  ns (timespec_add_milliseconds ts ms) = ns ts + ms * NSEC_PER_MSEC /\ 0 <= tv_nsec (timespec_add_milliseconds ts ms) < NSEC_PER_SEC /\
  0 <= tv_sec (timespec_add_milliseconds ts ms) <= tv_sec ts + ms / 1000 + 1.
Proof.
  intros [Hs Hn] Hms. unfold timespec_add_milliseconds, ns, NSEC_PER_SEC, NSEC_PER_MSEC in *.
  pose proof (Z.div_mod ms 1000 ltac:(lia)). pose proof (Z.mod_pos_bound ms 1000 ltac:(lia)).
  assert (0 <= ms / 1000 <= 2 ^ 61) by (split; [apply Z.div_pos; lia|apply Z.div_le_upper_bound; lia]).
  rewrite (i64_id (tv_sec ts + _)) by lia. destruct (Z.eqb_spec (ms mod 1000) 0) as [Hz|Hz]; cbn [tv_sec tv_nsec]; [lia|].
  rewrite (i64_id (tv_nsec ts + _)) by lia. set (n := tv_nsec ts + ms mod 1000 * 1000000) in *.
  rewrite Z.quot_div_nonneg, Z.rem_mod_nonneg by (subst n; lia).
  pose proof (Z.div_mod n 1000000000 ltac:(lia)). pose proof (Z.mod_pos_bound n 1000000000 ltac:(lia)).
  assert (0 <= n / 1000000000 <= 1) by (split; [apply Z.div_pos; lia|apply Z.lt_succ_r, Z.div_lt_upper_bound; lia]).
  rewrite i64_id by lia. subst n. lia.
Qed.

(** The difference of two times is normalised after one borrow. *)
Lemma sub_ends ts s :
  0 <= tv_sec ts < 2 ^ 63 -> 0 <= tv_nsec ts < NSEC_PER_SEC -> clock_time s ->
  exists d, timespec_sub sub_fuel ts s = Done d /\ ns d = ns ts - ns s /\ 0 <= tv_nsec d < NSEC_PER_SEC.
Proof.
  intros Hs Hn [Hs' Hn']. unfold timespec_sub, sub_fuel, NSEC_PER_SEC, ns in *. rewrite !i64_id by lia. cbn [borrow tv_sec tv_nsec].
  destruct (Z.ltb_spec (tv_nsec ts - tv_nsec s) 0) as [Hlt|Hge]; [|eexists; split; [done|]; cbn; unfold NSEC_PER_SEC; lia].
  rewrite i64_id by lia. unfold NSEC_PER_SEC. destruct (Z.ltb_spec (tv_nsec ts - tv_nsec s + 1000000000) 0); [lia|].
  eexists. split; [done|]. cbn. lia.
Qed.

(** Milliseconds, rounded down. *)
Lemma to_milliseconds_ns d : 0 <= tv_nsec d < NSEC_PER_SEC -> timespec_to_milliseconds d = u64 (ns d / NSEC_PER_MSEC).
Proof.
  intros Hn. unfold timespec_to_milliseconds, ns, NSEC_PER_SEC, NSEC_PER_MSEC in *. f_equal.
  rewrite Z.quot_div_nonneg by lia.
  replace (tv_sec d * 1000000000 + tv_nsec d) with (tv_nsec d + (1000 * tv_sec d) * 1000000) by lia. by rewrite Z.div_add by lia.
Qed.

Section wait.
Context (timeout : Z).
Definition deadline (r : wait_round) : Z := ns (w_then r) + timeout * NSEC_PER_MSEC.
Definition remaining (r : wait_round) : Z := (deadline r - ns (w_now r)) / NSEC_PER_MSEC.
Definition measured (r : wait_round) : Prop :=
  0 <= timeout < 2 ^ 62 /\ clock_time (w_then r) /\ clock_time (w_now r) /\ - 2 ^ 31 <= remaining r < 2 ^ 31.

(** A wait that is woken up answers the milliseconds up to its limit,
    rounded down: less than one is zero, as if the time were over, and after
    the limit, when the thread was woken up late, the answer is negative, as
    if the wait had failed. *)
Theorem woken_wait_answers_remaining r : measured r -> w_ret r = 0 ->
  __wait_event_interruptible_timeout timeout r = Done (remaining r).
Proof.
  intros (Ht & Hth & Hnow & Hrem) Hret. unfold __wait_event_interruptible_timeout, jiffies_to_milliseconds. rewrite Hret. cbn [Z.eqb].
  destruct (ns_add (w_then r) timeout Hth Ht) as (Hns & Hn & Hs).
  assert (timeout / 1000 <= 2 ^ 61) by (apply Z.div_le_upper_bound; lia). destruct Hth as [Hth1 Hth2].
  destruct (sub_ends (timespec_add_milliseconds (w_then r) timeout) (w_now r)) as (d & -> & Hd & Hdn); [lia|done|done|].
  cbn. rewrite to_milliseconds_ns, Hd, Hns by done. f_equal. by apply i32_u64.
Qed.

(** The loop goes on while the condition does not hold and the answer of the
    wait is not zero, be it an error; the time limit starts anew. *)
Lemma loop_goes_on r rounds v :
  __wait_event_interruptible_timeout timeout r = Done v -> v <> 0 -> u8 (w_condition r) = 0 ->
  wait_event_interruptible_timeout timeout (r :: rounds) = wait_event_interruptible_timeout timeout rounds.
Proof.
  intros Hr Hv Hc. cbn [wait_event_interruptible_timeout]. rewrite Hr. cbn. unfold ___wait_cond_timeout. rewrite Hc.
  cbn. apply Z.eqb_neq in Hv. by rewrite Hv.
Qed.

(** Errors are not returned, though the comment of the macro says so. *)
Lemma failed_wait_goes_on r rounds :
  w_ret r <> 0 -> w_ret r <> ETIMEDOUT -> - 2 ^ 31 < w_ret r < 2 ^ 31 -> u8 (w_condition r) = 0 ->
  wait_event_interruptible_timeout timeout (r :: rounds) = wait_event_interruptible_timeout timeout rounds.
Proof.
  intros H0 H1 Hb Hc. eapply loop_goes_on; [|shelve|done].
  unfold __wait_event_interruptible_timeout. rewrite (proj2 (Z.eqb_neq _ _) H0), (proj2 (Z.eqb_neq _ _) H1).
  instantiate (1 := if w_ret r <? 0 then - ERESTART else i32 (- w_ret r)). by destruct (w_ret r <? 0).
  Unshelve. destruct (w_ret r <? 0); [done|]. rewrite i32_small; lia.
Qed.

(** Of a sequence of waits the first one decides after which the
    condition holds or whose time is over: the result is then the time that
    remains, 1 if it is less than a millisecond or over, or 0 without the
    condition.  All waits before it were woken up for nothing. *)
Theorem first_ending_wait_decides pre r post :
  Forall (fun r => measured r /\ w_ret r = 0 /\ remaining r <> 0 /\ u8 (w_condition r) = 0) pre ->
  measured r -> w_ret r = 0 \/ w_ret r = ETIMEDOUT ->
  let rest := if w_ret r =? 0 then remaining r else 0 in
  u8 (w_condition r) <> 0 \/ rest = 0 ->
  wait_event_interruptible_timeout timeout (pre ++ r :: post) =
  Done (if u8 (w_condition r) =? 0 then 0 else if rest =? 0 then 1 else rest).
Proof.
  intros Hpre Hm Hret rest Hend. induction Hpre as [|r0 pre (Hm0 & Hr0 & Hne & Hc0) Hpre IH].
  - cbn [app wait_event_interruptible_timeout].
    assert (__wait_event_interruptible_timeout timeout r = Done rest) as ->.
    { unfold rest. destruct Hret as [H|H]; [rewrite woken_wait_answers_remaining by done; by rewrite H|].
      unfold __wait_event_interruptible_timeout. by rewrite H. }
    cbn. unfold ___wait_cond_timeout. destruct (Z.eqb_spec (u8 (w_condition r)) 0) as [Hc|Hc]; cbn.
    + destruct Hend as [?| ->]; done.
    + done.
  - cbn [app]. rewrite (loop_goes_on _ _ (remaining r0)); [done|by apply woken_wait_answers_remaining|done|done].
Qed.
End wait.

(** ** Concrete waits *)
Definition woken_early : wait_round := Round (Timespec 10 999000000) 0 (Timespec 11 1500000) 0.
Definition woken_ready : wait_round := Round (Timespec 11 2000000) 0 (Timespec 11 12000000) 1.
Definition woken_late : wait_round := Round (Timespec 10 0) 0 (Timespec 10 50000001) 1.
Lemma measured_early : measured 50 woken_early.
Proof. vm_compute. intuition congruence. Defined.
Lemma measured_ready : measured 50 woken_ready.
Proof. vm_compute. intuition congruence. Defined.
Lemma measured_late : measured 50 woken_late.
Proof. vm_compute. intuition congruence. Defined.
Lemma woken_wait_answers_remaining_witness :
  __wait_event_interruptible_timeout 50 woken_early = Done 47 /\ __wait_event_interruptible_timeout 50 woken_late = Done (-1).
Proof.
  split.
  - apply (woken_wait_answers_remaining 50 woken_early measured_early eq_refl).
  - apply (woken_wait_answers_remaining 50 woken_late measured_late eq_refl).
Defined.
Lemma first_ending_wait_decides_witness :
  wait_event_interruptible_timeout 50 ([woken_early] ++ [woken_ready]) = Done 40.
Proof.
  apply (first_ending_wait_decides 50 [woken_early] woken_ready []); [|apply measured_ready|left; reflexivity|left; discriminate].
  apply List.Forall_cons; [|apply List.Forall_nil]. split; [apply measured_early|]. split; [reflexivity|]. split; [discriminate|reflexivity].
Defined.
