(* ===== verification/UioArgs.v ===== *)
(** * The UIO device of a command line: parse_dmx_uio_args.c

    [src/uio/parse_dmx_uio_args.c] and [iterate_uio] of [src/uio/uio.c]: a
    device is given by its path, by its number, or found by the name that the
    device tree gives it.  The directory of the devices is a parameter, and so
    is what [getopt_long] answers; the buffer of the name has a size and is
    overrun by longer names. *)
From Stdlib Require Import String Ascii.
From stdpp Require Import base countable list.
From S2P Require Import Prelude CommandShell RdmShell.

(** ** Devices by name: uio.c *)

(** What is in the place of a file: nothing, or what [fgets] reads of it
    ([None] at its end). *)
Inductive file_at := NoFile | FirstLine (l : option text).

Definition strip (s : text) : text := take (default (length s) (find_if (one_of ["010"; "013"]%char) s)) s.
Definition starts_with (p s : text) : bool := bool_decide (take (length p) s = p).

Section devices.
(** The entries of /sys/class/uio in their order, [None] when [scandir]
    fails, and the files below. *)
Context (scandir : option (list text)) (files : text -> file_at).
Context {S : Type}.

(** [snprintf] and [fgets] stop at the size of their arrays, 100. *)
Definition name_file (d_name : text) : text := take 99 (str "/sys/class/uio/"%string ++ d_name ++ str "/maps/map0/name"%string).
Fixpoint iterate_from (iter : nat -> text -> text -> prog S Z) (i : nat) (namelist : list text) : prog S Z :=
  match namelist with
  | [] => mret (-1)
  | d_name :: namelist =>
      let continue := iterate_from iter (i + 1) namelist in
      if negb (starts_with (str "uio"%string) d_name) then continue
      else
        match files (name_file d_name) with
        | NoFile => raise NullPointer
        | FirstLine None => continue
        | FirstLine (Some l) =>
            r ← iter i d_name (strip (take 99 l));
            if negb (r =? -1) then mret r else continue
        end
  end.
Definition iterate_uio (iter : nat -> text -> text -> prog S Z) : prog S Z :=
  match scandir with None => mret 1 | Some namelist => iterate_from iter 0 namelist end.
End devices.

(** ** The arguments *)

(** What the caller gave pointers to. *)
Record uio_args := UioArgs { uio_name : text; portno : Z }.
Definition with_uio_name (n : text) (a : uio_args) : uio_args := UioArgs n (portno a).
Definition with_portno (p : Z) (a : uio_args) : uio_args := UioArgs (uio_name a) p.

Section args.
Context (scandir : option (list text)) (files : text -> file_at).
(** The size of the array behind [uio_name]. *)
Context (size : nat).

(** [strcpy], [strcat] and [sprintf] into the array. *)
Definition put_name (n : text) : prog uio_args unit :=
  if (length n <? size)%nat then modify (with_uio_name n) else raise OutOfBounds.
Definition append_name (n : text) : prog uio_args unit := a ← get_state; put_name (uio_name a ++ n).

Definition search_uio (user : text) (index : nat) (uio name : text) : prog uio_args Z :=
  if bool_decide (name = user) then append_name uio ;; mret 0 else mret (-1).
Definition find_uio_by_name (fdt_name : text) : prog uio_args Z := iterate_uio scandir files (search_uio fdt_name).

Definition is_digit (c : ascii) : bool := (48 <=? code c) && (code c <=? 57).
(** [strspn(s,"0123456789")==strlen(s)] *)
Definition isnumber (s : text) : bool := forallb is_digit s.
Definition atoi (s : text) : Z := i32 (strtol s 10).

(** The decimal digits of a number, as [sprintf] writes an [int] that is not
    negative. *)
Definition digit_char (d : Z) : ascii := ascii_of_N (Z.to_N (48 + d)).
Fixpoint decimal_digits (fuel : nat) (n : Z) (acc : text) : text :=
  match fuel with
  | O => acc
  | Datatypes.S fuel =>
      let acc := digit_char (n mod 10) :: acc in
      if n <? 10 then acc else decimal_digits fuel (n / 10) acc
  end.
Definition decimal (n : Z) : text :=
  if n <? 0 then "-"%char :: decimal_digits 11 (- n) [] else decimal_digits 11 n [].

Definition parse_uio_args (argv : list text) (fdt_name : text) : prog uio_args Z :=
  match argv with
  | [_; arg1] =>
      found ← (if isnumber arg1 then r ← find_uio_by_name fdt_name; mret (r =? 0) else mret false);
      if found : bool then modify (with_portno (atoi arg1)) ;; mret 0
      else put_name arg1 ;; mret 0
  | [_; arg1; arg2] =>
      if negb (isnumber arg2) then mret 1
      else
        modify (with_portno (atoi arg2)) ;;
        if isnumber arg1 then put_name (str "/dev/uio"%string ++ decimal (atoi arg1)) ;; mret 0
        else put_name arg1 ;; mret 0
  | [] | [_] =>
      r ← find_uio_by_name fdt_name;
      if r =? 0 then mret 0 else mret 1
  | _ => mret 1
  end.
Definition parse_dmx_uio_args (argv : list text) : prog uio_args Z := parse_uio_args argv (str "dmxllg@40000000"%string).

(** What [getopt_long] finds, until it answers -1 with [optind]. *)
Inductive getopt_result := OptDevice (optarg : text) | OptPort (optarg : text) | OptOther.
Fixpoint parse_dmx_uio_args2 (opts : list getopt_result) (optind : Z) : prog uio_args Z :=
  match opts with
  | [] => mret optind
  | OptDevice optarg :: opts => put_name optarg ;; parse_dmx_uio_args2 opts optind
  | OptPort optarg :: opts => modify (with_portno (i32 (strtol optarg 0))) ;; parse_dmx_uio_args2 opts optind
  | OptOther :: _ => mret (-1)
  end.

(** ** Numbers and their digits *)
Lemma code_digit d : 0 <= d < 10 -> code (digit_char d) = 48 + d.
Proof. intros Hd. unfold code, digit_char. rewrite N_ascii_embedding by lia. lia. Qed.
Lemma digit_of_char d : 0 <= d < 10 -> digit (digit_char d) = Some d.
Proof.
  intros Hd. unfold digit. rewrite code_digit by done. rewrite (proj2 (Z.leb_le _ _)), (proj2 (Z.leb_le _ _)) by lia. cbn. f_equal. lia.
Qed.
(** The digits of [n] before those of [acc]. *)
Lemma digits_decimal fuel n acc a : 0 <= n < 10 ^ Z.of_nat fuel -> exists k : nat,
  digits 10 a (decimal_digits fuel n acc) = digits 10 (a * 10 ^ Z.of_nat k + n) acc.
Proof.
  revert n acc a. induction fuel as [|fuel IH]; intros n acc a Hn; [exists 0%nat; cbn in *; f_equal; lia|]. cbn [decimal_digits].
  pose proof (Z.mod_pos_bound n 10 ltac:(lia)). pose proof (Z.div_mod n 10 ltac:(lia)).
  assert (Hstep : forall x, digits 10 x (digit_char (n mod 10) :: acc) = digits 10 (x * 10 + n mod 10) acc).
  { intros x. cbn [digits]. rewrite digit_of_char by done. destruct (Z.ltb_spec (n mod 10) 10); [done|lia]. }
  destruct (Z.ltb_spec n 10).
  - exists 1%nat. rewrite Hstep. f_equal. rewrite Z.mod_small by lia. lia.
  - destruct (IH (n / 10) (digit_char (n mod 10) :: acc) a) as [k Hk].
    { rewrite Nat2Z.inj_succ, Z.pow_succ_r in Hn by lia. split; [apply Z.div_pos; lia|apply Z.div_lt_upper_bound; lia]. }
    exists (Datatypes.S k). rewrite Hk, Hstep. f_equal. rewrite Nat2Z.inj_succ, Z.pow_succ_r by lia. lia.
Qed.
Lemma decimal_digits_only fuel n acc : 0 <= n -> isnumber acc = true -> isnumber (decimal_digits fuel n acc) = true.
Proof.
  revert n acc. induction fuel as [|fuel IH]; intros n acc Hn Hacc; [done|]. cbn [decimal_digits].
  assert (isnumber (digit_char (n mod 10) :: acc) = true) as H.
  { cbn. pose proof (Z.mod_pos_bound n 10 ltac:(lia)). unfold is_digit. rewrite code_digit by lia. apply andb_true_iff. split; [lia|done]. }
  destruct (n <? 10); [done|]. apply IH; [apply Z.div_pos; lia|done].
Qed.
(** A text of digits has neither blanks nor a sign before them. *)
Lemma strto_digits s : isnumber s = true -> strto s 10 = (false, digits 10 0 s).
Proof.
  destruct s as [|c s]; [done|]. cbn [isnumber forallb]. intros [Hc _]%andb_true_iff. unfold is_digit in Hc.
  unfold strto. cbn [skip_space]. unfold is_space. rewrite (proj2 (Z.eqb_neq _ _)) by lia.
  rewrite (proj2 (Z.leb_gt (code c) 13)) by lia. rewrite andb_false_r. cbn [orb].
  rewrite !(proj2 (Z.eqb_neq (code c) _)) by lia. done.
Qed.
Lemma atoi_decimal n : 0 <= n < 2 ^ 31 -> atoi (decimal n) = n /\ isnumber (decimal n) = true.
Proof.
  intros Hn. unfold decimal. destruct (Z.ltb_spec n 0); [lia|].
  assert (isnumber (decimal_digits 11 n []) = true) as Hd by (apply decimal_digits_only; [lia|done]). split; [|done].
  unfold atoi, strtol. rewrite strto_digits by done. destruct (digits_decimal 11 n [] 0) as [k Hk]; [lia|]. rewrite Hk. cbn [digits].
  rewrite Z.mul_0_l, Z.add_0_l, Z.min_l by lia. rewrite i32_small; lia.
Qed.

(** The port and the device that a command line gives by their numbers
    are those that are used: the number of the port is stored, the name of the
    device has the number after /dev/uio. *)
Theorem numbers_name_device prog_name d p fdt_name a :
  0 <= d < 2 ^ 31 -> 0 <= p < 2 ^ 31 -> (length (decimal d) + 8 < size)%nat ->
  parse_uio_args [prog_name; decimal d; decimal p] fdt_name a = Done (0, UioArgs (str "/dev/uio"%string ++ decimal d) p).
Proof.
  intros Hd Hp Hs. unfold parse_uio_args. destruct (atoi_decimal d Hd) as [Had Hnd], (atoi_decimal p Hp) as [Hap Hnp].
  rewrite Hnd, Hnp, Had, Hap. unfold put_name. rewrite length_app.
  rewrite (proj2 (Nat.ltb_lt _ _)) by (change (length (str "/dev/uio"%string)) with 8%nat; lia). reflexivity.
Qed.

(** The name that is found is appended to what the caller put there. *)
Lemma found_name_is_appended pre uio name post a :
  scandir = Some (pre ++ uio :: post) ->
  Forall (fun d => starts_with (str "uio"%string) d = true -> exists l, files (name_file d) = FirstLine (Some l) /\ strip (take 99 l) <> name) pre ->
  starts_with (str "uio"%string) uio = true -> files (name_file uio) = FirstLine (Some name) -> strip (take 99 name) = name ->
  (length (uio_name a ++ uio) < size)%nat ->
  find_uio_by_name name a = Done (0, UioArgs (uio_name a ++ uio) (portno a)).
Proof.
  intros Hs Hpre Hu Hf Hn Hl. unfold find_uio_by_name, iterate_uio. rewrite Hs. generalize 0%nat. clear Hs.
  induction Hpre as [|d pre Hd Hpre IH]; intros i; cbn [app iterate_from].
  - rewrite Hu. cbn [negb]. rewrite Hf, Hn. unfold mbind, prog_bind, search_uio. rewrite bool_decide_eq_true_2 by done.
    unfold append_name, put_name, mbind, prog_bind, get_state. apply Nat.ltb_lt in Hl. rewrite Hl. reflexivity.
  - destruct (starts_with (str "uio"%string) d); cbn [negb]; [|apply IH]. destruct Hd as (l & -> & Hne); [done|].
    unfold mbind, prog_bind, search_uio at 1. rewrite bool_decide_eq_false_2 by done. cbn. apply IH.
Qed.
End args.

(** ** Concrete command lines *)
Definition sysfs (path : text) : file_at :=
  if decide (path = str "/sys/class/uio/uio0/maps/map0/name"%string) then FirstLine (Some (str "gpio"%string))
  else if decide (path = str "/sys/class/uio/uio1/maps/map0/name"%string) then FirstLine (Some (str "pwmctrl@40007000"%string))
  else NoFile.
Definition listing : option (list text) := Some (str <$> ["."%string; ".."%string; "uio0"%string; "uio1"%string]).
Lemma numbers_name_device_witness :
  parse_uio_args listing sysfs 64 [str "pwm"%string; decimal 12; decimal 3] (str "pwmctrl@40007000"%string) (UioArgs (str "/dev/"%string) 0) =
  Done (0, UioArgs (str "/dev/uio12"%string) 3).
Proof. apply (numbers_name_device listing sysfs 64 (str "pwm"%string) 12 3); [lia|lia|]. apply Nat.ltb_lt. reflexivity. Defined.
(** The device of a name; a number without a device is taken for its path. *)
Lemma device_of_name :
  parse_uio_args listing sysfs 64 [str "pwm"%string; str "7"%string] (str "pwmctrl@40007000"%string) (UioArgs (str "/dev/"%string) 0) =
    Done (0, UioArgs (str "/dev/uio1"%string) 7) /\
  parse_uio_args listing sysfs 64 [str "pwm"%string; str "7"%string] (str "dmxllg@40000000"%string) (UioArgs (str "/dev/"%string) 0) =
    Done (0, UioArgs (str "7"%string) 0).
Proof. by vm_compute. Qed.
