(* ===== verification/Pointer.v ===== *)
(** * Mice and joysticks of the console: examples/chardev/dmxconsole/pointer

    [getarg.c] takes an argument out of a command line, [pointer.c] chooses a
    driver by such arguments and keeps the position, and [serial.c], [ps2.c]
    and [js.c] decode what the devices send.  Files and the terminal are
    parameters; the scale of [pointerX] and [pointerY], a double, is left
    out. *)
From Stdlib Require Import String Ascii.
From stdpp Require Import base countable list.
From S2P Require Import Prelude CommandShell.

(** ** Arguments: getarg.c *)

(** [argc] and [argv], which has as many entries at least. *)
Record arguments := Arguments_of { a_argc : Z; a_argv : list text }.

(** The loop that moves the arguments behind forwards. *)
Fixpoint shift_args (n : nat) (j skip : Z) (argv : list text) : outcome (list text) :=
  match n with
  | O => Done argv
  | S n => v ← load argv (j + skip); argv ← store j v argv; shift_args n (j + 1) skip argv
  end.
(** The position of the parameter, from 1 on. *)
Fixpoint search_param (n : nat) (i : Z) (param : text) (argv : list text) : outcome (option Z) :=
  match n with
  | O => Done None
  | S n => v ← load argv i; if decide (v = param) then Done (Some i) else search_param n (i + 1) param argv
  end.
(** The result, the arguments and what is stored in [*paramarg]; the argument
    [paramarg] says whether it is a null pointer. *)
Definition DMXgetarg (args : option arguments) (param : option text) (paramhasarg paramarg : bool) : outcome (Z * option arguments * option text) :=
  match args, param with
  | Some (Arguments_of argc argv), Some param =>
      if argc <? 2 then Done (-2, args, None)
      else if (length param <? 1)%nat then Done (-2, args, None)
      else if paramhasarg && negb paramarg then Done (-2, args, None)
      else
        found ← search_param (Z.to_nat (argc - 1)) 1 param argv;
        match found with
        | None => Done (-1, args, None)
        | Some i =>
            parambak ← load argv i;
            '(ret, skip, arg) ← (if paramhasarg && (i + 1 <? argc) then v ← load argv (i + 1); Done (1, 2, Some v) else Done (0, 1, None)) : outcome (Z * Z * option text);
            argv ← shift_args (Z.to_nat (argc - skip - i)) i skip argv;
            let j := Z.max i (argc - skip) in
            '(j, argv) ← (if j <? argc then argv ← store j parambak argv; Done (j + 1, argv) else Done (j, argv)) : outcome (Z * list text);
            argv ← (if (j <? argc) && paramhasarg then
                      match arg with Some v => store j v argv | None => Fault Uninitialised end
                    else Done argv);
            Done (ret, Some (Arguments_of (argc - skip) argv), arg)
        end
  | _, _ => Done (-2, args, None)
  end.

(** ** The position: pointer.c *)

Definition BUT1 : Z := 1.
Definition BUT2 : Z := 2.
Definition BUT3 : Z := 4.
Definition BUT4 : Z := 8.
Definition BUT5 : Z := 16.
Definition MOUSE_LIMIT : Z := 4096.

Record pointer := Pointer { p_X : Z; p_Y : Z; p_Z : Z; p_B : Z }.
Definition pointersetrawX (x : Z) (p : pointer) : pointer := Pointer x (p_Y p) (p_Z p) (p_B p).
Definition pointersetrawY (y : Z) (p : pointer) : pointer := Pointer (p_X p) y (p_Z p) (p_B p).
Definition pointersetZ (z : Z) (p : pointer) : pointer := Pointer (p_X p) (p_Y p) z (p_B p).
Definition pointersetB (b : Z) (p : pointer) : pointer := Pointer (p_X p) (p_Y p) (p_Z p) b.
Definition clamp (v : Z) : Z := if v <? - MOUSE_LIMIT then - MOUSE_LIMIT else if MOUSE_LIMIT <? v then MOUSE_LIMIT else v.
(** The sums are of type [int]. *)
Definition move_raw (dx dy : Z) (p : pointer) : pointer :=
  pointersetrawY (i32 (p_Y p + dy)) (pointersetrawX (i32 (p_X p + dx)) p).
Definition i8 (z : Z) : Z := (z + 128) mod 256 - 128.
Definition button (b : bool) (m : Z) : Z := if b then m else 0.

(** ** Serial mice: serial.c *)

Inductive ms_state := WAITFORSTART | COLLECTX | COLLECTY | CHECKE.
Record microsoft := Microsoft { ms_start : Z; ms_x : Z; ms_y : Z; ms_at : ms_state }.
Definition ms_movement (m : microsoft) (c : Z) : Z * Z :=
  let x := Z.lor (Z.land (ms_x m) 0x3F) (Z.shiftl (Z.land (ms_start m) 3) 6) in
  let y := Z.lor (Z.land c 0x3F) (Z.shiftl (Z.land (ms_start m) 12) 4) in
  (u8 x, u8 y).
Definition msstatemachine (c : Z) (w : microsoft * pointer) : microsoft * pointer :=
  let '(m, p) := w in
  if has c 64 then (Microsoft c (ms_x m) (ms_y m) COLLECTX, p)
  else
    match ms_at m with
    | COLLECTX => (Microsoft (ms_start m) c (ms_y m) COLLECTY, p)
    | COLLECTY =>
        let '(x, y) := ms_movement m c in
        let B := Z.lor (Z.lor (Z.ldiff (p_B p) (Z.lor BUT1 BUT2)) (button (has (ms_start m) 32) BUT1)) (button (has (ms_start m) 16) BUT2) in
        (Microsoft (ms_start m) x y CHECKE, pointersetB B (move_raw (clamp (i8 x)) (clamp (i8 y)) p))
    | CHECKE =>
        (Microsoft (ms_start m) (ms_x m) (ms_y m) WAITFORSTART,
         pointersetB (Z.lor (Z.ldiff (p_B p) BUT3) (button (has c 32) BUT3)) p)
    | WAITFORSTART => w
    end.
(** A poll reads from the octets that wait, 16 at most, and leaves the others;
    [None] is an error of [read]. *)
Definition microsoftpoll (waiting : option (list Z)) (w : microsoft * pointer) : Z * list Z * (microsoft * pointer) :=
  match waiting with
  | None => (-1, [], w)
  | Some q => (0, drop 16 q, fold_left (fun w c => msstatemachine c w) (take 16 q) w)
  end.

Inductive pc_state := PC_WAITFORSTART | READX1 | READY1 | READX2 | READY2.
Record mousesystems := Mousesystems { pc_at : pc_state; pc_X : Z; pc_Y : Z }.
(** [b] is a [signed char]. *)
Definition mousesystemsmachine (b : Z) (w : mousesystems * pointer) : mousesystems * pointer :=
  let '(m, p) := w in
  if Z.land (u8 b) 0xF8 =? 128 then
    let B := Z.lor (Z.lor (button (negb (has b 4)) BUT1) (button (negb (has b 1)) BUT2)) (button (negb (has b 2)) BUT3) in
    (Mousesystems READX1 0 0, move_raw (clamp (pc_X m)) (clamp (pc_Y m)) (pointersetB B p))
  else
    match pc_at m with
    | READX1 => (Mousesystems READY1 (pc_X m + b) (pc_Y m), p)
    | READY1 => (Mousesystems READX2 (pc_X m) (pc_Y m - b), p)
    | READX2 => (Mousesystems READY2 (pc_X m + b) (pc_Y m), p)
    | READY2 => (Mousesystems PC_WAITFORSTART (pc_X m) (pc_Y m - b), p)
    | PC_WAITFORSTART => w
    end.
Definition mousesystemspoll (waiting : option (list Z)) (w : mousesystems * pointer) : Z * list Z * (mousesystems * pointer) :=
  match waiting with
  | None => (-1, [], w)
  | Some q => (0, drop 16 q, fold_left (fun w b => mousesystemsmachine (i8 b) w) (take 16 q) w)
  end.

(** The part of the device's path from its last slash on, with the slash, is
    put behind the name of the lock. *)
Fixpoint last_part (device : text) : text :=
  match device with
  | [] => []
  | c :: rest => if existsb (fun x => bool_decide (x = "/"%char)) rest then last_part rest else device
  end.
Definition lock_name (device : text) : text := take 4095 (str "/var/lock/LCK.."%string ++ last_part device).
(** The beginning of [serialinit]: the lock is taken, and the device opened;
    [configure] is the rest.  [access] and [open] are the calls of the
    system, [open] without leave to create the file. *)
Definition serialinit (access : text -> bool) (open : text -> option Z) (configure : Z -> Z) (device : option text) : Z :=
  match device with
  | None => -1
  | Some device =>
      if (length device <? 1)%nat then -1
      else if access (lock_name device) then -1
      else
        match open (lock_name device) with
        | None => -1
        | Some _ => match open device with None => -1 | Some fh => configure fh end
        end
  end.

(** ** Mice of PS/2: ps2.c *)

Definition SIGNX : Z := 16.
Definition SIGNY : Z := 32.
Definition OVFLX : Z := 64.
Definition OVFLY : Z := 128.
Inductive ps2_mode := PS2NORMAL | PS2INTELLI | PS2INTELLI2.

(** The file of the device: octets are written to it and read from it. *)
Class Ps2Port (D : Type) := { ps2_write : Z -> st D unit; ps2_read : st D (option Z) }.

Section ps2.
Context {D : Type} `{!Ps2Port D}.

Definition ps2sendcommand (c : Z) : st D Z :=
  ps2_write c ;;
  r ← ps2_read;
  mret match r with Some c => if c =? 0xFA then 0 else -1 | None => -1 end.
Definition ps2setrate (r : Z) : st D Z :=
  ret ← ps2sendcommand 0xF3;
  if ret <? 0 then mret (-1) else ret ← ps2sendcommand r; mret (if ret <? 0 then -1 else 0).
Definition ps2getid : st D Z :=
  ret ← ps2sendcommand 0xF2;
  if ret <? 0 then mret (-1) else c ← ps2_read; mret (default (-1) c).
(** [!ps2setrate(a) && !ps2setrate(b) && !ps2setrate(c)] *)
Fixpoint set_rates (rates : list Z) : st D bool :=
  match rates with
  | [] => mret true
  | r :: rates => ret ← ps2setrate r; if ret =? 0 then set_rates rates else mret false
  end.
Definition try_mode (rates : list Z) (id : Z) (m old : ps2_mode) : st D ps2_mode :=
  ok ← set_rates rates;
  if ok : bool then b ← ps2getid; mret (if b =? id then m else old) else mret old.
(** After the device was opened and emptied: the result and the mode. *)
Definition ps2init : st D (Z * ps2_mode) :=
  _ ← ps2sendcommand 0xFF;
  c ← ps2_read;
  match c with
  | Some c =>
      if negb (c =? 0xAA) then mret (-1, PS2NORMAL)
      else
        i ← ps2_read;
        match i with
        | None => mret (-1, PS2NORMAL)
        | Some _ =>
            m ← try_mode [200; 100; 80] 3 PS2INTELLI PS2NORMAL;
            m ← try_mode [200; 200; 80] 4 PS2INTELLI2 m;
            _ ← ps2setrate 200;
            _ ← ps2sendcommand 0xF4;
            mret (0, m)
        end
  | None => mret (-1, PS2NORMAL)
  end.
End ps2.

(** What [fread] did not fill is not initialised. *)
Definition octet (buf : list Z) (i : nat) : outcome Z := match buf !! i with Some c => Done c | None => Fault Uninitialised end.
Definition ps2_axis (v : Z) (overflow sign : bool) : Z := i8 v + (if overflow then if sign then -256 else 256 else 0).
Definition ps2poll (m : ps2_mode) (buf : list Z) (p : pointer) : outcome (Z * pointer) :=
  let buf := take (match m with PS2NORMAL => 3 | _ => 4 end)%nat buf in
  extra ← match m with PS2INTELLI2 => c ← octet buf 3; Done (Z.lor (button (has c 16) BUT4) (button (has c 32) BUT5)) | _ => Done 0 end;
  wheel ← match m with
          | PS2NORMAL => Done 0
          | _ => c ← octet buf 3; Done (i8 (if has c 8 then Z.lor c 0xF0 else Z.land c 0x07))
          end;
  b0 ← octet buf 0; b1 ← octet buf 1; b2 ← octet buf 2;
  let dx := ps2_axis b1 (has b0 OVFLX) (has b0 SIGNX) in
  let dy := - ps2_axis b2 (has b0 OVFLY) (has b0 SIGNY) in
  let B := Z.lor (Z.lor (Z.lor extra (button (has b0 1) BUT1)) (button (has b0 2) BUT2)) (button (has b0 4) BUT3) in
  Done (0, pointersetB B (pointersetZ (i32 (p_Z p + wheel)) (move_raw (clamp dx) (clamp dy) p))).

(** ** Joysticks: js.c *)

Definition JS_EVENT_BUTTON : Z := 0x01.
Definition JS_EVENT_AXIS : Z := 0x02.
Definition JS_EVENT_INIT : Z := 0x80.
(** [struct js_event]; [value] is a [short]. *)
Record js_event := JsEvent { js_value : Z; js_type : Z; js_number : Z }.
Definition js_button (number : Z) : Z :=
  if number =? 1 then BUT3 else if number =? 2 then BUT1 else if number =? 3 then BUT4 else if number =? 4 then BUT5 else BUT2.
Definition js_step (e : js_event) (p : pointer) : pointer :=
  let type := Z.ldiff (js_type e) JS_EVENT_INIT in
  if type =? JS_EVENT_BUTTON then
    pointersetB (if negb (js_value e =? 0) then Z.lor (p_B p) (js_button (js_number e)) else Z.ldiff (p_B p) (js_button (js_number e))) p
  else if type =? JS_EVENT_AXIS then
    if js_number e =? 0 then pointersetrawX (i32 (p_X p + js_value e)) p
    else if js_number e =? 1 then pointersetrawY (i32 (p_Y p + js_value e)) p else p
  else p.
(** Whether [fread] read an event is not looked at. *)
Definition jspoll (e : option js_event) (p : pointer) : outcome (Z * pointer) :=
  match e with Some e => Done (0, js_step e p) | None => Fault Uninitialised end.

(** ** The choice of a driver *)

Inductive driver := Js | MouseSystems | MicrosoftMouse | Mm | Ps2.
(** An option with a device: the driver and the device, if it was given. *)
Definition option_driver (opt : string) (d : driver) (s : option arguments * option (driver * text)) : outcome (option arguments * option (driver * text)) :=
  '(ret, args, f) ← DMXgetarg s.1 (Some (str opt)) true true;
  Done (args, if ret =? 1 then (match f with Some f => Some (d, f) | None => s.2 end) else s.2).
(** The scale is left out, [init] is the call of the driver that was chosen;
    without gpm its option ends the program. *)
Definition pointerinit (init : driver -> text -> Z) (args : option arguments) : outcome (Z * option arguments * option (driver * text)) :=
  s ← option_driver "--js" Js (args, None);
  s ← option_driver "--pc" MouseSystems s;
  s ← option_driver "--ms" MicrosoftMouse s;
  s ← option_driver "--mm" Mm s;
  '(ret, args, _) ← DMXgetarg s.1 (Some (str "--gpm")) false false;
  if ret =? 0 then Fault (Exited 1)
  else
    s ← option_driver "--ps2" Ps2 (args, s.2);
    '(_, args, _) ← DMXgetarg s.1 (Some (str "--mousescale")) true true;
    match s.2 with
    | None => Done (0, args, None)
    | Some (d, device) => if init d device <? 0 then Done (-1, args, s.2) else Done (1, args, s.2)
    end.
Definition pointerprocess (poll : Z) : Z := if poll <? 0 then -1 else 0.

(** ** Arguments are taken out *)

Lemma search_param_at pre param post i n :
  param ∉ pre -> (length pre < n)%nat ->
  forall front, length front = i -> search_param n (Z.of_nat i) param (front ++ pre ++ param :: post) = Done (Some (Z.of_nat (i + length pre))).
Proof.
  revert i n. induction pre as [|v pre IH]; intros i n Hp Hn front Hf; (destruct n as [|n]; [cbn in Hn; lia|]); cbn [search_param length] in *.
  - rewrite (load_nat _ i param) by (by rewrite lookup_app_r, Hf, Nat.sub_diag by lia). cbn. rewrite decide_True by done. by rewrite Nat.add_0_r.
  - apply not_elem_of_cons in Hp as [Hv Hp].
    rewrite (load_nat _ i v) by (by rewrite lookup_app_r, Hf, Nat.sub_diag by lia). cbn. rewrite decide_False by done.
    replace (Z.of_nat i + 1) with (Z.of_nat (S i)) by lia.
    replace (front ++ v :: pre ++ param :: post) with ((front ++ [v]) ++ pre ++ param :: post) by (by rewrite <- app_assoc).
    rewrite IH by (rewrite ?length_app; cbn; lia || done). f_equal. f_equal. lia.
Qed.
(** Every argument behind is moved over [length gap] places. *)
Lemma shift_args_moves (rest gap front : list text) : gap <> [] ->
  exists gap', length gap' = length gap /\
  shift_args (length rest) (Z.of_nat (length front)) (Z.of_nat (length gap)) (front ++ gap ++ rest) = Done (front ++ rest ++ gap').
Proof.
  revert gap front. induction rest as [|v rest IH]; intros gap front Hg; [exists gap; by rewrite app_nil_r|]. cbn [shift_args length].
  replace (Z.of_nat (length front) + Z.of_nat (length gap)) with (Z.of_nat (length front + length gap)) by lia.
  rewrite (load_nat _ _ v) by (rewrite !lookup_app_r by lia; by replace (_ - _ - _)%nat with 0%nat by lia). cbn.
  rewrite store_nat by (rewrite !length_app; cbn; lia). cbn. destruct gap as [|g gap]; [done|].
  rewrite insert_app_r_alt, Nat.sub_diag by lia. cbn.
  destruct (IH (gap ++ [v]) (front ++ [v])) as (gap' & Hl & He); [by destruct gap|].
  exists gap'. split; [rewrite Hl, length_app; cbn; lia|].
  replace (front ++ v :: gap ++ v :: rest) with ((front ++ [v]) ++ (gap ++ [v]) ++ rest) by (by rewrite <- !app_assoc).
  replace (Z.of_nat (length front) + 1) with (Z.of_nat (length (front ++ [v]))) by (rewrite length_app; cbn; lia).
  replace (Z.of_nat (S (length gap))) with (Z.of_nat (length (gap ++ [v]))) by (rewrite length_app; cbn; lia).
  rewrite He. by rewrite <- app_assoc.
Qed.

(** An option with its argument is found at its first place, both are
    moved to the end of the arguments, which are fewer by two then, and all
    others keep their order. *)
Theorem getarg_takes_argument name pre param arg post :
  param ∉ pre -> param <> [] ->
  DMXgetarg (Some (Arguments_of (Z.of_nat (length pre + length post + 3)) (name :: pre ++ param :: arg :: post))) (Some param) true true =
  Done (1, Some (Arguments_of (Z.of_nat (length pre + length post + 1)) (name :: pre ++ post ++ [param; arg])), Some arg).
Proof.
  intros Hp Hne. unfold DMXgetarg. destruct (Z.ltb_spec (Z.of_nat (length pre + length post + 3)) 2); [lia|].
  destruct (Nat.ltb_spec (length param) 1); [destruct param; cbn in *; [done|lia]|]. cbn [andb negb].
  pose proof (search_param_at pre param (arg :: post) 1 (Z.to_nat (Z.of_nat (length pre + length post + 3) - 1)) Hp ltac:(lia) [name] eq_refl) as Hs.
  cbn [app] in Hs. change (Z.of_nat 1) with 1 in Hs. rewrite Hs. cbn [mbind outcome_bind].
  rewrite (load_nat _ (1 + length pre) param) by (by apply (list_lookup_middle (name :: pre))). cbn [mbind outcome_bind andb].
  destruct (Z.ltb_spec (Z.of_nat (1 + length pre) + 1) (Z.of_nat (length pre + length post + 3))); [|lia].
  replace (Z.of_nat (1 + length pre) + 1) with (Z.of_nat (2 + length pre)) by lia.
  rewrite (load_nat _ (2 + length pre) arg) by (change (param :: arg :: post) with ([param] ++ arg :: post); rewrite app_assoc; apply (list_lookup_middle (name :: pre ++ [param])); cbn; rewrite length_app; cbn; lia).
  cbn [mbind outcome_bind].
  replace (Z.to_nat _) with (length post) by lia.
  destruct (shift_args_moves post [param; arg] (name :: pre)) as (gap' & Hl & He); [done|].
  cbn [length app] in He. change (Z.of_nat 2) with 2 in He. change (1 + length pre)%nat with (S (length pre)). rewrite He. cbn [mbind outcome_bind].
  destruct gap' as [|g1 [|g2 [|]]]; try discriminate Hl.
  replace (Z.max _ _) with (Z.of_nat (1 + length pre + length post)) by lia.
  destruct (Z.ltb_spec (Z.of_nat (1 + length pre + length post)) (Z.of_nat (length pre + length post + 3))); [|lia].
  rewrite store_nat by (cbn; rewrite !length_app; cbn; lia). cbn [mbind outcome_bind].
  replace (Z.of_nat (1 + length pre + length post) + 1) with (Z.of_nat (2 + length pre + length post)) by lia.
  destruct (Z.ltb_spec (Z.of_nat (2 + length pre + length post)) (Z.of_nat (length pre + length post + 3))); [|lia]. cbn [andb].
  rewrite store_nat by (rewrite length_insert; cbn; rewrite !length_app; cbn; lia). cbn [mbind outcome_bind]. do 2 f_equal. f_equal. f_equal. f_equal; [lia|].
  change (name :: pre ++ ?x) with ((name :: pre) ++ x). rewrite !(app_assoc (name :: pre)).
  rewrite !insert_app_r_alt by (rewrite length_app; cbn; lia). rewrite !length_app. cbn [length].
  replace (1 + length pre + length post - (S (length pre) + length post))%nat with 0%nat by lia.
  by replace (2 + length pre + length post - (S (length pre) + length post))%nat with 1%nat by lia.
Qed.

(** ** What the mice send is what the pointer does *)

(** A report of a Microsoft mouse: the movement, the left and right button,
    and the middle button, for which there may be a fourth octet. *)
Record ms_report := MsReport { r_dx : Z; r_dy : Z; r_left : bool; r_right : bool; r_middle : option bool }.
Definition ms_ok (r : ms_report) : Prop := -128 <= r_dx r < 128 /\ -128 <= r_dy r < 128.
Definition ms_octets (r : ms_report) : list Z :=
  [64 + 32 * b2z (r_left r) + 16 * b2z (r_right r) + 4 * (u8 (r_dy r) / 64) + u8 (r_dx r) / 64; u8 (r_dx r) mod 64; u8 (r_dy r) mod 64] ++
  match r_middle r with Some m => [32 * b2z m] | None => [] end.
Definition ms_effect (r : ms_report) (p : pointer) : pointer :=
  let B := Z.lor (Z.lor (Z.ldiff (p_B p) (Z.lor BUT1 BUT2)) (button (r_left r) BUT1)) (button (r_right r) BUT2) in
  let p := pointersetB B (move_raw (r_dx r) (r_dy r) p) in
  match r_middle r with Some m => pointersetB (Z.lor (Z.ldiff B BUT3) (button m BUT3)) p | None => p end.

(** All movements of an axis. *)
Definition range (lo : Z) (n : nat) : list Z := (fun i => lo + Z.of_nat i) <$> seq 0 n.
Lemma range_forall lo n (P : Z -> bool) : forallb P (range lo n) = true -> forall z, lo <= z < lo + Z.of_nat n -> P z = true.
Proof.
  intros H z Hz. apply (proj1 (forallb_forall _ _) H), list_elem_of_In. unfold range. apply list_elem_of_fmap. exists (Z.to_nat (z - lo)).
  split; [lia|]. apply elem_of_seq. lia.
Qed.
(** The high bits of one axis come out of the first octet, whatever its other
    bits are. *)
Definition start_of (hx hy : Z) (l r : bool) : Z := 64 + 32 * b2z l + 16 * b2z r + 4 * hy + hx.
Definition start_ok (hx hy : Z) (l r : bool) : bool :=
  (Z.land (start_of hx hy l r) 3 =? hx) && (Z.land (start_of hx hy l r) 12 =? 4 * hy) && has (start_of hx hy l r) 64 &&
  eqb (has (start_of hx hy l r) 32) l && eqb (has (start_of hx hy l r) 16) r.
Lemma start_bits hx hy l r : 0 <= hx < 4 -> 0 <= hy < 4 -> start_ok hx hy l r = true.
Proof.
  intros Hx Hy. revert hy Hy. apply (range_forall 0 4). revert hx Hx. refine (range_forall 0 4 (fun hx => forallb (fun z => start_ok hx z l r) (range 0 4)) _).
  by destruct l, r.
Qed.
Definition axis_ok (d : Z) : bool :=
  let low := u8 d mod 64 in
  let v := Z.lor (Z.land low 0x3F) (Z.shiftl (u8 d / 64) 6) in
  let w := Z.lor (Z.land low 0x3F) (Z.shiftl (4 * (u8 d / 64)) 4) in
  (clamp (i8 (u8 v)) =? d) && (clamp (i8 (u8 w)) =? d) && negb (has low 64).
Lemma axis_bits d : -128 <= d < 128 -> axis_ok d = true.
Proof. apply (range_forall (-128) 256). by vm_compute. Qed.
Lemma u8_high d : 0 <= u8 d / 64 < 4.
Proof. unfold u8. pose proof (Z.mod_pos_bound d (2 ^ 8) ltac:(lia)). split; [apply Z.div_pos; lia|apply Z.div_lt_upper_bound; lia]. Qed.

Lemma ms_report_decoded r m p : ms_ok r ->
  exists m', fold_left (fun w c => msstatemachine c w) (ms_octets r) (m, p) = (m', ms_effect r p).
Proof.
  intros [Hx Hy]. destruct r as [dx dy l r mid]; cbn [r_dx r_dy r_left r_right r_middle] in *.
  pose proof (start_bits (u8 dx / 64) (u8 dy / 64) l r (u8_high dx) (u8_high dy)) as Hs.
  pose proof (axis_bits dx Hx) as Ax. pose proof (axis_bits dy Hy) as Ay.
  unfold start_ok in Hs. unfold axis_ok in Ax, Ay. rewrite !andb_true_iff, !Z.eqb_eq, !eqb_true_iff in Hs. rewrite !andb_true_iff, !Z.eqb_eq, !negb_true_iff in Ax, Ay.
  destruct Hs as ((((H3 & H12) & H64) & H32) & H16), Ax as ((Ax1 & Ax2) & Ax3), Ay as ((Ay1 & Ay2) & Ay3).
  unfold ms_octets. cbn [r_dx r_dy r_left r_right r_middle]. fold (start_of (u8 dx / 64) (u8 dy / 64) l r).
  assert (exists m', fold_left (fun w c => msstatemachine c w) [start_of (u8 dx / 64) (u8 dy / 64) l r; u8 dx mod 64; u8 dy mod 64] (m, p) =
    (m', ms_effect (MsReport dx dy l r None) p) /\ ms_at m' = CHECKE) as (m1 & Hm1 & Hat).
  { cbn [fold_left]. unfold msstatemachine at 3. rewrite H64. unfold msstatemachine at 2. rewrite Ax3. cbn [ms_at].
    unfold msstatemachine. rewrite Ay3. cbn [ms_at ms_movement ms_start ms_x]. unfold ms_movement. cbn [ms_start ms_x]. rewrite H3, H12, H32, H16, Ax1, Ay2.
    eexists. split; [reflexivity|done]. }
  rewrite fold_left_app, Hm1. destruct mid as [b|]; [|by exists m1]. cbn [fold_left]. unfold msstatemachine.
  assert (has (32 * b2z b) 64 = false) as -> by (by destruct b). rewrite Hat.
  assert (has (32 * b2z b) 32 = b) as -> by (by destruct b). eexists. done.
Qed.

(** [n] polls, as long as none is an error. *)
Fixpoint polls {W} (poll : option (list Z) -> W -> Z * list Z * W) (n : nat) (q : list Z) (w : W) : list Z * W :=
  match n with
  | O => (q, w)
  | S n => let '(r, q', w') := poll (Some q) w in if r <? 0 then (q', w') else polls poll n q' w'
  end.
(** Polls that read all octets are one pass over them. *)
Lemma polls_read_all {W} (poll : option (list Z) -> W -> Z * list Z * W) (step : W -> Z -> W) n q w :
  (forall q w, poll (Some q) w = (0, drop 16 q, fold_left step (take 16 q) w)) -> (length q <= 16 * n)%nat ->
  polls poll n q w = ([], fold_left step q w).
Proof.
  intros Hp. revert q w. induction n as [|n IH]; intros q w Hl; cbn [polls]; [by destruct q; cbn in Hl; [|lia]|].
  rewrite Hp. change (0 <? 0) with false. cbv iota. rewrite IH by (rewrite length_drop; lia). by rewrite <- fold_left_app, take_drop.
Qed.

(** C36: whatever came before, the pointer moves by the movements that a
    Microsoft mouse reports, in their order, with the buttons of the last
    report; a middle button that is not reported keeps its state.  The octets
    of the reports are read in polls of sixteen at most, which need not end
    with a report. *)
Theorem microsoft_reports_decoded rs m p n : Forall ms_ok rs -> (length (concat (ms_octets <$> rs)) <= 16 * n)%nat ->
  exists m', polls microsoftpoll n (concat (ms_octets <$> rs)) (m, p) = ([], (m', fold_left (fun p r => ms_effect r p) rs p)).
Proof.
  intros Hr Hl. rewrite (polls_read_all _ (fun w c => msstatemachine c w)) by done. clear Hl.
  enough (exists m', fold_left (fun w c => msstatemachine c w) (concat (ms_octets <$> rs)) (m, p) = (m', fold_left (fun p r => ms_effect r p) rs p)) as [m' ->] by by exists m'.
  revert m p. induction Hr as [|r rs Hr Hrs IH]; intros m p; [by exists m|].
  cbn [fmap list_fmap concat fold_left]. rewrite fold_left_app. destruct (ms_report_decoded r m p Hr) as [m1 ->]. apply IH.
Qed.

(** A report of a Mouse Systems mouse: the buttons and two movements; numbers
    below -120 look like the beginning of a report. *)
Record pc_report := PcReport { q_B : Z; q_dx1 : Z; q_dy1 : Z; q_dx2 : Z; q_dy2 : Z }.
Definition pc_small (v : Z) : Prop := -120 <= v < 128.
Definition pc_ok (r : pc_report) : Prop := 0 <= q_B r < 8 /\ pc_small (q_dx1 r) /\ pc_small (q_dy1 r) /\ pc_small (q_dx2 r) /\ pc_small (q_dy2 r).
Definition pc_octets (r : pc_report) : list Z := [128 + q_B r; u8 (q_dx1 r); u8 (q_dy1 r); u8 (q_dx2 r); u8 (q_dy2 r)].
(** The buttons of a report and the movement of the one before, which is the
    movement that waits. *)
Definition pc_buttons (b : Z) : Z :=
  Z.lor (Z.lor (button (negb (has b 4)) BUT1) (button (negb (has b 1)) BUT2)) (button (negb (has b 2)) BUT3).
Definition pc_effect (r : pc_report) (w : Z * Z * pointer) : Z * Z * pointer :=
  let '(dx, dy, p) := w in
  (q_dx1 r + q_dx2 r, - q_dy1 r - q_dy2 r, move_raw (clamp dx) (clamp dy) (pointersetB (pc_buttons (q_B r)) p)).

Lemma pc_data v : pc_small v -> i8 (u8 v) = v /\ (Z.land (u8 (i8 (u8 v))) 0xF8 =? 128) = false.
Proof.
  intros Hv. enough ((i8 (u8 v) =? v) && negb (Z.land (u8 (i8 (u8 v))) 0xF8 =? 128) = true) as H
    by (rewrite andb_true_iff, negb_true_iff, Z.eqb_eq in H; done).
  revert v Hv. apply (range_forall (-120) 248 (fun v => (i8 (u8 v) =? v) && negb (Z.land (u8 (i8 (u8 v))) 0xF8 =? 128))). by vm_compute.
Qed.
Lemma pc_start b : 0 <= b < 8 ->
  (Z.land (u8 (i8 (128 + b))) 0xF8 =? 128) = true /\ pc_buttons (i8 (128 + b)) = pc_buttons b.
Proof.
  intros Hb. enough ((Z.land (u8 (i8 (128 + b))) 0xF8 =? 128) && (pc_buttons (i8 (128 + b)) =? pc_buttons b) = true) as H
    by (rewrite andb_true_iff, (Z.eqb_eq (pc_buttons _)) in H; done).
  revert b Hb. apply (range_forall 0 8 (fun b => (Z.land (u8 (i8 (128 + b))) 0xF8 =? 128) && (pc_buttons (i8 (128 + b)) =? pc_buttons b))). by vm_compute.
Qed.

(** A Mouse Systems mouse is always one report behind: the movement of a
    report is made when the next one begins, while its buttons count at
    once. *)
Theorem movement_lags_behind rs m p n : Forall pc_ok rs -> (length (concat (pc_octets <$> rs)) <= 16 * n)%nat ->
  exists s, polls mousesystemspoll n (concat (pc_octets <$> rs)) (m, p) =
    ([], let '(dx, dy, p') := fold_left (fun w r => pc_effect r w) rs (pc_X m, pc_Y m, p) in
        (Mousesystems s dx dy, p')).
Proof.
  intros Hr Hl. rewrite (polls_read_all _ (fun w b => mousesystemsmachine (i8 b) w)) by done. clear Hl.
  enough (exists s, fold_left (fun w b => mousesystemsmachine (i8 b) w) (concat (pc_octets <$> rs)) (m, p) =
    (let '(dx, dy, p') := fold_left (fun w r => pc_effect r w) rs (pc_X m, pc_Y m, p) in (Mousesystems s dx dy, p'))) as [s ->] by by exists s.
  revert m p. induction Hr as [|r rs Hr Hrs IH]; intros m p; [exists (pc_at m); by destruct m|].
  cbn [fmap list_fmap concat fold_left]. rewrite fold_left_app. destruct Hr as (Hb & H1 & H2 & H3 & H4).
  destruct (pc_start _ Hb) as [Hs HB], (pc_data _ H1) as [E1 F1], (pc_data _ H2) as [E2 F2], (pc_data _ H3) as [E3 F3], (pc_data _ H4) as [E4 F4].
  rewrite E1 in F1. rewrite E2 in F2. rewrite E3 in F3. rewrite E4 in F4. unfold pc_buttons in HB.
  assert (fold_left (fun w b => mousesystemsmachine (i8 b) w) (pc_octets r) (m, p) =
    (Mousesystems PC_WAITFORSTART (q_dx1 r + q_dx2 r) (- q_dy1 r - q_dy2 r), move_raw (clamp (pc_X m)) (clamp (pc_Y m)) (pointersetB (pc_buttons (q_B r)) p))) as ->.
  { unfold pc_octets. cbn [fold_left]. unfold mousesystemsmachine at 5. rewrite Hs, HB. unfold mousesystemsmachine. rewrite E1, E2, E3, E4, F1, F2, F3, F4. reflexivity. }
  destruct (IH (Mousesystems PC_WAITFORSTART (q_dx1 r + q_dx2 r) (- q_dy1 r - q_dy2 r)) (move_raw (clamp (pc_X m)) (clamp (pc_Y m)) (pointersetB (pc_buttons (q_B r)) p))) as [s ->].
  exists s. reflexivity.
Qed.

(** The movement of PS/2 has nine bits, of which the sign is in the first
    octet.  It is used for an overflow only: movements of 128 and more go
    backwards. *)
Definition ps2_octets (dx dy : Z) : list Z :=
  [8 + SIGNX * b2z (dx <? 0) + SIGNY * b2z (dy <? 0); u8 dx; u8 dy].
Definition wrapped (d : Z) : Z := i8 (u8 d).
Lemma wrapped_range d : -256 <= d < 256 -> clamp (wrapped d) = wrapped d /\ clamp (- wrapped d) = - wrapped d.
Proof. intros _. unfold wrapped, i8, clamp, MOUSE_LIMIT. pose proof (Z.mod_pos_bound (u8 d + 128) 256 ltac:(lia)). repeat case_match; lia. Qed.

(** A PS/2 mouse moves the pointer by the movement modulo 256 between
    -128 and 127: right as far as the movement is small, and in the opposite
    direction for 128 and more. *)
Theorem ps2_movement_wraps dx dy p : -256 <= dx < 256 -> -256 <= dy < 256 ->
  ps2poll PS2NORMAL (ps2_octets dx dy) p = Done (0, pointersetB 0 (pointersetZ (i32 (p_Z p)) (move_raw (wrapped dx) (- wrapped dy) p))) /\
  (-128 <= dx < 128 -> wrapped dx = dx) /\ (128 <= dx -> wrapped dx = dx - 256) /\ (dx < -128 -> wrapped dx = dx + 256).
Proof.
  intros Hx Hy. split.
  - destruct (wrapped_range dx Hx) as [Cx _], (wrapped_range dy Hy) as [_ Cy].
    assert (forall a b, has (8 + SIGNX * b2z a + SIGNY * b2z b) OVFLX = false /\ has (8 + SIGNX * b2z a + SIGNY * b2z b) OVFLY = false /\
      has (8 + SIGNX * b2z a + SIGNY * b2z b) 1 = false /\ has (8 + SIGNX * b2z a + SIGNY * b2z b) 2 = false /\ has (8 + SIGNX * b2z a + SIGNY * b2z b) 4 = false) as Hb
      by (intros [] []; repeat split; done).
    destruct (Hb (dx <? 0) (dy <? 0)) as (HX & HY & Hl & Hr & Hm). unfold ps2poll, ps2_octets. cbn [take mbind outcome_bind octet lookup list_lookup].
    unfold ps2_axis. rewrite HX, HY, Hl, Hr, Hm. fold (wrapped dx) (wrapped dy). rewrite !Z.add_0_r, Cx, Cy. done.
  - assert (forall z, -128 <= z < 128 -> i8 z = z) as Hi by (intros z Hz; unfold i8; rewrite Z.mod_small; lia).
    assert (forall k, u8 dx = (dx + k * 256) mod 256) as Hk by (intros k; rewrite Z.mod_add by lia; done).
    assert (forall k, wrapped dx = i8 (dx + k * 256)) as Hw.
    { intros k. unfold wrapped, i8. rewrite (Hk k). rewrite Z.add_mod_idemp_l by lia. done. }
    repeat split; intros H; [rewrite (Hw 0)|rewrite (Hw (-1))|rewrite (Hw 1)]; rewrite Hi; lia.
Qed.

(** A serial mouse never starts: the lock has to be a file that does not
    exist, and is opened without leave to create it. *)
Theorem serial_mouse_never_starts access open configure device :
  (forall path, access path = false -> open path = None) -> serialinit access open configure device = -1.
Proof.
  intros H. unfold serialinit. destruct device as [device|]; [|done]. destruct (length device <? 1)%nat; [done|].
  destruct (access (lock_name device)) eqn:Ha; [done|]. by rewrite H.
Qed.

(** ** Concrete devices *)
Definition left_report : ms_report := MsReport (-3) 70 true false (Some true).
Definition resting : pointer := Pointer 0 0 0 0.
Lemma getarg_takes_argument_witness :
  DMXgetarg (Some (Arguments_of 5 [str "console"; str "-v"; str "--ms"; str "/dev/ttyS0"; str "a.chn"])) (Some (str "--ms")) true true =
  Done (1, Some (Arguments_of 3 [str "console"; str "-v"; str "a.chn"; str "--ms"; str "/dev/ttyS0"]), Some (str "/dev/ttyS0")).
Proof. apply (getarg_takes_argument (str "console") [str "-v"] (str "--ms") (str "/dev/ttyS0") [str "a.chn"]); [|discriminate]. by apply (bool_decide_unpack _). Defined.
Lemma microsoft_reports_decoded_witness :
  exists m', polls microsoftpoll 2 ([64 + 32 + 4 + 3; 61; 6; 32] ++ [64; 5; 0] ++ [64; 5; 0] ++ [64; 5; 0] ++ [64; 5; 0] ++ [64; 5; 0]) (Microsoft 0 0 0 CHECKE, resting) =
    ([], (m', Pointer 22 70 0 4)).
Proof.
  apply (microsoft_reports_decoded (left_report :: replicate 5 (MsReport 5 0 false false None)) (Microsoft 0 0 0 CHECKE) resting 2); [|cbn; lia].
  repeat (apply List.Forall_cons; [unfold ms_ok; cbn; lia|]). apply List.Forall_nil.
Defined.
Lemma movement_lags_behind_witness :
  exists s, polls mousesystemspoll 1 [128 + 3; 7; 1; 1; 255; 128 + 7; 0; 0; 0; 0] (Mousesystems PC_WAITFORSTART 0 0, resting) =
    ([], (Mousesystems s 0 0, Pointer 8 0 0 0)).
Proof.
  apply (movement_lags_behind [PcReport 3 7 1 1 (-1); PcReport 7 0 0 0 0] (Mousesystems PC_WAITFORSTART 0 0) resting 1); [|cbn; lia].
  repeat (apply List.Forall_cons; [unfold pc_ok, pc_small; cbn; lia|]). apply List.Forall_nil.
Defined.
Lemma ps2_movement_wraps_witness :
  ps2poll PS2NORMAL (ps2_octets 200 0) resting = Done (0, Pointer (-56) 0 0 0) /\ wrapped 200 = 200 - 256.
Proof.
  destruct (ps2_movement_wraps 200 0 resting) as (H & _ & Hw & _); [lia|lia|]. split; [exact H|apply Hw; lia].
Defined.
Lemma serial_mouse_never_starts_witness :
  serialinit (fun _ => false) (fun _ => None) id (Some (str "/dev/ttyS0")) = -1.
Proof. apply (serial_mouse_never_starts (fun _ => false) (fun _ => None) id (Some (str "/dev/ttyS0"))). intros path _. reflexivity. Defined.
