(* ===== verification/DmxConsole.v ===== *)
(** * The console: examples/chardev/dmxconsole

    [dmxconsole.cpp] with [dmx_adapter.hpp]: an editor for the channels of a
    DMX512 interface, with cues between which it fades.  The keys, what is on
    the screen and the frames that are sent are modelled; the calls of curses
    are not.  Numbers of type [float] are those of IEEE 754 with 24 bits. *)
From Stdlib Require Import String SpecFloat.
From stdpp Require Import base countable gmap list.
From S2P Require Import Prelude FrameQueue Pointer.
#[local] Open Scope Z_scope.

(** ** Floating point *)

Definition float32 (m e : Z) : spec_float := binary_normalize 24 128 m e false.
Definition fmul : spec_float -> spec_float -> spec_float := SFmul 24 128.
Definition fdiv : spec_float -> spec_float -> spec_float := SFdiv 24 128.
Definition fadd : spec_float -> spec_float -> spec_float := SFadd 24 128.
Definition fsub : spec_float -> spec_float -> spec_float := SFsub 24 128.
(** The conversion of an integer. *)
Definition of_int (z : Z) : spec_float := float32 z 0.
(** 0.1f *)
Definition tenth : spec_float := float32 13421773 (-27).
(** The conversion to [int], towards zero; a value that does not fit is that
    of the processors in use. *)
Definition INT_MIN : Z := - 2 ^ 31.
Definition to_int (f : spec_float) : Z :=
  match f with
  | S754_zero _ => 0
  | S754_finite s m e =>
      let v := if 0 <=? e then Zpos m * 2 ^ e else Zpos m / 2 ^ (- e) in
      let v := if s then - v else v in
      if (INT_MIN <=? v) && (v <? 2 ^ 31) then v else INT_MIN
  | _ => INT_MIN
  end.
(** [(int)(f*1000.0)], where the product is a double. *)
Definition thousandfold (f : spec_float) : Z := to_int (SFmul 53 1024 f (binary_normalize 53 1024 1000 0 false)).

(** ** The device: dmx_adapter.hpp *)

(** The frame of [dmx_device_send_frame]. *)
Definition frame_of (port startcode : Z) (payload : list Z) (payload_size : Z) : dmx512frame :=
  Frame (u16 port) 0 (u8 startcode) (u16 payload_size) (startcode :: payload ++ replicate (512 - length payload) 0) (0, 0) (0, 0).
Definition dmx_device_port_count : Z := 1.
(** The size, the port and the slots of the frame that was read, which
    [read] gives in full or not at all. *)
Definition dmx_device_read_rxframe (got : option dmx512frame) : Z * Z * list Z :=
  match got with Some f => (f_payload_size f - 1, f_port f, tail (f_data f)) | None => (0, 0, []) end.

(** ** The state *)

Inductive display := DISP_MODE_DMX | DISP_MODE_HEX | DISP_MODE_DEC.
#[export] Instance display_eq_dec : EqDecision display.
Proof. solve_decision. Defined.

(** The keys of curses that are told apart. *)
Inductive key :=
  | KEY_PPAGE | KEY_NPAGE | KEY_HOME | KEY_END | KEY_RIGHT | KEY_LEFT | KEY_DOWN | KEY_UP | KEY_IC | KEY_DC | KEY_MOUSE
  | KEY_F (n : Z)
  | Char (c : Z).
(** [MEVENT]: whether [getmouse] gives it and it differs from the one before,
    and its place and buttons. *)
Record mevent := Mevent { m_new : bool; m_x : Z; m_y : Z; m_buttons : list Z }.

(** The places in the text: the cursor, the first channel on the screen, and
    how many channels are in a line and on the screen. *)
Record view := View { current_channel : Z; first_channel : Z; channels_per_line : Z; channels_per_screen : Z }.
Record settings := Settings {
  fadetime : spec_float; fading : Z; current_cue : Z; display_mode : display; channels_offset : Z; palette_number : Z }.
(** The static variables of [pointerevent]. *)
Record old_pointer := OldPointer { oldX : Z; oldY : Z; oldZ : Z; oldB : Z; oldY2 : Z }.
Record console := Console {
  MAXCHANNELS : Z;
  MAXFKEY : Z;
  dmxdev : bool;               (* not a null pointer *)
  dmx : list Z;
  dmxsave : list Z;
  dmxundo : list Z;
  undo_possible : Z;
  v : view;
  s : settings;
  errorstr : bool;
  keybuf : list key;
  mouse : pointer;
  old : old_pointer;
  sent : list dmx512frame }.   (* what was written to the device *)

Definition KEYBUFSIZE : nat := 128.
Definition with_dmx (d : list Z) (c : console) : console := Console (MAXCHANNELS c) (MAXFKEY c) (dmxdev c) d (dmxsave c) (dmxundo c) (undo_possible c) (v c) (s c) (errorstr c) (keybuf c) (mouse c) (old c) (sent c).
Definition with_dmxsave (d : list Z) (c : console) : console := Console (MAXCHANNELS c) (MAXFKEY c) (dmxdev c) (dmx c) d (dmxundo c) (undo_possible c) (v c) (s c) (errorstr c) (keybuf c) (mouse c) (old c) (sent c).
Definition with_undo (d : list Z) (p : Z) (c : console) : console := Console (MAXCHANNELS c) (MAXFKEY c) (dmxdev c) (dmx c) (dmxsave c) d p (v c) (s c) (errorstr c) (keybuf c) (mouse c) (old c) (sent c).
Definition with_view (w : view) (c : console) : console := Console (MAXCHANNELS c) (MAXFKEY c) (dmxdev c) (dmx c) (dmxsave c) (dmxundo c) (undo_possible c) w (s c) (errorstr c) (keybuf c) (mouse c) (old c) (sent c).
Definition with_settings (t : settings) (c : console) : console := Console (MAXCHANNELS c) (MAXFKEY c) (dmxdev c) (dmx c) (dmxsave c) (dmxundo c) (undo_possible c) (v c) t (errorstr c) (keybuf c) (mouse c) (old c) (sent c).
Definition with_error (c : console) : console := Console (MAXCHANNELS c) (MAXFKEY c) (dmxdev c) (dmx c) (dmxsave c) (dmxundo c) (undo_possible c) (v c) (s c) true (keybuf c) (mouse c) (old c) (sent c).
Definition with_keybuf (k : list key) (c : console) : console := Console (MAXCHANNELS c) (MAXFKEY c) (dmxdev c) (dmx c) (dmxsave c) (dmxundo c) (undo_possible c) (v c) (s c) (errorstr c) k (mouse c) (old c) (sent c).
Definition with_mouse (p : pointer) (o : old_pointer) (c : console) : console := Console (MAXCHANNELS c) (MAXFKEY c) (dmxdev c) (dmx c) (dmxsave c) (dmxundo c) (undo_possible c) (v c) (s c) (errorstr c) (keybuf c) p o (sent c).
Definition with_sent (l : list dmx512frame) (c : console) : console := Console (MAXCHANNELS c) (MAXFKEY c) (dmxdev c) (dmx c) (dmxsave c) (dmxundo c) (undo_possible c) (v c) (s c) (errorstr c) (keybuf c) (mouse c) (old c) l.

Definition with_cursor (n : Z) (w : view) : view := View n (first_channel w) (channels_per_line w) (channels_per_screen w).
Definition with_first (n : Z) (w : view) : view := View (current_channel w) n (channels_per_line w) (channels_per_screen w).
Definition with_fadetime (f : spec_float) (t : settings) : settings := Settings f (fading t) (current_cue t) (display_mode t) (channels_offset t) (palette_number t).
Definition with_fading (n : Z) (t : settings) : settings := Settings (fadetime t) n (current_cue t) (display_mode t) (channels_offset t) (palette_number t).
Definition with_cue (n : Z) (t : settings) : settings := Settings (fadetime t) (fading t) n (display_mode t) (channels_offset t) (palette_number t).
Definition with_display (d : display) (t : settings) : settings := Settings (fadetime t) (fading t) (current_cue t) d (channels_offset t) (palette_number t).
Definition with_offset (n : Z) (t : settings) : settings := Settings (fadetime t) (fading t) (current_cue t) (display_mode t) n (palette_number t).
Definition with_palette (n : Z) (t : settings) : settings := Settings (fadetime t) (fading t) (current_cue t) (display_mode t) (channels_offset t) n.

Definition set_view (f : view -> view) : prog console unit := modify (fun c => with_view (f (v c)) c).
Definition set_settings (f : settings -> settings) : prog console unit := modify (fun c => with_settings (f (s c)) c).
(** An [unsigned int]. *)
Definition u32 (z : Z) : Z := z mod 2 ^ 32.

Section console.
Definition dmx_device_send_frame (port startcode : Z) (payload : list Z) (payload_size : Z) : prog console unit :=
  c ← get_state;
  if dmxdev c then modify (fun c => with_sent (sent c ++ [frame_of port startcode payload payload_size]) c) else raise NullPointer.

(** ** Channels *)

(** [&dmx[port*512]], 512 octets. *)
Definition send_port (port : Z) : prog console unit :=
  c ← get_state;
  payload ← lift_outcome (load_all (port * 512) 512 (dmx c));
  dmx_device_send_frame port 0 payload 512.
Fixpoint send_ports (n : nat) (port : Z) : prog console unit :=
  match n with O => mret tt | S n => send_port port ;; send_ports n (port + 1) end.
Definition update_dmx_channels (start_channel end_channel : Z) : prog console unit :=
  let first := Z.quot start_channel 512 in
  send_ports (Z.to_nat (Z.quot (end_channel + 512) 512 - first)) first.
Definition set : prog console unit := c ← get_state; update_dmx_channels (i32 (current_channel (v c))) 1.
Definition setall : prog console unit := c ← get_state; update_dmx_channels 0 (MAXCHANNELS c).
Definition getall (got : option dmx512frame) : prog console unit :=
  c ← get_state;
  if negb (dmxdev c) then raise NullPointer
  else
    let '(size, port, payload) := dmx_device_read_rxframe got in
    when ((0 <? size) && (port * 512 + size <=? MAXCHANNELS c)) (
      slots ← lift_outcome (load_all 0 (Z.to_nat size) payload);
      d ← lift_outcome (store_all (port * 512) slots (dmx c));
      modify (with_dmx d)).

(** [dmx[current_channel]] *)
Definition slot : prog console Z := c ← get_state; lift_outcome (load (dmx c) (current_channel (v c))).
Definition put_slot (x : Z) : prog console unit :=
  c ← get_state; d ← lift_outcome (store (current_channel (v c)) (u8 x) (dmx c)); modify (with_dmx d).

Definition undo : prog console unit :=
  c ← get_state;
  when (negb (undo_possible c =? 0)) (
    l ← lift_outcome (load_all 0 (Z.to_nat (MAXCHANNELS c)) (dmxundo c));
    d ← lift_outcome (store_all 0 l (dmx c));
    modify (with_dmx d) ;; modify (fun c => with_undo (dmxundo c) 0 c)).
Definition undoprep : prog console unit :=
  c ← get_state;
  l ← lift_outcome (load_all 0 (Z.to_nat (MAXCHANNELS c)) (dmx c));
  u ← lift_outcome (store_all 0 l (dmxundo c));
  modify (with_undo u 1).

(** ** Cues *)

Definition cue_at (c : console) (n : Z) : Z := n * MAXCHANNELS c.
Definition savecue : prog console unit :=
  c ← get_state;
  l ← lift_outcome (load_all 0 (Z.to_nat (MAXCHANNELS c)) (dmx c));
  d ← lift_outcome (store_all (cue_at c (current_cue (s c))) l (dmxsave c));
  modify (with_dmxsave d).
Definition loadcue : prog console unit :=
  c ← get_state;
  l ← lift_outcome (load_all (cue_at c (current_cue (s c))) (Z.to_nat (MAXCHANNELS c)) (dmxsave c));
  d ← lift_outcome (store_all 0 l (dmx c));
  modify (with_dmx d).

(** One past the last channel that is not zero in both cues. *)
Fixpoint used_channels (i : nat) (o n : list Z) : outcome Z :=
  match i with
  | O => Done 0
  | S i' =>
      a ← load o (Z.of_nat i'); b ← load n (Z.of_nat i');
      if negb (a =? 0) || negb (b =? 0) then Done (Z.of_nat i) else used_channels i' o n
  end.
Definition mix (p : spec_float) (o n : Z) : Z :=
  to_int (fadd (fmul (of_int o) (fsub (of_int 1) p)) (fmul (of_int n) p)).
(** The loop over the channels. *)
Fixpoint mix_channels (p : spec_float) (n : nat) (i : Z) (old new d : list Z) : outcome (list Z) :=
  match n with
  | O => Done d
  | S n =>
      a ← load old i; b ← load new i;
      d ← (if negb (a =? 0) || negb (b =? 0) then store i (u8 (mix p a b)) d else Done d);
      mix_channels p n (i + 1) old new d
  end.
(** The part of the fade that has passed. *)
Definition passed (t tstart : Z) (fadetime : spec_float) : spec_float :=
  fdiv (fdiv (of_int (u64 (t - tstart))) (of_int 1000)) fadetime.
(** The rounds, with the time at the beginning of each and the one after its
    sleep. *)
Fixpoint fade (clock : list (Z * Z)) (t tstart tend : Z) (max : nat) (old new : list Z) : prog console unit :=
  if tend <? t then mret tt
  else
    match clock with
    | [] => raise OutOfFuel
    | (t1, t2) :: clock =>
        c ← get_state;
        let p := passed t1 tstart (fadetime (s c)) in
        d ← lift_outcome (mix_channels p max 0 old new (dmx c));
        modify (with_dmx d) ;;
        setall ;;
        set_settings (with_fading (to_int (fmul p (of_int 100)))) ;;
        fade clock t2 tstart tend max old new
    end.
Definition change_cue (new_cue : Z) : prog console unit := set_settings (with_cue new_cue) ;; loadcue ;; setall.
Definition crossfade (tstart : Z) (clock : list (Z * Z)) (new_cue : Z) : prog console unit :=
  c ← get_state;
  if (MAXFKEY c <? new_cue) || (new_cue <? 0) then mret tt
  else
    modify (fun c => with_undo (dmxundo c) 0 c) ;;
    savecue ;;
    if SFltb (fadetime (s c)) tenth then change_cue new_cue
    else
      c ← get_state;
      let n := Z.to_nat (MAXCHANNELS c) in
      old ← lift_outcome (load_all (cue_at c (current_cue (s c))) n (dmxsave c));
      new ← lift_outcome (load_all (cue_at c new_cue) n (dmxsave c));
      max ← lift_outcome (used_channels n old new);
      fade clock tstart tstart (u64 (tstart + thousandfold (fadetime (s c)))) (Z.to_nat max) old new ;;
      set_settings (with_fading 0) ;;
      change_cue new_cue.

(** A file as [save] writes it: the cues, and the settings by their names. *)
Record savefile := SaveFile { f_cues : list Z; f_settings : list (string * Z) }.
(** What can be written of the cues is a parameter. *)
Definition save (opened complete closed : bool) : prog console (option savefile) :=
  if negb opened then modify with_error ;; mret None
  else
    when (negb complete) (modify with_error) ;;
    c ← get_state;
    let f := SaveFile (take (Z.to_nat (MAXCHANNELS c * MAXFKEY c)) (dmxsave c))
      [("fadetime"%string, to_int (fmul (fadetime (s c)) (of_int 1000))); ("current_cue"%string, current_cue (s c));
       ("current_channel"%string, i32 (current_channel (v c))); ("first_channel"%string, first_channel (v c)); ("palette_number"%string, palette_number (s c))] in
    when (negb closed) (modify with_error) ;;
    mret (Some f).
Definition load_setting (name : string) (i : Z) : prog console unit :=
  if (name =? "fadetime")%string then set_settings (with_fadetime (fdiv (of_int i) (of_int 1000)))
  else if (name =? "current_channel")%string then set_view (with_cursor (u32 i))
  else if (name =? "first_channel")%string then set_view (with_first i)
  else if (name =? "current_cue")%string then set_settings (with_cue i)
  else if (name =? "palette_number")%string then set_settings (with_palette i)
  else mret tt.
Fixpoint load_settings (l : list (string * Z)) : prog console unit :=
  match l with [] => mret tt | (name, i) :: l => load_setting name i ;; load_settings l end.
Definition load_file (f : option savefile) : prog console unit :=
  match f with
  | None => raise (Exited 1)
  | Some f =>
      c ← get_state;
      d ← lift_outcome (store_all 0 (take (Z.to_nat (MAXCHANNELS c * MAXFKEY c)) (f_cues f)) (dmxsave c));
      modify (with_dmxsave d) ;;
      load_settings (f_settings f)
  end.

(** ** The pointer *)

(** [keybuf[keybufLen++]=k] *)
Definition push_key (k : key) : prog console unit :=
  c ← get_state;
  if (length (keybuf c) <? KEYBUFSIZE)%nat then modify (with_keybuf (keybuf c ++ [k])) else raise OutOfBounds.
(** [n] times, as long as there is room. *)
Definition push_keys (n : Z) (k : key) : prog console unit :=
  modify (fun c => with_keybuf (keybuf c ++ replicate (Nat.min (Z.to_nat n) (KEYBUFSIZE - length (keybuf c))) k) c).
Definition push_moves (d : Z) (less more : key) : prog console unit :=
  if d <? 0 then push_keys (- d) less else if 0 <? d then push_keys d more else mret tt.
(** [pointerX] and [pointerY] scale the position by a double. *)
Context (scaled : Z -> Z).
Definition pointerevent : prog console unit :=
  c ← get_state;
  let o := old c in
  let px := scaled (p_X (mouse c)) in let py := scaled (p_Y (mouse c)) in let pz := p_Z (mouse c) in let b := p_B (mouse c) in
  when (has b BUT3) (push_key (Char 100)) ;;
  when (has b BUT2) (push_key (Char 32)) ;;
  let oldY2' := if has b BUT1 && negb (has (oldB o) BUT1) then py else oldY2 o in
  (if has b BUT1 then push_moves (py - oldY2') (Char 43) (Char 45)
   else
     push_moves (py - oldY o) KEY_UP KEY_DOWN ;;
     push_moves (px - oldX o) KEY_LEFT KEY_RIGHT ;;
     push_moves (pz - oldZ o) KEY_PPAGE KEY_NPAGE) ;;
  modify (fun c => with_mouse (mouse c) (OldPointer px py pz b oldY2') c).

(** ** Keys *)

(** The answer of [getmouse], the times of a fade and how a file could be
    written are parameters of a key; what is saved is put into [files]. *)
Record key_env := KeyEnv { e_mouse : option mevent; e_start : Z; e_clock : list (Z * Z); e_opened : bool; e_complete : bool; e_closed : bool }.

Definition changepalette (p : Z) : prog console unit :=
  when (negb ((p =? 0) || (p =? 1) || (p =? 2))) (set_settings (with_palette 0)).
Definition cursor : prog console Z := c ← get_state; mret (current_channel (v c)).
(** [dmx[current_channel]] is changed to what the function gives for it. *)
Definition change_slot (f : Z -> Z) : prog console unit := x ← slot; put_slot (f x).

(** The value of a key, for those that change the channel of the cursor. *)
Definition up_value (x : Z) : Z := if x <? 255 - 0x10 then x + 0x10 else 255.
Definition down_value (x : Z) : Z := if x =? 255 then 0xe0 else if 0x10 <? x then x - 0x10 else 0.
Definition toggled_value (x : Z) : Z := if x <? 128 then 255 else 0.

Definition key_end : prog console unit :=
  c ← get_state;
  let cpl := channels_per_line (v c) in
  if cpl =? 0 then raise DivideByZero
  else
    let cur := u32 (MAXCHANNELS c - 1) in
    let first := i32 (cur + (cpl - cur mod cpl) - channels_per_screen (v c)) in
    set_view (fun w => with_first (if first <? 0 then 0 else first) (with_cursor cur w)).
Definition key_right : prog console unit :=
  c ← get_state;
  let w := v c in
  when (current_channel w <? u32 (MAXCHANNELS c - 1)) (
    if channels_per_line w =? 0 then raise DivideByZero
    else when (negb (current_channel w mod channels_per_line w =? u32 (channels_per_line w - 1)))
           (set_view (with_cursor (u32 (current_channel w + 1))))).
Definition key_left : prog console unit :=
  c ← get_state;
  let w := v c in
  when (0 <? current_channel w) (
    if channels_per_line w =? 0 then raise DivideByZero
    else when (negb (current_channel w mod channels_per_line w =? 0)) (set_view (with_cursor (current_channel w - 1)))).
Definition key_down : prog console unit :=
  c ← get_state;
  let w := v c in
  let cur := u32 (current_channel w + channels_per_line w) in
  let cur := if u32 (MAXCHANNELS c) <=? cur then u32 (MAXCHANNELS c - 1) else cur in
  set_view (with_cursor cur) ;;
  when (u32 (first_channel w + channels_per_screen w) <=? cur) (set_view (with_first (first_channel w + channels_per_line w))).
Definition key_up : prog console unit :=
  c ← get_state;
  let w := v c in
  let cur := if u32 (channels_per_line w) <=? current_channel w then u32 (current_channel w - channels_per_line w) else current_channel w in
  set_view (with_cursor cur) ;;
  when (cur <? u32 (first_channel w)) (
    let first := first_channel w - channels_per_line w in set_view (with_first (if first <? 0 then 0 else first))).

(** The loops over the channels use [n], the position in [keybuf]. *)
Fixpoint insert_slots (fuel : nat) (n cur : Z) (d : list Z) : outcome (Z * list Z) :=
  match fuel with
  | O => Fault OutOfFuel
  | S fuel =>
      if (cur <? n) && (0 <? n) then x ← load d (n - 1); d ← store n x d; insert_slots fuel (n - 1) cur d else Done (n, d)
  end.
Fixpoint delete_slots (fuel : nat) (n last : Z) (d : list Z) : outcome (Z * list Z) :=
  match fuel with
  | O => Fault OutOfFuel
  | S fuel => if n <? last then x ← load d (n + 1); d ← store n x d; delete_slots fuel (n + 1) last d else Done (n, d)
  end.
Definition fill_channels (x : Z) : prog console unit :=
  c ← get_state; d ← lift_outcome (store_all 0 (replicate (Z.to_nat (MAXCHANNELS c)) x) (dmx c)); modify (with_dmx d).

Definition button_mask (pressed : list Z) : Z := fold_left Z.lor pressed 0.
Definition key_mouse (m : option mevent) : prog console unit :=
  match m with
  | Some m =>
      when (m_new m && (Z.land (m_y m) 1 =? 0) && (2 <=? m_y m)) (
        modify (fun c => with_mouse (pointersetB (button_mask (m_buttons m)) (mouse c)) (old c) c) ;;
        c ← get_state;
        let w := v c in
        let cur := u32 (first_channel w + channels_per_line w * Z.quot (m_y m - 2) 2 + Z.quot (m_x m) 4) in
        set_view (with_cursor (if u32 (MAXCHANNELS c) <=? cur then u32 (MAXCHANNELS c - 1) else cur)) ;;
        pointerevent)
  | None => mret tt
  end.

Definition next_display (d : display) : display :=
  match d with DISP_MODE_DMX => DISP_MODE_HEX | DISP_MODE_HEX => DISP_MODE_DEC | DISP_MODE_DEC => DISP_MODE_DMX end.
(** Letters without regard of their case. *)
Definition letter (c l : Z) : bool := (c =? l) || (c =? l - 32).

(** The characters that are keys. *)
Definition handle_char (e : key_env) (c n : Z) : prog console Z :=
  if c =? 43 then x ← slot; when (x <? 255) (undoprep ;; change_slot (fun x => x + 1)) ;; set ;; mret n
  else if c =? 45 then x ← slot; when (0 <? x) (undoprep ;; change_slot (fun x => x - 1)) ;; set ;; mret n
  else if c =? 32 then undoprep ;; change_slot toggled_value ;; set ;; mret n
  else if (48 <=? c) && (c <=? 57) then set_settings (with_fadetime (of_int (c - 48))) ;; mret n
  else if letter c 98 then undoprep ;; fill_channels 0 ;; setall ;; mret n
  else if letter c 100 then put_slot 0 ;; set ;; mret n
  else if letter c 102 then undoprep ;; fill_channels 0xff ;; setall ;; mret n
  else if letter c 109 then set_settings (fun t => with_display (next_display (display_mode t)) t) ;; mret n
  else if letter c 110 then
    set_settings (fun t => let o := channels_offset t + 1 in with_offset (if 1 <? o then 0 else o) t) ;; mret n
  else if letter c 112 then
    set_settings (fun t => with_palette (palette_number t + 1) t) ;;
    t ← get_state; changepalette (palette_number (s t)) ;; mret n
  else if letter c 113 then raise (Exited 0)
  else if letter c 115 then savecue ;; _ ← save (e_opened e) (e_complete e) (e_closed e); mret n
  else if letter c 117 then undo ;; mret n
  else mret n.
(** The result is [n], which two of the keys change. *)
Definition handle_key (e : key_env) (k : key) (n : Z) : prog console Z :=
  match k with
  | KEY_PPAGE => undoprep ;; change_slot up_value ;; set ;; mret n
  | KEY_NPAGE => undoprep ;; change_slot down_value ;; set ;; mret n
  | KEY_HOME => set_view (fun w => with_first 0 (with_cursor 0 w)) ;; mret n
  | KEY_END => key_end ;; mret n
  | KEY_RIGHT => key_right ;; mret n
  | KEY_LEFT => key_left ;; mret n
  | KEY_DOWN => key_down ;; mret n
  | KEY_UP => key_up ;; mret n
  | KEY_IC =>
      undoprep ;;
      c ← get_state;
      '(n, d) ← lift_outcome (insert_slots (S (Z.to_nat (MAXCHANNELS c))) (MAXCHANNELS c - 1) (current_channel (v c)) (dmx c));
      modify (with_dmx d) ;; setall ;; mret n
  | KEY_DC =>
      undoprep ;;
      c ← get_state;
      let n := i32 (current_channel (v c)) in
      '(n, d) ← lift_outcome (delete_slots (S (Z.to_nat (MAXCHANNELS c - n))) n (MAXCHANNELS c - 1) (dmx c));
      modify (with_dmx d) ;; setall ;; mret n
  | KEY_MOUSE => key_mouse (e_mouse e) ;; mret n
  | KEY_F f =>
      c ← get_state;
      (if f =? 61 then crossfade (e_start e) (e_clock e) (Z.rem (current_cue (s c) + 11) 12)
       else if f =? 62 then crossfade (e_start e) (e_clock e) (Z.rem (current_cue (s c) + 1) 12)
       else when ((1 <=? f) && (f <=? MAXFKEY c)) (crossfade (e_start e) (e_clock e) (f - 1))) ;;
      mret n
  | Char c => handle_char e c n
  end.
(** The loop over the keys; a key may add others. *)
Fixpoint handle_keys (fuel : nat) (env : Z -> key_env) (n : Z) : prog console unit :=
  match fuel with
  | O => raise OutOfFuel
  | S fuel =>
      c ← get_state;
      if n <? Z.of_nat (length (keybuf c)) then
        k ← lift_outcome (load (keybuf c) n);
        n ← handle_key (env n) k n;
        handle_keys fuel env (n + 1)
      else mret tt
  end.
End console.

(** ** The screen and the start *)

Definition calcscreengeometry (COLS LINES : Z) : prog console unit :=
  if COLS <? 4 then modify with_error ;; raise (Exited 1)
  else
    set_view (fun w => View (current_channel w) (first_channel w) (Z.quot COLS 4) (channels_per_screen w)) ;;
    if LINES <? 3 then modify with_error ;; raise (Exited 1)
    else
      let c := LINES - 1 in
      let c := if Z.rem c 2 =? 1 then c - 1 else c in
      set_view (fun w => View (current_channel w) (first_channel w) (channels_per_line w) (Z.quot (channels_per_line w * c) 2)).

(** How a value is shown. *)
Inductive shown := Blank | Full | Percent (n : Z) | Hex (n : Z) | Dec (n : Z).
Definition shown_value (m : display) (d : Z) : shown :=
  match m with
  | DISP_MODE_HEX => if d =? 0 then Blank else Hex d
  | DISP_MODE_DEC => if d =? 0 then Blank else Dec d
  | DISP_MODE_DMX => if d =? 0 then Blank else if d =? 255 then Full else Percent (d * 100 / 255)
  end.
(** The cells that [values] writes: the channel, its value and whether the
    cursor is there. *)
Fixpoint values_line (n : nat) (x z i : Z) (c : console) : outcome (list (Z * shown * bool) * Z * Z) :=
  match n with
  | O => Done ([], z, i)
  | S n =>
      if (x <? channels_per_line (v c)) && (z <? MAXCHANNELS c) && (i <? channels_per_screen (v c)) then
        d ← load (dmx c) z;
        '(l, z', i') ← values_line n (x + 1) (z + 1) (i + 1) c;
        Done ((z, shown_value (display_mode (s c)) d, u32 z =? current_channel (v c)) :: l, z', i')
      else Done ([], z, i)
  end.
Fixpoint values_lines (n : nat) (y z i LINES : Z) (c : console) : outcome (list (Z * shown * bool)) :=
  match n with
  | O => Done []
  | S n =>
      if (y <? LINES) && (z <? MAXCHANNELS c) && (i <? channels_per_screen (v c)) then
        '(l, z', i') ← values_line (Z.to_nat (channels_per_line (v c))) 0 z i c;
        l' ← values_lines n (y + 2) z' i' LINES c;
        Done (l ++ l')
      else Done []
  end.
Definition values (LINES : Z) (c : console) : outcome (list (Z * shown * bool)) :=
  values_lines (Z.to_nat LINES) 2 (first_channel (v c)) 0 LINES c.

Definition view_init : view := View 0 0 20 240.
Definition settings_init : settings := Settings (of_int 1) 0 0 DISP_MODE_DMX 1 0.
(** The variables after [main] has allocated them; [fkeys] is the argument of
    the option, if there is one. *)
Definition new_console (fkeys : option Z) (device : bool) : console :=
  let maxfkey := match fkeys with Some n => if i32 n <? 1 then 1 else i32 n | None => 12 end in
  let maxchannels := if device then Z.max 512 (dmx_device_port_count * 512) else 512 in
  Console maxchannels maxfkey device (replicate (Z.to_nat maxchannels + 10) 0) (replicate (Z.to_nat (maxchannels * maxfkey)) 0)
    (replicate (Z.to_nat maxchannels) 0) 0 view_init settings_init false [] (Pointer 0 0 0 0) (OldPointer 0 0 0 0 0) [].
