(* ===== verification/DmxConsoleContract.v ===== *)
(** * The console: its arrays, its fades and its files

    The properties of [DmxConsole]: which keys keep within the arrays and
    which read behind them, and what editing, the rounds of a fade, saving and
    loading do. *)
From Stdlib Require Import String SpecFloat.
From stdpp Require Import base countable gmap list.
From S2P Require Import Prelude FrameQueue Pointer DmxConsole.
#[local] Open Scope Z_scope.

(** ** The arrays are used within their bounds *)

(** The lines fit on the screen; the cursor is on a channel. *)
Definition view_ok (w : view) : Prop :=
  0 <= current_channel w < 512 /\ 0 <= first_channel w <= 512 /\ 1 <= channels_per_line w <= channels_per_screen w /\ channels_per_screen w < 2 ^ 20.
Record ok (c : console) : Prop := Ok {
  ok_max : MAXCHANNELS c = 512;
  ok_fkey : MAXFKEY c = 12;
  ok_dev : dmxdev c = true;
  ok_dmx : length (dmx c) = 522%nat;
  ok_save : length (dmxsave c) = (12 * 512)%nat;
  ok_undo : length (dmxundo c) = 512%nat;
  ok_view : view_ok (v c);
  ok_cue : 0 <= current_cue (s c) < 12 }.

(** The only other way: the program ends. *)
Definition excused (f : fault) : Prop := f = Exited 0.
Definition safe {A} (m : prog console A) (Q : A -> console -> Prop) (c : console) : Prop :=
  match m c with Done (a, c') => Q a c' | Fault f => excused f end.
Section safe_rules.
Context {A B : Type}.
Lemma safe_bind (m : prog console A) (k : A -> prog console B) Q c : safe m (fun a c' => safe (k a) Q c') c -> safe (m ≫= k) Q c.
Proof. unfold safe, mbind, prog_bind. by destruct (m c) as [[a c']|f]. Qed.
Lemma safe_mono (m : prog console A) (P Q : A -> console -> Prop) c : safe m P c -> (forall a c', P a c' -> Q a c') -> safe m Q c.
Proof. unfold safe. destruct (m c) as [[a c']|f]; auto. Qed.
Lemma safe_ret (a : A) (Q : A -> console -> Prop) c : Q a c -> safe (mret a) Q c.
Proof. done. Qed.
Lemma safe_lift (o : outcome A) a (Q : A -> console -> Prop) c : o = Done a -> Q a c -> safe (lift_outcome o) Q c.
Proof. unfold safe, lift_outcome. by intros ->. Qed.
End safe_rules.
Lemma safe_get (Q : console -> console -> Prop) c : Q c c -> safe get_state Q c.
Proof. done. Qed.
Lemma safe_modify f (Q : unit -> console -> Prop) c : Q tt (f c) -> safe (modify f) Q c.
Proof. done. Qed.
Lemma safe_when b m (Q : unit -> console -> Prop) c : (b = true -> safe m Q c) -> (b = false -> Q tt c) -> safe (when b m) Q c.
Proof. destruct b; cbn; auto. Qed.
Lemma safe_if {A} (b : bool) (m1 m2 : prog console A) Q c : (b = true -> safe m1 Q c) -> (b = false -> safe m2 Q c) -> safe (if b then m1 else m2) Q c.
Proof. destruct b; auto. Qed.
(** What leaves a console that is in order. *)
Definition keeps {A} (m : prog console A) : Prop := forall c, ok c -> safe m (fun _ => ok) c.
Lemma keeps_then {A B} (m : prog console A) (k : A -> prog console B) : keeps m -> (forall a, keeps (k a)) -> keeps (m ≫= k).
Proof. intros Hm Hk c Hc. apply safe_bind. eapply safe_mono; [by apply Hm|]. intros a c' Hc'. by apply Hk. Qed.
Lemma keeps_ret {A} (a : A) : keeps (mret a).
Proof. by intros c Hc. Qed.
Lemma keeps_when b m : keeps m -> keeps (when b m).
Proof. intros Hm. destruct b; [done|apply keeps_ret]. Qed.

Lemma ok_with_dmx d c : length d = 522%nat -> ok c -> ok (with_dmx d c).
Proof. intros Hd []. by split. Qed.
Lemma ok_with_dmxsave d c : length d = (12 * 512)%nat -> ok c -> ok (with_dmxsave d c).
Proof. intros Hd []. by split. Qed.
Lemma ok_with_undo d p c : length d = 512%nat -> ok c -> ok (with_undo d p c).
Proof. intros Hd []. by split. Qed.
Lemma ok_with_view w c : view_ok w -> ok c -> ok (with_view w c).
Proof. intros Hw []. by split. Qed.
Lemma ok_with_settings t c : 0 <= current_cue t < 12 -> ok c -> ok (with_settings t c).
Proof. intros Ht []. by split. Qed.
Lemma ok_with_mouse p o c : ok c -> ok (with_mouse p o c).
Proof. intros []. by split. Qed.
Lemma ok_with_keybuf k c : ok c -> ok (with_keybuf k c).
Proof. intros []. by split. Qed.
Lemma ok_with_sent l c : ok c -> ok (with_sent l c).
Proof. intros []. by split. Qed.
Lemma ok_with_error c : ok c -> ok (with_error c).
Proof. intros []. by split. Qed.

Lemma send_port_safe port c : ok c -> 0 <= port -> port * 512 + 512 <= 522 -> safe (send_port port) (fun _ => ok) c.
Proof.
  intros Hc Hp Hl. unfold send_port. apply safe_bind, safe_get, safe_bind.
  replace (port * 512) with (Z.of_nat (Z.to_nat (port * 512))) by lia.
  eapply safe_lift; [apply load_all_nat; rewrite (ok_dmx c Hc); lia|].
  unfold dmx_device_send_frame. apply safe_bind, safe_get. rewrite (ok_dev c Hc). apply safe_modify. by apply ok_with_sent.
Qed.
Lemma set_keeps : keeps (set).
Proof.
  intros c Hc. unfold set. apply safe_bind, safe_get. unfold update_dmx_channels. destruct (ok_view c Hc) as [Hcur _].
  assert (i32 (current_channel (v c)) = current_channel (v c)) as -> by (rewrite i32_small; lia).
  rewrite (Z.quot_small (current_channel (v c))) by lia. change (Z.to_nat (Z.quot (1 + 512) 512 - 0)) with 1%nat. cbn [send_ports].
  apply safe_bind. eapply safe_mono; [apply send_port_safe; [done|lia|lia]|]. intros ? c' Hc'. by apply safe_ret.
Qed.

Lemma slot_safe (Q : Z -> console -> Prop) c : ok c -> (forall x, Q x c) -> safe slot Q c.
Proof.
  intros Hc HQ. unfold slot. apply safe_bind, safe_get. destruct (ok_view c Hc) as [Hcur _].
  destruct (lookup_lt_is_Some_2 (dmx c) (Z.to_nat (current_channel (v c)))) as [x Hx]; [rewrite (ok_dmx c Hc); lia|].
  rewrite <- (Z2Nat.id (current_channel (v c))) by lia. eapply safe_lift; [by apply load_nat|apply HQ].
Qed.
Lemma put_slot_keeps x : keeps (put_slot x).
Proof.
  intros c Hc. unfold put_slot. apply safe_bind, safe_get, safe_bind. destruct (ok_view c Hc) as [Hcur _].
  rewrite <- (Z2Nat.id (current_channel (v c))) by lia. eapply safe_lift; [apply store_nat; rewrite (ok_dmx c Hc); lia|].
  apply safe_modify, ok_with_dmx; [by rewrite length_insert, (ok_dmx c Hc)|done].
Qed.
Lemma slot_keeps : keeps slot.
Proof. intros c Hc. by apply slot_safe. Qed.
Lemma change_slot_keeps f : keeps (change_slot f).
Proof. apply keeps_then; [apply slot_keeps|intros x; apply put_slot_keeps]. Qed.

Lemma safe_copy (src dst : list Z) (i j : nat) (n : nat) (Q : list Z -> prog console unit) P c :
  (i + n <= length src)%nat -> (j + n <= length dst)%nat ->
  safe (Q (take j dst ++ take n (drop i src) ++ drop (j + n) dst)) P c ->
  safe (l ← lift_outcome (load_all (Z.of_nat i) n src); d ← lift_outcome (store_all (Z.of_nat j) l dst); Q d) P c.
Proof.
  intros Hs Hd HQ. apply safe_bind. eapply safe_lift; [by apply load_all_nat|]. apply safe_bind.
  assert (length (take n (drop i src)) = n) as Hl by (rewrite length_take, length_drop; lia).
  eapply safe_lift; [apply store_all_nat; rewrite Hl; lia|]. by rewrite Hl.
Qed.
Lemma length_copied (src dst : list Z) (i j n : nat) : (i + n <= length src)%nat -> (j + n <= length dst)%nat ->
  length (take j dst ++ take n (drop i src) ++ drop (j + n) dst) = length dst.
Proof. intros Hs Hd. rewrite !length_app, !length_take, !length_drop. lia. Qed.
Lemma undoprep_keeps : keeps undoprep.
Proof.
  intros c Hc. unfold undoprep. apply safe_bind, safe_get. rewrite (ok_max c Hc). change (Z.to_nat 512) with 512%nat.
  apply (safe_copy (dmx c) (dmxundo c) 0 0); [rewrite (ok_dmx c Hc); lia|rewrite (ok_undo c Hc); lia|].
  apply safe_modify, ok_with_undo; [|done]. rewrite length_copied by (rewrite ?(ok_dmx c Hc), ?(ok_undo c Hc); lia). by apply ok_undo.
Qed.
Lemma undo_keeps : keeps undo.
Proof.
  intros c Hc. unfold undo. apply safe_bind, safe_get, safe_when; [intros _|done]. rewrite (ok_max c Hc). change (Z.to_nat 512) with 512%nat.
  apply (safe_copy (dmxundo c) (dmx c) 0 0 512 (fun d => modify (with_dmx d) ;; modify (fun c => with_undo (dmxundo c) 0 c)));
    [rewrite (ok_undo c Hc); lia|rewrite (ok_dmx c Hc); lia|].
  apply safe_bind, safe_modify, safe_modify, ok_with_undo; [exact (ok_undo c Hc)|]. apply ok_with_dmx; [|done].
  rewrite length_copied by (rewrite ?(ok_dmx c Hc), ?(ok_undo c Hc); lia). by apply ok_dmx.
Qed.
Lemma cue_nat c : ok c -> cue_at c (current_cue (s c)) = Z.of_nat (512 * Z.to_nat (current_cue (s c))) /\ (512 * Z.to_nat (current_cue (s c)) + 512 <= length (dmxsave c))%nat.
Proof. intros Hc. destruct (ok_cue c Hc). unfold cue_at. rewrite (ok_max c Hc), (ok_save c Hc). lia. Qed.
Lemma savecue_keeps : keeps savecue.
Proof.
  intros c Hc. unfold savecue. apply safe_bind, safe_get. destruct (cue_nat c Hc) as [-> Hl]. rewrite (ok_max c Hc). change (Z.to_nat 512) with 512%nat.
  apply (safe_copy (dmx c) (dmxsave c) 0); [rewrite (ok_dmx c Hc); lia|lia|].
  apply safe_modify, ok_with_dmxsave; [|done]. rewrite length_copied by (rewrite ?(ok_dmx c Hc); lia). by apply ok_save.
Qed.
Lemma loadcue_keeps : keeps loadcue.
Proof.
  intros c Hc. unfold loadcue. apply safe_bind, safe_get. destruct (cue_nat c Hc) as [-> Hl]. rewrite (ok_max c Hc). change (Z.to_nat 512) with 512%nat.
  apply (safe_copy (dmxsave c) (dmx c) _ 0); [lia|rewrite (ok_dmx c Hc); lia|].
  apply safe_modify, ok_with_dmx; [|done]. rewrite length_copied by (rewrite ?(ok_dmx c Hc); lia). by apply ok_dmx.
Qed.
Lemma settings_keep f : (forall t, current_cue (f t) = current_cue t) -> keeps (set_settings f).
Proof. intros Hf c Hc. apply safe_modify, ok_with_settings; [rewrite Hf; by apply ok_cue|done]. Qed.
Lemma used_channels_done (i : nat) (o n : list Z) : (i <= length o)%nat -> (i <= length n)%nat -> exists k : nat, (k <= i)%nat /\ used_channels i o n = Done (Z.of_nat k).
Proof.
  induction i as [|i IH]; intros Ho Hn; [by exists 0%nat|]. cbn [used_channels].
  destruct (lookup_lt_is_Some_2 o i) as [a Ha]; [lia|]. destruct (lookup_lt_is_Some_2 n i) as [b Hb]; [lia|].
  rewrite (load_nat _ _ _ Ha), (load_nat _ _ _ Hb). cbn [mbind outcome_bind]. destruct (negb (a =? 0) || negb (b =? 0)); [by exists (S i)|].
  destruct IH as (k & Hk & ->); [lia|lia|]. exists k. split; [lia|done].
Qed.
Lemma mix_channels_done p n (i : nat) old new d : (i + n <= length old)%nat -> (i + n <= length new)%nat -> (i + n <= length d)%nat ->
  exists d', mix_channels p n (Z.of_nat i) old new d = Done d' /\ length d' = length d.
Proof.
  revert i d. induction n as [|n IH]; intros i d Ho Hn Hd; [by exists d|]. cbn [mix_channels].
  destruct (lookup_lt_is_Some_2 old i) as [a Ha]; [lia|]. destruct (lookup_lt_is_Some_2 new i) as [b Hb]; [lia|].
  rewrite (load_nat _ _ _ Ha), (load_nat _ _ _ Hb). cbn [mbind outcome_bind]. replace (Z.of_nat i + 1) with (Z.of_nat (S i)) by lia.
  destruct (negb (a =? 0) || negb (b =? 0)).
  - rewrite store_nat by lia. cbn [mbind outcome_bind]. destruct (IH (S i) (<[i := u8 (mix p a b)]> d)) as (d' & -> & Hl); rewrite ?length_insert; [lia..|].
    exists d'. split; [done|]. by rewrite Hl, length_insert.
  - cbn [mbind outcome_bind]. apply IH; lia.
Qed.

Section keys.
Context (scaled : Z -> Z).

Lemma view_keeps f : (forall w, view_ok w -> view_ok (f w)) -> keeps (set_view f).
Proof. intros Hf c Hc. apply safe_modify, ok_with_view; [|done]. by apply Hf, ok_view. Qed.
Lemma key_end_keeps : keeps key_end.
Proof.
  intros c Hc. unfold key_end. apply safe_bind, safe_get. rewrite (ok_max c Hc). destruct (ok_view c Hc) as (Hcur & Hfirst & Hline & Hscr).
  rewrite (proj2 (Z.eqb_neq _ _)) by lia. apply safe_modify, ok_with_view; [|done]. change (u32 (512 - 1)) with 511.
  pose proof (Z.mod_pos_bound 511 (channels_per_line (v c)) ltac:(lia)).
  assert (i32 (511 + (channels_per_line (v c) - 511 mod channels_per_line (v c)) - channels_per_screen (v c)) =
    511 + (channels_per_line (v c) - 511 mod channels_per_line (v c)) - channels_per_screen (v c)) as -> by (rewrite i32_small; lia).
  repeat split; cbn; try lia; destruct (Z.ltb_spec (511 + (channels_per_line (v c) - 511 mod channels_per_line (v c)) - channels_per_screen (v c)) 0); lia.
Qed.
Lemma u32_id z : 0 <= z < 2 ^ 32 -> u32 z = z.
Proof. apply Z.mod_small. Qed.
Lemma key_right_keeps : keeps key_right.
Proof.
  intros c Hc. unfold key_right. apply safe_bind, safe_get. rewrite (ok_max c Hc). destruct (ok_view c Hc) as (Hcur & Hfirst & Hline & Hscr).
  apply safe_when; [intros Hlt%Z.ltb_lt|done]. change (u32 (512 - 1)) with 511 in Hlt. rewrite (proj2 (Z.eqb_neq _ _)) by lia.
  apply safe_when; [intros _|done]. apply safe_modify, ok_with_view; [|done]. unfold view_ok. cbn. rewrite u32_id by lia. lia.
Qed.
Lemma key_left_keeps : keeps key_left.
Proof.
  intros c Hc. unfold key_left. apply safe_bind, safe_get. destruct (ok_view c Hc) as (Hcur & Hfirst & Hline & Hscr).
  apply safe_when; [intros Hlt%Z.ltb_lt|done]. rewrite (proj2 (Z.eqb_neq _ _)) by lia.
  apply safe_when; [intros _|done]. apply safe_modify, ok_with_view; [|done]. unfold view_ok. cbn. lia.
Qed.
Lemma key_down_keeps : keeps key_down.
Proof.
  intros c Hc. unfold key_down. apply safe_bind, safe_get. rewrite (ok_max c Hc). destruct (ok_view c Hc) as (Hcur & Hfirst & Hline & Hscr).
  rewrite !(u32_id (_ + _)) by lia. change (u32 (512 - 1)) with 511. change (u32 512) with 512.
  set (cur := if 512 <=? current_channel (v c) + channels_per_line (v c) then 511 else current_channel (v c) + channels_per_line (v c)).
  assert (0 <= cur < 512) as Hb by (subst cur; destruct (Z.leb_spec 512 (current_channel (v c) + channels_per_line (v c))); lia).
  apply safe_bind, safe_modify. unfold set_view. apply safe_when; [intros Hle%Z.leb_le; apply safe_modify, ok_with_view|intros _].
  - unfold view_ok. cbn. lia.
  - apply ok_with_view; [|done]. unfold view_ok. cbn. lia.
  - apply ok_with_view; [|done]. unfold view_ok. cbn. lia.
Qed.
Lemma key_up_keeps : keeps key_up.
Proof.
  intros c Hc. unfold key_up. apply safe_bind, safe_get. destruct (ok_view c Hc) as (Hcur & Hfirst & Hline & Hscr).
  rewrite (u32_id (channels_per_line (v c))), (u32_id (first_channel (v c))) by lia.
  set (cur := if channels_per_line (v c) <=? current_channel (v c) then u32 (current_channel (v c) - channels_per_line (v c)) else current_channel (v c)).
  assert (0 <= cur < 512) as Hb.
  { subst cur. destruct (Z.leb_spec (channels_per_line (v c)) (current_channel (v c))); [rewrite u32_id by lia; lia|done]. }
  apply safe_bind, safe_modify. apply safe_when; [intros _; apply safe_modify, ok_with_view|intros _].
  - unfold view_ok. cbn. destruct (Z.ltb_spec (first_channel (v c) - channels_per_line (v c)) 0); lia.
  - apply ok_with_view; [|done]. unfold view_ok. cbn. lia.
  - apply ok_with_view; [|done]. unfold view_ok. cbn. lia.
Qed.

(** The moves of the channels to the right and to the left. *)
Lemma insert_slots_done fuel (n : nat) cur d : (n < fuel)%nat -> (n < length d)%nat ->
  exists n' d', insert_slots fuel (Z.of_nat n) cur d = Done (n', d') /\ length d' = length d.
Proof.
  revert n d. induction fuel as [|fuel IH]; intros n d Hf Hl; [lia|]. cbn [insert_slots].
  destruct ((cur <? Z.of_nat n) && (0 <? Z.of_nat n)) eqn:E; [|by eexists _, d].
  apply andb_true_iff in E as [_ E%Z.ltb_lt]. destruct n as [|n]; [lia|]. replace (Z.of_nat (S n) - 1) with (Z.of_nat n) by lia.
  destruct (lookup_lt_is_Some_2 d n) as [x Hx]; [lia|]. rewrite (load_nat _ _ _ Hx). cbn [mbind outcome_bind]. rewrite store_nat by lia. cbn [mbind outcome_bind].
  destruct (IH n (<[S n := x]> d)) as (n' & d' & -> & Hd); [lia|rewrite length_insert; lia|]. exists n', d'. by rewrite Hd, length_insert.
Qed.
Lemma delete_slots_done fuel (n last : nat) d : (n <= last)%nat -> (last - n < fuel)%nat -> (last < length d)%nat ->
  exists n' d', delete_slots fuel (Z.of_nat n) (Z.of_nat last) d = Done (n', d') /\ length d' = length d.
Proof.
  revert n d. induction fuel as [|fuel IH]; intros n d Hn Hf Hl; [lia|]. cbn [delete_slots].
  destruct (Z.ltb_spec (Z.of_nat n) (Z.of_nat last)) as [E|E]; [|by eexists _, d].
  replace (Z.of_nat n + 1) with (Z.of_nat (S n)) by lia.
  destruct (lookup_lt_is_Some_2 d (S n)) as [x Hx]; [lia|]. rewrite (load_nat _ _ _ Hx). cbn [mbind outcome_bind]. rewrite store_nat by lia. cbn [mbind outcome_bind].
  destruct (IH (S n) (<[n := x]> d)) as (n' & d' & -> & Hd); [lia|lia|rewrite length_insert; lia|]. exists n', d'. by rewrite Hd, length_insert.
Qed.
Lemma fill_channels_keeps x : keeps (fill_channels x).
Proof.
  intros c Hc. unfold fill_channels. apply safe_bind, safe_get, safe_bind. rewrite (ok_max c Hc). change (Z.to_nat 512) with 512%nat.
  pose proof (store_all_nat (dmx c) 0 (replicate 512 x)) as Hs. rewrite length_replicate in Hs.
  eapply safe_lift; [apply Hs; rewrite (ok_dmx c Hc); lia|]. apply safe_modify, ok_with_dmx; [|done].
  rewrite !length_app, length_take, length_drop, length_replicate, (ok_dmx c Hc). lia.
Qed.
Lemma save_keeps a b d : keeps (save a b d).
Proof.
  intros c Hc. unfold save. apply safe_if; intros _; [apply safe_bind, safe_modify; by apply ok_with_error|].
  apply safe_bind, (safe_mono _ (fun _ => ok)); [apply safe_when; intros _; [apply safe_modify; by apply ok_with_error|done]|].
  intros ? c1 H1. apply safe_bind, safe_get, safe_bind, safe_when; intros _; [apply safe_modify; by apply ok_with_error|done].
Qed.

(** What a key does that changes the channel of the cursor. *)
Lemma edit_keeps f n : keeps (undoprep ;; change_slot f ;; set ;; mret n : prog console Z).
Proof. repeat (apply keeps_then; [first [apply undoprep_keeps|apply change_slot_keeps|apply set_keeps]|intros _]). apply keeps_ret. Qed.
Lemma step_keeps (f : Z -> bool) g n : keeps (x ← slot; when (f x) (undoprep ;; change_slot g) ;; set ;; mret n : prog console Z).
Proof.
  apply keeps_then; [apply slot_keeps|intros x]. apply keeps_then; [apply keeps_when, keeps_then; [apply undoprep_keeps|intros _; apply change_slot_keeps]|intros _].
  apply keeps_then; [apply set_keeps|intros _; apply keeps_ret].
Qed.
(** Room for the two keys that the buttons of the pointer stand for. *)
Lemma push_key_safe k (Q : unit -> console -> Prop) c : (length (keybuf c) < 128)%nat -> Q tt (with_keybuf (keybuf c ++ [k]) c) -> safe (push_key k) Q c.
Proof.
  intros Hl HQ. unfold push_key. apply safe_bind, safe_get. unfold KEYBUFSIZE. by rewrite (proj2 (Nat.ltb_lt _ _)).
Qed.
Lemma push_moves_keeps d a b : keeps (push_moves d a b).
Proof. unfold push_moves. destruct (d <? 0); [|destruct (0 <? d); [|apply keeps_ret]]; intros c Hc; by apply safe_modify, ok_with_keybuf. Qed.
Lemma pointerevent_safe c : ok c -> (length (keybuf c) <= 126)%nat -> safe (pointerevent scaled) (fun _ => ok) c.
Proof.
  intros Hc Hl. unfold pointerevent. apply safe_bind, safe_get, safe_bind.
  apply (safe_mono _ (fun _ c' => ok c' /\ (length (keybuf c') <= 127)%nat)).
  { apply safe_when; intros _; [apply push_key_safe; [lia|]; split; [by apply ok_with_keybuf|cbn; rewrite length_app; cbn; lia]|split; [done|lia]]. }
  intros _ c1 [H1 Hl1]. apply safe_bind, (safe_mono _ (fun _ c' => ok c')).
  { apply safe_when; intros _; [apply push_key_safe; [lia|]; by apply ok_with_keybuf|done]. }
  intros _ c2 H2. cbn zeta. match goal with |- safe (?m ≫= ?k) _ _ => apply (keeps_then m k) end; [|intros _ c3 H3; by apply safe_modify, ok_with_mouse|done].
  match goal with |- keeps (if ?b then _ else _) => destruct b end; [apply push_moves_keeps|].
  repeat (apply keeps_then; [apply push_moves_keeps|intros _]). apply push_moves_keeps.
Qed.
Lemma key_mouse_safe m c : ok c -> (length (keybuf c) <= 126)%nat -> safe (key_mouse scaled m) (fun _ => ok) c.
Proof.
  intros Hc Hl. unfold key_mouse. destruct m as [m|]; [|done]. apply safe_when; [intros _|done].
  apply safe_bind, safe_modify, safe_bind, safe_get, safe_bind, safe_modify.
  apply pointerevent_safe; [|done]. apply ok_with_view; [|by apply ok_with_mouse]. destruct (ok_view c Hc) as (Hcur & Hfirst & Hline & Hscr).
  cbn [MAXCHANNELS with_mouse]. rewrite (ok_max c Hc). change (u32 512) with 512. change (u32 (512 - 1)) with 511.
  match goal with |- context [u32 ?x] => pose proof (Z.mod_pos_bound x (2 ^ 32) ltac:(lia)) as Hx; fold (u32 x) in Hx; revert Hx; generalize (u32 x) end.
  intros x Hx. unfold view_ok. cbn. destruct (Z.leb_spec 512 x); lia.
Qed.

Lemma handle_char_keeps e ch n : letter ch 98 = false -> letter ch 102 = false -> keeps (handle_char e ch n).
Proof.
  intros Hb Hf. unfold handle_char. rewrite Hb, Hf. repeat match goal with |- keeps (if ?b then _ else _) => destruct b end; try apply keeps_ret; try apply step_keeps; try apply edit_keeps.
  - apply keeps_then; [by apply settings_keep|intros _; apply keeps_ret].
  - apply keeps_then; [apply put_slot_keeps|intros _]. apply keeps_then; [apply set_keeps|intros _; apply keeps_ret].
  - apply keeps_then; [by apply settings_keep|intros _; apply keeps_ret].
  - apply keeps_then; [by apply settings_keep|intros _; apply keeps_ret].
  - apply keeps_then; [by apply settings_keep|intros _]. apply keeps_then; [by intros c Hc|intros t].
    apply keeps_then; [apply keeps_when; by apply settings_keep|intros _; apply keeps_ret].
  - by intros c Hc.
  - apply keeps_then; [apply savecue_keeps|intros _]. apply keeps_then; [apply save_keeps|intros _; apply keeps_ret].
  - apply keeps_then; [apply undo_keeps|intros _; apply keeps_ret].
Qed.
End keys.

(** ** Where the arrays are overrun *)

Lemma load_all_beyond (l : list Z) (i n : nat) : (i <= length l < i + n)%nat -> load_all (Z.of_nat i) n l = Fault OutOfBounds.
Proof.
  revert i. induction n as [|n IH]; intros i Hl; cbn [load_all]; [lia|].
  destruct (decide (i < length l)%nat) as [Hi|Hi]; [|by rewrite load_beyond by lia].
  destruct (lookup_lt_is_Some_2 l i Hi) as [x Hx]. rewrite (load_nat _ _ _ Hx). cbn. replace (Z.of_nat i + 1) with (Z.of_nat (S i)) by lia.
  by rewrite IH by lia.
Qed.

(** The channels, and a cue. *)
Definition channels (c : console) : list Z := take 512 (dmx c).
Definition cue (n : nat) (c : console) : list Z := take 512 (drop (512 * n) (dmxsave c)).

(** The octets that are sent for a port. *)
Definition port_frame (port : nat) (d : list Z) : dmx512frame := frame_of (Z.of_nat port) 0 (take 512 (drop (port * 512) d)) 512.
Lemma send_port_run (port : nat) c : ok c -> (port <= 1)%nat ->
  send_port (Z.of_nat port) c = (if decide (port = 0)%nat then Done (tt, with_sent (sent c ++ [port_frame port (dmx c)]) c) else Fault OutOfBounds).
Proof.
  intros Hc Hp. unfold send_port, mbind, prog_bind, get_state, lift_outcome. replace (Z.of_nat port * 512) with (Z.of_nat (port * 512)) by lia.
  case_decide as Hd.
  - rewrite load_all_nat by (rewrite (ok_dmx c Hc); lia). unfold dmx_device_send_frame, mbind, prog_bind, get_state, modify.
    by rewrite (ok_dev c Hc).
  - by rewrite load_all_beyond by (rewrite (ok_dmx c Hc); lia).
Qed.
(** The frame of the first port is sent; the second port is behind the
    channels. *)
Lemma setall_faults c : ok c -> setall c = Fault OutOfBounds.
Proof.
  intros Hc. unfold setall, update_dmx_channels, mbind, prog_bind, get_state. rewrite (ok_max c Hc).
  change (Z.to_nat (Z.quot (512 + 512) 512 - Z.quot 0 512)) with 2%nat. change (Z.quot 0 512) with (Z.of_nat 0). cbn [send_ports].
  unfold mbind, prog_bind. rewrite send_port_run by (done || lia). rewrite decide_True by lia.
  change (Z.of_nat 0 + 1) with (Z.of_nat 1). rewrite send_port_run by ((by apply ok_with_sent) || lia). done.
Qed.
Lemma set_run c : ok c -> set c = Done (tt, with_sent (sent c ++ [port_frame 0 (dmx c)]) c).
Proof.
  intros Hc. unfold set, update_dmx_channels, mbind, prog_bind, get_state. destruct (ok_view c Hc) as [Hcur _].
  assert (i32 (current_channel (v c)) = current_channel (v c)) as -> by (rewrite i32_small; lia).
  rewrite (Z.quot_small (current_channel (v c))) by lia. change (Z.to_nat (Z.quot (1 + 512) 512 - 0)) with 1%nat. cbn [send_ports].
  unfold mbind, prog_bind. change 0 with (Z.of_nat 0). rewrite send_port_run by (done || lia). done.
Qed.
Lemma undoprep_run c : ok c -> undoprep c = Done (tt, with_undo (channels c) 1 c).
Proof.
  intros Hc. unfold undoprep, mbind, prog_bind, get_state, lift_outcome. rewrite (ok_max c Hc). change (Z.to_nat 512) with 512%nat.
  change 0 with (Z.of_nat 0). rewrite load_all_nat by (rewrite (ok_dmx c Hc); lia). rewrite drop_0.
  rewrite store_all_nat by (rewrite length_take, (ok_undo c Hc); lia). rewrite take_0, length_take, (ok_dmx c Hc), drop_ge by (rewrite (ok_undo c Hc); lia).
  by rewrite app_nil_r.
Qed.
Lemma fill_channels_run x c : ok c -> fill_channels x c = Done (tt, with_dmx (replicate 512 x ++ drop 512 (dmx c)) c).
Proof.
  intros Hc. unfold fill_channels, mbind, prog_bind, get_state, lift_outcome. rewrite (ok_max c Hc). change (Z.to_nat 512) with 512%nat.
  change 0 with (Z.of_nat 0). by rewrite store_all_nat, take_0, length_replicate by (rewrite length_replicate, (ok_dmx c Hc); lia).
Qed.

(** With less than twelve keys for cues the key GO reaches the cue behind the
    last one. *)
Lemma go_overruns_cues tstart clock (n : nat) c :
  MAXCHANNELS c = 512 -> MAXFKEY c = Z.of_nat n -> length (dmx c) = 522%nat -> length (dmxsave c) = (n * 512)%nat ->
  0 <= current_cue (s c) < Z.of_nat n -> SFltb (fadetime (s c)) tenth = false ->
  crossfade tstart clock (Z.of_nat n) c = Fault OutOfBounds.
Proof.
  intros Hm Hk Hd Hs Hc Hf. unfold crossfade, mbind, prog_bind, get_state, lift_outcome. rewrite Hk.
  destruct (Z.ltb_spec (Z.of_nat n) (Z.of_nat n)); [lia|]. destruct (Z.ltb_spec (Z.of_nat n) 0); [lia|]. cbn [orb modify].
  unfold modify. unfold savecue, mbind, prog_bind, get_state, lift_outcome. cbn [MAXCHANNELS with_undo dmx dmxsave s]. rewrite Hm. change (Z.to_nat 512) with 512%nat.
  change (load_all 0 512 (dmx c)) with (load_all (Z.of_nat 0) 512 (dmx c)). rewrite (load_all_nat (dmx c) 0 512) by lia. unfold cue_at. cbn [MAXCHANNELS with_undo s]. rewrite Hm.
  replace (current_cue (s c) * 512) with (Z.of_nat (512 * Z.to_nat (current_cue (s c)))) by lia.
  rewrite store_all_nat by (rewrite length_take, length_drop; lia). unfold modify. rewrite Hf. cbn [MAXCHANNELS with_dmxsave with_undo s dmxsave]. rewrite Hm.
  replace (current_cue (s c) * 512) with (Z.of_nat (512 * Z.to_nat (current_cue (s c)))) by lia. change (Z.to_nat 512) with 512%nat.
  rewrite load_all_nat by (rewrite !length_app, !length_take, !length_drop; lia).
  replace (Z.of_nat n * 512) with (Z.of_nat (512 * n)) by lia. rewrite load_all_beyond; [done|].
  rewrite !length_app, !length_take, !length_drop. lia.
Qed.

(** ** Editing, fading and saving *)

Lemma ok_edited d c : length d = 522%nat -> ok c -> ok (with_dmx d (with_undo (channels c) 1 c)).
Proof. intros Hd Hc. apply ok_with_dmx; [done|]. apply ok_with_undo; [|done]. unfold channels. by rewrite length_take, (ok_dmx c Hc). Qed.
Lemma change_slot_run f x c : ok c -> dmx c !! Z.to_nat (current_channel (v c)) = Some x ->
  change_slot f c = Done (tt, with_dmx (<[Z.to_nat (current_channel (v c)) := u8 (f x)]> (dmx c)) c).
Proof.
  intros Hc Hx. unfold change_slot, slot, put_slot, mbind, prog_bind, get_state, lift_outcome. destruct (ok_view c Hc) as [Hcur _].
  set (cur := Z.to_nat (current_channel (v c))) in *. replace (current_channel (v c)) with (Z.of_nat cur) by lia.
  rewrite (load_nat _ _ _ Hx). cbn beta iota. replace (current_channel (v c)) with (Z.of_nat cur) by lia.
  rewrite store_nat by (rewrite (ok_dmx c Hc); lia). done.
Qed.
Lemma undo_run c : ok c -> undo_possible c = 1 -> undo c = Done (tt, with_undo (dmxundo c) 0 (with_dmx (dmxundo c ++ drop 512 (dmx c)) c)).
Proof.
  intros Hc Hu. unfold undo, when, mbind, prog_bind, get_state, lift_outcome. rewrite Hu, (ok_max c Hc). change (Z.to_nat 512) with 512%nat.
  cbn [negb Z.eqb]. change (load_all 0) with (@load_all Z (Z.of_nat 0)). change (store_all 0) with (@store_all Z (Z.of_nat 0)).
  rewrite load_all_nat, drop_0, (take_ge (dmxundo c)) by (rewrite (ok_undo c Hc); lia).
  by rewrite store_all_nat, take_0, (ok_undo c Hc) by (rewrite (ok_dmx c Hc), (ok_undo c Hc); lia).
Qed.

(** A key that changes the channel of the cursor sends all channels of the
    port with the new value; the key to undo it brings the old values back to
    the screen, but does not send them. *)
Theorem undo_is_not_sent scaled e k f n x c :
  (k, f) ∈ [(KEY_PPAGE, up_value); (KEY_NPAGE, down_value); (Char 32, toggled_value)] ->
  ok c -> dmx c !! Z.to_nat (current_channel (v c)) = Some x ->
  wp (_ ← handle_key scaled e k n; handle_key scaled e (Char 117) n)
    (fun _ c' => dmx c' = dmx c /\
       sent c' = sent c ++ [port_frame 0 (<[Z.to_nat (current_channel (v c)) := u8 (f x)]> (dmx c))]) c.
Proof.
  intros Hk Hc Hx. set (cur := Z.to_nat (current_channel (v c))) in *. destruct (ok_view c Hc) as [Hcur _].
  assert (handle_key scaled e k n c = (undoprep ;; change_slot f ;; set ;; mret n) c) as Hrun.
  { rewrite !elem_of_cons in Hk. destruct Hk as [[= -> ->]|[[= -> ->]|[[= -> ->]|[]%elem_of_nil]]]; reflexivity. }
  assert (ok (with_undo (channels c) 1 c)) as H1 by (apply ok_with_undo; [unfold channels; by rewrite length_take, (ok_dmx c Hc)|done]).
  set (d := <[cur := u8 (f x)]> (dmx c)) in *.
  assert (ok (with_dmx d (with_undo (channels c) 1 c))) as H2 by (apply ok_edited; [subst d; by rewrite length_insert, (ok_dmx c Hc)|done]).
  unfold wp, mbind, prog_bind. rewrite Hrun. unfold mbind, prog_bind. rewrite undoprep_run by done.
  rewrite (change_slot_run f x) by done. cbn [dmx with_undo v]. fold cur. fold d.
  rewrite set_run by done. cbn [mret prog_ret]. unfold mret, prog_ret. cbn [handle_key handle_char].
  change (handle_char e 117 n) with (undo ;; mret n : prog console Z). unfold mbind, prog_bind.
  rewrite undo_run by (done || by apply ok_with_sent). unfold mret, prog_ret. cbn [sent with_undo with_dmx with_sent dmx dmxundo]. split; [|done].
  subst d. unfold channels. rewrite drop_insert_lt by lia. apply take_drop.
Qed.

(** What loading gives and saving keeps. *)
Lemma loadcue_run c : ok c -> loadcue c = Done (tt, with_dmx (cue (Z.to_nat (current_cue (s c))) c ++ drop 512 (dmx c)) c).
Proof.
  intros Hc. unfold loadcue, mbind, prog_bind, get_state, lift_outcome. destruct (cue_nat c Hc) as [-> Hl]. rewrite (ok_max c Hc). change (Z.to_nat 512) with 512%nat.
  rewrite load_all_nat by done. change (store_all 0) with (@store_all Z (Z.of_nat 0)).
  assert (length (cue (Z.to_nat (current_cue (s c))) c) = 512%nat) as Hlen by (unfold cue; rewrite length_take, length_drop; lia).
  fold (cue (Z.to_nat (current_cue (s c))) c). by rewrite store_all_nat, take_0, Hlen by (rewrite (ok_dmx c Hc), Hlen; lia).
Qed.
Lemma savecue_run c : ok c -> exists c', savecue c = Done (tt, c') /\ ok c' /\ v c' = v c /\ s c' = s c /\ dmx c' = dmx c /\ sent c' = sent c /\
  cue (Z.to_nat (current_cue (s c))) c' = channels c /\ forall m, m <> Z.to_nat (current_cue (s c)) -> cue m c' = cue m c.
Proof.
  intros Hc. unfold savecue, mbind, prog_bind, get_state, lift_outcome. destruct (cue_nat c Hc) as [-> Hl]. rewrite (ok_max c Hc). change (Z.to_nat 512) with 512%nat.
  change (load_all 0) with (@load_all Z (Z.of_nat 0)). rewrite load_all_nat by (rewrite (ok_dmx c Hc); lia). rewrite drop_0. fold (channels c).
  assert (length (channels c) = 512%nat) as Hlen by (unfold channels; rewrite length_take, (ok_dmx c Hc); lia).
  rewrite store_all_nat by (rewrite Hlen; done). rewrite Hlen. set (k := Z.to_nat (current_cue (s c))) in *.
  eexists. split; [reflexivity|]. split; [|split; [done|split; [done|split; [done|split; [done|split]]]]].
  - apply ok_with_dmxsave; [|done]. rewrite !length_app, length_take, length_drop, Hlen. pose proof (ok_save c Hc). lia.
  - unfold cue. cbn [dmxsave with_dmxsave]. rewrite drop_app_length' by (rewrite length_take; lia). by rewrite take_app_length'.
  - intros m Hm. unfold cue. cbn [dmxsave with_dmxsave]. destruct (decide (m < k)%nat) as [Hlt|Hge].
    + rewrite drop_app_le by (rewrite length_take; lia). rewrite take_app_le by (rewrite length_drop, length_take; lia).
      by rewrite !take_drop_commute, take_take, Nat.min_l by lia.
    + rewrite app_assoc, drop_app_ge by (rewrite length_app, length_take, Hlen; lia). rewrite drop_drop. do 2 f_equal.
      rewrite length_app, length_take, Hlen. lia.
Qed.

(** *** What sends all channels reads behind them *)

Definition returns {A} (m : prog console A) : Prop := forall c, ok c -> wp m (fun _ => ok) c.
Definition overreads {A} (m : prog console A) : Prop := forall c, ok c -> m c = Fault OutOfBounds.
Lemma overreads_then {A B} (m : prog console A) (k : A -> prog console B) : overreads m -> overreads (m ≫= k).
Proof. intros Hm c Hc. unfold mbind, prog_bind. by rewrite Hm. Qed.
Lemma returns_then {A B} (m : prog console A) (k : A -> prog console B) : returns m -> (forall a, overreads (k a)) -> overreads (m ≫= k).
Proof. intros Hm Hk c Hc. specialize (Hm c Hc). unfold wp, mbind, prog_bind in *. destruct (m c) as [[a c']|f]; [by apply Hk|done]. Qed.
Lemma returns_settings f : (forall t, 0 <= current_cue t < 12 -> 0 <= current_cue (f t) < 12) -> returns (set_settings f).
Proof. intros Hf c Hc. apply wp_modify, ok_with_settings; [apply Hf; by apply ok_cue|done]. Qed.
Lemma returns_undoprep : returns undoprep.
Proof. intros c Hc. unfold wp. rewrite undoprep_run by done. apply ok_with_undo; [|done]. unfold channels. by rewrite length_take, (ok_dmx c Hc). Qed.
Lemma returns_fill x : returns (fill_channels x).
Proof. intros c Hc. unfold wp. rewrite fill_channels_run by done. apply ok_with_dmx; [|done]. by rewrite length_app, length_replicate, length_drop, (ok_dmx c Hc). Qed.
Lemma returns_savecue : returns savecue.
Proof. intros c Hc. destruct (savecue_run c Hc) as (c' & Hr & H' & _). unfold wp. by rewrite Hr. Qed.
Lemma returns_loadcue : returns loadcue.
Proof.
  intros c Hc. unfold wp. rewrite loadcue_run by done. apply ok_with_dmx; [|done]. destruct (cue_nat c Hc) as [_ Hl].
  rewrite length_app, length_drop, (ok_dmx c Hc). unfold cue. rewrite length_take, length_drop. lia.
Qed.
Lemma setall_overreads : overreads setall.
Proof. intros c. apply setall_faults. Qed.
Lemma change_cue_overreads n : 0 <= n < 12 -> overreads (change_cue n).
Proof.
  intros Hn. apply returns_then; [by apply returns_settings|intros _]. apply returns_then; [apply returns_loadcue|intros _]. apply setall_overreads.
Qed.
Lemma fill_overreads x n : overreads (undoprep ;; fill_channels x ;; setall ;; mret n : prog console Z).
Proof.
  apply returns_then; [apply returns_undoprep|intros _]. apply returns_then; [apply returns_fill|intros _]. apply overreads_then, setall_overreads.
Qed.
(** The first round of a fade sends all channels; a fade that has no rounds
    changes nothing. *)
Lemma fade_overreads clock t tstart tend max old new c :
  clock <> [] -> (max <= length old)%nat -> (max <= length new)%nat -> (max <= 512)%nat -> ok c ->
  fade clock t tstart tend max old new c = Fault OutOfBounds \/ fade clock t tstart tend max old new c = Done (tt, c).
Proof.
  intros Hne Ho Hn Hm Hc. destruct clock as [|[t1 t2] clock]; [done|]. cbn [fade]. destruct (tend <? t); [by right|left].
  rewrite (bind_run _ _ c c c) by done.
  destruct (mix_channels_done (passed t1 tstart (fadetime (s c))) max 0 old new (dmx c)) as (d & Hd & Hl); [lia|lia|rewrite (ok_dmx c Hc); lia|].
  change (Z.of_nat 0) with 0 in Hd. rewrite (bind_run _ _ c d c) by (unfold lift_outcome; by rewrite Hd).
  rewrite (bind_run _ _ c tt (with_dmx d c)) by done. apply (overreads_then setall _ setall_overreads). apply ok_with_dmx; [by rewrite Hl, (ok_dmx c Hc)|done].
Qed.
Lemma crossfade_overreads tstart clock n : clock <> [] -> 0 <= n < 12 -> overreads (crossfade tstart clock n).
Proof.
  intros Hne Hn c Hc. unfold crossfade. rewrite (bind_run _ _ c c c) by done. rewrite (ok_fkey c Hc).
  destruct (Z.ltb_spec 12 n); [lia|]. destruct (Z.ltb_spec n 0); [lia|]. cbn [orb].
  set (c0 := with_undo (dmxundo c) 0 c). assert (ok c0) as Hc0 by (apply ok_with_undo; [by apply ok_undo|done]).
  rewrite (bind_run _ _ c tt c0) by done. destruct (savecue_run c0 Hc0) as (c1 & Hr1 & H1 & _). rewrite (bind_run _ _ c0 tt c1) by done.
  destruct (SFltb _ _); [by apply change_cue_overreads|]. rewrite (bind_run _ _ c1 c1 c1) by done.
  destruct (cue_nat c1 H1) as [-> Hl]. rewrite (ok_max c1 H1). change (Z.to_nat 512) with 512%nat. rewrite (ok_save c1 H1) in Hl.
  replace (cue_at c1 n) with (Z.of_nat (512 * Z.to_nat n)) by (unfold cue_at; rewrite (ok_max c1 H1); lia).
  assert (forall k, (k + 512 <= 12 * 512)%nat -> length (take 512 (drop k (dmxsave c1))) = 512%nat) as Hlen by (intros k Hk; rewrite length_take, length_drop, (ok_save c1 H1); lia).
  set (o := take 512 (drop (512 * Z.to_nat (current_cue (s c1))) (dmxsave c1))). set (w := take 512 (drop (512 * Z.to_nat n) (dmxsave c1))).
  rewrite (bind_run _ _ c1 o c1) by (unfold lift_outcome; by rewrite load_all_nat by (rewrite (ok_save c1 H1); lia)).
  rewrite (bind_run _ _ c1 w c1) by (unfold lift_outcome; by rewrite load_all_nat by (rewrite (ok_save c1 H1); lia)).
  assert (length o = 512%nat /\ length w = 512%nat) as [Ho Hw] by (split; apply Hlen; lia).
  destruct (used_channels_done 512 o w) as (k & Hk & Hu); [lia|lia|].
  rewrite (bind_run _ _ c1 (Z.of_nat k) c1) by (unfold lift_outcome; by rewrite Hu). rewrite Nat2Z.id.
  unfold mbind at 1, prog_bind at 1.
  destruct (fade_overreads clock tstart tstart (u64 (tstart + thousandfold (fadetime (s c1)))) k o w c1) as [-> | ->]; [done|lia|lia|done|done|done|].
  apply (returns_then (set_settings (with_fading 0)) (fun _ => change_cue n)); [by apply returns_settings|intros _; by apply change_cue_overreads|done].
Qed.
Lemma insert_key_overreads scaled e n : overreads (handle_key scaled e KEY_IC n).
Proof.
  apply returns_then; [apply returns_undoprep|intros _]. intros c Hc. rewrite (bind_run _ _ c c c) by done. rewrite (ok_max c Hc).
  destruct (insert_slots_done (S (Z.to_nat 512)) 511 (current_channel (v c)) (dmx c)) as (n' & d & Hi & Hd); [lia|rewrite (ok_dmx c Hc); lia|].
  rewrite (bind_run _ _ c (n', d) c) by (unfold lift_outcome; change (512 - 1) with (Z.of_nat 511); by rewrite Hi).
  rewrite (bind_run _ _ c tt (with_dmx d c)) by done.
  apply (overreads_then setall _ setall_overreads). apply ok_with_dmx; [by rewrite Hd, (ok_dmx c Hc)|done].
Qed.
Lemma delete_key_overreads scaled e n : overreads (handle_key scaled e KEY_DC n).
Proof.
  apply returns_then; [apply returns_undoprep|intros _]. intros c Hc. rewrite (bind_run _ _ c c c) by done. rewrite (ok_max c Hc).
  destruct (ok_view c Hc) as [Hcur _].
  assert (i32 (current_channel (v c)) = Z.of_nat (Z.to_nat (current_channel (v c)))) as -> by (rewrite i32_small; lia).
  destruct (delete_slots_done (S (Z.to_nat (512 - Z.of_nat (Z.to_nat (current_channel (v c)))))) (Z.to_nat (current_channel (v c))) 511 (dmx c)) as (n' & d & Hi & Hd);
    [lia|lia|rewrite (ok_dmx c Hc); lia|].
  rewrite (bind_run _ _ c (n', d) c) by (unfold lift_outcome; change (512 - 1) with (Z.of_nat 511); by rewrite Hi).
  rewrite (bind_run _ _ c tt (with_dmx d c)) by done.
  apply (overreads_then setall _ setall_overreads). apply ok_with_dmx; [by rewrite Hd, (ok_dmx c Hc)|done].
Qed.
Lemma handle_char_overreads e ch n : letter ch 98 || letter ch 102 = true -> overreads (handle_char e ch n).
Proof.
  intros Hl. assert (ch = 98 \/ ch = 66 \/ ch = 102 \/ ch = 70) as [-> | [-> | [-> | ->]]] by (unfold letter in Hl; lia); apply fill_overreads.
Qed.

(** The keys that send all channels: those to insert and delete a channel, the
    keys for cues, and b and f (blackout and full light). *)
Definition sends_all (k : key) : bool :=
  match k with
  | KEY_IC | KEY_DC => true
  | KEY_F f => (f =? 61) || (f =? 62) || ((1 <=? f) && (f <=? 12))
  | Char c => letter c 98 || letter c 102
  | _ => false
  end.

(** C28: on a console with an open device, 512 channels and twelve cues, the
    keys that send all channels always read behind the array: one port more
    than there is is sent, and of its 512 octets only ten are allocated.  Every
    other key stays within the arrays, keeps the cursor on a channel and its
    cue a cue, and returns, or ends the program, which is what q is for; the
    buffer of keys must have room for the buttons of the pointer. *)
Theorem keys_are_safe scaled e k n c :
  ok c -> (length (keybuf c) <= 126)%nat -> e_clock e <> [] ->
  if sends_all k then handle_key scaled e k n c = Fault OutOfBounds else safe (handle_key scaled e k n) (fun _ => ok) c.
Proof.
  intros Hc Hl He. destruct k; cbn [handle_key sends_all].
  - by apply edit_keeps.
  - by apply edit_keeps.
  - revert c Hc Hl. intros c Hc _. revert c Hc. apply keeps_then; [|intros _; apply keeps_ret].
    apply view_keeps. intros w (H1 & H2 & H3 & H4). unfold view_ok. cbn. lia.
  - apply (keeps_then key_end (fun _ => mret n)); [apply key_end_keeps|intros _; apply keeps_ret|done].
  - apply (keeps_then key_right (fun _ => mret n)); [apply key_right_keeps|intros _; apply keeps_ret|done].
  - apply (keeps_then key_left (fun _ => mret n)); [apply key_left_keeps|intros _; apply keeps_ret|done].
  - apply (keeps_then key_down (fun _ => mret n)); [apply key_down_keeps|intros _; apply keeps_ret|done].
  - apply (keeps_then key_up (fun _ => mret n)); [apply key_up_keeps|intros _; apply keeps_ret|done].
  - exact (insert_key_overreads scaled e n c Hc).
  - exact (delete_key_overreads scaled e n c Hc).
  - apply safe_bind. eapply safe_mono; [by apply key_mouse_safe|]. intros ? c' Hc'. by apply safe_ret.
  - destruct (ok_cue c Hc) as [H0 H12].
    assert (forall x, 0 <= x -> 0 <= Z.rem x 12 < 12) as Hrem by (intros x Hx; apply Z.rem_bound_pos; lia).
    rewrite (bind_run _ _ c c c) by done. unfold safe. rewrite (bind_run _ _ c c c) by done. rewrite (ok_fkey c Hc).
    destruct (n0 =? 61); cbn [orb]; [apply (overreads_then (crossfade _ _ _)); [apply crossfade_overreads; [done|apply Hrem; lia]|done]|].
    destruct (n0 =? 62); cbn [orb]; [apply (overreads_then (crossfade _ _ _)); [apply crossfade_overreads; [done|apply Hrem; lia]|done]|].
    destruct ((1 <=? n0) && (n0 <=? 12)) eqn:E; cbn [when]; [|done]. apply andb_true_iff in E as [E1%Z.leb_le E2%Z.leb_le].
    apply (overreads_then (crossfade _ _ _)); [|done]. by apply crossfade_overreads; [|lia].
  - destruct (letter c0 98 || letter c0 102) eqn:E; [by apply handle_char_overreads|]. apply orb_false_iff in E as [Eb Ef]. by apply handle_char_keeps.
Qed.

(** *** The rounds of a fade *)

(** What a round writes. *)
Definition mixed (p : spec_float) (max i : nat) (a b x : Z) : Z :=
  if bool_decide (i < max)%nat && (negb (a =? 0) || negb (b =? 0)) then u8 (mix p a b) else x.
Lemma mix_channels_run p n : forall (i : nat) old new d, (i + n <= length old)%nat -> (i + n <= length new)%nat -> (i + n <= length d)%nat ->
  exists d', mix_channels p n (Z.of_nat i) old new d = Done d' /\ length d' = length d /\
    (forall j a b x, old !! j = Some a -> new !! j = Some b -> d !! j = Some x -> d' !! j = Some (if decide (i <= j)%nat then mixed p (i + n) j a b x else x)) /\
    forall j, (i + n <= j)%nat -> d' !! j = d !! j.
Proof.
  induction n as [|n IH]; intros i old new d Ho Hn Hd.
  - exists d. split; [done|]. split; [done|]. split; [|done]. intros j a b x _ _ ->. destruct (decide _); [|done]. unfold mixed. by rewrite bool_decide_false by lia.
  - cbn [mix_channels]. destruct (lookup_lt_is_Some_2 old i) as [a Ha]; [lia|]. destruct (lookup_lt_is_Some_2 new i) as [b Hb]; [lia|].
    rewrite (load_nat _ _ _ Ha), (load_nat _ _ _ Hb). cbn [mbind outcome_bind]. replace (Z.of_nat i + 1) with (Z.of_nat (S i)) by lia.
    set (d1 := if negb (a =? 0) || negb (b =? 0) then <[i := u8 (mix p a b)]> d else d).
    assert ((if negb (a =? 0) || negb (b =? 0) then store (Z.of_nat i) (u8 (mix p a b)) d else Done d) = Done d1) as ->.
    { unfold d1. destruct (_ || _); [by apply store_nat; lia|done]. }
    assert (length d1 = length d) as Hl1 by (unfold d1; destruct (_ || _); by rewrite ?length_insert). cbn [mbind outcome_bind].
    destruct (IH (S i) old new d1) as (d' & -> & Hl & Hd' & Htail); [lia|lia|lia|]. exists d'. split; [done|]. split; [congruence|]. split.
    2:{ intros j Hj. rewrite Htail by lia. unfold d1. destruct (_ || _); [|done]. apply list_lookup_insert_ne. lia. }
    intros j a' b' x Ha' Hb' Hx. replace (S i + n)%nat with (i + S n)%nat in Hd' by lia.
    destruct (decide (j = i)) as [->|Hne].
    + rewrite Ha in Ha'. rewrite Hb in Hb'. injection Ha' as <-. injection Hb' as <-. rewrite (decide_True (P := (i <= i)%nat)) by lia.
      assert (d1 !! i = Some (mixed p (i + S n) i a b x)) as E.
      { unfold d1, mixed. rewrite bool_decide_true by lia. cbn [andb]. destruct (_ || _); [apply list_lookup_insert_eq; lia|done]. }
      rewrite (Hd' i a b _ Ha Hb E). by rewrite decide_False by lia.
    + assert (d1 !! j = Some x) as E by (unfold d1; destruct (_ || _); [by rewrite list_lookup_insert_ne|done]).
      rewrite (Hd' j a' b' x Ha' Hb' E). destruct (decide (S i <= j)%nat), (decide (i <= j)%nat); try done; lia.
Qed.

(** The channels behind the number of used ones are zero in both cues. *)
Lemma used_channels_run (i : nat) (o n : list Z) : (i <= length o)%nat -> (i <= length n)%nat ->
  exists k : nat, (k <= i)%nat /\ used_channels i o n = Done (Z.of_nat k) /\ forall j, (k <= j < i)%nat -> o !! j = Some 0 /\ n !! j = Some 0.
Proof.
  induction i as [|i IH]; intros Ho Hn; [exists 0%nat; repeat split; lia|]. cbn [used_channels].
  destruct (lookup_lt_is_Some_2 o i) as [a Ha]; [lia|]. destruct (lookup_lt_is_Some_2 n i) as [b Hb]; [lia|].
  rewrite (load_nat _ _ _ Ha), (load_nat _ _ _ Hb). cbn [mbind outcome_bind]. destruct (negb (a =? 0) || negb (b =? 0)) eqn:E.
  - exists (S i). repeat split; lia.
  - apply orb_false_iff in E as [Ea%negb_false_iff%Z.eqb_eq Eb%negb_false_iff%Z.eqb_eq]. subst a b.
    destruct IH as (k & Hk & -> & Hz); [lia|lia|]. exists k. split; [lia|]. split; [done|]. intros j Hj. destruct (decide (j = i)) as [->|]; [done|apply Hz; lia].
Qed.

(** The ends of the interpolation, for all octets. *)
Definition octets : list Z := Z.of_nat <$> seq 0 256.
Definition mixes_to (p : spec_float) (f : Z -> Z -> Z) : bool := forallb (fun a => forallb (fun b => u8 (mix p a b) =? f a b) octets) octets.
Lemma mixes_to_spec p f a b : mixes_to p f = true -> 0 <= a < 256 -> 0 <= b < 256 -> u8 (mix p a b) = f a b.
Proof.
  intros H Ha Hb. unfold mixes_to in H. rewrite forallb_forall in H.
  assert (forall z, 0 <= z < 256 -> In z octets) as Hin by (intros z Hz; apply list_elem_of_In, list_elem_of_fmap; exists (Z.to_nat z); split; [lia|apply elem_of_seq; lia]).
  specialize (H a (Hin a Ha)). rewrite forallb_forall in H. specialize (H b (Hin b Hb)). by apply Z.eqb_eq.
Qed.
Definition no_part : spec_float := S754_zero false.
Definition whole : spec_float := of_int 1.
Lemma mixes_at_start : mixes_to no_part (fun a _ => a) = true.
Proof. vm_compute. reflexivity. Qed.
Lemma mixes_at_end : mixes_to whole (fun _ b => b) = true.
Proof. vm_compute. reflexivity. Qed.
Lemma passed_start t seconds : 1 <= seconds <= 9 -> passed t t (of_int seconds) = no_part.
Proof.
  intros Hs. unfold passed. rewrite Z.sub_diag. change (u64 0) with 0.
  assert (seconds = 1 \/ seconds = 2 \/ seconds = 3 \/ seconds = 4 \/ seconds = 5 \/ seconds = 6 \/ seconds = 7 \/ seconds = 8 \/ seconds = 9) as Hin by lia.
  decompose [or] Hin; subst; by vm_compute.
Qed.
Lemma passed_end t seconds : 1 <= seconds <= 9 -> passed (t + 1000 * seconds) t (of_int seconds) = whole.
Proof.
  intros Hs. unfold passed. replace (t + 1000 * seconds - t) with (1000 * seconds) by lia.
  assert (seconds = 1 \/ seconds = 2 \/ seconds = 3 \/ seconds = 4 \/ seconds = 5 \/ seconds = 6 \/ seconds = 7 \/ seconds = 8 \/ seconds = 9) as Hin by lia.
  decompose [or] Hin; subst; by vm_compute.
Qed.

(** A round in which the mix of every pair of octets is the value of the cue [z]. *)
Lemma round_shows p f max old new z d :
  mixes_to p f = true -> length old = 512%nat -> length new = 512%nat -> length z = 512%nat -> length d = 522%nat -> (max <= 512)%nat ->
  Forall (fun x => 0 <= x < 256) old -> Forall (fun x => 0 <= x < 256) new ->
  (forall j a b, old !! j = Some a -> new !! j = Some b -> z !! j = Some (f a b)) -> f 0 0 = 0 ->
  (forall j, (max <= j < 512)%nat -> old !! j = Some 0 /\ new !! j = Some 0) ->
  (forall j, old !! j = Some 0 -> new !! j = Some 0 -> d !! j = Some 0) ->
  exists d', mix_channels p max 0 old new d = Done d' /\ take 512 d' = z /\ drop 512 d' = drop 512 d.
Proof.
  intros Hmix Ho Hn Hz Hd Hmax Hoct Noct Hf H00 Hzero Hdz.
  destruct (mix_channels_run p max 0 old new d) as (d' & Hr & Hl & Hd' & Htail); [lia|lia|lia|]. exists d'. split; [exact Hr|]. split.
  - apply list_eq. intros j. destruct (decide (j < 512)%nat) as [Hj|Hj].
    + rewrite lookup_take_lt by lia. destruct (lookup_lt_is_Some_2 old j) as [a Ha]; [lia|]. destruct (lookup_lt_is_Some_2 new j) as [b Hb]; [lia|].
      destruct (lookup_lt_is_Some_2 d j) as [x Hx]; [lia|]. rewrite (Hd' j a b x Ha Hb Hx), (Hf j a b Ha Hb). rewrite decide_True by lia. f_equal. unfold mixed.
      pose proof (Forall_lookup_1 _ _ _ _ Hoct Ha) as Ra. pose proof (Forall_lookup_1 _ _ _ _ Noct Hb) as Rb.
      destruct (bool_decide (j < 0 + max)%nat && (negb (a =? 0) || negb (b =? 0))) eqn:E; [by apply (mixes_to_spec p)|].
      assert (a = 0 /\ b = 0) as [-> ->].
      { apply andb_false_iff in E as [E%bool_decide_eq_false|E]; [|apply orb_false_iff in E as [?%negb_false_iff%Z.eqb_eq ?%negb_false_iff%Z.eqb_eq]; done].
        destruct (Hzero j) as [Z1 Z2]; [lia|]. split; congruence. }
      rewrite H00. pose proof (Hdz j Ha Hb). congruence.
    + rewrite (proj2 (lookup_ge_None (take 512 d') j)), (proj2 (lookup_ge_None z j)); [done|lia|rewrite length_take; lia].
  - apply list_eq. intros j. rewrite !lookup_drop. apply Htail. lia.
Qed.


(** What is saved is what is loaded: the cues, the cursor and the screen,
    the cue and the palette; a time to fade of whole seconds is exact. *)
Theorem load_what_was_saved seconds c c' :
  0 <= seconds <= 9 -> fadetime (s c) = of_int seconds -> ok c -> ok c' ->
  exists f, save true true true c = Done (Some f, c) /\
    wp (load_file (Some f)) (fun _ c2 => dmxsave c2 = dmxsave c /\ current_channel (v c2) = current_channel (v c) /\ first_channel (v c2) = first_channel (v c) /\
      fadetime (s c2) = of_int seconds /\ current_cue (s c2) = current_cue (s c) /\ palette_number (s c2) = palette_number (s c) /\ dmx c2 = dmx c') c'.
Proof.
  intros Hsec Hf Hc Hc'. unfold save. cbn [negb when mbind prog_bind]. eexists. split; [reflexivity|].
  unfold load_file. apply wp_bind, wp_get. cbn [f_cues f_settings]. rewrite (ok_max c' Hc'), (ok_fkey c' Hc'), (ok_max c Hc), (ok_fkey c Hc).
  assert (take (Z.to_nat (512 * 12)) (take (Z.to_nat (512 * 12)) (dmxsave c)) = dmxsave c) as -> by (rewrite !take_ge; [done|rewrite (ok_save c Hc); lia|rewrite take_ge; rewrite (ok_save c Hc); lia]).
  apply wp_bind. eapply wp_done; [unfold lift_outcome; change 0 with (Z.of_nat 0); rewrite store_all_nat by (rewrite (ok_save c Hc), (ok_save c' Hc'); lia); reflexivity|].
  apply wp_bind, wp_modify. rewrite Hf. assert (fdiv (of_int (to_int (fmul (of_int seconds) (of_int 1000)))) (of_int 1000) = of_int seconds) as Hexact.
  { clear -Hsec. assert (seconds = 0 \/ seconds = 1 \/ seconds = 2 \/ seconds = 3 \/ seconds = 4 \/ seconds = 5 \/ seconds = 6 \/ seconds = 7 \/ seconds = 8 \/ seconds = 9)
      as Hin by lia. decompose [or] Hin; subst; by vm_compute. }
  destruct (ok_view c Hc) as (Hcur & Hfirst & _). unfold wp. cbn -[fdiv fmul to_int of_int u32 i32]. rewrite Hexact.
  assert (u32 (i32 (current_channel (v c))) = current_channel (v c)) as -> by (unfold u32, i32; rewrite (Z.mod_small (_ + _)) by lia; rewrite Z.mod_small; lia).
  rewrite drop_ge, app_nil_r by (rewrite (ok_save c Hc), (ok_save c' Hc'); lia). done.
Qed.

(** ** A concrete console *)
Definition desk : console := new_console None true.
Lemma desk_ok : ok desk.
Proof. split; try reflexivity; vm_compute; intuition congruence. Defined.
Definition no_env : key_env := KeyEnv None 0 [(0, 0)] true true true.

(** A round after the end of the fade: full light goes out for a moment. *)
Lemma late_round_wraps : u8 (mix (passed 2005 1000 (of_int 1)) 0 255) = 0 /\ u8 (mix (passed 2000 1000 (of_int 1)) 0 255) = 255.
Proof. by vm_compute. Qed.
(** A frame that the console sends is read as one channel less. *)
Lemma read_back_is_short p : length p = 512%nat -> dmx_device_read_rxframe (Some (frame_of 0 0 p 512)) = (511, 0, p).
Proof. intros Hp. unfold dmx_device_read_rxframe, frame_of. cbn [f_payload_size f_port f_data tail]. by rewrite Hp, app_nil_r. Qed.
Lemma keys_are_safe_witness :
  safe (handle_key id no_env KEY_END 0) (fun _ => ok) desk /\ handle_key id no_env (KEY_F 2) 0 desk = Fault OutOfBounds.
Proof.
  split; [apply (keys_are_safe id no_env KEY_END 0)|apply (keys_are_safe id no_env (KEY_F 2) 0)]; first [apply desk_ok|done|cbn; lia].
Defined.
Lemma undo_is_not_sent_witness :
  wp (_ ← handle_key id no_env (Char 32) 0; handle_key id no_env (Char 117) 0)
    (fun _ c' => dmx c' = dmx desk /\ sent c' = [] ++ [port_frame 0 (<[0%nat := 255]> (dmx desk))]) desk.
Proof. apply (undo_is_not_sent id no_env (Char 32) toggled_value 0 0 desk); [rewrite !elem_of_cons; right; right; left; reflexivity|apply desk_ok|reflexivity]. Defined.
(** From the first channel alone to the second alone. *)
Definition first_alone : list Z := 255 :: replicate 511 0.
Definition second_alone : list Z := 0 :: 100 :: replicate 510 0.
Lemma load_what_was_saved_witness :
  exists f, save true true true desk = Done (Some f, desk) /\
    wp (load_file (Some f)) (fun _ c2 => dmxsave c2 = dmxsave desk /\ current_channel (v c2) = 0 /\ first_channel (v c2) = 0 /\
      fadetime (s c2) = of_int 1 /\ current_cue (s c2) = 0 /\ palette_number (s c2) = 0 /\ dmx c2 = dmx desk) desk.
Proof. apply (load_what_was_saved 1 desk desk); [lia|reflexivity|apply desk_ok|apply desk_ok]. Defined.
